(* ===== verification/_CoqProject ===== *)
-Q . S2P
Prelude.v
PhlList.v
PhlUtil.v
Macid.v
TrxStats.v
TxDesc.v
TrxRing.v
TxUsb.v
RxReorder.v
RxPath.v
RfChannel.v
OpClass.v
ByteBuf.v
IeSearch.v
IeEdit.v
IeParse.v
IeRates.v
RxDesc.v
RxPsts.v
RxUsb.v
RxPool.v
Dispr.v
DisprInv.v
DisprRun.v
DisprLife.v
DisprStop.v
DisprWake.v
DisprOrder.v
DisprFlaws.v
WordBits.v
SecCrypto.v
SecFrame.v
Aes.v
Aead.v
AesCcm.v
AesGcm.v
Mpdu.v
Ccmp.v
Gcmp.v
Bip.v
RxCore.v
RxCheck.v
RxMsdu.v
