(* ===== verification/Prelude.v ===== *)
(** * Verification of the RTL8851BU/RTL8831BU Wi-Fi driver

    The program is Realtek's Linux driver for the RTL8851BU/RTL8831BU USB Wi-Fi
    adapters.  It has three layers: the operating-system glue (src/os_dep), the
    core with MLME, security and channel handling (src/core, src/include), and
    PHL, the platform-independent layer that owns stations, rings, commands and
    the HAL below it (src/phl).  A USB transfer from the chip is cut into packets
    by PHL; reports are used at once, frames wait for the report of their signal
    when they have to, are reordered per station and TID, put on the receive
    ring and taken from it by the core; a frame to send is put by the core on the ring of its MAC id and
    category, PHL plans which rings to serve, and the USB code copies the
    requests of a ring, each behind a descriptor built by the HAL, into a bulk
    transfer.  Stations are named by MAC
    ids that PHL allocates; channels, bandwidths and operating classes are
    computed by the core, which also searches, builds and parses the information
    elements of management frames, and encrypts, decrypts and checks frames in
    software when the chip does not.  This development models these parts.

    ** Files

    - [Prelude] (this file): machine integers, bits, a state and failure monad,
      exhaustive checks over bytes, tactics, the PHL status codes
      (src/phl/phl_status.h).
    - [PhlList]: the intrusive lists of src/phl/phl_list.h over a heap of cells
      and the queues of src/phl/phl_util.c.  A pointer is an address, a list is
      the chain of cells the heap holds; a dereference of an unmapped address is
      a failure.  [pq_refines_deque] shows that the pointer manipulations
      implement a double-ended queue under pushing, popping, looking at either
      end, walking in both directions and unlinking; [pq_search_node_first] and
      [pq_insert_sorted] specify searching and ordered insertion.
    - [PhlUtil]: the bitmaps of src/phl/phl_util.h as sets, and the elapsed-time
      helpers of src/phl/phl_util.c with their behaviour across a clock wrap.
    - [Macid]: the allocation of MAC ids (src/phl/phl_sta.c).  The state is
      [macid_ctl_t] with the source's bitmaps; [mstep] is the relation of
      allocations and releases, and [macid_history_sound] an invariant of every
      history: an id belongs to one station, and the used map, the role maps and
      the broadcast map hold exactly the ids of the live stations they are
      about.  The number of multi-link groups may be 0, as on the 8851B.
    - [TrxStats]: byte counters, throughput estimates and traffic levels of
      src/phl/phl_rx.c and src/phl/phl_tx.c.
    - [TxDesc]: the transmit descriptors of the 8851B MAC
      (src/phl/hal_g6/mac/mac_ax/mac_8851b/trx_desc_8851b.c) as lists of 32-bit
      words, with their checksum.  [data_wd_roundtrip] finds the values of the
      metadata at the bit positions of the hardware layout, which are written
      out in its statement; [wd_checksum_protocol] treats the checksum, which
      src/phl/hal_g6/mac/mac_ax/mac_8851b/init_8851b.c leaves switched off for
      this chip.  The class [TxHal] states
      what the USB path needs of these functions; [mac_8851b_hal] is the
      instance for this chip.
    - [TrxRing]: the receive ring and the transmit rings.  [rx_ring_refines_fifo]
      and [add_tx_req_enqueues] are refinements to queues;
      [rx_ring_interleaved_fifo] treats the two sides of the receive ring, which
      share no lock, as interleaved threads; [check_tring_list_plan] gives the
      order in which the rings of a station are served.
    - [TxUsb]: transmission over USB (src/phl/hci/phl_trx_usb.c), against the
      class [TxHal].  Transfer buffers are lists of bytes and a write outside a
      buffer is a fault.  [usb_aggregate_layout] shows that aggregation stays
      inside the buffer, what the transfer holds and how many descriptors start in
      a bulk transaction, [usb_ring_consumed] what
      happens to the ring, the requests and the buffer, both for rings of data
      frames; [wd_limit_exceeded] shows a transaction that gets one descriptor
      more than the chip takes, and [mgnt_frame_overflows] is a case in which the size test is too weak.
    - [RxReorder]: the reorder buffers (src/phl/phl_rx.c) and the receive
      block-ack sessions (src/phl/phl_rx_agg.c).  The invariant [Inv] relates
      each slot to an unbounded sequence number; [reorder_session_in_order]
      shows in-order delivery without loss over whole sessions,
      [reorder_release_flushes] what is released and when the timer is armed,
      [rx_reorder_conserves] that every path of [phl_rx_reorder] accounts for
      its frame, and [ba_session_lifecycle] the start and stop of sessions.
    - [RxPath]: [phl_rx_handle_normal], the composition of reordering and
      receive ring; [rx_handle_normal_conserves] follows a frame end to end and
      gives the order in which released frames enter the ring.
    - [RfChannel]: the channel tables and arithmetic of src/core/rtw_rf.c, for
      every combination of the 5 GHz and 6 GHz build switches.
      [channel_bonding_consistent] ties center channels, operating channels,
      narrower center channels and frequency ranges together, from the tables of
      center channels and, conversely, from every channel and offset;
      [sync_bchbw_consistent] shows that interfaces sharing a channel end with
      settings that fit each other.
    - [OpClass]: the operating class database and the antenna configurations of
      src/core/rtw_rf.c, with round trips and the consistency of the database.

    - [ByteBuf]: byte buffers in which an access outside the object is a
      [Fault] and a loop that does not end a [Timeout]; the memory functions
      and endian accessors of the core.
    - [IeSearch], [IeEdit], [IeParse], [IeRates]: the information elements of
      src/core/rtw_ieee80211.c.  [element_search_first] and
      [attribute_search_first] specify the searches, [get_ie_limits] and
      [attribute_search_never_returns] their limits; [ies_edit_refines] relates
      the editing functions to operations on sequences of elements, and
      [del_p2p_short_element] shows the deletion of an element that is not P2P;
      [rsne_roundtrip], [rsne_parse_safe] and [parse_elems_sound] treat the
      parsers; [ht_mcs_rate_formula] and [update_rate_11b_length] the rates.
    - [RxDesc]: receive descriptors and reports of the chip
      (src/phl/hal_g6/rtl8851b/hal_trx_8851b.c, mac_ax/phy_rpt.c):
      [rx_desc_roundtrip] takes a descriptor written with the layout of
      src/phl/hal_g6/mac/rxdesc.h and says which members are read and how,
      [rx_statistics_misread] shows the one that is read at a wrong place,
      [rx_parsers_agree] compares
      the two parsers of the source, [ppdu_report_layout] takes a PPDU status
      apart.
    - [RxPsts]: PPDU status (src/phl/hal_g6/hal_rx.c, src/phl/phl_rx.c):
      [rssi_moving_average] gives the averages, [psts_release_order] the order
      in which frames that wait are released.
    - [RxUsb]: reception over USB (src/phl/hci/phl_trx_usb.c).  The state
      [usb_rx] has the receive buffers with their queues and the packet pool.
      [rx_aggregate_split] shows that a transfer is cut into the packets the
      chip put into it, [rx_transfer_safe] what holds for arbitrary bytes.
    - [RxPool]: the relation [rx_event] of everything that moves buffers and
      packets, and its invariant [rx_pool_conserved].
    - [Dispr]: the command dispatcher, which serializes the work of the modules
      of PHL (src/phl/phl_cmd_dispatcher.c, src/phl/phl_cmd_dispatch_engine.c).
      The state is [phl_cmd_dispatch_engine] with one [cmd_dispatcher] per
      band; queues are lists of slot indices.  Module handlers, completion
      routines and the routines of a request are a parameter [react], which
      says for each callback what it returns and which entry points it calls;
      calls of other threads come at the callbacks and between the turns of the
      thread.  [trace] records what was accepted, queued and called back.  There
      are runs in which the code destroys its own queues: it clears the node of
      a token operation that is still linked, frees a module that failed to
      initialise and is still linked or a module that is still referred to, or
      writes behind [mdl_info].  What the memory holds afterwards is not
      modelled; the flag [damaged] records it, and [intact] is its absence.
    - [DisprInv], [DisprRun], [DisprLife]: the invariant of the dispatcher and
      that every entry point, every turn, starting and stopping keep it.
    - [DisprStop], [DisprWake], [DisprOrder]: what follows for callers.  The
      relation [life] (in [DisprStop]) is of start, stop and everything in
      between, and contains the runs that leave the dispatchers [intact].
      [dispr_slots] says where the slots are, [completions_once] that each
      completion runs once, [tokens_in_order] that requests get the token in
      order, [stop_returns] that stopping ends and leaves nothing behind,
      [no_lost_wakeup] that queued work wakes the thread, and
      [two_phase_delivery] in which order a message is delivered.
    - [DisprFlaws]: runs in which the dispatcher does what it should not, among
      them [token_op_clobbered] and others that end [damaged], [module_registered_twice] and
      [post_phase_skipped].
    - [WordBits]: words and exclusive or for the ciphers.
    - [SecCrypto], [SecFrame]: WEP and TKIP (src/core/rtw_security.c).
      [crc32_shift_register] and [tkip_mic_is_michael] compare the CRC and the
      MIC with their definitions, [tkip_key_unique] shows that the key mixing
      never repeats a key; [wep_roundtrip] and [tkip_roundtrip] follow the
      fragments of a frame to the receiver, [tkip_rejects_bursts] treats damaged
      ones, and [wep_accepts_damage] and [tkip_short_frame_faults] are flaws.
    - [Aes]: the table-driven AES of src/core/crypto and the byte-wise one of
      the older code in src/core/rtw_security.c; [aes_agree] shows that they
      compute the same function, and the examples of the standard check both.
    - [Aead]: counter mode, the comparison of tags, the allocator, and two
      interfaces: [BlockCipher], which [Aes] implements, and [Aead], which the
      modes implement and the frames use ([aead_exact]: what is accepted is
      exactly what is produced).
    - [AesCcm], [AesGcm]: the modes of src/core/crypto/aes-ccm.c and
      src/core/crypto/aes-gcm.c, as instances of [Aead].  [gf_mult_polynomial]
      shows that the shifts and exclusive ors of [gf_mult] multiply polynomials
      modulo x^128 + x^7 + x^2 + x + 1.
    - [Mpdu]: the code that CCMP and GCMP have in common (src/core/crypto/ccmp.c,
      gcmp.c, src/core/rtw_swcrypto.c, src/core/rtw_security.c), a section over
      the interfaces [Aead] and [MpduHeader].  [Ccmp] and [Gcmp] instantiate it:
      [ccmp_roundtrip] and [gcmp_roundtrip] follow the fragments of a frame to
      the receiver, [ccmp_accepts_exactly] says which frames are accepted, and
      [aes_encrypt_without_memory] shows a frame that leaves in plain text.
    - [Bip]: the CMAC of src/core/crypto/aes-omac1.c over vectors
      ([omac1_vector_cmac]) and the check of protected broadcast management
      frames: [bip_no_replay] compares it with a message and a MIC defined from
      the layout of the frame, in both directions.
    - [RxCore]: what src/core/rtw_recv.c does with a received data frame before
      it is delivered: dropping retransmissions, checking packet numbers
      ([bcast_pn_no_replay], [zero_pn_replayed], [ucast_pn_never_refuses]) and
      putting fragments together ([defrag_exact], with
      [group_fragments_accepted], [sequence_numbers_ignored] and
      [short_fragment_appended] for what is let through).
    - [RxCheck]: [rtw_recv_indicatepkt_check] and what it calls to look into a
      packet before the stack gets it (src/core/rtw_sta_mgt.c,
      src/core/rtw_wlan_util.c, src/core/rtw_debug.c).  None of these functions
      knows the length of the packet; [check_room] says which bytes have to be
      there.
    - [RxMsdu]: the end of the receive path, [amsdu_to_msdu],
      [wlanhdr_to_ethhdr] and their callers in src/core/rtw_recv.c with
      [rtw_os_alloc_msdu_pkt] of src/os_dep/linux/recv_linux.c.  The abstract
      receiver [hand_on] works on the list of subframes; [amsdu_refines] shows
      that the loop over pointers and shared memory implements it on any bytes
      whose packets have [check_room] ([eapol_read_outside] is a subframe that
      has not),
      [amsdu_roundtrip] that what was put into an A-MSDU comes out,
      [forged_amsdu_refused] that a frame with a forged A-MSDU flag does not,
      and [msdu_delivered] treats all other frames.

    ** Conventions

    A C integer of width [w] is a [Z]; an assignment that can overflow is
    followed by the conversion of its type ([u8], [u16], [u32], [s32]).  Arrays
    are lists; an access the code guards or bounds is [nth] or stdpp's lookup.
    Functions that change state return the new state.  Spinlocks surround the
    function bodies modelled, so a body is one step, except where stated
    ([TrxRing]).  Debug output, trace macros and statistics that only debug
    builds keep are left out.  Functions that return through pointers return
    tuples; a result code 0 with nothing written is [None].

    ** Fuel

    Loops whose recursion is not structural take fuel, and [None] would be a
    loop that did not end.  The queue walks of [PhlList] get the number of
    cells, the reorder loops of [RxReorder] the buffer size (each iteration
    empties or passes a slot) and 2048 iterations for moving the head (half the
    sequence space, which is as far as it can lie ahead); the theorems show
    that this suffices.  The aggregation loop of [TxUsb] recurses on
    [req_busy], which every iteration decrements.  Cutting a transfer gets one
    more than its length ([rx_transfer_safe]: every round passes a packet), the
    request loop of [RxUsb] twice the number of requests
    ([rx_start_terminates]).  Stopping a dispatcher gets the number of
    message slots, 24, for each of its loops ([stop_returns]); a turn of its
    thread can be kept busy for ever by a callback that issues new requests, so
    the theorems speak of turns that end.  The loop that pads a Michael message
    gets three turns ([tkip_mic_is_michael]), the loop over the blocks of a CMAC
    the number of full blocks ([omac1_vector_cmac]), the loop over the subframes
    of an A-MSDU the length of the frame ([amsdu_refines]).  [_and_bitmaps] really does
    not end for lengths its counter cannot reach, and [PhlUtil] says so.

    ** Parameters and assumptions

    Clock readings and the success of memory allocation are arguments.  Calls
    into the HAL from the block-ack code are recorded as events.  The build
    options that the Linux USB build leaves undefined (PHL_RXSC_AMPDU,
    PHL_RX_BATCH_IND, DEBUG_PHL_RX, CONFIG_PHL_TDLS, CONFIG_PHL_CSUM_OFFLOAD_RX,
    CONFIG_PHL_CHANNEL_INFO, CONFIG_PHL_RELEASE_RPT_ENABLE,
    CONFIG_PHL_SNIFFER_SUPPORT,
    CONFIG_PHL_USB_TX_PADDING_CHK, MAC_AX_FEATURE_HV) are off; the host is
    little-endian; CONFIG_PHL_RX_PSTS_PER_PKT, CONFIG_PHL_DFS and
    CONFIG_PHL_USB_RX_AGGREGATION are on.  Whether the USB core accepts a
    transfer is an argument.  In the receive path the PHY status parser of the
    baseband, the current channel and the stations are arbitrary functions, and
    C2H and radar reports are recorded as they are handed on.
    The aggregation theorems assume that a request announces the sum of the
    lengths of its fragments, as src/core/rtw_xmit.c builds it, that all
    requests of a data ring are data frames, and that the buffer size is a
    multiple of eight.  The dispatchers share one thread
    (CONFIG_CMD_DISP_SOLO_MODE off) and use the default dispatch sequence
    (CONFIG_CMD_DISP_SUPPORT_CUSTOM_SEQ off), as in the Linux build.  In the
    security code NEW_CRYPTO, AES_SMALL_TABLES and CONFIG_IEEE80211W are on, mesh
    and TDLS are off; [os_malloc] is a parameter, a function from the size to a
    fresh object of any content or to nothing, and [gets_memory] says that it
    always finds one; the two bytes of the packet number of TKIP that the source
    leaves uninitialised are parameters.  A key is the array that holds it.  In
    the receive path of the core mesh, WDS and the shortcut cache
    (CONFIG_RTW_CORE_RXSC) are off; what an access point decides about
    forwarding, and whether the kernel has memory for a packet or can clone one,
    are parameters.  The interleaving model of the receive ring assumes sequentially consistent accesses.  The
    reordering theorems assume buffer sizes from 2 to 1024 that divide 4096;
    [odd_buffer_size_collides] shows why, and [sleep_with_stored_frames_drops]
    why sleeping with stored frames is excluded.

    ** Not modelled

    The allocation of the USB transmit buffers and the H2C packet pool; of the
    command dispatcher the thread per band, custom sequences and the dispatcher
    controller module, and the FSM framework and message hub beside it; roles,
    channel contexts, multi-channel scheduling and power saving of PHL; the MLME
    of the core, the rest of its receive and transmit paths, and of its security code the installation of keys, SIV,
    SHA-256 and the TDLS keys, the PV1 frames of CCMP, which nothing calls, and
    the sending side of BIP; the HAL apart from the descriptors and reports, with its register tables,
    calibration and firmware images; the Linux glue. *)

From Stdlib Require Import ZArith Lia Bool List.
From stdpp Require Import base tactics list numbers.

#[global] Open Scope Z_scope.

(** ** Machine integers

    A C unsigned integer of width [w] is a [Z] in [0, 2^w); every assignment
    to such a variable is followed by the conversion C performs. *)
Definition u8 (z : Z) : Z := z mod 256.

Definition u16 (z : Z) : Z := z mod 65536.

Definition u32 (z : Z) : Z := z mod 4294967296.

Definition u64 (z : Z) : Z := z mod 18446744073709551616.

(** Conversion to a signed 32-bit integer (two's complement). *)
Definition s32 (z : Z) : Z := (z + 2147483648) mod 4294967296 - 2147483648.

(** [BIT(n)] *)
Definition BIT (n : Z) : Z := Z.shiftl 1 n.

Definition is_u8 (z : Z) : Prop := 0 <= z < 256.
Definition is_u16 (z : Z) : Prop := 0 <= z < 65536.
Definition is_u32 (z : Z) : Prop := 0 <= z < 4294967296.

Create HintDb rtw.

(** Linear arithmetic with division and remainder by constants. *)
Ltac zlia := Z.to_euclidean_division_equations; lia.

(** Unfold the integer conversions and leave the goal to [zlia]. *)
Ltac ulia :=
  unfold is_u8, is_u16, is_u32, u8, u16, u32, u64, s32 in *; zlia.

Lemma u8_range z : is_u8 (u8 z).
Proof. ulia. Qed.

Lemma u16_range z : is_u16 (u16 z).
Proof. ulia. Qed.

Lemma u32_range z : is_u32 (u32 z).
Proof. ulia. Qed.

Lemma u8_small z : is_u8 z -> u8 z = z.
Proof. ulia. Qed.

Lemma u16_small z : is_u16 z -> u16 z = z.
Proof. ulia. Qed.

Lemma u32_small z : is_u32 z -> u32 z = z.
Proof. ulia. Qed.

Lemma s32_small z : -2147483648 <= z < 2147483648 -> s32 z = z.
Proof. ulia. Qed.

#[export] Hint Resolve u8_range u16_range u32_range : rtw.
#[export] Hint Resolve u8_small u16_small u32_small : rtw.

(** ** Tactics *)

(** Split every conditional of the goal and close what is arithmetic. *)
Ltac ifs :=
  repeat match goal with
         | |- context [if ?b then _ else _] => destruct b eqn:?
         end.

(** ** A state and failure monad

    [None] is a fault of the C abstract machine (a dereference of an address
    that is not mapped, or a loop that did not finish within its fuel). *)
Definition ST (S A : Type) : Type := S -> option (A * S).

#[global] Instance ST_ret S : MRet (ST S) := fun A a s => Some (a, s).

#[global] Instance ST_bind S : MBind (ST S) :=
  fun A B k m s => match m s with Some (a, s') => k a s' | None => None end.

Definition st_get {S} : ST S S := fun s => Some (s, s).

Definition st_put {S} (s : S) : ST S unit := fun _ => Some (tt, s).

Definition st_fail {S A} : ST S A := fun _ => None.

Lemma ST_bind_Some {S A B} (m : ST S A) (k : A -> ST S B) s a s' :
  m s = Some (a, s') -> (m ≫= k) s = k a s'.
Proof. intros H. unfold mbind, ST_bind. by rewrite H. Qed.

Lemma ST_ret_Some {S A} (a : A) (s : S) : (mret a : ST S A) s = Some (a, s).
Proof. reflexivity. Qed.

(** ** Exhaustive checks over the 8-bit values *)

Definition all_u8 : list Z := map Z.of_nat (seq 0 256).

Lemma all_u8_in z : is_u8 z -> In z all_u8.
Proof.
  intros H. unfold is_u8 in H. unfold all_u8. rewrite <- (Z2Nat.id z) by lia.
  apply in_map, in_seq. lia.
Qed.

(** A boolean property of one byte holds everywhere when it holds on the
    256 values. *)
Lemma forall_u8 (P : Z -> bool) :
  forallb P all_u8 = true -> forall z, is_u8 z -> P z = true.
Proof. intros H z Hz. exact (proj1 (forallb_forall P all_u8) H z (all_u8_in z Hz)). Qed.

(** ** Single bits *)

Lemma testbit_BIT i j : 0 <= i -> Z.testbit (BIT i) j = (j =? i).
Proof.
  intros Hi. unfold BIT. rewrite Z.shiftl_1_l, Z.pow2_bits_eqb by lia.
  destruct (Z.eqb_spec j i), (Z.eqb_spec i j); congruence.
Qed.

(** [x & BIT(i)] tests bit [i]. *)
Lemma land_BIT x i : 0 <= i -> negb (Z.land x (BIT i) =? 0) = Z.testbit x i.
Proof.
  intros Hi. destruct (Z.testbit x i) eqn:E.
  - apply negb_true_iff, Z.eqb_neq. intros H0.
    assert (Z.testbit (Z.land x (BIT i)) i = true) as H1.
    { rewrite Z.land_spec, E, testbit_BIT by lia. by rewrite Z.eqb_refl. }
    rewrite H0, Z.bits_0 in H1. done.
  - apply negb_false_iff, Z.eqb_eq. apply Z.bits_inj'. intros n Hn.
    rewrite Z.land_spec, testbit_BIT, Z.bits_0 by lia.
    destruct (Z.eqb_spec n i); subst; rewrite ?E, ?andb_false_r; done.
Qed.

(** [x |= BIT(i)] *)
Lemma testbit_lor_BIT x i j :
  0 <= i -> Z.testbit (Z.lor x (BIT i)) j = Z.testbit x j || (j =? i).
Proof. intros. by rewrite Z.lor_spec, testbit_BIT by lia. Qed.

(** [x &= ~BIT(i)] *)
Lemma testbit_land_lnot_BIT x i j :
  0 <= i -> 0 <= j ->
  Z.testbit (Z.land x (Z.lnot (BIT i))) j = Z.testbit x j && negb (j =? i).
Proof. intros. by rewrite Z.land_spec, Z.lnot_spec, testbit_BIT by lia. Qed.

Lemma testbit_mod_pow2 x w j : 0 <= j < w -> Z.testbit (x mod 2 ^ w) j = Z.testbit x j.
Proof. intros. by rewrite Z.mod_pow2_bits_low by lia. Qed.

Lemma testbit_u8 x j : 0 <= j < 8 -> Z.testbit (u8 x) j = Z.testbit x j.
Proof. apply (testbit_mod_pow2 x 8). Qed.

Lemma testbit_u32 x j : 0 <= j < 32 -> Z.testbit (u32 x) j = Z.testbit x j.
Proof. apply (testbit_mod_pow2 x 32). Qed.

(** ** Status codes of the PHL layer *)

(** [enum rtw_phl_status] *)
Inductive rtw_phl_status :=
  | RTW_PHL_STATUS_SUCCESS
  | RTW_PHL_STATUS_FAILURE
  | RTW_PHL_STATUS_RESOURCE
  | RTW_PHL_STATUS_HAL_INIT_FAILURE
  | RTW_PHL_STATUS_PENDING
  | RTW_PHL_STATUS_FRAME_DROP
  | RTW_PHL_STATUS_INVALID_PARAM
  | RTW_PHL_STATUS_CMD_TIMEOUT
  | RTW_PHL_STATUS_CMD_ERROR
  | RTW_PHL_STATUS_CMD_DROP
  | RTW_PHL_STATUS_CMD_CANNOT_IO
  | RTW_PHL_STATUS_CMD_SUCCESS
  | RTW_PHL_STATUS_UNEXPECTED_ERROR
  | RTW_PHL_STATUS_CANNOT_IO
  | RTW_PHL_STATUS_SH_TASK.

#[global] Instance rtw_phl_status_eq_dec : EqDecision rtw_phl_status.
Proof. solve_decision. Defined.
