(* ===== verification/PhlList.v ===== *)
(** * Intrusive lists and queues of the PHL layer

    Models [struct list_head] and its operations (src/phl/phl_list.h) on an
    explicit heap of [next]/[prev] cells, and the queue API built on them
    (src/phl/phl_util.c, [pq_*]).  The heap level is related to plain lists by
    the representation predicate [dll]; the queue theorems state each operation
    as an operation on that list.  The spinlocks that bracket every queue
    operation make each of them one atomic step, so they do not appear. *)
From Stdlib Require Import ZArith Lia Bool List Sorting.Sorted.
From stdpp Require Import base tactics list numbers gmap.
From S2P Require Import Prelude.

(** ** Heap of list cells *)

(** Addresses; [0] is [NULL]. *)
Abbreviation ptr := Z (only parsing).

Record list_head := ListHead { lh_next : Z; lh_prev : Z }.

Abbreviation heap := (gmap Z list_head).

Definition NULL : Z := 0.

Definition LIST_POISON1 : Z := 1048832.

Definition LIST_POISON2 : Z := 2097664.

(** [p->next], [p->prev] *)
Definition get_next (p : ptr) : ST heap Z :=
  fun h => match h !! p with Some c => Some (lh_next c, h) | None => None end.

Definition get_prev (p : ptr) : ST heap Z :=
  fun h => match h !! p with Some c => Some (lh_prev c, h) | None => None end.

(** [p->next = v], [p->prev = v] *)
Definition set_next (p v : ptr) : ST heap unit :=
  fun h => match h !! p with
           | Some c => Some (tt, <[p := ListHead v (lh_prev c)]> h)
           | None => None
           end.

Definition set_prev (p v : ptr) : ST heap unit :=
  fun h => match h !! p with
           | Some c => Some (tt, <[p := ListHead (lh_next c) v]> h)
           | None => None
           end.

Definition INIT_LIST_HEAD (l : ptr) : ST heap unit :=
  set_next l l;; set_prev l l.

Definition list_empty (head : ptr) : ST heap bool :=
  n ← get_next head; mret (n =? head).

Definition __list_add (new prev next : ptr) : ST heap unit :=
  set_prev next new;;
  set_next new next;;
  set_prev new prev;;
  set_next prev new.

Definition list_add (new head : ptr) : ST heap unit :=
  n ← get_next head; __list_add new head n.

Definition list_add_tail (new head : ptr) : ST heap unit :=
  p ← get_prev head; __list_add new p head.

Definition __list_del (prev next : ptr) : ST heap unit :=
  set_prev next prev;; set_next prev next.

Definition list_del (entry : ptr) : ST heap unit :=
  p ← get_prev entry;
  n ← get_next entry;
  __list_del p n;;
  set_next entry LIST_POISON1;;
  set_prev entry LIST_POISON2.

(** ** Queues

    [struct phl_queue] embeds its list head as first member, so a queue is
    named by the address of that head; [cnt] lives in a second map. *)
Record mem := Mem { cells : heap; cnts : gmap Z Z }.

Definition lift {A} (m : ST heap A) : ST mem A :=
  fun s => match m (cells s) with
           | Some (a, h) => Some (a, Mem h (cnts s))
           | None => None
           end.

Definition get_cnt (q : ptr) : ST mem Z :=
  fun s => match cnts s !! q with Some c => Some (c, s) | None => None end.

Definition set_cnt (q : ptr) (v : Z) : ST mem unit :=
  fun s => Some (tt, Mem (cells s) (<[q := v]> (cnts s))).

(** [enum list_pos] *)
Inductive list_pos := _first | _tail.

Definition pq_init (q : ptr) : ST mem unit :=
  lift (INIT_LIST_HEAD q);; set_cnt q 0.

Definition pq_reset (q : ptr) : ST mem unit :=
  lift (INIT_LIST_HEAD q);; set_cnt q 0.

Definition pq_push (q obj : ptr) (pos : list_pos) : ST mem bool :=
  match pos with
  | _first => lift (list_add obj q)
  | _tail => lift (list_add_tail obj q)
  end;;
  c ← get_cnt q;
  set_cnt q (s32 (c + 1));;
  mret true.

(** The result of the getters: [false] when the object is [NULL] or the head
    itself, [true] otherwise. *)
Definition obj_valid (q obj : ptr) : bool :=
  negb ((obj =? NULL) || (obj =? q)).

(** [!list_empty(&q->queue) && (q->cnt > 0)] *)
Definition pq_nonempty (q : ptr) : ST mem bool :=
  e ← lift (list_empty q);
  c ← get_cnt q;
  mret (negb e && (0 <? c)).

Definition pq_pop (q : ptr) (pos : list_pos) : ST mem (bool * Z) :=
  ne ← pq_nonempty q;
  obj ← (if (ne : bool) then
           o ← lift (match pos with _first => get_next q | _tail => get_prev q end);
           lift (list_del o);;
           c ← get_cnt q;
           set_cnt q (s32 (c - 1));;
           mret o
         else mret NULL);
  mret (obj_valid q obj, obj).

Definition pq_get_front (q : ptr) : ST mem (bool * Z) :=
  ne ← pq_nonempty q;
  obj ← (if (ne : bool) then lift (get_next q) else mret NULL);
  mret (obj_valid q obj, obj).

Definition pq_get_tail (q : ptr) : ST mem (bool * Z) :=
  ne ← pq_nonempty q;
  obj ← (if (ne : bool) then lift (get_prev q) else mret NULL);
  mret (obj_valid q obj, obj).

Definition pq_get_next (q cur_obj : ptr) : ST mem (bool * Z) :=
  if cur_obj =? NULL then mret (false, NULL)
  else obj ← lift (get_next cur_obj); mret (obj_valid q obj, obj).

Definition pq_get_prev (q cur_obj : ptr) : ST mem (bool * Z) :=
  if cur_obj =? NULL then mret (false, NULL)
  else obj ← lift (get_prev cur_obj); mret (obj_valid q obj, obj).

(** The [while] loop of [pq_search_node]: [newobj] is the cursor; [None] as
    the search function is the [NULL] function pointer. *)
Fixpoint search_loop (fuel : nat) (q : ptr) (bdel : bool)
    (search_fun : option (Z -> bool)) (newobj : ptr) : ST mem Z :=
  match fuel with
  | O => st_fail
  | S f =>
    if negb (newobj =? NULL) && negb (newobj =? q) then
      let bhit := match search_fun with Some sf => sf newobj | None => false end in
      (if bhit && bdel then
         lift (list_del newobj);;
         c ← get_cnt q;
         set_cnt q (s32 (c - 1))
       else mret tt);;
      if bhit then mret newobj
      else n ← lift (get_next newobj); search_loop f q bdel search_fun n
    else mret NULL
  end.

Definition pq_search_node (q : ptr) (bdel : bool)
    (search_fun : option (Z -> bool)) : ST mem (bool * Z) :=
  ne ← pq_nonempty q;
  newobj ← (if (ne : bool) then lift (get_next q) else mret NULL);
  s ← st_get;
  obj ← search_loop (S (size (cells s))) q bdel search_fun newobj;
  mret (obj_valid q obj, obj).

Definition pq_del_node (q obj : ptr) : ST mem unit :=
  if obj =? NULL then mret tt
  else
    lift (list_del obj);;
    c ← get_cnt q;
    set_cnt q (s32 (c - 1)).

(** The [while] loop of [pq_insert]: the first position whose element
    satisfies the predicate, or the head. *)
Fixpoint insert_loop (fuel : nat) (q : ptr) (pred : option (Z -> Z -> bool))
    (input obj : ptr) : ST mem Z :=
  match fuel with
  | O => st_fail
  | S f =>
    if negb (obj =? q) then
      if match pred with Some p => p input obj | None => false end then mret obj
      else n ← lift (get_next obj); insert_loop f q pred input n
    else mret obj
  end.

Definition pq_insert (q : ptr) (pred : option (Z -> Z -> bool)) (input : ptr) :
    ST mem bool :=
  first ← lift (get_next q);
  s ← st_get;
  obj ← insert_loop (S (size (cells s))) q pred input first;
  lift (list_add_tail input obj);;
  c ← get_cnt q;
  set_cnt q (s32 (c + 1));;
  mret true.

(** ** Representation *)

Definition nxt (h : heap) (p : ptr) : option Z := lh_next <$> h !! p.
Definition prv (h : heap) (p : ptr) : option Z := lh_prev <$> h !! p.

(** [seg h a l b]: following [next] from [a] visits [l] and then [b], and the
    [prev] links retrace it. *)
Fixpoint seg (h : heap) (a : ptr) (l : list Z) (b : ptr) : Prop :=
  match l with
  | [] => nxt h a = Some b /\ prv h b = Some a
  | x :: l' => nxt h a = Some x /\ prv h x = Some a /\ seg h x l' b
  end.

(** The circular list with head [hd] holds the nodes [xs] in order. *)
Definition dll (h : heap) (hd : ptr) (xs : list Z) : Prop :=
  NoDup (hd :: xs) /\ seg h hd xs hd.

(** A queue in memory: its list, its count, and no element at [NULL]. *)
Definition pq_rep (s : mem) (q : ptr) (xs : list Z) : Prop :=
  dll (cells s) q xs /\
  cnts s !! q = Some (Z.of_nat (length xs)) /\
  Z.of_nat (length xs) < 2147483648 /\ Forall (fun x => x <> NULL) xs.

(** ** Cell updates *)

Lemma nxt_is_Some h p v : nxt h p = Some v -> is_Some (h !! p).
Proof. unfold nxt. destruct (h !! p); simpl; eauto; discriminate. Qed.

Lemma prv_is_Some h p v : prv h p = Some v -> is_Some (h !! p).
Proof. unfold prv. destruct (h !! p); simpl; eauto; discriminate. Qed.

#[export] Hint Resolve nxt_is_Some prv_is_Some : rtw.

Lemma get_next_ok h p v : nxt h p = Some v -> get_next p h = Some (v, h).
Proof. unfold nxt, get_next. destruct (h !! p); simpl; congruence. Qed.

Lemma get_prev_ok h p v : prv h p = Some v -> get_prev p h = Some (v, h).
Proof. unfold prv, get_prev. destruct (h !! p); simpl; congruence. Qed.

(** What a heap looks like after a change of links: which [next] and [prev]
    fields changed, and that no cell disappeared. *)
Definition relinked (h h' : heap) (fn fp : Z -> option Z -> option Z) : Prop :=
  (forall x, nxt h' x = fn x (nxt h x)) /\
  (forall x, prv h' x = fp x (prv h x)) /\ dom h' = dom h.

Definition upd (p : ptr) (v : Z) (x : Z) (o : option Z) : option Z :=
  if decide (x = p) then Some v else o.

Definition keep (x : Z) (o : option Z) : option Z := o.

Lemma upd_ne p v x o : x <> p -> upd p v x o = o.
Proof. intros. unfold upd. by case_decide. Qed.

Lemma set_next_ok h p v : is_Some (h !! p) ->
  exists h', set_next p v h = Some (tt, h') /\ relinked h h' (upd p v) keep.
Proof.
  intros [c Hc]. unfold set_next. rewrite Hc. eexists. split; [done|].
  repeat split; unfold nxt, prv, upd, keep; intros.
  1,2: rewrite lookup_insert; repeat case_decide; simplify_eq; by rewrite ?Hc.
  apply dom_insert_lookup_L. by rewrite Hc.
Qed.

Lemma set_prev_ok h p v : is_Some (h !! p) ->
  exists h', set_prev p v h = Some (tt, h') /\ relinked h h' keep (upd p v).
Proof.
  intros [c Hc]. unfold set_prev. rewrite Hc. eexists. split; [done|].
  repeat split; unfold nxt, prv, upd, keep; intros.
  1,2: rewrite lookup_insert; repeat case_decide; simplify_eq; by rewrite ?Hc.
  apply dom_insert_lookup_L. by rewrite Hc.
Qed.

Lemma relinked_is_Some h h' fn fp x :
  relinked h h' fn fp -> is_Some (h !! x) -> is_Some (h' !! x).
Proof. intros (_ & _ & Hd) H. rewrite <- elem_of_dom, Hd. by apply elem_of_dom. Qed.

Lemma relinked_trans h1 h2 h3 f1 p1 f2 p2 :
  relinked h1 h2 f1 p1 -> relinked h2 h3 f2 p2 ->
  relinked h1 h3 (fun x o => f2 x (f1 x o)) (fun x o => p2 x (p1 x o)).
Proof.
  intros (Ha & Hb & Hc) (Hd & He & Hf). repeat split; intros.
  - by rewrite Hd, Ha.
  - by rewrite He, Hb.
  - by rewrite Hf.
Qed.

Lemma list_add_ok h new p n :
  is_Some (h !! new) -> is_Some (h !! p) -> is_Some (h !! n) ->
  exists h', __list_add new p n h = Some (tt, h') /\
    relinked h h' (fun x o => upd p new x (upd new n x o))
                  (fun x o => upd new p x (upd n new x o)).
Proof.
  intros Hnew Hp Hn. unfold __list_add.
  destruct (set_prev_ok h n new Hn) as (h1 & E1 & R1).
  destruct (set_next_ok h1 new n (relinked_is_Some _ _ _ _ _ R1 Hnew)) as (h2 & E2 & R2).
  pose proof (relinked_trans _ _ _ _ _ _ _ R1 R2) as R12.
  destruct (set_prev_ok h2 new p (relinked_is_Some _ _ _ _ _ R12 Hnew)) as (h3 & E3 & R3).
  pose proof (relinked_trans _ _ _ _ _ _ _ R12 R3) as R13.
  destruct (set_next_ok h3 p new (relinked_is_Some _ _ _ _ _ R13 Hp)) as (h4 & E4 & R4).
  pose proof (relinked_trans _ _ _ _ _ _ _ R13 R4) as R14.
  exists h4. do 3 (erewrite ST_bind_Some by eassumption). split; [done|].
  exact R14.
Qed.

Lemma list_del_ok h e p n :
  prv h e = Some p -> nxt h e = Some n -> is_Some (h !! p) -> is_Some (h !! n) ->
  exists h', list_del e h = Some (tt, h') /\
    relinked h h' (fun x o => upd e LIST_POISON1 x (upd p n x o))
                  (fun x o => upd e LIST_POISON2 x (upd n p x o)).
Proof.
  intros Hep Hen Hp Hn. unfold list_del, __list_del.
  assert (is_Some (h !! e)) as He by eauto with rtw.
  rewrite (ST_bind_Some _ _ _ _ _ (get_prev_ok _ _ _ Hep)).
  rewrite (ST_bind_Some _ _ _ _ _ (get_next_ok _ _ _ Hen)).
  destruct (set_prev_ok h n p Hn) as (h1 & E1 & R1).
  destruct (set_next_ok h1 p n (relinked_is_Some _ _ _ _ _ R1 Hp)) as (h2 & E2 & R2).
  pose proof (relinked_trans _ _ _ _ _ _ _ R1 R2) as R12.
  destruct (set_next_ok h2 e LIST_POISON1 (relinked_is_Some _ _ _ _ _ R12 He)) as (h3 & E3 & R3).
  pose proof (relinked_trans _ _ _ _ _ _ _ R12 R3) as R13.
  destruct (set_prev_ok h3 e LIST_POISON2 (relinked_is_Some _ _ _ _ _ R13 He)) as (h4 & E4 & R4).
  pose proof (relinked_trans _ _ _ _ _ _ _ R13 R4) as R14.
  exists h4. split; [|exact R14].
  unfold mbind, ST_bind. rewrite E1, E2, E3. exact E4.
Qed.

(** ** Segments *)

Lemma seg_app h a l1 x l2 b :
  seg h a (l1 ++ x :: l2) b <-> seg h a l1 x /\ seg h x l2 b.
Proof. revert a. induction l1 as [|y l1 IH]; intros a; simpl; [tauto|]. rewrite IH. tauto. Qed.

Lemma seg_nxt h a l b : seg h a l b -> nxt h a = Some (List.hd b l).
Proof. destruct l; simpl; tauto. Qed.

Lemma seg_prv h a l b : seg h a l b -> prv h b = Some (List.last l a).
Proof.
  destruct l as [|z l _] using rev_ind; simpl; [tauto|].
  rewrite seg_app, List.last_last. simpl. tauto.
Qed.

Lemma seg_frame h h' a l b :
  (forall x, x ∈ a :: l -> nxt h' x = nxt h x) ->
  (forall x, x ∈ l ++ [b] -> prv h' x = prv h x) -> seg h a l b -> seg h' a l b.
Proof.
  revert a. induction l as [|y l IH]; intros a Hn Hp; simpl.
  - rewrite Hn, Hp by set_solver. tauto.
  - rewrite Hn, Hp by set_solver. intros (? & ? & ?). split_and!; [done..|].
    apply IH; [intros; apply Hn; set_solver|intros; apply Hp; set_solver|done].
Qed.

Lemma seg_is_Some h a l b x : seg h a l b -> x ∈ a :: l ++ [b] -> is_Some (h !! x).
Proof.
  revert a. induction l as [|y l IH]; intros a Hs Hx; simpl in *.
  - destruct Hs. rewrite !elem_of_cons, elem_of_nil in Hx.
    destruct Hx as [->|[->|[]]]; eauto with rtw.
  - destruct Hs as (H1 & H2 & H3). apply elem_of_cons in Hx as [->|Hx]; eauto with rtw.
Qed.

Lemma last_in {A} (l : list A) (a : A) : List.last l a ∈ a :: l.
Proof.
  destruct l as [|z l _] using rev_ind; [set_solver|]. rewrite List.last_last. set_solver.
Qed.

(** Decide which links of a relinked heap a node of the segment kept. *)
Ltac relink Rn Rp :=
  rewrite ?Rn, ?Rp; unfold upd; repeat case_decide; simplify_eq; set_solver.

(** Linking a fresh node before [n], at the end of a segment. *)
Lemma seg_snoc h h' a l n new :
  NoDup (a :: l) -> n ∉ l -> new ∉ n :: a :: l ->
  relinked h h' (fun x o => upd (List.last l a) new x (upd new n x o))
                (fun x o => upd new (List.last l a) x (upd n new x o)) ->
  seg h a l n -> seg h' a (l ++ [new]) n.
Proof.
  intros Hnd Hn Hnew (Rn & Rp & _) Hs.
  apply seg_app. destruct l as [|p l _] using rev_ind.
  - simpl in *. relink Rn Rp.
  - rewrite List.last_last in Rn, Rp. apply seg_app in Hs as [Hs1 Hs2].
    apply NoDup_cons in Hnd as [Ha Hnd]. apply NoDup_app in Hnd as (_ & Hd & _).
    split.
    + apply seg_app. split.
      * eapply seg_frame; [| |exact Hs1]; intros x Hx; relink Rn Rp.
      * simpl. relink Rn Rp.
    + simpl. relink Rn Rp.
Qed.

(** Unlinking the last node of a segment. *)
Lemma seg_unsnoc h h' a l e n :
  NoDup (a :: l ++ [e]) -> n ∉ l ++ [e] ->
  relinked h h' (fun x o => upd e LIST_POISON1 x (upd (List.last l a) n x o))
                (fun x o => upd e LIST_POISON2 x (upd n (List.last l a) x o)) ->
  seg h a (l ++ [e]) n -> seg h' a l n.
Proof.
  intros Hnd Hn (Rn & Rp & _) Hs. apply seg_app in Hs as [Hs _].
  apply NoDup_cons in Hnd as [Ha Hnd]. apply NoDup_app in Hnd as (Hnd & Hd & _).
  destruct l as [|p l _] using rev_ind.
  - simpl in *. relink Rn Rp.
  - rewrite List.last_last in Rn, Rp. apply seg_app in Hs as [Hs1 _].
    apply NoDup_app in Hnd as (_ & Hd' & _). apply seg_app. split.
    + eapply seg_frame; [| |exact Hs1]; intros x Hx; relink Rn Rp.
    + simpl. relink Rn Rp.
Qed.

(** ** Circular lists *)

Lemma dll_perm h hd l1 x l2 :
  dll h hd (l1 ++ x :: l2) -> x <> hd /\ (x ∉ l1 ++ l2) /\ NoDup (hd :: l1 ++ l2).
Proof.
  intros [Hnd _]. rewrite <- Permutation_middle in Hnd.
  apply NoDup_cons in Hnd as [H1 H2]. apply NoDup_cons in H2 as [H2 H3].
  split_and!; [set_solver|done|]. apply NoDup_cons. split; [set_solver|done].
Qed.

(** Linking a fresh node between [l1] and [l2]. *)
Lemma dll_link h hd l1 l2 new :
  dll h hd (l1 ++ l2) -> new ∉ hd :: l1 ++ l2 -> is_Some (h !! new) ->
  exists h', __list_add new (List.last l1 hd) (List.hd hd l2) h = Some (tt, h') /\
    dll h' hd (l1 ++ new :: l2) /\ dom h' = dom h.
Proof.
  intros [Hnd Hs] Hnew Hc.
  assert (is_Some (h !! List.last l1 hd)) as Hp.
  { eapply seg_is_Some; [exact Hs|]. pose proof (last_in l1 hd). set_solver. }
  assert (is_Some (h !! List.hd hd l2)) as Hn.
  { eapply seg_is_Some; [exact Hs|]. destruct l2; set_solver. }
  destruct (list_add_ok h new _ _ Hc Hp Hn) as (h' & Hrun & R).
  exists h'. split; [done|]. split; [|by destruct R as (_ & _ & ?)]. split.
  - rewrite <- Permutation_middle. apply NoDup_cons in Hnd as [? ?].
    apply NoDup_cons. split; [set_solver|]. apply NoDup_cons. split; [set_solver|done].
  - destruct l2 as [|n l2]; simpl in *.
    + rewrite app_nil_r in *. pose proof (proj1 (proj1 (NoDup_cons _ _) Hnd)).
      apply (seg_snoc h); try done; set_solver.
    + apply seg_app in Hs as [Hs1 Hs2].
      rewrite cons_middle, app_assoc. apply seg_app.
      apply NoDup_cons in Hnd as [Hh Hnd]. apply NoDup_app in Hnd as (Hn1 & Hd & Hn2).
      apply NoDup_cons in Hn2 as [Hn2 _]. split.
      * eapply seg_snoc; [| | |exact R|done]; [|set_solver..].
        apply NoDup_cons. split; [set_solver|done].
      * pose proof (last_in l1 hd) as Hl. destruct R as (Rn & Rp & _).
        assert (List.last l1 hd ∉ n :: l2) as Hlast.
        { intros Hx. apply elem_of_cons in Hl as [Hl|Hl]; [rewrite Hl in Hx|];
            [apply Hh; set_solver|by eapply Hd]. }
        eapply seg_frame; [| |exact Hs2]; intros x Hx; rewrite ?Rn, ?Rp.
        -- rewrite !upd_ne; [done| |]; intros ->; set_solver.
        -- rewrite !upd_ne; [done| |]; intros ->; set_solver.
Qed.

(** Unlinking a node. *)
Lemma dll_unlink h hd l1 e l2 :
  dll h hd (l1 ++ e :: l2) ->
  exists h', list_del e h = Some (tt, h') /\ dll h' hd (l1 ++ l2) /\ dom h' = dom h.
Proof.
  intros Hdll. destruct (dll_perm _ _ _ _ _ Hdll) as (Hne & He & Hnd).
  destruct Hdll as [Hnd0 Hs]. pose proof Hs as Hs'.
  apply seg_app in Hs' as [Hs1 Hs2].
  destruct (list_del_ok h e (List.last l1 hd) (List.hd hd l2)) as (h' & Hrun & R).
  { by apply seg_prv. } { by apply seg_nxt. }
  { eapply seg_is_Some; [exact Hs|]. pose proof (last_in l1 hd). set_solver. }
  { eapply seg_is_Some; [exact Hs|]. destruct l2; set_solver. }
  exists h'. split; [done|]. split; [|by destruct R as (_ & _ & ?)]. split; [done|].
  destruct l2 as [|n l2]; simpl in *.
  - rewrite app_nil_r in *. pose proof (proj1 (proj1 (NoDup_cons _ _) Hnd0)).
    by eapply seg_unsnoc; [done| |exact R|done].
  - rewrite cons_middle, app_assoc in Hs. apply seg_app in Hs as [Hsa Hsb].
    apply seg_app. rewrite cons_middle, app_assoc, app_comm_cons in Hnd0.
    apply NoDup_app in Hnd0 as (Ha & Hb & Hc). apply NoDup_cons in Hc as [Hc _]. split.
    + eapply seg_unsnoc; [done| |exact R|done]. set_solver.
    + pose proof (last_in l1 hd) as Hl. destruct R as (Rn & Rp & _).
      assert (List.last l1 hd ∉ n :: l2) as Hlast.
      { intros Hx. apply (Hb (List.last l1 hd)); set_solver. }
      eapply seg_frame; [| |exact Hsb]; intros x Hx; rewrite ?Rn, ?Rp.
      * rewrite !upd_ne; [done| |]; intros ->; set_solver.
      * rewrite !upd_ne; [done| |]; intros ->; set_solver.
Qed.

(** ** The abstract queue *)

Definition dq_push (pos : list_pos) (x : Z) (xs : list Z) : list Z :=
  match pos with _first => x :: xs | _tail => xs ++ [x] end.

Definition dq_pop (pos : list_pos) (xs : list Z) : option (Z * list Z) :=
  match pos, xs with
  | _, [] => None
  | _first, x :: r => Some (x, r)
  | _tail, y :: r => Some (List.last r y, removelast xs)
  end.

(** Insertion before the first element the predicate accepts. *)
Fixpoint insert_before {A} (p : A -> A -> bool) (x : A) (xs : list A) : list A :=
  match xs with
  | [] => [x]
  | y :: r => if p x y then x :: y :: r else y :: insert_before p x r
  end.

Definition opt_pred {A} (o : option (A -> bool)) : A -> bool :=
  match o with Some f => f | None => fun _ => false end.

(** ** Queue operations against the abstract queue *)

Section QueueSpec.
Context (q : Z).

Lemma lift_ok {A} (m : ST heap A) s a h :
  m (cells s) = Some (a, h) -> lift m s = Some (a, Mem h (cnts s)).
Proof. unfold lift. intros ->. done. Qed.

Lemma mem_eta s : Mem (cells s) (cnts s) = s.
Proof. by destruct s. Qed.

Lemma lift_get_next s p v :
  nxt (cells s) p = Some v -> lift (get_next p) s = Some (v, s).
Proof. intros H. erewrite lift_ok by by apply get_next_ok. by rewrite mem_eta. Qed.

Lemma lift_get_prev s p v :
  prv (cells s) p = Some v -> lift (get_prev p) s = Some (v, s).
Proof. intros H. erewrite lift_ok by by apply get_prev_ok. by rewrite mem_eta. Qed.

Lemma get_cnt_ok s c : cnts s !! q = Some c -> get_cnt q s = Some (c, s).
Proof. unfold get_cnt. by intros ->. Qed.

(** The count update that ends every operation that links or unlinks. *)
Lemma cnt_update s h xs d c :
  cnts s !! q = Some c -> dll h q xs -> Forall (fun x => x <> NULL) xs ->
  Z.of_nat (length xs) = c + d -> Z.of_nat (length xs) < 2147483648 ->
  exists s', (c ← get_cnt q; set_cnt q (s32 (c + d))) (Mem h (cnts s)) = Some (tt, s') /\
    pq_rep s' q xs /\ cells s' = h.
Proof.
  intros Hc Hd Hf Hl Hb. eexists. split.
  - erewrite ST_bind_Some by (by apply get_cnt_ok). done.
  - split; [|done]. split; [done|]. simpl. rewrite lookup_insert_eq.
    split_and!; [|done..]. f_equal. rewrite s32_small by lia. lia.
Qed.

Lemma pq_rep_nonempty s xs :
  pq_rep s q xs -> pq_nonempty q s = Some (match xs with [] => false | _ => true end, s).
Proof.
  intros ([Hnd Hs] & Hc & _). unfold pq_nonempty, list_empty.
  erewrite ST_bind_Some.
  2:{ apply lift_ok. erewrite ST_bind_Some by (apply get_next_ok, seg_nxt, Hs). done. }
  rewrite mem_eta. erewrite ST_bind_Some by by apply get_cnt_ok.
  unfold mret, ST_ret. do 2 f_equal. destruct xs as [|x xs]; simpl.
  - by rewrite Z.eqb_refl.
  - apply NoDup_cons in Hnd as [Hnd _]. destruct (x =? q) eqn:E; [|done].
    apply Z.eqb_eq in E. set_solver.
Qed.

(** Linking a fresh object at a split of the queue. *)
Lemma pq_link s l1 l2 obj m :
  pq_rep s q (l1 ++ l2) -> obj ∉ q :: l1 ++ l2 -> obj <> NULL ->
  is_Some (cells s !! obj) -> Z.of_nat (length (l1 ++ l2)) + 1 < 2147483648 ->
  m (cells s) = __list_add obj (List.last l1 q) (List.hd q l2) (cells s) ->
  exists s', (lift m;; c ← get_cnt q; set_cnt q (s32 (c + 1))) s = Some (tt, s') /\
    pq_rep s' q (l1 ++ obj :: l2) /\ dom (cells s') = dom (cells s).
Proof.
  intros (Hd & Hc & Hl & Hf) Hfresh Hnn Hcell Hb Hm.
  destruct (dll_link _ _ _ _ _ Hd Hfresh Hcell) as (h' & Hrun & Hd' & Hdom).
  erewrite ST_bind_Some by (apply lift_ok; rewrite Hm; exact Hrun).
  edestruct (cnt_update s h' (l1 ++ obj :: l2) 1) as (s' & Hs' & Hrep & Hcells);
    [done..| | | |].
  - apply Forall_app in Hf as [? ?]. apply Forall_app. split; [done|by constructor].
  - rewrite !length_app in *. simpl. lia.
  - rewrite !length_app in *. simpl. lia.
  - exists s'. split; [done|]. split; [done|]. congruence.
Qed.

(** Unlinking an element of the queue. *)
Lemma pq_unlink s l1 e l2 :
  pq_rep s q (l1 ++ e :: l2) ->
  exists s', (lift (list_del e);; c ← get_cnt q; set_cnt q (s32 (c - 1))) s = Some (tt, s') /\
    pq_rep s' q (l1 ++ l2) /\ dom (cells s') = dom (cells s).
Proof.
  intros (Hd & Hc & Hl & Hf).
  destruct (dll_unlink _ _ _ _ _ Hd) as (h' & Hrun & Hd' & Hdom).
  erewrite ST_bind_Some by (apply lift_ok; exact Hrun).
  edestruct (cnt_update s h' (l1 ++ l2) (-1)) as (s' & Hs' & Hrep & Hcells); [done..| | | |].
  - apply Forall_app in Hf as [? Hf]. inversion Hf. apply Forall_app. by split.
  - rewrite !length_app in *. simpl in *. lia.
  - rewrite !length_app in *. simpl in *. lia.
  - exists s'. split; [done|]. split; [done|]. congruence.
Qed.

(** Continue after a link or unlink step. *)
Lemma cnt_seq {B} (m : ST heap unit) (f : Z -> Z) (k : ST mem B) s s' :
  (lift m;; c ← get_cnt q; set_cnt q (f c)) s = Some (tt, s') ->
  (lift m;; c ← get_cnt q; set_cnt q (f c);; k) s = k s'.
Proof.
  unfold mbind, ST_bind. destruct (lift m s) as [[u s1]|]; [|done].
  destruct (get_cnt q s1) as [[c s2]|]; [|done]. unfold set_cnt. by intros [= ->].
Qed.

Lemma pq_push_spec s xs obj pos :
  pq_rep s q xs -> obj ∉ q :: xs -> obj <> NULL ->
  is_Some (cells s !! obj) -> Z.of_nat (length xs) + 1 < 2147483648 ->
  exists s', pq_push q obj pos s = Some (true, s') /\
    pq_rep s' q (dq_push pos obj xs) /\ dom (cells s') = dom (cells s).
Proof.
  intros Hr Hf Hn Hc Hb. pose proof Hr as ([_ Hs] & _).
  unfold pq_push. destruct pos.
  - destruct (pq_link s [] xs obj (list_add obj q)) as (s' & Hrun & Hrep & Hd); try done.
    { unfold list_add. by erewrite ST_bind_Some by (apply get_next_ok, seg_nxt, Hs). }
    exists s'. split; [|done]. by rewrite (cnt_seq _ (fun c => s32 (c + 1)) _ _ _ Hrun).
  - destruct (pq_link s xs [] obj (list_add_tail obj q)) as (s' & Hrun & Hrep & Hd);
      rewrite ?app_nil_r; try done.
    { unfold list_add_tail. by erewrite ST_bind_Some by (apply get_prev_ok, seg_prv, Hs). }
    exists s'. split; [|done]. by rewrite (cnt_seq _ (fun c => s32 (c + 1)) _ _ _ Hrun).
Qed.

Lemma pq_rep_valid s xs x : pq_rep s q xs -> x ∈ xs -> obj_valid q x = true.
Proof.
  intros ([Hnd _] & _ & _ & Hf) Hx. rewrite Forall_forall in Hf.
  apply NoDup_cons in Hnd as [Hnd _]. specialize (Hf x Hx).
  unfold obj_valid. destruct (x =? NULL) eqn:E1, (x =? q) eqn:E2; try done;
    rewrite ?Z.eqb_eq in *; subst; done.
Qed.

Lemma last_removelast {A} (l : list A) x : l ++ [x] = removelast (l ++ [x]) ++ [x].
Proof. by rewrite removelast_last. Qed.

(** [pq_pop] removes the end [pos] names; on an empty queue it returns
    [false] and [NULL] and changes nothing. *)
Lemma pq_pop_spec s xs pos :
  pq_rep s q xs ->
  match dq_pop pos xs with
  | None => pq_pop q pos s = Some ((false, NULL), s)
  | Some (x, xs') => exists s', pq_pop q pos s = Some ((true, x), s') /\
      pq_rep s' q xs' /\ dom (cells s') = dom (cells s)
  end.
Proof.
  intros Hr. pose proof Hr as ([_ Hs] & _). unfold pq_pop.
  erewrite ST_bind_Some by by apply pq_rep_nonempty.
  destruct xs as [|y r]; [by destruct pos|].
  destruct pos; cbn [dq_pop].
  - destruct (pq_unlink s [] y r Hr) as (s' & Hrun & Hrep & Hd).
    exists s'. split; [|done]. unfold mbind at 1, ST_bind at 1. cbv match.
    erewrite ST_bind_Some by (apply lift_get_next, seg_nxt, Hs). simpl List.hd.
    rewrite (cnt_seq _ (fun c => s32 (c - 1)) _ _ _ Hrun). unfold mret, ST_ret.
    by rewrite (pq_rep_valid s (y :: r)) by (done || set_solver).
  - destruct (exists_last (l := y :: r) ltac:(done)) as (l & e & He).
    assert (List.last r y = e) as ->.
    { destruct r as [|z r _] using rev_ind; [by destruct l as [|? []]; simplify_eq/=|].
      rewrite List.last_last, app_comm_cons in *. by apply app_inj_tail in He as [_ ->]. }
    rewrite He in *. rewrite removelast_last.
    destruct (pq_unlink s l e [] Hr) as (s' & Hrun & Hrep & Hd). rewrite app_nil_r in Hrep.
    exists s'. split; [|done]. unfold mbind at 1, ST_bind at 1. cbv match.
    erewrite ST_bind_Some by (apply lift_get_prev, seg_prv, Hs). rewrite List.last_last.
    rewrite (cnt_seq _ (fun c => s32 (c - 1)) _ _ _ Hrun). unfold mret, ST_ret.
    by rewrite (pq_rep_valid s (l ++ [e])) by (done || set_solver).
Qed.

Lemma pq_get_front_spec s xs :
  pq_rep s q xs ->
  pq_get_front q s = Some (match xs with [] => (false, NULL) | x :: _ => (true, x) end, s).
Proof.
  intros Hr. pose proof Hr as ([_ Hs] & _). unfold pq_get_front.
  erewrite ST_bind_Some by by apply pq_rep_nonempty.
  destruct xs as [|x xs]; [done|].
  erewrite ST_bind_Some by (apply lift_get_next, seg_nxt, Hs). unfold mret, ST_ret.
  by rewrite (pq_rep_valid s (x :: xs)) by (done || set_solver).
Qed.

Lemma pq_get_tail_spec s l x :
  pq_rep s q (l ++ [x]) -> pq_get_tail q s = Some ((true, x), s).
Proof.
  intros Hr. pose proof Hr as ([_ Hs] & _). unfold pq_get_tail.
  erewrite ST_bind_Some by by apply pq_rep_nonempty.
  destruct (l ++ [x]) eqn:E; [by destruct l|]. rewrite <- E in *.
  erewrite ST_bind_Some by (apply lift_get_prev, seg_prv, Hs). unfold mret, ST_ret.
  rewrite List.last_last. by rewrite (pq_rep_valid s (l ++ [x])) by (done || set_solver).
Qed.

(** Walking forwards and backwards: the neighbour, or [false] at the ends. *)
Lemma pq_get_next_spec s l1 x l2 :
  pq_rep s q (l1 ++ x :: l2) ->
  pq_get_next q x s = Some ((match l2 with [] => false | _ => true end, List.hd q l2), s).
Proof.
  intros Hr. pose proof Hr as ([_ Hs] & _ & _ & Hf). unfold pq_get_next.
  apply seg_app in Hs as [_ Hs].
  apply Forall_app in Hf as [_ Hf]. inversion Hf; subst.
  destruct (x =? NULL) eqn:E; [lia|].
  erewrite ST_bind_Some by (apply lift_get_next, seg_nxt, Hs). unfold mret, ST_ret.
  destruct l2 as [|y l2]; simpl.
  - unfold obj_valid. by rewrite Z.eqb_refl, orb_true_r.
  - by rewrite (pq_rep_valid s (l1 ++ x :: y :: l2)) by (done || set_solver).
Qed.

Lemma pq_get_prev_spec s l1 x l2 :
  pq_rep s q (l1 ++ x :: l2) ->
  pq_get_prev q x s =
    Some ((match l1 with [] => false | _ => true end, List.last l1 q), s).
Proof.
  intros Hr. pose proof Hr as ([_ Hs] & _ & _ & Hf). unfold pq_get_prev.
  apply seg_app in Hs as [Hs _].
  apply Forall_app in Hf as [_ Hf]. inversion Hf; subst.
  destruct (x =? NULL) eqn:E; [lia|].
  erewrite ST_bind_Some by (apply lift_get_prev, seg_prv, Hs). unfold mret, ST_ret.
  destruct l1 as [|y l1 _] using rev_ind; simpl.
  - unfold obj_valid. by rewrite Z.eqb_refl, orb_true_r.
  - rewrite List.last_last.
    rewrite (pq_rep_valid s ((l1 ++ [y]) ++ x :: l2)) by (done || set_solver).
    by destruct l1.
Qed.

Lemma pq_rep_size s xs : pq_rep s q xs -> (length xs < size (cells s))%nat.
Proof.
  intros ([Hnd Hs] & _). rewrite <- size_dom.
  assert (list_to_set (q :: xs) ⊆ dom (cells s)) as Hsub.
  { intros x Hx. apply elem_of_list_to_set in Hx. apply elem_of_dom.
    eapply seg_is_Some; [exact Hs|]. set_solver. }
  apply subseteq_size in Hsub. rewrite size_list_to_set in Hsub by done.
  simpl in Hsub. lia.
Qed.

(** The search loop, started inside the queue, stops at the first hit. *)
Lemma search_loop_spec s bdel sf l1 l2 fuel :
  pq_rep s q (l1 ++ l2) -> (length l2 < fuel)%nat ->
  match List.find (opt_pred sf) l2 with
  | None => search_loop fuel q bdel sf (List.hd q l2) s = Some (NULL, s)
  | Some x => exists r1 r2 s', l2 = r1 ++ x :: r2 /\ opt_pred sf x = true /\
      Forall (fun y => opt_pred sf y = false) r1 /\
      search_loop fuel q bdel sf (List.hd q l2) s = Some (x, s') /\
      pq_rep s' q (if bdel then l1 ++ r1 ++ r2 else l1 ++ l2)
  end.
Proof.
  revert l1 fuel. induction l2 as [|y l2 IH]; intros l1 [|fuel] Hr Hlt; try (simpl in Hlt; lia).
  - simpl. by rewrite Z.eqb_refl, andb_false_r.
  - assert (obj_valid q y = true) as Hv by (eapply pq_rep_valid; [done|set_solver]).
    unfold obj_valid in Hv. apply negb_true_iff, orb_false_iff in Hv as [Hv1 Hv2].
    cbn [search_loop List.hd List.find]. rewrite Hv1, Hv2. cbn [negb andb].
    assert (match sf with Some f => f y | None => false end = opt_pred sf y) as ->
      by by destruct sf.
    destruct (opt_pred sf y) eqn:Hit.
    + destruct bdel; cbn [andb].
      * destruct (pq_unlink s l1 y l2 Hr) as (s' & Hrun & Hrep & _).
        exists [], l2, s'. split_and!; try done. by rewrite (ST_bind_Some _ _ _ _ _ Hrun).
      * exists [], l2, s. by split_and!.
    + cbn [andb]. pose proof Hr as ([_ Hs] & _). apply seg_app in Hs as [_ Hs].
      rewrite cons_middle, app_assoc in Hr.
      specialize (IH (l1 ++ [y]) fuel Hr ltac:(simpl in Hlt; lia)).
      destruct (List.find (opt_pred sf) l2) as [x|].
      * destruct IH as (r1 & r2 & s' & -> & Hx & Hall & Hrun & Hrep).
        exists (y :: r1), r2, s'. split_and!; [done|done|by constructor| |].
        -- unfold mbind at 1, ST_bind at 1. cbv [mret ST_ret].
           by erewrite ST_bind_Some by (apply lift_get_next, seg_nxt, Hs).
        -- destruct bdel; by rewrite <- app_assoc in Hrep.
      * unfold mbind at 1, ST_bind at 1. cbv [mret ST_ret].
        by erewrite ST_bind_Some by (apply lift_get_next, seg_nxt, Hs).
Qed.

(** The node before a split point. *)
Lemma seg_split_prv h l1 l2 :
  seg h q (l1 ++ l2) q -> prv h (List.hd q l2) = Some (List.last l1 q).
Proof.
  destruct l2 as [|n l2]; [rewrite app_nil_r; apply seg_prv|].
  rewrite seg_app. intros [H _]. by apply seg_prv.
Qed.

Lemma insert_loop_spec s pred input l1 l2 fuel :
  pq_rep s q (l1 ++ l2) -> (length l2 < fuel)%nat ->
  exists r1 r2, l2 = r1 ++ r2 /\
    insert_before (match pred with Some p => p | None => fun _ _ => false end) input l2
      = r1 ++ input :: r2 /\
    insert_loop fuel q pred input (List.hd q l2) s = Some (List.hd q r2, s).
Proof.
  revert l1 fuel. induction l2 as [|y l2 IH]; intros l1 [|fuel] Hr Hlt; try (simpl in Hlt; lia).
  - exists [], []. split_and!; try done. simpl. by rewrite Z.eqb_refl.
  - assert (obj_valid q y = true) as Hv by (eapply pq_rep_valid; [done|set_solver]).
    unfold obj_valid in Hv. apply negb_true_iff, orb_false_iff in Hv as [_ Hv].
    cbn [insert_loop List.hd insert_before]. rewrite Hv. cbn [negb].
    assert (match pred with Some p => p input y | None => false end =
            match pred with Some p => p | None => fun _ _ => false end input y) as ->
      by by destruct pred.
    destruct (match pred with Some p => p | None => fun _ _ => false end input y).
    + by exists [], (y :: l2).
    + pose proof Hr as ([_ Hs] & _). apply seg_app in Hs as [_ Hs].
      rewrite cons_middle, app_assoc in Hr.
      destruct (IH (l1 ++ [y]) fuel Hr ltac:(simpl in Hlt; lia)) as (r1 & r2 & -> & Hi & Hrun).
      exists (y :: r1), r2. split_and!; [done|by rewrite Hi|].
      by erewrite ST_bind_Some by (apply lift_get_next, seg_nxt, Hs).
Qed.

(** ** Sequences of operations *)

Inductive qop :=
  | OpPush (pos : list_pos) (obj : Z)
  | OpPop (pos : list_pos)
  | OpFront
  | OpTail
  | OpNext (cur_obj : Z)
  | OpPrev (cur_obj : Z)
  | OpDel (obj : Z).

(** The element behind [x]; the head and [false] at the end. *)
Fixpoint dq_next (x : Z) (xs : list Z) : option (bool * Z) :=
  match xs with
  | [] => None
  | y :: r => if decide (y = x) then Some (match r with [] => (false, q) | z :: _ => (true, z) end) else dq_next x r
  end.

(** One operation of the abstract queue.  Pushing an object that is already
    linked, the head, or [NULL], and asking for the neighbours of an object or
    deleting an object that is not linked, are not allowed. *)
Definition dq_step (o : qop) (xs : list Z) : option ((bool * Z) * list Z) :=
  match o with
  | OpPush pos x =>
    if decide (x ∈ q :: xs) then None
    else if decide (x = NULL) then None
    else if decide (Z.of_nat (length xs) + 1 < 2147483648)
    then Some ((true, NULL), dq_push pos x xs) else None
  | OpPop pos =>
    match dq_pop pos xs with
    | Some (x, r) => Some ((true, x), r)
    | None => Some ((false, NULL), xs)
    end
  | OpFront => Some (match xs with [] => (false, NULL) | x :: _ => (true, x) end, xs)
  | OpTail => Some (match rev xs with [] => (false, NULL) | x :: _ => (true, x) end, xs)
  | OpNext x => match dq_next x xs with Some r => Some (r, xs) | None => None end
  | OpPrev x => match dq_next x (rev xs) with Some r => Some (r, xs) | None => None end
  | OpDel x => if decide (x ∈ xs) then Some ((true, NULL), List.remove Z.eq_dec x xs) else None
  end.

Definition pq_step (o : qop) : ST mem (bool * Z) :=
  match o with
  | OpPush pos x => b ← pq_push q x pos; mret (b, NULL)
  | OpPop pos => pq_pop q pos
  | OpFront => pq_get_front q
  | OpTail => pq_get_tail q
  | OpNext x => pq_get_next q x
  | OpPrev x => pq_get_prev q x
  | OpDel x => pq_del_node q x;; mret (true, NULL)
  end.

Fixpoint dq_run (ops : list qop) (xs : list Z) : option (list (bool * Z) * list Z) :=
  match ops with
  | [] => Some ([], xs)
  | o :: ops' =>
    match dq_step o xs with
    | None => None
    | Some (r, xs') =>
      match dq_run ops' xs' with Some (rs, xs'') => Some (r :: rs, xs'') | None => None end
    end
  end.

Fixpoint pq_run (ops : list qop) : ST mem (list (bool * Z)) :=
  match ops with
  | [] => mret []
  | o :: ops' => r ← pq_step o; rs ← pq_run ops'; mret (r :: rs)
  end.

Definition op_obj (o : qop) : list Z :=
  match o with OpPush _ x => [x] | _ => [] end.

Lemma dq_next_Some x xs r :
  dq_next x xs = Some r -> exists l1 l2, xs = l1 ++ x :: l2 /\ r = (match l2 with [] => false | _ => true end, List.hd q l2).
Proof.
  induction xs as [|y xs IH]; simpl; [done|]. case_decide as E.
  - intros [= <-]. subst y. exists [], xs. split; [done|]. by destruct xs.
  - intros H. destruct (IH H) as (l1 & l2 & -> & ->). by exists (y :: l1), l2.
Qed.

Lemma pq_get_tail_rev s xs :
  pq_rep s q xs -> pq_get_tail q s = Some (match rev xs with [] => (false, NULL) | x :: _ => (true, x) end, s).
Proof.
  destruct xs as [|x xs _] using rev_ind; intros Hr.
  - unfold pq_get_tail. by erewrite ST_bind_Some by by apply pq_rep_nonempty.
  - rewrite rev_app_distr. by apply (pq_get_tail_spec s xs).
Qed.

Lemma pq_del_node_spec s l1 x l2 :
  pq_rep s q (l1 ++ x :: l2) ->
  exists s', pq_del_node q x s = Some (tt, s') /\ pq_rep s' q (l1 ++ l2) /\ dom (cells s') = dom (cells s).
Proof.
  intros Hr. pose proof Hr as (_ & _ & _ & Hf). apply Forall_app in Hf as [_ Hf]. inversion Hf; subst.
  destruct (pq_unlink s l1 x l2 Hr) as (s' & Hrun & Hrep & Hd). exists s'. split; [|done].
  unfold pq_del_node. destruct (x =? NULL) eqn:E; [lia|]. exact Hrun.
Qed.

Lemma remove_middle x (l1 l2 : list Z) : NoDup (l1 ++ x :: l2) -> List.remove Z.eq_dec x (l1 ++ x :: l2) = l1 ++ l2.
Proof.
  intros Hn. apply list.NoDup_app in Hn as (_ & Hd & Hn). apply list.NoDup_cons in Hn as [Hx _].
  rewrite List.remove_app, List.remove_cons, !List.notin_remove; [done|..]; intros Hi; apply list_elem_of_In in Hi;
    [done|]. apply (Hd x Hi). set_solver.
Qed.

Lemma pq_step_refines s xs o r xs' :
  pq_rep s q xs -> dq_step o xs = Some (r, xs') ->
  Forall (fun x => x ∈ dom (cells s)) (op_obj o) ->
  exists s', pq_step o s = Some (r, s') /\ pq_rep s' q xs' /\ dom (cells s') = dom (cells s).
Proof.
  intros Hr Hstep Hobj. destruct o as [pos x|pos| | |x|x|x]; simpl in *.
  - repeat case_decide; simplify_eq. apply Forall_inv in Hobj.
    destruct (pq_push_spec s xs x pos) as (s' & Hrun & ? & ?); try done.
    { by apply elem_of_dom. }
    exists s'. split; [|done]. by rewrite (ST_bind_Some _ _ _ _ _ Hrun).
  - pose proof (pq_pop_spec s xs pos Hr) as Hp.
    destruct (dq_pop pos xs) as [[x l]|]; simplify_eq; [|by exists s].
    destruct Hp as (s' & ? & ? & ?). by exists s'.
  - simplify_eq. exists s. by rewrite (pq_get_front_spec s xs').
  - simplify_eq. exists s. by rewrite (pq_get_tail_rev s xs').
  - destruct (dq_next x xs) as [r'|] eqn:E; simplify_eq. apply dq_next_Some in E as (l1 & l2 & -> & ->).
    exists s. by rewrite (pq_get_next_spec s l1 x l2).
  - destruct (dq_next x (rev xs)) as [r'|] eqn:E; simplify_eq. apply dq_next_Some in E as (l1 & l2 & E & ->).
    apply (f_equal (@rev Z)) in E. rewrite rev_involutive, rev_app_distr in E. simpl in E. rewrite <- app_assoc in E.
    simpl in E. subst xs'. exists s. rewrite (pq_get_prev_spec s (rev l2) x (rev l1)) by done.
    split; [|done]. destruct l2 as [|y l2]; [done|]. simpl. rewrite List.last_last. by destruct (rev l2).
  - case_decide as E; simplify_eq. apply list_elem_of_split in E as (l1 & l2 & ->). pose proof Hr as ([Hn _] & _).
    apply list.NoDup_cons in Hn as [_ Hn]. rewrite remove_middle by done.
    destruct (pq_del_node_spec s l1 x l2 Hr) as (s' & Hrun & ? & ?). exists s'. split; [|done].
    by rewrite (ST_bind_Some _ _ _ _ _ Hrun).
Qed.

End QueueSpec.

Lemma pq_init_spec q s :
  is_Some (cells s !! q) ->
  exists s', pq_init q s = Some (tt, s') /\ pq_rep s' q [] /\ dom (cells s') = dom (cells s).
Proof.
  intros Hq. unfold pq_init, INIT_LIST_HEAD.
  destruct (set_next_ok (cells s) q q Hq) as (h1 & E1 & R1).
  destruct (set_prev_ok h1 q q (relinked_is_Some _ _ _ _ _ R1 Hq)) as (h2 & E2 & R2).
  eexists. split.
  { erewrite ST_bind_Some.
    2:{ apply lift_ok. by erewrite ST_bind_Some by exact E1. }
    done. }
  destruct R1 as (_ & _ & D1), R2 as (Rn & Rp & D2). split; [|simpl; congruence].
  repeat split; simpl; try lia.
  - apply NoDup_singleton.
  - rewrite Rn. unfold keep. unfold set_next in E1.
    destruct Hq as [c Hc]. rewrite Hc in E1. simplify_eq. unfold nxt.
    by rewrite lookup_insert_eq.
  - rewrite Rp. unfold upd. by case_decide.
  - by rewrite lookup_insert_eq.
  - constructor.
Qed.

Lemma pq_run_refines q ops s xs outs xs' :
  pq_rep s q xs -> dq_run q ops xs = Some (outs, xs') ->
  Forall (fun x => x ∈ dom (cells s)) (flat_map op_obj ops) ->
  exists s', pq_run q ops s = Some (outs, s') /\ pq_rep s' q xs'.
Proof.
  revert s xs outs. induction ops as [|o ops IH]; intros s xs outs Hr Hrun Hobj; simpl in *.
  - simplify_eq. by exists s.
  - apply Forall_app in Hobj as [Ho Hos].
    destruct (dq_step q o xs) as [[r xs1]|] eqn:E1; [|done].
    destruct (dq_run q ops xs1) as [[rs xs2]|] eqn:E2; [|done]. simplify_eq.
    destruct (pq_step_refines q s xs o r xs1 Hr E1 Ho) as (s1 & H1 & Hr1 & Hd1).
    destruct (IH s1 xs1 rs Hr1 E2 ltac:(by rewrite Hd1)) as (s2 & H2 & Hr2).
    exists s2. split; [|done].
    rewrite (ST_bind_Some _ _ _ _ _ H1), (ST_bind_Some _ _ _ _ _ H2). done.
Qed.

(** ** Properties *)

(** C2. The pointer-level queue refines a double-ended list: after [pq_init],
    any sequence of [pq_push], [pq_pop], [pq_get_front], [pq_get_tail],
    [pq_get_next], [pq_get_prev] and [pq_del_node] in which only nodes that are
    not linked, are not [NULL] and have a cell are pushed, neighbours are asked
    for and nodes deleted only of linked nodes, and at most 2^31 - 1 nodes are
    linked, runs without a fault on the heap of [list_head] cells, returns
    exactly the abstract results, and leaves the cells linked in the abstract
    order with [cnt] equal to the number of elements. *)
Theorem pq_refines_deque q ops s outs xs' :
  is_Some (cells s !! q) -> dq_run q ops [] = Some (outs, xs') ->
  Forall (fun x => x ∈ dom (cells s)) (flat_map op_obj ops) ->
  exists s', (pq_init q;; pq_run q ops) s = Some (outs, s') /\ pq_rep s' q xs'.
Proof.
  intros Hq Hrun Hobj. destruct (pq_init_spec q s Hq) as (s0 & E0 & R0 & D0).
  destruct (pq_run_refines q ops s0 [] outs xs' R0 Hrun ltac:(by rewrite D0))
    as (s' & E & R).
  exists s'. split; [|done]. by rewrite (ST_bind_Some _ _ _ _ _ E0).
Qed.

(** [pq_search_node] returns [true] and the first element its callback
    accepts, and unlinks that element alone when [bdel] is set; when no element
    is accepted, or the callback is [NULL], it returns [false] and [NULL] and
    leaves the queue as it was.  The loop always terminates on a well-formed
    queue. *)
Theorem pq_search_node_first q s xs bdel sf :
  pq_rep s q xs ->
  match List.find (opt_pred sf) xs with
  | None => pq_search_node q bdel sf s = Some ((false, NULL), s)
  | Some x => exists r1 r2 s', xs = r1 ++ x :: r2 /\
      Forall (fun y => opt_pred sf y = false) r1 /\
      pq_search_node q bdel sf s = Some ((true, x), s') /\
      pq_rep s' q (if bdel then r1 ++ r2 else xs)
  end.
Proof.
  intros Hr. unfold pq_search_node.
  erewrite ST_bind_Some by by apply pq_rep_nonempty.
  destruct xs as [|y xs]; [done|].
  pose proof Hr as ([_ Hs] & _).
  pose proof (search_loop_spec q s bdel sf [] (y :: xs) (S (size (cells s))) Hr
    ltac:(pose proof (pq_rep_size q s _ Hr); lia)) as Hloop.
  destruct (List.find (opt_pred sf) (y :: xs)) as [x|] eqn:Hfind.
  - destruct Hloop as (r1 & r2 & s' & Hx & _ & Hall & Hrun & Hrep).
    exists r1, r2, s'. split_and!; [done|done| |by destruct bdel].
    erewrite ST_bind_Some by (apply lift_get_next, seg_nxt, Hs).
    unfold mbind at 1, ST_bind at 1, st_get. cbv match.
    rewrite (ST_bind_Some _ _ _ _ _ Hrun). unfold mret, ST_ret.
    rewrite (pq_rep_valid q s (y :: xs)); [done..|]. rewrite Hx. set_solver.
  - erewrite ST_bind_Some by (apply lift_get_next, seg_nxt, Hs).
    unfold mbind at 1, ST_bind at 1, st_get. cbv match.
    by rewrite (ST_bind_Some _ _ _ _ _ Hloop).
Qed.

Lemma insert_before_perm {A} (p : A -> A -> bool) x xs : insert_before p x xs ≡ₚ x :: xs.
Proof.
  induction xs as [|y xs IH]; simpl; [done|].
  destruct (p x y); [done|]. rewrite IH. apply Permutation_swap.
Qed.

Lemma insert_before_sorted (key : Z -> Z) x xs :
  StronglySorted (fun a b => key a <= key b) xs ->
  StronglySorted (fun a b => key a <= key b)
    (insert_before (fun i o => key i <? key o) x xs).
Proof.
  induction 1 as [|y xs Hs IH Hall]; simpl; [by repeat constructor|].
  destruct (key x <? key y) eqn:E.
  - constructor; [by constructor|]. constructor; [lia|].
    eapply Forall_impl; [exact Hall|]. simpl. lia.
  - constructor; [done|]. rewrite insert_before_perm. constructor; [lia|done].
Qed.

(** [pq_insert] links the new object before the first element its
    predicate accepts (at the tail when there is none) and returns [true]; used
    with the predicate "the input's key is smaller" on a queue sorted by that
    key, it keeps the queue sorted. *)
Theorem pq_insert_sorted q s xs (key : Z -> Z) input :
  pq_rep s q xs -> input ∉ q :: xs -> input <> NULL -> is_Some (cells s !! input) ->
  Z.of_nat (length xs) + 1 < 2147483648 ->
  StronglySorted (fun a b => key a <= key b) xs ->
  exists s' xs', pq_insert q (Some (fun i o => key i <? key o)) input s = Some (true, s') /\
    pq_rep s' q xs' /\ xs' ≡ₚ input :: xs /\
    StronglySorted (fun a b => key a <= key b) xs'.
Proof.
  intros Hr Hf Hn Hc Hb Hsort. pose proof Hr as ([_ Hs] & _).
  destruct (insert_loop_spec q s (Some (fun i o => key i <? key o)) input [] xs
    (S (size (cells s))) Hr ltac:(pose proof (pq_rep_size q s _ Hr); lia))
    as (r1 & r2 & -> & Hins & Hrun).
  destruct (pq_link q s r1 r2 input (list_add_tail input (List.hd q r2)))
    as (s' & Hlink & Hrep & _); try done.
  { unfold list_add_tail. by erewrite ST_bind_Some by (apply get_prev_ok, seg_split_prv, Hs). }
  exists s', (r1 ++ input :: r2). rewrite <- Hins. split_and!.
  - unfold pq_insert. erewrite ST_bind_Some by (apply lift_get_next, seg_nxt, Hs).
    unfold mbind at 1, ST_bind at 1, st_get. cbv match.
    rewrite (ST_bind_Some _ _ _ _ _ Hrun).
    by rewrite (cnt_seq q _ (fun c => s32 (c + 1)) _ _ _ Hlink).
  - by rewrite Hins.
  - apply insert_before_perm.
  - by apply insert_before_sorted.
Qed.

(** *** Witnesses *)

(** Three unlinked objects 1, 2, 3 and a queue at 100. *)
Definition demo_mem : mem :=
  Mem {[ 100 := ListHead 0 0; 1 := ListHead 0 0; 2 := ListHead 0 0; 3 := ListHead 0 0 ]} ∅.

Lemma pq_refines_deque_witness :
  exists s', (pq_init 100;; pq_run 100 [OpPush _tail 1; OpPush _tail 2; OpPush _first 3;
      OpTail; OpNext 3; OpPrev 3; OpPop _first; OpPop _tail; OpFront; OpDel 1; OpPop _first]) demo_mem =
    Some ([(true, 0); (true, 0); (true, 0); (true, 2); (true, 1); (false, 100); (true, 3); (true, 2); (true, 1); (true, 0);
           (false, 0)], s') /\ pq_rep s' 100 [].
Proof.
  apply (pq_refines_deque 100).
  - vm_compute. eauto.
  - vm_compute. reflexivity.
  - repeat constructor; vm_compute; reflexivity.
Defined.

(** A queue at 100 that holds 1, 2 and 3 in this order. *)
Definition demo_queue : mem :=
  Mem {[ 100 := ListHead 1 3; 1 := ListHead 2 100; 2 := ListHead 3 1;
         3 := ListHead 100 2; 4 := ListHead 0 0 ]} {[ 100 := 3 ]}.

Lemma demo_queue_rep : pq_rep demo_queue 100 [1; 2; 3].
Proof.
  split_and!; [split|..].
  - apply (bool_decide_unpack (NoDup [100; 1; 2; 3])). vm_compute. done.
  - vm_compute. repeat split.
  - reflexivity.
  - simpl. lia.
  - repeat constructor; unfold NULL; lia.
Qed.

Lemma pq_search_node_first_witness :
  exists r1 r2 s', [1; 2; 3] = r1 ++ 2 :: r2 /\
    Forall (fun y => opt_pred (Some (Z.eqb 2)) y = false) r1 /\
    pq_search_node 100 true (Some (Z.eqb 2)) demo_queue = Some ((true, 2), s') /\
    pq_rep s' 100 (r1 ++ r2).
Proof. exact (pq_search_node_first 100 demo_queue [1; 2; 3] true (Some (Z.eqb 2)) demo_queue_rep). Defined.

Lemma pq_insert_sorted_witness :
  exists s' xs', pq_insert 100 (Some (fun i o => i <? o)) 4 demo_queue = Some (true, s') /\
    pq_rep s' 100 xs' /\ xs' ≡ₚ [4; 1; 2; 3] /\ StronglySorted (fun a b => a <= b) xs'.
Proof.
  apply (pq_insert_sorted 100 demo_queue [1; 2; 3] (fun x => x) 4 demo_queue_rep).
  - apply (bool_decide_unpack (4 ∉ [100; 1; 2; 3])). vm_compute. done.
  - unfold NULL. lia.
  - vm_compute. eauto.
  - simpl. lia.
  - repeat constructor; lia.
Defined.
