(* ===== verification/PhlUtil.v ===== *)
(** * Bitmaps and time differences of the PHL layer

    Models the byte-array bitmaps of src/phl/phl_util.h ([_add_bitmap_bit],
    [_clr_bitmap_bit], [_chk_bitmap_bit], [_and_bitmaps]) and the elapsed-time
    helpers of src/phl/phl_util.c.  A bitmap is the list of its bytes. *)
From Stdlib Require Import ZArith Lia Bool List.
From stdpp Require Import base tactics list numbers gmap.
From S2P Require Import Prelude.

(** ** Bitmaps *)

(** [bitmap[i]] *)
Definition byte_at (bitmap : list Z) (i : Z) : Z := nth (Z.to_nat i) bitmap 0.

Definition byte_set (bitmap : list Z) (i v : Z) : list Z := <[Z.to_nat i := u8 v]> bitmap.

(** One iteration of the loop of [_add_bitmap_bit], for the entry [a]. *)
Definition add_bit (max_map_len : Z) (bitmap : list Z) (a : Z) : list Z :=
  if a / 8 <? max_map_len
  then byte_set bitmap (a / 8) (Z.lor (byte_at bitmap (a / 8)) (BIT (a mod 8)))
  else bitmap.

Definition _add_bitmap_bit (bitmap : list Z) (max_map_len : Z) (arr : list Z) (cnt : Z) :
    list Z :=
  fold_left (add_bit max_map_len) (take (Z.to_nat cnt) arr) bitmap.

Definition clr_bit (max_map_len : Z) (bitmap : list Z) (a : Z) : list Z :=
  if a / 8 <? max_map_len
  then byte_set bitmap (a / 8) (Z.land (byte_at bitmap (a / 8)) (Z.lnot (BIT (a mod 8))))
  else bitmap.

Definition _clr_bitmap_bit (bitmap : list Z) (max_map_len : Z) (arr : list Z) (cnt : Z) :
    list Z :=
  fold_left (clr_bit max_map_len) (take (Z.to_nat cnt) arr) bitmap.

Definition _chk_bitmap_bit (bitmap : list Z) (max_map_len id : Z) : bool :=
  if id / 8 <? max_map_len
  then negb (Z.land (byte_at bitmap (id / 8)) (BIT (id mod 8)) =? 0)
  else false.

(** The loop of [_and_bitmaps]; its counter [k] is a [u8] although [len] is a
    [u32]. *)
Fixpoint and_loop (fuel : nat) (ref bitmap : list Z) (len k : Z) : option (list Z) :=
  match fuel with
  | O => None
  | S f =>
    if k <? len then
      and_loop f ref (byte_set bitmap k (Z.land (byte_at bitmap k) (byte_at ref k))) len
        (u8 (k + 1))
    else Some bitmap
  end.

Definition _and_bitmaps (ref bitmap : list Z) (len : Z) : option (list Z) :=
  and_loop 257 ref bitmap len 0.

(** ** Elapsed time; [now] is what the operating system's clock returns. *)

Definition phl_get_passing_time_us (now start : Z) : Z :=
  if now =? start then 0
  else if start <? now then u32 (now - start)
  else u32 (u32 (4294967295 - start) + now).

Definition phl_get_passing_time_ms (now start : Z) : Z :=
  if now =? start then 0
  else if start <? now then u32 (now - start)
  else u32 (u32 (4294967295 - start) + now).

(** ** Lemmas *)

Section Bitmaps.
Context (len : Z) (Hlen : 0 <= len).

Definition wf_bitmap (bitmap : list Z) : Prop :=
  Z.of_nat (length bitmap) = len /\ Forall is_u8 bitmap.

Lemma byte_set_at bitmap i j v :
  0 <= i < Z.of_nat (length bitmap) -> 0 <= j ->
  byte_at (byte_set bitmap i v) j = if j =? i then u8 v else byte_at bitmap j.
Proof.
  intros Hi Hj. unfold byte_at, byte_set. rewrite !nth_lookup.
  destruct (Z.eqb_spec j i) as [->|Hne].
  - by rewrite list_lookup_insert_eq by lia.
  - by rewrite list_lookup_insert_ne by lia.
Qed.

Lemma byte_set_wf bitmap i v : wf_bitmap bitmap -> wf_bitmap (byte_set bitmap i v).
Proof.
  intros [Hl Hf]. split; unfold byte_set; [by rewrite length_insert|].
  apply Forall_insert; auto with rtw.
Qed.

Lemma chk_testbit bitmap id :
  _chk_bitmap_bit bitmap len id =
    (id / 8 <? len) && Z.testbit (byte_at bitmap (id / 8)) (id mod 8).
Proof.
  unfold _chk_bitmap_bit. destruct (id / 8 <? len); [|done].
  by rewrite land_BIT by zlia.
Qed.

Lemma same_id a id : id / 8 = a / 8 -> (id mod 8 =? a mod 8) = (id =? a).
Proof. intros. destruct (Z.eqb_spec (id mod 8) (a mod 8)), (Z.eqb_spec id a); zlia. Qed.

Lemma add_bit_chk bitmap a id :
  wf_bitmap bitmap -> 0 <= a -> 0 <= id ->
  _chk_bitmap_bit (add_bit len bitmap a) len id =
    _chk_bitmap_bit bitmap len id || ((id =? a) && (id / 8 <? len)).
Proof.
  intros [Hl Hf] Ha Hid. rewrite !chk_testbit. unfold add_bit.
  destruct (a / 8 <? len) eqn:E.
  - rewrite byte_set_at by zlia. destruct (Z.eqb_spec (id / 8) (a / 8)) as [Heq|Hne].
    + rewrite testbit_u8, testbit_lor_BIT, same_id, Heq by (done || zlia).
      rewrite E. by rewrite andb_true_r.
    + destruct (Z.eqb_spec id a); [congruence|]. by rewrite orb_false_r.
  - destruct (Z.eqb_spec id a); [subst; rewrite E|]; by rewrite ?orb_false_r.
Qed.

Lemma clr_bit_chk bitmap a id :
  wf_bitmap bitmap -> 0 <= a -> 0 <= id ->
  _chk_bitmap_bit (clr_bit len bitmap a) len id =
    _chk_bitmap_bit bitmap len id && negb (id =? a).
Proof.
  intros [Hl Hf] Ha Hid. rewrite !chk_testbit. unfold clr_bit.
  destruct (a / 8 <? len) eqn:E.
  - rewrite byte_set_at by zlia. destruct (Z.eqb_spec (id / 8) (a / 8)) as [Heq|Hne].
    + rewrite testbit_u8, testbit_land_lnot_BIT, same_id, Heq by (done || zlia).
      by rewrite andb_assoc.
    + destruct (Z.eqb_spec id a); [congruence|]. by rewrite andb_true_r.
  - destruct (Z.eqb_spec id a); [subst; rewrite E|]; by rewrite ?andb_true_r.
Qed.

Lemma add_bit_wf bitmap a : wf_bitmap bitmap -> wf_bitmap (add_bit len bitmap a).
Proof. intros. unfold add_bit. destruct (_ <? _); [|done]. by apply byte_set_wf. Qed.

Lemma clr_bit_wf bitmap a : wf_bitmap bitmap -> wf_bitmap (clr_bit len bitmap a).
Proof. intros. unfold clr_bit. destruct (_ <? _); [|done]. by apply byte_set_wf. Qed.

Definition mem_id (id : Z) (l : list Z) : bool := existsb (Z.eqb id) l.

Lemma add_loop_chk l bitmap id :
  wf_bitmap bitmap -> Forall (fun a => 0 <= a) l -> 0 <= id ->
  wf_bitmap (fold_left (add_bit len) l bitmap) /\
  _chk_bitmap_bit (fold_left (add_bit len) l bitmap) len id =
    _chk_bitmap_bit bitmap len id || (mem_id id l && (id / 8 <? len)).
Proof.
  revert bitmap. induction l as [|a l IH]; intros bitmap Hwf Hf Hid; simpl.
  - by rewrite orb_false_r.
  - inversion Hf; subst. destruct (IH (add_bit len bitmap a)) as [Hw ->];
      [by apply add_bit_wf|done..|]. split; [done|]. rewrite add_bit_chk by done.
    by destruct (_chk_bitmap_bit _ _ _), (id =? a), (mem_id id l), (id / 8 <? len).
Qed.

Lemma clr_loop_chk l bitmap id :
  wf_bitmap bitmap -> Forall (fun a => 0 <= a) l -> 0 <= id ->
  wf_bitmap (fold_left (clr_bit len) l bitmap) /\
  _chk_bitmap_bit (fold_left (clr_bit len) l bitmap) len id =
    _chk_bitmap_bit bitmap len id && negb (mem_id id l).
Proof.
  revert bitmap. induction l as [|a l IH]; intros bitmap Hwf Hf Hid; simpl.
  - by rewrite andb_true_r.
  - inversion Hf; subst. destruct (IH (clr_bit len bitmap a)) as [Hw ->];
      [by apply clr_bit_wf|done..|]. split; [done|]. rewrite clr_bit_chk by done.
    by destruct (_chk_bitmap_bit _ _ _), (id =? a), (mem_id id l).
Qed.
End Bitmaps.

Lemma land_u8 a b : is_u8 a -> is_u8 (Z.land a b).
Proof.
  intros Ha. assert (Z.land a b = u8 (Z.land a b)) as ->; [|apply u8_range].
  apply Z.bits_inj'. intros n Hn. unfold u8. change 256 with (2 ^ 8).
  rewrite (Z.land_spec a b).
  destruct (Z.ltb_spec n 8).
  - by rewrite Z.mod_pow2_bits_low, Z.land_spec by lia.
  - rewrite Z.mod_pow2_bits_high by lia.
    rewrite <- (u8_small a Ha). unfold u8. change 256 with (2 ^ 8).
    by rewrite Z.mod_pow2_bits_high by lia.
Qed.

Lemma byte_at_u8 bitmap i : Forall is_u8 bitmap -> is_u8 (byte_at bitmap i).
Proof.
  intros Hf. unfold byte_at. rewrite nth_lookup.
  destruct (bitmap !! Z.to_nat i) eqn:E; simpl; [|ulia].
  by eapply Forall_lookup_1 in Hf.
Qed.

Lemma and_loop_spec ref len n : forall bitmap k,
  Forall is_u8 bitmap -> 0 <= k -> len = k + Z.of_nat n -> len <= 255 ->
  len <= Z.of_nat (length bitmap) ->
  exists r, and_loop (S n) ref bitmap len k = Some r /\ length r = length bitmap /\
    forall j, 0 <= j -> byte_at r j =
      if (k <=? j) && (j <? len) then Z.land (byte_at bitmap j) (byte_at ref j)
      else byte_at bitmap j.
Proof.
  induction n as [|n IH]; intros bitmap k Hf Hk Hn Hl Hlen; cbn [and_loop].
  - rewrite (proj2 (Z.ltb_ge k len)) by lia. exists bitmap. split_and!; try done.
    intros j Hj. by destruct (k <=? j) eqn:?, (j <? len) eqn:?; try lia.
  - rewrite (proj2 (Z.ltb_lt k len)), u8_small by ulia.
    destruct (IH (byte_set bitmap k (Z.land (byte_at bitmap k) (byte_at ref k))) (k + 1))
      as (r & Hr & Hlr & Hb); try lia.
    { apply Forall_insert; auto with rtw. }
    { unfold byte_set. rewrite length_insert. lia. }
    exists r. split_and!; [done|by unfold byte_set in Hlr; rewrite length_insert in Hlr|].
    intros j Hj. rewrite Hb, byte_set_at by lia.
    destruct (Z.eqb_spec j k) as [->|Hne].
    + rewrite (u8_small (Z.land _ _)) by (apply land_u8, byte_at_u8, Hf).
      destruct (k + 1 <=? k) eqn:?, (k <=? k) eqn:?, (k <? len) eqn:?; done || lia.
    + destruct (k + 1 <=? j) eqn:?, (k <=? j) eqn:?, (j <? len) eqn:?; done || lia.
Qed.

(** ** Properties *)

(** The byte bitmaps are sets of ids: adding a list of ids is union
    (restricted to the ids the map has room for), clearing is difference, no
    other id changes, and no byte leaves its 8-bit range. *)
Theorem bitmap_set_algebra bitmap len arr id :
  wf_bitmap len bitmap -> Forall is_u8 arr -> is_u8 id ->
  _chk_bitmap_bit (_add_bitmap_bit bitmap len arr (Z.of_nat (length arr))) len id =
    _chk_bitmap_bit bitmap len id || (mem_id id arr && (id / 8 <? len)) /\
  _chk_bitmap_bit (_clr_bitmap_bit bitmap len arr (Z.of_nat (length arr))) len id =
    _chk_bitmap_bit bitmap len id && negb (mem_id id arr) /\
  wf_bitmap len (_add_bitmap_bit bitmap len arr (Z.of_nat (length arr))) /\
  wf_bitmap len (_clr_bitmap_bit bitmap len arr (Z.of_nat (length arr))).
Proof.
  intros Hwf Harr Hid.
  assert (Forall (fun a => 0 <= a) arr) as Hpos
    by (eapply List.Forall_impl; [|exact Harr]; unfold is_u8; simpl; lia).
  assert (0 <= len) as Hlen by (destruct Hwf; lia).
  unfold _add_bitmap_bit, _clr_bitmap_bit. rewrite Nat2Z.id, take_ge by lia.
  destruct (add_loop_chk len Hlen arr bitmap id) as [H1 H2]; [done|done|ulia|].
  destruct (clr_loop_chk len Hlen arr bitmap id) as [H3 H4]; [done|done|ulia|].
  done.
Qed.

Lemma bitmap_set_algebra_witness :
  _chk_bitmap_bit (_add_bitmap_bit [0; 128] 2 [3; 9; 77] 3) 2 9 = true /\
  wf_bitmap 2 (_add_bitmap_bit [0; 128] 2 [3; 9; 77] 3).
Proof.
  destruct (bitmap_set_algebra [0; 128] 2 [3; 9; 77] 9) as (H1 & _ & H2 & _).
  - split; [reflexivity|]. repeat constructor; ulia.
  - repeat constructor; ulia.
  - ulia.
  - split; [exact (eq_trans H1 eq_refl)|exact H2].
Defined.

(** [_and_bitmaps] terminates and intersects the two maps for every length
    up to 255; for a longer map its 8-bit counter wraps and the loop never
    ends, whatever the bound on the number of iterations. *)
Theorem and_bitmaps_intersection ref bitmap len :
  Forall is_u8 bitmap -> 0 <= len <= Z.of_nat (length bitmap) ->
  (len <= 255 -> exists r, _and_bitmaps ref bitmap len = Some r /\
     forall id, 0 <= id ->
       _chk_bitmap_bit r len id =
         _chk_bitmap_bit bitmap len id && _chk_bitmap_bit ref len id) /\
  (255 < len -> forall fuel k, is_u8 k -> and_loop fuel ref bitmap len k = None).
Proof.
  intros Hf Hlen. split.
  - intros Hl. destruct (and_loop_spec ref len (Z.to_nat len) bitmap 0) as (r & Hr & _ & Hb);
      try lia; try done.
    exists r. split.
    + unfold _and_bitmaps.
      assert (forall f f' b k x, (f <= f')%nat -> and_loop f ref b len k = Some x ->
                and_loop f' ref b len k = Some x) as Hmono.
      { induction f as [|f IH]; intros [|f'] b k x Hff; simpl; try done; try lia.
        destruct (k <? len); [|done]. apply IH. lia. }
      apply (Hmono (S (Z.to_nat len))); [lia|done].
    + intros id Hid. rewrite !chk_testbit by lia. rewrite Hb by zlia.
      destruct (id / 8 <? len) eqn:E; [|done].
      rewrite (proj2 (Z.leb_le 0 (id / 8))) by zlia. cbn [andb]. by rewrite Z.land_spec.
  - intros Hl fuel. clear Hf Hlen. revert bitmap.
    induction fuel as [|fuel IH]; intros bitmap k Hk; [done|].
    cbn [and_loop]. rewrite (proj2 (Z.ltb_lt k len)) by ulia. apply IH, u8_range.
Qed.

Lemma and_bitmaps_intersection_witness :
  exists r, _and_bitmaps [6; 255] [3; 129] 2 = Some r /\
    forall id, 0 <= id ->
      _chk_bitmap_bit r 2 id = _chk_bitmap_bit [3; 129] 2 id && _chk_bitmap_bit [6; 255] 2 id.
Proof.
  apply (and_bitmaps_intersection [6; 255] [3; 129] 2).
  - repeat constructor; ulia.
  - simpl. lia.
  - lia.
Defined.

(** The elapsed time of two 32-bit clock readings: exact when the clock
    has not wrapped, and one unit short of the true difference modulo 2^32 when
    it has. *)
Theorem passing_time_characterized now start :
  is_u32 now -> is_u32 start ->
  phl_get_passing_time_ms now start =
    (if start <=? now then u32 (now - start) else u32 (now - start) - 1) /\
  phl_get_passing_time_us now start = phl_get_passing_time_ms now start /\
  is_u32 (phl_get_passing_time_ms now start).
Proof.
  intros Hn Hs. unfold phl_get_passing_time_us, phl_get_passing_time_ms.
  destruct (Z.eqb_spec now start), (Z.ltb_spec start now), (Z.leb_spec start now);
    split_and!; ulia.
Qed.

Lemma passing_time_characterized_witness :
  phl_get_passing_time_ms 5 4294967290 = 10 /\ u32 (5 - 4294967290) = 11.
Proof.
  destruct (passing_time_characterized 5 4294967290) as (H & _); [ulia..|].
  rewrite H. split; reflexivity.
Defined.
