(* ===== verification/Macid.v ===== *)
(** * MAC id allocation

    Models the [macid ctrl] section of src/phl/phl_sta.c: the 32-bit word
    bitmaps of used MAC ids, the allocation for legacy and multi-link stations,
    the release, and the lookups by MAC id.  Stations and roles are named by
    their addresses and ids; the spinlock makes each function one step. *)
From Stdlib Require Import ZArith Lia Bool List.
From stdpp Require Import base tactics list numbers gmap.
From S2P Require Import Prelude.

(** [enum rtw_device_type] *)
Inductive rtw_device_type := DEV_TYPE_INACTIVE | DEV_TYPE_LEGACY | DEV_TYPE_MLD.

Definition PHL_MACID_MAX_ARRAY_NUM : Z := 8.

Definition PHL_MACID_MAX_NUM : Z := PHL_MACID_MAX_ARRAY_NUM * 32.

Definition MAX_WIFI_ROLE_NUMBER : Z := 5.

Definition RTW_RLINK_MAX : Z := 2.

Definition RTW_ONE_LINK : Z := 1.

(** [struct macid_ctl_t] *)
Record macid_ctl_t := MacidCtl {
  used_map : list Z;
  used_mld_map : list Z;
  used_legacy_map : list Z;
  bmc_map : list Z;
  wifi_role_usedmap : list (list Z);
  wrole_bmc : list (list Z);
  sta : list (option Z);
  max_num : Z
}.

(** The two capabilities the allocation reads: [dev_cap.max_mld_num] (u16) and
    [dev_cap.max_link_num] (u8). *)
Record dev_cap_t := DevCap { max_mld_num : Z; max_link_num : Z }.

(** The fields of [struct rtw_phl_stainfo_t] used here; [si_wrole] is the
    role's id, [None] the [NULL] role pointer. *)
Record stainfo := StaInfo {
  si_ptr : Z;
  si_wrole : option Z;
  si_rlink : Z;
  si_mac_addr : list Z;
  si_macid : Z
}.

Definition set_si_macid (s : stainfo) (m : Z) : stainfo :=
  StaInfo (si_ptr s) (si_wrole s) (si_rlink s) (si_mac_addr s) m.

Definition set_used_map (mc : macid_ctl_t) (m : list Z) : macid_ctl_t :=
  MacidCtl m (used_mld_map mc) (used_legacy_map mc) (bmc_map mc)
    (wifi_role_usedmap mc) (wrole_bmc mc) (sta mc) (max_num mc).

Definition set_used_mld_map (mc : macid_ctl_t) (m : list Z) : macid_ctl_t :=
  MacidCtl (used_map mc) m (used_legacy_map mc) (bmc_map mc)
    (wifi_role_usedmap mc) (wrole_bmc mc) (sta mc) (max_num mc).

Definition set_used_legacy_map (mc : macid_ctl_t) (m : list Z) : macid_ctl_t :=
  MacidCtl (used_map mc) (used_mld_map mc) m (bmc_map mc)
    (wifi_role_usedmap mc) (wrole_bmc mc) (sta mc) (max_num mc).

Definition set_bmc_map (mc : macid_ctl_t) (m : list Z) : macid_ctl_t :=
  MacidCtl (used_map mc) (used_mld_map mc) (used_legacy_map mc) m
    (wifi_role_usedmap mc) (wrole_bmc mc) (sta mc) (max_num mc).

Definition set_role_map (mc : macid_ctl_t) (role : Z) (f : list Z -> list Z) : macid_ctl_t :=
  MacidCtl (used_map mc) (used_mld_map mc) (used_legacy_map mc) (bmc_map mc)
    (alter f (Z.to_nat role) (wifi_role_usedmap mc)) (wrole_bmc mc) (sta mc) (max_num mc).

Definition set_sta (mc : macid_ctl_t) (mid : Z) (p : option Z) : macid_ctl_t :=
  MacidCtl (used_map mc) (used_mld_map mc) (used_legacy_map mc) (bmc_map mc)
    (wifi_role_usedmap mc) (wrole_bmc mc) (<[Z.to_nat mid := p]> (sta mc)) (max_num mc).

(** ** Word bitmaps *)

Definition word_at (map : list Z) (i : Z) : Z := nth (Z.to_nat i) map 0.

Definition _phl_macid_is_used (map : list Z) (id : Z) : bool :=
  negb (Z.land (word_at map (id / 32)) (BIT (id mod 32)) =? 0).

Definition phl_macid_map_clr (map : list Z) (id : Z) : list Z :=
  <[Z.to_nat (id / 32) := u32 (Z.land (word_at map (id / 32)) (Z.lnot (BIT (id mod 32))))]> map.

Definition phl_macid_map_set (map : list Z) (id : Z) : list Z :=
  <[Z.to_nat (id / 32) := u32 (Z.lor (word_at map (id / 32)) (BIT (id mod 32)))]> map.

(** ** Initialisation *)

(** [macid_ctrl] is zeroed with the rest of [phl_info] before this runs. *)
Definition macid_ctl_zero : macid_ctl_t :=
  MacidCtl (replicate 8 0) (replicate 8 0) (replicate 8 0) (replicate 8 0)
    (replicate 5 (replicate 8 0)) (replicate 5 (replicate 2 0)) (replicate 256 None) 0.

Definition phl_macid_ctrl_init (hw_macid_num sw_macid_num : Z) (mc : macid_ctl_t) :
    rtw_phl_status * macid_ctl_t :=
  if hw_macid_num =? 0 then (RTW_PHL_STATUS_FAILURE, mc)
  else
    let mx := if hw_macid_num <? sw_macid_num then hw_macid_num else sw_macid_num in
    (RTW_PHL_STATUS_SUCCESS,
     MacidCtl (used_map mc) (used_mld_map mc) (used_legacy_map mc) (bmc_map mc)
       (wifi_role_usedmap mc)
       (replicate (Z.to_nat MAX_WIFI_ROLE_NUMBER) (replicate (Z.to_nat RTW_RLINK_MAX) mx))
       (sta mc) mx).

Definition phl_macid_ctrl_deinit (mc : macid_ctl_t) : rtw_phl_status * macid_ctl_t :=
  (RTW_PHL_STATUS_SUCCESS,
   MacidCtl (used_map mc) (used_mld_map mc) (used_legacy_map mc) (bmc_map mc)
     (wifi_role_usedmap mc) (wrole_bmc mc) (sta mc) 0).

(** ** Allocation *)

(** [for (mid = lo; mid < hi; mid++) if (p mid) return mid;] *)
Definition first_such (p : Z -> bool) (lo hi : Z) : option Z :=
  List.find p (seqZ lo (hi - lo)).

Definition _phl_wrole_bcmc_id_set (mc : macid_ctl_t) (wrole rlink id : Z) : macid_ctl_t :=
  MacidCtl (used_map mc) (used_mld_map mc) (used_legacy_map mc) (bmc_map mc)
    (wifi_role_usedmap mc)
    (alter (fun row => <[Z.to_nat rlink := id]> row) (Z.to_nat wrole) (wrole_bmc mc))
    (sta mc) (max_num mc).

Definition _phl_alloc_mld_macid (cap : dev_cap_t) (mc : macid_ctl_t) (main_id : Z) :
    Z * macid_ctl_t :=
  let max_macid_num := max_num mc in
  if max_macid_num =? main_id then
    if RTW_ONE_LINK =? max_link_num cap then
      match first_such (fun mid => negb (_phl_macid_is_used (used_map mc) mid)) 0 max_macid_num with
      | Some mid => (mid, mc)
      | None => (max_macid_num, mc)
      end
    else
      match first_such (fun mid => negb (_phl_macid_is_used (used_mld_map mc) mid) &&
                                   negb (_phl_macid_is_used (used_legacy_map mc) mid))
              0 (max_mld_num cap) with
      | Some mid => (mid, set_used_mld_map mc (phl_macid_map_set (used_mld_map mc) mid))
      | None => (max_macid_num, mc)
      end
  else
    let main_id := main_id mod max_mld_num cap in
    match first_such (fun lidx => negb (_phl_macid_is_used (used_map mc)
                                          (u16 (main_id + max_mld_num cap * lidx))))
            0 (max_link_num cap) with
    | Some lidx => (u16 (main_id + max_mld_num cap * lidx), mc)
    | None => (max_macid_num, mc)
    end.

(** The loop over the MLD groups of [_phl_alloc_legacy_macid]: [inl] is an
    early [return], [inr] the value of [avail_macid] after the loop. *)
Fixpoint legacy_loop (cap : dev_cap_t) (mc : macid_ctl_t) (mids : list Z) (avail_macid : Z) :
    Z + Z :=
  match mids with
  | [] => inr avail_macid
  | mid :: rest =>
    if _phl_macid_is_used (used_mld_map mc) mid then legacy_loop cap mc rest avail_macid
    else if negb (_phl_macid_is_used (used_legacy_map mc) mid) then
      legacy_loop cap mc rest (if avail_macid =? max_num mc then mid else avail_macid)
    else
      match first_such (fun lidx => negb (_phl_macid_is_used (used_map mc)
                                            (u16 (mid + max_mld_num cap * lidx))))
              0 (max_link_num cap) with
      | Some lidx => inl (u16 (mid + max_mld_num cap * lidx))
      | None => legacy_loop cap mc rest avail_macid
      end
  end.

Definition _phl_alloc_legacy_macid (cap : dev_cap_t) (mc : macid_ctl_t) : Z * macid_ctl_t :=
  let max_macid_num := max_num mc in
  let finish avail_macid :=
    if negb (avail_macid =? max_macid_num)
    then (avail_macid, set_used_legacy_map mc (phl_macid_map_set (used_legacy_map mc) avail_macid))
    else (avail_macid, mc) in
  if RTW_ONE_LINK =? max_link_num cap then
    match first_such (fun mid => negb (_phl_macid_is_used (used_map mc) mid)) 0 max_macid_num with
    | Some mid => (mid, mc)
    | None => finish max_macid_num
    end
  else
    let rsvd_macid := u16 (max_mld_num cap * max_link_num cap) in
    let above := if (0 <? rsvd_macid) && (rsvd_macid <? max_macid_num)
                 then first_such (fun mid => negb (_phl_macid_is_used (used_map mc) mid))
                        rsvd_macid max_macid_num
                 else None in
    match above with
    | Some mid => (mid, mc)
    | None =>
      match legacy_loop cap mc (seqZ 0 (max_mld_num cap)) max_macid_num with
      | inl mid => (mid, mc)
      | inr avail_macid => finish avail_macid
      end
    end.

(** [_os_mem_cmp(bc_addr, mac_addr, MAC_ALEN) == 0] *)
Definition is_bc_addr (a : list Z) : bool := bool_decide (a = replicate 6 255).

Definition _phl_alloc_macid (cap : dev_cap_t) (mc : macid_ctl_t) (dtype : rtw_device_type)
    (main_id : Z) (phl_sta : stainfo) : rtw_phl_status * macid_ctl_t * stainfo :=
  match si_wrole phl_sta with
  | None => (RTW_PHL_STATUS_FAILURE, mc, phl_sta)
  | Some wrole =>
    let '(mid, mc1) := match dtype with
                       | DEV_TYPE_MLD => _phl_alloc_mld_macid cap mc main_id
                       | _ => _phl_alloc_legacy_macid cap mc
                       end in
    if mid =? max_num mc then
      (RTW_PHL_STATUS_FAILURE, mc1, set_si_macid phl_sta (max_num mc))
    else
      let mc2 := set_used_map mc1 (phl_macid_map_set (used_map mc1) mid) in
      let mc3 := set_role_map mc2 wrole (fun m => phl_macid_map_set m mid) in
      let mc4 := set_sta mc3 mid (Some (si_ptr phl_sta)) in
      let mc5 := if is_bc_addr (si_mac_addr phl_sta)
                 then _phl_wrole_bcmc_id_set (set_bmc_map mc4 (phl_macid_map_set (bmc_map mc4) mid))
                        wrole (si_rlink phl_sta) mid
                 else mc4 in
      (RTW_PHL_STATUS_SUCCESS, mc5, set_si_macid phl_sta mid)
  end.

(** ** Release *)

(** The code dereferences the role pointer without a test; a station that got
    its MAC id from [_phl_alloc_macid] has a role. *)
Definition _phl_release_macid (cap : dev_cap_t) (mc : macid_ctl_t) (phl_sta : stainfo) :
    rtw_phl_status * macid_ctl_t * stainfo :=
  let invalid_macid := max_num mc in
  let exit status mc' := (status, mc', set_si_macid phl_sta invalid_macid) in
  let macid := si_macid phl_sta in
  if invalid_macid <=? macid then exit RTW_PHL_STATUS_FAILURE mc
  else if negb (_phl_macid_is_used (used_map mc) macid) then exit RTW_PHL_STATUS_FAILURE mc
  else
    let mc1 := set_used_map mc (phl_macid_map_clr (used_map mc) macid) in
    let mc2 := match si_wrole phl_sta with
               | Some w => set_role_map mc1 w (fun m => phl_macid_map_clr m macid)
               | None => mc1
               end in
    let mc3 := set_sta mc2 macid None in
    let mc4 := if is_bc_addr (si_mac_addr phl_sta)
               then set_bmc_map mc3 (phl_macid_map_clr (bmc_map mc3) macid) else mc3 in
    let mc5 :=
      if negb (max_mld_num cap =? 0) then
        let mid := macid mod max_mld_num cap in
        match first_such (fun lidx => _phl_macid_is_used (used_map mc4)
                                        (u16 (mid + max_mld_num cap * lidx)))
                0 (max_link_num cap) with
        | Some _ => mc4
        | None =>
          set_used_legacy_map
            (set_used_mld_map mc4 (phl_macid_map_clr (used_mld_map mc4) mid))
            (phl_macid_map_clr (used_legacy_map mc4) mid)
        end
      else mc4 in
    exit RTW_PHL_STATUS_SUCCESS mc5.

(** ** Queries *)

Definition rtw_phl_wrole_bcmc_id_get (mc : macid_ctl_t) (wrole rlink : Z) : Z :=
  nth (Z.to_nat rlink) (nth (Z.to_nat wrole) (wrole_bmc mc) []) 0.

Definition rtw_phl_get_macid_max_num (mc : macid_ctl_t) : Z := max_num mc.

Definition rtw_phl_macid_is_bmc (mc : macid_ctl_t) (macid : Z) : bool :=
  if max_num mc <=? macid then true else _phl_macid_is_used (bmc_map mc) macid.

Definition rtw_phl_macid_is_used (mc : macid_ctl_t) (macid : Z) : bool :=
  if max_num mc <=? macid then true else _phl_macid_is_used (used_map mc) macid.

Definition phl_macid_is_valid (mc : macid_ctl_t) (macid : Z) : bool := macid <? max_num mc.

(** The role loop of the two ownership tests: [iface_bmp] collects the roles
    whose map has the id. *)
Fixpoint shared_loop (maps : list (list Z)) (i : Z) (macid iface_bmp : Z) : bool :=
  match maps with
  | [] => false
  | m :: rest =>
    if _phl_macid_is_used m macid then
      if negb (iface_bmp =? 0) then true
      else shared_loop rest (i + 1) macid (u8 (Z.lor iface_bmp (BIT i)))
    else shared_loop rest (i + 1) macid iface_bmp
  end.

Definition rtw_phl_macid_is_wrole_shared (mc : macid_ctl_t) (macid : Z) : bool :=
  if max_num mc <=? macid then false else shared_loop (wifi_role_usedmap mc) 0 macid 0.

Fixpoint specific_loop (maps : list (list Z)) (i : Z) (macid wrole iface_bmp : Z) : bool :=
  match maps with
  | [] => negb (iface_bmp =? 0)
  | m :: rest =>
    if _phl_macid_is_used m macid then
      if negb (iface_bmp =? 0) || negb (i =? wrole) then false
      else specific_loop rest (i + 1) macid wrole (u8 (Z.lor iface_bmp (BIT i)))
    else specific_loop rest (i + 1) macid wrole iface_bmp
  end.

Definition rtw_phl_macid_is_wrole_specific (mc : macid_ctl_t) (macid wrole : Z) : bool :=
  if max_num mc <=? macid then false else specific_loop (wifi_role_usedmap mc) 0 macid wrole 0.

Definition rtw_phl_get_stainfo_by_macid (mc : macid_ctl_t) (macid : Z) : option Z :=
  if max_num mc <=? macid then None
  else if _phl_macid_is_used (used_map mc) macid
  then nth (Z.to_nat macid) (sta mc) None else None.

(** ** Bitmap lemmas *)

Definition wf_map (m : list Z) : Prop := length m = 8%nat.

Lemma is_used_testbit m id :
  0 <= id -> _phl_macid_is_used m id = Z.testbit (word_at m (id / 32)) (id mod 32).
Proof. intros. unfold _phl_macid_is_used. by rewrite land_BIT by zlia. Qed.

Lemma word_at_insert m i j v :
  wf_map m -> 0 <= i < 8 -> 0 <= j ->
  word_at (<[Z.to_nat i := v]> m) j = if j =? i then v else word_at m j.
Proof.
  intros Hl Hi Hj. unfold word_at. unfold wf_map in Hl. rewrite !nth_lookup.
  destruct (Z.eqb_spec j i) as [->|Hne].
  - by rewrite list_lookup_insert_eq by lia.
  - by rewrite list_lookup_insert_ne by lia.
Qed.

Lemma same_macid a id : id / 32 = a / 32 -> (id mod 32 =? a mod 32) = (id =? a).
Proof. intros. destruct (Z.eqb_spec (id mod 32) (a mod 32)), (Z.eqb_spec id a); zlia. Qed.

Lemma map_set_used m i j :
  wf_map m -> 0 <= i < 256 -> 0 <= j ->
  _phl_macid_is_used (phl_macid_map_set m i) j = _phl_macid_is_used m j || (j =? i).
Proof.
  intros Hm Hi Hj. rewrite !is_used_testbit by done. unfold phl_macid_map_set.
  rewrite word_at_insert by (done || zlia).
  destruct (Z.eqb_spec (j / 32) (i / 32)) as [Heq|Hne].
  - by rewrite testbit_u32, testbit_lor_BIT, same_macid, Heq by (done || zlia).
  - destruct (Z.eqb_spec j i); [congruence|]. by rewrite orb_false_r.
Qed.

Lemma map_clr_used m i j :
  wf_map m -> 0 <= i < 256 -> 0 <= j ->
  _phl_macid_is_used (phl_macid_map_clr m i) j = _phl_macid_is_used m j && negb (j =? i).
Proof.
  intros Hm Hi Hj. rewrite !is_used_testbit by done. unfold phl_macid_map_clr.
  rewrite word_at_insert by (done || zlia).
  destruct (Z.eqb_spec (j / 32) (i / 32)) as [Heq|Hne].
  - by rewrite testbit_u32, testbit_land_lnot_BIT, same_macid, Heq by (done || zlia).
  - destruct (Z.eqb_spec j i); [congruence|]. by rewrite andb_true_r.
Qed.

Lemma map_set_wf m i : wf_map m -> wf_map (phl_macid_map_set m i).
Proof. unfold wf_map, phl_macid_map_set. by rewrite length_insert. Qed.

Lemma map_clr_wf m i : wf_map m -> wf_map (phl_macid_map_clr m i).
Proof. unfold wf_map, phl_macid_map_clr. by rewrite length_insert. Qed.

#[export] Hint Resolve map_set_wf map_clr_wf : rtw.

Lemma first_such_Some p lo hi x :
  first_such p lo hi = Some x -> lo <= x < hi /\ p x = true.
Proof.
  unfold first_such. intros H. apply find_some in H as [H ?]. split; [|done].
  apply list_elem_of_In, elem_of_seqZ in H. lia.
Qed.

Lemma first_such_None p lo hi x :
  first_such p lo hi = None -> lo <= x < hi -> p x = false.
Proof.
  unfold first_such. intros H Hx. eapply find_none in H; [exact H|].
  apply list_elem_of_In, elem_of_seqZ. lia.
Qed.

Lemma seqZ_range n : Forall (fun g => 0 <= g < n) (seqZ 0 n).
Proof.
  apply List.Forall_forall. intros x Hx. apply list_elem_of_In, elem_of_seqZ in Hx. lia.
Qed.

(** ** Invariant *)

Section Alloc.
Context (cap : dev_cap_t).

Local Abbreviation mld := (max_mld_num cap).
Local Abbreviation link := (max_link_num cap).

Definition used (mc : macid_ctl_t) (i : Z) : bool := _phl_macid_is_used (used_map mc) i.

(** Group [g] is reserved, to an MLD or to legacy stations. *)
Definition flag (mc : macid_ctl_t) (g : Z) : bool :=
  _phl_macid_is_used (used_mld_map mc) g || _phl_macid_is_used (used_legacy_map mc) g.

(** The capabilities describe groups that fit below [max_num]; a chip without
    multi-link operation, as the 8851B, has one link and no group. *)
Definition wf_cap (mx : Z) : Prop :=
  0 <= mld /\ 1 <= link <= 255 /\ mld * link <= mx.

(** Every map has its size; a MAC id is used exactly when its slot holds a
    station; with several links, a group is reserved exactly when one of its ids
    is used, and never to a multi-link device and to legacy stations at once. *)
Record macid_inv (mc : macid_ctl_t) : Prop := MacidInv {
  inv_used : wf_map (used_map mc);
  inv_mld : wf_map (used_mld_map mc);
  inv_legacy : wf_map (used_legacy_map mc);
  inv_sta : length (sta mc) = 256%nat;
  inv_max : 0 < max_num mc <= 256;
  inv_cap : wf_cap (max_num mc);
  inv_slot : forall i, 0 <= i < max_num mc ->
    used mc i = match nth (Z.to_nat i) (sta mc) None with Some _ => true | None => false end;
  inv_group : link <> 1 -> forall g l, 0 <= g < mld -> 0 <= l < link ->
    used mc (g + mld * l) = true -> flag mc g = true;
  inv_flag : link <> 1 -> forall g, 0 <= g < mld -> flag mc g = true ->
    exists l, 0 <= l < link /\ used mc (g + mld * l) = true;
  inv_excl : forall g, 0 <= g < mld ->
    _phl_macid_is_used (used_mld_map mc) g && _phl_macid_is_used (used_legacy_map mc) g = false
}.

Lemma group_bound mx g l : wf_cap mx -> 0 <= g < mld -> 0 <= l < link -> 0 <= g + mld * l < mx.
Proof. intros (? & ? & ?) ? ?. nia. Qed.

Lemma group_mod g l : 0 <= g < mld -> 0 <= l -> (g + mld * l) mod mld = g.
Proof. intros. rewrite Z.mul_comm, Z.mod_add by lia. apply Z.mod_small. lia. Qed.

(** What the choice of a MAC id guarantees: it is free, in range, in a group
    that is reserved afterwards, and only reservations were added. *)
Record chosen (mc : macid_ctl_t) (mid : Z) (mc1 : macid_ctl_t) : Prop := Chosen {
  ch_range : 0 <= mid < max_num mc;
  ch_free : used mc mid = false;
  ch_used : used_map mc1 = used_map mc;
  ch_mld : wf_map (used_mld_map mc1);
  ch_legacy : wf_map (used_legacy_map mc1);
  ch_sta : sta mc1 = sta mc;
  ch_max : max_num mc1 = max_num mc;
  ch_flag_mono : forall g, 0 <= g -> flag mc g = true -> flag mc1 g = true;
  ch_flag : link <> 1 -> forall g l, 0 <= g < mld -> 0 <= l < link ->
    mid = g + mld * l -> flag mc1 g = true;
  ch_new : forall g, 0 <= g < mld -> flag mc1 g = true -> flag mc g = true \/ g = mid;
  ch_excl : forall g, 0 <= g < mld ->
    _phl_macid_is_used (used_mld_map mc1) g && _phl_macid_is_used (used_legacy_map mc1) g = false;
  ch_role : wifi_role_usedmap mc1 = wifi_role_usedmap mc;
  ch_bmc : bmc_map mc1 = bmc_map mc
}.

Lemma chosen_same mc mid :
  macid_inv mc -> 0 <= mid < max_num mc -> used mc mid = false ->
  (link <> 1 -> forall g l, 0 <= g < mld -> 0 <= l < link -> mid = g + mld * l ->
     flag mc g = true) -> chosen mc mid mc.
Proof. intros Hi Hr Hu Hf. constructor; try done; try apply Hi. intros g _ ?. by left. Qed.

Lemma group_unique g l g' l' :
  0 <= g < mld -> 0 <= l -> 0 <= g' < mld -> 0 <= l' -> g + mld * l = g' + mld * l' -> g = g'.
Proof.
  intros. rewrite <- (group_mod g l), <- (group_mod g' l') by lia. congruence.
Qed.

Lemma alloc_mld_chosen mc main_id mid mc1 :
  macid_inv mc -> 0 <= main_id ->
  (main_id <> max_num mc -> 0 < mld /\ flag mc (main_id mod mld) = true) ->
  _phl_alloc_mld_macid cap mc main_id = (mid, mc1) -> mid <> max_num mc -> chosen mc mid mc1.
Proof.
  intros Hi Hmain Hflag Hal Hne. pose proof (inv_max _ Hi). pose proof (inv_cap _ Hi) as (Hc1 & Hc2 & Hc3).
  unfold _phl_alloc_mld_macid in Hal.
  destruct (Z.eqb_spec (max_num mc) main_id) as [<-|Hm].
  - destruct (Z.eqb_spec RTW_ONE_LINK link) as [H1|H1].
    + destruct (first_such _ _ _) eqn:E in Hal; simplify_eq.
      apply first_such_Some in E as [? E]. apply negb_true_iff in E.
      by apply chosen_same.
    + destruct (first_such _ _ _) as [z|] eqn:E in Hal; simplify_eq.
      apply first_such_Some in E as [? E]. apply andb_true_iff in E as [E1 E2].
      apply negb_true_iff in E1, E2. unfold RTW_ONE_LINK in H1.
      pose proof (group_bound _ mid 0 (inv_cap _ Hi) ltac:(lia) ltac:(lia)).
      assert (used mc mid = false).
      { destruct (used mc mid) eqn:Eu; [|done].
        pose proof (inv_group _ Hi ltac:(lia) mid 0 ltac:(lia) ltac:(lia)) as Hg.
        rewrite Z.mul_0_r, Z.add_0_r in Hg. specialize (Hg Eu). unfold flag in Hg.
        rewrite E1, E2 in Hg. done. }
      constructor; try done; try apply Hi; simpl; try lia.
      * apply map_set_wf, Hi.
      * unfold flag. simpl. intros g Hg. rewrite map_set_used by (apply Hi || lia).
        intros [-> | ->]%orb_true_iff; [done|by rewrite orb_true_r].
      * intros _ g l Hg Hl Hmid. unfold flag. simpl. rewrite map_set_used by (apply Hi || lia).
        assert (mid = g) as -> by (apply (group_unique mid 0 g l); lia).
        by rewrite Z.eqb_refl, orb_true_r.
      * unfold flag. simpl. intros g Hg. rewrite map_set_used by (apply Hi || lia).
        destruct (Z.eqb_spec g mid); [by right|]. rewrite orb_false_r. by left.
      * intros g Hg. simpl. rewrite map_set_used by (apply Hi || lia). destruct (Z.eqb_spec g mid) as [->|].
        -- by rewrite E2, andb_false_r.
        -- rewrite orb_false_r. by apply Hi.
  - destruct (Hflag ltac:(congruence)) as [Hpos Hfl]. destruct (first_such _ _ _) as [lidx|] eqn:E in Hal; simplify_eq.
    apply first_such_Some in E as [Hl E]. apply negb_true_iff in E.
    assert (0 <= main_id mod mld < mld) by (apply Z.mod_pos_bound; lia).
    pose proof (group_bound _ _ _ (inv_cap _ Hi) ltac:(eassumption) Hl).
    rewrite u16_small in * by ulia.
    apply chosen_same; try done.
    intros _ g l Hg Hl' Hmid.
    by replace g with (main_id mod mld) by (apply (group_unique _ lidx g l); lia).
Qed.

Lemma legacy_loop_spec mc mids avail :
  macid_inv mc -> link <> 1 -> Forall (fun g => 0 <= g < mld) mids ->
  match legacy_loop cap mc mids avail with
  | inl mid => exists g l, 0 <= g < mld /\ 0 <= l < link /\ mid = g + mld * l /\
      flag mc g = true /\ used mc mid = false
  | inr a => a = avail \/ (avail = max_num mc /\ 0 <= a < mld /\ flag mc a = false)
  end.
Proof.
  intros Hi H1 Hf. pose proof (inv_max _ Hi). pose proof (inv_cap _ Hi) as (Hc1 & Hc2 & Hc3).
  revert avail. induction Hf as [|g mids Hg Hf IH]; intros avail; cbn [legacy_loop]; [by left|].
  destruct (_phl_macid_is_used (used_mld_map mc) g) eqn:E1; [apply IH|].
  destruct (_phl_macid_is_used (used_legacy_map mc) g) eqn:E2; cbn [negb].
  - destruct (first_such _ _ _) as [l|] eqn:E; [|apply IH].
    apply first_such_Some in E as [Hl E]. apply negb_true_iff in E.
    pose proof (group_bound _ _ _ (inv_cap _ Hi) Hg Hl). rewrite u16_small in * by ulia.
    exists g, l. split_and!; try lia; try done. unfold flag. by rewrite E2, orb_true_r.
  - specialize (IH (if avail =? max_num mc then g else avail)).
    destruct (legacy_loop cap mc mids _) as [mid|a]; [done|].
    destruct (Z.eqb_spec avail (max_num mc)) as [->|Hne]; [|naive_solver].
    right. split; [done|]. destruct IH as [->|(-> & ? & ?)]; [|naive_solver].
    split; [done|]. unfold flag. by rewrite E1, E2.
Qed.

Lemma alloc_legacy_chosen mc mid mc1 :
  macid_inv mc -> _phl_alloc_legacy_macid cap mc = (mid, mc1) -> mid <> max_num mc ->
  chosen mc mid mc1.
Proof.
  intros Hi Hal Hne. pose proof (inv_max _ Hi). pose proof (inv_cap _ Hi) as (Hc1 & Hc2 & Hc3).
  unfold _phl_alloc_legacy_macid in Hal.
  destruct (Z.eqb_spec RTW_ONE_LINK link) as [H1|H1].
  - destruct (first_such _ _ _) eqn:E in Hal.
    + simplify_eq. apply first_such_Some in E as [? E]. apply negb_true_iff in E.
      by apply chosen_same.
    + rewrite Z.eqb_refl in Hal. simpl in Hal. simplify_eq.
  - unfold RTW_ONE_LINK in H1. rewrite (u16_small (mld * link)) in Hal by ulia.
    match type of Hal with match ?a with _ => _ end = _ => destruct a eqn:E end.
    + simplify_eq. destruct (_ && _); [|done].
      apply first_such_Some in E as [Hr E]. apply negb_true_iff in E.
      apply chosen_same; try done; [nia|].
      intros _ g l Hg Hl ->. nia.
    + clear E. pose proof (legacy_loop_spec mc _ (max_num mc) Hi ltac:(lia) (seqZ_range mld)) as Hloop.
      destruct (legacy_loop _ _ _ _) as [m|a] in Hal, Hloop.
      * simplify_eq. destruct Hloop as (g & l & Hg & Hl & -> & Hfl & Hu).
        pose proof (group_bound _ _ _ (inv_cap _ Hi) Hg Hl).
        apply chosen_same; try done. intros _ g' l' Hg' Hl' Hm.
        by rewrite <- (group_unique g l g' l') by lia.
      * destruct (Z.eqb_spec a (max_num mc)); simpl in Hal; simplify_eq.
        destruct Hloop as [|(_ & Ha & Hfl)]; [done|].
        pose proof (group_bound _ mid 0 (inv_cap _ Hi) ltac:(lia) ltac:(lia)).
        constructor; try done; try apply Hi; simpl; try lia.
        -- destruct (used mc mid) eqn:Eu; [|done].
           pose proof (inv_group _ Hi ltac:(lia) mid 0 ltac:(lia) ltac:(lia)) as Hg.
           rewrite Z.mul_0_r, Z.add_0_r in Hg. rewrite Hg in Hfl; done.
        -- apply map_set_wf, Hi.
        -- unfold flag. simpl. intros g Hg. rewrite map_set_used by (apply Hi || lia).
           intros [-> | ->]%orb_true_iff; by rewrite ?orb_true_r.
        -- intros _ g l Hg Hl Hmid. unfold flag. simpl. rewrite map_set_used by (apply Hi || lia).
           assert (mid = g) as -> by (apply (group_unique mid 0 g l); lia).
           by rewrite Z.eqb_refl, !orb_true_r.
        -- unfold flag. simpl. intros g Hg. rewrite map_set_used by (apply Hi || lia).
           destruct (Z.eqb_spec g mid); [by right|]. rewrite orb_false_r. by left.
        -- intros g Hg. simpl. rewrite map_set_used by (apply Hi || lia). destruct (Z.eqb_spec g mid) as [->|].
           ++ apply orb_false_iff in Hfl as [-> _]. done.
           ++ rewrite orb_false_r. by apply Hi.
Qed.

Lemma nth_insert_sta (l : list (option Z)) i j p :
  length l = 256%nat -> 0 <= i < 256 -> 0 <= j ->
  nth (Z.to_nat j) (<[Z.to_nat i := p]> l) None = if j =? i then p else nth (Z.to_nat j) l None.
Proof.
  intros Hl Hi Hj. rewrite !nth_lookup. destruct (Z.eqb_spec j i) as [->|Hne].
  - by rewrite list_lookup_insert_eq by lia.
  - by rewrite list_lookup_insert_ne by lia.
Qed.

(** The caller of an MLD allocation passes [max_num] for the first link, and
    the MAC id of a link of the same device for the others; the code divides by
    [max_mld_num] then, which is positive on a device that has groups. *)
Definition main_ok (mc : macid_ctl_t) (dtype : rtw_device_type) (main_id : Z) : Prop :=
  dtype = DEV_TYPE_MLD ->
  0 <= main_id /\ (main_id <> max_num mc -> 0 < mld /\ flag mc (main_id mod mld) = true).

(** The state after the bookkeeping of a successful allocation. *)
Definition taken (mc mc' : macid_ctl_t) (mid p : Z) : Prop :=
  (forall i, 0 <= i -> used mc' i = used mc i || (i =? mid)) /\
  rtw_phl_get_stainfo_by_macid mc' mid = Some p /\
  (forall i, 0 <= i -> i <> mid ->
     rtw_phl_get_stainfo_by_macid mc' i = rtw_phl_get_stainfo_by_macid mc i) /\
  max_num mc' = max_num mc /\ macid_inv mc'.

Lemma taken_ok mc mc1 mid wrole s b :
  macid_inv mc -> chosen mc mid mc1 ->
  let mc2 := set_used_map mc1 (phl_macid_map_set (used_map mc1) mid) in
  let mc3 := set_role_map mc2 wrole (fun m => phl_macid_map_set m mid) in
  let mc4 := set_sta mc3 mid (Some (si_ptr s)) in
  let mc5 := if b : bool
             then _phl_wrole_bcmc_id_set (set_bmc_map mc4 (phl_macid_map_set (bmc_map mc4) mid))
                    wrole (si_rlink s) mid
             else mc4 in
  taken mc mc5 mid (si_ptr s).
Proof.
  intros Hi Hch mc2 mc3 mc4 mc5.
  pose proof (inv_max _ Hi) as Hmx. pose proof (ch_range _ _ _ Hch) as Hr.
  assert (used_map mc5 = phl_macid_map_set (used_map mc) mid) as Eu.
  { rewrite <- (ch_used _ _ _ Hch). by destruct b. }
  assert (sta mc5 = <[Z.to_nat mid := Some (si_ptr s)]> (sta mc)) as Es.
  { rewrite <- (ch_sta _ _ _ Hch). by destruct b. }
  assert (max_num mc5 = max_num mc) as Em by (rewrite <- (ch_max _ _ _ Hch); by destruct b).
  assert (used_mld_map mc5 = used_mld_map mc1) as E1 by by destruct b.
  assert (used_legacy_map mc5 = used_legacy_map mc1) as E2 by by destruct b.
  assert (forall i, 0 <= i -> used mc5 i = used mc i || (i =? mid)) as Hused.
  { intros i Hi0. unfold used. rewrite Eu. apply map_set_used; [apply Hi|lia..]. }
  split_and!; try done.
  - unfold rtw_phl_get_stainfo_by_macid. rewrite Em, Es.
    fold (used mc5 mid). rewrite Hused, Z.eqb_refl, orb_true_r by lia.
    rewrite nth_insert_sta, Z.eqb_refl by (apply Hi || lia).
    by rewrite (proj2 (Z.leb_gt _ _)) by lia.
  - intros i Hi0 Hne. unfold rtw_phl_get_stainfo_by_macid. rewrite Em, Es.
    fold (used mc5 i). fold (used mc i). rewrite Hused by lia.
    rewrite nth_insert_sta by (apply Hi || lia).
    rewrite (proj2 (Z.eqb_neq i mid)) by done. by rewrite orb_false_r.
  - constructor; rewrite ?Eu, ?E1, ?E2, ?Es, ?Em; try apply Hi; try apply Hch.
    + apply map_set_wf, Hi.
    + rewrite length_insert. apply Hi.
    + intros i Hir. rewrite Hused, (inv_slot _ Hi), nth_insert_sta by (apply Hi || lia).
      destruct (i =? mid); [by rewrite orb_true_r|by rewrite orb_false_r].
    + intros H1 g l Hg Hl. rewrite Hused by nia. unfold flag. rewrite E1, E2.
      fold (flag mc1 g). intros [Hu|He]%orb_true_iff.
      * apply (ch_flag_mono _ _ _ Hch); [lia|]. by apply (inv_group _ Hi H1 g l).
      * apply (ch_flag _ _ _ Hch H1 g l); try done. apply Z.eqb_eq in He. by subst.
    + intros H1 g Hg. unfold flag. rewrite E1, E2. fold (flag mc1 g). intros Hf.
      destruct (ch_new _ _ _ Hch g Hg Hf) as [Hf'|Hm].
      * destruct (inv_flag _ Hi H1 g Hg Hf') as (l & Hl & Hu). exists l. split; [done|].
        by rewrite Hused, Hu by nia.
      * exists 0. pose proof (inv_cap _ Hi) as (_ & Hc2 & _). split; [lia|].
        by rewrite Z.mul_0_r, Z.add_0_r, Hused, Hm, Z.eqb_refl, orb_true_r by lia.
Qed.

(** *** The maps of the roles and of the broadcast stations *)

Definition role_has (mc : macid_ctl_t) (w i : Z) : bool :=
  _phl_macid_is_used (nth (Z.to_nat w) (wifi_role_usedmap mc) []) i.

Definition bmc_has (mc : macid_ctl_t) (i : Z) : bool := _phl_macid_is_used (bmc_map mc) i.

(** Five role maps and the broadcast map have their size. *)
Definition maps_wf (mc : macid_ctl_t) : Prop :=
  length (wifi_role_usedmap mc) = Z.to_nat MAX_WIFI_ROLE_NUMBER /\ Forall wf_map (wifi_role_usedmap mc) /\
  wf_map (bmc_map mc).

Lemma role_alter f (maps : list (list Z)) w w' :
  0 <= w < Z.of_nat (length maps) -> 0 <= w' ->
  nth (Z.to_nat w') (alter f (Z.to_nat w) maps) [] =
  if w' =? w then f (nth (Z.to_nat w) maps []) else nth (Z.to_nat w') maps [].
Proof.
  intros Hw Hw'. rewrite !nth_lookup. destruct (Z.eqb_spec w' w) as [->|Hne].
  - rewrite list_lookup_alter_eq. destruct (maps !! Z.to_nat w) eqn:E; [done|]. apply lookup_ge_None in E. lia.
  - by rewrite list_lookup_alter_ne by lia.
Qed.

Lemma role_wf mc w : maps_wf mc -> 0 <= w < MAX_WIFI_ROLE_NUMBER -> wf_map (nth (Z.to_nat w) (wifi_role_usedmap mc) []).
Proof.
  intros (Hl & Hf & _) Hw. rewrite List.Forall_forall in Hf. apply Hf, nth_In. unfold MAX_WIFI_ROLE_NUMBER in *. lia.
Qed.

Lemma alter_wf f w (maps : list (list Z)) :
  (forall m, wf_map m -> wf_map (f m)) -> Forall wf_map maps -> Forall wf_map (alter f w maps).
Proof. intros Hf H. by apply Forall_alter; [|intros; apply Hf]. Qed.

Lemma maps_set mc mc' w0 (b : bool) mid :
  maps_wf mc -> 0 <= w0 < MAX_WIFI_ROLE_NUMBER -> 0 <= mid < 256 ->
  wifi_role_usedmap mc' = alter (fun m => phl_macid_map_set m mid) (Z.to_nat w0) (wifi_role_usedmap mc) ->
  bmc_map mc' = (if b then phl_macid_map_set (bmc_map mc) mid else bmc_map mc) ->
  maps_wf mc' /\
  (forall w i, 0 <= w < MAX_WIFI_ROLE_NUMBER -> 0 <= i -> role_has mc' w i = role_has mc w i || (w =? w0) && (i =? mid)) /\
  (forall i, 0 <= i -> bmc_has mc' i = bmc_has mc i || b && (i =? mid)).
Proof.
  intros Hm Hw0 Hmid Er Eb. pose proof Hm as (Hl & Hf & Hb). split_and!.
  - unfold maps_wf. rewrite Er, Eb, length_alter. split_and!; [done|apply alter_wf; eauto with rtw|].
    destruct b; eauto with rtw.
  - intros w i Hw Hi. unfold role_has. rewrite Er, role_alter by (unfold MAX_WIFI_ROLE_NUMBER in *; lia).
    destruct (Z.eqb_spec w w0) as [->|]; [|by rewrite orb_false_r]. apply map_set_used; [by apply role_wf|lia..].
  - intros i Hi. unfold bmc_has. rewrite Eb. destruct b; [by apply map_set_used|by rewrite orb_false_r].
Qed.

Lemma maps_clr mc mc' w0 (b : bool) mid :
  maps_wf mc -> 0 <= w0 < MAX_WIFI_ROLE_NUMBER -> 0 <= mid < 256 ->
  wifi_role_usedmap mc' = alter (fun m => phl_macid_map_clr m mid) (Z.to_nat w0) (wifi_role_usedmap mc) ->
  bmc_map mc' = (if b then phl_macid_map_clr (bmc_map mc) mid else bmc_map mc) ->
  maps_wf mc' /\
  (forall w i, 0 <= w < MAX_WIFI_ROLE_NUMBER -> 0 <= i ->
     role_has mc' w i = role_has mc w i && negb ((w =? w0) && (i =? mid))) /\
  (forall i, 0 <= i -> bmc_has mc' i = bmc_has mc i && negb (b && (i =? mid))).
Proof.
  intros Hm Hw0 Hmid Er Eb. pose proof Hm as (Hl & Hf & Hb). split_and!.
  - unfold maps_wf. rewrite Er, Eb, length_alter. split_and!; [done|apply alter_wf; eauto with rtw|].
    destruct b; eauto with rtw.
  - intros w i Hw Hi. unfold role_has. rewrite Er, role_alter by (unfold MAX_WIFI_ROLE_NUMBER in *; lia).
    destruct (Z.eqb_spec w w0) as [->|]; [|by rewrite andb_true_r]. apply map_clr_used; [by apply role_wf|lia..].
  - intros i Hi. unfold bmc_has. rewrite Eb. destruct b; [by apply map_clr_used|by rewrite andb_true_r].
Qed.

Lemma alloc_maps mc dtype main_id s mc' s' w0 :
  maps_wf mc -> max_num mc <= 256 -> 0 <= si_macid s' < max_num mc ->
  si_wrole s = Some w0 -> 0 <= w0 < MAX_WIFI_ROLE_NUMBER ->
  _phl_alloc_macid cap mc dtype main_id s = (RTW_PHL_STATUS_SUCCESS, mc', s') ->
  s' = set_si_macid s (si_macid s') /\ maps_wf mc' /\
  (forall w i, 0 <= w < MAX_WIFI_ROLE_NUMBER -> 0 <= i ->
     role_has mc' w i = role_has mc w i || (w =? w0) && (i =? si_macid s')) /\
  (forall i, 0 <= i -> bmc_has mc' i = bmc_has mc i || is_bc_addr (si_mac_addr s) && (i =? si_macid s')).
Proof.
  intros Hm Hmx Hr Hw Hw0. unfold _phl_alloc_macid. rewrite Hw.
  match goal with |- (let '(_, _) := ?a in _) = _ -> _ => destruct a as [mid mc1] eqn:Ea end.
  destruct (Z.eqb_spec mid (max_num mc)) as [|Hne]; [done|]. intros E. injection E as Emc Es.
  assert (mid = si_macid s') as -> by (by rewrite <- Es). split; [by rewrite <- Es|].
  assert (wifi_role_usedmap mc1 = wifi_role_usedmap mc /\ bmc_map mc1 = bmc_map mc) as [R1 B1].
  { destruct dtype; unfold _phl_alloc_legacy_macid, _phl_alloc_mld_macid in Ea; repeat case_match; by simplify_eq. }
  apply (maps_set mc mc' w0 (is_bc_addr (si_mac_addr s)) (si_macid s')); try done; [lia|..];
    rewrite <- Emc; destruct (is_bc_addr _); simpl; by rewrite ?R1, ?B1.
Qed.

Lemma release_maps mc s st mc' s' w0 :
  maps_wf mc -> max_num mc <= 256 -> 0 <= si_macid s < max_num mc -> used mc (si_macid s) = true ->
  si_wrole s = Some w0 -> 0 <= w0 < MAX_WIFI_ROLE_NUMBER ->
  _phl_release_macid cap mc s = (st, mc', s') ->
  maps_wf mc' /\
  (forall w i, 0 <= w < MAX_WIFI_ROLE_NUMBER -> 0 <= i ->
     role_has mc' w i = role_has mc w i && negb ((w =? w0) && (i =? si_macid s))) /\
  (forall i, 0 <= i -> bmc_has mc' i = bmc_has mc i && negb (is_bc_addr (si_mac_addr s) && (i =? si_macid s))).
Proof.
  intros Hm Hmx Hr Hu Hw Hw0. unfold _phl_release_macid, used in *. rewrite (proj2 (Z.leb_gt _ _)), Hu, Hw by lia.
  cbn [negb]. intros E. injection E as _ Emc _.
  apply (maps_clr mc mc' w0 (is_bc_addr (si_mac_addr s)) (si_macid s)); try done; [lia|..];
    rewrite <- Emc; repeat case_match; done.
Qed.

Lemma alloc_macid_success mc dtype main_id s mc' s' :
  macid_inv mc -> main_ok mc dtype main_id ->
  _phl_alloc_macid cap mc dtype main_id s = (RTW_PHL_STATUS_SUCCESS, mc', s') ->
  0 <= si_macid s' < max_num mc /\ used mc (si_macid s') = false /\ si_ptr s' = si_ptr s /\
  taken mc mc' (si_macid s') (si_ptr s).
Proof.
  intros Hi Hmain Hal. unfold _phl_alloc_macid in Hal.
  destruct (si_wrole s) as [w|]; [|done].
  match type of Hal with (let '(_, _) := ?a in _) = _ => destruct a as [mid mc1] eqn:Ea end.
  destruct (Z.eqb_spec mid (max_num mc)) as [|Hne]; [done|].
  assert (chosen mc mid mc1) as Hch.
  { destruct dtype; [by apply alloc_legacy_chosen..|].
    destruct (Hmain eq_refl). by eapply alloc_mld_chosen. }
  simplify_eq. simpl. split_and!; try apply Hch; [done|].
  by apply taken_ok.
Qed.

Lemma alloc_macid_failure mc dtype main_id s st mc' s' :
  macid_inv mc -> _phl_alloc_macid cap mc dtype main_id s = (st, mc', s') ->
  st <> RTW_PHL_STATUS_SUCCESS -> mc' = mc /\ st = RTW_PHL_STATUS_FAILURE.
Proof.
  intros Hi Hal Hst. unfold _phl_alloc_macid in Hal.
  destruct (si_wrole s) as [w|]; [|by simplify_eq].
  match type of Hal with (let '(_, _) := ?a in _) = _ => destruct a as [mid mc1] eqn:Ea end.
  destruct (Z.eqb_spec mid (max_num mc)) as [->|Hne]; simplify_eq.
  split; [|done]. pose proof (inv_cap _ Hi) as (Hc1 & Hc2 & Hc3).
  destruct dtype.
  1,2: unfold _phl_alloc_legacy_macid in Ea; repeat case_match; simplify_eq; try done;
    by rewrite Z.eqb_refl in *.
  unfold _phl_alloc_mld_macid in Ea. repeat case_match; simplify_eq; try done.
  match goal with H : first_such _ _ _ = Some _ |- _ => apply first_such_Some in H end. nia.
Qed.

(** What releasing [mid] guarantees: the bit and the station slot of [mid] are
    cleared, and a group keeps its flag as long as one of its links is used. *)
Record freed (mc : macid_ctl_t) (mid : Z) (mc' : macid_ctl_t) : Prop := {
  fr_used : used_map mc' = phl_macid_map_clr (used_map mc) mid;
  fr_sta : sta mc' = <[Z.to_nat mid := None]> (sta mc);
  fr_max : max_num mc' = max_num mc;
  fr_mld : wf_map (used_mld_map mc');
  fr_legacy : wf_map (used_legacy_map mc');
  fr_flag : forall g l, 0 <= g < mld -> 0 <= l < link -> used mc' (g + mld * l) = true ->
    flag mc g = true -> flag mc' g = true;
  fr_back : forall g, 0 <= g < mld -> flag mc' g = true ->
    flag mc g = true /\ (g = mid mod mld -> exists l, 0 <= l < link /\ used mc' (g + mld * l) = true);
  fr_excl : forall g, 0 <= g < mld ->
    _phl_macid_is_used (used_mld_map mc') g && _phl_macid_is_used (used_legacy_map mc') g = false
}.

Lemma freed_used mc mid mc' i :
  macid_inv mc -> 0 <= mid < max_num mc -> freed mc mid mc' -> 0 <= i ->
  used mc' i = used mc i && negb (i =? mid).
Proof.
  intros Hi Hm Hf ?. pose proof (inv_max _ Hi). unfold used. rewrite (fr_used _ _ _ Hf).
  apply map_clr_used; [apply Hi|lia..].
Qed.

Lemma freed_sta mc mid mc' i :
  macid_inv mc -> 0 <= mid < max_num mc -> freed mc mid mc' -> 0 <= i ->
  rtw_phl_get_stainfo_by_macid mc' i =
    if i =? mid then None else rtw_phl_get_stainfo_by_macid mc i.
Proof.
  intros Hi Hm Hf ?. pose proof (inv_max _ Hi). unfold rtw_phl_get_stainfo_by_macid.
  rewrite (fr_max _ _ _ Hf), (fr_sta _ _ _ Hf). fold (used mc' i). fold (used mc i).
  rewrite (freed_used mc mid) by done. rewrite nth_insert_sta by (apply Hi || lia).
  destruct (i =? mid) eqn:Ei; rewrite ?andb_true_r, ?andb_false_r; simpl; by repeat case_match.
Qed.

Lemma freed_inv mc mid mc' :
  macid_inv mc -> 0 <= mid < max_num mc -> freed mc mid mc' -> macid_inv mc'.
Proof.
  intros Hi Hm Hf. pose proof (inv_max _ Hi). pose proof (inv_cap _ Hi) as (Hc1 & Hc2 & Hc3).
  constructor; rewrite ?(fr_used _ _ _ Hf), ?(fr_sta _ _ _ Hf), ?(fr_max _ _ _ Hf);
    try apply Hi; try apply Hf.
  - apply map_clr_wf, Hi.
  - rewrite length_insert. apply Hi.
  - intros i Hir. rewrite (freed_used mc mid), (inv_slot _ Hi), nth_insert_sta by (done || apply Hi || lia).
    destruct (i =? mid); by rewrite ?andb_true_r, ?andb_false_r.
  - intros H1 g l Hg Hl Hug. apply (fr_flag _ _ _ Hf g l); try done.
    rewrite (freed_used mc mid) in Hug by (done || nia). apply andb_true_iff in Hug as [Hug _].
    by apply (inv_group _ Hi H1 g l).
  - intros H1 g Hg Hfg. destruct (fr_back _ _ _ Hf g Hg Hfg) as [Hfg' Hex].
    destruct (Z.eq_dec g (mid mod mld)) as [|Hne]; [by apply Hex|].
    destruct (inv_flag _ Hi H1 g Hg Hfg') as (l & Hl & Hu). exists l. split; [done|].
    rewrite (freed_used mc mid), Hu by (done || nia). destruct (Z.eqb_spec (g + mld * l) mid) as [Heq|]; [|done].
    destruct Hne. rewrite <- Heq. by rewrite group_mod by lia.
Qed.

(** The group bookkeeping at the end of a release. *)
Lemma release_group_flags mc mc4 mid :
  macid_inv mc -> 0 < mld -> 0 <= mid < max_num mc ->
  used_map mc4 = phl_macid_map_clr (used_map mc) mid ->
  sta mc4 = <[Z.to_nat mid := None]> (sta mc) -> max_num mc4 = max_num mc ->
  used_mld_map mc4 = used_mld_map mc -> used_legacy_map mc4 = used_legacy_map mc ->
  let g0 := mid mod mld in
  freed mc mid
    (match first_such (fun l => _phl_macid_is_used (used_map mc4) (u16 (g0 + mld * l))) 0 link with
     | Some _ => mc4
     | None =>
       set_used_legacy_map (set_used_mld_map mc4 (phl_macid_map_clr (used_mld_map mc4) g0))
         (phl_macid_map_clr (used_legacy_map mc4) g0)
     end).
Proof.
  intros Hi Hpos Hm Eu Es Em E1 E2 g0. pose proof (inv_max _ Hi) as Hmx.
  pose proof (inv_cap _ Hi) as (Hc1 & Hc2 & Hc3).
  assert (0 <= g0 < mld) as Hg0 by (apply Z.mod_pos_bound; lia).
  destruct (first_such _ _ _) as [l0|] eqn:Ef; constructor; simpl; try done;
    rewrite ?E1, ?E2; try apply Hi; try (apply map_clr_wf, Hi).
  - intros g l _ _ _. unfold flag. by rewrite E1, E2.
  - intros g Hg. unfold flag. rewrite E1, E2. intros Hf. split; [done|]. intros ->. exists l0.
    apply first_such_Some in Ef as [Hl0 Ef]. split; [done|].
    pose proof (group_bound _ g0 l0 (inv_cap _ Hi) Hg0 Hl0). by rewrite u16_small in Ef by ulia.
  - intros g l Hg Hl Hul. unfold flag. simpl. rewrite ?E1, ?E2.
    rewrite !map_clr_used by (apply Hi || nia).
    assert (g <> g0) as Hne.
    { intros ->. eapply (first_such_None _ _ _ l) in Ef; [|lia].
      pose proof (group_bound _ g0 l (inv_cap _ Hi) Hg0 Hl).
      simpl in Ef. rewrite u16_small in Ef by ulia. unfold used in Hul. simpl in Hul. congruence. }
    rewrite (proj2 (Z.eqb_neq g g0)) by done. by rewrite !andb_true_r.
  - intros g Hg. unfold flag. simpl. rewrite ?E1, ?E2, !map_clr_used by (apply Hi || nia).
    destruct (Z.eqb_spec g g0) as [->|Hne]; [by rewrite !andb_false_r|]. by rewrite !andb_true_r.
  - intros g Hg. rewrite !map_clr_used by (apply Hi || nia). pose proof (inv_excl _ Hi g Hg).
    destruct (g =? g0); [by rewrite !andb_false_r|by rewrite !andb_true_r].
Qed.

(** Without groups only the bit and the slot are cleared. *)
Lemma release_no_groups mc mc4 mid :
  macid_inv mc -> mld = 0 -> used_map mc4 = phl_macid_map_clr (used_map mc) mid ->
  sta mc4 = <[Z.to_nat mid := None]> (sta mc) -> max_num mc4 = max_num mc ->
  used_mld_map mc4 = used_mld_map mc -> used_legacy_map mc4 = used_legacy_map mc -> freed mc mid mc4.
Proof. intros Hi H0 Eu Es Em E1 E2. constructor; rewrite ?E1, ?E2; try done; try apply Hi; lia. Qed.

Lemma release_macid_cases mc s st mc' s' :
  macid_inv mc -> 0 <= si_macid s -> _phl_release_macid cap mc s = (st, mc', s') ->
  s' = set_si_macid s (max_num mc) /\
  ((st = RTW_PHL_STATUS_FAILURE /\ mc' = mc /\
    (max_num mc <= si_macid s \/ used mc (si_macid s) = false)) \/
   (st = RTW_PHL_STATUS_SUCCESS /\ si_macid s < max_num mc /\ used mc (si_macid s) = true /\
    (forall i, 0 <= i -> used mc' i = used mc i && negb (i =? si_macid s)) /\
    (forall i, 0 <= i -> rtw_phl_get_stainfo_by_macid mc' i =
       if i =? si_macid s then None else rtw_phl_get_stainfo_by_macid mc i) /\
    max_num mc' = max_num mc /\ macid_inv mc')).
Proof.
  intros Hi H0 Hrel. pose proof (inv_cap _ Hi) as (Hc1 & Hc2 & Hc3). unfold _phl_release_macid in Hrel.
  destruct (Z.leb_spec (max_num mc) (si_macid s)) as [Hge|Hlt].
  { simplify_eq. split; [done|]. left. auto. }
  destruct (_phl_macid_is_used (used_map mc) (si_macid s)) eqn:Hu; simpl in Hrel.
  2:{ simplify_eq. split; [done|]. left. auto. }
  set (mc4 := if is_bc_addr (si_mac_addr s) then _ else _) in Hrel.
  assert (freed mc (si_macid s) mc') as Hf.
  { injection Hrel as _ <- _. destruct (Z.eqb_spec mld 0) as [Hz|Hz]; simpl.
    - by apply release_no_groups; try done; unfold mc4; destruct (is_bc_addr _), (si_wrole s).
    - apply (release_group_flags mc mc4); try done; try lia; unfold mc4; by destruct (is_bc_addr _), (si_wrole s). }
  injection Hrel as <- _ <-. split; [done|]. right. split_and!; try done.
  - intros i ?. by apply freed_used.
  - intros i ?. by apply freed_sta.
  - apply Hf.
  - by apply (freed_inv mc (si_macid s)).
Qed.

(** ** Histories of allocations and releases *)

(** The station belongs to one of the five roles, on one of their two links. *)
Definition role_ok (s : stainfo) : Prop :=
  0 <= si_rlink s < RTW_RLINK_MAX /\ exists w, si_wrole s = Some w /\ 0 <= w < MAX_WIFI_ROLE_NUMBER.

(** A state is the controller and the stations that hold a MAC id. *)
Inductive mstep : macid_ctl_t * list stainfo -> macid_ctl_t * list stainfo -> Prop :=
  | step_alloc mc live dtype main_id s mc' s' :
      main_ok mc dtype main_id -> role_ok s -> si_ptr s ∉ map si_ptr live ->
      _phl_alloc_macid cap mc dtype main_id s = (RTW_PHL_STATUS_SUCCESS, mc', s') ->
      mstep (mc, live) (mc', s' :: live)
  | step_alloc_fail mc live dtype main_id s st mc' s' :
      main_ok mc dtype main_id -> st <> RTW_PHL_STATUS_SUCCESS ->
      _phl_alloc_macid cap mc dtype main_id s = (st, mc', s') ->
      mstep (mc, live) (mc', live)
  | step_release mc l1 s l2 st mc' s' :
      _phl_release_macid cap mc s = (st, mc', s') ->
      mstep (mc, l1 ++ s :: l2) (mc', l1 ++ l2).

Inductive mreach (x : macid_ctl_t * list stainfo) : macid_ctl_t * list stainfo -> Prop :=
  | mreach_refl : mreach x x
  | mreach_step y z : mreach x y -> mstep y z -> mreach x z.

(** A live station with the MAC id [i] satisfies [P]. *)
Definition holder (P : stainfo -> bool) (live : list stainfo) (i : Z) : bool :=
  existsb (fun s => (si_macid s =? i) && P s) live.

Definition in_role (w : Z) (s : stainfo) : bool := bool_decide (si_wrole s = Some w).

Definition is_bmc (s : stainfo) : bool := is_bc_addr (si_mac_addr s).

Lemma holder_absent P live i : i ∉ map si_macid live -> holder P live i = false.
Proof.
  intros Hn. apply not_true_iff_false. intros H. apply existsb_exists in H as (s & Hs & [E _]%andb_true_iff).
  apply Hn. apply Z.eqb_eq in E as <-. apply list_elem_of_fmap_2. by apply list_elem_of_In.
Qed.

Lemma holder_perm P l l' i : l ≡ₚ l' -> holder P l i = holder P l' i.
Proof.
  unfold holder. induction 1; simpl; try congruence. rewrite !orb_assoc. f_equal. apply orb_comm.
Qed.

Lemma holder_remove P l1 s l2 i :
  NoDup (map si_macid (l1 ++ s :: l2)) ->
  holder P (l1 ++ l2) i = holder P (l1 ++ s :: l2) i && negb (i =? si_macid s) /\
  holder P (l1 ++ s :: l2) (si_macid s) = P s.
Proof.
  intros Hn. rewrite map_app in Hn. simpl in Hn. rewrite <- Permutation_middle, <- map_app in Hn.
  apply NoDup_cons in Hn as [Hn _].
  rewrite !(holder_perm P (l1 ++ s :: l2) (s :: l1 ++ l2)) by (by rewrite Permutation_middle). split.
  - unfold holder at 2. simpl. fold (holder P (l1 ++ l2) i). rewrite (Z.eqb_sym (si_macid s)).
    destruct (Z.eqb_spec i (si_macid s)) as [->|]; cbn [negb andb orb]; [|by rewrite andb_true_r].
    by rewrite andb_false_r, holder_absent.
  - unfold holder. simpl. rewrite Z.eqb_refl. fold (holder P (l1 ++ l2) (si_macid s)).
    rewrite holder_absent by done. by rewrite orb_false_r.
Qed.

(** The live stations own exactly the used MAC ids; the maps of the roles and
    of the broadcast stations have the ids of the stations of the role and of
    the broadcast address. *)
Record live_inv (st : macid_ctl_t * list stainfo) : Prop := LiveInv {
  li_inv : macid_inv st.1;
  li_ptrs : NoDup (map si_ptr st.2);
  li_own : forall s, s ∈ st.2 -> 0 <= si_macid s < max_num st.1 /\
    rtw_phl_get_stainfo_by_macid st.1 (si_macid s) = Some (si_ptr s);
  li_used : forall i, 0 <= i < max_num st.1 -> used st.1 i = true -> i ∈ map si_macid st.2;
  li_wf : maps_wf st.1;
  li_roles : forall s, s ∈ st.2 -> role_ok s;
  li_role : forall w i, 0 <= w < MAX_WIFI_ROLE_NUMBER -> 0 <= i -> role_has st.1 w i = holder (in_role w) st.2 i;
  li_bmc : forall i, 0 <= i -> bmc_has st.1 i = holder is_bmc st.2 i
}.

Lemma get_stainfo_used mc i p :
  rtw_phl_get_stainfo_by_macid mc i = Some p -> used mc i = true.
Proof. unfold rtw_phl_get_stainfo_by_macid, used. by repeat case_match. Qed.

Lemma NoDup_map_owner (l : list stainfo) (f : Z -> option Z) :
  NoDup (map si_ptr l) -> (forall s, s ∈ l -> f (si_macid s) = Some (si_ptr s)) ->
  NoDup (map si_macid l).
Proof.
  induction l as [|s l IH]; simpl; intros Hnd Hf; [constructor|].
  apply NoDup_cons in Hnd as [Hn Hnd]. apply NoDup_cons. split.
  - intros Hin. apply list_elem_of_fmap in Hin as (s' & Heq & Hin').
    apply Hn. apply list_elem_of_fmap. exists s'. split; [|done].
    pose proof (Hf s ltac:(set_solver)) as H1. pose proof (Hf s' ltac:(set_solver)) as H2.
    rewrite Heq in H1. congruence.
  - apply IH; [done|]. intros s' Hs'. apply Hf. set_solver.
Qed.

Lemma mstep_live_inv x y : mstep x y -> live_inv x -> live_inv y.
Proof.
  intros Hstep [Hi Hp Ho Hu Hwf Hro Hrm Hbm]. destruct Hstep as
    [mc live dtype main_id s mc' s' Hmain Hrok Hnew Hal
    |mc live dtype main_id s st mc' s' _ Hst Hal|mc l1 s l2 st mc' s' Hrel]; simpl in *.
  - destruct (alloc_macid_success mc dtype main_id s mc' s' Hi Hmain Hal)
      as (Hr & Hfree & Hptr & Hused & Hget & Hoth & Hmax & Hinv).
    pose proof (inv_max _ Hi) as Hmx. destruct Hrok as (Hlk & w0 & Hw & Hw0).
    destruct (alloc_maps mc dtype main_id s mc' s' w0 Hwf (proj2 Hmx) Hr Hw Hw0 Hal) as (Es & Hwf' & Hrole & Hbmc).
    constructor; simpl; [done| | | |done| | |].
    + rewrite Hptr. by apply NoDup_cons.
    + intros x [->|Hx]%elem_of_cons; [rewrite Hmax, Hptr; by split|].
      destruct (Ho x Hx) as [Hx1 Hx2]. rewrite Hmax. split; [done|].
      rewrite Hoth; [done|lia|]. intros Heq. apply get_stainfo_used in Hx2. congruence.
    + rewrite Hmax. intros i Hir. rewrite Hused by lia.
      intros [Hi1|Hi1]%orb_true_iff; [right; by apply Hu|]. apply Z.eqb_eq in Hi1. subst i. constructor.
    + intros x [->|Hx]%elem_of_cons; [|by apply Hro]. rewrite Es. split; [done|]. by exists w0.
    + intros w i Hwr Hi0. rewrite Hrole, Hrm, orb_comm, andb_comm, (Z.eqb_sym i) by done.
      fold (holder (in_role w) live i). f_equal. f_equal. rewrite Es. unfold in_role. cbn [set_si_macid si_wrole]. rewrite Hw.
      destruct (Z.eqb_spec w w0), (bool_decide_reflect (Some w0 = Some w)); congruence.
    + intros i Hi0. rewrite Hbmc, Hbm, orb_comm, andb_comm, (Z.eqb_sym i) by done.
      fold (holder is_bmc live i). f_equal. f_equal. by rewrite Es.
  - destruct (alloc_macid_failure _ _ _ _ _ _ _ Hi Hal Hst) as [-> _]. by constructor.
  - destruct (Ho s ltac:(set_solver)) as [Hs Hgets].
    pose proof (get_stainfo_used _ _ _ Hgets) as Hus.
    assert (NoDup (map si_macid (l1 ++ s :: l2))) as Hnd.
    { apply (NoDup_map_owner _ (rtw_phl_get_stainfo_by_macid mc)); [done|]. intros x Hx. by apply Ho. }
    pose proof (inv_max _ Hi) as Hmx. destruct (Hro s ltac:(set_solver)) as (Hlk & w0 & Hw & Hw0).
    destruct (release_maps mc s st mc' s' w0 Hwf (proj2 Hmx) Hs Hus Hw Hw0 Hrel) as (Hwf' & Hrole & Hbmc).
    pose proof (fun P i => proj1 (holder_remove P l1 s l2 i Hnd)) as Hrem.
    pose proof (fun P => proj2 (holder_remove P l1 s l2 0 Hnd)) as Hself.
    rewrite !map_app in *. simpl in *.
    destruct (release_macid_cases mc s st mc' s' Hi (proj1 Hs) Hrel)
      as (_ & [(_ & _ & [|])|(-> & _ & _ & Hused & Hget & Hmax & Hinv)]); [lia|congruence|].
    rewrite <- Permutation_middle in Hp, Hnd.
    apply NoDup_cons in Hp as [_ Hp]. apply NoDup_cons in Hnd as [Hn _].
    constructor; simpl; rewrite ?map_app, ?Hmax; [done|done| | |done| | |].
    + intros x Hx. destruct (Ho x ltac:(set_solver)) as [? Hx2]. split; [done|].
      rewrite Hget by lia. destruct (Z.eqb_spec (si_macid x) (si_macid s)) as [Heq|]; [|done].
      destruct Hn. rewrite <- Heq, <- map_app. by apply list_elem_of_fmap_2.
    + intros i Hir. rewrite Hused by lia. intros [Hi1 Hi2]%andb_true_iff.
      apply negb_true_iff, Z.eqb_neq in Hi2. specialize (Hu i Hir Hi1). set_solver.
    + intros x Hx. apply Hro. set_solver.
    + intros w i Hwr Hi0. rewrite Hrole, Hrm, Hrem by done.
      destruct (Z.eqb_spec i (si_macid s)) as [->|]; [|by rewrite andb_false_r].
      rewrite Hself. unfold in_role. rewrite Hw, andb_false_r, andb_true_r.
      destruct (Z.eqb_spec w w0), (bool_decide_reflect (Some w0 = Some w)); simpl; congruence.
    + intros i Hi0. rewrite Hbmc, Hbm, Hrem by done.
      destruct (Z.eqb_spec i (si_macid s)) as [->|]; [|by rewrite andb_false_r].
      rewrite Hself, andb_false_r, andb_true_r. unfold is_bmc. by destruct (is_bc_addr _).
Qed.

Lemma mreach_live_inv x y : mreach x y -> live_inv x -> live_inv y.
Proof. induction 1; eauto using mstep_live_inv. Qed.

Lemma replicate_nth_0 n i : nth i (replicate n 0) 0 = 0.
Proof. revert i. induction n; intros [|i]; simpl; auto. Qed.

Lemma zero_unused i : 0 <= i -> _phl_macid_is_used (replicate 8 0) i = false.
Proof.
  intros. rewrite is_used_testbit by done. unfold word_at. rewrite replicate_nth_0. apply Z.bits_0.
Qed.

Lemma macid_init_inv hw sw :
  0 < hw <= 256 -> 0 < sw <= 256 -> wf_cap (Z.min hw sw) ->
  live_inv ((phl_macid_ctrl_init hw sw macid_ctl_zero).2, []).
Proof.
  intros Hhw Hsw Hcap. unfold phl_macid_ctrl_init.
  rewrite (proj2 (Z.eqb_neq hw 0)) by lia. cbn [snd].
  replace (if hw <? sw then hw else sw) with (Z.min hw sw) by (destruct (Z.ltb_spec hw sw); lia).
  assert (forall i, 0 <= i -> _phl_macid_is_used (replicate 8 0) i = false) as Hz
    by apply zero_unused.
  constructor; cbn [fst snd]; [|constructor|set_solver| |..].
  - constructor; try done; cbn -[replicate]; [lia|..].
    + intros i Hi. unfold used. cbn -[replicate]. rewrite Hz by lia.
      rewrite nth_lookup. destruct (replicate 256 None !! Z.to_nat i) eqn:E; [|done].
      apply lookup_replicate in E as [-> _]. done.
    + intros _ g l Hg Hl. unfold used. cbn -[replicate].
      rewrite Hz by (destruct Hcap; nia). done.
    + intros _ g Hg. unfold flag. cbn -[replicate]. by rewrite !Hz by lia.
    + intros g Hg. by rewrite !Hz by lia.
  - intros i Hi. unfold used. cbn -[replicate]. by rewrite Hz by lia.
  - split_and!; [done| |done]. by apply Forall_replicate.
  - set_solver.
  - intros w i Hw Hi. unfold role_has. cbn -[replicate]. rewrite nth_lookup.
    destruct (replicate 5 (replicate 8 0) !! Z.to_nat w) eqn:E.
    + apply lookup_replicate in E as [-> _]. by apply Hz.
    + apply lookup_ge_None in E. rewrite length_replicate in E. unfold MAX_WIFI_ROLE_NUMBER in Hw. lia.
  - intros i Hi. by apply Hz.
Qed.
End Alloc.

(** ** Properties *)

Lemma holder_true P live i : holder P live i = true <-> exists s, s ∈ live /\ si_macid s = i /\ P s = true.
Proof.
  unfold holder. rewrite existsb_exists. setoid_rewrite andb_true_iff. setoid_rewrite Z.eqb_eq.
  by setoid_rewrite list_elem_of_In.
Qed.

(** C3. Over any history of allocations (legacy or multi-link) and releases
    that starts from an initialised controller with at most 256 MAC ids whose
    groups fit below the number of ids (one link and no groups on the 8851B), in
    which stations belong to one of the five roles and keep role and address
    while they hold an id, and further links of a multi-link device are only
    asked for with an id of a group of the device: no two live stations share a
    MAC id and every live station is found under its id; an id is marked used
    exactly when a live station owns it, marked in the map of a role exactly when
    its owner belongs to the role, and marked broadcast exactly when its owner
    has the broadcast address; with several links a group is reserved exactly
    when a live station owns one of its ids, and never both for a multi-link
    device and for legacy stations. *)
Theorem macid_history_sound cap hw sw mc live :
  0 < hw <= 256 -> 0 < sw <= 256 -> wf_cap cap (Z.min hw sw) ->
  mreach cap ((phl_macid_ctrl_init hw sw macid_ctl_zero).2, []) (mc, live) ->
  NoDup (map si_macid live) /\
  (forall s, s ∈ live -> rtw_phl_get_stainfo_by_macid mc (si_macid s) = Some (si_ptr s)) /\
  (forall i, 0 <= i < max_num mc ->
     (rtw_phl_macid_is_used mc i = true <-> i ∈ map si_macid live) /\
     (rtw_phl_macid_is_bmc mc i = true <->
        exists s, s ∈ live /\ si_macid s = i /\ is_bc_addr (si_mac_addr s) = true) /\
     forall w, 0 <= w < MAX_WIFI_ROLE_NUMBER ->
       (role_has mc w i = true <-> exists s, s ∈ live /\ si_macid s = i /\ si_wrole s = Some w)) /\
  (forall g, 0 <= g < max_mld_num cap ->
     (max_link_num cap <> 1 ->
        (flag mc g = true <->
         exists l, 0 <= l < max_link_num cap /\ g + max_mld_num cap * l ∈ map si_macid live)) /\
     _phl_macid_is_used (used_mld_map mc) g && _phl_macid_is_used (used_legacy_map mc) g = false).
Proof.
  intros Hhw Hsw Hcap Hreach.
  destruct (mreach_live_inv cap _ _ Hreach (macid_init_inv cap hw sw Hhw Hsw Hcap))
    as [Hi Hp Ho Hu _ _ Hrm Hbm]. simpl in *.
  assert (forall i, 0 <= i < max_num mc -> used mc i = true <-> i ∈ map si_macid live) as Hused.
  { intros i Hi0. split; [by apply Hu|]. intros Hin. apply list_elem_of_fmap in Hin as (s & -> & Hs).
    by eapply get_stainfo_used, Ho. }
  split_and!.
  - apply (NoDup_map_owner _ (rtw_phl_get_stainfo_by_macid mc)); [done|]. intros x Hx. by apply Ho.
  - intros s Hs. by apply Ho.
  - intros i Hi0. unfold rtw_phl_macid_is_used, rtw_phl_macid_is_bmc. rewrite (proj2 (Z.leb_gt _ _)) by lia.
    split_and!; [by apply Hused|rewrite <- holder_true; fold (bmc_has mc i); by rewrite Hbm by lia|].
    intros w Hw. rewrite Hrm by lia. rewrite holder_true. unfold in_role. by setoid_rewrite bool_decide_eq_true.
  - intros g Hg. split; [|by apply (inv_excl _ _ Hi)]. intros H1.
    assert (forall l, 0 <= l < max_link_num cap -> used mc (g + max_mld_num cap * l) = true <->
      g + max_mld_num cap * l ∈ map si_macid live) as Hgl.
    { intros l Hl. apply Hused. apply (group_bound cap); [apply Hi|done..]. }
    split.
    + intros Hf. destruct (inv_flag _ _ Hi H1 g Hg Hf) as (l & Hl & Hul). exists l. split; [done|]. by apply Hgl.
    + intros (l & Hl & Hin). apply (inv_group _ _ Hi H1 g l); try done. by apply Hgl.
Qed.

(** Two stations and the capabilities of a device with two links. *)
Definition demo_cap : dev_cap_t := DevCap 4 2.
Definition demo_sta (p : Z) : stainfo := StaInfo p (Some 0) 0 (replicate 6 p) 0.
Definition demo_init : macid_ctl_t := (phl_macid_ctrl_init 16 32 macid_ctl_zero).2.
Definition demo_a1 := _phl_alloc_macid demo_cap demo_init DEV_TYPE_MLD 16 (demo_sta 1).
Definition demo_a2 := _phl_alloc_macid demo_cap demo_a1.1.2 DEV_TYPE_LEGACY 0 (demo_sta 2).

Lemma demo_role_ok p : role_ok (demo_sta p).
Proof. split; [done|]. by exists 0. Qed.

Lemma demo_wf_cap : wf_cap demo_cap (Z.min 16 32).
Proof. unfold wf_cap. simpl. lia. Qed.

Lemma macid_history_sound_witness :
  NoDup (map si_macid [demo_a2.2; demo_a1.2]) /\
  rtw_phl_macid_is_used demo_a2.1.2 8 = true.
Proof.
  destruct (macid_history_sound demo_cap 16 32 demo_a2.1.2 [demo_a2.2; demo_a1.2])
    as (H1 & _ & H3 & _); [lia|lia|exact demo_wf_cap| |].
  - eapply mreach_step; [eapply mreach_step; [apply mreach_refl|]|].
    + apply (step_alloc demo_cap _ _ DEV_TYPE_MLD 16 (demo_sta 1)).
      * intros _. split; [lia|]. intros Hne. exfalso. by apply Hne.
      * apply demo_role_ok.
      * intros Hin. inversion Hin.
      * vm_compute. reflexivity.
    + apply (step_alloc demo_cap _ _ DEV_TYPE_LEGACY 0 (demo_sta 2)).
      * intros Hd. discriminate Hd.
      * apply demo_role_ok.
      * apply (bool_decide_unpack (2 ∉ [1])). vm_compute. done.
      * vm_compute. reflexivity.
  - split; [exact H1|]. apply (proj1 (H3 8 ltac:(split; vm_compute; congruence))).
    apply (bool_decide_unpack (8 ∈ [8; 0])). vm_compute. done.
Defined.

(** Releasing the station that was just given a MAC id succeeds, marks the
    station invalid, and restores the used set and every lookup by MAC id. *)
Theorem alloc_release_roundtrip cap mc dtype main_id s mc1 s1 :
  macid_inv cap mc -> main_ok cap mc dtype main_id ->
  _phl_alloc_macid cap mc dtype main_id s = (RTW_PHL_STATUS_SUCCESS, mc1, s1) ->
  exists mc2, _phl_release_macid cap mc1 s1 =
      (RTW_PHL_STATUS_SUCCESS, mc2, set_si_macid s1 (max_num mc)) /\
    (forall i, 0 <= i -> used mc2 i = used mc i) /\
    (forall i, 0 <= i ->
       rtw_phl_get_stainfo_by_macid mc2 i = rtw_phl_get_stainfo_by_macid mc i) /\
    macid_inv cap mc2.
Proof.
  intros Hi Hmain Hal.
  destruct (alloc_macid_success cap mc dtype main_id s mc1 s1 Hi Hmain Hal)
    as (Hr & Hfree & Hptr & Hused & Hget & Hoth & Hmax & Hinv).
  destruct (_phl_release_macid cap mc1 s1) as [[st mc2] s2] eqn:Hrel.
  destruct (release_macid_cases cap mc1 s1 st mc2 s2 Hinv (proj1 Hr) Hrel)
    as (-> & [(_ & _ & [|Hn])|(-> & _ & _ & Hu2 & Hg2 & _ & Hi2)]).
  - lia.
  - rewrite Hused, Z.eqb_refl, orb_true_r in Hn by lia. done.
  - exists mc2. split_and!; [by rewrite Hmax| | |done]; intros i Hi0.
    + rewrite Hu2, Hused by done. destruct (Z.eqb_spec i (si_macid s1)) as [->|].
      * by rewrite Hfree.
      * by rewrite orb_false_r, andb_true_r.
    + rewrite Hg2 by done. destruct (Z.eqb_spec i (si_macid s1)) as [->|]; [|by apply Hoth].
      destruct (rtw_phl_get_stainfo_by_macid mc (si_macid s1)) eqn:E; [|done].
      apply get_stainfo_used in E. congruence.
Qed.

Lemma alloc_release_roundtrip_witness :
  exists mc2, _phl_release_macid demo_cap demo_a1.1.2 demo_a1.2 =
      (RTW_PHL_STATUS_SUCCESS, mc2, set_si_macid demo_a1.2 16) /\
    (forall i, 0 <= i -> used mc2 i = used demo_init i) /\
    (forall i, 0 <= i ->
       rtw_phl_get_stainfo_by_macid mc2 i = rtw_phl_get_stainfo_by_macid demo_init i) /\
    macid_inv demo_cap mc2.
Proof.
  apply (alloc_release_roundtrip demo_cap demo_init DEV_TYPE_MLD 16 (demo_sta 1)).
  - exact (li_inv _ _ (macid_init_inv demo_cap 16 32 ltac:(lia) ltac:(lia) demo_wf_cap)).
  - intros _. split; [lia|]. intros Hne. exfalso. by apply Hne.
  - vm_compute. reflexivity.
Defined.

Lemma legacy_loop_keeps cap mc mids a r :
  a <> max_num mc -> legacy_loop cap mc mids a = inr r -> r = a.
Proof.
  intros Ha. induction mids as [|m ms IH]; simpl; [congruence|].
  rewrite (proj2 (Z.eqb_neq a _)) by done. repeat case_match; try done; auto.
Qed.

Lemma legacy_loop_exhausted cap mc mids :
  macid_inv cap mc -> Forall (fun g => 0 <= g < max_mld_num cap) mids ->
  legacy_loop cap mc mids (max_num mc) = inr (max_num mc) ->
  Forall (fun g => _phl_macid_is_used (used_mld_map mc) g = true \/
    forall l, 0 <= l < max_link_num cap -> used mc (g + max_mld_num cap * l) = true) mids.
Proof.
  intros Hi Hf. pose proof (inv_max _ _ Hi).
  induction Hf as [|g mids Hg Hf IH]; cbn [legacy_loop]; intros Hl; constructor.
  - destruct (_phl_macid_is_used (used_mld_map mc) g); [by left|right].
    destruct (_phl_macid_is_used (used_legacy_map mc) g); cbn [negb] in Hl.
    + destruct (first_such _ _ _) eqn:E in Hl; [done|]. intros l Hlr.
      eapply (first_such_None _ _ _ l) in E; [|lia]. apply negb_false_iff in E.
      pose proof (group_bound cap _ g l (inv_cap _ _ Hi) Hg Hlr).
      by rewrite u16_small in E by ulia.
    + rewrite Z.eqb_refl in Hl. pose proof (inv_cap _ _ Hi) as Hc.
      pose proof (group_bound cap _ g 0 Hc Hg ltac:(destruct Hc; lia)).
      apply legacy_loop_keeps in Hl; lia.
  - apply IH. destruct (_phl_macid_is_used (used_mld_map mc) g); [done|].
    destruct (_phl_macid_is_used (used_legacy_map mc) g); cbn [negb] in Hl.
    + by destruct (first_such _ _ _) in Hl.
    + rewrite Z.eqb_refl in Hl. pose proof (inv_cap _ _ Hi) as Hc.
      pose proof (group_bound cap _ g 0 Hc Hg ltac:(destruct Hc; lia)).
      apply legacy_loop_keeps in Hl; lia.
Qed.

(** On a device with one link or with groups, a legacy allocation for a
    station with a role fails only when every MAC id is used or lies in a group reserved to a multi-link device; it then
    returns [FAILURE], leaves the controller unchanged and gives the station
    the invalid MAC id. *)
Theorem alloc_legacy_fails_only_when_full cap mc main_id s w st mc' s' :
  macid_inv cap mc -> max_link_num cap = 1 \/ 0 < max_mld_num cap -> si_wrole s = Some w ->
  _phl_alloc_macid cap mc DEV_TYPE_LEGACY main_id s = (st, mc', s') ->
  st <> RTW_PHL_STATUS_SUCCESS ->
  st = RTW_PHL_STATUS_FAILURE /\ mc' = mc /\ si_macid s' = max_num mc /\
  forall i, 0 <= i < max_num mc -> used mc i = true \/
    (i < max_mld_num cap * max_link_num cap /\
     _phl_macid_is_used (used_mld_map mc) (i mod max_mld_num cap) = true).
Proof.
  intros Hi Hdev Hw Hal Hst.
  destruct (alloc_macid_failure cap _ _ _ _ _ _ _ Hi Hal Hst) as [-> ->].
  split_and!; [done|done| |].
  - unfold _phl_alloc_macid in Hal. rewrite Hw in Hal. by repeat case_match; simplify_eq.
  - pose proof (inv_cap _ _ Hi) as (Hc1 & Hc2 & Hc3). pose proof (inv_max _ _ Hi).
    assert (exists mc1, _phl_alloc_legacy_macid cap mc = (max_num mc, mc1)) as [mc1 Ha].
    { unfold _phl_alloc_macid in Hal. rewrite Hw in Hal. case_match; simplify_eq.
      destruct (Z.eqb_spec z (max_num mc)) as [->|]; simplify_eq. by eexists. }
    intros i Hir. unfold _phl_alloc_legacy_macid in Ha.
    destruct (Z.eqb_spec RTW_ONE_LINK (max_link_num cap)) as [H1|H1].
    + left. destruct (first_such _ _ _) eqn:E in Ha.
      * apply first_such_Some in E. simplify_eq. lia.
      * eapply (first_such_None _ _ _ i) in E; [|lia]. by apply negb_false_iff in E.
    + destruct Hdev as [Hdev|Hdev]; [unfold RTW_ONE_LINK in H1; lia|].
      rewrite (u16_small (max_mld_num cap * max_link_num cap)) in Ha by ulia.
      match type of Ha with match ?a with _ => _ end = _ => destruct a eqn:Eab end.
      { simplify_eq. destruct (_ && _); [|done]. apply first_such_Some in Eab. lia. }
      destruct (Z.lt_ge_cases i (max_mld_num cap * max_link_num cap)) as [Hlt|Hge].
      * pose proof (legacy_loop_spec cap mc _ (max_num mc) Hi
          ltac:(unfold RTW_ONE_LINK in H1; lia) (seqZ_range (max_mld_num cap))) as Hsp.
        destruct (legacy_loop _ _ _ _) as [m|a] eqn:El in Ha, Hsp.
        { simplify_eq. destruct Hsp as (g & l & Hg & Hl & Heq & _).
          pose proof (group_bound cap _ g l (inv_cap _ _ Hi) Hg Hl). lia. }
        assert (a = max_num mc) as -> by (repeat case_match; by simplify_eq).
        pose proof (legacy_loop_exhausted cap mc _ Hi (seqZ_range (max_mld_num cap)) El) as Hex.
        rewrite Forall_forall in Hex.
        destruct (Hex (i mod max_mld_num cap)) as [Hm|Hm].
        { apply elem_of_seqZ. pose proof (Z.mod_pos_bound i (max_mld_num cap)). lia. }
        { by right. }
        left. rewrite (Z.div_mod i (max_mld_num cap)), Z.add_comm by lia. apply Hm.
        split; [apply Z.div_pos; lia|]. apply Z.div_lt_upper_bound; lia.
      * left. rewrite (proj2 (Z.ltb_lt 0 _)), (proj2 (Z.ltb_lt _ (max_num mc))) in Eab by nia.
        simpl in Eab. eapply (first_such_None _ _ _ i) in Eab; [|lia].
        by apply negb_false_iff in Eab.
Qed.

(** A controller for one link and no groups, as on the 8851B, with two MAC
    ids, both taken. *)
Definition demo_cap1 : dev_cap_t := DevCap 0 1.
Definition demo_full : macid_ctl_t :=
  (_phl_alloc_macid demo_cap1
     (_phl_alloc_macid demo_cap1 (phl_macid_ctrl_init 2 2 macid_ctl_zero).2
        DEV_TYPE_LEGACY 0 (demo_sta 1)).1.2 DEV_TYPE_LEGACY 0 (demo_sta 2)).1.2.

Lemma demo_full_inv : macid_inv demo_cap1 demo_full.
Proof.
  assert (live_inv demo_cap1 (demo_full, [set_si_macid (demo_sta 2) 1; set_si_macid (demo_sta 1) 0])) as H.
  { eapply mreach_live_inv; [|apply (macid_init_inv demo_cap1 2 2); unfold wf_cap; simpl; lia].
    eapply mreach_step; [eapply mreach_step; [apply mreach_refl|]|].
    - apply (step_alloc _ _ _ DEV_TYPE_LEGACY 0 (demo_sta 1)); [done|apply demo_role_ok|by apply not_elem_of_nil|].
      vm_compute. reflexivity.
    - apply (step_alloc _ _ _ DEV_TYPE_LEGACY 0 (demo_sta 2)); [done|apply demo_role_ok|set_solver|].
      vm_compute. reflexivity. }
  exact (li_inv _ _ H).
Qed.

Lemma alloc_legacy_fails_only_when_full_witness :
  used demo_full 1 = true \/
  (1 < 0 * 1 /\ _phl_macid_is_used (used_mld_map demo_full) (1 mod 0) = true).
Proof.
  apply (alloc_legacy_fails_only_when_full demo_cap1 demo_full 0 (demo_sta 3) 0
    RTW_PHL_STATUS_FAILURE demo_full (set_si_macid (demo_sta 3) 2) demo_full_inv).
  - by left.
  - reflexivity.
  - vm_compute. reflexivity.
  - discriminate.
  - vm_compute. split; congruence.
Defined.

(** Number of roles whose map has the id. *)
Definition owners (maps : list (list Z)) (macid : Z) : nat :=
  length (List.filter (fun m => _phl_macid_is_used m macid) maps).

Lemma BIT_u8_nonzero b i : 0 <= i < 8 -> 0 <= b -> (u8 (Z.lor b (BIT i)) =? 0) = false.
Proof.
  intros Hi Hb. apply Z.eqb_neq. intros H0.
  assert (Z.testbit (u8 (Z.lor b (BIT i))) i = true) as Ht.
  { rewrite testbit_u8, testbit_lor_BIT by lia. by rewrite Z.eqb_refl, orb_true_r. }
  rewrite H0, Z.bits_0 in Ht. done.
Qed.

Lemma shared_loop_spec maps macid i b :
  0 <= b -> 0 <= i -> i + Z.of_nat (length maps) <= 8 ->
  shared_loop maps i macid b =
    ((if (b =? 0)%Z then 2 else 1) <=? owners maps macid)%nat.
Proof.
  revert i b. induction maps as [|m maps IH]; intros i b Hb Hi Hl; simpl.
  - by destruct (b =? 0).
  - simpl in Hl. unfold owners. simpl. destruct (_phl_macid_is_used m macid) eqn:E; simpl.
    + destruct (b =? 0) eqn:Eb; simpl; [|done].
      rewrite IH by (lia || pose proof (u8_range (Z.lor b (BIT i))); ulia).
      by rewrite BIT_u8_nonzero by lia.
    + rewrite IH by lia. done.
Qed.

Lemma specific_loop_spec maps macid i wrole b :
  0 <= b -> 0 <= i -> i + Z.of_nat (length maps) <= 8 -> 0 <= wrole ->
  (b <> 0 -> wrole < i) ->
  specific_loop maps i macid wrole b =
    if b =? 0
    then ((owners maps macid =? 1)%nat && (i <=? wrole) &&
          _phl_macid_is_used (nth (Z.to_nat (wrole - i)) maps []) macid)
    else (owners maps macid =? 0)%nat.
Proof.
  revert i b. induction maps as [|m maps IH]; intros i b Hb Hi Hl Hw Hbw; simpl.
  - by destruct (b =? 0).
  - simpl in Hl. unfold owners. simpl. destruct (_phl_macid_is_used m macid) eqn:E; simpl.
    + destruct (Z.eqb_spec b 0) as [->|Hb0]; simpl; [|done].
      destruct (Z.eqb_spec i wrole) as [->|Hne]; simpl.
      * rewrite IH by (lia || (pose proof (u8_range (Z.lor 0 (BIT wrole))); ulia)).
        rewrite BIT_u8_nonzero by lia. rewrite Z.leb_refl, Z.sub_diag. simpl.
        rewrite E. unfold owners. by rewrite !andb_true_r.
      * symmetry. destruct (Z.leb_spec i wrole); [|by rewrite andb_false_r].
        replace (Z.to_nat (wrole - i)) with (S (Z.to_nat (wrole - (i + 1)))) by lia. simpl.
        destruct (_phl_macid_is_used (nth _ maps []) macid) eqn:E2; [|by rewrite andb_false_r].
        destruct (length (List.filter _ maps)) eqn:E3; [|done].
        apply length_zero_iff_nil in E3.
        destruct (nth_in_or_default (Z.to_nat (wrole - (i + 1))) maps []) as [Hin|Hd].
        -- assert (In (nth (Z.to_nat (wrole - (i + 1))) maps [])
              (List.filter (fun m => _phl_macid_is_used m macid) maps)) as Hf
             by (apply filter_In; done).
           rewrite E3 in Hf. destruct Hf.
        -- rewrite Hd in E2. unfold _phl_macid_is_used, word_at in E2.
           destruct (Z.to_nat (macid / 32)); done.
    + rewrite IH by lia. destruct (Z.eqb_spec b 0) as [->|Hb0]; [|done].
      unfold owners. destruct (Z.leb_spec i wrole) as [Hle|Hgt].
      * destruct (Z.eq_dec i wrole) as [->|Hne].
        -- rewrite (proj2 (Z.leb_gt _ _)), Z.sub_diag by lia. simpl.
           by rewrite E, !andb_false_r.
        -- rewrite (proj2 (Z.leb_le _ _)) by lia.
           by replace (Z.to_nat (wrole - i)) with (S (Z.to_nat (wrole - (i + 1)))) by lia.
      * rewrite (proj2 (Z.leb_gt (i + 1) wrole)) by lia. by rewrite !andb_false_r.
Qed.

(** The two ownership tests: a valid MAC id is shared exactly when at
    least two roles use it, and specific to a role exactly when that role uses
    it and no other does; out-of-range ids are neither. *)
Theorem macid_ownership mc macid wrole :
  length (wifi_role_usedmap mc) = Z.to_nat MAX_WIFI_ROLE_NUMBER -> 0 <= wrole ->
  rtw_phl_macid_is_wrole_shared mc macid =
    (macid <? max_num mc) && (2 <=? owners (wifi_role_usedmap mc) macid)%nat /\
  rtw_phl_macid_is_wrole_specific mc macid wrole =
    (macid <? max_num mc) && ((owners (wifi_role_usedmap mc) macid =? 1)%nat &&
      _phl_macid_is_used (nth (Z.to_nat wrole) (wifi_role_usedmap mc) []) macid).
Proof.
  unfold MAX_WIFI_ROLE_NUMBER. intros Hlen Hw.
  unfold rtw_phl_macid_is_wrole_shared, rtw_phl_macid_is_wrole_specific.
  rewrite Z.leb_antisym. destruct (macid <? max_num mc); simpl; [|done].
  rewrite shared_loop_spec, specific_loop_spec by lia. simpl. rewrite Z.sub_0_r.
  by rewrite (proj2 (Z.leb_le 0 wrole)), andb_true_r by lia.
Qed.

Lemma macid_ownership_witness :
  rtw_phl_macid_is_wrole_specific demo_a1.1.2 0 0 = true /\
  rtw_phl_macid_is_wrole_shared demo_a1.1.2 0 = false.
Proof.
  destruct (macid_ownership demo_a1.1.2 0 0) as [H1 H2]; [reflexivity|lia|].
  rewrite H1, H2. split; reflexivity.
Defined.
