(* ===== verification/TrxStats.v ===== *)
(** * Traffic statistics

    Models the byte counters, the throughput estimate and the traffic level of
    [struct rtw_stats] (src/phl/phl_tx.c and src/phl/phl_rx.c).  The fields of
    one direction form a record of their own, since the transmit and the receive
    code are the same up to the field names. *)
From Stdlib Require Import ZArith Lia Bool List.
From stdpp Require Import base tactics list numbers gmap.
From S2P Require Import Prelude Macid.

(** The fields [x_byte_uni], [x_byte_total], [x_tp_kbits], [last_x_time_ms],
    [xtp.last_calc_bits], [xtp.last_calc_time_ms], [x_traffic.lvl] and
    [x_traffic.sts] of one direction. *)
Record dir_stats := DirStats {
  byte_uni : Z; byte_total : Z; tp_kbits : Z; last_time_ms : Z;
  last_calc_bits : Z; last_calc_time_ms : Z; lvl : Z; sts : Z
}.

Record rtw_stats := RtwStats {
  tx_stats : dir_stats; rx_stats : dir_stats; txreq_num : Z; rx_rate : Z;
  rx_tf_cnt : Z; pre_rx_tf_cnt : Z
}.

Definition RTW_TFC_IDLE : Z := 0.
Definition RTW_TFC_ULTRA_LOW : Z := 1.
Definition RTW_TFC_LOW : Z := 2.
Definition RTW_TFC_MID : Z := 3.
Definition RTW_TFC_HIGH : Z := 4.

Definition TRAFFIC_CHANGED : Z := 1.
Definition TRAFFIC_INCREASE : Z := 2.
Definition TRAFFIC_DECREASE : Z := 4.

Definition RTW_U32_MAX : Z := 4294967295.

(** A packet as far as the statistics look: its length, its MAC id and the
    broadcast and multicast flags. *)
Record pkt_info := PktInfo { pktlen : Z; macid : Z; bc : bool; mc : bool }.

Definition set_rx_stats (s : rtw_stats) (d : dir_stats) : rtw_stats :=
  RtwStats (tx_stats s) d (txreq_num s) (rx_rate s) (rx_tf_cnt s) (pre_rx_tf_cnt s).

Definition set_tx_stats (s : rtw_stats) (d : dir_stats) : rtw_stats :=
  RtwStats d (rx_stats s) (txreq_num s) (rx_rate s) (rx_tf_cnt s) (pre_rx_tf_cnt s).

(** ** Reset

    Both functions assign [last_calc_time_ms] twice and never touch
    [last_calc_bits]. *)
Definition reset_dir (d : dir_stats) : dir_stats :=
  DirStats 0 0 0 0 (last_calc_bits d) 0 RTW_TFC_IDLE 0.

Definition phl_reset_rx_stats (s : rtw_stats) : rtw_stats :=
  RtwStats (tx_stats s) (reset_dir (rx_stats s)) (txreq_num s) (rx_rate s) 0 0.

Definition phl_reset_tx_stats (s : rtw_stats) : rtw_stats :=
  set_tx_stats s (reset_dir (tx_stats s)).

(** ** Traffic level *)

Definition tfc_level (kbits : Z) : Z :=
  let tp_m := Z.shiftr kbits 10 in
  if 50 <=? tp_m then RTW_TFC_HIGH
  else if 10 <=? tp_m then RTW_TFC_MID
  else if 2 <=? tp_m then RTW_TFC_LOW
  else if 100 <=? kbits then RTW_TFC_ULTRA_LOW
  else RTW_TFC_IDLE.

Definition traffic_upd (d : dir_stats) : dir_stats :=
  let l := tfc_level (tp_kbits d) in
  let mk l' s' := DirStats (byte_uni d) (byte_total d) (tp_kbits d) (last_time_ms d)
                    (last_calc_bits d) (last_calc_time_ms d) l' s' in
  let any := Z.lor (Z.lor TRAFFIC_CHANGED TRAFFIC_INCREASE) TRAFFIC_DECREASE in
  if l <? lvl d then mk l (Z.lor TRAFFIC_CHANGED TRAFFIC_DECREASE)
  else if lvl d <? l then mk l (Z.lor TRAFFIC_CHANGED TRAFFIC_INCREASE)
  else if negb (Z.land (sts d) any =? 0) then mk (lvl d) (Z.land (sts d) (Z.lnot any))
  else d.

Definition phl_rx_traffic_upd (s : rtw_stats) : rtw_stats :=
  set_rx_stats s (traffic_upd (rx_stats s)).

Definition phl_tx_traffic_upd (s : rtw_stats) : rtw_stats :=
  set_tx_stats s (traffic_upd (tx_stats s)).

(** ** Counting a packet at time [cur_time] *)

Definition CALC_DIFF_MS : Z := 1000.

Definition count_pkt (d : dir_stats) (p : pkt_info) (cur_time : Z) : dir_stats :=
  let total := u64 (byte_total d + pktlen p) in
  let uni := if negb (bc p) && negb (mc p) then u64 (byte_uni d + pktlen p) else byte_uni d in
  if (last_calc_time_ms d =? 0) || (last_calc_bits d =? 0) then
    DirStats uni total (tp_kbits d) cur_time (u64 (uni * 8)) cur_time (lvl d) (sts d)
  else
    let diff_t := if last_calc_time_ms d <=? cur_time
                  then u32 (cur_time - last_calc_time_ms d)
                  else u32 (RTW_U32_MAX - last_calc_time_ms d + cur_time + 1) in
    if (CALC_DIFF_MS <? diff_t) && negb (uni =? 0) then
      let diff_bits := u64 (u64 (uni * 8) - last_calc_bits d) in
      DirStats uni total (u32 (diff_bits / diff_t)) cur_time (u64 (uni * 8)) cur_time
        (lvl d) (sts d)
    else DirStats uni total (tp_kbits d) cur_time (last_calc_bits d) (last_calc_time_ms d)
           (lvl d) (sts d).

Definition phl_update_rx_stats (s : rtw_stats) (p : pkt_info) (cur_time : Z) : rtw_stats :=
  set_rx_stats s (count_pkt (rx_stats s) p cur_time).

Definition phl_update_tx_stats (s : rtw_stats) (p : pkt_info) (cur_time : Z) : rtw_stats :=
  RtwStats (count_pkt (tx_stats s) p cur_time) (rx_stats s) (u32 (txreq_num s + 1)) (rx_rate s)
    (rx_tf_cnt s) (pre_rx_tf_cnt s).

(** The statistics of the device and of every station, by its address. *)
Record all_stats := AllStats { phl_stats : rtw_stats; sta_stats : gmap Z rtw_stats }.

Definition phl_rx_statistics (ctl : macid_ctl_t) (a : all_stats) (p : pkt_info) (cur_time : Z) :
    all_stats :=
  let dev st := AllStats (phl_update_rx_stats (phl_stats a) p cur_time) st in
  if negb (phl_macid_is_valid ctl (macid p)) then dev (sta_stats a)
  else match rtw_phl_get_stainfo_by_macid ctl (macid p) with
       | None => dev (sta_stats a)
       | Some s => dev (alter (fun st => phl_update_rx_stats st p cur_time) s (sta_stats a))
       end.

Definition phl_tx_statistics (ctl : macid_ctl_t) (a : all_stats) (p : pkt_info) (cur_time : Z) :
    all_stats :=
  let dev st := AllStats (phl_update_tx_stats (phl_stats a) p cur_time) st in
  if negb (phl_macid_is_valid ctl (macid p)) then dev (sta_stats a)
  else match rtw_phl_get_stainfo_by_macid ctl (macid p) with
       | None => dev (sta_stats a)
       | Some s => dev (alter (fun st => phl_update_tx_stats st p cur_time) s (sta_stats a))
       end.

(** ** Histories of one direction *)

Inductive sevent :=
  | EvPkt (p : pkt_info) (cur_time : Z)
  | EvReset
  | EvWatchdog.

Definition sstep (d : dir_stats) (e : sevent) : dir_stats :=
  match e with
  | EvPkt p t => count_pkt d p t
  | EvReset => reset_dir d
  | EvWatchdog => traffic_upd d
  end.

(** Bytes since the last reset. *)
Definition bytes_since (f : pkt_info -> bool) (n : Z) (e : sevent) : Z :=
  match e with
  | EvPkt p _ => if f p then n + pktlen p else n
  | EvReset => 0
  | EvWatchdog => n
  end.

Definition all_bytes (e : list sevent) : Z :=
  fold_right (fun e n => match e with EvPkt p _ => pktlen p + n | _ => n end) 0 e.

Definition dir_zero : dir_stats := DirStats 0 0 0 0 0 0 0 0.

Definition unicast (p : pkt_info) : bool := negb (bc p) && negb (mc p).

Definition ev_ok (e : sevent) : Prop :=
  match e with EvPkt p t => 0 <= pktlen p /\ is_u32 t | _ => True end.

(** [last_calc_bits] is stale only when [last_calc_time_ms] says so. *)
Definition tp_inv (d : dir_stats) : Prop :=
  last_calc_time_ms d = 0 \/ 0 <= last_calc_bits d <= 8 * byte_uni d.

Lemma traffic_upd_fields d :
  byte_uni (traffic_upd d) = byte_uni d /\ byte_total (traffic_upd d) = byte_total d /\
  last_calc_bits (traffic_upd d) = last_calc_bits d /\
  last_calc_time_ms (traffic_upd d) = last_calc_time_ms d /\
  tp_kbits (traffic_upd d) = tp_kbits d /\ lvl (traffic_upd d) = tfc_level (tp_kbits d).
Proof.
  unfold traffic_upd. destruct (Z.ltb_spec (tfc_level (tp_kbits d)) (lvl d)); [done|].
  destruct (Z.ltb_spec (lvl d) (tfc_level (tp_kbits d))); [done|].
  destruct (negb _); split_and!; try done; simpl; lia.
Qed.

Lemma history_inv evs d uni total :
  Forall ev_ok evs -> 0 <= uni <= total -> total + all_bytes evs < 2 ^ 61 ->
  byte_uni d = uni -> byte_total d = total -> tp_inv d ->
  byte_uni (fold_left sstep evs d) = fold_left (bytes_since unicast) evs uni /\
  byte_total (fold_left sstep evs d) = fold_left (bytes_since (fun _ => true)) evs total /\
  tp_inv (fold_left sstep evs d).
Proof.
  intros Hok. revert d uni total.
  induction Hok as [|e evs He Hok IH]; intros d uni total Hut Hb Hu Ht Hinv; simpl in *; [done|].
  assert (0 <= all_bytes evs) as Hpos.
  { clear -Hok. induction Hok as [|[] ? He]; simpl in *; lia. }
  destruct e as [p t| |]; simpl in *.
  - destruct He as [Hp Hti]. unfold unicast at 2.
    assert (u64 (total + pktlen p) = total + pktlen p) as E1 by ulia.
    assert (u64 (uni + pktlen p) = uni + pktlen p) as E2 by ulia.
    apply IH; [destruct (negb (bc p) && negb (mc p)); lia|lia| | |];
      unfold count_pkt, tp_inv in *; rewrite Hu, Ht, E1, E2 in *.
    + by repeat case_match.
    + by repeat case_match.
    + repeat case_match; simpl; try (right; ulia); destruct Hinv; lia.
  - apply IH; simpl; try lia. by left.
  - destruct (traffic_upd_fields d) as (F1 & F2 & F3 & F4 & _).
    apply IH; unfold tp_inv; rewrite ?F1, ?F2, ?F3, ?F4; try done; lia.
Qed.

(** ** Properties *)

(** Byte accounting is exact: over any history of packets, resets and
    watchdog ticks that carries less than 2^61 bytes, the total counter is the
    number of bytes since the last reset, the unicast counter the number of
    those that were neither broadcast nor multicast, and the bit count kept for
    the throughput never exceeds what was counted, except in a direction that
    was reset and has not seen a packet since. *)
Theorem byte_accounting evs :
  Forall ev_ok evs -> all_bytes evs < 2 ^ 61 ->
  byte_uni (fold_left sstep evs dir_zero) = fold_left (bytes_since unicast) evs 0 /\
  byte_total (fold_left sstep evs dir_zero) = fold_left (bytes_since (fun _ => true)) evs 0 /\
  tp_inv (fold_left sstep evs dir_zero).
Proof.
  intros Hok Hb. apply (history_inv evs dir_zero 0 0); try done; try lia. by left.
Qed.

Definition demo_events : list sevent :=
  [EvPkt (PktInfo 1500 0 false false) 10; EvReset; EvPkt (PktInfo 1000 0 false false) 500;
   EvWatchdog; EvPkt (PktInfo 60 0 true false) 900; EvPkt (PktInfo 2000 0 false false) 1600].

Lemma byte_accounting_witness :
  byte_uni (fold_left sstep demo_events dir_zero) = 3000 /\
  byte_total (fold_left sstep demo_events dir_zero) = 3060.
Proof.
  destruct (byte_accounting demo_events) as (H1 & H2 & _).
  - repeat constructor; simpl; ulia.
  - vm_compute. reflexivity.
  - rewrite H1, H2. split; reflexivity.
Defined.

(** A throughput estimate is the number of unicast bits counted since the
    last one, divided by the true elapsed time, also when the 32-bit
    millisecond clock wrapped in between; it is made only when more than a
    second has passed, and the 64-bit subtraction never underflows. *)
Theorem throughput_estimate d p cur_time uni :
  tp_inv d -> last_calc_time_ms d <> 0 -> last_calc_bits d <> 0 ->
  is_u32 cur_time -> is_u32 (last_calc_time_ms d) -> 0 <= pktlen p ->
  0 <= byte_uni d -> byte_uni d + pktlen p < 2 ^ 61 ->
  uni = (if unicast p then byte_uni d + pktlen p else byte_uni d) ->
  let elapsed := u32 (cur_time - last_calc_time_ms d) in
  let d' := count_pkt d p cur_time in
  0 <= 8 * uni - last_calc_bits d /\
  (1000 < elapsed -> uni <> 0 ->
     tp_kbits d' = u32 ((8 * uni - last_calc_bits d) / elapsed) /\
     last_calc_bits d' = 8 * uni /\ last_calc_time_ms d' = cur_time) /\
  (elapsed <= 1000 -> tp_kbits d' = tp_kbits d /\
     last_calc_bits d' = last_calc_bits d /\ last_calc_time_ms d' = last_calc_time_ms d).
Proof.
  intros Hinv Ht0 Hb0 Hc Ht Hp Hu0 Hbnd Huni elapsed d'.
  destruct Hinv as [|Hinv]; [done|].
  assert (u64 (byte_uni d + pktlen p) = byte_uni d + pktlen p) as E1 by ulia.
  assert ((if last_calc_time_ms d <=? cur_time then u32 (cur_time - last_calc_time_ms d)
           else u32 (RTW_U32_MAX - last_calc_time_ms d + cur_time + 1)) = elapsed) as E2.
  { unfold elapsed, RTW_U32_MAX. destruct (_ <=? _); [done|]. ulia. }
  assert (u64 (uni * 8) = 8 * uni) as E3 by (destruct (unicast p); ulia).
  assert (0 <= 8 * uni - last_calc_bits d) as Hnn by (destruct (unicast p); lia).
  unfold d', count_pkt, CALC_DIFF_MS. fold (unicast p). rewrite E1, E2.
  rewrite <- Huni, E3, (proj2 (Z.eqb_neq _ _) Ht0), (proj2 (Z.eqb_neq _ _) Hb0). cbn [orb].
  split_and!; [done| |].
  - intros He Hn. rewrite (proj2 (Z.ltb_lt _ _)), (proj2 (Z.eqb_neq uni 0)) by lia. simpl.
    split_and!; try done. do 2 f_equal. destruct (unicast p); ulia.
  - intros He. by rewrite (proj2 (Z.ltb_ge _ _)) by lia.
Qed.

Lemma throughput_estimate_witness :
  tp_kbits (count_pkt (DirStats 1000 1000 0 0 8000 4294967000 0 0)
              (PktInfo 2000 0 false false) 1704) = 8.
Proof.
  destruct (throughput_estimate (DirStats 1000 1000 0 0 8000 4294967000 0 0)
    (PktInfo 2000 0 false false) 1704 3000) as (_ & H & _);
    [right; simpl; lia|simpl; ulia..|reflexivity|].
  destruct H as (H & _); [vm_compute; reflexivity|lia|]. rewrite H. reflexivity.
Defined.

(** The watchdog's traffic level is the level of the current throughput,
    it reports the direction of a change exactly once (a second tick at the
    same throughput clears the report), and a higher throughput never has a
    lower level. *)
Theorem traffic_level_reported_once d kbits :
  let d1 := traffic_upd d in
  let d2 := traffic_upd d1 in
  lvl d1 = tfc_level (tp_kbits d) /\
  (lvl d < lvl d1 -> sts d1 = Z.lor TRAFFIC_CHANGED TRAFFIC_INCREASE) /\
  (lvl d1 < lvl d -> sts d1 = Z.lor TRAFFIC_CHANGED TRAFFIC_DECREASE) /\
  lvl d2 = lvl d1 /\ Z.land (sts d2) 7 = 0 /\
  (tp_kbits d <= kbits -> tfc_level (tp_kbits d) <= tfc_level kbits).
Proof.
  intros d1 d2. destruct (traffic_upd_fields d) as (_ & _ & _ & _ & F5 & F6).
  destruct (traffic_upd_fields d1) as (_ & _ & _ & _ & G5 & G6).
  fold d1 in F5, F6. fold d2 in G5, G6. rewrite F5 in G6.
  split_and!; try done; try congruence.
  - intros Hlt. rewrite F6 in Hlt. unfold d1, traffic_upd.
    rewrite (proj2 (Z.ltb_ge _ _)), (proj2 (Z.ltb_lt _ _)) by lia. done.
  - intros Hlt. rewrite F6 in Hlt. unfold d1, traffic_upd.
    by rewrite (proj2 (Z.ltb_lt _ _)) by lia.
  - unfold d2, traffic_upd. rewrite F5, <- F6, Z.ltb_irrefl.
    change (Z.lor (Z.lor TRAFFIC_CHANGED TRAFFIC_INCREASE) TRAFFIC_DECREASE) with 7.
    destruct (Z.eqb_spec (Z.land (sts d1) 7) 0) as [|Hn]; [done|]. cbn [negb sts].
    rewrite <- Z.land_assoc. change (Z.land (Z.lnot 7) 7) with 0. apply Z.land_0_r.
  - intros Hle. unfold tfc_level, RTW_TFC_HIGH, RTW_TFC_MID, RTW_TFC_LOW,
      RTW_TFC_ULTRA_LOW, RTW_TFC_IDLE.
    rewrite !Z.shiftr_div_pow2 by lia. change (2 ^ 10) with 1024.
    pose proof (Z.div_le_mono (tp_kbits d) kbits 1024 ltac:(lia) Hle).
    repeat case_match; lia.
Qed.
