(* ===== verification/TxDesc.v ===== *)
(** * Transmit descriptors of the 8851B MAC

    Every frame that goes to the chip starts with a descriptor, the WD: a body
    of six words and, when [wdinfo_en] is set, an info part of six words.  The
    file models the code that builds it
    (src/phl/hal_g6/mac/mac_ax/mac_8851b/trx_desc_8851b.c), the checksum, the
    refill of the aggregation number, and the HAL functions that call them.
    The field positions are those of src/phl/hal_g6/mac/txdesc.h. *)
From Stdlib Require Import ZArith Lia Bool List.
From stdpp Require Import base tactics list numbers.
From S2P Require Import Prelude.

(** ** Descriptor words *)

(** A field of a word: its shift and its mask ([_SH] and [_MSK]). *)
Record field := Field { f_sh : Z; f_msk : Z }.

#[global] Instance field_eq_dec : EqDecision field.
Proof. solve_decision. Defined.

(** A flag given as [BIT(n)]. *)
Definition FBIT (n : Z) : field := Field n 1.

Definition SET_WORD (v : Z) (f : field) : Z := Z.shiftl (Z.land v (f_msk f)) (f_sh f).

Definition GET_FIELD (w : Z) (f : field) : Z := Z.land (Z.shiftr w (f_sh f)) (f_msk f).

Definition SET_CLR_WORD (w v : Z) (f : field) : Z :=
  Z.lor (Z.land w (Z.lnot (Z.shiftl (f_msk f) (f_sh f)))) (SET_WORD v f).

(** A word written as the disjunction of its parts, as the code writes it. *)
Fixpoint WORD (ps : list (Z * field)) : Z :=
  match ps with
  | [] => 0
  | (v, f) :: r => Z.lor (SET_WORD v f) (WORD r)
  end.

(** [c ? flag : 0] for an integer [c] used as a condition. *)
Definition on (c : Z) : Z := if c =? 0 then 0 else 1.

Definition AX_TXD_WP_OFFSET : field := Field 24 255.
Definition AX_TXD_WDINFO_EN : field := FBIT 22.
Definition AX_TXD_PKT_OFFSET : field := FBIT 21.
Definition AX_TXD_FWDL_EN : field := FBIT 20.
Definition AX_TXD_CH_DMA : field := Field 16 15.
Definition AX_TXD_HDR_LLC_LEN : field := Field 11 31.
Definition AX_TXD_STF_MODE : field := FBIT 10.
Definition AX_TXD_CHK_EN : field := FBIT 8.
Definition AX_TXD_WD_PAGE : field := FBIT 7.
Definition AX_TXD_HW_AES_IV : field := FBIT 6.
Definition AX_TXD_HWAMSDU : field := FBIT 5.
Definition AX_TXD_SMH_EN : field := FBIT 4.
Definition AX_TXD_HW_SSN_SEL : field := Field 2 3.
Definition AX_TXD_EN_HWSEQ_MODE : field := Field 0 3.
Definition AX_TXD_DMA_TXAGG_NUM : field := Field 8 255.
Definition AX_TXD_SHCUT_CAMID : field := Field 0 255.
Definition AX_TXD_MACID : field := Field 24 127.
Definition AX_TXD_TID_IND : field := FBIT 23.
Definition AX_TXD_QSEL : field := Field 17 63.
Definition AX_TXD_TXPKTSIZE : field := Field 0 16383.
Definition AX_TXD_BK : field := FBIT 13.
Definition AX_TXD_AGG_EN : field := FBIT 12.
Definition AX_TXD_WIFI_SEQ : field := Field 0 4095.
Definition AX_TXD_TXDESC_CHECKSUM : field := Field 0 65535.
Definition AX_TXD_ACK_CH_INFO : field := FBIT 31.
Definition AX_TXD_USERATE_SEL : field := FBIT 30.
Definition AX_TXD_DATA_BW : field := Field 28 3.
Definition AX_TXD_GI_LTF : field := Field 25 7.
Definition AX_TXD_DATARATE : field := Field 16 511.
Definition AX_TXD_DATA_ER : field := FBIT 15.
Definition AX_TXD_DATA_DCM : field := FBIT 14.
Definition AX_TXD_DATA_STBC : field := FBIT 12.
Definition AX_TXD_DATA_LDPC : field := FBIT 11.
Definition AX_TXD_DISDATAFB : field := FBIT 10.
Definition AX_TXD_DISRTSFB : field := FBIT 9.
Definition AX_TXD_DATA_BW_ER : field := FBIT 8.
Definition AX_TXD_MULTIPORT_ID : field := Field 4 7.
Definition AX_TXD_MBSSID : field := Field 0 15.
Definition AX_TXD_DATA_TXCNT_LMT_SEL : field := FBIT 31.
Definition AX_TXD_DATA_TXCNT_LMT : field := Field 25 63.
Definition AX_TXD_DATA_RTY_LOWEST_RATE : field := Field 16 511.
Definition AX_TXD_A_CTRL_CAS : field := FBIT 15.
Definition AX_TXD_A_CTRL_BSR : field := FBIT 14.
Definition AX_TXD_A_CTRL_UPH : field := FBIT 13.
Definition AX_TXD_BMC : field := FBIT 11.
Definition AX_TXD_NAVUSEHDR : field := FBIT 10.
Definition AX_TXD_MAX_AGG_NUM : field := Field 0 255.
Definition AX_TXD_AMPDU_DENSITY : field := Field 18 7.
Definition AX_TXD_LIFETIME_SEL : field := Field 13 7.
Definition AX_TXD_SECTYPE : field := Field 9 15.
Definition AX_TXD_SEC_HW_ENC : field := FBIT 8.
Definition AX_TXD_SEC_CAM_IDX : field := Field 0 255.
Definition AX_TXD_SPE_RPT : field := FBIT 10.
Definition AX_TXD_RTT_EN : field := FBIT 9.
Definition AX_TXD_SIFS_TX : field := FBIT 6.
Definition AX_TXD_SND_PKT_SEL : field := Field 3 7.
Definition AX_TXD_NDPA : field := Field 1 3.
Definition AX_TXD_HW_RTS_EN : field := FBIT 31.
Definition AX_TXD_CCA_RTS : field := Field 29 3.
Definition AX_TXD_CTS2SELF : field := FBIT 28.
Definition AX_TXD_RTS_EN : field := FBIT 27.
Definition AX_TXD_SW_DEFINE : field := Field 0 15.

(** ** Metadata of a frame *)

(** [enum rtw_packet_type] *)
Inductive rtw_packet_type :=
  | RTW_PHL_PKT_TYPE_DATA
  | RTW_PHL_PKT_TYPE_MGNT
  | RTW_PHL_PKT_TYPE_H2C
  | RTW_PHL_PKT_TYPE_CTRL
  | RTW_PHL_PKT_TYPE_FWDL
  | RTW_PHL_PKT_TYPE_MAX.

#[global] Instance rtw_packet_type_eq_dec : EqDecision rtw_packet_type.
Proof. solve_decision. Defined.

(** The fields of [struct rtw_t_meta_data] that the descriptor code reads. *)
Record rtw_t_meta_data := MData {
  md_band : Z; md_wmm : Z; md_type : rtw_packet_type; md_tid : Z; md_pktlen : Z; md_macid : Z;
  md_hw_seq_mode : Z; md_hw_ssn_sel : Z; md_sw_seq : Z; md_chk_en : Z; md_smh_en : Z;
  md_hw_amsdu : Z; md_hdr_len : Z; md_wp_offset : Z; md_shcut_camid : Z; md_dma_ch : Z;
  md_wd_page_size : Z; md_wdinfo_en : Z; md_usb_pkt_ofst : Z; md_ampdu_en : Z; md_bk : Z;
  md_hw_sec_iv : Z; md_data_bw_er : Z; md_f_dcm : Z; md_f_er : Z; md_f_rate : Z;
  md_f_gi_ltf : Z; md_f_bw : Z; md_userate_sel : Z; md_a_ctrl_uph : Z; md_sec_hw_enc : Z;
  md_sec_type : Z; md_bc : Z; md_mc : Z; md_f_ldpc : Z; md_f_stbc : Z; md_dis_rts_rate_fb : Z;
  md_dis_data_rate_fb : Z; md_data_rty_lowest_rate : Z; md_data_tx_cnt_lmt : Z;
  md_data_tx_cnt_lmt_en : Z; md_max_agg_num : Z; md_ampdu_density : Z; md_a_ctrl_bsr : Z;
  md_a_ctrl_cas : Z; md_sec_cam_idx : Z; md_rts_en : Z; md_cts2self : Z; md_rts_cca_mode : Z;
  md_hw_rts_en : Z; md_mbssid : Z; md_hal_port : Z; md_nav_use_hdr : Z; md_ack_ch_info : Z;
  md_life_time_sel : Z; md_ndpa : Z; md_snd_pkt_sel : Z; md_sifs_tx : Z; md_rtt_en : Z;
  md_spe_rpt : Z; md_sw_define : Z
}.

Definition set_max_agg_num (n : Z) (m : rtw_t_meta_data) : rtw_t_meta_data :=
  MData
    (md_band m) (md_wmm m) (md_type m) (md_tid m) (md_pktlen m) (md_macid m) (md_hw_seq_mode m)
    (md_hw_ssn_sel m) (md_sw_seq m) (md_chk_en m) (md_smh_en m) (md_hw_amsdu m) (md_hdr_len m)
    (md_wp_offset m) (md_shcut_camid m) (md_dma_ch m) (md_wd_page_size m) (md_wdinfo_en m)
    (md_usb_pkt_ofst m) (md_ampdu_en m) (md_bk m) (md_hw_sec_iv m) (md_data_bw_er m)
    (md_f_dcm m) (md_f_er m) (md_f_rate m) (md_f_gi_ltf m) (md_f_bw m) (md_userate_sel m)
    (md_a_ctrl_uph m) (md_sec_hw_enc m) (md_sec_type m) (md_bc m) (md_mc m) (md_f_ldpc m)
    (md_f_stbc m) (md_dis_rts_rate_fb m) (md_dis_data_rate_fb m) (md_data_rty_lowest_rate m)
    (md_data_tx_cnt_lmt m) (md_data_tx_cnt_lmt_en m) n (md_ampdu_density m) (md_a_ctrl_bsr m)
    (md_a_ctrl_cas m) (md_sec_cam_idx m) (md_rts_en m) (md_cts2self m) (md_rts_cca_mode m)
    (md_hw_rts_en m) (md_mbssid m) (md_hal_port m) (md_nav_use_hdr m) (md_ack_ch_info m)
    (md_life_time_sel m) (md_ndpa m) (md_snd_pkt_sel m) (md_sifs_tx m) (md_rtt_en m)
    (md_spe_rpt m) (md_sw_define m).

Definition set_tx_ctrl (band wmm port dma_ch len wpo : Z) (m : rtw_t_meta_data) : rtw_t_meta_data :=
  MData
    band wmm (md_type m) (md_tid m) len (md_macid m) (md_hw_seq_mode m) (md_hw_ssn_sel m)
    (md_sw_seq m) (md_chk_en m) (md_smh_en m) (md_hw_amsdu m) (md_hdr_len m) wpo
    (md_shcut_camid m) dma_ch (md_wd_page_size m) (md_wdinfo_en m) (md_usb_pkt_ofst m)
    (md_ampdu_en m) (md_bk m) (md_hw_sec_iv m) (md_data_bw_er m) (md_f_dcm m) (md_f_er m)
    (md_f_rate m) (md_f_gi_ltf m) (md_f_bw m) (md_userate_sel m) (md_a_ctrl_uph m)
    (md_sec_hw_enc m) (md_sec_type m) (md_bc m) (md_mc m) (md_f_ldpc m) (md_f_stbc m)
    (md_dis_rts_rate_fb m) (md_dis_data_rate_fb m) (md_data_rty_lowest_rate m)
    (md_data_tx_cnt_lmt m) (md_data_tx_cnt_lmt_en m) (md_max_agg_num m) (md_ampdu_density m)
    (md_a_ctrl_bsr m) (md_a_ctrl_cas m) (md_sec_cam_idx m) (md_rts_en m) (md_cts2self m)
    (md_rts_cca_mode m) (md_hw_rts_en m) (md_mbssid m) port (md_nav_use_hdr m)
    (md_ack_ch_info m) (md_life_time_sel m) (md_ndpa m) (md_snd_pkt_sel m) (md_sifs_tx m)
    (md_rtt_en m) (md_spe_rpt m) (md_sw_define m).

(** [enum rtw_treq_type] of a build without transmit shortcuts. *)
Inductive rtw_treq_type :=
  | RTW_PHL_TREQ_TYPE_NORMAL
  | RTW_PHL_TREQ_TYPE_TEST_PATTERN
  | RTW_PHL_TREQ_TYPE_MAX.

(** The content of a transmit request: a fragment is its bytes, or [None] for
    a null address. *)
Record tx_body := TxBody {
  xb_treq_type : rtw_treq_type; xb_mdata : rtw_t_meta_data; xb_total_len : Z;
  xb_pkt_list : list (option (list Z))
}.

(** ** The adapter *)

Inductive mac_ax_intf := MAC_AX_INTF_USB | MAC_AX_INTF_SDIO | MAC_AX_INTF_PCIE | MAC_AX_INTF_INVALID.

(** What the code reads of [struct mac_ax_adapter]; [ad_eps] tells whether the
    endpoints 5, 6 and 12 are in use, [ad_qta_stf] whether
    [dle_info.qta_mode] is one of the two store-and-forward modes. *)
Record mac_ax_adapter := Adapter {
  ad_intf : mac_ax_intf; ad_wd_checksum_en : Z; ad_qta_stf : bool; ad_dbcc_wmm_list : list Z;
  ad_max_bulkout_wd_num : Z; ad_max_dma_txagg_msk : Z; ad_eps : bool
}.

(** The status codes the descriptor code returns. *)
Inductive mac_status :=
  | MACSUCCESS | MACBUFSZ | MACNOITEM | MACINTF | MACTXCHDMA | MACFUNCINPUT.

(** The result of building: a descriptor with the metadata the call leaves, an
    error, or an access outside an array. *)
Inductive wd_result :=
  | WdBuilt (info : rtw_t_meta_data) (wd : list Z)
  | WdError (st : mac_status)
  | WdFault.

Definition WD_BODY_LEN : Z := 24.
Definition WD_INFO_LEN : Z := 24.

Definition mac_txdesc_len_8851b (info : rtw_t_meta_data) : Z :=
  let len := WD_BODY_LEN in
  if negb (bool_decide (md_type info = RTW_PHL_PKT_TYPE_H2C)) &&
     negb (bool_decide (md_type info = RTW_PHL_PKT_TYPE_FWDL)) &&
     negb (md_wdinfo_en info =? 0)
  then u32 (len + WD_INFO_LEN) else len.

(** The checksum is the exclusive or of the half words of the descriptor with
    the checksum field cleared, on a little-endian host. *)
Definition halves (w : Z) : Z := Z.lxor (Z.land w 65535) (Z.land (Z.shiftr w 16) 65535).

Fixpoint xor_halves (ws : list Z) : Z :=
  match ws with
  | [] => 0
  | w :: r => Z.lxor (halves w) (xor_halves r)
  end.

Definition mac_wd_checksum_8851b (info : rtw_t_meta_data) (wd : list Z) : list Z :=
  let dw4 := nth 4 wd 0 in
  let cleared := <[4%nat := SET_CLR_WORD dw4 0 AX_TXD_TXDESC_CHECKSUM]> wd in
  let wddesc_size := Z.shiftr (mac_txdesc_len_8851b info) 2 in
  let chksum := u16 (xor_halves (take (Z.to_nat wddesc_size) cleared)) in
  <[4%nat := SET_CLR_WORD dw4 chksum AX_TXD_TXDESC_CHECKSUM]> cleared.

Definition finish_wd (ad : mac_ax_adapter) (info : rtw_t_meta_data) (wd : list Z) : wd_result :=
  WdBuilt info (if negb (ad_wd_checksum_en ad =? 0) then mac_wd_checksum_8851b info wd else wd).

(** The size test all builders make. *)
Definition bad_pktlen (info : rtw_t_meta_data) : bool :=
  (f_msk AX_TXD_TXPKTSIZE <? md_pktlen info) || (md_pktlen info =? 0).

Definition MAC_AX_DMA_B0MG : Z := 8.
Definition MAC_AX_DMA_B1MG : Z := 10.
Definition MAC_AX_DMA_H2C : Z := 12.

Definition txdes_proc_h2c_fwdl_8851b (ad : mac_ax_adapter) (info : rtw_t_meta_data) (len : Z) :
    wd_result :=
  if negb (len =? mac_txdesc_len_8851b info) then WdError MACBUFSZ
  else if bad_pktlen info then WdError MACFUNCINPUT
  else
    let dword0 := WORD [(MAC_AX_DMA_H2C, AX_TXD_CH_DMA);
                        (if bool_decide (md_type info = RTW_PHL_PKT_TYPE_FWDL) then 1 else 0, AX_TXD_FWDL_EN)] in
    let dword2 := WORD [(md_pktlen info, AX_TXD_TXPKTSIZE)] in
    finish_wd ad info [dword0; 0; dword2; 0; 0; 0].

(** The first assignment to the first word; [None] is the unknown interface. *)
Definition intf_bits (ad : mac_ax_adapter) (info : rtw_t_meta_data) : option (list (Z * field)) :=
  match ad_intf ad with
  | MAC_AX_INTF_SDIO => Some [(1, AX_TXD_STF_MODE)]
  | MAC_AX_INTF_USB => Some [(1, AX_TXD_STF_MODE); (on (md_usb_pkt_ofst info), AX_TXD_PKT_OFFSET)]
  | MAC_AX_INTF_PCIE =>
    Some [(on (md_wd_page_size info), AX_TXD_WD_PAGE);
          (if ad_qta_stf ad then 1 else 0, AX_TXD_STF_MODE)]
  | MAC_AX_INTF_INVALID => None
  end.

(** [if (info->max_agg_num > 0) info->max_agg_num -= 1] *)
Definition dec_max_agg_num (info : rtw_t_meta_data) : rtw_t_meta_data :=
  if 0 <? md_max_agg_num info then set_max_agg_num (u16 (md_max_agg_num info - 1)) info else info.

Definition qsel_l : list Z := [0; 1; 1; 0; 2; 2; 3; 3].
Definition tid_ind : list Z := [0; 0; 1; 1; 0; 1; 0; 1].

Definition MAC_AX_DATA_CH9 : Z := 9.
Definition MAC_AX_DATA_CH11 : Z := 11.
Definition MAC_AX_HI0_SEL : Z := 17.
Definition MAC_AX_MG0_SEL : Z := 18.
Definition MAC_AX_HI1_SEL : Z := 25.
Definition MAC_AX_MG1_SEL : Z := 26.
Definition DBCC_WMM_LIST_SIZE : Z := 32.
Definition MAC_AX_DBCC_WMM_INVALID : Z := 4.

(** The queue selection of a data frame; [None] is a read outside [qsel_l] or
    outside the list of the adapter. *)
Definition data_qsel (ad : mac_ax_adapter) (info : rtw_t_meta_data) : option Z :=
  dbcc_wmm ← (if md_macid info <? DBCC_WMM_LIST_SIZE
              then ad_dbcc_wmm_list ad !! Z.to_nat (md_macid info)
              else Some MAC_AX_DBCC_WMM_INVALID);
  if (md_dma_ch info =? MAC_AX_DATA_CH9) || (md_dma_ch info =? MAC_AX_DATA_CH11)
  then Some (if negb (md_band info =? 0) then MAC_AX_HI1_SEL else MAC_AX_HI0_SEL)
  else
    q ← qsel_l !! Z.to_nat (md_tid info);
    if negb (dbcc_wmm =? MAC_AX_DBCC_WMM_INVALID)
    then Some (u8 (Z.lor (Z.shiftl dbcc_wmm 2) q))
    else Some (u8 (Z.lor (Z.lor (Z.shiftl (md_band info) 3) (Z.shiftl (md_wmm info) 2)) q)).

(** The info words of a data frame. *)
Definition data_info (info : rtw_t_meta_data) : list Z :=
  [ WORD [(on (md_userate_sel info), AX_TXD_USERATE_SEL); (md_f_rate info, AX_TXD_DATARATE);
          (md_f_bw info, AX_TXD_DATA_BW); (on (md_data_bw_er info), AX_TXD_DATA_BW_ER);
          (md_f_gi_ltf info, AX_TXD_GI_LTF); (on (md_f_er info), AX_TXD_DATA_ER);
          (on (md_f_dcm info), AX_TXD_DATA_DCM); (on (md_f_stbc info), AX_TXD_DATA_STBC);
          (on (md_f_ldpc info), AX_TXD_DATA_LDPC); (on (md_dis_data_rate_fb info), AX_TXD_DISDATAFB);
          (on (md_dis_rts_rate_fb info), AX_TXD_DISRTSFB); (md_hal_port info, AX_TXD_MULTIPORT_ID);
          (md_mbssid info, AX_TXD_MBSSID); (on (md_ack_ch_info info), AX_TXD_ACK_CH_INFO)];
    WORD [(md_max_agg_num info, AX_TXD_MAX_AGG_NUM); (md_data_tx_cnt_lmt info, AX_TXD_DATA_TXCNT_LMT);
          (on (md_data_tx_cnt_lmt_en info), AX_TXD_DATA_TXCNT_LMT_SEL);
          (Z.lor (on (md_bc info)) (on (md_mc info)), AX_TXD_BMC);
          (on (md_nav_use_hdr info), AX_TXD_NAVUSEHDR);
          (Z.lor (on (md_bc info)) (on (md_mc info)), AX_TXD_BMC);
          (on (md_a_ctrl_uph info), AX_TXD_A_CTRL_UPH); (on (md_a_ctrl_bsr info), AX_TXD_A_CTRL_BSR);
          (on (md_a_ctrl_cas info), AX_TXD_A_CTRL_CAS);
          (md_data_rty_lowest_rate info, AX_TXD_DATA_RTY_LOWEST_RATE)];
    WORD [(md_life_time_sel info, AX_TXD_LIFETIME_SEL); (md_sec_type info, AX_TXD_SECTYPE);
          (on (md_sec_hw_enc info), AX_TXD_SEC_HW_ENC); (md_sec_cam_idx info, AX_TXD_SEC_CAM_IDX);
          (md_ampdu_density info, AX_TXD_AMPDU_DENSITY)];
    WORD [(on (md_sifs_tx info), AX_TXD_SIFS_TX); (md_ndpa info, AX_TXD_NDPA);
          (md_snd_pkt_sel info, AX_TXD_SND_PKT_SEL); (on (md_rtt_en info), AX_TXD_RTT_EN);
          (on (md_spe_rpt info), AX_TXD_SPE_RPT)];
    WORD [(on (md_rts_en info), AX_TXD_RTS_EN); (on (md_cts2self info), AX_TXD_CTS2SELF);
          (md_rts_cca_mode info, AX_TXD_CCA_RTS); (on (md_hw_rts_en info), AX_TXD_HW_RTS_EN);
          (md_sw_define info, AX_TXD_SW_DEFINE)];
    0 ].

Definition txdes_proc_data_8851b (ad : mac_ax_adapter) (info : rtw_t_meta_data) (len : Z) :
    wd_result :=
  if negb (len =? mac_txdesc_len_8851b info) then WdError MACBUFSZ
  else if MAC_AX_DATA_CH11 <? md_dma_ch info then WdError MACTXCHDMA
  else if bad_pktlen info then WdError MACFUNCINPUT
  else
    match intf_bits ad info with
    | None => WdError MACINTF
    | Some bits =>
      let dword0 :=
        Z.lor (WORD bits)
          (WORD [(md_hw_seq_mode info, AX_TXD_EN_HWSEQ_MODE); (md_hw_ssn_sel info, AX_TXD_HW_SSN_SEL);
                 (md_hdr_len info, AX_TXD_HDR_LLC_LEN); (md_dma_ch info, AX_TXD_CH_DMA);
                 (on (md_hw_amsdu info), AX_TXD_HWAMSDU); (on (md_smh_en info), AX_TXD_SMH_EN);
                 (on (md_hw_sec_iv info), AX_TXD_HW_AES_IV); (on (md_wdinfo_en info), AX_TXD_WDINFO_EN);
                 (on (md_chk_en info), AX_TXD_CHK_EN); (md_wp_offset info, AX_TXD_WP_OFFSET)]) in
      let dword1 := WORD [(md_shcut_camid info, AX_TXD_SHCUT_CAMID)] in
      match data_qsel ad info, tid_ind !! Z.to_nat (md_tid info) with
      | Some qsel, Some ind =>
        let dword2 := WORD [(md_pktlen info, AX_TXD_TXPKTSIZE); (qsel, AX_TXD_QSEL);
                            (on ind, AX_TXD_TID_IND); (md_macid info, AX_TXD_MACID)] in
        let dword3 := WORD [(md_sw_seq info, AX_TXD_WIFI_SEQ); (on (md_ampdu_en info), AX_TXD_AGG_EN);
                            (Z.lor (on (md_bk info)) (on (md_ack_ch_info info)), AX_TXD_BK)] in
        let info := dec_max_agg_num info in
        let wdi := if negb (md_wdinfo_en info =? 0) then data_info info else [] in
        finish_wd ad info ([dword0; dword1; dword2; dword3; 0; 0] ++ wdi)
      | _, _ => WdFault
      end
    end.

Definition mgnt_info (info : rtw_t_meta_data) : list Z :=
  [ WORD [(on (md_userate_sel info), AX_TXD_USERATE_SEL); (md_f_rate info, AX_TXD_DATARATE);
          (md_f_bw info, AX_TXD_DATA_BW); (on (md_data_bw_er info), AX_TXD_DATA_BW_ER);
          (md_f_gi_ltf info, AX_TXD_GI_LTF); (on (md_f_er info), AX_TXD_DATA_ER);
          (on (md_f_dcm info), AX_TXD_DATA_DCM); (on (md_f_stbc info), AX_TXD_DATA_STBC);
          (on (md_f_ldpc info), AX_TXD_DATA_LDPC); (on (md_dis_data_rate_fb info), AX_TXD_DISDATAFB);
          (on (md_dis_rts_rate_fb info), AX_TXD_DISRTSFB); (md_hal_port info, AX_TXD_MULTIPORT_ID);
          (md_mbssid info, AX_TXD_MBSSID)];
    WORD [(md_max_agg_num info, AX_TXD_MAX_AGG_NUM); (md_data_tx_cnt_lmt info, AX_TXD_DATA_TXCNT_LMT);
          (on (md_data_tx_cnt_lmt_en info), AX_TXD_DATA_TXCNT_LMT_SEL);
          (Z.lor (on (md_bc info)) (on (md_mc info)), AX_TXD_BMC);
          (on (md_nav_use_hdr info), AX_TXD_NAVUSEHDR)];
    WORD [(md_life_time_sel info, AX_TXD_LIFETIME_SEL); (md_sec_type info, AX_TXD_SECTYPE);
          (on (md_sec_hw_enc info), AX_TXD_SEC_HW_ENC); (md_sec_cam_idx info, AX_TXD_SEC_CAM_IDX);
          (md_ampdu_density info, AX_TXD_AMPDU_DENSITY)];
    WORD [(on (md_sifs_tx info), AX_TXD_SIFS_TX); (md_ndpa info, AX_TXD_NDPA);
          (md_snd_pkt_sel info, AX_TXD_SND_PKT_SEL); (on (md_rtt_en info), AX_TXD_RTT_EN);
          (on (md_spe_rpt info), AX_TXD_SPE_RPT)];
    WORD [(on (md_rts_en info), AX_TXD_RTS_EN); (on (md_cts2self info), AX_TXD_CTS2SELF);
          (md_rts_cca_mode info, AX_TXD_CCA_RTS); (on (md_hw_rts_en info), AX_TXD_HW_RTS_EN);
          (md_sw_define info, AX_TXD_SW_DEFINE)];
    0 ].

Definition txdes_proc_mgnt_8851b (ad : mac_ax_adapter) (info : rtw_t_meta_data) (len : Z) :
    wd_result :=
  if negb (len =? mac_txdesc_len_8851b info) then WdError MACBUFSZ
  else if bad_pktlen info then WdError MACFUNCINPUT
  else
    match intf_bits ad info with
    | None => WdError MACINTF
    | Some bits =>
      let band1 := negb (md_band info =? 0) in
      let dword0 :=
        Z.lor (Z.lor (WORD bits)
          (WORD [(md_hw_seq_mode info, AX_TXD_EN_HWSEQ_MODE); (md_hw_ssn_sel info, AX_TXD_HW_SSN_SEL);
                 (md_hdr_len info, AX_TXD_HDR_LLC_LEN); (on (md_wdinfo_en info), AX_TXD_WDINFO_EN)]))
          (WORD [(if band1 then MAC_AX_DMA_B1MG else MAC_AX_DMA_B0MG, AX_TXD_CH_DMA)]) in
      let dword2 := WORD [(md_pktlen info, AX_TXD_TXPKTSIZE);
                          (if band1 then MAC_AX_MG1_SEL else MAC_AX_MG0_SEL, AX_TXD_QSEL);
                          (md_macid info, AX_TXD_MACID)] in
      let dword3 := WORD [(md_sw_seq info, AX_TXD_WIFI_SEQ); (on (md_bk info), AX_TXD_BK)] in
      let info := dec_max_agg_num info in
      let wdi := if negb (md_wdinfo_en info =? 0) then mgnt_info info else [] in
      finish_wd ad info ([dword0; 0; dword2; dword3; 0; 0] ++ wdi)
    end.

(** The search of the table of builders. *)
Definition mac_build_txdesc_8851b (ad : mac_ax_adapter) (info : rtw_t_meta_data) (len : Z) :
    wd_result :=
  match md_type info with
  | RTW_PHL_PKT_TYPE_H2C | RTW_PHL_PKT_TYPE_FWDL => txdes_proc_h2c_fwdl_8851b ad info len
  | RTW_PHL_PKT_TYPE_DATA => txdes_proc_data_8851b ad info len
  | RTW_PHL_PKT_TYPE_MGNT => txdes_proc_mgnt_8851b ad info len
  | RTW_PHL_PKT_TYPE_CTRL | RTW_PHL_PKT_TYPE_MAX => WdError MACNOITEM
  end.

(** [struct mac_ax_refill_info] of the mask and of the values. *)
Definition mac_refill_txdesc_8851b (ad : mac_ax_adapter) (info : rtw_t_meta_data)
    (mask_packet_offset mask_agg_num packet_offset agg_num : Z) (wd : list Z) : list Z :=
  let dw0 := nth 0 wd 0 in
  let dw1 := nth 1 wd 0 in
  let wd := if negb (mask_packet_offset =? 0)
            then <[0%nat := Z.lor dw0 (SET_WORD (on packet_offset) AX_TXD_PKT_OFFSET)]> wd else wd in
  let wd := if mask_agg_num =? f_msk AX_TXD_DMA_TXAGG_NUM
            then <[1%nat := SET_CLR_WORD dw1 agg_num AX_TXD_DMA_TXAGG_NUM]> wd else wd in
  if negb (ad_wd_checksum_en ad =? 0) then mac_wd_checksum_8851b info wd else wd.

(** [usb_tx_agg_cfg_8851b] *)
Definition usb_tx_agg_cfg_8851b (agg_num : Z) (wd : list Z) : list Z :=
  <[1%nat := SET_CLR_WORD (nth 1 wd 0) agg_num AX_TXD_DMA_TXAGG_NUM]> wd.

(** ** The HAL functions the transmit path calls *)

Definition rtw_hal_get_wd_len (info : rtw_t_meta_data) : Z := mac_txdesc_len_8851b info.

Definition rtw_hal_mac_fill_txdesc (ad : mac_ax_adapter) (info : rtw_t_meta_data) : wd_result :=
  mac_build_txdesc_8851b ad info (mac_txdesc_len_8851b info).

(** With [hal_com->spe_pkt_cnt_lmt], the limit for the transmit reports, as it
    was and as it is left. *)
Definition rtw_hal_fill_wd (ad : mac_ax_adapter) (spe_pkt_cnt_lmt : Z) (info : rtw_t_meta_data) : Z * wd_result :=
  let spe_pkt_cnt_lmt :=
    if negb (md_spe_rpt info =? 0)
    then if negb (md_data_tx_cnt_lmt_en info =? 0) then md_data_tx_cnt_lmt info else spe_pkt_cnt_lmt
    else spe_pkt_cnt_lmt in
  (spe_pkt_cnt_lmt, rtw_hal_mac_fill_txdesc ad info).

Definition rtw_hal_get_max_bulkout_wd_num (ad : mac_ax_adapter) : Z := ad_max_bulkout_wd_num ad.

Definition rtw_hal_get_max_dma_txagg_msk (ad : mac_ax_adapter) : Z := ad_max_dma_txagg_msk ad.

(** The bytes of a descriptor in memory. *)
Definition le32 (w : Z) : list Z :=
  [u8 w; u8 (Z.shiftr w 8); u8 (Z.shiftr w 16); u8 (Z.shiftr w 24)].

Definition wd_bytes (wd : list Z) : list Z := flat_map le32 wd.

(** [usb_tx_agg_cfg_8851b] on the buffer the descriptor lies in: the second
    word is read, changed and written back. *)
Definition word_of (b : list Z) : Z :=
  nth 0 b 0 + 256 * nth 1 b 0 + 65536 * nth 2 b 0 + 16777216 * nth 3 b 0.

Definition usb_tx_agg_cfg_buf (agg_num : Z) (buf : list Z) : list Z :=
  take 4 buf ++ le32 (SET_CLR_WORD (word_of (take 4 (drop 4 buf))) agg_num AX_TXD_DMA_TXAGG_NUM) ++ drop 8 buf.

Definition USBEPMAPERR : Z := 255.

(** [get_bulkout_id_8851b]; the argument tells whether the endpoints 5, 6 and 12 are
    enabled. *)
Definition get_bulkout_id_8851b (eps : bool) (ch_dma mode : Z) : Z :=
  if (mode =? 0) && eps then
    if ch_dma =? 0 then 3 else if ch_dma =? 1 then 4 else if ch_dma =? 2 then 5
    else if ch_dma =? 3 then 6 else if ch_dma =? MAC_AX_DMA_B0MG then 0
    else if ch_dma =? 9 then 1 else if ch_dma =? MAC_AX_DMA_H2C then 2 else USBEPMAPERR
  else if (mode =? 1) && eps then
    if ch_dma =? 0 then 2 else if ch_dma =? 1 then 3 else if ch_dma =? 2 then 4
    else if ch_dma =? 3 then 5 else if (ch_dma =? MAC_AX_DMA_B0MG) || (ch_dma =? 9) then 0
    else if ch_dma =? MAC_AX_DMA_H2C then 2 else USBEPMAPERR
  else USBEPMAPERR.

(** ** Fields of words *)

Definition disjoint_fields (f g : field) : bool :=
  Z.land (Z.shiftl (f_msk f) (f_sh f)) (Z.shiftl (f_msk g) (f_sh g)) =? 0.

Lemma get_lor a b f : GET_FIELD (Z.lor a b) f = Z.lor (GET_FIELD a f) (GET_FIELD b f).
Proof. unfold GET_FIELD. by rewrite Z.shiftr_lor, Z.land_lor_distr_l. Qed.

Lemma get_set_same v f : (0 <=? f_sh f) = true -> GET_FIELD (SET_WORD v f) f = Z.land v (f_msk f).
Proof.
  intros Hs%Z.leb_le. unfold GET_FIELD, SET_WORD.
  rewrite Z.shiftr_shiftl_l, Z.sub_diag, Z.shiftl_0_r by lia.
  by rewrite <- Z.land_assoc, Z.land_diag.
Qed.

Lemma get_set_other v f g :
  (0 <=? f_sh f) && (0 <=? f_sh g) && disjoint_fields f g = true -> GET_FIELD (SET_WORD v g) f = 0.
Proof.
  rewrite !andb_true_iff, !Z.leb_le. intros [[Hf Hg] Hd%Z.eqb_eq].
  apply Z.bits_inj'. intros i Hi. unfold GET_FIELD, SET_WORD.
  rewrite Z.land_spec, Z.shiftr_spec, Z.shiftl_spec, Z.land_spec, Z.bits_0 by lia.
  assert (Z.testbit (Z.land (Z.shiftl (f_msk f) (f_sh f)) (Z.shiftl (f_msk g) (f_sh g))) (i + f_sh f) = false)
    as Hb by (by rewrite Hd, Z.bits_0).
  rewrite Z.land_spec, !Z.shiftl_spec in Hb by lia. replace (i + f_sh f - f_sh f) with i in Hb by lia.
  destruct (Z.testbit v _), (Z.testbit (f_msk g) _), (Z.testbit (f_msk f) _); done.
Qed.

Lemma get_zero f : GET_FIELD 0 f = 0.
Proof. unfold GET_FIELD. by rewrite Z.shiftr_0_l, Z.land_0_l. Qed.

(** A field of a word written as a disjunction. *)
Ltac wd_field :=
  cbn [WORD app]; rewrite ?get_lor;
  repeat first [rewrite get_set_same by reflexivity | rewrite get_set_other by reflexivity];
  rewrite ?get_zero, ?Z.lor_0_r, ?Z.lor_0_l, ?Z.lor_diag.

(** The number of bits of a contiguous mask. *)
Lemma land_fits v f n : f_msk f = Z.ones n -> 0 <= n -> 0 <= v < 2 ^ n -> Z.land v (f_msk f) = v.
Proof. intros -> Hn Hv. rewrite Z.land_ones by lia. by apply Z.mod_small. Qed.

(** ** The checksum *)

Lemma lxor_u16 a b : 0 <= a < 65536 -> 0 <= b < 65536 -> 0 <= Z.lxor a b < 65536.
Proof.
  intros Ha Hb. assert (0 <= Z.lxor a b) as H0 by (apply Z.lxor_nonneg; lia). split; [done|].
  assert (Z.lxor a b = Z.lxor a b mod 2 ^ 16) as ->.
  { apply Z.bits_inj'. intros i Hi. destruct (Z.ltb_spec i 16).
    - by rewrite Z.mod_pow2_bits_low by lia.
    - rewrite Z.mod_pow2_bits_high, Z.lxor_spec by lia.
      rewrite <- (Z.mod_small a (2 ^ 16)), <- (Z.mod_small b (2 ^ 16)) by lia.
      by rewrite !Z.mod_pow2_bits_high by lia. }
  apply Z.mod_pos_bound. lia.
Qed.

Lemma halves_u16 w : 0 <= halves w < 65536.
Proof.
  unfold halves. apply lxor_u16; change 65535 with (Z.ones 16); rewrite Z.land_ones by lia;
    apply Z.mod_pos_bound; lia.
Qed.

Lemma xor_halves_u16 ws : 0 <= xor_halves ws < 65536.
Proof. induction ws as [|w ws IH]; simpl; [lia|]. apply lxor_u16; [apply halves_u16|done]. Qed.

Lemma xor_halves_insert ws i w :
  (i < length ws)%nat ->
  xor_halves (<[i := w]> ws) =
    Z.lxor (xor_halves ws) (Z.lxor (halves (nth i ws 0)) (halves w)).
Proof.
  revert i. induction ws as [|x ws IH]; intros i Hi; simpl in *; [lia|]. destruct i as [|i]; simpl.
  - apply Z.bits_inj'. intros k Hk. rewrite !Z.lxor_spec.
    by destruct (Z.testbit (halves x) k), (Z.testbit (xor_halves ws) k), (Z.testbit (halves w) k).
  - rewrite IH by lia. by rewrite Z.lxor_assoc.
Qed.

(** Writing [c] to the checksum field of a word whose field is clear adds [c]
    to the sum of its halves. *)
Lemma halves_checksum w c :
  0 <= c < 65536 ->
  halves (SET_CLR_WORD w c AX_TXD_TXDESC_CHECKSUM) =
    Z.lxor c (halves (SET_CLR_WORD w 0 AX_TXD_TXDESC_CHECKSUM)).
Proof.
  intros Hc. apply Z.bits_inj'. intros i Hi. unfold halves, SET_CLR_WORD, SET_WORD. simpl.
  change 65535 with (Z.ones 16). rewrite !Z.shiftl_0_r, Z.lor_0_r.
  rewrite !Z.lxor_spec, !Z.land_spec, !Z.shiftr_spec, !Z.lor_spec, !Z.land_spec, !Z.lnot_spec by lia.
  destruct (Z.ltb_spec i 16) as [Hl|Hl].
  - rewrite !Z.ones_spec_low, (Z.ones_spec_high 16 (i + 16)) by lia. simpl.
    rewrite !andb_true_r, !andb_false_r. simpl. 
    by rewrite orb_false_r.
  - rewrite (Z.ones_spec_high 16 i) by lia. rewrite !andb_false_r. simpl.
    rewrite <- (Z.mod_small c (2 ^ 16)) by lia. by rewrite Z.mod_pow2_bits_high by lia.
Qed.

Lemma nth_insert_eq (l : list Z) i x : (i < length l)%nat -> nth i (<[i := x]> l) 0 = x.
Proof. intros. by rewrite nth_lookup, list_lookup_insert_eq. Qed.

(** After [mac_wd_checksum_8851b] the half words of the descriptor cancel. *)
Lemma checksum_cancels info wd :
  Z.of_nat (length wd) = Z.shiftr (mac_txdesc_len_8851b info) 2 -> (4 < length wd)%nat ->
  xor_halves (mac_wd_checksum_8851b info wd) = 0.
Proof.
  intros Hl H4. unfold mac_wd_checksum_8851b. rewrite <- Hl, Nat2Z.id.
  set (c0 := SET_CLR_WORD (nth 4 wd 0) 0 _).
  rewrite (firstn_all2 (n := length wd)) by (rewrite length_insert; lia).
  pose proof (xor_halves_u16 (<[4%nat := c0]> wd)) as Hu. set (s := xor_halves (<[4%nat := c0]> wd)) in *.
  rewrite u16_small by done. rewrite xor_halves_insert by (rewrite length_insert; lia).
  fold s. rewrite nth_insert_eq, halves_checksum by lia. fold c0.
  apply Z.bits_inj'. intros k Hk. rewrite !Z.lxor_spec, Z.bits_0.
  by destruct (Z.testbit s k), (Z.testbit (halves c0) k).
Qed.

(** ** Shape of a built descriptor *)

Lemma checksum_length info wd : length (mac_wd_checksum_8851b info wd) = length wd.
Proof. unfold mac_wd_checksum_8851b. by rewrite !length_insert. Qed.

(** The checksum changes the fifth word only. *)
Lemma checksum_other info wd i : i <> 4%nat -> nth i (mac_wd_checksum_8851b info wd) 0 = nth i wd 0.
Proof.
  intros Hi. unfold mac_wd_checksum_8851b. rewrite !nth_lookup.
  by rewrite !list_lookup_insert_ne by done.
Qed.

Lemma txdesc_len_cases info :
  mac_txdesc_len_8851b info = 24 \/ mac_txdesc_len_8851b info = 48.
Proof. unfold mac_txdesc_len_8851b. repeat case_match; [by right|by left]. Qed.

Lemma dec_agg_len info : mac_txdesc_len_8851b (dec_max_agg_num info) = mac_txdesc_len_8851b info.
Proof. unfold dec_max_agg_num. by case_match. Qed.

Lemma dec_agg_wdinfo info : md_wdinfo_en (dec_max_agg_num info) = md_wdinfo_en info.
Proof. unfold dec_max_agg_num. by case_match. Qed.

(** What every builder returns: [raw] is the descriptor before the checksum. *)
Record built (ad : mac_ax_adapter) (info info' : rtw_t_meta_data) (raw wd : list Z) : Prop := {
  bu_info : info' = info \/ info' = dec_max_agg_num info;
  bu_size : Z.of_nat (length raw) = Z.shiftr (mac_txdesc_len_8851b info) 2;
  bu_agg : GET_FIELD (nth 1 raw 0) AX_TXD_DMA_TXAGG_NUM = 0;
  bu_wd : wd = if negb (ad_wd_checksum_en ad =? 0) then mac_wd_checksum_8851b info' raw else raw
}.

Lemma txdesc_len_data info :
  md_type info = RTW_PHL_PKT_TYPE_DATA \/ md_type info = RTW_PHL_PKT_TYPE_MGNT ->
  mac_txdesc_len_8851b info = if negb (md_wdinfo_en info =? 0) then 48 else 24.
Proof. intros H. unfold mac_txdesc_len_8851b. destruct H as [->| ->]; simpl; by case_match. Qed.

Lemma finish_built ad info i raw info' wd :
  i = info \/ i = dec_max_agg_num info ->
  Z.of_nat (length raw) = Z.shiftr (mac_txdesc_len_8851b info) 2 ->
  GET_FIELD (nth 1 raw 0) AX_TXD_DMA_TXAGG_NUM = 0 ->
  finish_wd ad i raw = WdBuilt info' wd -> exists raw, built ad info info' raw wd.
Proof. intros Hi Hs Ha Hf. unfold finish_wd in Hf. simplify_eq. by exists raw. Qed.

Lemma wdi_length info (ws : list Z) a b c d e f :
  md_type info = RTW_PHL_PKT_TYPE_DATA \/ md_type info = RTW_PHL_PKT_TYPE_MGNT -> length ws = 6%nat ->
  Z.of_nat (length ([a; b; c; d; e; f] ++ if negb (md_wdinfo_en info =? 0) then ws else [])) =
  Z.shiftr (mac_txdesc_len_8851b info) 2.
Proof. intros Ht Hw. rewrite txdesc_len_data, length_app by done. case_match; simpl; by rewrite ?Hw. Qed.

Lemma built_shape ad info info' wd :
  rtw_hal_mac_fill_txdesc ad info = WdBuilt info' wd -> exists raw, built ad info info' raw wd.
Proof.
  unfold rtw_hal_mac_fill_txdesc, mac_build_txdesc_8851b. destruct (md_type info) eqn:Et; try done.
  all: unfold txdes_proc_data_8851b, txdes_proc_mgnt_8851b, txdes_proc_h2c_fwdl_8851b;
       rewrite Z.eqb_refl, ?dec_agg_wdinfo; cbn [negb].
  - case_match; [done|]. case_match; [done|]. destruct (intf_bits _ _); [|done].
    destruct (data_qsel ad info); [|done]. destruct (tid_ind !! Z.to_nat (md_tid info)); [|done].
    apply finish_built; [auto|apply wdi_length; auto|]. cbn [nth app]. by wd_field.
  - case_match; [done|]. destruct (intf_bits _ _); [|done].
    apply finish_built; [auto|apply wdi_length; auto|]. cbn [nth app]. by wd_field.
  - case_match; [done|]. apply finish_built; [auto| |]; [by unfold mac_txdesc_len_8851b; rewrite Et|].
    cbn [nth app]. by wd_field.
  - case_match; [done|]. apply finish_built; [auto| |]; [by unfold mac_txdesc_len_8851b; rewrite Et|].
    cbn [nth app]. by wd_field.
Qed.

Lemma fill_wd_length ad info info' wd :
  rtw_hal_mac_fill_txdesc ad info = WdBuilt info' wd ->
  4 * Z.of_nat (length wd) = rtw_hal_get_wd_len info /\
  mac_txdesc_len_8851b info' = mac_txdesc_len_8851b info.
Proof.
  intros (raw&[Hi Hs _ ->])%built_shape. unfold rtw_hal_get_wd_len.
  assert (Z.of_nat (length (if negb (ad_wd_checksum_en ad =? 0) then mac_wd_checksum_8851b info' raw
          else raw)) = Z.shiftr (mac_txdesc_len_8851b info) 2) as ->
    by (case_match; rewrite ?checksum_length; done).
  split; [destruct (txdesc_len_cases info) as [->| ->]; done|].
  destruct Hi as [->| ->]; [done|apply dec_agg_len].
Qed.

Lemma wd_bytes_length wd : length (wd_bytes wd) = (4 * length wd)%nat.
Proof. unfold wd_bytes. induction wd as [|w wd IH]; simpl; [done|]. rewrite IH. lia. Qed.

Lemma built_words ad info info' raw wd : built ad info info' raw wd -> (6 <= length raw)%nat.
Proof.
  intros [_ Hs _ _]. destruct (txdesc_len_cases info) as [E|E]; rewrite E in Hs;
    [change (Z.shiftr 24 2) with 6 in Hs|change (Z.shiftr 48 2) with 12 in Hs]; lia.
Qed.

Lemma built_length ad info info' raw wd : built ad info info' raw wd -> length wd = length raw.
Proof. intros [_ _ _ ->]. case_match; by rewrite ?checksum_length. Qed.

Lemma built_other ad info info' raw wd i :
  built ad info info' raw wd -> i <> 4%nat -> nth i wd 0 = nth i raw 0.
Proof. intros [_ _ _ ->] Hi. case_match; by rewrite ?checksum_other. Qed.

Lemma built_cancels ad info info' raw wd :
  ad_wd_checksum_en ad <> 0 -> built ad info info' raw wd -> xor_halves wd = 0.
Proof.
  intros Hc Hb. pose proof (built_words _ _ _ _ _ Hb). destruct Hb as [Hi Hs _ ->].
  rewrite (proj2 (Z.eqb_neq _ 0)) by done. apply checksum_cancels; [|lia].
  rewrite Hs. destruct Hi as [->| ->]; by rewrite ?dec_agg_len.
Qed.

Lemma testbit_ones8 i : 0 <= i -> Z.testbit 255 i = (i <? 8).
Proof.
  intros Hi. change 255 with (Z.ones 8). destruct (Z.ltb_spec i 8);
    [by rewrite Z.ones_spec_low by lia|by rewrite Z.ones_spec_high by lia].
Qed.

Lemma testbit_ones16 i : 0 <= i -> Z.testbit 65535 i = (i <? 16).
Proof.
  intros Hi. change 65535 with (Z.ones 16). destruct (Z.ltb_spec i 16);
    [by rewrite Z.ones_spec_low by lia|by rewrite Z.ones_spec_high by lia].
Qed.

Lemma testbit_shift8 m i : 0 <= i -> Z.testbit (Z.shiftl m 8) i = (8 <=? i) && Z.testbit m (i - 8).
Proof.
  intros Hi. rewrite Z.shiftl_spec by lia. destruct (Z.leb_spec 8 i); [done|].
  by rewrite Z.testbit_neg_r by lia.
Qed.

(** Storing an aggregation number where none was changes the sum by it. *)
Lemma halves_agg w n :
  GET_FIELD w AX_TXD_DMA_TXAGG_NUM = 0 -> 0 <= n < 256 ->
  halves (SET_CLR_WORD w n AX_TXD_DMA_TXAGG_NUM) = Z.lxor (Z.shiftl n 8) (halves w).
Proof.
  intros Hg Hn. apply Z.bits_inj'. intros i Hi.
  assert (8 <= i < 16 -> Z.testbit w i = false) as Hw.
  { intros Hr. assert (Z.testbit (GET_FIELD w AX_TXD_DMA_TXAGG_NUM) (i - 8) = false) as Hb
      by (by rewrite Hg, Z.bits_0).
    unfold GET_FIELD in Hb. simpl in Hb.
    rewrite Z.land_spec, Z.shiftr_spec, testbit_ones8 in Hb by lia.
    rewrite (proj2 (Z.ltb_lt _ _)), andb_true_r in Hb by lia. by replace (i - 8 + 8) with i in Hb by lia. }
  assert (8 <= i - 8 -> Z.testbit n (i - 8) = false) as Hn8.
  { intros Hr. rewrite <- (Z.mod_small n (2 ^ 8)) by lia. by rewrite Z.mod_pow2_bits_high by lia. }
  unfold halves, SET_CLR_WORD, SET_WORD. simpl.
  rewrite !Z.lxor_spec, !Z.land_spec, !Z.shiftr_spec, !Z.lor_spec, !Z.land_spec, !Z.lnot_spec by lia.
  rewrite !testbit_shift8, !Z.land_spec, !testbit_ones16 by lia.
  destruct (Z.leb_spec 8 i); destruct (Z.leb_spec 8 (i + 16)); try lia; cbn [andb].
  - rewrite !testbit_ones8 by lia. destruct (Z.ltb_spec (i - 8) 8), (Z.ltb_spec (i + 16 - 8) 8),
      (Z.ltb_spec i 16); try lia; rewrite ?Hw, ?Hn8 by lia; simpl;
      rewrite ?andb_true_r, ?andb_false_r, ?orb_false_r; simpl; by rewrite ?xorb_false_r.
  - rewrite !testbit_ones8 by lia. rewrite (proj2 (Z.ltb_ge (i + 16 - 8) 8)) by lia. simpl.
    by rewrite ?andb_true_r, ?andb_false_r, ?orb_false_r, ?xorb_false_l.
Qed.

(** ** Example metadata *)

Definition demo_md (t : rtw_packet_type) (tid len : Z) : rtw_t_meta_data :=
  MData 0 0 t tid len 5 0 0 77 0 0 0 13 2 0 2 0 1 0 1 0 0 0 0 0 139 0 0 0 0 0 0 0 0 0 0 0 0 0 0
    0 64 0 0 0 0 0 0 0 0 0 0 0 0 0 0 0 0 0 0 0.

Definition demo_body (t : rtw_packet_type) (tid : Z) (data : list Z) : tx_body :=
  TxBody RTW_PHL_TREQ_TYPE_NORMAL (demo_md t tid 0) (Z.of_nat (length data)) [Some data].

Definition demo_ad (chk : Z) : mac_ax_adapter :=
  Adapter MAC_AX_INTF_USB chk false (replicate 32 4) 3 15 true.

(** Descriptor checksum: when the software checksum is on, the half words of
    every descriptor the HAL fills in cancel to zero, and so do those of the
    descriptor that [mac_refill_txdesc_8851b] leaves; [usb_tx_agg_cfg_8851b],
    which the USB path calls on the first descriptor of an aggregate, stores the
    frame count without renewing the sum, so a count other than zero leaves a
    descriptor whose checksum is wrong. *)
Theorem wd_checksum_protocol ad info info' wd n po mo ag :
  ad_wd_checksum_en ad <> 0 -> rtw_hal_mac_fill_txdesc ad info = WdBuilt info' wd -> 0 < n < 256 ->
  xor_halves wd = 0 /\
  xor_halves (mac_refill_txdesc_8851b ad info' mo ag po n wd) = 0 /\
  xor_halves (usb_tx_agg_cfg_8851b n wd) <> 0.
Proof.
  intros Hc Hb Hn. destruct (built_shape _ _ _ _ Hb) as [raw Hr].
  pose proof (built_cancels _ _ _ _ _ Hc Hr) as H0. pose proof (built_words _ _ _ _ _ Hr) as Hl.
  destruct (fill_wd_length _ _ _ _ Hb) as [Hlen Hlen']. split_and!; [done| |].
  - unfold mac_refill_txdesc_8851b. rewrite (proj2 (Z.eqb_neq _ 0)) by done. simpl negb. cbn iota.
    pose proof (built_length _ _ _ _ _ Hr) as Hw. apply checksum_cancels; repeat case_match; rewrite ?length_insert; try lia.
    all: rewrite Hlen'; unfold rtw_hal_get_wd_len in Hlen; rewrite <- Hlen, Z.shiftr_div_pow2 by lia.
    all: change (2 ^ 2) with 4; zlia.
  - pose proof (built_length _ _ _ _ _ Hr) as Hw.
    unfold usb_tx_agg_cfg_8851b. rewrite xor_halves_insert, H0 by lia.
    rewrite (built_other _ _ _ _ _ 1 Hr) by done. rewrite halves_agg by (apply Hr || lia). rewrite Z.lxor_0_l, (Z.lxor_comm (Z.shiftl n 8)).
    rewrite <- Z.lxor_assoc, Z.lxor_nilpotent, Z.lxor_0_l. rewrite Z.shiftl_mul_pow2 by lia. lia.
Qed.

Lemma wd_checksum_protocol_witness :
  exists info' wd,
    rtw_hal_mac_fill_txdesc (demo_ad 1) (demo_md RTW_PHL_PKT_TYPE_DATA 5 1500) = WdBuilt info' wd /\
    xor_halves wd = 0 /\ xor_halves (usb_tx_agg_cfg_8851b 2 wd) <> 0.
Proof.
  eexists _, _. split; [vm_compute; reflexivity|].
  match goal with |- xor_halves ?w = 0 /\ _ =>
    destruct (wd_checksum_protocol (demo_ad 1) (demo_md RTW_PHL_PKT_TYPE_DATA 5 1500) _ w 2 0 0 0
                ltac:(done) eq_refl ltac:(lia)) as (H1 & _ & H3) end.
  by split.
Defined.

(** ** Reading a descriptor back *)

(** [n] bits from bit [sh] on. *)
Definition at_bits (sh n : Z) : field := Field sh (Z.ones n).

(** What the descriptor of a data frame should hold, by the layout of the
    hardware: the word, the position and width in it, and the value. *)
Definition data_view (info : rtw_t_meta_data) : list (nat * field * Z) :=
  [ (0%nat, at_bits 24 8, md_wp_offset info); (0%nat, at_bits 22 1, on (md_wdinfo_en info));
    (0%nat, at_bits 21 1, on (md_usb_pkt_ofst info)); (0%nat, at_bits 16 4, md_dma_ch info);
    (0%nat, at_bits 11 5, md_hdr_len info); (0%nat, at_bits 10 1, 1);
    (0%nat, at_bits 8 1, on (md_chk_en info)); (0%nat, at_bits 7 1, 0);
    (0%nat, at_bits 6 1, on (md_hw_sec_iv info)); (0%nat, at_bits 5 1, on (md_hw_amsdu info));
    (0%nat, at_bits 4 1, on (md_smh_en info)); (0%nat, at_bits 2 2, md_hw_ssn_sel info);
    (0%nat, at_bits 0 2, md_hw_seq_mode info);
    (1%nat, at_bits 8 8, 0); (1%nat, at_bits 0 8, md_shcut_camid info);
    (2%nat, at_bits 24 7, md_macid info); (2%nat, at_bits 0 14, md_pktlen info);
    (3%nat, at_bits 0 12, md_sw_seq info); (3%nat, at_bits 12 1, on (md_ampdu_en info));
    (3%nat, at_bits 13 1, Z.lor (on (md_bk info)) (on (md_ack_ch_info info))) ].

Definition data_info_view (info : rtw_t_meta_data) : list (nat * field * Z) :=
  [ (6%nat, at_bits 31 1, on (md_ack_ch_info info)); (6%nat, at_bits 30 1, on (md_userate_sel info));
    (6%nat, at_bits 28 2, md_f_bw info); (6%nat, at_bits 25 3, md_f_gi_ltf info);
    (6%nat, at_bits 16 9, md_f_rate info); (6%nat, at_bits 15 1, on (md_f_er info));
    (6%nat, at_bits 14 1, on (md_f_dcm info)); (6%nat, at_bits 12 1, on (md_f_stbc info));
    (6%nat, at_bits 11 1, on (md_f_ldpc info)); (6%nat, at_bits 10 1, on (md_dis_data_rate_fb info));
    (6%nat, at_bits 9 1, on (md_dis_rts_rate_fb info)); (6%nat, at_bits 8 1, on (md_data_bw_er info));
    (6%nat, at_bits 4 3, md_hal_port info); (6%nat, at_bits 0 4, md_mbssid info);
    (7%nat, at_bits 0 8, Z.max 0 (md_max_agg_num info - 1));
    (7%nat, at_bits 31 1, on (md_data_tx_cnt_lmt_en info));
    (7%nat, at_bits 25 6, md_data_tx_cnt_lmt info);
    (7%nat, at_bits 16 9, md_data_rty_lowest_rate info);
    (7%nat, at_bits 15 1, on (md_a_ctrl_cas info)); (7%nat, at_bits 14 1, on (md_a_ctrl_bsr info));
    (7%nat, at_bits 13 1, on (md_a_ctrl_uph info));
    (7%nat, at_bits 11 1, Z.lor (on (md_bc info)) (on (md_mc info)));
    (7%nat, at_bits 10 1, on (md_nav_use_hdr info));
    (8%nat, at_bits 18 3, md_ampdu_density info); (8%nat, at_bits 13 3, md_life_time_sel info);
    (8%nat, at_bits 9 4, md_sec_type info); (8%nat, at_bits 8 1, on (md_sec_hw_enc info));
    (8%nat, at_bits 0 8, md_sec_cam_idx info);
    (9%nat, at_bits 10 1, on (md_spe_rpt info)); (9%nat, at_bits 9 1, on (md_rtt_en info));
    (9%nat, at_bits 6 1, on (md_sifs_tx info)); (9%nat, at_bits 3 3, md_snd_pkt_sel info);
    (9%nat, at_bits 1 2, md_ndpa info);
    (10%nat, at_bits 31 1, on (md_hw_rts_en info)); (10%nat, at_bits 29 2, md_rts_cca_mode info);
    (10%nat, at_bits 28 1, on (md_cts2self info)); (10%nat, at_bits 27 1, on (md_rts_en info));
    (10%nat, at_bits 0 4, md_sw_define info) ].

(** Every number fits its field. *)
Definition view_fits (l : list (nat * field * Z)) : bool :=
  forallb (fun '(_, f, v) => (0 <=? v) && (v <=? f_msk f)) l.

Definition reads (wd : list Z) (l : list (nat * field * Z)) : Prop :=
  Forall (fun '(i, f, v) => GET_FIELD (nth i wd 0) f = v) l.

(** The TID a descriptor names: the access category is the low part of the
    queue selection, the indication picks one of its two TIDs. *)
Definition txd_tid (wd : list Z) : Z :=
  let ac := Z.land (GET_FIELD (nth 2 wd 0) (at_bits 17 6)) 3 in
  let ind := GET_FIELD (nth 2 wd 0) (at_bits 23 1) in
  nth (Z.to_nat (2 * ac + ind)) [0; 3; 1; 2; 4; 5; 6; 7] 0.

(** The band and the WMM of the queue of a frame, as the binary number [band
    wmm]: those of the metadata, unless the adapter has an entry for the MAC id. *)
Definition queue_of (ad : mac_ax_adapter) (info : rtw_t_meta_data) : Z :=
  let own := 2 * md_band info + md_wmm info in
  if md_macid info <? 32
  then let d := nth (Z.to_nat (md_macid info)) (ad_dbcc_wmm_list ad) 0 in if d <? 4 then d else own
  else own.

Lemma reads_masked wd l :
  view_fits l = true ->
  Forall (fun '(i, f, v) => GET_FIELD (nth i wd 0) f = Z.land v (f_msk f) /\
                            f_msk f = Z.ones (Z.log2 (f_msk f) + 1)) l -> reads wd l.
Proof.
  unfold view_fits, reads. rewrite forallb_forall, !Forall_forall. intros Hf Hm [[i f] v] Hin.
  specialize (Hf _ Hin). specialize (Hm _ Hin). simpl in *.
  destruct Hm as [-> Hm]. apply andb_true_iff in Hf as [H0%Z.leb_le H1%Z.leb_le].
  apply (land_fits _ _ _ Hm); [pose proof (Z.log2_nonneg (f_msk f)); lia|].
  rewrite Z.ones_equiv in Hm. lia.
Qed.

(** The raw words of a data frame's descriptor. *)
Definition data_words (info : rtw_t_meta_data) (qsel ind : Z) : list Z :=
  [ Z.lor (WORD [(1, AX_TXD_STF_MODE); (on (md_usb_pkt_ofst info), AX_TXD_PKT_OFFSET)])
      (WORD [(md_hw_seq_mode info, AX_TXD_EN_HWSEQ_MODE); (md_hw_ssn_sel info, AX_TXD_HW_SSN_SEL);
             (md_hdr_len info, AX_TXD_HDR_LLC_LEN); (md_dma_ch info, AX_TXD_CH_DMA);
             (on (md_hw_amsdu info), AX_TXD_HWAMSDU); (on (md_smh_en info), AX_TXD_SMH_EN);
             (on (md_hw_sec_iv info), AX_TXD_HW_AES_IV); (on (md_wdinfo_en info), AX_TXD_WDINFO_EN);
             (on (md_chk_en info), AX_TXD_CHK_EN); (md_wp_offset info, AX_TXD_WP_OFFSET)]);
    WORD [(md_shcut_camid info, AX_TXD_SHCUT_CAMID)];
    WORD [(md_pktlen info, AX_TXD_TXPKTSIZE); (qsel, AX_TXD_QSEL);
          (on ind, AX_TXD_TID_IND); (md_macid info, AX_TXD_MACID)];
    WORD [(md_sw_seq info, AX_TXD_WIFI_SEQ); (on (md_ampdu_en info), AX_TXD_AGG_EN);
          (Z.lor (on (md_bk info)) (on (md_ack_ch_info info)), AX_TXD_BK)]; 0; 0 ].

Lemma data_words_read info qsel ind rest :
  view_fits (data_view info) = true -> reads (data_words info qsel ind ++ rest) (data_view info).
Proof.
  intros Hf. apply reads_masked; [done|]. unfold data_view.
  repeat constructor; cbn [nth app data_words]; by wd_field.
Qed.

Lemma dec_agg_eq info : is_u16 (md_max_agg_num info) ->
  dec_max_agg_num info = set_max_agg_num (Z.max 0 (md_max_agg_num info - 1)) info.
Proof.
  intros Hm. unfold is_u16 in Hm. unfold dec_max_agg_num.
  destruct (Z.ltb_spec 0 (md_max_agg_num info)).
  - rewrite u16_small by (unfold is_u16; lia). by rewrite Z.max_r by lia.
  - rewrite Z.max_l by lia. assert (md_max_agg_num info = 0) as E by lia.
    destruct info. simpl in E. by subst.
Qed.

Lemma data_info_read info ws :
  length ws = 6%nat -> is_u16 (md_max_agg_num info) -> view_fits (data_info_view info) = true ->
  reads (ws ++ data_info (dec_max_agg_num info)) (data_info_view info).
Proof.
  intros Hl Hm Hf. apply reads_masked; [done|]. rewrite dec_agg_eq by done.
  do 6 (destruct ws as [|? ws]; [done|]). destruct ws; [|done]. unfold data_info_view.
  repeat constructor; cbn [nth app data_info]; by wd_field.
Qed.

(** The access category is not touched by what is shifted in above it. *)
Lemma low2 x a : Z.land (Z.land (u8 (Z.lor (Z.shiftl x 2) a)) 63) 3 = Z.land a 3.
Proof.
  rewrite <- Z.land_assoc. change (Z.land 63 3) with (Z.ones 2). change 3 with (Z.ones 2).
  apply Z.bits_inj'. intros i Hi. rewrite !Z.land_spec. destruct (Z.ltb_spec i 2).
  - rewrite testbit_u8, Z.lor_spec, Z.shiftl_spec, (Z.testbit_neg_r x) by lia. done.
  - by rewrite Z.ones_spec_high, !andb_false_r by lia.
Qed.

Lemma shift3 b w a :
  Z.lor (Z.lor (Z.shiftl b 3) (Z.shiftl w 2)) a = Z.lor (Z.shiftl (Z.lor (Z.shiftl b 1) w) 2) a.
Proof. by rewrite Z.shiftl_lor, Z.shiftl_shiftl by lia. Qed.

Lemma qsel_low ad info q :
  data_qsel ad info = Some q -> 0 <= md_tid info < 8 ->
  md_dma_ch info <> MAC_AX_DATA_CH9 -> md_dma_ch info <> MAC_AX_DATA_CH11 ->
  Z.land (Z.land q 63) 3 = nth (Z.to_nat (md_tid info)) qsel_l 0.
Proof.
  intros Hq Ht H9 H11. unfold data_qsel in Hq. apply bind_Some in Hq as (dw&_&Hq).
  rewrite (proj2 (Z.eqb_neq _ _) H9), (proj2 (Z.eqb_neq _ _) H11) in Hq. cbn [orb] in Hq.
  apply bind_Some in Hq as (a&Ha&Hq).
  assert (Z.land (Z.land q 63) 3 = Z.land a 3) as ->
    by (case_match; simplify_eq; rewrite ?shift3; apply low2).
  rewrite nth_lookup, Ha. simpl.
  assert (Forall (fun a => Z.land a 3 = a) qsel_l) as Hall by (repeat constructor).
  by apply (Forall_lookup_1 _ _ _ _ Hall Ha).
Qed.

Lemma qsel_high ad info q :
  data_qsel ad info = Some q -> 0 <= md_tid info < 8 -> 0 <= md_band info < 2 -> 0 <= md_wmm info < 2 ->
  Forall (fun d => 0 <= d <= 4) (ad_dbcc_wmm_list ad) ->
  md_dma_ch info <> MAC_AX_DATA_CH9 -> md_dma_ch info <> MAC_AX_DATA_CH11 ->
  Z.land q 63 / 4 = queue_of ad info.
Proof.
  intros Hq Ht Hb Hw Hl H9 H11. unfold data_qsel in Hq. apply bind_Some in Hq as (dw&Hd&Hq).
  rewrite (proj2 (Z.eqb_neq _ _) H9), (proj2 (Z.eqb_neq _ _) H11) in Hq. cbn [orb] in Hq.
  apply bind_Some in Hq as (a&Ha&Hq). assert (0 <= a < 4) as Ha4.
  { assert (Forall (fun a => 0 <= a < 4) qsel_l) as Hall by (repeat constructor; lia). exact (Forall_lookup_1 _ _ _ _ Hall Ha). }
  assert (0 <= dw <= 4 /\ queue_of ad info = if dw =? 4 then 2 * md_band info + md_wmm info else dw) as [Hdw ->].
  { unfold queue_of, DBCC_WMM_LIST_SIZE, MAC_AX_DBCC_WMM_INVALID in *. destruct (md_macid info <? 32); [|by simplify_eq].
    pose proof (Forall_lookup_1 _ _ _ _ Hl Hd) as Hr. cbn beta in Hr. split; [done|]. rewrite (nth_lookup_Some _ _ _ _ Hd).
    cbv zeta. destruct (Z.ltb_spec dw 4), (Z.eqb_spec dw 4); lia. }
  revert Hq Hb Hw. generalize (md_band info), (md_wmm info). intros b w Hq Hb Hw.
  assert (b = 0 \/ b = 1) as [-> | ->] by lia; assert (w = 0 \/ w = 1) as [-> | ->] by lia;
    assert (a = 0 \/ a = 1 \/ a = 2 \/ a = 3) as [-> |[-> |[-> | ->]]] by lia;
    assert (dw = 0 \/ dw = 1 \/ dw = 2 \/ dw = 3 \/ dw = 4) as [-> |[-> |[-> |[-> | ->]]]] by lia;
    cbn in Hq; injection Hq as <-; reflexivity.
Qed.

Lemma qsel_hi ad info q :
  data_qsel ad info = Some q -> md_dma_ch info = MAC_AX_DATA_CH9 \/ md_dma_ch info = MAC_AX_DATA_CH11 ->
  Z.land q 63 = 17 + 8 * on (md_band info).
Proof.
  intros Hq Hch. unfold data_qsel in Hq. apply bind_Some in Hq as (dw&_&Hq).
  assert ((md_dma_ch info =? MAC_AX_DATA_CH9) || (md_dma_ch info =? MAC_AX_DATA_CH11) = true) as E
    by (destruct Hch as [-> | ->]; done).
  rewrite E in Hq. injection Hq as <-. unfold on. by destruct (md_band info =? 0).
Qed.

Lemma data_built ad info :
  md_type info = RTW_PHL_PKT_TYPE_DATA -> ad_intf ad = MAC_AX_INTF_USB ->
  length (ad_dbcc_wmm_list ad) = 32%nat ->
  0 <= md_dma_ch info <= 11 -> 0 < md_pktlen info <= 16383 -> 0 <= md_tid info < 8 -> 0 <= md_macid info ->
  exists qsel ind,
    data_qsel ad info = Some qsel /\ tid_ind !! Z.to_nat (md_tid info) = Some ind /\
    rtw_hal_mac_fill_txdesc ad info =
      finish_wd ad (dec_max_agg_num info)
        (data_words info qsel ind ++
         if negb (md_wdinfo_en info =? 0) then data_info (dec_max_agg_num info) else []).
Proof.
  intros Ht Hu Hdb Hch Hlen Htid Hmac.
  assert (Z.to_nat (md_tid info) < 8)%nat as Hlt by lia.
  destruct (lookup_lt_is_Some_2 tid_ind _ Hlt) as [ind Hind].
  assert (exists qsel, data_qsel ad info = Some qsel) as [qsel Hq].
  { unfold data_qsel, DBCC_WMM_LIST_SIZE.
    assert (exists w, (if md_macid info <? 32 then ad_dbcc_wmm_list ad !! Z.to_nat (md_macid info)
                       else Some MAC_AX_DBCC_WMM_INVALID) = Some w) as [w ->].
    { destruct (Z.ltb_spec (md_macid info) 32); [|eauto]. apply lookup_lt_is_Some_2. lia. }
    cbn [mbind option_bind]. case_match; [eauto|].
    destruct (lookup_lt_is_Some_2 qsel_l _ Hlt) as [a ->]. cbn [mbind option_bind]. case_match; eauto. }
  exists qsel, ind. split_and!; try done. unfold rtw_hal_mac_fill_txdesc, mac_build_txdesc_8851b. rewrite Ht.
  unfold txdes_proc_data_8851b. rewrite Z.eqb_refl. cbn [negb].
  rewrite (proj2 (Z.ltb_ge _ _)) by (unfold MAC_AX_DATA_CH11; lia).
  assert (bad_pktlen info = false) as -> by (unfold bad_pktlen; simpl; lia).
  unfold intf_bits. by rewrite Hu, Hq, Hind, dec_agg_wdinfo.
Qed.

(** The checksum word is outside every view. *)
Lemma finish_reads ad info raw :
  exists wd, finish_wd ad info raw = WdBuilt info wd /\
    (forall i, i <> 4%nat -> nth i wd 0 = nth i raw 0) /\
    (forall l, Forall (fun '(i, _, _) => i <> 4%nat) l -> reads raw l -> reads wd l).
Proof.
  unfold finish_wd. eexists. split; [done|].
  assert (forall i, i <> 4%nat -> nth i (if negb (ad_wd_checksum_en ad =? 0)
            then mac_wd_checksum_8851b info raw else raw) 0 = nth i raw 0) as Hi
    by (intros; case_match; by rewrite ?checksum_other).
  split; [done|]. intros l Hl Hr. unfold reads in *. rewrite Forall_forall in *.
  intros [[i f] v] Hin. specialize (Hl _ Hin). specialize (Hr _ Hin). simpl in *. by rewrite Hi.
Qed.

Lemma tid_code t : 0 <= t < 8 ->
  nth (Z.to_nat (2 * nth (Z.to_nat t) qsel_l 0 + on (nth (Z.to_nat t) tid_ind 0)))
    [0; 3; 1; 2; 4; 5; 6; 7] 0 = t.
Proof.
  intros Ht. assert (t = 0 \/ t = 1 \/ t = 2 \/ t = 3 \/ t = 4 \/ t = 5 \/ t = 6 \/ t = 7) as Hc by lia.
  repeat destruct Hc as [->|Hc]; try reflexivity. by subst.
Qed.

Lemma view_macid info : view_fits (data_view info) = true -> 0 <= md_macid info.
Proof.
  unfold view_fits. rewrite forallb_forall. intros H.
  specialize (H (2%nat, AX_TXD_MACID, md_macid info)). simpl in H.
  apply andb_true_iff in H as [H _]; [by apply Z.leb_le|]. tauto.
Qed.

(** C25. Descriptor of a data frame over USB.  The numbers of the metadata fit the
    widths of their fields, band and WMM are 0 or 1, the channel is at most 11,
    the length from 1 to 16383, the TID below 8, and the adapter's table has 32
    entries of at most 4.  Then the HAL fills in a descriptor, and the fields of
    its body, and of its info part when there is one, read back as the values of
    the metadata (flags as 0 or 1, the aggregation limit less one): no two
    fields overlap and none is cut off, with or without the checksum, whose
    field is not part of the view.  The queue selection is 17, the high queue,
    on channels 9 and 11, plus 8 for the second band; on the other channels it
    is the band, the WMM (or the adapter's entry for the MAC id in their place)
    and the access category, and with the indication gives the TID back.  The
    limit for transmit reports becomes that of the frame if both its flags are
    set, and is kept otherwise. *)
Theorem data_wd_roundtrip ad lmt info :
  md_type info = RTW_PHL_PKT_TYPE_DATA -> ad_intf ad = MAC_AX_INTF_USB ->
  length (ad_dbcc_wmm_list ad) = 32%nat -> Forall (fun d => 0 <= d <= 4) (ad_dbcc_wmm_list ad) ->
  0 <= md_dma_ch info <= 11 -> 0 < md_pktlen info <= 16383 -> 0 <= md_tid info < 8 ->
  0 <= md_band info < 2 -> 0 <= md_wmm info < 2 -> is_u16 (md_max_agg_num info) ->
  view_fits (data_view info) = true -> view_fits (data_info_view info) = true ->
  exists lmt' info' wd,
    rtw_hal_fill_wd ad lmt info = (lmt', WdBuilt info' wd) /\
    (md_spe_rpt info <> 0 /\ md_data_tx_cnt_lmt_en info <> 0 -> lmt' = md_data_tx_cnt_lmt info) /\
    (md_spe_rpt info = 0 \/ md_data_tx_cnt_lmt_en info = 0 -> lmt' = lmt) /\
    reads wd (data_view info) /\
    (md_wdinfo_en info <> 0 -> reads wd (data_info_view info)) /\
    (md_dma_ch info = MAC_AX_DATA_CH9 \/ md_dma_ch info = MAC_AX_DATA_CH11 ->
     GET_FIELD (nth 2 wd 0) (at_bits 17 6) = 17 + 8 * md_band info) /\
    (md_dma_ch info <> MAC_AX_DATA_CH9 -> md_dma_ch info <> MAC_AX_DATA_CH11 ->
     GET_FIELD (nth 2 wd 0) (at_bits 17 6) / 4 = queue_of ad info /\ txd_tid wd = md_tid info).
Proof.
  intros Ht Hu Hdb Hl Hch Hlen Htid Hb Hw Hagg Hv Hvi. unfold rtw_hal_fill_wd.
  destruct (data_built ad info) as (q&ind&Hq&Hind&->); try done; [by apply view_macid|].
  match goal with |- context [finish_wd ad ?i ?raw] => destruct (finish_reads ad i raw) as (wd&->&Hn&Hr) end.
  assert (GET_FIELD (nth 2 wd 0) (at_bits 17 6) = Z.land q 63) as Eq.
  { rewrite Hn by done. cbn [nth app data_words]. by wd_field. }
  eexists _, _, wd. split_and!; [done| | | | | |].
  - intros [H1 H2]. by rewrite (proj2 (Z.eqb_neq _ 0) H1), (proj2 (Z.eqb_neq _ 0) H2).
  - intros [E|E]; rewrite E; cbn [Z.eqb negb]; [done|]. by destruct (md_spe_rpt info =? 0).
  - apply Hr; [repeat constructor; done|by apply data_words_read].
  - intros Hwd. apply Hr; [repeat constructor; done|].
    rewrite (proj2 (Z.eqb_neq _ 0)) by done. by apply data_info_read.
  - intros Hhi. rewrite Eq, (qsel_hi ad info) by done. unfold on. destruct (Z.eqb_spec (md_band info) 0); lia.
  - intros H9 H11. split; [rewrite Eq; by apply (qsel_high ad info)|]. unfold txd_tid. rewrite Eq, Hn by done. cbn [nth app data_words].
    assert (nth (Z.to_nat (md_tid info)) tid_ind 0 = ind) as <- by (by rewrite nth_lookup, Hind).
    set (ind := nth _ tid_ind 0). wd_field. cbn [f_msk AX_TXD_TID_IND FBIT at_bits].
    rewrite (qsel_low ad info) by done.
    change (Z.ones 1) with 1. replace (Z.land (on ind) 1) with (on ind) by (unfold on; by destruct (ind =? 0)).
    by apply tid_code.
Qed.

Lemma data_wd_roundtrip_witness :
  exists lmt' info' wd,
    rtw_hal_fill_wd (demo_ad 1) 32 (demo_md RTW_PHL_PKT_TYPE_DATA 5 1500) = (lmt', WdBuilt info' wd) /\
    GET_FIELD (nth 2 wd 0) AX_TXD_TXPKTSIZE = 1500 /\ txd_tid wd = 5.
Proof.
  destruct (data_wd_roundtrip (demo_ad 1) 32 (demo_md RTW_PHL_PKT_TYPE_DATA 5 1500))
    as (lmt'&info'&wd&Hb&_&_&Hr&_&_&Ht); try done; try (apply Forall_replicate; lia).
  exists lmt', info', wd. split_and!; [done| |by apply (proj2 (Ht ltac:(done) ltac:(done)))].
  unfold reads in Hr. rewrite Forall_forall in Hr.
  apply (Hr (2%nat, AX_TXD_TXPKTSIZE, 1500)). simpl. tauto.
Defined.

(** ** What the transmit path needs of the HAL *)

(** The descriptor functions as the USB path sees them: the announced length is
    the length of the descriptor that is filled in, from 8 to 48 bytes, and does
    not depend on the values the path stores in the metadata before it fills
    the descriptor in; filling in leaves the packet offset as it is; the aggregation count is stored inside the first
    descriptor. *)
Class TxHal (H : Type) := {
  hal_get_wd_len : rtw_t_meta_data -> Z;
  hal_fill_wd : H -> rtw_t_meta_data -> wd_result;
  hal_get_max_bulkout_wd_num : H -> Z;
  hal_get_max_dma_txagg_msk : H -> Z;
  hal_usb_tx_agg_cfg : Z -> list Z -> list Z;
  hal_get_bulkout_id : H -> Z -> Z -> Z;
  hal_len_range m : 8 <= hal_get_wd_len m <= 48;
  hal_len_ctrl b w p c l o m : hal_get_wd_len (set_tx_ctrl b w p c l o m) = hal_get_wd_len m;
  hal_fill_len h m m' wd : hal_fill_wd h m = WdBuilt m' wd ->
    Z.of_nat (length (wd_bytes wd)) = hal_get_wd_len m;
  hal_fill_ofst h m m' wd : hal_fill_wd h m = WdBuilt m' wd ->
    md_usb_pkt_ofst m' = md_usb_pkt_ofst m;
  hal_agg_len n a : (8 <= length a)%nat -> length (hal_usb_tx_agg_cfg n a) = length a;
  hal_agg_local n a b : (8 <= length a)%nat ->
    hal_usb_tx_agg_cfg n (a ++ b) = hal_usb_tx_agg_cfg n a ++ b
}.

Lemma agg_buf_len n a : (8 <= length a)%nat -> length (usb_tx_agg_cfg_buf n a) = length a.
Proof.
  intros. unfold usb_tx_agg_cfg_buf. rewrite !length_app, length_take, length_drop.
  change (length (le32 _)) with 4%nat. lia.
Qed.

Lemma agg_buf_local n a b :
  (8 <= length a)%nat -> usb_tx_agg_cfg_buf n (a ++ b) = usb_tx_agg_cfg_buf n a ++ b.
Proof.
  intros Hl. unfold usb_tx_agg_cfg_buf.
  rewrite !drop_app_le, !take_app_le by (rewrite ?length_drop; lia).
  by rewrite <- !(assoc_L app).
Qed.

#[global, refine] Instance mac_8851b_hal : TxHal mac_ax_adapter := {
  hal_get_wd_len := rtw_hal_get_wd_len;
  hal_fill_wd := rtw_hal_mac_fill_txdesc;
  hal_get_max_bulkout_wd_num := rtw_hal_get_max_bulkout_wd_num;
  hal_get_max_dma_txagg_msk := rtw_hal_get_max_dma_txagg_msk;
  hal_usb_tx_agg_cfg := usb_tx_agg_cfg_buf;
  hal_get_bulkout_id := fun ad => get_bulkout_id_8851b (ad_eps ad)
}.
Proof.
  - intros m. unfold rtw_hal_get_wd_len. destruct (txdesc_len_cases m); lia.
  - reflexivity.
  - intros h m m' wd Hf. rewrite wd_bytes_length. destruct (fill_wd_length _ _ _ _ Hf). lia.
  - intros h m m' wd Hf. apply built_shape in Hf as (raw&[[->| ->] _ _ _]); [done|].
    unfold dec_max_agg_num. by case_match.
  - apply agg_buf_len.
  - apply agg_buf_local.
Defined.

(** On a descriptor of 32-bit words the buffer is changed as the words are. *)
Lemma word_of_le32 w : is_u32 w -> word_of (le32 w) = w.
Proof.
  intros Hw. unfold word_of, le32. cbn [nth]. rewrite !Z.shiftr_div_pow2 by lia.
  change (2 ^ 8) with 256. change (2 ^ 16) with 65536. change (2 ^ 24) with 16777216. ulia.
Qed.

Lemma agg_buf_words n wd :
  (2 <= length wd)%nat -> is_u32 (nth 1 wd 0) ->
  usb_tx_agg_cfg_buf n (wd_bytes wd) = wd_bytes (usb_tx_agg_cfg_8851b n wd).
Proof.
  intros Hl Hw. destruct wd as [|w0 [|w1 wd]]; simpl in Hl; try lia. cbn [nth] in Hw.
  unfold usb_tx_agg_cfg_buf.
  change (take 4 (drop 4 (wd_bytes (w0 :: w1 :: wd)))) with (le32 w1). by rewrite word_of_le32.
Qed.
