(* ===== verification/TrxRing.v ===== *)
(** * Transmit and receive rings

    Models the index arithmetic of the rings shared by the core and the PHL
    layer (src/phl/phl_tx.c), the receive ring and the receive packet pool
    (src/phl/phl_rx.c), and the transmit rings with the selection and the
    sorting of the rings that have work (src/phl/phl_tx.c).

    [_phl_add_rx_pkt] runs under [rx_ring_lock], but [rtw_phl_query_rx_pkt]
    takes no lock: the two sides of the receive ring share only the two atomic
    indices and the entries.  The functions are first modelled as wholes and
    then, in the last part, as threads whose shared accesses interleave. *)
From Stdlib Require Import ZArith Lia Bool List.
From stdpp Require Import base tactics list numbers gmap.
From S2P Require Import Prelude Macid TrxStats TxDesc.

(** ** Index arithmetic *)

Definition phl_calc_avail_rptr (rptr wptr bndy : Z) : Z :=
  if rptr <=? wptr then u16 (wptr - rptr)
  else if wptr <? rptr then u16 (wptr + (bndy - rptr))
  else 0.

Definition phl_calc_avail_wptr (rptr wptr bndy : Z) : Z :=
  if wptr <? rptr then u16 (rptr - wptr - 1)
  else if rptr <=? wptr then u16 (rptr + (bndy - wptr) - 1)
  else 0.

Definition MAX_PHL_RX_RING_ENTRY_NUM : Z := 4096.
Definition MAX_PHL_TX_RING_ENTRY_NUM : Z := 4096.
Definition MAX_PHL_RING_RX_PKT_NUM : Z := 8192.

(** ** Receive ring *)

(** The fields of [struct rtw_recv_pkt] read here: an identity, the metadata
    the statistics use, the sending station and the rate. *)
Record rtw_recv_pkt := RecvPkt {
  rp_id : Z; rp_info : pkt_info; rp_tx_sta : option Z; rp_rx_rate : Z
}.

Record rtw_phl_rx_ring := RxRing {
  core_idx : Z; phl_idx : Z; entry : list (option rtw_recv_pkt)
}.

Record rx_state := RxState { rx_ring : rtw_phl_rx_ring; rx_stat : all_stats }.

Definition rx_ring_init (st : all_stats) : rx_state :=
  RxState (RxRing 0 0 (replicate (Z.to_nat MAX_PHL_RX_RING_ENTRY_NUM) None)) st.

Definition _phl_record_rx_stats (st : all_stats) (p : rtw_recv_pkt) : all_stats :=
  match rp_tx_sta p with
  | None => st
  | Some s =>
    AllStats (phl_stats st)
      (alter (fun x => RtwStats (tx_stats x) (rx_stats x) (txreq_num x) (rp_rx_rate p)
                         (rx_tf_cnt x) (pre_rx_tf_cnt x)) s (sta_stats st))
  end.

Definition _phl_add_rx_pkt (s : rx_state) (recvpkt : rtw_recv_pkt) :
    rtw_phl_status * rx_state :=
  let ring := rx_ring s in
  let wptr := u16 (phl_idx ring) in
  let rptr := u16 (core_idx ring) in
  let ring_res := phl_calc_avail_wptr rptr wptr MAX_PHL_RX_RING_ENTRY_NUM in
  if ring_res <=? 0 then (RTW_PHL_STATUS_RESOURCE, s)
  else
    let wptr := u16 (wptr + 1) in
    let wptr := if MAX_PHL_RX_RING_ENTRY_NUM <=? wptr then 0 else wptr in
    let st := _phl_record_rx_stats (rx_stat s) recvpkt in
    let ent := <[Z.to_nat wptr := Some recvpkt]> (entry ring) in
    let idx := if negb (wptr =? 0) then phl_idx ring + 1 else 0 in
    (RTW_PHL_STATUS_SUCCESS, RxState (RxRing (core_idx ring) idx ent) st).

Definition phl_check_recv_ring_resource (s : rx_state) : bool :=
  let ring := rx_ring s in
  negb (phl_calc_avail_wptr (u16 (core_idx ring)) (u16 (phl_idx ring))
          MAX_PHL_RX_RING_ENTRY_NUM =? 0).

Definition rtw_phl_query_new_rx_num (s : rx_state) : Z :=
  let ring := rx_ring s in
  phl_calc_avail_rptr (u16 (core_idx ring)) (u16 (phl_idx ring)) MAX_PHL_RX_RING_ENTRY_NUM.

Definition rtw_phl_query_rx_pkt (ctl : macid_ctl_t) (now : Z) (s : rx_state) :
    option rtw_recv_pkt * rx_state :=
  let ring := rx_ring s in
  let wptr := u16 (phl_idx ring) in
  let rptr := u16 (core_idx ring) in
  let ring_res := phl_calc_avail_rptr rptr wptr MAX_PHL_RX_RING_ENTRY_NUM in
  if 0 <? ring_res then
    let rptr := u16 (rptr + 1) in
    let '(rptr, idx) := if MAX_PHL_RX_RING_ENTRY_NUM <=? rptr then (0, 0)
                        else (rptr, core_idx ring + 1) in
    let recvpkt := nth (Z.to_nat rptr) (entry ring) None in
    let ring' := RxRing idx (phl_idx ring) (<[Z.to_nat rptr := None]> (entry ring)) in
    match recvpkt with
    | None => (None, RxState ring' (rx_stat s))
    | Some p => (Some p, RxState ring' (phl_rx_statistics ctl (rx_stat s) (rp_info p) now))
    end
  else (None, s).

(** ** Transmit rings *)

(** [enum rtw_phl_ring_cat]: TID 0 to 7, then management and high queue. *)
Definition RTW_PHL_RING_CAT_TID1 : Z := 1.
Definition RTW_PHL_RING_CAT_TID2 : Z := 2.
Definition RTW_PHL_RING_CAT_MGNT : Z := 8.
Definition RTW_PHL_RING_CAT_HIQ : Z := 9.
Definition MAX_PHL_RING_CAT_NUM : Z := 10.

(** The fields of [struct rtw_xmit_req] read here: an identity, what the
    statistics use, the category, and the content the USB path copies. *)
Record rtw_xmit_req := XmitReq { tr_id : Z; tr_info : pkt_info; tr_cat : Z; tr_body : tx_body }.

Record rtw_phl_tx_ring := TxRing {
  t_cat : Z; t_dma_ch : Z; t_core_idx : Z; t_phl_idx : Z; t_phl_next_idx : Z;
  t_entry : list (option rtw_xmit_req)
}.

Record rtw_phl_tring_list := TringList {
  tl_macid : Z; tl_band : Z; tl_wmm : Z; tl_port : Z; tl_ring : list rtw_phl_tx_ring
}.

Record tx_state := TxState {
  use_onetxring : bool; t_ring_list : list rtw_phl_tring_list;
  tx_stat : all_stats; phl_sw_tx_more : Z
}.

(** The position of the ring list the request goes to; [None] is [NULL].  With
    a single ring the code takes the first entry of a list it expects to be
    non-empty. *)
Fixpoint find_tring (l : list rtw_phl_tring_list) (i : nat) (m : Z) : option nat :=
  match l with
  | [] => None
  | t :: r => if negb (m =? tl_macid t) then find_tring r (S i) m else Some i
  end.

Definition _phl_select_tx_ring (s : tx_state) (q : rtw_xmit_req) : option nat :=
  if use_onetxring s then match t_ring_list s with [] => None | _ => Some O end
  else find_tring (t_ring_list s) 0 (macid (tr_info q)).

Definition tx_ring_put (r : rtw_phl_tx_ring) (q : rtw_xmit_req) : rtw_phl_tx_ring :=
  let c := u16 ((t_core_idx r + 1) mod MAX_PHL_TX_RING_ENTRY_NUM) in
  TxRing (t_cat r) (t_dma_ch r) c (t_phl_idx r) (t_phl_next_idx r) (<[Z.to_nat c := Some q]> (t_entry r)).

Definition upd_ring (t : rtw_phl_tring_list) (cat : nat) (r : rtw_phl_tx_ring) :
    rtw_phl_tring_list :=
  TringList (tl_macid t) (tl_band t) (tl_wmm t) (tl_port t) (<[cat := r]> (tl_ring t)).

Definition rtw_phl_add_tx_req (ctl : macid_ctl_t) (now : Z) (s : tx_state) (q : rtw_xmit_req) :
    rtw_phl_status * tx_state :=
  match _phl_select_tx_ring s q with
  | None => (RTW_PHL_STATUS_FAILURE, s)
  | Some i =>
    match t_ring_list s !! i with
    | None => (RTW_PHL_STATUS_FAILURE, s)
    | Some t =>
      match tl_ring t !! Z.to_nat (tr_cat q) with
      | None => (RTW_PHL_STATUS_FAILURE, s)
      | Some ring =>
        let rptr := u16 (t_phl_idx ring) in
        let ring_res := phl_calc_avail_wptr rptr (t_core_idx ring) MAX_PHL_TX_RING_ENTRY_NUM in
        if 0 <? ring_res then
          let t' := upd_ring t (Z.to_nat (tr_cat q)) (tx_ring_put ring q) in
          (RTW_PHL_STATUS_SUCCESS,
           TxState (use_onetxring s) (<[i := t']> (t_ring_list s))
             (phl_tx_statistics ctl (tx_stat s) (tr_info q) now) 1)
        else (RTW_PHL_STATUS_RESOURCE, s)
      end
    end
  end.

Definition rtw_phl_tring_rsc (s : tx_state) (m tid : Z) : Z :=
  match find_tring (t_ring_list s) 0 m with
  | None => 0
  | Some i =>
    match t_ring_list s !! i ≫= fun t => tl_ring t !! Z.to_nat tid with
    | None => 0
    | Some ring =>
      phl_calc_avail_rptr (u16 (t_phl_idx ring)) (t_core_idx ring) MAX_PHL_TX_RING_ENTRY_NUM
    end
  end.

(** [struct phl_ring_status]; the ring is named by its category. *)
Record phl_ring_status := RingSts {
  rs_band : Z; rs_wmm : Z; rs_port : Z; rs_req_busy : Z; rs_cat : Z
}.

(** [free] is the number of idle status entries of the pool; the result is the
    status ([None] for [NULL]), the ring and the entries left. *)
Definition _phl_check_ring_status (free : nat) (ring : rtw_phl_tx_ring) (t : rtw_phl_tring_list) :
    option phl_ring_status * rtw_phl_tx_ring * nat :=
  let rptr := u16 (t_phl_idx ring) in
  let avail := phl_calc_avail_rptr rptr (t_core_idx ring) MAX_PHL_TX_RING_ENTRY_NUM in
  if avail =? 0 then (None, ring, free)
  else match free with
       | O => (None, ring, O)
       | S f =>
         let rptr := u16 (rptr + 1) in
         let next := if MAX_PHL_TX_RING_ENTRY_NUM <=? rptr then 0 else rptr in
         (Some (RingSts (tl_band t) (tl_wmm t) (tl_port t) avail (t_cat ring)),
          TxRing (t_cat ring) (t_dma_ch ring) (t_core_idx ring) (t_phl_idx ring) next (t_entry ring), f)
       end.

(** [struct phl_tx_plan] without the list link. *)
Record phl_tx_plan := TxPlan {
  tp_sleep : bool; tp_has_mgnt : bool; tp_has_hiq : bool; tp_sorted_ring : list phl_ring_status
}.

Definition _phl_init_tx_plan : phl_tx_plan := TxPlan false false false [].

Definition _phl_sort_ring_by_tid (rs : phl_ring_status) (plan : phl_tx_plan) (cat : Z) :
    phl_tx_plan :=
  let l := tp_sorted_ring plan in
  let set_l l' := TxPlan (tp_sleep plan) (tp_has_mgnt plan) (tp_has_hiq plan) l' in
  if rs_cat rs =? RTW_PHL_RING_CAT_TID1 then set_l (l ++ [rs])
  else if rs_cat rs =? RTW_PHL_RING_CAT_TID2 then
    match last l with
    | None => set_l (l ++ [rs])
    | Some lst =>
      if rs_cat lst =? RTW_PHL_RING_CAT_TID1 then set_l (removelast l ++ [rs; lst])
      else set_l (l ++ [rs])
    end
  else
    TxPlan (tp_sleep plan)
      (if RTW_PHL_RING_CAT_MGNT =? cat then true else tp_has_mgnt plan)
      (if RTW_PHL_RING_CAT_MGNT =? cat then tp_has_hiq plan
       else if RTW_PHL_RING_CAT_HIQ =? cat then true else tp_has_hiq plan)
      (rs :: l).

(** The loop of [_phl_check_tring_list] over the rings of one MAC id. *)
Fixpoint check_rings (free : nat) (t : rtw_phl_tring_list) (rings : list rtw_phl_tx_ring) (i : Z)
    (plan : phl_tx_plan) : phl_tx_plan * list rtw_phl_tx_ring * nat :=
  match rings with
  | [] => (plan, [], free)
  | r :: rest =>
    let '(rs, r', free') := _phl_check_ring_status free r t in
    let plan' := match rs with Some x => _phl_sort_ring_by_tid x plan i | None => plan end in
    let '(p, rest', f) := check_rings free' t rest (i + 1) plan' in
    (p, r' :: rest', f)
  end.

(** The plan, the ring list, the entries left, and whether the plan was added
    to the list of stations with work. *)
Definition _phl_check_tring_list (free : nat) (t : rtw_phl_tring_list) (plan : phl_tx_plan) :
    phl_tx_plan * rtw_phl_tring_list * nat * bool :=
  let '(p, rings, f) := check_rings free t (tl_ring t) 0 plan in
  (p, TringList (tl_macid t) (tl_band t) (tl_wmm t) (tl_port t) rings, f,
   match tp_sorted_ring p with [] => false | _ => true end).

(** [rtw_phl_cvt_cat_to_tid] and [rtw_phl_cvt_tid_to_cat] *)
Definition rtw_phl_cvt_cat_to_tid (cat : Z) : Z :=
  if (0 <=? cat) && (cat <=? 7) then cat else 0.

Definition rtw_phl_cvt_tid_to_cat (tid : Z) : Z :=
  if (0 <=? tid) && (tid <=? 7) then tid else 0.

(** ** Ring contents *)

(** The ring with read index [r], write index [w] and entries [e] holds the
    queue [xs]: the entry after the read index is the oldest. *)
Definition slot (z : Z) : nat := Z.to_nat (z mod 4096).

Definition ring_rep {A} (r w : Z) (e : list (option A)) (xs : list A) : Prop :=
  0 <= r < 4096 /\ 0 <= w < 4096 /\ length e = Z.to_nat 4096 /\
  Z.of_nat (length xs) = (w - r) mod 4096 /\
  forall k x, xs !! k = Some x -> e !! slot (r + 1 + Z.of_nat k) = Some (Some x).

Lemma slot_lt z : (slot z < Z.to_nat 4096)%nat.
Proof. unfold slot. pose proof (Z.mod_pos_bound z 4096). lia. Qed.

Lemma slot_inj a b : slot a = slot b -> (a - b) mod 4096 = 0.
Proof. unfold slot. intros H.
  pose proof (Z.mod_pos_bound a 4096). pose proof (Z.mod_pos_bound b 4096).
  assert (a mod 4096 = b mod 4096) as E by lia. clear H. zlia.
Qed.

Lemma slot_eq a b : (a - b) mod 4096 = 0 -> slot a = slot b.
Proof. unfold slot. intros H. f_equal. zlia. Qed.

Lemma ring_rep_len {A} r w (e : list (option A)) xs :
  ring_rep r w e xs -> (length xs <= 4095)%nat.
Proof. intros (?&?&?&H&_). zlia. Qed.

(** Adding behind the write index appends, as long as a slot is free. *)
Lemma ring_rep_put {A} r w (e : list (option A)) xs x :
  ring_rep r w e xs -> (length xs < 4095)%nat ->
  ring_rep r ((w + 1) mod 4096) (<[slot (w + 1) := Some x]> e) (xs ++ [x]).
Proof.
  intros (Hr&Hw&Hl&Hn&Hk) Hlt. split_and!; [lia|lia|zlia|zlia| | |].
  - by rewrite length_insert.
  - rewrite length_app. simpl. zlia.
  - intros k y Hy. apply lookup_app_Some in Hy as [Hy|[Hge Hy]].
    + pose proof (lookup_lt_Some _ _ _ Hy). rewrite list_lookup_insert_ne; [by apply Hk|].
      intros Hs. apply slot_inj in Hs. zlia.
    + pose proof (lookup_lt_Some _ _ _ Hy) as Hlk. simpl in Hlk.
      replace (k - length xs)%nat with 0%nat in Hy by lia. simplify_eq/=.
      replace (slot (r + 1 + Z.of_nat k)) with (slot (w + 1)) by (apply slot_eq; zlia).
      rewrite list_lookup_insert_eq; [done|]. rewrite Hl. apply slot_lt.
Qed.

(** The entry after the read index is the head; clearing it removes the head. *)
Lemma ring_rep_get {A} r w (e : list (option A)) x xs :
  ring_rep r w e (x :: xs) ->
  e !! slot (r + 1) = Some (Some x) /\
  ring_rep ((r + 1) mod 4096) w (<[slot (r + 1) := None]> e) xs.
Proof.
  intros H. pose proof (ring_rep_len _ _ _ _ H) as Hlen. destruct H as (Hr&Hw&Hl&Hn&Hk).
  simpl in *. split.
  - specialize (Hk 0%nat x eq_refl). by rewrite Z.add_0_r in Hk.
  - split_and!; [zlia|zlia|lia|lia| | |].
    + by rewrite length_insert.
    + zlia.
    + intros k y Hy. pose proof (lookup_lt_Some _ _ _ Hy).
      rewrite list_lookup_insert_ne.
      * rewrite <- (Hk (S k) y Hy). f_equal. apply slot_eq. zlia.
      * intros Hs. apply slot_inj in Hs. zlia.
Qed.

Lemma ring_rep_empty {A} r : 0 <= r < 4096 ->
  ring_rep r r (replicate (Z.to_nat 4096) (@None A)) [].
Proof.
  intros H. split_and!; [lia|lia|lia|lia| | |done].
  - by rewrite length_replicate.
  - simpl. zlia.
Qed.

Lemma avail_rptr_len {A} r w (e : list (option A)) xs :
  ring_rep r w e xs -> phl_calc_avail_rptr r w 4096 = Z.of_nat (length xs).
Proof. intros (?&?&_&H&_). unfold phl_calc_avail_rptr. ifs; ulia. Qed.

Lemma avail_wptr_len {A} r w (e : list (option A)) xs :
  ring_rep r w e xs -> phl_calc_avail_wptr r w 4096 = 4095 - Z.of_nat (length xs).
Proof. intros (?&?&_&H&_). unfold phl_calc_avail_wptr. ifs; ulia. Qed.

(** ** The receive ring is a bounded FIFO queue *)

Definition rx_rep (s : rx_state) (xs : list rtw_recv_pkt) : Prop :=
  ring_rep (core_idx (rx_ring s)) (phl_idx (rx_ring s)) (entry (rx_ring s)) xs.

Lemma rx_rep_init st : rx_rep (rx_ring_init st) [].
Proof. by apply (ring_rep_empty 0). Qed.

(** What the atomic indices hold fits the [u16] locals. *)
Lemma rep_u16 {A} r w (e : list (option A)) xs :
  ring_rep r w e xs -> u16 r = r /\ u16 w = w.
Proof. intros (?&?&_). split; ulia. Qed.

Lemma next_index z : 0 <= z < 4096 ->
  (if 4096 <=? u16 (z + 1) then 0 else u16 (z + 1)) = (z + 1) mod 4096.
Proof. intros H. destruct (4096 <=? u16 (z + 1)) eqn:E; ulia. Qed.

Lemma slot_mod z : Z.to_nat (z mod 4096) = slot z.
Proof. reflexivity. Qed.

(** [_phl_add_rx_pkt] appends, or refuses when 4095 packets are queued. *)
Lemma add_rx_pkt_spec s xs p :
  rx_rep s xs ->
  if (length xs <? 4095)%nat
  then exists s', _phl_add_rx_pkt s p = (RTW_PHL_STATUS_SUCCESS, s') /\ rx_rep s' (xs ++ [p])
  else _phl_add_rx_pkt s p = (RTW_PHL_STATUS_RESOURCE, s).
Proof.
  unfold rx_rep. intros H. destruct (rep_u16 _ _ _ _ H) as [E1 E2].
  pose proof (avail_wptr_len _ _ _ _ H) as Ea. pose proof (ring_rep_len _ _ _ _ H).
  unfold _phl_add_rx_pkt, MAX_PHL_RX_RING_ENTRY_NUM. rewrite E1, E2, Ea.
  destruct (length xs <? 4095)%nat eqn:Hl.
  - apply Nat.ltb_lt in Hl. rewrite (proj2 (Z.leb_gt _ _)) by lia.
    eexists. split; [done|]. simpl. pose proof H as (_&Hw&_).
    rewrite next_index, slot_mod by lia.
    replace (if negb ((phl_idx (rx_ring s) + 1) mod 4096 =? 0) then phl_idx (rx_ring s) + 1 else 0)
      with ((phl_idx (rx_ring s) + 1) mod 4096) by (ifs; zlia).
    by apply ring_rep_put.
  - apply Nat.ltb_ge in Hl. by rewrite (proj2 (Z.leb_le _ _)) by lia.
Qed.

(** [rtw_phl_query_rx_pkt] takes the oldest packet. *)
Lemma query_rx_pkt_spec ctl now s xs :
  rx_rep s xs ->
  match xs with
  | [] => rtw_phl_query_rx_pkt ctl now s = (None, s)
  | x :: xs' => exists s', rtw_phl_query_rx_pkt ctl now s = (Some x, s') /\ rx_rep s' xs'
  end.
Proof.
  unfold rx_rep. intros H. destruct (rep_u16 _ _ _ _ H) as [E1 E2].
  pose proof (avail_rptr_len _ _ _ _ H) as Ea.
  unfold rtw_phl_query_rx_pkt, MAX_PHL_RX_RING_ENTRY_NUM. rewrite E1, E2, Ea.
  destruct xs as [|x xs']; [done|]. rewrite (proj2 (Z.ltb_lt _ _)) by (simpl; lia).
  pose proof H as (Hr&_). apply ring_rep_get in H as [Hx H].
  replace (if 4096 <=? u16 (core_idx (rx_ring s) + 1) then (0, 0)
           else (u16 (core_idx (rx_ring s) + 1), core_idx (rx_ring s) + 1))
    with ((core_idx (rx_ring s) + 1) mod 4096, (core_idx (rx_ring s) + 1) mod 4096)
    by (ifs; f_equal; ulia).
  rewrite slot_mod, nth_lookup, Hx. simpl. eauto.
Qed.

Inductive rx_op :=
  | RxAdd (p : rtw_recv_pkt)
  | RxQuery (now : Z)
  | RxNewNum
  | RxHasRoom.

Inductive rx_res :=
  | RSts (st : rtw_phl_status)
  | RPkt (p : option rtw_recv_pkt)
  | RNum (n : Z)
  | RBool (b : bool).

Definition rx_run (ctl : macid_ctl_t) (s : rx_state) (o : rx_op) : rx_res * rx_state :=
  match o with
  | RxAdd p => let '(r, s') := _phl_add_rx_pkt s p in (RSts r, s')
  | RxQuery now => let '(r, s') := rtw_phl_query_rx_pkt ctl now s in (RPkt r, s')
  | RxNewNum => (RNum (rtw_phl_query_new_rx_num s), s)
  | RxHasRoom => (RBool (phl_check_recv_ring_resource s), s)
  end.

(** The specification: a queue of at most 4095 packets. *)
Definition fifo_run (xs : list rtw_recv_pkt) (o : rx_op) : rx_res * list rtw_recv_pkt :=
  match o with
  | RxAdd p => if (length xs <? 4095)%nat then (RSts RTW_PHL_STATUS_SUCCESS, xs ++ [p])
               else (RSts RTW_PHL_STATUS_RESOURCE, xs)
  | RxQuery _ => (RPkt (head xs), tail xs)
  | RxNewNum => (RNum (Z.of_nat (length xs)), xs)
  | RxHasRoom => (RBool (length xs <? 4095)%nat, xs)
  end.

Fixpoint run_ops {S} (step : S -> rx_op -> rx_res * S) (s : S) (os : list rx_op) : list rx_res :=
  match os with
  | [] => []
  | o :: os' => let '(r, s') := step s o in r :: run_ops step s' os'
  end.

Lemma rx_run_simulates ctl s xs o :
  rx_rep s xs ->
  fst (rx_run ctl s o) = fst (fifo_run xs o) /\
  rx_rep (snd (rx_run ctl s o)) (snd (fifo_run xs o)).
Proof.
  intros H. destruct o as [p|now| |]; simpl.
  - pose proof (add_rx_pkt_spec s xs p H) as Ha. destruct (length xs <? 4095)%nat.
    + by destruct Ha as (s'&->&?).
    + by rewrite Ha.
  - pose proof (query_rx_pkt_spec ctl now s xs H) as Hq. destruct xs as [|x xs'].
    + by rewrite Hq.
    + by destruct Hq as (s'&->&?).
  - unfold rtw_phl_query_new_rx_num. destruct (rep_u16 _ _ _ _ H) as [-> ->].
    unfold MAX_PHL_RX_RING_ENTRY_NUM. by erewrite avail_rptr_len.
  - unfold phl_check_recv_ring_resource. destruct (rep_u16 _ _ _ _ H) as [-> ->].
    unfold MAX_PHL_RX_RING_ENTRY_NUM. erewrite avail_wptr_len by done. split; [|done].
    f_equal. apply ring_rep_len in H. destruct (Nat.ltb_spec (length xs) 4095).
    + apply negb_true_iff, Z.eqb_neq. lia.
    + apply negb_false_iff, Z.eqb_eq. lia.
Qed.

(** The receive ring behaves as a FIFO queue of at most 4095 packets: from
    the initial ring, any sequence of [_phl_add_rx_pkt],
    [rtw_phl_query_rx_pkt], [rtw_phl_query_new_rx_num] and
    [phl_check_recv_ring_resource] returns what the queue returns. *)
Theorem rx_ring_refines_fifo ctl st ops :
  run_ops (rx_run ctl) (rx_ring_init st) ops = run_ops fifo_run [] ops.
Proof.
  generalize (rx_rep_init st). generalize (rx_ring_init st), (@nil rtw_recv_pkt).
  induction ops as [|o ops IH]; intros s xs H; simpl; [done|].
  destruct (rx_run_simulates ctl s xs o H) as [E1 E2].
  destruct (rx_run ctl s o), (fifo_run xs o). simpl in *. subst. f_equal. by apply IH.
Qed.

(** ** The two sides of the receive ring interleaved

    [rtw_phl_query_rx_pkt] takes no lock.  Here the producer
    ([_phl_add_rx_pkt], whose calls are serialized by [rx_ring_lock]) and the
    consumer are threads that make one shared access per step: the reads of
    the two indices, the accesses of the entry, and the update of the index
    the thread owns.  Shared accesses are sequentially consistent. *)

Inductive prod_pc :=
  | PDone (st : rtw_phl_status)
  | PStart (p : rtw_recv_pkt)
  | PGotW (p : rtw_recv_pkt) (wptr : Z)
  | PGotR (p : rtw_recv_pkt) (wptr rptr : Z)
  | PWrote (p : rtw_recv_pkt) (wptr : Z).

Definition prod_step (ring : rtw_phl_rx_ring) (pc : prod_pc) : rtw_phl_rx_ring * prod_pc :=
  match pc with
  | PDone st => (ring, PDone st)
  | PStart p => (ring, PGotW p (u16 (phl_idx ring)))
  | PGotW p wptr => (ring, PGotR p wptr (u16 (core_idx ring)))
  | PGotR p wptr rptr =>
    if phl_calc_avail_wptr rptr wptr MAX_PHL_RX_RING_ENTRY_NUM <=? 0
    then (ring, PDone RTW_PHL_STATUS_RESOURCE)
    else
      let wptr := u16 (wptr + 1) in
      let wptr := if MAX_PHL_RX_RING_ENTRY_NUM <=? wptr then 0 else wptr in
      (RxRing (core_idx ring) (phl_idx ring) (<[Z.to_nat wptr := Some p]> (entry ring)),
       PWrote p wptr)
  | PWrote p wptr =>
    (RxRing (core_idx ring) (if negb (wptr =? 0) then phl_idx ring + 1 else 0) (entry ring),
     PDone RTW_PHL_STATUS_SUCCESS)
  end.

Inductive cons_pc :=
  | CDone (r : option rtw_recv_pkt)
  | CStart
  | CGotW (wptr : Z)
  | CGotR (wptr rptr : Z)
  | CTook (rptr : Z) (x : option rtw_recv_pkt)
  | CCleared (rptr : Z) (x : option rtw_recv_pkt).

(** In the branch that wraps, [rptr] is 0 and the index is set; otherwise it
    is incremented. *)
Definition cons_step (ring : rtw_phl_rx_ring) (pc : cons_pc) : rtw_phl_rx_ring * cons_pc :=
  match pc with
  | CDone r => (ring, CDone r)
  | CStart => (ring, CGotW (u16 (phl_idx ring)))
  | CGotW wptr => (ring, CGotR wptr (u16 (core_idx ring)))
  | CGotR wptr rptr =>
    if 0 <? phl_calc_avail_rptr rptr wptr MAX_PHL_RX_RING_ENTRY_NUM then
      let rptr := u16 (rptr + 1) in
      let rptr := if MAX_PHL_RX_RING_ENTRY_NUM <=? rptr then 0 else rptr in
      (ring, CTook rptr (nth (Z.to_nat rptr) (entry ring) None))
    else (ring, CDone None)
  | CTook rptr x =>
    (RxRing (core_idx ring) (phl_idx ring) (<[Z.to_nat rptr := None]> (entry ring)),
     CCleared rptr x)
  | CCleared rptr x =>
    (RxRing (if rptr =? 0 then 0 else core_idx ring + 1) (phl_idx ring) (entry ring), CDone x)
  end.

(** Both threads, the packets whose addition was published and the values the
    consumer took out of the ring. *)
Record rx_sys := RxSys {
  y_ring : rtw_phl_rx_ring; y_prod : prod_pc; y_cons : cons_pc;
  y_in : list rtw_recv_pkt; y_out : list (option rtw_recv_pkt)
}.

Inductive rx_sys_step : rx_sys -> rx_sys -> Prop :=
  | sys_call_add ring st p c i o :
      rx_sys_step (RxSys ring (PDone st) c i o) (RxSys ring (PStart p) c i o)
  | sys_call_query ring r p i o :
      rx_sys_step (RxSys ring p (CDone r) i o) (RxSys ring p CStart i o)
  | sys_prod ring p c i o ring' p' :
      prod_step ring p = (ring', p') ->
      rx_sys_step (RxSys ring p c i o)
        (RxSys ring' p' c (match p with PWrote x _ => i ++ [x] | _ => i end) o)
  | sys_cons ring p c i o ring' c' :
      cons_step ring c = (ring', c') ->
      rx_sys_step (RxSys ring p c i o)
        (RxSys ring' p c' i (match c with CCleared _ x => o ++ [x] | _ => o end)).

Definition rx_sys_init : rx_sys :=
  RxSys (RxRing 0 0 (replicate (Z.to_nat MAX_PHL_RX_RING_ENTRY_NUM) None))
    (PDone RTW_PHL_STATUS_SUCCESS) (CDone None) [] [].

(** What a thread knows between its accesses, with [n] packets in the ring. *)
Definition prod_inv (ring : rtw_phl_rx_ring) (n : nat) (pc : prod_pc) : Prop :=
  match pc with
  | PDone _ | PStart _ => True
  | PGotW _ w => w = phl_idx ring
  | PGotR _ w r => w = phl_idx ring /\ 0 <= r < 4096 /\ Z.of_nat n <= (w - r) mod 4096
  | PWrote p w => w = (phl_idx ring + 1) mod 4096 /\ (n < 4095)%nat /\
                  entry ring !! slot (phl_idx ring + 1) = Some (Some p)
  end.

Definition cons_inv (ring : rtw_phl_rx_ring) (xs : list rtw_recv_pkt) (pc : cons_pc) : Prop :=
  match pc with
  | CDone _ | CStart => True
  | CGotW w => 0 <= w < 4096 /\ (w - core_idx ring) mod 4096 <= Z.of_nat (length xs)
  | CGotR w r => r = core_idx ring /\ 0 <= w < 4096 /\ (w - r) mod 4096 <= Z.of_nat (length xs)
  | CTook r x | CCleared r x => r = (core_idx ring + 1) mod 4096 /\ x = head xs /\ xs <> []
  end.

(** The first queued packet whose slot still holds it. *)
Definition cons_skip (pc : cons_pc) : nat := match pc with CCleared _ _ => 1 | _ => 0 end.

Definition sys_inv (s : rx_sys) : Prop :=
  exists xs,
    let ring := y_ring s in
    (0 <= core_idx ring < 4096) /\ (0 <= phl_idx ring < 4096) /\
    length (entry ring) = Z.to_nat 4096 /\
    Z.of_nat (length xs) = (phl_idx ring - core_idx ring) mod 4096 /\
    (forall k x, (cons_skip (y_cons s) <= k)%nat -> xs !! k = Some x ->
       entry ring !! slot (core_idx ring + 1 + Z.of_nat k) = Some (Some x)) /\
    map Some (y_in s) = y_out s ++ map Some xs /\
    prod_inv ring (length xs) (y_prod s) /\ cons_inv ring xs (y_cons s).

Lemma avail_wptr_mod r w : 0 <= r < 4096 -> 0 <= w < 4096 ->
  phl_calc_avail_wptr r w 4096 = 4095 - (w - r) mod 4096.
Proof. intros. unfold phl_calc_avail_wptr. ifs; ulia. Qed.

Lemma avail_rptr_mod r w : 0 <= r < 4096 -> 0 <= w < 4096 ->
  phl_calc_avail_rptr r w 4096 = (w - r) mod 4096.
Proof. intros. unfold phl_calc_avail_rptr. ifs; ulia. Qed.

Lemma step_prod_inv ring p c i o ring' p' :
  prod_step ring p = (ring', p') -> sys_inv (RxSys ring p c i o) ->
  sys_inv (RxSys ring' p' c (match p with PWrote x _ => i ++ [x] | _ => i end) o).
Proof.
  unfold sys_inv. simpl. intros Hs (xs&Hr&Hw&Hl&Hn&Hk&Hio&Hp&Hc).
  destruct p as [st|p|p w|p w r|p w]; simpl in Hs, Hp.
  - injection Hs as <- <-. exists xs. split_and!; try done; lia.
  - injection Hs as <- <-. exists xs. split_and!; try done; try lia. simpl. ulia.
  - injection Hs as <- <-. subst w. exists xs. split_and!; try done; try lia. simpl.
    rewrite u16_small by (unfold is_u16; lia). split_and!; try done; lia.
  - destruct Hp as (->&Hr'&Hle). unfold MAX_PHL_RX_RING_ENTRY_NUM in Hs.
    rewrite avail_wptr_mod in Hs by lia.
    destruct (4095 - (phl_idx ring - r) mod 4096 <=? 0) eqn:Hf; injection Hs as <- <-.
    + exists xs. split_and!; try done; lia.
    + apply Z.leb_gt in Hf. rewrite next_index, slot_mod by lia.
      exists xs. split_and!; simpl; try done; try lia.
      * by rewrite length_insert.
      * intros k x Hkk Hx. pose proof (lookup_lt_Some _ _ _ Hx).
        rewrite list_lookup_insert_ne; [by apply Hk|].
        intros Hsl. apply slot_inj in Hsl. zlia.
      * split_and!; [done|lia|]. rewrite list_lookup_insert_eq; [done|]. rewrite Hl.
        apply slot_lt.
  - destruct Hp as (->&Hlt&He). injection Hs as <- <-. exists (xs ++ [p]).
    rewrite length_app. simpl.
    replace (if negb ((phl_idx ring + 1) mod 4096 =? 0) then phl_idx ring + 1 else 0)
      with ((phl_idx ring + 1) mod 4096) by (ifs; zlia).
    split_and!; simpl; try done; try lia; try zlia.
    + intros k x Hkk Hx. apply lookup_app_Some in Hx as [Hx|[Hge Hx]]; [by apply Hk|].
      pose proof (lookup_lt_Some _ _ _ Hx) as Hlk. simpl in Hlk.
      replace (k - length xs)%nat with 0%nat in Hx by lia. simplify_eq/=.
      rewrite <- He. f_equal. apply slot_eq. zlia.
    + rewrite !map_app, Hio. by rewrite (assoc_L app).
    + destruct c; simpl in *; try done; rewrite ?length_app; simpl; intuition (try lia).
      all: destruct xs; done.
Qed.

Lemma step_cons_inv ring p c i o ring' c' :
  cons_step ring c = (ring', c') -> sys_inv (RxSys ring p c i o) ->
  sys_inv (RxSys ring' p c' i (match c with CCleared _ x => o ++ [x] | _ => o end)).
Proof.
  unfold sys_inv. simpl. intros Hs (xs&Hr&Hw&Hl&Hn&Hk&Hio&Hp&Hc).
  destruct c as [x| |w|w r|r x|r x]; simpl in Hs, Hc, Hk.
  - injection Hs as <- <-. exists xs. split_and!; try done; lia.
  - injection Hs as <- <-. exists xs. split_and!; try done; try lia. simpl.
    rewrite u16_small by (unfold is_u16; lia). lia.
  - injection Hs as <- <-. exists xs. split_and!; try done; try lia. simpl.
    rewrite u16_small by (unfold is_u16; lia). lia.
  - destruct Hc as (->&Hw'&Hle). unfold MAX_PHL_RX_RING_ENTRY_NUM in Hs.
    rewrite avail_rptr_mod in Hs by lia.
    destruct (0 <? (w - core_idx ring) mod 4096) eqn:Hf; injection Hs as <- <-.
    + apply Z.ltb_lt in Hf. exists xs. rewrite next_index, slot_mod by lia.
      destruct xs as [|x xs]; [simpl in *; lia|].
      assert (entry ring !! slot (core_idx ring + 1) = Some (Some x)) as He.
      { rewrite <- (Hk 0%nat x) by (done || lia). f_equal. f_equal. lia. }
      split_and!; simpl; try done; try lia. split_and!; try done.
      by rewrite nth_lookup, He.
    + exists xs. split_and!; try done; lia.
  - destruct Hc as (->&->&Hne). injection Hs as <- <-. exists xs. rewrite slot_mod.
    destruct xs as [|x xs]; [done|]. simpl in *. split_and!; simpl; try done; try lia.
    + by rewrite length_insert.
    + intros k y Hkk Hy. pose proof (lookup_lt_Some _ _ _ Hy). simpl in *.
      rewrite list_lookup_insert_ne; [apply Hk; [lia|done]|].
      intros Hsl. apply slot_inj in Hsl. zlia.
    + destruct p; simpl in *; try done. destruct Hp as (->&Hlt&He). split_and!; [done|lia|].
      rewrite list_lookup_insert_ne; [done|]. intros Hsl. apply slot_inj in Hsl. zlia.
  - destruct Hc as (->&->&Hne). injection Hs as <- <-.
    destruct xs as [|x xs]; [done|]. exists xs. simpl in *.
    replace (if (core_idx ring + 1) mod 4096 =? 0 then 0 else core_idx ring + 1)
      with ((core_idx ring + 1) mod 4096) by (ifs; zlia).
    split_and!; simpl; try done; try lia; try zlia.
    + intros k y Hkk Hy. pose proof (lookup_lt_Some _ _ _ Hy).
      rewrite <- (Hk (S k) y) by (done || lia). f_equal. apply slot_eq. zlia.
    + by rewrite Hio, <- (assoc_L app).
    + destruct p; simpl in *; try done; intuition lia.
Qed.

Lemma sys_inv_reach s : rtc rx_sys_step rx_sys_init s -> sys_inv s.
Proof.
  intros H. assert (sys_inv rx_sys_init) as H0.
  { exists []. simpl. split_and!; try done; lia. }
  revert H0. induction H as [|s1 s2 s3 Hs _ IH]; [done|]. intros H1. apply IH. clear IH.
  destruct Hs.
  - destruct H1 as (xs&H1). exists xs. simpl in *. intuition.
  - destruct H1 as (xs&?&?&?&?&Hk&?&?&?). exists xs. simpl in *. by intuition.
  - by eapply step_prod_inv.
  - by eapply step_cons_inv.
Qed.

(** Without interference, the producer thread is [_phl_add_rx_pkt] and the
    consumer thread is [rtw_phl_query_rx_pkt]. *)
Definition iter2 {R P} (f : R -> P -> R * P) (n : nat) (x : R * P) : R * P :=
  Nat.iter n (fun y => f (fst y) (snd y)) x.

Lemma prod_thread_is_add s p :
  iter2 prod_step 4 (rx_ring s, PStart p) =
  (rx_ring (snd (_phl_add_rx_pkt s p)), PDone (fst (_phl_add_rx_pkt s p))).
Proof.
  unfold iter2, _phl_add_rx_pkt. cbn -[MAX_PHL_RX_RING_ENTRY_NUM u16 phl_calc_avail_wptr].
  destruct (_ <=? 0); reflexivity.
Qed.

Lemma cons_thread_is_query ctl now s :
  0 <= core_idx (rx_ring s) < 4096 ->
  iter2 cons_step 5 (rx_ring s, CStart) =
  (rx_ring (snd (rtw_phl_query_rx_pkt ctl now s)), CDone (fst (rtw_phl_query_rx_pkt ctl now s))).
Proof.
  intros Hc. unfold iter2, rtw_phl_query_rx_pkt. cbn -[MAX_PHL_RX_RING_ENTRY_NUM u16 phl_calc_avail_rptr].
  destruct (0 <? phl_calc_avail_rptr _ _ _); [|reflexivity]. cbn -[MAX_PHL_RX_RING_ENTRY_NUM u16].
  destruct (MAX_PHL_RX_RING_ENTRY_NUM <=? _) eqn:E.
  - cbn -[u16]. by destruct (nth _ (entry (rx_ring s)) None).
  - assert ((u16 (u16 (core_idx (rx_ring s)) + 1) =? 0) = false) as ->.
    { apply Z.eqb_neq. ulia. }
    cbn -[u16]. by destruct (nth _ (entry (rx_ring s)) None).
Qed.

(** C4. The receive ring needs no common lock: in every interleaving of one
    producer ([_phl_add_rx_pkt], step by step) and one consumer
    ([rtw_phl_query_rx_pkt], step by step), what the consumer took out is, in
    order and without a [NULL], the beginning of what the producer published,
    and the rest (at most 4095 packets) is in the ring. *)
Theorem rx_ring_interleaved_fifo s :
  rtc rx_sys_step rx_sys_init s ->
  exists xs, map Some (y_in s) = y_out s ++ map Some xs /\ (length xs <= 4095)%nat.
Proof.
  intros H. destruct (sys_inv_reach s H) as (xs&?&?&?&Hn&_&Hio&_).
  exists xs. split; [done|zlia].
Qed.

Lemma rx_ring_interleaved_fifo_witness :
  exists s, rtc rx_sys_step rx_sys_init s /\ length (y_out s) = 1%nat /\
  exists xs, map Some (y_in s) = y_out s ++ map Some xs /\ (length xs <= 4095)%nat.
Proof.
  set (pk := RecvPkt 7 (PktInfo 0 0 false false) None 0).
  assert (exists s, rtc rx_sys_step rx_sys_init s /\ length (y_out s) = 1%nat) as (s&H&H1).
  { eexists. split.
    - unfold rx_sys_init. eapply rtc_l; [apply (sys_call_add _ _ pk)|].
      eapply rtc_l; [apply sys_call_query|].
      do 4 (eapply rtc_l; [apply sys_prod; vm_compute; reflexivity|]).
      do 5 (eapply rtc_l; [apply sys_cons; vm_compute; reflexivity|]).
      apply rtc_refl.
    - reflexivity. }
  exists s. split; [done|]. split; [done|]. apply (rx_ring_interleaved_fifo s H).
Defined.

(** ** The transmit rings are queues *)

(** Ring [cat] of the [i]-th ring list holds the queue [Q i cat]; every ring
    list has its ten rings. *)
Definition tx_rep (s : tx_state) (Q : nat -> nat -> list rtw_xmit_req) : Prop :=
  forall i t, t_ring_list s !! i = Some t ->
    length (tl_ring t) = 10%nat /\
    forall c r, tl_ring t !! c = Some r ->
      ring_rep (t_phl_idx r) (t_core_idx r) (t_entry r) (Q i c).

Definition q_append (Q : nat -> nat -> list rtw_xmit_req) (i c : nat) (q : rtw_xmit_req) :
    nat -> nat -> list rtw_xmit_req :=
  fun i' c' => if bool_decide (i' = i /\ c' = c) then Q i' c' ++ [q] else Q i' c'.

Lemma find_tring_spec l k m :
  match find_tring l k m with
  | Some i => (k <= i)%nat /\ exists t, l !! (i - k)%nat = Some t /\ tl_macid t = m
  | None => forall t, In t l -> tl_macid t <> m
  end.
Proof.
  revert k. induction l as [|t l IH]; intros k; simpl; [done|].
  destruct (m =? tl_macid t) eqn:E; simpl.
  - split; [lia|]. exists t. rewrite Nat.sub_diag. split; [done|lia].
  - specialize (IH (S k)). destruct (find_tring l (S k) m) as [i|].
    + destruct IH as (Hi&u&Hu&?). split; [lia|]. exists u.
      replace (i - k)%nat with (S (i - S k)) by lia. done.
    + intros u [->|Hin]; [lia|by apply IH].
Qed.

Lemma select_tx_ring_lookup s q i :
  _phl_select_tx_ring s q = Some i -> is_Some (t_ring_list s !! i).
Proof.
  unfold _phl_select_tx_ring. destruct (use_onetxring s).
  - destruct (t_ring_list s); [done|]. intros [= <-]. by eexists.
  - intros H. pose proof (find_tring_spec (t_ring_list s) 0 (macid (tr_info q))) as Hf.
    rewrite H in Hf. destruct Hf as (_&t&Ht&_). rewrite Nat.sub_0_r in Ht. by eexists.
Qed.

Lemma tx_rep_put s Q i t c r q st more :
  tx_rep s Q -> t_ring_list s !! i = Some t -> tl_ring t !! c = Some r ->
  (length (Q i c) < 4095)%nat ->
  tx_rep (TxState (use_onetxring s) (<[i := upd_ring t c (tx_ring_put r q)]> (t_ring_list s)) st more)
    (q_append Q i c q).
Proof.
  intros H Ht Hr Hlt i' t' Hi'. simpl in Hi'. destruct (H i t Ht) as [H10 Hq].
  assert (i' = i /\ t' = upd_ring t c (tx_ring_put r q) \/ i' <> i /\ t_ring_list s !! i' = Some t')
    as [[-> ->]|[Hne Hi]].
  { destruct (decide (i' = i)) as [->|Hne].
    - rewrite list_lookup_insert_eq in Hi' by (by eapply lookup_lt_Some). left. by simplify_eq.
    - rewrite list_lookup_insert_ne in Hi' by done. by right. }
  - simpl. rewrite length_insert. split; [done|]. intros c' r' Hc'. unfold q_append.
    destruct (decide (c' = c)) as [->|Hne].
    + rewrite list_lookup_insert_eq in Hc' by (by eapply lookup_lt_Some). simplify_eq.
      rewrite bool_decide_true by done. unfold tx_ring_put, MAX_PHL_TX_RING_ENTRY_NUM. simpl.
      rewrite (u16_small (_ mod 4096)) by ulia. apply ring_rep_put; [by apply Hq|done].
    + rewrite list_lookup_insert_ne in Hc' by done. rewrite bool_decide_false by naive_solver.
      by apply Hq.
  - destruct (H i' t' Hi) as [? Hq']. split; [done|]. intros c' r' Hc'. unfold q_append.
    rewrite bool_decide_false by naive_solver. by apply Hq'.
Qed.

(** [rtw_phl_add_tx_req] puts the request at the end of the queue of its
    category in the ring list [_phl_select_tx_ring] picks and changes no other
    queue; it refuses with [RESOURCE] exactly when that queue holds 4095
    requests, and fails when no ring list serves the MAC id. *)
Theorem add_tx_req_enqueues ctl now s Q q :
  tx_rep s Q -> 0 <= tr_cat q < MAX_PHL_RING_CAT_NUM ->
  match _phl_select_tx_ring s q with
  | None => rtw_phl_add_tx_req ctl now s q = (RTW_PHL_STATUS_FAILURE, s)
  | Some i =>
    if (length (Q i (Z.to_nat (tr_cat q))) <? 4095)%nat
    then exists s', rtw_phl_add_tx_req ctl now s q = (RTW_PHL_STATUS_SUCCESS, s') /\
           tx_rep s' (q_append Q i (Z.to_nat (tr_cat q)) q)
    else rtw_phl_add_tx_req ctl now s q = (RTW_PHL_STATUS_RESOURCE, s)
  end.
Proof.
  intros H Hc. unfold MAX_PHL_RING_CAT_NUM in Hc. unfold rtw_phl_add_tx_req.
  destruct (_phl_select_tx_ring s q) as [i|] eqn:Hs; [|done].
  destruct (select_tx_ring_lookup _ _ _ Hs) as [t Ht]. rewrite Ht.
  destruct (H i t Ht) as [H10 Hq].
  destruct (lookup_lt_is_Some_2 (tl_ring t) (Z.to_nat (tr_cat q))) as [r Hr]; [lia|].
  rewrite Hr. specialize (Hq _ _ Hr). destruct (rep_u16 _ _ _ _ Hq) as [-> _].
  unfold MAX_PHL_TX_RING_ENTRY_NUM. rewrite (avail_wptr_len _ _ _ _ Hq).
  destruct (Nat.ltb_spec (length (Q i (Z.to_nat (tr_cat q)))) 4095) as [Hl|Hl].
  - rewrite (proj2 (Z.ltb_lt _ _)) by lia. eexists. split; [done|]. by apply tx_rep_put.
  - rewrite (proj2 (Z.ltb_ge _ _)) by lia. done.
Qed.

(** A state with one ring list whose rings are empty. *)
Definition one_sta_tx (m : Z) (st : all_stats) : tx_state :=
  TxState false
    [TringList m 0 0 0 ((fun c => TxRing (Z.of_nat c) 0 0 0 0
                                    (replicate (Z.to_nat MAX_PHL_TX_RING_ENTRY_NUM) None))
                          <$> seq 0 10)] st 0.

Lemma one_sta_tx_rep m st : tx_rep (one_sta_tx m st) (fun _ _ => []).
Proof.
  intros i t Ht. apply list_elem_of_lookup_2 in Ht. unfold one_sta_tx in Ht.
  apply list_elem_of_singleton in Ht. subst t. split; [done|].
  intros c r Hr. cbn [tl_ring] in Hr. apply list_lookup_fmap_Some in Hr as (k&->&_).
  by apply ring_rep_empty.
Qed.

Definition demo_stats : all_stats :=
  AllStats (RtwStats dir_zero dir_zero 0 0 0 0) ∅.

Definition demo_ctl : macid_ctl_t := MacidCtl [] [] [] [] [] [] [] 0.

Lemma add_tx_req_enqueues_witness :
  let q := XmitReq 1 (PktInfo 100 3 false false) 5 (demo_body RTW_PHL_PKT_TYPE_DATA 5 [1; 2; 3]) in
  exists s', rtw_phl_add_tx_req demo_ctl 0 (one_sta_tx 3 demo_stats) q =
               (RTW_PHL_STATUS_SUCCESS, s') /\
             tx_rep s' (q_append (fun _ _ => []) 0 5 q).
Proof.
  intros q.
  exact (add_tx_req_enqueues demo_ctl 0 (one_sta_tx 3 demo_stats) (fun _ _ => []) q
           (one_sta_tx_rep 3 demo_stats) ltac:(vm_compute; split; congruence)).
Defined.

(** ** The order in which rings are served *)

Definition is_tid1 (s : phl_ring_status) : bool := rs_cat s =? RTW_PHL_RING_CAT_TID1.
Definition is_tid2 (s : phl_ring_status) : bool := rs_cat s =? RTW_PHL_RING_CAT_TID2.
Definition is_other (s : phl_ring_status) : bool := negb (is_tid1 s) && negb (is_tid2 s).

(** The order the code aims at: the background TIDs last, TID 1 behind TID 2,
    and the other rings in front, the highest category first. *)
Definition served (l : list phl_ring_status) : list phl_ring_status :=
  rev (List.filter is_other l) ++ List.filter is_tid2 l ++ List.filter is_tid1 l.

Lemma filter_snoc {A} (f : A -> bool) l x :
  List.filter f (l ++ [x]) = List.filter f l ++ (if f x then [x] else []).
Proof. rewrite List.filter_app. simpl. by destruct (f x). Qed.

Lemma filter_tid1_unique l : NoDup (map rs_cat l) ->
  List.filter is_tid1 l = [] \/ exists y, List.filter is_tid1 l = [y] /\ rs_cat y = 1.
Proof.
  unfold is_tid1, RTW_PHL_RING_CAT_TID1.
  induction l as [|x l IH]; simpl; [by left|]. intros Hnd. apply NoDup_cons in Hnd as [Hx Hnd].
  specialize (IH Hnd). destruct (rs_cat x =? 1) eqn:E; [|done].
  right. exists x. split; [|lia]. f_equal. destruct IH as [->|(y&Hy&Hc)]; [done|].
  exfalso. apply Hx. apply list_elem_of_In. apply in_map_iff. exists y. split; [lia|].
  apply (proj1 (filter_In (fun s => rs_cat s =? 1) y l)). rewrite Hy. by left.
Qed.

Lemma last_not_tid1 l : List.filter is_tid1 l = [] ->
  match last (served l) with Some y => is_tid1 y = false | None => True end.
Proof.
  intros H. destruct (last (served l)) as [y|] eqn:E; [|done].
  assert (In y l) as Hin.
  { apply last_Some in E as [l' E]. assert (In y (served l)) as Hy.
    { rewrite E. apply in_app_iff. right. by left. }
    unfold served in Hy. rewrite !in_app_iff, <- in_rev, !filter_In in Hy. tauto. }
  destruct (is_tid1 y) eqn:E1; [|done]. exfalso.
  assert (In y (List.filter is_tid1 l)) as Hf by (by apply filter_In). by rewrite H in Hf.
Qed.

Lemma served_snoc l x :
  served (l ++ [x]) =
  if is_tid1 x then served l ++ [x]
  else if is_tid2 x
       then rev (List.filter is_other l) ++ List.filter is_tid2 l ++ [x] ++ List.filter is_tid1 l
       else x :: served l.
Proof.
  unfold served. rewrite !filter_snoc. unfold is_other at 2.
  destruct (is_tid1 x) eqn:E1, (is_tid2 x) eqn:E2; simpl; rewrite ?app_nil_r.
  - unfold is_tid1, is_tid2, RTW_PHL_RING_CAT_TID1, RTW_PHL_RING_CAT_TID2 in *. lia.
  - by rewrite <- !(assoc_L app).
  - by rewrite <- !(assoc_L app).
  - by rewrite rev_app_distr.
Qed.

(** Sorting one more status into a served list gives the served list. *)
Lemma sort_served l x plan cat :
  NoDup (map rs_cat l) -> tp_sorted_ring plan = served l ->
  tp_sorted_ring (_phl_sort_ring_by_tid x plan cat) = served (l ++ [x]).
Proof.
  intros Hnd Hp. unfold _phl_sort_ring_by_tid. rewrite Hp, served_snoc.
  change (rs_cat x =? RTW_PHL_RING_CAT_TID1) with (is_tid1 x).
  change (rs_cat x =? RTW_PHL_RING_CAT_TID2) with (is_tid2 x).
  destruct (is_tid1 x); [done|]. destruct (is_tid2 x); [|done].
  destruct (filter_tid1_unique l Hnd) as [H0|(y&Hy&Hc)].
  - pose proof (last_not_tid1 l H0) as Hl. rewrite H0.
    replace (rev (List.filter is_other l) ++ List.filter is_tid2 l ++ [x] ++ [])
      with (served l ++ [x]) by (unfold served; rewrite H0, !app_nil_r; by rewrite (assoc_L app)).
    destruct (last (served l)) as [y|]; [|done]. unfold is_tid1 in Hl. by rewrite Hl.
  - unfold served. rewrite Hy, !(assoc_L app), last_snoc.
    rewrite (proj2 (Z.eqb_eq (rs_cat y) RTW_PHL_RING_CAT_TID1)) by done. simpl.
    rewrite removelast_last. by rewrite <- !(assoc_L app).
Qed.

(** Whether a ring has requests, and its status. *)
Definition ring_busy (r : rtw_phl_tx_ring) : bool :=
  negb (phl_calc_avail_rptr (u16 (t_phl_idx r)) (t_core_idx r) MAX_PHL_TX_RING_ENTRY_NUM =? 0).

Definition ring_sts (t : rtw_phl_tring_list) (r : rtw_phl_tx_ring) : phl_ring_status :=
  RingSts (tl_band t) (tl_wmm t) (tl_port t)
    (phl_calc_avail_rptr (u16 (t_phl_idx r)) (t_core_idx r) MAX_PHL_TX_RING_ENTRY_NUM) (t_cat r).

Definition busy_sts (t : rtw_phl_tring_list) (l : list rtw_phl_tx_ring) : list phl_ring_status :=
  map (ring_sts t) (List.filter ring_busy l).

Lemma check_ring_status_cases free r t :
  if ring_busy r
  then match free with
       | O => fst (fst (_phl_check_ring_status free r t)) = None
       | S f => exists r', _phl_check_ring_status free r t = (Some (ring_sts t r), r', f)
       end
  else _phl_check_ring_status free r t = (None, r, free).
Proof.
  unfold ring_busy, _phl_check_ring_status. destruct (_ =? 0); simpl; [done|].
  destruct free; [done|]. by eexists.
Qed.

(** The plan the loop builds over [rings], from the plan of the rings [pre]. *)
Definition plan_of (t : rtw_phl_tring_list) (pre : list rtw_phl_tx_ring) (p : phl_tx_plan) : Prop :=
  tp_sorted_ring p = served (busy_sts t pre) /\
  tp_has_mgnt p = existsb (fun r => ring_busy r && (t_cat r =? RTW_PHL_RING_CAT_MGNT)) pre /\
  tp_has_hiq p = existsb (fun r => ring_busy r && (t_cat r =? RTW_PHL_RING_CAT_HIQ)) pre.

Lemma sort_flags x plan :
  tp_has_mgnt (_phl_sort_ring_by_tid x plan (rs_cat x)) =
    tp_has_mgnt plan || (rs_cat x =? RTW_PHL_RING_CAT_MGNT) /\
  tp_has_hiq (_phl_sort_ring_by_tid x plan (rs_cat x)) =
    tp_has_hiq plan || (rs_cat x =? RTW_PHL_RING_CAT_HIQ).
Proof.
  unfold _phl_sort_ring_by_tid, RTW_PHL_RING_CAT_TID1, RTW_PHL_RING_CAT_TID2,
    RTW_PHL_RING_CAT_MGNT, RTW_PHL_RING_CAT_HIQ.
  destruct (last (tp_sorted_ring plan)) as [y|].
  all: destruct (tp_has_mgnt plan), (tp_has_hiq plan); ifs; simpl; split; try done; lia.
Qed.

Lemma NoDup_busy_cats t l : NoDup (map t_cat l) -> NoDup (map rs_cat (busy_sts t l)).
Proof.
  unfold busy_sts. rewrite map_map. simpl. induction l as [|r l IH]; simpl; [done|].
  intros Hnd. apply NoDup_cons in Hnd as [Hr Hnd]. specialize (IH Hnd).
  destruct (ring_busy r); simpl; [|done]. apply NoDup_cons. split; [|done].
  rewrite list_elem_of_In in Hr |- *. rewrite in_map_iff in Hr |- *.
  intros (y&Hy&Hin). apply Hr. exists y. apply filter_In in Hin. tauto.
Qed.

Lemma plan_of_snoc t pre r p :
  NoDup (map t_cat pre) -> plan_of t pre p ->
  plan_of t (pre ++ [r])
    (if ring_busy r then _phl_sort_ring_by_tid (ring_sts t r) p (t_cat r) else p).
Proof.
  intros Hnd (Hs&Hm&Hh). unfold plan_of, busy_sts. rewrite filter_snoc, !existsb_app. simpl.
  destruct (ring_busy r); simpl; rewrite ?orb_false_r, ?app_nil_r; [|done].
  pose proof (sort_flags (ring_sts t r) p) as [Em Eh]. simpl in Em, Eh.
  rewrite map_app, Em, Eh, Hm, Hh. simpl. split; [|done].
  apply sort_served; [by apply NoDup_busy_cats|done].
Qed.

Lemma check_rings_plan free t pre rings i plan p rs f :
  NoDup (map t_cat (pre ++ rings)) ->
  (forall k r, rings !! k = Some r -> t_cat r = i + Z.of_nat k) ->
  (length rings <= free)%nat -> plan_of t pre plan ->
  check_rings free t rings i plan = (p, rs, f) ->
  plan_of t (pre ++ rings) p /\ (f = free - length (busy_sts t rings))%nat.
Proof.
  revert free pre i plan p rs f. induction rings as [|r rings IH]; simpl;
    intros free pre i plan p rs f Hnd Hc Hf Hp H.
  - simplify_eq. rewrite app_nil_r. split; [done|]. simpl. lia.
  - pose proof (check_ring_status_cases free r t) as Hst.
    pose proof (Hc 0%nat r eq_refl) as Hr0. rewrite Z.add_0_r in Hr0.
    assert (NoDup (map t_cat pre)) as Hnp.
    { rewrite map_app in Hnd. by apply NoDup_app in Hnd as (?&_). }
    pose proof (plan_of_snoc t pre r plan Hnp Hp) as Hp'. rewrite Hr0 in Hp'. clear Hr0.
    rewrite (cons_middle r pre rings) in Hnd |- *. rewrite (assoc_L app) in Hnd |- *.
    assert (forall k r0, rings !! k = Some r0 -> t_cat r0 = i + 1 + Z.of_nat k) as Hc'.
    { intros k r0 Hk. rewrite (Hc (S k) r0 Hk). lia. }
    destruct (ring_busy r) eqn:Eb.
    + destruct free as [|free]; [lia|]. destruct Hst as [r' Hst]. rewrite Hst in H.
      destruct (check_rings free t rings (i + 1) _) as [[p0 rs0] f0] eqn:E. simplify_eq.
      destruct (IH free (pre ++ [r]) (i + 1) _ _ _ _ Hnd Hc' ltac:(lia) Hp' E) as [Hpl ->].
      split; [done|]. unfold busy_sts. simpl. rewrite Eb. simpl. lia.
    + rewrite Hst in H.
      destruct (check_rings free t rings (i + 1) plan) as [[p0 rs0] f0] eqn:E. simplify_eq.
      destruct (IH free (pre ++ [r]) (i + 1) _ _ _ _ Hnd Hc' ltac:(lia) Hp' E) as [Hpl ->].
      split; [done|]. unfold busy_sts. simpl. by rewrite Eb.
Qed.

(** The rings of a station are indexed by their category. *)
Definition rings_wf (t : rtw_phl_tring_list) : Prop :=
  length (tl_ring t) = Z.to_nat MAX_PHL_RING_CAT_NUM /\
  forall k r, tl_ring t !! k = Some r -> t_cat r = Z.of_nat k.

Lemma rings_wf_cats t : rings_wf t -> map t_cat (tl_ring t) = map Z.of_nat (seq 0 10).
Proof.
  intros [Hl Hc]. apply list_eq. intros k.
  change (map t_cat (tl_ring t)) with (t_cat <$> tl_ring t).
  change (map Z.of_nat (seq 0 10)) with (Z.of_nat <$> seq 0 10).
  rewrite !list_lookup_fmap. destruct (tl_ring t !! k) as [r|] eqn:E.
  - pose proof (Hc k r E) as Hk. apply lookup_lt_Some in E. rewrite Hl in E.
    rewrite lookup_seq_lt by (vm_compute in E; lia). simpl. by rewrite Hk.
  - apply lookup_ge_None in E. rewrite Hl in E.
    rewrite (proj2 (lookup_ge_None (seq 0 10) k)); [done|]. rewrite length_seq. vm_compute in E. lia.
Qed.

Lemma in_served t l s :
  In s (served (busy_sts t l)) <-> exists r, In r l /\ ring_busy r = true /\ s = ring_sts t r.
Proof.
  unfold served, busy_sts. rewrite !in_app_iff, <- in_rev, !filter_In, in_map_iff.
  unfold is_other. setoid_rewrite filter_In.
  destruct (is_tid1 s), (is_tid2 s); simpl; naive_solver.
Qed.

Lemma served_added t l :
  match served (busy_sts t l) with [] => false | _ => true end = existsb ring_busy l.
Proof.
  destruct (existsb ring_busy l) eqn:E.
  - apply existsb_exists in E as (r&Hin&Hb).
    assert (In (ring_sts t r) (served (busy_sts t l))) as Hi by (apply in_served; eauto).
    by destruct (served (busy_sts t l)).
  - destruct (served (busy_sts t l)) as [|s ss] eqn:Es; [done|]. exfalso.
    assert (In s (served (busy_sts t l))) as Hi by (rewrite Es; by left).
    apply in_served in Hi as (r&Hin&Hb&_).
    rewrite (proj2 (existsb_exists ring_busy l)) in E; [done|eauto].
Qed.

(** [_phl_check_tring_list] plans every ring that has requests, and only
    those, once: management, high-queue and the other TIDs in front, TID 2
    behind them and TID 1 last; it flags management and high-queue traffic
    exactly when those rings have requests, consumes one status entry per busy
    ring, and adds the station to the list exactly when some ring is busy. *)
Theorem check_tring_list_plan free t p t' f added :
  rings_wf t -> (10 <= free)%nat ->
  _phl_check_tring_list free t _phl_init_tx_plan = (p, t', f, added) ->
  tp_sorted_ring p = served (busy_sts t (tl_ring t)) /\
  (forall s, In s (tp_sorted_ring p) <-> exists r, In r (tl_ring t) /\ ring_busy r = true /\ s = ring_sts t r) /\
  tp_has_mgnt p = existsb (fun r => ring_busy r && (t_cat r =? RTW_PHL_RING_CAT_MGNT)) (tl_ring t) /\
  tp_has_hiq p = existsb (fun r => ring_busy r && (t_cat r =? RTW_PHL_RING_CAT_HIQ)) (tl_ring t) /\
  (f = free - length (busy_sts t (tl_ring t)))%nat /\
  added = existsb ring_busy (tl_ring t).
Proof.
  intros Hwf Hf H. unfold _phl_check_tring_list in H.
  destruct (check_rings free t (tl_ring t) 0 _phl_init_tx_plan) as [[p0 rs] f0] eqn:E.
  injection H as <- _ <- <-.
  destruct (check_rings_plan free t [] (tl_ring t) 0 _phl_init_tx_plan p0 rs f0) as [(Hs&Hm&Hh) Hff].
  - simpl. rewrite (rings_wf_cats t Hwf). vm_compute. by apply (bool_decide_unpack _).
  - intros k r Hr. by rewrite (proj2 Hwf k r Hr).
  - rewrite (proj1 Hwf). done.
  - done.
  - done.
  - simpl in *. split_and!; try done.
    + intros s. rewrite Hs. apply in_served.
    + rewrite Hs. apply served_added.
Qed.

(** A station with requests on TID 1, TID 2, TID 6 and management. *)
Definition demo_tring : rtw_phl_tring_list :=
  TringList 3 0 0 0
    ((fun c => TxRing (Z.of_nat c) 0 (if bool_decide (c ∈ [1; 2; 6; 8]%nat) then 2 else 0) 0 0 [])
       <$> seq 0 10).

Lemma check_tring_list_plan_witness :
  map rs_cat (tp_sorted_ring (fst (fst (fst (_phl_check_tring_list 20 demo_tring _phl_init_tx_plan)))))
  = [8; 6; 2; 1].
Proof.
  destruct (_phl_check_tring_list 20 demo_tring _phl_init_tx_plan) as [[[p t'] f] a] eqn:E.
  destruct (check_tring_list_plan 20 demo_tring p t' f a) as (Hs&_).
  - split; [done|]. intros k r Hr. unfold demo_tring in Hr. cbn [tl_ring] in Hr.
    apply list_lookup_fmap_Some in Hr as (c&->&Hc). apply lookup_seq in Hc as [-> _]. done.
  - lia.
  - exact E.
  - cbn [fst]. rewrite Hs. reflexivity.
Defined.
