(* ===== verification/TxUsb.v ===== *)
(** * USB transmission

    The transmit side of src/phl/hci/phl_trx_usb.c for the Linux build, in
    which CONFIG_PHL_USB_TX_AGGREGATION, RTW_WKARD_USB_TXAGG_BULK_END_WD and
    RTW_WKARD_WPOFFSET are defined and CONFIG_PHL_USB_TX_PADDING_CHK is not:
    the pools of transfer buffers, flow control, the copy of a request into a
    buffer and the aggregation of the requests of a ring into one bulk transfer.
    Buffers are lists of bytes; an access outside a buffer is a fault ([None]).
    The HAL is an instance of [TxHal]. *)
From Stdlib Require Import ZArith Lia Bool List.
From stdpp Require Import base tactics list numbers gmap.
From S2P Require Import Prelude Macid TrxStats TxDesc TrxRing.

(** ** Transfer buffers *)

(** [struct phl_usb_buf] with an identity; the length of the data is [buf_len]. *)
Record phl_usb_buf := UsbBuf { ub_id : Z; ub_type : rtw_packet_type; ub_buffer : list Z }.

(** [struct phl_queue] of buffers. *)
Record usb_queue := UsbQueue { uq_list : list phl_usb_buf; uq_cnt : Z }.

(** [struct phl_usb_tx_buf_resource] *)
Record phl_usb_tx_buf_resource := UsbRes {
  idle_txbuf_list : usb_queue; mgmt_txbuf_list : usb_queue; h2c_txbuf_list : usb_queue
}.

Inductive buf_pos := pos_first | pos_tail.

Definition enqueue_usb_buf (q : usb_queue) (b : option phl_usb_buf) (pos : buf_pos) :
    rtw_phl_status * usb_queue :=
  match b with
  | None => (RTW_PHL_STATUS_FAILURE, q)
  | Some b =>
    (RTW_PHL_STATUS_SUCCESS,
     UsbQueue (match pos with pos_tail => uq_list q ++ [b] | pos_first => b :: uq_list q end)
       (uq_cnt q + 1))
  end.

Definition dequeue_usb_buf (q : usb_queue) : option phl_usb_buf * usb_queue :=
  match uq_list q with
  | [] => (None, q)
  | b :: r => (Some b, UsbQueue r (uq_cnt q - 1))
  end.

(** The result also says whether the H2C packet in the buffer goes back to the
    pool of idle H2C packets. *)
Definition phl_tx_release_buf_usb (res : phl_usb_tx_buf_resource) (b : phl_usb_buf) :
    rtw_phl_status * phl_usb_tx_buf_resource * bool :=
  match ub_type b with
  | RTW_PHL_PKT_TYPE_H2C =>
    let '(st, q) := enqueue_usb_buf (h2c_txbuf_list res) (Some (UsbBuf (ub_id b) (ub_type b) [])) pos_tail in
    (st, UsbRes (idle_txbuf_list res) (mgmt_txbuf_list res) q, true)
  | RTW_PHL_PKT_TYPE_MGNT =>
    let '(st, q) := enqueue_usb_buf (mgmt_txbuf_list res) (Some b) pos_tail in
    (st, UsbRes (idle_txbuf_list res) q (h2c_txbuf_list res), false)
  | _ =>
    let '(st, q) := enqueue_usb_buf (idle_txbuf_list res) (Some b) pos_tail in
    (st, UsbRes q (mgmt_txbuf_list res) (h2c_txbuf_list res), false)
  end.

(** The buffer for a ring of category [cat]; without one the status entry goes
    back to its pool of [free] entries. *)
Definition _phl_tx_flow_ctrl_usb (res : phl_usb_tx_buf_resource) (cat : Z) (free : nat) :
    option phl_usb_buf * phl_usb_tx_buf_resource * nat :=
  let '(b, res') :=
    if cat =? RTW_PHL_RING_CAT_MGNT
    then let '(b, q) := dequeue_usb_buf (mgmt_txbuf_list res) in
         (b, UsbRes (idle_txbuf_list res) q (h2c_txbuf_list res))
    else let '(b, q) := dequeue_usb_buf (idle_txbuf_list res) in
         (b, UsbRes q (mgmt_txbuf_list res) (h2c_txbuf_list res)) in
  (b, res', match b with None => S free | Some _ => free end).

(** ** Copying a request *)

(** [_os_mem_cpy] into a buffer. *)
Definition write_at (buf : list Z) (off : Z) (d : list Z) : option (list Z) :=
  if (0 <=? off) && (off + Z.of_nat (length d) <=? Z.of_nat (length buf))
  then Some (take (Z.to_nat off) buf ++ d ++ drop (Z.to_nat off + length d) buf)
  else None.

(** [_ALIGN] on unsigned 32-bit values. *)
Definition _ALIGN (len align : Z) : Z :=
  u32 (Z.land (u32 (len + align - 1)) (Z.lnot (align - 1))).

Definition PKT_OFFSET_DUMMY : Z := 8.

(** The loop over the fragments: the bytes written so far and [packet_len]. *)
Fixpoint copy_pkts (pkts : list (option (list Z))) (buf : list Z) (off plen : Z) :
    option (list Z * Z) :=
  match pkts with
  | [] => Some (buf, plen)
  | None :: r => copy_pkts r buf off plen
  | Some d :: r =>
    buf' ← write_at buf off d;
    copy_pkts r buf' (off + Z.of_nat (length d)) (u32 (plen + Z.of_nat (length d)))
  end.

(** Which recycle callbacks the core registered. *)
Record evt_ops := EvtOps { has_tx_recycle : bool; has_tx_test_recycle : bool }.

Definition recycles (ops : evt_ops) (t : rtw_treq_type) : bool :=
  match t with
  | RTW_PHL_TREQ_TYPE_TEST_PATTERN => has_tx_test_recycle ops
  | RTW_PHL_TREQ_TYPE_NORMAL => has_tx_recycle ops
  | RTW_PHL_TREQ_TYPE_MAX => false
  end.

(** The result: the status, the request as the call leaves it, the buffer, the
    packet length and whether the request was handed back to the core. *)
Definition _phl_prepare_tx_usb {H} {hal : TxHal H} (h : H) (ops : evt_ops) (b : tx_body)
    (buf : list Z) (off packet_len : Z) :
    option (rtw_phl_status * tx_body * list Z * Z * bool) :=
  let recycled := recycles ops (xb_treq_type b) in
  match hal_fill_wd h (xb_mdata b) with
  | WdFault => None
  | WdError _ => Some (RTW_PHL_STATUS_FAILURE, b, buf, packet_len, recycled)
  | WdBuilt md wd =>
    let b' := TxBody (xb_treq_type b) md (xb_total_len b) (xb_pkt_list b) in
    let wd_len := hal_get_wd_len (xb_mdata b) in
    let dummy := if md_usb_pkt_ofst md =? 1 then PKT_OFFSET_DUMMY else 0 in
    buf ← write_at buf off (wd_bytes wd);
    let off := off + wd_len + dummy in
    let packet_len := u32 (packet_len + wd_len + dummy) in
    '(buf, plen) ← copy_pkts (xb_pkt_list b) buf off packet_len;
    Some (RTW_PHL_STATUS_SUCCESS, b', buf, plen, recycled)
  end.

(** ** Aggregation *)

(** [GET_SHIFT_OFFSET] *)
Definition GET_SHIFT_OFFSET (bulk_size : Z) : Z :=
  if bulk_size =? 1024 then 10 else if bulk_size =? 512 then 9 else 6.

(** The local variables of [_phl_handle_xmit_ring_usb]; [xl_off] is
    [tx_buf_data - tx_buf->buffer], [xl_back] the requests handed back. *)
Record xmit_loc := XmitLoc {
  xl_ring : rtw_phl_tx_ring; xl_buf : list Z; xl_off : Z; xl_packet_len : Z; xl_tx_len : Z;
  xl_agg_cnt : Z; xl_trasc_agg_cnt : Z; xl_trasc_idx : Z; xl_type : rtw_packet_type;
  xl_status : rtw_phl_status; xl_back : list rtw_xmit_req
}.

Definition set_entry (r : rtw_phl_tx_ring) (i : nat) (q : rtw_xmit_req) : rtw_phl_tx_ring :=
  TxRing (t_cat r) (t_dma_ch r) (t_core_idx r) (t_phl_idx r) (t_phl_next_idx r)
    (<[i := Some q]> (t_entry r)).

Definition set_phl_idx (r : rtw_phl_tx_ring) (i : Z) : rtw_phl_tx_ring :=
  TxRing (t_cat r) (t_dma_ch r) (t_core_idx r) i (t_phl_next_idx r) (t_entry r).

Definition set_next_idx (r : rtw_phl_tx_ring) (i : Z) : rtw_phl_tx_ring :=
  TxRing (t_cat r) (t_dma_ch r) (t_core_idx r) (t_phl_idx r) i (t_entry r).

Definition with_body (q : rtw_xmit_req) (b : tx_body) : rtw_xmit_req :=
  XmitReq (tr_id q) (tr_info q) (tr_cat q) b.

Definition is_data (t : rtw_packet_type) : bool := bool_decide (t = RTW_PHL_PKT_TYPE_DATA).

(** The metadata the loop stores in a request before anything else. *)
Definition stamp (rs : phl_ring_status) (r : rtw_phl_tx_ring) (b : tx_body) : tx_body :=
  TxBody (xb_treq_type b)
    (set_tx_ctrl (rs_band rs) (rs_wmm rs) (rs_port rs) (t_dma_ch r) (u16 (xb_total_len b)) 2 (xb_mdata b))
    (xb_total_len b) (xb_pkt_list b).

Section Xmit.
Context {H : Type} {hal : TxHal H}.
Context (h : H) (ops : evt_ops) (rs : phl_ring_status) (tx_buf_size bulk_size : Z).

(** After a successful copy: [true] when the loop goes on. *)
Definition after_copy (rptr : Z) (more : bool) (x : xmit_loc) : xmit_loc * bool :=
  let ring := set_phl_idx (xl_ring x) rptr in
  let agg_cnt := u8 (xl_agg_cnt x + 1) in
  let trasc_agg_cnt := u8 (xl_trasc_agg_cnt x + 1) in
  if negb (is_data (xl_type x)) then
    (XmitLoc ring (xl_buf x) (xl_off x) (xl_packet_len x) (xl_tx_len x) agg_cnt trasc_agg_cnt
       (xl_trasc_idx x) (xl_type x) (xl_status x) (xl_back x), false)
  else
    let tr := Z.shiftr (xl_tx_len x) (GET_SHIFT_OFFSET bulk_size) in
    let '(trasc_idx, trasc_agg_cnt) :=
      if negb (xl_trasc_idx x =? tr) then (u8 tr, 0) else (xl_trasc_idx x, trasc_agg_cnt) in
    let limit := (hal_get_max_bulkout_wd_num h <=? trasc_agg_cnt) ||
                 (agg_cnt =? hal_get_max_dma_txagg_msk h) in
    let ring :=
      if negb limit && more then
        let next_idx := u16 (rptr + 1) in
        if MAX_PHL_TX_RING_ENTRY_NUM <=? next_idx then set_next_idx ring 0
        else set_next_idx ring (t_phl_next_idx ring + 1)
      else ring in
    (XmitLoc ring (xl_buf x) (xl_off x) (xl_packet_len x) (xl_tx_len x) agg_cnt trasc_agg_cnt
       trasc_idx (xl_type x) (xl_status x) (xl_back x), negb limit).

(** The padding before a data frame; [None] stops the aggregate because the
    descriptor would end on a bulk boundary. *)
Definition pad_data (wd_len : Z) (x : xmit_loc) : option (Z * Z) :=
  let packet_align_len := _ALIGN (xl_packet_len x) 8 in
  let off := xl_off x + packet_align_len in
  let check_len := u32 (xl_tx_len x + wd_len + packet_align_len - xl_packet_len x) in
  if negb (xl_tx_len x =? 0) && (check_len mod bulk_size =? 0) then None
  else Some (off, if xl_packet_len x <? packet_align_len
                  then u32 (xl_tx_len x + (packet_align_len - xl_packet_len x)) else xl_tx_len x).

(** The copy of request [q] to offset [off] and what follows it; [go_on] is the
    rest of the loop, [more] tells that [req_busy] is not zero yet. *)
Definition copy_req (go_on : xmit_loc -> option xmit_loc) (more : bool) (rptr : Z) (q : rtw_xmit_req)
    (off tx_len : Z) (x : xmit_loc) : option xmit_loc :=
  '(st, b', buf, packet_len, recycled) ← _phl_prepare_tx_usb h ops (tr_body q) (xl_buf x) off 0;
  let q' := with_body q b' in
  let x := XmitLoc (set_entry (xl_ring x) (Z.to_nat rptr) q') buf off packet_len
             (u32 (tx_len + packet_len)) (xl_agg_cnt x) (xl_trasc_agg_cnt x) (xl_trasc_idx x)
             (xl_type x) st (xl_back x ++ if recycled : bool then [q'] else []) in
  match st with
  | RTW_PHL_STATUS_SUCCESS =>
    let '(x, go) := after_copy rptr more x in
    if go : bool then go_on x else Some x
  | _ =>
    Some (XmitLoc (set_phl_idx (xl_ring x) rptr) (xl_buf x) (xl_off x) (xl_packet_len x)
            (xl_tx_len x) (xl_agg_cnt x) (xl_trasc_agg_cnt x) (xl_trasc_idx x) (xl_type x)
            (xl_status x) (xl_back x))
  end.

(** The [while] loop; the argument is [ring_sts->req_busy]. *)
Fixpoint xmit_loop (req_busy : nat) (x : xmit_loc) : option xmit_loc :=
  match req_busy with
  | O => Some x
  | S busy =>
    let ring := xl_ring x in
    let rptr := u16 (t_phl_next_idx ring) in
    match t_entry ring !! Z.to_nat rptr with
    | None => None
    | Some None => Some x
    | Some (Some q) =>
      let q := with_body q (stamp rs ring (tr_body q)) in
      let ring := set_entry ring (Z.to_nat rptr) q in
      let b := tr_body q in
      let type := md_type (xb_mdata b) in
      let wd_len := hal_get_wd_len (xb_mdata b) in
      let x := XmitLoc ring (xl_buf x) (xl_off x) (xl_packet_len x) (xl_tx_len x) (xl_agg_cnt x)
                 (xl_trasc_agg_cnt x) (xl_trasc_idx x) type (xl_status x) (xl_back x) in
      if tx_buf_size <? u32 (_ALIGN (u32 (wd_len + xb_total_len b)) 8 + xl_tx_len x) then Some x
      else
        match (if is_data type then pad_data wd_len x else Some (xl_off x, xl_tx_len x)) with
        | None => Some x
        | Some (off, tx_len) =>
          copy_req (xmit_loop busy) (negb (busy =? 0)%nat) rptr q off tx_len x
        end
    end
  end.

(** A bulk transfer handed to the USB core. *)
Record urb := Urb { urb_buf : phl_usb_buf; urb_bulk_id : Z; urb_len : Z }.

Record xmit_result := XmitResult {
  xr_status : rtw_phl_status; xr_ring : rtw_phl_tx_ring; xr_res : phl_usb_tx_buf_resource;
  xr_urb : option urb; xr_back : list rtw_xmit_req; xr_free : nat
}.

(** A buffer that was not sent goes back to the pool of the ring's category. *)
Definition return_txbuf (cat : Z) (res : phl_usb_tx_buf_resource) (tx_buf : phl_usb_buf) :
    rtw_phl_status * phl_usb_tx_buf_resource :=
  if cat =? RTW_PHL_RING_CAT_MGNT
  then let '(st, q) := enqueue_usb_buf (mgmt_txbuf_list res) (Some tx_buf) pos_tail in
       (st, UsbRes (idle_txbuf_list res) q (h2c_txbuf_list res))
  else let '(st, q) := enqueue_usb_buf (idle_txbuf_list res) (Some tx_buf) pos_tail in
       (st, UsbRes q (mgmt_txbuf_list res) (h2c_txbuf_list res)).

(** [urb_ok] is the outcome of [os_usb_tx]; [free] counts the idle status
    entries. *)
Definition _phl_handle_xmit_ring_usb (urb_ok : bool) (ring : rtw_phl_tx_ring)
    (res : phl_usb_tx_buf_resource) (tx_buf : phl_usb_buf) (free : nat) : option xmit_result :=
  x ← xmit_loop (Z.to_nat (rs_req_busy rs))
        (XmitLoc ring (ub_buffer tx_buf) 0 0 0 0 0 0 RTW_PHL_PKT_TYPE_DATA RTW_PHL_STATUS_FAILURE []);
  let sent := bool_decide (xl_status x = RTW_PHL_STATUS_SUCCESS) in
  let buf := if sent && (is_data (xl_type x) && (1 <? xl_agg_cnt x))
             then hal_usb_tx_agg_cfg (xl_agg_cnt x) (xl_buf x) else xl_buf x in
  let tx_buf := UsbBuf (ub_id tx_buf) (ub_type tx_buf) buf in
  if sent && urb_ok then
    Some (XmitResult RTW_PHL_STATUS_SUCCESS (xl_ring x) res
            (Some (Urb tx_buf (hal_get_bulkout_id h (t_dma_ch ring) 0) (xl_tx_len x))) (xl_back x) (S free))
  else
    let '(st, res) := return_txbuf (t_cat ring) res tx_buf in
    Some (XmitResult st (xl_ring x) res None (xl_back x) (S free)).

End Xmit.

(** ** Buffers as memory *)

Definition align8 (z : Z) : Z := 8 * ((z + 7) / 8).

Lemma _ALIGN_8 z : 0 <= z < 4294967288 -> _ALIGN z 8 = align8 z.
Proof.
  intros Hz. unfold _ALIGN, align8. rewrite (u32_small (z + 8 - 1)) by (unfold is_u32; lia).
  change (8 - 1) with (Z.ones 3). rewrite <- Z.ldiff_land, Z.ldiff_ones_r by lia.
  rewrite Z.shiftl_mul_pow2, Z.shiftr_div_pow2 by lia. change (2 ^ 3) with 8.
  replace (z + 8 - 1) with (z + 7) by lia. rewrite u32_small by (unfold is_u32; zlia). lia.
Qed.

Definition slice (off : Z) (n : nat) (buf : list Z) : list Z := take n (drop (Z.to_nat off) buf).

Lemma write_at_eq buf off d :
  0 <= off -> off + Z.of_nat (length d) <= Z.of_nat (length buf) ->
  write_at buf off d = Some (take (Z.to_nat off) buf ++ d ++ drop (Z.to_nat off + length d) buf).
Proof. intros. unfold write_at. by rewrite (proj2 (Z.leb_le _ _)), (proj2 (Z.leb_le _ _)) by lia. Qed.

(** A write that stays inside the buffer: what is there afterwards. *)
Lemma write_at_spec buf off d :
  0 <= off -> off + Z.of_nat (length d) <= Z.of_nat (length buf) ->
  exists buf', write_at buf off d = Some buf' /\ length buf' = length buf /\
    slice off (length d) buf' = d /\
    forall o n, 0 <= o -> o + Z.of_nat n <= off -> slice o n buf' = slice o n buf.
Proof.
  intros H0 Hl. rewrite write_at_eq by done. eexists. split; [done|].
  assert (length (take (Z.to_nat off) buf) = Z.to_nat off) as Ht by (rewrite length_take; lia).
  split_and!.
  - rewrite !length_app, length_drop, Ht. lia.
  - unfold slice. rewrite drop_app_length' by done. by rewrite take_app_length.
  - intros o n Ho Hn. unfold slice. rewrite drop_app_le, take_app_le by (rewrite ?length_drop; lia).
    rewrite !skipn_firstn_comm, firstn_firstn. f_equal. lia.
Qed.

Lemma write_at_app buf off a b :
  0 <= off -> off + Z.of_nat (length (a ++ b)) <= Z.of_nat (length buf) ->
  write_at buf off (a ++ b) = (write_at buf off a ≫= fun buf' => write_at buf' (off + Z.of_nat (length a)) b).
Proof.
  intros H0 Hl. pose proof Hl as Hl'. rewrite length_app in Hl'.
  assert (length (take (Z.to_nat off) buf) = Z.to_nat off) as Ht by (rewrite length_take; lia).
  rewrite (write_at_eq buf off (a ++ b)), (write_at_eq buf off a) by lia. cbn [mbind option_bind].
  rewrite write_at_eq by (rewrite ?length_app, ?length_drop; lia). rewrite length_app. f_equal.
  replace (Z.to_nat (off + Z.of_nat (length a))) with (Z.to_nat off + length a)%nat by lia.
  rewrite (assoc_L app (take _ buf) a), take_app_length' by (rewrite length_app; lia).
  rewrite drop_app_ge by (rewrite length_app; lia). rewrite length_app, Ht.
  rewrite drop_drop. rewrite <- !(assoc_L app). do 4 f_equal. lia.
Qed.

(** The bytes of the fragments of a request. *)
Definition payload (b : tx_body) : list Z := concat (omap id (xb_pkt_list b)).

Lemma write_at_nil buf off : 0 <= off <= Z.of_nat (length buf) -> write_at buf off [] = Some buf.
Proof.
  intros Ho. rewrite write_at_eq by (simpl; lia). simpl. by rewrite Nat.add_0_r, take_drop.
Qed.

Lemma copy_pkts_spec pkts buf off plen :
  0 <= off -> off + Z.of_nat (length (concat (omap id pkts))) <= Z.of_nat (length buf) ->
  0 <= plen -> plen + Z.of_nat (length (concat (omap id pkts))) < 4294967296 ->
  copy_pkts pkts buf off plen =
    (write_at buf off (concat (omap id pkts)) ≫= fun buf' =>
     Some (buf', plen + Z.of_nat (length (concat (omap id pkts))))).
Proof.
  revert buf off plen. induction pkts as [|[d|] pkts IH]; intros buf off plen H0 Hl Hp Hu.
  - simpl. rewrite write_at_nil by (simpl in Hl; lia). simpl. by rewrite Z.add_0_r.
  - change (omap id (Some d :: pkts)) with (d :: omap id pkts) in *. cbn [concat] in *.
    rewrite write_at_app by done. rewrite length_app in *. cbn [copy_pkts].
    destruct (write_at_spec buf off d) as (b1&->&Hb1&_); [lia..|]. cbn [mbind option_bind].
    rewrite u32_small by (unfold is_u32; lia). rewrite IH by lia.
    destruct (write_at b1 _ _); simpl; [|done]. do 2 f_equal. lia.
  - change (omap id (None :: pkts)) with (omap id pkts) in *. by apply IH.
Qed.

(** ** One request in the buffer *)

(** The entry after the read index may be rewritten, kept or passed over. *)
Lemma ring_rep_pass {A} r w (e : list (option A)) x y xs :
  ring_rep r w e (x :: xs) -> ring_rep ((r + 1) mod 4096) w (<[slot (r + 1) := y]> e) xs.
Proof.
  intros Hr. destruct (ring_rep_get _ _ _ _ _ Hr) as [_ (H1&H2&H3&H4&H5)].
  rewrite length_insert in H3. split_and!; try lia; [by rewrite length_insert|].
  intros k z Hz. specialize (H5 k z Hz).
  destruct (decide (slot ((r + 1) mod 4096 + 1 + Z.of_nat k) = slot (r + 1))) as [E|Hne].
  - rewrite E, list_lookup_insert_eq in H5 by (rewrite H3; apply slot_lt). done.
  - by rewrite list_lookup_insert_ne in * by done.
Qed.

Lemma ring_rep_rewrite {A} r w (e : list (option A)) x y xs :
  ring_rep r w e (x :: xs) -> ring_rep r w (<[slot (r + 1) := Some y]> e) (y :: xs).
Proof.
  intros Hr. pose proof (ring_rep_len _ _ _ _ Hr) as Hlen. destruct Hr as (H1&H2&H3&H4&H5).
  split_and!; try lia; [by rewrite length_insert|done|].
  intros [|k] z Hz; simplify_eq/=.
  - rewrite Z.add_0_r, list_lookup_insert_eq; [done|]. rewrite H3. apply slot_lt.
  - rewrite list_lookup_insert_ne; [by apply (H5 (S k))|].
    pose proof (lookup_lt_Some _ _ _ Hz). simpl in Hlen. intros E%slot_inj. zlia.
Qed.

(** ** The layout of an aggregate *)

(** Where the next frame starts after the frames [l]: every frame is padded to
    a multiple of eight bytes. *)
Fixpoint offset (l : list (list Z)) : Z :=
  match l with
  | [] => 0
  | i :: r => align8 (Z.of_nat (length i)) + offset r
  end.

(** The frames [l] lie in the buffer one after the other. *)
Definition holds (l : list (list Z)) (buf : list Z) : Prop :=
  forall k img, l !! k = Some img -> slice (offset (take k l)) (length img) buf = img.

(** The bytes used by the frames, without padding behind the last one. *)
Definition agg_end (l : list (list Z)) : Z :=
  match last l with
  | None => 0
  | Some i => offset (removelast l) + Z.of_nat (length i)
  end.

Lemma offset_app l1 l2 : offset (l1 ++ l2) = offset l1 + offset l2.
Proof. induction l1 as [|i l1 IH]; simpl; [done|]. rewrite IH. lia. Qed.

Lemma offset_pos l : 0 <= offset l.
Proof. induction l as [|i l IH]; simpl; [lia|]. unfold align8. zlia. Qed.

Lemma offset_aligned l : offset l mod 8 = 0.
Proof. induction l as [|i l IH]; simpl; [done|]. unfold align8. zlia. Qed.

Lemma agg_end_snoc l i : agg_end (l ++ [i]) = offset l + Z.of_nat (length i).
Proof. unfold agg_end. by rewrite last_snoc, removelast_last. Qed.

(** The next frame starts at the end of the last one, rounded up. *)
Lemma offset_end l : offset l = align8 (agg_end l).
Proof.
  destruct l as [|i l _] using rev_ind; [done|]. rewrite agg_end_snoc, offset_app. simpl.
  pose proof (offset_aligned l). unfold align8 in *. zlia.
Qed.

Lemma offset_take_le k l img :
  l !! k = Some img -> offset (take k l) + Z.of_nat (length img) <= offset l.
Proof.
  intros Hk. rewrite <- (take_drop_middle _ _ _ Hk) at 2. rewrite offset_app. simpl.
  pose proof (offset_pos (drop (S k) l)). unfold align8. zlia.
Qed.

Lemma holds_snoc l img buf buf' :
  holds l buf -> length buf' = length buf -> slice (offset l) (length img) buf' = img ->
  (forall o n, 0 <= o -> o + Z.of_nat n <= offset l -> slice o n buf' = slice o n buf) ->
  holds (l ++ [img]) buf'.
Proof.
  intros Hh Hl Hs Hp k i Hk. apply lookup_app_Some in Hk as [Hk|[Hge Hk]].
  - pose proof (lookup_lt_Some _ _ _ Hk). rewrite take_app_le by lia.
    rewrite Hp; [by apply Hh|apply offset_pos|by apply offset_take_le].
  - pose proof (lookup_lt_Some _ _ _ Hk). simpl in *.
    replace (k - length l)%nat with 0%nat in Hk by lia. simplify_eq/=.
    by rewrite take_app_length' by lia.
Qed.

(** The bulk transaction, of [2 ^ shift] bytes, that a byte belongs to, and the
    number of frames of [l] that start in transaction [t]. *)
Definition transaction (shift z : Z) : Z := z / 2 ^ shift.

Definition wds_in (shift t : Z) (l : list (list Z)) : Z :=
  Z.of_nat (length (List.filter (fun k => transaction shift (offset (take k l)) =? t) (seq 0 (length l)))).

Lemma wds_in_snoc shift t l i :
  wds_in shift t (l ++ [i]) = wds_in shift t l + if transaction shift (offset l) =? t then 1 else 0.
Proof.
  unfold wds_in. rewrite length_app, Nat.add_1_r, seq_S, List.filter_app, length_app, Nat.add_0_l. cbn [List.filter].
  rewrite take_app_length. rewrite (filter_ext_in _ (fun k => transaction shift (offset (take k l)) =? t)).
  - destruct (_ =? t); cbn [length]; lia.
  - intros k Hk%in_seq. by rewrite take_app_le by lia.
Qed.

Lemma transaction_mono shift a b : 0 <= shift -> a <= b -> transaction shift a <= transaction shift b.
Proof. intros Hs H. apply Z.div_le_mono; [lia|done]. Qed.

(** The limit on the descriptors in a transaction.  Behind the first transaction
    the code counts from the second descriptor on. *)
Definition wd_limit (max t : Z) : Z := Z.max 1 max + if 0 <? t then 1 else 0.

(** The counters after the frames [l]: the transaction of the last byte, and
    the descriptors in it. *)
Record wd_count (shift max idx cnt : Z) (l : list (list Z)) : Prop := {
  wc_idx : idx = transaction shift (agg_end l);
  wc_cnt : 0 <= cnt <= Z.of_nat (length l);
  wc_here : wds_in shift idx l <= cnt + if 0 <? idx then 1 else 0;
  wc_above : forall t, idx < t -> wds_in shift t l = 0;
  wc_limit : forall t, wds_in shift t l <= wd_limit max t
}.

Lemma wd_count_snoc shift max idx cnt l i :
  0 <= shift -> wd_count shift max idx cnt l -> 0 <= agg_end l -> l = [] \/ cnt < max ->
  let tr := transaction shift (agg_end (l ++ [i])) in
  wd_count shift max tr (if negb (idx =? tr) then 0 else cnt + 1) (l ++ [i]).
Proof.
  intros Hs [Hi Hc Hh Ha Hl] H0 Hgo tr.
  assert (idx <= transaction shift (offset l) <= tr) as [Hst Hen].
  { split; [rewrite Hi|unfold tr; rewrite agg_end_snoc]; apply transaction_mono; try lia.
    rewrite offset_end. unfold align8. zlia. }
  assert (0 <= idx) as Hp by (rewrite Hi; apply Z.div_pos; lia).
  assert (l = [] -> idx = 0 /\ cnt = 0) as Hnil by (intros ->; split; [done|cbn in Hc; lia]).
  pose proof (Ha (transaction shift (offset l))) as Has. pose proof (Ha tr) as Hat.
  constructor; rewrite ?length_app, ?wds_in_snoc; cbn [length].
  - done.
  - destruct (_ =? tr); cbn [negb]; lia.
  - destruct (Z.eqb_spec idx tr) as [E|E]; cbn [negb].
    + rewrite <- E. destruct (_ =? idx); lia.
    + rewrite Hat, (proj2 (Z.ltb_lt 0 tr)) by lia. destruct (_ =? tr); lia.
  - intros t Ht. rewrite wds_in_snoc, Ha by lia. rewrite (proj2 (Z.eqb_neq _ _)) by lia. done.
  - intros t. rewrite wds_in_snoc. specialize (Hl t). unfold wd_limit in *.
    destruct (Z.eqb_spec (transaction shift (offset l)) t) as [<-|]; [|lia].
    destruct (Z.eq_dec (transaction shift (offset l)) idx) as [E|E]; [|rewrite Has by lia; repeat case_match; lia].
    rewrite E in *. destruct Hgo as [Hn|Hn]; [destruct (Hnil Hn) as [-> ->]|]; repeat case_match; lia.
Qed.

Section XmitProofs.
Context {H : Type} {hal : TxHal H}.
Context (h : H) (ops : evt_ops) (rs : phl_ring_status) (tx_buf_size bulk_size : Z) (dma : Z).

(** The buffer can be filled up to a multiple of eight, the limit on the
    number of descriptors fits the counter. *)
Context (Hsize : 0 < tx_buf_size < 1073741824) (Hsize8 : tx_buf_size mod 8 = 0).
Context (Hlimit : 1 <= hal_get_max_dma_txagg_msk h <= 255).

(** The number of the transaction fits its counter. *)
#[local] Notation shift := (GET_SHIFT_OFFSET bulk_size).
#[local] Notation few_transactions := (tx_buf_size < 256 * 2 ^ shift).

(** The metadata the descriptor of a request is built from. *)
Definition stamped (q : rtw_xmit_req) : rtw_t_meta_data :=
  set_tx_ctrl (rs_band rs) (rs_wmm rs) (rs_port rs) dma (u16 (xb_total_len (tr_body q))) 2
    (xb_mdata (tr_body q)).

(** The bytes of a request on the bus: descriptor and fragments. *)
Definition image (q : rtw_xmit_req) : option (list Z) :=
  match hal_fill_wd h (stamped q) with
  | WdBuilt _ wd => Some (wd_bytes wd ++ payload (tr_body q))
  | _ => None
  end.

(** A data request as the core builds it. *)
Record req_ok (q : rtw_xmit_req) : Prop := {
  rq_data : md_type (xb_mdata (tr_body q)) = RTW_PHL_PKT_TYPE_DATA;
  rq_ofst : md_usb_pkt_ofst (xb_mdata (tr_body q)) <> 1;
  rq_len : xb_total_len (tr_body q) = Z.of_nat (length (payload (tr_body q)));
  rq_max : xb_total_len (tr_body q) < 1073741824;
  rq_fill : hal_fill_wd h (stamped q) <> WdFault
}.

Definition wd_len_of (q : rtw_xmit_req) : Z := hal_get_wd_len (xb_mdata (tr_body q)).

Lemma stamped_len q : hal_get_wd_len (stamped q) = wd_len_of q.
Proof. apply hal_len_ctrl. Qed.

Lemma image_length q img :
  image q = Some img -> Z.of_nat (length img) = wd_len_of q + Z.of_nat (length (payload (tr_body q))).
Proof.
  unfold image. destruct (hal_fill_wd h (stamped q)) eqn:E; try done. intros [= <-].
  apply hal_fill_len in E. rewrite stamped_len in E. rewrite length_app. lia.
Qed.

(** [_phl_prepare_tx_usb] writes the image of the request, or reports that the
    descriptor could not be built; it hands the request back in both cases. *)
Lemma prepare_spec q buf off :
  req_ok q -> 0 <= off ->
  let b := TxBody (xb_treq_type (tr_body q)) (stamped q) (xb_total_len (tr_body q)) (xb_pkt_list (tr_body q)) in
  let rc := recycles ops (xb_treq_type (tr_body q)) in
  match image q with
  | None => _phl_prepare_tx_usb h ops b buf off 0 = Some (RTW_PHL_STATUS_FAILURE, b, buf, 0, rc)
  | Some img =>
    off + Z.of_nat (length img) <= Z.of_nat (length buf) ->
    exists b' buf',
      _phl_prepare_tx_usb h ops b buf off 0 =
        Some (RTW_PHL_STATUS_SUCCESS, b', buf', Z.of_nat (length img), rc) /\
      write_at buf off img = Some buf'
  end.
Proof.
  intros [_ Hof Hlen Hmax Hfl] H0 b rc. unfold image, _phl_prepare_tx_usb.
  change (xb_mdata b) with (stamped q). destruct (hal_fill_wd h (stamped q)) as [md wd|st|] eqn:E; try done.
  intros Hl. pose proof (hal_fill_len _ _ _ _ E) as Hwd. pose proof (hal_fill_ofst _ _ _ _ E) as Ho.
  pose proof (hal_len_range (stamped q)). rewrite length_app in Hl.
  rewrite (proj2 (Z.eqb_neq (md_usb_pkt_ofst md) 1)) by (rewrite Ho; exact Hof).
  destruct (write_at_spec buf off (wd_bytes wd)) as (b1&Hb1&Hlb1&_); [done|lia|].
  rewrite Hb1. cbn [mbind option_bind]. rewrite !Z.add_0_r, Z.add_0_l.
  rewrite u32_small by (unfold is_u32; lia). unfold payload in *.
  change (xb_pkt_list b) with (xb_pkt_list (tr_body q)).
  rewrite copy_pkts_spec by lia. rewrite write_at_app by (rewrite ?length_app; lia).
  rewrite Hb1. cbn [mbind option_bind]. rewrite Hwd.
  destruct (write_at_spec b1 (off + hal_get_wd_len (stamped q)) (concat (omap id (xb_pkt_list (tr_body q)))))
    as (b2&Hb2&_); [lia|lia|].
  rewrite Hb2. cbn [mbind option_bind]. eexists _, b2. split; [|done].
  rewrite length_app. do 3 f_equal. lia.
Qed.

(** ** The loop *)

Context (ring0 : rtw_phl_tx_ring) (Hdma : t_dma_ch ring0 = dma).

(** The ring after [k] requests went out, with [rest] still queued. *)
Record ring_at (k : nat) (rest : list rtw_xmit_req) (r : rtw_phl_tx_ring) : Prop := {
  ra_rep : ring_rep (t_phl_idx r) (t_core_idx r) (t_entry r) rest;
  ra_idx : t_phl_idx r = (t_phl_idx ring0 + Z.of_nat k) mod 4096;
  ra_core : t_core_idx r = t_core_idx ring0;
  ra_dma : t_dma_ch r = dma;
  ra_cat : t_cat r = t_cat ring0
}.

(** The locals when the frames [imgs] are in the buffer. *)
Record loc_at (imgs : list (list Z)) (x : xmit_loc) : Prop := {
  la_buf : Z.of_nat (length (xl_buf x)) = tx_buf_size;
  la_holds : holds imgs (xl_buf x);
  la_len : xl_tx_len x = agg_end imgs;
  la_fit : agg_end imgs <= tx_buf_size;
  la_pos : xl_off x + align8 (xl_packet_len x) = offset imgs;
  la_pad : xl_tx_len x + align8 (xl_packet_len x) - xl_packet_len x = offset imgs;
  la_plen : 0 <= xl_packet_len x <= tx_buf_size;
  la_cnt : xl_agg_cnt x = Z.of_nat (length imgs)
}.

Lemma pad_data_spec imgs x wd_len :
  loc_at imgs x -> 0 <= wd_len <= 48 ->
  pad_data bulk_size wd_len x =
    if negb (agg_end imgs =? 0) && ((offset imgs + wd_len) mod bulk_size =? 0) then None
    else Some (offset imgs, offset imgs).
Proof.
  intros [_ _ Hl Hf Hp Hq Hr _] Hw. unfold pad_data. rewrite !_ALIGN_8 by lia. rewrite Hp, <- Hl.
  replace (xl_tx_len x + wd_len + align8 (xl_packet_len x) - xl_packet_len x)
    with (offset imgs + wd_len) by lia.
  assert (offset imgs <= tx_buf_size + 7) as Ho.
  { rewrite offset_end. unfold align8. zlia. }
  pose proof (offset_pos imgs). rewrite (u32_small (offset imgs + wd_len)) by (unfold is_u32; lia).
  case_match; [done|]. do 2 f_equal. destruct (Z.ltb_spec (xl_packet_len x) (align8 (xl_packet_len x))).
  - rewrite u32_small; [lia|]. unfold is_u32. lia.
  - unfold align8 in *. zlia.
Qed.

(** What the bookkeeping after a copy leaves. *)
Lemma after_copy_spec rptr more x :
  xl_type x = RTW_PHL_PKT_TYPE_DATA -> 0 <= rptr < 4096 -> t_phl_next_idx (xl_ring x) = rptr ->
  exists nx ti tc go,
    after_copy h bulk_size rptr more x =
      (XmitLoc (set_next_idx (set_phl_idx (xl_ring x) rptr) nx) (xl_buf x) (xl_off x) (xl_packet_len x)
         (xl_tx_len x) (u8 (xl_agg_cnt x + 1)) tc ti (xl_type x) (xl_status x) (xl_back x), go) /\
    (ti = u8 (Z.shiftr (xl_tx_len x) shift) \/ ti = Z.shiftr (xl_tx_len x) shift) /\
    (tc = if negb (xl_trasc_idx x =? Z.shiftr (xl_tx_len x) shift) then 0 else u8 (xl_trasc_agg_cnt x + 1)) /\
    (go = true -> u8 (xl_agg_cnt x + 1) <> hal_get_max_dma_txagg_msk h /\
                  tc < hal_get_max_bulkout_wd_num h /\
                  (more = true -> nx = (rptr + 1) mod 4096)).
Proof.
  intros Ht Hr Hn. unfold after_copy, is_data, MAX_PHL_TX_RING_ENTRY_NUM. rewrite Ht. cbn [bool_decide decide_rel negb].
  set (tr := Z.shiftr (xl_tx_len x) shift). set (ti := if negb (xl_trasc_idx x =? tr) then u8 tr else xl_trasc_idx x).
  set (tc := if negb (xl_trasc_idx x =? tr) then 0 else u8 (xl_trasc_agg_cnt x + 1)).
  assert ((if negb (xl_trasc_idx x =? tr) then (u8 tr, 0) else (xl_trasc_idx x, u8 (xl_trasc_agg_cnt x + 1))) = (ti, tc)) as ->
    by (unfold ti, tc; by destruct (negb _)).
  assert (ti = u8 tr \/ ti = tr) as Hti by (unfold ti; destruct (Z.eqb_spec (xl_trasc_idx x) tr); auto).
  destruct (_ || _) eqn:El; cbn [negb andb].
  - exists rptr, ti, tc, false. split_and!; try done. subst rptr. by destruct (xl_ring x).
  - apply orb_false_iff in El as [Em%Z.leb_gt El%Z.eqb_neq]. destruct more.
    + exists ((rptr + 1) mod 4096), ti, tc, true. split_and!; try done. do 2 f_equal. simpl.
      destruct (4096 <=? u16 (rptr + 1)) eqn:E; rewrite ?Hn; f_equal; ulia.
    + exists rptr, ti, tc, true. split_and!; try done. subst rptr. by destruct (xl_ring x).
Qed.

(** Passing over the head of the queue. *)
Lemma ring_at_pass k q rest r y nx :
  ring_at k (q :: rest) r ->
  ring_at (S k) rest
    (set_next_idx (set_phl_idx (set_entry r (slot (t_phl_idx r + 1)) y) ((t_phl_idx r + 1) mod 4096)) nx).
Proof.
  intros [Hr Hi Hc Hd Ht]. constructor; simpl; try done.
  - by eapply ring_rep_pass.
  - rewrite Hi. rewrite Zplus_mod_idemp_l. f_equal. lia.
Qed.

Lemma ring_at_rewrite k q rest r y :
  ring_at k (q :: rest) r -> ring_at k (y :: rest) (set_entry r (slot (t_phl_idx r + 1)) y).
Proof. intros [Hr Hi Hc Hd Ht]. constructor; simpl; try done. by eapply ring_rep_rewrite. Qed.

Definition handed_back (qs : list rtw_xmit_req) : list rtw_xmit_req :=
  List.filter (fun q => recycles ops (xb_treq_type (tr_body q))) qs.

(** How the loop ends on the queue [qs]: the frames [imgs] are in the buffer,
    [err] tells that the descriptor of the request behind them could not be
    built. *)
Record xmit_fin (qs : list rtw_xmit_req) (imgs : list (list Z)) (err : bool) (x : xmit_loc) : Prop := {
  xf_imgs : map image (take (length imgs) qs) = map Some imgs;
  xf_err : err = true -> exists q, qs !! length imgs = Some q /\ image q = None;
  xf_ring : exists rest, ring_at (length imgs + if err then 1 else 0) rest (xl_ring x) /\
    map tr_id rest = map tr_id (drop (length imgs + if err then 1 else 0) qs);
  xf_buf : Z.of_nat (length (xl_buf x)) = tx_buf_size;
  xf_holds : holds imgs (xl_buf x);
  xf_len : err = false -> xl_tx_len x = agg_end imgs;
  xf_fit : agg_end imgs <= tx_buf_size;
  xf_cnt : xl_agg_cnt x = Z.of_nat (length imgs);
  xf_back : map tr_id (xl_back x) =
    map tr_id (handed_back (take (length imgs + if err then 1 else 0) qs));
  xf_status : xl_status x = if err || (length imgs =? 0)%nat then RTW_PHL_STATUS_FAILURE
                            else RTW_PHL_STATUS_SUCCESS;
  xf_type : xl_type x = RTW_PHL_PKT_TYPE_DATA;
  xf_limit : Z.of_nat (length imgs) <= hal_get_max_dma_txagg_msk h;
  xf_bulk : forall k q, (1 <= k < length imgs)%nat -> qs !! k = Some q ->
    (offset (take k imgs) + wd_len_of q) mod bulk_size <> 0;
  xf_wds : few_transactions -> forall t, wds_in shift t imgs <= wd_limit (hal_get_max_bulkout_wd_num h) t
}.

Lemma image_pos q img : image q = Some img -> (0 < length img)%nat.
Proof.
  intros Hi. pose proof (image_length _ _ Hi). pose proof (hal_len_range (xb_mdata (tr_body q))).
  unfold wd_len_of in *. lia.
Qed.

Lemma agg_end_pos qs imgs x : xmit_fin qs imgs false x -> imgs <> [] -> 0 < agg_end imgs.
Proof.
  intros Hf Hne. destruct imgs as [|img imgs _] using rev_ind; [done|].
  rewrite agg_end_snoc. pose proof (offset_pos imgs).
  assert (Some img ∈ map image (take (length (imgs ++ [img])) qs)) as Hin.
  { rewrite (xf_imgs _ _ _ _ Hf), map_app, elem_of_app. right. by constructor. }
  apply list_elem_of_fmap in Hin as (q&Hq&_). symmetry in Hq. apply image_pos in Hq. lia.
Qed.

Lemma handed_back_snoc n qs q :
  qs !! n = Some q ->
  handed_back (take (S n) qs) =
    handed_back (take n qs) ++ if recycles ops (xb_treq_type (tr_body q)) then [q] else [].
Proof.
  intros Hq. unfold handed_back. rewrite (take_S_r _ _ _ Hq), List.filter_app. simpl. done.
Qed.

(** One more frame. *)
Lemma fin_snoc qs imgs x q q' img buf' ring' tc ti :
  xmit_fin qs imgs false x -> loc_at imgs x -> qs !! length imgs = Some q -> image q = Some img ->
  offset imgs + Z.of_nat (length img) <= tx_buf_size ->
  (imgs <> [] -> (offset imgs + wd_len_of q) mod bulk_size <> 0) ->
  Z.of_nat (length imgs) < hal_get_max_dma_txagg_msk h ->
  (few_transactions -> forall t, wds_in shift t (imgs ++ [img]) <= wd_limit (hal_get_max_bulkout_wd_num h) t) ->
  write_at (xl_buf x) (offset imgs) img = Some buf' -> tr_id q' = tr_id q ->
  ring_at (S (length imgs)) (drop (S (length imgs)) qs) ring' ->
  let x' := XmitLoc ring' buf' (offset imgs) (Z.of_nat (length img)) (offset imgs + Z.of_nat (length img))
              (Z.of_nat (length imgs) + 1) tc ti RTW_PHL_PKT_TYPE_DATA RTW_PHL_STATUS_SUCCESS
              (xl_back x ++ if recycles ops (xb_treq_type (tr_body q)) then [q'] else []) in
  xmit_fin qs (imgs ++ [img]) false x' /\ loc_at (imgs ++ [img]) x'.
Proof.
  intros Hf Hl Hq Hi Hfit Hb Hlim Hwd Hw Hid Hr x'. pose proof (offset_pos imgs) as Ho.
  destruct (write_at_spec (xl_buf x) (offset imgs) img) as (b&Eb&Hlb&Hs&Hp);
    [done|rewrite (la_buf _ _ Hl); done|]. rewrite Hw in Eb. injection Eb as <-.
  assert (holds (imgs ++ [img]) buf') as Hh by (eapply holds_snoc; [apply Hl|done..]).
  assert (length (imgs ++ [img]) = S (length imgs)) as Hlen by (rewrite length_app; simpl; lia).
  split; constructor; rewrite ?Hlen, ?agg_end_snoc; simpl xl_buf; simpl xl_ring; simpl; try done; try lia.
  - rewrite (take_S_r _ _ _ Hq), !map_app. rewrite (xf_imgs _ _ _ _ Hf). simpl. by rewrite Hi.
  - exists (drop (S (length imgs)) qs). by rewrite Nat.add_0_r.
  - rewrite Hlb. apply Hl.
  - rewrite Nat.add_0_r, handed_back_snoc with (q := q) by done. rewrite !map_app.
    rewrite (xf_back _ _ _ _ Hf), Nat.add_0_r. f_equal. destruct (recycles ops _); simpl; by rewrite ?Hid.
  - intros k qk Hk Hqk. destruct (decide (k = length imgs)) as [->|Hne].
    + simplify_eq. rewrite take_app_length. apply Hb. intros ->. simpl in Hk. lia.
    + rewrite take_app_le by lia. apply (xf_bulk _ _ _ _ Hf); [lia|done].
  - rewrite Hlb. apply Hl.
  - rewrite offset_app. simpl. lia.
  - rewrite offset_app. simpl. lia.
Qed.

(** Stopping in front of a request, which may have been stamped. *)
Lemma fin_stop qs imgs x r :
  xmit_fin qs imgs false x ->
  (exists rest, ring_at (length imgs) rest r /\ map tr_id rest = map tr_id (drop (length imgs) qs)) ->
  xmit_fin qs imgs false
    (XmitLoc r (xl_buf x) (xl_off x) (xl_packet_len x) (xl_tx_len x) (xl_agg_cnt x)
       (xl_trasc_agg_cnt x) (xl_trasc_idx x) RTW_PHL_PKT_TYPE_DATA (xl_status x) (xl_back x)).
Proof.
  intros [] Hr. constructor; simpl; try done. by rewrite Nat.add_0_r.
Qed.

(** A request whose descriptor could not be built. *)
Lemma fin_err qs imgs x q q' r off plen tlen :
  xmit_fin qs imgs false x -> qs !! length imgs = Some q -> image q = None -> tr_id q' = tr_id q ->
  ring_at (S (length imgs)) (drop (S (length imgs)) qs) r ->
  xmit_fin qs imgs true
    (XmitLoc r (xl_buf x) off plen tlen (xl_agg_cnt x)
       (xl_trasc_agg_cnt x) (xl_trasc_idx x) RTW_PHL_PKT_TYPE_DATA RTW_PHL_STATUS_FAILURE
       (xl_back x ++ if recycles ops (xb_treq_type (tr_body q)) then [q'] else [])).
Proof.
  intros [] Hq Hi Hid Hr. rewrite <- Nat.add_1_r in Hr. constructor; simpl; try done.
  - by exists q.
  - by exists (drop (length imgs + 1) qs).
  - rewrite (Nat.add_1_r (length imgs)), handed_back_snoc with (q := q) by done. rewrite !map_app.
    rewrite Nat.add_0_r in xf_back0. rewrite xf_back0. f_equal. destruct (recycles ops _); simpl; by rewrite ?Hid.
Qed.

Record loop_inv (qs : list rtw_xmit_req) (imgs : list (list Z)) (busy : nat) (x : xmit_loc) : Prop := {
  li_fin : xmit_fin qs imgs false x;
  li_loc : loc_at imgs x;
  li_ring : ring_at (length imgs) (drop (length imgs) qs) (xl_ring x);
  li_next : busy <> 0%nat -> t_phl_next_idx (xl_ring x) = (t_phl_idx (xl_ring x) + 1) mod 4096;
  li_busy : (busy <= length qs - length imgs)%nat;
  li_limit : Z.of_nat (length imgs) < hal_get_max_dma_txagg_msk h;
  li_wds : few_transactions ->
    wd_count shift (hal_get_max_bulkout_wd_num h) (xl_trasc_idx x) (xl_trasc_agg_cnt x) imgs /\
    (imgs = [] \/ xl_trasc_agg_cnt x < hal_get_max_bulkout_wd_num h)
}.

Lemma set_entry_twice r i a b : set_entry (set_entry r i a) i b = set_entry r i b.
Proof. unfold set_entry. simpl. by rewrite list_insert_insert_eq. Qed.

Lemma set_next_same r : set_next_idx r (t_phl_next_idx r) = r.
Proof. by destruct r. Qed.

Definition too_large (q : rtw_xmit_req) : Prop :=
  tx_buf_size < align8 (wd_len_of q + xb_total_len (tr_body q)).

(** The request at the head of the loop. *)
Lemma loop_head qs imgs busy x :
  loop_inv qs imgs (S busy) x ->
  exists q rest,
    qs !! length imgs = Some q /\ drop (length imgs) qs = q :: rest /\
    rest = drop (S (length imgs)) qs /\
    Z.to_nat (u16 (t_phl_next_idx (xl_ring x))) = slot (t_phl_idx (xl_ring x) + 1) /\
    u16 (t_phl_next_idx (xl_ring x)) = (t_phl_idx (xl_ring x) + 1) mod 4096 /\
    t_entry (xl_ring x) !! slot (t_phl_idx (xl_ring x) + 1) = Some (Some q).
Proof.
  intros [_ _ Hr Hn Hb _ _]. specialize (Hn ltac:(done)).
  destruct (lookup_lt_is_Some_2 qs (length imgs)) as [q Hq]; [lia|].
  exists q, (drop (S (length imgs)) qs). rewrite (drop_S _ _ _ Hq) in Hr.
  destruct (ring_rep_get _ _ _ _ _ (ra_rep _ _ _ Hr)) as [He _].
  assert (u16 (t_phl_next_idx (xl_ring x)) = (t_phl_idx (xl_ring x) + 1) mod 4096) as Hu
    by (rewrite Hn; ulia).
  split_and!; try done; [by apply drop_S|by rewrite Hu].
Qed.

Lemma size_check imgs x q :
  loc_at imgs x -> req_ok q ->
  u32 (_ALIGN (u32 (wd_len_of q + xb_total_len (tr_body q))) 8 + xl_tx_len x) =
  align8 (wd_len_of q + xb_total_len (tr_body q)) + agg_end imgs.
Proof.
  intros [_ _ Hl Hf _ _ _ _] [_ _ Hlen Hmax _].
  pose proof (hal_len_range (xb_mdata (tr_body q))) as Hw. fold (wd_len_of q) in Hw.
  assert (0 <= agg_end imgs) as H0.
  { unfold agg_end. destruct (last imgs); [|lia]. pose proof (offset_pos (removelast imgs)). lia. }
  rewrite Hl, (u32_small (wd_len_of q + _)), _ALIGN_8 by (unfold is_u32; lia).
  apply u32_small. unfold is_u32, align8. zlia.
Qed.

(** Passing the size test means that the padded frame fits. *)
Lemma size_fits imgs q img :
  image q = Some img -> req_ok q ->
  align8 (wd_len_of q + xb_total_len (tr_body q)) + agg_end imgs <= tx_buf_size ->
  offset imgs + Z.of_nat (length img) <= tx_buf_size.
Proof.
  intros Hi [_ _ Hlen _ _] Hs. rewrite (image_length _ _ Hi), <- Hlen, offset_end.
  unfold align8 in *. zlia.
Qed.

Lemma u8_next imgs x : loc_at imgs x -> Z.of_nat (length imgs) < hal_get_max_dma_txagg_msk h ->
  u8 (xl_agg_cnt x + 1) = Z.of_nat (length imgs) + 1.
Proof. intros Hl Hm. rewrite (la_cnt _ _ Hl). apply u8_small. unfold is_u8. lia. Qed.

(** The body of a request after the loop stamped it. *)
Definition stamped_body (q : rtw_xmit_req) : tx_body :=
  TxBody (xb_treq_type (tr_body q)) (stamped q) (xb_total_len (tr_body q)) (xb_pkt_list (tr_body q)).

Lemma stamp_eq r q : t_dma_ch r = dma -> stamp rs r (tr_body q) = stamped_body q.
Proof. intros E. unfold stamp, stamped_body, stamped. by rewrite E. Qed.

(** Why no frame was added. *)
Definition stopped (qs : list rtw_xmit_req) (imgs : list (list Z)) (busy : nat) : Prop :=
  busy = 0%nat \/
  exists q, qs !! length imgs = Some q /\
    (tx_buf_size < align8 (wd_len_of q + xb_total_len (tr_body q)) + agg_end imgs \/ imgs <> []).

(** The counters of the transaction after a frame. *)
Lemma count_next imgs x img ti tc :
  few_transactions -> loc_at imgs x -> Z.of_nat (length imgs) < hal_get_max_dma_txagg_msk h ->
  offset imgs + Z.of_nat (length img) <= tx_buf_size ->
  wd_count shift (hal_get_max_bulkout_wd_num h) (xl_trasc_idx x) (xl_trasc_agg_cnt x) imgs ->
  (imgs = [] \/ xl_trasc_agg_cnt x < hal_get_max_bulkout_wd_num h) ->
  ti = u8 (Z.shiftr (offset imgs + Z.of_nat (length img)) shift) \/ ti = Z.shiftr (offset imgs + Z.of_nat (length img)) shift ->
  tc = (if negb (xl_trasc_idx x =? Z.shiftr (offset imgs + Z.of_nat (length img)) shift) then 0 else u8 (xl_trasc_agg_cnt x + 1)) ->
  wd_count shift (hal_get_max_bulkout_wd_num h) ti tc (imgs ++ [img]).
Proof.
  intros Hfew Hl Hm Hfit Hc Hgo Hti Htc. assert (0 <= shift) as Hs by (unfold GET_SHIFT_OFFSET; repeat case_match; lia).
  pose proof (offset_pos imgs) as Ho. rewrite Z.shiftr_div_pow2 in Hti, Htc by done.
  fold (transaction shift (offset imgs + Z.of_nat (length img))) in Hti, Htc. rewrite <- agg_end_snoc in Hti, Htc.
  assert (0 <= agg_end imgs) as H0.
  { unfold agg_end. destruct (last imgs); [|lia]. pose proof (offset_pos (removelast imgs)). lia. }
  pose proof (wd_count_snoc shift _ _ _ imgs img Hs Hc H0 Hgo) as Hn. cbv zeta in Hn. set (tr := transaction _ _) in *.
  assert (is_u8 tr) as Hu.
  { unfold is_u8, tr, transaction. rewrite agg_end_snoc. split; [apply Z.div_pos; lia|]. apply Z.div_lt_upper_bound; [lia|].
    lia. }
  rewrite (u8_small tr) in Hti by done. assert (ti = tr) as -> by (by destruct Hti).
  rewrite Htc, u8_small; [done|]. pose proof (wc_cnt _ _ _ _ _ Hc). unfold is_u8. lia.
Qed.

(** A frame goes into the buffer and the bookkeeping follows. *)
Lemma step_success qs imgs busy x q b1 b2 img buf' :
  loop_inv qs imgs (S busy) x -> qs !! length imgs = Some q -> image q = Some img -> req_ok q ->
  align8 (wd_len_of q + xb_total_len (tr_body q)) + agg_end imgs <= tx_buf_size ->
  (imgs <> [] -> (offset imgs + wd_len_of q) mod bulk_size <> 0) ->
  write_at (xl_buf x) (offset imgs) img = Some buf' ->
  let p := t_phl_idx (xl_ring x) in
  let q' := with_body (with_body q b1) b2 in
  let x1 := XmitLoc (set_entry (set_entry (xl_ring x) (slot (p + 1)) (with_body q b1)) (slot (p + 1)) q')
              buf' (offset imgs) (Z.of_nat (length img)) (u32 (offset imgs + Z.of_nat (length img)))
              (xl_agg_cnt x) (xl_trasc_agg_cnt x) (xl_trasc_idx x) RTW_PHL_PKT_TYPE_DATA
              RTW_PHL_STATUS_SUCCESS
              (xl_back x ++ if recycles ops (xb_treq_type (tr_body q)) then [q'] else []) in
  exists x2 go,
    after_copy h bulk_size ((p + 1) mod 4096) (negb (busy =? 0)%nat) x1 = (x2, go) /\
    xmit_fin qs (imgs ++ [img]) false x2 /\
    (go = true -> loop_inv qs (imgs ++ [img]) busy x2).
Proof.
  intros [Hf Hl Hr Hn Hb Hm Hwd] Hq Hi Hqok Hfit Hbulk Hw p q' x1. specialize (Hn ltac:(done)).
  rewrite (drop_S _ _ _ Hq) in Hr. pose proof (size_fits imgs q img Hi Hqok Hfit) as Hfit'.
  pose proof (offset_pos imgs).
  destruct (after_copy_spec ((p + 1) mod 4096) (negb (busy =? 0)%nat) x1) as (nx&ti&tc&go&E&Hti&Htc&Hgo);
    [done|zlia|done|].
  eexists _, go. split; [exact E|]. unfold x1 in *.
  cbn [xl_ring xl_buf xl_off xl_packet_len xl_tx_len xl_agg_cnt xl_trasc_agg_cnt xl_trasc_idx xl_type xl_status xl_back] in *.
  rewrite (u8_next imgs x) in * by done. rewrite (u32_small (offset imgs + _)) in * by (unfold is_u32; lia).
  assert (few_transactions -> wd_count shift (hal_get_max_bulkout_wd_num h) ti tc (imgs ++ [img])) as Hwd'.
  { intros Hfew. destruct (Hwd Hfew) as [Hc Hm']. by apply (count_next imgs x). }
  rewrite set_entry_twice.
  pose proof (ring_at_pass _ _ _ _ q' nx Hr) as Hr'.
  destruct (fin_snoc qs imgs x q q' img buf' _ tc ti Hf Hl Hq Hi Hfit' Hbulk Hm (fun Hfew => wc_limit _ _ _ _ _ (Hwd' Hfew)) Hw eq_refl Hr') as [Hf2 Hl2].
  split; [exact Hf2|]. intros Hg. destruct (Hgo Hg) as (Hlim&Hlt&Hnx).
  assert (length (imgs ++ [img]) = S (length imgs)) as Hlen by (rewrite length_app; simpl; lia).
  constructor; [exact Hf2|exact Hl2|by rewrite Hlen| |rewrite Hlen; lia|rewrite Hlen; lia|by intros Hfew; split; [apply Hwd'|right]].
  intros Hbz. simpl. rewrite Hnx by (by destruct busy). reflexivity.
Qed.

(** The copy of the request at the head of the loop. *)
Lemma copy_req_spec go_on qs imgs busy x q :
  (forall x', loop_inv qs (imgs ++ [default [] (image q)]) busy x' ->
    exists imgs' err x'', go_on x' = Some x'' /\ xmit_fin qs imgs' err x'' /\
      imgs ++ [default [] (image q)] `prefix_of` imgs') ->
  loop_inv qs imgs (S busy) x -> qs !! length imgs = Some q -> req_ok q ->
  align8 (wd_len_of q + xb_total_len (tr_body q)) + agg_end imgs <= tx_buf_size ->
  (imgs <> [] -> (offset imgs + wd_len_of q) mod bulk_size <> 0) ->
  let p := t_phl_idx (xl_ring x) in
  exists imgs' err x',
    copy_req h ops bulk_size go_on (negb (busy =? 0)%nat) ((p + 1) mod 4096) (with_body q (stamped_body q))
      (offset imgs) (offset imgs)
      (XmitLoc (set_entry (xl_ring x) (slot (p + 1)) (with_body q (stamped_body q))) (xl_buf x) (xl_off x)
         (xl_packet_len x) (xl_tx_len x) (xl_agg_cnt x) (xl_trasc_agg_cnt x) (xl_trasc_idx x)
         RTW_PHL_PKT_TYPE_DATA (xl_status x) (xl_back x)) = Some x' /\
    xmit_fin qs imgs' err x' /\ imgs `prefix_of` imgs' /\ (err = false -> length imgs' <> length imgs).
Proof.
  cbv zeta. intros IH HI Hq Hqok Hfit Hbulk. pose proof HI as [Hf Hl Hr _ _ _ _]. rewrite (drop_S _ _ _ Hq) in Hr.
  unfold copy_req. cbn [xl_buf xl_ring xl_agg_cnt xl_trasc_agg_cnt xl_trasc_idx xl_back xl_type].
  change (tr_body (with_body q (stamped_body q))) with (stamped_body q).
  rewrite slot_mod. pose proof (prepare_spec q (xl_buf x) (offset imgs) Hqok (offset_pos imgs)) as Hprep.
  fold (stamped_body q) in Hprep. cbv zeta in Hprep. destruct (image q) as [img|] eqn:Ei.
  - destruct Hprep as (b'&buf'&->&Hwr).
    { rewrite (la_buf _ _ Hl). by apply (size_fits imgs q). }
    cbn [mbind option_bind].
    destruct (step_success qs imgs busy x q (stamped_body q) b' img buf' HI Hq Ei Hqok Hfit Hbulk Hwr)
      as (x2&go&->&Hf2&Hgo).
    destruct go.
    + destruct (IH _ (Hgo eq_refl)) as (imgs'&err&x'&->&Hf'&Hpre). exists imgs', err, x'. split_and!; try done.
      * etrans; [|exact Hpre]. by exists [img].
      * intros _ Hlen. apply prefix_length in Hpre. rewrite length_app in Hpre. simpl in Hpre. lia.
    + eexists _, false, x2. split_and!; [done|exact Hf2|by exists [img]|].
      intros _ Hlen. rewrite length_app in Hlen. simpl in Hlen. lia.
  - rewrite Hprep. cbn [mbind option_bind xl_ring]. rewrite set_entry_twice.
    exists imgs, true. eexists. split; [done|]. split_and!; [|done|done].
    pose proof (ring_at_pass _ _ _ _ (with_body (with_body q (stamped_body q)) (stamped_body q))
                  (t_phl_next_idx (xl_ring x)) Hr) as Hr'.
    eapply (fin_err qs imgs x q); [done..|exact Hr'].
Qed.

Lemma xmit_loop_spec busy qs imgs x :
  Forall req_ok qs -> loop_inv qs imgs busy x ->
  exists imgs' err x',
    xmit_loop h ops rs tx_buf_size bulk_size busy x = Some x' /\ xmit_fin qs imgs' err x' /\
    imgs `prefix_of` imgs' /\
    (err = false -> length imgs' = length imgs -> stopped qs imgs busy).
Proof.
  intros Hok. revert imgs x. induction busy as [|busy IH]; intros imgs x HI.
  { exists imgs, false, x. split_and!; try done; [apply HI|by left]. }
  destruct (loop_head _ _ _ _ HI) as (q&rest&Hq&Hd&Hrest&Hslot&Hrptr&He).
  pose proof HI as [Hf Hl Hr Hn Hb Hm _]. rewrite Hd in Hr. specialize (Hn ltac:(done)).
  assert (req_ok q) as Hqok by (by eapply Forall_lookup_1).
  cbn [xmit_loop]. rewrite Hrptr, slot_mod, He. cbv zeta.
  rewrite stamp_eq by apply Hr. cbn [tr_body with_body stamped_body xb_mdata xb_total_len].
  rewrite stamped_len. change (md_type (stamped q)) with (md_type (xb_mdata (tr_body q))).
  rewrite (rq_data _ Hqok). cbn [xl_tx_len]. rewrite (size_check imgs x q) by done.
  assert (forall r, r = set_entry (xl_ring x) (slot (t_phl_idx (xl_ring x) + 1)) (with_body q (stamped_body q)) ->
          exists rest, ring_at (length imgs) rest r /\ map tr_id rest = map tr_id (drop (length imgs) qs)) as Hstop.
  { intros r ->. exists (with_body q (stamped_body q) :: rest). split; [by eapply ring_at_rewrite|by rewrite Hd]. }
  destruct (Z.ltb_spec tx_buf_size (align8 (wd_len_of q + xb_total_len (tr_body q)) + agg_end imgs)) as [Hbig|Hfit].
  { eexists imgs, false, _. split_and!; [done|by apply fin_stop; [done|apply Hstop]|done|].
    intros _ _. right. exists q. split; [done|by left]. }
  cbn [is_data bool_decide decide_rel]. pose proof (hal_len_range (xb_mdata (tr_body q))) as Hw.
  change (is_data RTW_PHL_PKT_TYPE_DATA) with true. cbv iota.
  match goal with |- context [pad_data bulk_size _ ?y] =>
    assert (loc_at imgs y) as Hl' by (destruct Hl; by constructor);
    rewrite (pad_data_spec imgs y) by (done || (unfold wd_len_of; lia)) end.
  destruct (negb (agg_end imgs =? 0) && _) eqn:Ebulk.
  { eexists imgs, false, _. split_and!; [done|by apply fin_stop; [done|apply Hstop]|done|].
    intros _ _. right. exists q. split; [done|right]. intros ->. done. }
  assert (imgs <> [] -> (offset imgs + wd_len_of q) mod bulk_size <> 0) as Hbulk.
  { intros Hne. pose proof (agg_end_pos _ _ _ Hf Hne). lia. }
  destruct (copy_req_spec (xmit_loop h ops rs tx_buf_size bulk_size busy) qs imgs busy x q)
    as (imgs'&err&x'&->&Hf'&Hpre&Hlen); try done.
  { intros y Hy. destruct (IH _ _ Hy) as (imgs'&err&y'&?&?&?&_). by exists imgs', err, y'. }
  exists imgs', err, x'. split_and!; try done. intros E0 E1. by destruct (Hlen E0).
Qed.

(** The frames as they leave: the first descriptor of an aggregate carries the
    number of frames. *)
Definition sent_frames (imgs : list (list Z)) : list (list Z) :=
  match imgs with
  | i :: j :: r => hal_usb_tx_agg_cfg (Z.of_nat (length imgs)) i :: j :: r
  | _ => imgs
  end.

Lemma agg_cfg_holds n i l buf :
  (8 <= length i)%nat -> holds (i :: l) buf ->
  holds (hal_usb_tx_agg_cfg n i :: l) (hal_usb_tx_agg_cfg n buf) /\
  length (hal_usb_tx_agg_cfg n buf) = length buf.
Proof.
  intros H8 Hh. pose proof (Hh 0%nat i eq_refl) as H0. unfold slice in H0. simpl in H0.
  assert (buf = i ++ drop (length i) buf) as Eb by (rewrite <- H0 at 1; by rewrite take_drop).
  rewrite Eb at 1 2. rewrite hal_agg_local by done. pose proof (hal_agg_len n i H8) as Hl.
  split; [|rewrite length_app, Hl, <- length_app, <- Eb; done].
  intros [|k] img Hk; simplify_eq/=.
  - unfold slice. change (drop (Z.to_nat 0) ?l) with l. by rewrite take_app_length.
  - rewrite Hl. pose proof (Hh (S k) img Hk) as Hs. simpl in Hs. unfold slice in *.
    set (o := align8 (Z.of_nat (length i)) + offset (take k l)) in *.
    assert (Z.of_nat (length i) <= o) as Ho.
    { unfold o, align8. pose proof (offset_pos (take k l)). zlia. }
    rewrite drop_app_ge by (rewrite Hl; lia). rewrite drop_drop, Hl.
    rewrite <- Hs at 2. do 2 f_equal. lia.
Qed.

Lemma sent_frames_hold qs imgs err x :
  xmit_fin qs imgs err x ->
  holds (sent_frames imgs)
    (if 1 <? Z.of_nat (length imgs) then hal_usb_tx_agg_cfg (Z.of_nat (length imgs)) (xl_buf x) else xl_buf x).
Proof.
  intros Hf. pose proof (xf_holds _ _ _ _ Hf) as Hh. destruct imgs as [|i [|j l]]; try done.
  rewrite (proj2 (Z.ltb_lt _ _)) by (simpl; lia). refine (proj1 (agg_cfg_holds (Z.of_nat (length (i :: j :: l))) i (j :: l) _ _ Hh)).
  pose proof (xf_imgs _ _ _ _ Hf) as E. destruct qs as [|q qs]; [done|]. simpl in E.
  injection E as E _. apply image_length in E. pose proof (hal_len_range (xb_mdata (tr_body q))).
  unfold wd_len_of in E. lia.
Qed.

(** The loop from its first iteration on. *)
Lemma xmit_loop_start qs buf :
  Forall req_ok qs -> ring_rep (t_phl_idx ring0) (t_core_idx ring0) (t_entry ring0) qs ->
  t_phl_next_idx ring0 = (t_phl_idx ring0 + 1) mod 4096 -> Z.of_nat (length buf) = tx_buf_size ->
  exists imgs err x,
    xmit_loop h ops rs tx_buf_size bulk_size (length qs)
      (XmitLoc ring0 buf 0 0 0 0 0 0 RTW_PHL_PKT_TYPE_DATA RTW_PHL_STATUS_FAILURE []) = Some x /\
    xmit_fin qs imgs err x /\
    (forall q, qs !! 0%nat = Some q -> ~ too_large q -> (0 < length imgs + if err then 1 else 0)%nat).
Proof.
  intros Hok Hr Hn Hb.
  assert (ring_at 0 qs ring0) as Hra.
  { constructor; try done. pose proof Hr as (Hp&_). simpl. rewrite Z.add_0_r, Z.mod_small by lia. done. }
  destruct (xmit_loop_spec (length qs) qs []
    (XmitLoc ring0 buf 0 0 0 0 0 0 RTW_PHL_PKT_TYPE_DATA RTW_PHL_STATUS_FAILURE []))
    as (imgs&err&x&E&Hf&_&Hs).
  { done. }
  { assert (wd_count shift (hal_get_max_bulkout_wd_num h) 0 0 []) as Hwd0.
    { constructor; try done. intros t. change (wds_in shift t []) with 0. unfold wd_limit. case_match; lia. }
    constructor; simpl; [| |done..|lia|lia|auto].
    - constructor; simpl; try done; try lia; [by exists qs|unfold agg_end; simpl; lia|intros _; apply Hwd0].
    - constructor; simpl; try done; try lia. unfold agg_end; simpl; lia. }
  exists imgs, err, x. split_and!; try done. intros q Hq Hsmall. destruct err; [lia|].
  destruct imgs as [|i l]; [|simpl; lia]. exfalso.
  destruct (Hs eq_refl eq_refl) as [E0|(q'&Hq'&[Hbig|?])]; [|simpl in Hq'; simplify_eq|done].
  - destruct qs; done.
  - apply Hsmall. unfold too_large. change (agg_end []) with 0 in Hbig. lia.
Qed.

End XmitProofs.

(** ** The handler *)

(** A data ring as [_phl_check_ring_status] leaves it, with the queue [qs],
    and a buffer of the configured size. *)
Record xmit_pre {H} {hal : TxHal H} (h : H) (rs : phl_ring_status) (tx_buf_size : Z)
    (ring : rtw_phl_tx_ring) (tx_buf : phl_usb_buf) (qs : list rtw_xmit_req) : Prop := {
  xp_size : 0 < tx_buf_size < 1073741824;
  xp_size8 : tx_buf_size mod 8 = 0;
  xp_limit : 1 <= hal_get_max_dma_txagg_msk h <= 255;
  xp_reqs : Forall (req_ok h rs (t_dma_ch ring)) qs;
  xp_ring : ring_rep (t_phl_idx ring) (t_core_idx ring) (t_entry ring) qs;
  xp_next : t_phl_next_idx ring = (t_phl_idx ring + 1) mod 4096;
  xp_busy : rs_req_busy rs = Z.of_nat (length qs);
  xp_buf : Z.of_nat (length (ub_buffer tx_buf)) = tx_buf_size
}.

(** ** Examples *)

Definition demo_req (i : Z) (t : rtw_packet_type) (data : list Z) : rtw_xmit_req :=
  XmitReq i (PktInfo 100 3 false false) 0 (demo_body t 0 data).

(** A ring with the given requests behind index 0. *)
Definition demo_usb_ring (cat : Z) (qs : list rtw_xmit_req) : rtw_phl_tx_ring :=
  let r := foldl tx_ring_put (TxRing cat 0 0 0 0 (replicate (Z.to_nat 4096) None)) qs in
  set_next_idx r 1.

Definition demo_qs : list rtw_xmit_req :=
  [demo_req 1 RTW_PHL_PKT_TYPE_DATA [1; 2; 3]; demo_req 2 RTW_PHL_PKT_TYPE_DATA [4; 5]].

Definition demo_buf (n : nat) : phl_usb_buf := UsbBuf 7 RTW_PHL_PKT_TYPE_DATA (replicate n 0).

Definition demo_res : phl_usb_tx_buf_resource := UsbRes (UsbQueue [] 0) (UsbQueue [] 0) (UsbQueue [] 0).

Lemma demo_ring_rep cat qs :
  (length qs <= 2)%nat ->
  ring_rep (t_phl_idx (demo_usb_ring cat qs)) (t_core_idx (demo_usb_ring cat qs))
    (t_entry (demo_usb_ring cat qs)) qs.
Proof.
  intros Hl. destruct qs as [|a [|b [|c qs]]]; [| | |simpl in Hl; lia].
  - by apply (ring_rep_empty 0).
  - apply (ring_rep_put 0 0 _ [] a); [by apply (ring_rep_empty 0)|simpl; lia].
  - apply (ring_rep_put 0 1 _ [a] b); [|simpl; lia].
    apply (ring_rep_put 0 0 _ [] a); [by apply (ring_rep_empty 0)|simpl; lia].
Qed.

Definition demo_rs (n : Z) : phl_ring_status := RingSts 0 0 0 n 0.

Lemma demo_pre : xmit_pre (demo_ad 0) (demo_rs 2) 1024 (demo_usb_ring 0 demo_qs) (demo_buf 1024) demo_qs.
Proof.
  constructor; try done.
  - repeat constructor; try done; vm_compute; discriminate.
  - apply demo_ring_rep. simpl. lia.
Qed.

(** Two frames of 51 and 50 bytes: the second starts at byte 56. *)
Example demo_transfer :
  (r ← _phl_handle_xmit_ring_usb (demo_ad 0) (EvtOps true true) (demo_rs 2) 1024 512 true
         (demo_usb_ring 0 demo_qs) demo_res (demo_buf 1024) 0;
   u ← xr_urb r;
   Some (urb_len u, slice 48 3 (ub_buffer (urb_buf u)), slice 104 2 (ub_buffer (urb_buf u)),
         nth 5 (ub_buffer (urb_buf u)) 0, map tr_id (xr_back r))) =
  Some (106, [1; 2; 3], [4; 5], 2, [1; 2]).
Proof. vm_compute. reflexivity. Qed.

(** C22. USB aggregation: for a data ring whose requests announce the sum of the
    lengths of their fragments, and a buffer of the configured size, a multiple
    of eight, the handler never writes outside the buffer and returns.  The
    transfer it hands to the USB core holds the images (descriptor, then
    fragments) of the first requests of the ring, in order, each on a multiple
    of eight bytes directly behind the padding of the one before, the count of
    frames stored in the first descriptor when there are several; the length
    announced is the end of the last frame.  There are at most as many frames
    as the HAL allows ([max_dma_txagg_msk]), and no descriptor but the first
    ends on a bulk boundary.  If the buffer is shorter than 256 bulk
    transactions, at most [max_bulkout_wd_num] descriptors start in the first
    transaction, and at most one more in each of the others (a limit of 0 acts
    as 1).
    Nothing is sent only when no frame was copied or when the descriptor of a
    request could not be built. *)
Theorem usb_aggregate_layout {H} {hal : TxHal H} (h : H) ops rs tx_buf_size bulk_size ring res
    tx_buf free qs :
  xmit_pre h rs tx_buf_size ring tx_buf qs ->
  exists imgs r,
    _phl_handle_xmit_ring_usb h ops rs tx_buf_size bulk_size true ring res tx_buf free = Some r /\
    map (image h rs (t_dma_ch ring)) (take (length imgs) qs) = map Some imgs /\
    Z.of_nat (length imgs) <= hal_get_max_dma_txagg_msk h /\
    (forall k q, (1 <= k < length imgs)%nat -> qs !! k = Some q ->
      (offset (take k imgs) + hal_get_wd_len (xb_mdata (tr_body q))) mod bulk_size <> 0) /\
    (tx_buf_size < 256 * 2 ^ GET_SHIFT_OFFSET bulk_size ->
      forall t, wds_in (GET_SHIFT_OFFSET bulk_size) t imgs <= wd_limit (hal_get_max_bulkout_wd_num h) t) /\
    match xr_urb r with
    | Some u => imgs <> [] /\ holds (sent_frames imgs) (ub_buffer (urb_buf u)) /\
        urb_len u = agg_end imgs /\ agg_end imgs <= tx_buf_size /\
        urb_bulk_id u = hal_get_bulkout_id h (t_dma_ch ring) 0
    | None => imgs = [] \/ exists q, qs !! length imgs = Some q /\ image h rs (t_dma_ch ring) q = None
    end.
Proof.
  intros [Hs1 Hs2 Hl Hq Hr Hn Hb Hbuf]. unfold _phl_handle_xmit_ring_usb. rewrite Hb, Nat2Z.id.
  destruct (xmit_loop_start h ops rs tx_buf_size bulk_size (t_dma_ch ring) Hs1 Hs2 Hl ring eq_refl qs
              (ub_buffer tx_buf) Hq Hr Hn Hbuf) as (imgs&err&x&->&Hf&_).
  cbn [mbind option_bind]. pose proof (sent_frames_hold _ _ _ _ _ _ _ _ _ _ _ Hf) as Hh.
  pose proof Hf as [Fi Fe _ _ _ Fl Ff Fc _ Fs Ft Fm Fb Fw].
  exists imgs. rewrite Fs, Ft, Fc. destruct (err || (length imgs =? 0)%nat) eqn:Ed; cbn [bool_decide decide_rel].
  - simpl andb. cbv iota. destruct (return_txbuf _ _ _) as [st' res'].
    eexists. split; [done|]. split_and!; try done. simpl.
    apply orb_true_iff in Ed as [->|Hz%Nat.eqb_eq]; [right; by apply Fe|left; by apply nil_length_inv].
  - apply orb_false_iff in Ed as [-> Hz%Nat.eqb_neq]. eexists. split; [done|]. split_and!; try done.
    simpl. split_and!; try done; [by intros ->|by apply Fl].
Qed.

Lemma usb_aggregate_layout_witness :
  exists imgs r,
    _phl_handle_xmit_ring_usb (demo_ad 0) (EvtOps true true) (demo_rs 2) 1024 512 true
      (demo_usb_ring 0 demo_qs) demo_res (demo_buf 1024) 0 = Some r /\
    map (image (demo_ad 0) (demo_rs 2) 0) (take (length imgs) demo_qs) = map Some imgs /\
    Z.of_nat (length imgs) <= 15.
Proof.
  destruct (usb_aggregate_layout (demo_ad 0) (EvtOps true true) (demo_rs 2) 1024 512
              (demo_usb_ring 0 demo_qs) demo_res (demo_buf 1024) 0 demo_qs demo_pre)
    as (imgs&r&E&Hi&Hl&_).
  exists imgs, r. by split_and!.
Defined.

(** The additional descriptor is really placed: with a limit of three, a frame
    that ends 2 bytes before a transaction is followed by four whose
    descriptors all start in the next one. *)
Example wd_limit_exceeded :
  let qs := demo_req 1 RTW_PHL_PKT_TYPE_DATA (replicate 462 0) ::
    map (fun i => demo_req i RTW_PHL_PKT_TYPE_DATA [1; 2; 3; 4]) [2; 3; 4; 5; 6] in
  hal_get_max_bulkout_wd_num (demo_ad 0) = 3 /\
  (r ← _phl_handle_xmit_ring_usb (demo_ad 0) (EvtOps true true) (demo_rs 6) 1024 512 true
         (demo_usb_ring 0 qs) demo_res (demo_buf 1024) 0;
   u ← xr_urb r; Some (urb_len u, map tr_id (xr_back r))) = Some (512 + 3 * 56 + 52, [1; 2; 3; 4; 5]).
Proof. split; vm_compute; reflexivity. Qed.

(** The buffers in the pools, by identity. *)
Definition pool_ids (res : phl_usb_tx_buf_resource) : list Z :=
  map ub_id (uq_list (idle_txbuf_list res) ++ uq_list (mgmt_txbuf_list res) ++ uq_list (h2c_txbuf_list res)).

Lemma return_txbuf_ids cat res b : pool_ids (return_txbuf cat res b).2 ≡ₚ ub_id b :: pool_ids res.
Proof.
  unfold return_txbuf, enqueue_usb_buf, pool_ids.
  destruct (cat =? RTW_PHL_RING_CAT_MGNT); simpl; rewrite ?map_app; simpl; solve_Permutation.
Qed.

(** When the transfer is complete the buffer comes back to a pool. *)
Lemma release_buf_ids res b :
  pool_ids (phl_tx_release_buf_usb res b).1.2 ≡ₚ ub_id b :: pool_ids res.
Proof.
  unfold phl_tx_release_buf_usb, enqueue_usb_buf, pool_ids.
  destruct (ub_type b); simpl; rewrite ?map_app; simpl; solve_Permutation.
Qed.

(** Flow control takes the buffer out of a pool. *)
Lemma flow_ctrl_ids res cat free :
  match _phl_tx_flow_ctrl_usb res cat free with
  | (Some b, res', free') => pool_ids res ≡ₚ ub_id b :: pool_ids res' /\ free' = free
  | (None, res', free') => res' = res /\ free' = S free
  end.
Proof.
  destruct res as [[li ci] [lm cm] hq]. unfold _phl_tx_flow_ctrl_usb, dequeue_usb_buf, pool_ids. simpl.
  destruct (cat =? RTW_PHL_RING_CAT_MGNT); [destruct lm|destruct li]; simpl; rewrite ?map_app;
    split; try done; simpl; rewrite ?map_app; solve_Permutation.
Qed.

(** C24. What the USB handler does with a ring of data requests (each announces
    the sum of the lengths of its fragments, asks for no packet offset and does
    not make the HAL access memory outside its tables) and with a buffer of the
    configured size, a multiple of eight, whether or not the USB core takes the
    transfer: some number of requests leaves the front
    of the queue and the rest stays, in order; exactly the requests that left
    are handed back to the core (those whose kind has a callback); a request
    at the front that fits an empty buffer always leaves, so the ring cannot
    get stuck on it; the status entry is freed; and the buffer is either in
    the transfer or back in a pool, from where the completion of the transfer
    returns it. *)
Theorem usb_ring_consumed {H} {hal : TxHal H} (h : H) ops rs tx_buf_size bulk_size urb_ok ring res
    tx_buf free qs :
  xmit_pre h rs tx_buf_size ring tx_buf qs ->
  exists n r rest,
    _phl_handle_xmit_ring_usb h ops rs tx_buf_size bulk_size urb_ok ring res tx_buf free = Some r /\
    ring_rep (t_phl_idx (xr_ring r)) (t_core_idx ring) (t_entry (xr_ring r)) rest /\
    map tr_id rest = map tr_id (drop n qs) /\
    map tr_id (xr_back r) = map tr_id (handed_back ops (take n qs)) /\
    (forall q, qs !! 0%nat = Some q -> ~ too_large tx_buf_size q -> (0 < n)%nat) /\
    xr_free r = S free /\
    match xr_urb r with
    | Some u => pool_ids (phl_tx_release_buf_usb (xr_res r) (urb_buf u)).1.2 ≡ₚ ub_id tx_buf :: pool_ids res
    | None => pool_ids (xr_res r) ≡ₚ ub_id tx_buf :: pool_ids res
    end.
Proof.
  intros [Hs1 Hs2 Hl Hq Hr Hn Hb Hbuf]. unfold _phl_handle_xmit_ring_usb. rewrite Hb, Nat2Z.id.
  destruct (xmit_loop_start h ops rs tx_buf_size bulk_size (t_dma_ch ring) Hs1 Hs2 Hl ring eq_refl qs
              (ub_buffer tx_buf) Hq Hr Hn Hbuf) as (imgs&err&x&->&Hf&Hp).
  cbn [mbind option_bind]. destruct (xf_ring _ _ _ _ _ _ _ _ _ _ _ Hf) as (rest&[Ra _ Rc _ _]&Hids).
  pose proof (xf_back _ _ _ _ _ _ _ _ _ _ _ Hf) as Hback.
  exists (length imgs + if err then 1 else 0)%nat. cbv zeta. destruct (bool_decide _ && urb_ok).
  - eexists _, rest. split; [done|]. simpl. rewrite <- Rc. split_and!; try done.
    apply (release_buf_ids res (UsbBuf (ub_id tx_buf) _ _)).
  - match goal with |- context [return_txbuf ?c ?r ?b] =>
      pose proof (return_txbuf_ids c r b) as Hperm; destruct (return_txbuf c r b) as [st' res'] end.
    eexists _, rest. split; [done|]. simpl. rewrite <- Rc. by split_and!.
Qed.

Lemma usb_ring_consumed_witness :
  exists n r,
    _phl_handle_xmit_ring_usb (demo_ad 0) (EvtOps true true) (demo_rs 2) 1024 512 false
      (demo_usb_ring 0 demo_qs) demo_res (demo_buf 1024) 0 = Some r /\
    (0 < n)%nat /\ map tr_id (xr_back r) = map tr_id (handed_back (EvtOps true true) (take n demo_qs)).
Proof.
  destruct (usb_ring_consumed (demo_ad 0) (EvtOps true true) (demo_rs 2) 1024 512 false
              (demo_usb_ring 0 demo_qs) demo_res (demo_buf 1024) 0 demo_qs demo_pre)
    as (n&r&rest&E&_&_&Hb&Hp&_).
  exists n, r. split_and!; [done| |done]. eapply Hp; [reflexivity|]. vm_compute. discriminate.
Defined.

(** ** Frames larger than their buffer *)

Lemma write_at_length buf off d buf' : write_at buf off d = Some buf' -> length buf' = length buf.
Proof.
  intros Hw. unfold write_at in Hw. destruct ((0 <=? off) && _) eqn:E; [|done].
  apply andb_true_iff in E as [E1%Z.leb_le E2%Z.leb_le]. simplify_eq.
  rewrite !length_app, length_take, length_drop. lia.
Qed.

Lemma write_at_overflow buf off d :
  Z.of_nat (length buf) < off + Z.of_nat (length d) -> write_at buf off d = None.
Proof. intros Hl. unfold write_at. by rewrite (proj2 (Z.leb_gt _ _) Hl), andb_false_r. Qed.

Lemma copy_pkts_overflow pkts buf off plen :
  Z.of_nat (length buf) < off + Z.of_nat (length (concat (omap id pkts))) ->
  off <= Z.of_nat (length buf) -> copy_pkts pkts buf off plen = None.
Proof.
  revert buf off plen. induction pkts as [|[d|] pkts IH]; intros buf off plen Hl Hor.
  - simpl in Hl. lia.
  - change (omap id (Some d :: pkts)) with (d :: omap id pkts) in Hl. cbn [concat] in Hl.
    rewrite length_app in Hl. cbn [copy_pkts].
    destruct (write_at buf off d) as [b1|] eqn:E; [|done]. cbn [mbind option_bind].
    pose proof (write_at_length _ _ _ _ E) as Hb. unfold write_at in E.
    destruct ((0 <=? off) && _) eqn:Eb; [|done]. apply andb_true_iff in Eb as [_ Eb%Z.leb_le].
    apply IH; rewrite Hb; lia.
  - change (omap id (None :: pkts)) with (omap id pkts) in Hl. by apply IH.
Qed.

Lemma prepare_overflow {H} {hal : TxHal H} (h : H) ops rs dma q img buf :
  image h rs dma q = Some img -> md_usb_pkt_ofst (xb_mdata (tr_body q)) <> 1 ->
  (length buf < length img)%nat ->
  _phl_prepare_tx_usb h ops (stamped_body rs dma q) buf 0 0 = None.
Proof.
  unfold image, _phl_prepare_tx_usb. change (xb_mdata (stamped_body rs dma q)) with (stamped rs dma q).
  destruct (hal_fill_wd h (stamped rs dma q)) as [md wd|st|] eqn:E; try done. intros [= <-] Ho Hl.
  pose proof (hal_fill_len _ _ _ _ E) as Hwd. pose proof (hal_fill_ofst _ _ _ _ E) as Ho'.
  rewrite (proj2 (Z.eqb_neq (md_usb_pkt_ofst md) 1)) by (rewrite Ho'; exact Ho). rewrite length_app in Hl.
  destruct (write_at buf 0 (wd_bytes wd)) as [b1|] eqn:Ew; [|done]. cbn [mbind option_bind].
  rewrite !Z.add_0_r, Z.add_0_l. pose proof (write_at_length _ _ _ _ Ew) as Hb.
  assert (Z.of_nat (length (wd_bytes wd)) <= Z.of_nat (length buf)) as Hle.
  { destruct (Z.leb_spec (0 + Z.of_nat (length (wd_bytes wd))) (Z.of_nat (length buf))) as [|Hgt]; [lia|].
    rewrite write_at_overflow in Ew by done. done. }
  unfold payload in Hl. change (xb_pkt_list (stamped_body rs dma q)) with (xb_pkt_list (tr_body q)).
  rewrite copy_pkts_overflow; [done|lia..].
Qed.

(** Management frames and the buffer size: the size test of the handler uses
    the size of the data buffers, but management rings are served with the
    smaller management buffers.  A management frame that passes the test and is
    longer than the buffer is copied past its end. *)
Theorem mgnt_frame_overflows {H} {hal : TxHal H} (h : H) ops rs tx_buf_size bulk_size urb_ok ring res
    tx_buf free q rest img :
  md_type (xb_mdata (tr_body q)) = RTW_PHL_PKT_TYPE_MGNT ->
  md_usb_pkt_ofst (xb_mdata (tr_body q)) <> 1 ->
  ring_rep (t_phl_idx ring) (t_core_idx ring) (t_entry ring) (q :: rest) ->
  t_phl_next_idx ring = (t_phl_idx ring + 1) mod 4096 -> 0 < rs_req_busy rs ->
  image h rs (t_dma_ch ring) q = Some img -> 0 <= xb_total_len (tr_body q) ->
  hal_get_wd_len (xb_mdata (tr_body q)) + xb_total_len (tr_body q) <= tx_buf_size - 7 ->
  tx_buf_size < 1073741824 -> (length (ub_buffer tx_buf) < length img)%nat ->
  _phl_handle_xmit_ring_usb h ops rs tx_buf_size bulk_size urb_ok ring res tx_buf free = None.
Proof.
  intros Ht Ho Hr Hn Hb Hi H0 Hs Hmax Hlen. unfold _phl_handle_xmit_ring_usb.
  destruct (Z.to_nat (rs_req_busy rs)) as [|busy] eqn:Eb; [lia|].
  destruct (ring_rep_get _ _ _ _ _ Hr) as [He _]. pose proof (hal_len_range (xb_mdata (tr_body q))).
  assert (u16 (t_phl_next_idx ring) = (t_phl_idx ring + 1) mod 4096) as Hu by (rewrite Hn; ulia).
  cbn [xmit_loop xl_ring]. rewrite Hu, slot_mod, He. cbv zeta.
  rewrite (stamp_eq rs (t_dma_ch ring) ring q eq_refl).
  cbn [tr_body with_body stamped_body xb_mdata xb_total_len xl_tx_len xl_off xl_buf].
  change (md_type (stamped rs (t_dma_ch ring) q)) with (md_type (xb_mdata (tr_body q))).
  rewrite (stamped_len rs (t_dma_ch ring)), Ht. unfold wd_len_of.
  rewrite (u32_small (hal_get_wd_len _ + _)), _ALIGN_8 by (unfold is_u32; lia).
  rewrite u32_small by (unfold is_u32, align8; zlia).
  rewrite (proj2 (Z.ltb_ge _ _)) by (unfold align8; zlia).
  change (is_data RTW_PHL_PKT_TYPE_MGNT) with false. cbv iota.
  unfold copy_req. cbn [xl_buf tr_body with_body].
  rewrite (prepare_overflow h ops rs (t_dma_ch ring) q img) by done. done.
Qed.

Definition mgnt_req : rtw_xmit_req := demo_req 1 RTW_PHL_PKT_TYPE_MGNT (replicate 1500 0).

Lemma mgnt_frame_overflows_witness :
  _phl_handle_xmit_ring_usb (demo_ad 0) (EvtOps true true) (demo_rs 1) 20480 512 true
    (demo_usb_ring RTW_PHL_RING_CAT_MGNT [mgnt_req]) demo_res (demo_buf 1536) 0 = None.
Proof.
  destruct (image (demo_ad 0) (demo_rs 1) 0 mgnt_req) as [img|] eqn:E; [|vm_compute in E; discriminate].
  assert (length img = 1548%nat) as Hl.
  { apply image_length in E. change (Z.of_nat (length img) = 48 + Z.of_nat 1500) in E. lia. }
  apply (mgnt_frame_overflows (demo_ad 0) (EvtOps true true) (demo_rs 1) 20480 512 true
    (demo_usb_ring RTW_PHL_RING_CAT_MGNT [mgnt_req]) demo_res (demo_buf 1536) 0 mgnt_req [] img);
    try done; try (apply demo_ring_rep; simpl; lia); try (vm_compute; discriminate).
  rewrite Hl. unfold demo_buf. cbn [ub_buffer]. rewrite length_replicate. lia.
Defined.
