(* ===== verification/RxReorder.v ===== *)
(** * Receive reordering

    Models the A-MPDU reorder buffer of src/phl/phl_rx.c and the block-ack
    sessions of src/phl/phl_rx_agg.c.  A session is a [phl_tid_ampdu_rx]; the
    functions thread a context that also holds the list of frames being handed
    up, the packets recycled to the HCI layer and whether the reorder timer of
    the station was armed.  Loops take fuel; a result [None] would be a loop
    that did not finish (the theorems show there is none).

    The build options PHL_RXSC_AMPDU, PHL_RX_BATCH_IND, DEBUG_PHL_RX and
    CONFIG_PHL_TDLS are off, as in the Linux USB build. *)
From Stdlib Require Import ZArith Lia Bool List Sorting.Sorted Znumtheory.
From stdpp Require Import base tactics list numbers gmap.
From S2P Require Import Prelude Macid TrxStats TrxRing.

(** ** Data *)

(** The fields of [struct rtw_r_meta_data] the reorder path reads. *)
Record reorder_meta_data := RMeta {
  m_seq : Z; m_tid : Z; m_macid : Z; m_bc : bool; m_mc : bool; m_qos : bool; m_q_null : bool;
  m_more_frag : bool; m_frag_num : Z; m_addr_cam_vld : bool; m_amsdu_cut : bool;
  m_last_msdu : bool; m_crc32 : bool; m_icverr : bool; m_bw : Z; m_rx_rate : Z;
  m_rx_gi_ltf : Z; m_rx_deferred_release : bool
}.

(** [struct rtw_phl_rx_pkt]: an identity, the metadata, the length of
    [pkt_list[0]] and the station the frame is attributed to. *)
Record reorder_rx_pkt := RxPkt {
  k_id : Z; k_meta : reorder_meta_data; k_len : Z; k_tx_sta : option Z
}.

Definition k_seq (p : reorder_rx_pkt) : Z := m_seq (k_meta p).

Definition set_deferred (p : reorder_rx_pkt) : reorder_rx_pkt :=
  let m := k_meta p in
  RxPkt (k_id p)
    (RMeta (m_seq m) (m_tid m) (m_macid m) (m_bc m) (m_mc m) (m_qos m) (m_q_null m)
       (m_more_frag m) (m_frag_num m) (m_addr_cam_vld m) (m_amsdu_cut m) (m_last_msdu m)
       (m_crc32 m) (m_icverr m) (m_bw m) (m_rx_rate m) (m_rx_gi_ltf m) true)
    (k_len p) (k_tx_sta p).

(** [struct phl_tid_ampdu_rx] *)
Record phl_tid_ampdu_rx := TidRx {
  reorder_buf : list (option reorder_rx_pkt);
  reorder_time : list Z;
  head_seq_num : Z;
  stored_mpdu_num : Z;
  ssn : Z;
  buf_size : Z;
  r_tid : Z;
  started : bool;
  removed : bool;
  sleep : bool
}.

Definition set_head (r : phl_tid_ampdu_rx) (h : Z) : phl_tid_ampdu_rx :=
  TidRx (reorder_buf r) (reorder_time r) h (stored_mpdu_num r) (ssn r) (buf_size r) (r_tid r)
    (started r) (removed r) (sleep r).

Definition set_flags (r : phl_tid_ampdu_rx) (st rm sl : bool) : phl_tid_ampdu_rx :=
  TidRx (reorder_buf r) (reorder_time r) (head_seq_num r) (stored_mpdu_num r) (ssn r) (buf_size r)
    (r_tid r) st rm sl.

Record rctx := Rctx {
  c_r : phl_tid_ampdu_rx;
  c_frames : list reorder_rx_pkt;
  c_recycled : list reorder_rx_pkt;
  c_timer : bool
}.

(** ** Sequence number arithmetic *)

Definition SEQ_MODULO : Z := 4096.
Definition SEQ_MASK : Z := 4095.

Definition seq_less (sq1 sq2 : Z) : bool :=
  Z.shiftr SEQ_MODULO 1 <? Z.land (sq1 - sq2) SEQ_MASK.

Definition seq_inc (sq : Z) : Z := u16 (Z.land (sq + 1) SEQ_MASK).

Definition seq_sub (sq1 sq2 : Z) : Z := u16 (Z.land (sq1 - sq2) SEQ_MASK).

Definition reorder_index (r : phl_tid_ampdu_rx) (seq : Z) : Z := u16 (seq mod buf_size r).

Definition buf_at (r : phl_tid_ampdu_rx) (index : Z) : option reorder_rx_pkt :=
  nth (Z.to_nat index) (reorder_buf r) None.

(** ** Releasing frames *)

Definition phl_release_reorder_frame (c : rctx) (index : Z) : rctx :=
  let r := c_r c in
  match buf_at r index with
  | None => Rctx (set_head r (seq_inc (head_seq_num r))) (c_frames c) (c_recycled c) (c_timer c)
  | Some pkt =>
    let r' := TidRx (<[Z.to_nat index := None]> (reorder_buf r)) (reorder_time r)
                (seq_inc (head_seq_num r)) (u16 (stored_mpdu_num r - 1)) (ssn r) (buf_size r)
                (r_tid r) (started r) (removed r) (sleep r) in
    Rctx r' (c_frames c ++ [set_deferred pkt]) (c_recycled c) (c_timer c)
  end.

Definition HT_RX_REORDER_BUF_TIMEOUT_MS : Z := 500.

(** The [for] loop over the slots after the head; the flag says that it was
    left by [goto set_release_timer]. *)
Fixpoint timeout_loop (fuel : nat) (cur_time index j skipped : Z) (c : rctx) :
    option (rctx * bool) :=
  if j =? index then Some (c, false)
  else match fuel with
       | O => None
       | S f =>
         let r := c_r c in
         let next := (j + 1) mod buf_size r in
         match buf_at r j with
         | None => timeout_loop f cur_time index next (skipped + 1) c
         | Some _ =>
           if negb (skipped =? 0) &&
              (0 <? s32 (u32 (nth (Z.to_nat j) (reorder_time r) 0 +
                              HT_RX_REORDER_BUF_TIMEOUT_MS - cur_time)))
           then Some (c, true)
           else
             let c := phl_release_reorder_frame c j in
             let r := c_r c in
             let c := Rctx (set_head r (u16 (Z.land (head_seq_num r + skipped) SEQ_MASK)))
                        (c_frames c) (c_recycled c) (c_timer c) in
             timeout_loop f cur_time index next 0 c
         end
       end.

(** [while (r->reorder_buf[index])] *)
Fixpoint drain_loop (fuel : nat) (index : Z) (c : rctx) : option rctx :=
  match buf_at (c_r c) index with
  | None => Some c
  | Some _ =>
    match fuel with
    | O => None
    | S f =>
      let c := phl_release_reorder_frame c index in
      drain_loop f (reorder_index (c_r c) (head_seq_num (c_r c))) c
    end
  end.

Definition arm_timer (c : rctx) : rctx :=
  Rctx (c_r c) (c_frames c) (c_recycled c) (if removed (c_r c) then c_timer c else true).

Definition phl_reorder_release (cur_time : Z) (c : rctx) : option rctx :=
  let r := c_r c in
  let index := reorder_index r (head_seq_num r) in
  let tail (c : rctx) := if negb (stored_mpdu_num (c_r c) =? 0) then arm_timer c else c in
  match buf_at r index with
  | None =>
    if negb (stored_mpdu_num r =? 0) then
      '(c, jump) ← timeout_loop (length (reorder_buf r)) cur_time index
                     ((index + 1) mod buf_size r) 1 c;
      Some (if jump : bool then arm_timer c else tail c)
    else Some (tail c)
  | Some _ =>
    c ← drain_loop (length (reorder_buf r)) index c; Some (tail c)
  end.

Fixpoint release_loop (fuel : nat) (hseq : Z) (c : rctx) : option rctx :=
  let r := c_r c in
  if seq_less (head_seq_num r) hseq && negb (stored_mpdu_num r =? 0) then
    match fuel with
    | O => None
    | S f => release_loop f hseq
               (phl_release_reorder_frame c (reorder_index r (head_seq_num r)))
    end
  else Some c.

Definition phl_release_reorder_frames (hseq : Z) (c : rctx) : option rctx :=
  c ← release_loop 2048 hseq c;
  Some (Rctx (set_head (c_r c) hseq) (c_frames c) (c_recycled c) (c_timer c)).

(** ** One received MPDU

    The result is the C return value: [true] when the frame was stored or
    recycled here, [false] when the caller hands it up. *)
Definition recycle (c : rctx) (pkt : reorder_rx_pkt) : rctx :=
  Rctx (c_r c) (c_frames c) (c_recycled c ++ [pkt]) (c_timer c).

Definition with_r (c : rctx) (r : phl_tid_ampdu_rx) : rctx :=
  Rctx r (c_frames c) (c_recycled c) (c_timer c).

Definition phl_manage_sta_reorder_buf (cur_time : Z) (pkt : reorder_rx_pkt) (c : rctx) :
    option (bool * rctx) :=
  let mpdu_seq_num := k_seq pkt in
  let bsize := buf_size (c_r c) in
  let head := head_seq_num (c_r c) in
  if negb (started (c_r c)) && seq_less mpdu_seq_num head then Some (false, c)
  else
    let c := with_r c (set_flags (c_r c) true (removed (c_r c)) (sleep (c_r c))) in
    let '(c, head) :=
      if sleep (c_r c)
      then (with_r c (set_flags (set_head (c_r c) mpdu_seq_num) (started (c_r c))
                        (removed (c_r c)) false), mpdu_seq_num)
      else (c, head) in
    if seq_less mpdu_seq_num head then Some (true, recycle c pkt)
    else
      c ← (if negb (seq_less mpdu_seq_num (u16 (head + bsize)))
           then phl_release_reorder_frames (seq_inc (seq_sub mpdu_seq_num bsize)) c
           else Some c);
      let r := c_r c in
      let index := reorder_index r mpdu_seq_num in
      match buf_at r index with
      | Some _ => Some (true, recycle c pkt)
      | None =>
        if (mpdu_seq_num =? head_seq_num r) && (stored_mpdu_num r =? 0)
        then Some (false, with_r c (set_head r (seq_inc (head_seq_num r))))
        else
          let r := TidRx (<[Z.to_nat index := Some pkt]> (reorder_buf r))
                     (<[Z.to_nat index := cur_time]> (reorder_time r)) (head_seq_num r)
                     (u16 (stored_mpdu_num r + 1)) (ssn r) (buf_size r) (r_tid r) (started r)
                     (removed r) (sleep r) in
          c ← phl_reorder_release cur_time (with_r c r);
          Some (true, c)
      end.

(** ** Stations, and the entry points *)

(** [trx_stat] of [struct rtw_hal_stainfo_t] *)
Record rx_trx_stat := TrxStat {
  rx_ok_cnt : Z; rx_err_cnt : Z; ts_bw : Z; ts_rate : Z; ts_gi_ltf : Z
}.

(** [rtw_hal_set_sta_rx_sts]; the metadata is only read when [rst] is false. *)
Definition rtw_hal_set_sta_rx_sts (t : rx_trx_stat) (rst : bool) (m : reorder_meta_data) : rx_trx_stat :=
  if rst then TrxStat 0 0 (ts_bw t) (ts_rate t) (ts_gi_ltf t)
  else
    let '(ok, err) := if m_crc32 m || m_icverr m then (rx_ok_cnt t, u32 (rx_err_cnt t + 1))
                      else (u32 (rx_ok_cnt t + 1), rx_err_cnt t) in
    TrxStat ok err (m_bw m) (m_rx_rate m) (m_rx_gi_ltf m).

(** [struct rtw_phl_stainfo_t], the part used here. *)
Record stainfo := StaInfo {
  tid_rx : list (option phl_tid_ampdu_rx); reorder_timer : bool; trx_stat : rx_trx_stat
}.

Definition RTW_MAX_TID_NUM : Z := 16.

(** What of [phl_com] decides the path of a frame. *)
Record rx_cfg := RxCfg { is_sniffer : bool; append_fcs : bool; is_mp_mode : bool }.

(** The stations, the frames to hand up and the packets recycled. *)
Record rx_world := RxWorld {
  w_sta : gmap Z stainfo; w_frames : list reorder_rx_pkt; w_recycled : list reorder_rx_pkt
}.

Definition dont_reorder (w : rx_world) (p : reorder_rx_pkt) : option (rtw_phl_status * rx_world) :=
  Some (RTW_PHL_STATUS_SUCCESS, RxWorld (w_sta w) (w_frames w ++ [p]) (w_recycled w)).

Definition set_len (p : reorder_rx_pkt) (l : Z) : reorder_rx_pkt :=
  RxPkt (k_id p) (k_meta p) l (k_tx_sta p).

Definition set_tx_sta (p : reorder_rx_pkt) (s : Z) : reorder_rx_pkt :=
  RxPkt (k_id p) (k_meta p) (k_len p) (Some s).

(** Run [f] on session [tid] of station [sid]. *)
Definition set_session (s : stainfo) (tid : nat) (r : option phl_tid_ampdu_rx) (timer : bool) : stainfo :=
  StaInfo (<[tid := r]> (tid_rx s)) timer (trx_stat s).

Definition phl_rx_reorder (cfg : rx_cfg) (ctl : macid_ctl_t) (cur_time : Z)
    (phl_rx : reorder_rx_pkt) (w : rx_world) : option (rtw_phl_status * rx_world) :=
  let meta := k_meta phl_rx in
  if is_sniffer cfg then dont_reorder w phl_rx
  else
    let trim := append_fcs cfg && negb (m_amsdu_cut meta && negb (m_last_msdu meta)) in
    if trim && (k_len phl_rx <=? 4)
    then Some (RTW_PHL_STATUS_FAILURE, RxWorld (w_sta w) (w_frames w) (w_recycled w ++ [phl_rx]))
    else
      let phl_rx := if trim then set_len phl_rx (k_len phl_rx - 4) else phl_rx in
      if is_mp_mode cfg then dont_reorder w phl_rx
      else if m_bc meta || m_mc meta then dont_reorder w phl_rx
      else if negb (m_qos meta) then dont_reorder w phl_rx
      else if m_q_null meta then dont_reorder w phl_rx
      else if m_more_frag meta || negb (m_frag_num meta =? 0) then dont_reorder w phl_rx
      else
        let sta := if m_addr_cam_vld meta then rtw_phl_get_stainfo_by_macid ctl (m_macid meta)
                   else None in
        match sta ≫= fun p => s ← w_sta w !! p; Some (p, s) with
        | None => dont_reorder w phl_rx
        | Some (ptr, s) =>
          let phl_rx := set_tx_sta phl_rx ptr in
          let s := StaInfo (tid_rx s) (reorder_timer s)
                     (rtw_hal_set_sta_rx_sts (trx_stat s) false meta) in
          let w := RxWorld (<[ptr := s]> (w_sta w)) (w_frames w) (w_recycled w) in
          if Z.of_nat (length (tid_rx s)) <=? m_tid meta then dont_reorder w phl_rx
          else
            match nth (Z.to_nat (m_tid meta)) (tid_rx s) None with
            | None => dont_reorder w phl_rx
            | Some r =>
              '(b, c) ← phl_manage_sta_reorder_buf cur_time phl_rx
                          (Rctx r (w_frames w) (w_recycled w) (reorder_timer s));
              let w := RxWorld (<[ptr := set_session s (Z.to_nat (m_tid meta)) (Some (c_r c)) (c_timer c)]> (w_sta w))
                         (c_frames c) (c_recycled c) in
              if b : bool then Some (RTW_PHL_STATUS_SUCCESS, w) else dont_reorder w phl_rx
            end
        end.

(** The loop over the sessions of a station shared by
    [phl_sta_rx_reorder_timer_expired] and [rtw_phl_flush_reorder_buf]; the
    frames then go to [phl_handle_rx_frame_list]. *)
Fixpoint release_all (cur_time : Z) (l : list (option phl_tid_ampdu_rx))
    (frames recycled : list reorder_rx_pkt) (timer : bool) :
    option (list (option phl_tid_ampdu_rx) * list reorder_rx_pkt * bool) :=
  match l with
  | [] => Some ([], frames, timer)
  | None :: rest =>
    '(l', f, t) ← release_all cur_time rest frames recycled timer; Some (None :: l', f, t)
  | Some r :: rest =>
    c ← phl_reorder_release cur_time (Rctx r frames recycled timer);
    '(l', f, t) ← release_all cur_time rest (c_frames c) recycled (c_timer c);
    Some (Some (c_r c) :: l', f, t)
  end.

Definition phl_sta_rx_reorder_timer_expired (cur_time : Z) (s : stainfo) :
    option (stainfo * list reorder_rx_pkt) :=
  '(l, f, t) ← release_all cur_time (tid_rx s) [] [] false;
  Some (StaInfo l t (trx_stat s), f).

Definition rtw_phl_flush_reorder_buf (cur_time : Z) (s : stainfo) :
    option (stainfo * list reorder_rx_pkt) :=
  '(l, f, t) ← release_all cur_time (tid_rx s) [] [] (reorder_timer s);
  Some (StaInfo l t (trx_stat s), f).

Definition rtw_phl_rx_bar (s : stainfo) (tid seq : Z) : option (stainfo * list reorder_rx_pkt) :=
  if RTW_MAX_TID_NUM <=? tid then Some (s, [])
  else match nth (Z.to_nat tid) (tid_rx s) None with
       | None => Some (s, [])
       | Some r =>
         if seq_less seq (head_seq_num r) then Some (s, [])
         else
           c ← phl_release_reorder_frames seq (Rctx r [] [] (reorder_timer s));
           Some (set_session s (Z.to_nat tid) (Some (c_r c)) (c_timer c), c_frames c)
       end.

(** The loop of [phl_handle_rx_frame_list]: what does not fit the receive ring
    is recycled.  [to_recv] gives the [rtw_recv_pkt] inside a packet.  The call
    of [phl_rx_handle_sta_process] returns at its first test, because nothing
    in the driver sets [dev_sw_cap.ap_ps]. *)
Fixpoint handle_frames (to_recv : reorder_rx_pkt -> rtw_recv_pkt) (frames : list reorder_rx_pkt)
    (s : rx_state) (recycled : list reorder_rx_pkt) : rx_state * list reorder_rx_pkt :=
  match frames with
  | [] => (s, recycled)
  | p :: rest =>
    let '(st, s') := _phl_add_rx_pkt s (to_recv p) in
    let recycled := if bool_decide (st = RTW_PHL_STATUS_RESOURCE) then recycled ++ [p] else recycled in
    handle_frames to_recv rest s' recycled
  end.

(** ** Block-ack sessions (phl_rx_agg.c)

    Calls into the HAL are recorded as events. *)
Inductive hal_call := HalStopBa (tid : Z) | HalStartBa (tid ssn size : Z).

Fixpoint somes (l : list (option reorder_rx_pkt)) : list reorder_rx_pkt :=
  match l with
  | [] => []
  | Some p :: r => p :: somes r
  | None :: r => somes r
  end.

(** [phl_tid_ampdu_rx_free]: the packets recycled. *)
Definition phl_tid_ampdu_rx_free (r : option phl_tid_ampdu_rx) : list reorder_rx_pkt :=
  match r with
  | None => []
  | Some r => somes (take (Z.to_nat (buf_size r)) (reorder_buf r))
  end.

Definition PHL_MAX_AGG_WSIZE : Z := 32.

(** [ok] tells whether the three allocations succeed. *)
Definition phl_tid_ampdu_rx_alloc (ok : bool) (start_ssn tid bsize : Z) : option phl_tid_ampdu_rx :=
  if ok then
    Some (TidRx (replicate (Z.to_nat bsize) None) (replicate (Z.to_nat bsize) 0) start_ssn 0
            start_ssn bsize tid false false false)
  else None.

Definition rtw_phl_start_rx_ba_session (ok : bool) (s : stainfo)
    (start_seq_num ba_policy tid bsize : Z) :
    rtw_phl_status * stainfo * list reorder_rx_pkt * list hal_call :=
  if Z.of_nat (length (tid_rx s)) <=? tid then (RTW_PHL_STATUS_RESOURCE, s, [], [])
  else
    let cur := nth (Z.to_nat tid) (tid_rx s) None in
    let hal := (match cur with Some _ => [HalStopBa tid] | None => [] end) ++
               [HalStartBa tid start_seq_num bsize] in
    if negb (ba_policy =? 0) then (RTW_PHL_STATUS_FAILURE, s, [], hal)
    else
      let bsize := if bsize =? 0 then PHL_MAX_AGG_WSIZE else bsize in
      match phl_tid_ampdu_rx_alloc ok start_seq_num tid bsize with
      | None => (RTW_PHL_STATUS_RESOURCE, s, [], hal)
      | Some r =>
        (RTW_PHL_STATUS_SUCCESS, set_session s (Z.to_nat tid) (Some r) (reorder_timer s),
         phl_tid_ampdu_rx_free cur, hal)
      end.

Definition rtw_phl_stop_rx_ba_session (sta : option stainfo) (tid : Z) :
    option stainfo * list reorder_rx_pkt * list hal_call :=
  match sta with
  | None => (None, [], [])
  | Some s =>
    if Z.of_nat (length (tid_rx s)) <=? tid then (Some s, [], [])
    else match nth (Z.to_nat tid) (tid_rx s) None with
         | None => (Some s, [], [HalStopBa tid])
         | Some r => (Some (set_session s (Z.to_nat tid) None (reorder_timer s)),
                      phl_tid_ampdu_rx_free (Some r), [HalStopBa tid])
         end
  end.

(** [phl_free_rx_reorder]: the sessions are marked removed, the timer is
    cancelled, and every session is freed. *)
Definition phl_free_rx_reorder (s : stainfo) : stainfo * list reorder_rx_pkt :=
  let marked := map (option_map (fun r => set_flags r (started r) true (sleep r))) (tid_rx s) in
  (StaInfo (map (fun _ => None) marked) false (trx_stat s),
   concat (map phl_tid_ampdu_rx_free marked)).

Definition phl_notify_reorder_sleep (sta : option stainfo) : option stainfo :=
  s ← sta;
  Some (StaInfo (map (option_map (fun r => set_flags r (started r) (removed r) true)) (tid_rx s))
          (reorder_timer s) (trx_stat s)).

(** ** Sequence numbers modulo 4096 *)

Lemma land_mask z : Z.land z SEQ_MASK = z mod 4096.
Proof. unfold SEQ_MASK. change 4095 with (Z.ones 12). by rewrite Z.land_ones. Qed.

Lemma seq_less_spec a b : seq_less a b = (2048 <? (a - b) mod 4096).
Proof. unfold seq_less. by rewrite land_mask. Qed.

Lemma seq_inc_spec a : seq_inc a = (a + 1) mod 4096.
Proof. unfold seq_inc. rewrite land_mask, u16_small; [done|ulia]. Qed.

Lemma seq_sub_spec a b : seq_sub a b = (a - b) mod 4096.
Proof. unfold seq_sub. rewrite land_mask, u16_small; [done|ulia]. Qed.

(** A buffer size that divides the sequence space: consecutive sequence
    numbers have consecutive slots also across the wrap. *)
Definition size_ok (b : Z) : Prop := 1 < b <= 1024 /\ (b | 4096).

Lemma size_pos b : size_ok b -> 0 < b.
Proof. intros [? _]. lia. Qed.

Lemma index_mod b e : size_ok b -> (e mod 4096) mod b = e mod b.
Proof. intros [? ?]. by apply Z.mod_mod_divide. Qed.

Lemma mod_eq_window b e1 e2 h :
  0 < b -> e1 mod b = e2 mod b -> h <= e1 < h + b -> h <= e2 < h + b -> e1 = e2.
Proof.
  intros Hb E H1 H2. pose proof (Z.div_mod e1 b). pose proof (Z.div_mod e2 b).
  assert (e1 / b = e2 / b); [nia|lia].
Qed.

(** ** Stored packets *)

Lemma somes_insert_none l i :
  l !! i = Some None -> somes (<[i := None]> l) = somes l.
Proof. intros H. f_equal. by apply list_insert_id. Qed.

Lemma somes_remove l i p :
  l !! i = Some (Some p) -> somes l ≡ₚ p :: somes (<[i := None]> l).
Proof.
  revert i. induction l as [|x l IH]; intros [|i] H; simplify_eq/=; [done|].
  destruct x as [q|]; simpl; [|by apply IH]. rewrite (IH i H). apply Permutation_swap.
Qed.

Lemma somes_add l i p :
  l !! i = Some None -> somes (<[i := Some p]> l) ≡ₚ p :: somes l.
Proof.
  intros H. rewrite (somes_remove (<[i := Some p]> l) i p).
  - by rewrite list_insert_insert_eq, list_insert_id.
  - apply list_lookup_insert_eq. by eapply lookup_lt_Some.
Qed.

Lemma somes_length l : (length (somes l) <= length l)%nat.
Proof. induction l as [|[p|] l IH]; simpl; lia. Qed.

Lemma somes_nil l : length (somes l) = 0%nat -> forall i p, l !! i <> Some (Some p).
Proof.
  intros H i p Hl. apply somes_remove, Permutation_length in Hl. simpl in Hl. lia.
Qed.

(** ** The window invariant

    [H] is the head as an unbounded number, of which [head_seq_num] is the
    residue: slot [i] can only hold the frame whose unbounded number lies in
    [H, H + buf_size) and is [i] modulo the size. *)
Definition slot_of (b e : Z) : nat := Z.to_nat (e mod b).

Record Inv (H : Z) (r : phl_tid_ampdu_rx) : Prop := MkInv {
  inv_size : size_ok (buf_size r);
  inv_len : Z.of_nat (length (reorder_buf r)) = buf_size r;
  inv_tlen : length (reorder_time r) = length (reorder_buf r);
  inv_head : head_seq_num r = H mod 4096;
  inv_cnt : stored_mpdu_num r = Z.of_nat (length (somes (reorder_buf r)));
  inv_slot : forall i p, reorder_buf r !! i = Some (Some p) ->
    exists e, H <= e < H + buf_size r /\ k_seq p = e mod 4096 /\ i = slot_of (buf_size r) e
}.

(** Frames handed up in order: their unbounded numbers increase and lie in
    [H, H'). *)
Definition delivers (H H' : Z) (fs : list reorder_rx_pkt) : Prop :=
  exists es, Forall2 (fun e p => k_seq p = e mod 4096) es fs /\
    StronglySorted Z.lt es /\ Forall (fun e => H <= e < H') es.

(** The part of a session that releasing frames does not change. *)
Definition sess_of (r : phl_tid_ampdu_rx) : Z * Z * Z * bool * bool * bool :=
  (buf_size r, ssn r, r_tid r, started r, removed r, sleep r).

Definition stored (r : phl_tid_ampdu_rx) : list reorder_rx_pkt := somes (reorder_buf r).

(** Packets up to the release mark: identity and sequence number. *)
Definition key (p : reorder_rx_pkt) : Z * Z := (k_id p, k_seq p).

Definition ids (l : list reorder_rx_pkt) : list (Z * Z) := map key l.

#[global] Instance ids_proper : Proper ((≡ₚ) ==> (≡ₚ)) ids.
Proof. intros l1 l2 E. unfold ids. by apply Permutation_map. Qed.

(** From head [H] to head [H'], handing up [fs] and losing nothing. *)
Record progress (H : Z) (r : phl_tid_ampdu_rx) (H' : Z) (r' : phl_tid_ampdu_rx)
    (fs : list reorder_rx_pkt) : Prop := MkProgress {
  pr_inv : Inv H' r';
  pr_le : H <= H';
  pr_deliv : delivers H H' fs;
  pr_perm : ids fs ++ ids (stored r') ≡ₚ ids (stored r);
  pr_sess : sess_of r' = sess_of r
}.

Lemma delivers_nil H H' : delivers H H' [].
Proof. exists []. repeat constructor. Qed.

Lemma delivers_one H H' p e :
  H <= e < H' -> k_seq p = e mod 4096 -> delivers H H' [p].
Proof.
  intros ? ?. exists [e]. split; [constructor; [done|constructor]|].
  split; repeat constructor; lia.
Qed.

Lemma sorted_app (l1 l2 : list Z) m :
  StronglySorted Z.lt l1 -> StronglySorted Z.lt l2 ->
  Forall (fun e => e < m) l1 -> Forall (fun e => m <= e) l2 -> StronglySorted Z.lt (l1 ++ l2).
Proof.
  induction l1 as [|x l1 IH]; simpl; intros S1 S2 F1 F2; [done|].
  apply Forall_cons in F1 as [Hx F1]. apply StronglySorted_inv in S1 as [S1 Sx].
  constructor; [by apply IH|]. apply Forall_app. split; [done|].
  eapply Forall_impl; [exact F2|]. simpl. lia.
Qed.

Lemma delivers_app H H1 H2 f1 f2 :
  H <= H1 -> H1 <= H2 -> delivers H H1 f1 -> delivers H1 H2 f2 -> delivers H H2 (f1 ++ f2).
Proof.
  intros Hl1 Hl2 (e1&A1&B1&C1) (e2&A2&B2&C2). exists (e1 ++ e2). split_and!.
  - by apply Forall2_app.
  - apply (sorted_app e1 e2 H1); try done.
    + eapply Forall_impl; [exact C1|]. simpl. lia.
    + eapply Forall_impl; [exact C2|]. simpl. lia.
  - apply Forall_app. split; (eapply Forall_impl; [eassumption|]; simpl; lia).
Qed.

Lemma delivers_weaken H0 H H' H1 fs : H0 <= H -> H' <= H1 -> delivers H H' fs -> delivers H0 H1 fs.
Proof.
  intros ? ? (es&?&?&F). exists es. split_and!; try done.
  eapply Forall_impl; [exact F|]. simpl. lia.
Qed.

Lemma progress_refl H r : Inv H r -> progress H r H r [].
Proof. intros. constructor; try done; apply delivers_nil. Qed.

Lemma progress_trans H r H1 r1 f1 H2 r2 f2 :
  progress H r H1 r1 f1 -> progress H1 r1 H2 r2 f2 -> progress H r H2 r2 (f1 ++ f2).
Proof.
  intros [I1 L1 D1 P1 S1] [I2 L2 D2 P2 S2]. constructor; [done|lia| | |by rewrite S2].
  - by eapply delivers_app.
  - unfold ids in *. rewrite map_app, <- (assoc_L app), P2. done.
Qed.

Lemma pr_size H r H1 r1 f1 : progress H r H1 r1 f1 -> buf_size r1 = buf_size r.
Proof. intros Hp. pose proof (pr_sess _ _ _ _ _ Hp) as E. unfold sess_of in E. congruence. Qed.

Lemma slot_of_lt b e n : 0 < b -> Z.of_nat n = b -> (slot_of b e < n)%nat.
Proof. intros. unfold slot_of. pose proof (Z.mod_pos_bound e b). lia. Qed.

Lemma slot_of_inj b e1 e2 h :
  0 < b -> slot_of b e1 = slot_of b e2 -> h <= e1 < h + b -> h <= e2 < h + b -> e1 = e2.
Proof.
  intros Hb E. apply mod_eq_window; [done|]. unfold slot_of in E.
  pose proof (Z.mod_pos_bound e1 b). pose proof (Z.mod_pos_bound e2 b). lia.
Qed.

(** The slot the code computes from a sequence number. *)
Lemma reorder_index_slot H r e :
  Inv H r -> Z.to_nat (reorder_index r (e mod 4096)) = slot_of (buf_size r) e /\
  reorder_index r (e mod 4096) = e mod buf_size r.
Proof.
  intros [Hs _ _ _ _ _]. unfold reorder_index, slot_of. rewrite (index_mod _ _ Hs).
  rewrite u16_small; [done|]. destruct Hs as [? _].
  pose proof (Z.mod_pos_bound e (buf_size r)). unfold is_u16. lia.
Qed.

Lemma buf_at_lookup r i :
  (Z.to_nat i < length (reorder_buf r))%nat ->
  reorder_buf r !! Z.to_nat i = Some (buf_at r i).
Proof.
  intros Hi. unfold buf_at. rewrite nth_lookup.
  destruct (lookup_lt_is_Some_2 _ _ Hi) as [x ->]. done.
Qed.

(** What a release leaves of the context. *)
Definition ctx_ext (c c' : rctx) (fs : list reorder_rx_pkt) : Prop :=
  c_frames c' = c_frames c ++ fs /\ c_recycled c' = c_recycled c.

Lemma ctx_ext_nil c r : ctx_ext c (with_r c r) [].
Proof. split; simpl; [by rewrite app_nil_r|done]. Qed.

Lemma ctx_ext_refl c : ctx_ext c c [].
Proof. split; [by rewrite app_nil_r|done]. Qed.

Lemma ctx_ext_trans c c1 c2 f1 f2 : ctx_ext c c1 f1 -> ctx_ext c1 c2 f2 -> ctx_ext c c2 (f1 ++ f2).
Proof. intros [E1 R1] [E2 R2]. split; [by rewrite E2, E1, (assoc_L app)|by rewrite R2]. Qed.

(** The slots from the head up to distance [k] are empty. *)
Definition empty_upto (H k : Z) (r : phl_tid_ampdu_rx) : Prop :=
  forall e, H <= e < H + k -> reorder_buf r !! slot_of (buf_size r) e = Some None.

(** Removing the frame at distance [k], with nothing before it, moves the
    window behind it. *)
Lemma Inv_advance H k r r' :
  Inv H r -> 0 <= k < buf_size r -> empty_upto H k r ->
  sess_of r' = sess_of r -> reorder_time r' = reorder_time r ->
  head_seq_num r' = (H + k + 1) mod 4096 ->
  reorder_buf r' = <[slot_of (buf_size r) (H + k) := None]> (reorder_buf r) ->
  stored_mpdu_num r' = Z.of_nat (length (somes (reorder_buf r'))) ->
  Inv (H + k + 1) r'.
Proof.
  intros [Hs Hl Ht Hh Hc Hsl] Hk He Es Et Eh Eb Ec.
  assert (buf_size r' = buf_size r) as Ez by (unfold sess_of in Es; congruence).
  pose proof Hs as [Hpos _].
  constructor; rewrite ?Ez; try done.
  - by rewrite Eb, length_insert.
  - by rewrite Et, Eb, length_insert.
  - intros i p Hp. rewrite Eb in Hp.
    destruct (decide (i = slot_of (buf_size r) (H + k))) as [->|Hne].
    { rewrite list_lookup_insert_eq in Hp; [done|]. apply slot_of_lt; lia. }
    rewrite list_lookup_insert_ne in Hp by done. destruct (Hsl i p Hp) as (e&Hr&Hq&Hi).
    exists e. split_and!; [|lia|done|done].
    destruct (decide (e < H + k)) as [Hlt|Hge].
    + rewrite Hi, (He e) in Hp by lia. done.
    + assert (e <> H + k) by (intros ->; done). lia.
Qed.

Lemma head_advance H k h : h = H mod 4096 ->
  u16 (Z.land (seq_inc h + k) SEQ_MASK) = (H + k + 1) mod 4096.
Proof.
  intros ->. rewrite seq_inc_spec, land_mask, u16_small by ulia. 
  rewrite Zplus_mod_idemp_l. rewrite <- Z.add_assoc, Zplus_mod_idemp_l. f_equal. lia.
Qed.

Lemma release_frame_progress H k c j :
  Inv H (c_r c) -> 0 <= k < buf_size (c_r c) -> empty_upto H k (c_r c) ->
  Z.to_nat j = slot_of (buf_size (c_r c)) (H + k) ->
  let c1 := phl_release_reorder_frame c j in
  let r2 := set_head (c_r c1) (u16 (Z.land (head_seq_num (c_r c1) + k) SEQ_MASK)) in
  exists fs,
    progress H (c_r c) (H + k + 1) r2 fs /\ ctx_ext c c1 fs /\ reorder_time r2 = reorder_time (c_r c) /\
    (buf_at (c_r c) j = None -> fs = [] /\ reorder_buf r2 = reorder_buf (c_r c)) /\
    (buf_at (c_r c) j <> None ->
     stored_mpdu_num r2 = stored_mpdu_num (c_r c) - 1 /\
     reorder_buf r2 = <[slot_of (buf_size (c_r c)) (H + k) := None]> (reorder_buf (c_r c))).
Proof.
  intros HI Hk He Hj. set (r := c_r c) in *. pose proof HI as [Hs Hl Ht Hh Hc Hsl].
  assert (Z.to_nat j < length (reorder_buf r))%nat as Hjl.
  { rewrite Hj. apply slot_of_lt; [by apply size_pos|done]. }
  pose proof (buf_at_lookup r j Hjl) as Hb. rewrite Hj in Hb.
  unfold phl_release_reorder_frame. fold r. destruct (buf_at r j) as [p|] eqn:Ep; cbn zeta.
  - exists [set_deferred p]. pose proof (somes_remove _ _ _ Hb) as Hperm.
    pose proof (Permutation_length Hperm) as Hlen. simpl in Hlen.
    assert (Z.of_nat (length (somes (reorder_buf r))) <= 1024) as Hbound.
    { pose proof (somes_length (reorder_buf r)). destruct Hs. lia. }
    split_and!; try done.
    constructor; simpl.
    + eapply (Inv_advance H k r); try done; simpl.
      * by apply head_advance.
      * by rewrite Hj.
      * rewrite Hj, Hc, u16_small; [lia|unfold is_u16; lia].
    + lia.
    + destruct (Hsl _ _ Hb) as (e&?&Hq&Hi).
      apply (slot_of_inj _ _ _ H) in Hi; [|lia..]. subst e.
      apply (delivers_one _ _ _ (H + k)); [lia|done].
    + unfold stored. simpl. by rewrite Hj, Hperm.
    + done.
    + intros _. simpl. rewrite Hj. split; [|done]. rewrite Hc, u16_small; [lia|unfold is_u16; lia].
  - exists []. split_and!; try done.
    + constructor; simpl.
      * eapply (Inv_advance H k r); try done; simpl.
        -- by apply head_advance.
        -- by rewrite list_insert_id.
      * lia.
      * apply delivers_nil.
      * done.
      * done.
    + split; simpl; [by rewrite app_nil_r|done].
Qed.

Lemma set_head_same r : set_head r (head_seq_num r) = r.
Proof. by destruct r. Qed.

(** The case [k = 0]: the frame at the head, if any, goes up. *)
Lemma release_head_progress H c :
  Inv H (c_r c) ->
  let j := reorder_index (c_r c) (head_seq_num (c_r c)) in
  let c1 := phl_release_reorder_frame c j in
  exists fs,
    progress H (c_r c) (H + 1) (c_r c1) fs /\ ctx_ext c c1 fs /\ c_timer c1 = c_timer c /\
    (buf_at (c_r c) j <> None -> stored_mpdu_num (c_r c1) = stored_mpdu_num (c_r c) - 1).
Proof.
  intros HI j c1. pose proof HI as [Hs _ _ Hh _ _].
  destruct (reorder_index_slot H (c_r c) H HI) as [Hj _]. rewrite <- Hh in Hj.
  destruct (release_frame_progress H 0 c j) as (fs&Hp&Hx&_&_&Hst); try done.
  { destruct Hs; lia. } { intros e He. lia. } { by rewrite Z.add_0_r. }
  fold c1 in Hp, Hx, Hst. rewrite !Z.add_0_r in *.
  assert (u16 (Z.land (head_seq_num (c_r c1)) SEQ_MASK) = head_seq_num (c_r c1)) as Eh.
  { assert (head_seq_num (c_r c1) = seq_inc (head_seq_num (c_r c))) as ->.
    { unfold c1, phl_release_reorder_frame. by destruct (buf_at _ _). }
    rewrite seq_inc_spec, land_mask, Z.mod_mod, u16_small by (lia || ulia). done. }
  rewrite Eh, set_head_same in Hp, Hst. exists fs. split_and!; try done.
  - unfold c1, phl_release_reorder_frame. by destruct (buf_at _ _).
  - intros Hb. by apply Hst.
Qed.

Lemma drain_loop_progress fuel H c :
  Inv H (c_r c) -> (length (stored (c_r c)) <= fuel)%nat ->
  exists c' H' fs,
    drain_loop fuel (reorder_index (c_r c) (head_seq_num (c_r c))) c = Some c' /\
    progress H (c_r c) H' (c_r c') fs /\ ctx_ext c c' fs /\ c_timer c' = c_timer c /\
    buf_at (c_r c') (reorder_index (c_r c') (head_seq_num (c_r c'))) = None.
Proof.
  revert H c. induction fuel as [|fuel IH]; intros H c HI Hf; simpl.
  all: destruct (buf_at (c_r c) _) as [p|] eqn:Eb.
  - pose proof (release_head_progress H c HI) as (fs&_&_&_&Hst).
    rewrite Eb in Hst. specialize (Hst ltac:(done)). exfalso.
    pose proof HI as [Hs _ _ Hh Hc _]. unfold stored in Hf.
    apply (somes_nil (reorder_buf (c_r c)) ltac:(lia)
             (slot_of (buf_size (c_r c)) H) p).
    destruct (reorder_index_slot H (c_r c) H HI) as [Hj _]. rewrite <- Hh in Hj.
    rewrite <- Hj, buf_at_lookup; [by rewrite Eb|]. rewrite Hj. apply slot_of_lt; [by apply size_pos|apply HI].
  - exists c, H, []. split_and!; try done; [by apply progress_refl|apply ctx_ext_refl].
  - destruct (release_head_progress H c HI) as (fs&Hp&Hx&Ht&Hst). rewrite Eb in Hst.
    specialize (Hst ltac:(done)). pose proof (pr_inv _ _ _ _ _ Hp) as HI1.
    destruct (IH (H + 1) _ HI1) as (c'&H'&fs'&E&Hp'&Hx'&Ht'&Hb').
    { pose proof (inv_cnt _ _ HI). pose proof (inv_cnt _ _ HI1). unfold stored in *. lia. }
    exists c', H', (fs ++ fs'). split_and!; try done.
    + by eapply progress_trans.
    + by eapply ctx_ext_trans.
    + by rewrite Ht'.
  - exists c, H, []. split_and!; try done; [by apply progress_refl|apply ctx_ext_refl].
Qed.

(** The frame in slot [i] has waited less than the timeout. *)
Definition young (cur_time : Z) (r : phl_tid_ampdu_rx) (i : nat) : Prop :=
  0 < s32 (u32 (nth i (reorder_time r) 0 + HT_RX_REORDER_BUF_TIMEOUT_MS - cur_time)).

Definition some_young (cur_time : Z) (r : phl_tid_ampdu_rx) : Prop :=
  exists i p, reorder_buf r !! i = Some (Some p) /\ young cur_time r i.

Lemma next_slot b H0 n : 0 < b -> ((H0 + n) mod b + 1) mod b = (H0 + (n + 1)) mod b.
Proof. intros. rewrite Zplus_mod_idemp_l. f_equal. lia. Qed.

Lemma loop_ends b H0 n : 0 < b -> 1 <= n <= b -> ((H0 + n) mod b =? H0 mod b) = (n =? b).
Proof.
  intros Hb Hn. destruct (Z.eqb_spec n b) as [->|Hne].
  - apply Z.eqb_eq. rewrite <- Z.add_mod_idemp_r, Z_mod_same_full, Z.add_0_r by lia. done.
  - apply Z.eqb_neq. intros E. apply (mod_eq_window b (H0 + n) H0 H0) in E; lia.
Qed.

(** After a whole turn every slot is empty. *)
Lemma empty_all H0 r : size_ok (buf_size r) -> Z.of_nat (length (reorder_buf r)) = buf_size r ->
  empty_upto H0 (buf_size r) r -> somes (reorder_buf r) = [].
Proof.
  intros [Hs _] Hl He.
  assert (forall i x, reorder_buf r !! i = Some x -> x = None) as Hn.
  { intros i x Hi. pose proof (lookup_lt_Some _ _ _ Hi). set (b := buf_size r) in *.
    assert (slot_of b (H0 + (Z.of_nat i - H0) mod b) = i) as E.
    { unfold slot_of. rewrite Zplus_mod_idemp_r.
      replace (H0 + (Z.of_nat i - H0)) with (Z.of_nat i) by lia. rewrite Z.mod_small by lia. lia. }
    pose proof (Z.mod_pos_bound (Z.of_nat i - H0) b).
    specialize (He (H0 + (Z.of_nat i - H0) mod b)). fold b in He. rewrite E, Hi in He.
    assert (Some x = Some None) as [=]; [apply He; lia|done]. }
  clear He Hl. induction (reorder_buf r) as [|x l IH]; [done|]. simpl.
  rewrite (Hn 0%nat x eq_refl). apply IH. intros i y Hy. by apply (Hn (S i)).
Qed.

Lemma empty_upto_snoc H0 n r r' :
  buf_size r' = buf_size r -> 0 < buf_size r -> Z.of_nat (length (reorder_buf r)) = buf_size r ->
  empty_upto H0 n r ->
  reorder_buf r' = <[slot_of (buf_size r) (H0 + n) := None]> (reorder_buf r) ->
  empty_upto H0 (n + 1) r'.
Proof.
  intros Eb Hpos Hl He Er e Hr. rewrite Er, Eb.
  destruct (decide (slot_of (buf_size r) e = slot_of (buf_size r) (H0 + n))) as [->|Hne].
  - apply list_lookup_insert_eq. by apply slot_of_lt.
  - rewrite list_lookup_insert_ne by done. apply He.
    assert (e <> H0 + n) by (intros ->; done). lia.
Qed.

(** How the loop ends: it stops at a young frame behind an empty head, or
    with nothing stored. *)
Definition loop_post (cur_time : Z) (c c' : rctx) (jump : bool) : Prop :=
  if jump
  then some_young cur_time (c_r c) /\ stored (c_r c') <> [] /\
       buf_at (c_r c') (reorder_index (c_r c') (head_seq_num (c_r c'))) = None
  else stored (c_r c') = [].

(** [run] started at [c] with the head at [H] returns, having made progress. *)
Definition loop_runs (cur_time H : Z) (c : rctx) (run : option (rctx * bool)) : Prop :=
  exists c' jump H' fs,
    run = Some (c', jump) /\
    progress H (c_r c) H' (c_r c') fs /\ ctx_ext c c' fs /\ c_timer c' = c_timer c /\
    loop_post cur_time c c' jump.

Lemma loop_done cur_time H0 H c :
  Inv H (c_r c) -> empty_upto H0 (buf_size (c_r c)) (c_r c) ->
  loop_runs cur_time H c (Some (c, false)).
Proof.
  intros HI He. exists c, false, H, []. split_and!; try done.
  - by apply progress_refl.
  - apply ctx_ext_refl.
  - apply (empty_all H0); [apply HI..|done].
Qed.

Lemma loop_stops_young cur_time H c i p :
  Inv H (c_r c) -> reorder_buf (c_r c) !! slot_of (buf_size (c_r c)) H = Some None ->
  reorder_buf (c_r c) !! i = Some (Some p) -> young cur_time (c_r c) i ->
  loop_runs cur_time H c (Some (c, true)).
Proof.
  intros HI He Hlk Hy. exists c, true, H, []. split_and!; try done.
  - by apply progress_refl.
  - apply ctx_ext_refl.
  - split_and!.
    + by exists i, p.
    + unfold stored. intros E0. by apply (somes_nil (reorder_buf (c_r c))) in Hlk; [|rewrite E0].
    + destruct (reorder_index_slot H (c_r c) H HI) as [Hi _]. rewrite <- (inv_head _ _ HI) in Hi.
      unfold buf_at. by rewrite Hi, nth_lookup, He.
Qed.

(** A release followed by the rest of the loop. *)
Lemma loop_runs_after cur_time H H1 c c1 fs k run :
  progress H (c_r c) H1 (c_r c1) fs -> ctx_ext c c1 fs -> c_timer c1 = c_timer c ->
  reorder_time (c_r c1) = reorder_time (c_r c) ->
  reorder_buf (c_r c1) = <[k := None]> (reorder_buf (c_r c)) ->
  loop_runs cur_time H1 c1 run -> loop_runs cur_time H c run.
Proof.
  intros Hp Hx Ht Htm Hbuf (c'&jump&H'&fs'&E&Hp'&Hx'&Ht'&Hpost).
  exists c', jump, H', (fs ++ fs'). split_and!; try done.
  - by eapply progress_trans.
  - by eapply ctx_ext_trans.
  - by rewrite Ht'.
  - destruct jump; [|done]. destruct Hpost as ((i&q&Hq&Hy)&?&?). split_and!; try done.
    exists i, q. unfold young in *. rewrite Htm in Hy. split; [|done].
    rewrite Hbuf in Hq. apply list_lookup_insert_Some in Hq as [(_&?&_)|[_ ?]]; done.
Qed.

Lemma release_frame_timer c j : c_timer (phl_release_reorder_frame c j) = c_timer c.
Proof. unfold phl_release_reorder_frame. by destruct (buf_at _ _). Qed.

Lemma timeout_loop_progress fuel cur_time H0 n H c :
  Inv H (c_r c) -> H0 <= H -> 1 <= n <= buf_size (c_r c) -> H <= H0 + n ->
  empty_upto H0 n (c_r c) -> (Z.to_nat (buf_size (c_r c) - n) <= fuel)%nat ->
  let b := buf_size (c_r c) in
  loop_runs cur_time H c (timeout_loop fuel cur_time (H0 mod b) ((H0 + n) mod b) (H0 + n - H) c).
Proof.
  revert n H c. induction fuel as [|fuel IH]; intros n H c HI HH Hn Hk He Hf; cbn zeta.
  all: pose proof (inv_len _ _ HI) as Hl; pose proof (size_pos _ (inv_size _ _ HI)) as Hpos.
  all: cbn [timeout_loop]; rewrite loop_ends by lia.
  all: destruct (Z.eqb_spec n (buf_size (c_r c))) as [En|En].
  1, 3: apply (loop_done _ H0); [done|by rewrite <- En].
  { lia. }
  set (j := (H0 + n) mod buf_size (c_r c)).
  assert (Z.to_nat j = slot_of (buf_size (c_r c)) (H0 + n)) as Hj by done.
  assert (Z.to_nat j < length (reorder_buf (c_r c)))%nat as Hjl by (rewrite Hj; by apply slot_of_lt).
  pose proof (buf_at_lookup (c_r c) j Hjl) as Hlk.
  assert ((j + 1) mod buf_size (c_r c) = (H0 + (n + 1)) mod buf_size (c_r c)) as -> by (by apply next_slot).
  destruct (buf_at (c_r c) j) as [p|] eqn:Eb.
  - destruct (negb (H0 + n - H =? 0) && _) eqn:Ey.
    + apply andb_true_iff in Ey as [Ez Ey].
      apply (loop_stops_young _ _ _ _ _ HI (He H ltac:(lia)) Hlk). unfold young. lia.
    + clear Ey. destruct (release_frame_progress H (H0 + n - H) c j) as (fs&Hp&Hx&Ht&_&Hst).
      { done. } { lia. } { intros e Hee. apply He. lia. }
      { by replace (H + (H0 + n - H)) with (H0 + n) by lia. }
      replace (H + (H0 + n - H)) with (H0 + n) in * by lia.
      destruct Hst as [_ Hbuf]; [by rewrite Eb|].
      pose proof (pr_size _ _ _ _ _ Hp) as Ebs. set (r2 := set_head _ _) in *.
      set (c1 := phl_release_reorder_frame c j) in *.
      eapply (loop_runs_after _ _ (H0 + n + 1) _ (Rctx r2 (c_frames c1) (c_recycled c1) (c_timer c1)));
        [exact Hp|done|apply release_frame_timer|done..|].
      specialize (IH (n + 1) (H0 + n + 1) (Rctx r2 (c_frames c1) (c_recycled c1) (c_timer c1))).
      cbn [c_r] in IH. rewrite Ebs in IH. cbv zeta in IH.
      replace (H0 + (n + 1) - (H0 + n + 1)) with 0 in IH by lia. apply IH; try lia.
      * apply Hp.
      * by apply (empty_upto_snoc H0 n (c_r c)).
  - replace (H0 + n - H + 1) with (H0 + (n + 1) - H) by lia. apply IH; try done; try lia.
    apply (empty_upto_snoc H0 n (c_r c)); try done. symmetry. apply list_insert_id.
    by rewrite <- Hj.
Qed.

Lemma stored_zero H r : Inv H r -> (stored_mpdu_num r =? 0) = true <-> stored r = [].
Proof.
  intros HI. rewrite (inv_cnt _ _ HI). unfold stored. split.
  - intros E. apply nil_length_inv. lia.
  - intros ->. done.
Qed.

(** What [phl_reorder_release] guarantees when it returns: either nothing is
    stored, or the head frame is missing and the timer runs. *)
Definition settled (c c' : rctx) : Prop :=
  stored (c_r c') = [] \/
  (buf_at (c_r c') (reorder_index (c_r c') (head_seq_num (c_r c'))) = None /\
   c_timer c' = if removed (c_r c') then c_timer c else true).

Lemma reorder_release_progress cur_time H c :
  Inv H (c_r c) ->
  exists c' H' fs,
    phl_reorder_release cur_time c = Some c' /\
    progress H (c_r c) H' (c_r c') fs /\ ctx_ext c c' fs /\ settled c c' /\
    (buf_at (c_r c) (reorder_index (c_r c) (head_seq_num (c_r c))) = None ->
     ~ some_young cur_time (c_r c) -> stored (c_r c') = []).
Proof.
  intros HI. pose proof HI as [Hs Hl Htl Hh Hc Hsl]. pose proof (size_pos _ Hs) as Hpos.
  unfold phl_reorder_release. cbv zeta.
  destruct (buf_at (c_r c) _) as [p|] eqn:Eb.
  - destruct (drain_loop_progress (length (reorder_buf (c_r c))) H c HI) as (c'&H'&fs&E&Hp&Hx&Ht&Hb).
    { apply somes_length. }
    rewrite E. simpl. pose proof (pr_inv _ _ _ _ _ Hp) as HI'.
    destruct (stored_mpdu_num (c_r c') =? 0) eqn:Ez; simpl.
    + exists c', H', fs. split_and!; try done. left. by apply (stored_zero H').
    + exists (arm_timer c'), H', fs. split_and!; try done. right. simpl. by rewrite Ht.
  - destruct (stored_mpdu_num (c_r c) =? 0) eqn:Ez; simpl.
    + exists c, H, []. pose proof (proj1 (stored_zero H _ HI) Ez) as E0.
      split_and!; try done; [by apply progress_refl|apply ctx_ext_refl|by left].
    + destruct (reorder_index_slot H (c_r c) H HI) as [Hi1 Hi2]. rewrite <- Hh in Hi1, Hi2.
      assert ((reorder_index (c_r c) (head_seq_num (c_r c)) + 1) mod buf_size (c_r c)
              = (H + 1) mod buf_size (c_r c)) as En by (by rewrite Hi2, Zplus_mod_idemp_l).
      rewrite En, Hi2.
      destruct (timeout_loop_progress (length (reorder_buf (c_r c))) cur_time H 1 H c)
        as (c'&jump&H'&fs&E&Hp&Hx&Ht&Hpost); try done; try lia.
      { intros e He. replace e with H by lia. rewrite <- Hi1, buf_at_lookup; [by rewrite Eb|].
        rewrite Hi1. by apply slot_of_lt. }
      replace (H + 1 - H) with 1 in E by lia. rewrite E. simpl.
      pose proof (pr_inv _ _ _ _ _ Hp) as HI'. destruct jump.
      * destruct Hpost as (Hy&Hne&Hb). exists (arm_timer c'), H', fs. split_and!; try done.
        right. simpl. by rewrite Ht.
      * rewrite (proj2 (stored_zero H' _ HI') Hpost). simpl. exists c', H', fs.
        split_and!; try done. by left.
Qed.

(** [release_loop] moves the head to [T] frame by frame, or stops because
    nothing is stored. *)
Lemma release_loop_progress fuel H T c :
  Inv H (c_r c) -> H <= T -> T - H < 2048 -> (Z.to_nat (T - H) <= fuel)%nat ->
  exists c' H' fs,
    release_loop fuel (T mod 4096) c = Some c' /\ H' <= T /\
    progress H (c_r c) H' (c_r c') fs /\ ctx_ext c c' fs /\ c_timer c' = c_timer c /\
    (H' = T \/ stored (c_r c') = []).
Proof.
  revert H c. induction fuel as [|fuel IH]; intros H c HI HT Hd Hf; cbn [release_loop].
  all: rewrite seq_less_spec, (inv_head _ _ HI).
  all: destruct (stored_mpdu_num (c_r c) =? 0) eqn:Ez; rewrite ?andb_false_r, ?andb_true_r.
  1, 3: exists c, H, []; split_and!; try done; [by apply progress_refl|apply ctx_ext_refl|right; by apply (stored_zero H)].
  all: destruct (Z.ltb_spec 2048 ((H mod 4096 - T mod 4096) mod 4096)) as [Hlt|Hge].
  - assert (T = H) by lia. subst. rewrite Z.sub_diag in Hlt. done.
  - assert (T = H) by lia. subst. exists c, H, []. split_and!; try done; [by apply progress_refl|apply ctx_ext_refl|by left].
  - rewrite <- (inv_head _ _ HI). simpl.
    destruct (release_head_progress H c HI) as (fs&Hp&Hx&Ht&_).
    assert (T <> H) by (intros ->; rewrite Z.sub_diag in Hlt; done).
    destruct (IH (H + 1) _ (pr_inv _ _ _ _ _ Hp)) as (c'&H'&fs'&E&?&Hp'&Hx'&Ht'&Hor); try lia.
    exists c', H', (fs ++ fs'). split_and!; try done.
    + by eapply progress_trans.
    + by eapply ctx_ext_trans.
    + by rewrite Ht'.
  - assert (T = H) by zlia. subst. exists c, H, []. simpl.
    split_and!; try done; [by apply progress_refl|apply ctx_ext_refl|by left].
Qed.

Lemma release_loop_stop fuel hseq c :
  (stored_mpdu_num (c_r c) =? 0) = true -> release_loop fuel hseq c = Some c.
Proof. intros E. destruct fuel; cbn [release_loop]; by rewrite E, andb_false_r. Qed.

(** With nothing stored the head can be put anywhere. *)
Lemma Inv_empty_head H T r h :
  Inv H r -> stored r = [] -> h = T mod 4096 -> Inv T (set_head r h).
Proof.
  intros [Hs Hl Htl Hh Hc Hsl] H0 ->. constructor; simpl; try done.
  intros i p Hp. exfalso. eapply (somes_nil (reorder_buf r)); [|exact Hp].
  unfold stored in H0. by rewrite H0.
Qed.

Lemma release_frames_progress H T c :
  Inv H (c_r c) -> H <= T -> T - H < 2048 \/ stored (c_r c) = [] ->
  exists c' fs,
    phl_release_reorder_frames (T mod 4096) c = Some c' /\
    progress H (c_r c) T (c_r c') fs /\ ctx_ext c c' fs /\ c_timer c' = c_timer c.
Proof.
  intros HI HT Hd. unfold phl_release_reorder_frames.
  assert (exists c' H' fs,
    release_loop 2048 (T mod 4096) c = Some c' /\ H' <= T /\
    progress H (c_r c) H' (c_r c') fs /\ ctx_ext c c' fs /\ c_timer c' = c_timer c /\
    (H' = T \/ stored (c_r c') = [])) as (c'&H'&fs&E&HT'&Hp&Hx&Ht&Hor).
  { destruct Hd as [Hd|Hd]; [apply release_loop_progress; [done..|lia]|].
    exists c, H, []. rewrite release_loop_stop by (by apply (stored_zero H)).
    split_and!; try done; [by apply progress_refl|apply ctx_ext_refl|by right]. }
  rewrite E. eexists _, fs. split; [reflexivity|]. split_and!; try done. simpl.
  destruct Hp as [HI' HL HD HP HS].
  assert (Inv T (set_head (c_r c') (T mod 4096))) as HIT.
  { destruct Hor as [->|H0]; [|by eapply Inv_empty_head].
    rewrite <- (inv_head _ _ HI'). by rewrite set_head_same. }
  constructor; try done. by eapply delivers_weaken; [..|exact HD].
Qed.

(** ** One received frame *)

(** The outcome of handling [pkt]: the frames handed up ([out], with [pkt]
    itself last when the caller hands it up), the frames recycled, and a
    session that still satisfies the invariant; nothing is lost. *)
Definition handled (H : Z) (c : rctx) (pkt : reorder_rx_pkt) (b : bool) (c' : rctx) : Prop :=
  exists H' fs dropped,
    c_frames c' = c_frames c ++ fs /\ c_recycled c' = c_recycled c ++ dropped /\
    Inv H' (c_r c') /\ H <= H' /\ sleep (c_r c') = false /\ removed (c_r c') = removed (c_r c) /\
    buf_size (c_r c') = buf_size (c_r c) /\
    delivers H H' (fs ++ if b then [] else [pkt]) /\
    ids (fs ++ if b then [] else [pkt]) ++ ids dropped ++ ids (stored (c_r c')) ≡ₚ
      key pkt :: ids (stored (c_r c)) /\
    (dropped = [] \/
     dropped = [pkt] /\ (2048 < (k_seq pkt - head_seq_num (c_r c)) mod 4096 \/
                         exists q, In q (ids (stored (c_r c))) /\ snd q = k_seq pkt)).

(** The second half of the function, from the window check on, at unbounded
    frame number [e]. *)
Lemma put_frame_progress cur_time T e c pkt :
  Inv T (c_r c) -> T <= e < T + buf_size (c_r c) -> k_seq pkt = e mod 4096 ->
  buf_at (c_r c) (reorder_index (c_r c) (k_seq pkt)) = None ->
  let index := reorder_index (c_r c) (k_seq pkt) in
  let r := c_r c in
  let r' := TidRx (<[Z.to_nat index := Some pkt]> (reorder_buf r))
              (<[Z.to_nat index := cur_time]> (reorder_time r)) (head_seq_num r)
              (u16 (stored_mpdu_num r + 1)) (ssn r) (buf_size r) (r_tid r) (started r)
              (removed r) (sleep r) in
  Inv T r' /\ ids (stored r') ≡ₚ key pkt :: ids (stored r) /\ sess_of r' = sess_of r.
Proof.
  intros HI He Hq Hb index r r'. fold r in HI, He, Hb. pose proof HI as [Hs Hl Htl Hh Hc Hsl].
  destruct (reorder_index_slot T r e HI) as [Hj _]. rewrite <- Hq in Hj.
  change (Z.to_nat index = slot_of (buf_size r) e) in Hj. change (buf_at r index = None) in Hb.
  assert (slot_of (buf_size r) e < length (reorder_buf r))%nat as Hlt.
  { apply slot_of_lt; [by apply size_pos|done]. }
  assert (reorder_buf r !! Z.to_nat index = Some None) as Hn.
  { rewrite buf_at_lookup; [by rewrite Hb|lia]. }
  pose proof (somes_add _ _ pkt Hn) as Hperm. split_and!; [|unfold stored, r'; simpl; by rewrite Hperm|done].
  constructor; simpl; try done.
  - by rewrite length_insert.
  - by rewrite !length_insert.
  - pose proof (Permutation_length Hperm) as Hlen. simpl in Hlen.
    pose proof (somes_length (reorder_buf r)). destruct Hs. rewrite Hc, u16_small; [lia|unfold is_u16; lia].
  - intros i p Hp. apply list_lookup_insert_Some in Hp as [(<-&Hp&_)|(Hne&Hp)]; [|by apply Hsl].
    simplify_eq. exists e. by rewrite Hj.
Qed.

Lemma In_ids_stored q c c' fs H H' :
  progress H (c_r c) H' (c_r c') fs -> In q (ids (stored (c_r c'))) -> In q (ids (stored (c_r c))).
Proof.
  intros [_ _ _ P _] Hin. rewrite <- !list_elem_of_In in *. rewrite <- P. set_solver.
Qed.

(** The window check moves the head so that frame [H0 + d] fits. *)
Lemma window_phase H0 d c pkt :
  Inv H0 (c_r c) -> 0 <= d <= 2048 -> k_seq pkt = (H0 + d) mod 4096 ->
  let B := buf_size (c_r c) in
  exists c1 T f1,
    (if negb (seq_less (k_seq pkt) (u16 (head_seq_num (c_r c) + B)))
     then phl_release_reorder_frames (seq_inc (seq_sub (k_seq pkt) B)) c else Some c) = Some c1 /\
    progress H0 (c_r c) T (c_r c1) f1 /\ ctx_ext c c1 f1 /\ T <= H0 + d < T + B.
Proof.
  intros HI Hd Hq B. pose proof (inv_size _ _ HI) as [Hsz _]. fold B in Hsz.
  rewrite seq_less_spec, (inv_head _ _ HI), Hq, (u16_small (_ + B)) by (unfold is_u16; zlia).
  destruct (Z.leb_spec B d) as [HB|HB].
  - rewrite (proj2 (Z.ltb_ge _ _)) by zlia. simpl.
    destruct (release_frames_progress H0 (H0 + d - B + 1) c) as (c1&f1&E&Hp&Hx&_); try done; try lia.
    rewrite seq_inc_spec, seq_sub_spec.
    exists c1, (H0 + d - B + 1), f1. split_and!; try done; try lia.
    rewrite <- E. f_equal. zlia.
  - rewrite (proj2 (Z.ltb_lt _ _)) by zlia. exists c, H0, []. simpl. split_and!; try done; try lia.
    + by apply progress_refl.
    + apply ctx_ext_refl.
Qed.

(** An occupied slot for frame number [e] of the window holds that number. *)
Lemma occupied_same T e r q :
  Inv T r -> T <= e < T + buf_size r -> buf_at r (reorder_index r (e mod 4096)) = Some q ->
  In (key q) (ids (stored r)) /\ k_seq q = e mod 4096.
Proof.
  intros HI He Eb. destruct (reorder_index_slot T r e HI) as [Hj _].
  assert (reorder_buf r !! slot_of (buf_size r) e = Some (Some q)) as Hlk.
  { rewrite <- Hj, buf_at_lookup; [by rewrite Eb|]. rewrite Hj.
    apply slot_of_lt; [apply size_pos|]; apply HI. }
  split.
  - apply in_map. apply somes_remove in Hlk. apply list_elem_of_In. unfold stored. rewrite Hlk. left.
  - destruct (inv_slot _ _ HI _ _ Hlk) as (e'&He'&Hqe&Hse).
    apply (slot_of_inj _ _ _ T) in Hse; [by subst e'|lia..].
Qed.

(** The three ways the second half of the function ends, after a window phase
    from [c] to [c1]. *)
Section InsertCases.
Context (H0 T : Z) (c c1 : rctx) (f1 : list reorder_rx_pkt) (pkt : reorder_rx_pkt).
Context (Hp1 : progress H0 (c_r c) T (c_r c1) f1) (Hx1 : ctx_ext c c1 f1).
Context (Hsl : sleep (c_r c) = false).

Lemma window_session :
  buf_size (c_r c1) = buf_size (c_r c) /\ removed (c_r c1) = removed (c_r c) /\ sleep (c_r c1) = false.
Proof using Hp1 Hsl.
  pose proof (pr_sess _ _ _ _ _ Hp1) as E. unfold sess_of in E. split_and!; congruence.
Qed.

Lemma duplicate_handled q :
  In (key q) (ids (stored (c_r c1))) -> k_seq q = k_seq pkt ->
  handled H0 c pkt true (recycle c1 pkt).
Proof using Hp1 Hx1 Hsl.
  intros Hin Hsq. destruct window_session as (EB&ER&ES). destruct Hx1 as [Ef1 Er1].
  destruct Hp1 as [HI1 HL HD HP _]. exists T, f1, [pkt]. simpl. rewrite Er1, app_nil_r.
  split_and!; try done.
  - rewrite <- HP. simpl. symmetry. apply Permutation_middle.
  - right. split; [done|]. right. exists (key q). split; [|done]. by eapply In_ids_stored.
Qed.

Lemma direct_handled :
  k_seq pkt = T mod 4096 -> stored (c_r c1) = [] ->
  handled H0 c pkt false (with_r c1 (set_head (c_r c1) (seq_inc (head_seq_num (c_r c1))))).
Proof using Hp1 Hx1 Hsl.
  intros Hq Ez. destruct window_session as (EB&ER&ES). destruct Hx1 as [Ef1 Er1].
  destruct Hp1 as [HI1 HL HD HP _]. exists (T + 1), f1, []. simpl.
  rewrite Ef1, Er1, app_nil_r. split_and!; try done; try lia.
  - eapply Inv_empty_head; [done..|]. rewrite (inv_head _ _ HI1), seq_inc_spec. zlia.
  - eapply delivers_app; [exact HL|lia|done|]. apply (delivers_one _ _ _ T); [lia|done].
  - rewrite <- HP. unfold stored, ids in *. rewrite map_app. simpl in *. rewrite Ez. simpl.
    rewrite !app_nil_r. symmetry. apply Permutation_cons_append.
  - by left.
Qed.

Lemma stored_handled cur_time r2 :
  Inv T r2 -> ids (stored r2) ≡ₚ key pkt :: ids (stored (c_r c1)) -> sess_of r2 = sess_of (c_r c1) ->
  exists c3, phl_reorder_release cur_time (with_r c1 r2) = Some c3 /\ handled H0 c pkt true c3.
Proof using Hp1 Hx1 Hsl.
  intros HI2 HP2 HS2. destruct window_session as (EB&ER&ES). destruct Hx1 as [Ef1 Er1].
  destruct Hp1 as [HI1 HL HD HP _].
  destruct (reorder_release_progress cur_time T (with_r c1 r2) HI2) as (c3&H'&f3&E3&Hp3&[Ef3 Er3]&_).
  exists c3. split; [done|]. exists H', (f1 ++ f3), []. destruct Hp3 as [HI3 HL3 HD3 HP3 HS3].
  simpl in Ef3, Er3, HP3, HS3. rewrite Ef3, Er3, Ef1, Er1, !app_nil_r.
  assert (sess_of (c_r c3) = sess_of (c_r c1)) as HS by congruence. unfold sess_of in HS.
  injection HS as EB' _ _ _ ER' ES'.
  split_and!; try done; try lia; try congruence.
  - by rewrite (assoc_L app).
  - by eapply delivers_app.
  - simpl. unfold ids in *. rewrite map_app, <- (assoc_L app), HP3, HP2, <- HP.
    symmetry. apply Permutation_middle.
  - by left.
Qed.

End InsertCases.

(** From the window check on, with the head at [H0] and the frame at [H0 + d]. *)
Lemma insert_phase cur_time H0 d c pkt :
  Inv H0 (c_r c) -> 0 <= d <= 2048 -> k_seq pkt = (H0 + d) mod 4096 -> sleep (c_r c) = false ->
  exists b c',
    (c ← (if negb (seq_less (k_seq pkt) (u16 (head_seq_num (c_r c) + buf_size (c_r c))))
          then phl_release_reorder_frames (seq_inc (seq_sub (k_seq pkt) (buf_size (c_r c)))) c
          else Some c);
     let r := c_r c in
     let index := reorder_index r (k_seq pkt) in
     match buf_at r index with
     | Some _ => Some (true, recycle c pkt)
     | None =>
       if (k_seq pkt =? head_seq_num r) && (stored_mpdu_num r =? 0)
       then Some (false, with_r c (set_head r (seq_inc (head_seq_num r))))
       else
         let r := TidRx (<[Z.to_nat index := Some pkt]> (reorder_buf r))
                    (<[Z.to_nat index := cur_time]> (reorder_time r)) (head_seq_num r)
                    (u16 (stored_mpdu_num r + 1)) (ssn r) (buf_size r) (r_tid r) (started r)
                    (removed r) (sleep r) in
         c ← phl_reorder_release cur_time (with_r c r);
         Some (true, c)
     end) = Some (b, c') /\ handled H0 c pkt b c'.
Proof.
  intros HI Hd Hq Hsl. destruct (window_phase H0 d c pkt HI Hd Hq) as (c1&T&f1&E1&Hp1&Hx1&Hw).
  rewrite E1. cbn [mbind option_bind]. cbv zeta. clear E1.
  pose proof (pr_inv _ _ _ _ _ Hp1) as HI1. rewrite <- (pr_size _ _ _ _ _ Hp1) in Hw.
  destruct (buf_at (c_r c1) (reorder_index (c_r c1) (k_seq pkt))) as [q|] eqn:Eb.
  - rewrite Hq in Eb. destruct (occupied_same T _ _ q HI1 Hw Eb) as [Hin Hsq].
    eexists _, _. split; [done|]. eapply duplicate_handled; try done. by rewrite Hq.
  - destruct ((k_seq pkt =? head_seq_num (c_r c1)) && (stored_mpdu_num (c_r c1) =? 0)) eqn:Ed.
    + apply andb_true_iff in Ed as [Eq Ez]. apply (stored_zero T _ HI1) in Ez.
      apply Z.eqb_eq in Eq. rewrite (inv_head _ _ HI1) in Eq.
      eexists _, _. split; [done|]. by eapply direct_handled.
    + destruct (put_frame_progress cur_time T (H0 + d) c1 pkt HI1) as (HI2&HP2&HS2); [done..|].
      destruct (stored_handled H0 T c c1 f1 pkt Hp1 Hx1 Hsl cur_time _ HI2 HP2 HS2) as (c3&E3&Hh).
      rewrite E3. by eexists _, _.
Qed.

Lemma Inv_flags H r a b c : Inv H r -> Inv H (set_flags r a b c).
Proof. intros [? ? ? ? ? ?]. by constructor. Qed.

(** A frame before the start of a session that has not started yet. *)
Definition early (r : phl_tid_ampdu_rx) (pkt : reorder_rx_pkt) : bool :=
  negb (started r) && seq_less (k_seq pkt) (head_seq_num r).

Lemma handled_from H H0 c c1 pkt b c' :
  H <= H0 -> c_frames c1 = c_frames c -> c_recycled c1 = c_recycled c ->
  stored (c_r c1) = stored (c_r c) -> removed (c_r c1) = removed (c_r c) ->
  buf_size (c_r c1) = buf_size (c_r c) ->
  head_seq_num (c_r c1) = head_seq_num (c_r c) \/ head_seq_num (c_r c1) = k_seq pkt ->
  handled H0 c1 pkt b c' -> handled H c pkt b c'.
Proof.
  intros HH E1 E2 E3 E4 E5 Eh (H'&fs&dr&A1&A2&A3&A4&A5&A6&A7&A8&A9&A10).
  exists H', fs, dr. rewrite E1 in A1. rewrite E2 in A2. rewrite E3 in A9, A10.
  split_and!; try done; try congruence; try lia.
  - by eapply delivers_weaken; [| |exact A8]; [lia|lia].
  - destruct A10 as [?|[? [?|?]]]; [by left|right..]; split; try done; [|by right].
    destruct Eh as [Eh|Eh]; rewrite Eh in *; [by left|]. rewrite Z.sub_diag in *. done.
Qed.

Lemma manage_handled cur_time H c pkt :
  Inv H (c_r c) -> 0 <= k_seq pkt < 4096 -> (sleep (c_r c) = true -> stored (c_r c) = []) ->
  if early (c_r c) pkt
  then phl_manage_sta_reorder_buf cur_time pkt c = Some (false, c)
  else exists b c', phl_manage_sta_reorder_buf cur_time pkt c = Some (b, c') /\ handled H c pkt b c'.
Proof.
  intros HI Hq Hsl. unfold phl_manage_sta_reorder_buf. cbv zeta. fold (early (c_r c) pkt).
  destruct (early (c_r c) pkt) eqn:Ee; [done|]. cbn [c_r with_r set_flags sleep].
  set (c1 := with_r c (set_flags (c_r c) true (removed (c_r c)) (sleep (c_r c)))).
  pose proof (inv_head _ _ HI) as Hh.
  destruct (sleep (c_r c)) eqn:Es.
  - set (c2 := with_r c1 _). rewrite seq_less_spec, Z.sub_diag. cbn [Z.ltb Z.compare Z.modulo].
    assert (Inv (H + (k_seq pkt - H) mod 4096) (c_r c2)) as HI2.
    { simpl. apply (Inv_flags _ (set_head _ _)).
      apply (Inv_empty_head H); [by apply (Inv_flags H)|by apply Hsl|zlia]. }
    destruct (insert_phase cur_time (H + (k_seq pkt - H) mod 4096) 0 c2 pkt) as (b&c'&E&Hh').
    { done. } { lia. } { zlia. } { done. }
    exists b, c'. split; [exact E|].
    pose proof (Z.mod_pos_bound (k_seq pkt - H) 4096).
    eapply (handled_from H _ c c2); [|done..|by right|exact Hh']. lia.
  - cbn iota beta. rewrite seq_less_spec. destruct (Z.ltb_spec 2048 ((k_seq pkt - head_seq_num (c_r c)) mod 4096)) as [Ho|Ho].
    + exists true, (recycle c1 pkt). split; [done|]. exists H, [], [pkt]. simpl.
      rewrite app_nil_r. split_and!; try done.
      * by apply (Inv_flags H).
      * apply delivers_nil.
      * right. split; [done|]. by left.
    + destruct (insert_phase cur_time H ((k_seq pkt - head_seq_num (c_r c)) mod 4096) c1 pkt)
        as (b&c'&E&Hh').
      { by apply (Inv_flags H). } { zlia. } { rewrite Hh. zlia. } { done. }
      exists b, c'. split; [exact E|].
      eapply (handled_from H H c c1); [lia|done..|by left|exact Hh'].
Qed.

(** ** Sessions as sequences of events *)

Inductive sess_op :=
  | SRx (cur_time : Z) (pkt : reorder_rx_pkt)
  | STimer (cur_time : Z)
  | SBar (seq : Z)
  | SSleep.

(** A session with what it received and what became of it; frames that
    precede the start of the session are handed up untouched and not counted. *)
Record sess := Sess {
  s_r : phl_tid_ampdu_rx;
  s_in : list reorder_rx_pkt;
  s_out : list reorder_rx_pkt;
  s_drop : list reorder_rx_pkt
}.

Definition session_step (s : sess) (o : sess_op) : option sess :=
  let c := Rctx (s_r s) [] [] false in
  match o with
  | SRx cur_time pkt =>
    '(b, c') ← phl_manage_sta_reorder_buf cur_time pkt c;
    Some (if early (s_r s) pkt then s
          else Sess (c_r c') (s_in s ++ [pkt])
                 (s_out s ++ c_frames c' ++ if b : bool then [] else [pkt])
                 (s_drop s ++ c_recycled c'))
  | STimer cur_time =>
    c' ← phl_reorder_release cur_time c;
    Some (Sess (c_r c') (s_in s) (s_out s ++ c_frames c') (s_drop s))
  | SBar seq =>
    if seq_less seq (head_seq_num (s_r s)) then Some s
    else c' ← phl_release_reorder_frames seq c;
         Some (Sess (c_r c') (s_in s) (s_out s ++ c_frames c') (s_drop s))
  | SSleep =>
    Some (Sess (set_flags (s_r s) (started (s_r s)) (removed (s_r s)) true)
            (s_in s) (s_out s) (s_drop s))
  end.

(** Sequence numbers have 12 bits; the system sleeps with an empty buffer, and
    a BAR does not point exactly half the sequence space ahead of a buffer
    that still holds frames. *)
Definition op_ok (r : phl_tid_ampdu_rx) (o : sess_op) : Prop :=
  match o with
  | SRx _ pkt => 0 <= k_seq pkt < 4096
  | STimer _ => True
  | SBar seq => 0 <= seq < 4096 /\
                ((seq - head_seq_num r) mod 4096 = 2048 -> stored r = [])
  | SSleep => stored r = []
  end.

Inductive sess_reach (r0 : phl_tid_ampdu_rx) : sess -> Prop :=
  | reach_start : sess_reach r0 (Sess r0 [] [] [])
  | reach_step s o s' :
      sess_reach r0 s -> op_ok (s_r s) o -> session_step s o = Some s' -> sess_reach r0 s'.

Definition SInv (start : Z) (s : sess) : Prop :=
  exists H, Inv H (s_r s) /\ start <= H /\ delivers start H (s_out s) /\
    ids (s_out s) ++ ids (s_drop s) ++ ids (stored (s_r s)) ≡ₚ ids (s_in s) /\
    (sleep (s_r s) = true -> stored (s_r s) = []).

Lemma SInv_progress start s H c' H' fs r :
  SInv start s -> Inv H (s_r s) -> delivers start H (s_out s) -> start <= H ->
  progress H (s_r s) H' r fs -> c_frames c' = fs -> c_r c' = r ->
  SInv start (Sess (c_r c') (s_in s) (s_out s ++ c_frames c') (s_drop s)).
Proof.
  intros (_&_&_&_&P&S) HI HD HL [HI' HL' HD' HP' HS'] -> ->. exists H'. simpl.
  split_and!; try done; try lia.
  - by eapply delivers_app.
  - unfold ids in *. rewrite <- P, <- HP', map_app. solve_Permutation.
  - unfold sess_of in HS'. intros Hs. assert (sleep (s_r s) = true) as H0 by congruence.
    apply S in H0. rewrite H0 in HP'. apply Permutation_nil_r in HP'.
    apply app_nil in HP' as [_ E]. by apply map_eq_nil in E.
Qed.

Lemma session_step_total start s o :
  SInv start s -> op_ok (s_r s) o -> exists s', session_step s o = Some s' /\ SInv start s'.
Proof.
  intros HS Hok. pose proof HS as (H&HI&HL&HD&HP&Hsl). destruct o as [cur pkt|cur|seq|]; simpl in Hok.
  - pose proof (manage_handled cur H (Rctx (s_r s) [] [] false) pkt HI Hok Hsl) as Hm.
    unfold session_step. cbv zeta. cbn [c_r] in Hm. destruct (early (s_r s) pkt).
    + rewrite Hm. by exists s.
    + destruct Hm as (b&c'&E&Hh). rewrite E. eexists. split; [done|].
      destruct Hh as (H'&fs&dr&A1&A2&A3&A4&A5&A6&A7&A8&A9&A10). exists H'. simpl in *.
      rewrite A1, A2. split_and!; try done; try lia; [|..|congruence].
      * by eapply delivers_app.
      * unfold ids in *. rewrite !map_app in *. simpl.
        transitivity (map key (s_out s) ++ map key (s_drop s) ++
          ((map key fs ++ map key (if b then [] else [pkt])) ++ map key dr ++ map key (stored (c_r c'))));
          [solve_Permutation|]. rewrite A9, <- HP. solve_Permutation.
  - destruct (reorder_release_progress cur H (Rctx (s_r s) [] [] false) HI)
      as (c'&H'&fs&E&Hp&[Hx _]&_). cbn [c_r c_frames] in *. rewrite app_nil_l in Hx.
    simpl. rewrite E. eexists. split; [done|]. by eapply SInv_progress.
  - destruct Hok as [Hq Hh]. unfold session_step. cbv zeta. rewrite seq_less_spec.
    destruct (Z.ltb_spec 2048 ((seq - head_seq_num (s_r s)) mod 4096)) as [?|Hge]; [by exists s|].
    pose proof (inv_head _ _ HI) as Hhd.
    set (T := H + (seq - head_seq_num (s_r s)) mod 4096).
    pose proof (Z.mod_pos_bound (seq - head_seq_num (s_r s)) 4096).
    destruct (release_frames_progress H T (Rctx (s_r s) [] [] false)) as (c'&fs&E&Hp&[Hx _]&_).
    { done. } { lia. }
    { destruct (decide ((seq - head_seq_num (s_r s)) mod 4096 = 2048)); [right; by apply Hh|left; lia]. }
    assert (T mod 4096 = seq) as ET by (unfold T; rewrite Hhd; zlia).
    rewrite ET in E. cbn [c_r c_frames] in *. rewrite app_nil_l in Hx. rewrite E.
    eexists. split; [done|]. by eapply SInv_progress.
  - eexists. split; [done|]. exists H. simpl. split_and!; try done. by apply Inv_flags.
Qed.

Lemma Inv_alloc b start tid r :
  size_ok b -> 0 <= start < 4096 -> phl_tid_ampdu_rx_alloc true start tid b = Some r ->
  Inv start r /\ stored r = [] /\ sleep r = false.
Proof.
  intros Hb Hs [= <-]. assert (forall n, somes (replicate n None) = []) as Hn.
  { intros n. by induction n. }
  split_and!; [|apply Hn|done]. pose proof (size_pos b Hb).
  constructor; simpl; try done.
  - rewrite length_replicate. lia.
  - by rewrite !length_replicate.
  - zlia.
  - by rewrite Hn.
  - intros i p Hp. apply lookup_replicate in Hp as [? _]. done.
Qed.

Lemma reach_SInv b start tid r s :
  size_ok b -> 0 <= start < 4096 -> phl_tid_ampdu_rx_alloc true start tid b = Some r ->
  sess_reach r s -> SInv start s.
Proof.
  intros Hb Hs Ha Hr. destruct (Inv_alloc b start tid r Hb Hs Ha) as (HI&H0&Hsl).
  induction Hr as [|s o s' Hr IH Hok Hst].
  - exists start. simpl. rewrite H0. split_and!; try done; apply delivers_nil.
  - destruct (session_step_total start s o IH Hok) as (s1&E&?). congruence.
Qed.


(** A test frame: identity and sequence number. *)
Definition tp (id seq : Z) : reorder_rx_pkt :=
  RxPkt id (RMeta seq 0 0 false false true false false 0 true false false false false 0 0 0 false)
    100 None.

Definition demo_sess : phl_tid_ampdu_rx :=
  TidRx (replicate 8 None) (replicate 8 0) 4094 0 4094 8 0 false false false.

Lemma size_ok_8 : size_ok 8.
Proof. split; [lia|]. by exists 512. Qed.


(** C30. No frame waits for ever: in a session that satisfies the window
    invariant, [phl_reorder_release] terminates and leaves either nothing
    stored, or a missing head frame with the timer armed (unless the session
    is being removed); and when the head frame is missing at the call and every
    stored frame has waited the timeout, it hands up all of them.  (With the
    head frame present it hands up the run of frames to the next gap.) *)
Theorem reorder_release_flushes cur_time H c :
  Inv H (c_r c) ->
  exists c', phl_reorder_release cur_time c = Some c' /\
    (stored (c_r c') = [] \/
     buf_at (c_r c') (reorder_index (c_r c') (head_seq_num (c_r c'))) = None /\
     c_timer c' = (if removed (c_r c') then c_timer c else true)) /\
    (buf_at (c_r c) (reorder_index (c_r c) (head_seq_num (c_r c))) = None ->
     (forall i p, reorder_buf (c_r c) !! i = Some (Some p) ->
        s32 (u32 (nth i (reorder_time (c_r c)) 0 + HT_RX_REORDER_BUF_TIMEOUT_MS - cur_time)) <= 0) ->
     stored (c_r c') = [] /\
     exists fs, c_frames c' = c_frames c ++ fs /\ ids fs ≡ₚ ids (stored (c_r c))).
Proof.
  intros HI. destruct (reorder_release_progress cur_time H c HI) as (c'&H'&fs&E&Hp&[Hx _]&Hs&Hy).
  exists c'. split_and!; [done|done|]. intros Hb Hold.
  assert (stored (c_r c') = []) as H0.
  { apply Hy; [done|]. intros (i&p&Hi&Hyo). specialize (Hold i p Hi). unfold young in Hyo. lia. }
  split; [done|]. exists fs. split; [done|]. destruct Hp as [_ _ _ HP _].
  rewrite H0, app_nil_r in HP. done.
Qed.

Definition one_stored : phl_tid_ampdu_rx :=
  TidRx (<[2%nat := Some (tp 7 10)]> (replicate 8 None)) (<[2%nat := 1000]> (replicate 8 0))
    8 1 0 8 0 true false false.

Lemma one_stored_inv : Inv 8 one_stored.
Proof.
  constructor; try (vm_compute; reflexivity); [apply size_ok_8|].
  intros i p Hp. unfold one_stored in Hp. cbn [reorder_buf] in Hp.
  apply list_lookup_insert_Some in Hp as [(<-&Hp&_)|(_&Hp)].
  - simplify_eq. exists 10. vm_compute. split_and!; congruence.
  - apply lookup_replicate in Hp as [? _]. done.
Qed.

Lemma reorder_release_flushes_witness :
  exists c', phl_reorder_release 1500 (Rctx one_stored [] [] false) = Some c' /\
    stored (c_r c') = [].
Proof.
  destruct (reorder_release_flushes 1500 8 (Rctx one_stored [] [] false) one_stored_inv)
    as (c'&E&_&Hf).
  exists c'. split; [exact E|]. apply Hf; [reflexivity|].
  intros i p Hp. unfold one_stored in Hp. cbn [c_r reorder_buf] in Hp.
  apply list_lookup_insert_Some in Hp as [(<-&_&_)|(_&Hp)]; [vm_compute; congruence|].
  apply lookup_replicate in Hp as [? _]. done.
Defined.

(** What happens to one received frame: it is recycled only when its
    sequence number lies behind the window or a frame with the same sequence
    number is stored; otherwise it is handed up or stored, and what is handed
    up with it goes in order. *)
Theorem manage_reorder_verdict cur_time H c pkt :
  Inv H (c_r c) -> 0 <= k_seq pkt < 4096 -> (sleep (c_r c) = true -> stored (c_r c) = []) ->
  if negb (started (c_r c)) && seq_less (k_seq pkt) (head_seq_num (c_r c))
  then phl_manage_sta_reorder_buf cur_time pkt c = Some (false, c)
  else exists b c', phl_manage_sta_reorder_buf cur_time pkt c = Some (b, c') /\ handled H c pkt b c'.
Proof. apply manage_handled. Qed.

Lemma manage_reorder_verdict_witness :
  exists b c', phl_manage_sta_reorder_buf 1100 (tp 8 8) (Rctx one_stored [] [] false) = Some (b, c') /\
    handled 8 (Rctx one_stored [] [] false) (tp 8 8) b c'.
Proof.
  exact (manage_reorder_verdict 1100 8 (Rctx one_stored [] [] false) (tp 8 8) one_stored_inv
           ltac:(vm_compute; split; congruence) ltac:(vm_compute; congruence)).
Defined.

Definition sess_run (s : sess) (ops : list sess_op) : option sess :=
  fold_left (fun a o => s ← a; session_step s o) ops (Some s).

(** The sequence numbers handed up, recycled and stored. *)
Definition sess_report (s : sess) : list Z * list Z * list Z :=
  (map k_seq (s_out s), map k_seq (s_drop s), map k_seq (stored (s_r s))).

(** A session put to sleep while a frame is stored loses fresh frames:
    frame 10 waits for 8 and 9 when the session goes to sleep; after the wake-up
    with frame 100 the timer hands up 10 behind 100 and moves the head over
    sequence numbers that have not arrived, so the next frame in order, 101,
    is recycled as out of date. *)
Theorem sleep_with_stored_frames_drops :
  option_map sess_report
    (sess_run (Sess one_stored [] [] [])
       [SSleep; SRx 2000 (tp 1 100); STimer 2500; SRx 2501 (tp 2 101)]) =
  Some ([100; 10], [101], []).
Proof. vm_compute. reflexivity. Qed.

(** The slots need a buffer size that divides the sequence space: with a
    size of 48, frame 10 lies in the window that starts at 4089 but has the
    slot of frame 4090, and is recycled as a duplicate of it. *)
Theorem odd_buffer_size_collides :
  let r := TidRx (replicate 48 None) (replicate 48 0) 4089 0 4089 48 0 true false false in
  seq_less 10 (4089 + 48) = true /\
  option_map sess_report
    (sess_run (Sess r [] [] []) [SRx 0 (tp 1 4090); SRx 1 (tp 2 10)]) =
  Some ([], [10], [4090]).
Proof. vm_compute. split; reflexivity. Qed.

(** ** The whole receive path *)

Definition opt_stored (o : option phl_tid_ampdu_rx) : list reorder_rx_pkt :=
  match o with Some r => stored r | None => [] end.

Definition sta_stored (s : stainfo) : list reorder_rx_pkt := tid_rx s ≫= opt_stored.

(** All packets the receive path holds or has let go. *)
Definition w_keys (w : rx_world) : list (Z * Z) :=
  ids (w_frames w) ++ ids (w_recycled w) ++
  (map_to_list (w_sta w) ≫= fun kv => ids (sta_stored (snd kv))).

Definition sess_ok (r : phl_tid_ampdu_rx) : Prop :=
  (exists H, Inv H r) /\ (sleep r = true -> stored r = []).

Definition sta_ok (s : stainfo) : Prop :=
  forall t r, tid_rx s !! t = Some (Some r) -> sess_ok r.

Definition world_ok (w : rx_world) : Prop := forall p s, w_sta w !! p = Some s -> sta_ok s.

Lemma bind_insert {A B} (f : A -> list B) l t x y :
  l !! t = Some y -> (<[t := x]> l ≫= f) ++ f y ≡ₚ (l ≫= f) ++ f x.
Proof.
  revert t. induction l as [|z l IH]; intros [|t] H; simplify_eq/=; [solve_Permutation|].
  change (mbind f) with (list_bind _ _ f) in *.
  rewrite <- !(assoc_L app), (IH t H). done.
Qed.

Lemma stations_insert (m : gmap Z stainfo) p s s' :
  m !! p = Some s ->
  let f := fun kv : Z * stainfo => ids (sta_stored (snd kv)) in
  (map_to_list (<[p := s']> m) ≫= f) ++ ids (sta_stored s) ≡ₚ
  (map_to_list m ≫= f) ++ ids (sta_stored s').
Proof.
  intros Hm f. rewrite <- (insert_delete_eq m p s').
  rewrite (map_to_list_insert (delete p m)) by (by rewrite lookup_delete_eq).
  rewrite <- (map_to_list_delete m p s Hm), !bind_cons. simpl. solve_Permutation.
Qed.

(** Replacing session [t] of station [p] by [r'], when that accounts for the
    frames [extra]. *)
Lemma set_session_keys (m : gmap Z stainfo) p s t r r' timer st extra :
  m !! p = Some s -> tid_rx s !! t = Some (Some r) ->
  extra ++ ids (stored r') ≡ₚ ids (stored r) ++ st ->
  let f := fun kv : Z * stainfo => ids (sta_stored (snd kv)) in
  extra ++ (map_to_list (<[p := set_session s t (Some r') timer]> m) ≫= f) ≡ₚ
  (map_to_list m ≫= f) ++ st.
Proof.
  intros Hm Ht HP f. pose proof (stations_insert m p s (set_session s t (Some r') timer) Hm) as E1.
  cbv zeta in E1. fold f in E1.
  pose proof (bind_insert opt_stored (tid_rx s) t (Some r') (Some r) Ht) as E2.
  change (<[t := Some r']> (tid_rx s) ≫= opt_stored)
    with (sta_stored (set_session s t (Some r') timer)) in E2.
  change (tid_rx s ≫= opt_stored) with (sta_stored s) in E2.
  apply (Permutation_map key) in E2. rewrite !map_app in E2. simpl in E2.
  unfold ids in *.
  set (A := map_to_list (<[p:=_]> m) ≫= f) in *. set (B := map_to_list m ≫= f) in *.
  set (S := map key (sta_stored s)) in *. set (S' := map key (sta_stored (set_session _ _ _ _))) in *.
  set (R := map key (stored r)) in *. set (R' := map key (stored r')) in *.
  apply (Permutation_app_inv_r (S ++ R')).
  transitivity ((A ++ S) ++ (extra ++ R')); [solve_Permutation|]. rewrite E1, HP.
  transitivity (B ++ (S' ++ R) ++ st); [solve_Permutation|]. rewrite E2. solve_Permutation.
Qed.

Lemma sess_ok_handled H c pkt b c' : handled H c pkt b c' -> sess_ok (c_r c').
Proof.
  intros (H'&fs&dr&_&_&HI&_&Hs&_). split; [by exists H'|]. rewrite Hs. done.
Qed.

Lemma world_ok_insert w p s fs rc :
  world_ok w -> sta_ok s -> world_ok (RxWorld (<[p := s]> (w_sta w)) fs rc).
Proof.
  intros Hw Hs q s' Hq. simpl in Hq. apply lookup_insert_Some in Hq as [[_ <-]|[_ ?]]; [done|].
  by apply (Hw q).
Qed.

Lemma sta_ok_session s t r timer : sta_ok s -> sess_ok r -> sta_ok (set_session s t (Some r) timer).
Proof.
  intros Hs Hr t' r' Ht. simpl in Ht. apply list_lookup_insert_Some in Ht as [(_&?&_)|(_&?)].
  - by simplify_eq.
  - by eapply Hs.
Qed.

(** The result of one call: a state in which nothing is lost. *)
Definition reorder_keeps (w : rx_world) (p : reorder_rx_pkt) (o : option (rtw_phl_status * rx_world)) : Prop :=
  exists st w', o = Some (st, w') /\ world_ok w' /\ w_keys w' ≡ₚ key p :: w_keys w.

Lemma dont_reorder_keeps w p q : world_ok w -> key q = key p -> reorder_keeps w p (dont_reorder w q).
Proof.
  intros Hw E. eexists _, _. split; [done|]. split; [done|]. unfold w_keys, ids. simpl.
  rewrite map_app. simpl. rewrite E. solve_Permutation.
Qed.

(** Updating the receive statistics of a station holds the same frames. *)
Lemma keeps_stat w p ptr s ts o :
  w_sta w !! ptr = Some s ->
  reorder_keeps (RxWorld (<[ptr := StaInfo (tid_rx s) (reorder_timer s) ts]> (w_sta w)) (w_frames w) (w_recycled w)) p o ->
  reorder_keeps w p o.
Proof.
  intros Hs (st&w'&E&Hw&P). exists st, w'. split_and!; try done. rewrite P. f_equiv.
  unfold w_keys. simpl. do 2 f_equiv.
  pose proof (stations_insert (w_sta w) ptr s (StaInfo (tid_rx s) (reorder_timer s) ts) Hs) as E1.
  cbv zeta in E1. by apply Permutation_app_inv_r in E1.
Qed.

(** The session part of [phl_rx_reorder]. *)
Lemma session_keeps cur_time w ptr s t r p :
  world_ok w -> w_sta w !! ptr = Some s -> tid_rx s !! t = Some (Some r) -> 0 <= k_seq p < 4096 ->
  reorder_keeps w p
    ('(b, c) ← phl_manage_sta_reorder_buf cur_time p
                 (Rctx r (w_frames w) (w_recycled w) (reorder_timer s));
     let w := RxWorld (<[ptr := set_session s t (Some (c_r c)) (c_timer c)]> (w_sta w))
                (c_frames c) (c_recycled c) in
     if b : bool then Some (RTW_PHL_STATUS_SUCCESS, w) else dont_reorder w p).
Proof.
  intros Hw Hs Ht Hq. pose proof (Hw ptr s Hs) as Hsta. destruct (Hsta t r Ht) as [[H HI] Hsl].
  set (c0 := Rctx r (w_frames w) (w_recycled w) (reorder_timer s)).
  assert (forall b c', phl_manage_sta_reorder_buf cur_time p c0 = Some (b, c') ->
    sess_ok (c_r c') ->
    (exists fs dr, c_frames c' = w_frames w ++ fs /\ c_recycled c' = w_recycled w ++ dr /\
       ids (fs ++ if b then [] else [p]) ++ ids dr ++ ids (stored (c_r c')) ≡ₚ
       key p :: ids (stored r)) ->
    reorder_keeps w p ('(b, c) ← phl_manage_sta_reorder_buf cur_time p c0;
       let w := RxWorld (<[ptr := set_session s t (Some (c_r c)) (c_timer c)]> (w_sta w))
                (c_frames c) (c_recycled c) in
       if b : bool then Some (RTW_PHL_STATUS_SUCCESS, w) else dont_reorder w p)) as Hgen.
  { intros b c' E Hok (fs&dr&Ef&Er&P). rewrite E. cbn [mbind option_bind].
    pose proof (set_session_keys (w_sta w) ptr s t r (c_r c') (c_timer c') [key p]
                  (ids (fs ++ if b then [] else [p]) ++ ids dr) Hs Ht) as HK.
    cbv zeta in HK. rewrite <- (assoc_L app), P in HK. specialize (HK ltac:(solve_Permutation)).
    assert (world_ok (RxWorld (<[ptr := set_session s t (Some (c_r c')) (c_timer c')]> (w_sta w))
              (c_frames c') (c_recycled c'))) as Hw'.
    { apply world_ok_insert; [done|]. by apply sta_ok_session. }
    destruct b; (eexists _, _; split; [reflexivity|]; split; [done|]); unfold w_keys; simpl;
      rewrite Ef, Er; unfold ids in *; rewrite !map_app in *; simpl in *; rewrite ?app_nil_r in HK.
    all: set (A := map_to_list (<[ptr:=_]> (w_sta w)) ≫= _) in *;
         set (B := map_to_list (w_sta w) ≫= _) in *.
    - transitivity (map key (w_frames w) ++ map key (w_recycled w) ++ (map key fs ++ map key dr) ++ A);
        [solve_Permutation|]. rewrite HK. solve_Permutation.
    - transitivity (map key (w_frames w) ++ map key (w_recycled w) ++
                    ((map key fs ++ [key p]) ++ map key dr) ++ A);
        [solve_Permutation|]. rewrite HK. solve_Permutation. }
  pose proof (manage_handled cur_time H c0 p HI Hq Hsl) as Hm.
  destruct (early (c_r c0) p).
  - apply (Hgen _ _ Hm); [by apply (Hsta t)|]. exists [], []. simpl. rewrite !app_nil_r. done.
  - destruct Hm as (b&c'&E&Hh). apply (Hgen _ _ E); [by eapply sess_ok_handled|].
    destruct Hh as (H'&fs&dr&A1&A2&_&_&_&_&_&_&A9&_). by exists fs, dr.
Qed.

Lemma rx_reorder_keeps cfg ctl cur_time p w :
  world_ok w -> 0 <= k_seq p < 4096 -> reorder_keeps w p (phl_rx_reorder cfg ctl cur_time p w).
Proof.
  intros Hw Hq.
  unfold phl_rx_reorder. cbv zeta. destruct (is_sniffer cfg); [by apply dont_reorder_keeps|].
  set (trim := append_fcs cfg && _). destruct (trim && (k_len p <=? 4)).
  { eexists _, _. split; [done|]. split; [done|]. unfold w_keys, ids. simpl. rewrite map_app. simpl.
    solve_Permutation. }
  set (p1 := if trim then set_len p (k_len p - 4) else p).
  assert (key p1 = key p) as E1 by (unfold p1; by destruct trim).
  destruct (is_mp_mode cfg); [by apply dont_reorder_keeps|].
  destruct (m_bc (k_meta p) || m_mc (k_meta p)); [by apply dont_reorder_keeps|].
  destruct (negb (m_qos (k_meta p))); [by apply dont_reorder_keeps|].
  destruct (m_q_null (k_meta p)); [by apply dont_reorder_keeps|].
  destruct (m_more_frag (k_meta p) || _); [by apply dont_reorder_keeps|].
  set (sta := if m_addr_cam_vld (k_meta p) then _ else _).
  destruct sta as [ptr|]; [|by apply dont_reorder_keeps]. cbn [mbind option_bind].
  destruct (w_sta w !! ptr) as [s|] eqn:Es; [|by apply dont_reorder_keeps]. cbn [mbind option_bind].
  apply (keeps_stat w p ptr s (rtw_hal_set_sta_rx_sts (trx_stat s) false (k_meta p)) _ Es).
  set (s1 := StaInfo _ _ (rtw_hal_set_sta_rx_sts _ _ _)). set (w1 := RxWorld _ _ _).
  assert (key (set_tx_sta p1 ptr) = key p) as E2 by done.
  assert (world_ok w1) as Hw1.
  { apply world_ok_insert; [done|]. intros t r. apply (Hw ptr s Es t r). }
  cbn [tid_rx s1]. destruct (_ <=? m_tid _); [by apply dont_reorder_keeps|].
  destruct (nth _ (tid_rx s) None) as [r|] eqn:Er; [|by apply dont_reorder_keeps].
  assert (tid_rx s1 !! Z.to_nat (m_tid (k_meta p)) = Some (Some r)) as Ht.
  { cbn [tid_rx s1]. rewrite nth_lookup in Er. destruct (tid_rx s !! _); simplify_eq/=; done. }
  assert (w_sta w1 !! ptr = Some s1) as Hs1 by (apply lookup_insert_eq).
  assert (0 <= k_seq (set_tx_sta p1 ptr) < 4096) as Hq1.
  { assert (k_seq (set_tx_sta p1 ptr) = k_seq p) as -> by (by injection E2). done. }
  destruct (session_keeps cur_time w1 ptr s1 _ r (set_tx_sta p1 ptr) Hw1 Hs1 Ht Hq1)
    as (st&w'&E&Hw'&P).
  exists st, w'. split; [exact E|]. split; [done|]. by rewrite <- E2.
Qed.

(** Only a frame that is too short for the check sequence is refused. *)
Lemma rx_reorder_failure cfg ctl cur_time p w st w' :
  phl_rx_reorder cfg ctl cur_time p w = Some (st, w') -> st <> RTW_PHL_STATUS_SUCCESS ->
  w_frames w' = w_frames w.
Proof.
  intros E Hst. unfold phl_rx_reorder, dont_reorder in E. cbv zeta in E.
  destruct (is_sniffer cfg); [by simplify_eq|]. set (trim := append_fcs cfg && _) in E.
  destruct (trim && (k_len p <=? 4)); [by simplify_eq|]. destruct (is_mp_mode cfg); [by simplify_eq|].
  destruct (m_bc (k_meta p) || m_mc (k_meta p)); [by simplify_eq|].
  destruct (negb (m_qos (k_meta p))); [by simplify_eq|]. destruct (m_q_null (k_meta p)); [by simplify_eq|].
  destruct (m_more_frag (k_meta p) || _); [by simplify_eq|].
  destruct ((if m_addr_cam_vld (k_meta p) then _ else _) ≫= _) as [[ptr s]|]; [|by simplify_eq].
  cbn [tid_rx] in E. destruct (_ <=? m_tid _); [by simplify_eq|].
  destruct (nth _ (tid_rx s) None); [|by simplify_eq].
  apply bind_Some in E as ([b c]&_&E). destruct b; by simplify_eq.
Qed.

(** C5. [phl_rx_reorder] accounts for every frame on every path: with all
    sessions in a consistent state it terminates, leaves all sessions
    consistent, and the frame it is given ends exactly once in the list handed
    up, in the recycled packets or in a reorder buffer, while no other frame
    is lost or duplicated. *)
Theorem rx_reorder_conserves cfg ctl cur_time p w :
  world_ok w -> 0 <= k_seq p < 4096 ->
  exists st w', phl_rx_reorder cfg ctl cur_time p w = Some (st, w') /\ world_ok w' /\
    w_keys w' ≡ₚ key p :: w_keys w.
Proof. apply rx_reorder_keeps. Qed.

Definition demo_stat : rx_trx_stat := TrxStat 0 0 0 0 0.

Definition demo_world : rx_world :=
  RxWorld {[ 5 := StaInfo (<[0%nat := Some one_stored]> (replicate 16 None)) true demo_stat ]} [] [].

Definition demo_mctl : macid_ctl_t :=
  MacidCtl [1; 0; 0; 0; 0; 0; 0; 0] [] [] [] [] [] [Some 5] 128.

Lemma demo_world_ok : world_ok demo_world.
Proof.
  intros q s Hq. unfold demo_world in Hq. cbn [w_sta] in Hq. apply lookup_singleton_Some in Hq as [_ <-]. intros t r Ht. cbn [tid_rx] in Ht.
  apply list_lookup_insert_Some in Ht as [(_&Ht&_)|(_&Ht)].
  - simplify_eq. split; [exists 8; apply one_stored_inv|done].
  - apply lookup_replicate in Ht as [? _]. done.
Qed.

Lemma rx_reorder_conserves_witness :
  exists st w', phl_rx_reorder (RxCfg false true false) demo_mctl 1100 (tp 8 8) demo_world = Some (st, w') /\
    world_ok w' /\ w_keys w' ≡ₚ key (tp 8 8) :: w_keys demo_world.
Proof.
  apply (rx_reorder_conserves (RxCfg false true false) demo_mctl 1100 (tp 8 8) demo_world demo_world_ok).
  vm_compute. split; congruence.
Defined.

(** ** Block-ack sessions *)

Lemma free_stored H r : Inv H r -> phl_tid_ampdu_rx_free (Some r) = stored r.
Proof.
  intros HI. simpl. rewrite take_ge; [done|]. pose proof (inv_len _ _ HI). lia.
Qed.

(** Starting a receive block-ack session on a TID that has one recycles
    exactly the frames the old one stores, installs an empty session whose
    window starts at the requested sequence number (with 32 entries when the
    request leaves the size open) and leaves the other TIDs alone; stopping it
    recycles exactly what is stored and removes it. *)
Theorem ba_session_lifecycle s start tid b0 :
  sta_ok s -> 0 <= tid < Z.of_nat (length (tid_rx s)) -> 0 <= start < 4096 ->
  b0 = 0 \/ size_ok b0 ->
  let b := if b0 =? 0 then PHL_MAX_AGG_WSIZE else b0 in
  let old := opt_stored (nth (Z.to_nat tid) (tid_rx s) None) in
  exists s' hal r,
    rtw_phl_start_rx_ba_session true s start 0 tid b0 = (RTW_PHL_STATUS_SUCCESS, s', old, hal) /\
    tid_rx s' !! Z.to_nat tid = Some (Some r) /\ Inv start r /\ buf_size r = b /\ stored r = [] /\
    (forall t, t <> Z.to_nat tid -> tid_rx s' !! t = tid_rx s !! t) /\ sta_ok s' /\
    exists s2,
      rtw_phl_stop_rx_ba_session (Some s) tid = (Some s2, old, [HalStopBa tid]) /\
      tid_rx s2 !! Z.to_nat tid = Some None /\
      (forall t, t <> Z.to_nat tid -> tid_rx s2 !! t = tid_rx s !! t) /\ sta_ok s2.
Proof.
  intros Hs Ht Hst Hb b old.
  assert (size_ok b) as Hsz.
  { unfold b. destruct (Z.eqb_spec b0 0); [|tauto]. split; [done|]. by exists 128. }
  assert (Z.to_nat tid < length (tid_rx s))%nat as Hlt by lia.
  destruct (lookup_lt_is_Some_2 _ _ Hlt) as [o Ho].
  assert (nth (Z.to_nat tid) (tid_rx s) None = o) as En by (by rewrite nth_lookup, Ho).
  assert (phl_tid_ampdu_rx_free o = old) as Ef.
  { unfold old. rewrite En. destruct o as [r|]; [|done]. destruct (Hs _ r Ho) as [[H HI] _].
    by apply (free_stored H). }
  destruct (phl_tid_ampdu_rx_alloc true start tid b) as [r|] eqn:Ea; [|done].
  destruct (Inv_alloc b start tid r Hsz Hst Ea) as (HI&H0&Hsl).
  assert (sess_ok r) as Hr by (split; [by exists start|done]).
  unfold rtw_phl_start_rx_ba_session. rewrite (proj2 (Z.leb_gt _ _)) by lia. simpl negb.
  fold b. rewrite Ea, En, Ef. eexists _, _, r. split; [reflexivity|]. split_and!.
  - by apply list_lookup_insert_eq.
  - done.
  - by injection Ea as <-.
  - done.
  - intros t Hne. by apply list_lookup_insert_ne.
  - by apply sta_ok_session.
  - unfold rtw_phl_stop_rx_ba_session. rewrite (proj2 (Z.leb_gt _ _)) by lia. rewrite En.
    destruct o as [r1|].
    + rewrite Ef. eexists. split; [reflexivity|]. split_and!.
      * by apply list_lookup_insert_eq.
      * intros t Hne. by apply list_lookup_insert_ne.
      * intros t r2 H2. simpl in H2. apply list_lookup_insert_Some in H2 as [(_&?&_)|(_&?)]; [done|].
        by apply (Hs t).
    + exists s. assert (old = []) as -> by (unfold old; by rewrite En). by split_and!.
Qed.

Lemma ba_session_lifecycle_witness :
  exists s' hal, rtw_phl_start_rx_ba_session true
    (StaInfo (<[0%nat := Some one_stored]> (replicate 16 None)) true demo_stat) 500 0 0 0 =
    (RTW_PHL_STATUS_SUCCESS, s', [tp 7 10], hal).
Proof.
  destruct (ba_session_lifecycle
    (StaInfo (<[0%nat := Some one_stored]> (replicate 16 None)) true demo_stat) 500 0 0)
    as (s'&hal&r&E&_).
  - apply (demo_world_ok 5). reflexivity.
  - simpl. lia.
  - lia.
  - by left.
  - exists s', hal. exact E.
Defined.

(** A request that [rtw_phl_start_rx_ba_session] refuses after the range
    check has already reached the HAL: with an unsupported policy, or when
    memory runs out, the function returns an error and keeps the old session,
    but the HAL session of the TID was stopped and started again with the
    parameters that were refused. *)
Theorem start_ba_error_leaves_hal_session s start tid b0 ok pol :
  0 <= tid < Z.of_nat (length (tid_rx s)) -> pol <> 0 \/ ok = false ->
  exists st hal,
    rtw_phl_start_rx_ba_session ok s start pol tid b0 = (st, s, [], hal) /\
    st <> RTW_PHL_STATUS_SUCCESS /\ last hal = Some (HalStartBa tid start b0).
Proof.
  intros Ht Hor. unfold rtw_phl_start_rx_ba_session. rewrite (proj2 (Z.leb_gt _ _)) by lia.
  destruct (Z.eqb_spec pol 0) as [->|Hp]; simpl.
  - destruct Hor as [?| ->]; [done|]. simpl. eexists _, _. split; [done|]. split; [done|].
    by rewrite last_snoc.
  - eexists _, _. split; [done|]. split; [done|]. by rewrite last_snoc.
Qed.

Lemma start_ba_error_leaves_hal_session_witness :
  exists st hal,
    rtw_phl_start_rx_ba_session true (StaInfo (replicate 16 None) false demo_stat) 7 1 3 64 =
      (st, StaInfo (replicate 16 None) false demo_stat, [], hal) /\
    st <> RTW_PHL_STATUS_SUCCESS /\ last hal = Some (HalStartBa 3 7 64).
Proof.
  apply (start_ba_error_leaves_hal_session (StaInfo (replicate 16 None) false demo_stat) 7 3 64 true 1).
  - simpl. lia.
  - left. lia.
Defined.
