(* ===== verification/RxPath.v ===== *)
(** * The path of a received frame

    [phl_rx_handle_normal] of src/phl/hci/phl_trx_usb.c: a frame goes through
    the reordering of its block-ack session ([RxReorder]) and what comes out
    goes to the receive ring ([TrxRing]). *)
From Stdlib Require Import ZArith Lia Bool List.
From stdpp Require Import base tactics list numbers gmap.
From S2P Require Import Prelude Macid TrxStats TxDesc TrxRing RxReorder.

Definition RTW_DATA_RATE_HE_NSS4_MCS11 : Z := 443.

(** The state the path changes: the stations with their sessions and the
    recycled packets, the receive ring, and the counters of received rates. *)
Record rx_path := RxPath { p_world : rx_world; p_rx : rx_state; p_rate_nmr : gmap Z Z }.

(** The list of frames of the function starts empty; it is abandoned when the
    reordering reports an error. *)
Definition phl_rx_handle_normal (cfg : rx_cfg) (ctl : macid_ctl_t) (cur_time : Z)
    (to_recv : reorder_rx_pkt -> rtw_recv_pkt) (phl_rx : reorder_rx_pkt) (s : rx_path) :
    option rx_path :=
  let rate := rp_rx_rate (to_recv phl_rx) in
  let nmr := if rate <=? RTW_DATA_RATE_HE_NSS4_MCS11
             then <[rate := u32 (default 0 (p_rate_nmr s !! rate) + 1)]> (p_rate_nmr s)
             else p_rate_nmr s in
  '(st, w) ← phl_rx_reorder cfg ctl cur_time phl_rx
               (RxWorld (w_sta (p_world s)) [] (w_recycled (p_world s)));
  match st with
  | RTW_PHL_STATUS_SUCCESS =>
    let '(rx, recycled) := handle_frames to_recv (w_frames w) (p_rx s) (w_recycled w) in
    Some (RxPath (RxWorld (w_sta w) [] recycled) rx nmr)
  | _ => Some (RxPath (RxWorld (w_sta w) [] (w_recycled w)) (p_rx s) nmr)
  end.

(** The ring takes frames in order while it has room; the rest is recycled. *)
Lemma handle_frames_spec to_recv frames s recycled xs :
  rx_rep s xs ->
  let room := (4095 - length xs)%nat in
  exists s', handle_frames to_recv frames s recycled = (s', recycled ++ drop room frames) /\
    rx_rep s' (xs ++ map to_recv (take room frames)).
Proof.
  revert s recycled xs. induction frames as [|p frames IH]; intros s recycled xs Hr; cbn zeta; simpl.
  { exists s. rewrite drop_nil, take_nil, !app_nil_r. done. }
  pose proof (add_rx_pkt_spec s xs (to_recv p) Hr) as Ha.
  destruct (length xs <? 4095)%nat eqn:El.
  - apply Nat.ltb_lt in El. destruct Ha as (s1&->&Hr1). rewrite bool_decide_eq_false_2 by done.
    destruct (IH s1 recycled _ Hr1) as (s2&->&Hr2). exists s2.
    rewrite length_app in *. simpl length in *.
    replace (4095 - length xs)%nat with (S (4095 - (length xs + 1))) by lia. simpl.
    split; [done|]. by rewrite <- (assoc_L app) in Hr2.
  - apply Nat.ltb_ge in El. rewrite Ha, bool_decide_eq_true_2 by done.
    destruct (IH s (recycled ++ [p]) _ Hr) as (s2&->&Hr2). exists s2.
    replace (4095 - length xs)%nat with 0%nat in * by lia. simpl in *.
    rewrite drop_0, <- (assoc_L app). done.
Qed.

(** C23. End to end, for a received frame with a 12-bit sequence number: with all
    sessions consistent, nothing released yet and the ring holding the queue
    [xs], reordering and [phl_rx_handle_normal] terminate.  The ring then holds
    [xs] followed by the frames that the reordering released, in the order of
    their release, as many as find room; the others, in order, are appended to
    the recycled ones.  The sessions are consistent, nothing stays in the list of
    released frames, and the frame and every frame that was waiting is now,
    exactly once, in the ring, recycled, or stored in a reorder buffer. *)
Theorem rx_handle_normal_conserves cfg ctl cur_time to_recv p s xs :
  world_ok (p_world s) -> w_frames (p_world s) = [] -> rx_rep (p_rx s) xs -> 0 <= k_seq p < 4096 ->
  exists st w s',
    phl_rx_reorder cfg ctl cur_time p (p_world s) = Some (st, w) /\
    phl_rx_handle_normal cfg ctl cur_time to_recv p s = Some s' /\
    let room := (4095 - length xs)%nat in
    rx_rep (p_rx s') (xs ++ map to_recv (take room (w_frames w))) /\
    w_recycled (p_world s') = w_recycled w ++ drop room (w_frames w) /\
    w_sta (p_world s') = w_sta w /\ world_ok (p_world s') /\ w_frames (p_world s') = [] /\
    ids (take room (w_frames w)) ++ w_keys (p_world s') ≡ₚ key p :: w_keys (p_world s).
Proof.
  intros Hw Hf Hr Hq. destruct s as [[ws wf wr] rx nmr]. simpl in *. subst wf.
  destruct (rx_reorder_keeps cfg ctl cur_time p _ Hw Hq) as (st&w&E&Hw'&HP). exists st, w.
  unfold phl_rx_handle_normal. cbn [p_world p_rx p_rate_nmr w_sta w_recycled]. rewrite E.
  cbn [mbind option_bind]. destruct (decide (st = RTW_PHL_STATUS_SUCCESS)) as [->|Hst].
  - destruct (handle_frames_spec to_recv (w_frames w) rx (w_recycled w) xs Hr) as (rx'&->&Hr').
    eexists. split; [done|]. split; [done|]. simpl. split_and!; try done.
    rewrite <- HP. unfold w_keys, ids. simpl.
    rewrite <- (take_drop (4095 - length xs) (w_frames w)) at 3. rewrite !map_app. solve_Permutation.
  - pose proof (rx_reorder_failure _ _ _ _ _ _ _ E Hst) as Hfr. simpl in Hfr.
    exists (RxPath (RxWorld (w_sta w) [] (w_recycled w)) rx
              (if rp_rx_rate (to_recv p) <=? RTW_DATA_RATE_HE_NSS4_MCS11
               then <[rp_rx_rate (to_recv p) := u32 (default 0 (nmr !! rp_rx_rate (to_recv p)) + 1)]> nmr
               else nmr)).
    split; [done|]. split; [by destruct st|]. simpl. rewrite Hfr, take_nil, drop_nil, !app_nil_r. split_and!; try done.
    rewrite <- HP. unfold w_keys. by rewrite Hfr.
Qed.

Definition demo_to_recv (p : reorder_rx_pkt) : rtw_recv_pkt :=
  RecvPkt (k_id p) (PktInfo (k_len p) 0 false false) (k_tx_sta p) 0.

Definition demo_path : rx_path := RxPath demo_world (rx_ring_init demo_stats) ∅.

Lemma rx_handle_normal_conserves_witness :
  exists st w s',
    phl_rx_reorder (RxCfg false true false) demo_mctl 1100 (tp 8 8) demo_world = Some (st, w) /\
    phl_rx_handle_normal (RxCfg false true false) demo_mctl 1100 demo_to_recv (tp 8 8) demo_path = Some s' /\
    rx_rep (p_rx s') (map demo_to_recv (take 4095 (w_frames w))).
Proof.
  destruct (rx_handle_normal_conserves (RxCfg false true false) demo_mctl 1100 demo_to_recv (tp 8 8)
              demo_path [] demo_world_ok eq_refl (rx_rep_init demo_stats))
    as (st&w&s'&Ew&E&Hr&_); [vm_compute; split; congruence|].
  exists st, w, s'. by split_and!.
Defined.
