(* ===== verification/RfChannel.v ===== *)
(** * Channels, bandwidths and frequencies

    Models the channel tables and the channel arithmetic of src/core/rtw_rf.c:
    the center channels of each band and bandwidth, the operating channels of a
    center channel, the secondary channel offsets, the conversions between
    channels and frequencies, and the grouping of the channel settings of
    several interfaces.  Channels, bandwidths and offsets are the C integers;
    a band is an [enum band_type].  The two build switches
    CONFIG_IEEE80211_BAND_5GHZ and CONFIG_IEEE80211_BAND_6GHZ are a
    [band_cfg] the functions take, so the theorems cover every build. *)
From Stdlib Require Import ZArith Lia Bool List.
From stdpp Require Import base tactics list numbers gmap.
From S2P Require Import Prelude.

Inductive band_type := BAND_ON_24G | BAND_ON_5G | BAND_ON_6G | BAND_MAX.

#[global] Instance band_type_eq_dec : EqDecision band_type.
Proof. solve_decision. Defined.

Definition band_eqb (a b : band_type) : bool := bool_decide (a = b).

(** The build switches. *)
Record band_cfg := BandCfg { band_5ghz : bool; band_6ghz : bool }.

Definition CHANNEL_WIDTH_20 : Z := 0.
Definition CHANNEL_WIDTH_40 : Z := 1.
Definition CHANNEL_WIDTH_80 : Z := 2.
Definition CHANNEL_WIDTH_160 : Z := 3.
Definition CHANNEL_WIDTH_80_80 : Z := 4.
Definition CHANNEL_WIDTH_5 : Z := 5.
Definition CHANNEL_WIDTH_10 : Z := 6.
Definition CHANNEL_WIDTH_MAX : Z := 7.

Definition CHAN_OFFSET_NO_EXT : Z := 0.
Definition CHAN_OFFSET_UPPER : Z := 1.
Definition CHAN_OFFSET_LOWER : Z := 3.

(** ** Tables *)

Definition center_ch_2g : list Z :=
  [ 1; 2; 3; 4; 5; 6; 7; 8; 9; 10; 11; 12; 13; 14 ].

Definition center_ch_2g_40m : list Z :=
  [ 3; 4; 5; 6; 7; 8; 9; 10; 11 ].

Definition op_chs_of_cch_2g_40m : list (list Z) :=
  [ [1; 5]; [2; 6]; [3; 7]; [4; 8]; [5; 9]; [6; 10]; [7; 11]; [8; 12]; [9; 13] ].

Definition center_ch_5g_all : list Z :=
  [ 36; 38; 40; 42; 44; 46; 48; 52; 54; 56; 58; 60; 62; 64; 100; 102; 104; 106; 108; 110; 112;
    116; 118; 120; 122; 124; 126; 128; 132; 134; 136; 138; 140; 142; 144; 149; 151; 153; 155;
    157; 159; 161; 165; 167; 169; 171; 173; 175; 177 ].

Definition center_ch_5g_20m : list Z :=
  [ 36; 40; 44; 48; 52; 56; 60; 64; 100; 104; 108; 112; 116; 120; 124; 128; 132; 136; 140; 144;
    149; 153; 157; 161; 165; 169; 173; 177 ].

Definition center_ch_5g_40m : list Z :=
  [ 38; 46; 54; 62; 102; 110; 118; 126; 134; 142; 151; 159; 167; 175 ].

Definition op_chs_of_cch_5g_40m : list (list Z) :=
  [ [36; 40]; [44; 48]; [52; 56]; [60; 64]; [100; 104]; [108; 112]; [116; 120]; [124; 128];
    [132; 136]; [140; 144]; [149; 153]; [157; 161]; [165; 169]; [173; 177] ].

Definition center_ch_5g_80m : list Z :=
  [ 42; 58; 106; 122; 138; 155; 171 ].

Definition op_chs_of_cch_5g_80m : list (list Z) :=
  [ [36; 40; 44; 48]; [52; 56; 60; 64]; [100; 104; 108; 112]; [116; 120; 124; 128];
    [132; 136; 140; 144]; [149; 153; 157; 161]; [165; 169; 173; 177] ].

Definition center_ch_5g_160m : list Z :=
  [ 50; 114; 163 ].

Definition op_chs_of_cch_5g_160m : list (list Z) :=
  [ [36; 40; 44; 48; 52; 56; 60; 64]; [100; 104; 108; 112; 116; 120; 124; 128];
    [149; 153; 157; 161; 165; 169; 173; 177] ].

Definition center_ch_6g_20m : list Z :=
  [ 1; 5; 9; 13; 17; 21; 25; 29; 33; 37; 41; 45; 49; 53; 57; 61; 65; 69; 73; 77; 81; 85; 89;
    93; 97; 101; 105; 109; 113; 117; 121; 125; 129; 133; 137; 141; 145; 149; 153; 157; 161;
    165; 169; 173; 177; 181; 185; 189; 193; 197; 201; 205; 209; 213; 217; 221; 225; 229; 233;
    237; 241; 245; 249; 253 ].

Definition center_ch_6g_40m : list Z :=
  [ 3; 11; 19; 27; 35; 43; 51; 59; 67; 75; 83; 91; 99; 107; 115; 123; 131; 139; 147; 155; 163;
    171; 179; 187; 195; 203; 211; 219; 227; 235; 243; 251 ].

Definition op_chs_of_cch_6g_40m : list (list Z) :=
  [ [1; 5]; [9; 13]; [17; 21]; [25; 29]; [33; 37]; [41; 45]; [49; 53]; [57; 61]; [65; 69];
    [73; 77]; [81; 85]; [89; 93]; [97; 101]; [105; 109]; [113; 117]; [121; 125]; [129; 133];
    [137; 141]; [145; 149]; [153; 157]; [161; 165]; [169; 173]; [177; 181]; [185; 189];
    [193; 197]; [201; 205]; [209; 213]; [217; 221]; [225; 229]; [233; 237]; [241; 245];
    [249; 253] ].

Definition center_ch_6g_80m : list Z :=
  [ 7; 23; 39; 55; 71; 87; 103; 119; 135; 151; 167; 183; 199; 215; 231; 247 ].

Definition op_chs_of_cch_6g_80m : list (list Z) :=
  [ [1; 5; 9; 13]; [17; 21; 25; 29]; [33; 37; 41; 45]; [49; 53; 57; 61]; [65; 69; 73; 77];
    [81; 85; 89; 93]; [97; 101; 105; 109]; [113; 117; 121; 125]; [129; 133; 137; 141];
    [145; 149; 153; 157]; [161; 165; 169; 173]; [177; 181; 185; 189]; [193; 197; 201; 205];
    [209; 213; 217; 221]; [225; 229; 233; 237]; [241; 245; 249; 253] ].

Definition center_ch_6g_160m : list Z :=
  [ 15; 47; 79; 111; 143; 175; 207; 239 ].

Definition op_chs_of_cch_6g_160m : list (list Z) :=
  [ [1; 5; 9; 13; 17; 21; 25; 29]; [33; 37; 41; 45; 49; 53; 57; 61];
    [65; 69; 73; 77; 81; 85; 89; 93]; [97; 101; 105; 109; 113; 117; 121; 125];
    [129; 133; 137; 141; 145; 149; 153; 157]; [161; 165; 169; 173; 177; 181; 185; 189];
    [193; 197; 201; 205; 209; 213; 217; 221]; [225; 229; 233; 237; 241; 245; 249; 253] ].

(** [struct center_chs_ent_t]: the center channels of a bandwidth. *)
Definition center_chs_2g_by_bw : list (list Z) := [center_ch_2g; center_ch_2g_40m].

Definition center_chs_5g_by_bw : list (list Z) :=
  [center_ch_5g_20m; center_ch_5g_40m; center_ch_5g_80m; center_ch_5g_160m].

Definition center_chs_6g_by_bw : list (list Z) :=
  [center_ch_6g_20m; center_ch_6g_40m; center_ch_6g_80m; center_ch_6g_160m].

(** [struct op_chs_ent_t]: the number of operating channels of a center
    channel, and the array of all of them, row after row. *)
Definition op_chs_ent : Type := Z * list Z.

Definition op_chs_of_cch_2g_by_bw : list op_chs_ent :=
  [(1, center_ch_2g); (2, concat op_chs_of_cch_2g_40m)].

Definition op_chs_of_cch_5g_by_bw : list op_chs_ent :=
  [(1, center_ch_5g_20m); (2, concat op_chs_of_cch_5g_40m);
   (4, concat op_chs_of_cch_5g_80m); (8, concat op_chs_of_cch_5g_160m)].

Definition op_chs_of_cch_6g_by_bw : list op_chs_ent :=
  [(1, center_ch_6g_20m); (2, concat op_chs_of_cch_6g_40m);
   (4, concat op_chs_of_cch_6g_80m); (8, concat op_chs_of_cch_6g_160m)].

Definition by_bw {A} (d : A) (l : list A) (bw : Z) : A := nth (Z.to_nat bw) l d.

Definition center_chs_2g_num (bw : Z) : Z :=
  if CHANNEL_WIDTH_40 <? bw then 0 else Z.of_nat (length (by_bw [] center_chs_2g_by_bw bw)).

Definition center_chs_2g (bw id : Z) : Z :=
  if CHANNEL_WIDTH_40 <? bw then 0
  else if center_chs_2g_num bw <=? id then 0
  else nth (Z.to_nat id) (by_bw [] center_chs_2g_by_bw bw) 0.

Definition center_chs_5g_num (bw : Z) : Z :=
  if CHANNEL_WIDTH_160 <? bw then 0 else Z.of_nat (length (by_bw [] center_chs_5g_by_bw bw)).

Definition center_chs_5g (bw id : Z) : Z :=
  if CHANNEL_WIDTH_160 <? bw then 0
  else if center_chs_5g_num bw <=? id then 0
  else nth (Z.to_nat id) (by_bw [] center_chs_5g_by_bw bw) 0.

Definition center_chs_6g_num (bw : Z) : Z :=
  if CHANNEL_WIDTH_160 <? bw then 0 else Z.of_nat (length (by_bw [] center_chs_6g_by_bw bw)).

Definition center_chs_6g (bw id : Z) : Z :=
  if CHANNEL_WIDTH_160 <? bw then 0
  else if center_chs_6g_num bw <=? id then 0
  else nth (Z.to_nat id) (by_bw [] center_chs_6g_by_bw bw) 0.

(** ** Center and operating channels *)

Section Channels.
Context (cfg : band_cfg).

Definition _rtw_get_scch_by_bcch_offset (band : band_type) (cch bw offset : Z) : Z :=
  let sub d := u8 (if offset =? CHAN_OFFSET_LOWER then cch + d else cch - d) in
  if bw =? CHANNEL_WIDTH_20 then cch
  else if offset =? CHAN_OFFSET_NO_EXT then 0
  else if band_eqb band BAND_ON_24G then
    if (3 <=? cch) && (cch <=? 11) && (bw =? CHANNEL_WIDTH_40) then sub 2 else 0
  else if band_5ghz cfg && band_eqb band BAND_ON_5G then
    if (50 <=? cch) && (cch <=? 163) && (bw =? CHANNEL_WIDTH_160) then sub 8
    else if (42 <=? cch) && (cch <=? 171) && (bw =? CHANNEL_WIDTH_80) then sub 4
    else if (38 <=? cch) && (cch <=? 175) && (bw =? CHANNEL_WIDTH_40) then sub 2
    else 0
  else if band_6ghz cfg && band_eqb band BAND_ON_6G then
    if (15 <=? cch) && (cch <=? 239) && (bw =? CHANNEL_WIDTH_160) then sub 8
    else if (7 <=? cch) && (cch <=? 247) && (bw =? CHANNEL_WIDTH_80) then sub 4
    else if (3 <=? cch) && (cch <=? 251) && (bw =? CHANNEL_WIDTH_40) then sub 2
    else 0
  else 0.

Definition rtw_get_scch_by_bcch_offset (band : band_type) (cch bw offset : Z) : Z :=
  _rtw_get_scch_by_bcch_offset band cch bw offset.

Definition rtw_get_scch_by_bcch_opch (band : band_type) (cch bw opch : Z) : Z :=
  let offset := if cch <? opch then CHAN_OFFSET_LOWER
                else if opch <? cch then CHAN_OFFSET_UPPER else CHAN_OFFSET_NO_EXT in
  rtw_get_scch_by_bcch_offset band cch bw offset.

(** The position of [cch] in the table of center channels. *)
Fixpoint index_of (cch : Z) (l : list Z) (i : nat) : option nat :=
  match l with
  | [] => None
  | c :: r => if cch =? c then Some i else index_of cch r (S i)
  end.

(** The operating channels, or [None] for the C result 0. *)
Definition _rtw_get_op_chs_by_bcch_bw (band : band_type) (cch bw : Z) : option (list Z) :=
  ents ← (if band_eqb band BAND_ON_24G && (bw <=? CHANNEL_WIDTH_40)
          then Some (by_bw [] center_chs_2g_by_bw bw, by_bw (0, []) op_chs_of_cch_2g_by_bw bw)
          else if band_5ghz cfg && (band_eqb band BAND_ON_5G && (bw <=? CHANNEL_WIDTH_160))
          then Some (by_bw [] center_chs_5g_by_bw bw, by_bw (0, []) op_chs_of_cch_5g_by_bw bw)
          else if band_6ghz cfg && (band_eqb band BAND_ON_6G && (bw <=? CHANNEL_WIDTH_160))
          then Some (by_bw [] center_chs_6g_by_bw bw, by_bw (0, []) op_chs_of_cch_6g_by_bw bw)
          else None);
  let '(c_chs, (ch_num, chs)) := (ents : list Z * op_chs_ent) in
  i ← index_of cch c_chs 0;
  Some (take (Z.to_nat ch_num) (drop (Z.to_nat ch_num * i) chs)).

Definition rtw_get_op_chs_by_bcch_bw (band : band_type) (cch bw : Z) : option (list Z) :=
  _rtw_get_op_chs_by_bcch_bw band cch bw.

(** ** Secondary channel offsets

    [r_offset] is the value the pointer leads to ([None] for [NULL]);
    [r_num] tells whether the caller wants all offsets.  The result is the
    list of offsets written, or [None] for the C result 0. *)
Definition rtw_get_offsets_by_chbw_2g (ch bw : Z) (r_offset : option Z) (r_num : bool) :
    option (list Z) :=
  if (CHANNEL_WIDTH_80 <=? bw) || (ch <? 1) || (14 <? ch) then None
  else if bw =? CHANNEL_WIDTH_20 then Some [CHAN_OFFSET_NO_EXT]
  else if (1 <=? ch) && (ch <=? 4) then Some [CHAN_OFFSET_UPPER]
  else if (5 <=? ch) && (ch <=? 9) then
    if negb r_num then
      match r_offset with
      | Some o => if (o =? CHAN_OFFSET_UPPER) || (o =? CHAN_OFFSET_LOWER) then Some [o]
                  else Some [CHAN_OFFSET_LOWER]
      | None => Some [CHAN_OFFSET_LOWER]
      end
    else Some [CHAN_OFFSET_LOWER; CHAN_OFFSET_UPPER]
  else if (10 <=? ch) && (ch <=? 13) then Some [CHAN_OFFSET_LOWER]
  else None.

Definition lower_chs_5g : list Z := [36; 44; 52; 60; 100; 108; 116; 124; 132; 140; 149; 157; 165; 173].
Definition upper_chs_5g : list Z := [40; 48; 56; 64; 104; 112; 120; 128; 136; 144; 153; 161; 169; 177].

Definition rtw_get_offset_by_chbw_5g (ch bw : Z) : option Z :=
  let wide := (CHANNEL_WIDTH_40 <=? bw) && (bw <=? CHANNEL_WIDTH_160) in
  if (ch <? 36) || (177 <? ch) then None
  else if existsb (Z.eqb ch) lower_chs_5g
  then Some (if wide then CHAN_OFFSET_UPPER else CHAN_OFFSET_NO_EXT)
  else if existsb (Z.eqb ch) upper_chs_5g
  then Some (if wide then CHAN_OFFSET_LOWER else CHAN_OFFSET_NO_EXT)
  else None.

Definition rtw_get_offset_by_chbw_6g (ch bw : Z) : option Z :=
  if (1 <=? ch) && (ch <=? 253) then
    let mod8 := ch mod 8 in
    if mod8 =? 1 then
      Some (if bw =? CHANNEL_WIDTH_20 then CHAN_OFFSET_NO_EXT else CHAN_OFFSET_UPPER)
    else if mod8 =? 5 then
      Some (if bw =? CHANNEL_WIDTH_20 then CHAN_OFFSET_NO_EXT else CHAN_OFFSET_LOWER)
    else None
  else None.

(** The value written to a non-null [r_offset] that held [o]. *)
Definition rtw_get_offset_by_bchbw (band : band_type) (ch bw o : Z) : option Z :=
  if band_eqb band BAND_ON_24G then
    rtw_get_offsets_by_chbw_2g ch bw (Some o) false ≫= head
  else if band_5ghz cfg && band_eqb band BAND_ON_5G then rtw_get_offset_by_chbw_5g ch bw
  else if band_6ghz cfg && band_eqb band BAND_ON_6G then rtw_get_offset_by_chbw_6g ch bw
  else None.

Definition rtw_get_offsets_by_bchbw (band : band_type) (ch bw o : Z) : option (list Z) :=
  if band_eqb band BAND_ON_24G then rtw_get_offsets_by_chbw_2g ch bw (Some o) true
  else if band_5ghz cfg && band_eqb band BAND_ON_5G then
    x ← rtw_get_offset_by_chbw_5g ch bw; Some [x]
  else if band_6ghz cfg && band_eqb band BAND_ON_6G then
    x ← rtw_get_offset_by_chbw_6g ch bw; Some [x]
  else None.

(** ** Center channel of a channel *)

Definition rtw_get_center_ch_2g (ch bw offset : Z) : Z :=
  if bw =? CHANNEL_WIDTH_80 then 7
  else if bw =? CHANNEL_WIDTH_40 then
    if offset =? CHAN_OFFSET_UPPER then u8 (ch + 2)
    else if offset =? CHAN_OFFSET_LOWER then u8 (ch - 2) else ch
  else ch.

Definition in_range (lo hi ch : Z) : bool := (lo <=? ch) && (ch <=? hi).

Definition rtw_get_center_ch_5g (ch bw offset : Z) : Z :=
  if bw =? CHANNEL_WIDTH_160 then
    if ch mod 4 =? 0 then
      if in_range 36 64 ch then 50 else if in_range 100 128 ch then 114 else ch
    else if ch mod 4 =? 1 then if in_range 149 177 ch then 163 else ch
    else ch
  else if bw =? CHANNEL_WIDTH_80 then
    if ch mod 4 =? 0 then
      if in_range 36 48 ch then 42 else if in_range 52 64 ch then 58
      else if in_range 100 112 ch then 106 else if in_range 116 128 ch then 122
      else if in_range 132 144 ch then 138 else ch
    else if ch mod 4 =? 1 then
      if in_range 149 161 ch then 155 else if in_range 165 177 ch then 171 else ch
    else ch
  else if bw =? CHANNEL_WIDTH_40 then
    if offset =? CHAN_OFFSET_UPPER then u8 (ch + 2)
    else if offset =? CHAN_OFFSET_LOWER then u8 (ch - 2) else ch
  else ch.

Definition rtw_get_center_ch_6g (ch bw offset : Z) : Z :=
  let start := by_bw 0 [0; 3; 7; 15] bw in
  let shift := by_bw 0 [0; 3; 4; 5] bw in
  if (bw <? CHANNEL_WIDTH_20) || (CHANNEL_WIDTH_160 <? bw) then ch
  else if bw =? CHANNEL_WIDTH_20 then ch
  else u8 (Z.shiftl (Z.shiftr (ch - 1) shift) shift + start).

Definition rtw_get_center_ch_by_band (band : band_type) (ch bw offset : Z) : Z :=
  if band_eqb band BAND_ON_24G then rtw_get_center_ch_2g ch bw offset
  else if band_5ghz cfg && band_eqb band BAND_ON_5G then rtw_get_center_ch_5g ch bw offset
  else if band_6ghz cfg && band_eqb band BAND_ON_6G then rtw_get_center_ch_6g ch bw offset
  else 0.

(** ** Frequencies *)

Definition rtw_ch2freq_2g (ch : Z) : Z :=
  if (1 <=? ch) && (ch <=? 14) then
    if ch =? 14 then 2484 else if ch <? 14 then 2407 + ch * 5 else 0
  else 0.

Definition rtw_ch2freq_5g (ch : Z) : Z :=
  if (36 <=? ch) && (ch <=? 177) then 5000 + ch * 5 else 0.

Definition rtw_ch2freq_6g (ch : Z) : Z :=
  if (1 <=? ch) && (ch <=? 253) then 5950 + ch * 5 else 0.

Definition rtw_bch2freq (band : band_type) (ch : Z) : Z :=
  if band_eqb band BAND_ON_24G then rtw_ch2freq_2g ch
  else if band_5ghz cfg && band_eqb band BAND_ON_5G then rtw_ch2freq_5g ch
  else if band_6ghz cfg && band_eqb band BAND_ON_6G then rtw_ch2freq_6g ch
  else 0.

(** C division truncates towards zero. *)
Definition rtw_freq2ch (freq : Z) : Z :=
  if freq =? 2484 then 14
  else if freq <? 2484 then Z.quot (freq - 2407) 5
  else if (4910 <=? freq) && (freq <=? 4980) then Z.quot (freq - 4000) 5
  else if (5000 <=? freq) && (freq <? 5950) then Z.quot (freq - 5000) 5
  else if (5950 <=? freq) && (freq <=? 7215) then Z.quot (freq - 5950) 5
  else if (58320 <=? freq) && (freq <=? 64800) then Z.quot (freq - 56160) 2160
  else 0.

Definition rtw_freq2band (freq : Z) : band_type :=
  if freq <=? 2484 then BAND_ON_24G
  else if band_5ghz cfg && ((5000 <=? freq) && (freq <? 5950)) then BAND_ON_5G
  else if band_6ghz cfg && ((5950 <=? freq) && (freq <=? 7215)) then BAND_ON_6G
  else BAND_MAX.

Definition rtw_frange_to_bw (hi lo : Z) : Z :=
  let width := u32 (hi - lo) in
  if width =? 160 then CHANNEL_WIDTH_160
  else if width =? 80 then CHANNEL_WIDTH_80
  else if width =? 40 then CHANNEL_WIDTH_40
  else if width =? 20 then CHANNEL_WIDTH_20
  else if width =? 10 then CHANNEL_WIDTH_10
  else if width =? 5 then CHANNEL_WIDTH_5
  else CHANNEL_WIDTH_MAX.

Definition rtw_freq_consecutive (a b : Z) : bool :=
  let band_a := rtw_freq2band a in
  let band_b := rtw_freq2band b in
  if band_eqb band_a BAND_MAX then false
  else if band_eqb band_b BAND_MAX || negb (band_eqb band_a band_b) then false
  else match band_a with
       | BAND_ON_24G => Z.abs (a - b) =? 5
       | BAND_ON_5G => Z.abs (a - b) =? 20
       | BAND_ON_6G => band_6ghz cfg && (Z.abs (a - b) =? 20)
       | BAND_MAX => false
       end.

(** [(hi, lo)], or [None] for an invalid center channel. *)
Definition rtw_bcchbw_to_freq_range (band : band_type) (c_ch bw : Z) : option (Z * Z) :=
  let freq := u32 (rtw_bch2freq band c_ch) in
  if freq =? 0 then None
  else Some (if bw =? CHANNEL_WIDTH_160 then (u32 (freq + 80), u32 (freq - 80))
             else if bw =? CHANNEL_WIDTH_80 then (u32 (freq + 40), u32 (freq - 40))
             else if bw =? CHANNEL_WIDTH_40 then (u32 (freq + 20), u32 (freq - 20))
             else if bw =? CHANNEL_WIDTH_20 then (u32 (freq + 10), u32 (freq - 10))
             else (0, 0)).

Definition rtw_bchbw_to_freq_range (band : band_type) (ch bw offset : Z) : option (Z * Z) :=
  rtw_bcchbw_to_freq_range band (rtw_get_center_ch_by_band band ch bw offset) bw.

Definition RTW_DFS_REGD_ETSI : Z := 3.

Definition rtw_is_range_overlap (a_hi a_lo b_hi b_lo : Z) : bool := (b_lo <? a_hi) && (a_lo <? b_hi).

Definition rtw_is_long_cac_range (hi lo dfs_region : Z) : bool :=
  (dfs_region =? RTW_DFS_REGD_ETSI) && rtw_is_range_overlap hi lo 5650 5600.

Definition rtw_is_long_cac_bch (band : band_type) (ch bw offset dfs_region : Z) : bool :=
  match rtw_bchbw_to_freq_range band ch bw offset with
  | None => false
  | Some (hi, lo) => rtw_is_long_cac_range hi lo dfs_region
  end.

(** ** Grouping the channel settings of several interfaces *)

Record chbw := ChBw { cb_band : band_type; cb_ch : Z; cb_bw : Z; cb_offset : Z }.

Definition is_wide (bw : Z) : bool :=
  (bw =? CHANNEL_WIDTH_40) || (bw =? CHANNEL_WIDTH_80) || (bw =? CHANNEL_WIDTH_160).

Definition _rtw_is_bchbw_grouped (a b : chbw) : bool :=
  if negb (band_eqb (cb_band a) (cb_band b)) || negb (cb_ch a =? cb_ch b) then false
  else if is_wide (cb_bw a) && is_wide (cb_bw b) then cb_offset a =? cb_offset b
  else true.

(** The request and the group after [_rtw_sync_bchbw]. *)
Definition _rtw_sync_bchbw (req g : chbw) : chbw * chbw :=
  let band := cb_band g in
  let ch := cb_ch g in
  let bw := if (cb_bw req =? CHANNEL_WIDTH_80) && band_eqb band BAND_ON_24G then CHANNEL_WIDTH_40
            else cb_bw req in
  let '(bw, offset) :=
    if is_wide bw then
      let offset :=
        if is_wide (cb_bw g) then cb_offset g
        else if cb_bw g =? CHANNEL_WIDTH_20 then
          match rtw_get_offset_by_bchbw band ch bw (cb_offset req) with
          | Some o => o
          | None => cb_offset req
          end
        else cb_offset req in
      if offset =? CHAN_OFFSET_NO_EXT then (CHANNEL_WIDTH_20, offset) else (bw, offset)
    else if bw =? CHANNEL_WIDTH_20 then (bw, CHAN_OFFSET_NO_EXT)
    else (bw, cb_offset req) in
  let req' := ChBw band ch bw offset in
  let g' := if cb_bw g <? bw then ChBw band ch bw offset else g in
  (req', g').

End Channels.

(** ** Channels and frequencies *)

(** Channel to frequency and back: a channel number that has a frequency
    in a band is recovered, with its band, from the frequency, in every
    build. *)
Theorem freq_channel_roundtrip cfg band ch :
  rtw_bch2freq cfg band ch <> 0 ->
  rtw_freq2ch (rtw_bch2freq cfg band ch) = ch /\ rtw_freq2band cfg (rtw_bch2freq cfg band ch) = band.
Proof.
  unfold rtw_bch2freq, band_eqb, rtw_ch2freq_2g, rtw_ch2freq_5g, rtw_ch2freq_6g.
  destruct cfg as [[] []], band; simpl; try done.
  all: destruct (_ && _) eqn:E; [|done]; apply andb_true_iff in E as [E1 E2].
  all: try (destruct (ch =? 14) eqn:?; [|destruct (ch <? 14) eqn:?]).
  all: intros _; unfold rtw_freq2ch, rtw_freq2band; simpl.
  all: repeat match goal with |- context [if ?b then _ else _] => destruct b eqn:? end.
  all: split; try done; try (exfalso; lia); zlia.
Qed.

Lemma freq_channel_roundtrip_witness :
  rtw_freq2ch (rtw_bch2freq (BandCfg true true) BAND_ON_6G 37) = 37 /\
  rtw_freq2band (BandCfg true true) (rtw_bch2freq (BandCfg true true) BAND_ON_6G 37) = BAND_ON_6G.
Proof. apply freq_channel_roundtrip. vm_compute. congruence. Defined.

(** ** Channel bonding *)

(** The 20 MHz ranges of the channels follow each other from [lo]; the result
    is where they end. *)
Fixpoint tile (cfg : band_cfg) (band : band_type) (lo : Z) (chs : list Z) : option Z :=
  match chs with
  | [] => Some lo
  | ch :: r =>
    match rtw_bcchbw_to_freq_range cfg band ch CHANNEL_WIDTH_20 with
    | Some (h, l) => if l =? lo then tile cfg band h r else None
    | None => None
    end
  end.

Definition list_eqb (a b : list Z) : bool := bool_decide (a = b).

(** The side of the center channel an operating channel lies on. *)
Definition side (ch cch : Z) : Z :=
  if ch <? cch then CHAN_OFFSET_UPPER else if cch <? ch then CHAN_OFFSET_LOWER
  else CHAN_OFFSET_NO_EXT.

Definition bonded_ch (cfg : band_cfg) (band : band_type) (cch bw : Z) (l : list Z) (ch : Z) : Prop :=
  rtw_get_center_ch_by_band cfg band ch bw (side ch cch) = cch /\
  (if bw =? CHANNEL_WIDTH_20 then ch = cch
   else exists l', rtw_get_op_chs_by_bcch_bw cfg band (rtw_get_scch_by_bcch_opch cfg band cch bw ch)
                     (bw - 1) = Some l' /\ In ch l' /\ incl l' l).

Definition bonded_range (cfg : band_cfg) (band : band_type) (cch bw : Z) (l : list Z) : Prop :=
  exists hi lo, rtw_bcchbw_to_freq_range cfg band cch bw = Some (hi, lo) /\
    rtw_frange_to_bw hi lo = bw /\ tile cfg band lo l = Some hi.

(** The same, executable. *)
Definition mem (ch : Z) (l : list Z) : bool := existsb (Z.eqb ch) l.

Definition bonded_chb (cfg : band_cfg) (band : band_type) (cch bw : Z) (l : list Z) (ch : Z) : bool :=
  (rtw_get_center_ch_by_band cfg band ch bw (side ch cch) =? cch) &&
  (if bw =? CHANNEL_WIDTH_20 then ch =? cch
   else match rtw_get_op_chs_by_bcch_bw cfg band (rtw_get_scch_by_bcch_opch cfg band cch bw ch)
                (bw - 1) with
        | Some l' => mem ch l' && forallb (fun x => mem x l) l'
        | None => false
        end).

Definition bonded_rangeb (cfg : band_cfg) (band : band_type) (cch bw : Z) (l : list Z) : bool :=
  match rtw_bcchbw_to_freq_range cfg band cch bw with
  | Some (hi, lo) => (rtw_frange_to_bw hi lo =? bw) &&
                     match tile cfg band lo l with Some h => h =? hi | None => false end
  | None => false
  end.

Definition bonded_all (cfg : band_cfg) (band : band_type) (bw cch : Z) : bool :=
  match rtw_get_op_chs_by_bcch_bw cfg band cch bw with
  | None => true
  | Some l => (Z.of_nat (length l) =? 2 ^ bw) && forallb (bonded_chb cfg band cch bw l) l &&
              bonded_rangeb cfg band cch bw l
  end.

Lemma mem_In ch l : mem ch l = true <-> In ch l.
Proof.
  unfold mem. rewrite existsb_exists. split.
  - intros (x&Hx&E). apply Z.eqb_eq in E. by subst.
  - intros H. exists ch. split; [done|lia].
Qed.

Lemma bonded_chb_ok cfg band cch bw l ch :
  bonded_chb cfg band cch bw l ch = true -> bonded_ch cfg band cch bw l ch.
Proof.
  unfold bonded_chb, bonded_ch. intros H. apply andb_true_iff in H as [H1 H2].
  split; [lia|]. destruct (bw =? CHANNEL_WIDTH_20); [lia|].
  destruct (rtw_get_op_chs_by_bcch_bw _ _ _ _) as [l'|]; [|done].
  apply andb_true_iff in H2 as [H2 H3]. exists l'. split_and!; [done|by apply mem_In|].
  intros x Hx. apply mem_In. rewrite forallb_forall in H3. by apply H3.
Qed.

Lemma bonded_rangeb_ok cfg band cch bw l :
  bonded_rangeb cfg band cch bw l = true -> bonded_range cfg band cch bw l.
Proof.
  unfold bonded_rangeb, bonded_range. destruct (rtw_bcchbw_to_freq_range _ _ _ _) as [[hi lo]|]; [|done].
  intros H. apply andb_true_iff in H as [H1 H2]. exists hi, lo.
  destruct (tile cfg band lo l) as [h|]; [|done]. split_and!; [done|lia|]. f_equal. lia.
Qed.

(** The check over every build, band, width and center channel. *)
Lemma bonded_all_checked :
  forallb (fun cfg => forallb (fun band => forallb (fun bw =>
    forallb (bonded_all cfg band bw) all_u8) [0; 1; 2; 3])
    [BAND_ON_24G; BAND_ON_5G; BAND_ON_6G; BAND_MAX])
    [BandCfg true true; BandCfg true false; BandCfg false true; BandCfg false false] = true.
Proof. vm_compute. reflexivity. Qed.

Lemma bonded_all_true cfg band bw cch :
  bw = 0 \/ bw = 1 \/ bw = 2 \/ bw = 3 -> is_u8 cch -> bonded_all cfg band bw cch = true.
Proof.
  intros Hb Hc. pose proof bonded_all_checked as H. rewrite forallb_forall in H.
  specialize (H cfg). rewrite forallb_forall in H.
  specialize (H ltac:(destruct cfg as [[] []]; simpl; tauto) band). rewrite forallb_forall in H.
  specialize (H ltac:(destruct band; simpl; tauto) bw).
  exact (forall_u8 _ (H ltac:(simpl; intuition lia)) cch Hc).
Qed.

(** The other direction, executable: every center channel that the code computes
    for a channel and one of its offsets is in the tables, with the channel. *)
Definition no_160 (band : band_type) (bw ch : Z) : bool := band_eqb band BAND_ON_5G && (bw =? CHANNEL_WIDTH_160) && in_range 132 144 ch.

Definition centered_all (cfg : band_cfg) (band : band_type) (bw ch : Z) : bool :=
  match rtw_get_op_chs_by_bcch_bw cfg band ch CHANNEL_WIDTH_20, rtw_get_offsets_by_bchbw cfg band ch bw 0 with
  | Some _, Some offs =>
    no_160 band bw ch ||
    forallb (fun o => match rtw_get_op_chs_by_bcch_bw cfg band (rtw_get_center_ch_by_band cfg band ch bw o) bw with
                      | Some l => mem ch l
                      | None => false
                      end) offs
  | _, _ => true
  end.

Lemma centered_all_checked :
  forallb (fun cfg => forallb (fun band => forallb (fun bw =>
    forallb (centered_all cfg band bw) all_u8) [0; 1; 2; 3])
    [BAND_ON_24G; BAND_ON_5G; BAND_ON_6G; BAND_MAX])
    [BandCfg true true; BandCfg true false; BandCfg false true; BandCfg false false] = true.
Proof. vm_compute. reflexivity. Qed.

Lemma centered_all_true cfg band bw ch : 0 <= bw <= 3 -> is_u8 ch -> centered_all cfg band bw ch = true.
Proof.
  intros Hb Hc. pose proof centered_all_checked as H. rewrite forallb_forall in H.
  specialize (H cfg). rewrite forallb_forall in H.
  specialize (H ltac:(destruct cfg as [[] []]; simpl; tauto) band). rewrite forallb_forall in H.
  specialize (H ltac:(destruct band; simpl; tauto) bw).
  exact (forall_u8 _ (H ltac:(simpl; intuition lia)) ch Hc).
Qed.

(** C31. Channel bonding is consistent, for bandwidths from 20 to 160 MHz, in
    every build and band.  A center channel that has operating channels has as
    many as the bandwidth has 20 MHz channels; from each of them the center
    channel is found again; each belongs to the center channel of the next
    narrower bandwidth on its side, whose operating channels are among them; and
    their 20 MHz ranges fill the frequency range of the bandwidth without gap
    or overlap.  Conversely, for every 20 MHz channel and every offset that the
    code offers for it at the bandwidth, the center channel that the code
    computes has operating channels, and the channel is one of them; the
    channels 132 to 144 at 160 MHz are left out (the code computes the channel
    itself there, and the tables have no such center).  At 2.4 GHz, 80 and 160
    MHz have no operating channels and the code offers no offsets, so that both
    parts say nothing there. *)
Theorem channel_bonding_consistent cfg band bw :
  0 <= bw <= 3 ->
  (forall cch l, is_u8 cch -> rtw_get_op_chs_by_bcch_bw cfg band cch bw = Some l ->
    Z.of_nat (length l) = 2 ^ bw /\
    (forall ch, In ch l ->
       rtw_get_center_ch_by_band cfg band ch bw (side ch cch) = cch /\
       (if bw =? CHANNEL_WIDTH_20 then ch = cch
        else exists l',
          rtw_get_op_chs_by_bcch_bw cfg band (rtw_get_scch_by_bcch_opch cfg band cch bw ch) (bw - 1) =
            Some l' /\ In ch l' /\ incl l' l)) /\
    exists hi lo, rtw_bcchbw_to_freq_range cfg band cch bw = Some (hi, lo) /\
      rtw_frange_to_bw hi lo = bw /\ tile cfg band lo l = Some hi) /\
  (forall ch l20 r_offset offs o, is_u8 ch -> rtw_get_op_chs_by_bcch_bw cfg band ch CHANNEL_WIDTH_20 = Some l20 ->
    rtw_get_offsets_by_bchbw cfg band ch bw r_offset = Some offs -> In o offs ->
    ~ (band = BAND_ON_5G /\ bw = CHANNEL_WIDTH_160 /\ 132 <= ch <= 144) ->
    exists l, rtw_get_op_chs_by_bcch_bw cfg band (rtw_get_center_ch_by_band cfg band ch bw o) bw = Some l /\ In ch l).
Proof.
  intros Hb. split.
  - intros cch l Hc Hl. pose proof (bonded_all_true cfg band bw cch ltac:(lia) Hc) as H.
    unfold bonded_all in H. rewrite Hl in H.
    apply andb_true_iff in H as [H H3]. apply andb_true_iff in H as [H1 H2].
    split_and!; [lia| |by apply bonded_rangeb_ok].
    intros ch Hin. rewrite forallb_forall in H2. by apply bonded_chb_ok, H2.
  - intros ch l20 r_offset offs o Hc H20 Ho Hin Hno. pose proof (centered_all_true cfg band bw ch Hb Hc) as H.
    unfold centered_all in H. rewrite H20 in H. change (rtw_get_offsets_by_bchbw cfg band ch bw 0) with (rtw_get_offsets_by_bchbw cfg band ch bw r_offset) in H.
    rewrite Ho in H. apply orb_true_iff in H as [H|H].
    { destruct Hno. unfold no_160, band_eqb, in_range in H. apply andb_true_iff in H as [H Hr]. apply andb_true_iff in H as [H1 H2].
      split_and!; [by apply bool_decide_eq_true_1 in H1|lia|lia..]. }
    rewrite forallb_forall in H. specialize (H o Hin). destruct (rtw_get_op_chs_by_bcch_bw cfg band _ bw) as [l|]; [|done].
    exists l. split; [done|]. by apply mem_In.
Qed.

Lemma channel_bonding_consistent_witness :
  (exists hi lo, rtw_bcchbw_to_freq_range (BandCfg true false) BAND_ON_5G 114 3 = Some (hi, lo) /\
    rtw_frange_to_bw hi lo = 3 /\
    tile (BandCfg true false) BAND_ON_5G lo [100; 104; 108; 112; 116; 120; 124; 128] = Some hi) /\
  exists l, rtw_get_op_chs_by_bcch_bw (BandCfg true false) BAND_ON_5G 163 3 = Some l /\ In 149 l.
Proof.
  destruct (channel_bonding_consistent (BandCfg true false) BAND_ON_5G 3 ltac:(lia)) as [H1 H2]. split.
  - apply (H1 114); [ulia|vm_compute; reflexivity].
  - apply (H2 149 [149] 0 [CHAN_OFFSET_UPPER] CHAN_OFFSET_UPPER); [ulia|vm_compute; reflexivity..|by left|intros (_ & _ & ?); lia].
Defined.

(** ** Grouping *)

(** A setting with a bandwidth the function supports; a wide one names the
    side of its secondary channel. *)
Definition bw_ok (bw : Z) : Prop := 0 <= bw <= 3.

Definition chbw_ok (g : chbw) : Prop :=
  bw_ok (cb_bw g) /\ (is_wide (cb_bw g) = true -> cb_offset g <> CHAN_OFFSET_NO_EXT).

(** [a] fits the group setting [g]. *)
Definition fits (a g : chbw) : Prop :=
  _rtw_is_bchbw_grouped a g = true /\ cb_bw a <= cb_bw g.

Lemma is_wide_spec bw : bw_ok bw -> is_wide bw = negb (bw =? 0).
Proof.
  unfold bw_ok, is_wide, CHANNEL_WIDTH_40, CHANNEL_WIDTH_80, CHANNEL_WIDTH_160. intros H. lia.
Qed.

Lemma grouped_spec a b :
  _rtw_is_bchbw_grouped a b = true <->
  cb_band a = cb_band b /\ cb_ch a = cb_ch b /\
  (is_wide (cb_bw a) = true -> is_wide (cb_bw b) = true -> cb_offset a = cb_offset b).
Proof.
  unfold _rtw_is_bchbw_grouped, band_eqb.
  case_bool_decide as E; simpl; [|split; [done|tauto]].
  destruct (Z.eqb_spec (cb_ch a) (cb_ch b)); simpl; [|split; [done|tauto]].
  destruct (is_wide (cb_bw a)), (is_wide (cb_bw b)); simpl; rewrite ?Z.eqb_eq; intuition done.
Qed.

(** One call: the request fits the new group, the group only widens, and what
    fitted the old group fits the new one. *)
Lemma sync_step cfg req g :
  bw_ok (cb_bw req) -> chbw_ok g ->
  let '(req', g') := _rtw_sync_bchbw cfg req g in
  fits req' g' /\ chbw_ok g' /\ cb_band g' = cb_band g /\ cb_ch g' = cb_ch g /\
  cb_bw g <= cb_bw g' /\ cb_bw req' <= cb_bw req /\ forall m, fits m g -> fits m g'.
Proof.
  intros Hr [Hg Hgo]. unfold _rtw_sync_bchbw.
  set (bw := if _ && _ then CHANNEL_WIDTH_40 else cb_bw req).
  assert (bw_ok bw /\ bw <= cb_bw req) as [Hbw Hle].
  { unfold bw, CHANNEL_WIDTH_40, CHANNEL_WIDTH_80, bw_ok in *. destruct (_ && _) eqn:E; [|lia].
    apply andb_true_iff in E as [E _]. lia. }
  set (off := if is_wide (cb_bw g) then cb_offset g else _).
  set (p := if is_wide bw then _ else _).
  assert (bw_ok p.1 /\ p.1 <= cb_bw req /\ (is_wide p.1 = true -> p.2 <> CHAN_OFFSET_NO_EXT) /\
          (is_wide p.1 = true -> is_wide (cb_bw g) = true -> p.2 = cb_offset g)) as (H1&H2&H3&H4).
  { unfold p. destruct (is_wide bw) eqn:Ew.
    - destruct (Z.eqb_spec off CHAN_OFFSET_NO_EXT) as [E|E]; simpl.
      + unfold CHANNEL_WIDTH_20, bw_ok in *. split_and!; (lia || done).
      + split_and!; try done; [apply Hbw..|]. intros _ Ewg. unfold off. by rewrite Ewg.
    - assert (bw = 0) as -> by (rewrite is_wide_spec in Ew by done; lia). simpl.
      unfold bw_ok in *. split_and!; (lia || done). }
  destruct p as [bw' off']. simpl in *.
  assert (forall m, is_wide (cb_bw m) = true -> cb_bw m <= cb_bw g -> bw_ok (cb_bw g) ->
            is_wide (cb_bw g) = true) as Hmono.
  { intros m Hm Hl Hok. rewrite is_wide_spec by done.
    unfold is_wide, CHANNEL_WIDTH_40, CHANNEL_WIDTH_80, CHANNEL_WIDTH_160 in Hm. lia. }
  destruct (Z.ltb_spec (cb_bw g) bw') as [Hlt|Hge]; unfold fits; simpl.
  - split; [split; [by apply grouped_spec|simpl; lia]|]. split; [split; [exact H1|exact H3]|].
    split_and!; try done; try lia.
    intros m [Hm Hml]. split; [|lia]. apply grouped_spec in Hm as (?&?&Ho). apply grouped_spec.
      simpl. split_and!; try done. intros Hw Hw'. pose proof (Hmono m Hw Hml Hg) as Hwg.
      rewrite (H4 Hw' Hwg). by apply Ho.
  - split_and!; try done; try lia.
    apply grouped_spec. simpl. split_and!; try done.
Qed.

(** Interfaces join one after the other; their settings after the call. *)
Fixpoint sync_all (cfg : band_cfg) (reqs : list chbw) (g : chbw) : list chbw * chbw :=
  match reqs with
  | [] => ([], g)
  | r :: rest =>
    let '(r', g1) := _rtw_sync_bchbw cfg r g in
    let '(rs, g2) := sync_all cfg rest g1 in
    (r' :: rs, g2)
  end.

Lemma sync_all_fits cfg reqs g pre :
  Forall (fun r => bw_ok (cb_bw r)) reqs -> chbw_ok g -> Forall (fun m => fits m g) pre ->
  Forall (fun m => fits m (sync_all cfg reqs g).2) (pre ++ (sync_all cfg reqs g).1) /\
  chbw_ok (sync_all cfg reqs g).2 /\ cb_bw g <= cb_bw (sync_all cfg reqs g).2.
Proof.
  revert g pre. induction reqs as [|r reqs IH]; intros g pre Hr Hg Hp; simpl.
  - rewrite app_nil_r. by split_and!.
  - apply Forall_cons in Hr as [Hr Hrs]. pose proof (sync_step cfg r g Hr Hg) as Hs.
    destruct (_rtw_sync_bchbw cfg r g) as [r' g1] eqn:E.
    destruct Hs as (Hf&Hok&_&_&Hle&_&Hm).
    destruct (IH g1 (pre ++ [r']) Hrs Hok) as (HF&Hok2&Hle2).
    { apply Forall_app. split; [|by apply Forall_singleton].
      eapply Forall_impl; [exact Hp|]. intros m. apply Hm. }
    destruct (sync_all cfg reqs g1) as [rs g2]. simpl in *.
    rewrite <- (assoc_L app) in HF. split_and!; [done|done|lia].
Qed.

(** Interfaces that share a channel end with consistent settings: when
    any number of them is synchronized to a group one after the other, each
    setting can be grouped with the final group setting, is no wider than it,
    and any two of them can be grouped with each other; the group never gets
    narrower. *)
Theorem sync_bchbw_consistent cfg reqs g :
  Forall (fun r => bw_ok (cb_bw r)) reqs -> chbw_ok g ->
  let '(rs, g') := sync_all cfg reqs g in
  cb_bw g <= cb_bw g' /\
  (forall a, a ∈ rs -> _rtw_is_bchbw_grouped a g' = true /\ cb_bw a <= cb_bw g') /\
  (forall a b, a ∈ rs -> b ∈ rs -> _rtw_is_bchbw_grouped a b = true).
Proof.
  intros Hr Hg. destruct (sync_all_fits cfg reqs g [] Hr Hg) as (HF&Hok&Hle); [done|].
  destruct (sync_all cfg reqs g) as [rs g']. simpl in *. rewrite Forall_forall in HF.
  split_and!; [done|exact HF|]. intros a b Ha Hb. destruct (HF a Ha) as [Ga La], (HF b Hb) as [Gb Lb].
  apply grouped_spec in Ga as (?&?&Oa). apply grouped_spec in Gb as (?&?&Ob).
  apply grouped_spec. split_and!; try congruence. intros Wa Wb.
  assert (is_wide (cb_bw g') = true) as Wg.
  { rewrite is_wide_spec by apply Hok.
    unfold is_wide, CHANNEL_WIDTH_40, CHANNEL_WIDTH_80, CHANNEL_WIDTH_160 in Wa. lia. }
  rewrite Oa, Ob; done.
Qed.

Lemma sync_bchbw_consistent_witness :
  let '(rs, g') := sync_all (BandCfg true false)
    [ChBw BAND_ON_5G 36 0 0; ChBw BAND_ON_24G 6 2 0; ChBw BAND_ON_5G 40 1 1] (ChBw BAND_ON_5G 36 0 0) in
  cb_bw (ChBw BAND_ON_5G 36 0 0) <= cb_bw g' /\
  (forall a, a ∈ rs -> _rtw_is_bchbw_grouped a g' = true /\ cb_bw a <= cb_bw g') /\
  (forall a b, a ∈ rs -> b ∈ rs -> _rtw_is_bchbw_grouped a b = true).
Proof.
  apply (sync_bchbw_consistent (BandCfg true false)
    [ChBw BAND_ON_5G 36 0 0; ChBw BAND_ON_24G 6 2 0; ChBw BAND_ON_5G 40 1 1] (ChBw BAND_ON_5G 36 0 0)).
  - repeat constructor; unfold bw_ok; simpl; lia.
  - split; [unfold bw_ok; simpl; lia|vm_compute; congruence].
Defined.
