(* ===== verification/OpClass.v ===== *)
(** * Operating classes and antenna configurations

    Models the global operating class database of src/core/rtw_rf.c with its
    queries, and the conversions between antenna counts, path bitmaps and
    [enum rf_type] of the same file. *)
From Stdlib Require Import ZArith Lia Bool List.
From stdpp Require Import base tactics list numbers gmap.
From S2P Require Import Prelude RfChannel.

(** ** The database *)

Inductive opc_bw :=
  | OPC_BW20 | OPC_BW40PLUS | OPC_BW40MINUS | OPC_BW40 | OPC_BW80 | OPC_BW160 | OPC_BW80P80.

#[global] Instance opc_bw_eq_dec : EqDecision opc_bw.
Proof. solve_decision. Defined.

Definition opc_bw_to_ch_width (bw : opc_bw) : Z :=
  match bw with
  | OPC_BW20 => CHANNEL_WIDTH_20
  | OPC_BW40PLUS | OPC_BW40MINUS | OPC_BW40 => CHANNEL_WIDTH_40
  | OPC_BW80 => CHANNEL_WIDTH_80
  | OPC_BW160 => CHANNEL_WIDTH_160
  | OPC_BW80P80 => CHANNEL_WIDTH_80_80
  end.

(** [struct op_class_t]; [len_ch_attr] is the list of channels. *)
Record op_class_t := OpClass {
  class_id : Z; oc_band : band_type; oc_bw : opc_bw; oc_chs : list Z
}.

Definition op_classes_2g : list op_class_t :=
  [ OpClass 81 BAND_ON_24G OPC_BW20
      [ 1; 2; 3; 4; 5; 6; 7; 8; 9; 10; 11; 12; 13 ];
    OpClass 82 BAND_ON_24G OPC_BW20
      [ 14 ];
    OpClass 83 BAND_ON_24G OPC_BW40PLUS
      [ 1; 2; 3; 4; 5; 6; 7; 8; 9 ];
    OpClass 84 BAND_ON_24G OPC_BW40MINUS
      [ 5; 6; 7; 8; 9; 10; 11; 12; 13 ] ].

Definition op_classes_5g : list op_class_t :=
  [ OpClass 115 BAND_ON_5G OPC_BW20
      [ 36; 40; 44; 48 ];
    OpClass 116 BAND_ON_5G OPC_BW40PLUS
      [ 36; 44 ];
    OpClass 117 BAND_ON_5G OPC_BW40MINUS
      [ 40; 48 ];
    OpClass 118 BAND_ON_5G OPC_BW20
      [ 52; 56; 60; 64 ];
    OpClass 119 BAND_ON_5G OPC_BW40PLUS
      [ 52; 60 ];
    OpClass 120 BAND_ON_5G OPC_BW40MINUS
      [ 56; 64 ];
    OpClass 121 BAND_ON_5G OPC_BW20
      [ 100; 104; 108; 112; 116; 120; 124; 128; 132; 136; 140; 144 ];
    OpClass 122 BAND_ON_5G OPC_BW40PLUS
      [ 100; 108; 116; 124; 132; 140 ];
    OpClass 123 BAND_ON_5G OPC_BW40MINUS
      [ 104; 112; 120; 128; 136; 144 ];
    OpClass 124 BAND_ON_5G OPC_BW20
      [ 149; 153; 157; 161 ];
    OpClass 125 BAND_ON_5G OPC_BW20
      [ 149; 153; 157; 161; 165; 169; 173; 177 ];
    OpClass 126 BAND_ON_5G OPC_BW40PLUS
      [ 149; 157; 165; 173 ];
    OpClass 127 BAND_ON_5G OPC_BW40MINUS
      [ 153; 161; 169; 177 ];
    OpClass 128 BAND_ON_5G OPC_BW80
      [ 36; 40; 44; 48; 52; 56; 60; 64; 100; 104; 108; 112; 116; 120; 124; 128; 132; 136; 140;
      144; 149; 153; 157; 161; 165; 169; 173; 177 ];
    OpClass 129 BAND_ON_5G OPC_BW160
      [ 36; 40; 44; 48; 52; 56; 60; 64; 100; 104; 108; 112; 116; 120; 124; 128; 149; 153; 157;
      161; 165; 169; 173; 177 ] ].

Definition op_classes_6g : list op_class_t :=
  [ OpClass 131 BAND_ON_6G OPC_BW20
      [ 1; 5; 9; 13; 17; 21; 25; 29; 33; 37; 41; 45; 49; 53; 57; 61; 65; 69; 73; 77; 81; 85; 89;
      93; 97; 101; 105; 109; 113; 117; 121; 125; 129; 133; 137; 141; 145; 149; 153; 157; 161;
      165; 169; 173; 177; 181; 185; 189; 193; 197; 201; 205; 209; 213; 217; 221; 225; 229; 233 ];
    OpClass 132 BAND_ON_6G OPC_BW40
      [ 1; 5; 9; 13; 17; 21; 25; 29; 33; 37; 41; 45; 49; 53; 57; 61; 65; 69; 73; 77; 81; 85; 89;
      93; 97; 101; 105; 109; 113; 117; 121; 125; 129; 133; 137; 141; 145; 149; 153; 157; 161;
      165; 169; 173; 177; 181; 185; 189; 193; 197; 201; 205; 209; 213; 217; 221; 225; 229 ];
    OpClass 133 BAND_ON_6G OPC_BW80
      [ 1; 5; 9; 13; 17; 21; 25; 29; 33; 37; 41; 45; 49; 53; 57; 61; 65; 69; 73; 77; 81; 85; 89;
      93; 97; 101; 105; 109; 113; 117; 121; 125; 129; 133; 137; 141; 145; 149; 153; 157; 161;
      165; 169; 173; 177; 181; 185; 189; 193; 197; 201; 205; 209; 213; 217; 221 ];
    OpClass 134 BAND_ON_6G OPC_BW160
      [ 1; 5; 9; 13; 17; 21; 25; 29; 33; 37; 41; 45; 49; 53; 57; 61; 65; 69; 73; 77; 81; 85; 89;
      93; 97; 101; 105; 109; 113; 117; 121; 125; 129; 133; 137; 141; 145; 149; 153; 157; 161;
      165; 169; 173; 177; 181; 185; 189; 193; 197; 201; 205; 209; 213; 217; 221 ] ].

(** ** Queries *)

Section OpClasses.
Context (cfg : band_cfg).

Definition global_op_class : list op_class_t :=
  op_classes_2g ++ (if band_5ghz cfg then op_classes_5g else []) ++
  (if band_6ghz cfg then op_classes_6g else []).

Definition get_global_op_class_by_id (gid : Z) : option op_class_t :=
  List.find (fun c => class_id c =? gid) global_op_class.

Definition is_valid_global_op_class_id (gid : Z) : bool :=
  match get_global_op_class_by_id gid with Some _ => true | None => false end.

(** The pointer passed always leads to an entry of the table. *)
Definition is_valid_global_op_class_ch (opc : op_class_t) (ch : Z) : bool :=
  existsb (fun c => c =? ch) (oc_chs opc).

Definition get_sub_op_class (gid ch : Z) : Z :=
  match get_global_op_class_by_id gid with
  | None => -1
  | Some opc =>
    if negb (is_valid_global_op_class_ch opc ch) then -1
    else if bool_decide (oc_bw opc = OPC_BW20) then 0
    else
      let bw := opc_bw_to_ch_width (oc_bw opc) in
      match List.find (fun c => (bw =? opc_bw_to_ch_width (oc_bw c) + 1) &&
                                is_valid_global_op_class_ch c ch) global_op_class with
      | Some c => class_id c
      | None => -2
      end
  end.

Definition dbg_global_op_class_validate (c : op_class_t) : bool :=
  let chk bw offset :=
    forallb (fun ch =>
      let cch := rtw_get_center_ch_by_band cfg (oc_band c) ch bw offset in
      if cch =? 0 then false
      else match rtw_get_op_chs_by_bcch_bw cfg (oc_band c) cch bw with
           | None => false
           | Some op_chs => existsb (fun x => x =? ch) op_chs
           end) (oc_chs c) in
  match oc_bw c with
  | OPC_BW20 => chk CHANNEL_WIDTH_20 CHAN_OFFSET_NO_EXT
  | OPC_BW40PLUS => chk CHANNEL_WIDTH_40 CHAN_OFFSET_UPPER
  | OPC_BW40MINUS => chk CHANNEL_WIDTH_40 CHAN_OFFSET_LOWER
  | OPC_BW40 => chk CHANNEL_WIDTH_40 CHAN_OFFSET_NO_EXT
  | OPC_BW80 => chk CHANNEL_WIDTH_80 CHAN_OFFSET_NO_EXT
  | OPC_BW160 => chk CHANNEL_WIDTH_160 CHAN_OFFSET_NO_EXT
  | OPC_BW80P80 => false
  end.

Definition _rtw_get_op_class_by_bchbw (band : band_type) (ch bw offset : Z) : Z :=
  if (bw =? CHANNEL_WIDTH_20) || (bw =? CHANNEL_WIDTH_40) || (bw =? CHANNEL_WIDTH_80) ||
     (bw =? CHANNEL_WIDTH_160)
  then
    match List.find (fun c =>
            band_eqb band (oc_band c) && (opc_bw_to_ch_width (oc_bw c) =? bw) &&
            negb ((bool_decide (oc_bw c = OPC_BW40PLUS) && negb (offset =? CHAN_OFFSET_UPPER)) ||
                  (bool_decide (oc_bw c = OPC_BW40MINUS) && negb (offset =? CHAN_OFFSET_LOWER))) &&
            is_valid_global_op_class_ch c ch) global_op_class with
    | Some c => class_id c
    | None => 0
    end
  else 0.

(** The C result, and [bw] and [offset] after the call. *)
Definition rtw_get_bw_offset_by_op_class_ch (gid ch bw offset : Z) : bool * Z * Z :=
  match get_global_op_class_by_id gid with
  | None => (false, bw, offset)
  | Some opc =>
    let bw := opc_bw_to_ch_width (oc_bw opc) in
    let offset := match oc_bw opc with
                  | OPC_BW40PLUS => CHAN_OFFSET_UPPER
                  | OPC_BW40MINUS => CHAN_OFFSET_LOWER
                  | _ => offset
                  end in
    match rtw_get_offset_by_bchbw cfg (oc_band opc) ch bw offset with
    | Some o => (true, bw, o)
    | None => (false, bw, offset)
    end
  end.

End OpClasses.

(** ** Antenna configurations *)

Definition RF_PATH_MAX : Z := 4.

Definition RF_TYPE_MAX : Z := 8.

Definition RF_TYPE_VALID (t : Z) : bool := t <? RF_TYPE_MAX.

Definition _rf_type_to_rf_tx_cnt : list Z := [1; 1; 2; 2; 2; 3; 3; 4; 1].
Definition _rf_type_to_rf_rx_cnt : list Z := [1; 2; 2; 3; 4; 3; 4; 4; 1].

Definition rf_type_to_rf_tx_cnt (t : Z) : Z :=
  if RF_TYPE_VALID t then nth (Z.to_nat t) _rf_type_to_rf_tx_cnt 0 else 0.

Definition rf_type_to_rf_rx_cnt (t : Z) : Z :=
  if RF_TYPE_VALID t then nth (Z.to_nat t) _rf_type_to_rf_rx_cnt 0 else 0.

(** The values of [enum rf_type]: 1T1R 0, 1T2R 1, 2T2R 2, 2T3R 3, 2T4R 4,
    3T3R 5, 3T4R 6, 4T4R 7. *)
Definition _trx_num_to_rf_type : list (list Z) :=
  [[0; 1; 8; 8]; [8; 2; 3; 4]; [8; 8; 5; 6]; [8; 8; 8; 7]].

Definition trx_num_to_rf_type (tx_num rx_num : Z) : Z :=
  if (0 <? tx_num) && (tx_num <=? RF_PATH_MAX) && (0 <? rx_num) && (rx_num <=? RF_PATH_MAX)
  then nth (Z.to_nat (rx_num - 1)) (nth (Z.to_nat (tx_num - 1)) _trx_num_to_rf_type []) RF_TYPE_MAX
  else RF_TYPE_MAX.

(** The number of bits below [RF_PATH_MAX] that are set. *)
Definition path_cnt (bmp : Z) : Z :=
  fold_left (fun n i => if negb (Z.land (Z.shiftr bmp i) 1 =? 0) then n + 1 else n) [0; 1; 2; 3] 0.

Definition trx_bmp_to_rf_type (tx_bmp rx_bmp : Z) : Z :=
  trx_num_to_rf_type (path_cnt tx_bmp) (path_cnt rx_bmp).

Definition rf_type_is_a_in_b (a b : Z) : bool :=
  (rf_type_to_rf_tx_cnt a <=? rf_type_to_rf_tx_cnt b) &&
  (rf_type_to_rf_rx_cnt a <=? rf_type_to_rf_rx_cnt b).

(** [bmp] and [bmp_bit_cnt] after the loop over the bits from 3 down to 0. *)
Definition rtw_path_bmp_limit_from_higher (bmp cnt lmt : Z) : Z * Z :=
  fold_left (fun '(bmp, cnt) i =>
    if (lmt <? cnt) && negb (Z.land bmp (BIT i) =? 0)
    then (u8 (Z.land bmp (Z.lnot (BIT i))), u8 (cnt - 1)) else (bmp, cnt))
    [3; 2; 1; 0] (bmp, cnt).

(** The pairs [(i, j)] in the order of the two nested loops. *)
Definition trx_pairs (tx rx : Z) : list (Z * Z) :=
  concat (map (fun j => map (fun i => (Z.of_nat i, Z.of_nat j)) (rev (seq 1 (Z.to_nat tx))))
            (rev (seq 1 (Z.to_nat rx)))).

(** The bitmap returned and the antenna counts written ([None]: unchanged). *)
Definition rtw_restrict_trx_path_bmp_by_rftype (trx_path_bmp type : Z) : Z * option (Z * Z) :=
  let bmp_tx := Z.shiftr (Z.land trx_path_bmp 240) 4 in
  let bmp_rx := Z.land trx_path_bmp 15 in
  let '(bmp_tx, tx_num) :=
    rtw_path_bmp_limit_from_higher bmp_tx (path_cnt bmp_tx) (rf_type_to_rf_tx_cnt type) in
  let '(bmp_rx, rx_num) :=
    rtw_path_bmp_limit_from_higher bmp_rx (path_cnt bmp_rx) (rf_type_to_rf_rx_cnt type) in
  match List.find (fun '(i, j) => RF_TYPE_VALID (trx_num_to_rf_type i j)) (trx_pairs tx_num rx_num) with
  | Some (i, j) =>
    let '(bmp_tx, tx_num) := rtw_path_bmp_limit_from_higher bmp_tx tx_num i in
    let '(bmp_rx, rx_num) := rtw_path_bmp_limit_from_higher bmp_rx rx_num j in
    (u8 (Z.lor (Z.shiftl bmp_tx 4) bmp_rx), Some (tx_num, rx_num))
  | None => (0, None)
  end.

Definition _mb_of_ntx : list Z := [0; 301; 477; 602; 699; 778; 845; 903].

Definition mb_of_ntx (ntx : Z) : Z :=
  if (ntx =? 0) || (8 <? ntx) then 0 else nth (Z.to_nat (ntx - 1)) _mb_of_ntx 0.

(** ** Operating classes *)

Definition all_cfgs : list band_cfg :=
  [BandCfg true true; BandCfg true false; BandCfg false true; BandCfg false false].

Lemma all_cfgs_in cfg : In cfg all_cfgs.
Proof. destruct cfg as [[] []]; simpl; tauto. Qed.

(** A property of every entry of every build's database. *)
Lemma forall_classes (P : band_cfg -> op_class_t -> bool) :
  forallb (fun cfg => forallb (P cfg) (global_op_class cfg)) all_cfgs = true ->
  forall cfg c, In c (global_op_class cfg) -> P cfg c = true.
Proof.
  intros H cfg c Hc. rewrite forallb_forall in H. specialize (H cfg (all_cfgs_in cfg)).
  rewrite forallb_forall in H. by apply H.
Qed.

Lemma find_class cfg gid c :
  get_global_op_class_by_id cfg gid = Some c -> In c (global_op_class cfg) /\ class_id c = gid.
Proof. intros H. apply List.find_some in H as [? E]. split; [done|lia]. Qed.

(** C32. The operating class database agrees with the channel tables, in every
    build: class ids are unique, and for every channel a class lists, the
    center channel of the class's bandwidth exists and the channel is one of
    its operating channels. *)
Theorem op_class_database_valid cfg :
  NoDup (map class_id (global_op_class cfg)) /\
  forall c, In c (global_op_class cfg) -> dbg_global_op_class_validate cfg c = true.
Proof.
  split.
  - destruct cfg as [[] []]; vm_compute; apply (bool_decide_unpack _); vm_compute; exact I.
  - intros c Hc.
    apply (forall_classes dbg_global_op_class_validate); [vm_compute; reflexivity|done].
Qed.

(** The class the reverse lookup finds for a channel of class [gid]: classes
    124 and 125 overlap, and 124 comes first. *)
Definition canonical (gid ch : Z) : Z := if (gid =? 125) && (ch <=? 161) then 124 else gid.

Definition roundtrip_ok (bw0 off0 : Z) (cfg : band_cfg) (c : op_class_t) : bool :=
  forallb (fun ch =>
    match rtw_get_bw_offset_by_op_class_ch cfg (class_id c) ch bw0 off0 with
    | (true, bw, off) =>
      (bw =? opc_bw_to_ch_width (oc_bw c)) &&
      (_rtw_get_op_class_by_bchbw cfg (oc_band c) ch bw off =? canonical (class_id c) ch)
    | _ => false
    end) (oc_chs c).

(** A class and one of its channels determine bandwidth and offset, and
    these determine the class again (class 124 for the channels 125 shares
    with it), whatever the caller left in the output variables. *)
Theorem op_class_roundtrip cfg gid c ch bw0 off0 :
  get_global_op_class_by_id cfg gid = Some c -> is_valid_global_op_class_ch c ch = true ->
  exists off,
    rtw_get_bw_offset_by_op_class_ch cfg gid ch bw0 off0 = (true, opc_bw_to_ch_width (oc_bw c), off) /\
    _rtw_get_op_class_by_bchbw cfg (oc_band c) ch (opc_bw_to_ch_width (oc_bw c)) off =
      canonical gid ch.
Proof.
  intros Hc Hch. apply find_class in Hc as [Hin <-].
  assert (roundtrip_ok bw0 off0 cfg c = true) as H.
  { apply (forall_classes (roundtrip_ok bw0 off0)); [vm_compute; reflexivity|done]. }
  unfold roundtrip_ok in H. rewrite forallb_forall in H.
  apply existsb_exists in Hch as (x&Hx&E). apply Z.eqb_eq in E. subst x. specialize (H ch Hx).
  destruct (rtw_get_bw_offset_by_op_class_ch _ _ _ _ _) as [[[] bw] off]; [|done].
  apply andb_true_iff in H as [E1 E2]. apply Z.eqb_eq in E1, E2. subst bw. by exists off.
Qed.

Lemma op_class_roundtrip_witness :
  exists off, rtw_get_bw_offset_by_op_class_ch (BandCfg true false) 84 7 0 0 = (true, 1, off) /\
    _rtw_get_op_class_by_bchbw (BandCfg true false) BAND_ON_24G 7 1 off = 84.
Proof.
  exact (op_class_roundtrip (BandCfg true false) 84
    (OpClass 84 BAND_ON_24G OPC_BW40MINUS [5; 6; 7; 8; 9; 10; 11; 12; 13]) 7 0 0 eq_refl eq_refl).
Defined.

Definition sub_ok (cfg : band_cfg) (c : op_class_t) : bool :=
  forallb (fun ch =>
    let sub := get_sub_op_class cfg (class_id c) ch in
    if bool_decide (oc_bw c = OPC_BW20) then sub =? 0
    else match get_global_op_class_by_id cfg sub with
         | Some d => band_eqb (oc_band d) (oc_band c) && is_valid_global_op_class_ch d ch &&
                     (opc_bw_to_ch_width (oc_bw d) + 1 =? opc_bw_to_ch_width (oc_bw c))
         | None => false
         end) (oc_chs c).

(** In a build without the 6 GHz band, [get_sub_op_class] of a class and
    one of its channels is 0 for a 20 MHz class, and otherwise a class of the
    same band and the next narrower bandwidth that lists the channel; the
    error -2 does not occur. *)
Theorem sub_op_class_narrower b5 gid c ch :
  let cfg := BandCfg b5 false in
  get_global_op_class_by_id cfg gid = Some c -> is_valid_global_op_class_ch c ch = true ->
  if bool_decide (oc_bw c = OPC_BW20) then get_sub_op_class cfg gid ch = 0
  else exists d, get_global_op_class_by_id cfg (get_sub_op_class cfg gid ch) = Some d /\
         oc_band d = oc_band c /\ is_valid_global_op_class_ch d ch = true /\
         opc_bw_to_ch_width (oc_bw d) + 1 = opc_bw_to_ch_width (oc_bw c).
Proof.
  intros cfg Hc Hch. apply find_class in Hc as [Hin <-].
  assert (sub_ok cfg c = true) as H.
  { assert (forallb (sub_ok cfg) (global_op_class cfg) = true) as Hall.
    { unfold cfg. destruct b5; vm_compute; reflexivity. }
    rewrite forallb_forall in Hall. by apply Hall. }
  unfold sub_ok in H. rewrite forallb_forall in H.
  apply existsb_exists in Hch as (x&Hx&E). apply Z.eqb_eq in E. subst x. specialize (H ch Hx).
  cbv zeta in H. destruct (bool_decide _); [lia|].
  destruct (get_global_op_class_by_id cfg _) as [d|]; [|done].
  apply andb_true_iff in H as [H E3]. apply andb_true_iff in H as [E1 E2].
  exists d. split_and!; [done| |done|lia]. by apply bool_decide_eq_true in E1.
Qed.

Lemma sub_op_class_narrower_witness :
  exists d, get_global_op_class_by_id (BandCfg true false) (get_sub_op_class (BandCfg true false) 116 44)
              = Some d /\ oc_band d = BAND_ON_5G /\ is_valid_global_op_class_ch d 44 = true /\
            opc_bw_to_ch_width (oc_bw d) + 1 = 1.
Proof.
  exact (sub_op_class_narrower true 116 (OpClass 116 BAND_ON_5G OPC_BW40PLUS [36; 44]) 44
           eq_refl eq_refl).
Defined.

(** With the 6 GHz band compiled in, [get_sub_op_class] crosses bands: it
    compares bandwidth and channel number but not the band, so for channel 1 of
    the 6 GHz 80 MHz class it returns a 2.4 GHz class, and for channel 37 of
    the 6 GHz 40 MHz class a 6 GHz one only because no other band lists 37. *)
Theorem sub_op_class_crosses_bands :
  let cfg := BandCfg true true in
  get_sub_op_class cfg 133 1 = 83 /\
  option_map oc_band (get_global_op_class_by_id cfg 83) = Some BAND_ON_24G /\
  option_map oc_band (get_global_op_class_by_id cfg 133) = Some BAND_ON_6G /\
  get_sub_op_class cfg 132 37 = 131.
Proof. vm_compute. split_and!; reflexivity. Qed.

(** ** Antenna configurations *)

Definition subset (a b : Z) : bool := Z.land a b =? a.

Definition restrict_ok (type bmp : Z) : bool :=
  let '(r, nums) := rtw_restrict_trx_path_bmp_by_rftype bmp type in
  let tx := Z.shiftr r 4 in
  let rx := Z.land r 15 in
  match nums with
  | None => (r =? 0) && ((Z.land bmp 240 =? 0) || (Z.land bmp 15 =? 0))
  | Some (n, m) =>
    subset r bmp && (path_cnt tx =? n) && (path_cnt rx =? m) && (0 <? n) && (0 <? m) &&
    RF_TYPE_VALID (trx_bmp_to_rf_type tx rx) && rf_type_is_a_in_b (trx_bmp_to_rf_type tx rx) type
  end.

(** Restricting a path bitmap to an antenna configuration: for every
    bitmap and every valid configuration the result uses only paths of the
    input, the counts reported are its numbers of transmit and receive paths,
    and these form a configuration the hardware has that is contained in the
    given one; the result is empty exactly when the input has no transmit path
    or no receive path. *)
Theorem restrict_trx_path_sound bmp type :
  is_u8 bmp -> 0 <= type < RF_TYPE_MAX ->
  let '(r, nums) := rtw_restrict_trx_path_bmp_by_rftype bmp type in
  match nums with
  | None => r = 0 /\ (Z.land bmp 240 = 0 \/ Z.land bmp 15 = 0)
  | Some (n, m) =>
    Z.land r bmp = r /\ path_cnt (Z.shiftr r 4) = n /\ path_cnt (Z.land r 15) = m /\
    0 < n /\ 0 < m /\
    RF_TYPE_VALID (trx_bmp_to_rf_type (Z.shiftr r 4) (Z.land r 15)) = true /\
    rf_type_is_a_in_b (trx_bmp_to_rf_type (Z.shiftr r 4) (Z.land r 15)) type = true
  end.
Proof.
  intros Hb Ht. unfold RF_TYPE_MAX in Ht.
  assert (restrict_ok type bmp = true) as H.
  { assert (forallb (fun t => forallb (restrict_ok t) all_u8) [0; 1; 2; 3; 4; 5; 6; 7] = true) as Hall
      by (vm_compute; reflexivity).
    rewrite forallb_forall in Hall. apply forall_u8; [|done]. apply Hall. simpl. lia. }
  unfold restrict_ok, subset in H. destruct (rtw_restrict_trx_path_bmp_by_rftype bmp type) as [r [[n m]|]].
  - repeat match goal with E : _ && _ = true |- _ => apply andb_true_iff in E as [E ?] end.
    split_and!; (done || lia).
  - apply andb_true_iff in H as [E1 E2]. split; [lia|]. apply orb_true_iff in E2 as [E2|E2]; lia.
Qed.

Lemma restrict_trx_path_sound_witness :
  rtw_restrict_trx_path_bmp_by_rftype 51 0 = (17, Some (1, 1)) /\
  Z.land 17 51 = 17 /\ rf_type_is_a_in_b (trx_bmp_to_rf_type 1 1) 0 = true.
Proof.
  split; [reflexivity|].
  destruct (restrict_trx_path_sound 51 0 ltac:(ulia) ltac:(vm_compute; split; congruence))
    as (H1&_&_&_&_&_&H2).
  split; [exact H1|exact H2].
Defined.
