(* ===== verification/ByteBuf.v ===== *)
(** Byte buffers of the core layer: reads and writes at an offset of an
    allocated object, the memory functions of src/os_dep/osdep_service_linux.c
    and the little- and big-endian accessors of src/include/osdep_service.h.

    A buffer is the list of the bytes of one allocated object and a pointer
    into it is an offset.  An access outside the object is [Fault]; a loop
    that is not done within its fuel is [Timeout].  The two are different
    outcomes, so that a theorem can say that a search stays inside its buffer,
    and another one that it does not come back. *)
From Stdlib Require Import ZArith Lia Bool List.
From stdpp Require Import base tactics list numbers.
From S2P Require Import Prelude.

Inductive outcome (A : Type) :=
  | Ret (a : A)
  | Fault
  | Timeout.

Arguments Ret {A} a.
Arguments Fault {A}.
Arguments Timeout {A}.

#[global] Instance outcome_ret : MRet outcome := fun A a => Ret a.

#[global] Instance outcome_bind : MBind outcome :=
  fun A B k m => match m with Ret a => k a | Fault => Fault | Timeout => Timeout end.

(** The access does not leave the object. *)
Definition safe {A} (o : outcome A) : Prop := o <> Fault.

(** The computation comes back with a value that satisfies [P]. *)
Definition returns {A} (o : outcome A) (P : A -> Prop) : Prop :=
  match o with Ret a => P a | _ => False end.

Lemma bind_Ret {A B} (a : A) (k : A -> outcome B) : (Ret a ≫= k) = k a.
Proof. reflexivity. Qed.

Lemma bind_Ret_inv {A B} (o : outcome A) (k : A -> outcome B) b :
  (o ≫= k) = Ret b -> exists a, o = Ret a /\ k a = Ret b.
Proof. destruct o; cbn; try discriminate. eauto. Qed.

(** Length of a buffer as an integer. *)
Definition zlen {A} (l : list A) : Z := Z.of_nat (length l).

(** [n] bytes at [p]. *)
Definition rds (m : list Z) (p n : Z) : outcome (list Z) :=
  if (0 <=? p) && (0 <=? n) && (p + n <=? zlen m)
  then Ret (take (Z.to_nat n) (drop (Z.to_nat p) m)) else Fault.

(** One byte, [*p]. *)
Definition rd (m : list Z) (p : Z) : outcome Z :=
  if 0 <=? p then match m !! Z.to_nat p with Some b => Ret b | None => Fault end else Fault.

(** Bytes written at [p]; [_rtw_memcpy] and [_rtw_memmove] with the source
    already read. *)
Definition wrs (m : list Z) (p : Z) (d : list Z) : outcome (list Z) :=
  if (0 <=? p) && (p + zlen d <=? zlen m)
  then Ret (take (Z.to_nat p) m ++ d ++ drop (Z.to_nat p + length d) m) else Fault.

(** One byte written, [*p = v]. *)
Definition wr (m : list Z) (p v : Z) : outcome (list Z) := wrs m p [u8 v].

(** [_rtw_memmove] and [_rtw_memcpy] inside one buffer. *)
Definition _rtw_memmove (m : list Z) (dst src n : Z) : outcome (list Z) :=
  rds m src n ≫= fun d => wrs m dst d.

(** [_rtw_memset] *)
Definition _rtw_memset (m : list Z) (p c n : Z) : outcome (list Z) :=
  if 0 <=? n then wrs m p (replicate (Z.to_nat n) (u8 c)) else Fault.

(** [_rtw_memcmp] of the buffer with given bytes: [true] when they agree.  All
    the bytes compared have to lie inside the object. *)
Definition _rtw_memcmp (m : list Z) (p : Z) (d : list Z) : outcome bool :=
  rds m p (zlen d) ≫= fun x => Ret (bool_decide (x = d)).

(** [RTW_GET_LE16] and [RTW_GET_BE16] *)
Definition RTW_GET_LE16 (m : list Z) (p : Z) : outcome Z :=
  rd m (p + 1) ≫= fun hi => rd m p ≫= fun lo => Ret (u16 (Z.lor (Z.shiftl hi 8) lo)).

Definition RTW_GET_BE16 (m : list Z) (p : Z) : outcome Z :=
  rd m p ≫= fun hi => rd m (p + 1) ≫= fun lo => Ret (u16 (Z.lor (Z.shiftl hi 8) lo)).

(** [RTW_GET_BE24] *)
Definition RTW_GET_BE24 (m : list Z) (p : Z) : outcome Z :=
  rd m p ≫= fun a => rd m (p + 1) ≫= fun b => rd m (p + 2) ≫= fun c =>
  Ret (Z.lor (Z.lor (Z.shiftl a 16) (Z.shiftl b 8)) c).

(** The two bytes [RTW_PUT_LE16] stores. *)
Definition put_le16 (v : Z) : list Z := [Z.land (u16 v) 255; Z.shiftr (u16 v) 8].

(** [RTW_PUT_LE16] *)
Definition RTW_PUT_LE16 (m : list Z) (p v : Z) : outcome (list Z) := wrs m p (put_le16 v).

(** ** Laws *)

Lemma zlen_nonneg {A} (l : list A) : 0 <= zlen l.
Proof. unfold zlen. lia. Qed.

Lemma zlen_app {A} (l k : list A) : zlen (l ++ k) = zlen l + zlen k.
Proof. unfold zlen. rewrite length_app. lia. Qed.

Lemma zlen_cons {A} (x : A) l : zlen (x :: l) = 1 + zlen l.
Proof. unfold zlen. cbn [length]. lia. Qed.

Lemma zlen_nil {A} : zlen (@nil A) = 0.
Proof. reflexivity. Qed.

Lemma zlen_replicate {A} n (x : A) : zlen (replicate n x) = Z.of_nat n.
Proof. unfold zlen. by rewrite length_replicate. Qed.

Lemma to_nat_zlen {A} (l : list A) : Z.to_nat (zlen l) = length l.
Proof. unfold zlen. lia. Qed.

(** Normalise lengths and finish by arithmetic. *)
Ltac pose_zlen l :=
  lazymatch goal with
  | _ : 0 <= zlen l |- _ => fail
  | _ => pose proof (zlen_nonneg l)
  end.

Ltac zl :=
  rewrite ?zlen_app, ?zlen_cons, ?zlen_replicate, ?zlen_nil in *;
  repeat match goal with
         | _ : context [zlen ?l] |- _ => pose_zlen l
         | |- context [zlen ?l] => pose_zlen l
         end; try lia.

Lemma rd_spec m p : 0 <= p < zlen m -> exists b, rd m p = Ret b /\ m !! Z.to_nat p = Some b.
Proof.
  intros H. unfold rd. rewrite (proj2 (Z.leb_le _ _)) by lia.
  destruct (lookup_lt_is_Some_2 m (Z.to_nat p)) as [b Hb]; [unfold zlen in H; lia|].
  rewrite Hb. eauto.
Qed.

Lemma rd_fault m p : zlen m <= p -> rd m p = Fault.
Proof.
  intros H. unfold rd, zlen in *. rewrite (proj2 (Z.leb_le _ _)) by lia.
  by rewrite (lookup_ge_None_2 m) by lia.
Qed.

Lemma rd_no_timeout m p : rd m p <> Timeout.
Proof. unfold rd. destruct (0 <=? p); [|done]. by destruct (m !! _). Qed.

Lemma rds_no_timeout m p n : rds m p n <> Timeout.
Proof. unfold rds. by destruct (_ && _). Qed.

Lemma rd_u8 m p b : Forall is_u8 m -> rd m p = Ret b -> is_u8 b.
Proof.
  intros Hm. unfold rd. destruct (0 <=? p); [|done].
  destruct (m !! _) eqn:E; [|done]. intros [= <-]. by eapply (Forall_lookup_1 is_u8).
Qed.

(** What lies behind a prefix. *)
Lemma rd_at pre x post p : p = zlen pre -> rd (pre ++ x :: post) p = Ret x.
Proof.
  intros ->. unfold rd. rewrite (proj2 (Z.leb_le _ _)) by apply zlen_nonneg.
  by rewrite to_nat_zlen, list_lookup_middle by done.
Qed.

Lemma rd_shift pre m p : 0 <= p -> rd (pre ++ m) (zlen pre + p) = rd m p.
Proof.
  intros Hp. pose proof (zlen_nonneg pre). unfold rd.
  rewrite (proj2 (Z.leb_le 0 p)), (proj2 (Z.leb_le 0 (zlen pre + p))) by lia. unfold zlen in *.
  rewrite lookup_app_r by lia.
  by replace (Z.to_nat (Z.of_nat (length pre) + p) - length pre)%nat with (Z.to_nat p) by lia.
Qed.

Lemma rds_at pre x post p n :
  p = zlen pre -> n = zlen x -> rds (pre ++ x ++ post) p n = Ret x.
Proof.
  intros -> ->. unfold rds. rewrite !(proj2 (Z.leb_le _ _)) by zl.
  cbn [andb]. rewrite !to_nat_zlen, drop_app_length, take_app_length. done.
Qed.

Lemma wrs_at pre x y post p :
  p = zlen pre -> length x = length y -> wrs (pre ++ x ++ post) p y = Ret (pre ++ y ++ post).
Proof.
  intros -> Hl. assert (zlen x = zlen y) by (unfold zlen; lia).
  unfold wrs. rewrite !(proj2 (Z.leb_le _ _)) by zl. cbn [andb].
  rewrite to_nat_zlen, take_app_length, drop_app_add', <- Hl, drop_app_length by done. done.
Qed.

Lemma rd_nth m p : 0 <= p < zlen m -> rd m p = Ret (nth (Z.to_nat p) m 0).
Proof. intros H. destruct (rd_spec m p H) as (x & -> & E). by rewrite (nth_lookup_Some _ _ _ _ E). Qed.

Lemma rds_fault m p n : zlen m < p + n -> rds m p n = Fault.
Proof. intros H. unfold rds. rewrite (proj2 (Z.leb_gt (p + n) _)) by lia. by rewrite andb_false_r. Qed.

Lemma rds_spec m p n :
  0 <= p -> 0 <= n -> p + n <= zlen m ->
  rds m p n = Ret (take (Z.to_nat n) (drop (Z.to_nat p) m)).
Proof. intros. unfold rds. by rewrite !(proj2 (Z.leb_le _ _)) by lia. Qed.

Lemma wrs_fault m p d : zlen m < p + zlen d -> wrs m p d = Fault.
Proof. intros H. unfold wrs. rewrite (proj2 (Z.leb_gt (p + _) _)) by lia. by rewrite andb_false_r. Qed.

Lemma wrs_length m p d m' : wrs m p d = Ret m' -> zlen m' = zlen m.
Proof.
  unfold wrs. destruct ((0 <=? p) && (p + zlen d <=? zlen m)) eqn:E; [|done].
  apply andb_true_iff in E as [E1%Z.leb_le E2%Z.leb_le]. intros [= <-].
  unfold zlen in *. rewrite !length_app, length_take, length_drop. lia.
Qed.

Lemma memcmp_at pre x post p d :
  p = zlen pre -> length x = length d ->
  _rtw_memcmp (pre ++ x ++ post) p d = Ret (bool_decide (x = d)).
Proof.
  intros Hp Hl. unfold _rtw_memcmp. rewrite (rds_at pre x post) by (try done; unfold zlen; lia). done.
Qed.

Lemma memcmp_safe m p d : 0 <= p -> p + zlen d <= zlen m -> exists b, _rtw_memcmp m p d = Ret b.
Proof. intros. unfold _rtw_memcmp. rewrite rds_spec by zl. by eexists. Qed.

(** ** Sixteen-bit values *)

Lemma lor_shift8 hi lo : is_u8 hi -> is_u8 lo -> Z.lor (Z.shiftl hi 8) lo = hi * 256 + lo.
Proof.
  intros Hh Hl. unfold is_u8 in *. rewrite Z.shiftl_mul_pow2 by lia. change (2 ^ 8) with 256.
  rewrite <- Z.lxor_lor; [rewrite <- Z.add_nocarry_lxor; [done|]|];
    (apply Z.bits_inj'; intros n Hn; rewrite Z.land_spec, Z.bits_0;
     destruct (Z.ltb_spec n 8);
     [ change 256 with (2 ^ 8); rewrite Z.mul_pow2_bits_low by lia; done
     | rewrite (Z.bits_above_log2 lo) by (first [lia | destruct (Z.eq_dec lo 0) as [->|];
         [cbn; lia | apply (Z.lt_le_trans _ 8); [apply Z.log2_lt_pow2; lia | lia]]]);
       by rewrite andb_false_r ]).
Qed.

Lemma RTW_GET_LE16_spec m p :
  Forall is_u8 m -> 0 <= p -> p + 2 <= zlen m ->
  exists lo hi, m !! Z.to_nat p = Some lo /\ m !! Z.to_nat (p + 1) = Some hi /\
    is_u8 lo /\ is_u8 hi /\ RTW_GET_LE16 m p = Ret (hi * 256 + lo).
Proof.
  intros Hm H0 H1. destruct (rd_spec m p) as (lo & E1 & L1); [lia|].
  destruct (rd_spec m (p + 1)) as (hi & E2 & L2); [lia|]. exists lo, hi.
  pose proof (rd_u8 _ _ _ Hm E1). pose proof (rd_u8 _ _ _ Hm E2).
  split_and!; auto; try apply H; try apply H2.
  unfold RTW_GET_LE16. rewrite E1, E2, !bind_Ret, lor_shift8 by done. f_equal.
  apply u16_small. unfold is_u8, is_u16 in *. lia.
Qed.

Lemma put_le16_bytes v : is_u16 v -> put_le16 v = [v mod 256; v / 256].
Proof.
  intros H. unfold put_le16. rewrite u16_small by done. f_equal.
  - apply (Z.land_ones v 8). lia.
  - f_equal. apply (Z.shiftr_div_pow2 v 8). lia.
Qed.

Lemma get_put_le16 pre v post p :
  p = zlen pre -> is_u16 v -> RTW_GET_LE16 (pre ++ put_le16 v ++ post) p = Ret v.
Proof.
  intros -> Hv. rewrite put_le16_bytes by done. unfold RTW_GET_LE16.
  cbn [app]. rewrite (rd_at pre) by done.
  replace (pre ++ v mod 256 :: v / 256 :: post) with ((pre ++ [v mod 256]) ++ v / 256 :: post)
    by by rewrite <- app_assoc.
  rewrite rd_at by zl. rewrite !bind_Ret. unfold is_u16 in Hv.
  rewrite lor_shift8 by (unfold is_u8; zlia). f_equal. unfold u16. zlia.
Qed.

(** ** Writes and moves at a known place *)

Lemma wrs_over a rest p d :
  p = zlen a -> zlen d <= zlen rest -> wrs (a ++ rest) p d = Ret (a ++ d ++ drop (length d) rest).
Proof.
  intros Hp Hl. unfold zlen in Hl. rewrite <- (take_drop (length d) rest) at 1.
  rewrite wrs_at; [done|done|]. rewrite length_take. lia.
Qed.

Lemma wr_over a x rest p v : p = zlen a -> wr (a ++ x :: rest) p v = Ret (a ++ u8 v :: rest).
Proof. intros Hp. unfold wr. rewrite wrs_over; [done|done|]. zl. Qed.

(** Moving a block down over the block before it. *)
Lemma memmove_down a x y z p q n :
  p = zlen a -> q = zlen a + zlen x -> n = zlen y ->
  _rtw_memmove (a ++ x ++ y ++ z) p q n = Ret (a ++ y ++ drop (length y) (x ++ y) ++ z).
Proof.
  intros -> -> ->. unfold _rtw_memmove.
  replace (a ++ x ++ y ++ z) with ((a ++ x) ++ y ++ z) at 1 by by rewrite <- app_assoc.
  rewrite rds_at, bind_Ret by zl. rewrite wrs_over by zl. do 3 f_equal.
  rewrite (assoc_L app x y z), drop_app_le by (rewrite length_app; lia). done.
Qed.

Lemma memset_over a x z p n :
  p = zlen a -> n = zlen x ->
  _rtw_memset (a ++ x ++ z) p 0 n = Ret (a ++ replicate (length x) 0 ++ z).
Proof.
  intros -> ->. unfold _rtw_memset. rewrite (proj2 (Z.leb_le _ _)) by zl.
  rewrite to_nat_zlen. rewrite wrs_at; [done|done|]. by rewrite length_replicate.
Qed.

Lemma rds_prefix d n : n = zlen d -> rds d 0 n = Ret d.
Proof.
  intros ->. rewrite rds_spec by zl. change (Z.to_nat 0) with O. rewrite drop_0, to_nat_zlen.
  by rewrite take_ge.
Qed.

Lemma zlen_put v : zlen (put_le16 v) = 2.
Proof. reflexivity. Qed.
