(* ===== verification/IeSearch.v ===== *)
(** Searching information elements: the element and attribute lookups of
    src/core/rtw_ieee80211.c.

    A pointer into the frame is an offset of the buffer that holds it; a NULL
    result is [None].  The searches that always finish carry the fuel in their
    definition, the attribute searches take it as an argument because they do
    not always finish. *)
From Stdlib Require Import ZArith Lia Bool List.
From stdpp Require Import base tactics list numbers gmap.
From S2P Require Import Prelude ByteBuf.

Definition MAX_IE_SZ : Z := 768.
Definition _BEACON_IE_OFFSET_ : Z := 12.
Definition _PROBERSP_IE_OFFSET_ : Z := 12.
Definition _PROBEREQ_IE_OFFSET_ : Z := 0.
Definition _WPA_IE_ID_ : Z := 221.
Definition _WPA2_IE_ID_ : Z := 48.
Definition _WAPI_IE_ : Z := 68.
Definition WLAN_EID_VENDOR_SPECIFIC : Z := 221.
Definition WLAN_EID_EXTENSION : Z := 255.
Definition WLAN_EID_EXT_OWE_DH_PARAM : Z := 32.

(** ** Elements *)

(** [rtw_get_ie]: the loop, at pointer [p] after [i] bytes. *)
Fixpoint get_ie_loop (fuel : nat) (m : list Z) (p i index limit : Z) : outcome (option (Z * Z)) :=
  match fuel with
  | O => Timeout
  | S fuel =>
      b ← rd m p;
      if b =? index then
        len ← rd m (p + 1);
        mret (Some (p, len))
      else
        tmp ← rd m (p + 1);
        if limit <=? i + (tmp + 2) then mret None
        else get_ie_loop fuel m (p + (tmp + 2)) (i + (tmp + 2)) index limit
  end.

(** Address of the element and its length octet, or NULL. *)
Definition rtw_get_ie (m : list Z) (pbuf index limit : Z) : outcome (option (Z * Z)) :=
  if limit <? 1 then mret None else get_ie_loop (Z.to_nat limit) m pbuf 0 index limit.

(** What a search that can copy its result hands back: the address, the length
    of the whole element, and the bytes copied when the caller gave a buffer. *)
Record ie_hit := Hit { hit_ptr : Z; hit_len : Z; hit_copy : option (list Z) }.

(** The element at [in_ie + cnt], copied when [copy] is set. *)
Definition take_ie (m : list Z) (p : Z) (copy : bool) : outcome ie_hit :=
  len ← rd m (p + 1);
  if copy then d ← rds m p (len + 2); mret (Hit p (len + 2) (Some d))
  else mret (Hit p (len + 2) None).

(** The match of [rtw_get_ie_ex]: the element id, then the OUI when given. *)
Definition ie_ex_match (m : list Z) (p eid : Z) (oui : option (list Z)) : outcome bool :=
  b ← rd m p;
  if eid =? b then
    match oui with
    | None => mret true
    | Some o => _rtw_memcmp m (p + 2) o
    end
  else mret false.

Fixpoint get_ie_ex_loop (fuel : nat) (m : list Z) (in_ie in_len cnt eid : Z)
    (oui : option (list Z)) (copy : bool) : outcome (option ie_hit) :=
  match fuel with
  | O => Timeout
  | S fuel =>
      if cnt <? in_len then
        found ← ie_ex_match m (in_ie + cnt) eid oui;
        if (found : bool) then h ← take_ie m (in_ie + cnt) copy; mret (Some h)
        else
          len ← rd m (in_ie + cnt + 1);
          get_ie_ex_loop fuel m in_ie in_len (cnt + (len + 2)) eid oui copy
      else mret None
  end.

(** [rtw_get_ie_ex] *)
Definition rtw_get_ie_ex (m : list Z) (in_ie in_len eid : Z) (oui : option (list Z))
    (copy : bool) : outcome (option ie_hit) :=
  if in_len <=? 0 then mret None
  else get_ie_ex_loop (S (Z.to_nat in_len)) m in_ie in_len 0 eid oui copy.

(** ** Elements with a vendor type

    [rtw_get_wps_ie], [rtw_get_owe_ie], [rtw_get_p2p_ie], [rtw_get_wfd_ie] and
    [rtw_get_vendor_ie] have the same loop and differ in the test. *)
Fixpoint typed_ie_loop (fuel : nat) (m : list Z) (in_ie in_len cnt : Z)
    (test : Z -> outcome bool) (copy : bool) : outcome (option ie_hit) :=
  match fuel with
  | O => Timeout
  | S fuel =>
      if cnt + 1 + 4 <? in_len then
        _ ← rd m (in_ie + cnt);
        if MAX_IE_SZ <=? cnt + 1 + 4 then mret None
        else
          found ← test (in_ie + cnt);
          if (found : bool) then h ← take_ie m (in_ie + cnt) copy; mret (Some h)
          else
            len ← rd m (in_ie + cnt + 1);
            typed_ie_loop fuel m in_ie in_len (cnt + (len + 2)) test copy
      else mret None
  end.

Definition typed_ie (m : list Z) (in_ie in_len : Z) (test : Z -> outcome bool) (copy : bool) :
    outcome (option ie_hit) :=
  if in_len <=? 0 then mret None
  else typed_ie_loop (S (Z.to_nat in_len)) m in_ie in_len 0 test copy.

(** [eid == WLAN_EID_VENDOR_SPECIFIC && _rtw_memcmp(&in_ie[cnt + 2], oui, 4)] *)
Definition vendor_test (m : list Z) (oui : list Z) (p : Z) : outcome bool :=
  eid ← rd m p;
  if eid =? WLAN_EID_VENDOR_SPECIFIC then _rtw_memcmp m (p + 2) oui else mret false.

Definition wps_oui : list Z := [0; 80; 242; 4].
Definition p2p_oui : list Z := [80; 111; 154; 9].
Definition wfd_oui : list Z := [80; 111; 154; 10].
Definition vendor_oui : list Z := [200; 58; 107; 1].
Definition wpa_oui_type : list Z := [0; 80; 242; 1].
Definition wapi_oui1 : list Z := [0; 20; 114; 1].
Definition wapi_oui2 : list Z := [0; 20; 114; 2].

Definition rtw_get_wps_ie (m : list Z) (in_ie in_len : Z) (copy : bool) : outcome (option ie_hit) :=
  typed_ie m in_ie in_len (vendor_test m wps_oui) copy.

Definition rtw_get_p2p_ie (m : list Z) (in_ie in_len : Z) (copy : bool) : outcome (option ie_hit) :=
  typed_ie m in_ie in_len (vendor_test m p2p_oui) copy.

Definition rtw_get_wfd_ie (m : list Z) (in_ie in_len : Z) (copy : bool) : outcome (option ie_hit) :=
  typed_ie m in_ie in_len (vendor_test m wfd_oui) copy.

Definition rtw_get_vendor_ie (m : list Z) (in_ie in_len : Z) (copy : bool) :
    outcome (option ie_hit) :=
  typed_ie m in_ie in_len (vendor_test m vendor_oui) copy.

(** The test of [rtw_get_owe_ie]. *)
Definition owe_test (m : list Z) (p : Z) : outcome bool :=
  eid ← rd m p;
  if eid =? WLAN_EID_EXTENSION then
    b ← rd m (p + 2); mret (b =? WLAN_EID_EXT_OWE_DH_PARAM)
  else mret false.

Definition rtw_get_owe_ie (m : list Z) (in_ie in_len : Z) (copy : bool) : outcome (option ie_hit) :=
  typed_ie m in_ie in_len (owe_test m) copy.

(** [enum bss_type] *)
Inductive bss_type := BSS_TYPE_UNDEF | BSS_TYPE_BCN | BSS_TYPE_PROB_REQ | BSS_TYPE_PROB_RSP.

(** [rtw_get_wps_ie_from_scan_queue]: the length is unsigned. *)
Definition rtw_get_wps_ie_from_scan_queue (m : list Z) (in_ie in_len : Z) (copy : bool)
    (frame_type : bss_type) : outcome (option ie_hit) :=
  match frame_type with
  | BSS_TYPE_BCN | BSS_TYPE_PROB_RSP =>
      rtw_get_wps_ie m (in_ie + _PROBERSP_IE_OFFSET_) (u32 (in_len - _PROBERSP_IE_OFFSET_)) copy
  | BSS_TYPE_PROB_REQ =>
      rtw_get_wps_ie m (in_ie + _PROBEREQ_IE_OFFSET_) (u32 (in_len - _PROBEREQ_IE_OFFSET_)) copy
  | BSS_TYPE_UNDEF => mret None
  end.

(** [rtw_is_wps_ie]: the length of the element when it is a WPS element. *)
Definition rtw_is_wps_ie (m : list Z) (ie_ptr : Z) : outcome (option Z) :=
  eid ← rd m ie_ptr;
  if eid =? _WPA_IE_ID_ then
    same ← _rtw_memcmp m (ie_ptr + 2) wps_oui;
    if (same : bool) then len ← rd m (ie_ptr + 1); mret (Some (len + 2)) else mret None
  else mret None.

(** ** Security elements *)

(** [rtw_get_wpa_ie]: the WPA element of version 1 and its length octet. *)
Fixpoint get_wpa_ie_loop (fuel : nat) (m : list Z) (pie pbuf limit limit_new : Z) :
    outcome (option (Z * Z)) :=
  match fuel with
  | O => Timeout
  | S fuel =>
      r ← rtw_get_ie m pbuf _WPA_IE_ID_ limit_new;
      match r with
      | None => mret None
      | Some (p, len) =>
          same ← _rtw_memcmp m (p + 2) wpa_oui_type;
          version ← (if (same : bool) then v ← RTW_GET_LE16 m (p + 6); mret (v =? 1) else mret false);
          if (version : bool) then l ← rd m (p + 1); mret (Some (p, l))
          else
            let limit_new := limit - (p - pie) - 2 - len in
            if limit_new <=? 0 then mret None
            else get_wpa_ie_loop fuel m pie (p + (2 + len)) limit limit_new
      end
  end.

Definition rtw_get_wpa_ie (m : list Z) (pie limit : Z) : outcome (option (Z * Z)) :=
  get_wpa_ie_loop (S (Z.to_nat limit)) m pie pie limit limit.

(** [rtw_get_wpa2_ie] *)
Definition rtw_get_wpa2_ie (m : list Z) (pie limit : Z) : outcome (option (Z * Z)) :=
  rtw_get_ie m pie _WPA2_IE_ID_ limit.

(** [rtw_get_wapi_ie]: the last WAPI element of the frame. *)
Fixpoint get_wapi_loop (fuel : nat) (m : list Z) (in_ie in_len cnt : Z) (copy : bool)
    (acc : option ie_hit) : outcome (option ie_hit) :=
  match fuel with
  | O => Timeout
  | S fuel =>
      if cnt <? in_len then
        authmode ← rd m (in_ie + cnt);
        found ← (if authmode =? _WAPI_IE_ then
                   s1 ← _rtw_memcmp m (in_ie + cnt + 6) wapi_oui1;
                   if (s1 : bool) then mret true else _rtw_memcmp m (in_ie + cnt + 6) wapi_oui2
                 else mret false);
        acc' ← (if (found : bool) then h ← take_ie m (in_ie + cnt) copy; mret (Some h) else mret acc);
        len ← rd m (in_ie + cnt + 1);
        get_wapi_loop fuel m in_ie in_len (cnt + (len + 2)) copy acc'
      else mret acc
  end.

Definition rtw_get_wapi_ie (m : list Z) (in_ie in_len : Z) (copy : bool) : outcome (option ie_hit) :=
  if in_len <=? 0 then mret None
  else get_wapi_loop (S (Z.to_nat in_len)) m in_ie in_len _BEACON_IE_OFFSET_ copy None.

(** [rtw_get_sec_ie]: the last RSN and the last WPA element. *)
Fixpoint get_sec_loop (fuel : nat) (m : list Z) (in_ie in_len cnt : Z) (copy : bool)
    (rsn wpa : option ie_hit) : outcome (option ie_hit * option ie_hit) :=
  match fuel with
  | O => Timeout
  | S fuel =>
      if cnt <? in_len then
        authmode ← rd m (in_ie + cnt);
        is_wpa ← (if authmode =? _WPA_IE_ID_ then _rtw_memcmp m (in_ie + cnt + 2) wpa_oui_type
                  else mret false);
        wpa' ← (if (is_wpa : bool) then h ← take_ie m (in_ie + cnt) copy; mret (Some h) else mret wpa);
        rsn' ← (if negb is_wpa && (authmode =? _WPA2_IE_ID_)
                then h ← take_ie m (in_ie + cnt) copy; mret (Some h) else mret rsn);
        len ← rd m (in_ie + cnt + 1);
        get_sec_loop fuel m in_ie in_len (cnt + (len + 2)) copy rsn' wpa'
      else mret (rsn, wpa)
  end.

Definition rtw_get_sec_ie (m : list Z) (in_ie in_len : Z) (copy : bool) :
    outcome (option ie_hit * option ie_hit) :=
  get_sec_loop (S (Z.to_nat in_len)) m in_ie in_len _BEACON_IE_OFFSET_ copy None None.

(** ** Attributes of a vendor element *)

(** [rtw_get_wps_attr]: the search of the attributes from [attr_ptr] on.  The
    length of an attribute is a 16-bit sum. *)
Fixpoint wps_attr_loop (fuel : nat) (m : list Z) (wps_ie wps_ielen attr_ptr target_attr_id : Z)
    (copy : bool) : outcome (option ie_hit) :=
  match fuel with
  | O => Timeout
  | S fuel =>
      if attr_ptr - wps_ie <? wps_ielen then
        attr_id ← RTW_GET_BE16 m attr_ptr;
        attr_data_len ← RTW_GET_BE16 m (attr_ptr + 2);
        let attr_len := u16 (attr_data_len + 4) in
        if attr_id =? target_attr_id then
          if copy then d ← rds m attr_ptr attr_len; mret (Some (Hit attr_ptr attr_len (Some d)))
          else mret (Some (Hit attr_ptr attr_len None))
        else wps_attr_loop fuel m wps_ie wps_ielen (attr_ptr + attr_len) target_attr_id copy
      else mret None
  end.

Definition rtw_get_wps_attr (fuel : nat) (m : list Z) (wps_ie wps_ielen target_attr_id : Z)
    (copy : bool) : outcome (option ie_hit) :=
  eid ← rd m wps_ie;
  if negb (eid =? WLAN_EID_VENDOR_SPECIFIC) then mret None
  else
    same ← _rtw_memcmp m (wps_ie + 2) wps_oui;
    if negb same then mret None
    else wps_attr_loop fuel m wps_ie wps_ielen (wps_ie + 6) target_attr_id copy.

(** The bounded search of [rtw_get_p2p_attr] and [rtw_get_wfd_attr]; the two
    differ in the byte order of the length, [get16]. *)
Fixpoint p2p_attr_loop (get16 : list Z -> Z -> outcome Z) (fuel : nat) (m : list Z)
    (p2p_ie p2p_ielen attr_ptr target_attr_id : Z) (copy : bool) : outcome (option ie_hit) :=
  match fuel with
  | O => Timeout
  | S fuel =>
      if attr_ptr - p2p_ie + 3 <=? p2p_ielen then
        attr_id ← rd m attr_ptr;
        attr_data_len ← get16 m (attr_ptr + 1);
        let attr_len := u16 (attr_data_len + 3) in
        if p2p_ielen <? attr_ptr - p2p_ie + attr_len then mret None
        else if attr_id =? target_attr_id then
          if copy then d ← rds m attr_ptr attr_len; mret (Some (Hit attr_ptr attr_len (Some d)))
          else mret (Some (Hit attr_ptr attr_len None))
        else p2p_attr_loop get16 fuel m p2p_ie p2p_ielen (attr_ptr + attr_len) target_attr_id copy
      else mret None
  end.

Definition typed_attr (get16 : list Z -> Z -> outcome Z) (oui : list Z) (fuel : nat) (m : list Z)
    (p2p_ie p2p_ielen target_attr_id : Z) (copy : bool) : outcome (option ie_hit) :=
  if p2p_ielen <=? 6 then mret None
  else
    eid ← rd m p2p_ie;
    if negb (eid =? WLAN_EID_VENDOR_SPECIFIC) then mret None
    else
      same ← _rtw_memcmp m (p2p_ie + 2) oui;
      if negb same then mret None
      else p2p_attr_loop get16 fuel m p2p_ie p2p_ielen (p2p_ie + 6) target_attr_id copy.

Definition rtw_get_p2p_attr : nat -> list Z -> Z -> Z -> Z -> bool -> outcome (option ie_hit) :=
  typed_attr RTW_GET_LE16 p2p_oui.

Definition rtw_get_wfd_attr : nat -> list Z -> Z -> Z -> Z -> bool -> outcome (option ie_hit) :=
  typed_attr RTW_GET_BE16 wfd_oui.

(** What the content lookups return: the address of the content, the length
    stored through [len_content], the bytes copied. *)
Record content_hit := Content { ct_ptr : Z; ct_len : option Z; ct_copy : option (list Z) }.

(** The tail of [rtw_get_wps_attr_content] and [rtw_get_p2p_attr_content], with
    a header of [hdr] bytes.  [len_content] is the capacity the caller stored
    there, [None] for a null pointer. *)
Definition attr_content (m : list Z) (hdr : Z) (h : option ie_hit) (buf_content : bool)
    (len_content : option Z) : outcome (option content_hit) :=
  match h with
  | Some h =>
      if negb (hit_len h =? 0) then
        let size := u32 (hit_len h - hdr) in
        let len' := match len_content with
                    | Some cap => Some (if buf_content && negb (size <? cap) then cap else size)
                    | None => None
                    end in
        let src := hit_ptr h + hdr in
        match len', buf_content with
        | Some n, true => d ← rds m src n; mret (Some (Content src len' (Some d)))
        | None, true => d ← rds m src 1; mret (Some (Content src None (Some d)))
        | _, false => mret (Some (Content src len' None))
        end
      else mret None
  | None => mret None
  end.

Definition rtw_get_wps_attr_content (fuel : nat) (m : list Z) (wps_ie wps_ielen target_attr_id : Z)
    (buf_content : bool) (len_content : option Z) : outcome (option content_hit) :=
  h ← rtw_get_wps_attr fuel m wps_ie wps_ielen target_attr_id false;
  attr_content m 4 h buf_content len_content.

Definition rtw_get_p2p_attr_content (fuel : nat) (m : list Z) (p2p_ie p2p_ielen target_attr_id : Z)
    (buf_content : bool) (len_content : option Z) : outcome (option content_hit) :=
  h ← rtw_get_p2p_attr fuel m p2p_ie p2p_ielen target_attr_id false;
  attr_content m 3 h buf_content len_content.

(** [rtw_get_wfd_attr_content] copies the whole content. *)
Definition rtw_get_wfd_attr_content (fuel : nat) (m : list Z) (wfd_ie wfd_ielen target_attr_id : Z)
    (buf_content : bool) : outcome (option content_hit) :=
  h ← rtw_get_wfd_attr fuel m wfd_ie wfd_ielen target_attr_id false;
  match h with
  | Some h =>
      if negb (hit_len h =? 0) then
        let size := u32 (hit_len h - 3) in
        let src := hit_ptr h + 3 in
        if buf_content then d ← rds m src size; mret (Some (Content src (Some size) (Some d)))
        else mret (Some (Content src (Some size) None))
      else mret None
  | None => mret None
  end.

(** ** Well-formed sequences of elements *)

(** An information element: its id and its content. *)
Record ie := IE { ie_id : Z; ie_data : list Z }.

Definition ie_wf (e : ie) : Prop := is_u8 (ie_id e) /\ Forall is_u8 (ie_data e) /\ zlen (ie_data e) < 256.

(** Its bytes, and those of a sequence. *)
Definition enc (e : ie) : list Z := ie_id e :: zlen (ie_data e) :: ie_data e.

Definition encs (l : list ie) : list Z := concat (map enc l).

Definition ie_len (e : ie) : Z := zlen (ie_data e) + 2.

(** Address and content length of the first element that satisfies [f], for a
    sequence stored at [pos]. *)
Fixpoint locate (f : ie -> bool) (pos : Z) (l : list ie) : option (Z * ie) :=
  match l with
  | [] => None
  | e :: l => if f e then Some (pos, e) else locate f (pos + ie_len e) l
  end.

(** The last such element. *)
Fixpoint locate_last (f : ie -> bool) (pos : Z) (l : list ie) : option (Z * ie) :=
  match l with
  | [] => None
  | e :: l =>
      match locate_last f (pos + ie_len e) l with
      | Some r => Some r
      | None => if f e then Some (pos, e) else None
      end
  end.

Definition has_id (index : Z) (e : ie) : bool := ie_id e =? index.

(** The content starts with [oui]. *)
Definition has_oui (oui : list Z) (e : ie) : bool :=
  bool_decide (take (length oui) (ie_data e) = oui).

(** The content is long enough to hold a selector of [n] bytes. *)
Definition room (n : Z) (e : ie) : Prop := n <= zlen (ie_data e).

Lemma zlen_enc e : zlen (enc e) = ie_len e.
Proof. unfold enc, ie_len. zl. Qed.

Lemma ie_len_pos e : 2 <= ie_len e.
Proof. unfold ie_len. zl. Qed.

Lemma encs_cons e l : encs (e :: l) = enc e ++ encs l.
Proof. reflexivity. Qed.

Lemma encs_app l k : encs (l ++ k) = encs l ++ encs k.
Proof. unfold encs. by rewrite map_app, concat_app. Qed.

Lemma encs_len e l : zlen (encs (e :: l)) = ie_len e + zlen (encs l).
Proof. rewrite encs_cons. zl. by rewrite zlen_enc. Qed.

Lemma encs_snoc l e : encs (l ++ [e]) = encs l ++ enc e.
Proof. rewrite encs_app. cbn. by rewrite app_nil_r. Qed.

(** The loops below make at most one pass per element. *)
Lemma encs_count l : 2 * Z.of_nat (length l) <= zlen (encs l).
Proof.
  induction l as [|e l IH]; [done|]. rewrite encs_len. pose proof (ie_len_pos e). cbn [length]. lia.
Qed.

Lemma enc_bytes e : ie_wf e -> Forall is_u8 (enc e).
Proof.
  intros (H1 & H2 & H3). unfold enc. repeat apply Forall_cons_2; auto.
  unfold is_u8. split; [apply zlen_nonneg|done].
Qed.

Lemma encs_bytes l : Forall ie_wf l -> Forall is_u8 (encs l).
Proof.
  induction 1; [apply Forall_nil_2|]. rewrite encs_cons. apply Forall_app_2; auto using enc_bytes.
Qed.

(** The header of an element in memory. *)
Lemma rd_enc_id pre e rest p : p = zlen pre -> rd (pre ++ enc e ++ rest) p = Ret (ie_id e).
Proof. intros ->. unfold enc. cbn [app]. by apply rd_at. Qed.

Lemma rd_enc_len pre e rest p :
  p = zlen pre + 1 -> rd (pre ++ enc e ++ rest) p = Ret (zlen (ie_data e)).
Proof.
  intros ->. unfold enc. cbn [app].
  replace (pre ++ ie_id e :: zlen (ie_data e) :: ie_data e ++ rest)
    with ((pre ++ [ie_id e]) ++ zlen (ie_data e) :: ie_data e ++ rest) by by rewrite <- app_assoc.
  apply rd_at. zl.
Qed.

Lemma rds_enc pre e rest p n :
  p = zlen pre -> n = ie_len e -> rds (pre ++ enc e ++ rest) p n = Ret (enc e).
Proof. intros. apply rds_at; [done|]. by rewrite zlen_enc. Qed.

Lemma enc_split e : enc e = [ie_id e; zlen (ie_data e)] ++ ie_data e.
Proof. reflexivity. Qed.

(** A selector compared with the start of the content. *)
Lemma memcmp_enc pre e rest p oui :
  p = zlen pre + 2 -> room (zlen oui) e ->
  _rtw_memcmp (pre ++ enc e ++ rest) p oui = Ret (has_oui oui e).
Proof.
  intros -> Hr. unfold room, zlen in Hr. rewrite enc_split.
  rewrite <- (take_drop (length oui) (ie_data e)) at 2.
  replace (pre ++ ([ie_id e; zlen (ie_data e)] ++
             take (length oui) (ie_data e) ++ drop (length oui) (ie_data e)) ++ rest)
    with ((pre ++ [ie_id e; zlen (ie_data e)]) ++ take (length oui) (ie_data e) ++
            (drop (length oui) (ie_data e) ++ rest)) by (rewrite <- !app_assoc; done).
  rewrite memcmp_at; [done|zl|]. rewrite length_take. lia.
Qed.

(** The buffer seen from the next element. *)
Lemma next_view pre e rest : pre ++ enc e ++ rest = (pre ++ enc e) ++ rest.
Proof. by rewrite app_assoc. Qed.

Lemma next_pos pre e : zlen (pre ++ enc e) = zlen pre + ie_len e.
Proof. by rewrite zlen_app, zlen_enc. Qed.

Lemma encs_view pre e l post : pre ++ encs (e :: l) ++ post = pre ++ enc e ++ (encs l ++ post).
Proof. by rewrite encs_cons, <- app_assoc. Qed.

#[export] Hint Resolve rd_enc_id rd_enc_len rds_enc : rtw.

(** *** [rtw_get_ie] on well-formed elements *)

Lemma get_ie_loop_locate fuel l : forall pre post i index limit,
  l <> [] -> limit = i + zlen (encs l) -> (length l <= fuel)%nat ->
  get_ie_loop fuel (pre ++ encs l ++ post) (zlen pre) i index limit =
  Ret (option_map (fun r => (r.1, zlen (ie_data r.2))) (locate (has_id index) (zlen pre) l)).
Proof.
  revert fuel. induction l as [|e l IH]; intros fuel pre post i index limit Hne Hl Hf; [done|].
  destruct fuel as [|fuel]; [cbn in Hf; lia|]. cbn [length] in Hf.
  rewrite encs_view. cbn [get_ie_loop locate]. unfold has_id at 1.
  rewrite (rd_enc_id pre e _ (zlen pre)) by done; rewrite bind_Ret. rewrite (rd_enc_len pre) by done.
  destruct (ie_id e =? index) eqn:Ei; [done|]. rewrite bind_Ret.
  rewrite encs_len in Hl. fold (ie_len e).
  destruct l as [|e' l].
  - rewrite (proj2 (Z.leb_le _ _)); [done|]. change (zlen (encs [])) with 0 in Hl. lia.
  - pose proof (encs_len e' l). pose proof (ie_len_pos e'). pose proof (zlen_nonneg (encs l)).
    rewrite (proj2 (Z.leb_gt _ _)) by lia.
    rewrite next_view, <- next_pos. apply IH; [done|lia|lia].
Qed.

Lemma rtw_get_ie_locate pre l post index :
  rtw_get_ie (pre ++ encs l ++ post) (zlen pre) index (zlen (encs l)) =
  Ret (option_map (fun r => (r.1, zlen (ie_data r.2))) (locate (has_id index) (zlen pre) l)).
Proof.
  unfold rtw_get_ie. pose proof (encs_count l). destruct l as [|e l]; [done|].
  cbn [length] in H. rewrite (proj2 (Z.ltb_ge _ _)) by lia.
  apply get_ie_loop_locate; [done|lia|cbn [length]; lia].
Qed.

(** *** [rtw_get_ie] on arbitrary bytes *)

Definition in_span (p len : Z) (r : option (Z * Z)) : Prop :=
  match r with Some (q, l) => p <= q < p + len /\ is_u8 l | None => True end.

Lemma get_ie_loop_bounds fuel m : forall p i index limit,
  Forall is_u8 m -> 0 <= p -> i < limit -> p + (limit - i) + 1 <= zlen m ->
  limit - i <= Z.of_nat fuel ->
  returns (get_ie_loop fuel m p i index limit) (in_span p (limit - i)).
Proof.
  induction fuel as [|fuel IH]; intros p i index limit Hm Hp Hi Hl Hf; [lia|].
  cbn [get_ie_loop]. destruct (rd_spec m p) as (b & Eb & _); [lia|].
  destruct (rd_spec m (p + 1)) as (t & Et & _); [lia|]. rewrite Eb, bind_Ret, Et, !bind_Ret.
  pose proof (rd_u8 _ _ _ Hm Et) as Ht. unfold is_u8 in Ht.
  destruct (b =? index); [cbn; unfold is_u8; lia|].
  destruct (Z.leb_spec limit (i + (t + 2))); [exact I|].
  specialize (IH (p + (t + 2)) (i + (t + 2)) index limit Hm).
  destruct (get_ie_loop _ _ _ _ _ _) as [[[q n]|]| |]; cbn in *; try (apply IH; lia).
  unfold is_u8 in *. lia.
Qed.

(** On any bytes [rtw_get_ie] comes back without leaving the buffer, provided
    one byte can be read behind the limit; the element it returns starts
    inside the limit. *)
Lemma rtw_get_ie_bounds m p index limit :
  Forall is_u8 m -> 0 <= p -> p + limit + 1 <= zlen m ->
  returns (rtw_get_ie m p index limit) (in_span p limit).
Proof.
  intros Hm Hp Hl. unfold rtw_get_ie. destruct (Z.ltb_spec limit 1); [exact I|].
  replace limit with (limit - 0) at 3 by lia. apply get_ie_loop_bounds; auto; lia.
Qed.

Lemma get_ie_loop_overread l b : forall fuel pre i index limit,
  Forall (fun e => has_id index e = false) l -> limit = i + zlen (encs l) + 1 ->
  (length l < fuel)%nat ->
  get_ie_loop fuel (pre ++ encs l ++ [b]) (zlen pre) i index limit = Fault.
Proof.
  induction l as [|e l IH]; intros fuel pre i index limit Hno Hl Hf;
    (destruct fuel as [|fuel]; [cbn in Hf; lia|]); cbn [get_ie_loop].
  - cbn [encs concat map app]. rewrite (rd_at pre b [] (zlen pre)), (rd_fault _ (zlen pre + 1)) by (first [done | zl]). cbn.
    by destruct (b =? index).
  - apply Forall_cons_1 in Hno as [He Hno]. rewrite encs_view.
    rewrite (rd_enc_id pre e _ (zlen pre)), (rd_enc_len pre) by done. rewrite !bind_Ret.
    unfold has_id in He. rewrite He. fold (ie_len e). rewrite encs_len in Hl.
    rewrite (proj2 (Z.leb_gt _ _)) by zl. rewrite next_view, <- next_pos.
    apply IH; [done|lia|cbn [length] in Hf; lia].
Qed.

(** Without that byte it does leave the buffer: a single byte behind the last
    element is enough. *)
Lemma rtw_get_ie_overread pre l b index :
  Forall (fun e => has_id index e = false) l ->
  rtw_get_ie (pre ++ encs l ++ [b]) (zlen pre) index (zlen (encs l) + 1) = Fault.
Proof.
  intros Hno. unfold rtw_get_ie. pose proof (encs_count l).
  rewrite (proj2 (Z.ltb_ge _ _)) by lia. apply get_ie_loop_overread; [done|lia|lia].
Qed.

(** When the buffer ends at the limit: either the search comes back, or the bytes
    are elements with other ids and one byte. *)
Lemma get_ie_loop_edge fuel : forall pre x i index limit,
  Forall is_u8 x -> x <> [] -> limit = i + zlen x -> zlen x <= Z.of_nat fuel ->
  returns (get_ie_loop fuel (pre ++ x) (zlen pre) i index limit) (in_span (zlen pre) (zlen x)) \/
  exists l b, x = encs l ++ [b] /\ Forall (fun e => has_id index e = false) l.
Proof.
  induction fuel as [|fuel IH]; intros pre x i index limit Hx Hne Hl Hf; [destruct x; [done|rewrite zlen_cons in Hf; pose proof (zlen_nonneg x); lia]|].
  destruct x as [|b [|n r]]; [done|right; by exists [], b|]. cbn [get_ie_loop].
  apply Forall_cons_1 in Hx as [Hb Hx]. apply Forall_cons_1 in Hx as [Hn Hr].
  rewrite (rd_at pre b (n :: r) (zlen pre)), bind_Ret by done.
  assert (rd (pre ++ b :: n :: r) (zlen pre + 1) = Ret n) as ->.
  { replace (pre ++ b :: n :: r) with ((pre ++ [b]) ++ n :: r) by by rewrite <- app_assoc. apply rd_at. zl. }
  rewrite !bind_Ret. pose proof (zlen_nonneg r) as Hrn. rewrite !zlen_cons in *. unfold is_u8 in Hn.
  destruct (b =? index) eqn:Eb; [left; cbn; unfold is_u8; lia|].
  destruct (Z.leb_spec limit (i + (n + 2))) as [|Hlt]; [left; exact I|].
  assert (r = take (Z.to_nat n) r ++ drop (Z.to_nat n) r) as Er by by rewrite take_drop.
  assert (zlen (take (Z.to_nat n) r) = n) as Ln by (unfold zlen in *; rewrite length_take; lia).
  assert (zlen (drop (Z.to_nat n) r) = zlen r - n) as Ld by (unfold zlen in *; rewrite length_drop; lia).
  destruct (IH (pre ++ b :: n :: take (Z.to_nat n) r) (drop (Z.to_nat n) r) (i + (n + 2)) index limit) as [Hret|(l & c & Ec & Hno)].
  - by apply Forall_drop.
  - intros E. rewrite E in Ld. change (zlen (@nil Z)) with 0 in Ld. lia.
  - lia.
  - lia.
  - left. rewrite <- app_assoc in Hret. cbn [app] in Hret. rewrite <- Er in Hret.
    replace (zlen (pre ++ b :: n :: take (Z.to_nat n) r)) with (zlen pre + (n + 2)) in Hret by (rewrite zlen_app, !zlen_cons; lia).
    destruct (get_ie_loop _ _ _ _ _ _) as [[[q k]|]| |]; cbn [returns in_span] in *; try done. destruct Hret as [Hq Hk]. split; [lia|done].
  - right. exists (IE b (take (Z.to_nat n) r) :: l), c. split; [|by constructor].
    rewrite encs_cons. unfold enc. cbn [ie_id ie_data app]. rewrite Ln, <- app_assoc, <- Ec. by rewrite take_drop.
Qed.

Lemma rtw_get_ie_edge pre x index :
  Forall is_u8 x ->
  (rtw_get_ie (pre ++ x) (zlen pre) index (zlen x) = Fault <->
   exists l b, x = encs l ++ [b] /\ Forall (fun e => has_id index e = false) l) /\
  (rtw_get_ie (pre ++ x) (zlen pre) index (zlen x) <> Fault ->
   returns (rtw_get_ie (pre ++ x) (zlen pre) index (zlen x)) (in_span (zlen pre) (zlen x))).
Proof.
  intros Hx. assert ((exists l b, x = encs l ++ [b] /\ Forall (fun e => has_id index e = false) l) ->
    rtw_get_ie (pre ++ x) (zlen pre) index (zlen x) = Fault) as Hf.
  { intros (l & b & -> & Hno). rewrite zlen_app. by apply rtw_get_ie_overread. }
  assert (returns (rtw_get_ie (pre ++ x) (zlen pre) index (zlen x)) (in_span (zlen pre) (zlen x)) \/
    exists l b, x = encs l ++ [b] /\ Forall (fun e => has_id index e = false) l) as [Hr|Hr].
  { unfold rtw_get_ie. destruct (Z.ltb_spec (zlen x) 1) as [|Hl]; [left; exact I|].
    apply get_ie_loop_edge; [done| |lia|lia]. intros ->. change (zlen (@nil Z)) with 0 in Hl. lia. }
  - split; [|done]. split; [|exact Hf]. intros E. by rewrite E in Hr.
  - pose proof (Hf Hr) as E. by split.
Qed.

(** *** [rtw_get_ie_ex] and the typed searches on well-formed elements *)

Definition hit_of (copy : bool) (r : Z * ie) : ie_hit :=
  Hit r.1 (ie_len r.2) (if copy then Some (enc r.2) else None).

Lemma take_ie_at pre e rest p copy :
  p = zlen pre -> take_ie (pre ++ enc e ++ rest) p copy = Ret (hit_of copy (p, e)).
Proof.
  intros ->. unfold take_ie. rewrite (rd_enc_len pre), bind_Ret by done. fold (ie_len e).
  rewrite rds_enc by done. by destruct copy.
Qed.

(** A test evaluated on the elements of [l] decides [f]. *)
Definition decides (m : list Z) (l : list ie) (test : Z -> outcome bool) (f : ie -> bool) : Prop :=
  forall pre e rest, m = pre ++ enc e ++ rest -> In e l -> test (zlen pre) = Ret (f e).

Lemma decides_tail m e l test f : decides m (e :: l) test f -> decides m l test f.
Proof. intros H pre e' rest Hm He. apply (H pre e' rest Hm). by right. Qed.

Definition ex_pred (eid : Z) (oui : option (list Z)) (e : ie) : bool :=
  (ie_id e =? eid) && match oui with Some o => has_oui o e | None => true end.

(** Elements with the id looked for hold a whole selector. *)
Definition roomy (eid n : Z) (l : list ie) : Prop := Forall (fun e => ie_id e = eid -> room n e) l.

Definition oui_len (oui : option (list Z)) : Z := match oui with Some o => zlen o | None => 0 end.

Lemma ie_ex_decides m l eid oui :
  roomy eid (oui_len oui) l -> decides m l (fun p => ie_ex_match m p eid oui) (ex_pred eid oui).
Proof.
  intros Hr pre e rest -> He. unfold ie_ex_match, ex_pred.
  rewrite (rd_enc_id pre e _ (zlen pre)), bind_Ret, (Z.eqb_sym eid) by done.
  destruct (Z.eqb_spec (ie_id e) eid); [|done]. cbn [andb]. destruct oui; [|done].
  apply memcmp_enc; [done|]. by apply (proj1 (List.Forall_forall _ _) Hr e He).
Qed.

Lemma get_ie_ex_loop_locate base l post eid oui copy : forall fuel pre,
  let m := base ++ pre ++ encs l ++ post in
  decides m l (fun p => ie_ex_match m p eid oui) (ex_pred eid oui) ->
  (length l < fuel)%nat ->
  get_ie_ex_loop fuel m (zlen base) (zlen pre + zlen (encs l)) (zlen pre) eid oui copy =
  Ret (option_map (hit_of copy) (locate (ex_pred eid oui) (zlen base + zlen pre) l)).
Proof.
  induction l as [|e l IH]; intros fuel pre m Hd Hf;
    (destruct fuel as [|fuel]; [cbn in Hf; lia|]); cbn [get_ie_ex_loop locate].
  - rewrite (proj2 (Z.ltb_ge _ _)); [done|]. change (zlen (encs [])) with 0. lia.
  - rewrite encs_len. pose proof (ie_len_pos e). rewrite (proj2 (Z.ltb_lt _ _)) by zl.
    assert (m = (base ++ pre) ++ enc e ++ (encs l ++ post)) as Em
      by (unfold m; by rewrite encs_cons, <- !app_assoc).
    rewrite <- zlen_app, (Hd (base ++ pre) e _ Em), bind_Ret by by left.
    rewrite Em, take_ie_at, (rd_enc_len (base ++ pre)) by done. rewrite !bind_Ret.
    destruct (ex_pred eid oui e); [done|]. fold (ie_len e).
    specialize (IH fuel (pre ++ enc e)). cbn zeta in IH.
    replace (base ++ (pre ++ enc e) ++ encs l ++ post) with m in IH
      by (rewrite Em, <- !app_assoc; done).
    rewrite <- Em. rewrite next_pos in IH.
    replace (zlen pre + (ie_len e + zlen (encs l))) with (zlen pre + ie_len e + zlen (encs l)) by lia.
    rewrite IH by (first [by eapply decides_tail | cbn [length] in Hf; lia]).
    rewrite zlen_app. by replace (zlen base + (zlen pre + ie_len e)) with (zlen base + zlen pre + ie_len e) by lia.
Qed.

Lemma rtw_get_ie_ex_locate pre l post eid oui copy :
  roomy eid (oui_len oui) l ->
  rtw_get_ie_ex (pre ++ encs l ++ post) (zlen pre) (zlen (encs l)) eid oui copy =
  Ret (option_map (hit_of copy) (locate (ex_pred eid oui) (zlen pre) l)).
Proof.
  intros Hr. unfold rtw_get_ie_ex. pose proof (encs_count l).
  destruct (Z.leb_spec (zlen (encs l)) 0) as [H0|H0].
  - destruct l; [done|cbn [length] in *; lia].
  - pose proof (get_ie_ex_loop_locate pre l post eid oui copy (S (Z.to_nat (zlen (encs l)))) []) as IH.
    cbn [app] in IH. change (zlen []) with 0 in IH. rewrite Z.add_0_r in IH.
    apply IH; [by apply ie_ex_decides|lia].
Qed.

(** An element the typed searches can accept has six bytes. *)
Definition sized (f : ie -> bool) : Prop := forall e, f e = true -> 6 <= ie_len e.

Lemma locate_short f pos l : sized f -> zlen (encs l) < 6 -> locate f pos l = None.
Proof.
  intros Hs. revert pos. induction l as [|e l IH]; intros pos Hl; [done|].
  rewrite encs_len in Hl. pose proof (zlen_nonneg (encs l)). pose proof (ie_len_pos e). cbn.
  destruct (f e) eqn:E; [apply Hs in E; lia|]. apply IH. lia.
Qed.

Lemma typed_ie_loop_locate base l post test f copy : forall fuel pre,
  let m := base ++ pre ++ encs l ++ post in
  sized f -> decides m l test f -> (length l < fuel)%nat ->
  zlen pre + zlen (encs l) <= MAX_IE_SZ ->
  typed_ie_loop fuel m (zlen base) (zlen pre + zlen (encs l)) (zlen pre) test copy =
  Ret (option_map (hit_of copy) (locate f (zlen base + zlen pre) l)).
Proof.
  induction l as [|e l IH]; intros fuel pre m Hs Hd Hf Hm;
    (destruct fuel as [|fuel]; [cbn in Hf; lia|]); cbn [typed_ie_loop].
  - rewrite (proj2 (Z.ltb_ge _ _)); [done|]. change (zlen (encs [])) with 0. lia.
  - destruct (Z.ltb_spec (zlen pre + 1 + 4) (zlen pre + zlen (encs (e :: l)))) as [Hlt|Hge].
    2:{ rewrite locate_short; [done|done|]. lia. }
    assert (m = (base ++ pre) ++ enc e ++ (encs l ++ post)) as Em
      by (unfold m; by rewrite encs_cons, <- !app_assoc).
    rewrite <- zlen_app, Em at 1. rewrite (rd_enc_id (base ++ pre) e _ (zlen (base ++ pre))) by done.
    rewrite bind_Ret, (proj2 (Z.leb_gt _ _)) by lia.
    rewrite <- zlen_app, (Hd (base ++ pre) e _ Em), bind_Ret by by left.
    rewrite Em, take_ie_at, (rd_enc_len (base ++ pre)) by done. rewrite !bind_Ret. cbn [locate].
    destruct (f e); [done|]. fold (ie_len e).
    specialize (IH fuel (pre ++ enc e)). cbn zeta in IH.
    replace (base ++ (pre ++ enc e) ++ encs l ++ post) with m in IH
      by (rewrite Em, <- !app_assoc; done).
    rewrite <- Em. rewrite next_pos in IH. rewrite encs_len in *.
    replace (zlen pre + (ie_len e + zlen (encs l))) with (zlen pre + ie_len e + zlen (encs l)) by lia.
    rewrite IH by (first [done | by eapply decides_tail | cbn [length] in Hf; lia]).
    rewrite zlen_app. by replace (zlen base + (zlen pre + ie_len e)) with (zlen base + zlen pre + ie_len e) by lia.
Qed.

Lemma typed_ie_locate pre l post test f copy :
  let m := pre ++ encs l ++ post in
  sized f -> decides m l test f -> zlen (encs l) <= MAX_IE_SZ ->
  typed_ie m (zlen pre) (zlen (encs l)) test copy =
  Ret (option_map (hit_of copy) (locate f (zlen pre) l)).
Proof.
  intros m Hs Hd Hm. unfold typed_ie. pose proof (encs_count l).
  destruct (Z.leb_spec (zlen (encs l)) 0) as [H0|H0].
  - destruct l; [done|cbn [length] in *; lia].
  - pose proof (typed_ie_loop_locate pre l post test f copy (S (Z.to_nat (zlen (encs l)))) []) as IH.
    cbn [app] in IH. change (zlen []) with 0 in IH. rewrite Z.add_0_r in IH.
    apply IH; auto; lia.
Qed.

(** A vendor element of the type [oui]. *)
Definition vendor_pred (oui : list Z) : ie -> bool := ex_pred WLAN_EID_VENDOR_SPECIFIC (Some oui).

Lemma vendor_sized oui : length oui = 4%nat -> sized (vendor_pred oui).
Proof.
  intros Ho e He. unfold vendor_pred, ex_pred, has_oui in He.
  apply andb_true_iff in He as [_ He]. apply bool_decide_eq_true_1 in He.
  apply (f_equal length) in He. rewrite length_take in He. unfold ie_len, zlen. lia.
Qed.

Lemma vendor_decides m oui l :
  length oui = 4%nat -> roomy WLAN_EID_VENDOR_SPECIFIC 4 l ->
  decides m l (vendor_test m oui) (vendor_pred oui).
Proof.
  intros Ho Hr pre e rest -> He. unfold vendor_test, vendor_pred, ex_pred.
  rewrite (rd_enc_id pre e _ (zlen pre)), bind_Ret by done.
  destruct (Z.eqb_spec (ie_id e) WLAN_EID_VENDOR_SPECIFIC); [|done].
  apply memcmp_enc; [done|]. unfold zlen. rewrite Ho.
  by apply (proj1 (List.Forall_forall _ _) Hr e He).
Qed.

Lemma vendor_search_locate pre l post oui copy :
  length oui = 4%nat -> roomy WLAN_EID_VENDOR_SPECIFIC 4 l -> zlen (encs l) <= MAX_IE_SZ ->
  typed_ie (pre ++ encs l ++ post) (zlen pre) (zlen (encs l))
    (vendor_test (pre ++ encs l ++ post) oui) copy =
  Ret (option_map (hit_of copy) (locate (vendor_pred oui) (zlen pre) l)).
Proof. intros. apply typed_ie_locate; auto using vendor_sized, vendor_decides. Qed.

(** *** The WPA element *)

(** A WPA element: the type of the vendor element and version 1. *)
Definition wpa_v1 (e : ie) : bool :=
  has_id _WPA_IE_ID_ e && has_oui wpa_oui_type e &&
  bool_decide (take 2 (drop 4 (ie_data e)) = [1; 0]).

Lemma locate_split f l pos q e :
  locate f pos l = Some (q, e) ->
  exists l1 l2, l = l1 ++ e :: l2 /\ q = pos + zlen (encs l1) /\ f e = true /\
    Forall (fun x => f x = false) l1.
Proof.
  revert pos. induction l as [|x l IH]; intros pos H; [done|]. cbn in H.
  destruct (f x) eqn:E.
  - injection H as <- <-. exists [], l. split_and!; auto. change (zlen (encs [])) with 0. lia.
  - destruct (IH _ H) as (l1 & l2 & -> & -> & Hf & Hl). exists (x :: l1), l2.
    split_and!; auto. rewrite encs_len. lia.
Qed.

Lemma locate_app f l1 l2 pos :
  Forall (fun x => f x = false) l1 -> locate f pos (l1 ++ l2) = locate f (pos + zlen (encs l1)) l2.
Proof.
  intros H. revert pos. induction H as [|x l1 Hx _ IH]; intros pos.
  - change (zlen (encs [])) with 0. by rewrite Z.add_0_r.
  - cbn [app locate]. rewrite Hx, IH, encs_len. f_equal. lia.
Qed.

Lemma locate_none f l pos : locate f pos l = None <-> Forall (fun x => f x = false) l.
Proof.
  revert pos. induction l as [|x l IH]; intros pos; cbn; [split; auto|].
  destruct (f x) eqn:E.
  - split; [done|]. intros H. apply Forall_cons_1 in H as [H _]. congruence.
  - rewrite IH. split; [by constructor|]. intros H. by apply Forall_cons_1 in H as [_ H].
Qed.

Lemma locate_weaken f g l pos :
  (forall e, In e l -> f e = g e) -> locate f pos l = locate g pos l.
Proof.
  revert pos. induction l as [|x l IH]; intros pos H; [done|]. cbn.
  rewrite (H x) by by left. destruct (g x); [done|]. apply IH. intros. apply H. by right.
Qed.

Lemma get_le16_at pre lo hi post p :
  p = zlen pre -> is_u8 lo -> is_u8 hi ->
  RTW_GET_LE16 (pre ++ lo :: hi :: post) p = Ret (hi * 256 + lo).
Proof.
  intros -> Hlo Hhi. unfold RTW_GET_LE16.
  replace (pre ++ lo :: hi :: post) with ((pre ++ [lo]) ++ hi :: post) at 1 by by rewrite <- app_assoc.
  rewrite (rd_at (pre ++ [lo])), bind_Ret, (rd_at pre lo), bind_Ret by zl.
  rewrite lor_shift8 by done. f_equal. unfold u16, is_u8 in *. zlia.
Qed.

Lemma version_at pre e rest p :
  ie_wf e -> room 6 e -> p = zlen pre + 6 ->
  (RTW_GET_LE16 (pre ++ enc e ++ rest) p ≫= fun v => mret (v =? 1)) =
  Ret (bool_decide (take 2 (drop 4 (ie_data e)) = [1; 0])).
Proof.
  intros (_ & Hb & _) Hr ->. unfold room, zlen in Hr.
  destruct e as [id d]. cbn [ie_data enc] in *. unfold enc. cbn [ie_data ie_id].
  destruct d as [|a [|b [|c [|e [|lo [|hi d]]]]]]; cbn [length] in Hr; try lia.
  do 4 (apply Forall_cons_1 in Hb as [_ Hb]). apply Forall_cons_1 in Hb as [Hlo Hb].
  apply Forall_cons_1 in Hb as [Hhi _]. cbn [app take drop].
  set (k := zlen _). replace (pre ++ id :: k :: a :: b :: c :: e :: lo :: hi :: d ++ rest)
    with ((pre ++ [id; k; a; b; c; e]) ++ lo :: hi :: d ++ rest) by by rewrite <- app_assoc.
  rewrite get_le16_at by (first [done | zl]). rewrite bind_Ret. unfold mret, outcome_ret. f_equal.
  unfold is_u8 in *. destruct (Z.eqb_spec (hi * 256 + lo) 1) as [H|H]; symmetry.
  - apply bool_decide_eq_true_2. f_equal; [lia|f_equal; lia].
  - apply bool_decide_eq_false_2. intros [= -> ->]. lia.
Qed.

(** The check of [rtw_get_wpa_ie] on one element. *)
Lemma wpa_check_at pre e rest p :
  ie_wf e -> room 6 e -> p = zlen pre -> has_id _WPA_IE_ID_ e = true ->
  (same ← _rtw_memcmp (pre ++ enc e ++ rest) (p + 2) wpa_oui_type;
   if (same : bool) then v ← RTW_GET_LE16 (pre ++ enc e ++ rest) (p + 6); mret (v =? 1)
   else mret false) = Ret (wpa_v1 e).
Proof.
  intros Hw Hr -> Hi. unfold wpa_v1. rewrite Hi. cbn [andb].
  rewrite memcmp_enc by (first [done | unfold room in *; change (zlen wpa_oui_type) with 4; lia]).
  rewrite bind_Ret. destruct (has_oui wpa_oui_type e); [|done]. by apply version_at.
Qed.

Lemma bind_assoc {A B C} (o : outcome A) (f : A -> outcome B) (g : B -> outcome C) :
  ((o ≫= f) ≫= g) = (o ≫= fun a => f a ≫= g).
Proof. by destruct o. Qed.

Lemma get_wpa_ie_loop_locate base post : forall fuel pre l,
  let m := base ++ pre ++ encs l ++ post in
  Forall ie_wf l -> roomy _WPA_IE_ID_ 6 l -> (length l < fuel)%nat ->
  get_wpa_ie_loop fuel m (zlen base) (zlen base + zlen pre) (zlen pre + zlen (encs l)) (zlen (encs l)) =
  Ret (option_map (fun r => (r.1, zlen (ie_data r.2))) (locate wpa_v1 (zlen base + zlen pre) l)).
Proof.
  induction fuel as [|fuel IH]; intros pre l m Hw Hr Hf; [lia|]. cbn [get_wpa_ie_loop].
  pose proof (rtw_get_ie_locate (base ++ pre) l post _WPA_IE_ID_) as Hg.
  rewrite <- app_assoc, zlen_app in Hg. fold m in Hg. rewrite Hg, bind_Ret. clear Hg.
  destruct (locate (has_id _WPA_IE_ID_) _ l) as [[q e]|] eqn:El; cbn [option_map fst snd].
  2:{ apply locate_none in El. rewrite (proj2 (locate_none wpa_v1 l _)); [done|].
      eapply Forall_impl; [exact El|]. intros x Hx. unfold wpa_v1. by rewrite Hx. }
  apply locate_split in El as (l1 & l2 & -> & -> & He & Hl1).
  assert (m = (base ++ pre ++ encs l1) ++ enc e ++ encs l2 ++ post) as Em
    by (unfold m; rewrite encs_app, encs_cons, <- !app_assoc; done).
  apply Forall_app in Hw as [Hw1 Hw2]. apply Forall_cons_1 in Hw2 as [Hwe Hw2].
  apply Forall_app in Hr as [Hr1 Hr2]. apply Forall_cons_1 in Hr2 as [Hre Hr2].
  rewrite locate_app.
  2:{ eapply Forall_impl; [exact Hl1|]. intros x Hx. unfold wpa_v1. by rewrite Hx. }
  rewrite <- bind_assoc, Em, (wpa_check_at (base ++ pre ++ encs l1)), bind_Ret
    by (first [done | apply Hre; by apply Z.eqb_eq | zl]).
  cbn [locate]. destruct (wpa_v1 e).
  { rewrite (rd_enc_len (base ++ pre ++ encs l1)) by zl. done. }
  rewrite encs_app, zlen_app, encs_len. unfold ie_len at 1.
  destruct (Z.leb_spec (zlen pre + (zlen (encs l1) + (zlen (ie_data e) + 2 + zlen (encs l2))) -
     (zlen base + zlen pre + zlen (encs l1) - zlen base) - 2 - zlen (ie_data e)) 0) as [H0|H0].
  { assert (l2 = []) as ->; [|done]. pose proof (encs_count l2). destruct l2; [done|].
    cbn [length] in *. lia. }
  specialize (IH (pre ++ encs l1 ++ enc e) l2). cbn zeta in IH.
  rewrite !zlen_app, zlen_enc, <- !app_assoc in IH. rewrite <- !app_assoc.
  unfold ie_len in IH at 1 2 3. unfold ie_len.
  rewrite length_app in Hf. cbn [length] in Hf.
  specialize (IH Hw2 Hr2 ltac:(lia)).
  match type of IH with
  | get_wpa_ie_loop _ _ _ ?a ?b ?c = Ret (option_map _ (locate _ ?d _)) =>
      match goal with
      | |- get_wpa_ie_loop _ _ _ ?a' ?b' ?c' = Ret (option_map _ (locate _ ?d' _)) =>
          replace c' with c by lia; replace a' with a by lia; replace b' with b by lia;
          replace d' with d by lia; exact IH
      end
  end.
Qed.

(** [rtw_get_wpa_ie] finds the first WPA element of version 1. *)
Lemma rtw_get_wpa_ie_locate pre l post :
  Forall ie_wf l -> roomy _WPA_IE_ID_ 6 l ->
  rtw_get_wpa_ie (pre ++ encs l ++ post) (zlen pre) (zlen (encs l)) =
  Ret (option_map (fun r => (r.1, zlen (ie_data r.2))) (locate wpa_v1 (zlen pre) l)).
Proof.
  intros Hw Hr. unfold rtw_get_wpa_ie. pose proof (encs_count l).
  pose proof (get_wpa_ie_loop_locate pre post (S (Z.to_nat (zlen (encs l)))) [] l Hw Hr) as IH.
  cbn [app] in IH. change (zlen []) with 0 in IH. rewrite Z.add_0_r in IH. apply IH. lia.
Qed.

(** *** [rtw_get_sec_ie] *)

Definition sec_wpa (e : ie) : bool := ex_pred _WPA_IE_ID_ (Some wpa_oui_type) e.

Definition sec_rsn : ie -> bool := has_id _WPA2_IE_ID_.

Definition or_else {A} (x y : option A) : option A := match x with Some a => Some a | None => y end.

Lemma locate_last_cons f pos e l :
  locate_last f pos (e :: l) =
  or_else (locate_last f (pos + ie_len e) l) (if f e then Some (pos, e) else None).
Proof. reflexivity. Qed.

Lemma get_sec_loop_locate base post copy l : forall fuel pre rsn wpa,
  let m := base ++ pre ++ encs l ++ post in
  roomy _WPA_IE_ID_ 4 l -> (length l < fuel)%nat ->
  get_sec_loop fuel m (zlen base) (zlen pre + zlen (encs l)) (zlen pre) copy rsn wpa =
  Ret (or_else (option_map (hit_of copy) (locate_last sec_rsn (zlen base + zlen pre) l)) rsn,
       or_else (option_map (hit_of copy) (locate_last sec_wpa (zlen base + zlen pre) l)) wpa).
Proof.
  induction l as [|e l IH]; intros fuel pre rsn wpa m Hr Hf;
    (destruct fuel as [|fuel]; [cbn in Hf; lia|]); cbn [get_sec_loop].
  - rewrite (proj2 (Z.ltb_ge _ _)); [done|]. change (zlen (encs [])) with 0. lia.
  - rewrite encs_len. pose proof (ie_len_pos e). rewrite (proj2 (Z.ltb_lt _ _)) by zl.
    assert (m = (base ++ pre) ++ enc e ++ (encs l ++ post)) as Em
      by (unfold m; by rewrite encs_cons, <- !app_assoc).
    apply Forall_cons_1 in Hr as [Hre Hr].
    rewrite <- !zlen_app, Em, (rd_enc_id (base ++ pre) e _ (zlen (base ++ pre))), bind_Ret by done.
    assert ((if ie_id e =? _WPA_IE_ID_
             then _rtw_memcmp ((base ++ pre) ++ enc e ++ encs l ++ post) (zlen (base ++ pre) + 2) wpa_oui_type
             else mret false) = Ret (sec_wpa e)) as ->.
    { unfold sec_wpa, ex_pred. destruct (Z.eqb_spec (ie_id e) _WPA_IE_ID_); [|done].
      apply memcmp_enc; [done|]. by apply Hre. }
    rewrite !bind_Ret, take_ie_at, (rd_enc_len (base ++ pre)) by done. rewrite !bind_Ret. fold (ie_len e).
    assert (negb (sec_wpa e) && (ie_id e =? _WPA2_IE_ID_) = sec_rsn e) as ->.
    { unfold sec_wpa, sec_rsn, has_id, ex_pred.
      destruct (Z.eqb_spec (ie_id e) _WPA2_IE_ID_) as [->|]; [done|]. by rewrite andb_false_r. }
    rewrite !locate_last_cons. specialize (IH fuel (pre ++ enc e)). cbn zeta in IH.
    replace (base ++ (pre ++ enc e) ++ encs l ++ post) with m in IH
      by (rewrite Em, <- !app_assoc; done).
    rewrite <- Em. rewrite next_pos in IH.
    replace (zlen pre + (ie_len e + zlen (encs l))) with (zlen pre + ie_len e + zlen (encs l)) by lia.
    rewrite zlen_app.
    replace (zlen base + zlen pre + ie_len e) with (zlen base + (zlen pre + ie_len e)) by lia.
    destruct (sec_wpa e), (sec_rsn e); unfold mret, outcome_ret; rewrite !bind_Ret;
      fold (ie_len e); rewrite IH by (first [done | cbn [length] in Hf; lia]);
      by destruct (locate_last sec_rsn _ l), (locate_last sec_wpa _ l).
Qed.

(** The elements of a beacon or probe response start behind the twelve bytes
    of fixed fields; the function returns the last RSN and the last WPA
    element. *)
Lemma rtw_get_sec_ie_locate base fixed l post copy :
  zlen fixed = _BEACON_IE_OFFSET_ -> roomy _WPA_IE_ID_ 4 l ->
  rtw_get_sec_ie (base ++ fixed ++ encs l ++ post) (zlen base) (zlen fixed + zlen (encs l)) copy =
  Ret (option_map (hit_of copy) (locate_last sec_rsn (zlen base + zlen fixed) l),
       option_map (hit_of copy) (locate_last sec_wpa (zlen base + zlen fixed) l)).
Proof.
  intros Hx Hr. unfold rtw_get_sec_ie. rewrite <- Hx. pose proof (encs_count l).
  pose proof (zlen_nonneg fixed).
  rewrite get_sec_loop_locate by (first [done | lia]).
  by destruct (locate_last sec_rsn _ l), (locate_last sec_wpa _ l).
Qed.

(** ** Attributes *)

(** What an attribute search relies on: the reader of the length inverts a
    writer of two bytes, and only looks at those two bytes. *)
Class Codec16 (get16 : list Z -> Z -> outcome Z) := {
  put16 : Z -> list Z;
  put16_len : forall v, zlen (put16 v) = 2;
  get_put16 : forall pre v post p,
    p = zlen pre -> is_u16 v -> get16 (pre ++ put16 v ++ post) p = Ret v;
  get16_safe : forall m p,
    Forall is_u8 m -> 0 <= p -> p + 2 <= zlen m -> returns (get16 m p) is_u16;
}.

#[global, refine] Instance le16_codec : Codec16 RTW_GET_LE16 := {| put16 := put_le16 |}.
Proof.
  - done.
  - intros. by apply get_put_le16.
  - intros m p Hm H0 Hl. destruct (RTW_GET_LE16_spec m p Hm H0 Hl) as (lo & hi & _ & _ & A & B & ->).
    cbn. unfold is_u8, is_u16 in *. lia.
Defined.

(** The two bytes of [RTW_PUT_BE16]. *)
Definition put_be16 (v : Z) : list Z := [Z.shiftr (u16 v) 8; Z.land (u16 v) 255].

#[global, refine] Instance be16_codec : Codec16 RTW_GET_BE16 := {| put16 := put_be16 |}.
Proof.
  - done.
  - intros pre v post p -> Hv. unfold RTW_GET_BE16.
    assert (put_be16 v = [v / 256; v mod 256]) as ->.
    { pose proof (put_le16_bytes v Hv) as H. unfold put_le16 in H. unfold put_be16. by injection H as -> ->. }
    cbn [app]. rewrite (rd_at pre (v / 256) _ (zlen pre)) by done.
    replace (pre ++ v / 256 :: v mod 256 :: post) with ((pre ++ [v / 256]) ++ v mod 256 :: post)
      by by rewrite <- app_assoc.
    rewrite rd_at by zl. rewrite !bind_Ret. unfold is_u16 in Hv.
    rewrite lor_shift8 by (unfold is_u8; zlia). f_equal. unfold u16. zlia.
  - intros m p Hm H0 Hl. unfold RTW_GET_BE16.
    destruct (rd_spec m p) as (a & -> & _); [lia|]. destruct (rd_spec m (p + 1)) as (b & -> & _); [lia|].
    apply u16_range.
Defined.

(** An attribute of a P2P or WFD element. *)
Record attr := Attr { at_id : Z; at_data : list Z }.

(** Shorter than what makes the 16-bit length wrap. *)
Definition attr_wf (a : attr) : Prop := is_u8 (at_id a) /\ zlen (at_data a) < 65533.

Section attributes.
Context {get16 : list Z -> Z -> outcome Z} {codec : Codec16 get16}.

Definition aenc (a : attr) : list Z := at_id a :: put16 (zlen (at_data a)) ++ at_data a.

Definition aencs (l : list attr) : list Z := concat (map aenc l).

Definition attr_len (a : attr) : Z := zlen (at_data a) + 3.

(** First attribute with the given id. *)
Fixpoint alocate (id pos : Z) (l : list attr) : option (Z * attr) :=
  match l with
  | [] => None
  | a :: l => if at_id a =? id then Some (pos, a) else alocate id (pos + attr_len a) l
  end.

Definition ahit (copy : bool) (r : Z * attr) : ie_hit :=
  Hit r.1 (attr_len r.2) (if copy then Some (aenc r.2) else None).

Lemma zlen_aenc a : zlen (aenc a) = attr_len a.
Proof. unfold aenc, attr_len. rewrite zlen_cons, zlen_app, put16_len. lia. Qed.

Lemma aencs_cons a l : aencs (a :: l) = aenc a ++ aencs l.
Proof. reflexivity. Qed.

Lemma aencs_len a l : zlen (aencs (a :: l)) = attr_len a + zlen (aencs l).
Proof. by rewrite aencs_cons, zlen_app, zlen_aenc. Qed.

Lemma aencs_count l : 3 * Z.of_nat (length l) <= zlen (aencs l).
Proof.
  induction l as [|a l IH]; [done|]. rewrite aencs_len. unfold attr_len. cbn [length].
  pose proof (zlen_nonneg (at_data a)). lia.
Qed.

(** The header of an attribute in memory. *)
Lemma aenc_header pre a rest p :
  attr_wf a -> p = zlen pre ->
  rd (pre ++ aenc a ++ rest) p = Ret (at_id a) /\
  get16 (pre ++ aenc a ++ rest) (p + 1) = Ret (zlen (at_data a)).
Proof.
  intros [_ Hl] ->. pose proof (zlen_nonneg (at_data a)). unfold aenc. split.
  - cbn [app]. by apply rd_at.
  - replace (pre ++ (at_id a :: put16 (zlen (at_data a)) ++ at_data a) ++ rest)
      with ((pre ++ [at_id a]) ++ put16 (zlen (at_data a)) ++ (at_data a ++ rest))
      by (cbn [app]; rewrite <- !app_assoc; done).
    apply get_put16; [zl|]. unfold is_u16. lia.
Qed.

Lemma p2p_attr_loop_locate base post id copy l : forall fuel pre,
  let m := base ++ pre ++ aencs l ++ post in
  Forall attr_wf l -> (length l < fuel)%nat ->
  p2p_attr_loop get16 fuel m (zlen base) (zlen pre + zlen (aencs l)) (zlen base + zlen pre) id copy =
  Ret (option_map (ahit copy) (alocate id (zlen base + zlen pre) l)).
Proof.
  induction l as [|a l IH]; intros fuel pre m Hw Hf;
    (destruct fuel as [|fuel]; [cbn in Hf; lia|]); cbn [p2p_attr_loop].
  - rewrite (proj2 (Z.leb_gt _ _)); [done|]. change (zlen (aencs [])) with 0. lia.
  - apply Forall_cons_1 in Hw as [Ha Hw]. pose proof (zlen_nonneg (aencs l)).
    pose proof (zlen_nonneg (at_data a)). rewrite aencs_len.
    rewrite (proj2 (Z.leb_le _ _)) by (unfold attr_len; lia).
    assert (m = (base ++ pre) ++ aenc a ++ (aencs l ++ post)) as Em
      by (unfold m; by rewrite aencs_cons, <- !app_assoc).
    destruct (aenc_header (base ++ pre) a (aencs l ++ post) (zlen base + zlen pre) Ha) as [E1 E2];
      [by rewrite zlen_app|].
    rewrite Em, E1, bind_Ret, E2, bind_Ret.
    rewrite u16_small by (destruct Ha; unfold is_u16; lia). fold (attr_len a).
    rewrite (proj2 (Z.ltb_ge _ _)) by lia. cbn [alocate].
    destruct (at_id a =? id).
    { rewrite rds_at by (rewrite ?zlen_app, ?zlen_aenc; done). by destruct copy. }
    specialize (IH fuel (pre ++ aenc a)). cbn zeta in IH.
    replace (base ++ (pre ++ aenc a) ++ aencs l ++ post) with m in IH
      by (rewrite Em, <- !app_assoc; done).
    rewrite <- Em. rewrite zlen_app, zlen_aenc in IH.
    replace (zlen pre + (attr_len a + zlen (aencs l))) with (zlen pre + attr_len a + zlen (aencs l)) by lia.
    replace (zlen base + zlen pre + attr_len a) with (zlen base + (zlen pre + attr_len a)) by lia.
    apply IH; [done|cbn [length] in Hf; lia].
Qed.

(** Behind a header of the right type the search starts at the attributes. *)
Lemma typed_attr_header oui fuel pre len rest ielen id copy :
  length oui = 4%nat -> 6 < ielen ->
  let m := pre ++ (WLAN_EID_VENDOR_SPECIFIC :: len :: oui) ++ rest in
  typed_attr get16 oui fuel m (zlen pre) ielen id copy =
  p2p_attr_loop get16 fuel m (zlen pre) ielen (zlen pre + 6) id copy.
Proof.
  intros Ho Hl m. unfold typed_attr. rewrite (proj2 (Z.leb_gt _ _)) by lia.
  assert (rd m (zlen pre) = Ret WLAN_EID_VENDOR_SPECIFIC) as -> by (unfold m; cbn [app]; by apply rd_at).
  assert (_rtw_memcmp m (zlen pre + 2) oui = Ret true) as ->; [|done].
  unfold m. replace (pre ++ (WLAN_EID_VENDOR_SPECIFIC :: len :: oui) ++ rest)
    with ((pre ++ [WLAN_EID_VENDOR_SPECIFIC; len]) ++ oui ++ rest) by (rewrite <- app_assoc; done).
  rewrite memcmp_at by (first [zl; fail | done]). by rewrite bool_decide_eq_true_2.
Qed.

(** The attribute search finds the first attribute of a well-formed element. *)
Lemma typed_attr_locate oui fuel pre len l post id copy :
  length oui = 4%nat -> Forall attr_wf l -> l <> [] -> (length l < fuel)%nat ->
  typed_attr get16 oui fuel (pre ++ (WLAN_EID_VENDOR_SPECIFIC :: len :: oui) ++ aencs l ++ post)
    (zlen pre) (6 + zlen (aencs l)) id copy =
  Ret (option_map (ahit copy) (alocate id (zlen pre + 6) l)).
Proof.
  intros Ho Hw Hne Hf. pose proof (aencs_count l). destruct l as [|a l]; [done|]. cbn [length] in *.
  rewrite typed_attr_header by (first [done | lia]).
  set (hdr := WLAN_EID_VENDOR_SPECIFIC :: len :: oui).
  assert (zlen hdr = 6) as Hh by (unfold hdr, zlen; cbn [length]; lia).
  rewrite <- Hh. apply p2p_attr_loop_locate; [done|cbn [length]; lia].
Qed.

(** On any bytes the search stays inside the element it was given, and so does
    what it returns. *)
Lemma p2p_attr_loop_bounds m base len id : forall fuel ptr,
  Forall is_u8 m -> 0 <= base -> base + len <= zlen m -> base + 6 <= ptr ->
  let r := p2p_attr_loop get16 fuel m base len ptr id false in
  r = Timeout \/
  returns r (fun h => forall x, h = Some x ->
    base + 6 <= hit_ptr x /\ 0 <= hit_len x /\ hit_ptr x + hit_len x <= base + len).
Proof.
  induction fuel as [|fuel IH]; intros ptr Hm Hb Hl Hp r; [by left|]. unfold r. clear r.
  cbn [p2p_attr_loop]. destruct (Z.leb_spec (ptr - base + 3) len); [|by right].
  destruct (rd_spec m ptr) as (b & -> & _); [lia|]. rewrite bind_Ret.
  pose proof (get16_safe m (ptr + 1) Hm ltac:(lia) ltac:(lia)) as Hg.
  destruct (get16 m (ptr + 1)) as [n| |]; cbn in Hg; try done. rewrite bind_Ret.
  pose proof (u16_range (n + 3)) as Hu. unfold is_u16 in Hu.
  destruct (Z.ltb_spec len (ptr - base + u16 (n + 3))); [by right|].
  destruct (b =? id); [|apply IH; auto; lia].
  right. cbn. intros x [= <-]. cbn. lia.
Qed.

End attributes.

(** The attribute whose announced length makes the 16-bit length 0: the search
    stays on it. *)
Lemma p2p_attr_loop_stuck {get16} {codec : Codec16 get16} fuel pre post base len id copy a :
  a <> id -> zlen pre - base + 3 <= len ->
  p2p_attr_loop get16 fuel (pre ++ a :: put16 65533 ++ post) base len (zlen pre) id copy = Timeout.
Proof.
  intros Ha Hl. induction fuel as [|fuel IH]; [done|]. cbn [p2p_attr_loop].
  rewrite (proj2 (Z.leb_le _ _)) by lia. rewrite (rd_at pre) by done. rewrite bind_Ret.
  replace (pre ++ a :: put16 65533 ++ post) with ((pre ++ [a]) ++ put16 65533 ++ post) at 1
    by by rewrite <- app_assoc.
  rewrite get_put16 by (first [zl; fail | done]). rewrite bind_Ret.
  change (u16 (65533 + 3)) with 0. rewrite !Z.add_0_r, (proj2 (Z.ltb_ge _ _)) by lia.
  by rewrite (proj2 (Z.eqb_neq _ _)).
Qed.

(** An element whose first attribute announces 65533 bytes is never left. *)
Lemma typed_attr_stuck {get16} {codec : Codec16 get16} oui fuel pre post len ielen a id copy :
  length oui = 4%nat -> a <> id -> 9 <= ielen ->
  typed_attr get16 oui fuel
    (pre ++ (WLAN_EID_VENDOR_SPECIFIC :: len :: oui) ++ a :: put16 65533 ++ post)
    (zlen pre) ielen id copy = Timeout.
Proof.
  intros Ho Ha Hl. rewrite typed_attr_header by (first [done | lia]).
  assert (zlen (WLAN_EID_VENDOR_SPECIFIC :: len :: oui) = 6) as Hh by (unfold zlen; cbn [length]; lia).
  rewrite app_assoc. replace (zlen pre + 6) with (zlen (pre ++ WLAN_EID_VENDOR_SPECIFIC :: len :: oui))
    by (rewrite zlen_app, Hh; lia).
  apply p2p_attr_loop_stuck; [done|]. rewrite zlen_app, Hh. lia.
Qed.

(** The same in a WPS element, where the header of an attribute has four bytes. *)
Lemma wps_attr_loop_stuck fuel pre post base len id a copy :
  is_u16 a -> a <> id -> zlen pre - base < len ->
  wps_attr_loop fuel (pre ++ put_be16 a ++ put_be16 65532 ++ post) base len (zlen pre) id copy = Timeout.
Proof.
  intros Ha Hne Hl. induction fuel as [|fuel IH]; [done|]. cbn [wps_attr_loop].
  rewrite (proj2 (Z.ltb_lt _ _)) by lia.
  rewrite (@get_put16 _ be16_codec pre a _ (zlen pre)) by done. rewrite bind_Ret.
  replace (pre ++ put_be16 a ++ put_be16 65532 ++ post)
    with ((pre ++ put_be16 a) ++ put_be16 65532 ++ post) at 1 by by rewrite <- app_assoc.
  rewrite (@get_put16 _ be16_codec (pre ++ put_be16 a)) by (first [done | rewrite zlen_app; done]).
  rewrite bind_Ret. change (u16 (65532 + 4)) with 0. rewrite Z.add_0_r.
  by rewrite (proj2 (Z.eqb_neq _ _)).
Qed.

Lemma wps_attr_header fuel pre len rest ielen id copy :
  let m := pre ++ (WLAN_EID_VENDOR_SPECIFIC :: len :: wps_oui) ++ rest in
  rtw_get_wps_attr fuel m (zlen pre) ielen id copy =
  wps_attr_loop fuel m (zlen pre) ielen (zlen pre + 6) id copy.
Proof.
  intros m. unfold rtw_get_wps_attr.
  assert (rd m (zlen pre) = Ret WLAN_EID_VENDOR_SPECIFIC) as -> by (unfold m; cbn [app]; by apply rd_at).
  assert (_rtw_memcmp m (zlen pre + 2) wps_oui = Ret true) as ->; [|done].
  unfold m. replace (pre ++ (WLAN_EID_VENDOR_SPECIFIC :: len :: wps_oui) ++ rest)
    with ((pre ++ [WLAN_EID_VENDOR_SPECIFIC; len]) ++ wps_oui ++ rest) by (rewrite <- app_assoc; done).
  rewrite memcmp_at by (first [zl; fail | done]). by rewrite bool_decide_eq_true_2.
Qed.

(** *** The attributes of a WPS element *)

Definition wattr_wf (a : attr) : Prop := is_u16 (at_id a) /\ zlen (at_data a) < 65532.

Definition wenc (a : attr) : list Z := put_be16 (at_id a) ++ put_be16 (zlen (at_data a)) ++ at_data a.

Definition wencs (l : list attr) : list Z := concat (map wenc l).

Definition wattr_len (a : attr) : Z := zlen (at_data a) + 4.

Fixpoint wlocate (id pos : Z) (l : list attr) : option (Z * attr) :=
  match l with
  | [] => None
  | a :: l => if at_id a =? id then Some (pos, a) else wlocate id (pos + wattr_len a) l
  end.

Definition whit (copy : bool) (r : Z * attr) : ie_hit :=
  Hit r.1 (wattr_len r.2) (if copy then Some (wenc r.2) else None).

Lemma zlen_wenc a : zlen (wenc a) = wattr_len a.
Proof. unfold wenc, wattr_len. rewrite !zlen_app. change (zlen (put_be16 _)) with 2. lia. Qed.

Lemma wencs_cons a l : wencs (a :: l) = wenc a ++ wencs l.
Proof. reflexivity. Qed.

Lemma wencs_len a l : zlen (wencs (a :: l)) = wattr_len a + zlen (wencs l).
Proof. by rewrite wencs_cons, zlen_app, zlen_wenc. Qed.

Lemma wenc_header pre a rest p :
  wattr_wf a -> p = zlen pre ->
  RTW_GET_BE16 (pre ++ wenc a ++ rest) p = Ret (at_id a) /\
  RTW_GET_BE16 (pre ++ wenc a ++ rest) (p + 2) = Ret (zlen (at_data a)).
Proof.
  intros [Hi Hl] ->. pose proof (zlen_nonneg (at_data a)). unfold wenc. rewrite <- !app_assoc. split.
  - by apply (@get_put16 _ be16_codec).
  - rewrite app_assoc. apply (@get_put16 _ be16_codec); [rewrite zlen_app; done|]. unfold is_u16. lia.
Qed.

Lemma wps_attr_loop_locate base post id copy l : forall fuel pre,
  let m := base ++ pre ++ wencs l ++ post in
  Forall wattr_wf l -> (length l < fuel)%nat ->
  wps_attr_loop fuel m (zlen base) (zlen pre + zlen (wencs l)) (zlen base + zlen pre) id copy =
  Ret (option_map (whit copy) (wlocate id (zlen base + zlen pre) l)).
Proof.
  induction l as [|a l IH]; intros fuel pre m Hw Hf;
    (destruct fuel as [|fuel]; [cbn in Hf; lia|]); cbn [wps_attr_loop].
  - rewrite (proj2 (Z.ltb_ge _ _)); [done|]. change (zlen (wencs [])) with 0. lia.
  - apply Forall_cons_1 in Hw as [Ha Hw]. pose proof (zlen_nonneg (wencs l)).
    pose proof (zlen_nonneg (at_data a)). rewrite wencs_len.
    rewrite (proj2 (Z.ltb_lt _ _)) by (unfold wattr_len; lia).
    assert (m = (base ++ pre) ++ wenc a ++ (wencs l ++ post)) as Em
      by (unfold m; by rewrite wencs_cons, <- !app_assoc).
    destruct (wenc_header (base ++ pre) a (wencs l ++ post) (zlen base + zlen pre) Ha) as [E1 E2];
      [by rewrite zlen_app|].
    rewrite Em, E1, bind_Ret, E2, bind_Ret.
    rewrite u16_small by (destruct Ha; unfold is_u16; lia). fold (wattr_len a). cbn [wlocate].
    destruct (at_id a =? id).
    { rewrite rds_at by (rewrite ?zlen_app, ?zlen_wenc; done). by destruct copy. }
    specialize (IH fuel (pre ++ wenc a)). cbn zeta in IH.
    replace (base ++ (pre ++ wenc a) ++ wencs l ++ post) with m in IH
      by (rewrite Em, <- !app_assoc; done).
    rewrite <- Em. rewrite zlen_app, zlen_wenc in IH.
    replace (zlen pre + (wattr_len a + zlen (wencs l))) with (zlen pre + wattr_len a + zlen (wencs l)) by lia.
    replace (zlen base + zlen pre + wattr_len a) with (zlen base + (zlen pre + wattr_len a)) by lia.
    apply IH; [done|cbn [length] in Hf; lia].
Qed.

Lemma rtw_get_wps_attr_locate fuel pre len l post id copy :
  Forall wattr_wf l -> (length l < fuel)%nat ->
  rtw_get_wps_attr fuel (pre ++ (WLAN_EID_VENDOR_SPECIFIC :: len :: wps_oui) ++ wencs l ++ post)
    (zlen pre) (6 + zlen (wencs l)) id copy =
  Ret (option_map (whit copy) (wlocate id (zlen pre + 6) l)).
Proof.
  intros Hw Hf. rewrite wps_attr_header.
  apply (wps_attr_loop_locate pre post id copy l fuel (WLAN_EID_VENDOR_SPECIFIC :: len :: wps_oui)); done.
Qed.

(** ** Claims *)

(** The searches of the frame, as functions from a place in a buffer. *)
Definition first_with (f : ie -> bool) (copy : bool) (pos : Z) (l : list ie) : option ie_hit :=
  option_map (hit_of copy) (locate f pos l).

(** Element searches return the first matching element of a well-formed
    frame, wherever the frame lies in its buffer and whatever follows it, with
    its length and, when asked, a copy of its bytes: [rtw_get_ie] by id,
    [rtw_get_ie_ex] by id and OUI, [rtw_get_wps_ie], [rtw_get_p2p_ie],
    [rtw_get_wfd_ie] and [rtw_get_vendor_ie] by vendor type,
    [rtw_get_wpa_ie] by type and version.  They finish and return NULL when
    there is no such element. *)
Theorem element_search_first pre l post copy :
  Forall ie_wf l -> roomy WLAN_EID_VENDOR_SPECIFIC 6 l -> zlen (encs l) <= MAX_IE_SZ ->
  let m := pre ++ encs l ++ post in
  (forall index, rtw_get_ie m (zlen pre) index (zlen (encs l)) =
     Ret (option_map (fun r => (r.1, zlen (ie_data r.2))) (locate (has_id index) (zlen pre) l))) /\
  (forall eid oui, roomy eid (oui_len oui) l ->
     rtw_get_ie_ex m (zlen pre) (zlen (encs l)) eid oui copy =
     Ret (first_with (ex_pred eid oui) copy (zlen pre) l)) /\
  rtw_get_wps_ie m (zlen pre) (zlen (encs l)) copy = Ret (first_with (vendor_pred wps_oui) copy (zlen pre) l) /\
  rtw_get_p2p_ie m (zlen pre) (zlen (encs l)) copy = Ret (first_with (vendor_pred p2p_oui) copy (zlen pre) l) /\
  rtw_get_wfd_ie m (zlen pre) (zlen (encs l)) copy = Ret (first_with (vendor_pred wfd_oui) copy (zlen pre) l) /\
  rtw_get_vendor_ie m (zlen pre) (zlen (encs l)) copy = Ret (first_with (vendor_pred vendor_oui) copy (zlen pre) l) /\
  rtw_get_wpa_ie m (zlen pre) (zlen (encs l)) =
    Ret (option_map (fun r => (r.1, zlen (ie_data r.2))) (locate wpa_v1 (zlen pre) l)).
Proof.
  intros Hw Hr Hl m.
  assert (roomy WLAN_EID_VENDOR_SPECIFIC 4 l) as Hr4.
  { eapply Forall_impl; [exact Hr|]. unfold room. intros e He Hi. specialize (He Hi). lia. }
  split; [|split; [|split; [|split; [|split; [|split]]]]].
  - intros index. apply rtw_get_ie_locate.
  - intros eid oui Ho. by apply rtw_get_ie_ex_locate.
  - by apply vendor_search_locate.
  - by apply vendor_search_locate.
  - by apply vendor_search_locate.
  - by apply vendor_search_locate.
  - by apply rtw_get_wpa_ie_locate.
Qed.

(** A beacon body: SSID, DS parameters, WPA, P2P. *)
Definition sample_ies : list ie :=
  [IE 0 [104; 105]; IE 3 [6]; IE 221 [0; 80; 242; 1; 1; 0]; IE 221 [80; 111; 154; 9; 2; 1; 0; 37]].

Lemma sample_ies_wf : Forall ie_wf sample_ies /\ roomy WLAN_EID_VENDOR_SPECIFIC 6 sample_ies.
Proof.
  split; repeat (apply Forall_cons_2 || apply Forall_nil_2); try done;
    split_and!; try done; repeat (apply Forall_cons_2; [done|]); apply Forall_nil_2.
Qed.

Lemma element_search_first_witness :
  rtw_get_wpa_ie ([1; 2] ++ encs sample_ies ++ [9]) 2 25 = Ret (Some (9, 6)) /\
  rtw_get_p2p_ie ([1; 2] ++ encs sample_ies ++ [9]) 2 25 true =
  Ret (Some (Hit 17 10 (Some [221; 8; 80; 111; 154; 9; 2; 1; 0; 37]))).
Proof.
  destruct (element_search_first [1; 2] sample_ies [9] true (proj1 sample_ies_wf) (proj2 sample_ies_wf) ltac:(done))
    as (_ & _ & _ & H1 & _ & _ & H2).
  split; [exact H2|exact H1].
Defined.

(** C33. Bounds of [rtw_get_ie]: on arbitrary bytes, with one readable byte behind
    the limit, the search always comes back, never leaves the buffer and only
    returns elements that start inside the limit.  If the buffer ends at the
    limit, the search reads past it exactly when the bytes are whole elements
    with other ids followed by one byte; otherwise it comes back as before.  On
    whole elements it finds the first one with the id, whatever follows. *)
Theorem get_ie_limits :
  (forall m p index limit, Forall is_u8 m -> 0 <= p -> p + limit + 1 <= zlen m ->
     returns (rtw_get_ie m p index limit) (in_span p limit)) /\
  (forall pre x index, Forall is_u8 x ->
     (rtw_get_ie (pre ++ x) (zlen pre) index (zlen x) = Fault <->
      exists l b, x = encs l ++ [b] /\ Forall (fun e => has_id index e = false) l) /\
     (rtw_get_ie (pre ++ x) (zlen pre) index (zlen x) <> Fault ->
      returns (rtw_get_ie (pre ++ x) (zlen pre) index (zlen x)) (in_span (zlen pre) (zlen x)))) /\
  (forall pre l post index,
     rtw_get_ie (pre ++ encs l ++ post) (zlen pre) index (zlen (encs l)) =
     Ret (option_map (fun r => (r.1, zlen (ie_data r.2))) (locate (has_id index) (zlen pre) l))).
Proof. split_and!; [apply rtw_get_ie_bounds|apply rtw_get_ie_edge|apply rtw_get_ie_locate]. Qed.

Lemma get_ie_limits_witness :
  in_span 0 6 (Some (0, 2)) /\ rtw_get_ie [0; 1; 65; 7] 0 5 4 = Fault.
Proof.
  destruct get_ie_limits as (H1 & H2 & _). split.
  - refine (H1 [0; 2; 65; 66; 1; 1; 2] 0 0 6 _ _ _); [|done|done].
    repeat (apply Forall_cons_2; [done|]). apply Forall_nil_2.
  - refine (proj2 (proj1 (H2 [] [0; 1; 65; 7] 5 _)) _); [repeat (apply Forall_cons_2; [done|]); apply Forall_nil_2|].
    exists [IE 0 [65]], 7. split; [done|]. apply Forall_cons_2; [done|apply Forall_nil_2].
Defined.

(** Attribute searches: in a P2P, WFD or WPS element whose attributes are
    shorter than what a 16-bit length can announce, the search returns the
    first attribute with the given id, within one step per attribute; and on
    any bytes the P2P and WFD searches, as long as they return, only return
    attributes that lie inside the element. *)
Theorem attribute_search_first fuel pre len post id copy :
  (forall l, Forall attr_wf l -> l <> [] -> (length l < fuel)%nat ->
     rtw_get_p2p_attr fuel
       (pre ++ (WLAN_EID_VENDOR_SPECIFIC :: len :: p2p_oui) ++ aencs (codec := le16_codec) l ++ post)
       (zlen pre) (6 + zlen (aencs (codec := le16_codec) l)) id copy =
     Ret (option_map (ahit (codec := le16_codec) copy) (alocate id (zlen pre + 6) l)) /\
     rtw_get_wfd_attr fuel
       (pre ++ (WLAN_EID_VENDOR_SPECIFIC :: len :: wfd_oui) ++ aencs (codec := be16_codec) l ++ post)
       (zlen pre) (6 + zlen (aencs (codec := be16_codec) l)) id copy =
     Ret (option_map (ahit (codec := be16_codec) copy) (alocate id (zlen pre + 6) l))) /\
  (forall l, Forall wattr_wf l -> (length l < fuel)%nat ->
     rtw_get_wps_attr fuel (pre ++ (WLAN_EID_VENDOR_SPECIFIC :: len :: wps_oui) ++ wencs l ++ post)
       (zlen pre) (6 + zlen (wencs l)) id copy =
     Ret (option_map (whit copy) (wlocate id (zlen pre + 6) l))) /\
  (forall m base ielen h, Forall is_u8 m -> 0 <= base -> base + ielen <= zlen m ->
     p2p_attr_loop RTW_GET_LE16 fuel m base ielen (base + 6) id false = Ret (Some h) ->
     base + 6 <= hit_ptr h /\ hit_ptr h + hit_len h <= base + ielen).
Proof.
  split; [|split].
  - intros l Hw Hn Hf. split; by apply typed_attr_locate.
  - intros l Hw Hf. by apply rtw_get_wps_attr_locate.
  - intros m base ielen h Hm Hb Hl E.
    destruct (p2p_attr_loop_bounds (codec := le16_codec) m base ielen id fuel (base + 6) Hm Hb Hl) as [H|H]; [lia|congruence|].
    rewrite E in H. destruct (H h eq_refl) as (H1 & H2 & H3). lia.
Qed.

Lemma attribute_search_first_witness :
  rtw_get_p2p_attr 3 ([7] ++ (221 :: 12 :: p2p_oui) ++ [2; 1; 0; 37; 6; 2; 0; 1; 2] ++ []) 1 15 6 true =
  Ret (Some (Hit 11 5 (Some [6; 2; 0; 1; 2]))).
Proof.
  destruct (attribute_search_first 3 [7] 12 [] 6 true) as [H _].
  refine (proj1 (H [Attr 2 [37]; Attr 6 [1; 2]] _ _ _)); [|done|cbn; lia].
  repeat (apply Forall_cons_2; [done|]). apply Forall_nil_2.
Defined.

(** Attribute searches that never return: a P2P or WFD element whose first
    attribute announces 65533 bytes, or a WPS element whose first attribute
    announces 65532, makes the 16-bit length of the attribute zero; looking
    for any other attribute in such an element loops forever, whatever bytes
    follow. *)
Theorem attribute_search_never_returns fuel pre post len ielen id copy :
  9 <= ielen ->
  (forall a, a <> id -> is_u8 a ->
     rtw_get_p2p_attr fuel (pre ++ (WLAN_EID_VENDOR_SPECIFIC :: len :: p2p_oui) ++ a :: [253; 255] ++ post)
       (zlen pre) ielen id copy = Timeout /\
     rtw_get_wfd_attr fuel (pre ++ (WLAN_EID_VENDOR_SPECIFIC :: len :: wfd_oui) ++ a :: [255; 253] ++ post)
       (zlen pre) ielen id copy = Timeout) /\
  (forall a, a <> id -> is_u16 a ->
     rtw_get_wps_attr fuel
       (pre ++ (WLAN_EID_VENDOR_SPECIFIC :: len :: wps_oui) ++ put_be16 a ++ [255; 252] ++ post)
       (zlen pre) ielen id copy = Timeout).
Proof.
  intros Hl. split.
  - intros a Ha _. split.
    + exact (typed_attr_stuck (codec := le16_codec) p2p_oui fuel pre post len ielen a id copy eq_refl Ha Hl).
    + exact (typed_attr_stuck (codec := be16_codec) wfd_oui fuel pre post len ielen a id copy eq_refl Ha Hl).
  - intros a Ha Hu. rewrite wps_attr_header, app_assoc.
    replace (zlen pre + 6) with (zlen (pre ++ WLAN_EID_VENDOR_SPECIFIC :: len :: wps_oui)) by (rewrite zlen_app; done).
    apply (wps_attr_loop_stuck fuel (pre ++ WLAN_EID_VENDOR_SPECIFIC :: len :: wps_oui)); [done|done|].
    rewrite zlen_app, !zlen_cons. change (zlen wps_oui) with 4. lia.
Qed.

Lemma attribute_search_never_returns_witness :
  rtw_get_p2p_attr 1000 ([] ++ (221 :: 7 :: p2p_oui) ++ 2 :: [253; 255] ++ []) 0 9 6 false = Timeout.
Proof.
  refine (proj1 (proj1 (attribute_search_never_returns 1000 [] [] 7 9 6 false _) 2 _ _)); done.
Defined.
