(* ===== verification/IeEdit.v ===== *)
(** Building and editing information elements: the writers of
    src/core/rtw_ieee80211.c.  Lengths are unsigned 32-bit integers and wrap as
    in the source; a copy that does not fit into the buffer is a [Fault].
    [malloc_ok] says whether the allocation of a backup buffer succeeds. *)
From Stdlib Require Import ZArith Lia Bool List Sorted.
From stdpp Require Import base tactics list numbers gmap.
From S2P Require Import Prelude RfChannel ByteBuf IeSearch.

(** [_SUCCESS] and [_FAIL] *)
Inductive status := _SUCCESS | _FAIL.

Definition WLAN_EID_CHANNEL_SWITCH : Z := 37.
Definition WLAN_EID_SECONDARY_CHANNEL_OFFSET : Z := 62.
Definition WLAN_EID_VHT_WIDE_BW_CHSWITCH : Z := 194.
Definition WLAN_EID_EXT_CAP : Z := 127.
Definition WLAN_EID_EXT_CAP_MAX_LEN : Z := 10.

(** ** Writers *)

(** [rtw_set_fixed_ie]: the buffer, the next address, the frame length. *)
Definition rtw_set_fixed_ie (m : list Z) (pbuf len : Z) (source : list Z) (frlen : Z) :
    outcome (list Z * Z * Z) :=
  d ← rds source 0 len;
  m1 ← wrs m pbuf d;
  mret (m1, pbuf + len, u32 (frlen + len)).

(** [rtw_set_ie] *)
Definition rtw_set_ie (m : list Z) (pbuf index len : Z) (source : list Z) (frlen : option Z) :
    outcome (list Z * Z * option Z) :=
  m1 ← wr m pbuf index;
  m2 ← wr m1 (pbuf + 1) len;
  m3 ← (if 0 <? len then d ← rds source 0 len; wrs m2 (pbuf + 2) d else mret m2);
  mret (m3, pbuf + len + 2, option_map (fun f => u32 (f + (len + 2))) frlen).

Definition rtw_set_ie_ch_switch (m : list Z) (buf buf_len ch_switch_mode new_ch ch_switch_cnt : Z) :
    outcome (list Z * Z * option Z) :=
  rtw_set_ie m buf WLAN_EID_CHANNEL_SWITCH 3 [ch_switch_mode; new_ch; ch_switch_cnt] (Some buf_len).

Definition rtw_set_ie_secondary_ch_offset (m : list Z) (buf buf_len secondary_ch_offset : Z) :
    outcome (list Z * Z * option Z) :=
  rtw_set_ie m buf WLAN_EID_SECONDARY_CHANNEL_OFFSET 1 [secondary_ch_offset] (Some buf_len).

Definition rtw_set_ie_wide_bw_ch_switch (m : list Z) (buf buf_len ch_width seg_0 seg_1 : Z) :
    outcome (list Z * Z * option Z) :=
  rtw_set_ie m buf WLAN_EID_VHT_WIDE_BW_CHSWITCH 3 [ch_width; seg_0; seg_1] (Some buf_len).

(** The element id is the literal 0x118. *)
Definition rtw_set_ie_mesh_ch_switch_parm (m : list Z) (buf buf_len ttl flags reason precedence : Z) :
    outcome (list Z * Z * option Z) :=
  rtw_set_ie m buf 280 6 ([ttl; flags] ++ put_le16 reason ++ put_le16 precedence) (Some buf_len).

(** [enum chan_offset] as the secondary channel offset element encodes it. *)
Definition IEEE80211_SCN : Z := 0.
Definition IEEE80211_SCA : Z := 1.
Definition IEEE80211_SCB : Z := 3.

Definition secondary_ch_offset_to_hal_ch_offset (ch_offset : Z) : Z :=
  if ch_offset =? IEEE80211_SCN then CHAN_OFFSET_NO_EXT
  else if ch_offset =? IEEE80211_SCA then CHAN_OFFSET_UPPER
  else if ch_offset =? IEEE80211_SCB then CHAN_OFFSET_LOWER
  else CHAN_OFFSET_NO_EXT.

Definition hal_ch_offset_to_secondary_ch_offset (ch_offset : Z) : Z :=
  if ch_offset =? CHAN_OFFSET_NO_EXT then IEEE80211_SCN
  else if ch_offset =? CHAN_OFFSET_UPPER then IEEE80211_SCA
  else if ch_offset =? CHAN_OFFSET_LOWER then IEEE80211_SCB
  else IEEE80211_SCN.

(** [rtw_set_p2p_attr_content]: the number of bytes written. *)
Definition rtw_set_p2p_attr_content (m : list Z) (pbuf attr_id attr_len : Z)
    (pdata_attr : option (list Z)) : outcome (list Z * Z) :=
  m1 ← wr m pbuf attr_id;
  m2 ← RTW_PUT_LE16 m1 (pbuf + 1) attr_len;
  m3 ← match pdata_attr with
       | Some s => d ← rds s 0 attr_len; wrs m2 (pbuf + 3) d
       | None => mret m2
       end;
  mret (m3, attr_len + 3).

(** ** Editing a sequence of elements *)

(** The bytes of [content], and the length they are announced with. *)
Definition replace_body (m : list Z) (target hdr target_ielen content_len len_octet : Z)
    (content backup : list Z) : outcome (list Z) :=
  d ← rds content 0 content_len;
  m1 ← wrs m (target + hdr) d;
  m2 ← wr m1 (target + 1) len_octet;
  if negb (target_ielen =? content_len) then wrs m2 (target + hdr + content_len) backup
  else mret m2.

(** [rtw_ies_update_ie] *)
Definition rtw_ies_update_ie (malloc_ok : bool) (m : list Z) (ies ies_len ies_offset eid : Z)
    (content : list Z) (content_len : Z) : outcome (status * list Z * Z) :=
  if (ies_len =? 0) || (ies_len <=? ies_offset) then mret (_FAIL, m, ies_len)
  else
    let start := ies + ies_offset in
    let search_len := u32 (ies_len - ies_offset) in
    r ← rtw_get_ie m start eid search_len;
    match r with
    | Some (target_ie, target_ielen) =>
        if target_ielen =? 0 then mret (_FAIL, m, ies_len)
        else if negb (target_ielen =? content_len) then
          let remain_ies := target_ie + 2 + target_ielen in
          let remain_len := u32 (search_len - (remain_ies - start)) in
          if malloc_ok then
            backup ← rds m remain_ies remain_len;
            m1 ← replace_body m target_ie 2 target_ielen content_len content_len content backup;
            mret (_SUCCESS, m1, u32 (ies_len + (content_len - target_ielen)))
          else mret (_FAIL, m, ies_len)
        else
          m1 ← replace_body m target_ie 2 target_ielen content_len content_len content [];
          mret (_SUCCESS, m1, ies_len)
    | None => mret (_FAIL, m, ies_len)
    end.

(** [rtw_ies_update_ie_ex]: the content is the whole element. *)
Definition rtw_ies_update_ie_ex (malloc_ok : bool) (m : list Z) (ies ies_len ies_offset eid_ex : Z)
    (content : list Z) (content_len : Z) : outcome (status * list Z * Z) :=
  if (ies_len =? 0) || (ies_len <=? ies_offset) then mret (_FAIL, m, ies_len)
  else
    let start := ies + ies_offset in
    let search_len := u32 (ies_len - ies_offset) in
    r ← rtw_get_ie_ex m start search_len WLAN_EID_EXTENSION (Some [eid_ex]) false;
    match r with
    | Some h =>
        let target_ie := hit_ptr h in
        let target_ielen := hit_len h in
        if target_ielen =? 0 then mret (_FAIL, m, ies_len)
        else if negb (target_ielen =? content_len) then
          let remain_ies := target_ie + target_ielen in
          let remain_len := u32 (search_len - (remain_ies - start)) in
          if malloc_ok then
            backup ← rds m remain_ies remain_len;
            m1 ← replace_body m target_ie 0 target_ielen content_len (content_len - 2) content backup;
            mret (_SUCCESS, m1, u32 (ies_len + (content_len - target_ielen)))
          else mret (_FAIL, m, ies_len)
        else
          m1 ← replace_body m target_ie 0 target_ielen content_len (content_len - 2) content [];
          mret (_SUCCESS, m1, ies_len)
    | None => mret (_FAIL, m, ies_len)
    end.

(** [rtw_ies_add_ie]: the search for the place.  [dst] is the last value of
    [dst_ie], the result the final [dst_ie] and [pcurrent]. *)
Fixpoint add_ie_loop (fuel : nat) (m : list Z) (pstart search_len eid pcurrent : Z) (dst : option Z) :
    outcome (option Z * Z) :=
  match fuel with
  | O => Timeout
  | S fuel =>
      if pcurrent - pstart <=? search_len then
        if pcurrent - pstart =? search_len then mret (Some pcurrent, pcurrent)
        else
          id ← rd m pcurrent;
          if eid <? id then mret (Some pcurrent, pcurrent)
          else
            len ← rd m (pcurrent + 1);
            if id =? eid then mret (Some pcurrent, pcurrent + (len + 2))
            else add_ie_loop fuel m pstart search_len eid (pcurrent + (len + 2)) (Some pcurrent)
      else mret (dst, pcurrent)
  end.

(** [rtw_ies_add_ie]: a failed allocation is dereferenced. *)
Definition rtw_ies_add_ie (malloc_ok : bool) (m : list Z) (ies ies_len ies_offset eid : Z)
    (content : list Z) (content_len : Z) : outcome (status * list Z * Z) :=
  if (ies_len =? 0) || (ies_len <=? ies_offset) then mret (_FAIL, m, ies_len)
  else
    let pstart := ies + ies_offset in
    let search_len := u32 (ies_len - ies_offset) in
    r ← add_ie_loop (S (S (Z.to_nat search_len))) m pstart search_len eid pstart None;
    let '(dst, pcurrent) := r in
    match dst with
    | None => mret (_FAIL, m, ies_len)
    | Some dst_ie =>
        let remainder_ielen := u32 (ies_len - (pcurrent - ies)) in
        backup ← (if 0 <? remainder_ielen then
                    if malloc_ok then d ← rds m pcurrent remainder_ielen; mret (Some d) else Fault
                  else mret None);
        m1 ← wr m dst_ie eid;
        m2 ← wr m1 (dst_ie + 1) content_len;
        d ← rds content 0 content_len;
        m3 ← wrs m2 (dst_ie + 2) d;
        let dst_end := dst_ie + 2 + content_len in
        m4 ← match backup with Some b => wrs m3 dst_end b | None => mret m3 end;
        mret (_SUCCESS, m4, u32 (u32 (dst_end - ies) + remainder_ielen))
    end.

(** [rtw_ies_remove_ie]: the loop over the matching elements. *)
Fixpoint remove_ie_loop (fuel : nat) (m : list Z) (start search_len eid : Z) (oui : option (list Z))
    (ies_len : Z) (ret : status) : outcome (status * list Z * Z) :=
  match fuel with
  | O => Timeout
  | S fuel =>
      r ← rtw_get_ie_ex m start search_len eid oui false;
      match r with
      | Some h =>
          let target_ie := hit_ptr h in
          let target_ielen := hit_len h in
          if target_ielen =? 0 then mret (ret, m, ies_len)
          else
            let remain_ies := target_ie + target_ielen in
            let remain_len := u32 (search_len - (remain_ies - start)) in
            m1 ← _rtw_memmove m target_ie remain_ies remain_len;
            remove_ie_loop fuel m1 target_ie remain_len eid oui (u32 (ies_len - target_ielen)) _SUCCESS
      | None => mret (ret, m, ies_len)
      end
  end.

Definition rtw_ies_remove_ie (m : list Z) (ies ies_len offset eid : Z) (oui : option (list Z)) :
    outcome (status * list Z * Z) :=
  if ies_len <=? offset then mret (_FAIL, m, ies_len)
  else
    remove_ie_loop (S (Z.to_nat ies_len)) m (ies + offset) (u32 (ies_len - offset)) eid oui ies_len _FAIL.

(** *** P2P and WFD elements *)

(** [rtw_del_p2p_ie] and [rtw_del_wfd_ie] with the search they use. *)
Fixpoint del_typed_ie (get : list Z -> Z -> Z -> bool -> outcome (option ie_hit)) (fuel : nat)
    (m : list Z) (ies ies_len : Z) : outcome (list Z * Z) :=
  match fuel with
  | O => Timeout
  | S fuel =>
      r ← get m ies ies_len false;
      match r with
      | Some h =>
          let target_ie := hit_ptr h in
          let target_ie_len := hit_len h in
          if target_ie_len =? 0 then mret (m, ies_len)
          else
            let next_ie := target_ie + target_ie_len in
            let remain_len := u32 (ies_len - (next_ie - ies)) in
            m1 ← _rtw_memmove m target_ie next_ie remain_len;
            m2 ← _rtw_memset m1 (target_ie + remain_len) 0 target_ie_len;
            del_typed_ie get fuel m2 ies (u32 (ies_len - target_ie_len))
      | None => mret (m, ies_len)
      end
  end.

Definition rtw_del_p2p_ie (m : list Z) (ies ies_len_ori : Z) : outcome (list Z * Z) :=
  del_typed_ie rtw_get_p2p_ie (S (Z.to_nat ies_len_ori)) m ies ies_len_ori.

Definition rtw_del_wfd_ie (m : list Z) (ies ies_len_ori : Z) : outcome (list Z * Z) :=
  del_typed_ie rtw_get_wfd_ie (S (Z.to_nat ies_len_ori)) m ies ies_len_ori.

(** [rtw_del_p2p_attr] and [rtw_del_wfd_attr]: the length octet of the element
    is an unsigned byte. *)
Fixpoint del_typed_attr (get : nat -> list Z -> Z -> Z -> Z -> bool -> outcome (option ie_hit))
    (gfuel fuel : nat) (m : list Z) (ie ielen attr_id : Z) : outcome (list Z * Z) :=
  match fuel with
  | O => Timeout
  | S fuel =>
      r ← get gfuel m ie ielen attr_id false;
      match r with
      | Some h =>
          let target_attr := hit_ptr h in
          let target_attr_len := hit_len h in
          if target_attr_len =? 0 then mret (m, ielen)
          else
            let next_attr := target_attr + target_attr_len in
            let remain_len := u32 (ielen - (next_attr - ie)) in
            m1 ← _rtw_memmove m target_attr next_attr remain_len;
            m2 ← _rtw_memset m1 (target_attr + remain_len) 0 target_attr_len;
            l ← rd m2 (ie + 1);
            m3 ← wr m2 (ie + 1) (l - target_attr_len);
            del_typed_attr get gfuel fuel m3 ie (u32 (ielen - target_attr_len)) attr_id
      | None => mret (m, ielen)
      end
  end.

Definition rtw_del_p2p_attr (gfuel : nat) (m : list Z) (ie ielen_ori attr_id : Z) :
    outcome (list Z * Z) :=
  del_typed_attr rtw_get_p2p_attr gfuel (S (Z.to_nat ielen_ori)) m ie ielen_ori attr_id.

Definition rtw_del_wfd_attr (gfuel : nat) (m : list Z) (ie ielen_ori attr_id : Z) :
    outcome (list Z * Z) :=
  del_typed_attr rtw_get_wfd_attr gfuel (S (Z.to_nat ielen_ori)) m ie ielen_ori attr_id.

(** The fields of [WLAN_BSSID_EX] the element code works on. *)
Record WLAN_BSSID_EX := Bss {
  bss_is_probe_req : bool;
  DSConfig : Z;
  BssBand : Z;
  SupportedRates : list Z;
  IELength : Z;
  IEs : list Z;
}.

Definition set_IEs (b : WLAN_BSSID_EX) (len : Z) (m : list Z) : WLAN_BSSID_EX :=
  Bss (bss_is_probe_req b) (DSConfig b) (BssBand b) (SupportedRates b) len m.

Definition set_rates (b : WLAN_BSSID_EX) (r : list Z) : WLAN_BSSID_EX :=
  Bss (bss_is_probe_req b) (DSConfig b) (BssBand b) r (IELength b) (IEs b).

(** [BSS_EX_TLV_IES] and [BSS_EX_TLV_IES_LEN] *)
Definition BSS_EX_TLV_IES (b : WLAN_BSSID_EX) : Z := if bss_is_probe_req b then 0 else 12.

Definition BSS_EX_TLV_IES_LEN (b : WLAN_BSSID_EX) : Z := u32 (IELength b - BSS_EX_TLV_IES b).

Definition rtw_bss_ex_get_p2p_ie (b : WLAN_BSSID_EX) (copy : bool) : outcome (option ie_hit) :=
  rtw_get_p2p_ie (IEs b) (BSS_EX_TLV_IES b) (BSS_EX_TLV_IES_LEN b) copy.

Definition rtw_bss_ex_get_wfd_ie (b : WLAN_BSSID_EX) (copy : bool) : outcome (option ie_hit) :=
  rtw_get_wfd_ie (IEs b) (BSS_EX_TLV_IES b) (BSS_EX_TLV_IES_LEN b) copy.

Definition rtw_bss_ex_del_p2p_ie (b : WLAN_BSSID_EX) : outcome WLAN_BSSID_EX :=
  let ies_len_ori := BSS_EX_TLV_IES_LEN b in
  r ← rtw_del_p2p_ie (IEs b) (BSS_EX_TLV_IES b) ies_len_ori;
  mret (set_IEs b (u32 (IELength b - (ies_len_ori - r.2))) r.1).

Definition rtw_bss_ex_del_wfd_ie (b : WLAN_BSSID_EX) : outcome WLAN_BSSID_EX :=
  let ies_len_ori := BSS_EX_TLV_IES_LEN b in
  r ← rtw_del_wfd_ie (IEs b) (BSS_EX_TLV_IES b) ies_len_ori;
  mret (set_IEs b (u32 (IELength b - (ies_len_ori - r.2))) r.1).

(** [rtw_bss_ex_del_p2p_attr] and [rtw_bss_ex_del_wfd_attr]: every element of
    the type loses the attribute. *)
Fixpoint bss_del_attr (get : list Z -> Z -> Z -> bool -> outcome (option ie_hit))
    (del : list Z -> Z -> Z -> Z -> outcome (list Z * Z)) (fuel : nat)
    (b : WLAN_BSSID_EX) (ies ies_len attr_id : Z) : outcome WLAN_BSSID_EX :=
  match fuel with
  | O => Timeout
  | S fuel =>
      r ← get (IEs b) ies ies_len false;
      match r with
      | Some h =>
          let ie := hit_ptr h in
          let ie_len_ori := hit_len h in
          let next_ie_ori := ie + ie_len_ori in
          let remain_len := u32 (IELength b - next_ie_ori) in
          d ← del (IEs b) ie ie_len_ori attr_id;
          let '(m1, ie_len) := d in
          if negb (ie_len =? ie_len_ori) then
            let next_ie := ie + ie_len in
            m2 ← _rtw_memmove m1 next_ie next_ie_ori remain_len;
            m3 ← _rtw_memset m2 (next_ie + remain_len) 0 (ie_len_ori - ie_len);
            bss_del_attr get del fuel (set_IEs b (u32 (IELength b - (ie_len_ori - ie_len))) m3)
              next_ie remain_len attr_id
          else
            bss_del_attr get del fuel (set_IEs b (IELength b) m1) next_ie_ori remain_len attr_id
      | None => mret b
      end
  end.

Definition rtw_bss_ex_del_p2p_attr (gfuel : nat) (b : WLAN_BSSID_EX) (attr_id : Z) :
    outcome WLAN_BSSID_EX :=
  bss_del_attr rtw_get_p2p_ie (rtw_del_p2p_attr gfuel) (S (Z.to_nat (IELength b))) b
    (BSS_EX_TLV_IES b) (BSS_EX_TLV_IES_LEN b) attr_id.

Definition rtw_bss_ex_del_wfd_attr (gfuel : nat) (b : WLAN_BSSID_EX) (attr_id : Z) :
    outcome WLAN_BSSID_EX :=
  bss_del_attr rtw_get_wfd_ie (rtw_del_wfd_attr gfuel) (S (Z.to_nat (IELength b))) b
    (BSS_EX_TLV_IES b) (BSS_EX_TLV_IES_LEN b) attr_id.

(** *** Merging P2P elements *)

(** [rtw_get_p2p_merged_ies_len] *)
Fixpoint merged_len_loop (fuel : nat) (m : list Z) (in_ie in_len i len : Z) : outcome Z :=
  match fuel with
  | O => Timeout
  | S fuel =>
      if i <? in_len then
        found ← vendor_test m p2p_oui (in_ie + i);
        l ← rd m (in_ie + i + 1);
        merged_len_loop fuel m in_ie in_len (i + (l + 2)) (if (found : bool) then len + (l - 4) else len)
      else mret (u32 (len + 4))
  end.

Definition rtw_get_p2p_merged_ies_len (m : list Z) (in_ie in_len : Z) : outcome Z :=
  merged_len_loop (S (Z.to_nat in_len)) m in_ie in_len 0 0.

(** [rtw_p2p_merge_ies] into a buffer [out] at address 0: the running length is
    an unsigned byte, the size of a copy is unsigned. *)
Fixpoint merge_loop (fuel : nat) (m : list Z) (in_ie in_len i : Z) (out : list Z) (merge_ie len : Z) :
    outcome (list Z * Z) :=
  match fuel with
  | O => Timeout
  | S fuel =>
      if i <? in_len then
        found ← vendor_test m p2p_oui (in_ie + i);
        l ← rd m (in_ie + i + 1);
        if (found : bool) then
          d ← rds m (in_ie + i + 6) (u32 (l - 4));
          out1 ← wrs out merge_ie d;
          merge_loop fuel m in_ie in_len (i + (l + 2)) out1 (merge_ie + (l - 4)) (u8 (len + (l - 4)))
        else merge_loop fuel m in_ie in_len (i + (l + 2)) out merge_ie len
      else mret (out, len + 4)
  end.

Definition rtw_p2p_merge_ies (m : list Z) (in_ie in_len : Z) (out : list Z) : outcome (list Z * Z) :=
  out1 ← wrs out 0 ([221; 0] ++ p2p_oui);
  merge_loop (S (Z.to_nat in_len)) m in_ie in_len 0 out1 6 0.

(** ** Extended capabilities *)

(** The table and the length octet of [ext_capab_ie_data]. *)
Record ext_cap := ExtCap { ext_cap_data : list Z; ext_cap_data_len : Z }.

(** [rtw_add_ext_cap_info] *)
Definition rtw_add_ext_cap_info (c : ext_cap) (cap_info : Z) : outcome ext_cap :=
  let byte_offset := Z.shiftr cap_info 3 in
  let bit_offset := cap_info mod 8 in
  b ← rd (ext_cap_data c) byte_offset;
  d ← wr (ext_cap_data c) byte_offset (Z.lor b (BIT bit_offset));
  mret (ExtCap d (if ext_cap_data_len c <? byte_offset + 1 then u8 (byte_offset + 1)
                  else ext_cap_data_len c)).

(** The loop that finds the last byte in use. *)
Fixpoint last_used (n : nat) (d : list Z) (i max_len : Z) : outcome Z :=
  match n with
  | O => mret max_len
  | S n =>
      b ← rd d i;
      last_used n d (i + 1) (if negb (b =? 0) then i + 1 else max_len)
  end.

(** [rtw_remove_ext_cap_info] *)
Definition rtw_remove_ext_cap_info (c : ext_cap) (cap_info : Z) : outcome ext_cap :=
  let byte_offset := Z.shiftr cap_info 3 in
  let bit_offset := cap_info mod 8 in
  b ← rd (ext_cap_data c) byte_offset;
  d ← wr (ext_cap_data c) byte_offset (Z.land b (Z.lnot (BIT bit_offset)));
  n ← last_used (Z.to_nat WLAN_EID_EXT_CAP_MAX_LEN) d 0 0;
  mret (ExtCap d n).

(** [rtw_update_ext_cap_ie] *)
Definition rtw_update_ext_cap_ie (malloc_ok : bool) (c : ext_cap) (m : list Z)
    (ies ies_len ies_offset : Z) : outcome (list Z * Z) :=
  if negb (ext_cap_data_len c =? 0) then
    r ← rtw_get_ie m (ies + ies_offset) WLAN_EID_EXT_CAP (ies_len - ies_offset);
    match r with
    | None =>
        w ← rtw_set_ie m (ies + ies_len) WLAN_EID_EXT_CAP (ext_cap_data_len c) (ext_cap_data c) (Some 0);
        let '(m1, _, ie_len) := w in
        mret (m1, u32 (ies_len + default 0 ie_len))
    | Some _ =>
        w ← rtw_ies_update_ie malloc_ok m ies ies_len ies_offset WLAN_EID_EXT_CAP
              (ext_cap_data c) (ext_cap_data_len c);
        let '(_, m1, len1) := w in mret (m1, len1)
    end
  else
    w ← rtw_ies_remove_ie m ies ies_len ies_offset WLAN_EID_EXT_CAP None;
    let '(_, m1, len1) := w in mret (m1, len1).

(** The merge of [rtw_parse_ext_cap_ie]. *)
Fixpoint or_bytes (n : nat) (d m : list Z) (i p : Z) : outcome (list Z) :=
  match n with
  | O => mret d
  | S n =>
      a ← rd d i;
      b ← rd m (p + i);
      d1 ← wr d i (Z.lor a b);
      or_bytes n d1 m (i + 1) p
  end.

(** [rtw_parse_ext_cap_ie] *)
Definition rtw_parse_ext_cap_ie (c : ext_cap) (m : list Z) (ies ies_len ies_offset : Z) :
    outcome ext_cap :=
  r ← rtw_get_ie m (ies + ies_offset) WLAN_EID_EXT_CAP (ies_len - ies_offset);
  match r with
  | None => mret c
  | Some (p, len) =>
      if ext_cap_data_len c =? 0 then
        s ← rds m (p + 2) len;
        d ← wrs (ext_cap_data c) 0 s;
        mret (ExtCap d (u8 len))
      else
        d ← or_bytes (Z.to_nat len) (ext_cap_data c) m 0 (p + 2);
        mret (ExtCap d (ext_cap_data_len c))
  end.

(** ** Writers *)

Lemma drop_2_zlen {A} (rest : list A) n : 2 + n <= zlen rest -> 0 <= n ->
  exists x y r, rest = x :: y :: r /\ n <= zlen r.
Proof.
  intros H1 H2. destruct rest as [|x [|y r]]; try (zl; fail). exists x, y, r. split; [done|]. zl.
Qed.

(** [rtw_set_ie] writes the element at the given address. *)
Lemma rtw_set_ie_at a rest p index source frlen :
  p = zlen a -> zlen source < 256 -> 2 + zlen source <= zlen rest ->
  exists rest',
    rtw_set_ie (a ++ rest) p index (zlen source) source frlen =
    Ret (a ++ enc (IE (u8 index) source) ++ rest', p + zlen source + 2,
         option_map (fun f => u32 (f + (zlen source + 2))) frlen) /\
    rest' = drop (2 + length source) rest.
Proof.
  intros -> Hs Hl. pose proof (zlen_nonneg source).
  destruct (drop_2_zlen rest (zlen source)) as (x & y & r & -> & Hr); [lia|lia|].
  unfold rtw_set_ie. rewrite wr_over, bind_Ret by done.
  replace (a ++ u8 index :: y :: r) with ((a ++ [u8 index]) ++ y :: r) by by rewrite <- app_assoc.
  rewrite wr_over by zl. rewrite bind_Ret, (u8_small (zlen source)) by (unfold is_u8; lia).
  eexists. split; [|reflexivity]. unfold enc. cbn [ie_id ie_data app drop].
  destruct (Z.ltb_spec 0 (zlen source)) as [H0|H0].
  - rewrite rds_prefix, bind_Ret by done.
    replace ((a ++ [u8 index]) ++ zlen source :: r) with ((a ++ [u8 index; zlen source]) ++ r)
      by (rewrite <- !app_assoc; done).
    rewrite wrs_over by zl. rewrite bind_Ret, <- !app_assoc. done.
  - assert (source = []) as -> by (destruct source; [done|zl]). cbn. by rewrite <- !app_assoc.
Qed.

(** ** Reference definitions on sequences of elements *)

(** All elements but the matching ones. *)
Definition ies_without (f : ie -> bool) (l : list ie) : list ie := List.filter (fun e => negb (f e)) l.

Definition removed_len (f : ie -> bool) (l : list ie) : Z := zlen (encs l) - zlen (encs (ies_without f l)).

Lemma without_none f l : Forall (fun x => f x = false) l -> ies_without f l = l.
Proof. unfold ies_without. induction 1 as [|x l Hx _ IH]; [done|]. cbn. by rewrite Hx, IH. Qed.

Lemma without_split f l1 e l2 :
  Forall (fun x => f x = false) l1 -> f e = true ->
  ies_without f (l1 ++ e :: l2) = l1 ++ ies_without f l2.
Proof.
  intros H1 He. unfold ies_without. rewrite List.filter_app. cbn. rewrite He. cbn.
  f_equal. exact (without_none f l1 H1).
Qed.

Lemma without_len f l : zlen (encs (ies_without f l)) <= zlen (encs l).
Proof.
  unfold ies_without. induction l as [|x l IH]; [done|]. cbn [List.filter]. pose proof (ie_len_pos x).
  destruct (negb (f x)); rewrite ?encs_len; lia.
Qed.

Lemma encs_mid l1 e l2 : encs (l1 ++ e :: l2) = encs l1 ++ enc e ++ encs l2.
Proof. by rewrite encs_app, encs_cons. Qed.

Lemma roomy_mid eid n l1 e l2 : roomy eid n (l1 ++ e :: l2) -> roomy eid n l2.
Proof. intros H. apply Forall_app in H as [_ H]. by apply Forall_cons_1 in H as [_ H]. Qed.

(** ** [rtw_ies_remove_ie] *)

Lemma remove_ie_loop_spec eid oui post : forall fuel l base junk ies_len ret,
  roomy eid (oui_len oui) l -> (length l < fuel)%nat ->
  zlen (encs l) <= ies_len -> is_u32 ies_len ->
  exists junk' ret',
    remove_ie_loop fuel (base ++ encs l ++ junk ++ post) (zlen base) (zlen (encs l)) eid oui ies_len ret =
    Ret (ret', base ++ encs (ies_without (ex_pred eid oui) l) ++ junk' ++ post,
         ies_len - removed_len (ex_pred eid oui) l) /\
    zlen junk' = zlen junk + removed_len (ex_pred eid oui) l /\
    ret' = if existsb (ex_pred eid oui) l then _SUCCESS else ret.
Proof.
  set (f := ex_pred eid oui).
  induction fuel as [|fuel IH]; intros l base junk ies_len ret Hr Hf Hl Hu; [lia|].
  cbn [remove_ie_loop]. rewrite rtw_get_ie_ex_locate, bind_Ret by done. fold f.
  destruct (locate f (zlen base) l) as [[q e]|] eqn:El; cbn [option_map].
  - apply locate_split in El as (l1 & l2 & -> & -> & He & Hl1). cbn [hit_of hit_ptr hit_len].
    cbn [fst snd]. pose proof (ie_len_pos e). rewrite (proj2 (Z.eqb_neq _ _)) by lia.
    rewrite encs_mid, !zlen_app, zlen_enc in Hl |- *. unfold is_u32 in *.
    pose proof (zlen_nonneg (encs l1)). pose proof (zlen_nonneg (encs l2)).
    rewrite !u32_small by (unfold is_u32; lia).
    replace (base ++ (encs l1 ++ enc e ++ encs l2) ++ junk ++ post)
      with ((base ++ encs l1) ++ enc e ++ encs l2 ++ (junk ++ post)) by (rewrite <- !app_assoc; done).
    rewrite memmove_down by (rewrite ?zlen_app, ?zlen_enc; lia). rewrite bind_Ret.
    set (j := drop _ _). replace (encs l2 ++ j ++ junk ++ post) with (encs l2 ++ (j ++ junk) ++ post)
      by (rewrite <- !app_assoc; done).
    assert (zlen j = ie_len e) as Hj.
    { unfold j, zlen. rewrite length_drop, length_app. pose proof (zlen_enc e). unfold zlen in *. lia. }
    destruct (IH l2 (base ++ encs l1) (j ++ junk) (ies_len - ie_len e) _SUCCESS) as (j' & r' & E & Hj' & Hr').
    { by eapply roomy_mid. } { rewrite length_app in Hf. cbn [length] in Hf. lia. } { lia. } { lia. }
    rewrite zlen_app in E.
    replace (zlen (encs l1) + (ie_len e + zlen (encs l2)) - (zlen base + zlen (encs l1) + ie_len e - zlen base))
      with (zlen (encs l2)) by lia.
    rewrite E. exists j', r'. rewrite without_split by done. unfold removed_len in *.
    rewrite encs_mid, without_split by done. rewrite encs_app, !zlen_app, zlen_enc in *.
    rewrite <- !app_assoc. split_and!.
    + match goal with |- Ret (_, _, ?x) = Ret (_, _, ?y) => by replace x with y by lia end.
    + lia.
    + rewrite Hr', existsb_app. cbn [existsb]. rewrite He, orb_true_r. by destruct (existsb f l2).
  - apply locate_none in El. exists junk, ret. unfold removed_len. rewrite without_none by done.
    rewrite !Z.sub_diag, Z.sub_0_r, Z.add_0_r. split_and!; [done|done|].
    replace (existsb f l) with false; [done|]. symmetry. induction El as [|x l Hx _ IHl]; [done|].
    cbn. rewrite Hx. apply IHl; auto; cbn [length] in *; try lia; try (rewrite encs_len in Hl; pose proof (ie_len_pos x); lia).
    by apply Forall_cons_1 in Hr as [_ Hr].
Qed.

Definition edited (fixed : list Z) (l : list ie) : Z := zlen fixed + zlen (encs l).

Lemma rtw_ies_remove_ie_spec base fixed l post eid oui :
  roomy eid (oui_len oui) l -> edited fixed l < 4294967296 ->
  let f := ex_pred eid oui in
  exists junk,
    rtw_ies_remove_ie (base ++ fixed ++ encs l ++ post) (zlen base) (edited fixed l) (zlen fixed) eid oui =
    Ret (if existsb f l then _SUCCESS else _FAIL,
         base ++ fixed ++ encs (ies_without f l) ++ junk ++ post, edited fixed (ies_without f l)) /\
    zlen junk = removed_len f l.
Proof.
  intros Hr Hl f. unfold rtw_ies_remove_ie, edited in *. pose proof (zlen_nonneg fixed).
  pose proof (encs_count l). destruct (Z.leb_spec (zlen fixed + zlen (encs l)) (zlen fixed)) as [Hz|Hz].
  - assert (l = []) as -> by (destruct l; [done|cbn [length] in *; lia]). by exists [].
  - rewrite u32_small by (unfold is_u32; lia).
    replace (zlen fixed + zlen (encs l) - zlen fixed) with (zlen (encs l)) by lia.
    destruct (remove_ie_loop_spec eid oui post (S (Z.to_nat (zlen fixed + zlen (encs l)))) l (base ++ fixed) []
      (zlen fixed + zlen (encs l)) _FAIL) as (j & r & E & Hj & ->); [done|lia|lia|unfold is_u32; lia|].
    exists j. rewrite <- !app_assoc, zlen_app in E. cbn [app] in E. rewrite E.
    unfold removed_len in *. change (zlen []) with 0 in Hj. fold f in Hj |- *. split; [|lia].
    match goal with |- Ret (_, _, ?x) = Ret (_, _, ?y) => by replace x with y by lia end.
Qed.

(** An element that announces more bytes than the frame has: the length of the
    rest wraps around and the move leaves the buffer. *)
Lemma remove_truncated_faults base eid n d :
  is_u8 n -> zlen d < n -> zlen base + 2 + zlen d < 4294967040 ->
  rtw_ies_remove_ie (base ++ eid :: n :: d) (zlen base) (2 + zlen d) 0 eid None = Fault.
Proof.
  intros Hn Hd Hs. pose proof (zlen_nonneg d). pose proof (zlen_nonneg base). unfold is_u8 in Hn.
  unfold rtw_ies_remove_ie. rewrite (proj2 (Z.leb_gt _ _)) by lia.
  rewrite Z.sub_0_r, Z.add_0_r, u32_small by (unfold is_u32; lia). cbn [remove_ie_loop].
  unfold rtw_get_ie_ex. rewrite (proj2 (Z.leb_gt _ _)) by lia. cbn [get_ie_ex_loop].
  rewrite (proj2 (Z.ltb_lt _ _)) by lia. rewrite Z.add_0_r. unfold ie_ex_match, take_ie.
  rewrite (rd_at base eid _ (zlen base)), bind_Ret, Z.eqb_refl by done.
  replace (base ++ eid :: n :: d) with ((base ++ [eid]) ++ n :: d) by by rewrite <- app_assoc.
  rewrite (rd_at (base ++ [eid])) by zl. unfold mret, outcome_ret. rewrite !bind_Ret. cbn [hit_ptr hit_len].
  rewrite (proj2 (Z.eqb_neq _ _)) by lia. unfold _rtw_memmove. rewrite rds_fault; [done|].
  replace (2 + zlen d - (zlen base + (n + 2) - zlen base)) with (zlen d - n) by lia.
  rewrite zlen_app, !zlen_cons, zlen_app. change (zlen [eid]) with 1. unfold u32. zlia.
Qed.

(** ** [rtw_ies_update_ie] *)

Lemma replace_body_at a x rest d backup tlen :
  zlen d < 256 -> 2 + zlen x = 2 + tlen ->
  2 + zlen d + (if tlen =? zlen d then 0 else zlen backup) <= 2 + tlen + zlen rest ->
  forall id n,
  exists rest',
    replace_body (a ++ id :: n :: x ++ rest) (zlen a) 2 tlen (zlen d) (zlen d) d backup =
    Ret (a ++ (id :: zlen d :: d) ++
         (if tlen =? zlen d then rest else backup ++ rest')).
Proof.
  intros Hd Hx Hl id n. unfold replace_body. rewrite rds_prefix, bind_Ret by done.
  replace (a ++ id :: n :: x ++ rest) with ((a ++ [id; n]) ++ (x ++ rest)) by (rewrite <- app_assoc; done).
  pose proof (zlen_nonneg backup). pose proof (zlen_nonneg d).
  rewrite wrs_over by (destruct (Z.eqb_spec tlen (zlen d)); zl). rewrite bind_Ret.
  set (r := drop _ _).
  replace ((a ++ [id; n]) ++ d ++ r) with ((a ++ [id]) ++ n :: d ++ r) by (rewrite <- !app_assoc; done).
  rewrite wr_over by zl. rewrite bind_Ret, u8_small by (unfold is_u8; lia).
  destruct (Z.eqb_spec tlen (zlen d)) as [E|E]; cbn [negb].
  - exists []. unfold r. rewrite <- !app_assoc. cbn [app].
    rewrite drop_app_length' by (unfold zlen in *; lia). done.
  - replace ((a ++ [id]) ++ zlen d :: d ++ r) with ((a ++ id :: zlen d :: d) ++ r)
      by (rewrite <- !app_assoc; done).
    assert (zlen r = tlen + zlen rest - zlen d) as Hr.
    { unfold r, zlen in *. rewrite length_drop, length_app. lia. }
    rewrite wrs_over by zl. exists (drop (length backup) r). rewrite <- !app_assoc. done.
Qed.

(** The first element with the id gets the new content. *)
Fixpoint ies_update (eid : Z) (content : list Z) (l : list ie) : list ie :=
  match l with
  | [] => []
  | e :: l => if has_id eid e then IE eid content :: l else e :: ies_update eid content l
  end.

Lemma ies_update_split eid content l1 e l2 :
  Forall (fun x => has_id eid x = false) l1 -> has_id eid e = true ->
  ies_update eid content (l1 ++ e :: l2) = l1 ++ IE eid content :: l2.
Proof. induction 1 as [|x l1 Hx _ IH]; intros He; cbn; [by rewrite He|]. by rewrite Hx, IH. Qed.

Lemma ies_update_none eid content l :
  Forall (fun x => has_id eid x = false) l -> ies_update eid content l = l.
Proof. induction 1 as [|x l Hx _ IH]; [done|]. cbn. by rewrite Hx, IH. Qed.

(** The element updated is the first one with the id, if it is not empty. *)
Definition updatable (eid : Z) (l : list ie) : bool :=
  match locate (has_id eid) 0 l with
  | Some (_, e) => negb (zlen (ie_data e) =? 0)
  | None => false
  end.

Lemma updatable_split eid l1 e l2 :
  Forall (fun x => has_id eid x = false) l1 -> has_id eid e = true ->
  updatable eid (l1 ++ e :: l2) = negb (zlen (ie_data e) =? 0).
Proof. intros H1 He. unfold updatable. rewrite locate_app by done. cbn. by rewrite He. Qed.

(** The rewriting of one element, given where it is. *)
Lemma update_at A e R free content start off ies_len :
  zlen content < 256 -> zlen (ie_data e) <> 0 ->
  0 <= start <= zlen A -> is_u32 ies_len -> is_u32 (ies_len + (zlen content - zlen (ie_data e))) ->
  zlen content <= zlen (ie_data e) + zlen free ->
  let m := A ++ enc e ++ R ++ free in
  let search_len := zlen A - start + ie_len e + zlen R in
  is_u32 search_len -> u32 (ies_len - off) = search_len ->
  forall ies eid, start = ies + off -> 0 < ies_len -> off < ies_len ->
  rtw_get_ie m start eid search_len = Ret (Some (zlen A, zlen (ie_data e))) ->
  exists free',
    rtw_ies_update_ie true m ies ies_len off eid content (zlen content) =
    Ret (_SUCCESS, A ++ enc (IE (ie_id e) content) ++ R ++ free',
         ies_len + (zlen content - zlen (ie_data e))).
Proof.
  intros Hc Hne Hs Hu Hu' Hf m sl Hsl Hoff ies eid -> H0 H1 Hg. unfold rtw_ies_update_ie.
  rewrite (proj2 (Z.eqb_neq _ _)), (proj2 (Z.leb_gt _ _)) by lia. cbn [orb].
  rewrite Hoff, Hg, bind_Ret, (proj2 (Z.eqb_neq _ _)) by done.
  set (t := zlen (ie_data e)) in *. pose proof (zlen_nonneg R). pose proof (zlen_nonneg content).
  assert (m = A ++ ie_id e :: t :: ie_data e ++ (R ++ free)) as Em by done.
  destruct (Z.eqb_spec t (zlen content)) as [Et|Et]; cbn [negb].
  - rewrite Em. destruct (replace_body_at A (ie_data e) (R ++ free) content [] t) with (id := ie_id e) (n := t)
      as [r' E]; [done|done|rewrite Et, Z.eqb_refl, zlen_app; zl|].
    rewrite E, bind_Ret, Et, Z.eqb_refl, Z.sub_diag, Z.add_0_r. by exists free.
  - rewrite (u32_small (ies_len + _)) by done.
    assert (u32 (sl - (zlen A + 2 + t - (ies + off))) = zlen R) as ->.
    { pose proof (ie_len_pos e). unfold sl, is_u32 in *.
      replace (zlen A - (ies + off) + ie_len e + zlen R - (zlen A + 2 + t - (ies + off))) with (zlen R)
        by (unfold ie_len, t; lia).
      apply u32_small. unfold is_u32. lia. }
    unfold m. rewrite app_assoc, rds_at, bind_Ret by (rewrite ?zlen_app, ?zlen_enc; unfold ie_len; lia).
    rewrite <- app_assoc. fold m. rewrite Em.
    destruct (replace_body_at A (ie_data e) (R ++ free) content R t) with (id := ie_id e) (n := t)
      as [r' E]; [done|done|rewrite (proj2 (Z.eqb_neq _ _)), zlen_app by done; lia|].
    rewrite E, bind_Ret, (proj2 (Z.eqb_neq _ _)) by done. by exists r'.
Qed.

Lemma updatable_inv eid l pos :
  updatable eid l = true ->
  exists l1 e l2, l = l1 ++ e :: l2 /\ locate (has_id eid) pos l = Some (pos + zlen (encs l1), e) /\
    Forall (fun x => has_id eid x = false) l1 /\ has_id eid e = true /\ zlen (ie_data e) <> 0.
Proof.
  intros Hu. unfold updatable in Hu. destruct (locate (has_id eid) 0 l) as [[q e]|] eqn:El; [|done].
  apply locate_split in El as (l1 & l2 & -> & _ & He & Hl1). exists l1, e, l2.
  rewrite locate_app by done. cbn [locate]. rewrite He.
  split_and!; auto. by apply Z.eqb_neq, negb_true_iff.
Qed.

Lemma rtw_ies_update_ie_spec base fixed l free eid content :
  zlen content < 256 -> edited fixed l + 256 <= 4294967296 ->
  let l' := ies_update eid content l in
  updatable eid l = true -> edited fixed l' <= edited fixed l + zlen free ->
  exists free',
    rtw_ies_update_ie true (base ++ fixed ++ encs l ++ free) (zlen base) (edited fixed l) (zlen fixed)
      eid content (zlen content) =
    Ret (_SUCCESS, base ++ fixed ++ encs l' ++ free', edited fixed l').
Proof.
  intros Hc Hl l' Hu Hf. pose proof (rtw_get_ie_locate (base ++ fixed) l free eid) as Hg.
  destruct (updatable_inv eid l (zlen (base ++ fixed)) Hu) as (l1 & e & l2 & -> & El & Hl1 & He & Hne).
  rewrite El in Hg. clear El. cbn [option_map fst snd] in Hg. unfold l', edited in *. clear l'.
  rewrite ies_update_split in * by done. apply Z.eqb_eq in He.
  rewrite !encs_mid, !zlen_app, !zlen_enc in *. unfold ie_len in Hf, Hl at 1. cbn [ie_data] in *.
  pose proof (zlen_nonneg (encs l2)). pose proof (zlen_nonneg (encs l1)). pose proof (zlen_nonneg fixed).
  pose proof (zlen_nonneg base). pose proof (ie_len_pos e). pose proof (zlen_nonneg content).
  pose proof (zlen_nonneg (ie_data e)).
  replace ((base ++ fixed) ++ (encs l1 ++ enc e ++ encs l2) ++ free)
    with ((base ++ fixed ++ encs l1) ++ enc e ++ encs l2 ++ free) in Hg by (rewrite <- !app_assoc; done).
  replace (base ++ fixed ++ (encs l1 ++ enc e ++ encs l2) ++ free)
    with ((base ++ fixed ++ encs l1) ++ enc e ++ encs l2 ++ free) by (rewrite <- !app_assoc; done).
  destruct (update_at (base ++ fixed ++ encs l1) e (encs l2) free content (zlen base + zlen fixed) (zlen fixed)
    (zlen fixed + (zlen (encs l1) + (ie_len e + zlen (encs l2))))) with (ies := zlen base) (eid := eid)
    as [free' E]; rewrite ?zlen_app; unfold is_u32, ie_len in *; try lia.
  - rewrite u32_small by (unfold is_u32; lia). lia.
  - match goal with |- rtw_get_ie _ _ _ ?x = Ret (Some (?y, _)) =>
      replace x with (zlen (encs l1) + (zlen (ie_data e) + 2 + zlen (encs l2))) by lia;
      replace y with (zlen base + zlen fixed + zlen (encs l1)) by lia end. exact Hg.
  - exists free'. rewrite E, <- He, <- !app_assoc. cbn [ie_data].
    match goal with |- Ret (_, _, ?x) = Ret (_, _, ?y) => by replace x with y by lia end.
Qed.

(** What is refused changes nothing: an element that is missing or empty, and a
    change of the length without memory. *)
Lemma rtw_ies_update_ie_refuses malloc_ok base fixed l free eid content :
  edited fixed l < 4294967296 ->
  updatable eid l = false \/ malloc_ok = false /\ Forall (fun e => has_id eid e = true -> zlen (ie_data e) <> zlen content) l ->
  rtw_ies_update_ie malloc_ok (base ++ fixed ++ encs l ++ free) (zlen base) (edited fixed l) (zlen fixed)
    eid content (zlen content) = Ret (_FAIL, base ++ fixed ++ encs l ++ free, edited fixed l).
Proof.
  intros Hl Hu. unfold rtw_ies_update_ie. destruct ((edited fixed l =? 0) || _); [done|].
  pose proof (rtw_get_ie_locate (base ++ fixed) l free eid) as Hg. rewrite <- app_assoc, zlen_app in Hg.
  pose proof (zlen_nonneg (encs l)). pose proof (zlen_nonneg fixed). unfold edited in *.
  rewrite u32_small by (unfold is_u32; lia). replace (zlen fixed + zlen (encs l) - zlen fixed) with (zlen (encs l)) by lia.
  rewrite Hg, bind_Ret. destruct (locate (has_id eid) (zlen base + zlen fixed) l) as [[q e]|] eqn:El; [|done].
  apply locate_split in El as (l1 & l2 & -> & -> & He & Hl1). rewrite updatable_split in Hu by done.
  cbn [option_map fst snd]. destruct (zlen (ie_data e) =? 0); [done|]. destruct Hu as [Hu|[-> Hn]]; [done|].
  apply Forall_app in Hn as [_ Hn]. apply Forall_cons_1 in Hn as [Hn _].
  by rewrite (proj2 (Z.eqb_neq _ _)) by by apply Hn.
Qed.

(** ** [rtw_ies_add_ie] *)

(** In front of the first element with a greater id, or in place of the first
    element with the same id. *)
Fixpoint ies_insert (eid : Z) (content : list Z) (l : list ie) : list ie :=
  match l with
  | [] => [IE eid content]
  | e :: l =>
      if eid <? ie_id e then IE eid content :: e :: l
      else if ie_id e =? eid then IE eid content :: l
      else e :: ies_insert eid content l
  end.

Lemma add_ie_loop_spec base post eid l : forall fuel pre dst,
  (length l < fuel)%nat ->
  exists l1 d l2,
    l = l1 ++ d ++ l2 /\ (forall content, ies_insert eid content l = l1 ++ IE eid content :: l2) /\
    add_ie_loop fuel (base ++ pre ++ encs l ++ post) (zlen base) (zlen pre + zlen (encs l)) eid
      (zlen base + zlen pre) dst =
    Ret (Some (zlen base + zlen pre + zlen (encs l1)),
         zlen base + zlen pre + zlen (encs l1) + zlen (encs d)).
Proof.
  induction l as [|e l IH]; intros fuel pre dst Hf; (destruct fuel as [|fuel]; [cbn in Hf; lia|]);
    cbn [add_ie_loop].
  - exists [], [], []. split_and!; [done|done|]. change (zlen (encs [])) with 0. rewrite !Z.add_0_r.
    rewrite (proj2 (Z.leb_le _ _)), (proj2 (Z.eqb_eq _ _)) by lia. done.
  - rewrite encs_len. pose proof (ie_len_pos e). pose proof (zlen_nonneg (encs l)).
    rewrite (proj2 (Z.leb_le _ _)), (proj2 (Z.eqb_neq _ _)) by lia.
    assert (base ++ pre ++ encs (e :: l) ++ post = (base ++ pre) ++ enc e ++ (encs l ++ post)) as Em
      by (by rewrite encs_cons, <- !app_assoc).
    rewrite Em, (rd_enc_id (base ++ pre) e _ (zlen base + zlen pre)), bind_Ret by zl.
    cbn [ies_insert]. destruct (eid <? ie_id e) eqn:E1.
    { exists [], [], (e :: l). split_and!; [done|done|]. change (zlen (encs [])) with 0.
      by rewrite !Z.add_0_r. }
    rewrite (rd_enc_len (base ++ pre)), bind_Ret by zl. fold (ie_len e).
    destruct (ie_id e =? eid) eqn:E2.
    { exists [], [e], l. split_and!; [done|done|]. change (zlen (encs [])) with 0.
      rewrite encs_len. change (zlen (encs [])) with 0. by rewrite !Z.add_0_r. }
    destruct (IH fuel (pre ++ enc e) (Some (zlen base + zlen pre))) as (l1 & d & l2 & -> & Hi & E);
      [cbn [length] in Hf; lia|].
    exists (e :: l1), d, l2. split_and!; [done|intros c; cbn [app]; by rewrite <- Hi|].
    rewrite zlen_app, zlen_enc, <- !app_assoc, <- Z.add_assoc in E. rewrite encs_len, <- !app_assoc.
    rewrite <- !Z.add_assoc in *. exact E.
Qed.

(** The element and what follows it, written over the place found. *)
Lemma write_elem_at A X eid content backup :
  is_u8 eid -> zlen content < 256 ->
  2 + zlen content + zlen (default [] backup) <= zlen X ->
  exists X', forall B (k : list Z -> outcome B),
    (m1 ← wr (A ++ X) (zlen A) eid;
     m2 ← wr m1 (zlen A + 1) (zlen content);
     d ← rds content 0 (zlen content);
     m3 ← wrs m2 (zlen A + 2) d;
     m4 ← match backup with Some b => wrs m3 (zlen A + 2 + zlen content) b | None => mret m3 end;
     k m4) =
    k (A ++ enc (IE eid content) ++ default [] backup ++ X').
Proof.
  intros He Hc Hl. pose proof (zlen_nonneg content). pose proof (zlen_nonneg (default [] backup)).
  destruct (drop_2_zlen X (zlen content + zlen (default [] backup))) as (x & y & r & -> & Hr); [lia|lia|].
  enough (forall B (k : list Z -> outcome B),
    (m1 ← wr (A ++ x :: y :: r) (zlen A) eid; m2 ← wr m1 (zlen A + 1) (zlen content);
     d ← rds content 0 (zlen content); m3 ← wrs m2 (zlen A + 2) d; k m3) =
    k (A ++ enc (IE eid content) ++ drop (length content) r)) as Hw.
  { set (r1 := drop (length content) r) in Hw.
    assert (zlen r1 = zlen r - zlen content) as Hr1 by (unfold r1, zlen in *; rewrite length_drop; lia).
    exists (drop (length (default [] backup)) r1). intros B k. rewrite Hw.
    destruct backup as [b|]; cbn [default from_option id] in *; [|done].
    rewrite app_assoc, wrs_over, bind_Ret by (first [zl; fail | rewrite zlen_app, zlen_enc; unfold ie_len; cbn; lia]).
    by rewrite <- app_assoc. }
  intros B k. rewrite wr_over, bind_Ret, (u8_small eid) by done.
  replace (A ++ eid :: y :: r) with ((A ++ [eid]) ++ y :: r) by by rewrite <- app_assoc.
  rewrite wr_over by zl. rewrite bind_Ret, rds_prefix, bind_Ret, u8_small by (first [done | unfold is_u8; lia]).
  replace ((A ++ [eid]) ++ zlen content :: r) with ((A ++ [eid; zlen content]) ++ r)
    by (rewrite <- !app_assoc; done).
  rewrite wrs_over by zl. rewrite bind_Ret. unfold enc. cbn [ie_id ie_data].
  by rewrite <- !app_assoc.
Qed.

Lemma rtw_ies_add_ie_spec base fixed l free eid content :
  is_u8 eid -> zlen content < 256 -> edited fixed l + 258 <= 4294967296 -> l <> [] ->
  let l' := ies_insert eid content l in
  edited fixed l' <= edited fixed l + zlen free ->
  exists free',
    rtw_ies_add_ie true (base ++ fixed ++ encs l ++ free) (zlen base) (edited fixed l) (zlen fixed)
      eid content (zlen content) =
    Ret (_SUCCESS, base ++ fixed ++ encs l' ++ free', edited fixed l').
Proof.
  intros He Hc Hl Hne l' Hf. unfold rtw_ies_add_ie, edited in *. pose proof (zlen_nonneg fixed).
  pose proof (encs_count l). assert (0 < zlen (encs l)) by (destruct l; [done|cbn [length] in *; lia]).
  rewrite (proj2 (Z.eqb_neq _ _)), (proj2 (Z.leb_gt _ _)) by lia. cbn [orb].
  rewrite (u32_small (zlen fixed + zlen (encs l) - zlen fixed)) by (unfold is_u32; lia).
  replace (zlen fixed + zlen (encs l) - zlen fixed) with (zlen (encs l)) by lia.
  destruct (add_ie_loop_spec (base ++ fixed) free eid l (S (S (Z.to_nat (zlen (encs l))))) [] None)
    as (l1 & d & l2 & El & Hi & E); [lia|].
  cbn [app] in E. change (zlen []) with 0 in E. rewrite Z.add_0_r, Z.add_0_l, zlen_app, <- !app_assoc in E.
  rewrite E, bind_Ret. clear E. unfold l' in *. rewrite Hi in *. rewrite El, !encs_mid, !encs_app, !zlen_app, zlen_enc in *.
  unfold ie_len in *. cbn [ie_data] in *.
  pose proof (zlen_nonneg (encs l1)). pose proof (zlen_nonneg (encs l2)). pose proof (zlen_nonneg content).
  pose proof (zlen_nonneg (encs d)). pose proof (zlen_nonneg base). set (A := base ++ fixed ++ encs l1).
  assert (u32 (zlen fixed + (zlen (encs l1) + (zlen (encs d) + zlen (encs l2))) -
    (zlen base + zlen fixed + zlen (encs l1) + zlen (encs d) - zlen base)) = zlen (encs l2)) as ->.
  { rewrite u32_small by (unfold is_u32; lia). lia. }
  replace (base ++ fixed ++ (encs l1 ++ encs d ++ encs l2) ++ free)
    with (A ++ encs d ++ encs l2 ++ free) by (unfold A; rewrite <- !app_assoc; done).
  replace (zlen base + zlen fixed + zlen (encs l1)) with (zlen A) by (unfold A; rewrite !zlen_app; lia).
  set (backup := if 0 <? zlen (encs l2) then Some (encs l2) else None).
  assert ((if 0 <? zlen (encs l2) then
    d0 ← rds (A ++ encs d ++ encs l2 ++ free) (zlen A + zlen (encs d)) (zlen (encs l2)); mret (Some d0)
    else mret None) = Ret backup) as ->.
  { unfold backup. destruct (0 <? zlen (encs l2)); [|done].
    rewrite app_assoc, rds_at by zl. done. }
  rewrite bind_Ret. assert (default [] backup = encs l2) as Hb.
  { unfold backup. destruct (Z.ltb_spec 0 (zlen (encs l2))); [done|].
    destruct (encs l2) as [|x y]; [done|]. pose proof (zlen_cons x y). zl. }
  destruct (write_elem_at A (encs d ++ encs l2 ++ free) eid content backup) as [X' E];
    [done|done|rewrite Hb, !zlen_app; lia|].
  rewrite E, Hb. exists X'.
  unfold A. rewrite <- !app_assoc. unfold mret, outcome_ret. rewrite !zlen_app.
  match goal with |- context [u32 (?x - zlen base)] =>
    rewrite (u32_small (x - zlen base)) by (unfold is_u32; lia) end.
  rewrite u32_small by (unfold is_u32; lia).
  match goal with |- Ret (_, _, ?x) = Ret (_, _, ?y) => by replace x with y by lia end.
Qed.

(** Element ids in ascending order. *)
Definition ascending (l : list ie) : Prop := StronglySorted Z.le (map ie_id l).

Lemma ies_insert_ids eid content l x :
  In x (map ie_id (ies_insert eid content l)) -> x = eid \/ In x (map ie_id l).
Proof.
  induction l as [|e l IH]; cbn.
  - intros [<-|[]]. by left.
  - destruct (eid <? ie_id e), (ie_id e =? eid); cbn; intuition auto.
Qed.

Lemma ies_insert_ascending eid content l : ascending l -> ascending (ies_insert eid content l).
Proof.
  unfold ascending. induction l as [|e l IH]; cbn; intros Hs; [by repeat constructor|].
  inversion Hs as [|? ? Hs' Hall]; subst.
  destruct (Z.ltb_spec eid (ie_id e)) as [H|H]; [|destruct (Z.eqb_spec (ie_id e) eid) as [E|E]]; cbn.
  - constructor; [done|]. constructor; [lia|]. eapply List.Forall_impl; [|exact Hall]. cbn. lia.
  - constructor; [done|]. by rewrite <- E.
  - constructor; [by apply IH|]. apply List.Forall_forall. intros x Hx.
    apply ies_insert_ids in Hx as [->|Hx]; [lia|]. exact (proj1 (List.Forall_forall _ _) Hall x Hx).
Qed.

(** ** [rtw_del_p2p_ie] and [rtw_del_wfd_ie] *)

Definition del_search (oui : list Z) (m : list Z) (in_ie in_len : Z) (copy : bool) :
    outcome (option ie_hit) :=
  typed_ie m in_ie in_len (vendor_test m oui) copy.

Lemma del_typed_ie_spec oui base : length oui = 4%nat -> forall fuel l post,
  roomy WLAN_EID_VENDOR_SPECIFIC 4 l -> (length l < fuel)%nat -> zlen (encs l) <= MAX_IE_SZ ->
  let l' := ies_without (vendor_pred oui) l in
  del_typed_ie (del_search oui) fuel (base ++ encs l ++ post) (zlen base) (zlen (encs l)) =
  Ret (base ++ encs l' ++ replicate (Z.to_nat (removed_len (vendor_pred oui) l)) 0 ++ post, zlen (encs l')).
Proof.
  intros Ho. set (f := vendor_pred oui).
  induction fuel as [|fuel IH]; intros l post Hr Hf Hm l'; [lia|]. cbn [del_typed_ie].
  assert (del_search oui (base ++ encs l ++ post) (zlen base) (zlen (encs l)) false =
    Ret (option_map (hit_of false) (locate f (zlen base) l))) as -> by by apply vendor_search_locate.
  rewrite bind_Ret. unfold l'. clear l'.
  destruct (locate f (zlen base) l) as [[q e]|] eqn:El; cbn [option_map].
  2:{ apply locate_none in El. unfold removed_len. by rewrite without_none, Z.sub_diag by done. }
  apply locate_split in El as (l1 & l2 & -> & -> & He & Hl1). unfold hit_of. cbn [hit_ptr hit_len fst snd].
  pose proof (ie_len_pos e). rewrite (proj2 (Z.eqb_neq _ _)) by lia. unfold MAX_IE_SZ in *.
  rewrite encs_mid, !zlen_app, zlen_enc in Hm |- *.
  pose proof (zlen_nonneg (encs l1)). pose proof (zlen_nonneg (encs l2)).
  rewrite !u32_small by (unfold is_u32; lia).
  replace (base ++ (encs l1 ++ enc e ++ encs l2) ++ post)
    with ((base ++ encs l1) ++ enc e ++ encs l2 ++ post) by (rewrite <- !app_assoc; done).
  rewrite memmove_down, bind_Ret by (rewrite ?zlen_app, ?zlen_enc; lia).
  set (j := drop _ _). assert (zlen j = ie_len e) as Hj.
  { unfold j, zlen. rewrite length_drop, length_app. pose proof (zlen_enc e). unfold zlen in *. lia. }
  rewrite (app_assoc (base ++ encs l1)), memset_over, bind_Ret by (rewrite ?zlen_app; lia).
  specialize (IH (l1 ++ l2) (replicate (length j) 0 ++ post)). cbn zeta in IH.
  rewrite encs_app, zlen_app, <- !app_assoc in IH. rewrite <- !app_assoc.
  replace (zlen (encs l1) + (ie_len e + zlen (encs l2)) - ie_len e)
    with (zlen (encs l1) + zlen (encs l2)) by lia.
  rewrite IH.
  2:{ apply Forall_app in Hr as [Hr1 Hr2]. apply Forall_app. split; [done|]. by apply Forall_cons_1 in Hr2 as [_ ?]. }
  2:{ rewrite !length_app in *. cbn [length] in Hf. lia. } 2:{ lia. }
  assert (ies_without f (l1 ++ l2) = ies_without f (l1 ++ e :: l2)) as Hw.
  { rewrite without_split by done. unfold ies_without. rewrite List.filter_app. f_equal. exact (without_none f l1 Hl1). }
  rewrite Hw. do 4 f_equal. rewrite app_assoc, <- replicate_add. do 2 f_equal.
  pose proof (without_len f (l1 ++ l2)) as Hle.
  unfold removed_len. rewrite Hw in *. rewrite encs_mid, encs_app, !zlen_app, zlen_enc in *. unfold zlen in Hj. lia.
Qed.

(** ** Extended capabilities *)

Lemma wr_insert m p v : 0 <= p < zlen m -> wr m p v = Ret (<[Z.to_nat p := u8 v]> m).
Proof.
  intros H. unfold wr. unfold zlen in H.
  assert (m = take (Z.to_nat p) m ++ drop (Z.to_nat p) m) as E by by rewrite take_drop.
  rewrite E at 1. rewrite wrs_over.
  - rewrite insert_take_drop by lia. cbn [length app]. rewrite drop_drop. do 4 f_equal. lia.
  - unfold zlen. rewrite length_take. lia.
  - unfold zlen. rewrite length_drop. cbn. lia.
Qed.

Lemma rd_lookup m p b : 0 <= p -> m !! Z.to_nat p = Some b -> rd m p = Ret b.
Proof. intros H E. unfold rd. by rewrite (proj2 (Z.leb_le _ _)), E by lia. Qed.

(** Capability [k] is announced. *)
Definition has_cap (c : ext_cap) (k : Z) : bool :=
  match ext_cap_data c !! Z.to_nat (k / 8) with
  | Some b => Z.testbit b (k mod 8)
  | None => false
  end.

(** [n] is the number of bytes in use among the first [i]. *)
Definition used (d : list Z) (i n : Z) : Prop :=
  0 <= n <= i /\ (forall j, n <= j < i -> d !! Z.to_nat j = Some 0) /\
  (n = 0 \/ exists b, d !! Z.to_nat (n - 1) = Some b /\ b <> 0).

(** The table is whole and its length octet exact. *)
Definition ext_cap_ok (c : ext_cap) : Prop :=
  zlen (ext_cap_data c) = WLAN_EID_EXT_CAP_MAX_LEN /\ Forall is_u8 (ext_cap_data c) /\
  used (ext_cap_data c) WLAN_EID_EXT_CAP_MAX_LEN (ext_cap_data_len c).

Lemma last_used_spec d : forall n i mx,
  0 <= i -> i + Z.of_nat n <= zlen d -> used d i mx ->
  exists r, last_used n d i mx = Ret r /\ used d (i + Z.of_nat n) r.
Proof.
  induction n as [|n IH]; intros i mx Hi Hl Hu; cbn [last_used].
  - exists mx. by rewrite Z.add_0_r.
  - destruct (rd_spec d i) as (b & Eb & Lb); [lia|]. rewrite Eb, bind_Ret.
    replace (i + Z.of_nat (S n)) with (i + 1 + Z.of_nat n) by lia.
    apply IH; [lia|lia|]. destruct Hu as (H1 & H2 & H3). destruct (Z.eqb_spec b 0) as [->|Hb]; cbn [negb].
    + split_and!; [lia|lia| |done]. intros j Hj. destruct (Z.eq_dec j i) as [->|]; [done|]. apply H2. lia.
    + split_and!; [lia|lia| |]. { intros j Hj. lia. } right. exists b. by replace (i + 1 - 1) with i by lia.
Qed.

Lemma has_cap_insert c k v n j :
  0 <= k -> 0 <= j -> k / 8 < zlen (ext_cap_data c) ->
  has_cap (ExtCap (<[Z.to_nat (k / 8) := v]> (ext_cap_data c)) n) j =
  if j / 8 =? k / 8 then Z.testbit v (j mod 8) else has_cap c j.
Proof.
  intros Hk Hj Hl. unfold has_cap. cbn [ext_cap_data]. unfold zlen in Hl.
  destruct (Z.eqb_spec (j / 8) (k / 8)) as [->|Hne].
  - by rewrite list_lookup_insert_eq by zlia.
  - rewrite list_lookup_insert_ne by zlia. done.
Qed.

Lemma cap_eq j k : 0 <= j -> 0 <= k -> (j =? k) = (j / 8 =? k / 8) && (j mod 8 =? k mod 8).
Proof.
  intros. destruct (Z.eqb_spec j k), (Z.eqb_spec (j / 8) (k / 8)), (Z.eqb_spec (j mod 8) (k mod 8));
    cbn; try done; zlia.
Qed.

Lemma byte_of_cap c k :
  ext_cap_ok c -> 0 <= k < 80 ->
  exists b, ext_cap_data c !! Z.to_nat (k / 8) = Some b /\ is_u8 b /\ rd (ext_cap_data c) (Z.shiftr k 3) = Ret b.
Proof.
  intros (Hl & Hb & _) Hk. unfold WLAN_EID_EXT_CAP_MAX_LEN in *.
  assert (Z.shiftr k 3 = k / 8) as -> by (rewrite Z.shiftr_div_pow2 by lia; done).
  destruct (rd_spec (ext_cap_data c) (k / 8)) as (b & E & L); [zlia|].
  exists b. split_and!; [done|exact (rd_u8 _ _ _ Hb E)|done].
Qed.

(** A byte that becomes non-zero extends the part in use up to it. *)
Lemma used_insert d i n p v :
  0 <= p < i -> i <= zlen d -> used d i n -> v <> 0 ->
  used (<[Z.to_nat p := v]> d) i (if n <? p + 1 then p + 1 else n).
Proof.
  intros Hp Hl (H1 & H2 & H3) Hv. unfold zlen in Hl. split_and!.
  - destruct (Z.ltb_spec n (p + 1)); lia.
  - destruct (Z.ltb_spec n (p + 1)); lia.
  - intros j Hj. assert (p < j /\ n <= j) by (destruct (Z.ltb_spec n (p + 1)); lia).
    rewrite list_lookup_insert_ne by lia. apply H2. lia.
  - right. destruct (Z.ltb_spec n (p + 1)).
    + exists v. replace (p + 1 - 1) with p by lia. by rewrite list_lookup_insert_eq by lia.
    + destruct H3 as [->|(x & Hx & Hx0)]; [lia|]. destruct (Z.eq_dec (n - 1) p) as [->|Hne].
      * exists v. by rewrite list_lookup_insert_eq by lia.
      * exists x. by rewrite list_lookup_insert_ne by lia.
Qed.

Lemma rtw_add_ext_cap_info_spec c k :
  ext_cap_ok c -> 0 <= k < 80 ->
  exists c', rtw_add_ext_cap_info c k = Ret c' /\ ext_cap_ok c' /\
    forall j, 0 <= j -> has_cap c' j = has_cap c j || (j =? k).
Proof.
  intros Hok Hk. destruct (byte_of_cap c k Hok Hk) as (b & L & Hb & E).
  destruct Hok as (Hl & Hd & Hu). unfold WLAN_EID_EXT_CAP_MAX_LEN in *.
  unfold rtw_add_ext_cap_info. rewrite E, bind_Ret.
  assert (Z.shiftr k 3 = k / 8) as -> by (rewrite Z.shiftr_div_pow2 by lia; done).
  rewrite wr_insert, bind_Ret by (rewrite Hl; zlia).
  assert (forall i, 0 <= i < 8 -> Z.testbit (u8 (Z.lor b (BIT (k mod 8)))) i = Z.testbit b i || (i =? k mod 8)) as Hbit.
  { intros i Hi. rewrite testbit_u8, testbit_lor_BIT by zlia. done. }
  set (v := u8 _) in *. eexists. split; [reflexivity|]. split.
  - split_and!; cbn [ext_cap_data ext_cap_data_len].
    + unfold zlen in *. by rewrite length_insert.
    + apply Forall_insert; [done|]. apply u8_range.
    + rewrite u8_small by (unfold is_u8; zlia).
      change WLAN_EID_EXT_CAP_MAX_LEN with 10. apply used_insert; [zlia|lia|done|].
      intros Hv. specialize (Hbit (k mod 8) ltac:(zlia)).
      by rewrite Hv, Z.bits_0, Z.eqb_refl, orb_true_r in Hbit.
  - intros j Hj. rewrite has_cap_insert by (rewrite ?Hl; zlia). rewrite (cap_eq j k) by lia.
    destruct (Z.eqb_spec (j / 8) (k / 8)) as [Ej|Ej]; cbn [andb]; [|by rewrite orb_false_r].
    rewrite Hbit by zlia. unfold has_cap. by rewrite Ej, L.
Qed.

Lemma rtw_remove_ext_cap_info_spec c k :
  ext_cap_ok c -> 0 <= k < 80 ->
  exists c', rtw_remove_ext_cap_info c k = Ret c' /\ ext_cap_ok c' /\
    forall j, 0 <= j -> has_cap c' j = has_cap c j && negb (j =? k).
Proof.
  intros Hok Hk. destruct (byte_of_cap c k Hok Hk) as (b & L & Hb & E).
  destruct Hok as (Hl & Hd & _). unfold WLAN_EID_EXT_CAP_MAX_LEN in *.
  unfold rtw_remove_ext_cap_info. rewrite E, bind_Ret.
  assert (Z.shiftr k 3 = k / 8) as -> by (rewrite Z.shiftr_div_pow2 by lia; done).
  rewrite wr_insert, bind_Ret by (rewrite Hl; zlia).
  set (v := u8 _) in *. set (d := <[_ := v]> _).
  assert (zlen d = 10) as Hd' by (unfold d, zlen in *; by rewrite length_insert).
  destruct (last_used_spec d 10 0 0) as (n & En & Hn); [lia|lia|split_and!; [lia|lia|intros; lia|by left]|].
  unfold WLAN_EID_EXT_CAP_MAX_LEN. change (Z.to_nat 10) with 10%nat. rewrite En, bind_Ret.
  eexists. split; [reflexivity|]. split.
  - split_and!; [done|apply Forall_insert; [done|apply u8_range]|apply Hn..].
  - intros j Hj. unfold d. rewrite has_cap_insert by (rewrite ?Hl; zlia). rewrite (cap_eq j k) by lia.
    destruct (Z.eqb_spec (j / 8) (k / 8)) as [Ej|Ej]; cbn [andb]; [|by rewrite andb_true_r].
    unfold v, has_cap. rewrite testbit_u8, testbit_land_lnot_BIT, Ej, L by zlia. done.
Qed.

(** ** Merging P2P elements *)

Lemma wrs_head m p d m' : wrs m p d = Ret m' -> forall i, Z.of_nat i < p -> m' !! i = m !! i.
Proof.
  unfold wrs. destruct ((0 <=? p) && (p + zlen d <=? zlen m)) eqn:E; [|done]. intros [= <-] i Hi.
  apply andb_true_iff in E as [E1%Z.leb_le E2%Z.leb_le]. unfold zlen in *.
  rewrite lookup_app_l by (rewrite length_take; lia). apply lookup_take_lt. lia.
Qed.

Lemma merge_loop_head m in_ie in_len out' n : forall fuel i out merge_ie len,
  Forall is_u8 m -> 6 <= merge_ie -> zlen m < 4294967000 ->
  merge_loop fuel m in_ie in_len i out merge_ie len = Ret (out', n) ->
  forall j, (j < 6)%nat -> out' !! j = out !! j.
Proof.
  induction fuel as [|fuel IH]; intros i out merge_ie len Hm Hg Hs H j Hj; [done|].
  cbn [merge_loop] in H. destruct (i <? in_len); [|by injection H as <- <-].
  apply bind_Ret_inv in H as (found & _ & H). apply bind_Ret_inv in H as (l & El & H).
  pose proof (rd_u8 _ _ _ Hm El) as Hl. unfold is_u8 in Hl.
  destruct found; [|by eapply IH]. apply bind_Ret_inv in H as (d & Ed & H).
  apply bind_Ret_inv in H as (out1 & Eo & H).
  assert (4 <= l) as Hl4.
  { destruct (Z.le_gt_cases 4 l) as [|Hlt]; [done|]. unfold rds in Ed.
    destruct ((0 <=? in_ie + i + 6) && (0 <=? u32 (l - 4)) && (in_ie + i + 6 + u32 (l - 4) <=? zlen m)) eqn:E; [|done].
    apply andb_true_iff in E as [[E1%Z.leb_le E2%Z.leb_le]%andb_true_iff E3%Z.leb_le]. unfold u32 in *. zlia. }
  assert (6 <= merge_ie + (l - 4)) as Hg' by lia.
  rewrite (IH _ _ _ _ Hm Hg' Hs H j Hj). eapply wrs_head; [exact Eo|]. lia.
Qed.

(** The merged element keeps the length octet zero: nothing stores the length
    at the end of the function. *)
Lemma merge_length_octet_zero m in_ie in_len out out' n :
  Forall is_u8 m -> zlen m < 4294967000 ->
  rtw_p2p_merge_ies m in_ie in_len out = Ret (out', n) -> out' !! 1%nat = Some 0.
Proof.
  intros Hm Hs H. unfold rtw_p2p_merge_ies in H. apply bind_Ret_inv in H as (out1 & E & H).
  rewrite (merge_loop_head _ _ _ _ _ _ _ _ _ _ Hm (Z.le_refl 6) Hs H 1%nat) by lia.
  unfold wrs in E. destruct (_ && _); [|done]. by injection E as <-.
Qed.

(** ** Claims *)

Lemma locate_snoc f pos l e :
  Forall (fun x => f x = false) l -> f e = true -> locate f pos (l ++ [e]) = Some (pos + zlen (encs l), e).
Proof. intros Hl He. rewrite locate_app by done. cbn. by rewrite He. Qed.

(** Writing and reading an element: [rtw_set_ie] appends an element behind
    a well-formed frame and adds its size to the frame length, [rtw_get_ie]
    then finds it in the longer frame with its length, and the bytes behind
    its header are the content written. *)
Theorem ie_write_read pre l free index source frlen :
  is_u8 index -> zlen source < 256 -> 2 + zlen source <= zlen free ->
  Forall (fun e => has_id index e = false) l -> is_u32 (frlen + (zlen source + 2)) ->
  let p := zlen pre + zlen (encs l) in
  let len := zlen (encs l) + (zlen source + 2) in
  exists m',
    rtw_set_ie (pre ++ encs l ++ free) p index (zlen source) source (Some frlen) =
      Ret (m', p + zlen source + 2, Some (frlen + (zlen source + 2))) /\
    zlen m' = zlen (pre ++ encs l ++ free) /\
    rtw_get_ie m' (zlen pre) index len = Ret (Some (p, zlen source)) /\
    rds m' (p + 2) (zlen source) = Ret source.
Proof.
  intros Hi Hs Hf Hl Hu p len. unfold p, len.
  destruct (rtw_set_ie_at (pre ++ encs l) free (zlen pre + zlen (encs l)) index source (Some frlen))
    as (r & E & Hr); [by rewrite zlen_app|done|done|].
  rewrite u8_small in E by done. cbn [option_map] in E. rewrite u32_small in E by done.
  eexists. rewrite app_assoc. split; [exact E|].
  assert (zlen r = zlen free - (2 + zlen source)) as Lr.
  { rewrite Hr. unfold zlen in *. rewrite length_drop. lia. }
  set (e := IE index source). assert (zlen (enc e) = zlen source + 2) as Le by by rewrite zlen_enc.
  assert ((pre ++ encs l) ++ enc e ++ r = pre ++ encs (l ++ [e]) ++ r) as ->
    by (rewrite encs_snoc, <- !app_assoc; done).
  split; [rewrite encs_snoc, !zlen_app; lia|]. split.
  - replace (zlen (encs l) + (zlen source + 2)) with (zlen (encs (l ++ [e]))) by (rewrite encs_snoc, zlen_app; lia).
    rewrite rtw_get_ie_locate, locate_snoc; [done|done|]. apply Z.eqb_refl.
  - replace (pre ++ encs (l ++ [e]) ++ r) with ((pre ++ encs l ++ [index; zlen source]) ++ source ++ r)
      by (rewrite encs_snoc, enc_split, <- !app_assoc; done).
    apply (rds_at _ source r); [|done]. rewrite !zlen_app, !zlen_cons, zlen_nil. lia.
Qed.

Lemma ie_write_read_witness :
  exists m', rtw_set_ie ([7] ++ encs [IE 0 [65]] ++ [0; 0; 0; 0; 0]) 4 3 1 [11] (Some 30) = Ret (m', 7, Some 33) /\
    zlen m' = 9 /\ rtw_get_ie m' 1 3 6 = Ret (Some (4, 1)) /\ rds m' 6 1 = Ret [11].
Proof.
  refine (ie_write_read [7] [IE 0 [65]] [0; 0; 0; 0; 0] 3 [11] 30 _ _ _ _ _); try done.
  apply Forall_cons_2; [done|apply Forall_nil_2].
Defined.

(** C34. Editing refines operations on the sequence of elements, for a sequence
    of whole elements behind [fixed] bytes, with lengths that stay below 2^32.
    [rtw_ies_remove_ie] deletes exactly the matching elements, if every element
    with the id is at least as long as the OUI it is compared with.
    [rtw_ies_update_ie] replaces the content of the first element with the id, if
    that element is not empty, the buffer has room for the difference and memory
    is found; if the element is missing or empty, or if memory is missing and
    all elements with the id have another length, it fails and changes nothing.
    [rtw_ies_add_ie] puts the element in front of the first one with a greater
    id or in place of the first one with the same id, if there is an element,
    the buffer has room and memory is found, and keeps ascending ids ascending.
    [rtw_del_p2p_ie] deletes all P2P elements and clears what they leave, if
    every vendor element has at least four bytes and the sequence at most
    [MAX_IE_SZ].  Each stores the new length and keeps the other elements and the
    bytes in front of them. *)
Theorem ies_edit_refines base fixed l free :
  edited fixed l + 258 <= 4294967296 ->
  (forall eid oui, roomy eid (oui_len oui) l ->
     let f := ex_pred eid oui in
     exists junk, zlen junk = removed_len f l /\
       rtw_ies_remove_ie (base ++ fixed ++ encs l ++ free) (zlen base) (edited fixed l) (zlen fixed) eid oui =
       Ret (if existsb f l then _SUCCESS else _FAIL,
            base ++ fixed ++ encs (ies_without f l) ++ junk ++ free, edited fixed (ies_without f l))) /\
  (forall eid content, zlen content < 256 -> updatable eid l = true ->
     let l' := ies_update eid content l in
     edited fixed l' <= edited fixed l + zlen free ->
     exists free', rtw_ies_update_ie true (base ++ fixed ++ encs l ++ free) (zlen base) (edited fixed l)
       (zlen fixed) eid content (zlen content) = Ret (_SUCCESS, base ++ fixed ++ encs l' ++ free', edited fixed l')) /\
  (forall malloc_ok eid content,
     updatable eid l = false \/
       malloc_ok = false /\ Forall (fun e => has_id eid e = true -> zlen (ie_data e) <> zlen content) l ->
     rtw_ies_update_ie malloc_ok (base ++ fixed ++ encs l ++ free) (zlen base) (edited fixed l) (zlen fixed)
       eid content (zlen content) = Ret (_FAIL, base ++ fixed ++ encs l ++ free, edited fixed l)) /\
  (forall eid content, is_u8 eid -> zlen content < 256 -> l <> [] ->
     let l' := ies_insert eid content l in
     edited fixed l' <= edited fixed l + zlen free ->
     (ascending l -> ascending l') /\
     exists free', rtw_ies_add_ie true (base ++ fixed ++ encs l ++ free) (zlen base) (edited fixed l)
       (zlen fixed) eid content (zlen content) = Ret (_SUCCESS, base ++ fixed ++ encs l' ++ free', edited fixed l')) /\
  (roomy WLAN_EID_VENDOR_SPECIFIC 4 l -> zlen (encs l) <= MAX_IE_SZ ->
     let l' := ies_without (vendor_pred p2p_oui) l in
     rtw_del_p2p_ie (base ++ encs l ++ free) (zlen base) (zlen (encs l)) =
     Ret (base ++ encs l' ++ replicate (Z.to_nat (removed_len (vendor_pred p2p_oui) l)) 0 ++ free, zlen (encs l'))).
Proof.
  intros Hl. split; [|split; [|split; [|split]]].
  - intros eid oui Hr f. destruct (rtw_ies_remove_ie_spec base fixed l free eid oui) as (j & E & Hj); [done|lia|].
    by exists j.
  - intros eid content Hc Hu l' Hf. apply rtw_ies_update_ie_spec; auto; lia.
  - intros malloc_ok eid content Hu. apply rtw_ies_update_ie_refuses; auto; lia.
  - intros eid content He Hc Hn l' Hf. split; [apply ies_insert_ascending|]. apply rtw_ies_add_ie_spec; auto; lia.
  - intros Hr Hm l'. pose proof (encs_count l). apply (del_typed_ie_spec p2p_oui base eq_refl); auto; lia.
Qed.

Lemma ies_edit_refines_witness :
  (exists junk, zlen junk = 3 /\
    rtw_ies_remove_ie ([] ++ [9] ++ encs [IE 0 [65]; IE 3 [6]; IE 42 [0]] ++ [1]) 0 10 1 3 None =
    Ret (_SUCCESS, [] ++ [9] ++ encs [IE 0 [65]; IE 42 [0]] ++ junk ++ [1], 7)) /\
  ascending (ies_insert 3 [6] [IE 0 [65]; IE 42 [0]]).
Proof.
  split.
  - destruct (ies_edit_refines [] [9] [IE 0 [65]; IE 3 [6]; IE 42 [0]] [1] ltac:(done)) as [H _].
    refine (H 3 None _). repeat (apply Forall_cons_2; [done|]). apply Forall_nil_2.
  - destruct (ies_edit_refines [] [9] [IE 0 [65]; IE 42 [0]] [1; 1; 1] ltac:(done)) as (_ & _ & _ & H & _).
    refine (proj1 (H 3 [6] _ _ _ _) _); try done. by repeat constructor.
Defined.

(** A vendor element of two bytes that is not a P2P element is deleted: the OUI is
    compared across its end, with the id and length of the next element. *)
Lemma del_p2p_short_element rest :
  zlen rest = 9 ->
  rtw_del_p2p_ie (encs [IE 221 [0x50; 0x6f]; IE 0x9a rest]) 0 15 = Ret (encs [IE 0x9a rest] ++ [0; 0; 0; 0], 11).
Proof.
  intros Hr. do 9 (destruct rest as [|? rest]; [done|]). destruct rest; [|rewrite !zlen_cons in Hr; pose proof (zlen_nonneg rest); lia].
  vm_compute. reflexivity.
Qed.

(** [rtw_ies_remove_ie] on a frame whose matching element announces more
    bytes than the frame has left: the length of the rest wraps around and the
    move runs out of the buffer. *)
Theorem remove_truncated_element base eid n d :
  is_u8 n -> zlen d < n -> zlen base + 2 + zlen d < 4294967040 ->
  rtw_ies_remove_ie (base ++ eid :: n :: d) (zlen base) (2 + zlen d) 0 eid None = Fault.
Proof. apply remove_truncated_faults. Qed.

Lemma remove_truncated_element_witness :
  rtw_ies_remove_ie ([0; 0] ++ 127 :: 8 :: [1; 2; 3]) 2 5 0 127 None = Fault.
Proof. refine (remove_truncated_element [0; 0] 127 8 [1; 2; 3] _ _ _); done. Defined.

(** Extended capabilities form a set: on a table whose length octet is
    exact, [rtw_add_ext_cap_info] and [rtw_remove_ext_cap_info] add and remove
    one capability, leave the others as they are, and keep the length octet
    equal to the number of bytes in use, for the 80 capabilities the table can
    hold. *)
Theorem ext_cap_set c k :
  ext_cap_ok c -> 0 <= k < 80 ->
  (exists c', rtw_add_ext_cap_info c k = Ret c' /\ ext_cap_ok c' /\
     forall j, 0 <= j -> has_cap c' j = has_cap c j || (j =? k)) /\
  (exists c', rtw_remove_ext_cap_info c k = Ret c' /\ ext_cap_ok c' /\
     forall j, 0 <= j -> has_cap c' j = has_cap c j && negb (j =? k)).
Proof.
  intros Hc Hk. split; [by apply rtw_add_ext_cap_info_spec|by apply rtw_remove_ext_cap_info_spec].
Qed.

Lemma no_caps_ok : ext_cap_ok (ExtCap (replicate 10 0) 0).
Proof.
  split; [done|split; [repeat (apply Forall_cons_2; [done|]); apply Forall_nil_2|]].
  split; [done|split; [|by left]].
  intros j Hj. apply lookup_replicate. unfold WLAN_EID_EXT_CAP_MAX_LEN in *. cbn in Hj. split; [done|lia].
Qed.

Lemma ext_cap_set_witness :
  exists c', rtw_add_ext_cap_info (ExtCap (replicate 10 0) 0) 19 = Ret c' /\ ext_cap_ok c' /\
    forall j, 0 <= j -> has_cap c' j = has_cap (ExtCap (replicate 10 0) 0) j || (j =? 19).
Proof. exact (proj1 (ext_cap_set (ExtCap (replicate 10 0) 0) 19 no_caps_ok ltac:(lia))). Defined.

(** The mesh channel switch parameters are written with the element id 24:
    the literal 0x118 is cut to a byte, so that a search for element 118 in
    the bytes written does not find it. *)
Theorem mesh_ch_switch_id a rest buf_len ttl flags reason precedence :
  8 <= zlen rest ->
  exists rest' d,
    rtw_set_ie_mesh_ch_switch_parm (a ++ rest) (zlen a) buf_len ttl flags reason precedence =
    Ret (a ++ enc (IE 24 d) ++ rest', zlen a + 8, Some (u32 (buf_len + 8))) /\
    rtw_get_ie (a ++ enc (IE 24 d) ++ rest') (zlen a) 118 8 = Ret None.
Proof.
  intros Hl. unfold rtw_set_ie_mesh_ch_switch_parm.
  set (d := [ttl; flags] ++ put_le16 reason ++ put_le16 precedence).
  destruct (rtw_set_ie_at a rest (zlen a) 280 d (Some buf_len)) as (r & E & _); [done|done|exact Hl|].
  exists r, d. change (zlen d) with 6 in E. rewrite <- Z.add_assoc in E. split; [exact E|].
  pose proof (rtw_get_ie_locate a [IE 24 d] r 118) as H. cbn [encs map concat] in H. rewrite app_nil_r in H. exact H.
Qed.

Lemma mesh_ch_switch_id_witness :
  exists rest' d,
    rtw_set_ie_mesh_ch_switch_parm ([] ++ replicate 9 0) 0 0 31 1 0 7 =
    Ret ([] ++ enc (IE 24 d) ++ rest', 8, Some 8) /\
    rtw_get_ie ([] ++ enc (IE 24 d) ++ rest') 0 118 8 = Ret None.
Proof. refine (mesh_ch_switch_id [] (replicate 9 0) 0 31 1 0 7 _). done. Defined.
