(* ===== verification/IeParse.v ===== *)
(** Parsing information elements: [rtw_ieee802_11_parse_elems] and the WPA and
    RSN parsers of src/core/rtw_ieee80211.c.  Pointers into the frame are
    offsets of its buffer, NULL is [None]. *)
From Stdlib Require Import ZArith Lia Bool List.
From stdpp Require Import base tactics list numbers gmap.
From S2P Require Import Prelude ByteBuf IeSearch IeEdit.

(** ** [struct rtw_ieee802_11_elems]

    One constructor per pointer and length pair of the structure, in the
    configuration without mesh, token based transmission and the 6 GHz band. *)
Inductive elem :=
  | e_ssid | e_supp_rates | e_fh_params | e_ds_params | e_cf_params | e_tim | e_ibss_params
  | e_challenge | e_erp_info | e_ext_supp_rates | e_wpa_ie | e_rsn_ie | e_wme | e_wme_tspec
  | e_wps_ie | e_power_cap | e_supp_channels | e_mdie | e_ftie | e_timeout_int
  | e_ht_capabilities | e_ht_operation | e_vendor_ht_cap | e_vht_capabilities | e_vht_operation
  | e_vht_op_mode_notify | e_he_capabilities | e_he_operation | e_rm_en_cap | e_ap_channel_rpt
  | e_country_info.

#[global] Instance elem_eq_dec : EqDecision elem.
Proof. solve_decision. Defined.

(** Address and length of every element found. *)
Definition elems : Type := elem -> option (Z * Z).

Definition no_elems : elems := fun _ => None.

Definition set_elem (es : elems) (k : elem) (pos len : Z) : elems :=
  fun k' => if decide (k' = k) then Some (pos, len) else es k'.

Definition OUI_MICROSOFT : Z := 20722.   (* 0x0050f2 *)
Definition OUI_BROADCOM : Z := 36940.    (* 0x00904c *)
Definition WME_OUI_TYPE : Z := 2.
Definition VENDOR_HT_CAPAB_OUI_TYPE : Z := 51.

(** [rtw_ieee802_11_parse_vendor_specific]: the field a vendor element fills,
    or [None] for the result -1. *)
Definition rtw_ieee802_11_parse_vendor_specific (m : list Z) (pos elen : Z) : outcome (option elem) :=
  if elen <? 4 then mret None
  else
    oui ← RTW_GET_BE24 m pos;
    if oui =? OUI_MICROSOFT then
      t ← rd m (pos + 3);
      if t =? 1 then mret (Some e_wpa_ie)
      else if t =? WME_OUI_TYPE then
        if elen <? 5 then mret None
        else
          s ← rd m (pos + 4);
          if (s =? 0) || (s =? 1) then mret (Some e_wme)
          else if s =? 2 then mret (Some e_wme_tspec)
          else mret None
      else if t =? 4 then mret (Some e_wps_ie)
      else mret None
    else if oui =? OUI_BROADCOM then
      t ← rd m (pos + 3);
      if t =? VENDOR_HT_CAPAB_OUI_TYPE then mret (Some e_vendor_ht_cap) else mret None
    else mret None.

(** [rtw_ieee802_11_parse_ext_elems]: the extension id is read even when the
    element is empty. *)
Definition rtw_ieee802_11_parse_ext_elems (m : list Z) (start : Z) : outcome (option elem) :=
  id ← rd m start;
  if id =? 35 then mret (Some e_he_capabilities)
  else if id =? 36 then mret (Some e_he_operation)
  else mret None.

(** The plain cases of the switch of [rtw_ieee802_11_parse_elems]. *)
Definition elem_of_id (id : Z) : option elem :=
  match id with
  | 0 => Some e_ssid
  | 1 => Some e_supp_rates
  | 2 => Some e_fh_params
  | 3 => Some e_ds_params
  | 4 => Some e_cf_params
  | 5 => Some e_tim
  | 6 => Some e_ibss_params
  | 16 => Some e_challenge
  | 42 => Some e_erp_info
  | 50 => Some e_ext_supp_rates
  | 48 => Some e_rsn_ie
  | 33 => Some e_power_cap
  | 36 => Some e_supp_channels
  | 54 => Some e_mdie
  | 55 => Some e_ftie
  | 56 => Some e_timeout_int
  | 45 => Some e_ht_capabilities
  | 61 => Some e_ht_operation
  | 191 => Some e_vht_capabilities
  | 192 => Some e_vht_operation
  | 199 => Some e_vht_op_mode_notify
  | 70 => Some e_rm_en_cap
  | 51 => Some e_ap_channel_rpt
  | 7 => Some e_country_info
  | _ => None
  end.

(** What one element adds: the field it fills and whether it counts as
    unknown.  An unknown extension element does not count. *)
Definition parse_one (m : list Z) (id pos elen : Z) : outcome (option elem * bool) :=
  if id =? WLAN_EID_VENDOR_SPECIFIC then
    r ← rtw_ieee802_11_parse_vendor_specific m pos elen;
    mret (r, match r with Some _ => false | None => true end)
  else if id =? WLAN_EID_EXTENSION then
    r ← rtw_ieee802_11_parse_ext_elems m pos;
    mret (r, false)
  else
    match elem_of_id id with
    | Some k => mret (Some k, false)
    | None => mret (None, true)
    end.

(** [ParseRes] *)
Inductive ParseRes := ParseOK | ParseUnknown | ParseFailed.

Definition add_elem (es : elems) (r : option elem) (pos elen : Z) : elems :=
  match r with Some k => set_elem es k pos elen | None => es end.

(** [rtw_ieee802_11_parse_elems]: the loop. *)
Fixpoint parse_loop (fuel : nat) (m : list Z) (pos left : Z) (es : elems) (unknown : bool) :
    outcome (ParseRes * elems) :=
  match fuel with
  | O => Timeout
  | S fuel =>
      if 2 <=? left then
        id ← rd m pos;
        elen ← rd m (pos + 1);
        if left - 2 <? elen then mret (ParseFailed, es)
        else
          r ← parse_one m id (pos + 2) elen;
          parse_loop fuel m (pos + 2 + elen) (left - 2 - elen)
            (add_elem es r.1 (pos + 2) elen) (unknown || r.2)
      else if negb (left =? 0) then mret (ParseFailed, es)
      else mret (if unknown then ParseUnknown else ParseOK, es)
  end.

Definition rtw_ieee802_11_parse_elems (m : list Z) (start len : Z) : outcome (ParseRes * elems) :=
  parse_loop (S (Z.to_nat len)) m start len no_elems false.

(** ** WPA *)

Definition WPA_CIPHER_NONE : Z := BIT 0.
Definition WPA_CIPHER_WEP40 : Z := BIT 1.
Definition WPA_CIPHER_WEP104 : Z := BIT 2.
Definition WPA_CIPHER_TKIP : Z := BIT 3.
Definition WPA_CIPHER_CCMP : Z := BIT 4.
Definition WPA_CIPHER_GCMP : Z := BIT 5.
Definition WPA_CIPHER_GCMP_256 : Z := BIT 6.
Definition WPA_CIPHER_CCMP_256 : Z := BIT 7.
Definition WPA_CIPHER_BIP_CMAC_128 : Z := BIT 8.
Definition WPA_CIPHER_BIP_GMAC_128 : Z := BIT 9.
Definition WPA_CIPHER_BIP_GMAC_256 : Z := BIT 10.
Definition WPA_CIPHER_BIP_CMAC_256 : Z := BIT 11.

(** A chain of comparisons with the entries of a table. *)
Fixpoint suite_lookup (tbl : list (list Z * Z)) (m : list Z) (s : Z) : outcome Z :=
  match tbl with
  | [] => mret 0
  | (sel, v) :: tbl =>
      same ← _rtw_memcmp m s sel;
      if (same : bool) then mret v else suite_lookup tbl m s
  end.

(** [rtw_get_wpa_cipher_suite] *)
Definition wpa_suites : list (list Z * Z) :=
  [([0; 80; 242; 0], WPA_CIPHER_NONE); ([0; 80; 242; 1], WPA_CIPHER_WEP40);
   ([0; 80; 242; 2], WPA_CIPHER_TKIP); ([0; 80; 242; 4], WPA_CIPHER_CCMP);
   ([0; 80; 242; 5], WPA_CIPHER_WEP104)].

Definition rtw_get_wpa_cipher_suite (m : list Z) (s : Z) : outcome Z := suite_lookup wpa_suites m s.

(** [rtw_get_rsn_cipher_suite] *)
Definition rsn_suites : list (list Z * Z) :=
  [([0; 15; 172; 0], WPA_CIPHER_NONE); ([0; 15; 172; 1], WPA_CIPHER_WEP40);
   ([0; 15; 172; 2], WPA_CIPHER_TKIP); ([0; 15; 172; 4], WPA_CIPHER_CCMP);
   ([0; 15; 172; 8], WPA_CIPHER_GCMP); ([0; 15; 172; 9], WPA_CIPHER_GCMP_256);
   ([0; 15; 172; 10], WPA_CIPHER_CCMP_256); ([0; 15; 172; 5], WPA_CIPHER_WEP104);
   ([0; 15; 172; 6], WPA_CIPHER_BIP_CMAC_128); ([0; 15; 172; 11], WPA_CIPHER_BIP_GMAC_128);
   ([0; 15; 172; 12], WPA_CIPHER_BIP_GMAC_256); ([0; 15; 172; 13], WPA_CIPHER_BIP_CMAC_256)].

Definition rtw_get_rsn_cipher_suite (m : list Z) (s : Z) : outcome Z := suite_lookup rsn_suites m s.

(** [rtw_get_akm_suite_bitmap] *)
Definition akm_suites : list (list Z * Z) :=
  [([0; 15; 172; 1], BIT 0); ([0; 15; 172; 2], BIT 1); ([0; 15; 172; 3], BIT 2);
   ([0; 15; 172; 4], BIT 3); ([0; 15; 172; 5], BIT 4); ([0; 15; 172; 6], BIT 5);
   ([0; 15; 172; 7], BIT 6); ([0; 15; 172; 8], BIT 7); ([0; 15; 172; 9], BIT 8);
   ([0; 15; 172; 11], BIT 9); ([0; 15; 172; 12], BIT 10); ([0; 15; 172; 14], BIT 11);
   ([0; 15; 172; 15], BIT 12); ([0; 15; 172; 16], BIT 13); ([0; 15; 172; 17], BIT 14)].

Definition rtw_get_akm_suite_bitmap (m : list Z) (s : Z) : outcome Z := suite_lookup akm_suites m s.

(** The union of the suites of a list of [n] selectors at [pos]. *)
Fixpoint or_suites (get : list Z -> Z -> outcome Z) (n : nat) (m : list Z) (pos acc : Z) : outcome Z :=
  match n with
  | O => mret acc
  | S n => v ← get m pos; or_suites get n m (pos + 4) (Z.lor acc v)
  end.

(** What [rtw_parse_wpa_ie] stores through its pointers. *)
Record wpa_result := WpaResult {
  wpa_status : status;
  wpa_group : Z;
  wpa_pairwise : Z;
  wpa_akm : Z;
}.

(** The AKM part, for a non-null [akm]. *)
Definition wpa_parse_akm (m : list Z) (pos left group pairwise akm : Z) : outcome wpa_result :=
  if 6 <=? left then
    same ← _rtw_memcmp m (pos + 2) [0; 80; 242; 1];
    mret (WpaResult _SUCCESS group pairwise (if (same : bool) then BIT 0 else akm))
  else mret (WpaResult _SUCCESS group pairwise akm).

(** The list of pairwise suites. *)
Definition wpa_parse_pairwise (m : list Z) (pos left group pairwise akm : Z) : outcome wpa_result :=
  if 2 <=? left then
    count ← RTW_GET_LE16 m pos;
    if (count =? 0) || (left - 2 <? count * 4) then mret (WpaResult _FAIL group pairwise akm)
    else
      pw ← or_suites rtw_get_wpa_cipher_suite (Z.to_nat count) m (pos + 2) pairwise;
      wpa_parse_akm m (pos + 2 + 4 * count) (left - 2 - 4 * count) group pw akm
  else if left =? 1 then mret (WpaResult _FAIL group pairwise akm)
  else wpa_parse_akm m pos left group pairwise akm.

(** [rtw_parse_wpa_ie]; the values before the call are those the caller
    stored. *)
Definition rtw_parse_wpa_ie (m : list Z) (wpa_ie wpa_ie_len group pairwise akm : Z) :
    outcome wpa_result :=
  let fail := mret (WpaResult _FAIL group pairwise akm) in
  if wpa_ie_len <=? 0 then fail
  else
    b0 ← rd m wpa_ie;
    if negb (b0 =? _WPA_IE_ID_) then fail
    else
      b1 ← rd m (wpa_ie + 1);
      if negb (b1 =? u8 (wpa_ie_len - 2)) then fail
      else
        same ← _rtw_memcmp m (wpa_ie + 2) [0; 80; 242; 1];
        if negb same then fail
        else
          let pos := wpa_ie + 8 in
          let left := wpa_ie_len - 8 in
          if 4 <=? left then
            g ← rtw_get_wpa_cipher_suite m pos;
            wpa_parse_pairwise m (pos + 4) (left - 4) g pairwise akm
          else if 0 <? left then fail
          else wpa_parse_pairwise m pos left group pairwise akm.

(** ** RSN *)

(** [struct rsne_info] *)
Record rsne_info := RsneInfo {
  gcs : option Z;
  pcs_cnt : Z; pcs_list : option Z;
  akm_cnt : Z; akm_list : option Z;
  rsn_cap : option Z;
  pmkid_cnt : Z; pmkid_list : option Z;
  gmcs : option Z;
  rsn_err : bool;
}.

Definition rsne_info0 : rsne_info := RsneInfo None 0 None 0 None None 0 None None false.

Definition rsn_fail (i : rsne_info) : outcome (status * rsne_info) :=
  mret (_FAIL, RsneInfo (gcs i) (pcs_cnt i) (pcs_list i) (akm_cnt i) (akm_list i) (rsn_cap i)
                 (pmkid_cnt i) (pmkid_list i) (gmcs i) true).

Definition rsn_done (i : rsne_info) : outcome (status * rsne_info) := mret (_SUCCESS, i).

(** The element ends inside a field of the given size, or exactly before it. *)
Definition rsn_short (fin pos : Z) (i : rsne_info) : outcome (status * rsne_info) :=
  if negb (fin =? pos) then rsn_fail i else rsn_done i.

(** Group management cipher suite. *)
Definition rsn_parse_gmcs (fin pos : Z) (i : rsne_info) : outcome (status * rsne_info) :=
  if fin <? pos + 4 then rsn_short fin pos i
  else rsn_done (RsneInfo (gcs i) (pcs_cnt i) (pcs_list i) (akm_cnt i) (akm_list i) (rsn_cap i)
                   (pmkid_cnt i) (pmkid_list i) (Some pos) (rsn_err i)).

(** PMKIDs. *)
Definition rsn_parse_pmkid (m : list Z) (fin pos : Z) (i : rsne_info) : outcome (status * rsne_info) :=
  if fin <? pos + 2 then rsn_short fin pos i
  else
    cnt ← RTW_GET_LE16 m pos;
    let pos := pos + 2 in
    if fin <? pos + 16 * cnt then
      if negb (fin =? pos) || negb (cnt =? 0) then rsn_fail i else rsn_done i
    else
      rsn_parse_gmcs fin (pos + 16 * cnt)
        (RsneInfo (gcs i) (pcs_cnt i) (pcs_list i) (akm_cnt i) (akm_list i) (rsn_cap i)
           cnt (Some pos) (gmcs i) (rsn_err i)).

(** RSN capabilities. *)
Definition rsn_parse_cap (m : list Z) (fin pos : Z) (i : rsne_info) : outcome (status * rsne_info) :=
  if fin <? pos + 2 then rsn_short fin pos i
  else
    rsn_parse_pmkid m fin (pos + 2)
      (RsneInfo (gcs i) (pcs_cnt i) (pcs_list i) (akm_cnt i) (akm_list i) (Some pos)
         (pmkid_cnt i) (pmkid_list i) (gmcs i) (rsn_err i)).

(** AKM suites. *)
Definition rsn_parse_akm (m : list Z) (fin pos : Z) (i : rsne_info) : outcome (status * rsne_info) :=
  if fin <? pos + 2 then rsn_short fin pos i
  else
    cnt ← RTW_GET_LE16 m pos;
    let pos := pos + 2 in
    if cnt =? 0 then rsn_fail i
    else if fin <? pos + 4 * cnt then rsn_short fin pos i
    else
      rsn_parse_cap m fin (pos + 4 * cnt)
        (RsneInfo (gcs i) (pcs_cnt i) (pcs_list i) cnt (Some pos) (rsn_cap i)
           (pmkid_cnt i) (pmkid_list i) (gmcs i) (rsn_err i)).

(** Pairwise cipher suites. *)
Definition rsn_parse_pairwise (m : list Z) (fin pos : Z) (i : rsne_info) : outcome (status * rsne_info) :=
  if fin <? pos + 2 then rsn_short fin pos i
  else
    cnt ← RTW_GET_LE16 m pos;
    let pos := pos + 2 in
    if cnt =? 0 then rsn_fail i
    else if fin <? pos + 4 * cnt then rsn_short fin pos i
    else
      rsn_parse_akm m fin (pos + 4 * cnt)
        (RsneInfo (gcs i) cnt (Some pos) (akm_cnt i) (akm_list i) (rsn_cap i)
           (pmkid_cnt i) (pmkid_list i) (gmcs i) (rsn_err i)).

(** Group cipher suite. *)
Definition rsn_parse_group (m : list Z) (fin pos : Z) (i : rsne_info) : outcome (status * rsne_info) :=
  if fin <? pos + 4 then rsn_short fin pos i
  else
    rsn_parse_pairwise m fin (pos + 4)
      (RsneInfo (Some pos) (pcs_cnt i) (pcs_list i) (akm_cnt i) (akm_list i) (rsn_cap i)
         (pmkid_cnt i) (pmkid_list i) (gmcs i) (rsn_err i)).

(** [rtw_rsne_info_parse] *)
Definition rtw_rsne_info_parse (m : list Z) (ie ie_len : Z) : outcome (status * rsne_info) :=
  if ie + ie_len <? ie + 4 then rsn_fail rsne_info0
  else
    b0 ← rd m ie;
    if negb (b0 =? 48) then rsn_fail rsne_info0
    else
      b1 ← rd m (ie + 1);
      if negb (b1 =? u32 (ie_len - 2)) then rsn_fail rsne_info0
      else
        v ← rd m (ie + 2);
        if negb (v =? 1) then rsn_fail rsne_info0
        else rsn_parse_group m (ie + ie_len) (ie + 4) rsne_info0.

(** What [rtw_parse_wpa2_ie] stores through its pointers, all of them given. *)
Record wpa2_result := Wpa2Result {
  w2_group : Z; w2_pairwise : Z; w2_gmcs : Z; w2_akm : Z; w2_mfp : Z; w2_spp : Z;
}.

(** [GET_RSN_CAP_MFP_OPTION] and [GET_RSN_CAP_SPP_OPT] *)
Definition rsn_cap_bits (m : list Z) (cap off : Z) : outcome Z :=
  v ← RTW_GET_LE16 m cap; mret (Z.land (Z.shiftr v off) 3).

Definition opt_read (p : option Z) (dflt : Z) (get : Z -> outcome Z) : outcome Z :=
  match p with Some p => get p | None => mret dflt end.

(** [rtw_parse_wpa2_ie] *)
Definition rtw_parse_wpa2_ie (m : list Z) (rsn_ie rsn_ie_len : Z) : outcome (option wpa2_result) :=
  r ← rtw_rsne_info_parse m rsn_ie rsn_ie_len;
  match r with
  | (_FAIL, _) => mret None
  | (_SUCCESS, i) =>
      g ← opt_read (gcs i) 0 (rtw_get_rsn_cipher_suite m);
      pw ← or_suites rtw_get_rsn_cipher_suite (Z.to_nat (pcs_cnt i)) m (default 0 (pcs_list i)) 0;
      gm ← opt_read (gmcs i) WPA_CIPHER_BIP_CMAC_128 (rtw_get_rsn_cipher_suite m);
      ak ← or_suites rtw_get_akm_suite_bitmap (Z.to_nat (akm_cnt i)) m (default 0 (akm_list i)) 0;
      mfp ← opt_read (rsn_cap i) 0 (fun c => rsn_cap_bits m c 6);
      spp ← opt_read (rsn_cap i) 0 (fun c => rsn_cap_bits m c 10);
      mret (Some (Wpa2Result g pw gm ak mfp spp))
  end.

(** ** [rtw_ieee802_11_parse_elems] on arbitrary bytes *)

(** Every address recorded lies inside the part of the frame parsed, with the
    length recorded with it. *)
Definition spans_ok (lo hi : Z) (es : elems) : Prop :=
  forall k p n, es k = Some (p, n) -> lo <= p /\ 0 <= n /\ p + n <= hi.

Lemma spans_ok_add lo hi es r p n :
  spans_ok lo hi es -> lo <= p -> 0 <= n -> p + n <= hi -> spans_ok lo hi (add_elem es r p n).
Proof.
  intros Hs H1 H2 H3 k q l. destruct r as [k'|]; cbn; [|apply Hs].
  unfold set_elem. destruct (decide (k = k')); [intros [= <- <-]; lia|apply Hs].
Qed.

(** Reads one byte and goes on. *)
Ltac step_rd :=
  match goal with
  | |- context [rd ?m ?p] =>
      let b := fresh "b" in let E := fresh "E" in
      destruct (rd_spec m p) as (b & E & _); [lia|]; rewrite ?E, ?bind_Ret
  end.

Lemma vendor_total m pos elen :
  0 <= pos -> pos + elen <= zlen m ->
  exists r, rtw_ieee802_11_parse_vendor_specific m pos elen = Ret r.
Proof.
  intros H0 Hl. unfold rtw_ieee802_11_parse_vendor_specific.
  destruct (Z.ltb_spec elen 4); [by eexists|]. unfold RTW_GET_BE24. do 4 step_rd.
  destruct (_ =? OUI_MICROSOFT); [|ifs; by eexists].
  destruct (_ =? 1); [by eexists|]. destruct (_ =? WME_OUI_TYPE); [|ifs; by eexists].
  destruct (Z.ltb_spec elen 5); [by eexists|]. step_rd. ifs; by eexists.
Qed.

Lemma parse_one_total m id pos elen :
  0 <= pos -> 0 <= elen -> pos + elen < zlen m -> exists r, parse_one m id pos elen = Ret r.
Proof.
  intros H0 He Hl. unfold parse_one. destruct (id =? WLAN_EID_VENDOR_SPECIFIC).
  - destruct (vendor_total m pos elen) as [r ->]; [lia|lia|]. by eexists.
  - destruct (id =? WLAN_EID_EXTENSION).
    + unfold rtw_ieee802_11_parse_ext_elems. step_rd. ifs; by eexists.
    + destruct (elem_of_id id); by eexists.
Qed.

Lemma parse_loop_bounds m lo : forall fuel pos left es unknown,
  Forall is_u8 m -> 0 <= lo <= pos -> 0 <= left -> pos + left < zlen m -> left < Z.of_nat fuel ->
  spans_ok lo (pos + left) es ->
  returns (parse_loop fuel m pos left es unknown) (fun r => spans_ok lo (pos + left) r.2).
Proof.
  induction fuel as [|fuel IH]; intros pos left es unknown Hm Hp H0 Hl Hf Hs; [lia|].
  cbn [parse_loop]. destruct (Z.leb_spec 2 left); [|by destruct (negb _)].
  destruct (rd_spec m pos) as (b & Eb & _); [lia|]. destruct (rd_spec m (pos + 1)) as (n & En & _); [lia|].
  rewrite Eb, bind_Ret, En, bind_Ret.
  pose proof (rd_u8 _ _ _ Hm En) as Hn. unfold is_u8 in Hn.
  destruct (Z.ltb_spec (left - 2) n); [done|].
  destruct (parse_one_total m b (pos + 2) n) as [r ->]; [lia|lia|lia|]. rewrite bind_Ret.
  replace (pos + left) with (pos + 2 + n + (left - 2 - n)) in * by lia.
  apply IH; auto; try lia. apply spans_ok_add; auto; lia.
Qed.

(** ** [rtw_ieee802_11_parse_elems] on well-formed elements *)

(** What an element is, as a function of the element alone. *)
Definition classify (e : ie) : option elem * bool :=
  match parse_one (ie_data e) (ie_id e) 0 (zlen (ie_data e)) with Ret r => r | _ => (None, true) end.

Definition fills (k : elem) (e : ie) : bool := bool_decide ((classify e).1 = Some k).

(** An extension element carries its extension id. *)
Definition ext_nonempty (l : list ie) : Prop :=
  Forall (fun e => ie_id e = WLAN_EID_EXTENSION -> room 1 e) l.

(** A read inside the content only sees the content. *)
Lemma rd_data pre e rest p q :
  0 <= q < zlen (ie_data e) -> p = zlen pre + 2 + q ->
  rd (pre ++ enc e ++ rest) p = rd (ie_data e) q.
Proof.
  intros Hq ->. rewrite enc_split.
  replace (pre ++ ([ie_id e; zlen (ie_data e)] ++ ie_data e) ++ rest)
    with ((pre ++ [ie_id e; zlen (ie_data e)]) ++ (ie_data e ++ rest)) by (rewrite <- !app_assoc; done).
  replace (zlen pre + 2 + q) with (zlen (pre ++ [ie_id e; zlen (ie_data e)]) + q) by zl.
  rewrite rd_shift by lia. unfold rd, zlen in *. rewrite (proj2 (Z.leb_le _ _)) by lia.
  by rewrite lookup_app_l by lia.
Qed.

Lemma parse_one_local pre e rest :
  (ie_id e = WLAN_EID_EXTENSION -> room 1 e) ->
  parse_one (pre ++ enc e ++ rest) (ie_id e) (zlen pre + 2) (zlen (ie_data e)) = Ret (classify e).
Proof.
  intros Hx.
  enough (parse_one (pre ++ enc e ++ rest) (ie_id e) (zlen pre + 2) (zlen (ie_data e)) =
          parse_one (ie_data e) (ie_id e) 0 (zlen (ie_data e)) /\
          exists r, parse_one (ie_data e) (ie_id e) 0 (zlen (ie_data e)) = Ret r) as [-> [r Hr]].
  { unfold classify. by rewrite Hr. }
  set (n := zlen (ie_data e)) in *. pose proof (zlen_nonneg (ie_data e)).
  unfold parse_one. destruct (ie_id e =? WLAN_EID_VENDOR_SPECIFIC) eqn:E1; [|destruct (Z.eqb_spec (ie_id e) WLAN_EID_EXTENSION) as [E2|E2]].
  - destruct (vendor_total (ie_data e) 0 n) as [r Hr]; [lia|lia|]. rewrite Hr. split; [|by eexists].
    replace (rtw_ieee802_11_parse_vendor_specific (pre ++ enc e ++ rest) (zlen pre + 2) n)
      with (rtw_ieee802_11_parse_vendor_specific (ie_data e) 0 n); [by rewrite Hr|].
    unfold rtw_ieee802_11_parse_vendor_specific. destruct (Z.ltb_spec n 4); [done|].
    unfold RTW_GET_BE24.
    rewrite (rd_data pre e rest (zlen pre + 2) 0), (rd_data pre e rest (zlen pre + 2 + 1) 1),
      (rd_data pre e rest (zlen pre + 2 + 2) 2), (rd_data pre e rest (zlen pre + 2 + 3) 3) by lia.
    destruct (Z.ltb_spec n 5); [done|]. by rewrite (rd_data pre e rest (zlen pre + 2 + 4) 4) by lia.
  - specialize (Hx E2). unfold room in Hx. fold n in Hx. unfold rtw_ieee802_11_parse_ext_elems.
    rewrite (rd_data pre e rest (zlen pre + 2) 0) by lia. split; [done|]. step_rd. ifs; by eexists.
  - split; [done|]. destruct (elem_of_id (ie_id e)); by eexists.
Qed.

Definition span_of (r : Z * ie) : Z * Z := (r.1 + 2, zlen (ie_data r.2)).

Lemma parse_loop_locate post l : forall fuel pre es unknown,
  Forall ie_wf l -> ext_nonempty l -> (length l < fuel)%nat ->
  exists es',
    parse_loop fuel (pre ++ encs l ++ post) (zlen pre) (zlen (encs l)) es unknown =
    Ret (if unknown || existsb (fun e => (classify e).2) l then ParseUnknown else ParseOK, es') /\
    forall k, es' k = or_else (option_map span_of (locate_last (fills k) (zlen pre) l)) (es k).
Proof.
  induction l as [|e l IH]; intros fuel pre es unknown Hw Hx Hf;
    (destruct fuel as [|fuel]; [cbn in Hf; lia|]); cbn [parse_loop].
  - exists es. change (zlen (encs [])) with 0. cbn. by rewrite orb_false_r.
  - apply Forall_cons_1 in Hw as [He Hw]. apply Forall_cons_1 in Hx as [Hxe Hx].
    rewrite encs_len. pose proof (ie_len_pos e). pose proof (zlen_nonneg (encs l)).
    rewrite (proj2 (Z.leb_le _ _)) by lia. rewrite encs_view.
    rewrite (rd_enc_id pre e _ (zlen pre)), bind_Ret, (rd_enc_len pre), bind_Ret by done.
    unfold ie_len. rewrite (proj2 (Z.ltb_ge _ _)) by lia.
    rewrite parse_one_local, bind_Ret by done.
    destruct (IH fuel (pre ++ enc e) (add_elem es (classify e).1 (zlen pre + 2) (zlen (ie_data e)))
      (unknown || (classify e).2)) as (es' & E & Hes); [done|done|cbn [length] in Hf; lia|].
    exists es'. rewrite next_view.
    replace (zlen pre + 2 + zlen (ie_data e)) with (zlen (pre ++ enc e)) by (rewrite next_pos; unfold ie_len; lia).
    replace (zlen (ie_data e) + 2 + zlen (encs l) - 2 - zlen (ie_data e)) with (zlen (encs l)) by lia.
    rewrite E. cbn [existsb]. rewrite orb_assoc. split; [done|]. intros k. rewrite Hes, next_pos.
    rewrite locate_last_cons. destruct (locate_last (fills k) _ l); [done|]. cbn [or_else option_map].
    unfold fills. destruct (classify e) as [[k'|] u]; cbn [fst add_elem].
    + unfold set_elem. destruct (decide (k = k')) as [->|Hk].
      * by rewrite bool_decide_eq_true_2.
      * rewrite bool_decide_eq_false_2 by congruence. done.
    + by rewrite bool_decide_eq_false_2.
Qed.

(** ** [rtw_rsne_info_parse] on arbitrary bytes *)

(** [n] bytes at [p] lie inside the element. *)
Definition within (lo fin n : Z) (p : option Z) : Prop :=
  match p with Some p => lo <= p /\ p + n <= fin | None => True end.

(** Every list found lies inside the element, with the count recorded; a list
    that was not found has count 0. *)
Definition rsn_ok (lo fin : Z) (i : rsne_info) : Prop :=
  within lo fin 4 (gcs i) /\
  (0 <= pcs_cnt i /\ within lo fin (4 * pcs_cnt i) (pcs_list i) /\ (pcs_list i = None -> pcs_cnt i = 0)) /\
  (0 <= akm_cnt i /\ within lo fin (4 * akm_cnt i) (akm_list i) /\ (akm_list i = None -> akm_cnt i = 0)) /\
  within lo fin 2 (rsn_cap i) /\
  (0 <= pmkid_cnt i /\ within lo fin (16 * pmkid_cnt i) (pmkid_list i) /\
   (pmkid_list i = None -> pmkid_cnt i = 0)) /\
  within lo fin 4 (gmcs i).

Definition parse_ok (lo fin : Z) (r : status * rsne_info) : Prop := rsn_ok lo fin r.2.

Lemma rsn_short_ok lo fin pos i : rsn_ok lo fin i -> returns (rsn_short fin pos i) (parse_ok lo fin).
Proof. intros H. unfold rsn_short. by destruct (negb _). Qed.

Lemma rsn_fail_ok lo fin i : rsn_ok lo fin i -> returns (rsn_fail i) (parse_ok lo fin).
Proof. done. Qed.

(** One component of the record changes. *)
Ltac rsn_upd :=
  match goal with H : rsn_ok _ _ _ |- _ => destruct H as (? & (? & ? & ?) & (? & ? & ?) & ? & (? & ? & ?) & ?) end;
  unfold rsn_ok, within in *; cbn; split_and!; try done; try lia.

Section rsn_safe.
Context (m : list Z) (lo fin : Z).
Hypothesis Hm : Forall is_u8 m.
Hypothesis Hlo : 0 <= lo.
Hypothesis Hfin : fin <= zlen m.

Lemma get_le16_in pos :
  0 <= pos -> pos + 2 <= fin -> exists v, RTW_GET_LE16 m pos = Ret v /\ 0 <= v < 65536.
Proof.
  intros H0 Hl. destruct (RTW_GET_LE16_spec m pos Hm) as (a & b & _ & _ & Ha & Hb & ->); [lia|lia|].
  eexists. split; [done|]. unfold is_u8 in *. lia.
Qed.

Lemma rsn_gmcs_ok pos i :
  lo <= pos -> rsn_ok lo fin i -> returns (rsn_parse_gmcs fin pos i) (parse_ok lo fin).
Proof.
  intros Hp Hi. unfold rsn_parse_gmcs.
  destruct (Z.ltb_spec fin (pos + 4)); [by apply rsn_short_ok|]. unfold parse_ok. cbn. rsn_upd.
Qed.

Lemma rsn_pmkid_ok pos i :
  lo <= pos -> rsn_ok lo fin i -> returns (rsn_parse_pmkid m fin pos i) (parse_ok lo fin).
Proof.
  intros Hp Hi. unfold rsn_parse_pmkid.
  destruct (Z.ltb_spec fin (pos + 2)); [by apply rsn_short_ok|].
  destruct (get_le16_in pos) as (v & -> & Hv); [lia|lia|]. rewrite bind_Ret. cbn zeta.
  destruct (Z.ltb_spec fin (pos + 2 + 16 * v)); [by destruct (_ || _)|].
  apply rsn_gmcs_ok; [lia|]. rsn_upd.
Qed.

Lemma rsn_cap_ok pos i :
  lo <= pos -> rsn_ok lo fin i -> returns (rsn_parse_cap m fin pos i) (parse_ok lo fin).
Proof.
  intros Hp Hi. unfold rsn_parse_cap.
  destruct (Z.ltb_spec fin (pos + 2)); [by apply rsn_short_ok|]. apply rsn_pmkid_ok; [lia|]. rsn_upd.
Qed.

Lemma rsn_akm_ok pos i :
  lo <= pos -> rsn_ok lo fin i -> returns (rsn_parse_akm m fin pos i) (parse_ok lo fin).
Proof.
  intros Hp Hi. unfold rsn_parse_akm.
  destruct (Z.ltb_spec fin (pos + 2)); [by apply rsn_short_ok|].
  destruct (get_le16_in pos) as (v & -> & Hv); [lia|lia|]. rewrite bind_Ret. cbn zeta.
  destruct (v =? 0); [by apply rsn_fail_ok|].
  destruct (Z.ltb_spec fin (pos + 2 + 4 * v)); [by apply rsn_short_ok|].
  apply rsn_cap_ok; [lia|]. rsn_upd.
Qed.

Lemma rsn_pairwise_ok pos i :
  lo <= pos -> rsn_ok lo fin i -> returns (rsn_parse_pairwise m fin pos i) (parse_ok lo fin).
Proof.
  intros Hp Hi. unfold rsn_parse_pairwise.
  destruct (Z.ltb_spec fin (pos + 2)); [by apply rsn_short_ok|].
  destruct (get_le16_in pos) as (v & -> & Hv); [lia|lia|]. rewrite bind_Ret. cbn zeta.
  destruct (v =? 0); [by apply rsn_fail_ok|].
  destruct (Z.ltb_spec fin (pos + 2 + 4 * v)); [by apply rsn_short_ok|].
  apply rsn_akm_ok; [lia|]. rsn_upd.
Qed.

Lemma rsn_group_ok pos i :
  lo <= pos -> rsn_ok lo fin i -> returns (rsn_parse_group m fin pos i) (parse_ok lo fin).
Proof.
  intros Hp Hi. unfold rsn_parse_group.
  destruct (Z.ltb_spec fin (pos + 4)); [by apply rsn_short_ok|]. apply rsn_pairwise_ok; [lia|]. rsn_upd.
Qed.

End rsn_safe.

Lemma rsn_ok_init lo fin : rsn_ok lo fin rsne_info0.
Proof. unfold rsn_ok, within. cbn. split_and!; done. Qed.

Lemma rtw_rsne_info_parse_ok m ie ie_len :
  Forall is_u8 m -> 0 <= ie -> ie + ie_len <= zlen m ->
  returns (rtw_rsne_info_parse m ie ie_len) (parse_ok ie (ie + ie_len)).
Proof.
  intros Hm H0 Hl. unfold rtw_rsne_info_parse. pose proof (rsn_ok_init ie (ie + ie_len)) as Hi.
  destruct (Z.ltb_spec (ie + ie_len) (ie + 4)); [by apply rsn_fail_ok|].
  destruct (rd_spec m ie) as (b0 & -> & _); [lia|]. rewrite bind_Ret.
  destruct (negb _); [by apply rsn_fail_ok|].
  destruct (rd_spec m (ie + 1)) as (b1 & -> & _); [lia|]. rewrite bind_Ret.
  destruct (negb _); [by apply rsn_fail_ok|].
  destruct (rd_spec m (ie + 2)) as (b2 & -> & _); [lia|]. rewrite bind_Ret.
  destruct (negb _); [by apply rsn_fail_ok|]. apply rsn_group_ok; auto; lia.
Qed.

(** ** Round trip of an RSN element *)

(** The contents of a complete RSN element. *)
Record rsne := Rsne {
  r_gcs : list Z; r_pcs : list (list Z); r_akm : list (list Z); r_cap : Z;
  r_pmkid : list (list Z); r_gmcs : list Z;
}.

Definition selector (s : list Z) : Prop := zlen s = 4 /\ Forall is_u8 s.

Definition rsne_wf (r : rsne) : Prop :=
  selector (r_gcs r) /\ Forall selector (r_pcs r) /\ r_pcs r <> [] /\
  Forall selector (r_akm r) /\ r_akm r <> [] /\ is_u16 (r_cap r) /\
  Forall (fun k => zlen k = 16 /\ Forall is_u8 k) (r_pmkid r) /\ selector (r_gmcs r).

Definition rsne_body (r : rsne) : list Z :=
  put_le16 1 ++ r_gcs r ++ put_le16 (zlen (r_pcs r)) ++ concat (r_pcs r) ++
  put_le16 (zlen (r_akm r)) ++ concat (r_akm r) ++ put_le16 (r_cap r) ++
  put_le16 (zlen (r_pmkid r)) ++ concat (r_pmkid r) ++ r_gmcs r.

Definition rsne_ie (r : rsne) : ie := IE 48 (rsne_body r).

(** The value a table gives a selector. *)
Fixpoint suite_of (tbl : list (list Z * Z)) (s : list Z) : Z :=
  match tbl with
  | [] => 0
  | (sel, v) :: tbl => if bool_decide (s = sel) then v else suite_of tbl s
  end.

Definition suites_of (tbl : list (list Z * Z)) (l : list (list Z)) (acc : Z) : Z :=
  fold_left (fun a s => Z.lor a (suite_of tbl s)) l acc.

Definition table_ok (tbl : list (list Z * Z)) : Prop := Forall (fun p => length p.1 = 4%nat) tbl.

Lemma suite_lookup_at tbl pre s rest p :
  table_ok tbl -> length s = 4%nat -> p = zlen pre ->
  suite_lookup tbl (pre ++ s ++ rest) p = Ret (suite_of tbl s).
Proof.
  intros Ht Hs ->. induction Ht as [|[sel v] tbl Hsel _ IH]; [done|]. cbn [suite_lookup suite_of].
  cbn in Hsel. rewrite memcmp_at by (first [done | lia]). rewrite bind_Ret.
  destruct (bool_decide (s = sel)); [done|exact IH].
Qed.

Lemma or_suites_at tbl l : forall pre rest acc p,
  table_ok tbl -> Forall (fun s => length s = 4%nat) l -> p = zlen pre ->
  or_suites (suite_lookup tbl) (length l) (pre ++ concat l ++ rest) p acc = Ret (suites_of tbl l acc).
Proof.
  induction l as [|s l IH]; intros pre rest acc p Ht Hl ->; [done|].
  apply Forall_cons_1 in Hl as [Hs Hl]. cbn [length or_suites concat]. rewrite <- app_assoc.
  rewrite suite_lookup_at, bind_Ret by done. rewrite app_assoc. apply IH; auto.
  rewrite zlen_app. unfold zlen. lia.
Qed.

Lemma concat_len n (l : list (list Z)) : Forall (fun s => zlen s = n) l -> zlen (concat l) = n * zlen l.
Proof. induction 1 as [|s l Hs _ IH]; [change (0 = n * 0); lia|]. cbn [concat]. rewrite zlen_app, zlen_cons, Hs, IH. lia. Qed.

Definition i_group (p : Z) : rsne_info := RsneInfo (Some p) 0 None 0 None None 0 None None false.

Definition i_pairwise (i : rsne_info) (n p : Z) : rsne_info :=
  RsneInfo (gcs i) n (Some p) (akm_cnt i) (akm_list i) (rsn_cap i) (pmkid_cnt i) (pmkid_list i) (gmcs i) (rsn_err i).

Definition i_akm (i : rsne_info) (n p : Z) : rsne_info :=
  RsneInfo (gcs i) (pcs_cnt i) (pcs_list i) n (Some p) (rsn_cap i) (pmkid_cnt i) (pmkid_list i) (gmcs i) (rsn_err i).

(** Each stage of the parser on a complete field. *)
Lemma rsn_pairwise_at P S rest n fin pos i :
  pos = zlen P -> 0 < n < 65536 -> zlen S = 4 * n -> pos + 2 + 4 * n <= fin ->
  let m := P ++ put_le16 n ++ S ++ rest in
  rsn_parse_pairwise m fin pos i = rsn_parse_akm m fin (pos + 2 + 4 * n) (i_pairwise i n (pos + 2)).
Proof.
  intros -> Hn HS Hf m. unfold rsn_parse_pairwise, m. rewrite (proj2 (Z.ltb_ge _ _)) by lia.
  rewrite get_put_le16, bind_Ret by (first [done | unfold is_u16; lia]). cbn zeta.
  rewrite (proj2 (Z.eqb_neq _ _)), (proj2 (Z.ltb_ge _ _)) by lia. done.
Qed.

Lemma rsn_akm_at P S rest n fin pos i :
  pos = zlen P -> 0 < n < 65536 -> zlen S = 4 * n -> pos + 2 + 4 * n <= fin ->
  let m := P ++ put_le16 n ++ S ++ rest in
  rsn_parse_akm m fin pos i = rsn_parse_cap m fin (pos + 2 + 4 * n) (i_akm i n (pos + 2)).
Proof.
  intros -> Hn HS Hf m. unfold rsn_parse_akm, m. rewrite (proj2 (Z.ltb_ge _ _)) by lia.
  rewrite get_put_le16, bind_Ret by (first [done | unfold is_u16; lia]). cbn zeta.
  rewrite (proj2 (Z.eqb_neq _ _)), (proj2 (Z.ltb_ge _ _)) by lia. done.
Qed.

Lemma rsn_pmkid_at P S rest n fin pos i :
  pos = zlen P -> 0 <= n < 65536 -> zlen S = 16 * n -> fin = pos + 2 + 16 * n + 4 ->
  rsn_parse_pmkid (P ++ put_le16 n ++ S ++ rest) fin pos i =
  Ret (_SUCCESS, RsneInfo (gcs i) (pcs_cnt i) (pcs_list i) (akm_cnt i) (akm_list i) (rsn_cap i)
                   n (Some (pos + 2)) (Some (pos + 2 + 16 * n)) (rsn_err i)).
Proof.
  intros -> Hn HS Hf. unfold rsn_parse_pmkid. rewrite (proj2 (Z.ltb_ge _ _)) by lia.
  rewrite get_put_le16, bind_Ret by (first [done | unfold is_u16; lia]). cbn zeta.
  rewrite (proj2 (Z.ltb_ge _ _)) by lia. unfold rsn_parse_gmcs. by rewrite (proj2 (Z.ltb_ge _ _)) by lia.
Qed.

(** Where the parts of the element are. *)
Definition rsne_info_of (p : Z) (r : rsne) : rsne_info :=
  let pc := p + 8 in
  let ak := pc + 2 + 4 * zlen (r_pcs r) in
  let cp := ak + 2 + 4 * zlen (r_akm r) in
  let pm := cp + 2 in
  RsneInfo (Some (p + 4)) (zlen (r_pcs r)) (Some (pc + 2)) (zlen (r_akm r)) (Some (ak + 2)) (Some cp)
    (zlen (r_pmkid r)) (Some (pm + 2)) (Some (pm + 2 + 16 * zlen (r_pmkid r))) false.

Lemma selectors_len l : Forall selector l -> zlen (concat l) = 4 * zlen l.
Proof. intros H. apply concat_len. eapply Forall_impl; [exact H|]. by intros s []. Qed.


Lemma rsne_body_len r : rsne_wf r ->
  zlen (rsne_body r) = 18 + 4 * zlen (r_pcs r) + 4 * zlen (r_akm r) + 16 * zlen (r_pmkid r).
Proof.
  intros ([Hg _] & Hp & _ & Ha & _ & _ & Hk & [Hm _]). unfold rsne_body.
  rewrite !zlen_app, !zlen_put, !selectors_len by done.
  rewrite (concat_len 16) by (eapply Forall_impl; [exact Hk|]; by intros s []). lia.
Qed.

Lemma zlen_pos {A} (l : list A) : l <> [] -> 0 < zlen l.
Proof. destruct l; [done|]. intros _. rewrite zlen_cons. zl. Qed.

(** The header and the group suite. *)
Lemma rsne_header_at pre r post :
  rsne_wf r -> zlen (rsne_body r) < 256 ->
  let m := pre ++ enc (rsne_ie r) ++ post in
  rtw_rsne_info_parse m (zlen pre) (ie_len (rsne_ie r)) =
  rsn_parse_pairwise m (zlen pre + ie_len (rsne_ie r)) (zlen pre + 8) (i_group (zlen pre + 4)).
Proof.
  intros Hw Hl m. pose proof (rsne_body_len r Hw) as Hb. pose proof (zlen_nonneg (r_pmkid r)).
  pose proof (zlen_nonneg (r_pcs r)). pose proof (zlen_nonneg (r_akm r)).
  unfold rtw_rsne_info_parse, ie_len, m. cbn [rsne_ie ie_data].
  rewrite (proj2 (Z.ltb_ge _ _)) by lia.
  rewrite (rd_enc_id pre _ _ (zlen pre)), bind_Ret by done. cbn [ie_id rsne_ie].
  rewrite (rd_enc_len pre (rsne_ie r) _ (zlen pre + 1)), bind_Ret by done. cbn [ie_data rsne_ie].
  rewrite u32_small by (unfold is_u32; lia).
  replace (zlen (rsne_body r) =? zlen (rsne_body r) + 2 - 2) with true by (symmetry; apply Z.eqb_eq; lia).
  rewrite (rd_data pre (rsne_ie r) _ (zlen pre + 2) 0) by (cbn [rsne_ie ie_data]; lia).
  cbn [ie_data rsne_ie]. change (rd (rsne_body r) 0) with (Ret 1 : outcome Z). rewrite bind_Ret.
  cbn [negb Z.eqb Pos.eqb]. unfold rsn_parse_group. rewrite (proj2 (Z.ltb_ge _ _)) by lia.
  replace (zlen pre + 4 + 4) with (zlen pre + 8) by lia. done.
Qed.

(** The element split in front of its lists. *)
Definition rsne_head (pre : list Z) (r : rsne) : list Z :=
  pre ++ [48; zlen (rsne_body r)] ++ put_le16 1 ++ r_gcs r.

Lemma rsne_layout pre r post :
  pre ++ enc (rsne_ie r) ++ post =
  rsne_head pre r ++ put_le16 (zlen (r_pcs r)) ++ concat (r_pcs r) ++ put_le16 (zlen (r_akm r)) ++
  concat (r_akm r) ++ put_le16 (r_cap r) ++ put_le16 (zlen (r_pmkid r)) ++ concat (r_pmkid r) ++
  r_gmcs r ++ post.
Proof.
  unfold rsne_head, enc, rsne_ie. cbn [ie_id ie_data]. unfold rsne_body at 2. cbn [app].
  rewrite <- !app_assoc. cbn [app]. by rewrite <- !app_assoc.
Qed.

Lemma rsne_head_len pre r : rsne_wf r -> zlen (rsne_head pre r) = zlen pre + 8.
Proof. intros ([Hg _] & _). unfold rsne_head. rewrite !zlen_app, zlen_put, Hg, !zlen_cons, zlen_nil. lia. Qed.

Lemma rsne_parse_at pre r post :
  rsne_wf r -> zlen (rsne_body r) < 256 ->
  rtw_rsne_info_parse (pre ++ enc (rsne_ie r) ++ post) (zlen pre) (ie_len (rsne_ie r)) =
  Ret (_SUCCESS, rsne_info_of (zlen pre) r).
Proof.
  intros Hw Hl. rewrite rsne_header_at by done. unfold ie_len. cbn [rsne_ie ie_data].
  pose proof (rsne_body_len r Hw) as Hb. pose proof (rsne_head_len pre r Hw) as Hh.
  destruct Hw as (_ & Hp & Hpn & Ha & Han & Hc & Hk & _).
  pose proof (zlen_pos _ Hpn). pose proof (zlen_pos _ Han). pose proof (zlen_nonneg (r_pmkid r)).
  pose proof (selectors_len _ Hp) as Lp. pose proof (selectors_len _ Ha) as La.
  assert (zlen (concat (r_pmkid r)) = 16 * zlen (r_pmkid r)) as Lk.
  { apply concat_len. eapply Forall_impl; [exact Hk|]. by intros s []. }
  rewrite rsne_layout. set (h := rsne_head pre r) in *.
  rewrite rsn_pairwise_at by lia. set (p2 := zlen pre + 8 + 2 + 4 * zlen (r_pcs r)).
  set (P2 := h ++ put_le16 (zlen (r_pcs r)) ++ concat (r_pcs r)).
  assert (zlen P2 = p2) as E2 by (unfold P2, p2; rewrite !zlen_app, zlen_put; lia).
  set (rest2 := put_le16 (r_cap r) ++ _).
  replace (h ++ put_le16 (zlen (r_pcs r)) ++ concat (r_pcs r) ++ put_le16 (zlen (r_akm r)) ++ concat (r_akm r) ++ rest2)
    with (P2 ++ put_le16 (zlen (r_akm r)) ++ concat (r_akm r) ++ rest2) by (unfold P2; rewrite <- !app_assoc; done).
  rewrite rsn_akm_at by (unfold p2 in *; lia). set (p3 := p2 + 2 + 4 * zlen (r_akm r)).
  unfold rsn_parse_cap. rewrite (proj2 (Z.ltb_ge _ _)) by (unfold p3, p2; lia).
  set (P3 := P2 ++ put_le16 (zlen (r_akm r)) ++ concat (r_akm r) ++ put_le16 (r_cap r)).
  assert (zlen P3 = p3 + 2) as E3 by (unfold P3, p3; rewrite !zlen_app, !zlen_put; lia).
  replace (P2 ++ put_le16 (zlen (r_akm r)) ++ concat (r_akm r) ++ rest2)
    with (P3 ++ put_le16 (zlen (r_pmkid r)) ++ concat (r_pmkid r) ++ (r_gmcs r ++ post))
    by (unfold P3, rest2; rewrite <- !app_assoc; done).
  rewrite rsn_pmkid_at by (unfold p3, p2 in *; lia). done.
Qed.

Lemma tables_ok : table_ok rsn_suites /\ table_ok akm_suites /\ table_ok wpa_suites.
Proof. unfold table_ok. split_and!; repeat (apply Forall_cons_2; [reflexivity|]); apply Forall_nil_2. Qed.

Lemma selector_length s : selector s -> length s = 4%nat.
Proof. intros [H _]. unfold zlen in H. lia. Qed.

Lemma selectors_length l : Forall selector l -> Forall (fun s => length s = 4%nat) l.
Proof. intros H. eapply Forall_impl; [exact H|]. apply selector_length. Qed.

Lemma cap_bits_at P v rest p off :
  p = zlen P -> is_u16 v -> 0 <= off ->
  rsn_cap_bits (P ++ put_le16 v ++ rest) p off = Ret ((v / 2 ^ off) mod 4).
Proof.
  intros Hp Hv Ho. unfold rsn_cap_bits. rewrite get_put_le16, bind_Ret by done. unfold mret, outcome_ret.
  f_equal. rewrite Z.shiftr_div_pow2 by done. apply (Z.land_ones _ 2). lia.
Qed.

(** The addresses of [rsne_info_of] hold the parts of the element. *)
Lemma rsne_reads pre r post :
  rsne_wf r ->
  let m := pre ++ enc (rsne_ie r) ++ post in
  let pc := zlen pre + 8 in
  let ak := pc + 2 + 4 * zlen (r_pcs r) in
  let cp := ak + 2 + 4 * zlen (r_akm r) in
  rtw_get_rsn_cipher_suite m (zlen pre + 4) = Ret (suite_of rsn_suites (r_gcs r)) /\
  or_suites rtw_get_rsn_cipher_suite (length (r_pcs r)) m (pc + 2) 0 = Ret (suites_of rsn_suites (r_pcs r) 0) /\
  or_suites rtw_get_akm_suite_bitmap (length (r_akm r)) m (ak + 2) 0 = Ret (suites_of akm_suites (r_akm r) 0) /\
  (forall off, 0 <= off -> rsn_cap_bits m cp off = Ret ((r_cap r / 2 ^ off) mod 4)) /\
  rtw_get_rsn_cipher_suite m (cp + 2 + 2 + 16 * zlen (r_pmkid r)) = Ret (suite_of rsn_suites (r_gmcs r)).
Proof.
  intros Hw m pc ak cp. unfold cp, ak, pc. clear cp ak pc.
  destruct tables_ok as (T1 & T2 & _). pose proof (rsne_head_len pre r Hw) as Hh.
  destruct Hw as (Hg & Hp & _ & Ha & _ & Hc & Hk & Hm).
  pose proof (selectors_len _ Hp) as Lp. pose proof (selectors_len _ Ha) as La.
  assert (zlen (concat (r_pmkid r)) = 16 * zlen (r_pmkid r)) as Lk.
  { apply concat_len. eapply Forall_impl; [exact Hk|]. by intros s []. }
  pose proof (rsne_layout pre r post) as Em. fold m in Em. rewrite Em. set (h := rsne_head pre r) in *.
  split; [|split; [|split; [|split]]].
  - unfold h, rsne_head. rewrite !(app_assoc pre), <- !app_assoc, 2 app_assoc. apply suite_lookup_at;
      [done|by apply selector_length|]. rewrite !zlen_app, zlen_put, !zlen_cons, zlen_nil. lia.
  - rewrite app_assoc. apply or_suites_at; [done|by apply selectors_length|]. rewrite zlen_app, zlen_put. lia.
  - rewrite !(app_assoc h), !(app_assoc (h ++ _)), (app_assoc ((h ++ _) ++ _)). apply or_suites_at;
      [done|by apply selectors_length|]. rewrite !zlen_app, !zlen_put. lia.
  - intros off Ho.
    replace (h ++ _) with ((h ++ put_le16 (zlen (r_pcs r)) ++ concat (r_pcs r) ++ put_le16 (zlen (r_akm r)) ++
      concat (r_akm r)) ++ put_le16 (r_cap r) ++ (put_le16 (zlen (r_pmkid r)) ++ concat (r_pmkid r) ++
      r_gmcs r ++ post)) by (rewrite <- !app_assoc; done).
    apply cap_bits_at; [rewrite !zlen_app, !zlen_put; lia|done|done].
  - rewrite !app_assoc, <- (app_assoc _ (r_gmcs r)). apply suite_lookup_at;
      [done|by apply selector_length|]. rewrite !zlen_app, !zlen_put. lia.
Qed.

(** Round trip of an RSN element: [rtw_parse_wpa2_ie] applied to the
    element built from any group suite, non-empty lists of pairwise and AKM
    suites, capabilities, PMKIDs and group management suite returns the cipher
    of the group suite, the union of the ciphers of the pairwise suites, the
    union of the AKM bits, and the two fields of the capabilities, wherever the
    element lies in the frame. *)
Theorem rsne_roundtrip pre r post :
  rsne_wf r -> zlen (rsne_body r) < 256 ->
  rtw_parse_wpa2_ie (pre ++ enc (rsne_ie r) ++ post) (zlen pre) (ie_len (rsne_ie r)) =
  Ret (Some (Wpa2Result (suite_of rsn_suites (r_gcs r)) (suites_of rsn_suites (r_pcs r) 0)
    (suite_of rsn_suites (r_gmcs r)) (suites_of akm_suites (r_akm r) 0)
    ((r_cap r / 64) mod 4) ((r_cap r / 1024) mod 4))).
Proof.
  intros Hw Hl. unfold rtw_parse_wpa2_ie. rewrite rsne_parse_at, bind_Ret by done.
  destruct (rsne_reads pre r post Hw) as (R1 & R2 & R3 & R4 & R5).
  unfold rsne_info_of. cbn [gcs pcs_cnt pcs_list akm_cnt akm_list rsn_cap gmcs opt_read default from_option id].
  rewrite !to_nat_zlen, R1, bind_Ret, R2, bind_Ret, R5, bind_Ret, R3, bind_Ret, !R4, !bind_Ret by lia. done.
Qed.

Definition wpa2_psk : rsne :=
  Rsne [0; 15; 172; 4] [[0; 15; 172; 4]; [0; 15; 172; 2]] [[0; 15; 172; 2]; [0; 15; 172; 8]] 192 [] [0; 15; 172; 6].

Lemma wpa2_psk_wf : rsne_wf wpa2_psk.
Proof.
  assert (forall n, is_u8 n -> selector [0; 15; 172; n]) as Hs.
  { intros n Hn. split; [done|]. repeat (apply Forall_cons_2; [done|]). apply Forall_nil_2. }
  unfold rsne_wf. cbn. split_and!; try done; repeat (apply Forall_cons_2 || apply Forall_nil_2); by apply Hs.
Qed.

Lemma rsne_roundtrip_witness :
  zlen (rsne_body wpa2_psk) = 34 /\
  rtw_parse_wpa2_ie ([7; 7] ++ enc (rsne_ie wpa2_psk) ++ [9]) 2 36 =
  Ret (Some (Wpa2Result 16 24 256 130 3 0)).
Proof.
  split; [reflexivity|]. exact (rsne_roundtrip [7; 7] wpa2_psk [9] wpa2_psk_wf eq_refl).
Defined.

(** C35. Safety of the RSN parser on arbitrary bytes: [rtw_rsne_info_parse]
    comes back without reading outside the element it is given, whatever the
    bytes are, and every address it stores lies inside that element together
    with as many selectors or keys as the count stored with it; a list that is
    not stored has count zero. *)
Theorem rsne_parse_safe m ie ie_len :
  Forall is_u8 m -> 0 <= ie -> ie + ie_len <= zlen m ->
  returns (rtw_rsne_info_parse m ie ie_len) (fun r => rsn_ok ie (ie + ie_len) r.2).
Proof. apply rtw_rsne_info_parse_ok. Qed.

Definition cut_rsne : list Z := [48; 12; 1; 0; 0; 15; 172; 4; 9; 0; 0; 15; 172; 4].

Lemma rsne_parse_safe_witness :
  returns (rtw_rsne_info_parse cut_rsne 0 14) (fun r => rsn_ok 0 14 r.2) /\
  rtw_rsne_info_parse cut_rsne 0 14 =
  Ret (_FAIL, RsneInfo (Some 4) 0 None 0 None None 0 None None true).
Proof.
  split; [|reflexivity]. apply (rsne_parse_safe cut_rsne 0 14); [|done|done].
  repeat (apply Forall_cons_2; [done|]). apply Forall_nil_2.
Defined.

(** [rtw_ieee802_11_parse_elems] on any bytes: with one readable byte
    behind the frame it comes back without leaving the buffer, and every
    element it records lies inside the frame.  On a well-formed frame it
    records for every field the last element that fills it, and reports
    unknown elements exactly when there is one. *)
Theorem parse_elems_sound :
  (forall m start len,
     Forall is_u8 m -> 0 <= start -> 0 <= len -> start + len < zlen m ->
     returns (rtw_ieee802_11_parse_elems m start len) (fun r => spans_ok start (start + len) r.2)) /\
  (forall pre l post,
     Forall ie_wf l -> ext_nonempty l ->
     exists es,
       rtw_ieee802_11_parse_elems (pre ++ encs l ++ post) (zlen pre) (zlen (encs l)) =
       Ret (if existsb (fun e => (classify e).2) l then ParseUnknown else ParseOK, es) /\
       forall k, es k = option_map span_of (locate_last (fills k) (zlen pre) l)).
Proof.
  split.
  - intros m start len Hm H0 Hn Hl. apply parse_loop_bounds; auto; try lia. intros k p n. done.
  - intros pre l post Hw Hx. pose proof (encs_count l).
    destruct (parse_loop_locate post l (S (Z.to_nat (zlen (encs l)))) pre no_elems false Hw Hx) as (es & E & He); [lia|].
    exists es. split; [exact E|]. intros k. rewrite He. by destruct (option_map _ _).
Qed.

(** A beacon with an SSID, a DSSS parameter set and an element nobody knows. *)
Definition three_elements : list ie := [IE 0 [97; 98]; IE 3 [6]; IE 250 []].

Lemma parse_elems_sound_witness :
  returns (rtw_ieee802_11_parse_elems [0; 9; 97; 98; 3; 1] 0 5) (fun r => spans_ok 0 (0 + 5) r.2) /\
  exists es,
    rtw_ieee802_11_parse_elems ([] ++ encs three_elements ++ []) 0 (zlen (encs three_elements)) =
    Ret (if existsb (fun e => (classify e).2) three_elements then ParseUnknown else ParseOK, es) /\
    forall k, es k = option_map span_of (locate_last (fills k) 0 three_elements).
Proof.
  split.
  - apply (proj1 parse_elems_sound); [|done|done|done].
    repeat (apply Forall_cons_2; [done|]). apply Forall_nil_2.
  - apply (proj2 parse_elems_sound []).
    + repeat (apply Forall_cons_2; [split; [done|]; split; [repeat (apply Forall_cons_2; [done|]); apply Forall_nil_2|done]|]).
      apply Forall_nil_2.
    + repeat (apply Forall_cons_2; [done|]). apply Forall_nil_2.
Defined.

(** A frame that ends with an empty extension element: the extension id is
    read behind the frame. *)
Lemma empty_extension_overread pre l :
  Forall ie_wf l -> ext_nonempty l ->
  rtw_ieee802_11_parse_elems (pre ++ encs (l ++ [IE WLAN_EID_EXTENSION []])) (zlen pre)
    (zlen (encs (l ++ [IE WLAN_EID_EXTENSION []]))) = Fault.
Proof.
  intros Hw Hx. unfold rtw_ieee802_11_parse_elems. pose proof (encs_count (l ++ [IE WLAN_EID_EXTENSION []])) as Hc.
  rewrite length_app in Hc. cbn [length] in Hc. set (fuel := S _).
  assert (length l + 1 < fuel)%nat as Hf by (unfold fuel; lia). clearbody fuel. clear Hc.
  generalize no_elems false. revert pre fuel Hf.
  induction Hw as [|e l He Hw IH]; intros pre fuel Hf es u; (destruct fuel as [|fuel]; [lia|]).
  - cbn [app encs map concat parse_loop]. rewrite app_nil_r. change (zlen (enc _)) with 2. cbn [Z.leb Z.compare].
    change (enc (IE WLAN_EID_EXTENSION [])) with [255; 0].
    rewrite (rd_at pre 255 [0] (zlen pre)), bind_Ret by done.
    replace (pre ++ [255; 0]) with ((pre ++ [255]) ++ [0]) by by rewrite <- app_assoc.
    rewrite (rd_at (pre ++ [255])), bind_Ret by zl. cbn [Z.sub Z.ltb Z.compare Z.add Z.opp Z.pos_sub].
    unfold parse_one. cbn [Z.eqb Pos.eqb]. change (255 =? WLAN_EID_VENDOR_SPECIFIC) with false.
    change (255 =? WLAN_EID_EXTENSION) with true. unfold rtw_ieee802_11_parse_ext_elems.
    by rewrite rd_fault by zl.
  - apply Forall_cons_1 in Hx as [Hxe Hx]. cbn [app parse_loop].
    rewrite encs_len. pose proof (ie_len_pos e). pose proof (zlen_nonneg (encs (l ++ [IE WLAN_EID_EXTENSION []]))).
    rewrite (proj2 (Z.leb_le _ _)) by lia. rewrite encs_cons.
    rewrite (rd_enc_id pre e _ (zlen pre)), bind_Ret, (rd_enc_len pre e _ (zlen pre + 1)), bind_Ret by done.
    unfold ie_len. rewrite (proj2 (Z.ltb_ge _ _)) by lia. rewrite parse_one_local, bind_Ret by done.
    rewrite next_view.
    replace (zlen pre + 2 + zlen (ie_data e)) with (zlen (pre ++ enc e)) by (rewrite next_pos; unfold ie_len; lia).
    match goal with |- parse_loop _ _ _ ?x _ _ = _ => replace x with (zlen (encs (l ++ [IE WLAN_EID_EXTENSION []]))) by lia end.
    apply IH; [done|cbn [length] in Hf; lia].
Qed.
