(* ===== verification/IeRates.v ===== *)
(** Rates: the supported-rates elements and the rate tables of
    src/core/rtw_ieee80211.c and src/core/rtw_wlan_util.c, with the frame
    helpers of the same file. *)
From Stdlib Require Import ZArith Lia Bool List.
From stdpp Require Import base tactics list numbers gmap.
From S2P Require Import Prelude ByteBuf IeSearch IeEdit.

(** [enum wlan_mode] *)
Definition WLAN_MD_INVALID : Z := 0.
Definition WLAN_MD_11B : Z := 1.
Definition WLAN_MD_11A : Z := 2.
Definition WLAN_MD_11G : Z := 4.
Definition WLAN_MD_11BG : Z := 5.
Definition WLAN_MD_11AN : Z := 10.
Definition WLAN_MD_11BGN : Z := 13.
Definition WLAN_MD_11ABGN : Z := 15.
Definition WLAN_MD_5G_MIX : Z := 58.
Definition WLAN_MD_24G_MIX : Z := 61.
Definition WLAN_MD_MAX : Z := 63.

Definition BAND_ON_6G : Z := 2.
Definition IEEE80211_BASIC_RATE_MASK : Z := 128.
Definition _SUPPORTEDRATES_IE_ : Z := 1.
Definition _EXT_SUPPORTEDRATES_IE_ : Z := 50.
Definition NDIS_802_11_LENGTH_RATES_EX : Z := 16.

Definition WIFI_CCKRATES : list Z := [130; 132; 139; 150].
Definition WIFI_OFDMRATES : list Z := [12; 18; 24; 36; 48; 72; 96; 108].
Definition rtw_basic_rate_ofdm : list Z := [140; 152; 176].

(** A rate of the table, the basic bit aside. *)
Definition rate_in (tbl : list Z) (rate : Z) : bool :=
  existsb (fun r => Z.land r 127 =? Z.land rate 127) tbl.

Definition rtw_is_cck_rate (rate : Z) : bool := rate_in WIFI_CCKRATES rate.

Definition rtw_is_ofdm_rate (rate : Z) : bool := rate_in WIFI_OFDMRATES rate.

Definition rtw_is_basic_rate_ofdm (rate : Z) : bool := rate_in rtw_basic_rate_ofdm rate.

(** ** Rate sets *)

(** The comparison of the CCK predicates. *)
Definition is_cck_value (r : Z) : bool :=
  let v := Z.land r 127 in (v =? 2) || (v =? 4) || (v =? 11) || (v =? 22).

(** [rtw_get_bit_value_from_ieee_value] *)
Fixpoint bit_value_loop (tbl : list Z) (i val : Z) : Z :=
  match tbl with
  | [] => 0
  | r :: tbl => if r =? val then BIT i else bit_value_loop tbl (i + 1) val
  end.

Definition dot11_rate_table : list Z := [2; 4; 11; 22; 12; 18; 24; 36; 48; 72; 96; 108].

Definition rtw_get_bit_value_from_ieee_value (val : Z) : Z := bit_value_loop dot11_rate_table 0 val.

(** [rtw_get_cckrate_size] *)
Fixpoint cckrate_size_loop (n : nat) (m : list Z) (rate i : Z) : outcome Z :=
  match n with
  | O => mret i
  | S n =>
      r ← rd m (rate + i);
      if is_cck_value r then cckrate_size_loop n m rate (i + 1) else mret i
  end.

Definition rtw_get_cckrate_size (m : list Z) (rate rate_length : Z) : outcome Z :=
  cckrate_size_loop (Z.to_nat rate_length) m rate 0.

(** [rtw_is_cckrates_included] and [rtw_is_cckratesonly_included]: up to the
    first zero. *)
Fixpoint cckrates_included_loop (fuel : nat) (m : list Z) (rate i : Z) : outcome bool :=
  match fuel with
  | O => Timeout
  | S fuel =>
      r ← rd m (rate + i);
      if r =? 0 then mret false
      else if is_cck_value r then mret true
      else cckrates_included_loop fuel m rate (i + 1)
  end.

Definition rtw_is_cckrates_included (m : list Z) (rate : Z) : outcome bool :=
  cckrates_included_loop (S (length m)) m rate 0.

Fixpoint cckratesonly_loop (fuel : nat) (m : list Z) (rate i : Z) : outcome bool :=
  match fuel with
  | O => Timeout
  | S fuel =>
      r ← rd m (rate + i);
      if r =? 0 then mret true
      else if negb (is_cck_value r) then mret false
      else cckratesonly_loop fuel m rate (i + 1)
  end.

Definition rtw_is_cckratesonly_included (m : list Z) (rate : Z) : outcome bool :=
  cckratesonly_loop (S (length m)) m rate 0.

(** [rtw_check_network_type] *)
Definition rtw_check_network_type (m : list Z) (rate channel : Z) : outcome Z :=
  if 14 <? channel then
    c ← rtw_is_cckrates_included m rate;
    mret (if (c : bool) then WLAN_MD_INVALID else WLAN_MD_11A)
  else
    o ← rtw_is_cckratesonly_included m rate;
    if (o : bool) then mret WLAN_MD_11B
    else
      c ← rtw_is_cckrates_included m rate;
      mret (if (c : bool) then WLAN_MD_11BG else WLAN_MD_11G).

(** Sixteen bytes, the first ones given. *)
Definition rates_ex (l : list Z) : list Z := l ++ replicate (16 - length l) 0.

(** [rtw_set_supported_rate] *)
Definition rtw_set_supported_rate (mode ch band : Z) : list Z :=
  if (14 <? ch) || (band =? BAND_ON_6G) then rates_ex WIFI_OFDMRATES
  else
    let cck := if negb (Z.land mode WLAN_MD_11B =? 0) then WIFI_CCKRATES else [] in
    let ofdm := if negb (Z.land mode (Z.lnot WLAN_MD_11B) =? 0) then WIFI_OFDMRATES else [] in
    rates_ex (cck ++ ofdm).

(** [rtw_get_rateset_len] *)
Fixpoint rateset_len_loop (fuel : nat) (m : list Z) (i : Z) : outcome Z :=
  match fuel with
  | O => Timeout
  | S fuel =>
      r ← rd m i;
      if r =? 0 then mret i
      else if 12 <? i then mret i
      else rateset_len_loop fuel m (i + 1)
  end.

Definition rtw_get_rateset_len (m : list Z) : outcome Z := rateset_len_loop 15 m 0.

(** ** Filtering the supported rates of a frame *)

(** Which rates are kept. *)
Inductive rate_class := keep_CCK | keep_OFDM.

Definition keeps (keep : rate_class) (r : Z) : bool :=
  match keep with keep_CCK => rtw_is_cck_rate r | keep_OFDM => rtw_is_ofdm_rate r end.

(** The value stored for a rate kept. *)
Definition kept_value (r : Z) : Z :=
  if rtw_is_basic_rate_ofdm r then Z.lor r IEEE80211_BASIC_RATE_MASK else r.

(** The loop of [rtw_filter_suppport_rateie] over the rates of the element at
    [p]: [new_rate] has sixteen bytes. *)
Fixpoint filter_loop (n : nat) (m : list Z) (p i idx : Z) (keep : rate_class) (new_rate : list Z) :
    outcome (list Z * Z) :=
  match n with
  | O => mret (new_rate, idx)
  | S n =>
      r ← rd m (p + i + 2);
      if keeps keep r then
        nr ← wr new_rate idx (kept_value r);
        filter_loop n m p (i + 1) (idx + 1) keep nr
      else filter_loop n m p (i + 1) idx keep new_rate
  end.

(** [rtw_filter_suppport_rateie] *)
Definition rtw_filter_suppport_rateie (b : WLAN_BSSID_EX) (keep : rate_class) : outcome WLAN_BSSID_EX :=
  r ← rtw_get_ie (IEs b) _BEACON_IE_OFFSET_ _SUPPORTEDRATES_IE_ (u32 (IELength b - _BEACON_IE_OFFSET_));
  match r with
  | None => mret b
  | Some (p, ie_orilen) =>
      f ← filter_loop (Z.to_nat ie_orilen) (IEs b) p 0 0 keep (replicate 16 0);
      let '(new_rate, idx) := f in
      m1 ← wr (IEs b) (p + 1) idx;
      d ← rds new_rate 0 idx;
      m2 ← wrs m1 (p + 2) d;
      let remain_ies := p + 2 + ie_orilen in
      let remain_len := u32 (IELength b - remain_ies) in
      m3 ← _rtw_memmove m2 (p + 2 + idx) remain_ies remain_len;
      mret (set_IEs b (u32 (IELength b - (ie_orilen - idx))) m3)
  end.

(** [rtw_update_rate_bymode]: the length is read once, before the supported
    rates are filtered. *)
Definition rtw_update_rate_bymode (b : WLAN_BSSID_EX) (mode : Z) : outcome (WLAN_BSSID_EX * Z) :=
  let network_ielen := IELength b in
  r ← (if mode =? WLAN_MD_11B then
         b1 ← rtw_filter_suppport_rateie b keep_CCK;
         e ← rtw_get_ie (IEs b1) _BEACON_IE_OFFSET_ _EXT_SUPPORTEDRATES_IE_
               (u32 (IELength b1 - _BEACON_IE_OFFSET_));
         match e with
         | Some (_, ie_len) =>
             w ← rtw_ies_remove_ie (IEs b1) 0 network_ielen _BEACON_IE_OFFSET_ _EXT_SUPPORTEDRATES_IE_ None;
             let '(_, m1, _) := w in
             mret (set_IEs b1 (u32 (IELength b1 - ie_len)) m1, WLAN_MD_11B)
         | None => mret (b1, WLAN_MD_11B)
         end
       else if 14 <? DSConfig b then
         b1 ← rtw_filter_suppport_rateie b keep_OFDM; mret (b1, WLAN_MD_11A)
       else if Z.land mode WLAN_MD_11B =? 0 then
         b1 ← rtw_filter_suppport_rateie b keep_OFDM; mret (b1, WLAN_MD_11G)
       else mret (b, WLAN_MD_11BG));
  let '(b1, network_type) := r in
  mret (set_rates b1 (rtw_set_supported_rate network_type (DSConfig b1) (BssBand b1)), network_type).

(** ** The IBSS frame *)

(** What [rtw_generate_ie] reads of the registry and of the network. *)
Record ibss_conf := IbssConf {
  ic_wireless_mode : Z; ic_short_preamble : bool; ic_privacy : bool; ic_ssid : list Z;
  ic_beacon_period : Z; ic_ds : Z; ic_band : Z; ic_atim : Z;
}.

(** The mode the rates are chosen for. *)
Definition ibss_mode (c : ibss_conf) : Z :=
  if ic_wireless_mode c =? WLAN_MD_11ABGN then
    if 14 <? ic_ds c then WLAN_MD_11AN else WLAN_MD_11BGN
  else if ic_wireless_mode c =? WLAN_MD_MAX then
    if 14 <? ic_ds c then WLAN_MD_5G_MIX else WLAN_MD_24G_MIX
  else ic_wireless_mode c.

(** [rtw_set_ie] with the frame length threaded. *)
Definition put_ie (st : list Z * Z * Z) (index len : Z) (source : list Z) : outcome (list Z * Z * Z) :=
  let '(m, ie, sz) := st in
  w ← rtw_set_ie m ie index len source (Some sz);
  let '(m1, ie1, sz1) := w in mret (m1, ie1, default sz sz1).

(** [rtw_generate_ie]: the buffer, the length, the supported rates. *)
Definition rtw_generate_ie (c : ibss_conf) (m : list Z) : outcome (list Z * Z * list Z) :=
  m1 ← RTW_PUT_LE16 m 8 (ic_beacon_period c);
  let cap := Z.lor (BIT 1) (Z.lor (if ic_short_preamble c then BIT 5 else 0)
                              (if ic_privacy c then BIT 4 else 0)) in
  m2 ← RTW_PUT_LE16 m1 10 cap;
  s1 ← put_ie (m2, 12, 12) 0 (zlen (ic_ssid c)) (ic_ssid c);
  let rates := rtw_set_supported_rate (u8 (ibss_mode c)) (ic_ds c) (ic_band c) in
  rateLen ← rtw_get_rateset_len rates;
  s2 ← (if 8 <? rateLen then put_ie s1 _SUPPORTEDRATES_IE_ 8 rates
        else put_ie s1 _SUPPORTEDRATES_IE_ rateLen rates);
  s3 ← put_ie s2 3 1 [u8 (ic_ds c)];
  s4 ← put_ie s3 6 2 (put_le16 (ic_atim c));
  s5 ← (if 8 <? rateLen then put_ie s4 _EXT_SUPPORTEDRATES_IE_ (rateLen - 8) (drop 8 rates) else mret s4);
  let '(m', _, sz) := s5 in mret (m', sz, rates).

(** ** Rate sections *)

(** [mgn_rate_to_rs]; sections are numbered as in [RATE_SECTION]. *)
Definition RATE_SECTION_NUM : Z := 18.

Definition mgn_rate_to_rs (rate : Z) : Z :=
  let between lo hi := (lo <=? rate) && (rate <=? hi) in
  if (rate =? 2) || (rate =? 4) || (rate =? 11) || (rate =? 22) then 0
  else if between 12 108 && negb (rate =? 22) then 1
  else if between 128 135 then 2
  else if between 136 143 then 3
  else if between 144 151 then 4
  else if between 152 159 then 5
  else if between 160 169 then 6
  else if between 170 179 then 7
  else if between 180 189 then 8
  else if between 190 199 then 9
  else RATE_SECTION_NUM.

(** [rates_by_sections]: number of streams and rates of every section. *)
Definition consecutive (first : Z) (n : nat) : list Z := map (fun i => first + Z.of_nat i) (seq 0 n).

Definition rates_by_sections : list (Z * list Z) :=
  [(1, [2; 4; 11; 22]); (1, [12; 18; 24; 36; 48; 72; 96; 108]);
   (1, consecutive 128 8); (2, consecutive 136 8); (3, consecutive 144 8); (4, consecutive 152 8);
   (1, consecutive 160 10); (2, consecutive 170 10); (3, consecutive 180 10); (4, consecutive 190 10);
   (1, consecutive 208 12); (2, consecutive 220 12); (3, consecutive 232 12); (4, consecutive 244 12);
   (1, [208; 209; 211; 212]); (2, [220; 221; 223; 224]); (3, [232; 233; 235; 236]); (4, [244; 245; 247; 248])].

(** ** HT rates *)

(** [rtw_ht_mcsset_to_nss] *)
Definition rtw_ht_mcsset_to_nss (s0 s1 s2 s3 : Z) : Z :=
  if negb (s3 =? 0) then 4 else if negb (s2 =? 0) then 3 else if negb (s1 =? 0) then 2 else 1.

(** [rtw_ht_mcs_set_to_bitmap] *)
Fixpoint mcs_bitmap_loop (n : nat) (m : list Z) (i bitmap : Z) : outcome Z :=
  match n with
  | O => mret bitmap
  | S n =>
      b ← rd m i;
      mcs_bitmap_loop n m (i + 1) (u32 (Z.lor bitmap (Z.shiftl b (i * 8))))
  end.

Definition rtw_ht_mcs_set_to_bitmap (m : list Z) (nss : Z) : outcome Z :=
  mcs_bitmap_loop (Z.to_nat nss) m 0 0.

(** One line of [rtw_ht_mcs_rate]. *)
Definition pick (bw_40MHz short_GI : bool) (a b c d : Z) : Z :=
  if bw_40MHz then if short_GI then a else b else if short_GI then c else d.

(** The tests of the eight bits of one byte, from bit 7 down. *)
Fixpoint first_bit (b : Z) (l : list (Z * Z)) : Z :=
  match l with
  | [] => 0
  | (i, v) :: l => if negb (Z.land b (BIT i) =? 0) then v else first_bit b l
  end.

(** [rtw_ht_mcs_rate], in units of 100 kbit/s. *)
Definition rtw_ht_mcs_rate (bw sgi : bool) (m0 m1 m2 m3 : Z) : Z :=
  let p := pick bw sgi in
  if negb (m3 =? 0) then
    first_bit m3 [(7, p 6000 5400 2889 2600); (6, p 5400 4860 2600 2340); (5, p 4800 4320 2311 2080);
                  (4, p 3600 3240 1733 1560); (3, p 2400 2160 1156 1040); (2, p 1800 1620 867 780);
                  (1, p 1200 1080 578 520); (0, p 600 540 289 260)]
  else if negb (m2 =? 0) then
    first_bit m2 [(7, p 4500 4050 2167 1950); (6, p 4050 3645 1950 1750); (5, p 3600 3240 1733 1560);
                  (4, p 2700 2430 1300 1170); (3, p 1800 1620 867 780); (2, p 1350 1215 650 585);
                  (1, p 900 810 433 390); (0, p 450 405 217 195)]
  else if negb (m1 =? 0) then
    first_bit m1 [(7, p 3000 2700 1444 1300); (6, p 2700 2430 1300 1170); (5, p 2400 2160 1156 1040);
                  (4, p 1800 1620 867 780); (3, p 1200 1080 578 520); (2, p 900 810 433 390);
                  (1, p 600 540 289 260); (0, p 300 270 144 130)]
  else
    first_bit m0 [(7, p 1500 1350 722 650); (6, p 1350 1215 650 585); (5, p 1200 1080 578 520);
                  (4, p 900 810 433 390); (3, p 600 540 289 260); (2, p 450 405 217 195);
                  (1, p 300 270 144 130); (0, p 150 135 72 65)].

(** ** Frames *)

(** [ieee80211_is_empty_essid] *)
Fixpoint essid_zero (n : nat) (m : list Z) (essid : Z) : outcome bool :=
  match n with
  | O => mret true
  | S n =>
      c ← rd m (essid + Z.of_nat n);
      if negb (c =? 0) then mret false else essid_zero n m essid
  end.

Definition ieee80211_is_empty_essid (m : list Z) (essid essid_len : Z) : outcome bool :=
  one ← (if essid_len =? 1 then c ← rd m essid; mret (c =? 32) else mret false);
  if (one : bool) then mret true else essid_zero (Z.to_nat essid_len) m essid.

(** [ieee80211_get_hdrlen] *)
Definition ieee80211_get_hdrlen (fc : Z) : Z :=
  let type := Z.land fc 12 in
  if type =? 8 then
    24 + (if negb (Z.land fc 128 =? 0) then 2 else 0) +
    (if negb (Z.land fc 512 =? 0) && negb (Z.land fc 256 =? 0) then 6 else 0)
  else if type =? 4 then
    let stype := Z.land fc 240 in
    if (stype =? 192) || (stype =? 208) then 10 else 16
  else 24.

(** [rtw_action_frame_parse]: category and action. *)
Definition ACT_PUBLIC_MAX : Z := 16.

Definition rtw_action_frame_parse (m : list Z) (frame : Z) : outcome (option (Z * Z)) :=
  fc ← RTW_GET_LE16 m frame;
  if negb (Z.land fc 252 =? 208) then mret None
  else
    c ← rd m (frame + 24);
    if c =? 127 then mret (Some (c, ACT_PUBLIC_MAX))
    else a ← rd m (frame + 25); mret (Some (c, a)).

(** [rtw_check_amsdu_disable] *)
Definition rtw_check_amsdu_disable (mode spp_opt : Z) : bool :=
  if (mode =? 0) && negb (Z.land spp_opt (BIT 1) =? 0) then true
  else if (mode =? 1) && (Z.land spp_opt (BIT 0) =? 0) then true
  else mode =? 2.

(** [key_char2num], [key_2char2num] and [rtw_check_invalid_mac_address] *)
Definition key_char2num (ch : Z) : Z :=
  if (48 <=? ch) && (ch <=? 57) then ch - 48
  else if (97 <=? ch) && (ch <=? 102) then ch - 97 + 10
  else if (65 <=? ch) && (ch <=? 70) then ch - 65 + 10
  else 255.

Definition key_2char2num (hch lch : Z) : Z :=
  u8 (Z.lor (Z.shiftl (key_char2num hch) 4) (key_char2num lch)).

Definition rtw_check_invalid_mac_address (mac_addr : list Z) (check_local_bit : bool) : bool :=
  bool_decide (mac_addr = [0; 0; 0; 0; 0; 0]) ||
  bool_decide (mac_addr = [255; 255; 255; 255; 255; 255]) ||
  match mac_addr with
  | b :: _ => negb (Z.land b (BIT 0) =? 0) || (check_local_bit && negb (Z.land b (BIT 1) =? 0))
  | [] => false
  end.

(** ** Filtering *)

(** The rates [rtw_filter_suppport_rateie] keeps. *)
Definition kept_rates (keep : rate_class) (rates : list Z) : list Z :=
  map kept_value (List.filter (keeps keep) rates).

Lemma kept_value_u8 r : is_u8 r -> is_u8 (kept_value r).
Proof.
  intros Hr. pose proof (forall_u8 (fun r => (0 <=? kept_value r) && (kept_value r <? 256)) eq_refl r Hr) as H.
  apply andb_true_iff in H as [H1%Z.leb_le H2%Z.ltb_lt]. done.
Qed.

Lemma kept_rates_cons keep r rates :
  kept_rates keep (r :: rates) =
  if keeps keep r then kept_value r :: kept_rates keep rates else kept_rates keep rates.
Proof. unfold kept_rates. cbn. by destruct (keeps keep r). Qed.

Lemma filter_loop_spec keep rest : forall rates pre p i acc tail,
  Forall is_u8 rates -> zlen pre = p + i + 2 -> (length rates <= 255)%nat ->
  zlen (acc ++ tail) = 16 ->
  filter_loop (length rates) (pre ++ rates ++ rest) p i (zlen acc) keep (acc ++ tail) =
  if zlen acc + zlen (kept_rates keep rates) <=? 16
  then Ret (acc ++ kept_rates keep rates ++ drop (length (kept_rates keep rates)) tail,
            zlen acc + zlen (kept_rates keep rates))
  else Fault.
Proof.
  induction rates as [|r rates IH]; intros pre p i acc tail Hb Hp Hn Hl.
  - change (zlen (kept_rates keep [])) with 0. rewrite Z.add_0_r, (proj2 (Z.leb_le _ _)) by zl. done.
  - apply Forall_cons_1 in Hb as [Hr Hb]. cbn [length filter_loop app]. cbn [length] in Hn.
    rewrite (rd_at pre r) by lia. rewrite bind_Ret, kept_rates_cons.
    replace (pre ++ r :: rates ++ rest) with ((pre ++ [r]) ++ rates ++ rest) by (by rewrite <- app_assoc).
    destruct (keeps keep r); [|apply IH; auto; zl].
    rewrite zlen_cons. pose proof (zlen_nonneg (kept_rates keep rates)). destruct tail as [|t tail].
    + rewrite app_nil_r in Hl. unfold wr. rewrite wrs_fault by (rewrite app_nil_r; cbn; unfold zlen in *; cbn; lia).
      rewrite (proj2 (Z.leb_gt _ _)) by lia. done.
    + rewrite wr_over, bind_Ret, u8_small by (first [done | by apply kept_value_u8]).
      replace (acc ++ kept_value r :: tail) with ((acc ++ [kept_value r]) ++ tail) by (by rewrite <- app_assoc).
      replace (zlen acc + 1) with (zlen (acc ++ [kept_value r])) by zl.
      rewrite IH; [|done|zl|lia|zl]. rewrite zlen_app, zlen_cons, zlen_nil.
      replace (zlen acc + (1 + 0) + zlen (kept_rates keep rates)) with (zlen acc + (1 + zlen (kept_rates keep rates))) by lia.
      destruct (_ <=? 16); [|done]. by rewrite <- app_assoc.
Qed.

Lemma kept_rates_len keep rates : zlen (kept_rates keep rates) <= zlen rates.
Proof.
  induction rates as [|r rates IH]; [done|]. rewrite kept_rates_cons, zlen_cons.
  destruct (keeps keep r); rewrite ?zlen_cons; lia.
Qed.

(** A frame with a supported-rates element. *)
Definition rate_frame (fixed : list Z) (l : list ie) (free : list Z) (b : WLAN_BSSID_EX) : Prop :=
  zlen fixed = 12 /\ IEs b = fixed ++ encs l ++ free /\ IELength b = edited fixed l /\ Forall ie_wf l /\
  edited fixed l + 258 <= 4294967296.

Lemma rate_frame_search fixed l free b index :
  rate_frame fixed l free b ->
  rtw_get_ie (IEs b) _BEACON_IE_OFFSET_ index (u32 (IELength b - _BEACON_IE_OFFSET_)) =
  Ret (option_map (fun r => (r.1, zlen (ie_data r.2))) (locate (has_id index) 12 l)).
Proof.
  intros (Hx & -> & -> & _ & Hu). unfold edited, _BEACON_IE_OFFSET_ in *. rewrite Hx.
  pose proof (zlen_nonneg (encs l)). rewrite u32_small by (unfold is_u32; lia).
  replace (12 + zlen (encs l) - 12) with (zlen (encs l)) by lia. rewrite <- Hx. apply rtw_get_ie_locate.
Qed.

Lemma filter_rateie_spec fixed l1 rates l2 free b keep :
  rate_frame fixed (l1 ++ IE 1 rates :: l2) free b ->
  Forall (fun e => has_id 1 e = false) l1 ->
  let k := kept_rates keep rates in
  zlen k <= 16 ->
  exists free' b',
    rtw_filter_suppport_rateie b keep = Ret b' /\
    IEs b' = fixed ++ encs (l1 ++ IE 1 k :: l2) ++ free' /\ IELength b' = edited fixed (l1 ++ IE 1 k :: l2).
Proof.
  intros Hfr Hl1 k Hk. pose proof (rate_frame_search _ _ _ _ _SUPPORTEDRATES_IE_ Hfr) as Hg.
  destruct Hfr as (Hx & Em & El & Hw & Hu). unfold rtw_filter_suppport_rateie. rewrite Hg, bind_Ret. clear Hg.
  change _SUPPORTEDRATES_IE_ with 1. rewrite locate_app by done.
  cbn [locate has_id ie_id Z.eqb Pos.eqb option_map fst snd ie_data].
  apply Forall_app in Hw as [_ Hw]. apply Forall_cons_1 in Hw as [(_ & Hb & Hlen) _]. cbn [ie_data] in *.
  set (A := fixed ++ encs l1). assert (zlen A = 12 + zlen (encs l1)) as LA by (unfold A; rewrite zlen_app; lia).
  assert (IEs b = A ++ 1 :: zlen rates :: rates ++ (encs l2 ++ free)) as Em'.
  { rewrite Em, encs_mid. unfold A, enc. cbn [ie_id ie_data]. by rewrite <- !app_assoc. }
  pose proof (filter_loop_spec keep (encs l2 ++ free) rates (A ++ [1; zlen rates]) (zlen A) 0 [] (replicate 16 0)) as Hf.
  rewrite <- app_assoc in Hf. cbn [app] in Hf. rewrite <- Em' in Hf. change (zlen []) with 0 in Hf.
  rewrite <- LA, to_nat_zlen, Hf; [|done|zl|unfold zlen in Hlen; lia|done]. fold k.
  rewrite !Z.add_0_l, (proj2 (Z.leb_le _ _)), bind_Ret by lia. clear Hf.
  pose proof (kept_rates_len keep rates) as Hkl. fold k in Hkl. pose proof (zlen_nonneg k).
  rewrite Em'. replace (A ++ 1 :: zlen rates :: rates ++ encs l2 ++ free)
    with ((A ++ [1]) ++ zlen rates :: rates ++ encs l2 ++ free) by (rewrite <- app_assoc; done).
  rewrite wr_over by zl. rewrite bind_Ret, u8_small by (unfold is_u8; lia).
  rewrite <- (app_nil_l (k ++ _)), (rds_at [] k), bind_Ret by done.
  replace ((A ++ [1]) ++ zlen k :: rates ++ encs l2 ++ free)
    with ((A ++ [1; zlen k]) ++ (rates ++ encs l2 ++ free)) by (rewrite <- !app_assoc; done).
  rewrite wrs_over by zl. rewrite bind_Ret. rewrite drop_app_le by (unfold zlen in *; lia).
  set (x := drop (length k) rates). assert (zlen x = zlen rates - zlen k) as Lx
    by (unfold x, zlen in *; rewrite length_drop; lia).
  rewrite El. unfold edited in *. rewrite encs_mid, !zlen_app, zlen_enc in *. unfold ie_len in *. cbn [ie_data] in *.
  pose proof (zlen_nonneg (encs l1)). pose proof (zlen_nonneg (encs l2)).
  rewrite (u32_small (_ - (zlen A + 2 + zlen rates))) by (unfold is_u32; lia).
  replace ((A ++ [1; zlen k]) ++ k ++ x ++ encs l2 ++ free)
    with ((A ++ [1; zlen k] ++ k) ++ x ++ encs l2 ++ free) by (rewrite <- !app_assoc; done).
  rewrite memmove_down, bind_Ret by (rewrite ?zlen_app, ?zlen_cons, ?zlen_nil; lia).
  eexists _, _. split; [done|]. unfold set_IEs. cbn [IEs IELength]. split.
  - rewrite encs_mid. unfold A, enc. cbn [ie_id ie_data]. by rewrite <- !app_assoc.
  - rewrite encs_mid, !zlen_app, zlen_enc. unfold ie_len. cbn [ie_data].
    rewrite u32_small by (unfold is_u32; lia). lia.
Qed.

(** CCK rates are kept as they are. *)
Lemma kept_cck rates :
  Forall is_u8 rates -> Forall (fun r => rtw_is_cck_rate r = true) rates -> kept_rates keep_CCK rates = rates.
Proof.
  intros Hb Hc. induction rates as [|r rates IH]; [done|].
  apply Forall_cons_1 in Hb as [Hr Hb]. apply Forall_cons_1 in Hc as [Hcr Hc].
  rewrite kept_rates_cons. cbn [keeps]. rewrite Hcr, IH by done. f_equal.
  pose proof (forall_u8 (fun r => negb (rtw_is_cck_rate r) || (kept_value r =? r)) eq_refl r Hr) as H.
  cbn beta in H. rewrite Hcr in H. by apply Z.eqb_eq in H.
Qed.

(** An element that occurs once: where it is, and the frame without it. *)
Lemma single_element id l1 e l2 pos :
  has_id id e = true -> Forall (fun x => has_id id x = false) (l1 ++ l2) ->
  locate (has_id id) pos (l1 ++ e :: l2) = Some (pos + zlen (encs l1), e) /\
  ies_without (ex_pred id None) (l1 ++ e :: l2) = l1 ++ l2 /\
  zlen (encs (l1 ++ e :: l2)) = zlen (encs (l1 ++ l2)) + ie_len e.
Proof.
  intros He Hno. apply Forall_app in Hno as [H1 H2].
  assert (forall x, ex_pred id None x = has_id id x) as Hp by (intros x; unfold ex_pred; by rewrite andb_true_r).
  split; [|split].
  - rewrite locate_app by done. cbn. by rewrite He.
  - rewrite without_split; [|eapply Forall_impl; [exact H1|]; intros x Hx; by rewrite Hp|by rewrite Hp].
    by rewrite without_none by (eapply Forall_impl; [exact H2|]; intros x Hx; by rewrite Hp).
  - rewrite encs_mid, encs_app, !zlen_app, zlen_enc. lia.
Qed.

(** [rtw_update_rate_bymode] for 802.11b: on a frame whose supported rates
    are CCK rates, the extended supported rates element is removed from the
    elements, but the frame length shrinks by the content of that element
    only: it stays two bytes longer than the elements left. *)
Theorem update_rate_11b_length fixed l1 rates l2 ext l3 free b :
  rate_frame fixed (l1 ++ IE 1 rates :: l2 ++ IE 50 ext :: l3) free b ->
  Forall (fun e => has_id 1 e = false) l1 -> Forall (fun r => rtw_is_cck_rate r = true) rates ->
  Forall (fun e => has_id 50 e = false) (l1 ++ l2 ++ l3) -> zlen rates <= 16 ->
  let l' := l1 ++ IE 1 rates :: l2 ++ l3 in
  exists b' free',
    rtw_update_rate_bymode b WLAN_MD_11B = Ret (b', WLAN_MD_11B) /\
    IEs b' = fixed ++ encs l' ++ free' /\ IELength b' = edited fixed l' + 2.
Proof.
  intros Hfr Hl1 Hc Hno Hn l'. pose proof Hfr as (Hx & Em & El & Hw & Hu).
  assert (kept_rates keep_CCK rates = rates) as Hk.
  { apply kept_cck; [|done]. apply Forall_app in Hw as [_ Hw]. by apply Forall_cons_1 in Hw as [(_ & ? & _) _]. }
  destruct (filter_rateie_spec fixed l1 rates (l2 ++ IE 50 ext :: l3) free b keep_CCK Hfr Hl1) as (f1 & b1 & E1 & Em1 & El1);
    [by rewrite Hk|]. rewrite Hk in *.
  destruct (single_element 50 (l1 ++ IE 1 rates :: l2) (IE 50 ext) l3 12) as (Hlc & Hwo & Hle); [done| |].
  { rewrite <- app_assoc. apply Forall_app in Hno as [H1 H2]. cbn [app]. apply Forall_app. split; [done|by apply Forall_cons_2]. }
  replace ((l1 ++ IE 1 rates :: l2) ++ IE 50 ext :: l3) with (l1 ++ IE 1 rates :: l2 ++ IE 50 ext :: l3)
    in Hlc, Hwo, Hle by (by rewrite <- app_assoc).
  replace ((l1 ++ IE 1 rates :: l2) ++ l3) with l' in Hwo, Hle by (unfold l'; by rewrite <- app_assoc).
  remember (l1 ++ IE 1 rates :: l2 ++ IE 50 ext :: l3) as l eqn:Hl.
  assert (rate_frame fixed l f1 b1) as Hfr1 by done.
  unfold rtw_update_rate_bymode. change (WLAN_MD_11B =? WLAN_MD_11B) with true. cbn iota.
  rewrite E1, bind_Ret, (rate_frame_search _ _ _ _ _EXT_SUPPORTEDRATES_IE_ Hfr1), bind_Ret.
  change _EXT_SUPPORTEDRATES_IE_ with 50. rewrite Hlc. cbn [option_map fst snd ie_data].
  destruct (rtw_ies_remove_ie_spec [] fixed l f1 50 None) as (j & Er & _);
    [apply List.Forall_forall; intros e _ _; apply zlen_nonneg|lia|].
  rewrite Hx in Er. cbn [app] in Er. change (zlen []) with 0 in Er. rewrite Em1, El.
  change 12 with _BEACON_IE_OFFSET_ in Er. rewrite Er, Hwo, !bind_Ret.
  eexists _, (j ++ f1). split; [reflexivity|]. cbn [set_rates set_IEs IEs IELength].
  split; [reflexivity|].
  rewrite El1. unfold edited, ie_len in *. cbn [ie_data] in *. pose proof (zlen_nonneg (encs l')).
  pose proof (zlen_nonneg ext). rewrite u32_small by (unfold is_u32; lia). lia.
Qed.

Definition b_frame : WLAN_BSSID_EX :=
  Bss false 6 0 [] 24 (replicate 12 0 ++ encs [IE 1 [130; 132]; IE 50 [12; 18; 24]; IE 3 [6]] ++ [9; 9]).

Lemma update_rate_11b_length_witness :
  exists b' free',
    rtw_update_rate_bymode b_frame WLAN_MD_11B = Ret (b', WLAN_MD_11B) /\
    IEs b' = replicate 12 0 ++ encs [IE 1 [130; 132]; IE 3 [6]] ++ free' /\ IELength b' = 21.
Proof.
  refine (update_rate_11b_length (replicate 12 0) [] [130; 132] [] [12; 18; 24] [IE 3 [6]] [9; 9] b_frame _ _ _ _ _);
    repeat (apply Forall_cons_2 || apply Forall_nil_2); try done.
  split_and!; try done. repeat (apply Forall_cons_2 || apply Forall_nil_2); split_and!; try done;
    repeat (apply Forall_cons_2 || apply Forall_nil_2); done.
Defined.

(** ** HT rates *)

(** The data rate of one stream for MCS 0 to 7 with the long guard interval. *)
Definition base_20 : list Z := [65; 130; 195; 260; 390; 520; 585; 650].
Definition base_40 : list Z := [135; 270; 405; 540; 810; 1080; 1215; 1350].

(** The rate of [nss] streams; the short guard interval gives 10/9, rounded. *)
Definition ht_rate (bw sgi : bool) (nss mcs : Z) : Z :=
  let r := nss * nth (Z.to_nat mcs) (if bw then base_40 else base_20) 0 in
  if sgi then (20 * r + 9) / 18 else r.

(** The rate the highest bit of a byte announces. *)
Definition top_rate (bw sgi : bool) (nss b : Z) : Z := if b =? 0 then 0 else ht_rate bw sgi nss (Z.log2 b).

(** The value that is off. *)
Definition mcs22_entry (bw sgi : bool) (b : Z) : bool := negb bw && negb sgi && (Z.log2 b =? 6).

(** [rtw_ht_mcs_rate] against the rate formula: for every set of MCS the
    result is the rate of the highest MCS of the highest stream count in the
    set, number of streams times the rate of one stream, times 10/9 rounded for
    the short guard interval; with one exception, MCS 22 at 20 MHz with the long
    guard interval, which the table gives as 1750 instead of 1755. *)
Theorem ht_mcs_rate_formula bw sgi m0 m1 m2 m3 :
  is_u8 m0 -> is_u8 m1 -> is_u8 m2 -> is_u8 m3 ->
  rtw_ht_mcs_rate bw sgi m0 m1 m2 m3 =
  if negb (m3 =? 0) then top_rate bw sgi 4 m3
  else if negb (m2 =? 0) then if mcs22_entry bw sgi m2 then 1750 else top_rate bw sgi 3 m2
  else if negb (m1 =? 0) then top_rate bw sgi 2 m1
  else top_rate bw sgi 1 m0.
Proof.
  intros H0 H1 H2 H3. unfold rtw_ht_mcs_rate. cbn zeta.
  destruct (m3 =? 0) eqn:E3; cbn [negb]; [destruct (m2 =? 0) eqn:E2; cbn [negb]; [destruct (m1 =? 0) eqn:E1; cbn [negb]|]|].
  - refine (proj1 (Z.eqb_eq _ _) (forall_u8 (fun m => first_bit m _ =? top_rate bw sgi 1 m) _ m0 H0)).
    by destruct bw, sgi.
  - refine (proj1 (Z.eqb_eq _ _) (forall_u8 (fun m => first_bit m _ =? top_rate bw sgi 2 m) _ m1 H1)).
    by destruct bw, sgi.
  - refine (proj1 (Z.eqb_eq _ _)
      (forall_u8 (fun m => first_bit m _ =? if mcs22_entry bw sgi m then 1750 else top_rate bw sgi 3 m) _ m2 H2)).
    by destruct bw, sgi.
  - refine (proj1 (Z.eqb_eq _ _) (forall_u8 (fun m => first_bit m _ =? top_rate bw sgi 4 m) _ m3 H3)).
    by destruct bw, sgi.
Qed.

Lemma ht_mcs_rate_formula_witness :
  rtw_ht_mcs_rate false false 255 255 127 0 = 1750 /\ ht_rate false false 3 6 = 1755 /\
  rtw_ht_mcs_rate true true 255 255 0 0 = 3000.
Proof.
  split; [|split; [reflexivity|]].
  - refine (ht_mcs_rate_formula false false 255 255 127 0 _ _ _ _); done.
  - refine (ht_mcs_rate_formula true true 255 255 0 0 _ _ _ _); done.
Defined.

(** Every rate of the first ten sections is mapped to its section; the HE and
    DCM sections are not known to [mgn_rate_to_rs]. *)
Lemma rate_sections :
  forallb (fun i => forallb (fun r => mgn_rate_to_rs r =? Z.of_nat i) (snd (nth i rates_by_sections (0, []))))
    (seq 0 10) = true /\
  forallb (fun i => forallb (fun r => mgn_rate_to_rs r =? RATE_SECTION_NUM) (snd (nth i rates_by_sections (0, []))))
    (seq 10 8) = true.
Proof. split; vm_compute; reflexivity. Qed.

(** ** The generated IBSS frame *)

(** The rates announced for a configuration. *)
Definition ibss_rates (c : ibss_conf) : list Z :=
  let r := rtw_set_supported_rate (u8 (ibss_mode c)) (ic_ds c) (ic_band c) in
  List.filter (fun x => negb (x =? 0)) r.

(** The elements of the frame. *)
Definition ibss_ies (c : ibss_conf) : list ie :=
  let r := ibss_rates c in
  [IE 0 (ic_ssid c); IE 1 (take 8 r); IE 3 [u8 (ic_ds c)]; IE 6 (put_le16 (ic_atim c))] ++
  (if 8 <? zlen r then [IE 50 (drop 8 r)] else []).

Definition ibss_cap (c : ibss_conf) : Z :=
  Z.lor (BIT 1) (Z.lor (if ic_short_preamble c then BIT 5 else 0) (if ic_privacy c then BIT 4 else 0)).

Lemma rate_cases mode ch band :
  let r := rtw_set_supported_rate mode ch band in
  let k := List.filter (fun x => negb (x =? 0)) r in
  r = rates_ex k /\ rtw_get_rateset_len r = Ret (zlen k) /\ (length k <= 12)%nat.
Proof.
  unfold rtw_set_supported_rate. cbn zeta. destruct (_ || _); [by split_and!; try (cbn; lia)|].
  destruct (negb _), (negb _); split_and!; try reflexivity; cbn; lia.
Qed.

Lemma put_ie_at A rest index d more sz p :
  is_u8 index -> zlen d < 256 -> 2 + zlen d <= zlen rest -> p = zlen A ->
  0 <= sz -> sz + zlen d + 2 < 4294967296 ->
  put_ie (A ++ rest, p, sz) index (zlen d) (d ++ more) =
  Ret (A ++ enc (IE index d) ++ drop (2 + length d) rest, p + zlen d + 2, sz + zlen d + 2).
Proof.
  intros Hi Hd Hr -> Hs Hu. pose proof (zlen_nonneg d).
  destruct (rtw_set_ie_at A rest (zlen A) index d (Some sz)) as (r & E & ->); [done|done|done|].
  unfold put_ie. assert (rtw_set_ie (A ++ rest) (zlen A) index (zlen d) (d ++ more) (Some sz) =
    rtw_set_ie (A ++ rest) (zlen A) index (zlen d) d (Some sz)) as ->.
  { unfold rtw_set_ie. by rewrite (rds_at [] d more), rds_prefix by done. }
  rewrite E, bind_Ret, u8_small by done. cbn [option_map default from_option id].
  rewrite u32_small by (unfold is_u32; lia). unfold mret, outcome_ret.
  by replace (sz + (zlen d + 2)) with (sz + zlen d + 2) by lia.
Qed.

(** The state after some elements: [n] bytes of the buffer are left. *)
Definition at_ies (fixed : list Z) (l : list ie) (n : Z) (st : list Z * Z * Z) : Prop :=
  exists rest, st = (fixed ++ encs l ++ rest, zlen fixed + zlen (encs l), zlen fixed + zlen (encs l)) /\ n <= zlen rest.

Lemma put_ie_next fixed l n st index len source d more :
  at_ies fixed l n st -> source = d ++ more -> len = zlen d ->
  is_u8 index -> zlen d < 256 -> zlen d + 2 <= n -> zlen fixed + zlen (encs l) + 258 < 4294967296 ->
  exists st', put_ie st index len source = Ret st' /\ at_ies fixed (l ++ [IE index d]) (n - (zlen d + 2)) st'.
Proof.
  intros (rest & -> & Hn) -> -> Hi Hd Hr Hu. pose proof (zlen_nonneg fixed). pose proof (zlen_nonneg (encs l)).
  pose proof (zlen_nonneg d). rewrite app_assoc, put_ie_at by (first [done | lia | by rewrite zlen_app]).
  eexists. split; [reflexivity|]. exists (drop (2 + length d) rest). split.
  - rewrite encs_snoc, zlen_app, zlen_enc, <- !app_assoc. unfold ie_len. cbn [ie_data].
    match goal with |- (_, ?a, ?b) = (_, ?c, _) => replace a with c by lia; by replace b with c by lia end.
  - unfold zlen in *. rewrite length_drop. lia.
Qed.

(** The element writes of [rtw_generate_ie], for the rates [k]. *)
Definition ibss_elems_run (c : ibss_conf) (st : list Z * Z * Z) (k : list Z) : outcome (list Z * Z * Z) :=
  s1 ← put_ie st 0 (zlen (ic_ssid c)) (ic_ssid c);
  s2 ← (if 8 <? zlen k then put_ie s1 _SUPPORTEDRATES_IE_ 8 (rates_ex k)
        else put_ie s1 _SUPPORTEDRATES_IE_ (zlen k) (rates_ex k));
  s3 ← put_ie s2 3 1 [u8 (ic_ds c)];
  s4 ← put_ie s3 6 2 (put_le16 (ic_atim c));
  if 8 <? zlen k then put_ie s4 _EXT_SUPPORTEDRATES_IE_ (zlen k - 8) (drop 8 (rates_ex k)) else mret s4.

Ltac ies_len :=
  rewrite ?encs_app, ?zlen_app; change (zlen (encs [])) with 0; rewrite ?encs_len;
  change (zlen (encs [])) with 0; unfold ie_len; cbn [ie_data]; rewrite ?zlen_put, ?zlen_cons; change (zlen (@nil Z)) with 0; lia.

Lemma ibss_elems fixed c st k :
  zlen fixed = 12 -> at_ies fixed [] 756 st -> zlen (ic_ssid c) <= 32 -> zlen k <= 12 ->
  exists st', ibss_elems_run c st k = Ret st' /\
    at_ies fixed ([IE 0 (ic_ssid c); IE 1 (take 8 k); IE 3 [u8 (ic_ds c)]; IE 6 (put_le16 (ic_atim c))] ++
      (if 8 <? zlen k then [IE 50 (drop 8 k)] else [])) 0 st'.
Proof.
  intros Lf H0 Hs Hk. pose proof (zlen_nonneg (ic_ssid c)) as Hs0. pose proof (zlen_nonneg k) as Hk0.
  unfold ibss_elems_run.
  set (z := replicate (16 - length k) 0). assert (zlen (take 8 k) = Z.min 8 (zlen k)) as Lt
    by (unfold zlen; rewrite length_take; lia).
  assert (zlen (drop 8 k) = zlen k - Z.min 8 (zlen k)) as Ld by (unfold zlen; rewrite length_drop; lia).
  destruct (put_ie_next fixed [] 756 st 0 (zlen (ic_ssid c)) (ic_ssid c) (ic_ssid c) []) as (s1 & -> & H1);
    [done|by rewrite app_nil_r|done|done|lia|lia|ies_len|]. rewrite bind_Ret.
  destruct (put_ie_next fixed _ _ s1 1 (Z.min 8 (zlen k)) (rates_ex k) (take 8 k) (drop 8 k ++ z) H1) as (s2 & E2 & H2);
    [unfold rates_ex; by rewrite app_assoc, take_drop|done|done|lia|lia|ies_len|].
  assert ((if 8 <? zlen k then put_ie s1 _SUPPORTEDRATES_IE_ 8 (rates_ex k)
    else put_ie s1 _SUPPORTEDRATES_IE_ (zlen k) (rates_ex k)) = Ret s2) as ->.
  { rewrite <- E2. destruct (Z.ltb_spec 8 (zlen k)); f_equal; lia. }
  rewrite bind_Ret.
  destruct (put_ie_next fixed _ _ s2 3 1 [u8 (ic_ds c)] [u8 (ic_ds c)] [] H2) as (s3 & -> & H3);
    [done|done|done|done|change (zlen [u8 (ic_ds c)]) with 1; lia|ies_len|]. rewrite bind_Ret.
  destruct (put_ie_next fixed _ _ s3 6 2 (put_le16 (ic_atim c)) (put_le16 (ic_atim c)) [] H3) as (s4 & -> & H4);
    [done|done|done|done|rewrite zlen_put; change (zlen [u8 (ic_ds c)]) with 1; lia|ies_len|]. rewrite bind_Ret.
  assert (forall l n st', at_ies fixed l n st' -> 0 <= n -> at_ies fixed l 0 st') as Hweak.
  { intros l n st' (r & -> & Hr) Hn. exists r. split; [done|lia]. }
  rewrite zlen_put in H4. change (zlen [u8 (ic_ds c)]) with 1 in H4.
  destruct (Z.ltb_spec 8 (zlen k)) as [H8|H8].
  - destruct (put_ie_next fixed _ _ s4 50 (zlen k - 8) (drop 8 (rates_ex k)) (drop 8 k) z H4) as (s5 & E5 & H5);
      [unfold rates_ex; rewrite drop_app_le by (unfold zlen in *; lia); done|lia|done|lia|lia|ies_len|].
    exists s5. split; [exact E5|]. eapply Hweak; [exact H5|]. lia.
  - exists s4. split; [done|]. eapply Hweak; [exact H4|]. lia.
Qed.

Lemma put_header m a b :
  12 <= zlen m ->
  exists rest,
    (m1 ← RTW_PUT_LE16 m 8 a; RTW_PUT_LE16 m1 10 b) =
    Ret ((take 8 m ++ put_le16 a ++ put_le16 b) ++ rest) /\ zlen rest = zlen m - 12.
Proof.
  intros Hm. assert (exists h t, m = h ++ t /\ zlen h = 8 /\ take 8 m = h) as (h & t & -> & Lh & ->).
  { exists (take 8 m), (drop 8 m). rewrite take_drop. split_and!; [done| |done].
    unfold zlen in *. rewrite length_take. lia. }
  rewrite zlen_app in Hm. unfold RTW_PUT_LE16.
  rewrite (wrs_over h) by (first [done | rewrite zlen_put; lia]).
  rewrite bind_Ret, app_assoc, wrs_over.
  - eexists. split; [by rewrite <- !app_assoc|]. rewrite zlen_app. unfold zlen in *. rewrite !length_drop. cbn. lia.
  - rewrite zlen_app, Lh. done.
  - unfold zlen in *. rewrite length_drop. cbn. lia.
Qed.

(** [rtw_generate_ie] builds a well-formed frame: behind the timestamp,
    the beacon interval and the capabilities come the SSID, the first eight
    supported rates, the channel, the ATIM window and, when there are more
    than eight rates, the rest of them; the length returned is the length of
    the frame. *)
Theorem generate_ie_frame c m :
  zlen m = MAX_IE_SZ -> zlen (ic_ssid c) <= 32 ->
  exists rest,
    rtw_generate_ie c m =
    Ret (take 8 m ++ put_le16 (ic_beacon_period c) ++ put_le16 (ibss_cap c) ++ encs (ibss_ies c) ++ rest,
         12 + zlen (encs (ibss_ies c)), rates_ex (ibss_rates c)).
Proof.
  intros Hm Hs. unfold MAX_IE_SZ in Hm.
  destruct (rate_cases (u8 (ibss_mode c)) (ic_ds c) (ic_band c)) as (Er & En & Hk).
  fold (ibss_rates c) in Er, En, Hk. set (k := ibss_rates c) in *.
  destruct (put_header m (ic_beacon_period c) (ibss_cap c)) as (rest & Ew & Lr); [lia|].
  set (fixed := take 8 m ++ _ ++ _) in *.
  assert (zlen fixed = 12) as Lf.
  { unfold fixed. rewrite !zlen_app, !zlen_put. unfold zlen in *. rewrite length_take. lia. }
  unfold rtw_generate_ie. cbn zeta. fold (ibss_cap c).
  apply bind_Ret_inv in Ew as (m1 & -> & Ew). rewrite bind_Ret, Ew, bind_Ret. clear Ew m1.
  assert (at_ies fixed [] 756 (fixed ++ rest, 12, 12)) as H0.
  { exists rest. change (zlen (encs [])) with 0. rewrite Lf, Z.add_0_r. split; [done|lia]. }
  destruct (ibss_elems fixed c _ k Lf H0 Hs) as (st & E & rest' & -> & _); [unfold zlen; lia|].
  rewrite En, Er. unfold ibss_elems_run in E.
  apply bind_Ret_inv in E as (s1 & E1 & E). apply bind_Ret_inv in E as (s2 & E2 & E).
  apply bind_Ret_inv in E as (s3 & E3 & E). apply bind_Ret_inv in E as (s4 & E4 & E).
  rewrite E1, !bind_Ret, E2, bind_Ret, E3, bind_Ret, E4, bind_Ret, E, bind_Ret.
  exists rest'. rewrite Lf. unfold fixed. by rewrite <- !app_assoc.
Qed.

Definition ibss_sample : ibss_conf := IbssConf WLAN_MD_11BG true false [104; 105] 100 6 0 0.

Lemma generate_ie_frame_witness :
  exists rest,
    rtw_generate_ie ibss_sample (replicate 768 0) =
    Ret (replicate 8 0 ++ [100; 0] ++ [34; 0] ++
         encs [IE 0 [104; 105]; IE 1 [130; 132; 139; 150; 12; 18; 24; 36]; IE 3 [6]; IE 6 [0; 0]; IE 50 [48; 72; 96; 108]] ++
         rest, 39, [130; 132; 139; 150; 12; 18; 24; 36; 48; 72; 96; 108; 0; 0; 0; 0]).
Proof. refine (generate_ie_frame ibss_sample (replicate 768 0) _ _); done. Defined.
