(* ===== verification/RxDesc.v ===== *)
(** * Receive descriptors of the 8851B

    Every packet the chip delivers starts with a descriptor: four words, or
    eight for a long one.  The file models how the HAL reads it into the
    metadata of the packet and finds the packet behind it
    (src/phl/hal_g6/rtl8851b/hal_trx_8851b.c, with the field positions of
    hal_trx_8851b.h), the parser of the MAC layer for the same descriptor
    (src/phl/hal_g6/mac/mac_ax/mac_8851b/trx_desc_8851b.c), and the parsers of
    the PPDU-status and radar reports (src/phl/hal_g6/mac/mac_ax/phy_rpt.c and
    hal_api_mac.c).  All of them read bytes of a receive buffer; a read outside
    the buffer is a [Fault] of [ByteBuf].  The descriptors of the theorems are
    written with the positions of the MAC layer (src/phl/hal_g6/mac/rxdesc.h),
    not with those the HAL reads. *)
From Stdlib Require Import ZArith Lia Bool List.
From stdpp Require Import base tactics list numbers sets.
From S2P Require Import Prelude ByteBuf TxDesc.

(** ** Metadata of a received packet *)

(** The members of [struct rtw_r_meta_data] that come from the descriptor, and
    [ppdu_cnt_chg], which the HAL sets at the start of a PPDU. *)
Inductive rxfield :=
  | r_pktlen | r_shift | r_wl_hd_iv_len | r_bb_sel | r_mac_info_vld | r_rpkt_type
  | r_drv_info_size | r_long_rxd | r_ppdu_type | r_ppdu_cnt | r_sr_en | r_user_id | r_rx_rate
  | r_rx_gi_ltf | r_non_srg_ppdu | r_inter_ppdu | r_bw | r_freerun_cnt | r_a1_match | r_sw_dec
  | r_hw_dec | r_ampdu | r_ampdu_end_pkt | r_amsdu | r_amsdu_cut | r_last_msdu | r_bypass
  | r_crc32 | r_icverr | r_magic_wake | r_unicast_wake | r_pattern_wake | r_get_ch_info
  | r_rx_statistics | r_pattern_idx | r_target_idc | r_chksum_ofld_en | r_with_llc
  | r_frame_type | r_mc | r_bc | r_more_data | r_more_frag | r_pwr_bit | r_qos | r_tid | r_eosp
  | r_htc | r_q_null | r_seq | r_frag_num | r_sec_cam_idx | r_addr_cam | r_macid | r_rx_pl_id
  | r_addr_cam_vld | r_addr_fwd_en | r_rx_pl_match | r_sec_type | r_ppdu_cnt_chg.

#[global] Instance rxfield_eq_dec : EqDecision rxfield.
Proof. solve_decision. Defined.

(** [struct rtw_r_meta_data]: the integer members by name, the transmitter
    address and the address the descriptor carries. *)
Record rtw_r_meta_data := RxMeta {
  mdata : rxfield -> Z; ta : list Z; mac_addr : list Z
}.

Definition set_mdata (d : rtw_r_meta_data) (f : rxfield) (v : Z) : rtw_r_meta_data :=
  RxMeta (fun g => if decide (g = f) then v else mdata d g) (ta d) (mac_addr d).

Definition set_ta (d : rtw_r_meta_data) (a : list Z) : rtw_r_meta_data :=
  RxMeta (mdata d) a (mac_addr d).

Definition set_mac_addr (d : rtw_r_meta_data) (a : list Z) : rtw_r_meta_data :=
  RxMeta (mdata d) (ta d) a.

(** A packet whose metadata was cleared. *)
Definition meta0 : rtw_r_meta_data := RxMeta (fun _ => 0) (replicate 6 0) (replicate 6 0).

(** ** Reading the descriptor *)

(** [LE_P4BYTE_TO_HOST_4BYTE] and [LE_P2BYTE_TO_HOST_2BYTE] *)
Definition LE_P4BYTE (m : list Z) (p : Z) : outcome Z := rds m p 4 ≫= fun d => Ret (word_of d).

Definition LE_P2BYTE (m : list Z) (p : Z) : outcome Z :=
  rds m p 2 ≫= fun d => Ret (nth 0 d 0 + 256 * nth 1 d 0).

(** A field of [n] bits at bit [o]: [LE_BITS_TO_4BYTE(p, o, n)] is
    [GET_FIELD] of the word with this field. *)
Definition bits (o n : Z) : field := Field o (Z.ones n).

Definition LE_BITS_TO_4BYTE (m : list Z) (p : Z) (f : field) : outcome Z :=
  LE_P4BYTE m p ≫= fun w => Ret (GET_FIELD w f).

Definition LE_BITS_TO_2BYTE (m : list Z) (p : Z) (f : field) : outcome Z :=
  LE_P2BYTE m p ≫= fun w => Ret (GET_FIELD w f).

(** The word of the descriptor and the bits of a member: the
    [GET_RX_AX_DESC_*_8851B] macros. *)
Definition GET_RX_AX_DESC (f : rxfield) : Z * field :=
  match f with
  | r_pktlen => (0, bits 0 14)
  | r_shift => (0, bits 14 2)
  | r_wl_hd_iv_len => (0, bits 16 6)
  | r_bb_sel => (0, bits 22 1)
  | r_mac_info_vld => (0, bits 23 1)
  | r_rpkt_type => (0, bits 24 4)
  | r_drv_info_size => (0, bits 28 3)
  | r_long_rxd => (0, bits 31 1)
  | r_ppdu_type => (1, bits 0 4)
  | r_ppdu_cnt => (1, bits 4 3)
  | r_sr_en => (1, bits 7 1)
  | r_user_id => (1, bits 8 8)
  | r_rx_rate => (1, bits 16 9)
  | r_rx_gi_ltf => (1, bits 25 3)
  | r_non_srg_ppdu => (1, bits 28 1)
  | r_inter_ppdu => (1, bits 29 1)
  | r_bw => (1, bits 30 2)
  | r_freerun_cnt => (2, bits 0 32)
  | r_a1_match => (3, bits 0 1)
  | r_sw_dec => (3, bits 1 1)
  | r_hw_dec => (3, bits 2 1)
  | r_ampdu => (3, bits 3 1)
  | r_ampdu_end_pkt => (3, bits 4 1)
  | r_amsdu => (3, bits 5 1)
  | r_amsdu_cut => (3, bits 6 1)
  | r_last_msdu => (3, bits 7 1)
  | r_bypass => (3, bits 8 1)
  | r_crc32 => (3, bits 9 1)
  | r_icverr => (3, bits 10 1)
  | r_magic_wake => (3, bits 11 1)
  | r_unicast_wake => (3, bits 12 1)
  | r_pattern_wake => (3, bits 13 1)
  | r_get_ch_info => (3, bits 14 1)
  | r_rx_statistics => (3, bits 15 1)
  | r_pattern_idx => (3, bits 16 5)
  | r_target_idc => (3, bits 21 3)
  | r_chksum_ofld_en => (3, bits 24 1)
  | r_with_llc => (3, bits 25 1)
  | r_frame_type => (4, bits 0 2)
  | r_mc => (4, bits 2 1)
  | r_bc => (4, bits 3 1)
  | r_more_data => (4, bits 4 1)
  | r_more_frag => (4, bits 5 1)
  | r_pwr_bit => (4, bits 6 1)
  | r_qos => (4, bits 7 1)
  | r_tid => (4, bits 8 4)
  | r_eosp => (4, bits 12 1)
  | r_htc => (4, bits 13 1)
  | r_q_null => (4, bits 14 1)
  | r_seq => (4, bits 16 12)
  | r_frag_num => (4, bits 28 4)
  | r_sec_cam_idx => (5, bits 0 8)
  | r_addr_cam => (5, bits 8 8)
  | r_macid => (5, bits 16 8)
  | r_rx_pl_id => (5, bits 24 4)
  | r_addr_cam_vld => (5, bits 28 1)
  | r_addr_fwd_en => (5, bits 29 1)
  | r_rx_pl_match => (5, bits 30 1)
  | r_sec_type => (7, bits 17 4)
  | r_ppdu_cnt_chg => (0, bits 0 0)
  end.

(** The members read for every packet, those read for WiFi packets and PPDU
    status only, and those of a long descriptor, in the order of the code. *)
Definition rxd_head : list rxfield :=
  [r_pktlen; r_shift; r_bb_sel; r_mac_info_vld; r_rpkt_type; r_drv_info_size; r_long_rxd].

Definition rxd_body : list rxfield :=
  [r_wl_hd_iv_len; r_ppdu_type; r_ppdu_cnt; r_ampdu; r_sr_en; r_user_id; r_rx_rate;
   r_rx_gi_ltf; r_non_srg_ppdu; r_inter_ppdu; r_bw; r_freerun_cnt; r_a1_match; r_sw_dec;
   r_hw_dec; r_ampdu_end_pkt; r_amsdu; r_amsdu_cut; r_last_msdu; r_bypass; r_crc32; r_icverr;
   r_magic_wake; r_unicast_wake; r_pattern_wake; r_get_ch_info; r_rx_statistics; r_pattern_idx;
   r_target_idc; r_chksum_ofld_en; r_with_llc].

Definition rxd_long : list rxfield :=
  [r_frame_type; r_mc; r_bc; r_more_data; r_more_frag; r_pwr_bit; r_qos; r_tid; r_eosp; r_htc;
   r_q_null; r_seq; r_frag_num; r_sec_cam_idx; r_addr_cam; r_addr_cam_vld].

Definition rxd_long_cam : list rxfield := [r_rx_pl_id; r_addr_fwd_en; r_rx_pl_match].

Definition read_field (m : list Z) (desc : Z) (d : rtw_r_meta_data) (f : rxfield) :
    outcome rtw_r_meta_data :=
  LE_BITS_TO_4BYTE m (desc + 4 * (GET_RX_AX_DESC f).1) (GET_RX_AX_DESC f).2 ≫= fun v =>
  Ret (set_mdata d f v).

Fixpoint read_fields (m : list Z) (desc : Z) (fs : list rxfield) (d : rtw_r_meta_data) :
    outcome rtw_r_meta_data :=
  match fs with
  | [] => Ret d
  | f :: fs => d ← read_field m desc d f; read_fields m desc fs d
  end.

Definition RX_8851B_DESC_PKT_T_WIFI : Z := 0.
Definition RX_8851B_DESC_PKT_T_PPDU_STATUS : Z := 1.
Definition RX_8851B_DESC_PKT_T_CHANNEL_INFO : Z := 2.
Definition RX_8851B_DESC_PKT_T_TX_RPT : Z := 6.
Definition RX_8851B_DESC_PKT_T_TX_PD_RELEASE_HOST : Z := 7.
Definition RX_8851B_DESC_PKT_T_DFS_RPT : Z := 8.
Definition RX_8851B_DESC_PKT_T_C2H : Z := 10.

(** The part of a long descriptor: a packet without an address entry gets the
    MAC id 0xFF. *)
Definition read_long (m : list Z) (desc : Z) (d : rtw_r_meta_data) : outcome rtw_r_meta_data :=
  d ← read_fields m desc rxd_long d;
  d ← (if mdata d r_addr_cam_vld =? 0 then Ret (set_mdata d r_macid 255)
       else read_field m desc d r_macid);
  d ← read_fields m desc rxd_long_cam d;
  a ← rds m (desc + 24) 6;
  read_field m desc (set_mac_addr d a) r_sec_type.

(** [_hal_parsing_rx_wd_8851b]: success unless the packet is empty. *)
Definition _hal_parsing_rx_wd_8851b (m : list Z) (desc : Z) (d : rtw_r_meta_data) :
    outcome (bool * rtw_r_meta_data) :=
  d ← read_fields m desc rxd_head d;
  d ← (if (mdata d r_rpkt_type =? RX_8851B_DESC_PKT_T_WIFI)
          || (mdata d r_rpkt_type =? RX_8851B_DESC_PKT_T_PPDU_STATUS)
       then d ← read_fields m desc rxd_body d;
            if mdata d r_long_rxd =? 1 then read_long m desc d else Ret d
       else Ret d);
  Ret (negb (mdata d r_pktlen =? 0), d).

Definition RX_DESC_L_SIZE_8851B : Z := 32.
Definition RX_DESC_S_SIZE_8851B : Z := 16.
Definition RX_PPDU_MAC_INFO_SIZE_8851B : Z := 4.
Definition RX_DESC_DRV_INFO_UNIT_8851B : Z := 8.

(** [hal_parsing_rx_wd_8851b] of the USB build: address and length of the
    packet, or nothing when the descriptor is refused. *)
Definition hal_parsing_rx_wd_8851b (m : list Z) (buf : Z) (d : rtw_r_meta_data) :
    outcome (option (Z * Z) * rtw_r_meta_data) :=
  '(ok, d) ← _hal_parsing_rx_wd_8851b m buf d;
  if negb ok then Ret (None, d)
  else
    let desc_l := if mdata d r_long_rxd =? 0 then RX_DESC_S_SIZE_8851B else RX_DESC_L_SIZE_8851B in
    let shift := u8 (mdata d r_shift * 2 + mdata d r_drv_info_size * RX_DESC_DRV_INFO_UNIT_8851B
                     + desc_l) in
    let pkt := if (mdata d r_mac_info_vld =? 1)
                  && negb (mdata d r_rpkt_type =? RX_8851B_DESC_PKT_T_PPDU_STATUS)
               then buf + shift + RX_PPDU_MAC_INFO_SIZE_8851B else buf + shift in
    Ret (Some (pkt, u16 (mdata d r_pktlen)), d).

(** ** The parser of the MAC layer *)

(** [enum mac_ax_pkt_t], the values the parser gives. *)
Inductive mac_ax_pkt_t :=
  | MAC_AX_PKT_DATA | MAC_AX_PKT_C2H | MAC_AX_PKT_PPDU | MAC_AX_PKT_CH_INFO | MAC_AX_PKT_DFS.

#[global] Instance mac_ax_pkt_t_eq_dec : EqDecision mac_ax_pkt_t.
Proof. solve_decision. Defined.

(** [struct mac_ax_rxpkt_info]; the union holds the error flags of a data
    packet or the flag of a PPDU status. *)
Inductive rxpkt_union :=
  | Udata (crc_err icv_err : Z)
  | Uppdu (mac_info : Z)
  | Unone.

Record mac_ax_rxpkt_info := RxpktInfo {
  rxi_type : mac_ax_pkt_t; rxi_rxdlen : Z; rxi_drvsize : Z; rxi_shift : Z; rxi_pktsize : Z;
  rxi_u : rxpkt_union
}.

Definition AX_RXD_RPKT_LEN : field := Field 0 16383.
Definition AX_RXD_SHIFT : field := Field 14 3.
Definition AX_RXD_MAC_INFO_VLD : field := FBIT 23.
Definition AX_RXD_RPKT_TYPE : field := Field 24 15.
Definition AX_RXD_DRV_INFO_SIZE : field := Field 28 7.
Definition AX_RXD_LONG_RXD : field := FBIT 31.
Definition AX_RXD_CRC32_ERR : field := FBIT 9.
Definition AX_RXD_ICV_ERR : field := FBIT 10.

(** [rxdes_parse_comm_8851b]: what every packet has. *)
Definition rxdes_parse_comm_8851b (hdr_val : Z) (t : mac_ax_pkt_t) (u : rxpkt_union) :
    mac_ax_rxpkt_info :=
  RxpktInfo t (if GET_FIELD hdr_val AX_RXD_LONG_RXD =? 0 then 16 else 32)
    (u8 (GET_FIELD hdr_val AX_RXD_DRV_INFO_SIZE)) (u8 (GET_FIELD hdr_val AX_RXD_SHIFT))
    (GET_FIELD hdr_val AX_RXD_RPKT_LEN) u.

(** [rxdes_parse_wifi_8851b] *)
Definition rxdes_parse_wifi_8851b (m : list Z) (buf : Z) : outcome rxpkt_union :=
  hdr_val ← LE_P4BYTE m (buf + 12);
  Ret (Udata (GET_FIELD hdr_val AX_RXD_CRC32_ERR) (GET_FIELD hdr_val AX_RXD_ICV_ERR)).

(** [rxdes_parse_ppdu_8851b] *)
Definition rxdes_parse_ppdu_8851b (m : list Z) (buf : Z) : outcome rxpkt_union :=
  hdr_val ← LE_P4BYTE m buf; Ret (Uppdu (GET_FIELD hdr_val AX_RXD_MAC_INFO_VLD)).

(** The table [rxdes_parse_mac_8851b]; a type without a handler is not an item. *)
Definition rxdes_parse_mac_8851b (m : list Z) (buf rpkt_type : Z) :
    option (mac_ax_pkt_t * outcome rxpkt_union) :=
  if rpkt_type =? 0 then Some (MAC_AX_PKT_DATA, rxdes_parse_wifi_8851b m buf)
  else if rpkt_type =? 10 then Some (MAC_AX_PKT_C2H, Ret Unone)
  else if rpkt_type =? 1 then Some (MAC_AX_PKT_PPDU, rxdes_parse_ppdu_8851b m buf)
  else if rpkt_type =? 2 then Some (MAC_AX_PKT_CH_INFO, Ret Unone)
  else if rpkt_type =? 8 then Some (MAC_AX_PKT_DFS, Ret Unone)
  else None.

(** [mac_parse_rxdesc_8851b]: [None] is MACNOITEM. *)
Definition mac_parse_rxdesc_8851b (m : list Z) (buf : Z) : outcome (option mac_ax_rxpkt_info) :=
  hdr_val ← LE_P4BYTE m buf;
  match rxdes_parse_mac_8851b m buf (u8 (GET_FIELD hdr_val AX_RXD_RPKT_TYPE)) with
  | Some (t, handler) => u ← handler; Ret (Some (rxdes_parse_comm_8851b hdr_val t u))
  | None => Ret None
  end.

(** ** PPDU status and radar reports *)

(** [struct mac_ax_ppdu_usr] *)
Record mac_ax_ppdu_usr := PpduUsr {
  u_vld : Z; u_has_data : Z; u_has_ctrl : Z; u_has_mgnt : Z; u_has_bcn : Z; u_macid : Z
}.

(** [struct mac_ax_ppdu_rpt]; the pointers are offsets of the buffer. *)
Record mac_ax_ppdu_rpt := PpduRpt {
  rx_cnt_ptr : option Z; plcp_ptr : option Z; phy_st_ptr : option Z; phy_st_size : Z;
  rx_cnt_size : Z; lsig_len : Z; service : Z; usr_num : Z; fw_def : Z; is_to_self : Z;
  plcp_size : Z; usr : list mac_ax_ppdu_usr
}.

Definition AX_MAC_INFO_USR_NUM : field := Field 0 15.
Definition AX_MAC_INFO_FW_DEFINE : field := Field 8 255.
Definition AX_MAC_INFO_LSIG_LEN : field := Field 16 4095.
Definition AX_MAC_INFO_IS_TO_SELF : field := FBIT 28.
Definition AX_MAC_INFO_RX_CNT_VLD : field := FBIT 29.
Definition AX_MAC_INFO_SERVICE : field := Field 0 65535.
Definition AX_MAC_INFO_PLCP_LEN : field := Field 16 255.
Definition AX_MAC_INFO_MAC_ID_VALID : field := FBIT 0.
Definition AX_MAC_INFO_HAS_DATA : field := FBIT 1.
Definition AX_MAC_INFO_HAS_CTRL : field := FBIT 2.
Definition AX_MAC_INFO_HAS_MGNT : field := FBIT 3.
Definition AX_MAC_INFO_HAS_BCN : field := FBIT 4.
Definition AX_MAC_INFO_MACID : field := Field 8 255.

Definition MAC_AX_RX_CNT_SIZE : Z := 96.
Definition MAC_AX_MAC_INFO_USE_SIZE : Z := 4.
Definition MAC_MAX_4_USR : Z := 4.

(** The loop over the users. *)
Fixpoint mac_info_users (n : nat) (m : list Z) (ptr : Z) : outcome (list mac_ax_ppdu_usr) :=
  match n with
  | O => Ret []
  | S n =>
      val ← LE_P4BYTE m ptr;
      us ← mac_info_users n m (ptr + MAC_AX_MAC_INFO_USE_SIZE);
      Ret (PpduUsr (GET_FIELD val AX_MAC_INFO_MAC_ID_VALID) (GET_FIELD val AX_MAC_INFO_HAS_DATA)
             (GET_FIELD val AX_MAC_INFO_HAS_CTRL) (GET_FIELD val AX_MAC_INFO_HAS_MGNT)
             (GET_FIELD val AX_MAC_INFO_HAS_BCN) (u8 (GET_FIELD val AX_MAC_INFO_MACID)) :: us)
  end.

(** [parse_mac_info] for the 8851B: too many users is MACPARSEERR ([None]).
    [plcp_size] is a byte. *)
Definition parse_mac_info (m : list Z) (buf len : Z) : outcome (option mac_ax_ppdu_rpt) :=
  val ← LE_P4BYTE m buf;
  let n := u8 (GET_FIELD val AX_MAC_INFO_USR_NUM) in
  if MAC_MAX_4_USR <? n then Ret None
  else
    let cnt_size := if GET_FIELD val AX_MAC_INFO_RX_CNT_VLD =? 0 then 0 else MAC_AX_RX_CNT_SIZE in
    val1 ← LE_P4BYTE m (buf + 4);
    let psize := u8 (u8 (GET_FIELD val1 AX_MAC_INFO_PLCP_LEN) * 8) in
    us ← mac_info_users (Z.to_nat n) m (buf + 8);
    let pad := if Z.land n 1 =? 0 then 0 else MAC_AX_MAC_INFO_USE_SIZE in
    let off := 8 + n * MAC_AX_MAC_INFO_USE_SIZE + pad in
    let off1 := off + cnt_size in
    let off2 := off1 + psize in
    Ret (Some (PpduRpt
      (if cnt_size =? 0 then None else Some (buf + off))
      (if psize =? 0 then None else Some (buf + off1))
      (if off2 <? len then Some (buf + off2) else None)
      (if off2 <? len then len - off2 else 0)
      cnt_size (u16 (GET_FIELD val AX_MAC_INFO_LSIG_LEN)) (u16 (GET_FIELD val1 AX_MAC_INFO_SERVICE))
      n (u8 (GET_FIELD val AX_MAC_INFO_FW_DEFINE)) (GET_FIELD val AX_MAC_INFO_IS_TO_SELF)
      psize us)).

(** [mac_parse_ppdu] *)
Definition mac_parse_ppdu (m : list Z) (buf ppdu_len mac_info : Z) : outcome (option mac_ax_ppdu_rpt) :=
  if mac_info =? 0
  then Ret (Some (PpduRpt None None (Some buf) ppdu_len 0 0 0 0 0 0 0 []))
  else parse_mac_info m buf ppdu_len.

(** [struct hal_ppdu_sts]; the user slots that are not valid stay cleared. *)
Record hal_ppdu_sts := HalPpduSts {
  hp_phy_st_ptr : option Z; hp_phy_st_size : Z; hp_usr_num : Z; hp_usr : list mac_ax_ppdu_usr;
  hp_rx_cnt : list Z
}.

Definition HAL_RXCNT_MAX : nat := 43.

(** The counters as the HAL decodes them: one byte of each. *)
Fixpoint rx_cnt_decode (n : nat) (m : list Z) (ptr : Z) : outcome (list Z) :=
  match n with
  | O => Ret []
  | S n => b ← rd m ptr; r ← rx_cnt_decode n m (ptr + 2); Ret (u16 b :: r)
  end.

(** [_hal_mac_ax_ppdu_sts_to_hal_ppdu_sts] *)
Definition _hal_mac_ax_ppdu_sts_to_hal_ppdu_sts (m : list Z) (r : mac_ax_ppdu_rpt) :
    outcome hal_ppdu_sts :=
  cnt ← match rx_cnt_ptr r with
        | Some p => if rx_cnt_size r =? 0 then Ret []
                    else rx_cnt_decode (Nat.min (Z.to_nat (rx_cnt_size r / 2)) HAL_RXCNT_MAX) m p
        | None => Ret []
        end;
  Ret (HalPpduSts (phy_st_ptr r) (phy_st_size r) (usr_num r)
         (map (fun u => if u_vld u =? 1 then u else PpduUsr 0 0 0 0 0 0) (usr r)) cnt).

(** [rtw_hal_mac_ax_parse_ppdu_sts]: the report of the caller, which starts
    cleared, is filled on success only. *)
Definition rtw_hal_mac_ax_parse_ppdu_sts (m : list Z) (mac_valid buf buf_l : Z) : outcome hal_ppdu_sts :=
  r ← mac_parse_ppdu m buf buf_l mac_valid;
  match r with
  | Some r => _hal_mac_ax_ppdu_sts_to_hal_ppdu_sts m r
  | None => Ret (HalPpduSts None 0 0 [] [])
  end.

(** [struct mac_ax_dfs_rpt] *)
Record mac_ax_dfs_rpt := DfsRpt {
  dfs_ptr : Z; drop_num : Z; max_cont_drop : Z; total_drop : Z; dfs_num : Z
}.

Definition AX_DFS_DROP_NUM : field := Field 0 65535.
Definition AX_DFS_MAX_CONT_DROP : field := Field 16 255.
Definition AX_DFS_TOTAL_DROP : field := Field 24 255.

Definition MAC_AX_DFS_HDR_SIZE : Z := 8.

Definition MAC_AX_DFS_RPT_SIZE_SH : Z := 3.

(** [mac_parse_dfs]: [false] with the report is MACPARSEERR. *)
Definition mac_parse_dfs (m : list Z) (buf dfs_len : Z) : outcome (bool * mac_ax_dfs_rpt) :=
  val ← LE_P4BYTE m buf;
  val1 ← LE_P4BYTE m (buf + 4);
  let len := u32 (dfs_len - MAC_AX_DFS_HDR_SIZE) in
  Ret (Z.land len (BIT MAC_AX_DFS_RPT_SIZE_SH - 1) =? 0,
       DfsRpt (buf + MAC_AX_DFS_HDR_SIZE) (u16 (GET_FIELD val AX_DFS_DROP_NUM))
         (u16 (GET_FIELD val AX_DFS_MAX_CONT_DROP)) (u16 (GET_FIELD val1 AX_DFS_TOTAL_DROP))
         (u16 (Z.shiftr len MAC_AX_DFS_RPT_SIZE_SH))).

(** ** What the descriptor says *)

(** The value of a member in the bytes at [desc]. *)
Definition fld (m : list Z) (desc : Z) (f : rxfield) : Z :=
  GET_FIELD (word_of (take 4 (drop (Z.to_nat (desc + 4 * (GET_RX_AX_DESC f).1)) m)))
    (GET_RX_AX_DESC f).2.

(** The tests the code makes on the members [v] of a descriptor. *)
Definition is_wifi (v : rxfield -> Z) : bool :=
  (v r_rpkt_type =? RX_8851B_DESC_PKT_T_WIFI) || (v r_rpkt_type =? RX_8851B_DESC_PKT_T_PPDU_STATUS).

(** The metadata of a packet after its descriptor was read, over the metadata
    it had. *)
Definition rxd_view (v old : rxfield -> Z) (g : rxfield) : Z :=
  if decide (g ∈ rxd_head) then v g
  else if negb (is_wifi v) then old g
  else if decide (g ∈ rxd_body) then v g
  else if negb (v r_long_rxd =? 1) then old g
  else if decide (g = r_macid) then if v r_addr_cam_vld =? 0 then 255 else v g
  else if decide (g ∈ rxd_long ++ rxd_long_cam ++ [r_sec_type]) then v g
  else old g.

(** Where the packet starts, counted from the descriptor. *)
Definition rxd_offset (v : rxfield -> Z) : Z :=
  (if v r_long_rxd =? 0 then 16 else 32) + 2 * v r_shift + 8 * v r_drv_info_size
  + (if (v r_mac_info_vld =? 1) && negb (v r_rpkt_type =? RX_8851B_DESC_PKT_T_PPDU_STATUS) then 4 else 0).


(** The bytes of the buffer a descriptor needs. *)
Definition rxd_size (m : list Z) (desc : Z) : Z :=
  if is_wifi (fld m desc) && (fld m desc r_long_rxd =? 1) then 32 else 16.

(** A decidable fact about concrete members, by evaluation. *)
Ltac by_dec := refine (bool_decide_unpack _ _); exact I.

Lemma read_field_spec m desc d f :
  0 <= desc -> desc + 4 * (GET_RX_AX_DESC f).1 + 4 <= zlen m ->
  read_field m desc d f = Ret (set_mdata d f (fld m desc f)).
Proof.
  intros H0 Hl. unfold read_field, LE_BITS_TO_4BYTE, LE_P4BYTE.
  assert (0 <= (GET_RX_AX_DESC f).1) by (destruct f; cbn; lia).
  by rewrite rds_spec, !bind_Ret by lia.
Qed.

Lemma read_fields_spec m desc fs d :
  0 <= desc -> Forall (fun f => desc + 4 * (GET_RX_AX_DESC f).1 + 4 <= zlen m) fs ->
  exists d', read_fields m desc fs d = Ret d' /\
    (forall g, mdata d' g = if decide (g ∈ fs) then fld m desc g else mdata d g) /\
    ta d' = ta d /\ mac_addr d' = mac_addr d.
Proof.
  intros H0 Hf. revert d. induction Hf as [|f fs Hl Hf IH]; intros d.
  { exists d. split_and!; auto. }
  cbn [read_fields]. rewrite read_field_spec, bind_Ret by done.
  destruct (IH (set_mdata d f (fld m desc f))) as (d' & E & Hm & Ht & Ha).
  exists d'. split_and!; auto. intros g. rewrite Hm. cbn [set_mdata mdata].
  destruct (decide (g ∈ fs)), (decide (g = f)), (decide (g ∈ f :: fs)); subst; set_solver.
Qed.

(** All members of the list lie in the first [k] words. *)
Lemma in_words k fs (m : list Z) desc :
  forallb (fun f => (GET_RX_AX_DESC f).1 <? k) fs = true -> desc + 4 * k <= zlen m ->
  Forall (fun f => desc + 4 * (GET_RX_AX_DESC f).1 + 4 <= zlen m) fs.
Proof.
  intros Hf Hl. rewrite forallb_forall in Hf. apply List.Forall_forall. intros f Hin.
  specialize (Hf f Hin). apply Z.ltb_lt in Hf. lia.
Qed.

Lemma read_long_spec m desc d :
  0 <= desc -> desc + 32 <= zlen m ->
  exists d', read_long m desc d = Ret d' /\ ta d' = ta d /\
    mac_addr d' = take 6 (drop (Z.to_nat (desc + 24)) m) /\
    forall g, mdata d' g =
      if decide (g = r_macid) then if fld m desc r_addr_cam_vld =? 0 then 255 else fld m desc g
      else if decide (g ∈ rxd_long ++ rxd_long_cam ++ [r_sec_type]) then fld m desc g
      else mdata d g.
Proof.
  intros H0 Hl. unfold read_long.
  destruct (read_fields_spec m desc rxd_long d) as (d1 & -> & M1 & T1 & A1); auto.
  { apply (in_words 8); [reflexivity|lia]. }
  rewrite bind_Ret. rewrite (M1 r_addr_cam_vld). rewrite decide_True by by_dec.
  set (d2 := set_mdata d1 r_macid (if fld m desc r_addr_cam_vld =? 0 then 255 else fld m desc r_macid)).
  assert ((if fld m desc r_addr_cam_vld =? 0 then Ret (set_mdata d1 r_macid 255)
           else read_field m desc d1 r_macid) = Ret d2) as ->.
  { unfold d2. destruct (_ =? 0); [done|]. apply read_field_spec; [done|]. cbn. lia. }
  rewrite bind_Ret.
  destruct (read_fields_spec m desc rxd_long_cam d2) as (d3 & -> & M3 & T3 & A3); auto.
  { apply (in_words 8); [reflexivity|lia]. }
  rewrite bind_Ret, rds_spec, bind_Ret, read_field_spec by (cbn; lia).
  eexists. split; [reflexivity|]. cbn [set_mdata set_mac_addr mdata ta mac_addr].
  split; [by rewrite T3|]. split; [done|]. intros g. rewrite M3. unfold d2. cbn [set_mdata mdata].
  rewrite M1. destruct g; reflexivity.
Qed.

Lemma hal_parsing_rx_spec m desc d :
  0 <= desc -> desc + rxd_size m desc <= zlen m ->
  exists d', _hal_parsing_rx_wd_8851b m desc d = Ret (negb (fld m desc r_pktlen =? 0), d') /\
    (forall g, mdata d' g = rxd_view (fld m desc) (mdata d) g) /\ ta d' = ta d /\
    mac_addr d' = (if is_wifi (fld m desc) && (fld m desc r_long_rxd =? 1)
                   then take 6 (drop (Z.to_nat (desc + 24)) m) else mac_addr d).
Proof.
  intros H0 Hl. assert (desc + 16 <= zlen m) by (unfold rxd_size in Hl; destruct (_ && _); lia).
  unfold _hal_parsing_rx_wd_8851b.
  destruct (read_fields_spec m desc rxd_head d) as (d1 & -> & M1 & T1 & A1); auto.
  { apply (in_words 4); [reflexivity|lia]. }
  rewrite bind_Ret, (M1 r_rpkt_type), decide_True by by_dec.
  fold (is_wifi (fld m desc)). unfold rxd_view. destruct (is_wifi (fld m desc)) eqn:Ew; cbn [negb].
  2:{ rewrite bind_Ret. exists d1. rewrite (M1 r_pktlen), decide_True by by_dec.
      split_and!; auto. }
  destruct (read_fields_spec m desc rxd_body d1) as (d2 & -> & M2 & T2 & A2); auto.
  { apply (in_words 4); [reflexivity|lia]. }
  rewrite bind_Ret.
  assert (forall g, mdata d2 g = if decide (g ∈ rxd_head) then fld m desc g
                                 else if decide (g ∈ rxd_body) then fld m desc g else mdata d g) as M.
  { intros g. rewrite M2, M1. destruct g; reflexivity. }
  rewrite (M r_long_rxd).
  rewrite decide_True by by_dec.
  destruct (fld m desc r_long_rxd =? 1) eqn:El; cbn [negb].
  - unfold rxd_size in Hl. rewrite Ew, El in Hl. cbn [andb] in Hl.
    destruct (read_long_spec m desc d2) as (d3 & -> & T3 & A3 & M3); auto.
    rewrite bind_Ret. exists d3. split_and!; [|intros g|congruence|done].
    + rewrite M3, !decide_False, M, decide_True by by_dec. done.
    + rewrite M3, M. destruct g; reflexivity.
  - rewrite bind_Ret. exists d2. rewrite (M r_pktlen), decide_True by by_dec.
    split_and!; [done| |congruence|cbn [andb]; congruence]. intros g. rewrite M.
    destruct (decide (g ∈ rxd_head)), (decide (g ∈ rxd_body)); done.
Qed.

(** ** The packet behind the descriptor *)

Lemma GET_FIELD_bits w o n : 0 <= n -> 0 <= GET_FIELD w (bits o n) < 2 ^ n.
Proof.
  intros Hn. unfold GET_FIELD, bits. cbn [f_sh f_msk]. rewrite Z.land_ones by done.
  apply Z.mod_pos_bound. lia.
Qed.

Lemma fld_bits m desc f o n :
  (GET_RX_AX_DESC f).2 = bits o n -> 0 <= n -> 0 <= fld m desc f < 2 ^ n.
Proof. intros E Hn. unfold fld. rewrite E. by apply GET_FIELD_bits. Qed.

Lemma pkt_offset_range m desc : 16 <= rxd_offset (fld m desc) < 100.
Proof.
  unfold rxd_offset. pose proof (fld_bits m desc r_shift 14 2 eq_refl ltac:(lia)).
  pose proof (fld_bits m desc r_drv_info_size 28 3 eq_refl ltac:(lia)).
  destruct (_ =? 0), (_ && _); lia.
Qed.

Lemma hal_parsing_rx_wd_spec m desc d :
  0 <= desc -> desc + rxd_size m desc <= zlen m ->
  exists d', hal_parsing_rx_wd_8851b m desc d =
      Ret (if fld m desc r_pktlen =? 0 then None
           else Some (desc + rxd_offset (fld m desc), fld m desc r_pktlen), d') /\
    (forall g, mdata d' g = rxd_view (fld m desc) (mdata d) g) /\ ta d' = ta d /\
    mac_addr d' = (if is_wifi (fld m desc) && (fld m desc r_long_rxd =? 1)
                   then take 6 (drop (Z.to_nat (desc + 24)) m) else mac_addr d).
Proof.
  intros H0 Hl. destruct (hal_parsing_rx_spec m desc d) as (d' & E & M & T & A); auto.
  exists d'. split_and!; auto. unfold hal_parsing_rx_wd_8851b. rewrite E, bind_Ret.
  destruct (fld m desc r_pktlen =? 0); [done|]. cbn [negb]. rewrite !M.
  change (rxd_view (fld m desc) (mdata d) r_long_rxd) with (fld m desc r_long_rxd).
  change (rxd_view (fld m desc) (mdata d) r_shift) with (fld m desc r_shift).
  change (rxd_view (fld m desc) (mdata d) r_drv_info_size) with (fld m desc r_drv_info_size).
  change (rxd_view (fld m desc) (mdata d) r_mac_info_vld) with (fld m desc r_mac_info_vld).
  change (rxd_view (fld m desc) (mdata d) r_rpkt_type) with (fld m desc r_rpkt_type).
  change (rxd_view (fld m desc) (mdata d) r_pktlen) with (fld m desc r_pktlen).
  pose proof (fld_bits m desc r_shift 14 2 eq_refl ltac:(lia)).
  pose proof (fld_bits m desc r_drv_info_size 28 3 eq_refl ltac:(lia)).
  pose proof (fld_bits m desc r_pktlen 0 14 eq_refl ltac:(lia)).
  unfold RX_DESC_S_SIZE_8851B, RX_DESC_L_SIZE_8851B, RX_DESC_DRV_INFO_UNIT_8851B,
    RX_PPDU_MAC_INFO_SIZE_8851B, rxd_offset.
  rewrite u16_small by (unfold is_u16; lia).
  rewrite u8_small by (unfold is_u8; destruct (_ =? 0); lia).
  do 4 f_equal. ifs; lia.
Qed.

(** The parser of the MAC layer gives the same packet. *)
Lemma LE_P4BYTE_spec m p :
  0 <= p -> p + 4 <= zlen m -> LE_P4BYTE m p = Ret (word_of (take 4 (drop (Z.to_nat p) m))).
Proof. intros. unfold LE_P4BYTE. by rewrite rds_spec, bind_Ret by lia. Qed.

Lemma mac_parse_rxdesc_spec m desc :
  0 <= desc -> desc + 16 <= zlen m ->
  match mac_parse_rxdesc_8851b m desc with
  | Ret (Some i) =>
      rxi_pktsize i = fld m desc r_pktlen /\ rxi_shift i = fld m desc r_shift /\
      rxi_drvsize i = fld m desc r_drv_info_size /\
      rxi_rxdlen i = (if fld m desc r_long_rxd =? 0 then 16 else 32) /\
      rxi_type i =
        (if fld m desc r_rpkt_type =? RX_8851B_DESC_PKT_T_WIFI then MAC_AX_PKT_DATA
         else if fld m desc r_rpkt_type =? RX_8851B_DESC_PKT_T_PPDU_STATUS then MAC_AX_PKT_PPDU
         else if fld m desc r_rpkt_type =? RX_8851B_DESC_PKT_T_CHANNEL_INFO then MAC_AX_PKT_CH_INFO
         else if fld m desc r_rpkt_type =? RX_8851B_DESC_PKT_T_DFS_RPT then MAC_AX_PKT_DFS
         else MAC_AX_PKT_C2H) /\
      rxi_u i = (if fld m desc r_rpkt_type =? RX_8851B_DESC_PKT_T_WIFI
                 then Udata (fld m desc r_crc32) (fld m desc r_icverr)
                 else if fld m desc r_rpkt_type =? RX_8851B_DESC_PKT_T_PPDU_STATUS
                 then Uppdu (fld m desc r_mac_info_vld) else Unone)
  | Ret None => fld m desc r_rpkt_type ∉ [0; 1; 2; 8; 10]
  | _ => False
  end.
Proof.
  intros H0 Hl. unfold mac_parse_rxdesc_8851b. rewrite LE_P4BYTE_spec, bind_Ret by lia.
  set (w := word_of (take 4 (drop (Z.to_nat desc) m))).
  assert (forall f o n, GET_RX_AX_DESC f = (0, bits o n) -> fld m desc f = GET_FIELD w (bits o n)) as Hw.
  { intros f o n E. unfold fld, w. rewrite E. cbn [fst snd]. by rewrite Z.add_0_r. }
  pose proof (fld_bits m desc r_shift 14 2 eq_refl ltac:(lia)) as Rs.
  pose proof (fld_bits m desc r_drv_info_size 28 3 eq_refl ltac:(lia)) as Rd.
  pose proof (fld_bits m desc r_rpkt_type 24 4 eq_refl ltac:(lia)) as Rt.
  change (GET_FIELD w AX_RXD_RPKT_TYPE) with (GET_FIELD w (bits 24 4)).
  rewrite <- (Hw r_rpkt_type) by done. rewrite u8_small by (unfold is_u8; lia).
  unfold rxdes_parse_mac_8851b.
  assert (forall t u, let i := rxdes_parse_comm_8851b w t u in
    rxi_pktsize i = fld m desc r_pktlen /\ rxi_shift i = fld m desc r_shift /\
    rxi_drvsize i = fld m desc r_drv_info_size /\
    rxi_rxdlen i = (if fld m desc r_long_rxd =? 0 then 16 else 32)) as Hc.
  { intros t u. cbn. rewrite !(Hw r_long_rxd 31 1), !(Hw r_pktlen 0 14), !(Hw r_shift 14 2) by done.
    rewrite (Hw r_drv_info_size 28 3) by done. rewrite (Hw r_shift 14 2) in Rs by done.
    rewrite (Hw r_drv_info_size 28 3) in Rd by done.
    split_and!; auto; apply u8_small; unfold is_u8; lia. }
  unfold RX_8851B_DESC_PKT_T_WIFI, RX_8851B_DESC_PKT_T_PPDU_STATUS, RX_8851B_DESC_PKT_T_CHANNEL_INFO,
    RX_8851B_DESC_PKT_T_DFS_RPT.
  set (t := fld m desc r_rpkt_type) in *.
  destruct (Z.eqb_spec t 0) as [->|].
  { unfold rxdes_parse_wifi_8851b. rewrite LE_P4BYTE_spec, !bind_Ret by lia.
    destruct (Hc MAC_AX_PKT_DATA (Udata (fld m desc r_crc32) (fld m desc r_icverr))) as (?&?&?&?). by split_and!. }
  destruct (Z.eqb_spec t 10) as [->|].
  { rewrite bind_Ret. destruct (Hc MAC_AX_PKT_C2H Unone) as (?&?&?&?). by split_and!. }
  destruct (Z.eqb_spec t 1) as [->|].
  { unfold rxdes_parse_ppdu_8851b. rewrite LE_P4BYTE_spec, !bind_Ret by lia. fold w.
    destruct (Hc MAC_AX_PKT_PPDU (Uppdu (fld m desc r_mac_info_vld))) as (?&?&?&?).
    rewrite (Hw r_mac_info_vld 23 1) in * by done. by split_and!. }
  destruct (Z.eqb_spec t 2) as [->|].
  { rewrite bind_Ret. destruct (Hc MAC_AX_PKT_CH_INFO Unone) as (?&?&?&?). by split_and!. }
  destruct (Z.eqb_spec t 8) as [->|].
  { rewrite bind_Ret. destruct (Hc MAC_AX_PKT_DFS Unone) as (?&?&?&?). by split_and!. }
  rewrite !elem_of_cons, elem_of_nil. lia.
Qed.

(** ** Descriptors the chip writes *)

Definition all_rxfields : list rxfield :=
  rxd_head ++ rxd_body ++ rxd_long ++ r_macid :: rxd_long_cam ++ [r_sec_type].

(** The layout of the MAC layer, src/phl/hal_g6/mac/rxdesc.h: the word of a
    member, and its shift and mask in it.  The two parsers of this file have
    their own positions. *)
Definition AX_RXD (f : rxfield) : Z * field :=
  match f with
  | r_pktlen => (0, Field 0 0x3fff)
  | r_shift => (0, Field 14 0x3)
  | r_wl_hd_iv_len => (0, Field 16 0x3f)
  | r_bb_sel => (0, FBIT 22)
  | r_mac_info_vld => (0, FBIT 23)
  | r_rpkt_type => (0, Field 24 0xf)
  | r_drv_info_size => (0, Field 28 0x7)
  | r_long_rxd => (0, FBIT 31)
  | r_ppdu_type => (1, Field 0 0xf)
  | r_ppdu_cnt => (1, Field 4 0x7)
  | r_sr_en => (1, FBIT 7)
  | r_user_id => (1, Field 8 0xff)
  | r_rx_rate => (1, Field 16 0x1ff)
  | r_rx_gi_ltf => (1, Field 25 0x7)
  | r_non_srg_ppdu => (1, FBIT 28)
  | r_inter_ppdu => (1, FBIT 29)
  | r_bw => (1, Field 30 0x3)
  | r_freerun_cnt => (2, Field 0 0xffffffff)
  | r_a1_match => (3, FBIT 0)
  | r_sw_dec => (3, FBIT 1)
  | r_hw_dec => (3, FBIT 2)
  | r_ampdu => (3, FBIT 3)
  | r_ampdu_end_pkt => (3, FBIT 4)
  | r_amsdu => (3, FBIT 5)
  | r_amsdu_cut => (3, FBIT 6)
  | r_last_msdu => (3, FBIT 7)
  | r_bypass => (3, FBIT 8)
  | r_crc32 => (3, FBIT 9)
  | r_icverr => (3, FBIT 10)
  | r_magic_wake => (3, FBIT 11)
  | r_unicast_wake => (3, FBIT 12)
  | r_pattern_wake => (3, FBIT 13)
  | r_get_ch_info => (3, Field 14 0x3)
  | r_rx_statistics => (3, FBIT 26)
  | r_pattern_idx => (3, Field 16 0x1f)
  | r_target_idc => (3, Field 21 0x7)
  | r_chksum_ofld_en => (3, FBIT 24)
  | r_with_llc => (3, FBIT 25)
  | r_frame_type => (4, Field 0 0x3)
  | r_mc => (4, FBIT 2)
  | r_bc => (4, FBIT 3)
  | r_more_data => (4, FBIT 4)
  | r_more_frag => (4, FBIT 5)
  | r_pwr_bit => (4, FBIT 6)
  | r_qos => (4, FBIT 7)
  | r_tid => (4, Field 8 0xf)
  | r_eosp => (4, FBIT 12)
  | r_htc => (4, FBIT 13)
  | r_q_null => (4, FBIT 14)
  | r_seq => (4, Field 16 0xfff)
  | r_frag_num => (4, Field 28 0xf)
  | r_sec_cam_idx => (5, Field 0 0xff)
  | r_addr_cam => (5, Field 8 0xff)
  | r_macid => (5, Field 16 0xff)
  | r_rx_pl_id => (5, Field 24 0xf)
  | r_addr_cam_vld => (5, FBIT 28)
  | r_addr_fwd_en => (5, FBIT 29)
  | r_rx_pl_match => (5, FBIT 30)
  | r_sec_type => (7, Field 17 0xf)
  | r_ppdu_cnt_chg => (0, Field 0 0)
  end.

Definition in_dword (k : Z) : list rxfield :=
  List.filter (fun f => (AX_RXD f).1 =? k) all_rxfields.

(** Word [k] of the descriptor of a packet with the members [v]. *)
Definition rxd_word (v : rxfield -> Z) (k : Z) : Z :=
  WORD (map (fun f => (v f, (AX_RXD f).2)) (in_dword k)).

(** Its bytes: four words, and for a long descriptor two more, the address and
    the security type. *)
Definition rxd_bytes (v : rxfield -> Z) (mac : list Z) : list Z :=
  wd_bytes (map (rxd_word v) [0; 1; 2; 3]) ++
  if v r_long_rxd =? 0 then []
  else wd_bytes (map (rxd_word v) [4; 5]) ++ mac ++ [2 * v r_sec_type; 0].

(** The members fit their bits. *)
Definition rxd_fits (v : rxfield -> Z) : Prop :=
  forall f, Z.land (v f) (f_msk (AX_RXD f).2) = v f.

(** Every member of a word comes back. *)
Definition apart (v : Z) (f : field) (p : Z * field) : Prop :=
  p = (v, f) \/ (0 <=? f_sh f) && (0 <=? f_sh p.2) && disjoint_fields f p.2 = true.

Lemma get_part v f p :
  (0 <=? f_sh f) = true -> apart v f p ->
  GET_FIELD (SET_WORD p.1 p.2) f = Z.land v (f_msk f) \/ GET_FIELD (SET_WORD p.1 p.2) f = 0.
Proof.
  intros Hs [->|Hp]; [left; by apply get_set_same|right; by apply get_set_other].
Qed.

Lemma get_WORD_absorb ps v f :
  (0 <=? f_sh f) = true -> Forall (apart v f) ps ->
  Z.lor (Z.land v (f_msk f)) (GET_FIELD (WORD ps) f) = Z.land v (f_msk f).
Proof.
  intros Hs. induction 1 as [|[w g] ps Hp Hf IH]; [by rewrite get_zero, Z.lor_0_r|].
  cbn [WORD]. rewrite get_lor. destruct (get_part v f (w, g) Hs Hp) as [E|E]; cbn [fst snd] in E; rewrite E.
  - by rewrite Z.lor_assoc, Z.lor_diag.
  - by rewrite Z.lor_0_l.
Qed.

Lemma get_WORD ps v f :
  (0 <=? f_sh f) = true -> In (v, f) ps -> Forall (apart v f) ps ->
  GET_FIELD (WORD ps) f = Z.land v (f_msk f).
Proof.
  intros Hs Hin Hf. induction Hf as [|[w g] ps Hp Hf IH]; [done|].
  cbn [WORD]. rewrite get_lor. destruct Hin as [[= -> ->]|Hin].
  - rewrite get_set_same by done. by apply get_WORD_absorb.
  - rewrite IH by done. destruct (get_part v f (w, g) Hs Hp) as [E|E]; cbn [fst snd] in E; rewrite E.
    + apply Z.lor_diag.
    + apply Z.lor_0_l.
Qed.

(** The members of one word do not overlap. *)
Definition disjoint_in_word (f g : rxfield) : bool :=
  negb ((AX_RXD f).1 =? (AX_RXD g).1) || bool_decide (g = f)
  || (0 <=? f_sh (AX_RXD f).2) && (0 <=? f_sh (AX_RXD g).2)
     && disjoint_fields (AX_RXD f).2 (AX_RXD g).2.

Lemma rxd_layout_disjoint :
  forallb (fun f => forallb (disjoint_in_word f) all_rxfields) all_rxfields = true.
Proof. vm_compute. reflexivity. Qed.

Lemma all_rxfields_in f : f = r_ppdu_cnt_chg \/ In f all_rxfields.
Proof.
  destruct (decide (f = r_ppdu_cnt_chg)); [by left|right].
  enough (bool_decide (f ∈ all_rxfields) = true) as H by (by apply bool_decide_eq_true, list_elem_of_In in H).
  by destruct f.
Qed.

Lemma rxd_word_get v f :
  rxd_fits v -> f <> r_ppdu_cnt_chg ->
  GET_FIELD (rxd_word v (AX_RXD f).1) (AX_RXD f).2 = v f.
Proof.
  intros Hv Hf. destruct (all_rxfields_in f) as [|Hin]; [done|]. etransitivity; [|apply (Hv f)].
  apply get_WORD; [by destruct f| |].
  - apply in_map_iff. exists f. split; [done|]. apply filter_In. by rewrite Z.eqb_refl.
  - apply List.Forall_forall. intros [w g'] Hg. apply in_map_iff in Hg as (g & [= <- <-] & Hg).
    apply filter_In in Hg as [Hg Hw]. apply Z.eqb_eq in Hw.
    pose proof rxd_layout_disjoint as Hd. rewrite forallb_forall in Hd. specialize (Hd f Hin).
    rewrite forallb_forall in Hd. specialize (Hd g Hg). unfold disjoint_in_word in Hd.
    rewrite Hw, Z.eqb_refl in Hd. cbn [negb orb] in Hd. apply orb_true_iff in Hd as [Hd|Hd].
    + apply bool_decide_eq_true in Hd as ->. by left.
    + by right.
Qed.

(** What the HAL reads of such a descriptor: it takes the second bit of the
    channel information for the flag of the statistics. *)
Definition rxd_parsed (v : rxfield -> Z) (f : rxfield) : Z :=
  match f with
  | r_get_ch_info => v r_get_ch_info mod 2
  | r_rx_statistics => v r_get_ch_info / 2
  | _ => v f
  end.

Lemma get_low_bits w o : 0 <= o ->
  GET_FIELD w (bits o 1) = GET_FIELD w (bits o 2) mod 2 /\ GET_FIELD w (bits (o + 1) 1) = GET_FIELD w (bits o 2) / 2.
Proof.
  intros Ho. unfold GET_FIELD, bits. cbn [f_sh f_msk]. rewrite !Z.land_ones, <- Z.shiftr_shiftr by lia.
  rewrite (Z.shiftr_div_pow2 _ 1) by lia. change (2 ^ 1) with 2. change (2 ^ 2) with 4.
  generalize (Z.shiftr w o). intros x. split; zlia.
Qed.

Lemma rxd_word_parsed v f :
  rxd_fits v -> f <> r_ppdu_cnt_chg ->
  GET_FIELD (rxd_word v (GET_RX_AX_DESC f).1) (GET_RX_AX_DESC f).2 = rxd_parsed v f.
Proof.
  intros Hv Hf. pose proof (rxd_word_get v f Hv Hf) as Hg. pose proof (rxd_word_get v r_get_ch_info Hv ltac:(done)) as Hc.
  destruct (get_low_bits (rxd_word v 3) 14) as [L1 L2]; [lia|]. change (GET_FIELD (rxd_word v 3) (bits 14 2) = v r_get_ch_info) in Hc.
  destruct f; first [exact Hg | cbn [GET_RX_AX_DESC fst snd rxd_parsed]; rewrite <- Hc; first [exact L1 | exact L2] | done].
Qed.

(** A word is a 32-bit value. *)
Lemma WORD_u32 ps :
  Forall (fun p => 0 <= f_sh p.2 /\ 0 <= f_msk p.2 /\ Z.shiftl (f_msk p.2) (f_sh p.2) < 2 ^ 32) ps ->
  is_u32 (WORD ps).
Proof.
  induction 1 as [|[v f] ps (Hs & Hm & Hb) Hf IH]; [unfold is_u32; cbn; lia|].
  cbn [WORD snd] in *. unfold is_u32 in *. change 4294967296 with (2 ^ 32) in *.
  assert (0 <= SET_WORD v f < 2 ^ 32) as Hw.
  { unfold SET_WORD. rewrite Z.shiftl_mul_pow2 in * by done.
    assert (0 <= Z.land v (f_msk f) <= f_msk f).
    { split; [apply Z.land_nonneg; by right|]. rewrite Z.land_comm.
      apply Z.ldiff_le; [done|]. apply Z.bits_inj'. intros i Hi.
      rewrite Z.ldiff_spec, Z.land_spec, Z.bits_0. by destruct (Z.testbit (f_msk f) i), (Z.testbit v i). }
    pose proof (Z.pow_pos_nonneg 2 (f_sh f)). nia. }
  split; [apply Z.lor_nonneg; lia|].
  destruct (Z.eq_dec (Z.lor (SET_WORD v f) (WORD ps)) 0) as [->|Hz]; [lia|].
  apply Z.log2_lt_pow2; [pose proof (proj2 (Z.lor_nonneg (SET_WORD v f) (WORD ps))); lia|].
  rewrite Z.log2_lor by lia.
  apply Z.max_lub_lt; [destruct (Z.eq_dec (SET_WORD v f) 0) as [->|]|destruct (Z.eq_dec (WORD ps) 0) as [->|]];
    try (cbn; lia); apply Z.log2_lt_pow2; lia.
Qed.

Ltac word_u32 :=
  apply WORD_u32;
  repeat (apply Forall_cons_2; [repeat split; vm_compute; first [reflexivity | discriminate]|]);
  apply Forall_nil_2.

Lemma rxd_word_u32 v k : is_u32 (rxd_word v k).
Proof.
  apply WORD_u32, List.Forall_forall. intros [w g'] Hg. apply in_map_iff in Hg as (g & [= _ <-] & _).
  destruct g; repeat split; vm_compute; first [reflexivity | discriminate].
Qed.

(** A word at its place in the bytes. *)
Lemma rxd_bytes_word v mac pre post k :
  0 <= k < 4 \/ v r_long_rxd <> 0 /\ 0 <= k < 6 ->
  take 4 (drop (Z.to_nat (zlen pre + 4 * k)) (pre ++ rxd_bytes v mac ++ post)) = le32 (rxd_word v k).
Proof.
  intros Hk. rewrite Z2Nat.inj_add by (try apply zlen_nonneg; lia). rewrite to_nat_zlen, drop_app_add.
  unfold rxd_bytes. destruct (Z.eqb_spec (v r_long_rxd) 0) as [E|E].
  - assert (k = 0 \/ k = 1 \/ k = 2 \/ k = 3) as [->|[->|[->| ->]]] by lia; reflexivity.
  - assert (k = 0 \/ k = 1 \/ k = 2 \/ k = 3 \/ k = 4 \/ k = 5) as [->|[->|[->|[->|[->| ->]]]]] by lia;
      reflexivity.
Qed.

Lemma fld_rxd_bytes v mac pre post f :
  rxd_fits v -> length mac = 6%nat -> Forall is_u8 mac -> f <> r_ppdu_cnt_chg ->
  (GET_RX_AX_DESC f).1 < 4 \/ v r_long_rxd <> 0 ->
  fld (pre ++ rxd_bytes v mac ++ post) (zlen pre) f = rxd_parsed v f.
Proof.
  intros Hv Hm H8 Hf Hk. unfold fld. destruct (decide (f = r_sec_type)) as [->|Hs].
  - destruct Hk as [Hk|Hk]; [cbn in Hk; lia|]. cbn [GET_RX_AX_DESC fst snd rxd_parsed].
    rewrite Z2Nat.inj_add by (try apply zlen_nonneg; lia). rewrite to_nat_zlen, drop_app_add.
    unfold rxd_bytes. rewrite (proj2 (Z.eqb_neq _ _)) by done.
    destruct mac as [|a [|b [|c [|d [|e [|g [|]]]]]]]; try discriminate Hm.
    match goal with |- GET_FIELD (word_of ?l) _ = _ => change l with [e; g; 2 * v r_sec_type; 0] end.
    do 4 apply Forall_cons_1 in H8 as [_ H8]. apply Forall_cons_1 in H8 as [He H8].
    apply Forall_cons_1 in H8 as [Hg _]. specialize (Hv r_sec_type). cbn in Hv.
    rewrite (Z.land_ones _ 4) in Hv by lia.
    unfold word_of, GET_FIELD, bits. cbn [nth f_sh f_msk]. rewrite Z.land_ones, Z.shiftr_div_pow2 by lia.
    unfold is_u8 in *. change (2 ^ 17) with 131072. change (2 ^ 4) with 16 in *. zlia.
  - assert (0 <= (GET_RX_AX_DESC f).1 /\ ((GET_RX_AX_DESC f).1 < 6)) as [H0 H6].
    { destruct f; cbn; try lia; done. }
    rewrite rxd_bytes_word, word_of_le32 by (try apply rxd_word_u32; destruct Hk; auto with lia).
    by apply rxd_word_parsed.
Qed.

(** The views agree when the members that are read do. *)
Lemma rxd_view_ext v w old g :
  (forall f, f <> r_ppdu_cnt_chg -> (GET_RX_AX_DESC f).1 < 4 \/ v r_long_rxd <> 0 -> w f = v f) ->
  rxd_view w old g = rxd_view v old g.
Proof.
  intros H. assert (forall f, In f (rxd_head ++ rxd_body) -> w f = v f) as Hs.
  { intros f Hf. assert ((GET_RX_AX_DESC f).1 < 4 /\ f <> r_ppdu_cnt_chg) as [? ?] by
      (repeat (destruct Hf as [<-|Hf]; [done|]); done). apply H; auto. }
  unfold rxd_view, is_wifi. rewrite (Hs r_rpkt_type), (Hs r_long_rxd) by (cbn; tauto).
  destruct (decide (g ∈ rxd_head)) as [Hg|_].
  { apply Hs, in_or_app. left. by apply list_elem_of_In. }
  destruct (negb _); [done|]. destruct (decide (g ∈ rxd_body)) as [Hg|_].
  { apply Hs, in_or_app. right. by apply list_elem_of_In. }
  destruct (Z.eqb_spec (v r_long_rxd) 1) as [E|]; [|done]. cbn [negb].
  assert (forall f, f <> r_ppdu_cnt_chg -> w f = v f) as Ha by (intros; apply H; [done|right; lia]).
  rewrite (Ha r_addr_cam_vld) by done. destruct (decide (g = r_macid)) as [->|]; [by rewrite (Ha r_macid)|].
  destruct (decide (g ∈ rxd_long ++ rxd_long_cam ++ [r_sec_type])) as [Hg|]; [|done]. apply Ha.
  intros ->. revert Hg. by_dec.
Qed.

Lemma rxd_offset_ext v w :
  (forall f, f <> r_ppdu_cnt_chg -> (GET_RX_AX_DESC f).1 < 4 \/ v r_long_rxd <> 0 -> w f = v f) ->
  rxd_offset w = rxd_offset v.
Proof. intros H. unfold rxd_offset. by rewrite !H by (try done; left; cbn; lia). Qed.

Lemma rxd_bytes_len v mac :
  length mac = 6%nat -> zlen (rxd_bytes v mac) = if v r_long_rxd =? 0 then 16 else 32.
Proof.
  intros Hm. unfold rxd_bytes, zlen. rewrite length_app, wd_bytes_length. cbn [map length].
  destruct (_ =? 0); [done|]. rewrite !length_app, wd_bytes_length, Hm. done.
Qed.

(** The members that a parser of descriptors written with the values [v] leaves:
    those of the first word but the header length for every packet, those of the
    first four words for WiFi packets and PPDU status, and all of them if the
    descriptor of such a packet is long; the others keep their old values. *)
Definition rxd_members (v old : rxfield -> Z) (g : rxfield) : Z :=
  let k := (AX_RXD g).1 in
  match g with
  | r_ppdu_cnt_chg => old g
  | r_wl_hd_iv_len => if is_wifi v then v g else old g
  | r_macid => if is_wifi v && (v r_long_rxd =? 1) then if v r_addr_cam_vld =? 0 then 255 else v g else old g
  | _ => if (k =? 0) || is_wifi v && ((k <? 4) || (v r_long_rxd =? 1)) then v g else old g
  end.

Lemma rxd_view_members v old g : rxd_view v old g = rxd_members v old g.
Proof.
  unfold rxd_view, rxd_members. destruct (is_wifi v), (v r_long_rxd =? 1); cbn [negb andb]; destruct g; reflexivity.
Qed.

Lemma fits_flag v f o : rxd_fits v -> (AX_RXD f).2 = bits o 1 -> v f = 0 \/ v f = 1.
Proof.
  intros Hv Hf. specialize (Hv f). rewrite Hf in Hv. cbn [bits f_msk] in Hv.
  rewrite Z.land_ones in Hv by lia. pose proof (Z.mod_pos_bound (v f) (2 ^ 1)). lia.
Qed.

(** C29. A descriptor that is written with the layout of the MAC header comes
    back: for values that fit their fields, [hal_parsing_rx_wd_8851b] reads the
    members of the first word (but the length of header and IV) for every
    packet, those of the first four words for WiFi packets and PPDU status, and
    those of the last four words and the address for such packets with a long
    descriptor; all other members keep their old values.  The members are read
    as they were written, with three exceptions: the MAC id is 0xFF when the
    chip found no address entry, of the two bits of the channel information the
    second is taken for the statistics flag, and the statistics flag of the
    header (bit 26) is not read.  The packet is found behind the descriptor, the
    shift and the driver information without the eight-bit offset wrapping, and
    the descriptor is refused exactly when the packet is empty. *)
Theorem rx_desc_roundtrip v mac pre post d :
  rxd_fits v -> length mac = 6%nat -> Forall is_u8 mac ->
  exists d',
    hal_parsing_rx_wd_8851b (pre ++ rxd_bytes v mac ++ post) (zlen pre) d =
    Ret (if v r_pktlen =? 0 then None else Some (zlen pre + rxd_offset v, v r_pktlen), d') /\
    (forall g, mdata d' g = rxd_members (rxd_parsed v) (mdata d) g) /\ ta d' = ta d /\
    mac_addr d' = if is_wifi v && (v r_long_rxd =? 1) then mac else mac_addr d.
Proof.
  intros Hv Hl H8. set (m := pre ++ rxd_bytes v mac ++ post).
  assert (forall f, f <> r_ppdu_cnt_chg -> (GET_RX_AX_DESC f).1 < 4 \/ v r_long_rxd <> 0 ->
                    fld m (zlen pre) f = rxd_parsed v f) as Hf by (intros; by apply fld_rxd_bytes).
  assert (zlen pre + rxd_size m (zlen pre) <= zlen m) as Hr.
  { pose proof (rxd_bytes_len v mac Hl) as Hb. unfold rxd_size.
    assert (zlen m = zlen pre + (zlen (rxd_bytes v mac) + zlen post)) as -> by (unfold m; by rewrite !zlen_app).
    pose proof (zlen_nonneg post). rewrite (Hf r_long_rxd) by (cbn; auto with lia). cbn [rxd_parsed].
    destruct (fits_flag v r_long_rxd 31 Hv eq_refl) as [E|E]; rewrite E in *; cbn [Z.eqb Pos.eqb] in *;
      destruct (is_wifi _); cbn [andb]; lia. }
  destruct (hal_parsing_rx_wd_spec m (zlen pre) d) as (d' & Ed & M & T & A); [apply zlen_nonneg|done|].
  exists d'. rewrite Ed, (Hf r_pktlen), (rxd_offset_ext (rxd_parsed v) _ Hf) by (cbn; auto with lia). cbn [rxd_parsed].
  split_and!; [done|intros g; rewrite M, <- rxd_view_members; by apply rxd_view_ext|done|].
  rewrite A. unfold is_wifi. rewrite (Hf r_rpkt_type), (Hf r_long_rxd) by (cbn; auto with lia). cbn [rxd_parsed].
  destruct (_ || _); [|done]. cbn [andb].
  destruct (Z.eqb_spec (v r_long_rxd) 1) as [E|]; [|done].
  rewrite Z2Nat.inj_add by (try apply zlen_nonneg; lia). unfold m. rewrite to_nat_zlen, drop_app_add.
  unfold rxd_bytes. rewrite E. by destruct mac as [|? [|? [|? [|? [|? [|? [|]]]]]]]; try discriminate Hl.
Qed.

(** A WiFi packet of 60 bytes with a long descriptor. *)
Definition wifi60 (f : rxfield) : Z :=
  match f with r_pktlen => 60 | r_long_rxd => 1 | r_seq => 17 | r_macid => 3 | r_addr_cam_vld => 1 | _ => 0 end.

Lemma rx_desc_roundtrip_witness :
  rxd_fits wifi60 /\
  exists d',
    hal_parsing_rx_wd_8851b ([] ++ rxd_bytes wifi60 [1; 2; 3; 4; 5; 6] ++ []) (zlen (@nil Z)) meta0 =
    Ret (Some (32, 60), d') /\ mdata d' r_seq = 17 /\ mdata d' r_macid = 3 /\ mac_addr d' = [1; 2; 3; 4; 5; 6].
Proof.
  assert (rxd_fits wifi60) as Hf by (intros []; reflexivity). split; [exact Hf|].
  destruct (rx_desc_roundtrip wifi60 [1; 2; 3; 4; 5; 6] [] [] meta0 Hf eq_refl) as (d' & E & M & _ & A).
  - repeat (apply Forall_cons_2; [done|]). apply Forall_nil_2.
  - exists d'. rewrite E, !M, A. split_and!; reflexivity.
Defined.

(** The statistics flag at the place of the MAC header is not seen by the HAL,
    which looks at a bit of the channel information. *)
Lemma rx_statistics_misread :
  let v f := match f with r_rx_statistics => 1 | _ => wifi60 f end in
  match hal_parsing_rx_wd_8851b (rxd_bytes v (replicate 6 0)) 0 meta0 with
  | Ret (Some r, d) => r = (32, 60) /\ mdata d r_rx_statistics = 0
  | _ => False
  end.
Proof. vm_compute. by split. Qed.

(** The parser of the MAC layer and that of the HAL find the same packet. *)
Theorem rx_parsers_agree m desc d i :
  0 <= desc -> desc + rxd_size m desc <= zlen m -> mac_parse_rxdesc_8851b m desc = Ret (Some i) ->
  rxi_pktsize i <> 0 ->
  exists d' a,
    hal_parsing_rx_wd_8851b m desc d = Ret (Some (a, rxi_pktsize i), d') /\
    a = desc + rxi_rxdlen i + 2 * rxi_shift i + 8 * rxi_drvsize i
        + (if (mdata d' r_mac_info_vld =? 1) && negb (bool_decide (rxi_type i = MAC_AX_PKT_PPDU)) then 4 else 0).
Proof.
  intros H0 Hl Hi Hp. pose proof (mac_parse_rxdesc_spec m desc H0) as Hs.
  rewrite Hi in Hs. destruct Hs as (E1 & E2 & E3 & E4 & E5 & E6).
  { unfold rxd_size in Hl. destruct (_ && _); lia. }
  destruct (hal_parsing_rx_wd_spec m desc d) as (d' & Ed & M & _); auto.
  exists d', (desc + rxd_offset (fld m desc)). rewrite Ed, E1.
  rewrite (proj2 (Z.eqb_neq (fld m desc r_pktlen) 0)) by congruence. split; [done|].
  rewrite E2, E3, E4, E5, (M r_mac_info_vld).
  change (rxd_view (fld m desc) (mdata d) r_mac_info_vld) with (fld m desc r_mac_info_vld).
  unfold rxd_offset, RX_8851B_DESC_PKT_T_WIFI, RX_8851B_DESC_PKT_T_PPDU_STATUS,
    RX_8851B_DESC_PKT_T_CHANNEL_INFO, RX_8851B_DESC_PKT_T_DFS_RPT.
  assert (bool_decide ((if fld m desc r_rpkt_type =? 0 then MAC_AX_PKT_DATA
     else if fld m desc r_rpkt_type =? 1 then MAC_AX_PKT_PPDU
     else if fld m desc r_rpkt_type =? 2 then MAC_AX_PKT_CH_INFO
     else if fld m desc r_rpkt_type =? 8 then MAC_AX_PKT_DFS else MAC_AX_PKT_C2H) = MAC_AX_PKT_PPDU)
     = (fld m desc r_rpkt_type =? 1)) as ->; [|lia].
  destruct (Z.eqb_spec (fld m desc r_rpkt_type) 0) as [->|]; [reflexivity|].
  ifs; reflexivity.
Qed.

(** ** PPDU status reports *)

(** The word of one user. *)
Definition usr_word (u : mac_ax_ppdu_usr) : Z :=
  WORD [(u_vld u, AX_MAC_INFO_MAC_ID_VALID); (u_has_data u, AX_MAC_INFO_HAS_DATA);
        (u_has_ctrl u, AX_MAC_INFO_HAS_CTRL); (u_has_mgnt u, AX_MAC_INFO_HAS_MGNT);
        (u_has_bcn u, AX_MAC_INFO_HAS_BCN); (u_macid u, AX_MAC_INFO_MACID)].

(** What the chip reports of a PPDU: the users, the counters when they are
    switched on, the PLCP header in units of eight bytes and the PHY status. *)
Record ppdu_report := PpduReport {
  pr_usr : list mac_ax_ppdu_usr; pr_cnt : option (list Z); pr_plcp : list Z; pr_phy : list Z;
  pr_fw_def : Z; pr_lsig : Z; pr_self : Z; pr_service : Z
}.

Definition pr_word0 (r : ppdu_report) : Z :=
  WORD [(zlen (pr_usr r), AX_MAC_INFO_USR_NUM); (pr_fw_def r, AX_MAC_INFO_FW_DEFINE);
        (pr_lsig r, AX_MAC_INFO_LSIG_LEN); (pr_self r, AX_MAC_INFO_IS_TO_SELF);
        (match pr_cnt r with Some _ => 1 | None => 0 end, AX_MAC_INFO_RX_CNT_VLD)].

Definition pr_word1 (r : ppdu_report) : Z :=
  WORD [(pr_service r, AX_MAC_INFO_SERVICE); (zlen (pr_plcp r) / 8, AX_MAC_INFO_PLCP_LEN)].

Definition pr_pad (r : ppdu_report) : list Z :=
  if Nat.even (length (pr_usr r)) then [] else replicate 4 0.

Definition pr_cnt_bytes (r : ppdu_report) : list Z :=
  match pr_cnt r with Some c => flat_map put_le16 c | None => [] end.

(** The bytes of the report. *)
Definition pr_bytes (r : ppdu_report) : list Z :=
  le32 (pr_word0 r) ++ le32 (pr_word1 r) ++ flat_map (fun u => le32 (usr_word u)) (pr_usr r)
  ++ pr_pad r ++ pr_cnt_bytes r ++ pr_plcp r ++ pr_phy r.

Definition bit01 (v : Z) : Prop := v = 0 \/ v = 1.

Definition usr_ok (u : mac_ax_ppdu_usr) : Prop :=
  bit01 (u_vld u) /\ bit01 (u_has_data u) /\ bit01 (u_has_ctrl u) /\ bit01 (u_has_mgnt u) /\
  bit01 (u_has_bcn u) /\ is_u8 (u_macid u).

Record report_ok (r : ppdu_report) : Prop := {
  rok_usr : Forall usr_ok (pr_usr r);
  rok_num : (length (pr_usr r) <= 4)%nat;
  rok_cnt : match pr_cnt r with Some c => length c = 48%nat | None => True end;
  rok_plcp : (8 | zlen (pr_plcp r)) /\ zlen (pr_plcp r) < 2048;
  rok_fw : is_u8 (pr_fw_def r); rok_lsig : 0 <= pr_lsig r < 4096; rok_self : bit01 (pr_self r);
  rok_service : is_u16 (pr_service r)
}.

Lemma land_bit v : bit01 v -> Z.land v 1 = v.
Proof. by intros [-> | ->]. Qed.

Lemma LE_P4BYTE_le32 pre w post p :
  p = zlen pre -> is_u32 w -> LE_P4BYTE (pre ++ le32 w ++ post) p = Ret w.
Proof.
  intros -> Hw. unfold LE_P4BYTE. rewrite (rds_at pre (le32 w)) by done.
  by rewrite bind_Ret, word_of_le32.
Qed.

Lemma usr_word_u32 u : is_u32 (usr_word u).
Proof. word_u32. Qed.

Lemma mac_info_users_spec us pre post :
  Forall usr_ok us ->
  mac_info_users (length us) (pre ++ flat_map (fun u => le32 (usr_word u)) us ++ post) (zlen pre) = Ret us.
Proof.
  intros Hu. revert pre. induction Hu as [|u us Hu Hus IH]; intros pre; [done|].
  cbn [length mac_info_users flat_map]. rewrite <- app_assoc.
  rewrite (LE_P4BYTE_le32 pre), bind_Ret by (try apply usr_word_u32; done).
  replace (pre ++ le32 (usr_word u) ++ flat_map (fun u => le32 (usr_word u)) us ++ post)
    with ((pre ++ le32 (usr_word u)) ++ flat_map (fun u => le32 (usr_word u)) us ++ post)
    by by rewrite <- app_assoc.
  replace (zlen pre + MAC_AX_MAC_INFO_USE_SIZE) with (zlen (pre ++ le32 (usr_word u))) by (rewrite zlen_app; done).
  rewrite IH, bind_Ret. destruct u as [a b c d e f], Hu as (Ha & Hb & Hc & Hd & He & Hf).
  cbn [u_vld u_has_data u_has_ctrl u_has_mgnt u_has_bcn u_macid] in *.
  unfold usr_word. cbn [u_vld u_has_data u_has_ctrl u_has_mgnt u_has_bcn u_macid].
  assert (Z.land f (f_msk AX_MAC_INFO_MACID) = f) as Ef.
  { apply (land_fits f AX_MAC_INFO_MACID 8); [done|lia|exact Hf]. }
  do 3 f_equal; wd_field; rewrite ?Ef, ?u8_small by done; auto using land_bit.
Qed.

(** The bytes of a part of the report. *)
Definition sect (m : list Z) (p : option Z) (n : Z) : outcome (list Z) :=
  match p with Some p => rds m p n | None => Ret [] end.

Lemma pr_words r :
  report_ok r ->
  let w := pr_word0 r in
  GET_FIELD w AX_MAC_INFO_USR_NUM = zlen (pr_usr r) /\ GET_FIELD w AX_MAC_INFO_FW_DEFINE = pr_fw_def r /\
  GET_FIELD w AX_MAC_INFO_LSIG_LEN = pr_lsig r /\ GET_FIELD w AX_MAC_INFO_IS_TO_SELF = pr_self r /\
  GET_FIELD w AX_MAC_INFO_RX_CNT_VLD = (match pr_cnt r with Some _ => 1 | None => 0 end) /\
  GET_FIELD (pr_word1 r) AX_MAC_INFO_SERVICE = pr_service r /\
  GET_FIELD (pr_word1 r) AX_MAC_INFO_PLCP_LEN = zlen (pr_plcp r) / 8.
Proof.
  intros [Hu Hn Hc [Hd Hp] Hf Hl Hs Hv]. unfold pr_word0, pr_word1. cbn zeta. pose proof (zlen_nonneg (pr_plcp r)).
  split_and!; wd_field.
  - apply (land_fits _ AX_MAC_INFO_USR_NUM 4); [done|lia|unfold zlen; lia].
  - apply (land_fits _ AX_MAC_INFO_FW_DEFINE 8); [done|lia|exact Hf].
  - apply (land_fits _ AX_MAC_INFO_LSIG_LEN 12); [done|lia|exact Hl].
  - by apply land_bit.
  - by destruct (pr_cnt r).
  - apply (land_fits _ AX_MAC_INFO_SERVICE 16); [done|lia|exact Hv].
  - apply (land_fits _ AX_MAC_INFO_PLCP_LEN 8); [done|lia|]. zlia.
Qed.

Lemma pad_len r : zlen (pr_pad r) = if Z.land (zlen (pr_usr r)) 1 =? 0 then 0 else 4.
Proof.
  unfold pr_pad, zlen. rewrite (Z.land_ones _ 1) by lia.
  destruct (Nat.even (length (pr_usr r))) eqn:E.
  - apply Nat.even_spec in E as [k ->]. rewrite (proj2 (Z.eqb_eq _ _)); [done|]. zlia.
  - rewrite <- Nat.negb_odd in E. apply negb_false_iff, Nat.odd_spec in E as [k ->].
    rewrite (proj2 (Z.eqb_neq _ _)); [done|]. zlia.
Qed.

Lemma users_len us : zlen (flat_map (fun u => le32 (usr_word u)) us) = 4 * zlen us.
Proof. induction us as [|u us IH]; [done|]. cbn [flat_map]. rewrite zlen_app, IH, zlen_cons. change (zlen (le32 _)) with 4. lia. Qed.

Lemma cnt_bytes_len r :
  report_ok r -> zlen (pr_cnt_bytes r) = (match pr_cnt r with Some _ => 96 | None => 0 end).
Proof.
  intros H. pose proof (rok_cnt r H) as Hc. unfold pr_cnt_bytes. destruct (pr_cnt r) as [c|]; [|done].
  assert (forall c, length (flat_map put_le16 c) = 2 * length c)%nat as Hl.
  { clear. intros c. induction c as [|x c IH]; [done|]. cbn [flat_map length]. rewrite length_app, IH. cbn. lia. }
  unfold zlen. rewrite Hl, Hc. done.
Qed.
(** The report read at its place, whatever follows the users. *)
Lemma parse_mac_info_run r pre rest len :
  report_ok r ->
  let cs := match pr_cnt r with Some _ => 96 | None => 0 end in
  let ps := zlen (pr_plcp r) mod 256 in
  let o := 8 + 4 * zlen (pr_usr r) + zlen (pr_pad r) in
  parse_mac_info (pre ++ le32 (pr_word0 r) ++ le32 (pr_word1 r)
                  ++ flat_map (fun u => le32 (usr_word u)) (pr_usr r) ++ rest) (zlen pre) len =
  Ret (Some (PpduRpt (if cs =? 0 then None else Some (zlen pre + o))
    (if ps =? 0 then None else Some (zlen pre + (o + cs)))
    (if o + cs + ps <? len then Some (zlen pre + (o + cs + ps)) else None)
    (if o + cs + ps <? len then len - (o + cs + ps) else 0)
    cs (pr_lsig r) (pr_service r) (zlen (pr_usr r)) (pr_fw_def r) (pr_self r) ps (pr_usr r))).
Proof.
  intros Hr cs ps o. pose proof (pr_words r Hr) as (W1 & W2 & W3 & W4 & W5 & W6 & W7).
  pose proof Hr as [Hu Hn _ [Hd Hp] Hf Hl Hs Hv]. pose proof (zlen_nonneg (pr_plcp r)) as Hp0.
  assert (0 <= zlen (pr_usr r) <= 4) as Hn' by (unfold zlen; lia).
  set (U := flat_map (fun u => le32 (usr_word u)) (pr_usr r)). unfold parse_mac_info.
  rewrite (LE_P4BYTE_le32 pre _ _ (zlen pre)), bind_Ret by first [done | word_u32].
  rewrite W1, W2, W3, W4, W5, u8_small by (unfold is_u8 in *; lia).
  unfold MAC_MAX_4_USR. rewrite (proj2 (Z.ltb_ge _ _)) by lia.
  rewrite (app_assoc pre), (LE_P4BYTE_le32 (pre ++ le32 (pr_word0 r)) _ _ (zlen pre + 4)), bind_Ret
    by first [word_u32 | by rewrite zlen_app].
  rewrite W6, W7, (app_assoc (pre ++ _)).
  replace (zlen pre + 8) with (zlen ((pre ++ le32 (pr_word0 r)) ++ le32 (pr_word1 r))) by (rewrite !zlen_app; change (zlen (le32 _)) with 4; lia).
  rewrite to_nat_zlen. unfold U. rewrite mac_info_users_spec, bind_Ret by done.
  rewrite !(u16_small (pr_lsig r)), (u16_small (pr_service r)), (u8_small (pr_fw_def r)) by (unfold is_u8, is_u16 in *; lia).
  rewrite (u8_small (zlen (pr_plcp r) / 8)) by (unfold is_u8; zlia).
  replace (u8 (zlen (pr_plcp r) / 8 * 8)) with ps by (unfold ps, u8; destruct Hd as [k ->]; zlia).
  unfold MAC_AX_MAC_INFO_USE_SIZE, MAC_AX_RX_CNT_SIZE. rewrite <- pad_len.
  replace (8 + zlen (pr_usr r) * 4 + zlen (pr_pad r)) with o by (unfold o; lia).
  unfold cs. by destruct (pr_cnt r).
Qed.

(** A PPDU status report is taken apart as the chip wrote it:
    [parse_mac_info] returns the users and the scalar fields, and its pointers
    and sizes are those of the receive counters, of the PLCP header and of the
    PHY status inside the report, provided the PLCP header is shorter than 256
    bytes.  Its size is kept in a byte: for a longer header the size is taken
    modulo 256 and the rest of the header is handed on as PHY status. *)
Theorem ppdu_report_layout r pre post :
  report_ok r ->
  let m := pre ++ pr_bytes r ++ post in
  let n := Z.to_nat (zlen (pr_plcp r) mod 256) in
  exists rpt, parse_mac_info m (zlen pre) (zlen (pr_bytes r)) = Ret (Some rpt) /\
    usr rpt = pr_usr r /\ usr_num rpt = zlen (pr_usr r) /\ fw_def rpt = pr_fw_def r /\
    lsig_len rpt = pr_lsig r /\ is_to_self rpt = pr_self r /\ service rpt = pr_service r /\
    sect m (rx_cnt_ptr rpt) (rx_cnt_size rpt) = Ret (pr_cnt_bytes r) /\
    sect m (plcp_ptr rpt) (plcp_size rpt) = Ret (take n (pr_plcp r)) /\
    sect m (phy_st_ptr rpt) (phy_st_size rpt) = Ret (drop n (pr_plcp r) ++ pr_phy r) /\
    (zlen (pr_plcp r) < 256 ->
     sect m (plcp_ptr rpt) (plcp_size rpt) = Ret (pr_plcp r) /\
     sect m (phy_st_ptr rpt) (phy_st_size rpt) = Ret (pr_phy r)).
Proof.
  intros Hr m n. pose proof (zlen_nonneg (pr_plcp r)) as Hp0.
  pose proof (rok_plcp r Hr) as [Hd Hp].
  set (U := flat_map (fun u => le32 (usr_word u)) (pr_usr r)).
  set (P1 := take n (pr_plcp r)). set (P2 := drop n (pr_plcp r) ++ pr_phy r).
  assert (zlen P1 = zlen (pr_plcp r) mod 256) as LP1.
  { unfold P1, n, zlen. rewrite length_take. zlia. }
  set (pre3 := pre ++ le32 (pr_word0 r) ++ le32 (pr_word1 r) ++ U ++ pr_pad r).
  assert (zlen pre3 = zlen pre + (8 + 4 * zlen (pr_usr r) + zlen (pr_pad r))) as L3.
  { unfold pre3, U. rewrite !zlen_app, users_len. change (zlen (le32 _)) with 4. lia. }
  assert (m = pre3 ++ pr_cnt_bytes r ++ P1 ++ P2 ++ post) as Em.
  { unfold m, pr_bytes, P1, P2, pre3. rewrite <- !app_assoc. do 6 f_equal.
    by rewrite (app_assoc (take n _)), take_drop. }
  assert (zlen (pr_bytes r) = 8 + 4 * zlen (pr_usr r) + zlen (pr_pad r) + zlen (pr_cnt_bytes r) + zlen P1 + zlen P2) as Hlen.
  { assert (zlen m = zlen pre + zlen (pr_bytes r) + zlen post) as E1 by (unfold m; rewrite !zlen_app; lia).
    rewrite Em, !zlen_app, L3 in E1. lia. }
  pose proof (cnt_bytes_len r Hr) as Hc. pose proof (zlen_nonneg P2) as H2.
  eexists. split.
  { assert (m = pre ++ le32 (pr_word0 r) ++ le32 (pr_word1 r) ++ U
                 ++ (pr_pad r ++ pr_cnt_bytes r ++ pr_plcp r ++ pr_phy r ++ post)) as ->
      by (unfold m, pr_bytes; by rewrite <- !app_assoc).
    by apply parse_mac_info_run. }
  cbn [usr usr_num fw_def lsig_len is_to_self service rx_cnt_ptr rx_cnt_size plcp_ptr plcp_size phy_st_ptr phy_st_size].
  rewrite <- LP1, <- Hc, Hlen.
  match goal with |- context [?a <? ?b] => replace (a <? b) with (0 <? zlen P2) by (apply eq_true_iff_eq; rewrite !Z.ltb_lt; lia) end.
  assert (sect m (if zlen P1 =? 0 then None else Some (zlen pre + (8 + 4 * zlen (pr_usr r) + zlen (pr_pad r) + zlen (pr_cnt_bytes r)))) (zlen P1) = Ret P1) as S1.
  { destruct (Z.eqb_spec (zlen P1) 0) as [E|_]; cbn [sect].
    - destruct P1; [done|]. rewrite zlen_cons in E. pose proof (zlen_nonneg P1). lia.
    - rewrite Em, app_assoc. apply rds_at; [rewrite zlen_app; lia|done]. }
  match goal with |- context [sect m (if 0 <? zlen P2 then ?a else None) ?b] =>
    assert (sect m (if 0 <? zlen P2 then a else None) b = Ret P2) as S2 end.
  { destruct (Z.ltb_spec 0 (zlen P2)) as [E|E]; cbn [sect].
    - rewrite Em, !app_assoc, <- (app_assoc _ P2 post). apply rds_at; [rewrite !zlen_app; lia|lia].
    - destruct P2; [done|]. rewrite zlen_cons in E. pose proof (zlen_nonneg P2). lia. }
  split_and!; auto.
  - destruct (pr_cnt_bytes r) eqn:E; [done|]. rewrite zlen_cons, (proj2 (Z.eqb_neq _ _)) by (pose proof (zlen_nonneg l); lia).
    cbn [sect]. rewrite Em. apply rds_at; [lia|rewrite zlen_cons; lia].
  - intros Hs. rewrite S1, S2. unfold P1, P2.
    assert (n = length (pr_plcp r)) as -> by (unfold n, zlen in *; zlia). by rewrite firstn_all, drop_all.
Qed.

(** A report with one user, a PLCP header of eight bytes and two bytes of PHY
    status. *)
Definition small_report : ppdu_report :=
  PpduReport [PpduUsr 1 1 0 0 0 7] None (replicate 8 9) [3; 4] 0 100 1 0.

Lemma ppdu_report_layout_witness :
  report_ok small_report /\
  exists rpt, parse_mac_info ([] ++ pr_bytes small_report ++ []) (zlen (@nil Z)) (zlen (pr_bytes small_report)) = Ret (Some rpt) /\
    usr rpt = [PpduUsr 1 1 0 0 0 7] /\
    sect ([] ++ pr_bytes small_report ++ []) (phy_st_ptr rpt) (phy_st_size rpt) = Ret [3; 4].
Proof.
  assert (report_ok small_report) as H.
  { split; try (unfold is_u8, is_u16, bit01; cbn; lia).
    - apply Forall_cons_2; [|apply Forall_nil_2]. repeat split; unfold bit01; cbn; lia.
    - split; [exists 1; reflexivity|reflexivity]. }
  split; [exact H|].
  destruct (ppdu_report_layout small_report [] [] H) as (rpt & E & Hu & _ & _ & _ & _ & _ & _ & _ & _ & Hs).
  exists rpt. split; [exact E|]. split; [exact Hu|]. exact (proj2 (Hs eq_refl)).
Defined.

(** The receive counters are 16 bits wide; the HAL keeps the low byte of each. *)
Theorem rx_counters_cut cs pre post :
  Forall is_u16 cs ->
  rx_cnt_decode (length cs) (pre ++ flat_map put_le16 cs ++ post) (zlen pre) = Ret (map (fun c => c mod 256) cs).
Proof.
  intros H. revert pre. induction H as [|c cs Hc H IH]; intros pre; [done|].
  cbn [length rx_cnt_decode flat_map map]. rewrite put_le16_bytes by done. cbn [app].
  rewrite (rd_at pre _ _ (zlen pre)), bind_Ret by done.
  replace (pre ++ c mod 256 :: c / 256 :: flat_map put_le16 cs ++ post)
    with ((pre ++ [c mod 256; c / 256]) ++ flat_map put_le16 cs ++ post) by by rewrite <- app_assoc.
  replace (zlen pre + 2) with (zlen (pre ++ [c mod 256; c / 256])) by by rewrite zlen_app.
  rewrite IH, bind_Ret. do 2 f_equal. unfold u16. unfold is_u16 in Hc. zlia.
Qed.
