(* ===== verification/RxPsts.v ===== *)
(** * PPDU status: signal strength and frames that wait for it

    The chip reports the signal of a PPDU in a packet of its own that follows
    the frames of the PPDU.  The file models

    - the entry the HAL opens at the first frame of a PPDU and fills when the
      report arrives ([hal_rx_ppdu_sts_normal_data], [hal_rx_ppdu_sts] of
      src/phl/hal_g6/hal_rx.c) with the moving averages of the signal
      ([UPDATE_MA_RSSI] of src/phl/phl_def.h);
    - the queues of src/phl/phl_rx.c in which frames wait for their report
      ([phl_rx_proc_wait_phy_sts], [phl_rx_proc_phy_sts],
      [_phl_handle_ppdu_sts_q]) and the averages of the stations
      ([phl_rx_proc_ppdu_sts]).

    Packets are indices of the packet pool; the queues hold indices, as the C
    lists link the packets themselves ([PhlList] relates the two). *)
From Stdlib Require Import ZArith Lia Bool List ZifyNat.
From stdpp Require Import base tactics list numbers sets relations.
From S2P Require Import Prelude ByteBuf TxDesc RxDesc.

(** Update of a table. *)
Definition upd {A B} `{EqDecision A} (f : A -> B) (a : A) (b : B) : A -> B :=
  fun x => if decide (x = a) then b else f x.

Lemma tab_eq {A B} `{EqDecision A} (f : A -> B) a b : upd f a b a = b.
Proof. unfold upd. by rewrite decide_True. Qed.

Lemma tab_ne {A B} `{EqDecision A} (f : A -> B) a b x : x <> a -> upd f a b x = f x.
Proof. intros. unfold upd. by rewrite decide_False. Qed.

(** ** Moving averages *)

(** [enum rtw_rssi_type] *)
Inductive rtw_rssi_type :=
  | RTW_RSSI_DATA_ACAM | RTW_RSSI_DATA_ACAM_A1M | RTW_RSSI_DATA_OTHER
  | RTW_RSSI_CTRL_ACAM | RTW_RSSI_CTRL_ACAM_A1M | RTW_RSSI_CTRL_OTHER
  | RTW_RSSI_MGNT_ACAM | RTW_RSSI_MGNT_ACAM_A1M | RTW_RSSI_MGNT_OTHER
  | RTW_RSSI_UNKNOWN.

#[global] Instance rtw_rssi_type_eq_dec : EqDecision rtw_rssi_type.
Proof. solve_decision. Defined.

(** One row of [struct rtw_phl_rssi_stat]. *)
Record rssi_row := RssiRow {
  ma_rssi_ele_idx : Z; ma_rssi_ele_cnt : Z; ma_rssi_ele : list Z; ma_rssi_ele_sum : Z; ma_rssi : Z
}.

Record rtw_phl_rssi_stat := RssiStat {
  rssi_row_of : rtw_rssi_type -> rssi_row; last_rx_freerun : Z
}.

Definition PHL_MAX_RSSI : Z := 110.
Definition PHL_RSSI_MAVG_NUM : Z := 16.

(** [_phl_com_init_rssi_stat] *)
Definition _phl_com_init_rssi_stat : rtw_phl_rssi_stat :=
  RssiStat (fun _ => RssiRow 0 0 (replicate 16 0) 0 0) 0.

(** [UPDATE_MA_RSSI] on its row.  The sum is an unsigned 32-bit integer, the
    index and the count are bytes. *)
Definition update_row (r : rssi_row) (val : Z) : rssi_row :=
  let v := if PHL_MAX_RSSI <? val then PHL_MAX_RSSI else val in
  let idx := if ma_rssi_ele_idx r <? PHL_RSSI_MAVG_NUM then ma_rssi_ele_idx r else 0 in
  let oldest_rssi := nth (Z.to_nat idx) (ma_rssi_ele r) 0 in
  let ele := <[Z.to_nat idx := v]> (ma_rssi_ele r) in
  let sum := u32 (u32 (ma_rssi_ele_sum r - oldest_rssi) + v) in
  let cnt := if ma_rssi_ele_cnt r <? PHL_RSSI_MAVG_NUM then u8 (ma_rssi_ele_cnt r + 1)
             else ma_rssi_ele_cnt r in
  RssiRow (u8 (idx + 1)) cnt ele sum (u8 (sum / cnt)).

Definition UPDATE_MA_RSSI (s : rtw_phl_rssi_stat) (t : rtw_rssi_type) (val : Z) : rtw_phl_rssi_stat :=
  RssiStat (upd (rssi_row_of s) t (update_row (rssi_row_of s t) val)) (last_rx_freerun s).

(** ** PPDU status entries *)

(** [struct rtw_phl_ppdu_phy_info] *)
Record rtw_phl_ppdu_phy_info := PhyInfo {
  is_valid : bool; is_pkt_with_data : bool; rssi : Z; rssi_path : list Z; tx_bf : Z;
  phy_frame_type : Z; snr_fd_avg : Z; snr_fd : list Z; snr_td_avg : Z; snr_td : list Z;
  is_drvinfo_vld : bool; signal_strength : Z; ch_idx : Z; rxsc : Z
}.

Definition phy0 : rtw_phl_ppdu_phy_info :=
  PhyInfo false false 0 [0; 0; 0; 0] 0 0 0 [0; 0; 0; 0] 0 [0; 0; 0; 0] false 0 0 0.

(** [struct rtw_phl_ppdu_sts_ent] *)
Record rtw_phl_ppdu_sts_ent := StsEnt {
  se_frame_type : Z; se_addr_cam_vld : Z; se_crc32 : Z; se_ppdu_type : Z; se_rx_rate : Z;
  src_mac_addr : list Z; pkt_freerun_cnt : Z;
  se_valid : bool; phl_done : bool; se_usr_num : Z; se_freerun_cnt : Z;
  se_phy_info : rtw_phl_ppdu_phy_info; sta : list (bool * Z);
  frames : list nat
}.

(** [struct rtw_phl_ppdu_sts_info]; the tables are indexed by band and PPDU
    counter. *)
Record rtw_phl_ppdu_sts_info := StsInfo {
  sts_ent : Z * Z -> rtw_phl_ppdu_sts_ent;
  cur_rx_ppdu_cnt : Z -> Z; en_ppdu_sts : Z -> bool; latest_rx_is_psts : Z -> bool;
  en_psts_per_pkt : bool; psts_ampdu : bool; ppdu_sts_filter : Z; en_fake_psts : bool;
  cur_ppdu_cnt : Z -> Z
}.

Definition set_ent (i : rtw_phl_ppdu_sts_info) (k : Z * Z) (e : rtw_phl_ppdu_sts_ent) : rtw_phl_ppdu_sts_info :=
  StsInfo (upd (sts_ent i) k e) (cur_rx_ppdu_cnt i) (en_ppdu_sts i) (latest_rx_is_psts i)
    (en_psts_per_pkt i) (psts_ampdu i) (ppdu_sts_filter i) (en_fake_psts i) (cur_ppdu_cnt i).

Definition set_cur_rx (i : rtw_phl_ppdu_sts_info) (b v : Z) : rtw_phl_ppdu_sts_info :=
  StsInfo (sts_ent i) (upd (cur_rx_ppdu_cnt i) b v) (en_ppdu_sts i) (latest_rx_is_psts i)
    (en_psts_per_pkt i) (psts_ampdu i) (ppdu_sts_filter i) (en_fake_psts i) (cur_ppdu_cnt i).

Definition set_latest (i : rtw_phl_ppdu_sts_info) (b : Z) (v : bool) : rtw_phl_ppdu_sts_info :=
  StsInfo (sts_ent i) (cur_rx_ppdu_cnt i) (en_ppdu_sts i) (upd (latest_rx_is_psts i) b v)
    (en_psts_per_pkt i) (psts_ampdu i) (ppdu_sts_filter i) (en_fake_psts i) (cur_ppdu_cnt i).

Definition set_cur (i : rtw_phl_ppdu_sts_info) (b v : Z) : rtw_phl_ppdu_sts_info :=
  StsInfo (sts_ent i) (cur_rx_ppdu_cnt i) (en_ppdu_sts i) (latest_rx_is_psts i)
    (en_psts_per_pkt i) (psts_ampdu i) (ppdu_sts_filter i) (en_fake_psts i) (upd (cur_ppdu_cnt i) b v).

Definition set_frames (e : rtw_phl_ppdu_sts_ent) (fs : list nat) : rtw_phl_ppdu_sts_ent :=
  StsEnt (se_frame_type e) (se_addr_cam_vld e) (se_crc32 e) (se_ppdu_type e) (se_rx_rate e)
    (src_mac_addr e) (pkt_freerun_cnt e) (se_valid e) (phl_done e) (se_usr_num e) (se_freerun_cnt e)
    (se_phy_info e) (sta e) fs.

Definition RTW_PHL_PSTS_FLTR_MGNT : Z := BIT 0.
Definition RTW_PHL_PSTS_FLTR_CTRL : Z := BIT 1.
Definition RTW_PHL_PSTS_FLTR_DATA : Z := BIT 2.
Definition RTW_PHL_PSTS_FLTR_EXT_RSVD : Z := BIT 3.

(** [_phl_com_init_ppdu_sts] over cleared memory. *)
Definition _phl_com_init_ppdu_sts : rtw_phl_ppdu_sts_info :=
  StsInfo (fun _ => StsEnt 0 0 0 0 0 (replicate 6 0) 0 false false 0 0 phy0 (replicate 4 (false, 0)) [])
    (fun _ => 255) (fun _ => false) (fun _ => false) true false
    (Z.lor (Z.lor RTW_PHL_PSTS_FLTR_MGNT RTW_PHL_PSTS_FLTR_CTRL) RTW_PHL_PSTS_FLTR_EXT_RSVD) false (fun _ => 0).

(** [rtw_phl_init_ppdu_sts_para]; without the sniffer the data frames are
    never made to wait. *)
Definition rtw_phl_init_ppdu_sts_para (i : rtw_phl_ppdu_sts_info) (en ampdu : bool) (rx_fltr : Z) :
    rtw_phl_ppdu_sts_info :=
  StsInfo (sts_ent i) (cur_rx_ppdu_cnt i) (en_ppdu_sts i) (latest_rx_is_psts i) en ampdu
    (u8 (Z.land rx_fltr (Z.lnot RTW_PHL_PSTS_FLTR_DATA))) (en_fake_psts i) (cur_ppdu_cnt i).

Definition band_of (d : rtw_r_meta_data) : Z := if 0 <? mdata d r_bb_sel then 1 else 0.

(** ** The HAL side *)

(** Fields of the 802.11 header at [h]. *)
Definition PHL_GET_80211_HDR_TYPE (m : list Z) (h : Z) : outcome Z := LE_BITS_TO_2BYTE m h (bits 2 6).

Definition PHL_GET_80211_HDR_MORE_FRAG (m : list Z) (h : Z) : outcome Z := LE_BITS_TO_2BYTE m h (bits 10 1).

Definition PHL_GET_80211_HDR_RETRY (m : list Z) (h : Z) : outcome Z := LE_BITS_TO_2BYTE m h (bits 11 1).

Definition PHL_GET_80211_HDR_FRAG_NUM (m : list Z) (h : Z) : outcome Z := LE_BITS_TO_2BYTE m (h + 22) (bits 0 4).

Definition PHL_GET_80211_HDR_SEQUENCE (m : list Z) (h : Z) : outcome Z := LE_BITS_TO_2BYTE m (h + 22) (bits 4 12).

Definition PHL_GET_80211_HDR_ADDRESS2 (m : list Z) (h : Z) : outcome (list Z) := rds m (h + 10) 6.

Definition PHL_GET_80211_HDR_ADDRESS3 (m : list Z) (h : Z) : outcome (list Z) := rds m (h + 16) 6.

Definition RTW_FRAME_TYPE_MGNT : Z := 0.
Definition RTW_FRAME_TYPE_CTRL : Z := 1.
Definition RTW_FRAME_TYPE_DATA : Z := 2.

Definition RTW_IS_ASOC_PKT (t : Z) : bool := (t =? 12) || (t =? 8) || (t =? 4) || (t =? 0).

Definition RTW_IS_ASOC_REQ_PKT (t : Z) : bool := (t =? 8) || (t =? 0).

Definition RTW_IS_BEACON_OR_PROBE_RESP_PKT (t : Z) : bool := (t =? 32) || (t =? 20).

(** [hal_rx_ppdu_sts_normal_data]: at the first frame of a PPDU the entry is
    opened with what the frame says. *)
Definition hal_rx_ppdu_sts_normal_data (m : list Z) (hdr : Z) (d : rtw_r_meta_data)
    (i : rtw_phl_ppdu_sts_info) : outcome (rtw_r_meta_data * rtw_phl_ppdu_sts_info) :=
  let band := band_of d in
  let cnt := mdata d r_ppdu_cnt in
  if (cur_rx_ppdu_cnt i band =? cnt) && negb (latest_rx_is_psts i band) then Ret (d, i)
  else
    ft ← PHL_GET_80211_HDR_TYPE m hdr;
    src ← (if RTW_IS_BEACON_OR_PROBE_RESP_PKT ft then PHL_GET_80211_HDR_ADDRESS3 m hdr
           else if negb (mdata d r_a1_match =? 0) && RTW_IS_ASOC_REQ_PKT ft
           then PHL_GET_80211_HDR_ADDRESS2 m hdr
           else Ret (ta d));
    let e := sts_ent i (band, cnt) in
    let e' := StsEnt ft (mdata d r_addr_cam_vld) (mdata d r_crc32) (mdata d r_ppdu_type) (mdata d r_rx_rate)
                src (mdata d r_freerun_cnt) false (phl_done e) (se_usr_num e) (se_freerun_cnt e)
                (se_phy_info e) (sta e) (frames e) in
    Ret (set_mdata d r_ppdu_cnt_chg 1,
         set_cur_rx (set_ent (set_latest i band false) (band, cnt) e') band cnt).

(** The row a report goes to. *)
Definition rssi_class (frame_type addr_cam_vld a1_match : Z) : rtw_rssi_type :=
  let t := Z.land frame_type 3 in
  if t =? RTW_FRAME_TYPE_MGNT then
    if addr_cam_vld =? 0 then RTW_RSSI_MGNT_OTHER
    else if a1_match =? 1 then RTW_RSSI_MGNT_ACAM_A1M else RTW_RSSI_MGNT_ACAM
  else if t =? RTW_FRAME_TYPE_CTRL then
    if addr_cam_vld =? 0 then RTW_RSSI_CTRL_OTHER
    else if a1_match =? 1 then RTW_RSSI_CTRL_ACAM_A1M else RTW_RSSI_CTRL_ACAM
  else if t =? RTW_FRAME_TYPE_DATA then
    if addr_cam_vld =? 0 then RTW_RSSI_DATA_OTHER
    else if a1_match =? 1 then RTW_RSSI_DATA_ACAM_A1M else RTW_RSSI_DATA_ACAM
  else RTW_RSSI_UNKNOWN.

(** The entries of the users; a user the report does not name as valid keeps
    its MAC id. *)
Definition set_users (old : list (bool * Z)) (us : list mac_ax_ppdu_usr) : list (bool * Z) :=
  map (fun '(u, o) => if u_vld u =? 0 then (false, snd o) else (true, u_macid u)) (combine us old)
  ++ drop (length us) old.

(** [hal_rx_ppdu_sts] outside sniffer mode. *)
Definition hal_rx_ppdu_sts (d : rtw_r_meta_data) (phy : rtw_phl_ppdu_phy_info) (p : hal_ppdu_sts)
    (i : rtw_phl_ppdu_sts_info) (s : rtw_phl_rssi_stat) : rtw_phl_ppdu_sts_info * rtw_phl_rssi_stat :=
  let band := band_of d in
  let i := set_latest i band true in
  if negb (is_valid phy) then (i, s)
  else
    let k := (band, mdata d r_ppdu_cnt) in
    let e := sts_ent i k in
    if negb (mdata d r_crc32 =? 0) || negb (se_crc32 e =? 0)
       || negb (se_rx_rate e =? mdata d r_rx_rate) || negb (se_ppdu_type e =? mdata d r_ppdu_type)
    then (i, UPDATE_MA_RSSI s RTW_RSSI_UNKNOWN (rssi phy))
    else if se_valid e then (i, s)
    else
      let e' := StsEnt (se_frame_type e) (se_addr_cam_vld e) (se_crc32 e) (se_ppdu_type e) (se_rx_rate e)
                  (src_mac_addr e) (pkt_freerun_cnt e) true false (hp_usr_num p) (mdata d r_freerun_cnt)
                  phy (set_users (sta e) (hp_usr p)) (frames e) in
      let s' := RssiStat (rssi_row_of s) (pkt_freerun_cnt e) in
      (set_ent i k e',
       UPDATE_MA_RSSI s' (rssi_class (se_frame_type e) (se_addr_cam_vld e) (mdata d r_a1_match)) (rssi phy)).

(** ** Packets *)

(** [enum rtw_rx_type] *)
Inductive rtw_rx_type :=
  | RTW_RX_TYPE_WIFI | RTW_RX_TYPE_PPDU_STATUS | RTW_RX_TYPE_CHANNEL_INFO | RTW_RX_TYPE_TX_RPT
  | RTW_RX_TYPE_TX_WP_RELEASE_HOST | RTW_RX_TYPE_DFS_RPT | RTW_RX_TYPE_C2H | RTW_RX_TYPE_MAX.

#[global] Instance rtw_rx_type_eq_dec : EqDecision rtw_rx_type.
Proof. solve_decision. Defined.

(** Where the bytes of a packet lie: in a receive buffer, or in a buffer of
    the network stack with its own copy. *)
Inductive rx_addr :=
  | InBuf (b : nat) (off : Z)
  | InNet (bytes : list Z)
  | ANull.

(** [struct rtw_phl_rx_pkt] with its [struct rtw_recv_pkt]. *)
Record rtw_phl_rx_pkt := RxPkt {
  pk_type : rtw_rx_type; rxbuf_ptr : option nat; vir_addr : rx_addr; pkt_len : Z;
  pk_mdata : rtw_r_meta_data; pk_phy : rtw_phl_ppdu_phy_info; os_priv : bool; os_netbuf_len : Z
}.

Definition set_phy (p : rtw_phl_rx_pkt) (i : rtw_phl_ppdu_phy_info) : rtw_phl_rx_pkt :=
  RxPkt (pk_type p) (rxbuf_ptr p) (vir_addr p) (pkt_len p) (pk_mdata p) i (os_priv p) (os_netbuf_len p).

(** The object an address points into, and the offset in it. *)
Definition pkt_mem (bufs : nat -> list Z) (a : rx_addr) : list Z * Z :=
  match a with InBuf b off => (bufs b, off) | InNet bytes => (bytes, 0) | ANull => ([], 0) end.

(** ** The PHL side *)

Definition PHL_MAX_PPDU_CNT : Z := 8.

Definition HW_BAND_MAX : Z := 2.

Definition ppdu_cnts : list Z := [0; 1; 2; 3; 4; 5; 6; 7].

(** [_phl_rx_copy_phy_sts]: what the report says, without the channel. *)
Definition _phl_rx_copy_phy_sts (src dest : rtw_phl_ppdu_phy_info) : rtw_phl_ppdu_phy_info :=
  PhyInfo (is_valid src) (is_pkt_with_data src) (rssi src) (rssi_path src) (tx_bf src)
    (phy_frame_type src) (snr_fd_avg src) (snr_fd src) (snr_td_avg src) (snr_td src)
    (is_drvinfo_vld dest) (signal_strength dest) (ch_idx dest) (rxsc dest).

(** The frames of one queue go to [rx_handle_normal] and leave it. *)
Definition _phl_rx_proc_frame_list (i : rtw_phl_ppdu_sts_info) (k : Z * Z) :
    rtw_phl_ppdu_sts_info * list nat :=
  (set_ent i k (set_frames (sts_ent i k) []), frames (sts_ent i k)).

(** The queues of a band, emptied in the order of their counters. *)
Fixpoint flush_queues (ks : list (Z * Z)) (i : rtw_phl_ppdu_sts_info) : rtw_phl_ppdu_sts_info * list nat :=
  match ks with
  | [] => (i, [])
  | k :: ks =>
      let '(i1, out1) := match frames (sts_ent i k) with
                         | [] => (i, [])
                         | _ => _phl_rx_proc_frame_list i k
                         end in
      let '(i2, out2) := flush_queues ks i1 in (i2, out1 ++ out2)
  end.

(** The filter condition: only long descriptors carry the type of the frame. *)
Definition psts_waits (i : rtw_phl_ppdu_sts_info) (d : rtw_r_meta_data) : bool :=
  (mdata d r_long_rxd =? 1)
  && negb (Z.land (ppdu_sts_filter i) (BIT (mdata d r_frame_type)) =? 0).

(** [phl_rx_proc_wait_phy_sts]: whether the frame waits, and the frames that
    go on to [rx_handle_normal] meanwhile. *)
Definition phl_rx_proc_wait_phy_sts (i : rtw_phl_ppdu_sts_info) (p : nat) (d : rtw_r_meta_data) :
    bool * rtw_phl_ppdu_sts_info * list nat :=
  let cnt := mdata d r_ppdu_cnt in
  let band := band_of d in
  if negb (en_psts_per_pkt i) || (PHL_MAX_PPDU_CNT <=? cnt) || negb (en_ppdu_sts i band) then (false, i, [])
  else if cur_ppdu_cnt i band =? cnt then
    if psts_waits i d
    then (true, set_ent i (band, cnt) (set_frames (sts_ent i (band, cnt)) (frames (sts_ent i (band, cnt)) ++ [p])), [])
    else (false, i, [])
  else
    let '(i1, out) := flush_queues (map (pair band) ppdu_cnts) i in
    let i2 := if psts_waits i1 d
              then set_ent i1 (band, cnt) (set_frames (sts_ent i1 (band, cnt)) [p]) else i1 in
    (psts_waits i1 d, set_cur i2 band cnt, out).

(** The strength a report without a valid PHY status is given. *)
Definition fake_psts (s : rtw_phl_rssi_stat) (cur_ch : Z -> Z) (f : rtw_phl_rx_pkt)
    (y : rtw_phl_ppdu_phy_info) : rtw_phl_ppdu_phy_info :=
  if is_drvinfo_vld (pk_phy f) then
    let v := signal_strength (pk_phy f) in
    PhyInfo true (is_pkt_with_data y) v (replicate 4 v) (tx_bf y) (phy_frame_type y)
      (snr_fd_avg y) (snr_fd y) (snr_td_avg y) (snr_td y) (is_drvinfo_vld y) (signal_strength y)
      (ch_idx y) (rxsc y)
  else
    let t := mdata (pk_mdata f) r_frame_type in
    let c := if t =? RTW_FRAME_TYPE_MGNT then RTW_RSSI_MGNT_ACAM_A1M
             else if t =? RTW_FRAME_TYPE_DATA then RTW_RSSI_DATA_ACAM_A1M
             else if t =? RTW_FRAME_TYPE_CTRL then RTW_RSSI_CTRL_ACAM_A1M else RTW_RSSI_UNKNOWN in
    let v := ma_rssi (rssi_row_of s c) in
    PhyInfo true (is_pkt_with_data y) v (replicate 4 v) (tx_bf y) (phy_frame_type y)
      (snr_fd_avg y) (snr_fd y) (snr_td_avg y) (snr_td y) (is_drvinfo_vld y) (signal_strength y)
      (cur_ch (mdata (pk_mdata f) r_bb_sel)) (rxsc y).

Definition set_phy_frame_type (y : rtw_phl_ppdu_phy_info) (t : Z) : rtw_phl_ppdu_phy_info :=
  PhyInfo (is_valid y) (is_pkt_with_data y) (rssi y) (rssi_path y) (tx_bf y) t (snr_fd_avg y)
    (snr_fd y) (snr_td_avg y) (snr_td y) (is_drvinfo_vld y) (signal_strength y) (ch_idx y) (rxsc y).

(** Whether the report belongs to the first frame that waits. *)
Definition psts_matches (rpt first : rtw_phl_rx_pkt) : bool :=
  is_pkt_with_data (pk_phy rpt)
  && (mdata (pk_mdata first) r_rx_rate =? mdata (pk_mdata rpt) r_rx_rate)
  && (mdata (pk_mdata first) r_bw =? mdata (pk_mdata rpt) r_bw)
  && (mdata (pk_mdata first) r_rx_gi_ltf =? mdata (pk_mdata rpt) r_rx_gi_ltf)
  && (mdata (pk_mdata first) r_ppdu_type =? mdata (pk_mdata rpt) r_ppdu_type).

(** The report is copied to the frame; values the driver information already
    gave are kept. *)
Definition give_psts (y : rtw_phl_ppdu_phy_info) (f : rtw_phl_rx_pkt) : rtw_phl_rx_pkt :=
  if is_drvinfo_vld (pk_phy f) then set_phy f (_phl_rx_copy_phy_sts y (pk_phy f)) else set_phy f y.

(** [phl_rx_proc_phy_sts] for the report packet [p]: the frames that wait in
    the current queue of its band get the report when it is theirs (all of
    them, or the first) and are released. *)
Definition phl_rx_proc_phy_sts (bufs : nat -> list Z) (s : rtw_phl_rssi_stat) (cur_ch : Z -> Z) (p : nat)
    (pks : nat -> rtw_phl_rx_pkt) (i : rtw_phl_ppdu_sts_info) :
    outcome ((nat -> rtw_phl_rx_pkt) * rtw_phl_ppdu_sts_info * list nat) :=
  let d := pk_mdata (pks p) in
  let band := band_of d in
  if negb (en_psts_per_pkt i) || (PHL_MAX_PPDU_CNT <=? mdata d r_ppdu_cnt) || negb (en_ppdu_sts i band)
  then Ret (pks, i, [])
  else
    let k := (band, cur_ppdu_cnt i band) in
    match frames (sts_ent i k) with
    | [] => Ret (pks, i, [])
    | first :: _ =>
        let upt_psts := (mdata d r_ppdu_cnt =? cur_ppdu_cnt i band) && psts_matches (pks p) (pks first) in
        let '(m, h) := pkt_mem bufs (vir_addr (pks first)) in
        ft ← PHL_GET_80211_HDR_TYPE m h;
        let y := set_phy_frame_type (pk_phy (pks p)) ft in
        let y := if negb (is_valid y) && en_fake_psts i then fake_psts s cur_ch (pks first) y else y in
        let pks1 := upd pks p (set_phy (pks p) y) in
        let targets := if negb upt_psts then []
                       else if psts_ampdu i then frames (sts_ent i k) else [first] in
        let pks2 := foldl (fun f j => upd f j (give_psts y (f j))) pks1 targets in
        let '(i', out) := _phl_rx_proc_frame_list i k in
        Ret (pks2, i', out)
    end.

(** [_phl_handle_ppdu_sts_q]: all queues of both bands. *)
Definition _phl_handle_ppdu_sts_q (i : rtw_phl_ppdu_sts_info) : rtw_phl_ppdu_sts_info * list nat :=
  flush_queues (map (pair 0) ppdu_cnts ++ map (pair 1) ppdu_cnts) i.

(** ** Signal strength of the stations *)

(** The averages of [struct rtw_rssi_info]. *)
Record rtw_rssi_info := RssiInfo { assoc_rssi : Z; sta_ma_rssi : Z; ma_rssi_mgnt : Z }.

Definition HAL_RSSI_MAVG_NUM : Z := 16.

Definition STA_UPDATE_MA_RSSI_FAST (old val : Z) : Z :=
  u8 ((old * (HAL_RSSI_MAVG_NUM - 1) + val) / HAL_RSSI_MAVG_NUM).

(** One user of the entry. *)
Definition sta_rssi_step (e : rtw_phl_ppdu_sts_ent) (by_addr : list Z -> option Z)
    (rs : Z -> option rtw_rssi_info) (u : bool * Z) : Z -> option rtw_rssi_info :=
  let v := rssi (se_phy_info e) in
  if u.1 then
    match rs u.2 with
    | Some x =>
        let x := RssiInfo (if RTW_IS_ASOC_PKT (se_frame_type e) then v else assoc_rssi x)
                   (STA_UPDATE_MA_RSSI_FAST (sta_ma_rssi x) v)
                   (if RTW_IS_BEACON_OR_PROBE_RESP_PKT (se_frame_type e)
                    then if ma_rssi_mgnt x =? 0 then v else STA_UPDATE_MA_RSSI_FAST (ma_rssi_mgnt x) v
                    else ma_rssi_mgnt x) in
        upd rs u.2 (Some x)
    | None => rs
    end
  else if RTW_IS_ASOC_REQ_PKT (se_frame_type e) && (se_usr_num e =? 1) then
    match by_addr (src_mac_addr e) with
    | Some a => match rs a with
                | Some x => upd rs a (Some (RssiInfo v (sta_ma_rssi x) (ma_rssi_mgnt x)))
                | None => rs
                end
    | None => rs
    end
  else rs.

(** [phl_rx_proc_ppdu_sts]: every report is used once.  [by_addr] is the MAC id
    of the station with an address. *)
Definition phl_rx_proc_ppdu_sts (i : rtw_phl_ppdu_sts_info) (d : rtw_r_meta_data)
    (by_addr : list Z -> option Z) (rs : Z -> option rtw_rssi_info) :
    rtw_phl_ppdu_sts_info * (Z -> option rtw_rssi_info) :=
  let k := (band_of d, mdata d r_ppdu_cnt) in
  let e := sts_ent i k in
  if negb (se_valid e) || phl_done e then (i, rs)
  else
    let e' := StsEnt (se_frame_type e) (se_addr_cam_vld e) (se_crc32 e) (se_ppdu_type e) (se_rx_rate e)
                (src_mac_addr e) (pkt_freerun_cnt e) (se_valid e) true (se_usr_num e) (se_freerun_cnt e)
                (se_phy_info e) (sta e) (frames e) in
    (set_ent i k e', foldl (sta_rssi_step e by_addr) rs (take (Z.to_nat (se_usr_num e)) (sta e))).

(** ** The averages *)

(** [zlia] for division and remainder on [nat] as well. *)
Ltac nzlia := zify; Z.to_euclidean_division_equations; lia.

Definition clamp (v : Z) : Z := if PHL_MAX_RSSI <? v then PHL_MAX_RSSI else v.

Definition zsum (l : list Z) : Z := foldr Z.add 0 l.

(** The sixteen newest samples. *)
Definition last16 (l : list Z) : list Z := drop (length l - 16) l.

(** A row after the samples [l]. *)
Record row_rep (r : rssi_row) (l : list Z) : Prop := {
  rr_len : length (ma_rssi_ele r) = 16%nat;
  rr_idx : ma_rssi_ele_idx r mod 16 = Z.of_nat (length l) mod 16 /\ 0 <= ma_rssi_ele_idx r <= 16;
  rr_cnt : ma_rssi_ele_cnt r = Z.min (zlen l) 16;
  rr_sum : ma_rssi_ele_sum r = zsum (last16 l);
  rr_new : forall k, (length l - 16 <= k < length l)%nat -> ma_rssi_ele r !! (k mod 16)%nat = l !! k;
  rr_zero : forall k, (length l <= k < 16)%nat -> ma_rssi_ele r !! k = Some 0;
  rr_ma : ma_rssi r = if decide (l = []) then 0 else zsum (last16 l) / Z.min (zlen l) 16
}.

Lemma zsum_app l k : zsum (l ++ k) = zsum l + zsum k.
Proof. unfold zsum. induction l as [|x l IH]; cbn; [lia|]. rewrite IH. lia. Qed.

Lemma last16_snoc l v :
  zsum (last16 (l ++ [v])) = zsum (last16 l) - (if (length l <? 16)%nat then 0 else nth (length l - 16) l 0) + v.
Proof.
  unfold last16. rewrite length_app. cbn [length].
  destruct (Nat.ltb_spec (length l) 16).
  - replace (length l + 1 - 16)%nat with 0%nat by lia. replace (length l - 16)%nat with 0%nat by lia.
    rewrite !drop_0, zsum_app. cbn. lia.
  - replace (length l + 1 - 16)%nat with (S (length l - 16)) by lia.
    rewrite drop_app_le by lia. rewrite zsum_app.
    destruct (lookup_lt_is_Some_2 l (length l - 16)) as [x Hx]; [lia|].
    rewrite (drop_S l x (length l - 16) Hx), (nth_lookup_Some l _ 0 x Hx). unfold zsum. cbn [foldr]. lia.
Qed.

Lemma zsum_bound l : Forall (fun v => 0 <= v <= 110) l -> 0 <= zsum l <= 110 * zlen l.
Proof.
  induction 1 as [|x l Hx Hl IH]; [cbn; unfold zlen; cbn; lia|].
  rewrite zlen_cons. unfold zsum in *. cbn [foldr]. lia.
Qed.

Lemma last16_bound l : Forall (fun v => 0 <= v <= 110) l -> 0 <= zsum (last16 l) <= 110 * Z.min (zlen l) 16.
Proof.
  intros H. unfold last16. pose proof (zsum_bound (drop (length l - 16) l) (Forall_drop _ _ _ H)) as Hb.
  unfold zlen in *. rewrite length_drop in Hb. lia.
Qed.

Lemma clamp_range v : is_u8 v -> 0 <= clamp v <= 110.
Proof. unfold is_u8, clamp, PHL_MAX_RSSI. destruct (Z.ltb_spec 110 v); lia. Qed.

Lemma update_row_rep r l v :
  row_rep r l -> Forall (fun v => 0 <= v <= 110) l -> is_u8 v -> row_rep (update_row r v) (l ++ [clamp v]).
Proof.
  intros [Hlen [Hi Hi'] Hc Hs Hn Hz Hm] Hb Hv. pose proof (clamp_range v Hv) as Hcl.
  set (j := (length l mod 16)%nat).
  assert (Z.to_nat (if ma_rssi_ele_idx r <? PHL_RSSI_MAVG_NUM then ma_rssi_ele_idx r else 0) = j
          /\ 0 <= (if ma_rssi_ele_idx r <? PHL_RSSI_MAVG_NUM then ma_rssi_ele_idx r else 0) < 16) as [Ej Rj].
  { unfold PHL_RSSI_MAVG_NUM, j. destruct (Z.ltb_spec (ma_rssi_ele_idx r) 16); split; try lia; nzlia. }
  assert (nth j (ma_rssi_ele r) 0 = if (length l <? 16)%nat then 0 else nth (length l - 16) l 0) as Eo.
  { destruct (Nat.ltb_spec (length l) 16).
    - apply nth_lookup_Some. apply Hz. unfold j. rewrite Nat.mod_small by lia. lia.
    - rewrite !nth_lookup. rewrite <- (Hn (length l - 16)%nat) by lia. do 2 f_equal. unfold j. nzlia. }
  assert (zsum (last16 (l ++ [clamp v])) = zsum (last16 l) - nth j (ma_rssi_ele r) 0 + clamp v) as Es
    by (rewrite Eo; apply last16_snoc).
  assert (Forall (fun v => 0 <= v <= 110) (l ++ [clamp v])) as Hb' by (apply Forall_app; auto).
  pose proof (last16_bound _ Hb') as B'. pose proof (last16_bound _ Hb) as B.
  assert (zlen (l ++ [clamp v]) = zlen l + 1) as Hl' by (rewrite zlen_app; done).
  rewrite Hl' in B'. pose proof (zlen_nonneg l).
  assert (u32 (u32 (ma_rssi_ele_sum r - nth j (ma_rssi_ele r) 0) + clamp v) = zsum (last16 (l ++ [clamp v]))) as Eu.
  { rewrite Hs, Es in *. unfold u32. zlia. }
  assert ((if ma_rssi_ele_cnt r <? PHL_RSSI_MAVG_NUM then u8 (ma_rssi_ele_cnt r + 1) else ma_rssi_ele_cnt r)
          = Z.min (zlen l + 1) 16) as Ec.
  { rewrite Hc. unfold PHL_RSSI_MAVG_NUM. destruct (Z.ltb_spec (Z.min (zlen l) 16) 16); [rewrite u8_small by (unfold is_u8; lia)|]; lia. }
  unfold update_row. fold (clamp v). rewrite Ej, Eu, Ec.
  split; cbn [ma_rssi_ele ma_rssi_ele_idx ma_rssi_ele_cnt ma_rssi_ele_sum ma_rssi]; rewrite ?Hl', ?length_app; auto.
  - by rewrite length_insert.
  - cbn [length]. rewrite u8_small by (unfold is_u8; lia). unfold j in Ej. split; [|lia]. nzlia.
  - cbn [length]. intros k Hk. destruct (decide (k = length l)) as [->|].
    + rewrite list_lookup_insert_eq by (rewrite Hlen; unfold j; apply Nat.mod_upper_bound; lia).
      by rewrite list_lookup_middle.
    + rewrite list_lookup_insert_ne by (unfold j; intros E; nzlia).
      rewrite Hn by lia. by rewrite lookup_app_l by lia.
  - cbn [length]. intros k Hk. rewrite list_lookup_insert_ne by (unfold j; rewrite Nat.mod_small by lia; lia).
    apply Hz. lia.
  - rewrite decide_False by (by destruct l). apply u8_small. unfold is_u8. split.
    + apply Z.div_pos; lia.
    + apply (Z.le_lt_trans _ 110); [|lia]. apply Z.div_le_upper_bound; lia.
Qed.

(** The moving average: after any sequence of reports [UPDATE_MA_RSSI] has
    in its row the average, rounded down, of the last sixteen strengths (of
    all of them while there are fewer), each cut off at 110; the unsigned sum
    never wraps and the count is never zero when it divides. *)
Theorem rssi_moving_average t vals :
  Forall is_u8 vals ->
  let s := foldl (fun s v => UPDATE_MA_RSSI s t v) _phl_com_init_rssi_stat vals in
  let l := map clamp vals in
  ma_rssi (rssi_row_of s t) = (if decide (vals = []) then 0 else zsum (last16 l) / Z.min (zlen l) 16) /\
  ma_rssi_ele_sum (rssi_row_of s t) = zsum (last16 l) /\
  forall t', t' <> t -> rssi_row_of s t' = rssi_row_of _phl_com_init_rssi_stat t'.
Proof.
  intros Hv. cbn zeta.
  assert (row_rep (rssi_row_of (foldl (fun s v => UPDATE_MA_RSSI s t v) _phl_com_init_rssi_stat vals) t) (map clamp vals)
          /\ forall t', t' <> t -> rssi_row_of (foldl (fun s v => UPDATE_MA_RSSI s t v) _phl_com_init_rssi_stat vals) t'
                                   = rssi_row_of _phl_com_init_rssi_stat t') as [Hr Ho].
  { induction vals as [|v vals IH] using rev_ind.
    - split; [|done]. split; try done; [cbn; intros; lia|]. intros k Hk. apply (lookup_replicate_2 16). cbn in Hk. lia.
    - apply Forall_app in Hv as [Hv Hv1]. apply Forall_cons_1 in Hv1 as [Hv1 _].
      destruct (IH Hv) as [Hr Ho]. rewrite foldl_app, map_app. cbn [foldl map]. split.
      + cbn [UPDATE_MA_RSSI rssi_row_of]. rewrite tab_eq. apply update_row_rep; auto.
        apply Forall_map. eapply Forall_impl; [exact Hv|]. intros x Hx. by apply clamp_range.
      + intros t' Ht. cbn [UPDATE_MA_RSSI rssi_row_of]. rewrite tab_ne by done. by apply Ho. }
  split_and!; [|apply (rr_sum _ _ Hr)|exact Ho].
  rewrite (rr_ma _ _ Hr). destruct vals; reflexivity.
Qed.

Lemma rssi_moving_average_witness :
  ma_rssi (rssi_row_of (foldl (fun s v => UPDATE_MA_RSSI s RTW_RSSI_UNKNOWN v) _phl_com_init_rssi_stat
                          [60; 200; 40]) RTW_RSSI_UNKNOWN) = 70.
Proof.
  assert (Forall is_u8 [60; 200; 40]) as H by (repeat (apply Forall_cons_2; [done|]); apply Forall_nil_2).
  rewrite (proj1 (rssi_moving_average RTW_RSSI_UNKNOWN [60; 200; 40] H)). reflexivity.
Defined.

(** ** The queues *)

Definition q (i : rtw_phl_ppdu_sts_info) (b c : Z) : list nat := frames (sts_ent i (b, c)).

(** The frames of a band that wait. *)
Definition waiting (i : rtw_phl_ppdu_sts_info) (b : Z) : list nat := q i b (cur_ppdu_cnt i b).

(** Only the queue of the current PPDU holds frames. *)
Definition psts_ok (i : rtw_phl_ppdu_sts_info) : Prop :=
  forall b, 0 <= cur_ppdu_cnt i b < 8 /\ forall c, c <> cur_ppdu_cnt i b -> q i b c = [].

Lemma psts_init_ok : psts_ok _phl_com_init_ppdu_sts.
Proof. intros b. cbn. split; [lia|done]. Qed.

Lemma q_set_ent i k e b c : q (set_ent i k e) b c = if decide ((b, c) = k) then frames e else q i b c.
Proof. unfold q. cbn [set_ent sts_ent]. unfold upd. by destruct (decide _). Qed.

(** Flushing hands out the queues in order and leaves the rest alone. *)
Lemma flush_queues_spec ks i :
  NoDup ks ->
  exists i', flush_queues ks i = (i', concat (map (fun k => q i k.1 k.2) ks)) /\
    (forall b c, q i' b c = if decide ((b, c) ∈ ks) then [] else q i b c) /\
    cur_ppdu_cnt i' = cur_ppdu_cnt i /\ en_ppdu_sts i' = en_ppdu_sts i /\
    en_psts_per_pkt i' = en_psts_per_pkt i /\ ppdu_sts_filter i' = ppdu_sts_filter i.
Proof.
  revert i. induction ks as [|[b0 c0] ks IH]; intros i Hn.
  { exists i. split_and!; auto. }
  apply NoDup_cons in Hn as [Hk Hn]. cbn [flush_queues map concat].
  set (r := match frames (sts_ent i (b0, c0)) with [] => (i, []) | _ => _ end).
  assert (r.2 = q i b0 c0 /\ (forall b c, q r.1 b c = if decide ((b, c) = (b0, c0)) then [] else q i b c) /\
    cur_ppdu_cnt r.1 = cur_ppdu_cnt i /\ en_ppdu_sts r.1 = en_ppdu_sts i /\
    en_psts_per_pkt r.1 = en_psts_per_pkt i /\ ppdu_sts_filter r.1 = ppdu_sts_filter i) as (E1 & E2 & E3 & E4 & E5 & E6).
  { unfold r, q at 1. destruct (frames (sts_ent i (b0, c0))) eqn:Ef; cbn [fst snd _phl_rx_proc_frame_list].
    - split_and!; auto. intros b c. destruct (decide _) as [[= -> ->]|]; [exact Ef|done].
    - split_and!; auto. intros b c. rewrite q_set_ent. cbn [set_frames frames]. done. }
  destruct r as [i1 out1]. cbn [fst snd] in *. destruct (IH i1 Hn) as (i2 & -> & Hq & C3 & C4 & C5 & C6).
  exists i2. rewrite E1. split_and!; try congruence.
  - do 2 f_equal. apply f_equal, map_ext_in. intros [b c] Hin. cbn [fst snd]. rewrite E2.
    apply decide_False. intros [= -> ->]. by apply Hk, list_elem_of_In.
  - intros b c. rewrite Hq, E2. destruct (decide ((b, c) ∈ ks)), (decide ((b, c) = (b0, c0))), (decide ((b, c) ∈ (b0, c0) :: ks));
      set_solver.
Qed.

Lemma ppdu_cnts_NoDup (b : Z) : NoDup (map (pair b) ppdu_cnts).
Proof. apply (NoDup_fmap_2 (pair b)). unfold ppdu_cnts. by_dec. Qed.

Lemma ppdu_cnts_in (b b' c : Z) : (b', c) ∈ map (pair b) ppdu_cnts <-> b' = b /\ 0 <= c < 8.
Proof.
  rewrite list_elem_of_fmap. unfold ppdu_cnts. split.
  - intros (c' & [= -> ->] & Hc). repeat (apply elem_of_cons in Hc as [->|Hc]; [lia|]). by apply elem_of_nil in Hc.
  - intros [-> Hc]. exists c. split; [done|].
    assert (c = 0 \/ c = 1 \/ c = 2 \/ c = 3 \/ c = 4 \/ c = 5 \/ c = 6 \/ c = 7) as H by lia.
    repeat destruct H as [->|H]; subst; by_dec.
Qed.

(** The queues of one band together are the frames that wait. *)
Lemma band_queues i b :
  psts_ok i -> concat (map (fun k => q i k.1 k.2) (map (pair b) ppdu_cnts)) = waiting i b.
Proof.
  intros Hi. destruct (Hi b) as [Hc Hq]. unfold waiting.
  assert (forall c, c <> cur_ppdu_cnt i b -> q i b c = []) as Hq' by done. clear Hq Hi.
  unfold ppdu_cnts. cbn [map concat fst snd].
  set (n := cur_ppdu_cnt i b) in *. clearbody n.
  assert (n = 0 \/ n = 1 \/ n = 2 \/ n = 3 \/ n = 4 \/ n = 5 \/ n = 6 \/ n = 7) as H by lia.
  repeat destruct H as [->|H]; subst;
    repeat match goal with |- context [q i b ?c] => rewrite (Hq' c) by lia end; by rewrite ?app_nil_r.
Qed.

(** What a call does to the frames of every band: the frames handed out and
    those that wait afterwards are the frames that waited and the new one. *)
Definition keeps_order (i i' : rtw_phl_ppdu_sts_info) (out added : Z -> list nat) : Prop :=
  psts_ok i' /\ forall b, out b ++ waiting i' b = waiting i b ++ added b.

Definition only (b : Z) (l : list nat) : Z -> list nat := fun x => if decide (x = b) then l else [].


Lemma waiting_set_cur i b n x : waiting (set_cur i b n) x = if decide (x = b) then q i b n else waiting i x.
Proof. unfold waiting. cbn [set_cur cur_ppdu_cnt]. unfold upd. by destruct (decide (x = b)) as [->|]. Qed.

Lemma wait_keeps_order i p d w i' out :
  psts_ok i -> 0 <= mdata d r_ppdu_cnt ->
  phl_rx_proc_wait_phy_sts i p d = (w, i', out) ->
  keeps_order i i' (only (band_of d) out) (only (band_of d) (if w then [p] else [])).
Proof.
  intros Hi Hc. unfold phl_rx_proc_wait_phy_sts. set (c := mdata d r_ppdu_cnt) in *. set (b := band_of d).
  destruct (negb (en_psts_per_pkt i) || (PHL_MAX_PPDU_CNT <=? c) || negb (en_ppdu_sts i b)) eqn:Eg.
  { intros [= <- <- <-]. split; [done|]. intros x. unfold only. destruct (decide _); by rewrite app_nil_r. }
  apply orb_false_iff in Eg as [[_ H8%Z.leb_gt]%orb_false_iff _]. unfold PHL_MAX_PPDU_CNT in H8.
  destruct (Z.eqb_spec (cur_ppdu_cnt i b) c) as [Ec|Ec].
  - destruct (psts_waits i d); intros [= <- <- <-].
    + split.
      * intros x. destruct (Hi x) as [Hr Hq]. split; [exact Hr|]. intros c' Hc'. cbn [set_ent cur_ppdu_cnt] in Hc'.
        rewrite q_set_ent, decide_False by (intros [= -> ->]; congruence). by apply Hq.
      * intros x. unfold only, waiting. cbn [set_ent cur_ppdu_cnt]. rewrite q_set_ent. destruct (decide (x = b)) as [->|Hx].
        -- rewrite Ec, decide_True by done. done.
        -- rewrite decide_False by (by intros [= -> _]). by rewrite app_nil_r.
    + split; [done|]. intros x. unfold only. destruct (decide _); by rewrite app_nil_r.
  - destruct (flush_queues_spec (map (pair b) ppdu_cnts) i (ppdu_cnts_NoDup b)) as (i1 & -> & Hq & H1 & H2 & H3 & H4).
    rewrite band_queues by done. set (i2 := if psts_waits i1 d then _ else i1).
    assert (forall x y, q i2 x y = if decide (x = b) then if decide (y = c) then if psts_waits i1 d then [p] else [] else []
                                   else q i x y) as Hq2.
    { intros x y. assert (q i1 x y = if decide (x = b) then [] else q i x y) as Hq1.
      { rewrite Hq. destruct (decide (x = b)) as [->|].
        - destruct (decide ((b, y) ∈ map (pair b) ppdu_cnts)) as [|Hn]; [done|].
          apply (proj2 (Hi b)). intros ->. apply Hn, ppdu_cnts_in. split; [done|apply (Hi b)].
        - apply decide_False. rewrite ppdu_cnts_in. tauto. }
      unfold i2. destruct (psts_waits i1 d); [rewrite q_set_ent; cbn [set_frames frames]|];
        rewrite Hq1; repeat case_decide; naive_solver. }
    assert (cur_ppdu_cnt i2 = cur_ppdu_cnt i) as Hcur by (unfold i2; by destruct (psts_waits i1 d)).
    intros [= <- <- <-]. split.
    + intros x. cbn [set_cur cur_ppdu_cnt]. unfold upd. change (q (set_cur i2 b c) x) with (q i2 x).
      destruct (decide (x = b)) as [->|Hx].
      * split; [lia|]. intros y Hy. by rewrite Hq2, decide_True, decide_False.
      * rewrite Hcur. split; [apply (Hi x)|]. intros y Hy. rewrite Hq2, decide_False by done. by apply (Hi x).
    + intros x. rewrite waiting_set_cur. unfold only. destruct (decide (x = b)) as [->|Hx].
      * by rewrite Hq2, !decide_True.
      * unfold waiting. rewrite Hq2, Hcur, decide_False, app_nil_r by done. done.
Qed.

(** Emptying the current queue of a band. *)
Lemma flush_cur i b :
  psts_ok i ->
  keeps_order i (set_ent i (b, cur_ppdu_cnt i b) (set_frames (sts_ent i (b, cur_ppdu_cnt i b)) []))
    (only b (waiting i b)) (fun _ => []).
Proof.
  intros Hi. split.
  - intros x. cbn [set_ent cur_ppdu_cnt]. split; [apply (Hi x)|]. intros y Hy. rewrite q_set_ent.
    destruct (decide _); [done|]. by apply (Hi x).
  - intros x. unfold only, waiting. cbn [set_ent cur_ppdu_cnt]. rewrite q_set_ent, app_nil_r.
    destruct (decide (x = b)) as [->|Hx].
    + rewrite decide_True by done. cbn. by rewrite app_nil_r.
    + by rewrite decide_False by (by intros [= -> _]).
Qed.

Lemma report_keeps_order bufs s ch p pks i pks' i' out :
  psts_ok i -> phl_rx_proc_phy_sts bufs s ch p pks i = Ret (pks', i', out) ->
  keeps_order i i' (only (band_of (pk_mdata (pks p))) out) (fun _ => []).
Proof.
  intros Hi. unfold phl_rx_proc_phy_sts. set (b := band_of (pk_mdata (pks p))).
  assert (keeps_order i i (only b []) (fun _ => [])) as Hn.
  { split; [done|]. intros x. unfold only. destruct (decide _); by rewrite app_nil_r. }
  destruct (negb _ || _ || _); [by intros [= <- <- <-]|].
  destruct (frames (sts_ent i (b, cur_ppdu_cnt i b))) as [|f fs] eqn:Ef; [by intros [= <- <- <-]|].
  destruct (pkt_mem bufs (vir_addr (pks f))) as [m h]. intros H. apply bind_Ret_inv in H as (ft & _ & H).
  revert H. cbn [_phl_rx_proc_frame_list]. intros [= <- <- <-]. by apply flush_cur.
Qed.

Lemma drain_keeps_order i i' out :
  psts_ok i -> _phl_handle_ppdu_sts_q i = (i', out) ->
  out = waiting i 0 ++ waiting i 1 /\
  keeps_order i i' (fun b => if decide (b = 0 \/ b = 1) then waiting i b else []) (fun _ => []).
Proof.
  intros Hi. unfold _phl_handle_ppdu_sts_q.
  assert (NoDup (map (pair 0) ppdu_cnts ++ map (pair 1) ppdu_cnts)) as Hn by (unfold ppdu_cnts; by_dec).
  destruct (flush_queues_spec _ i Hn) as (i1 & -> & Hq & H1 & _). rewrite map_app, concat_app, !band_queues by done.
  intros [= <- <-]. split; [done|].
  assert (forall x y, q i1 x y = if decide (x = 0 \/ x = 1) then [] else q i x y) as Hq1.
  { intros x y. rewrite Hq. destruct (decide (_ ∈ _)) as [[H|H]%elem_of_app|Hn'].
    1-2: apply ppdu_cnts_in in H as [-> _]; by rewrite decide_True by auto.
    destruct (decide (x = 0 \/ x = 1)) as [Hx|]; [|done].
    apply (proj2 (Hi x)). intros ->. apply Hn', elem_of_app. rewrite !ppdu_cnts_in.
    pose proof (proj1 (Hi x)). lia. }
  split.
  - intros x. rewrite H1. split; [apply (Hi x)|]. intros y Hy. rewrite Hq1. destruct (decide _); [done|]. by apply (Hi x).
  - intros x. unfold waiting. rewrite Hq1, H1, app_nil_r. destruct (decide _); by rewrite ?app_nil_r.
Qed.

(** The path of the frames over time: the packets, the queues, and for every
    band the frames that were made to wait and those that were handed on
    after waiting. *)
Record psts_world := PstsWorld {
  w_pks : nat -> rtw_phl_rx_pkt; w_info : rtw_phl_ppdu_sts_info; w_in : Z -> list nat; w_out : Z -> list nat
}.

Definition plus (f g : Z -> list nat) : Z -> list nat := fun b => f b ++ g b.

Section Steps.
Context (bufs : nat -> list Z) (rs : rtw_phl_rssi_stat) (cur_ch : Z -> Z).

(** A frame arrives, a report arrives, the queues are drained, or a packet
    that does not wait is filled again. *)
Inductive psts_step : psts_world -> psts_world -> Prop :=
  | PFrame pks i a r p w i' out :
      0 <= mdata (pk_mdata (pks p)) r_ppdu_cnt ->
      phl_rx_proc_wait_phy_sts i p (pk_mdata (pks p)) = (w, i', out) ->
      psts_step (PstsWorld pks i a r)
        (PstsWorld pks i' (plus a (only (band_of (pk_mdata (pks p))) (if w then [p] else [])))
           (plus r (only (band_of (pk_mdata (pks p))) out)))
  | PReport pks i a r p pks' i' out :
      phl_rx_proc_phy_sts bufs rs cur_ch p pks i = Ret (pks', i', out) ->
      psts_step (PstsWorld pks i a r)
        (PstsWorld pks' i' a (plus r (only (band_of (pk_mdata (pks p))) out)))
  | PDrain pks i a r i' out :
      _phl_handle_ppdu_sts_q i = (i', out) ->
      psts_step (PstsWorld pks i a r)
        (PstsWorld pks i' a (plus r (fun b => if decide (b = 0 \/ b = 1) then waiting i b else [])))
  | PFill pks i a r p k :
      psts_step (PstsWorld pks i a r) (PstsWorld (upd pks p k) i a r).
End Steps.

(** Frames wait for their PPDU status in order and none is lost or
    duplicated: after any sequence of frames, reports and drains, the frames
    of a band that were handed on, followed by those that still wait, are
    exactly the frames that were made to wait, in the order of their arrival;
    and only the queue of the current PPDU of a band holds frames. *)
Theorem psts_release_order bufs rs ch pks i w :
  psts_ok i -> rtc (psts_step bufs rs ch) (PstsWorld pks i (fun _ => []) (fun _ => [])) w ->
  psts_ok (w_info w) /\ forall b, w_out w b ++ waiting (w_info w) b = waiting i b ++ w_in w b.
Proof.
  intros Hi H.
  enough (forall x y, rtc (psts_step bufs rs ch) x y -> psts_ok (w_info x) ->
            psts_ok (w_info y) /\ forall b l, w_out x b ++ waiting (w_info x) b = l ++ w_in x b ->
                                              w_out y b ++ waiting (w_info y) b = l ++ w_in y b) as He.
  { destruct (He _ _ H Hi) as [Hk Hb]. split; [done|]. intros b. apply Hb. cbn. by rewrite app_nil_r. }
  clear. intros x y H. induction H as [|x y z Hs H IH]; intros Hi; [done|].
  enough (psts_ok (w_info y) /\ forall b l, w_out x b ++ waiting (w_info x) b = l ++ w_in x b ->
                                            w_out y b ++ waiting (w_info y) b = l ++ w_in y b) as [Hy Hb].
  { destruct (IH Hy) as [Hz Hc]. split; [done|]. auto. }
  assert (forall i i' a r out added, keeps_order i i' out added -> psts_ok i' /\
            forall b l, r b ++ waiting i b = l ++ a b -> plus r out b ++ waiting i' b = l ++ plus a added b) as Hk.
  { intros i i' a r out added [Hok Hw]. split; [done|]. intros b l E. unfold plus.
    rewrite <- app_assoc, Hw, app_assoc, E. by rewrite <- app_assoc. }
  assert (forall i i' a r out, keeps_order i i' out (fun _ => []) -> psts_ok i' /\
            forall b l, r b ++ waiting i b = l ++ a b -> plus r out b ++ waiting i' b = l ++ a b) as Hk0.
  { intros i i' a r out [Hok Hw]. split; [done|]. intros b l E. unfold plus.
    by rewrite <- app_assoc, Hw, app_nil_r. }
  clear IH H. destruct Hs as [pks i a r p w i' out H0 E|pks i a r p pks' i' out E|pks i a r i' out E|];
    cbn [w_info w_in w_out] in *; [| | |done].
  - apply Hk. by apply wait_keeps_order.
  - apply Hk0. by eapply report_keeps_order.
  - apply Hk0. by eapply drain_keeps_order.
Qed.

(** A management frame of PPDU 3 waits, a frame of PPDU 4 releases it. *)
Definition mgnt_pkt (cnt : Z) : rtw_phl_rx_pkt :=
  RxPkt RTW_RX_TYPE_WIFI None (InNet (replicate 24 0)) 24
    (set_mdata (set_mdata meta0 r_long_rxd 1) r_ppdu_cnt cnt) phy0 true 24.

Definition psts_on : rtw_phl_ppdu_sts_info :=
  let i := _phl_com_init_ppdu_sts in
  StsInfo (sts_ent i) (cur_rx_ppdu_cnt i) (fun _ => true) (latest_rx_is_psts i) true false
    (ppdu_sts_filter i) false (cur_ppdu_cnt i).

Lemma psts_release_order_witness :
  exists w, rtc (psts_step (fun _ => []) _phl_com_init_rssi_stat (fun _ => 0))
              (PstsWorld (fun p => mgnt_pkt (Z.of_nat p)) psts_on (fun _ => []) (fun _ => [])) w /\
    w_out w 0 = [3%nat] /\ w_out w 0 ++ waiting (w_info w) 0 = waiting psts_on 0 ++ w_in w 0.
Proof.
  assert (psts_ok psts_on) as Hi by (intros b; cbn; split; [lia|done]).
  assert (exists w, rtc (psts_step (fun _ => []) _phl_com_init_rssi_stat (fun _ => 0))
              (PstsWorld (fun p => mgnt_pkt (Z.of_nat p)) psts_on (fun _ => []) (fun _ => [])) w /\
            w_out w 0 = [3%nat]) as (w & H & E).
  { eexists. split.
    - eapply rtc_l; [apply (PFrame _ _ _ _ _ _ _ 3%nat); [vm_compute; discriminate|reflexivity]|].
      eapply rtc_l; [apply (PFrame _ _ _ _ _ _ _ 4%nat); [vm_compute; discriminate|reflexivity]|]. apply rtc_refl.
    - reflexivity. }
  exists w. split; [exact H|]. split; [exact E|].
  exact (proj2 (psts_release_order _ _ _ _ _ _ Hi H) 0).
Defined.

(** The report reaches the frames it is for. *)
Lemma foldl_give y (js : list nat) (f : nat -> rtw_phl_rx_pkt) :
  NoDup js -> forall j, foldl (fun f j => upd f j (give_psts y (f j))) f js j =
                        if decide (j ∈ js) then give_psts y (f j) else f j.
Proof.
  intros Hn. revert f. induction Hn as [|k js Hk Hn IH]; intros f j; [done|].
  cbn [foldl]. rewrite IH. unfold upd.
  destruct (decide (j = k)) as [->|], (decide (_ ∈ js)), (decide (_ ∈ k :: js)); set_solver.
Qed.

(** When the report is for the frames that wait, the first of them gets it, or
    all of them when the driver is set up so, before they are handed on; other
    packets are not touched. *)
Theorem psts_report_given bufs s ch p pks i first fs pks' i' out :
  let d := pk_mdata (pks p) in
  let b := band_of d in
  en_psts_per_pkt i = true -> en_ppdu_sts i b = true -> 0 <= mdata d r_ppdu_cnt < 8 ->
  mdata d r_ppdu_cnt = cur_ppdu_cnt i b -> waiting i b = first :: fs ->
  NoDup (waiting i b) -> p ∉ waiting i b ->
  psts_matches (pks p) (pks first) = true ->
  phl_rx_proc_phy_sts bufs s ch p pks i = Ret (pks', i', out) ->
  out = first :: fs /\
  forall j, j <> p ->
    pks' j = if decide (j ∈ (if psts_ampdu i then first :: fs else [first]))
             then give_psts (pk_phy (pks' p)) (pks j) else pks j.
Proof.
  intros d b Hen Hb Hc Hcur Hw Hn Hp Hm. unfold phl_rx_proc_phy_sts. fold d b.
  rewrite Hen, Hb, (proj2 (Z.leb_gt _ _)) by (unfold PHL_MAX_PPDU_CNT; lia). cbn [negb orb].
  unfold waiting, q in Hw. rewrite Hw, Hm, Hcur, Z.eqb_refl. cbn [andb negb].
  destruct (pkt_mem bufs (vir_addr (pks first))) as [m h]. intros H. apply bind_Ret_inv in H as (ft & _ & H).
  revert H. cbn [_phl_rx_proc_frame_list]. rewrite Hw. unfold waiting, q in *. rewrite Hw in *.
  set (y := if _ && _ then _ else _). set (ts := if psts_ampdu i then _ else _). intros [= <- <- <-].
  assert (NoDup ts /\ p ∉ ts) as [Ht Hpt].
  { unfold ts. destruct (psts_ampdu i); [done|]. split; [apply NoDup_singleton|set_solver]. }
  split; [done|]. intros j Hj. rewrite !foldl_give by done.
  rewrite (decide_False (P := p ∈ ts)) by done. rewrite tab_eq. cbn [set_phy pk_phy].
  destruct (decide (j ∈ ts)); by rewrite tab_ne.
Qed.
