(* ===== verification/RxUsb.v ===== *)
(** * Reception over USB

    The receive side of src/phl/hci/phl_trx_usb.c with the HAL function it
    calls for every packet (src/phl/hal_g6/rtl8851b/hal_trx_8851b.c) and the
    pool of packets of src/phl/phl_rx.c.  A receive buffer circulates between
    three queues: idle, busy (handed to the USB host controller) and pending
    (filled, waiting for the receive handler).  The handler cuts the transfer
    into packets; a packet either gets a copy of its bytes in a buffer of the
    network stack or keeps pointing into the receive buffer, which then counts
    its packets and goes back to idle with the last of them.

    The PHY-status parser, the current channel, the table of stations, the
    allocator of the network stack and the USB core are arguments. *)
From Stdlib Require Import ZArith Lia Bool List Permutation.
From stdpp Require Import base tactics list numbers sets relations.
From S2P Require Import Prelude ByteBuf TxDesc TxUsb RxDesc RxPsts.

(** ** State *)

(** [struct rtw_rx_buf] *)
Record rtw_rx_buf := RxBuf { buffer : list Z; transfer_len : Z; pipe_idx : Z; pktcnt : Z }.

(** What the HAL keeps: PPDU status, signal averages, counters, and the reports
    it passed on to other parts of the driver. *)
Inductive hal_report :=
  | RptC2h (body : list Z)
  | RptDfs (r : mac_ax_dfs_rpt).

Record hal_rx := HalRx {
  h_psts : rtw_phl_ppdu_sts_info; h_rssi : rtw_phl_rssi_stat; rx_ok_cnt : Z; rx_err_cnt : Z;
  h_reports : list hal_report
}.

(** The state of reception: the buffers with their queues ([struct
    rtw_rx_buf_ring]), the packet pool ([struct phl_rx_pkt_pool]), the HAL, the
    signal strength of the stations and the timer for deferred requests. *)
Record usb_rx := UsbRx {
  bufs : nat -> rtw_rx_buf; idle_rxbuf : list nat; busy_rxbuf : list nat; pend_rxbuf : list nat;
  pks : nat -> rtw_phl_rx_pkt; idle_pkts : list nat; idle_cnt : Z;
  hal : hal_rx; sta_rssi : Z -> option rtw_rssi_info; deferred_timer : bool
}.

Definition set_bufs (s : usb_rx) (b : nat -> rtw_rx_buf) (idle busy pend : list nat) : usb_rx :=
  UsbRx b idle busy pend (pks s) (idle_pkts s) (idle_cnt s) (hal s) (sta_rssi s) (deferred_timer s).

Definition set_pks (s : usb_rx) (p : nat -> rtw_phl_rx_pkt) (idle : list nat) (cnt : Z) : usb_rx :=
  UsbRx (bufs s) (idle_rxbuf s) (busy_rxbuf s) (pend_rxbuf s) p idle cnt (hal s) (sta_rssi s)
    (deferred_timer s).

Definition set_hal (s : usb_rx) (h : hal_rx) : usb_rx :=
  UsbRx (bufs s) (idle_rxbuf s) (busy_rxbuf s) (pend_rxbuf s) (pks s) (idle_pkts s) (idle_cnt s)
    h (sta_rssi s) (deferred_timer s).

Definition set_buf (s : usb_rx) (b : nat) (x : rtw_rx_buf) : usb_rx :=
  set_bufs s (upd (bufs s) b x) (idle_rxbuf s) (busy_rxbuf s) (pend_rxbuf s).

Definition set_pk (s : usb_rx) (p : nat) (k : rtw_phl_rx_pkt) : usb_rx :=
  set_pks s (upd (pks s) p k) (idle_pkts s) (idle_cnt s).

Definition set_psts (h : hal_rx) (i : rtw_phl_ppdu_sts_info) : hal_rx :=
  HalRx i (h_rssi h) (rx_ok_cnt h) (rx_err_cnt h) (h_reports h).

(** ** The packet pool *)

(** [rtw_phl_query_phl_rx] *)
Definition rtw_phl_query_phl_rx (s : usb_rx) : option nat * usb_rx :=
  match idle_pkts s with
  | p :: rest => (Some p, set_pks s (pks s) rest (idle_cnt s - 1))
  | [] => (None, s)
  end.

(** A packet as [phl_release_phl_rx] leaves it. *)
Definition cleared_pkt : rtw_phl_rx_pkt :=
  RxPkt RTW_RX_TYPE_MAX None ANull 0 meta0 phy0 false 0.

(** [phl_release_phl_rx] *)
Definition phl_release_phl_rx (s : usb_rx) (p : nat) : usb_rx :=
  set_pks s (upd (pks s) p cleared_pkt) (idle_pkts s ++ [p]) (idle_cnt s + 1).

(** [rtw_phl_is_phl_rx_idle], for a pool of [n] packets. *)
Definition rtw_phl_is_phl_rx_idle (n : Z) (s : usb_rx) : bool := n =? idle_cnt s.

(** ** The receive buffers *)

(** [phl_release_rxbuf_usb] *)
Definition phl_release_rxbuf_usb (s : usb_rx) (b : nat) : usb_rx :=
  let x := bufs s b in
  let n := if pktcnt x =? 0 then 0 else pktcnt x - 1 in
  if n =? 0
  then set_bufs s (upd (bufs s) b (RxBuf (replicate (length (buffer x)) 0) (transfer_len x) (pipe_idx x) 0))
         (idle_rxbuf s ++ [b]) (busy_rxbuf s) (pend_rxbuf s)
  else set_buf s b (RxBuf (buffer x) (transfer_len x) (pipe_idx x) n).

(** [phl_recycle_rx_buf]; [rtw_phl_return_rxbuf] of the core does the same. *)
Definition phl_recycle_rx_buf (s : usb_rx) (p : nat) : usb_rx :=
  let s1 := match rxbuf_ptr (pks s p) with Some b => phl_release_rxbuf_usb s b | None => s end in
  phl_release_phl_rx s1 p.

(** [rtw_hal_query_info] and the operation it calls on this chip; nothing is the
    status of failure. *)
Definition RTW_HAL_RXDESC_SIZE : Z := 0.

Definition hal_query_info_8851bu (info_id : Z) : option Z :=
  if info_id =? RTW_HAL_RXDESC_SIZE then Some RX_DESC_S_SIZE_8851B else None.

Definition rtw_hal_query_info (info_id : Z) : option Z := hal_query_info_8851bu info_id.

(** [_phl_in_token_usb]: a request for the next idle buffer.  [sent] tells
    whether the USB core takes it.  A buffer taken before a failed query is in
    no queue any more. *)
Definition _phl_in_token_usb (s : usb_rx) (pipe : Z) (sent : bool) : rtw_phl_status * usb_rx :=
  match idle_rxbuf s with
  | [] => (RTW_PHL_STATUS_RESOURCE, s)
  | b :: rest =>
      match rtw_hal_query_info RTW_HAL_RXDESC_SIZE with
      | None => (RTW_PHL_STATUS_FAILURE, set_bufs s (bufs s) rest (busy_rxbuf s) (pend_rxbuf s))
      | Some rx_desc_sz =>
          let x := bufs s b in
          let s1 := set_bufs s (upd (bufs s) b (RxBuf (buffer x) (transfer_len x) pipe (pktcnt x)))
                      rest (busy_rxbuf s ++ [b]) (pend_rxbuf s) in
          if sent then (RTW_PHL_STATUS_SUCCESS, s1)
          else
            let s2 := set_bufs s1 (bufs s1) (idle_rxbuf s1) (List.remove Nat.eq_dec b (busy_rxbuf s1)) (pend_rxbuf s1) in
            (RTW_PHL_STATUS_FAILURE, phl_release_rxbuf_usb s2 b)
      end
  end.

Definition WLAN_IN_MPDU_PIPE_IDX : Z := 0.

(** The loop of [_phl_rx_start_usb] for the data pipe; [sent] gives the answer
    of the USB core to each request. *)
Fixpoint rx_start_loop (fuel : nat) (sent : nat -> bool) (in_token_num fail_cnt : Z) (s : usb_rx)
    (st : rtw_phl_status) : outcome (rtw_phl_status * usb_rx) :=
  match fuel with
  | O => Timeout
  | S fuel =>
      if Z.of_nat (length (busy_rxbuf s)) <? in_token_num then
        let '(st, s) := _phl_in_token_usb s WLAN_IN_MPDU_PIPE_IDX (sent fuel) in
        match st with
        | RTW_PHL_STATUS_RESOURCE => Ret (st, s)
        | RTW_PHL_STATUS_SUCCESS => rx_start_loop fuel sent in_token_num fail_cnt s st
        | _ =>
            let fail_cnt := u8 (fail_cnt + 1) in
            if in_token_num <? fail_cnt then Ret (st, s)
            else rx_start_loop fuel sent in_token_num fail_cnt s st
        end
      else Ret (st, s)
  end.

(** [_phl_rx_start_usb]: of the bulk-in pipes only the data pipe is served. *)
Definition _phl_rx_start_usb (sent : nat -> bool) (max_bulkin_num in_token_num : Z) (s : usb_rx) :
    outcome (rtw_phl_status * usb_rx) :=
  if 0 <? max_bulkin_num
  then rx_start_loop (Z.to_nat (2 * in_token_num + 3)) sent in_token_num 0 s RTW_PHL_STATUS_SUCCESS
  else Ret (RTW_PHL_STATUS_SUCCESS, s).

Definition set_timer (s : usb_rx) (t : bool) : usb_rx :=
  UsbRx (bufs s) (idle_rxbuf s) (busy_rxbuf s) (pend_rxbuf s) (pks s) (idle_pkts s) (idle_cnt s)
    (hal s) (sta_rssi s) t.

(** [_phl_rx_deferred_in_token], the function of the timer. *)
Definition _phl_rx_deferred_in_token (sent : nat -> bool) (max_bulkin_num in_token_num : Z) (s : usb_rx) :
    outcome usb_rx :=
  '(st, s1) ← _phl_rx_start_usb sent max_bulkin_num in_token_num (set_timer s false);
  Ret (match st with RTW_PHL_STATUS_RESOURCE => set_timer s1 true | _ => s1 end).

(** [_phl_rx_stop_usb] *)
Definition _phl_rx_stop_usb (s : usb_rx) : usb_rx := set_timer s false.

(** [phl_pend_rxbuf_usb], called when the host controller is done with a
    buffer. *)
Definition phl_pend_rxbuf_usb (s : usb_rx) (b : nat) (inbuf_len : Z) (status_code : rtw_phl_status)
    (sent : bool) : rtw_phl_status * usb_rx :=
  let busy := match busy_rxbuf s with [] => [] | l => List.remove Nat.eq_dec b l end in
  let s1 := set_bufs s (bufs s) (idle_rxbuf s) busy (pend_rxbuf s) in
  let x := bufs s1 b in
  let '(pstatus, s2) :=
    match status_code with
    | RTW_PHL_STATUS_SUCCESS =>
        (RTW_PHL_STATUS_SUCCESS,
         set_bufs s1 (upd (bufs s1) b (RxBuf (buffer x) inbuf_len (pipe_idx x) (pktcnt x)))
           (idle_rxbuf s1) (busy_rxbuf s1) (pend_rxbuf s1 ++ [b]))
    | _ => (RTW_PHL_STATUS_FAILURE, phl_release_rxbuf_usb s1 b)
    end in
  match status_code with
  | RTW_PHL_STATUS_SUCCESS | RTW_PHL_STATUS_INVALID_PARAM =>
      let '(st, s3) := _phl_in_token_usb s2 (pipe_idx x) sent in
      (pstatus, match st with RTW_PHL_STATUS_SUCCESS => s3 | _ => set_timer s3 true end)
  | _ => (pstatus, s2)
  end.

(** ** One packet *)

Section Reception.
(** The PHY status parser of the baseband (the strength of a report), the
    current channel of a PHY and the station with an address. *)
Context (bb_parse : hal_ppdu_sts -> bool -> rtw_phl_rx_pkt -> rtw_phl_ppdu_phy_info)
        (cur_ch : Z -> Z) (sta_by_addr : list Z -> option Z).

(** [_hal_rx_wlanhdr_check_8851b]: the transmitter address; the other header
    fields are only read. *)
Definition _hal_rx_wlanhdr_check_8851b (m : list Z) (hdr : Z) (d : rtw_r_meta_data) : outcome rtw_r_meta_data :=
  _ ← PHL_GET_80211_HDR_TYPE m hdr;
  _ ← PHL_GET_80211_HDR_RETRY m hdr;
  _ ← PHL_GET_80211_HDR_SEQUENCE m hdr;
  a ← PHL_GET_80211_HDR_ADDRESS2 m hdr;
  Ret (set_ta d a).

(** [_hal_rx_sts_8851b] *)
Definition _hal_rx_sts_8851b (h : hal_rx) (d : rtw_r_meta_data) : hal_rx :=
  if negb (mdata d r_crc32 =? 0) || negb (mdata d r_icverr =? 0)
  then HalRx (h_psts h) (h_rssi h) (rx_ok_cnt h) (u32 (rx_err_cnt h + 1)) (h_reports h)
  else HalRx (h_psts h) (h_rssi h) (u32 (rx_ok_cnt h + 1)) (rx_err_cnt h) (h_reports h).

Definition set_type (k : rtw_phl_rx_pkt) (t : rtw_rx_type) : rtw_phl_rx_pkt :=
  RxPkt t (rxbuf_ptr k) (vir_addr k) (pkt_len k) (pk_mdata k) (pk_phy k) (os_priv k) (os_netbuf_len k).

Definition set_meta (k : rtw_phl_rx_pkt) (d : rtw_r_meta_data) : rtw_phl_rx_pkt :=
  RxPkt (pk_type k) (rxbuf_ptr k) (vir_addr k) (pkt_len k) d (pk_phy k) (os_priv k) (os_netbuf_len k).

Definition set_span (k : rtw_phl_rx_pkt) (a : rx_addr) (n : Z) : rtw_phl_rx_pkt :=
  RxPkt (pk_type k) (rxbuf_ptr k) a n (pk_mdata k) (pk_phy k) (os_priv k) (os_netbuf_len k).

(** PPDU types with several users. *)
Definition is_mu (t : Z) : bool := (t =? 6) || (t =? 9) || (t =? 10).

(** The PPDU-status case of [hal_handle_rx_buffer_8851b]. *)
Definition handle_ppdu_status (m : list Z) (addr : Z) (k : rtw_phl_rx_pkt) (h : hal_rx) :
    outcome (rtw_phl_rx_pkt * hal_rx) :=
  let d := pk_mdata k in
  p ← rtw_hal_mac_ax_parse_ppdu_sts m (mdata d r_mac_info_vld) addr (mdata d r_pktlen);
  if hp_phy_st_size p =? 0 then Ret (k, h)
  else
    let mu := is_mu (mdata d r_ppdu_type) in
    let d := if mu then set_mdata d r_rx_rate
                          (se_rx_rate (sts_ent (h_psts h) (band_of d, mdata d r_ppdu_cnt))) else d in
    let k := set_meta k d in
    let k := set_phy k (bb_parse p (negb mu) k) in
    let '(i, s) := hal_rx_ppdu_sts d (pk_phy k) p (h_psts h) (h_rssi h) in
    Ret (k, HalRx i s (rx_ok_cnt h) (rx_err_cnt h) (h_reports h)).

(** [hal_handle_rx_buffer_8851b] at offset [buf] of buffer [b], with
    [buf_len] bytes left.  The types without a case leave the type of the
    packet as it is. *)
Definition hal_handle_rx_buffer_8851b (m : list Z) (b : nat) (buf buf_len : Z) (k : rtw_phl_rx_pkt)
    (h : hal_rx) : outcome (bool * rtw_phl_rx_pkt * hal_rx) :=
  '(span, d) ← hal_parsing_rx_wd_8851b m buf (pk_mdata k);
  match span with
  | None => Ret (false, set_meta k d, h)
  | Some (addr, len) =>
      let k := set_span (set_meta k d) (InBuf b addr) len in
      if buf + buf_len <? addr + len then Ret (false, k, h)
      else
        let t := mdata d r_rpkt_type in
        if t =? RX_8851B_DESC_PKT_T_WIFI then
          d1 ← _hal_rx_wlanhdr_check_8851b m addr d;
          '(d2, i) ← hal_rx_ppdu_sts_normal_data m addr d1 (h_psts h);
          Ret (true, set_type (set_meta k d2) RTW_RX_TYPE_WIFI, _hal_rx_sts_8851b (set_psts h i) d2)
        else if t =? RX_8851B_DESC_PKT_T_TX_PD_RELEASE_HOST then
          Ret (true, set_type k RTW_RX_TYPE_TX_WP_RELEASE_HOST, h)
        else if t =? RX_8851B_DESC_PKT_T_PPDU_STATUS then
          '(k1, h1) ← handle_ppdu_status m addr (set_type k RTW_RX_TYPE_PPDU_STATUS) h;
          Ret (true, k1, h1)
        else if t =? RX_8851B_DESC_PKT_T_DFS_RPT then
          '(ok, r) ← mac_parse_dfs m addr (mdata d r_pktlen);
          Ret (true, set_type k RTW_RX_TYPE_DFS_RPT,
               if (ok : bool) then HalRx (h_psts h) (h_rssi h) (rx_ok_cnt h) (rx_err_cnt h) (h_reports h ++ [RptDfs r])
               else h)
        else if t =? RX_8851B_DESC_PKT_T_CHANNEL_INFO then Ret (true, set_type k RTW_RX_TYPE_CHANNEL_INFO, h)
        else if t =? RX_8851B_DESC_PKT_T_C2H then
          c ← rds m addr len;
          Ret (true, set_type k RTW_RX_TYPE_C2H,
               HalRx (h_psts h) (h_rssi h) (rx_ok_cnt h) (rx_err_cnt h) (h_reports h ++ [RptC2h c]))
        else if t =? RX_8851B_DESC_PKT_T_TX_RPT then Ret (true, set_type k RTW_RX_TYPE_TX_RPT, h)
        else Ret (true, k, h)
  end.

(** ** Cutting a transfer into packets *)

Definition RTW_MAX_ETH_PKT_LEN : Z := 1536.

(** The size of the copy of a WiFi packet: the first fragment of several gets
    room for the whole frame. *)
Definition netbuf_len (m : list Z) (addr len : Z) : outcome Z :=
  mfrag ← PHL_GET_80211_HDR_MORE_FRAG m addr;
  frag_num ← PHL_GET_80211_HDR_FRAG_NUM m addr;
  Ret (if (mfrag =? 1) && (frag_num =? 0)
       then if len <? RTW_MAX_ETH_PKT_LEN then RTW_MAX_ETH_PKT_LEN else len
       else len).

(** A WiFi packet moves to a buffer of the network stack when there is one;
    [alloc] tells whether the allocation succeeds. *)
Definition take_netbuf (alloc : bool) (m : list Z) (k : rtw_phl_rx_pkt) (addr len : Z) :
    outcome (bool * rtw_phl_rx_pkt) :=
  match pk_type k with
  | RTW_RX_TYPE_WIFI =>
      n ← netbuf_len m addr len;
      if alloc then
        c ← rds m addr len;
        Ret (true, RxPkt (pk_type k) (rxbuf_ptr k) (InNet (c ++ replicate (Z.to_nat (n - len)) 0)) len
                     (pk_mdata k) (pk_phy k) true n)
      else Ret (false, k)
  | _ => Ret (false, k)
  end.

Definition set_rxbuf_ptr (k : rtw_phl_rx_pkt) (b : option nat) : rtw_phl_rx_pkt :=
  RxPkt (pk_type k) b (vir_addr k) (pkt_len k) (pk_mdata k) (pk_phy k) (os_priv k) (os_netbuf_len k).

(** The variables of the loop: [pkt_buf], [transfer_len], the list that
    starts at [phl_rxhead], [ref_cnt]; [brel] is [ref_cnt = 0]. *)
Record cut := Cut { c_pos : Z; c_left : Z; c_list : list nat; c_ref : Z }.

(** One round of the loop: [None] when it breaks. *)
Definition cut_step (alloc : nat -> bool) (b : nat) (s : usb_rx) (c : cut) : outcome (option cut * usb_rx) :=
  match rtw_phl_query_phl_rx s with
  | (None, s) => Ret (None, s)
  | (Some p, s) =>
      let m := buffer (bufs s b) in
      '(ok, k, h) ← hal_handle_rx_buffer_8851b m b (c_pos c) (c_left c) (pks s p) (hal s);
      let s := set_hal (set_pk s p k) h in
      if negb ok then Ret (None, phl_release_phl_rx s p)
      else
        let addr := match vir_addr k with InBuf _ a => a | _ => 0 end in
        let pkt_offset := (addr - c_pos c) + pkt_len k in
        let align_offset := _ALIGN pkt_offset 8 in
        '(balloc, k) ← take_netbuf (alloc p) m k addr (pkt_len k);
        let k := if (balloc : bool) then k else set_rxbuf_ptr k (Some b) in
        Ret (Some (Cut (c_pos c + align_offset) (c_left c - align_offset) (c_list c ++ [p])
                     (if balloc then c_ref c else u16 (c_ref c + 1))),
             set_pk s p k)
  end.

Fixpoint cut_loop (fuel : nat) (alloc : nat -> bool) (b : nat) (s : usb_rx) (c : cut) : outcome (cut * usb_rx) :=
  match fuel with
  | O => Timeout
  | S fuel =>
      '(r, s) ← cut_step alloc b s c;
      match r with
      | None => Ret (c, s)
      | Some c => if 0 <? c_left c then cut_loop fuel alloc b s c else Ret (c, s)
      end
  end.

(** [phl_get_single_rx]: the packets of the transfer in buffer [b]. *)
Definition phl_get_single_rx (alloc : nat -> bool) (b : nat) (s : usb_rx) : outcome (list nat * usb_rx) :=
  let n := transfer_len (bufs s b) in
  '(c, s) ← cut_loop (S (Z.to_nat n)) alloc b s (Cut 0 (s32 n) [] 0);
  match c_list c with
  | [] => Ret ([], s)
  | l =>
      if c_ref c =? 0 then Ret (l, phl_release_rxbuf_usb s b)
      else
        let x := bufs s b in
        Ret (l, set_buf s b (RxBuf (buffer x) (transfer_len x) (pipe_idx x) (c_ref c)))
  end.

(** ** The receive handler *)

(** One packet of the list: WiFi packets go to [rx_handle_normal] now or wait
    for their PPDU status, reports are used and recycled.  The frames handed
    to [rx_handle_normal] are returned in order. *)
Definition process_one (s : usb_rx) (p : nat) : outcome (usb_rx * list nat) :=
  let k := pks s p in
  match pk_type k with
  | RTW_RX_TYPE_WIFI =>
      let '(w, i, out) := phl_rx_proc_wait_phy_sts (h_psts (hal s)) p (pk_mdata k) in
      let s := set_hal s (set_psts (hal s) i) in
      Ret (s, out ++ (if w then [] else [p]))
  | RTW_RX_TYPE_PPDU_STATUS =>
      let '(i, rs) := phl_rx_proc_ppdu_sts (h_psts (hal s)) (pk_mdata k) sta_by_addr (sta_rssi s) in
      '(ks, i, out) ← phl_rx_proc_phy_sts (fun b => buffer (bufs s b)) (h_rssi (hal s)) cur_ch p (pks s) i;
      let s := UsbRx (bufs s) (idle_rxbuf s) (busy_rxbuf s) (pend_rxbuf s) ks (idle_pkts s) (idle_cnt s)
                 (set_psts (hal s) i) rs (deferred_timer s) in
      Ret (phl_recycle_rx_buf s p, out)
  | _ => Ret (phl_recycle_rx_buf s p, [])
  end.

(** [phl_rx_process_usb] *)
Fixpoint phl_rx_process_usb (s : usb_rx) (l : list nat) : outcome (usb_rx * list nat) :=
  match l with
  | [] => Ret (s, [])
  | p :: l =>
      '(s, out) ← process_one s p;
      '(s, out') ← phl_rx_process_usb s l;
      Ret (s, out ++ out')
  end.

(** The loop of [phl_rx_usb].  [have] is [phl_rx != NULL], which keeps its
    value from the last buffer of the data pipe. *)
Fixpoint rx_usb_loop (fuel : nat) (alloc : nat -> bool) (have : bool) (s : usb_rx) : outcome (usb_rx * list nat) :=
  match fuel with
  | O => Timeout
  | S fuel =>
      match pend_rxbuf s with
      | [] => Ret (s, [])
      | b :: rest =>
          let s := set_bufs s (bufs s) (idle_rxbuf s) (busy_rxbuf s) rest in
          '(have, s, out) ← (if pipe_idx (bufs s b) =? WLAN_IN_MPDU_PIPE_IDX then
               '(l, s) ← phl_get_single_rx alloc b s;
               '(s, out) ← phl_rx_process_usb s l;
               Ret (negb (bool_decide (l = [])), s, out)
             else Ret (have, s, []));
          let s := if (have : bool) then s else phl_release_rxbuf_usb s b in
          '(s, out') ← rx_usb_loop fuel alloc have s;
          Ret (s, out ++ out')
      end
  end.

(** [phl_rx_usb] *)
Definition phl_rx_usb (alloc : nat -> bool) (s : usb_rx) : outcome (usb_rx * list nat) :=
  rx_usb_loop (S (length (pend_rxbuf s))) alloc false s.
End Reception.

(** ** What one packet is *)

(** The type of a packet; a type the HAL has no case for leaves the old one. *)
Definition rx_type_of (t : Z) (old : rtw_rx_type) : rtw_rx_type :=
  if t =? RX_8851B_DESC_PKT_T_WIFI then RTW_RX_TYPE_WIFI
  else if t =? RX_8851B_DESC_PKT_T_TX_PD_RELEASE_HOST then RTW_RX_TYPE_TX_WP_RELEASE_HOST
  else if t =? RX_8851B_DESC_PKT_T_PPDU_STATUS then RTW_RX_TYPE_PPDU_STATUS
  else if t =? RX_8851B_DESC_PKT_T_DFS_RPT then RTW_RX_TYPE_DFS_RPT
  else if t =? RX_8851B_DESC_PKT_T_CHANNEL_INFO then RTW_RX_TYPE_CHANNEL_INFO
  else if t =? RX_8851B_DESC_PKT_T_C2H then RTW_RX_TYPE_C2H
  else if t =? RX_8851B_DESC_PKT_T_TX_RPT then RTW_RX_TYPE_TX_RPT
  else old.

(** What the HAL reads of a packet besides its bytes is there. *)
Definition readable (m : list Z) (addr len t mac_info : Z) : Prop :=
  (t = RX_8851B_DESC_PKT_T_WIFI -> addr + 24 <= zlen m) /\
  (t = RX_8851B_DESC_PKT_T_DFS_RPT -> addr + 8 <= zlen m) /\
  (t = RX_8851B_DESC_PKT_T_PPDU_STATUS ->
   exists p, rtw_hal_mac_ax_parse_ppdu_sts m mac_info addr len = Ret p).

Lemma LE_2BYTE_ret m p f : 0 <= p -> p + 2 <= zlen m -> exists v, LE_BITS_TO_2BYTE m p f = Ret v.
Proof. intros. unfold LE_BITS_TO_2BYTE, LE_P2BYTE. rewrite rds_spec, !bind_Ret by lia. by eexists. Qed.

(** Run the next read. *)
Ltac run_read :=
  match goal with
  | |- context [LE_BITS_TO_2BYTE ?m ?p ?f] =>
      let v := fresh "v" in destruct (LE_2BYTE_ret m p f) as [v ->]; [lia|lia|]; rewrite bind_Ret
  | |- context [rds ?m ?p ?n] => rewrite (rds_spec m p n), bind_Ret by lia
  end.

Lemma wlanhdr_check_ret m p d :
  0 <= p -> p + 24 <= zlen m -> exists a, _hal_rx_wlanhdr_check_8851b m p d = Ret (set_ta d a).
Proof.
  intros. unfold _hal_rx_wlanhdr_check_8851b, PHL_GET_80211_HDR_TYPE, PHL_GET_80211_HDR_RETRY,
    PHL_GET_80211_HDR_SEQUENCE, PHL_GET_80211_HDR_ADDRESS2. repeat run_read. by eexists.
Qed.

Lemma normal_data_ret m p d i :
  0 <= p -> p + 24 <= zlen m -> exists d' i', hal_rx_ppdu_sts_normal_data m p d i = Ret (d', i').
Proof.
  intros. unfold hal_rx_ppdu_sts_normal_data, PHL_GET_80211_HDR_TYPE, PHL_GET_80211_HDR_ADDRESS2,
    PHL_GET_80211_HDR_ADDRESS3.
  destruct (_ && negb (latest_rx_is_psts i _)); [by do 2 eexists|].
  run_read. ifs; repeat run_read; rewrite ?bind_Ret; by do 2 eexists.
Qed.

Lemma netbuf_len_ret m p len :
  0 <= p -> p + 24 <= zlen m -> exists n, netbuf_len m p len = Ret n /\ len <= n.
Proof.
  intros. unfold netbuf_len, PHL_GET_80211_HDR_MORE_FRAG, PHL_GET_80211_HDR_FRAG_NUM, RTW_MAX_ETH_PKT_LEN.
  repeat run_read. eexists. split; [reflexivity|]. ifs; lia.
Qed.

Section Packet.
Context (bb_parse : hal_ppdu_sts -> bool -> rtw_phl_rx_pkt -> rtw_phl_ppdu_phy_info).

(** [hal_handle_rx_buffer_8851b] on readable bytes: the packet starts behind
    its descriptor and is taken when it is not empty and ends inside the
    transfer. *)
Lemma handle_spec m b buf left k h :
  let v := fld m buf in
  let addr := buf + rxd_offset v in
  0 <= buf -> buf + rxd_size m buf <= zlen m -> buf + left <= zlen m ->
  let ok := negb (v r_pktlen =? 0) && (addr + v r_pktlen <=? buf + left) in
  (ok = true -> readable m addr (v r_pktlen) (v r_rpkt_type) (v r_mac_info_vld)) ->
  exists k' h', hal_handle_rx_buffer_8851b bb_parse m b buf left k h = Ret (ok, k', h') /\
    (ok = true -> vir_addr k' = InBuf b addr /\ pkt_len k' = v r_pktlen /\
                  pk_type k' = rx_type_of (v r_rpkt_type) (pk_type k) /\
                  os_priv k' = os_priv k /\ os_netbuf_len k' = os_netbuf_len k).
Proof.
  cbn zeta. intros H0 Hd Hl R. unfold hal_handle_rx_buffer_8851b.
  destruct (hal_parsing_rx_wd_spec m buf (pk_mdata k)) as (d & -> & M & _); auto.
  rewrite bind_Ret. set (v := fld m buf) in *. pose proof (pkt_offset_range m buf) as Hr. fold v in Hr.
  set (addr := buf + rxd_offset v) in *.
  pose proof (fld_bits m buf r_pktlen 0 14 eq_refl ltac:(lia)) as Hn. fold v in Hn.
  destruct (Z.eqb_spec (v r_pktlen) 0) as [E|E]; [by do 2 eexists|].
  cbn [negb andb]. rewrite Z.leb_antisym. destruct (Z.ltb_spec (buf + left) (addr + v r_pktlen)) as [Ho|Ho].
  { by do 2 eexists. }
  cbn [negb]. destruct R as (Rw & Rf & Rp); [cbn [negb andb]; lia|].
  rewrite (M r_rpkt_type). change (rxd_view v (mdata (pk_mdata k)) r_rpkt_type) with (v r_rpkt_type).
  unfold rx_type_of.
  destruct (Z.eqb_spec (v r_rpkt_type) RX_8851B_DESC_PKT_T_WIFI) as [Et|_].
  { destruct (wlanhdr_check_ret m addr d) as [a ->]; [lia|auto|]. rewrite bind_Ret.
    destruct (normal_data_ret m addr (set_ta d a) (h_psts h)) as (d2 & i & ->); [lia|auto|].
    rewrite bind_Ret. by do 2 eexists. }
  destruct (Z.eqb_spec (v r_rpkt_type) RX_8851B_DESC_PKT_T_TX_PD_RELEASE_HOST); [by do 2 eexists|].
  destruct (Z.eqb_spec (v r_rpkt_type) RX_8851B_DESC_PKT_T_PPDU_STATUS) as [Et|_].
  { unfold handle_ppdu_status. cbn [set_type set_span set_meta pk_mdata].
    rewrite (M r_mac_info_vld), (M r_pktlen).
    change (rxd_view v (mdata (pk_mdata k)) r_mac_info_vld) with (v r_mac_info_vld).
    change (rxd_view v (mdata (pk_mdata k)) r_pktlen) with (v r_pktlen).
    destruct (Rp Et) as [p ->]. rewrite bind_Ret. destruct (hp_phy_st_size p =? 0); [by do 2 eexists|].
    cbn zeta. match goal with |- context [hal_rx_ppdu_sts ?a ?b ?c ?e ?f] => destruct (hal_rx_ppdu_sts a b c e f) end.
    rewrite bind_Ret. by do 2 eexists. }
  destruct (Z.eqb_spec (v r_rpkt_type) RX_8851B_DESC_PKT_T_DFS_RPT) as [Et|_].
  { unfold mac_parse_dfs. specialize (Rf Et). rewrite !LE_P4BYTE_spec, !bind_Ret by lia. by do 2 eexists. }
  destruct (Z.eqb_spec (v r_rpkt_type) RX_8851B_DESC_PKT_T_CHANNEL_INFO); [by do 2 eexists|].
  destruct (Z.eqb_spec (v r_rpkt_type) RX_8851B_DESC_PKT_T_C2H); [run_read; by do 2 eexists|].
  destruct (Z.eqb_spec (v r_rpkt_type) RX_8851B_DESC_PKT_T_TX_RPT); by do 2 eexists.
Qed.
End Packet.

(** ** Reading whatever the chip delivers *)

(** How far behind the transfer the HAL may read: a PPDU status is taken apart
    (eight bytes, four users and 43 counters) before its length is looked at. *)
Definition rx_slack : Z := 110.

Lemma mac_info_users_ret n m p :
  0 <= p -> p + 4 * Z.of_nat n <= zlen m -> exists us, mac_info_users n m p = Ret us.
Proof.
  revert p. induction n as [|n IH]; intros p H0 Hl; [by eexists|].
  cbn [mac_info_users]. rewrite LE_P4BYTE_spec, bind_Ret by lia.
  destruct (IH (p + MAC_AX_MAC_INFO_USE_SIZE)) as [us ->]; unfold MAC_AX_MAC_INFO_USE_SIZE; [lia|lia|].
  rewrite bind_Ret. by eexists.
Qed.

Lemma rx_cnt_decode_ret n m p :
  0 <= p -> p + 2 * Z.of_nat n <= zlen m -> exists cs, rx_cnt_decode n m p = Ret cs.
Proof.
  revert p. induction n as [|n IH]; intros p H0 Hl; [by eexists|].
  cbn [rx_cnt_decode]. destruct (rd_spec m p) as (x & -> & _); [lia|]. rewrite bind_Ret.
  destruct (IH (p + 2)) as [cs ->]; [lia|lia|]. rewrite bind_Ret. by eexists.
Qed.

Lemma parse_ppdu_sts_ret m v p len :
  0 <= p -> p + rx_slack <= zlen m -> exists r, rtw_hal_mac_ax_parse_ppdu_sts m v p len = Ret r.
Proof.
  unfold rx_slack. intros H0 Hl. unfold rtw_hal_mac_ax_parse_ppdu_sts, mac_parse_ppdu.
  destruct (v =? 0); [by eexists|].
  unfold parse_mac_info. rewrite (LE_P4BYTE_spec m p), bind_Ret by lia.
  set (w := word_of _). set (n := u8 (GET_FIELD w AX_MAC_INFO_USR_NUM)).
  assert (0 <= n) by (subst n; ulia). clearbody n.
  destruct (Z.ltb_spec MAC_MAX_4_USR n) as [|Hn]; [by eexists|]. unfold MAC_MAX_4_USR in Hn.
  rewrite (LE_P4BYTE_spec m (p + 4)), bind_Ret by lia.
  destruct (mac_info_users_ret (Z.to_nat n) m (p + 8)) as [us ->]; [lia|lia|]. rewrite bind_Ret, bind_Ret.
  unfold _hal_mac_ax_ppdu_sts_to_hal_ppdu_sts. cbn [rx_cnt_ptr rx_cnt_size].
  destruct (GET_FIELD w AX_MAC_INFO_RX_CNT_VLD =? 0); [by eexists|].
  cbn [MAC_AX_RX_CNT_SIZE Z.eqb]. change (Nat.min (Z.to_nat (MAC_AX_RX_CNT_SIZE / 2)) HAL_RXCNT_MAX) with 43%nat.
  match goal with |- context [rx_cnt_decode 43 m ?q] => destruct (rx_cnt_decode_ret 43 m q) as [cs ->] end.
  - destruct (_ =? 0); unfold MAC_AX_MAC_INFO_USE_SIZE; lia.
  - assert (n = 0 \/ n = 1 \/ n = 2 \/ n = 3 \/ n = 4) as [->|[->|[->|[->| ->]]]] by lia;
      unfold MAC_AX_MAC_INFO_USE_SIZE; change (Z.of_nat 43) with 43;
      match goal with |- context [Z.land ?a 1 =? 0] => let b := eval vm_compute in (Z.land a 1 =? 0) in change (Z.land a 1 =? 0) with b end; cbv iota; lia.
  - rewrite bind_Ret. by eexists.
Qed.

(** The descriptor and all the HAL reads for a packet in the transfer. *)
Lemma slack_readable m buf left :
  0 <= buf -> 0 <= left -> buf + left + rx_slack <= zlen m ->
  let v := fld m buf in
  buf + rxd_size m buf <= zlen m /\
  (negb (v r_pktlen =? 0) && (buf + rxd_offset v + v r_pktlen <=? buf + left) = true ->
   readable m (buf + rxd_offset v) (v r_pktlen) (v r_rpkt_type) (v r_mac_info_vld)).
Proof.
  cbn zeta. unfold rx_slack. intros H0 Hp Hl. pose proof (pkt_offset_range m buf).
  pose proof (fld_bits m buf r_pktlen 0 14 eq_refl ltac:(lia)).
  split; [unfold rxd_size; destruct (_ && _); lia|]. intros [Hz%negb_true_iff%Z.eqb_neq Hi%Z.leb_le]%andb_true_iff.
  split_and!; try lia.
  intros _. apply parse_ppdu_sts_ret; unfold rx_slack; lia.
Qed.

(** ** Cutting the transfer *)

(** Packet [k] is the span [a, a + n) of the bytes [m] of buffer [b]: in place,
    or copied. *)
Definition cut_at (m : list Z) (b : nat) (k : rtw_phl_rx_pkt) (sp : Z * Z) : Prop :=
  pkt_len k = sp.2 /\
  (vir_addr k = InBuf b sp.1 \/
   exists c, vir_addr k = InNet c /\ take (Z.to_nat sp.2) c = take (Z.to_nat sp.2) (drop (Z.to_nat sp.1) m)).

(** The spans follow each other between [lo] and [hi]. *)
Fixpoint ordered (lo hi : Z) (sps : list (Z * Z)) : Prop :=
  match sps with
  | [] => True
  | (a, n) :: sps => lo <= a /\ 0 < n /\ a + n <= hi /\ ordered (a + n) hi sps
  end.

Section Cutting.
Context (bb_parse : hal_ppdu_sts -> bool -> rtw_phl_rx_pkt -> rtw_phl_ppdu_phy_info).

Lemma take_netbuf_spec alloc m k b a n :
  vir_addr k = InBuf b a -> pkt_len k = n -> 0 <= a -> 0 <= n -> a + n <= zlen m ->
  (pk_type k = RTW_RX_TYPE_WIFI -> a + 24 <= zlen m) ->
  exists x k', take_netbuf alloc m k a n = Ret (x, k') /\ cut_at m b k' (a, n) /\
    pk_type k' = pk_type k /\ rxbuf_ptr k' = rxbuf_ptr k /\
    (x = true -> exists c, vir_addr k' = InNet c).
Proof.
  intros Hv Hn H0 Hp Hl Hw. unfold take_netbuf.
  assert (cut_at m b k (a, n)) as Hc by (split; [done|by left]).
  destruct (pk_type k) eqn:Et; try (do 2 eexists; split_and!; eauto; done).
  destruct (netbuf_len_ret m a n) as (w & -> & Hge); [lia|auto|]. rewrite bind_Ret.
  destruct alloc; [|by do 2 eexists; split_and!]. rewrite rds_spec, bind_Ret by lia.
  do 2 eexists. split_and!; [reflexivity| |done|done|intros _; by eexists]. split; [done|]. right. eexists. split; [reflexivity|].
  cbn [fst snd]. rewrite take_app_le; [by rewrite take_take, Nat.min_id|].
  rewrite length_take, length_drop. unfold zlen in Hl. lia.
Qed.

(** What the round needs to be able to read. *)
Definition round_ok (m : list Z) (pos left : Z) (old : rtw_rx_type) : Prop :=
  let v := fld m pos in
  let addr := pos + rxd_offset v in
  0 <= pos /\ pos + rxd_size m pos <= zlen m /\ pos + left <= zlen m /\
  (negb (v r_pktlen =? 0) && (addr + v r_pktlen <=? pos + left) = true ->
   readable m addr (v r_pktlen) (v r_rpkt_type) (v r_mac_info_vld) /\
   (rx_type_of (v r_rpkt_type) old = RTW_RX_TYPE_WIFI -> addr + 24 <= zlen m)).

(** One round of the loop with an idle packet. *)
Lemma cut_step_spec alloc b s c p rest :
  let m := buffer (bufs s b) in
  let v := fld m (c_pos c) in
  let addr := c_pos c + rxd_offset v in
  idle_pkts s = p :: rest -> round_ok m (c_pos c) (c_left c) (pk_type (pks s p)) ->
  let ok := negb (v r_pktlen =? 0) && (addr + v r_pktlen <=? c_pos c + c_left c) in
  let step := align8 (rxd_offset v + v r_pktlen) in
  exists r s' k, cut_step bb_parse alloc b s c = Ret (r, s') /\
    bufs s' = bufs s /\ pks s' p = k /\ (forall j, j <> p -> pks s' j = pks s j) /\
    if ok then
      exists ref, r = Some (Cut (c_pos c + step) (c_left c - step) (c_list c ++ [p]) ref) /\
        (ref = c_ref c /\ (exists x, vir_addr k = InNet x) \/ ref = u16 (c_ref c + 1)) /\
        idle_pkts s' = rest /\ cut_at m b k (addr, v r_pktlen) /\
        pk_type k = rx_type_of (v r_rpkt_type) (pk_type (pks s p))
    else r = None /\ idle_pkts s' = rest ++ [p].
Proof.
  cbn zeta. intros Hi (H0 & Hd & Hl & Hr). set (m := buffer (bufs s b)) in *. set (v := fld m (c_pos c)) in *.
  pose proof (pkt_offset_range m (c_pos c)) as Ho. fold v in Ho.
  pose proof (fld_bits m (c_pos c) r_pktlen 0 14 eq_refl ltac:(lia)) as Hn. fold v in Hn. change (2 ^ 14) with 16384 in Hn.
  unfold cut_step, rtw_phl_query_phl_rx. rewrite Hi. cbn [set_pks bufs pks hal]. fold m.
  destruct (handle_spec bb_parse m b (c_pos c) (c_left c) (pks s p) (hal s)) as (k & h & -> & Hk); auto.
  { intros E. by apply Hr. }
  fold v in Hk |- *. rewrite bind_Ret. revert Hr Hk.
  destruct (negb (v r_pktlen =? 0) && _) eqn:Eok; intros Hr Hk; cbn [negb].
  - destruct (Hk eq_refl) as (Ka & Kl & Kt & _). destruct (Hr eq_refl) as [_ Hw]. clear Hr Hk.
    apply andb_true_iff in Eok as [Ez%negb_true_iff%Z.eqb_neq El%Z.leb_le].
    rewrite Ka, Kl.
    destruct (take_netbuf_spec (alloc p) m k b (c_pos c + rxd_offset v) (v r_pktlen))
      as (x & k' & -> & Hc & Ht & Hb & Hx); auto; [lia|lia|lia|by rewrite Kt|].
    rewrite bind_Ret. do 3 eexists. split; [reflexivity|]. cbn [set_pk set_hal set_pks bufs pks idle_pkts].
    rewrite tab_eq. split_and!; [done|reflexivity|intros j Hj; by rewrite !tab_ne|].
    exists (if x then c_ref c else u16 (c_ref c + 1)).
    split_and!; [|destruct x; [left; split; [reflexivity|exact (Hx eq_refl)]|by right]|done|destruct x; exact Hc|destruct x; exact (eq_trans Ht Kt)].
    replace (c_pos c + rxd_offset v - c_pos c) with (rxd_offset v) by lia. rewrite _ALIGN_8 by lia. done.
  - do 3 eexists. split; [reflexivity|]. cbn [phl_release_phl_rx set_pk set_hal set_pks bufs pks idle_pkts].
    split_and!; [done|reflexivity|intros j Hj; by rewrite !tab_ne|done..].
Qed.
End Cutting.

(** The state of the loop after the spans [sps] were cut. *)
Record cut_inv (m : list Z) (b : nat) (s : usb_rx) (c : cut) (sps : list (Z * Z)) : Prop := {
  ci_nodup : NoDup (c_list c ++ idle_pkts s);
  ci_small : zlen (c_list c ++ idle_pkts s) < 65536;
  ci_cut : Forall2 (fun p sp => cut_at m b (pks s p) sp) (c_list c) sps;
  ci_ref : 0 <= c_ref c <= zlen (c_list c);
  ci_net : c_ref c = 0 -> Forall (fun p => exists x, vir_addr (pks s p) = InNet x) (c_list c)
}.

Lemma Forall2_eq_on {A B} (P Q : A -> B -> Prop) l k :
  Forall2 P l k -> (forall x y, x ∈ l -> P x y -> Q x y) -> Forall2 Q l k.
Proof.
  intros H Hi. induction H as [|x y l k Hx H IH]; constructor.
  - apply Hi; [left|done].
  - apply IH. intros z w Hz. apply Hi. by right.
Qed.

(** A round keeps it. *)
Lemma cut_inv_step m b s s' c p rest k sp pos left ref sps :
  cut_inv m b s c sps -> idle_pkts s = p :: rest -> idle_pkts s' = rest ->
  pks s' p = k -> (forall j, j <> p -> pks s' j = pks s j) -> cut_at m b k sp ->
  ref = c_ref c /\ (exists x, vir_addr k = InNet x) \/ ref = u16 (c_ref c + 1) ->
  cut_inv m b s' (Cut pos left (c_list c ++ [p]) ref) (sps ++ [sp]).
Proof.
  intros [Hn Hs Hc Hr Ht] Hi Hi' Hk Ho Hat Href.
  rewrite Hi in Hn, Hs.
  assert (p ∉ c_list c) as Hp.
  { intros Hp. apply NoDup_app in Hn as (_ & Hd & _). apply (Hd p Hp). left. }
  assert (zlen (c_list c) + 1 < 65536) as Hb by (rewrite zlen_app, zlen_cons in Hs; pose proof (zlen_nonneg rest); lia).
  assert (ref = c_ref c /\ (exists x, vir_addr k = InNet x) \/ ref = c_ref c + 1) as Href'.
  { destruct Href as [?| ->]; [by left|right]. apply u16_small. unfold is_u16. lia. }
  split; cbn [c_list c_ref]; rewrite ?Hi', <- ?app_assoc; auto.
  - apply Forall2_app; [|by apply Forall2_cons; rewrite Hk].
    eapply Forall2_eq_on; [exact Hc|]. cbn. intros j sp' Hj. by rewrite Ho by (intros ->; done).
  - rewrite zlen_app. change (zlen [p]) with 1. lia.
  - intros E. destruct Href' as [[-> Hx]| ->]; [|lia]. apply Forall_app. split.
    + specialize (Ht E). rewrite Forall_forall in Ht |- *. intros j Hj. rewrite Ho by (intros ->; done). by apply Ht.
    + apply Forall_singleton. by rewrite Hk.
Qed.

(** A packet that is given back leaves it as it was. *)
Lemma cut_inv_refused m b s s' c p rest sps :
  cut_inv m b s c sps -> idle_pkts s = p :: rest -> idle_pkts s' = rest ++ [p] ->
  (forall j, j <> p -> pks s' j = pks s j) -> cut_inv m b s' c sps.
Proof.
  intros [Hn Hs Hc Hr Ht] Ei Hi' Hne. rewrite Ei in Hn, Hs.
  assert (p ∉ c_list c) as Hp by (intros Hp; apply NoDup_app in Hn as (_ & Hd' & _); apply (Hd' p Hp); left).
  split; auto.
  - rewrite Hi'. by rewrite <- Permutation_cons_append.
  - rewrite Hi', !zlen_app. rewrite zlen_app, zlen_cons in Hs. change (zlen [p]) with 1. lia.
  - eapply Forall2_eq_on; [exact Hc|]. cbn. intros j sp Hj. by rewrite Hne by (intros ->; done).
  - intros E. specialize (Ht E). rewrite Forall_forall in Ht |- *. intros j Hj.
    rewrite Hne by (intros ->; done). by apply Ht.
Qed.

(** The bytes of a packet, where they are now. *)
Definition pkt_bytes (s : usb_rx) (p : nat) : list Z :=
  let '(m, o) := pkt_mem (fun b => buffer (bufs s b)) (vir_addr (pks s p)) in
  take (Z.to_nat (pkt_len (pks s p))) (drop (Z.to_nat o) m).

(** The bytes of a span. *)
Definition span_bytes (m : list Z) (sp : Z * Z) : list Z := take (Z.to_nat sp.2) (drop (Z.to_nat sp.1) m).

Definition get_single_end (b : nat) (c : cut) (s : usb_rx) : list nat * usb_rx :=
  match c_list c with
  | [] => ([], s)
  | l => if c_ref c =? 0 then (l, phl_release_rxbuf_usb s b)
         else (l, set_buf s b (RxBuf (buffer (bufs s b)) (transfer_len (bufs s b)) (pipe_idx (bufs s b)) (c_ref c)))
  end.

(** At the end the packets have their bytes: a buffer that is released (and
    wiped) holds none of them. *)
Lemma get_single_end_spec m b s c sps :
  cut_inv m b s c sps -> buffer (bufs s b) = m ->
  (get_single_end b c s).1 = c_list c /\
  pks (get_single_end b c s).2 = pks s /\
  Forall2 (fun p sp => pkt_len (pks s p) = sp.2 /\ pkt_bytes (get_single_end b c s).2 p = span_bytes m sp)
    (c_list c) sps /\
  idle_pkts (get_single_end b c s).2 = idle_pkts s.
Proof.
  intros [Hn Hs Hc Hr Ht] Hm. unfold get_single_end.
  destruct (c_list c) as [|p0 l0] eqn:El.
  { split_and!; [done..| |done]. inversion Hc. constructor. }
  rewrite <- El in *. clear El p0 l0.
  set (s' := (if c_ref c =? 0 then _ else _).2).
  assert (pks s' = pks s) as Hk.
  { subst s'. destruct (_ =? 0); [|done]. cbn [snd]. unfold phl_release_rxbuf_usb. by ifs. }
  split_and!; [by destruct (_ =? 0)|exact Hk| |].
  2:{ subst s'. destruct (_ =? 0); [|done]. cbn [snd]. unfold phl_release_rxbuf_usb. by ifs. }
  eapply Forall2_eq_on; [exact Hc|]. cbn. intros p [a n] Hp (Hl & Hv). cbn [fst snd] in *. split; [done|].
  unfold pkt_bytes, span_bytes. rewrite Hk, Hl. destruct Hv as [Hv|(x & Hv & Hx)]; rewrite Hv; cbn [pkt_mem fst snd].
  - subst s'. destruct (Z.eqb_spec (c_ref c) 0) as [E|E].
    + apply Ht in E. rewrite Forall_forall in E. destruct (E p Hp) as [x Hx]. congruence.
    + cbn [set_buf set_bufs bufs snd]. rewrite tab_eq. cbn [buffer]. by rewrite Hm.
  - by rewrite drop_0.
Qed.

Lemma ordered_snoc lo h hi sps a n :
  ordered lo h sps -> lo <= h -> h <= a -> 0 < n -> a + n <= hi -> ordered lo hi (sps ++ [(a, n)]).
Proof.
  revert lo. induction sps as [|[a' n'] sps IH]; intros lo H Hl Ha Hn Hh; cbn in *; [lia|].
  destruct H as (? & ? & ? & H). split_and!; try lia. apply IH; auto.
Qed.

Lemma ordered_weaken lo h hi sps : ordered lo h sps -> h <= hi -> ordered lo hi sps.
Proof.
  revert lo. induction sps as [|[a n] sps IH]; intros lo H Hh; cbn in *; [done|].
  destruct H as (? & ? & ? & H). split_and!; try lia. auto.
Qed.

Section Transfers.
Context (bb_parse : hal_ppdu_sts -> bool -> rtw_phl_rx_pkt -> rtw_phl_ppdu_phy_info).

Lemma cut_loop_safe fuel alloc b s c sps T :
  let m := buffer (bufs s b) in
  T + rx_slack <= zlen m -> 0 <= c_pos c -> 0 <= c_left c -> c_pos c + c_left c = T ->
  c_left c < Z.of_nat fuel -> cut_inv m b s c sps -> ordered 0 (c_pos c) sps ->
  exists c' s' sps', cut_loop bb_parse fuel alloc b s c = Ret (c', s') /\ bufs s' = bufs s /\
    cut_inv m b s' c' sps' /\ ordered 0 T sps'.
Proof.
  cbn zeta. revert s c sps. induction fuel as [|fuel IH]; intros s c sps Hs H0 Hl HT Hf Hi Ho; [lia|].
  set (m := buffer (bufs s b)) in *. cbn [cut_loop].
  destruct (idle_pkts s) as [|p rest] eqn:Ei.
  { unfold cut_step, rtw_phl_query_phl_rx. rewrite Ei, bind_Ret. exists c, s, sps. split_and!; auto.
    apply (ordered_weaken _ (c_pos c)); [done|lia]. }
  destruct (slack_readable m (c_pos c) (c_left c)) as [Hd Hr]; auto; [lia|].
  pose proof (pkt_offset_range m (c_pos c)) as Hof.
  pose proof (fld_bits m (c_pos c) r_pktlen 0 14 eq_refl ltac:(lia)) as Hn.
  assert (round_ok m (c_pos c) (c_left c) (pk_type (pks s p))) as Hro.
  { unfold rx_slack in *. split_and!; auto; [lia|]. intros E. split; [auto|].
    apply andb_true_iff in E as [_ E%Z.leb_le]. lia. }
  destruct (cut_step_spec bb_parse alloc b s c p rest Ei Hro) as (r & s' & k & -> & Hb & Hk & Hne & Hok).
  rewrite bind_Ret. fold m in Hok |- *. revert Hok.
  destruct (negb (fld m (c_pos c) r_pktlen =? 0) && _) eqn:Eok; intros Hok.
  - destruct Hok as (ref & -> & Href & Hi' & Hc & _).
    apply andb_true_iff in Eok as [Ez%negb_true_iff%Z.eqb_neq El%Z.leb_le].
    set (v := fld m (c_pos c)) in *. set (st := align8 (rxd_offset v + v r_pktlen)) in *.
    assert (rxd_offset v + v r_pktlen <= st) by (subst st; unfold align8; zlia).
    pose proof (cut_inv_step m b s s' c p rest k _ (c_pos c + st) (c_left c - st) ref sps Hi Ei Hi' Hk Hne Hc Href) as Hi2.
    cbn [c_left]. destruct (Z.ltb_spec 0 (c_left c - st)).
    + assert (m = buffer (bufs s' b)) as Em by (unfold m; by rewrite Hb). 
      destruct (IH s' (Cut (c_pos c + st) (c_left c - st) (c_list c ++ [p]) ref) _ ltac:(rewrite <- Em; exact Hs) ltac:(cbn; lia) ltac:(cbn; lia) ltac:(cbn; lia) ltac:(cbn; lia)
                  ltac:(rewrite <- Em; exact Hi2)) as (c2 & s2 & sps2 & E2 & Hb2 & Hi3 & Ho3).
      { apply (ordered_snoc _ (c_pos c)); cbn; auto; lia. }
      rewrite <- Em in Hi3. exists c2, s2, sps2. split_and!; auto. congruence.
    + eexists _, s', _. split_and!; [reflexivity|done|exact Hi2|]. apply (ordered_snoc _ (c_pos c)); auto; lia.
  - destruct Hok as [-> Hi']. exists c, s', sps. split_and!; auto.
    2:{ apply (ordered_weaken _ (c_pos c)); [done|lia]. }
    by eapply cut_inv_refused.
Qed.

Lemma phl_get_single_rx_eq alloc b s :
  phl_get_single_rx bb_parse alloc b s =
  cut_loop bb_parse (S (Z.to_nat (transfer_len (bufs s b)))) alloc b s
    (Cut 0 (s32 (transfer_len (bufs s b))) [] 0) ≫= fun '(c, s) => Ret (get_single_end b c s).
Proof.
  unfold phl_get_single_rx, get_single_end. destruct (cut_loop _ _ _ _ _ _) as [[c s']| |]; [|done|done].
  rewrite !bind_Ret. by destruct (c_list c), (c_ref c =? 0).
Qed.

Lemma cut_inv_start m b s n :
  NoDup (idle_pkts s) -> zlen (idle_pkts s) < 65536 -> cut_inv m b s (Cut 0 n [] 0) [].
Proof. intros Hn Hs. split; cbn [c_list c_ref app]; auto; done. Qed.

(** C28. Whatever bytes a transfer carries, [phl_get_single_rx] comes back,
    reads nothing outside the buffer and cuts packets that are not empty, do
    not overlap, follow each other and lie inside the transfer, and each of
    them has exactly its bytes, also when the buffer was already given back,
    provided the buffer extends 110 bytes behind the transfer (the HAL reads a
    descriptor, an 802.11 header or a PPDU status before it compares with
    the length that is left). *)
Theorem rx_transfer_safe alloc b s :
  let m := buffer (bufs s b) in
  let T := transfer_len (bufs s b) in
  0 <= T < 2147483648 -> T + rx_slack <= zlen m -> NoDup (idle_pkts s) -> zlen (idle_pkts s) < 65536 ->
  exists l s' sps, phl_get_single_rx bb_parse alloc b s = Ret (l, s') /\ ordered 0 T sps /\
    Forall2 (fun p sp => pkt_len (pks s' p) = sp.2 /\ pkt_bytes s' p = span_bytes m sp) l sps.
Proof.
  cbn zeta. intros HT Hs Hn Hl. rewrite phl_get_single_rx_eq, s32_small by lia.
  destruct (cut_loop_safe (S (Z.to_nat (transfer_len (bufs s b)))) alloc b s
              (Cut 0 (transfer_len (bufs s b)) [] 0) [] (transfer_len (bufs s b)))
    as (c & s' & sps & -> & Hb & Hi & Ho); cbn [c_pos c_left]; auto; try lia.
  { by apply cut_inv_start. }
  { done. }
  rewrite bind_Ret. destruct (get_single_end_spec _ b s' c sps Hi) as (E1 & E2 & E3 & _); [by rewrite Hb|].
  destruct (get_single_end b c s') as [l s2]. cbn [fst snd] in *. subst l. rewrite <- E2 in E3.
  by exists (c_list c), s2, sps.
Qed.
End Transfers.

(** One buffer, two packets, and a transfer of [n] bytes. *)
Definition rx_idle2 (buf : list Z) (n : Z) : usb_rx :=
  UsbRx (fun _ => RxBuf buf n 0 0) [] [] [] (fun _ => cleared_pkt) [0; 1]%nat 2
    (HalRx _phl_com_init_ppdu_sts _phl_com_init_rssi_stat 0 0 []) (fun _ => None) false.

(** A C2H report of three bytes, and noise behind it. *)
Definition c2h3 (f : rxfield) : Z := match f with r_pktlen => 3 | r_rpkt_type => 10 | _ => 0 end.

Definition noisy : list Z := rxd_bytes c2h3 [] ++ [7; 8; 9] ++ replicate 130 255.

Lemma rx_transfer_safe_witness :
  exists l s' sps, phl_get_single_rx (fun _ _ _ => phy0) (fun _ => true) 0 (rx_idle2 noisy 38) = Ret (l, s') /\
    ordered 0 38 sps /\ l = [0%nat] /\ pkt_bytes s' 0 = [7; 8; 9].
Proof.
  destruct (rx_transfer_safe (fun _ _ _ => phy0) (fun _ => true) 0 (rx_idle2 noisy 38)) as (l & s' & sps & E & Ho & Hf).
  - cbn. lia.
  - vm_compute. discriminate.
  - refine (bool_decide_unpack _ _). exact I.
  - reflexivity.
  - exists l, s', sps. split; [exact E|]. split; [exact Ho|].
    assert (match phl_get_single_rx (fun _ _ _ => phy0) (fun _ => true) 0 (rx_idle2 noisy 38) with
            | Ret (l, s) => (l, pkt_bytes s 0) | _ => ([], []) end = ([0%nat], [7; 8; 9])) as H by (vm_compute; reflexivity).
    rewrite E in H. by injection H as -> ->.
Defined.

(** Without the slack the HAL reads behind the buffer: a transfer that ends
    with the first eight bytes of a descriptor. *)
Lemma rx_transfer_needs_slack :
  phl_get_single_rx (fun _ _ _ => phy0) (fun _ => true) 0 (rx_idle2 (replicate 8 0) 8) = Fault.
Proof. reflexivity. Qed.

(** ** Aggregates *)

(** A packet of a transfer as the chip writes it: descriptor, shift and driver
    information, the packet, and the bytes up to the next multiple of eight. *)
Record rx_frame := RxFrame {
  fr_v : rxfield -> Z; fr_mac : list Z; fr_gap : list Z; fr_data : list Z; fr_pad : list Z
}.

Definition frame_raw (f : rx_frame) : list Z := rxd_bytes (fr_v f) (fr_mac f) ++ fr_gap f ++ fr_data f.

Definition frame_bytes (f : rx_frame) : list Z := frame_raw f ++ fr_pad f.

Record frame_ok (f : rx_frame) : Prop := {
  fo_fits : rxd_fits (fr_v f);
  fo_mac : length (fr_mac f) = 6%nat /\ Forall is_u8 (fr_mac f);
  fo_len : fr_v f r_pktlen = zlen (fr_data f) /\ fr_data f <> [];
  fo_gap : zlen (rxd_bytes (fr_v f) (fr_mac f)) + zlen (fr_gap f) = rxd_offset (fr_v f);
  fo_known : fr_v f r_rpkt_type ∈ [0; 1; 2; 6; 7; 8; 10];
  fo_wifi : fr_v f r_rpkt_type = RX_8851B_DESC_PKT_T_WIFI -> 24 <= zlen (fr_data f);
  fo_dfs : fr_v f r_rpkt_type = RX_8851B_DESC_PKT_T_DFS_RPT -> 8 <= zlen (fr_data f);
  fo_ppdu : fr_v f r_rpkt_type = RX_8851B_DESC_PKT_T_PPDU_STATUS ->
            fr_v f r_mac_info_vld = 0 \/ exists r, report_ok r /\ fr_data f = pr_bytes r
}.

(** Every packet but the last is padded; the last may be. *)
Fixpoint agg_ok (fs : list rx_frame) : Prop :=
  match fs with
  | [] => True
  | f :: fs =>
      frame_ok f /\ agg_ok fs /\
      match fs with
      | [] => zlen (frame_bytes f) <= align8 (zlen (frame_raw f))
      | _ => zlen (frame_bytes f) = align8 (zlen (frame_raw f))
      end
  end.

Definition agg_bytes (fs : list rx_frame) : list Z := concat (map frame_bytes fs).

(** The type of a packet. *)
Definition frame_type_of (f : rx_frame) : rtw_rx_type := rx_type_of (fr_v f r_rpkt_type) RTW_RX_TYPE_MAX.

(** The spans of the packets, the first descriptor being at [pos]. *)
Fixpoint agg_spans (pos : Z) (fs : list rx_frame) : list (Z * Z) :=
  match fs with
  | [] => []
  | f :: fs => (pos + rxd_offset (fr_v f), fr_v f r_pktlen) :: agg_spans (pos + zlen (frame_bytes f)) fs
  end.

Lemma frame_raw_len f : frame_ok f -> zlen (frame_raw f) = rxd_offset (fr_v f) + fr_v f r_pktlen.
Proof.
  intros Hf. destruct (fo_len f Hf) as [-> _]. unfold frame_raw. rewrite !zlen_app.
  pose proof (fo_gap f Hf). lia.
Qed.

Lemma known_type t old old' : t ∈ [0; 1; 2; 6; 7; 8; 10] -> rx_type_of t old = rx_type_of t old'.
Proof. intros H. repeat (apply elem_of_cons in H as [->|H]; [reflexivity|]). by apply elem_of_nil in H. Qed.

(** The bytes of the packets of an aggregate. *)
Lemma agg_spans_bytes fs pre post :
  agg_ok fs ->
  map (span_bytes (pre ++ agg_bytes fs ++ post)) (agg_spans (zlen pre) fs) = map fr_data fs.
Proof.
  revert pre. induction fs as [|f fs IH]; intros pre H; [done|]. destruct H as (Hf & Ho & _).
  cbn [agg_spans map agg_bytes concat]. f_equal.
  - destruct (fo_len f Hf) as [El _]. unfold span_bytes. cbn [fst snd]. rewrite El, to_nat_zlen.
    rewrite <- (fo_gap f Hf). set (X := concat (map frame_bytes fs)).
    set (R := rxd_bytes (fr_v f) (fr_mac f)).
    replace (pre ++ (frame_bytes f ++ X) ++ post)
      with ((pre ++ R ++ fr_gap f) ++ fr_data f ++ fr_pad f ++ X ++ post)
      by (unfold frame_bytes, frame_raw; by rewrite <- !app_assoc).
    replace (zlen pre + (zlen R + zlen (fr_gap f))) with (zlen (pre ++ R ++ fr_gap f)) by (rewrite !zlen_app; lia).
    by rewrite to_nat_zlen, drop_app_length, take_app_length.
  - rewrite <- zlen_app. unfold agg_bytes in IH. rewrite <- app_assoc, app_assoc. by apply IH.
Qed.

(** The reports in an aggregate can be read. *)
Lemma report_readable r pre post v :
  report_ok r -> v = 0 \/ v = 1 ->
  exists p, rtw_hal_mac_ax_parse_ppdu_sts (pre ++ pr_bytes r ++ post) v (zlen pre) (zlen (pr_bytes r)) = Ret p.
Proof.
  intros Hr [->|Hv]; [by eexists|]. unfold rtw_hal_mac_ax_parse_ppdu_sts, mac_parse_ppdu.
  rewrite (proj2 (Z.eqb_neq v 0)) by lia.
  assert (pre ++ pr_bytes r ++ post = pre ++ le32 (pr_word0 r) ++ le32 (pr_word1 r)
            ++ flat_map (fun u => le32 (usr_word u)) (pr_usr r)
            ++ (pr_pad r ++ pr_cnt_bytes r ++ pr_plcp r ++ pr_phy r ++ post)) as Em.
  { unfold pr_bytes. by rewrite <- !app_assoc. }
  rewrite Em, parse_mac_info_run, bind_Ret by done. rewrite <- Em.
  unfold _hal_mac_ax_ppdu_sts_to_hal_ppdu_sts. cbn [rx_cnt_ptr rx_cnt_size].
  pose proof (cnt_bytes_len r Hr) as Hc. destruct (pr_cnt r); [|by eexists].
  change (96 =? 0) with false. cbv iota. change (Nat.min (Z.to_nat (96 / 2)) HAL_RXCNT_MAX) with 43%nat.
  match goal with |- context [rx_cnt_decode 43 ?m ?q] => destruct (rx_cnt_decode_ret 43 m q) as [cs ->] end.
  - zl.
  - rewrite Em, !zlen_app, users_len, Hc. change (zlen (le32 _)) with 4. zl.
  - by eexists.
Qed.

(** The descriptor of a packet, read at its place. *)
Lemma frame_fields f pre post :
  frame_ok f ->
  let m := pre ++ frame_bytes f ++ post in
  rxd_offset (fld m (zlen pre)) = rxd_offset (fr_v f) /\
  (forall g, In g rxd_head -> fld m (zlen pre) g = fr_v f g).
Proof.
  intros Hf. cbn zeta. set (m := pre ++ frame_bytes f ++ post).
  assert (m = pre ++ rxd_bytes (fr_v f) (fr_mac f) ++ (fr_gap f ++ fr_data f ++ fr_pad f ++ post)) as Em.
  { unfold m, frame_bytes, frame_raw. by rewrite <- !app_assoc. }
  destruct (fo_mac f Hf) as [Hm H8].
  assert (forall g, g <> r_ppdu_cnt_chg -> (GET_RX_AX_DESC g).1 < 4 \/ fr_v f r_long_rxd <> 0 ->
                    fld m (zlen pre) g = rxd_parsed (fr_v f) g) as Hg.
  { intros g H1 H2. rewrite Em. apply fld_rxd_bytes; auto. apply (fo_fits f Hf). }
  split; [exact (rxd_offset_ext (rxd_parsed (fr_v f)) _ Hg)|]. intros g Hin.
  repeat (destruct Hin as [<-|Hin]; [apply Hg; [done|left; cbn; lia]|]). done.
Qed.

Lemma frame_round f pre post left old :
  let m := pre ++ frame_bytes f ++ post in
  frame_ok f -> zlen (frame_raw f) <= left -> zlen pre + left <= zlen m -> round_ok m (zlen pre) left old.
Proof.
  cbn zeta. intros Hf Hl Hz. destruct (frame_fields f pre post Hf) as [Eo Eh].
  set (m := pre ++ frame_bytes f ++ post) in *. pose proof (frame_raw_len f Hf) as Er.
  destruct (fo_len f Hf) as [El Ed]. destruct (fo_mac f Hf) as [Hm H8].
  pose proof (rxd_bytes_len (fr_v f) (fr_mac f) Hm) as Hb. pose proof (fo_gap f Hf) as Hg.
  pose proof (zlen_nonneg (fr_gap f)). pose proof (zlen_nonneg (fr_data f)).
  unfold round_ok. rewrite Eo, (Eh r_pktlen), (Eh r_rpkt_type), (Eh r_mac_info_vld) by (cbn; tauto).
  split_and!; [apply zlen_nonneg| |done|].
  - unfold rxd_size. rewrite (Eh r_long_rxd) by (cbn; tauto).
    destruct (is_wifi _), (Z.eqb_spec (fr_v f r_long_rxd) 0) as [E0|E0], (Z.eqb_spec (fr_v f r_long_rxd) 1); cbn [andb]; lia.
  - intros _. split; [split_and!|].
    + intros E. pose proof (fo_wifi f Hf E). lia.
    + intros E. pose proof (fo_dfs f Hf E). lia.
    + intros E. rewrite El. destruct (fo_ppdu f Hf E) as [->|(r & Hr & Er')]; [by eexists|].
      rewrite Er'. unfold m, frame_bytes, frame_raw. rewrite Er'.
      match goal with |- context [?a ++ ((?b ++ ?c ++ pr_bytes r) ++ ?d) ++ ?e] =>
        replace (a ++ ((b ++ c ++ pr_bytes r) ++ d) ++ e) with ((a ++ b ++ c) ++ pr_bytes r ++ (d ++ e)) by by rewrite <- !app_assoc end.
      match goal with |- context [rtw_hal_mac_ax_parse_ppdu_sts ((?a ++ ?b ++ ?c) ++ _) _ ?p _] =>
        replace p with (zlen (a ++ b ++ c)) by (rewrite !zlen_app; lia) end.
      apply report_readable; [done|]. by apply (fits_flag _ r_mac_info_vld 23 (fo_fits f Hf)).
    + rewrite (known_type _ old RTW_RX_TYPE_MAX (fo_known f Hf)). intros E.
      assert (fr_v f r_rpkt_type = RX_8851B_DESC_PKT_T_WIFI) as Ew.
      { revert E. pose proof (fo_known f Hf) as Hk. revert Hk. generalize (fr_v f r_rpkt_type). intros t Hk E.
        repeat (apply elem_of_cons in Hk as [->|Hk]; [done|]). by apply elem_of_nil in Hk. }
      pose proof (fo_wifi f Hf Ew). lia.
Qed.

Lemma frame_bytes_pos f : frame_ok f -> zlen (frame_raw f) <= zlen (frame_bytes f) /\ 0 < zlen (frame_raw f) /\ 0 < fr_v f r_pktlen.
Proof.
  intros Hf. destruct (fo_len f Hf) as [El Ed]. pose proof (frame_raw_len f Hf) as Er.
  assert (0 < zlen (fr_data f)) by (destruct (fr_data f) as [|x l]; [done|]; rewrite zlen_cons; pose proof (zlen_nonneg l); lia).
  pose proof (fo_gap f Hf). pose proof (zlen_nonneg (fr_gap f)).
  pose proof (zlen_nonneg (rxd_bytes (fr_v f) (fr_mac f))). pose proof (zlen_nonneg (fr_pad f)).
  unfold frame_bytes. rewrite zlen_app. lia.
Qed.

Section Aggregates.
Context (bb_parse : hal_ppdu_sts -> bool -> rtw_phl_rx_pkt -> rtw_phl_ppdu_phy_info).

(** The round of one packet. *)
Lemma frame_step f alloc b s c pre post p rest sps :
  let m := buffer (bufs s b) in
  let A := align8 (zlen (frame_raw f)) in
  frame_ok f -> m = pre ++ frame_bytes f ++ post -> c_pos c = zlen pre -> zlen (frame_raw f) <= c_left c ->
  zlen pre + c_left c <= zlen m -> idle_pkts s = p :: rest -> cut_inv m b s c sps ->
  exists s' ref, let c' := Cut (zlen pre + A) (c_left c - A) (c_list c ++ [p]) ref in
    cut_step bb_parse alloc b s c = Ret (Some c', s') /\ bufs s' = bufs s /\ idle_pkts s' = rest /\
    pk_type (pks s' p) = frame_type_of f /\ (forall j, j <> p -> pks s' j = pks s j) /\
    cut_inv m b s' c' (sps ++ [(zlen pre + rxd_offset (fr_v f), fr_v f r_pktlen)]).
Proof.
  intros m A Hf Em Hp Hl Hz Hi Hinv. destruct (frame_fields f pre post Hf) as [Eo Eh]. rewrite <- Em in Eo, Eh.
  assert (round_ok m (c_pos c) (c_left c) (pk_type (pks s p))) as Hro.
  { rewrite Hp. rewrite Em at 1. apply frame_round; auto. by rewrite <- Em. }
  pose proof (frame_raw_len f Hf) as Er. destruct (frame_bytes_pos f Hf) as (_ & _ & Hpos).
  destruct (cut_step_spec bb_parse alloc b s c p rest Hi Hro) as (r & s1 & k & E & Hb & Hk & Ho & Hr).
  revert Hr. fold m. rewrite Hp, Eo, !(Eh r_pktlen), !(Eh r_rpkt_type) by (cbn; tauto).
  rewrite (proj2 (Z.eqb_neq _ _)), (proj2 (Z.leb_le _ _)) by lia. cbn [negb andb]. rewrite <- Er. fold A.
  intros (ref & -> & Href & Hi1 & Hc & Ht). exists s1, ref. cbn zeta. split_and!; auto.
  - rewrite Hk, Ht. apply known_type, (fo_known f Hf).
  - by eapply cut_inv_step.
Qed.

Lemma cut_loop_agg fs : forall fuel alloc b s c pre post ps rest sps,
  let m := buffer (bufs s b) in
  fs <> [] -> agg_ok fs -> m = pre ++ agg_bytes fs ++ post ->
  c_pos c = zlen pre -> c_left c = zlen (agg_bytes fs) -> (length fs <= fuel)%nat ->
  idle_pkts s = ps ++ rest -> length ps = length fs -> cut_inv m b s c sps ->
  exists c' s', cut_loop bb_parse fuel alloc b s c = Ret (c', s') /\ bufs s' = bufs s /\
    c_list c' = c_list c ++ ps /\ cut_inv m b s' c' (sps ++ agg_spans (zlen pre) fs) /\
    Forall2 (fun p f => pk_type (pks s' p) = frame_type_of f) ps fs /\
    (forall j, j ∉ ps -> pks s' j = pks s j) /\ idle_pkts s' = rest.
Proof.
  induction fs as [|f fs IH]; intros fuel alloc b s c pre post ps rest sps m Hne Hok Em Hp Hl Hfu Hi Hps Hinv; [done|].
  destruct fuel as [|fuel]; [cbn in Hfu; lia|]. destruct ps as [|p ps]; [done|]. cbn [app] in Hi.
  destruct Hok as (Hf & Hok & Hpad). cbn [cut_loop]. destruct (frame_bytes_pos f Hf) as (Hraw & _ & _).
  change (agg_bytes (f :: fs)) with (frame_bytes f ++ agg_bytes fs) in Em, Hl.
  rewrite zlen_app in Hl. rewrite <- app_assoc in Em. pose proof (zlen_nonneg (agg_bytes fs)) as Hnn.
  destruct (frame_step f alloc b s c pre (agg_bytes fs ++ post) p (ps ++ rest) sps)
    as (s1 & ref & -> & Hb & Hi1 & Ht & Ho & Hinv1); auto; [lia|fold m; rewrite Em, !zlen_app; pose proof (zlen_nonneg post); lia|].
  fold m in Hinv1. rewrite bind_Ret. cbn [c_left agg_spans].
  assert (p ∉ ps) as Hpn.
  { destruct Hinv as [Hn _ _ _ _]. rewrite Hi in Hn. apply NoDup_app in Hn as (_ & _ & Hn).
    apply NoDup_cons in Hn as [Hn _]. set_solver. }
  destruct fs as [|f2 fs].
  - destruct ps; [|done]. change (zlen (agg_bytes [])) with 0 in Hl.
    rewrite (proj2 (Z.ltb_ge _ _)) by lia. do 2 eexists. split_and!; [reflexivity|done|done|exact Hinv1| | |].
    + by constructor.
    + intros j Hj. apply Ho. set_solver.
    + exact Hi1.
  - assert (0 < zlen (agg_bytes (f2 :: fs))) as H2.
    { destruct Hok as (Hf2 & _). destruct (frame_bytes_pos f2 Hf2) as (? & ? & _).
      change (agg_bytes (f2 :: fs)) with (frame_bytes f2 ++ agg_bytes fs). rewrite zlen_app.
      pose proof (zlen_nonneg (agg_bytes fs)). lia. }
    rewrite (proj2 (Z.ltb_lt _ _)) by lia. rewrite <- Hpad in Hinv1 |- *.
    assert (buffer (bufs s1 b) = m) as Em1 by (unfold m; by rewrite Hb).
    destruct (IH fuel alloc b s1 (Cut (zlen pre + zlen (frame_bytes f)) (c_left c - zlen (frame_bytes f)) (c_list c ++ [p]) ref)
                (pre ++ frame_bytes f) post ps rest (sps ++ [(zlen pre + rxd_offset (fr_v f), fr_v f r_pktlen)]))
      as (c' & s' & E & Hb' & Hl' & Hinv' & Ht' & Ho' & Hi'); auto; try (rewrite Em1); auto.
    + by rewrite <- app_assoc.
    + by rewrite zlen_app.
    + cbn [c_left]. lia.
    + cbn in *. lia.
    + exists c', s'. split_and!; [exact E|congruence| | | | |exact Hi'].
      * rewrite Hl'. cbn [c_list]. by rewrite <- app_assoc.
      * rewrite Em1, zlen_app, <- app_assoc in Hinv'. exact Hinv'.
      * constructor; [|done]. by rewrite Ho'.
      * intros j Hj. rewrite Ho' by set_solver. apply Ho. set_solver.
Qed.

(** C27. An aggregate is cut into exactly its packets: when a transfer holds the
    packets [fs], each with its descriptor and padded to eight bytes, and the
    pool has a packet for each of them, [phl_get_single_rx] takes the first
    packets of the pool in order, gives each the type of its descriptor, and
    their bytes are exactly the bytes of the packets, in order, whether the
    network stack gave buffers for copies or not. *)
Theorem rx_aggregate_split alloc b s fs rest ps post :
  fs <> [] -> agg_ok fs -> buffer (bufs s b) = agg_bytes fs ++ post ->
  transfer_len (bufs s b) = zlen (agg_bytes fs) -> zlen (agg_bytes fs) < 2147483648 ->
  idle_pkts s = ps ++ rest -> length ps = length fs -> NoDup (idle_pkts s) -> zlen (idle_pkts s) < 65536 ->
  exists s', phl_get_single_rx bb_parse alloc b s = Ret (ps, s') /\
    map (pkt_bytes s') ps = map fr_data fs /\
    map (fun p => pk_type (pks s' p)) ps = map frame_type_of fs /\ idle_pkts s' = rest.
Proof.
  intros Hne Hok Em HT H31 Hi Hps Hn Hs. rewrite phl_get_single_rx_eq, HT, s32_small by zl.
  assert (length fs <= S (Z.to_nat (zlen (agg_bytes fs))))%nat as Hfu.
  { enough (forall l, agg_ok l -> length l <= Z.to_nat (zlen (agg_bytes l)))%nat as H by (specialize (H fs Hok); lia).
    clear. induction l as [|f l IH]; intros H; [cbn; lia|]. destruct H as (Hf & H & _). specialize (IH H).
    destruct (frame_bytes_pos f Hf) as (? & ? & _).
    change (agg_bytes (f :: l)) with (frame_bytes f ++ agg_bytes l). rewrite zlen_app. cbn [length].
    pose proof (zlen_nonneg (agg_bytes l)). lia. }
  destruct (cut_loop_agg fs (S (Z.to_nat (zlen (agg_bytes fs)))) alloc b s (Cut 0 (zlen (agg_bytes fs)) [] 0) []
              post ps rest []) as (c & s' & -> & Hb & Hl & Hinv & Ht & _ & Hi'); auto.
  { by apply cut_inv_start. }
  rewrite bind_Ret. cbn [c_list app] in Hl, Hinv.
  destruct (get_single_end_spec _ b s' c _ Hinv) as (E1 & E2 & E3 & E4); [by rewrite Hb|].
  pose proof (agg_spans_bytes fs [] post Hok) as Hd. cbn [app] in Hd. rewrite <- Em in Hd.
  destruct (get_single_end b c s') as [l s2] eqn:Eg. cbn [fst snd] in *. subst l. rewrite Hl in *.
  exists s2. split_and!; [done| | |].
  - rewrite <- Hd. clear -E3. induction E3 as [|p sp ps' sps [_ Hp] H IH]; [done|]. cbn [map]. by rewrite Hp, IH.
  - rewrite E2. clear -Ht. induction Ht as [|p f ps' fs' Hp H IH]; [done|]. cbn [map]. by rewrite Hp, IH.
  - by rewrite E4.
Qed.
End Aggregates.

(** A C2H report of three bytes and a WiFi frame, the first padded. *)
Definition wifi24 (f : rxfield) : Z := match f with r_pktlen => 24 | _ => 0 end.

Definition two_frames : list rx_frame :=
  [RxFrame c2h3 (replicate 6 0) [] [7; 8; 9] (replicate 5 0); RxFrame wifi24 (replicate 6 0) [] (replicate 24 1) []].

Lemma rx_aggregate_split_witness :
  let s := rx_idle2 (agg_bytes two_frames ++ [5]) (zlen (agg_bytes two_frames)) in
  exists s', phl_get_single_rx (fun _ _ _ => phy0) (fun _ => true) 0 s = Ret ([0; 1]%nat, s') /\
    map (pkt_bytes s') [0; 1]%nat = [[7; 8; 9]; replicate 24 1].
Proof.
  assert (frame_ok (RxFrame c2h3 (replicate 6 0) [] [7; 8; 9] (replicate 5 0))) as H1.
  { split; try done; [intros []; reflexivity|split; [done|by repeat constructor]|by_dec]. }
  assert (frame_ok (RxFrame wifi24 (replicate 6 0) [] (replicate 24 1) [])) as H2.
  { split; try done; [intros []; reflexivity|split; [done|by repeat constructor]|by_dec]. }
  cbv zeta. destruct (rx_aggregate_split (fun _ _ _ => phy0) (fun _ => true) 0
    (rx_idle2 (agg_bytes two_frames ++ [5]) (zlen (agg_bytes two_frames))) two_frames [] [0; 1]%nat [5])
    as (s' & E & Hb & _).
  - discriminate.
  - split; [exact H1|]. split; [|reflexivity]. split; [exact H2|]. split; [exact I|vm_compute; discriminate].
  - reflexivity.
  - reflexivity.
  - reflexivity.
  - reflexivity.
  - reflexivity.
  - by_dec.
  - reflexivity.
  - exists s'. split; [exact E|exact Hb].
Defined.
