(* ===== verification/RxPool.v ===== *)
(** * The receive buffers and packets over time

    The resources of the receive path of src/phl/hci/phl_trx_usb.c and
    src/phl/phl_rx.c: every receive buffer is idle, busy, pending or held by
    the packets cut from it, and every packet is in the pool, waiting for its
    PPDU status or with the core.  The file proves that requests, completions,
    the receive handler and the return of packets keep it so, in any order. *)
From Stdlib Require Import ZArith Lia Bool List Permutation.
From stdpp Require Import base tactics list numbers sets relations.
From S2P Require Import Prelude ByteBuf TxDesc TxUsb RxDesc RxPsts RxUsb.

(** ** The initial state *)

(** [_phl_rx_init_usb]: [ring] and [blocks] tell whether the two allocations
    for the tables succeed, [alloc] the allocation of each of the [n] buffers.
    The buffers before the first failure are put in the idle list. *)
Fixpoint init_loop (alloc : nat -> bool) (l : list nat) : list nat :=
  match l with
  | [] => []
  | b :: l => if alloc b then b :: init_loop alloc l else []
  end.

Definition _phl_rx_init_usb (ring blocks : bool) (alloc : nat -> bool) (n : nat) : rtw_phl_status * list nat :=
  if ring && blocks then (RTW_PHL_STATUS_SUCCESS, init_loop alloc (seq 0 n))
  else (RTW_PHL_STATUS_FAILURE, []).

(** The packet [phl_alloc_recv_pkt_pool] starts with: cleared memory, so that
    its type is the first of the enumeration. *)
Definition pool_pkt : rtw_phl_rx_pkt := RxPkt RTW_RX_TYPE_WIFI None ANull 0 meta0 phy0 false 0.

(** The state after [phl_alloc_recv_pkt_pool] and [_phl_rx_init_usb], with
    [np] packets and the buffers [l] of [len] bytes. *)
Definition rx_init (np : nat) (l : list nat) (len : nat) (i : rtw_phl_ppdu_sts_info) : usb_rx :=
  UsbRx (fun _ => RxBuf (replicate len 0) 0 0 0) l [] [] (fun _ => pool_pkt) (seq 0 np) (Z.of_nat np)
    (HalRx i _phl_com_init_rssi_stat 0 0 []) (fun _ => None) false.

(** ** The invariant *)

(** The packets of [l] that point into buffer [b]. *)
Definition refs (s : usb_rx) (l : list nat) (b : nat) : Z :=
  zlen (List.filter (fun p => bool_decide (rxbuf_ptr (pks s p) = Some b)) l).

(** The buffers of the queues and those the handler works on. *)
Definition queued (s : usb_rx) (limbo : list nat) : list nat :=
  idle_rxbuf s ++ busy_rxbuf s ++ pend_rxbuf s ++ limbo.

(** [nb] buffers and [np] packets, of which [used] are out of the pool; [x]
    counts the packets of a buffer that are not in its [pktcnt] yet. *)
Record pool_inv (nb np : nat) (x : nat -> Z) (s : usb_rx) (used limbo : list nat) : Prop := {
  pv_nodup : NoDup (queued s limbo);
  pv_queued : forall b, b ∈ queued s limbo <-> (b < nb)%nat /\ pktcnt (bufs s b) = 0;
  pv_cnt : forall b, (b < nb)%nat -> pktcnt (bufs s b) + x b = refs s used b;
  pv_ptr : forall p b, p ∈ used -> rxbuf_ptr (pks s p) = Some b -> (b < nb)%nat;
  pv_addr : forall p b a, p ∈ used -> vir_addr (pks s p) = InBuf b a -> rxbuf_ptr (pks s p) = Some b;
  pv_pks : idle_pkts s ++ used ≡ₚ seq 0 np;
  pv_idle : forall p, p ∈ idle_pkts s -> rxbuf_ptr (pks s p) = None;
  pv_num : idle_cnt s = zlen (idle_pkts s);
  pv_pipe : forall b, b ∈ busy_rxbuf s ++ pend_rxbuf s -> pipe_idx (bufs s b) = WLAN_IN_MPDU_PIPE_IDX;
  pv_ppdu : forall p, 0 <= mdata (pk_mdata (pks s p)) r_ppdu_cnt
}.

Definition none : nat -> Z := fun _ => 0.

Lemma refs_app s l k b : refs s (l ++ k) b = refs s l b + refs s k b.
Proof. unfold refs. by rewrite List.filter_app, zlen_app. Qed.

Lemma refs_cons s p l b :
  refs s (p :: l) b = (if decide (rxbuf_ptr (pks s p) = Some b) then 1 else 0) + refs s l b.
Proof.
  unfold refs. cbn [List.filter]. case_bool_decide; [by rewrite decide_True, zlen_cons|by rewrite decide_False].
Qed.

Lemma refs_nonneg s l b : 0 <= refs s l b.
Proof. apply zlen_nonneg. Qed.

#[global] Instance refs_proper s : Proper (Permutation ==> eq ==> eq) (refs s).
Proof.
  intros l k H b ? <-. induction H as [|p l k H IH|p p' l|l k j H1 IH1 H2 IH2]; rewrite ?refs_cons; [done|lia|lia|congruence].
Qed.

Lemma refs_ext s s' l b :
  (forall p, p ∈ l -> rxbuf_ptr (pks s' p) = rxbuf_ptr (pks s p)) -> refs s' l b = refs s l b.
Proof.
  induction l as [|p l IH]; intros H; [done|]. rewrite !refs_cons, IH, (H p) by set_solver. done.
Qed.

(** The order of the packets that are out does not matter. *)
#[global] Instance pool_inv_proper nb np x s : Proper (Permutation ==> Permutation ==> impl) (pool_inv nb np x s).
Proof.
  intros u u' Hu l l' Hl [H1 H2 H3 H4 H10 H5 H6 H7 H8 H9].
  assert (queued s l ≡ₚ queued s l') as Hq by (unfold queued; by rewrite Hl).
  split; auto.
  - by rewrite <- Hq.
  - intros b. by rewrite <- Hq.
  - intros b. rewrite <- Hu. auto.
  - intros p b. rewrite <- Hu. eauto.
  - intros p b a. rewrite <- Hu. eauto.
  - by rewrite <- Hu.
Qed.

(** The parts of the state the invariant does not look at. *)
Record same_pool (s s' : usb_rx) : Prop := {
  sp_bufs : bufs s' = bufs s; sp_idle : idle_rxbuf s' = idle_rxbuf s; sp_busy : busy_rxbuf s' = busy_rxbuf s;
  sp_pend : pend_rxbuf s' = pend_rxbuf s; sp_pkts : idle_pkts s' = idle_pkts s; sp_cnt : idle_cnt s' = idle_cnt s;
  sp_addr : forall p, vir_addr (pks s' p) = vir_addr (pks s p);
  sp_ptr : forall p, rxbuf_ptr (pks s' p) = rxbuf_ptr (pks s p);
  sp_ppdu : forall p, mdata (pk_mdata (pks s' p)) r_ppdu_cnt = mdata (pk_mdata (pks s p)) r_ppdu_cnt
}.

Lemma pool_inv_same nb np x s s' used limbo :
  same_pool s s' -> pool_inv nb np x s used limbo -> pool_inv nb np x s' used limbo.
Proof.
  intros [E1 E2 E3 E4 E5 E6 E9 E7 E8] [H1 H2 H3 H4 H10 H5 H6 H7 H8 H9].
  assert (queued s' limbo = queued s limbo) as Hq by (unfold queued; congruence).
  split; rewrite ?Hq, ?E1, ?E3, ?E4, ?E5, ?E6; auto.
  - intros b Hb. rewrite (refs_ext s s') by done. auto.
  - intros p b. rewrite E7. eauto.
  - intros p b a. rewrite E7, E9. eauto.
  - intros p. rewrite E7. auto.
  - intros p. by rewrite E8.
Qed.

Lemma pool_inv_x nb np x y s used limbo :
  (forall b, x b = y b) -> pool_inv nb np x s used limbo -> pool_inv nb np y s used limbo.
Proof. intros E [H1 H2 H3 H4 H10 H5 H6 H7 H8 H9]. split; auto. intros b Hb. rewrite <- E. by apply H3. Qed.

Lemma used_notin nb np x s used limbo p :
  pool_inv nb np x s (p :: used) limbo -> (p ∉ used) /\ (p ∉ idle_pkts s).
Proof.
  intros H. pose proof (NoDup_seq 0 np) as Hn. rewrite <- (pv_pks _ _ _ _ _ _ H) in Hn.
  apply NoDup_app in Hn as (_ & Hd & Hn). apply NoDup_cons in Hn as [Hn _].
  split; [done|]. intros Hi. apply (Hd p Hi). left.
Qed.

(** ** Giving back buffers and packets *)

(** A buffer the handler holds without packets goes back to the idle list. *)
Lemma release_limbo nb np x s used limbo b :
  pool_inv nb np x s used (b :: limbo) -> pool_inv nb np x (phl_release_rxbuf_usb s b) used limbo.
Proof.
  intros [H1 H2 H3 H4 H10 H5 H6 H7 H8 H9].
  assert (pktcnt (bufs s b) = 0) as E by (apply (H2 b); unfold queued; set_solver).
  unfold phl_release_rxbuf_usb. rewrite E. cbn [Z.eqb].
  assert (queued (set_bufs s (upd (bufs s) b (RxBuf (replicate (length (buffer (bufs s b))) 0)
             (transfer_len (bufs s b)) (pipe_idx (bufs s b)) 0)) (idle_rxbuf s ++ [b]) (busy_rxbuf s) (pend_rxbuf s)) limbo
          ≡ₚ queued s (b :: limbo)) as Hq.
  { unfold queued. cbn [set_bufs idle_rxbuf busy_rxbuf pend_rxbuf]. solve_Permutation. }
  assert (forall b', pktcnt (upd (bufs s) b (RxBuf (replicate (length (buffer (bufs s b))) 0)
             (transfer_len (bufs s b)) (pipe_idx (bufs s b)) 0) b') = pktcnt (bufs s b')) as Hc.
  { intros b'. unfold upd. by destruct (decide (b' = b)) as [->|]. }
  split; cbn [set_bufs bufs pks idle_pkts idle_cnt busy_rxbuf pend_rxbuf]; auto.
  - by rewrite Hq.
  - intros b'. rewrite Hq, H2, Hc. done.
  - intros b' Hb'. rewrite Hc. by apply H3.
  - intros b' Hb'. unfold upd. destruct (decide (b' = b)) as [->|]; [|auto]. cbn [pipe_idx]. auto.
Qed.

(** The reference of packet [p]. *)
Definition own (s : usb_rx) (p : nat) : nat -> Z :=
  fun b => if decide (rxbuf_ptr (pks s p) = Some b) then 1 else 0.

(** One reference less: the buffer goes back with the last one. *)
Lemma release_ref nb np s used limbo p b :
  pool_inv nb np none s (p :: used) limbo -> rxbuf_ptr (pks s p) = Some b ->
  pool_inv nb np (own s p) (phl_release_rxbuf_usb s b) (p :: used) limbo /\
  pks (phl_release_rxbuf_usb s b) = pks s.
Proof.
  intros H Hp. pose proof (pv_ptr _ _ _ _ _ _ H p b ltac:(left) Hp) as Hb.
  destruct H as [H1 H2 H3 H4 H10 H5 H6 H7 H8 H9]. pose proof (H3 b Hb) as Hc. unfold none in Hc.
  rewrite refs_cons, decide_True in Hc by done. pose proof (refs_nonneg s used b) as Hr.
  assert (b ∉ queued s limbo) as Hq by (rewrite H2; lia).
  assert (exists s' y, phl_release_rxbuf_usb s b = s' /\ pks s' = pks s /\ idle_pkts s' = idle_pkts s /\
    idle_cnt s' = idle_cnt s /\ busy_rxbuf s' = busy_rxbuf s /\ pend_rxbuf s' = pend_rxbuf s /\
    bufs s' = upd (bufs s) b y /\ pktcnt y = pktcnt (bufs s b) - 1 /\ pipe_idx y = pipe_idx (bufs s b) /\
    idle_rxbuf s' = idle_rxbuf s ++ (if pktcnt y =? 0 then [b] else [])) as (s' & y & -> & E1 & E2 & E3 & E4 & E5 & E6 & E7 & E8 & E9).
  { unfold phl_release_rxbuf_usb. rewrite (proj2 (Z.eqb_neq (pktcnt (bufs s b)) 0)) by lia.
    destruct (Z.eqb_spec (pktcnt (bufs s b) - 1) 0) as [E|E]; do 2 eexists; split_and!; try reflexivity; cbn [pktcnt].
    - lia.
    - rewrite (proj2 (Z.eqb_neq _ _)) by done. by rewrite app_nil_r. }
  assert (queued s' limbo ≡ₚ ((if pktcnt y =? 0 then [b] else []) ++ queued s limbo)) as Hqp.
  { unfold queued. rewrite E9, E4, E5. solve_Permutation. }
  split; [|done]. split; rewrite ?E2, ?E3, ?E4, ?E5; auto.
  - rewrite Hqp. destruct (_ =? 0); cbn [app]; [|done]. by constructor.
  - intros b'. rewrite Hqp, E6. unfold upd. destruct (decide (b' = b)) as [->|Hne].
    + destruct (Z.eqb_spec (pktcnt y) 0); set_solver by lia.
    + rewrite <- H2. destruct (_ =? 0); set_solver.
  - intros b' Hb'. rewrite (refs_ext s s'), E6 by (by rewrite E1). unfold own, upd. rewrite Hp.
    destruct (decide (b' = b)) as [->|Hne].
    + rewrite decide_True by done. rewrite refs_cons, decide_True by done. lia.
    + rewrite decide_False by congruence. by apply H3.
  - intros q b'. rewrite E1. eauto.
  - intros q b' a. rewrite E1. eauto.
  - intros q. rewrite E1. eauto.
  - intros b' Hb'. rewrite E6. unfold upd. destruct (decide (b' = b)) as [->|]; [|auto]. rewrite E8. auto.
  - intros q. by rewrite E1.
Qed.

(** A packet whose reference is gone goes back to the pool. *)
Lemma release_pkt nb np x s used limbo p :
  pool_inv nb np (fun b => x b + own s p b) s (p :: used) limbo ->
  pool_inv nb np x (phl_release_phl_rx s p) used limbo.
Proof.
  intros H. destruct (used_notin _ _ _ _ _ _ _ H) as [Hu Hi]. destruct H as [H1 H2 H3 H4 H10 H5 H6 H7 H8 H9].
  unfold phl_release_phl_rx.
  split; cbn [set_pks bufs idle_rxbuf busy_rxbuf pend_rxbuf pks idle_pkts idle_cnt]; auto.
  - intros b Hb. specialize (H3 b Hb). unfold own in H3. rewrite refs_cons in H3.
    rewrite (refs_ext s) by (intros j Hj; cbn [set_pks pks]; rewrite tab_ne; [done|by intros ->]).
    destruct (decide _); lia.
  - intros j b Hj. rewrite tab_ne by (by intros ->). apply H4. by right.
  - intros j b a Hj. rewrite tab_ne by (by intros ->). apply H10. by right.
  - rewrite <- H5. solve_Permutation.
  - intros j Hj. unfold upd. destruct (decide (j = p)); [done|]. apply H6. set_solver.
  - rewrite zlen_app, H7. done.
  - intros j. unfold upd. by destruct (decide (j = p)).
Qed.

(** A packet goes back to the pool, and its buffer with the last packet. *)
Lemma recycle_inv nb np s used limbo p :
  pool_inv nb np none s (p :: used) limbo -> pool_inv nb np none (phl_recycle_rx_buf s p) used limbo.
Proof.
  intros H. unfold phl_recycle_rx_buf. destruct (rxbuf_ptr (pks s p)) as [b|] eqn:Ep.
  - destruct (release_ref _ _ _ _ _ _ _ H Ep) as [H' Ek]. apply release_pkt.
    eapply pool_inv_x; [|exact H']. intros b'. unfold own. by rewrite Ek.
  - apply release_pkt. eapply pool_inv_x; [|exact H]. intros b. unfold own. by rewrite Ep.
Qed.

(** ** Requests and completions *)

(** Moving buffers between the queues, their [pktcnt] unchanged. *)
Lemma move_inv nb np x s used limbo f idle busy pend limbo' :
  pool_inv nb np x s used limbo ->
  idle ++ busy ++ pend ++ limbo' ≡ₚ queued s limbo -> (forall b, pktcnt (f b) = pktcnt (bufs s b)) ->
  (forall b, b ∈ busy ++ pend -> pipe_idx (f b) = WLAN_IN_MPDU_PIPE_IDX) ->
  pool_inv nb np x (set_bufs s f idle busy pend) used limbo'.
Proof.
  intros [H1 H2 H3 H4 H10 H5 H6 H7 H8 H9] Hp Hc Hi.
  assert (queued (set_bufs s f idle busy pend) limbo' ≡ₚ queued s limbo) as Hq by exact Hp.
  split; cbn [set_bufs bufs busy_rxbuf pend_rxbuf pks idle_pkts idle_cnt]; auto.
  - by rewrite Hq.
  - intros b. by rewrite Hq, Hc.
  - intros b Hb. rewrite Hc. by apply H3.
Qed.

Lemma remove_Permutation (b : nat) l :
  NoDup l -> b ∈ l -> l ≡ₚ b :: List.remove Nat.eq_dec b l.
Proof.
  intros Hn Hb. apply NoDup_Permutation; [done| |].
  - apply NoDup_cons. split; [rewrite list_elem_of_In; apply remove_In|].
    clear Hb. induction Hn as [|y l Hy Hn IH]; cbn; [constructor|].
    destruct (Nat.eq_dec b y); [done|]. constructor; [|done].
    intros Hy'. apply list_elem_of_In, in_remove in Hy' as [Hy' _]. by apply Hy, list_elem_of_In.
  - intros y. rewrite elem_of_cons, !list_elem_of_In. split.
    + intros Hy. destruct (decide (y = b)); [by left|right]. by apply in_in_remove.
    + intros [->|Hy]; [by apply list_elem_of_In|]. by apply in_remove in Hy as [? _].
Qed.

(** The query of the descriptor size does not fail on this chip. *)
Lemma in_token_eq s pipe sent :
  _phl_in_token_usb s pipe sent =
  match idle_rxbuf s with
  | [] => (RTW_PHL_STATUS_RESOURCE, s)
  | b :: rest =>
      let x := bufs s b in
      let s1 := set_bufs s (upd (bufs s) b (RxBuf (buffer x) (transfer_len x) pipe (pktcnt x)))
                  rest (busy_rxbuf s ++ [b]) (pend_rxbuf s) in
      if sent then (RTW_PHL_STATUS_SUCCESS, s1)
      else
        let s2 := set_bufs s1 (bufs s1) (idle_rxbuf s1) (List.remove Nat.eq_dec b (busy_rxbuf s1)) (pend_rxbuf s1) in
        (RTW_PHL_STATUS_FAILURE, phl_release_rxbuf_usb s2 b)
  end.
Proof. unfold _phl_in_token_usb. by destruct (idle_rxbuf s). Qed.

Lemma in_token_inv nb np x s used sent st s' :
  pool_inv nb np x s used [] -> _phl_in_token_usb s WLAN_IN_MPDU_PIPE_IDX sent = (st, s') ->
  pool_inv nb np x s' used [].
Proof.
  intros H. rewrite in_token_eq. cbv zeta. destruct (idle_rxbuf s) as [|b rest] eqn:Ei; [by intros [= <- <-]|].
  set (f := upd _ _ _).
  assert (forall b', pktcnt (f b') = pktcnt (bufs s b')) as Hc
    by (intros b'; unfold f, upd; by destruct (decide (b' = b)) as [->|]).
  assert (forall b', b' ∈ busy_rxbuf s ++ pend_rxbuf s -> pipe_idx (f b') = WLAN_IN_MPDU_PIPE_IDX) as Hi.
  { intros b' Hb'. unfold f, upd. destruct (decide _); [done|]. by apply (pv_pipe _ _ _ _ _ _ H). }
  assert (b ∉ busy_rxbuf s) as Hnb.
  { pose proof (pv_nodup _ _ _ _ _ _ H) as Hn. unfold queued in Hn. rewrite Ei in Hn. cbn [app] in Hn.
    apply NoDup_cons in Hn as [Hn _]. set_solver. }
  destruct sent; intros [= <- <-].
  - eapply move_inv; [exact H| |exact Hc|].
    + unfold queued. rewrite Ei. solve_Permutation.
    + intros b' Hb'. destruct (decide (b' = b)) as [->|]; [|apply Hi; set_solver].
      unfold f. by rewrite tab_eq.
  - apply release_limbo. cbn [set_bufs bufs idle_rxbuf busy_rxbuf pend_rxbuf].
    rewrite remove_app, notin_remove by (by rewrite <- list_elem_of_In). cbn [List.remove].
    destruct (Nat.eq_dec b b); [|done]. rewrite app_nil_r.
    eapply (move_inv _ _ _ s _ []); [exact H| |exact Hc|exact Hi].
    unfold queued. rewrite Ei. solve_Permutation.
Qed.

Lemma rx_start_loop_inv nb np x fuel sent n fc s st used st' s' :
  pool_inv nb np x s used [] -> rx_start_loop fuel sent n fc s st = Ret (st', s') ->
  pool_inv nb np x s' used [].
Proof.
  revert fc s st. induction fuel as [|fuel IH]; intros fc s st H; [done|]. cbn [rx_start_loop].
  destruct (_ <? n); [|by intros [= <- <-]].
  destruct (_phl_in_token_usb s WLAN_IN_MPDU_PIPE_IDX (sent fuel)) as [st1 s1] eqn:E.
  pose proof (in_token_inv _ _ _ _ _ _ _ _ H E) as H1.
  destruct st1; try (destruct (n <? _)); first [by intros [= <- <-] | by apply IH].
Qed.

Lemma rx_start_inv nb np x sent mb n s used st s' :
  pool_inv nb np x s used [] -> _phl_rx_start_usb sent mb n s = Ret (st, s') -> pool_inv nb np x s' used [].
Proof.
  intros H. unfold _phl_rx_start_usb. destruct (_ <? _); [by apply rx_start_loop_inv|by intros [= <- <-]].
Qed.

Lemma set_timer_inv nb np x s used limbo t :
  pool_inv nb np x s used limbo -> pool_inv nb np x (set_timer s t) used limbo.
Proof. by apply pool_inv_same. Qed.

Lemma deferred_inv nb np x sent mb n s used s' :
  pool_inv nb np x s used [] -> _phl_rx_deferred_in_token sent mb n s = Ret s' -> pool_inv nb np x s' used [].
Proof.
  intros H E. apply bind_Ret_inv in E as ([st s1] & E & E').
  apply (rx_start_inv _ _ _ _ _ _ _ _ _ _ (set_timer_inv _ _ _ _ _ _ false H)) in E.
  destruct st; injection E' as <-; auto using set_timer_inv.
Qed.

Lemma pend_inv nb np x s b len code sent used st s' :
  pool_inv nb np x s used [] -> b ∈ busy_rxbuf s -> phl_pend_rxbuf_usb s b len code sent = (st, s') ->
  pool_inv nb np x s' used [].
Proof.
  intros H Hb. unfold phl_pend_rxbuf_usb.
  set (busy := match busy_rxbuf s with [] => [] | l => List.remove Nat.eq_dec b l end).
  assert (busy = List.remove Nat.eq_dec b (busy_rxbuf s)) as Eb by (subst busy; by destruct (busy_rxbuf s)).
  clearbody busy.
  set (s1 := set_bufs s (bufs s) (idle_rxbuf s) busy (pend_rxbuf s)).
  assert (busy_rxbuf s ≡ₚ b :: busy) as Hp.
  { rewrite Eb. apply remove_Permutation; [|done]. pose proof (pv_nodup _ _ _ _ _ _ H) as Hn.
    apply NoDup_app in Hn as (_ & _ & Hn). by apply NoDup_app in Hn as [? _]. }
  assert (pool_inv nb np x s1 used [b]) as H1.
  { eapply (move_inv _ _ _ s _ []); [exact H| |done|].
    - unfold queued. rewrite Hp. solve_Permutation.
    - intros b' Hb'. apply (pv_pipe _ _ _ _ _ _ H). rewrite Hp. set_solver. }
  assert (pipe_idx (bufs s b) = WLAN_IN_MPDU_PIPE_IDX) as Hpipe by (apply (pv_pipe _ _ _ _ _ _ H); set_solver).
  set (r := match code with RTW_PHL_STATUS_SUCCESS => _ | _ => _ end).
  assert (pool_inv nb np x r.2 used []) as H2.
  { subst r. destruct code; try (by apply release_limbo). cbn [snd].
    eapply (move_inv _ _ _ s1 _ [b]); [exact H1| | |].
    - unfold queued, s1. cbn [set_bufs idle_rxbuf busy_rxbuf pend_rxbuf]. solve_Permutation.
    - intros b'. unfold upd. by destruct (decide (b' = b)) as [->|].
    - intros b' Hb'. unfold upd. destruct (decide (b' = b)) as [->|]; [exact Hpipe|].
      apply (pv_pipe _ _ _ _ _ _ H1). set_solver. }
  destruct r as [ps s2]. cbn [snd] in H2.
  assert (forall st3 s3, _phl_in_token_usb s2 (pipe_idx (bufs s1 b)) sent = (st3, s3) -> pool_inv nb np x s3 used []) as H3.
  { intros st3 s3. change (bufs s1 b) with (bufs s b). rewrite Hpipe. by apply in_token_inv. }
  destruct (_phl_in_token_usb s2 (pipe_idx (bufs s1 b)) sent) as [st3 s3]. specialize (H3 st3 s3 eq_refl).
  destruct code; try (by intros [= <- <-]); destruct st3; intros [= <- <-]; auto using set_timer_inv.
Qed.

(** None of these touches the HAL. *)
Lemma release_hal s b : hal (phl_release_rxbuf_usb s b) = hal s.
Proof. unfold phl_release_rxbuf_usb. by ifs. Qed.

Lemma in_token_hal s pipe sent st s' : _phl_in_token_usb s pipe sent = (st, s') -> hal s' = hal s.
Proof.
  rewrite in_token_eq. cbv zeta. destruct (idle_rxbuf s); [by intros [= <- <-]|].
  destruct sent; intros [= <- <-]; [done|]. by rewrite release_hal.
Qed.

Lemma rx_start_hal sent mb n s st s' : _phl_rx_start_usb sent mb n s = Ret (st, s') -> hal s' = hal s.
Proof.
  unfold _phl_rx_start_usb. destruct (_ <? _); [|by intros [= <- <-]].
  generalize (Z.to_nat (2 * n + 3)), 0, RTW_PHL_STATUS_SUCCESS. intros fuel. revert s.
  induction fuel as [|fuel IH]; intros s fc st0; [done|]. cbn [rx_start_loop].
  destruct (_ <? n); [|by intros [= <- <-]].
  destruct (_phl_in_token_usb s WLAN_IN_MPDU_PIPE_IDX (sent fuel)) as [st1 s1] eqn:E. apply in_token_hal in E as <-.
  destruct st1; try (destruct (n <? _)); first [by intros [= <- <-] | by apply IH].
Qed.

Lemma deferred_hal sent mb n s s' : _phl_rx_deferred_in_token sent mb n s = Ret s' -> hal s' = hal s.
Proof.
  intros E. apply bind_Ret_inv in E as ([st s1] & E & E'). apply rx_start_hal in E. rewrite <- (E : _ = hal s).
  destruct st; by injection E' as <-.
Qed.

Lemma pend_hal s b len code sent st s' : phl_pend_rxbuf_usb s b len code sent = (st, s') -> hal s' = hal s.
Proof.
  unfold phl_pend_rxbuf_usb. set (s1 := set_bufs s _ _ _ _). change (hal s) with (hal s1). clearbody s1.
  assert (forall s2 pipe, hal s2 = hal s1 -> forall st3 s3, _phl_in_token_usb s2 pipe sent = (st3, s3) -> hal s3 = hal s1) as Ht.
  { intros s2 pipe E2 st3 s3 E3. apply in_token_hal in E3. congruence. }
  destruct code; try (by intros [= <- <-]; rewrite release_hal).
  - destruct (_phl_in_token_usb _ _ _) as [st3 s3] eqn:E3. apply Ht in E3; [|done]. by destruct st3; intros [= <- <-].
  - destruct (_phl_in_token_usb _ _ _) as [st3 s3] eqn:E3. apply Ht in E3; [|by rewrite release_hal].
    by destruct st3; intros [= <- <-].
Qed.

(** ** The handler *)

(** The queues of the PPDU status are left alone. *)
Definition same_q (i i' : rtw_phl_ppdu_sts_info) : Prop :=
  cur_ppdu_cnt i' = cur_ppdu_cnt i /\ forall b c, q i' b c = q i b c.

Definition waits (i : rtw_phl_ppdu_sts_info) : list nat := waiting i 0 ++ waiting i 1.

Lemma same_q_refl i : same_q i i.
Proof. done. Qed.

Lemma same_q_trans i j k : same_q i j -> same_q j k -> same_q i k.
Proof. intros [H1 H2] [H3 H4]. split; [congruence|]. intros b c. by rewrite H4, H2. Qed.

Lemma same_q_waits i i' : same_q i i' -> waits i' = waits i.
Proof. intros [H1 H2]. unfold waits, waiting. by rewrite H1, !H2. Qed.

Lemma same_q_ok i i' : same_q i i' -> psts_ok i -> psts_ok i'.
Proof. intros [H1 H2] H b. rewrite H1. destruct (H b) as [Hc Hq]. split; [done|]. intros c. rewrite H2. apply Hq. Qed.

(** Setting other members of an entry. *)
Lemma same_q_set_ent i k e : frames e = frames (sts_ent i k) -> same_q i (set_ent i k e).
Proof.
  intros E. split; [done|]. intros b c. rewrite q_set_ent.
  destruct (decide _) as [<-|]; [exact E|done].
Qed.

Lemma normal_data_same_q m h d i d' i' :
  hal_rx_ppdu_sts_normal_data m h d i = Ret (d', i') ->
  same_q i i' /\ mdata d' r_ppdu_cnt = mdata d r_ppdu_cnt.
Proof.
  unfold hal_rx_ppdu_sts_normal_data. destruct (_ && negb (latest_rx_is_psts i _)).
  { by intros [= <- <-]. }
  intros H. apply bind_Ret_inv in H as (ft & _ & H). apply bind_Ret_inv in H as (src & _ & H).
  injection H as <- <-. split; [|done]. by apply (same_q_set_ent (set_latest i _ false)).
Qed.

Lemma ppdu_sts_same_q d y p i s i' s' : hal_rx_ppdu_sts d y p i s = (i', s') -> same_q i i'.
Proof.
  unfold hal_rx_ppdu_sts. destruct (negb (is_valid y)); [by intros [= <- <-]|].
  destruct (_ || _ || _ || _); [by intros [= <- <-]|]. destruct (se_valid _); [by intros [= <- <-]|].
  intros [= <- <-]. by apply (same_q_set_ent (set_latest i _ true)).
Qed.

Lemma proc_ppdu_sts_same_q i d f rs i' rs' : phl_rx_proc_ppdu_sts i d f rs = (i', rs') -> same_q i i'.
Proof.
  unfold phl_rx_proc_ppdu_sts. destruct (_ || _); [by intros [= <- <-]|].
  intros [= <- <-]. by apply same_q_set_ent.
Qed.

(** The counter of the PPDU is never negative. *)
Definition cnt_nn (d : rtw_r_meta_data) : Prop := 0 <= mdata d r_ppdu_cnt.

Lemma read_fields_nn m p fs d d' : read_fields m p fs d = Ret d' -> cnt_nn d -> cnt_nn d'.
Proof.
  revert d. induction fs as [|f fs IH]; intros d H Hd; cbn [read_fields] in H; [by injection H as <-|].
  apply bind_Ret_inv in H as (d1 & H1 & H). apply (IH _ H). unfold read_field in H1.
  apply bind_Ret_inv in H1 as (v & H1 & [= <-]). unfold cnt_nn. cbn [set_mdata mdata].
  destruct (decide (r_ppdu_cnt = f)) as [<-|]; [|exact Hd].
  apply bind_Ret_inv in H1 as (w & _ & [= <-]). apply (GET_FIELD_bits w 4 3). lia.
Qed.

Lemma read_field_nn m p f d d' : read_field m p d f = Ret d' -> cnt_nn d -> cnt_nn d'.
Proof. intros H. apply (read_fields_nn m p [f]). cbn [read_fields]. by rewrite H. Qed.

Lemma parsing_nn m p d sp d' : hal_parsing_rx_wd_8851b m p d = Ret (sp, d') -> cnt_nn d -> cnt_nn d'.
Proof.
  intros H Hd. apply bind_Ret_inv in H as ([ok d1] & H & H').
  assert (d' = d1) as -> by (destruct ok; cbn in H'; by injection H').
  clear H'. apply bind_Ret_inv in H as (d2 & H2 & H). apply bind_Ret_inv in H as (d3 & H3 & [= _ <-]).
  apply read_fields_nn in H2; [|done]. destruct (_ || _); [|by injection H3 as <-].
  apply bind_Ret_inv in H3 as (d4 & H4 & H3). apply read_fields_nn in H4; [|done].
  destruct (_ =? 1); [|by injection H3 as <-].
  apply bind_Ret_inv in H3 as (d5 & H5 & H3). apply read_fields_nn in H5; [|done].
  apply bind_Ret_inv in H3 as (d6 & H6 & H3).
  assert (cnt_nn d6) as Hd6 by (destruct (_ =? 0); [by injection H6 as <-|by eapply read_field_nn]).
  apply bind_Ret_inv in H3 as (d7 & H7 & H3). apply read_fields_nn in H7; [|done].
  apply bind_Ret_inv in H3 as (a & _ & H3). by eapply read_field_nn; [exact H3|].
Qed.

Section Handler.
Context (bb_parse : hal_ppdu_sts -> bool -> rtw_phl_rx_pkt -> rtw_phl_ppdu_phy_info)
        (cur_ch : Z -> Z) (sta_by_addr : list Z -> option Z).

(** The HAL keeps the reference of a packet and the frames that wait. *)
Definition hal_keeps (k k' : rtw_phl_rx_pkt) (h h' : hal_rx) : Prop :=
  rxbuf_ptr k' = rxbuf_ptr k /\ (cnt_nn (pk_mdata k) -> cnt_nn (pk_mdata k')) /\ same_q (h_psts h) (h_psts h').

Lemma ppdu_status_keeps m addr k h k' h' :
  handle_ppdu_status bb_parse m addr k h = Ret (k', h') -> hal_keeps k k' h h'.
Proof.
  intros H. apply bind_Ret_inv in H as (p & _ & H). destruct (hp_phy_st_size p =? 0); [by injection H as <- <-|].
  cbn zeta in H. destruct (hal_rx_ppdu_sts _ _ _ _ _) as [i s] eqn:E. injection H as <- <-.
  apply ppdu_sts_same_q in E. split_and!; [done| |exact E].
  cbn [set_phy set_meta pk_mdata]. by destruct (is_mu _).
Qed.

Lemma handle_keeps m b buf left k h ok k' h' :
  hal_handle_rx_buffer_8851b bb_parse m b buf left k h = Ret (ok, k', h') -> hal_keeps k k' h h'.
Proof.
  intros H. apply bind_Ret_inv in H as ([sp d] & Hp & H).
  pose proof (parsing_nn _ _ _ _ _ Hp) as Hnn. clear Hp.
  destruct sp as [[addr len]|]; [|by injection H as _ <- <-].
  cbn zeta in H. destruct (_ <? _); [by injection H as _ <- <-|].
  destruct (_ =? RX_8851B_DESC_PKT_T_WIFI).
  { apply bind_Ret_inv in H as (d1 & H1 & H). apply bind_Ret_inv in H as ([d2 i] & H2 & [= <- <- <-]).
    apply normal_data_same_q in H2 as [Hq Hd]. split_and!; [done| |].
    - intros Hk. specialize (Hnn Hk). unfold cnt_nn in *. cbn [set_type set_meta pk_mdata]. rewrite Hd.
      apply bind_Ret_inv in H1 as (? & _ & H1). apply bind_Ret_inv in H1 as (? & _ & H1).
      apply bind_Ret_inv in H1 as (? & _ & H1). by apply bind_Ret_inv in H1 as (? & _ & [= <-]).
    - unfold _hal_rx_sts_8851b. by destruct (_ || _). }
  destruct (_ =? RX_8851B_DESC_PKT_T_TX_PD_RELEASE_HOST); [by injection H as _ <- <-|].
  destruct (_ =? RX_8851B_DESC_PKT_T_PPDU_STATUS).
  { apply bind_Ret_inv in H as ([k1 h1] & H1 & [= <- <- <-]). apply ppdu_status_keeps in H1 as (E1 & E2 & E3).
    split_and!; [exact E1| |exact E3]. intros Hk. apply E2. exact (Hnn Hk). }
  destruct (_ =? RX_8851B_DESC_PKT_T_DFS_RPT).
  { apply bind_Ret_inv in H as ([o r] & _ & [= <- <- <-]). split_and!; [done|done|]. by destruct o. }
  destruct (_ =? RX_8851B_DESC_PKT_T_CHANNEL_INFO); [by injection H as _ <- <-|].
  destruct (_ =? RX_8851B_DESC_PKT_T_C2H); [by apply bind_Ret_inv in H as (? & _ & [= <- <- <-])|].
  destruct (_ =? RX_8851B_DESC_PKT_T_TX_RPT); by injection H as _ <- <-.
Qed.

Lemma handle_addr m b buf left k h k' h' :
  hal_handle_rx_buffer_8851b bb_parse m b buf left k h = Ret (true, k', h') -> exists a, vir_addr k' = InBuf b a.
Proof.
  intros H. apply bind_Ret_inv in H as ([sp d] & _ & H). destruct sp as [[addr len]|]; [|done].
  cbn zeta in H. destruct (_ <? _); [done|]. exists addr.
  destruct (_ =? RX_8851B_DESC_PKT_T_WIFI).
  { apply bind_Ret_inv in H as (d1 & _ & H). by apply bind_Ret_inv in H as ([d2 i] & _ & [= <- <-]). }
  destruct (_ =? RX_8851B_DESC_PKT_T_TX_PD_RELEASE_HOST); [by injection H as <- <-|].
  destruct (_ =? RX_8851B_DESC_PKT_T_PPDU_STATUS).
  { apply bind_Ret_inv in H as ([k1 h1] & H1 & [= <- <-]). apply bind_Ret_inv in H1 as (p & _ & H1).
    destruct (hp_phy_st_size p =? 0); [by injection H1 as <- <-|].
    cbn zeta in H1. destruct (hal_rx_ppdu_sts _ _ _ _ _). by injection H1 as <- <-. }
  destruct (_ =? RX_8851B_DESC_PKT_T_DFS_RPT); [by apply bind_Ret_inv in H as ([o r] & _ & [= <- <-])|].
  destruct (_ =? RX_8851B_DESC_PKT_T_CHANNEL_INFO); [by injection H as <- <-|].
  destruct (_ =? RX_8851B_DESC_PKT_T_C2H); [by apply bind_Ret_inv in H as (? & _ & [= <- <-])|].
  destruct (_ =? RX_8851B_DESC_PKT_T_TX_RPT); by injection H as <- <-.
Qed.

(** A packet leaves the pool, with a reference to [b] or without. *)
Lemma take_pkt nb np x y s used limbo p rest k h :
  pool_inv nb np x s used limbo -> idle_pkts s = p :: rest -> cnt_nn (pk_mdata k) ->
  (forall b, y b = x b + (if decide (rxbuf_ptr k = Some b) then 1 else 0)) ->
  (forall b, rxbuf_ptr k = Some b -> (b < nb)%nat) ->
  (forall b a, vir_addr k = InBuf b a -> rxbuf_ptr k = Some b) ->
  pool_inv nb np y (set_hal (set_pks s (upd (pks s) p k) rest (idle_cnt s - 1)) h) (p :: used) limbo.
Proof.
  intros [H1 H2 H3 H4 H10 H5 H6 H7 H8 H9] Ei Hk Hy Hb Ha. rewrite Ei in H5, H6, H7. cbn [app] in H5.
  pose proof (NoDup_seq 0 np) as Hn. rewrite <- H5 in Hn. apply NoDup_cons in Hn as [Hn _].
  split; cbn [set_hal set_pks bufs idle_rxbuf busy_rxbuf pend_rxbuf pks idle_pkts idle_cnt]; auto.
  - intros b Hlt. specialize (H3 b Hlt). rewrite Hy, refs_cons. cbn [set_hal set_pks pks]. rewrite tab_eq.
    rewrite (refs_ext s); [lia|]. intros j Hj. cbn [set_hal set_pks pks]. rewrite tab_ne; [done|].
    intros ->. apply Hn. set_solver.
  - intros j b [->|Hj]%elem_of_cons.
    + rewrite tab_eq. apply Hb.
    + rewrite tab_ne; [by apply H4|]. intros ->. apply Hn. set_solver.
  - intros j b a [->|Hj]%elem_of_cons.
    + rewrite tab_eq. apply Ha.
    + rewrite tab_ne; [by apply H10|]. intros ->. apply Hn. set_solver.
  - rewrite <- H5. solve_Permutation.
  - intros j Hj. rewrite tab_ne; [apply H6; by right|]. intros ->. apply Hn. set_solver.
  - rewrite zlen_cons in H7. lia.
  - intros j. unfold upd. by destruct (decide (j = p)).
Qed.

(** A packet the HAL refused goes straight back. *)
Lemma put_back nb np x s used limbo p rest k h :
  pool_inv nb np x s used limbo -> idle_pkts s = p :: rest ->
  pool_inv nb np x (phl_release_phl_rx (set_hal (set_pks s (upd (pks s) p k) rest (idle_cnt s - 1)) h) p) used limbo.
Proof.
  intros [H1 H2 H3 H4 H10 H5 H6 H7 H8 H9] Ei. rewrite Ei in H5, H6, H7. cbn [app] in H5.
  pose proof (NoDup_seq 0 np) as Hn. rewrite <- H5 in Hn. apply NoDup_cons in Hn as [Hn _].
  assert (forall j, j ∈ used -> j <> p) as Hu by (intros j Hj ->; apply Hn; set_solver).
  unfold phl_release_phl_rx.
  split; cbn [set_hal set_pks bufs idle_rxbuf busy_rxbuf pend_rxbuf pks idle_pkts idle_cnt]; auto.
  - intros b Hb. rewrite (refs_ext s); [by apply H3|]. intros j Hj. cbn [set_hal set_pks pks]. by rewrite !tab_ne by auto.
  - intros j b Hj. rewrite !tab_ne by auto. by apply H4.
  - intros j b a Hj. rewrite !tab_ne by auto. by apply H10.
  - rewrite <- H5. solve_Permutation.
  - intros j Hj. unfold upd. destruct (decide (j = p)); [done|]. apply H6. set_solver.
  - rewrite zlen_app. rewrite zlen_cons in H7. change (zlen [p]) with 1. lia.
  - intros j. unfold upd. by destruct (decide (j = p)).
Qed.

(** The packets of buffer [b] that are not counted yet. *)
Definition at_buf (b : nat) (n : Z) : nat -> Z := fun b' => if decide (b' = b) then n else 0.

(** The loop over the transfer of [b]: the packets out are [U] and the list. *)
Record cut_pool (nb np : nat) (b : nat) (U : list nat) (s : usb_rx) (c : cut) : Prop := {
  cp_inv : pool_inv nb np (at_buf b (c_ref c)) s (U ++ c_list c) [b];
  cp_ref : 0 <= c_ref c <= zlen (c_list c)
}.

Lemma take_netbuf_keeps alloc m k a n x k' :
  take_netbuf alloc m k a n = Ret (x, k') -> rxbuf_ptr k' = rxbuf_ptr k /\ pk_mdata k' = pk_mdata k /\
  (if x then exists c, vir_addr k' = InNet c else vir_addr k' = vir_addr k).
Proof.
  unfold take_netbuf. destruct (pk_type k); try (by intros [= <- <-]).
  intros H. apply bind_Ret_inv in H as (w & _ & H). destruct alloc; [|by injection H as <- <-].
  apply bind_Ret_inv in H as (c & _ & [= <- <-]). split_and!; eauto.
Qed.

Lemma cut_step_pool nb np b U alloc s c r s' :
  cut_pool nb np b U s c -> Z.of_nat np < 65536 ->
  cut_step bb_parse alloc b s c = Ret (r, s') ->
  cut_pool nb np b U s' (default c r) /\ same_q (h_psts (hal s)) (h_psts (hal s')).
Proof.
  intros [Hi Hr] Hnp. unfold cut_step, rtw_phl_query_phl_rx.
  destruct (idle_pkts s) as [|p rest] eqn:Ei; [by intros [= <- <-]|].
  cbn [set_pks bufs pks hal]. intros H. apply bind_Ret_inv in H as ([[ok k] h] & Hh & H).
  pose proof Hh as Ha. apply handle_keeps in Hh as (Kp & Kn & Kq).
  assert (rxbuf_ptr (pks s p) = None) as Hp by (apply (pv_idle _ _ _ _ _ _ Hi); rewrite Ei; left).
  rewrite Hp in Kp. specialize (Kn (pv_ppdu _ _ _ _ _ _ Hi p)).
  assert (b < nb)%nat as Hb by (apply (pv_queued _ _ _ _ _ _ Hi b); unfold queued; set_solver).
  assert (zlen (c_list c) < Z.of_nat np) as Hlen.
  { pose proof (Permutation_length (pv_pks _ _ _ _ _ _ Hi)) as E. rewrite Ei, length_seq in E.
    cbn [app length] in E. rewrite !length_app in E. unfold zlen. lia. }
  destruct ok; cbn [negb] in H.
  - apply bind_Ret_inv in H as ([al k'] & Hk & H). apply take_netbuf_keeps in Hk as (Tp & Tm & Ta).
    apply handle_addr in Ha as [a Ha].
    set (k2 := if al then k' else set_rxbuf_ptr k' (Some b)) in H.
    assert (cnt_nn (pk_mdata k2)) as Hn2 by (subst k2; destruct al; cbn [set_rxbuf_ptr pk_mdata]; by rewrite Tm).
    pose proof (take_pkt nb np (at_buf b (c_ref c)) (at_buf b (if al then c_ref c else c_ref c + 1))
      s (U ++ c_list c) [b] p rest k2 h Hi Ei Hn2) as Ht.
    injection H as <- <-. cbn [from_option default id c_ref c_list]. split; [|exact Kq].
    replace (if al then c_ref c else u16 (c_ref c + 1)) with (if al then c_ref c else c_ref c + 1)
      by (destruct al; [done|]; rewrite u16_small; [done|unfold is_u16; lia]).
    split; cbn [c_ref c_list].
    + eapply pool_inv_same; [|rewrite (assoc_L app), <- Permutation_cons_append; apply Ht].
      * split; try done; intros j; cbn [set_pk set_hal set_pks pks]; unfold upd; by destruct (decide (j = p)).
      * intros b'. unfold at_buf. subst k2. destruct al; cbn [set_rxbuf_ptr rxbuf_ptr]; rewrite ?Tp, ?Kp;
          repeat case_decide; simplify_eq; lia.
      * intros b'. subst k2. destruct al; cbn [set_rxbuf_ptr rxbuf_ptr]; [rewrite Tp, Kp; done|by intros [= <-]].
      * intros b' a'. subst k2. destruct al; cbn [set_rxbuf_ptr rxbuf_ptr vir_addr]; [destruct Ta as [? ->]; done|].
        rewrite Ta, Ha. by intros [= <- _].
    + rewrite zlen_app. change (zlen [p]) with 1. destruct al; lia.
  - injection H as <- <-. cbn [from_option default id]. split; [|exact Kq]. split; [|done].
    exact (put_back nb np _ s _ [b] p rest k h Hi Ei).
Qed.

Lemma cut_loop_pool nb np b U alloc fuel s c c' s' :
  cut_pool nb np b U s c -> Z.of_nat np < 65536 ->
  cut_loop bb_parse fuel alloc b s c = Ret (c', s') ->
  cut_pool nb np b U s' c' /\ same_q (h_psts (hal s)) (h_psts (hal s')).
Proof.
  intros H Hnp. revert s c H. induction fuel as [|fuel IH]; intros s c H E; [done|].
  cbn [cut_loop] in E. apply bind_Ret_inv in E as ([r s1] & Es & E).
  apply (cut_step_pool nb np b U) in Es as [H1 Hq]; [|done|done].
  destruct r as [c1|]; cbn [from_option default id] in H1; [|by injection E as <- <-].
  destruct (0 <? c_left c1); [|by injection E as <- <-].
  destruct (IH _ _ H1 E) as [H2 Hq2]. split; [done|]. by eapply same_q_trans.
Qed.

(** A transfer was cut: its buffer is idle again or counts its packets. *)
Lemma get_single_pool nb np b U alloc s l s' :
  pool_inv nb np none s U [b] -> Z.of_nat np < 65536 ->
  phl_get_single_rx bb_parse alloc b s = Ret (l, s') ->
  pool_inv nb np none s' (U ++ l) (if bool_decide (l = []) then [b] else []) /\
  same_q (h_psts (hal s)) (h_psts (hal s')).
Proof.
  intros H Hnp. rewrite phl_get_single_rx_eq. intros E. apply bind_Ret_inv in E as ([c s1] & E & [= Eg]).
  apply (cut_loop_pool nb np b U) in E as [[Hi Hr] Hq]; [|split; cbn [c_ref c_list]; [|done]|done].
  2:{ rewrite app_nil_r. eapply pool_inv_x; [|exact H]. intros b'. unfold at_buf, none. by destruct (decide _). }
  unfold get_single_end in Eg. destruct (c_list c) as [|p0 l0] eqn:El.
  { injection Eg as <- <-. split; [|done]. change (zlen []) with 0 in Hr.
    eapply pool_inv_x; [|exact Hi]. intros b'. unfold at_buf, none. destruct (decide _); lia. }
  destruct (Z.eqb_spec (c_ref c) 0) as [E0|E0]; injection Eg as <- <-.
  - rewrite bool_decide_eq_false_2 by done. split.
    + apply release_limbo. eapply pool_inv_x; [|exact Hi]. intros b'. unfold at_buf, none. destruct (decide _); lia.
    + unfold phl_release_rxbuf_usb. by ifs.
  - rewrite bool_decide_eq_false_2 by done. split; [|done].
    destruct Hi as [H1 H2 H3 H4 H10 H5 H6 H7 H8 H9].
    assert (pktcnt (bufs s1 b) = 0) as Hz by (apply (H2 b); unfold queued; set_solver).
    assert (b ∉ queued s1 []) as Hnq.
    { assert (queued s1 [b] ≡ₚ b :: queued s1 []) as Hqp by (unfold queued; solve_Permutation).
      rewrite Hqp in H1. by apply NoDup_cons in H1 as [? _]. }
    split; cbn [set_buf set_bufs bufs busy_rxbuf pend_rxbuf pks idle_pkts idle_cnt]; auto.
    + revert H1. assert (queued s1 [b] ≡ₚ b :: queued s1 []) as -> by (unfold queued; solve_Permutation).
      by intros [_ ?]%NoDup_cons.
    + intros b'. change (queued (set_buf s1 b _) []) with (queued s1 []). unfold upd.
      destruct (decide (b' = b)) as [->|Hne]; cbn [pktcnt]; [split; [done|lia]|].
      rewrite <- H2. unfold queued. set_solver.
    + intros b' Hb'. specialize (H3 b' Hb'). unfold at_buf in H3. unfold upd, none.
      rewrite (refs_ext s1) by done. destruct (decide (b' = b)) as [->|]; cbn [pktcnt]; lia.
    + intros b' Hb'. unfold upd. destruct (decide _) as [->|]; [|auto]. cbn [pipe_idx]. auto.
Qed.

Lemma keeps_waits i i' o a :
  keeps_order i i' o a -> (o 0 ++ o 1) ++ waits i' ≡ₚ waits i ++ (a 0 ++ a 1).
Proof.
  intros [_ H]. unfold waits. pose proof (H 0) as H0. pose proof (H 1) as H1.
  trans ((o 0 ++ waiting i' 0) ++ (o 1 ++ waiting i' 1)); [solve_Permutation|].
  rewrite H0, H1. solve_Permutation.
Qed.

Lemma only_band d l : only (band_of d) l 0 ++ only (band_of d) l 1 = l.
Proof. unfold only, band_of. destruct (0 <? _); cbn; by rewrite ?app_nil_r. Qed.

Lemma proc_phy_sts_keeps mem rs p ks i ks' i' out :
  phl_rx_proc_phy_sts mem rs cur_ch p ks i = Ret (ks', i', out) ->
  forall j, vir_addr (ks' j) = vir_addr (ks j) /\ rxbuf_ptr (ks' j) = rxbuf_ptr (ks j) /\ pk_mdata (ks' j) = pk_mdata (ks j).
Proof.
  unfold phl_rx_proc_phy_sts. destruct (_ || _ || _); [by intros [= <- <- <-]|].
  destruct (frames _) as [|f fs] eqn:Ef; [by intros [= <- <- <-]|].
  destruct (pkt_mem mem (vir_addr (ks f))) as [m h]. intros H. apply bind_Ret_inv in H as (ft & _ & H).
  revert H. cbn [_phl_rx_proc_frame_list]. set (y := if _ && _ then _ else _). set (ts := if negb _ then _ else _).
  intros [= <- <- <-]. clearbody y ts.
  set (same := fun g : nat -> rtw_phl_rx_pkt => forall j, vir_addr (g j) = vir_addr (ks j) /\
                 rxbuf_ptr (g j) = rxbuf_ptr (ks j) /\ pk_mdata (g j) = pk_mdata (ks j)).
  assert (forall g, same g -> same (foldl (fun f j => upd f j (give_psts y (f j))) g ts)) as Hg.
  { induction ts as [|t ts IH]; intros g Hg; [done|]. cbn [foldl]. apply IH. intros j. unfold upd.
    destruct (decide (j = t)) as [->|]; [|exact (Hg j)]. destruct (Hg t) as (<- & <- & <-).
    unfold give_psts. by destruct (is_drvinfo_vld _). }
  apply Hg. intros j. unfold upd. by destruct (decide (j = p)) as [->|].
Qed.

(** The packets that are out while the handler works: [H] with the core, those
    that wait, and the rest [l] of the list. *)
Definition rx_pool (nb np : nat) (s : usb_rx) (H l limbo : list nat) : Prop :=
  pool_inv nb np none s (H ++ waits (h_psts (hal s)) ++ l) limbo /\ psts_ok (h_psts (hal s)).

Lemma recycle_pool nb np s H l limbo p :
  rx_pool nb np s H (p :: l) limbo -> rx_pool nb np (phl_recycle_rx_buf s p) H l limbo.
Proof.
  intros [Hi Ho]. assert (hal (phl_recycle_rx_buf s p) = hal s) as E.
  { unfold phl_recycle_rx_buf. destruct (rxbuf_ptr (pks s p)); [|done]. unfold phl_release_rxbuf_usb. by ifs. }
  split; rewrite E; [|done]. apply recycle_inv. eapply pool_inv_proper; [|reflexivity|exact Hi]. solve_Permutation.
Qed.

Lemma process_one_pool nb np s H l limbo p s' out :
  rx_pool nb np s H (p :: l) limbo -> process_one cur_ch sta_by_addr s p = Ret (s', out) ->
  rx_pool nb np s' (H ++ out) l limbo.
Proof.
  intros Hp. unfold process_one.
  destruct (pk_type (pks s p)); try (intros [= <- <-]; rewrite app_nil_r; by apply recycle_pool).
  - destruct (phl_rx_proc_wait_phy_sts (h_psts (hal s)) p (pk_mdata (pks s p))) as [[w i] o] eqn:E.
    intros [= <- <-]. destruct Hp as [Hi Ho].
    pose proof (wait_keeps_order _ _ _ _ _ _ Ho (pv_ppdu _ _ _ _ _ _ Hi p) E) as Hk.
    split; cbn [set_hal hal set_psts h_psts]; [|by destruct Hk].
    apply keeps_waits in Hk. rewrite !only_band in Hk.
    eapply pool_inv_same; [|eapply pool_inv_proper; [|reflexivity|exact Hi]]; [done|].
    trans (H ++ l ++ (o ++ waits i) ++ (if w then [] else [p])); [|solve_Permutation].
    rewrite Hk. destruct w; solve_Permutation.
  - destruct (phl_rx_proc_ppdu_sts _ _ _ _) as [i rs] eqn:E. intros Hr.
    apply bind_Ret_inv in Hr as ([[ks i'] o] & E' & Hr). injection Hr as <- <-. apply recycle_pool.
    destruct Hp as [Hi Ho]. apply proc_ppdu_sts_same_q in E.
    pose proof (same_q_ok _ _ E Ho) as Ho'. pose proof (same_q_waits _ _ E) as Hw.
    pose proof (report_keeps_order _ _ _ _ _ _ _ _ _ Ho' E') as Hk. pose proof (proc_phy_sts_keeps _ _ _ _ _ _ _ _ E') as Hks.
    split; cbn [hal set_psts h_psts]; [|by destruct Hk].
    apply keeps_waits in Hk. rewrite only_band, Hw in Hk. cbn [app] in Hk. rewrite app_nil_r in Hk.
    eapply pool_inv_same; [|eapply pool_inv_proper; [|reflexivity|exact Hi]].
    + split; try done; intros j; cbn [pks]; [apply (Hks j)|apply (Hks j)|by rewrite (proj2 (proj2 (Hks j)))].
    + rewrite <- Hk. solve_Permutation.
Qed.

Lemma process_pool nb np s H l limbo s' out :
  rx_pool nb np s H l limbo -> phl_rx_process_usb cur_ch sta_by_addr s l = Ret (s', out) ->
  rx_pool nb np s' (H ++ out) [] limbo.
Proof.
  revert s H out. induction l as [|p l IH]; intros s H out Hp E; cbn [phl_rx_process_usb] in E.
  { injection E as <- <-. by rewrite app_nil_r. }
  apply bind_Ret_inv in E as ([s1 o1] & E1 & E). apply bind_Ret_inv in E as ([s2 o2] & E2 & [= <- <-]).
  rewrite (assoc_L app). eapply IH; [|exact E2]. by eapply process_one_pool.
Qed.

Lemma rx_usb_loop_pool nb np fuel alloc have s H s' out :
  rx_pool nb np s H [] [] -> Z.of_nat np < 65536 ->
  rx_usb_loop bb_parse cur_ch sta_by_addr fuel alloc have s = Ret (s', out) ->
  rx_pool nb np s' (H ++ out) [] [].
Proof.
  intros Hp Hnp. revert have s H out Hp. induction fuel as [|fuel IH]; intros have s H out Hp E; [done|].
  cbn [rx_usb_loop] in E. destruct (pend_rxbuf s) as [|b rest] eqn:Ed.
  { injection E as <- <-. by rewrite app_nil_r. }
  destruct Hp as [Hi Ho]. set (s0 := set_bufs s (bufs s) (idle_rxbuf s) (busy_rxbuf s) rest) in E.
  assert (pool_inv nb np none s0 (H ++ waits (h_psts (hal s))) [b]) as H0.
  { eapply (move_inv _ _ _ s _ []); [by rewrite app_nil_r in Hi| |done|].
    - unfold queued. rewrite Ed. solve_Permutation.
    - intros b' Hb'. apply (pv_pipe _ _ _ _ _ _ Hi). rewrite Ed. set_solver. }
  assert (pipe_idx (bufs s0 b) = WLAN_IN_MPDU_PIPE_IDX) as Epipe.
  { apply (pv_pipe _ _ _ _ _ _ Hi b). rewrite Ed. set_solver. }
  rewrite Epipe, Z.eqb_refl in E. apply bind_Ret_inv in E as ([[hv s1] o1] & E1 & E).
  apply bind_Ret_inv in E1 as ([l s2] & E2 & E1). apply bind_Ret_inv in E1 as ([s3 o3] & E3 & [= <- <- <-]).
  apply (get_single_pool nb np b (H ++ waits (h_psts (hal s)))) in E2 as [H2 Hq]; [|exact H0|done]. change (hal s0) with (hal s) in Hq.
  assert (rx_pool nb np s2 H l (if bool_decide (l = []) then [b] else [])) as Hp2.
  { split; [|by eapply same_q_ok]. rewrite (same_q_waits _ _ Hq), (assoc_L app). done. }
  destruct (process_pool _ _ _ _ _ _ _ _ Hp2 E3) as [Hi3 Ho3].
  apply bind_Ret_inv in E as ([s4 o4] & E4 & [= <- <-]). rewrite (assoc_L app). eapply IH; [|exact E4].
  destruct (bool_decide (l = [])); cbn [negb]; [|done].
  assert (hal (phl_release_rxbuf_usb s3 b) = hal s3) as Eh by (unfold phl_release_rxbuf_usb; by ifs).
  split; rewrite Eh; [|done]. by apply release_limbo.
Qed.
End Handler.

(** ** Any sequence of events *)

Section Events.
Context (bb_parse : hal_ppdu_sts -> bool -> rtw_phl_rx_pkt -> rtw_phl_ppdu_phy_info)
        (cur_ch : Z -> Z) (sta_by_addr : list Z -> option Z) (mb tokens : Z).

(** The state and the packets the core has. *)
Inductive rx_event : usb_rx * list nat -> usb_rx * list nat -> Prop :=
  | EStart s held sent st s' :
      _phl_rx_start_usb sent mb tokens s = Ret (st, s') -> rx_event (s, held) (s', held)
  | ETimer s held sent s' :
      _phl_rx_deferred_in_token sent mb tokens s = Ret s' -> rx_event (s, held) (s', held)
  | EStop s held : rx_event (s, held) (_phl_rx_stop_usb s, held)
  | EComplete s held b bytes len code sent st s' :
      b ∈ busy_rxbuf s -> length bytes = length (buffer (bufs s b)) ->
      phl_pend_rxbuf_usb
        (set_buf s b (RxBuf bytes (transfer_len (bufs s b)) (pipe_idx (bufs s b)) (pktcnt (bufs s b)))) b len code sent
      = (st, s') -> rx_event (s, held) (s', held)
  | EHandler s held alloc s' out :
      phl_rx_usb bb_parse cur_ch sta_by_addr alloc s = Ret (s', out) -> rx_event (s, held) (s', held ++ out)
  | EDrain s held i out :
      _phl_handle_ppdu_sts_q (h_psts (hal s)) = (i, out) ->
      rx_event (s, held) (set_hal s (set_psts (hal s) i), held ++ out)
  | EReturn s held held' p :
      held ≡ₚ p :: held' -> rx_event (s, held) (phl_recycle_rx_buf s p, held').

Lemma rx_event_pool nb np s held s' held' :
  Z.of_nat np < 65536 -> rx_event (s, held) (s', held') ->
  rx_pool nb np s held [] [] -> rx_pool nb np s' held' [] [].
Proof.
  intros Hnp He [Hi Ho]. rewrite app_nil_r in Hi.
  assert (forall s1, pool_inv nb np none s1 (held ++ waits (h_psts (hal s))) [] -> hal s1 = hal s -> rx_pool nb np s1 held [] []) as Hs.
  { intros s1 H1 E. split; rewrite E; [|done]. by rewrite app_nil_r. }
  remember (s, held) as w eqn:Ew. remember (s', held') as w' eqn:Ew'.
  destruct He as [s0 h0 sent st s1 E|s0 h0 sent s1 E|s0 h0|s0 h0 b bytes len code sent st s1 Hb Hl E|s0 h0 alloc s1 out E|s0 h0 i out E|s0 h0 h1 p Hp];
    injection Ew as -> ->; injection Ew' as <- <-.
  - apply Hs; [by eapply rx_start_inv|]. by eapply rx_start_hal.
  - apply Hs; [by eapply deferred_inv|]. by eapply deferred_hal.
  - apply Hs; [by apply set_timer_inv|done].
  - apply Hs; [|by apply pend_hal in E].
    eapply pend_inv; [| |exact E]; [|exact Hb]. eapply (move_inv _ _ _ s _ []); [exact Hi|reflexivity| |].
    + intros b'. unfold upd. by destruct (decide (b' = b)) as [->|].
    + intros b' Hb'. unfold upd. destruct (decide (b' = b)) as [->|]; apply (pv_pipe _ _ _ _ _ _ Hi); set_solver.
  - eapply rx_usb_loop_pool; [|done|exact E]. split; [by rewrite app_nil_r|done].
  - destruct (drain_keeps_order _ _ _ Ho E) as [Hout Hk]. split; cbn [set_hal hal set_psts h_psts]; [|by destruct Hk].
    rewrite app_nil_r. apply keeps_waits in Hk.
    eapply pool_inv_same; [|eapply pool_inv_proper; [|reflexivity|exact Hi]]; [done|].
    rewrite app_nil_r in Hk. rewrite <- Hk, Hout. cbn. solve_Permutation.
  - apply recycle_pool. split; [|done]. eapply pool_inv_proper; [|reflexivity|exact Hi]. rewrite Hp. solve_Permutation.
Qed.
End Events.

(** The state right after the set-up. *)
Lemma rx_init_pool nb np len i :
  psts_ok i -> waits i = [] -> rx_pool nb np (rx_init np (seq 0 nb) len i) [] [] [].
Proof.
  intros Hi Hw. split; [|done]. cbn [rx_init hal h_psts]. rewrite Hw. cbn [app]. unfold rx_init.
  split; unfold queued; cbn [bufs idle_rxbuf busy_rxbuf pend_rxbuf pks idle_pkts idle_cnt]; rewrite ?app_nil_r; try done.
  - apply NoDup_seq.
  - intros b. rewrite ?app_nil_r, elem_of_seq. cbn. lia.
  - unfold zlen. by rewrite length_seq.
Qed.

Lemma rx_events_pool bb_parse cur_ch by_addr mb tokens nb np w w' :
  Z.of_nat np < 65536 -> rtc (rx_event bb_parse cur_ch by_addr mb tokens) w w' ->
  rx_pool nb np w.1 w.2 [] [] -> rx_pool nb np w'.1 w'.2 [] [].
Proof.
  intros Hnp H. induction H as [|[s h] [s1 h1] w' He H IH]; [done|]. intros Hp. apply IH. by eapply rx_event_pool.
Qed.

(** C26. No receive buffer and no packet is lost, duplicated or reused while it
    is referred to.  From the set-up with [nb] buffers and [np] packets,
    after any sequence of requests, timer ticks, stops, completions with any bytes and
    any status, runs of the receive handler with any outcome of the
    allocations, drains of the PPDU-status queues and returns of packets by the
    core: the buffers that are idle, busy or pending are exactly those without
    packets, each once; a buffer counts exactly the packets that point into
    it; a packet whose bytes lie in a buffer refers to that buffer, so the
    buffer is in no queue; every packet is in the pool or out, once; and when
    all packets are back, which is what [rtw_phl_is_phl_rx_idle] tests, all the
    buffers are back too. *)
Theorem rx_pool_conserved bb_parse cur_ch by_addr mb tokens nb np len i s held :
  psts_ok i -> waits i = [] -> Z.of_nat np < 65536 ->
  rtc (rx_event bb_parse cur_ch by_addr mb tokens) (rx_init np (seq 0 nb) len i, []) (s, held) ->
  let out := held ++ waits (h_psts (hal s)) in
  let lists := idle_rxbuf s ++ busy_rxbuf s ++ pend_rxbuf s in
  lists ≡ₚ List.filter (fun b => pktcnt (bufs s b) =? 0) (seq 0 nb) /\
  (forall b, (b < nb)%nat -> pktcnt (bufs s b) = refs s out b) /\
  (forall p b a, p ∈ out -> vir_addr (pks s p) = InBuf b a -> rxbuf_ptr (pks s p) = Some b /\ b ∉ lists) /\
  idle_pkts s ++ out ≡ₚ seq 0 np /\
  (rtw_phl_is_phl_rx_idle (Z.of_nat np) s = true <-> out = []) /\
  (out = [] -> lists ≡ₚ seq 0 nb).
Proof.
  intros Hi Hw Hnp H. cbn zeta.
  destruct (rx_events_pool _ _ _ _ _ nb np _ _ Hnp H (rx_init_pool nb np len i Hi Hw)) as [Hp _].
  cbn [fst snd] in Hp. rewrite app_nil_r in Hp. set (out := held ++ waits (h_psts (hal s))) in *.
  destruct Hp as [H1 H2 H3 H4 H10 H5 H6 H7 H8 H9]. unfold queued in H1, H2. rewrite app_nil_r in H1.
  assert (forall b, b ∈ idle_rxbuf s ++ busy_rxbuf s ++ pend_rxbuf s <-> (b < nb)%nat /\ pktcnt (bufs s b) = 0) as H2'
    by (intros b; rewrite <- H2; by rewrite app_nil_r).
  assert (forall b, (b < nb)%nat -> pktcnt (bufs s b) = refs s out b) as H3' by (intros b Hb; rewrite <- H3 by done; unfold none; lia).
  split_and!; [|exact H3'| |exact H5| |].
  - apply NoDup_Permutation; [done|apply NoDup_ListNoDup, List.NoDup_filter, NoDup_ListNoDup, NoDup_seq|].
    intros b. rewrite H2', list_elem_of_In, filter_In, in_seq, Z.eqb_eq. lia.
  - intros p b a Hin Ha. pose proof (H10 p b a Hin Ha) as Hptr. split; [done|]. rewrite H2'. intros [Hb Hz].
    rewrite (H3' b Hb) in Hz. apply list_elem_of_split in Hin as (l1 & l2 & Eo).
    rewrite Eo, refs_app, refs_cons, decide_True in Hz by done.
    pose proof (refs_nonneg s l1 b). pose proof (refs_nonneg s l2 b). lia.
  - unfold rtw_phl_is_phl_rx_idle. rewrite Z.eqb_eq, H7. apply Permutation_length in H5.
    rewrite length_app, length_seq in H5. unfold zlen. destruct out; cbn [length] in *; split; intros; try done; lia.
  - intros Eo. apply NoDup_Permutation; [done|apply NoDup_seq|]. intros b. rewrite H2', elem_of_seq.
    split; [lia|]. intros Hb. split; [lia|]. rewrite H3' by lia. by rewrite Eo.
Qed.

(** Three buffers, two packets: a request is sent, the chip delivers a C2H
    report, the handler uses it and everything is back. *)
Definition deliver (s : usb_rx) : usb_rx :=
  (phl_pend_rxbuf_usb (set_buf s 0 (RxBuf noisy (transfer_len (bufs s 0)) (pipe_idx (bufs s 0)) (pktcnt (bufs s 0))))
     0 19 RTW_PHL_STATUS_SUCCESS true).2.

Lemma rx_pool_conserved_witness :
  exists s, rtc (rx_event (fun _ _ _ => phy0) (fun _ => 0) (fun _ => None) 1 1)
              (rx_init 2 (seq 0 3) (length noisy) _phl_com_init_ppdu_sts, []) (s, []) /\
    length (pend_rxbuf s) = 0%nat /\ idle_rxbuf s ++ busy_rxbuf s ++ pend_rxbuf s ≡ₚ [0; 1; 2]%nat.
Proof.
  set (ev := rx_event (fun _ _ _ => phy0) (fun _ => 0) (fun _ => None) 1 1).
  set (s0 := rx_init 2 (seq 0 3) (length noisy) _phl_com_init_ppdu_sts).
  set (s1 := match _phl_rx_start_usb (fun _ => true) 1 1 s0 with Ret (_, s) => s | _ => s0 end).
  set (s2 := deliver s1).
  assert (match phl_rx_usb (fun _ _ _ => phy0) (fun _ => 0) (fun _ => None) (fun _ => true) s2 with
          | Ret (s, out) => out = [] /\ length (pend_rxbuf s) = 0%nat /\ waits (h_psts (hal s)) = []
          | _ => False end) as Hc by (vm_compute; split_and!; reflexivity).
  destruct (phl_rx_usb (fun _ _ _ => phy0) (fun _ => 0) (fun _ => None) (fun _ => true) s2) as [[s3 out]| |] eqn:E3; [|done|done].
  destruct Hc as (-> & Hl & Hw).
  assert (rtc ev (s0, []) (s3, [])) as H.
  { eapply rtc_l; [apply (EStart _ _ _ _ _ s0 [] (fun _ => true) RTW_PHL_STATUS_SUCCESS s1); reflexivity|].
    eapply rtc_l; [apply (EComplete _ _ _ _ _ s1 [] 0 noisy 19 RTW_PHL_STATUS_SUCCESS true RTW_PHL_STATUS_SUCCESS s2);
                   [by_dec|reflexivity|reflexivity]|].
    apply rtc_once. exact (EHandler _ _ _ _ _ s2 [] (fun _ => true) s3 [] E3). }
  exists s3. split; [exact H|]. split; [exact Hl|].
  destruct (rx_pool_conserved (fun _ _ _ => phy0) (fun _ => 0) (fun _ => None) 1 1 3 2 (length noisy)
              _phl_com_init_ppdu_sts s3 [] psts_init_ok eq_refl eq_refl H) as (_ & _ & _ & _ & _ & E).
  exact (E Hw).
Defined.

(** ** Termination of the request loop, and its set-up *)

(** A refused request leaves the number of busy buffers, an accepted one takes
    it up by one. *)
Lemma in_token_progress s sent st s' :
  NoDup (idle_rxbuf s ++ busy_rxbuf s) ->
  _phl_in_token_usb s WLAN_IN_MPDU_PIPE_IDX sent = (st, s') ->
  st = RTW_PHL_STATUS_RESOURCE \/
  st = RTW_PHL_STATUS_SUCCESS /\ zlen (busy_rxbuf s') = zlen (busy_rxbuf s) + 1 \/
  st = RTW_PHL_STATUS_FAILURE /\ zlen (busy_rxbuf s') = zlen (busy_rxbuf s).
Proof.
  intros Hn. rewrite in_token_eq. cbv zeta. destruct (idle_rxbuf s) as [|b rest]; [intros [= <- <-]; by left|].
  destruct sent; intros [= <- <-]; right; [left|right]; (split; [done|]).
  - cbn [set_bufs busy_rxbuf]. by rewrite zlen_app.
  - cbn [app] in Hn. apply NoDup_cons in Hn as [Hn _].
    match goal with |- zlen (busy_rxbuf (phl_release_rxbuf_usb ?t ?y)) = _ =>
      assert (busy_rxbuf (phl_release_rxbuf_usb t y) = busy_rxbuf t) as -> by (unfold phl_release_rxbuf_usb; by ifs) end.
    cbn [set_bufs busy_rxbuf]. rewrite remove_app, notin_remove by (rewrite <- list_elem_of_In; set_solver).
    cbn [List.remove]. destruct (Nat.eq_dec b b); [|done]. by rewrite app_nil_r.
Qed.

Lemma rx_start_loop_ret nb np x used fuel sent n fc s st :
  pool_inv nb np x s used [] -> 0 <= fc <= n -> n < 255 ->
  Z.max 0 (n - zlen (busy_rxbuf s)) + (n + 1 - fc) < Z.of_nat fuel ->
  exists r, rx_start_loop fuel sent n fc s st = Ret r.
Proof.
  revert fc s st. induction fuel as [|fuel IH]; intros fc s st Hi Hfc Hn Hf; [lia|]. cbn [rx_start_loop].
  fold (zlen (busy_rxbuf s)). destruct (Z.ltb_spec (zlen (busy_rxbuf s)) n); [|by eexists].
  destruct (_phl_in_token_usb s WLAN_IN_MPDU_PIPE_IDX (sent fuel)) as [st1 s1] eqn:E.
  pose proof (in_token_inv _ _ _ _ _ _ _ _ Hi E) as H1.
  assert (NoDup (idle_rxbuf s ++ busy_rxbuf s)) as Hnd.
  { pose proof (pv_nodup _ _ _ _ _ _ Hi) as Hd. unfold queued in Hd. rewrite (assoc_L app) in Hd. by apply NoDup_app in Hd as [? _]. }
  destruct (in_token_progress _ _ _ _ Hnd E) as [->|[[-> Eb]|[-> Eb]]].
  - by eexists.
  - apply IH; auto; lia.
  - rewrite u8_small by (unfold is_u8; lia). destruct (Z.ltb_spec n (fc + 1)); [by eexists|].
    apply IH; auto; lia.
Qed.

(** The loop of [_phl_rx_start_usb] ends, whatever the USB core answers, for
    fewer than 255 requests (the chip uses six). *)
Theorem rx_start_terminates nb np s held sent mb n :
  rx_pool nb np s held [] [] -> 0 <= n < 255 -> exists r, _phl_rx_start_usb sent mb n s = Ret r.
Proof.
  intros [Hi _] Hn. unfold _phl_rx_start_usb. destruct (_ <? _); [|by eexists].
  eapply rx_start_loop_ret; [exact Hi|lia|lia|]. pose proof (zlen_nonneg (busy_rxbuf s)). lia.
Qed.

(** With 255 requests or more the failure counter, a byte, never exceeds their
    number: when the USB core refuses every request the loop does not end. *)
Theorem rx_start_wraps fuel fc s st b :
  idle_rxbuf s = [b] -> busy_rxbuf s = [] -> pktcnt (bufs s b) = 0 ->
  rx_start_loop fuel (fun _ => false) 255 fc s st = Timeout.
Proof.
  revert fc s st. induction fuel as [|fuel IH]; intros fc s st Hi Hb Hc; [done|]. cbn [rx_start_loop].
  rewrite Hb. change (Z.of_nat (length []) <? 255) with true. cbv iota.
  rewrite in_token_eq. cbv zeta. rewrite Hi, Hb. cbn [app set_bufs busy_rxbuf idle_rxbuf pend_rxbuf bufs List.remove].
  destruct (Nat.eq_dec b b); [|done]. unfold phl_release_rxbuf_usb. cbn [set_bufs bufs]. rewrite tab_eq. cbn [pktcnt].
  rewrite Hc. cbn [Z.eqb]. rewrite (proj2 (Z.ltb_ge _ _)) by (pose proof (u8_range (fc + 1)); unfold is_u8 in *; lia).
  apply IH; [done|done|]. cbn [set_bufs bufs]. by rewrite tab_eq.
Qed.

(** A failed allocation of a receive buffer is reported as success. *)
Theorem rx_init_partial alloc n k :
  (k < n)%nat -> alloc k = false -> (forall j, (j < k)%nat -> alloc j = true) ->
  _phl_rx_init_usb true true alloc n = (RTW_PHL_STATUS_SUCCESS, seq 0 k).
Proof.
  intros Hk Hf Ht. unfold _phl_rx_init_usb. cbn [andb]. f_equal.
  replace n with (k + S (n - k - 1))%nat by lia. rewrite seq_app. cbn [seq].
  assert (forall l, (forall j, j ∈ l -> alloc j = true) -> init_loop alloc (l ++ (0 + k)%nat :: seq (S (0 + k)) (n - k - 1)) = l) as H.
  { induction l as [|j l IH]; intros Hl; cbn [app init_loop]; [cbn [Nat.add]; by rewrite Hf|].
    rewrite (Hl j) by left. by rewrite IH by (intros ? ?; apply Hl; by right). }
  apply H. intros j Hj. apply elem_of_seq in Hj. apply Ht. lia.
Qed.
