(* ===== verification/Dispr.v ===== *)
(** * The command dispatcher

    Models src/phl/phl_cmd_dispatcher.c and src/phl/phl_cmd_dispatch_engine.c
    in the configuration the driver is built with: one thread for all
    dispatchers (CONFIG_CMD_DISP_SOLO_MODE off) and no custom dispatch
    sequences (CONFIG_CMD_DISP_SUPPORT_CUSTOM_SEQ off).

    A dispatcher delivers messages to background modules in two phases, and
    hands one token at a time to foreground commands.  The code it calls back
    (module handlers, completion routines, the [acquired] and [abort] routines
    of a request) is a parameter: a reaction [react] that is told which
    callback runs in which state and answers with a return code, what it
    leaves in the message and the calls it makes into the dispatcher.  Calls
    of other threads are the calls made between two steps of the thread.

    Queues are lists of slot indices, front first; PhlList shows the linked
    lists behave so.  [trace] is the history: the callbacks that ran, the
    messages that were accepted and the requests that were queued. *)
From Stdlib Require Import ZArith Lia Bool List.
From stdpp Require Import base tactics list numbers functions.
From S2P Require Import Prelude PhlList PhlUtil.

(** ** Flags *)

Definition SET_STATUS_FLAG (status flags : Z) : Z := Z.lor status flags.

Definition TEST_STATUS_FLAG (status flags : Z) : bool := Z.land status flags =? flags.

Definition CLEAR_STATUS_FLAG (status flags : Z) : Z := Z.land status (Z.lnot flags).

(** [enum phl_msg_status] *)
Definition MSG_STATUS_ENQ : Z := BIT 0.
Definition MSG_STATUS_RUN : Z := BIT 1.
Definition MSG_STATUS_NOTIFY_COMPLETE : Z := BIT 2.
Definition MSG_STATUS_CANCEL : Z := BIT 3.
Definition MSG_STATUS_PRE_PHASE : Z := BIT 4.
Definition MSG_STATUS_FAIL : Z := BIT 5.
Definition MSG_STATUS_OWNER_BK_MDL : Z := BIT 6.
Definition MSG_STATUS_OWNER_REQ : Z := BIT 7.
Definition MSG_STATUS_CLR_SNDR_MSG_IF_PENDING : Z := BIT 8.
Definition MSG_STATUS_PENDING : Z := BIT 9.
Definition MSG_STATUS_FOR_ABORT : Z := BIT 10.
Definition MSG_STATUS_PENDING_DURING_CANNOT_IO : Z := BIT 11.

(** [enum cmd_req_status] *)
Definition REQ_STATUS_ENQ : Z := BIT 0.
Definition REQ_STATUS_RUN : Z := BIT 1.
Definition REQ_STATUS_CANCEL : Z := BIT 2.
Definition REQ_STATUS_LAST_PERMIT : Z := BIT 3.
Definition REQ_STATUS_PREPARE : Z := BIT 4.

(** [enum phl_mdl_status] *)
Definition MDL_INIT : Z := BIT 0.
Definition MDL_STARTED : Z := BIT 1.

(** [enum dispatcher_status] *)
Definition DISPR_INIT : Z := BIT 0.
Definition DISPR_MSGQ_INIT : Z := BIT 1.
Definition DISPR_REQ_INIT : Z := BIT 2.
Definition DISPR_STARTED : Z := BIT 3.
Definition DISPR_CTRL_PRESENT : Z := BIT 4.
Definition DISPR_SHALL_STOP : Z := BIT 5.
Definition DISPR_CANNOT_IO : Z := BIT 6.
Definition DISPR_NOTIFY_IDLE : Z := BIT 7.
Definition DISPR_CLR_PEND_MSG : Z := BIT 8.
Definition DISPR_WAIT_ABORT_MSG_DONE : Z := BIT 9.
Definition DISPR_CLEARANCE : Z := BIT 10.
Definition DISPR_EXCLUSIVE_USE : Z := BIT 11.

(** [enum phl_msg_opt] *)
Definition MSG_OPT_SKIP_NOTIFY_OPT_MDL : Z := BIT 0.
Definition MSG_OPT_BLIST_PRESENT : Z := BIT 1.
Definition MSG_OPT_CLR_SNDR_MSG_IF_PENDING : Z := BIT 2.
Definition MSG_OPT_SEND_IN_ABORT : Z := BIT 3.
Definition MSG_OPT_PENDING_DURING_CANNOT_IO : Z := BIT 4.

(** [enum phl_msg_indicator] *)
Definition MSG_INDC_PRE_PHASE : Z := BIT 0.
Definition MSG_INDC_FAIL : Z := BIT 1.
Definition MSG_INDC_CANCEL : Z := BIT 2.
Definition MSG_INDC_CANNOT_IO : Z := BIT 3.
Definition MSG_INDC_CLR_SNDR : Z := BIT 4.

(** [enum token_op_type]; 0 is what [_os_mem_set] leaves. *)
Definition TOKEN_OP_ADD_CMD_REQ : Z := 1.
Definition TOKEN_OP_FREE_CMD_REQ : Z := 2.
Definition TOKEN_OP_CANCEL_CMD_REQ : Z := 3.
Definition TOKEN_OP_RENEW_CMD_REQ : Z := 4.

Definition FG_CMD_OPT_EXCLUSIVE : Z := BIT 0.

(** ** Sizes, module ids and events *)

Definition MAX_PHL_MSG_NUM : nat := 24.
Definition MAX_CMD_REQ_NUM : nat := 8.

(** [enum phl_module_id] *)
Definition PHL_MDL_PHY_MGNT : Z := 1.
Definition PHL_BK_MDL_ROLE_START : Z := 10.
Definition PHL_BK_MDL_ROLE_END : Z := 40.
Definition PHL_MDL_POWER_MGNT : Z := 41.
Definition PHL_BK_MDL_MDRY_END : Z := 70.
Definition PHL_BK_MDL_OPT_END : Z := 127.
Definition PHL_BK_MDL_END : Z := 128.
Definition PHL_FG_MDL_START : Z := 129.
Definition PHL_MDL_ID_MAX : Z := 255.

Definition MODL_MASK_LEN : Z := PHL_BK_MDL_END / 8.

(** [enum phl_msg_evt_id], the events the dispatcher itself knows. *)
Definition MSG_EVT_PHY_ON : Z := 1.
Definition MSG_EVT_PHY_IDLE : Z := 2.
Definition MSG_EVT_DEV_CANNOT_IO : Z := 60.
Definition MSG_EVT_DEV_RESUME_IO : Z := 61.
Definition MSG_EVT_MAX : Z := 32767.

(** [enum phl_bk_module_priority] *)
Definition PHL_MDL_PRI_ROLE : Z := 0.
Definition PHL_MDL_PRI_OPTIONAL : Z := 1.
Definition PHL_MDL_PRI_MANDATORY : Z := 2.
Definition PHL_MDL_PRI_MAX : Z := 3.

Definition HW_BAND_0 : Z := 0.
Definition HW_BAND_1 : Z := 1.

(** [enum phl_mdl_ret_code] *)
Inductive phl_mdl_ret_code :=
  | MDL_RET_SUCCESS
  | MDL_RET_FAIL
  | MDL_RET_IGNORE
  | MDL_RET_PENDING
  | MDL_RET_CANNOT_IO.

#[global] Instance phl_mdl_ret_code_eq_dec : EqDecision phl_mdl_ret_code.
Proof. solve_decision. Defined.

Definition STOP_DISPATCH_MSG (ret : phl_mdl_ret_code) : bool :=
  match ret with MDL_RET_SUCCESS | MDL_RET_IGNORE => false | _ => true end.

Definition IS_DISPR_CTRL (mdl_id : Z) : bool := mdl_id <? PHL_BK_MDL_ROLE_START.

Definition _get_mdl_priority (id : Z) : Z :=
  if id <? PHL_BK_MDL_ROLE_START then PHL_MDL_PRI_MAX
  else if id <=? PHL_BK_MDL_ROLE_END then PHL_MDL_PRI_ROLE
  else if id <=? PHL_BK_MDL_MDRY_END then PHL_MDL_PRI_MANDATORY
  else if id <=? PHL_BK_MDL_OPT_END then PHL_MDL_PRI_OPTIONAL
  else PHL_MDL_PRI_MAX.

(** ** Message ids and handles *)

Definition MSG_MDL_ID_FIELD (msg_id : Z) : Z := Z.land (Z.shiftr msg_id 16) 255.
Definition MSG_EVT_ID_FIELD (msg_id : Z) : Z := Z.land msg_id 65535.
Definition MSG_INDC_FIELD (msg_id : Z) : Z := Z.land (Z.shiftr msg_id 24) 255.

Definition SET_MSG_MDL_ID_FIELD (msg_id id : Z) : Z :=
  Z.lor (Z.land msg_id 4278255615) (Z.shiftl id 16).

Definition SET_MSG_EVT_ID_FIELD (msg_id id : Z) : Z := Z.lor (Z.land msg_id 4294901760) id.

Definition SET_MSG_INDC_FIELD (msg_id indc : Z) : Z :=
  Z.lor (Z.land msg_id (Z.lnot (Z.shiftl indc 24))) (Z.shiftl indc 24).

Definition CLEAR_MSG_INDC_FIELD (msg_id indc : Z) : Z :=
  Z.land msg_id (Z.lnot (Z.shiftl indc 24)).

Definition GEN_VALID_HDL (idx : nat) : Z := Z.lor (BIT 31) (Z.of_nat idx).
Definition IS_HDL_VALID (hdl : Z) : bool := negb (Z.land hdl (BIT 31) =? 0).
Definition GET_MSG_IDX_FROM_HDL (hdl : Z) : Z := Z.land hdl 65535.
Definition GET_REQ_IDX_FROM_HDL (hdl : Z) : Z := u8 (Z.land hdl 65535).

(** ** Data *)

(** [struct phl_msg]; [body] stands for the buffers a message carries. *)
Record phl_msg := Msg { msg_id : Z; band_idx : Z; body : Z; rsvd0 : Z }.

(** [struct phl_msg_attribute]; a completion routine is its private context. *)
Record phl_msg_attribute := Attr {
  a_opt : Z; a_id_arr : option (list Z); a_len : Z; a_completion : option Z
}.

(** [struct phl_dispr_msg_ex]; [mx_module] is the id of the sending module. *)
Record phl_dispr_msg_ex := MsgEx {
  mx_status : Z; mx_msg : phl_msg; premap : list Z; postmap : list Z;
  completion : option Z; mx_module : option Z
}.

(** [struct phl_token_op_info] *)
Record phl_token_op_info := OpInfo { op_used : bool; op_type : Z; op_data : Z }.

(** [struct phl_cmd_token_req]; [rq_ops] tells that no routine is NULL. *)
Record phl_cmd_token_req := Req { rq_module_id : Z; rq_opt : Z; rq_priv : Z; rq_ops : bool }.

(** [struct phl_cmd_token_req_ex] *)
Record phl_cmd_token_req_ex := ReqEx {
  rx_status : Z; rx_req : phl_cmd_token_req;
  add_req_info : phl_token_op_info; free_req_info : phl_token_op_info
}.

(** [struct phl_bk_module]; its operations are told apart by its id. *)
Record phl_bk_module := Mdl { m_id : Z; m_status : Z }.

(** A node of [token_op_q]: the [phl_token_op_info] of a request slot or
    [renew_req_info]. *)
Inductive op_ref := OpAdd (i : nat) | OpFree (i : nat) | OpRenew.

#[global] Instance op_ref_eq_dec : EqDecision op_ref.
Proof. solve_decision. Defined.

(** [struct cmd_dispatcher].  [damaged] is no member of it: it records that
    the code has done something C gives no meaning to, namely that
    - [pop_front_idle_req] has cleared the links of a node that was in
      [token_op_q],
    - [mdl_info] was indexed with PHL_MDL_ID_MAX, the index after its end,
    - [dispr_register_module] has freed a module and left it in its queue, or
    - [dispr_deregister_module] has freed a module a message still points to.
    It is never cleared while the dispatcher exists.  From there on the memory
    of the code need not look like this record, and the theorems on runs of the
    dispatcher speak of runs in which it stays false. *)
Record cmd_dispatcher := Dispr {
  dp_status : Z;
  module_q : Z -> list phl_bk_module;
  msg_ex_pool : nat -> phl_dispr_msg_ex;
  msg_wait_q : list nat;
  msg_idle_q : list nat;
  msg_pend_q : list nat;
  token_req_ex_pool : nat -> phl_cmd_token_req_ex;
  token_req_wait_q : list nat;
  token_req_idle_q : list nat;
  token_op_q : list op_ref;
  token_cnt : Z;
  cur_cmd_req : option nat;
  bitmap : list Z;
  basemap : list Z;
  pending_evt_id : Z -> Z;
  controller : phl_bk_module;
  renew_req_info : phl_token_op_info;
  exclusive_mdl : Z;
  damaged : bool
}.

Definition set_dp_status (v : Z) (d : cmd_dispatcher) : cmd_dispatcher :=
  Dispr v (module_q d) (msg_ex_pool d) (msg_wait_q d) (msg_idle_q d) (msg_pend_q d)
    (token_req_ex_pool d) (token_req_wait_q d) (token_req_idle_q d) (token_op_q d) (token_cnt d)
    (cur_cmd_req d) (bitmap d) (basemap d) (pending_evt_id d) (controller d) (renew_req_info d)
    (exclusive_mdl d) (damaged d).

Definition set_module_q (v : Z -> list phl_bk_module) (d : cmd_dispatcher) : cmd_dispatcher :=
  Dispr (dp_status d) v (msg_ex_pool d) (msg_wait_q d) (msg_idle_q d) (msg_pend_q d)
    (token_req_ex_pool d) (token_req_wait_q d) (token_req_idle_q d) (token_op_q d) (token_cnt d)
    (cur_cmd_req d) (bitmap d) (basemap d) (pending_evt_id d) (controller d) (renew_req_info d)
    (exclusive_mdl d) (damaged d).

Definition set_msg_ex_pool (v : nat -> phl_dispr_msg_ex) (d : cmd_dispatcher) : cmd_dispatcher :=
  Dispr (dp_status d) (module_q d) v (msg_wait_q d) (msg_idle_q d) (msg_pend_q d)
    (token_req_ex_pool d) (token_req_wait_q d) (token_req_idle_q d) (token_op_q d) (token_cnt d)
    (cur_cmd_req d) (bitmap d) (basemap d) (pending_evt_id d) (controller d) (renew_req_info d)
    (exclusive_mdl d) (damaged d).

Definition set_msg_wait_q (v : list nat) (d : cmd_dispatcher) : cmd_dispatcher :=
  Dispr (dp_status d) (module_q d) (msg_ex_pool d) v (msg_idle_q d) (msg_pend_q d)
    (token_req_ex_pool d) (token_req_wait_q d) (token_req_idle_q d) (token_op_q d) (token_cnt d)
    (cur_cmd_req d) (bitmap d) (basemap d) (pending_evt_id d) (controller d) (renew_req_info d)
    (exclusive_mdl d) (damaged d).

Definition set_msg_idle_q (v : list nat) (d : cmd_dispatcher) : cmd_dispatcher :=
  Dispr (dp_status d) (module_q d) (msg_ex_pool d) (msg_wait_q d) v (msg_pend_q d)
    (token_req_ex_pool d) (token_req_wait_q d) (token_req_idle_q d) (token_op_q d) (token_cnt d)
    (cur_cmd_req d) (bitmap d) (basemap d) (pending_evt_id d) (controller d) (renew_req_info d)
    (exclusive_mdl d) (damaged d).

Definition set_msg_pend_q (v : list nat) (d : cmd_dispatcher) : cmd_dispatcher :=
  Dispr (dp_status d) (module_q d) (msg_ex_pool d) (msg_wait_q d) (msg_idle_q d) v
    (token_req_ex_pool d) (token_req_wait_q d) (token_req_idle_q d) (token_op_q d) (token_cnt d)
    (cur_cmd_req d) (bitmap d) (basemap d) (pending_evt_id d) (controller d) (renew_req_info d)
    (exclusive_mdl d) (damaged d).

Definition set_token_req_ex_pool (v : nat -> phl_cmd_token_req_ex) (d : cmd_dispatcher) : cmd_dispatcher :=
  Dispr (dp_status d) (module_q d) (msg_ex_pool d) (msg_wait_q d) (msg_idle_q d) (msg_pend_q d) v
    (token_req_wait_q d) (token_req_idle_q d) (token_op_q d) (token_cnt d) (cur_cmd_req d)
    (bitmap d) (basemap d) (pending_evt_id d) (controller d) (renew_req_info d) (exclusive_mdl d)
    (damaged d).

Definition set_token_req_wait_q (v : list nat) (d : cmd_dispatcher) : cmd_dispatcher :=
  Dispr (dp_status d) (module_q d) (msg_ex_pool d) (msg_wait_q d) (msg_idle_q d) (msg_pend_q d)
    (token_req_ex_pool d) v (token_req_idle_q d) (token_op_q d) (token_cnt d) (cur_cmd_req d)
    (bitmap d) (basemap d) (pending_evt_id d) (controller d) (renew_req_info d) (exclusive_mdl d)
    (damaged d).

Definition set_token_req_idle_q (v : list nat) (d : cmd_dispatcher) : cmd_dispatcher :=
  Dispr (dp_status d) (module_q d) (msg_ex_pool d) (msg_wait_q d) (msg_idle_q d) (msg_pend_q d)
    (token_req_ex_pool d) (token_req_wait_q d) v (token_op_q d) (token_cnt d) (cur_cmd_req d)
    (bitmap d) (basemap d) (pending_evt_id d) (controller d) (renew_req_info d) (exclusive_mdl d)
    (damaged d).

Definition set_token_op_q (v : list op_ref) (d : cmd_dispatcher) : cmd_dispatcher :=
  Dispr (dp_status d) (module_q d) (msg_ex_pool d) (msg_wait_q d) (msg_idle_q d) (msg_pend_q d)
    (token_req_ex_pool d) (token_req_wait_q d) (token_req_idle_q d) v (token_cnt d) (cur_cmd_req d)
    (bitmap d) (basemap d) (pending_evt_id d) (controller d) (renew_req_info d) (exclusive_mdl d)
    (damaged d).

Definition set_token_cnt (v : Z) (d : cmd_dispatcher) : cmd_dispatcher :=
  Dispr (dp_status d) (module_q d) (msg_ex_pool d) (msg_wait_q d) (msg_idle_q d) (msg_pend_q d)
    (token_req_ex_pool d) (token_req_wait_q d) (token_req_idle_q d) (token_op_q d) v
    (cur_cmd_req d) (bitmap d) (basemap d) (pending_evt_id d) (controller d) (renew_req_info d)
    (exclusive_mdl d) (damaged d).

Definition set_cur_cmd_req (v : option nat) (d : cmd_dispatcher) : cmd_dispatcher :=
  Dispr (dp_status d) (module_q d) (msg_ex_pool d) (msg_wait_q d) (msg_idle_q d) (msg_pend_q d)
    (token_req_ex_pool d) (token_req_wait_q d) (token_req_idle_q d) (token_op_q d) (token_cnt d) v
    (bitmap d) (basemap d) (pending_evt_id d) (controller d) (renew_req_info d) (exclusive_mdl d)
    (damaged d).

Definition set_bitmap (v : list Z) (d : cmd_dispatcher) : cmd_dispatcher :=
  Dispr (dp_status d) (module_q d) (msg_ex_pool d) (msg_wait_q d) (msg_idle_q d) (msg_pend_q d)
    (token_req_ex_pool d) (token_req_wait_q d) (token_req_idle_q d) (token_op_q d) (token_cnt d)
    (cur_cmd_req d) v (basemap d) (pending_evt_id d) (controller d) (renew_req_info d)
    (exclusive_mdl d) (damaged d).

Definition set_basemap (v : list Z) (d : cmd_dispatcher) : cmd_dispatcher :=
  Dispr (dp_status d) (module_q d) (msg_ex_pool d) (msg_wait_q d) (msg_idle_q d) (msg_pend_q d)
    (token_req_ex_pool d) (token_req_wait_q d) (token_req_idle_q d) (token_op_q d) (token_cnt d)
    (cur_cmd_req d) (bitmap d) v (pending_evt_id d) (controller d) (renew_req_info d)
    (exclusive_mdl d) (damaged d).

Definition set_pending_evt_id (v : Z -> Z) (d : cmd_dispatcher) : cmd_dispatcher :=
  Dispr (dp_status d) (module_q d) (msg_ex_pool d) (msg_wait_q d) (msg_idle_q d) (msg_pend_q d)
    (token_req_ex_pool d) (token_req_wait_q d) (token_req_idle_q d) (token_op_q d) (token_cnt d)
    (cur_cmd_req d) (bitmap d) (basemap d) v (controller d) (renew_req_info d) (exclusive_mdl d)
    (damaged d).

Definition set_controller (v : phl_bk_module) (d : cmd_dispatcher) : cmd_dispatcher :=
  Dispr (dp_status d) (module_q d) (msg_ex_pool d) (msg_wait_q d) (msg_idle_q d) (msg_pend_q d)
    (token_req_ex_pool d) (token_req_wait_q d) (token_req_idle_q d) (token_op_q d) (token_cnt d)
    (cur_cmd_req d) (bitmap d) (basemap d) (pending_evt_id d) v (renew_req_info d)
    (exclusive_mdl d) (damaged d).

Definition set_renew_req_info (v : phl_token_op_info) (d : cmd_dispatcher) : cmd_dispatcher :=
  Dispr (dp_status d) (module_q d) (msg_ex_pool d) (msg_wait_q d) (msg_idle_q d) (msg_pend_q d)
    (token_req_ex_pool d) (token_req_wait_q d) (token_req_idle_q d) (token_op_q d) (token_cnt d)
    (cur_cmd_req d) (bitmap d) (basemap d) (pending_evt_id d) (controller d) v (exclusive_mdl d)
    (damaged d).

Definition set_exclusive_mdl (v : Z) (d : cmd_dispatcher) : cmd_dispatcher :=
  Dispr (dp_status d) (module_q d) (msg_ex_pool d) (msg_wait_q d) (msg_idle_q d) (msg_pend_q d)
    (token_req_ex_pool d) (token_req_wait_q d) (token_req_idle_q d) (token_op_q d) (token_cnt d)
    (cur_cmd_req d) (bitmap d) (basemap d) (pending_evt_id d) (controller d) (renew_req_info d) v
    (damaged d).

Definition set_damaged (v : bool) (d : cmd_dispatcher) : cmd_dispatcher :=
  Dispr (dp_status d) (module_q d) (msg_ex_pool d) (msg_wait_q d) (msg_idle_q d) (msg_pend_q d)
    (token_req_ex_pool d) (token_req_wait_q d) (token_req_idle_q d) (token_op_q d) (token_cnt d)
    (cur_cmd_req d) (bitmap d) (basemap d) (pending_evt_id d) (controller d) (renew_req_info d)
    (exclusive_mdl d) v.

(** A callback of the dispatcher: the operations of a background module, the
    routines of a request and completion routines. *)
Inductive cb :=
  | CbInit (b id : Z)
  | CbDeinit (b id : Z)
  | CbStart (b id : Z)
  | CbStop (b id : Z)
  | CbMsg (b id : Z) (slot : nat) (m : phl_msg)
  | CbSetInfo (b id : Z)
  | CbQueryInfo (b id : Z)
  | CbAcquired (b : Z) (i : nat) (q : phl_cmd_token_req)
  | CbAbort (b : Z) (i : nat) (q : phl_cmd_token_req)
  | CbReqMsg (b : Z) (i : nat) (q : phl_cmd_token_req) (slot : nat) (m : phl_msg)
  | CbReqSetInfo (b : Z) (i : nat)
  | CbReqQueryInfo (b : Z) (i : nat)
  | CbCompletion (b : Z) (priv : Z) (slot : nat) (m : phl_msg).

(** An event of the history: a callback, a message accepted into a slot with
    its completion routine, a request accepted into a slot. *)
Inductive event :=
  | Called (c : cb)
  | Accepted (b : Z) (slot : nat) (c : option Z)
  | Queued (b : Z) (i : nat) (q : phl_cmd_token_req).

(** [struct phl_cmd_dispatch_engine]; [msg_q_sema] is the count of the
    semaphore the shared thread waits on. *)
Record phl_cmd_dispatch_engine := Eng {
  phy_num : Z; eng_status : Z; dispatcher : Z -> cmd_dispatcher; msg_q_sema : Z; trace : list event
}.

(** Changes of one dispatcher, one message slot and one request slot. *)
Definition dmod (b : Z) (f : cmd_dispatcher -> cmd_dispatcher) (e : phl_cmd_dispatch_engine) :
    phl_cmd_dispatch_engine :=
  Eng (phy_num e) (eng_status e) (<[b := f (dispatcher e b)]> (dispatcher e)) (msg_q_sema e) (trace e).

Definition log (c : event) (e : phl_cmd_dispatch_engine) : phl_cmd_dispatch_engine :=
  Eng (phy_num e) (eng_status e) (dispatcher e) (msg_q_sema e) (trace e ++ [c]).

Definition mmod (i : nat) (f : phl_dispr_msg_ex -> phl_dispr_msg_ex) (d : cmd_dispatcher) : cmd_dispatcher :=
  set_msg_ex_pool (<[i := f (msg_ex_pool d i)]> (msg_ex_pool d)) d.

Definition rmod (i : nat) (f : phl_cmd_token_req_ex -> phl_cmd_token_req_ex) (d : cmd_dispatcher) :
    cmd_dispatcher :=
  set_token_req_ex_pool (<[i := f (token_req_ex_pool d i)]> (token_req_ex_pool d)) d.

Definition mx_set_status (f : Z -> Z) (ex : phl_dispr_msg_ex) : phl_dispr_msg_ex :=
  MsgEx (f (mx_status ex)) (mx_msg ex) (premap ex) (postmap ex) (completion ex) (mx_module ex).

Definition mx_set_msg (f : phl_msg -> phl_msg) (ex : phl_dispr_msg_ex) : phl_dispr_msg_ex :=
  MsgEx (mx_status ex) (f (mx_msg ex)) (premap ex) (postmap ex) (completion ex) (mx_module ex).

Definition mx_set_maps (f g : list Z -> list Z) (ex : phl_dispr_msg_ex) : phl_dispr_msg_ex :=
  MsgEx (mx_status ex) (mx_msg ex) (f (premap ex)) (g (postmap ex)) (completion ex) (mx_module ex).

Definition msg_set_id (f : Z -> Z) (m : phl_msg) : phl_msg := Msg (f (msg_id m)) (band_idx m) (body m) (rsvd0 m).

Definition msg_set_body (v : Z) (m : phl_msg) : phl_msg := Msg (msg_id m) (band_idx m) v (rsvd0 m).

Definition msg_set_rsvd0 (v : Z) (m : phl_msg) : phl_msg := Msg (msg_id m) (band_idx m) (body m) v.

Definition rx_set_status (f : Z -> Z) (r : phl_cmd_token_req_ex) : phl_cmd_token_req_ex :=
  ReqEx (f (rx_status r)) (rx_req r) (add_req_info r) (free_req_info r).

Definition setf (flags status : Z) : Z := SET_STATUS_FLAG status flags.
Definition clrf (flags status : Z) : Z := CLEAR_STATUS_FLAG status flags.

Definition dp_flag (f : Z -> Z) (d : cmd_dispatcher) : cmd_dispatcher := set_dp_status (f (dp_status d)) d.

Definition GET_CUR_PENDING_EVT (d : cmd_dispatcher) (mdl_id : Z) : Z := u16 (pending_evt_id d mdl_id).

(** An access to [mdl_info], an array of PHL_MDL_ID_MAX entries. *)
Definition mdl_info_at (mdl_id : Z) (d : cmd_dispatcher) : cmd_dispatcher :=
  set_damaged (damaged d || negb ((0 <=? mdl_id) && (mdl_id <? PHL_MDL_ID_MAX))) d.

Definition SET_CUR_PENDING_EVT (mdl_id evt_id : Z) (d : cmd_dispatcher) : cmd_dispatcher :=
  set_pending_evt_id (<[mdl_id := evt_id]> (pending_evt_id d)) (mdl_info_at mdl_id d).

Definition zero_map : list Z := replicate (Z.to_nat MODL_MASK_LEN) 0.

Definition _is_bitmap_empty (m : list Z) : bool := bool_decide (m = zero_map).

Definition notify_dispr_thread (e : phl_cmd_dispatch_engine) : phl_cmd_dispatch_engine :=
  Eng (phy_num e) (eng_status e) (dispatcher e) (msg_q_sema e + 1) (trace e).

(** ** Token operations *)

Definition get_op (d : cmd_dispatcher) (r : op_ref) : phl_token_op_info :=
  match r with
  | OpAdd i => add_req_info (token_req_ex_pool d i)
  | OpFree i => free_req_info (token_req_ex_pool d i)
  | OpRenew => renew_req_info d
  end.

Definition set_op (r : op_ref) (v : phl_token_op_info) (d : cmd_dispatcher) : cmd_dispatcher :=
  match r with
  | OpAdd i => rmod i (fun x => ReqEx (rx_status x) (rx_req x) v (free_req_info x)) d
  | OpFree i => rmod i (fun x => ReqEx (rx_status x) (rx_req x) (add_req_info x) v) d
  | OpRenew => set_renew_req_info v d
  end.

Definition pop_front_token_op_info (d : cmd_dispatcher) : option (op_ref * cmd_dispatcher) :=
  match token_op_q d with
  | [] => None
  | r :: q => Some (r, set_token_op_q q d)
  end.

Definition push_back_token_op_info (b : Z) (r : op_ref) (type data : Z) (e : phl_cmd_dispatch_engine) :
    bool * phl_cmd_dispatch_engine :=
  if op_used (get_op (dispatcher e b) r) then (false, e)
  else (true, notify_dispr_thread
          (dmod b (fun d => set_token_op_q (token_op_q d ++ [r]) (set_op r (OpInfo true type data) d)) e)).

Definition dispr_enqueue_token_op_info := push_back_token_op_info.

Definition renew (b : Z) (e : phl_cmd_dispatch_engine) : phl_cmd_dispatch_engine :=
  (dispr_enqueue_token_op_info b OpRenew TOKEN_OP_RENEW_CMD_REQ 255 e).2.

(** ** The other dispatcher *)

Definition dispr_clearance_acquire (b : Z) (e : phl_cmd_dispatch_engine) : phl_cmd_dispatch_engine :=
  dmod b (dp_flag (setf DISPR_CLEARANCE)) e.

Definition dispr_clearance_release (b : Z) (e : phl_cmd_dispatch_engine) : phl_cmd_dispatch_engine :=
  renew b (dmod b (dp_flag (clrf DISPR_CLEARANCE)) e).

Definition dispr_exclusive_ready (b : Z) (renew_req : bool) (e : phl_cmd_dispatch_engine) :
    phl_cmd_dispatch_engine :=
  if negb (TEST_STATUS_FLAG (dp_status (dispatcher e b)) DISPR_EXCLUSIVE_USE) then
    let e := dmod b (dp_flag (setf DISPR_EXCLUSIVE_USE)) e in
    if renew_req then renew b e else e
  else e.

(** The guard of [_disp_eng_get_dispr_by_idx]. *)
Definition _disp_eng_get_dispr_by_idx (e : phl_cmd_dispatch_engine) (b : Z) : rtw_phl_status :=
  if phy_num e - 1 <? b then RTW_PHL_STATUS_INVALID_PARAM else RTW_PHL_STATUS_SUCCESS.

Definition with_dispr {A} (b : Z) (e : phl_cmd_dispatch_engine) (bad : A) (f : phl_cmd_dispatch_engine -> A) : A :=
  match _disp_eng_get_dispr_by_idx e b with RTW_PHL_STATUS_SUCCESS => f e | _ => bad end.

Definition phl_disp_eng_clearance_acquire (b : Z) (e : phl_cmd_dispatch_engine) : phl_cmd_dispatch_engine :=
  with_dispr b e e (dispr_clearance_acquire b).

Definition phl_disp_eng_clearance_release (b : Z) (e : phl_cmd_dispatch_engine) : phl_cmd_dispatch_engine :=
  with_dispr b e e (dispr_clearance_release b).

Definition phl_disp_eng_exclusive_ready (b : Z) (e : phl_cmd_dispatch_engine) : phl_cmd_dispatch_engine :=
  with_dispr b e e (dispr_exclusive_ready b true).

(** The band [ntfyidx] names. *)
Definition ntfyidx (b : Z) : Z := if b =? HW_BAND_0 then HW_BAND_1 else HW_BAND_0.

Definition cmd_token_complete (b : Z) (e : phl_cmd_dispatch_engine) : phl_cmd_dispatch_engine :=
  if phy_num e <? 2 then e
  else
    let e := if TEST_STATUS_FLAG (dp_status (dispatcher e b)) DISPR_EXCLUSIVE_USE
             then phl_disp_eng_clearance_release (ntfyidx b) (dmod b (dp_flag (clrf DISPR_EXCLUSIVE_USE)) e)
             else e in
    if TEST_STATUS_FLAG (dp_status (dispatcher e b)) DISPR_CLEARANCE
    then phl_disp_eng_exclusive_ready (ntfyidx b) e else e.

Definition on_abort_msg_complete (b : Z) (e : phl_cmd_dispatch_engine) : phl_cmd_dispatch_engine :=
  renew b (cmd_token_complete b (dmod b (dp_flag (clrf DISPR_WAIT_ABORT_MSG_DONE)) e)).

(** ** Message queues *)

(** The message slot as [pop_front_idle_msg] leaves it. *)
Definition fresh_msg_ex : phl_dispr_msg_ex := MsgEx 0 (Msg 0 0 0 0) zero_map zero_map None None.

Definition pop_front_idle_msg (d : cmd_dispatcher) : option (nat * cmd_dispatcher) :=
  match msg_idle_q d with
  | [] => None
  | i :: q => Some (i, mmod i (fun _ => fresh_msg_ex) (set_msg_idle_q q d))
  end.

(** [push_back_idle_msg] after the completion routine: the abort
    bookkeeping and the return of the slot. *)
Definition reset_msg (i : nat) (d : cmd_dispatcher) : cmd_dispatcher :=
  let ex := msg_ex_pool d i in
  let mdl := MSG_MDL_ID_FIELD (msg_id (mx_msg ex)) in
  let d := mdl_info_at mdl (mmod i (mx_set_status (fun _ => 0)) d) in
  let d := if GET_CUR_PENDING_EVT d mdl =? MSG_EVT_ID_FIELD (msg_id (mx_msg ex))
           then SET_CUR_PENDING_EVT mdl MSG_EVT_MAX d else d in
  let d := mmod i (mx_set_msg (msg_set_id (fun _ => 0))) d in
  set_msg_idle_q (msg_idle_q d ++ [i]) d.

Definition recycle_msg (b : Z) (i : nat) (e : phl_cmd_dispatch_engine) : phl_cmd_dispatch_engine :=
  let e := if TEST_STATUS_FLAG (mx_status (msg_ex_pool (dispatcher e b) i)) MSG_STATUS_FOR_ABORT
           then on_abort_msg_complete b e else e in
  dmod b (reset_msg i) e.

Definition pop_front_wait_msg (d : cmd_dispatcher) : option (nat * cmd_dispatcher) :=
  match msg_wait_q d with
  | [] => None
  | i :: q =>
    Some (i, mmod i (mx_set_status (fun s => clrf MSG_STATUS_PENDING (clrf MSG_STATUS_ENQ (setf MSG_STATUS_RUN s))))
               (set_msg_wait_q q d))
  end.

Definition to_enq (s : Z) : Z := clrf MSG_STATUS_RUN (setf MSG_STATUS_ENQ s).

Definition push_back_wait_msg (b : Z) (i : nat) (e : phl_cmd_dispatch_engine) : phl_cmd_dispatch_engine :=
  notify_dispr_thread
    (dmod b (fun d => set_msg_wait_q (msg_wait_q d ++ [i]) (mmod i (mx_set_status to_enq) d)) e).

Definition is_higher_priority (d : cmd_dispatcher) (input obj : nat) : bool :=
  IS_DISPR_CTRL (MSG_MDL_ID_FIELD (msg_id (mx_msg (msg_ex_pool d input)))) &&
  negb (IS_DISPR_CTRL (MSG_MDL_ID_FIELD (msg_id (mx_msg (msg_ex_pool d obj))))).

Definition insert_msg_by_priority (b : Z) (i : nat) (e : phl_cmd_dispatch_engine) : phl_cmd_dispatch_engine :=
  notify_dispr_thread
    (dmod b (fun d => let d := mmod i (mx_set_status to_enq) d in
               set_msg_wait_q (insert_before (is_higher_priority d) i (msg_wait_q d)) d) e).

Definition pop_front_pending_msg (d : cmd_dispatcher) : option (nat * cmd_dispatcher) :=
  match msg_pend_q d with
  | [] => None
  | i :: q => Some (i, set_msg_pend_q q d)
  end.

Definition push_back_pending_msg (i : nat) (d : cmd_dispatcher) : cmd_dispatcher :=
  let d := mmod i (mx_set_status to_enq) d in
  let ex := msg_ex_pool d i in
  let d := if TEST_STATUS_FLAG (mx_status ex) MSG_STATUS_CLR_SNDR_MSG_IF_PENDING
           then SET_CUR_PENDING_EVT (MSG_MDL_ID_FIELD (msg_id (mx_msg ex)))
                  (MSG_EVT_ID_FIELD (msg_id (mx_msg ex))) d
           else d in
  set_msg_pend_q (msg_pend_q d ++ [i]) d.

(** One turn of the loop of [clear_pending_msg], for the slot [i] taken from
    the front of the pending queue. *)
Definition unpend (b : Z) (e : phl_cmd_dispatch_engine) (i : nat) : phl_cmd_dispatch_engine :=
  let e := dmod b (fun d => set_msg_pend_q (tl (msg_pend_q d)) d) e in
  if IS_DISPR_CTRL (MSG_MDL_ID_FIELD (msg_id (mx_msg (msg_ex_pool (dispatcher e b) i))))
  then insert_msg_by_priority b i e
  else push_back_wait_msg b i e.

Definition clear_pending_msg (b : Z) (e : phl_cmd_dispatch_engine) : phl_cmd_dispatch_engine :=
  if negb (TEST_STATUS_FLAG (dp_status (dispatcher e b)) DISPR_CLR_PEND_MSG) then e
  else
    let e := dmod b (dp_flag (clrf DISPR_CLR_PEND_MSG)) e in
    fold_left (unpend b) (msg_pend_q (dispatcher e b)) e.

Definition is_special_msg (d : cmd_dispatcher) (ex : phl_dispr_msg_ex) : bool :=
  let mdl_id := MSG_MDL_ID_FIELD (msg_id (mx_msg ex)) in
  let evt := MSG_EVT_ID_FIELD (msg_id (mx_msg ex)) in
  TEST_STATUS_FLAG (dp_status d) DISPR_CANNOT_IO &&
  ((exclusive_mdl d =? mdl_id) || (evt =? MSG_EVT_DEV_CANNOT_IO) || (evt =? MSG_EVT_DEV_RESUME_IO) ||
   (evt =? MSG_EVT_PHY_ON) || (evt =? MSG_EVT_PHY_IDLE)).

Definition add_indc (indc : Z) : phl_dispr_msg_ex -> phl_dispr_msg_ex :=
  mx_set_msg (msg_set_id (fun v => SET_MSG_INDC_FIELD v indc)).

(** The message as [is_msg_canceled] leaves it, and its answer. *)
Definition is_msg_canceled (d : cmd_dispatcher) (ex : phl_dispr_msg_ex) : phl_dispr_msg_ex * bool :=
  let pending_evt := GET_CUR_PENDING_EVT d (MSG_MDL_ID_FIELD (msg_id (mx_msg ex))) in
  let cancel indc := mx_set_status (setf MSG_STATUS_CANCEL) (add_indc indc ex) in
  if negb (TEST_STATUS_FLAG (dp_status d) DISPR_STARTED) || TEST_STATUS_FLAG (mx_status ex) MSG_STATUS_CANCEL
  then (ex, true)
  else if negb (pending_evt =? MSG_EVT_MAX) && negb (pending_evt =? MSG_EVT_ID_FIELD (msg_id (mx_msg ex)))
  then (cancel MSG_INDC_CLR_SNDR, true)
  else if TEST_STATUS_FLAG (dp_status d) DISPR_SHALL_STOP then (cancel MSG_INDC_CANNOT_IO, true)
  else if TEST_STATUS_FLAG (dp_status d) DISPR_CANNOT_IO then
    if is_special_msg d ex then (add_indc MSG_INDC_CANNOT_IO ex, false)
    else if negb (TEST_STATUS_FLAG (mx_status ex) MSG_STATUS_PENDING_DURING_CANNOT_IO)
    then (cancel MSG_INDC_CANNOT_IO, true)
    else (mx_set_status (setf MSG_STATUS_PENDING) ex, false)
  else (ex, false).

Definition cancel_msg (i : nat) (d : cmd_dispatcher) : cmd_dispatcher :=
  mmod i (fun ex => mx_set_status (setf MSG_STATUS_CANCEL) (mx_set_maps (fun _ => zero_map) (fun _ => zero_map) ex)) d.

Definition cancel_running_msg (d : cmd_dispatcher) : cmd_dispatcher :=
  fold_left (fun d i => if TEST_STATUS_FLAG (mx_status (msg_ex_pool d i)) MSG_STATUS_RUN then cancel_msg i d else d)
    (seq 0 MAX_PHL_MSG_NUM) d.

Definition set_msg_bitmap (d : cmd_dispatcher) (mdl_id : Z) (ex : phl_dispr_msg_ex) : phl_dispr_msg_ex :=
  let ex := mx_set_maps (fun _ => bitmap d) (fun _ => bitmap d) ex in
  if _chk_bitmap_bit (bitmap d) MODL_MASK_LEN mdl_id then
    let add m := _add_bitmap_bit m MODL_MASK_LEN [mdl_id] 1 in mx_set_maps add add ex
  else ex.

Definition set_msg_custom_bitmap (d : cmd_dispatcher) (opt : Z) (id_arr : list Z) (len mdl_id : Z)
    (ex : phl_dispr_msg_ex) : phl_dispr_msg_ex :=
  let ex := if negb (Z.land opt MSG_OPT_SKIP_NOTIFY_OPT_MDL =? 0)
            then mx_set_maps (fun _ => basemap d) (fun _ => basemap d) ex else ex in
  let ex := if negb (Z.land opt MSG_OPT_BLIST_PRESENT =? 0)
            then let clr m := _clr_bitmap_bit m MODL_MASK_LEN id_arr len in mx_set_maps clr clr ex
            else let add m := _add_bitmap_bit m MODL_MASK_LEN id_arr len in mx_set_maps add add ex in
  if _chk_bitmap_bit (bitmap d) MODL_MASK_LEN mdl_id then
    let add m := _add_bitmap_bit m MODL_MASK_LEN [mdl_id] 1 in mx_set_maps add add ex
  else ex.

(** [get_msg_bitmap]: whether it answers [premap], and the indication it
    leaves in the message id. *)
Definition get_msg_bitmap (ex : phl_dispr_msg_ex) : bool * phl_dispr_msg_ex :=
  if TEST_STATUS_FLAG (mx_status ex) MSG_STATUS_PRE_PHASE
  then (true, add_indc MSG_INDC_PRE_PHASE ex)
  else (false, mx_set_msg (msg_set_id (fun v => CLEAR_MSG_INDC_FIELD v MSG_INDC_PRE_PHASE)) ex).

(** ** Request queues *)

Definition zero_op : phl_token_op_info := OpInfo false 0 0.

(** Whether the operation nodes of slot [i] are still linked. *)
Definition op_linked (d : cmd_dispatcher) (i : nat) : bool :=
  bool_decide (OpAdd i ∈ token_op_q d) || bool_decide (OpFree i ∈ token_op_q d).

Definition pop_front_idle_req (d : cmd_dispatcher) : option (nat * cmd_dispatcher) :=
  match token_req_idle_q d with
  | [] => None
  | i :: q =>
    Some (i, set_damaged (damaged d || op_linked d i)
               (rmod i (fun _ => ReqEx 0 (Req 0 0 0 false) zero_op zero_op) (set_token_req_idle_q q d)))
  end.

Definition push_back_idle_req (i : nat) (d : cmd_dispatcher) : cmd_dispatcher :=
  let d := rmod i (rx_set_status (fun _ => 0)) d in
  let d := SET_CUR_PENDING_EVT (rq_module_id (rx_req (token_req_ex_pool d i))) MSG_EVT_MAX d in
  set_token_req_idle_q (token_req_idle_q d ++ [i]) d.

Definition pop_front_wait_req (d : cmd_dispatcher) : option (nat * cmd_dispatcher) :=
  match token_req_wait_q d with
  | [] => None
  | i :: q =>
    Some (i, rmod i (rx_set_status (fun s => clrf REQ_STATUS_ENQ (setf REQ_STATUS_PREPARE s)))
               (set_token_req_wait_q q d))
  end.

Definition front_req_with_exclusive_opt (d : cmd_dispatcher) : bool :=
  match token_req_wait_q d with
  | [] => false
  | i :: _ => rq_opt (rx_req (token_req_ex_pool d i)) =? FG_CMD_OPT_EXCLUSIVE
  end.

Definition push_back_wait_req (i : nat) (d : cmd_dispatcher) : cmd_dispatcher :=
  rmod i (rx_set_status (setf REQ_STATUS_ENQ)) (set_token_req_wait_q (token_req_wait_q d ++ [i]) d).

Definition cancel_all_cmd_req (d : cmd_dispatcher) : cmd_dispatcher :=
  fold_left (fun d i => if negb (rx_status (token_req_ex_pool d i) =? 0)
                        then rmod i (rx_set_status (setf REQ_STATUS_CANCEL)) d else d)
    (seq 0 MAX_CMD_REQ_NUM) d.

Definition chk_cmd_req_ops (req : phl_cmd_token_req) : bool :=
  negb ((rq_module_id req <? PHL_FG_MDL_START) || negb (rq_ops req)).

(** The id of the current request and the status reported with it. *)
Definition get_cur_cmd_req_id (d : cmd_dispatcher) : Z * Z :=
  match cur_cmd_req d with
  | None => (PHL_MDL_ID_MAX, 0)
  | Some i =>
    let r := token_req_ex_pool d i in
    if negb (TEST_STATUS_FLAG (rx_status r) REQ_STATUS_RUN) || TEST_STATUS_FLAG (rx_status r) REQ_STATUS_CANCEL
    then (PHL_MDL_ID_MAX, rx_status r)
    else (rq_module_id (rx_req r), rx_status r)
  end.

(** [get_module_by_id] for a module id: the module of the controller or of
    the first queue that has it. *)
Definition find_mdl (d : cmd_dispatcher) (id : Z) (p : Z) : bool :=
  existsb (fun m => m_id m =? id) (module_q d p).

Definition get_module_by_id (d : cmd_dispatcher) (id : Z) : option Z :=
  if IS_DISPR_CTRL id then
    if negb (TEST_STATUS_FLAG (dp_status d) DISPR_CTRL_PRESENT) then None else Some (m_id (controller d))
  else if negb (_chk_bitmap_bit (bitmap d) MODL_MASK_LEN id) then None
  else if existsb (find_mdl d id) [PHL_MDL_PRI_ROLE; PHL_MDL_PRI_OPTIONAL; PHL_MDL_PRI_MANDATORY]
  then Some id else None.

(** ** Operations other threads and callbacks call *)

Definition attr_opt (attr : option phl_msg_attribute) : Z := match attr with Some a => a_opt a | None => 0 end.

(** What [dispr_send_msg] takes from the attribute. *)
Definition apply_attr (d : cmd_dispatcher) (attr : option phl_msg_attribute) (module_id : Z)
    (ex : phl_dispr_msg_ex) : phl_dispr_msg_ex :=
  match attr with
  | None => ex
  | Some a =>
    let ex := set_msg_custom_bitmap d (a_opt a) (default [] (a_id_arr a)) (a_len a) module_id ex in
    let ex := match a_completion a with
              | Some c => MsgEx (setf MSG_STATUS_NOTIFY_COMPLETE (mx_status ex)) (mx_msg ex) (premap ex)
                            (postmap ex) (Some c) (mx_module ex)
              | None => ex
              end in
    let ex := if TEST_STATUS_FLAG (a_opt a) MSG_OPT_CLR_SNDR_MSG_IF_PENDING
              then mx_set_status (setf MSG_STATUS_CLR_SNDR_MSG_IF_PENDING) ex else ex in
    if TEST_STATUS_FLAG (a_opt a) MSG_OPT_PENDING_DURING_CANNOT_IO
    then mx_set_status (setf MSG_STATUS_PENDING_DURING_CANNOT_IO) ex else ex
  end.

(** The owner [dispr_send_msg] records: a background module or the current
    request. *)
Definition set_owner (d : cmd_dispatcher) (module_id : Z) (ex : phl_dispr_msg_ex) : phl_dispr_msg_ex :=
  let '(cur_req_id, req_status) := get_cur_cmd_req_id d in
  match get_module_by_id d module_id with
  | Some m => MsgEx (setf MSG_STATUS_OWNER_BK_MDL (mx_status ex)) (mx_msg ex) (premap ex) (postmap ex)
                (completion ex) (Some m)
  | None =>
    if (cur_req_id =? module_id) ||
       ((cur_req_id =? PHL_MDL_ID_MAX) && TEST_STATUS_FLAG req_status REQ_STATUS_LAST_PERMIT)
    then mx_set_status (setf MSG_STATUS_OWNER_REQ) ex
    else ex
  end.

(** The guard that refuses a sender that is neither a module nor the current
    request. *)
Definition not_allowed (d : cmd_dispatcher) (module_id : Z) : bool :=
  let '(cur_req_id, req_status) := get_cur_cmd_req_id d in
  negb (IS_DISPR_CTRL module_id) &&
  negb (_chk_bitmap_bit (bitmap d) MODL_MASK_LEN module_id) &&
  ((negb (cur_req_id =? PHL_MDL_ID_MAX) && negb (cur_req_id =? module_id)) ||
   ((cur_req_id =? PHL_MDL_ID_MAX) && (req_status =? 0)) ||
   ((cur_req_id =? PHL_MDL_ID_MAX) && negb (TEST_STATUS_FLAG req_status REQ_STATUS_LAST_PERMIT))).

Definition attr_err (attr : option phl_msg_attribute) : bool :=
  match attr with
  | Some (Attr _ None len _) => negb (len =? 0)
  | _ => false
  end.

(** The message slot of an accepted message. *)
Definition build_msg_ex (d : cmd_dispatcher) (msg : phl_msg) (attr : option phl_msg_attribute) : phl_dispr_msg_ex :=
  let module_id := MSG_MDL_ID_FIELD (msg_id msg) in
  set_owner d module_id
    (apply_attr d attr module_id
       (set_msg_bitmap d module_id (mx_set_msg (fun _ => msg) fresh_msg_ex))).

Definition dispr_send_msg (b : Z) (msg : phl_msg) (attr : option phl_msg_attribute)
    (e : phl_cmd_dispatch_engine) : rtw_phl_status * option Z * phl_cmd_dispatch_engine :=
  let d := dispatcher e b in
  let module_id := MSG_MDL_ID_FIELD (msg_id msg) in
  let req_status := (get_cur_cmd_req_id d).2 in
  if negb (TEST_STATUS_FLAG (dp_status d) DISPR_STARTED) then (RTW_PHL_STATUS_UNEXPECTED_ERROR, None, e)
  else if TEST_STATUS_FLAG (dp_status d) DISPR_SHALL_STOP then (RTW_PHL_STATUS_UNEXPECTED_ERROR, None, e)
  else if attr_err attr then (RTW_PHL_STATUS_INVALID_PARAM, None, e)
  else if not_allowed d module_id then (RTW_PHL_STATUS_INVALID_PARAM, None, e)
  else
    match pop_front_idle_msg d with
    | None => (RTW_PHL_STATUS_RESOURCE, None, e)
    | Some (i, d) =>
      let ex := build_msg_ex d msg attr in
      let last := TEST_STATUS_FLAG (mx_status ex) MSG_STATUS_OWNER_REQ &&
                  TEST_STATUS_FLAG req_status REQ_STATUS_LAST_PERMIT in
      if last && negb (TEST_STATUS_FLAG (attr_opt attr) MSG_OPT_SEND_IN_ABORT) then
        let ex := mx_set_status (clrf MSG_STATUS_NOTIFY_COMPLETE) (add_indc MSG_INDC_FAIL ex) in
        (RTW_PHL_STATUS_FAILURE, Some 0, recycle_msg b i (dmod b (fun _ => mmod i (fun _ => ex) d) e))
      else
        let ex := if last then mx_set_status (setf MSG_STATUS_FOR_ABORT) ex else ex in
        let d := if last then dp_flag (setf DISPR_WAIT_ABORT_MSG_DONE) d else d in
        let ex := mx_set_status (setf MSG_STATUS_PRE_PHASE) ex in
        let e := log (Accepted b i (completion ex)) (dmod b (fun _ => mmod i (fun _ => ex) d) e) in
        (RTW_PHL_STATUS_SUCCESS, Some (GEN_VALID_HDL i),
         if IS_DISPR_CTRL module_id then insert_msg_by_priority b i e else push_back_wait_msg b i e)
    end.

(** The handle afterwards is cleared when it named a slot. *)
Definition dispr_cancel_msg (b : Z) (msg_hdl : Z) (e : phl_cmd_dispatch_engine) :
    rtw_phl_status * Z * phl_cmd_dispatch_engine :=
  let d := dispatcher e b in
  if negb (TEST_STATUS_FLAG (dp_status d) DISPR_STARTED) then (RTW_PHL_STATUS_UNEXPECTED_ERROR, msg_hdl, e)
  else if negb (IS_HDL_VALID msg_hdl) || (Z.of_nat MAX_PHL_MSG_NUM <=? GET_MSG_IDX_FROM_HDL msg_hdl)
  then (RTW_PHL_STATUS_FAILURE, msg_hdl, e)
  else
    let i := Z.to_nat (GET_MSG_IDX_FROM_HDL msg_hdl) in
    let s := mx_status (msg_ex_pool d i) in
    if negb (TEST_STATUS_FLAG s MSG_STATUS_ENQ) && negb (TEST_STATUS_FLAG s MSG_STATUS_RUN)
    then (RTW_PHL_STATUS_FAILURE, 0, e)
    else (RTW_PHL_STATUS_SUCCESS, 0, dmod b (cancel_msg i) e).

Definition dispr_clr_pending_msg (b : Z) (e : phl_cmd_dispatch_engine) : phl_cmd_dispatch_engine :=
  notify_dispr_thread (dmod b (dp_flag (setf DISPR_CLR_PEND_MSG)) e).

Definition dispr_add_token_req (b : Z) (req : phl_cmd_token_req) (e : phl_cmd_dispatch_engine) :
    rtw_phl_status * option Z * phl_cmd_dispatch_engine :=
  let d := dispatcher e b in
  if negb (TEST_STATUS_FLAG (dp_status d) DISPR_STARTED) || negb (chk_cmd_req_ops req)
  then (RTW_PHL_STATUS_UNEXPECTED_ERROR, None, e)
  else if TEST_STATUS_FLAG (dp_status d) DISPR_SHALL_STOP then (RTW_PHL_STATUS_UNEXPECTED_ERROR, None, e)
  else
    match pop_front_idle_req d with
    | None => (RTW_PHL_STATUS_RESOURCE, None, e)
    | Some (i, d) =>
      let d := rmod i (fun r => ReqEx (rx_status r) req (add_req_info r) (free_req_info r)) d in
      let d := push_back_wait_req i d in
      let stat := if bool_decide (token_op_q d = []) && (token_cnt d =? 0)
                  then RTW_PHL_STATUS_SUCCESS else RTW_PHL_STATUS_PENDING in
      (stat, Some (GEN_VALID_HDL i),
       (dispr_enqueue_token_op_info b (OpAdd i) TOKEN_OP_ADD_CMD_REQ (Z.of_nat i)
          (log (Queued b i req) (dmod b (fun _ => d) e))).2)
    end.

Definition enqueued (r : bool * phl_cmd_dispatch_engine) : rtw_phl_status * phl_cmd_dispatch_engine :=
  (if r.1 then RTW_PHL_STATUS_SUCCESS else RTW_PHL_STATUS_FAILURE, r.2).

Definition dispr_cancel_token_req (b : Z) (req_hdl : Z) (e : phl_cmd_dispatch_engine) :
    rtw_phl_status * phl_cmd_dispatch_engine :=
  let d := dispatcher e b in
  if negb (TEST_STATUS_FLAG (dp_status d) DISPR_STARTED) then (RTW_PHL_STATUS_UNEXPECTED_ERROR, e)
  else if negb (IS_HDL_VALID req_hdl) || (Z.of_nat MAX_CMD_REQ_NUM <=? GET_REQ_IDX_FROM_HDL req_hdl)
  then (RTW_PHL_STATUS_FAILURE, e)
  else
    let i := Z.to_nat (GET_REQ_IDX_FROM_HDL req_hdl) in
    let s := rx_status (token_req_ex_pool d i) in
    if negb (TEST_STATUS_FLAG s REQ_STATUS_ENQ) && negb (TEST_STATUS_FLAG s REQ_STATUS_RUN) &&
       negb (TEST_STATUS_FLAG s REQ_STATUS_PREPARE)
    then (RTW_PHL_STATUS_FAILURE, e)
    else enqueued (dispr_enqueue_token_op_info b (OpFree i) TOKEN_OP_CANCEL_CMD_REQ (Z.of_nat i) e).

Definition dispr_free_token (b : Z) (req_hdl : Z) (e : phl_cmd_dispatch_engine) :
    rtw_phl_status * phl_cmd_dispatch_engine :=
  let d := dispatcher e b in
  if negb (TEST_STATUS_FLAG (dp_status d) DISPR_STARTED) then (RTW_PHL_STATUS_UNEXPECTED_ERROR, e)
  else if bool_decide (cur_cmd_req d = None) || (token_cnt d =? 0) || negb (IS_HDL_VALID req_hdl) ||
          (Z.of_nat MAX_CMD_REQ_NUM <=? GET_REQ_IDX_FROM_HDL req_hdl)
  then (RTW_PHL_STATUS_FAILURE, e)
  else
    let i := Z.to_nat (GET_REQ_IDX_FROM_HDL req_hdl) in
    let s := rx_status (token_req_ex_pool d i) in
    if negb (TEST_STATUS_FLAG s REQ_STATUS_RUN) && negb (TEST_STATUS_FLAG s REQ_STATUS_PREPARE)
    then (RTW_PHL_STATUS_FAILURE, e)
    else enqueued (dispr_enqueue_token_op_info b (OpFree i) TOKEN_OP_FREE_CMD_REQ (Z.of_nat i)
                     (dmod b (rmod i (rx_set_status (setf REQ_STATUS_CANCEL))) e)).

Definition no_attr : phl_msg_attribute := Attr 0 None 0 None.

(** The message [id], [evt] the dispatcher sends for itself. *)
Definition own_msg (id evt : Z) : phl_msg := Msg (SET_MSG_EVT_ID_FIELD (SET_MSG_MDL_ID_FIELD 0 id) evt) 0 0 0.

Definition send_bk_msg_phy_on (b : Z) (e : phl_cmd_dispatch_engine) : phl_cmd_dispatch_engine :=
  (dispr_send_msg b (own_msg PHL_MDL_POWER_MGNT MSG_EVT_PHY_ON) (Some no_attr) e).2.

Definition send_bk_msg_phy_idle (b : Z) (e : phl_cmd_dispatch_engine) : phl_cmd_dispatch_engine :=
  (dispr_send_msg b (own_msg PHL_MDL_POWER_MGNT MSG_EVT_PHY_IDLE) (Some no_attr) e).2.

Definition send_dev_io_status_change (b : Z) (allow_io : bool) (e : phl_cmd_dispatch_engine) :
    rtw_phl_status * phl_cmd_dispatch_engine :=
  let event := if allow_io then MSG_EVT_DEV_RESUME_IO else MSG_EVT_DEV_CANNOT_IO in
  let r := dispr_send_msg b (own_msg PHL_MDL_PHY_MGNT event) (Some no_attr) e in (r.1.1, r.2).

Definition dispr_notify_dev_io_status (b : Z) (mdl_id : Z) (allow_io : bool) (e : phl_cmd_dispatch_engine) :
    rtw_phl_status * phl_cmd_dispatch_engine :=
  let cannot := TEST_STATUS_FLAG (dp_status (dispatcher e b)) DISPR_CANNOT_IO in
  if negb allow_io then
    if negb cannot then
      send_dev_io_status_change b allow_io
        (dmod b (fun d => set_exclusive_mdl mdl_id (dp_flag (setf DISPR_CANNOT_IO) d)) e)
    else (RTW_PHL_STATUS_SUCCESS, e)
  else if cannot then
    let r := send_dev_io_status_change b allow_io
               (dmod b (fun d => set_exclusive_mdl PHL_MDL_ID_MAX (dp_flag (clrf DISPR_CANNOT_IO) d)) e) in
    (r.1, dispr_clr_pending_msg b r.2)
  else (RTW_PHL_STATUS_SUCCESS, e).

Definition dispr_notify_shall_stop (b : Z) (e : phl_cmd_dispatch_engine) : phl_cmd_dispatch_engine :=
  if negb (TEST_STATUS_FLAG (dp_status (dispatcher e b)) DISPR_SHALL_STOP)
  then dispr_clr_pending_msg b (dmod b (dp_flag (setf DISPR_SHALL_STOP)) e) else e.

Definition dispr_is_fg_empty (d : cmd_dispatcher) : bool :=
  bool_decide (token_req_wait_q d = []) &&
  negb (negb (bool_decide (token_op_q d = [])) || (0 <? token_cnt d)).

Definition is_dispr_started (d : cmd_dispatcher) : bool := TEST_STATUS_FLAG (dp_status d) DISPR_STARTED.

(** [dispr_get_cur_cmd_req]: the request it answers with. *)
Definition dispr_get_cur_cmd_req (d : cmd_dispatcher) : rtw_phl_status * option nat :=
  if negb (TEST_STATUS_FLAG (dp_status d) (Z.lor DISPR_INIT DISPR_STARTED))
  then (RTW_PHL_STATUS_UNEXPECTED_ERROR, None)
  else
    match cur_cmd_req d with
    | None => (RTW_PHL_STATUS_FAILURE, None)
    | Some i =>
      let s := rx_status (token_req_ex_pool d i) in
      if negb (TEST_STATUS_FLAG s REQ_STATUS_RUN) || TEST_STATUS_FLAG s REQ_STATUS_CANCEL
      then (RTW_PHL_STATUS_FAILURE, None) else (RTW_PHL_STATUS_SUCCESS, Some i)
    end.

(** ** The engine's entry points *)

Definition phl_disp_eng_send_msg (msg : phl_msg) (attr : option phl_msg_attribute) (e : phl_cmd_dispatch_engine) :
    rtw_phl_status * option Z * phl_cmd_dispatch_engine :=
  with_dispr (band_idx msg) e (RTW_PHL_STATUS_INVALID_PARAM, None, e) (dispr_send_msg (band_idx msg) msg attr).

Definition phl_disp_eng_cancel_msg (b hdl : Z) (e : phl_cmd_dispatch_engine) :
    rtw_phl_status * Z * phl_cmd_dispatch_engine :=
  with_dispr b e (RTW_PHL_STATUS_INVALID_PARAM, hdl, e) (dispr_cancel_msg b hdl).

Definition phl_disp_eng_clr_pending_msg (b : Z) (e : phl_cmd_dispatch_engine) :
    rtw_phl_status * phl_cmd_dispatch_engine :=
  with_dispr b e (RTW_PHL_STATUS_INVALID_PARAM, e) (fun e => (RTW_PHL_STATUS_SUCCESS, dispr_clr_pending_msg b e)).

Definition phl_disp_eng_add_token_req (b : Z) (req : phl_cmd_token_req) (e : phl_cmd_dispatch_engine) :
    rtw_phl_status * option Z * phl_cmd_dispatch_engine :=
  with_dispr b e (RTW_PHL_STATUS_INVALID_PARAM, None, e) (dispr_add_token_req b req).

Definition phl_disp_eng_cancel_token_req (b hdl : Z) (e : phl_cmd_dispatch_engine) :
    rtw_phl_status * phl_cmd_dispatch_engine :=
  with_dispr b e (RTW_PHL_STATUS_INVALID_PARAM, e) (dispr_cancel_token_req b hdl).

Definition phl_disp_eng_free_token (b hdl : Z) (e : phl_cmd_dispatch_engine) :
    rtw_phl_status * phl_cmd_dispatch_engine :=
  with_dispr b e (RTW_PHL_STATUS_INVALID_PARAM, e) (dispr_free_token b hdl).

Definition bands (e : phl_cmd_dispatch_engine) : list Z := map Z.of_nat (seq 0 (Z.to_nat (phy_num e))).

(** The band argument is overwritten: every band is told. *)
Definition phl_disp_eng_notify_dev_io_status (mdl_id : Z) (allow_io : bool) (e : phl_cmd_dispatch_engine) :
    phl_cmd_dispatch_engine :=
  fold_left (fun e b => (dispr_notify_dev_io_status b mdl_id allow_io e).2) (bands e) e.

Definition phl_disp_eng_notify_shall_stop (e : phl_cmd_dispatch_engine) : phl_cmd_dispatch_engine :=
  fold_left (fun e b => if is_dispr_started (dispatcher e b) then dispr_notify_shall_stop b e else e) (bands e) e.

(** For a band; [None] asks for all bands (HW_BAND_MAX). *)
Definition phl_disp_eng_is_fg_empty (b : option Z) (e : phl_cmd_dispatch_engine) : bool :=
  match b with
  | Some b => dispr_is_fg_empty (dispatcher e b)
  | None => forallb (fun b => dispr_is_fg_empty (dispatcher e b)) (bands e)
  end.

Definition phl_disp_eng_is_dispr_busy (b : Z) (e : phl_cmd_dispatch_engine) : bool :=
  with_dispr b e false (fun e => bool_decide ((dispr_get_cur_cmd_req (dispatcher e b)).1 = RTW_PHL_STATUS_SUCCESS)).

(** A call into the dispatcher, by a callback or by another thread. *)
Inductive api :=
  | ASend (msg : phl_msg) (attr : option phl_msg_attribute)
  | ACancelMsg (b hdl : Z)
  | AClrPending (b : Z)
  | AAddReq (b : Z) (req : phl_cmd_token_req)
  | ACancelReq (b hdl : Z)
  | AFreeToken (b hdl : Z)
  | ADevIo (mdl_id : Z) (allow_io : bool)
  | AShallStop.

Definition api_step (e : phl_cmd_dispatch_engine) (a : api) : phl_cmd_dispatch_engine :=
  match a with
  | ASend msg attr => (phl_disp_eng_send_msg msg attr e).2
  | ACancelMsg b hdl => (phl_disp_eng_cancel_msg b hdl e).2
  | AClrPending b => (phl_disp_eng_clr_pending_msg b e).2
  | AAddReq b req => (phl_disp_eng_add_token_req b req e).2
  | ACancelReq b hdl => (phl_disp_eng_cancel_token_req b hdl e).2
  | AFreeToken b hdl => (phl_disp_eng_free_token b hdl e).2
  | ADevIo mdl_id allow_io => phl_disp_eng_notify_dev_io_status mdl_id allow_io e
  | AShallStop => phl_disp_eng_notify_shall_stop e
  end.

(** ** Callbacks *)

(** What a callback does: the calls it makes, what it returns, and what it
    leaves in the body of the message it was handed. *)
Record reaction := Reaction { r_calls : list api; r_ret : phl_mdl_ret_code; r_body : Z }.

Section Callbacks.
Context (react : cb -> phl_cmd_dispatch_engine -> reaction).

Definition call (c : cb) (e : phl_cmd_dispatch_engine) : phl_mdl_ret_code * phl_cmd_dispatch_engine :=
  let e := log (Called c) e in
  let r := react c e in
  (r_ret r, fold_left api_step (r_calls r) e).

(** A callback that is handed the message of slot [i]. *)
Definition call_msg (c : cb) (b : Z) (i : nat) (e : phl_cmd_dispatch_engine) :
    phl_mdl_ret_code * phl_cmd_dispatch_engine :=
  let e := log (Called c) e in
  let r := react c e in
  (r_ret r, fold_left api_step (r_calls r) (dmod b (mmod i (mx_set_msg (msg_set_body (r_body r)))) e)).

Definition slot (e : phl_cmd_dispatch_engine) (b : Z) (i : nat) : phl_dispr_msg_ex := msg_ex_pool (dispatcher e b) i.

Definition push_back_idle_msg (b : Z) (i : nat) (e : phl_cmd_dispatch_engine) : phl_cmd_dispatch_engine :=
  let e :=
    match completion (slot e b i) with
    | Some c =>
      if TEST_STATUS_FLAG (mx_status (slot e b i)) MSG_STATUS_NOTIFY_COMPLETE then
        let e := if TEST_STATUS_FLAG (mx_status (slot e b i)) MSG_STATUS_CANCEL
                 then dmod b (mmod i (add_indc MSG_INDC_CANCEL)) e else e in
        let e := (call_msg (CbCompletion b c i (mx_msg (slot e b i))) b i e).2 in
        dmod b (mmod i (mx_set_status (clrf MSG_STATUS_NOTIFY_COMPLETE))) e
      else e
    | None => e
    end in
  recycle_msg b i e.

(** ** Requests *)

Definition cur_req_hdl (b : Z) (i : nat) (e : phl_cmd_dispatch_engine) : phl_cmd_dispatch_engine :=
  match cur_cmd_req (dispatcher e b) with
  | None => e
  | Some r =>
    let rq := token_req_ex_pool (dispatcher e b) r in
    if negb (TEST_STATUS_FLAG (rx_status rq) REQ_STATUS_RUN) || TEST_STATUS_FLAG (rx_status rq) REQ_STATUS_CANCEL
    then e
    else if TEST_STATUS_FLAG (mx_status (slot e b i)) MSG_STATUS_FOR_ABORT then e
    else (call_msg (CbReqMsg b r (rx_req rq) i (mx_msg (slot e b i))) b i e).2
  end.

(** The turn of [deregister_cur_cmd_req] for message slot [i]. *)
Definition drop_req_msg (b module_id : Z) (e : phl_cmd_dispatch_engine) (i : nat) : phl_cmd_dispatch_engine :=
  if negb (module_id =? MSG_MDL_ID_FIELD (msg_id (mx_msg (slot e b i)))) then e
  else
    let e := dmod b (fun d => cancel_msg i (mmod i (mx_set_status (clrf MSG_STATUS_OWNER_REQ)) d)) e in
    if TEST_STATUS_FLAG (mx_status (slot e b i)) MSG_STATUS_PENDING
    then clear_pending_msg b (dispr_clr_pending_msg b e) else e.

Definition deregister_cur_cmd_req (b : Z) (notify : bool) (e : phl_cmd_dispatch_engine) : phl_cmd_dispatch_engine :=
  let e :=
    match cur_cmd_req (dispatcher e b) with
    | None => e
    | Some r =>
      let req := rx_req (token_req_ex_pool (dispatcher e b) r) in
      let e := dmod b (rmod r (rx_set_status (clrf REQ_STATUS_RUN))) e in
      let e := fold_left (drop_req_msg b (rq_module_id req)) (seq 0 MAX_PHL_MSG_NUM) e in
      let e :=
        if notify then
          let e := dmod b (rmod r (rx_set_status (setf REQ_STATUS_LAST_PERMIT))) e in
          let e := (call (CbAbort b r req) e).2 in
          dmod b (rmod r (rx_set_status (clrf REQ_STATUS_LAST_PERMIT))) e
        else e in
      dmod b (fun d => let d := push_back_idle_req r d in set_token_cnt (token_cnt d - 1) d) e
    end in
  let e := dmod b (set_cur_cmd_req None) e in
  if negb (TEST_STATUS_FLAG (dp_status (dispatcher e b)) DISPR_WAIT_ABORT_MSG_DONE)
  then cmd_token_complete b e else e.

Definition register_cur_cmd_req (b : Z) (r : nat) (e : phl_cmd_dispatch_engine) : bool * phl_cmd_dispatch_engine :=
  let e := dmod b (fun d =>
             let d := rmod r (rx_set_status (fun s => clrf REQ_STATUS_PREPARE (setf REQ_STATUS_RUN s))) d in
             set_token_cnt (token_cnt d + 1) (set_cur_cmd_req (Some r) d)) e in
  let '(ret, e) := call (CbAcquired b r (rx_req (token_req_ex_pool (dispatcher e b) r))) e in
  match ret with
  | MDL_RET_FAIL => (false, deregister_cur_cmd_req b false e)
  | _ => (true, e)
  end.

(** [dispr_process_token_req]; a turn of its loop per unit of fuel. *)
Fixpoint dispr_process_token_req (fuel : nat) (b : Z) (e : phl_cmd_dispatch_engine) :
    option (rtw_phl_status * phl_cmd_dispatch_engine) :=
  match fuel with
  | O => None
  | S f =>
    let d := dispatcher e b in
    let has := TEST_STATUS_FLAG (dp_status d) in
    if negb (has DISPR_STARTED) then Some (RTW_PHL_STATUS_UNEXPECTED_ERROR, e)
    else if has DISPR_SHALL_STOP then Some (RTW_PHL_STATUS_FAILURE, e)
    else if 0 <? token_cnt d then Some (RTW_PHL_STATUS_FAILURE, e)
    else if has DISPR_WAIT_ABORT_MSG_DONE then Some (RTW_PHL_STATUS_FAILURE, e)
    else if has DISPR_CLEARANCE
    then Some (RTW_PHL_STATUS_FAILURE, phl_disp_eng_exclusive_ready (ntfyidx b) e)
    else if front_req_with_exclusive_opt d && negb (has DISPR_EXCLUSIVE_USE)
    then Some (RTW_PHL_STATUS_FAILURE, phl_disp_eng_clearance_acquire (ntfyidx b) e)
    else
      match pop_front_wait_req d with
      | None =>
        Some (RTW_PHL_STATUS_SUCCESS,
              if negb (has DISPR_NOTIFY_IDLE)
              then send_bk_msg_phy_idle b (dmod b (dp_flag (setf DISPR_NOTIFY_IDLE)) e) else e)
      | Some (r, d') =>
        let e := dmod b (fun _ => d') e in
        let e := if has DISPR_NOTIFY_IDLE
                 then send_bk_msg_phy_on b (dmod b (dp_flag (clrf DISPR_NOTIFY_IDLE)) e) else e in
        let '(ok, e) := register_cur_cmd_req b r e in
        if ok then Some (RTW_PHL_STATUS_SUCCESS, e) else dispr_process_token_req f b e
      end
  end.

(** [pq_del_node] on the waiting requests. *)
Definition del_wait_req (i : nat) (d : cmd_dispatcher) : cmd_dispatcher :=
  set_token_req_wait_q (List.filter (fun j => negb (j =? i)%nat) (token_req_wait_q d)) d.

Definition _handle_token_op_info (fuel : nat) (b : Z) (op : phl_token_op_info) (e : phl_cmd_dispatch_engine) :
    option phl_cmd_dispatch_engine :=
  let i := Z.to_nat (op_data op) in
  let process e := snd <$> dispr_process_token_req fuel b e in
  if (op_type op =? TOKEN_OP_RENEW_CMD_REQ) || (op_type op =? TOKEN_OP_ADD_CMD_REQ) then process e
  else if op_type op =? TOKEN_OP_FREE_CMD_REQ then
    if Z.of_nat MAX_CMD_REQ_NUM <=? op_data op then Some e
    else if negb (TEST_STATUS_FLAG (rx_status (token_req_ex_pool (dispatcher e b) i)) REQ_STATUS_RUN) then Some e
    else process (deregister_cur_cmd_req b false e)
  else if op_type op =? TOKEN_OP_CANCEL_CMD_REQ then
    if Z.of_nat MAX_CMD_REQ_NUM <=? op_data op then Some e
    else
      let e := dmod b (rmod i (rx_set_status (setf REQ_STATUS_CANCEL))) e in
      let rq := token_req_ex_pool (dispatcher e b) i in
      if TEST_STATUS_FLAG (rx_status rq) REQ_STATUS_ENQ then
        let e := dmod b (del_wait_req i) e in
        let e := (call (CbAbort b i (rx_req rq)) e).2 in
        Some (dmod b (push_back_idle_req i) e)
      else if TEST_STATUS_FLAG (rx_status rq) REQ_STATUS_RUN
      then process (deregister_cur_cmd_req b true e)
      else Some e
  else Some e.

(** The loop of [token_op_hanler]; the same fuel serves the loop inside. *)
Fixpoint token_op_loop (fuel : nat) (b : Z) (e : phl_cmd_dispatch_engine) : option phl_cmd_dispatch_engine :=
  match pop_front_token_op_info (dispatcher e b) with
  | None => Some e
  | Some (r, d) =>
    match fuel with
    | O => None
    | S f =>
      let e := dmod b (fun _ => d) e in
      e ← _handle_token_op_info fuel b (get_op d r) e;
      token_op_loop f b
        (dmod b (fun d => let v := get_op d r in set_op r (OpInfo false (op_type v) (op_data v)) d) e)
    end
  end.

Definition token_op_hanler (fuel : nat) (b : Z) (e : phl_cmd_dispatch_engine) : option phl_cmd_dispatch_engine :=
  let d := dispatcher e b in
  if TEST_STATUS_FLAG (dp_status d) DISPR_CLEARANCE && bool_decide (token_op_q d = []) && (token_cnt d =? 0)
  then Some (phl_disp_eng_exclusive_ready (ntfyidx b) e)
  else token_op_loop fuel b e.

(** ** Delivery of a message *)

(** [ret] is what a module answered. *)
Definition notify_msg_fail (b : Z) (i : nat) (ret : phl_mdl_ret_code) (e : phl_cmd_dispatch_engine) :
    phl_cmd_dispatch_engine :=
  let e := dmod b (mmod i (fun ex => add_indc MSG_INDC_FAIL (mx_set_status (setf MSG_STATUS_FAIL) ex))) e in
  let e := if bool_decide (ret = MDL_RET_CANNOT_IO) then dmod b (mmod i (add_indc MSG_INDC_CANNOT_IO)) e else e in
  let ex := slot e b i in
  let e :=
    match mx_module ex with
    | Some m =>
      if TEST_STATUS_FLAG (mx_status ex) MSG_STATUS_OWNER_BK_MDL &&
         (IS_DISPR_CTRL (MSG_MDL_ID_FIELD (msg_id (mx_msg ex))) ||
          _chk_bitmap_bit (bitmap (dispatcher e b)) MODL_MASK_LEN m)
      then (call_msg (CbMsg b m i (mx_msg ex)) b i e).2 else e
    | None => e
    end in
  if TEST_STATUS_FLAG (mx_status (slot e b i)) MSG_STATUS_OWNER_REQ then cur_req_hdl b i e else e.

Definition in_pre_phase (ex : phl_dispr_msg_ex) : bool :=
  negb (Z.land (MSG_INDC_FIELD (msg_id (mx_msg ex))) MSG_INDC_PRE_PHASE =? 0).

Definition clear_own_bit (id : Z) (ex : phl_dispr_msg_ex) : phl_dispr_msg_ex :=
  let clr m := _clr_bitmap_bit m MODL_MASK_LEN [id] 1 in
  if in_pre_phase ex then mx_set_maps clr (fun m => m) ex else mx_set_maps (fun m => m) clr ex.

Definition feed_mdl_msg (b : Z) (mdl : phl_bk_module) (i : nat) (e : phl_cmd_dispatch_engine) :
    phl_mdl_ret_code * phl_cmd_dispatch_engine :=
  let '(ret, e) := call_msg (CbMsg b (m_id mdl) i (mx_msg (slot e b i))) b i e in
  (ret,
   match ret with
   | MDL_RET_FAIL | MDL_RET_CANNOT_IO =>
     notify_msg_fail b i ret (dmod b (mmod i (mx_set_msg (msg_set_rsvd0 (m_id mdl)))) e)
   | MDL_RET_PENDING => dmod b (mmod i (mx_set_status (setf MSG_STATUS_PENDING))) e
   | _ => dmod b (mmod i (clear_own_bit (m_id mdl))) e
   end).

(** The modules of the queues in the order of [msg_pre_phase_hdl] and of
    [msg_post_phase_hdl]. *)
Definition pre_order (d : cmd_dispatcher) : list phl_bk_module :=
  module_q d PHL_MDL_PRI_MANDATORY ++ module_q d PHL_MDL_PRI_OPTIONAL ++ module_q d PHL_MDL_PRI_ROLE.

Definition post_order (d : cmd_dispatcher) : list phl_bk_module :=
  rev (module_q d PHL_MDL_PRI_ROLE) ++ rev (module_q d PHL_MDL_PRI_OPTIONAL) ++
  rev (module_q d PHL_MDL_PRI_MANDATORY).

(** The walk over the queues, for the map [sel] of the phase. *)
Fixpoint phase_loop (sel : phl_dispr_msg_ex -> list Z) (b : Z) (i : nat) (l : list phl_bk_module)
    (e : phl_cmd_dispatch_engine) : phl_cmd_dispatch_engine :=
  match l with
  | [] => e
  | mdl :: l =>
    if negb (_chk_bitmap_bit (sel (slot e b i)) MODL_MASK_LEN (m_id mdl)) ||
       negb (TEST_STATUS_FLAG (m_status mdl) MDL_STARTED)
    then phase_loop sel b i l e
    else
      let '(ret, e) := feed_mdl_msg b mdl i e in
      if STOP_DISPATCH_MSG ret then e else phase_loop sel b i l e
  end.

Definition msg_pre_phase_hdl (b : Z) (i : nat) (e : phl_cmd_dispatch_engine) : phl_cmd_dispatch_engine :=
  phase_loop premap b i (pre_order (dispatcher e b)) e.

Definition msg_post_phase_hdl (b : Z) (i : nat) (e : phl_cmd_dispatch_engine) : phl_cmd_dispatch_engine :=
  phase_loop postmap b i (post_order (dispatcher e b)) e.

Definition _notify_dispr_controller (b : Z) (i : nat) (e : phl_cmd_dispatch_engine) : phl_cmd_dispatch_engine :=
  if negb (TEST_STATUS_FLAG (dp_status (dispatcher e b)) DISPR_CTRL_PRESENT) then e
  else (feed_mdl_msg b (controller (dispatcher e b)) i e).2.

(** Where MSG_REDIRECT_CHK goes. *)
Inductive redirect := Recycle | Reschedule | Go.

Definition MSG_REDIRECT_CHK (ex : phl_dispr_msg_ex) : redirect :=
  if TEST_STATUS_FLAG (mx_status ex) MSG_STATUS_FAIL || TEST_STATUS_FLAG (mx_status ex) MSG_STATUS_CANCEL
  then Recycle
  else if TEST_STATUS_FLAG (mx_status ex) MSG_STATUS_PENDING then Reschedule
  else Go.

(** The labels [reschedule] and [recycle]. *)
Definition msg_end (b : Z) (i : nat) (g : redirect) (e : phl_cmd_dispatch_engine) : phl_cmd_dispatch_engine :=
  match g with
  | Reschedule =>
    if TEST_STATUS_FLAG (mx_status (slot e b i)) MSG_STATUS_PENDING
    then dmod b (push_back_pending_msg i) e else push_back_wait_msg b i e
  | _ => push_back_idle_msg b i e
  end.

Definition checked (b : Z) (i : nat) (k : phl_cmd_dispatch_engine -> phl_cmd_dispatch_engine)
    (e : phl_cmd_dispatch_engine) : phl_cmd_dispatch_engine :=
  match MSG_REDIRECT_CHK (slot e b i) with Go => k e | g => msg_end b i g e end.

(** An inconsistent bitmap: the message is cancelled. *)
Definition invalid_bitmap (b : Z) (i : nat) (e : phl_cmd_dispatch_engine) : phl_cmd_dispatch_engine :=
  msg_end b i Recycle (dmod b (mmod i (mx_set_status (setf MSG_STATUS_CANCEL))) e).

(** [msg_dispatch] from the post phase on, with [bitmap] pointing to the
    map [pre] tells. *)
Definition map_of (pre : bool) (ex : phl_dispr_msg_ex) : list Z := if pre then premap ex else postmap ex.

Definition dispatch_post (b : Z) (i : nat) (pre : bool) (e : phl_cmd_dispatch_engine) : phl_cmd_dispatch_engine :=
  let e := if negb (_is_bitmap_empty (map_of pre (slot e b i))) then msg_post_phase_hdl b i e else e in
  checked b i (fun e =>
    if _is_bitmap_empty (map_of pre (slot e b i))
    then msg_end b i Recycle (cur_req_hdl b i e) else invalid_bitmap b i e) e.

Definition dispatch_pre (b : Z) (i : nat) (pre : bool) (e : phl_cmd_dispatch_engine) : phl_cmd_dispatch_engine :=
  if in_pre_phase (slot e b i) && negb (_is_bitmap_empty (map_of pre (slot e b i))) then
    checked b i (fun e =>
      if _is_bitmap_empty (map_of pre (slot e b i)) then
        let e := dmod b (mmod i (mx_set_status (clrf MSG_STATUS_PRE_PHASE))) e in
        let '(pre, ex) := get_msg_bitmap (slot e b i) in
        dispatch_post b i pre (dmod b (mmod i (fun _ => ex)) e)
      else invalid_bitmap b i e) (msg_pre_phase_hdl b i e)
  else dispatch_post b i pre e.

Definition msg_dispatch (b : Z) (i : nat) (e : phl_cmd_dispatch_engine) : phl_cmd_dispatch_engine :=
  let '(pre, ex) := get_msg_bitmap (slot e b i) in
  let e := dmod b (mmod i (fun _ => ex)) e in
  checked b i (fun e => checked b i (dispatch_pre b i pre) (_notify_dispr_controller b i e)) e.

(** ** The thread *)

(** The message part of [dispr_thread_loop_hdl]. *)
Definition handle_one_msg (b : Z) (e : phl_cmd_dispatch_engine) : option phl_cmd_dispatch_engine :=
  match pop_front_wait_msg (dispatcher e b) with
  | None => Some e
  | Some (i, d) =>
    let '(ex, canceled) := is_msg_canceled d (msg_ex_pool d i) in
    let d := mdl_info_at (MSG_MDL_ID_FIELD (msg_id (mx_msg (msg_ex_pool d i)))) d in
    let e := dmod b (fun _ => mmod i (fun _ => ex) d) e in
    if canceled then Some (push_back_idle_msg b i e)
    else
      pre ← _and_bitmaps (bitmap d) (premap ex) MODL_MASK_LEN;
      post ← _and_bitmaps (bitmap d) (postmap ex) MODL_MASK_LEN;
      Some (msg_dispatch b i (dmod b (mmod i (mx_set_maps (fun _ => pre) (fun _ => post))) e))
  end.

Definition dispr_thread_loop_hdl (fuel : nat) (b : Z) (e : phl_cmd_dispatch_engine) :
    option phl_cmd_dispatch_engine :=
  if negb (TEST_STATUS_FLAG (dp_status (dispatcher e b)) DISPR_STARTED) then Some e
  else
    e ← token_op_hanler fuel b (clear_pending_msg b e);
    handle_one_msg b e.

(** The loops of [clear_waiting_msg]. *)
Fixpoint drain_pending (b : Z) (l : list nat) (e : phl_cmd_dispatch_engine) : phl_cmd_dispatch_engine :=
  match l with
  | [] => e
  | i :: l => drain_pending b l (push_back_wait_msg b i (dmod b (fun d => set_msg_pend_q (tl (msg_pend_q d)) d) e))
  end.

Fixpoint drain_wait (fuel : nat) (b : Z) (e : phl_cmd_dispatch_engine) : option phl_cmd_dispatch_engine :=
  match pop_front_wait_msg (dispatcher e b) with
  | None => Some e
  | Some (i, d) =>
    match fuel with
    | O => None
    | S f => drain_wait f b (push_back_idle_msg b i (dmod b (fun _ => d) e))
    end
  end.

Fixpoint clear_waiting_msg (fuel : nat) (b : Z) (e : phl_cmd_dispatch_engine) : option phl_cmd_dispatch_engine :=
  if (length (msg_idle_q (dispatcher e b)) =? MAX_PHL_MSG_NUM)%nat then Some e
  else
    match fuel with
    | O => None
    | S f =>
      e ← drain_wait fuel b (drain_pending b (msg_pend_q (dispatcher e b)) e);
      clear_waiting_msg f b e
    end.

(** The loops of [clear_wating_req]. *)
Fixpoint drain_req (fuel : nat) (b : Z) (e : phl_cmd_dispatch_engine) : option phl_cmd_dispatch_engine :=
  match pop_front_wait_req (dispatcher e b) with
  | None => Some e
  | Some (r, d) =>
    match fuel with
    | O => None
    | S f =>
      let e := dmod b (fun _ => d) e in
      let e := (call (CbAbort b r (rx_req (token_req_ex_pool d r))) e).2 in
      drain_req f b (dmod b (push_back_idle_req r) e)
    end
  end.

Fixpoint clear_wating_req (fuel : nat) (b : Z) (e : phl_cmd_dispatch_engine) : option phl_cmd_dispatch_engine :=
  if (length (token_req_idle_q (dispatcher e b)) =? MAX_CMD_REQ_NUM)%nat then Some e
  else
    match fuel with
    | O => None
    | S f => e ← drain_req fuel b e; clear_wating_req f b e
    end.

Definition dispr_thread_leave_hdl (fuel : nat) (b : Z) (e : phl_cmd_dispatch_engine) :
    option phl_cmd_dispatch_engine :=
  e ← clear_waiting_msg fuel b (deregister_cur_cmd_req b true e);
  clear_wating_req fuel b e.

(** One turn of [share_thread_hdl]: the semaphore was up. *)
Definition share_thread_turn (fuel : nat) (e : phl_cmd_dispatch_engine) : option phl_cmd_dispatch_engine :=
  let e := Eng (phy_num e) (eng_status e) (dispatcher e) (msg_q_sema e - 1) (trace e) in
  fold_left (fun o b => e ← o; dispr_thread_loop_hdl fuel b e) (bands e) (Some e).

(** Its end, after the loop. *)
Definition share_thread_leave (fuel : nat) (e : phl_cmd_dispatch_engine) : option phl_cmd_dispatch_engine :=
  fold_left (fun o b => e ← o; dispr_thread_leave_hdl fuel b e) (bands e) (Some e).

(** ** Background modules *)

Definition m_set_status (f : Z -> Z) (m : phl_bk_module) : phl_bk_module := Mdl (m_id m) (f (m_status m)).

(** A module of the dispatcher: the controller, or the one at position [k]
    of the queue of priority [p]. *)
Inductive mref := MCtrl | MQ (p : Z) (k : nat).

Definition get_mdl (d : cmd_dispatcher) (r : mref) : phl_bk_module :=
  match r with
  | MCtrl => controller d
  | MQ p k => nth k (module_q d p) (Mdl 0 0)
  end.

Definition mod_mdl (r : mref) (f : phl_bk_module -> phl_bk_module) (d : cmd_dispatcher) : cmd_dispatcher :=
  match r with
  | MCtrl => set_controller (f (controller d)) d
  | MQ p k => set_module_q (<[p := alter f k (module_q d p)]> (module_q d)) d
  end.

Definition bk_module_init (b : Z) (r : mref) (e : phl_cmd_dispatch_engine) : bool * phl_cmd_dispatch_engine :=
  let m := get_mdl (dispatcher e b) r in
  if TEST_STATUS_FLAG (m_status m) MDL_INIT then (false, e)
  else
    let '(ret, e) := call (CbInit b (m_id m)) e in
    match ret with
    | MDL_RET_SUCCESS => (true, dmod b (mod_mdl r (m_set_status (setf MDL_INIT))) e)
    | _ => (false, e)
    end.

Definition bk_module_deinit (b : Z) (r : mref) (e : phl_cmd_dispatch_engine) : phl_cmd_dispatch_engine :=
  let m := get_mdl (dispatcher e b) r in
  let e := if TEST_STATUS_FLAG (m_status m) MDL_INIT then (call (CbDeinit b (m_id m)) e).2 else e in
  dmod b (mod_mdl r (m_set_status (clrf MDL_INIT))) e.

Definition bk_module_start (b : Z) (r : mref) (e : phl_cmd_dispatch_engine) : bool * phl_cmd_dispatch_engine :=
  let m := get_mdl (dispatcher e b) r in
  if negb (TEST_STATUS_FLAG (m_status m) MDL_INIT) || TEST_STATUS_FLAG (m_status m) MDL_STARTED then (false, e)
  else
    let '(ret, e) := call (CbStart b (m_id m)) e in
    match ret with
    | MDL_RET_SUCCESS => (true, dmod b (mod_mdl r (m_set_status (setf MDL_STARTED))) e)
    | _ => (false, e)
    end.

Definition bk_module_stop (b : Z) (r : mref) (e : phl_cmd_dispatch_engine) : bool * phl_cmd_dispatch_engine :=
  let m := get_mdl (dispatcher e b) r in
  if negb (TEST_STATUS_FLAG (m_status m) MDL_STARTED) then (false, e)
  else
    let e := dmod b (mod_mdl r (m_set_status (clrf MDL_STARTED))) e in
    let '(ret, e) := call (CbStop b (m_id m)) e in
    (match ret with MDL_RET_SUCCESS => true | _ => false end, e).

Definition add_map_bit (id : Z) (m : list Z) : list Z := _add_bitmap_bit m MODL_MASK_LEN [id] 1.
Definition clr_map_bit (id : Z) (m : list Z) : list Z := _clr_bitmap_bit m MODL_MASK_LEN [id] 1.

(** The bits of a module that started: always in [bitmap], in [basemap]
    unless its queue is the optional one. *)
Definition enroll (id p : Z) (d : cmd_dispatcher) : cmd_dispatcher :=
  let d := set_bitmap (add_map_bit id (bitmap d)) d in
  if p =? PHL_MDL_PRI_OPTIONAL then d else set_basemap (add_map_bit id (basemap d)) d.

Definition unenroll (id : Z) (d : cmd_dispatcher) : cmd_dispatcher :=
  set_basemap (clr_map_bit id (basemap d)) (set_bitmap (clr_map_bit id (bitmap d)) d).

(** [dispr_register_module]; [ops_ok] is [chk_module_ops], [alloc] tells that
    the allocation succeeds.  On failure the code frees the module but leaves
    it linked. *)
Definition dispr_register_module (b id : Z) (ops_ok alloc : bool) (e : phl_cmd_dispatch_engine) :
    rtw_phl_status * phl_cmd_dispatch_engine :=
  let d := dispatcher e b in
  let p := _get_mdl_priority id in
  if negb (TEST_STATUS_FLAG (dp_status d) DISPR_INIT) || (p =? PHL_MDL_PRI_MAX) || negb ops_ok ||
     _chk_bitmap_bit (bitmap d) MODL_MASK_LEN id
  then (RTW_PHL_STATUS_FAILURE, e)
  else if negb alloc then (RTW_PHL_STATUS_FAILURE, e)
  else
    let r := MQ p (length (module_q d p)) in
    let e := dmod b (fun d => set_module_q (<[p := module_q d p ++ [Mdl id 0]]> (module_q d)) d) e in
    let '(ok, e) := bk_module_init b r e in
    let '(ok, e) :=
      if ok && TEST_STATUS_FLAG (dp_status (dispatcher e b)) DISPR_STARTED then
        let '(ok, e) := bk_module_start b r e in
        (ok, if ok then dmod b (enroll id p) e else e)
      else (ok, e) in
    if ok then (RTW_PHL_STATUS_SUCCESS, e)
    else (RTW_PHL_STATUS_FAILURE, dmod b (set_damaged true) (bk_module_deinit b r e)).

(** The position [pq_search_node] finds, and the queue without it. *)
Fixpoint find_pos (id : Z) (l : list phl_bk_module) : option nat :=
  match l with
  | [] => None
  | m :: l => if m_id m =? id then Some O else S <$> find_pos id l
  end.

(** A message slot in use whose [module] is the module [id]. *)
Definition mdl_referred (d : cmd_dispatcher) (id : Z) : bool :=
  existsb (fun i => negb (mx_status (msg_ex_pool d i) =? 0) && bool_decide (mx_module (msg_ex_pool d i) = Some id))
    (seq 0 MAX_PHL_MSG_NUM).

(** [dispr_deregister_module]: the module is unlinked first; its operations
    then run on the unlinked module [m], which is freed at the end. *)
Definition dispr_deregister_module (b id : Z) (e : phl_cmd_dispatch_engine) :
    rtw_phl_status * phl_cmd_dispatch_engine :=
  let d := dispatcher e b in
  let p := _get_mdl_priority id in
  if negb (TEST_STATUS_FLAG (dp_status d) DISPR_INIT) || (p =? PHL_MDL_PRI_MAX) then (RTW_PHL_STATUS_FAILURE, e)
  else
    match find_pos id (module_q d p) with
    | None => (RTW_PHL_STATUS_FAILURE, e)
    | Some k =>
      let m := get_mdl d (MQ p k) in
      let e := dmod b (fun d => unenroll id (set_module_q (<[p := delete k (module_q d p)]> (module_q d)) d)) e in
      let e := if TEST_STATUS_FLAG (m_status m) MDL_STARTED then (call (CbStop b (m_id m)) e).2 else e in
      let e := if TEST_STATUS_FLAG (m_status m) MDL_INIT then (call (CbDeinit b (m_id m)) e).2 else e in
      (RTW_PHL_STATUS_SUCCESS, dmod b (fun d => set_damaged (damaged d || mdl_referred d id) d) e)
    end.

(** The modules of all queues in the order of the loops over them. *)
Definition all_mdls (d : cmd_dispatcher) : list mref :=
  let q p := map (MQ p) (seq 0 (length (module_q d p))) in
  q PHL_MDL_PRI_ROLE ++ q PHL_MDL_PRI_OPTIONAL ++ q PHL_MDL_PRI_MANDATORY.

Definition dispr_module_init (b : Z) (e : phl_cmd_dispatch_engine) : rtw_phl_status * phl_cmd_dispatch_engine :=
  if negb (TEST_STATUS_FLAG (dp_status (dispatcher e b)) DISPR_INIT) then (RTW_PHL_STATUS_FAILURE, e)
  else (RTW_PHL_STATUS_SUCCESS,
        fold_left (fun e r => (bk_module_init b r e).2) (all_mdls (dispatcher e b)) e).

Definition mref_pri (r : mref) : Z := match r with MCtrl => PHL_MDL_PRI_MAX | MQ p _ => p end.

Definition start_one (b : Z) (e : phl_cmd_dispatch_engine) (r : mref) : phl_cmd_dispatch_engine :=
  let '(ok, e) := bk_module_start b r e in
  if ok then dmod b (enroll (m_id (get_mdl (dispatcher e b) r)) (mref_pri r)) e else e.

Definition dispr_module_start (b : Z) (e : phl_cmd_dispatch_engine) : rtw_phl_status * phl_cmd_dispatch_engine :=
  if negb (TEST_STATUS_FLAG (dp_status (dispatcher e b)) DISPR_STARTED) then (RTW_PHL_STATUS_UNEXPECTED_ERROR, e)
  else (RTW_PHL_STATUS_SUCCESS, fold_left (start_one b) (all_mdls (dispatcher e b)) e).

Definition stop_one (b : Z) (e : phl_cmd_dispatch_engine) (r : mref) : phl_cmd_dispatch_engine :=
  (bk_module_stop b r (dmod b (unenroll (m_id (get_mdl (dispatcher e b) r))) e)).2.

Definition dispr_module_stop (b : Z) (e : phl_cmd_dispatch_engine) : rtw_phl_status * phl_cmd_dispatch_engine :=
  if negb (TEST_STATUS_FLAG (dp_status (dispatcher e b)) DISPR_STARTED) then (RTW_PHL_STATUS_UNEXPECTED_ERROR, e)
  else (RTW_PHL_STATUS_SUCCESS, fold_left (stop_one b) (all_mdls (dispatcher e b)) e).

(** [dispr_module_deinit]: each module is taken from the front of its queue. *)
Definition deinit_one (b p : Z) (e : phl_cmd_dispatch_engine) (m : phl_bk_module) : phl_cmd_dispatch_engine :=
  let e := dmod b (fun d => set_module_q (<[p := tl (module_q d p)]> (module_q d)) d) e in
  if TEST_STATUS_FLAG (m_status m) MDL_INIT then (call (CbDeinit b (m_id m)) e).2 else e.

Definition dispr_module_deinit (b : Z) (e : phl_cmd_dispatch_engine) : rtw_phl_status * phl_cmd_dispatch_engine :=
  if negb (TEST_STATUS_FLAG (dp_status (dispatcher e b)) DISPR_INIT) then (RTW_PHL_STATUS_FAILURE, e)
  else (RTW_PHL_STATUS_SUCCESS,
        fold_left (fun e p => fold_left (deinit_one b p) (module_q (dispatcher e b) p) e)
          [PHL_MDL_PRI_ROLE; PHL_MDL_PRI_OPTIONAL; PHL_MDL_PRI_MANDATORY] e).

(** ** Queries of the current request and of modules *)

Definition ret_status (ret : phl_mdl_ret_code) : rtw_phl_status :=
  match ret with MDL_RET_SUCCESS => RTW_PHL_STATUS_SUCCESS | _ => RTW_PHL_STATUS_FAILURE end.

Definition not_failed (ret : phl_mdl_ret_code) : rtw_phl_status :=
  match ret with MDL_RET_FAIL => RTW_PHL_STATUS_FAILURE | _ => RTW_PHL_STATUS_SUCCESS end.

(** [dispr_set_cur_cmd_info] and [dispr_query_cur_cmd_info]; [op] is the
    routine of the request. *)
Definition cur_cmd_info (op : Z -> nat -> cb) (b : Z) (e : phl_cmd_dispatch_engine) :
    rtw_phl_status * phl_cmd_dispatch_engine :=
  match dispr_get_cur_cmd_req (dispatcher e b) with
  | (RTW_PHL_STATUS_SUCCESS, Some i) => let '(ret, e) := call (op b i) e in (ret_status ret, e)
  | _ => (RTW_PHL_STATUS_FAILURE, e)
  end.

Definition dispr_set_cur_cmd_info := cur_cmd_info CbReqSetInfo.
Definition dispr_query_cur_cmd_info := cur_cmd_info CbReqQueryInfo.

Definition dispr_get_bk_module_handle (d : cmd_dispatcher) (id : Z) : option mref :=
  let p := _get_mdl_priority id in
  if negb (TEST_STATUS_FLAG (dp_status d) DISPR_INIT) || (p =? PHL_MDL_PRI_MAX) ||
     negb (_chk_bitmap_bit (bitmap d) MODL_MASK_LEN id)
  then None else MQ p <$> find_pos id (module_q d p).

(** [dispr_set_bk_module_info] and [dispr_query_bk_module_info]. *)
Definition bk_module_info (op : Z -> Z -> cb) (b : Z) (r : mref) (e : phl_cmd_dispatch_engine) :
    rtw_phl_status * phl_cmd_dispatch_engine :=
  let m := get_mdl (dispatcher e b) r in
  if negb (TEST_STATUS_FLAG (m_status m) MDL_INIT) then (RTW_PHL_STATUS_FAILURE, e)
  else let '(ret, e) := call (op b (m_id m)) e in (ret_status ret, e).

Definition dispr_set_bk_module_info := bk_module_info CbSetInfo.
Definition dispr_query_bk_module_info := bk_module_info CbQueryInfo.

(** [dispr_set_src_info] and [dispr_query_src_info], for the message of slot
    [i]. *)
Definition src_info (rop : Z -> nat -> cb) (mop : Z -> Z -> cb) (b : Z) (i : nat) (e : phl_cmd_dispatch_engine) :
    rtw_phl_status * phl_cmd_dispatch_engine :=
  let d := dispatcher e b in
  let ex := slot e b i in
  let id := MSG_MDL_ID_FIELD (msg_id (mx_msg ex)) in
  let cur_req_id := (get_cur_cmd_req_id d).1 in
  if negb (TEST_STATUS_FLAG (dp_status d) DISPR_INIT) ||
     (negb (_chk_bitmap_bit (bitmap d) MODL_MASK_LEN id) && negb (cur_req_id =? id))
  then (RTW_PHL_STATUS_FAILURE, e)
  else
    match (if cur_req_id =? id then rop b <$> cur_cmd_req d
           else if TEST_STATUS_FLAG (mx_status ex) MSG_STATUS_OWNER_BK_MDL then mop b <$> mx_module ex else None) with
    | Some c => let '(ret, e) := call c e in (not_failed ret, e)
    | None => (RTW_PHL_STATUS_FAILURE, e)
    end.

Definition dispr_set_src_info := src_info CbReqSetInfo CbSetInfo.
Definition dispr_query_src_info := src_info CbReqQueryInfo CbQueryInfo.

(** ** Start and stop *)

(** The memory of a dispatcher after [_os_mem_alloc], which clears it. *)
Definition zero_dispr : cmd_dispatcher :=
  Dispr 0 (fun _ => []) (fun _ => fresh_msg_ex) [] [] []
    (fun _ => ReqEx 0 (Req 0 0 0 false) zero_op zero_op) [] [] [] 0 None zero_map zero_map (fun _ => 0)
    (Mdl 0 0) zero_op 0 false.

Definition init_dispr_msg_pool (d : cmd_dispatcher) : cmd_dispatcher :=
  if TEST_STATUS_FLAG (dp_status d) DISPR_MSGQ_INIT then d
  else
    let d := set_msg_ex_pool (fun _ => fresh_msg_ex) (set_msg_pend_q [] (set_msg_wait_q [] (set_msg_idle_q [] d))) in
    dp_flag (setf DISPR_MSGQ_INIT) (fold_left (fun d i => reset_msg i d) (seq 0 MAX_PHL_MSG_NUM) d).

Definition deinit_dispr_msg_pool (d : cmd_dispatcher) : cmd_dispatcher :=
  if negb (TEST_STATUS_FLAG (dp_status d) DISPR_MSGQ_INIT) then d else dp_flag (clrf DISPR_MSGQ_INIT) d.

Definition init_cmd_req_pool (d : cmd_dispatcher) : cmd_dispatcher :=
  if TEST_STATUS_FLAG (dp_status d) DISPR_REQ_INIT then d
  else
    let d := set_token_op_q [] (set_token_req_idle_q [] (set_token_req_wait_q [] d)) in
    let d := set_token_req_ex_pool (fun _ => ReqEx 0 (Req 0 0 0 false) zero_op zero_op) d in
    dp_flag (setf DISPR_REQ_INIT)
      (fold_left (fun d i => set_token_req_idle_q (token_req_idle_q d ++ [i]) d) (seq 0 MAX_CMD_REQ_NUM) d).

Definition deinit_cmd_req_pool (d : cmd_dispatcher) : cmd_dispatcher :=
  if negb (TEST_STATUS_FLAG (dp_status d) DISPR_REQ_INIT) then d else dp_flag (clrf DISPR_REQ_INIT) d.

Definition init_dispr_mdl_mgnt_info (d : cmd_dispatcher) : cmd_dispatcher :=
  set_pending_evt_id (fun i => if (0 <=? i) && (i <? PHL_MDL_ID_MAX) then MSG_EVT_MAX else pending_evt_id d i) d.

Definition dispr_clr_ctrl_state (d : cmd_dispatcher) : cmd_dispatcher := dp_flag (fun s => Z.land s 127) d.

(** [_register_dispr_controller] *)
Definition _register_dispr_controller (b : Z) (e : phl_cmd_dispatch_engine) : bool * phl_cmd_dispatch_engine :=
  bk_module_init b MCtrl (dmod b (set_controller (Mdl PHL_MDL_PHY_MGNT (m_status (controller (dispatcher e b))))) e).

Definition _deregister_dispr_controller (b : Z) (e : phl_cmd_dispatch_engine) : phl_cmd_dispatch_engine :=
  bk_module_deinit b MCtrl e.

Definition _start_dispr_controller (b : Z) (e : phl_cmd_dispatch_engine) : bool * phl_cmd_dispatch_engine :=
  let '(ok, e) := bk_module_start b MCtrl e in
  (ok, if ok then dmod b (dp_flag (setf DISPR_CTRL_PRESENT)) e else e).

Definition _stop_dispr_controller (b : Z) (e : phl_cmd_dispatch_engine) : bool * phl_cmd_dispatch_engine :=
  bk_module_stop b MCtrl (dmod b (dp_flag (clrf DISPR_CTRL_PRESENT)) e).

(** [dispr_init], when its allocation succeeds. *)
Definition dispr_init (b : Z) (e : phl_cmd_dispatch_engine) : phl_cmd_dispatch_engine :=
  (_register_dispr_controller b (dmod b (fun _ => dp_flag (setf DISPR_INIT) zero_dispr) e)).2.

Definition dispr_start (b : Z) (e : phl_cmd_dispatch_engine) : rtw_phl_status * phl_cmd_dispatch_engine :=
  if TEST_STATUS_FLAG (dp_status (dispatcher e b)) DISPR_STARTED then (RTW_PHL_STATUS_UNEXPECTED_ERROR, e)
  else
    let e := dmod b (fun d =>
               let d := init_dispr_mdl_mgnt_info (init_cmd_req_pool (init_dispr_msg_pool d)) in
               let d := set_exclusive_mdl PHL_MDL_ID_MAX (set_renew_req_info zero_op d) in
               dp_flag (setf DISPR_NOTIFY_IDLE) (dp_flag (setf DISPR_STARTED) d)) e in
    (RTW_PHL_STATUS_SUCCESS, (_start_dispr_controller b e).2).

Definition dispr_thread_stop_prior_hdl (b : Z) (e : phl_cmd_dispatch_engine) : phl_cmd_dispatch_engine :=
  if negb (TEST_STATUS_FLAG (dp_status (dispatcher e b)) DISPR_STARTED) then e
  else
    let e := (_stop_dispr_controller b (dmod b (dp_flag (clrf DISPR_STARTED)) e)).2 in
    dmod b (fun d => cancel_running_msg (cancel_all_cmd_req d)) e.

Definition dispr_thread_stop_post_hdl (b : Z) (e : phl_cmd_dispatch_engine) : phl_cmd_dispatch_engine :=
  dmod b (fun d => set_token_cnt 0 (dispr_clr_ctrl_state (deinit_cmd_req_pool (deinit_dispr_msg_pool d)))) e.

Definition dispr_stop (b : Z) (e : phl_cmd_dispatch_engine) : rtw_phl_status * phl_cmd_dispatch_engine :=
  if negb (TEST_STATUS_FLAG (dp_status (dispatcher e b)) DISPR_STARTED) then (RTW_PHL_STATUS_UNEXPECTED_ERROR, e)
  else (RTW_PHL_STATUS_SUCCESS, dispr_thread_stop_post_hdl b (dispr_thread_stop_prior_hdl b e)).

(** [dispr_deinit]; the memory of the dispatcher is freed at its end. *)
Definition dispr_deinit (b : Z) (e : phl_cmd_dispatch_engine) : phl_cmd_dispatch_engine :=
  if negb (TEST_STATUS_FLAG (dp_status (dispatcher e b)) DISPR_INIT) then e
  else
    let e := _deregister_dispr_controller b (dispr_stop b e).2 in
    dmod b (set_module_q (fun _ => [])) e.

(** ** The engine's life *)

Definition DISPR_ENG_INIT : Z := BIT 0.
Definition DISPR_ENG_STARTED : Z := BIT 1.

Definition eng_flag (f : Z -> Z) (e : phl_cmd_dispatch_engine) : phl_cmd_dispatch_engine :=
  Eng (phy_num e) (f (eng_status e)) (dispatcher e) (msg_q_sema e) (trace e).

Definition set_phy_num (n : Z) (e : phl_cmd_dispatch_engine) : phl_cmd_dispatch_engine :=
  Eng n (eng_status e) (dispatcher e) (msg_q_sema e) (trace e).

(** [phl_disp_eng_init] for [num] bands; [alloc] tells how many dispatchers
    can be allocated.  Without a dispatcher array [phy_num] is 0. *)
Definition phl_disp_eng_init (num alloc : nat) (e : phl_cmd_dispatch_engine) :
    rtw_phl_status * phl_cmd_dispatch_engine :=
  if negb (phy_num e =? 0) then (RTW_PHL_STATUS_FAILURE, e)
  else
    let e := fold_left (fun e b => set_phy_num (phy_num e + 1) (dispr_init b e))
               (map Z.of_nat (seq 0 (Nat.min num alloc))) e in
    if (num <=? alloc)%nat then (RTW_PHL_STATUS_SUCCESS, eng_flag (setf DISPR_ENG_INIT) e)
    else (RTW_PHL_STATUS_RESOURCE, set_phy_num 0 (fold_left (fun e b => dispr_deinit b e) (bands e) e)).

Definition phl_disp_eng_bk_module_deinit (e : phl_cmd_dispatch_engine) : phl_cmd_dispatch_engine :=
  fold_left (fun e b => (dispr_module_deinit b e).2) (bands e) e.

Definition phl_disp_eng_deinit (e : phl_cmd_dispatch_engine) : rtw_phl_status * phl_cmd_dispatch_engine :=
  if phy_num e =? 0 then (RTW_PHL_STATUS_FAILURE, e)
  else if negb (TEST_STATUS_FLAG (eng_status e) DISPR_ENG_INIT) then (RTW_PHL_STATUS_SUCCESS, e)
  else
    let e := phl_disp_eng_bk_module_deinit (eng_flag (clrf DISPR_ENG_INIT) e) in
    (RTW_PHL_STATUS_SUCCESS, set_phy_num 0 (fold_left (fun e b => dispr_deinit b e) (bands e) e)).

Definition phl_disp_eng_start (e : phl_cmd_dispatch_engine) : rtw_phl_status * phl_cmd_dispatch_engine :=
  if TEST_STATUS_FLAG (eng_status e) DISPR_ENG_STARTED then (RTW_PHL_STATUS_UNEXPECTED_ERROR, e)
  else
    let e := Eng (phy_num e) (eng_status e) (dispatcher e) 0 (trace e) in
    let e := fold_left (fun e b => (dispr_module_start b (dispr_start b e).2).2) (bands e) e in
    let e := eng_flag (setf DISPR_ENG_STARTED) e in
    (RTW_PHL_STATUS_SUCCESS, if phy_num e =? 1 then dispr_exclusive_ready 0 false e else e).

(** [phl_disp_eng_stop]; the shared thread leaves between the two halves. *)
Definition phl_disp_eng_stop (fuel : nat) (e : phl_cmd_dispatch_engine) :
    option (rtw_phl_status * phl_cmd_dispatch_engine) :=
  if phy_num e =? 0 then Some (RTW_PHL_STATUS_SUCCESS, e)
  else if negb (TEST_STATUS_FLAG (eng_status e) DISPR_ENG_STARTED) then Some (RTW_PHL_STATUS_UNEXPECTED_ERROR, e)
  else
    let e := eng_flag (clrf DISPR_ENG_STARTED) e in
    let e := fold_left (fun e b => (dispr_module_stop b e).2) (bands e) e in
    let e := fold_left (fun e b => dispr_thread_stop_prior_hdl b e) (bands e) e in
    e ← share_thread_leave fuel e;
    Some (RTW_PHL_STATUS_SUCCESS, fold_left (fun e b => dispr_thread_stop_post_hdl b e) (bands e) e).

End Callbacks.
