(* ===== verification/DisprInv.v ===== *)
(** * The slots, the token and the history of the command dispatcher

    The invariant of the dispatcher of Dispr: every message slot is idle,
    waiting, pending or in the hands of the thread, and its flags say which;
    every request slot is idle, waiting or the one that holds the token; the
    number of completions called is the number of messages accepted with a
    completion less those still in a slot; tokens are granted in the order of
    the requests.  The file proves it for every operation, whatever the
    callbacks do and in whatever order other threads call.  It is about the
    record of Dispr; the theorems for callers (DisprStop, DisprWake) speak of
    runs that are not [damaged], in which the memory of the code looks like it. *)
From Stdlib Require Import ZArith Lia Bool List Permutation.
From stdpp Require Import base tactics list numbers sets functions.
From S2P Require Import Prelude PhlList PhlUtil Dispr.

Create HintDb dispr.

(** ** Flags *)

Lemma TEST_BIT s n : 0 <= n -> TEST_STATUS_FLAG s (BIT n) = Z.testbit s n.
Proof.
  intros Hn. unfold TEST_STATUS_FLAG. rewrite <- (land_BIT s n Hn).
  destruct (Z.eqb_spec (Z.land s (BIT n)) 0) as [E|E]; simpl.
  - rewrite E. apply Z.eqb_neq. unfold BIT. rewrite Z.shiftl_1_l. lia.
  - apply Z.eqb_eq, Z.bits_inj'. intros m Hm. rewrite Z.land_spec, testbit_BIT by lia.
    destruct (Z.eqb_spec m n) as [->|]; [|apply andb_false_r]. rewrite andb_true_r.
    destruct (Z.testbit s n) eqn:Es; [done|]. exfalso. apply E, Z.bits_inj'. intros j Hj.
    rewrite Z.land_spec, testbit_BIT, Z.bits_0 by lia.
    destruct (Z.eqb_spec j n) as [->|]; by rewrite ?Es, ?andb_false_r.
Qed.

Lemma testbit_setf s n j : 0 <= n -> Z.testbit (setf (BIT n) s) j = Z.testbit s j || (j =? n).
Proof. apply testbit_lor_BIT. Qed.

Lemma testbit_clrf s n j :
  0 <= n -> 0 <= j -> Z.testbit (clrf (BIT n) s) j = Z.testbit s j && negb (j =? n).
Proof. apply testbit_land_lnot_BIT. Qed.

(** A flag above the lowest [w] bits. *)
Lemma testbit_flag_above w n (f : Z -> Z -> Z) s m :
  (f = setf \/ f = clrf) -> 0 <= m < w -> w <= n -> Z.testbit (f (BIT n) s) m = Z.testbit s m.
Proof.
  intros Hf Hm Hn. destruct Hf as [-> | ->]; rewrite ?testbit_setf, ?testbit_clrf by lia;
    rewrite (proj2 (Z.eqb_neq m n)) by lia; by rewrite ?orb_false_r, ?andb_true_r.
Qed.

(** Unfold the flags of messages and requests and compute single bits. *)
Ltac flag_unfold :=
  unfold to_enq, MSG_STATUS_ENQ, MSG_STATUS_RUN, MSG_STATUS_NOTIFY_COMPLETE, MSG_STATUS_CANCEL,
    MSG_STATUS_PRE_PHASE, MSG_STATUS_FAIL, MSG_STATUS_OWNER_BK_MDL, MSG_STATUS_OWNER_REQ,
    MSG_STATUS_CLR_SNDR_MSG_IF_PENDING, MSG_STATUS_PENDING, MSG_STATUS_FOR_ABORT,
    MSG_STATUS_PENDING_DURING_CANNOT_IO, REQ_STATUS_ENQ, REQ_STATUS_RUN, REQ_STATUS_CANCEL,
    REQ_STATUS_LAST_PERMIT, REQ_STATUS_PREPARE in *.

Ltac bits :=
  cbn [mx_set_status mx_set_msg mx_set_maps mx_status mx_msg completion rx_set_status rx_status rx_req] in *;
  flag_unfold; repeat (rewrite ?TEST_BIT, ?testbit_setf, ?testbit_clrf, ?Z.bits_0 in * by lia);
  cbn [Z.eqb Pos.eqb orb andb negb] in *; rewrite ?orb_false_r, ?orb_true_r, ?andb_true_r, ?andb_false_r in *.

(** ** Counting slots *)

Definition slots_with (P : nat -> bool) (n : nat) : nat := length (List.filter P (seq 0 n)).

Lemma slots_with_ext P Q n : (forall i, (i < n)%nat -> P i = Q i) -> slots_with P n = slots_with Q n.
Proof.
  intros H. unfold slots_with. f_equal. apply filter_ext_in. intros i Hi. apply H.
  apply in_seq in Hi. lia.
Qed.

Lemma filter_seq_upd P Q i n s :
  (forall j, j <> i -> P j = Q j) -> (s <= i < s + n)%nat ->
  (length (List.filter P (seq s n)) + Nat.b2n (Q i) = length (List.filter Q (seq s n)) + Nat.b2n (P i))%nat.
Proof.
  intros H. revert s. induction n as [|n IH]; intros s Hi; [lia|]. cbn [seq List.filter].
  destruct (decide (i = s)) as [->|Hne].
  - assert (List.filter P (seq (S s) n) = List.filter Q (seq (S s) n)) as E.
    { apply filter_ext_in. intros j Hj. apply in_seq in Hj. apply H. lia. }
    destruct (P s), (Q s); cbn [length Nat.b2n]; rewrite E; lia.
  - specialize (IH (S s)). rewrite (H s) by done. destruct (Q s); cbn [length]; lia.
Qed.

(** Changing the predicate at one slot. *)
Lemma slots_with_upd P Q i n :
  (forall j, j <> i -> P j = Q j) -> (i < n)%nat ->
  (slots_with P n + Nat.b2n (Q i) = slots_with Q n + Nat.b2n (P i))%nat.
Proof. intros H Hi. apply filter_seq_upd; [done|lia]. Qed.

(** ** The invariant *)

(** What the thread is in the middle of: the message slots it holds, whether
    the current request runs, the request slots it took out of the queue, the
    request about to get the token, the completion being called. *)
Record ctx := Ctx {
  held : list nat; run : bool; rheld : list nat; grant : list (nat * phl_cmd_token_req); infl : list Z
}.

Definition at_rest : ctx := Ctx [] true [] [] [].

Definition cur_list (d : cmd_dispatcher) : list nat := match cur_cmd_req d with Some r => [r] | None => [] end.

(** The slot carries a completion [c] that was not called yet. *)
Definition owes (c : Z) (ex : phl_dispr_msg_ex) : bool :=
  Z.testbit (mx_status ex) 2 && bool_decide (completion ex = Some c).

Record disp_inv (d : cmd_dispatcher) (k : ctx) : Prop := {
  mi_perm : msg_idle_q d ++ msg_wait_q d ++ msg_pend_q d ++ held k ≡ₚ seq 0 MAX_PHL_MSG_NUM;
  mi_idle : forall i, i ∈ msg_idle_q d -> mx_status (msg_ex_pool d i) = 0 /\ msg_id (mx_msg (msg_ex_pool d i)) = 0;
  mi_enq : forall i, i ∈ msg_wait_q d ++ msg_pend_q d ->
    Z.testbit (mx_status (msg_ex_pool d i)) 0 = true /\ Z.testbit (mx_status (msg_ex_pool d i)) 1 = false;
  mi_run : forall i, i ∈ held k ->
    Z.testbit (mx_status (msg_ex_pool d i)) 0 = false /\ Z.testbit (mx_status (msg_ex_pool d i)) 1 = true;
  mi_infl : forall c, c ∈ infl k -> match held k with i :: _ => owes c (msg_ex_pool d i) = true | [] => False end;
  ri_perm : token_req_idle_q d ++ token_req_wait_q d ++ cur_list d ++ rheld k ≡ₚ seq 0 MAX_CMD_REQ_NUM;
  ri_idle : forall i, i ∈ token_req_idle_q d ->
    Z.testbit (rx_status (token_req_ex_pool d i)) 0 = false /\ Z.testbit (rx_status (token_req_ex_pool d i)) 1 = false;
  ri_wait : forall i, i ∈ token_req_wait_q d ->
    Z.testbit (rx_status (token_req_ex_pool d i)) 0 = true /\ Z.testbit (rx_status (token_req_ex_pool d i)) 1 = false;
  ri_cur : forall i, cur_cmd_req d = Some i ->
    Z.testbit (rx_status (token_req_ex_pool d i)) 0 = false /\ Z.testbit (rx_status (token_req_ex_pool d i)) 1 = run k;
  ri_id : forall i, i ∈ token_req_wait_q d ++ cur_list d ++ rheld k ->
    PHL_FG_MDL_START <= rq_module_id (rx_req (token_req_ex_pool d i));
  ri_cnt : token_cnt d = Z.of_nat (length (cur_list d));
  ri_grant : forall i q, (i, q) ∈ grant k ->
    Z.testbit (rx_status (token_req_ex_pool d i)) 0 = false /\ rx_req (token_req_ex_pool d i) = q /\ i ∈ rheld k
}.

(** Events of the history. *)
Definition ev_accepted (b c : Z) (x : event) : bool :=
  match x with Accepted b' _ (Some c') => (b' =? b) && (c' =? c) | _ => false end.

Definition ev_completed (b c : Z) (x : event) : bool :=
  match x with Called (CbCompletion b' c' _ _) => (b' =? b) && (c' =? c) | _ => false end.

Definition ev_queued (b : Z) (x : event) : list (nat * phl_cmd_token_req) :=
  match x with Queued b' i q => if b' =? b then [(i, q)] else [] | _ => [] end.

Definition ev_granted (b : Z) (x : event) : list (nat * phl_cmd_token_req) :=
  match x with Called (CbAcquired b' i q) => if b' =? b then [(i, q)] else [] | _ => [] end.

Definition count_ev (f : event -> bool) (tr : list event) : nat := length (List.filter f tr).

Definition outstanding (d : cmd_dispatcher) (c : Z) : nat :=
  slots_with (fun i => owes c (msg_ex_pool d i)) MAX_PHL_MSG_NUM.

Definition wait_reqs (d : cmd_dispatcher) : list (nat * phl_cmd_token_req) :=
  map (fun i => (i, rx_req (token_req_ex_pool d i))) (token_req_wait_q d).

Record hist_inv (tr : list event) (b : Z) (d : cmd_dispatcher) (k : ctx) : Prop := {
  hi_compl : forall c, (count_ev (ev_accepted b c) tr + count_occ Z.eq_dec (infl k) c =
                        count_ev (ev_completed b c) tr + outstanding d c)%nat;
  hi_fifo : sublist (flat_map (ev_granted b) tr ++ grant k ++ wait_reqs d) (flat_map (ev_queued b) tr)
}.

Definition inv1 (tr : list event) (b : Z) (d : cmd_dispatcher) (k : ctx) : Prop :=
  disp_inv d k /\ hist_inv tr b d k.

(** The invariant on the bands [L]. *)
Definition eng_inv (L : Z -> Prop) (e : phl_cmd_dispatch_engine) (K : Z -> ctx) : Prop :=
  forall b, L b -> inv1 (trace e) b (dispatcher e b) (K b).

(** The bands that exist. *)
Definition live (e : phl_cmd_dispatch_engine) (b : Z) : Prop := 0 <= b < phy_num e.

(** ** Changes the invariant does not see *)

Definition mx_same (ex ex' : phl_dispr_msg_ex) : Prop :=
  (forall n, n = 0 \/ n = 1 \/ n = 2 -> Z.testbit (mx_status ex') n = Z.testbit (mx_status ex) n) /\
  completion ex' = completion ex /\
  (mx_status ex = 0 -> msg_id (mx_msg ex) = 0 -> mx_status ex' = 0 /\ msg_id (mx_msg ex') = 0).

Definition rx_same (r r' : phl_cmd_token_req_ex) : Prop :=
  (forall n, n = 0 \/ n = 1 -> Z.testbit (rx_status r') n = Z.testbit (rx_status r) n) /\ rx_req r' = rx_req r.

Definition same (d d' : cmd_dispatcher) : Prop :=
  (forall i, mx_same (msg_ex_pool d i) (msg_ex_pool d' i)) /\
  (forall i, rx_same (token_req_ex_pool d i) (token_req_ex_pool d' i)) /\
  msg_idle_q d' = msg_idle_q d /\ msg_wait_q d' = msg_wait_q d /\ msg_pend_q d' = msg_pend_q d /\
  token_req_idle_q d' = token_req_idle_q d /\ token_req_wait_q d' = token_req_wait_q d /\
  cur_cmd_req d' = cur_cmd_req d /\ token_cnt d' = token_cnt d.

Lemma mx_same_refl ex : mx_same ex ex.
Proof. done. Qed.

Lemma rx_same_refl r : rx_same r r.
Proof. done. Qed.

#[export] Hint Resolve mx_same_refl rx_same_refl : dispr.

Lemma owes_same c ex ex' : mx_same ex ex' -> owes c ex' = owes c ex.
Proof. intros (H & Hc & _). unfold owes. by rewrite (H 2), Hc by auto. Qed.

Lemma wait_reqs_same d d' : same d d' -> wait_reqs d' = wait_reqs d.
Proof.
  intros (_ & Hr & _ & _ & _ & _ & Hq & _). unfold wait_reqs. rewrite Hq.
  apply map_ext. intros i. by rewrite (proj2 (Hr i)).
Qed.

Lemma inv1_same tr b d d' k : same d d' -> inv1 tr b d k -> inv1 tr b d' k.
Proof.
  intros Hs [Hd Hh]. pose proof (wait_reqs_same d d' Hs) as Hw.
  destruct Hs as (Hm & Hr & E1 & E2 & E3 & E4 & E5 & E6 & E7). split; [destruct Hd; split|destruct Hh; split].
  - by rewrite E1, E2, E3.
  - intros i. rewrite E1. intros Hi. destruct (mi_idle0 i Hi). by apply (Hm i).
  - intros i. rewrite E2, E3, !(proj1 (Hm i)) by auto. apply mi_enq0.
  - intros i. rewrite !(proj1 (Hm i)) by auto. apply mi_run0.
  - intros c Hc. specialize (mi_infl0 c Hc). destruct (held k) as [|i h]; [done|].
    by rewrite (owes_same c _ _ (Hm i)).
  - unfold cur_list. by rewrite E4, E5, E6.
  - intros i. rewrite E4, !(proj1 (Hr i)) by auto. apply ri_idle0.
  - intros i. rewrite E5, !(proj1 (Hr i)) by auto. apply ri_wait0.
  - intros i. rewrite E6, !(proj1 (Hr i)) by auto. apply ri_cur0.
  - intros i. unfold cur_list. rewrite E5, E6, (proj2 (Hr i)). apply ri_id0.
  - unfold cur_list. by rewrite E6, E7.
  - intros i q Hq. rewrite (proj1 (Hr i)), (proj2 (Hr i)) by auto. by apply ri_grant0.
  - intros c. rewrite hi_compl0. f_equal. apply slots_with_ext. intros i _. symmetry. by apply owes_same.
  - by rewrite Hw.
Qed.

Lemma same_refl d : same d d.
Proof. repeat split; auto. Qed.

Lemma same_trans d1 d2 d3 : same d1 d2 -> same d2 d3 -> same d1 d3.
Proof.
  intros (A1 & A2 & A3 & A4 & A5 & A6 & A7 & A8 & A9) (B1 & B2 & B3 & B4 & B5 & B6 & B7 & B8 & B9).
  split_and!; try congruence.
  - intros i. destruct (A1 i) as (X & Y & Z1), (B1 i) as (X' & Y' & Z2). split_and!; [|congruence|].
    + intros n Hn. by rewrite X', X.
    + intros H1 H2. destruct (Z1 H1 H2). by apply Z2.
  - intros i. destruct (A2 i) as (X & Y), (B2 i) as (X' & Y'). split; [|congruence].
    intros n Hn. by rewrite X', X.
Qed.

Ltac same_trivial := repeat split; auto.

Lemma same_dp_flag f d : same d (dp_flag f d). Proof. same_trivial. Qed.
Lemma same_pending m v d : same d (SET_CUR_PENDING_EVT m v d). Proof. same_trivial. Qed.
Lemma same_op_q q d : same d (set_token_op_q q d). Proof. same_trivial. Qed.
Lemma same_excl v d : same d (set_exclusive_mdl v d). Proof. same_trivial. Qed.
Lemma same_damaged v d : same d (set_damaged v d). Proof. same_trivial. Qed.
Lemma same_info m d : same d (mdl_info_at m d). Proof. same_trivial. Qed.
Lemma same_renew v d : same d (set_renew_req_info v d). Proof. same_trivial. Qed.

Lemma same_mmod i f d : mx_same (msg_ex_pool d i) (f (msg_ex_pool d i)) -> same d (mmod i f d).
Proof.
  intros H. split_and!; try reflexivity; [|intros; apply rx_same_refl].
  intros j. cbn. destruct (decide (i = j)) as [->|Hne]; [by rewrite fn_lookup_insert|].
  rewrite fn_lookup_insert_ne by done. apply mx_same_refl.
Qed.

Lemma same_rmod i f d : rx_same (token_req_ex_pool d i) (f (token_req_ex_pool d i)) -> same d (rmod i f d).
Proof.
  intros H. split_and!; try reflexivity; [intros; apply mx_same_refl|].
  intros j. cbn. destruct (decide (i = j)) as [->|Hne]; [by rewrite fn_lookup_insert|].
  rewrite fn_lookup_insert_ne by done. apply rx_same_refl.
Qed.

Lemma same_set_op r v d : same d (set_op r v d).
Proof. destruct r; cbn; [apply same_rmod..|apply same_renew]; done. Qed.

#[export] Hint Resolve same_refl same_dp_flag same_pending same_op_q same_excl same_damaged same_info same_renew
  same_set_op : dispr.

(** ** Moving one slot *)

Definition k_held (h : list nat) (k : ctx) : ctx := Ctx h (run k) (rheld k) (grant k) (infl k).

(** Slot [i] goes from one queue to another, or to the thread; [d'] is the
    dispatcher afterwards. *)
Record moved (i : nat) (d d' : cmd_dispatcher) (h h' : list nat) : Prop := {
  mv_perm : msg_idle_q d' ++ msg_wait_q d' ++ msg_pend_q d' ++ h' ≡ₚ
            msg_idle_q d ++ msg_wait_q d ++ msg_pend_q d ++ h;
  mv_idle : forall j, j ∈ msg_idle_q d' -> j <> i -> j ∈ msg_idle_q d;
  mv_enq : forall j, j ∈ msg_wait_q d' ++ msg_pend_q d' -> j <> i -> j ∈ msg_wait_q d ++ msg_pend_q d;
  mv_held : forall j, j ∈ h' -> j <> i -> j ∈ h;
  mv_pool : forall j, j <> i -> msg_ex_pool d' j = msg_ex_pool d j;
  mv_i_idle : i ∈ msg_idle_q d' -> mx_status (msg_ex_pool d' i) = 0 /\ msg_id (mx_msg (msg_ex_pool d' i)) = 0;
  mv_i_enq : i ∈ msg_wait_q d' ++ msg_pend_q d' ->
    Z.testbit (mx_status (msg_ex_pool d' i)) 0 = true /\ Z.testbit (mx_status (msg_ex_pool d' i)) 1 = false;
  mv_i_held : i ∈ h' ->
    Z.testbit (mx_status (msg_ex_pool d' i)) 0 = false /\ Z.testbit (mx_status (msg_ex_pool d' i)) 1 = true;
  mv_lt : (i < MAX_PHL_MSG_NUM)%nat;
  mv_reqs : token_req_ex_pool d' = token_req_ex_pool d /\ token_req_idle_q d' = token_req_idle_q d /\
    token_req_wait_q d' = token_req_wait_q d /\ cur_cmd_req d' = cur_cmd_req d /\ token_cnt d' = token_cnt d
}.

(** The histories agree on requests, and the completions balance for slot
    [i]. *)
Definition balanced (b : Z) (tr tr' : list event) (k k' : ctx) (old new : phl_dispr_msg_ex) : Prop :=
  flat_map (ev_granted b) tr' = flat_map (ev_granted b) tr /\
  flat_map (ev_queued b) tr' = flat_map (ev_queued b) tr /\
  forall c, (count_ev (ev_accepted b c) tr' + count_occ Z.eq_dec (infl k') c +
             count_ev (ev_completed b c) tr + Nat.b2n (owes c old) =
             count_ev (ev_accepted b c) tr + count_occ Z.eq_dec (infl k) c +
             count_ev (ev_completed b c) tr' + Nat.b2n (owes c new))%nat.

Lemma outstanding_moved d d' i c :
  (forall j, j <> i -> msg_ex_pool d' j = msg_ex_pool d j) -> (i < MAX_PHL_MSG_NUM)%nat ->
  (outstanding d c + Nat.b2n (owes c (msg_ex_pool d' i)) =
   outstanding d' c + Nat.b2n (owes c (msg_ex_pool d i)))%nat.
Proof.
  intros Hp. unfold outstanding. generalize MAX_PHL_MSG_NUM. intros n Hi.
  apply (slots_with_upd (fun j => owes c (msg_ex_pool d j)) (fun j => owes c (msg_ex_pool d' j))); [|done].
  intros j Hj. by rewrite Hp.
Qed.

Lemma inv1_moved tr tr' b d d' k k' i :
  inv1 tr b d k -> moved i d d' (held k) (held k') ->
  run k' = run k -> rheld k' = rheld k -> grant k' = grant k ->
  (forall c, c ∈ infl k' -> match held k' with j :: _ => owes c (msg_ex_pool d' j) = true | [] => False end) ->
  balanced b tr tr' k k' (msg_ex_pool d i) (msg_ex_pool d' i) ->
  inv1 tr' b d' k'.
Proof.
  intros [Hd Hh] Hm E1 E2 E3 Hinf (B1 & B2 & B3). destruct Hd, Hh, Hm.
  destruct mv_reqs0 as (R1 & R2 & R3 & R4 & R5).
  assert (wait_reqs d' = wait_reqs d) as Hw by (unfold wait_reqs; by rewrite R1, R3).
  assert (cur_list d' = cur_list d) as Hc by (unfold cur_list; by rewrite R4).
  split; split; rewrite ?R1, ?R2, ?R3, ?R4, ?R5, ?Hc, ?E1, ?E2, ?E3, ?Hw; try done.
  - by rewrite mv_perm0.
  - intros j Hj. destruct (decide (j = i)) as [->|Hne]; [by apply mv_i_idle0|].
    rewrite mv_pool0 by done. by apply mi_idle0, mv_idle0.
  - intros j Hj. destruct (decide (j = i)) as [->|Hne]; [by apply mv_i_enq0|].
    rewrite mv_pool0 by done. by apply mi_enq0, mv_enq0.
  - intros j Hj. destruct (decide (j = i)) as [->|Hne]; [by apply mv_i_held0|].
    rewrite mv_pool0 by done. by apply mi_run0, mv_held0.
  - intros c. specialize (hi_compl0 c). specialize (B3 c).
    pose proof (outstanding_moved d d' i c mv_pool0 mv_lt0) as Hu. lia.
  - by rewrite B1, B2.
Qed.

Lemma balanced_same b tr k k' old new :
  infl k' = infl k -> (forall c, owes c new = owes c old) -> balanced b tr tr k k' old new.
Proof. intros E H. split_and!; try done. intros c. rewrite E, H. lia. Qed.

(** Where a slot can be. *)
Lemma inv_lt d k i : disp_inv d k -> i ∈ msg_idle_q d ++ msg_wait_q d ++ msg_pend_q d ++ held k ->
  (i < MAX_PHL_MSG_NUM)%nat.
Proof. intros [Hp] Hi. rewrite Hp in Hi. apply elem_of_seq in Hi. lia. Qed.

Lemma inv_nodup d k : disp_inv d k -> NoDup (msg_idle_q d ++ msg_wait_q d ++ msg_pend_q d ++ held k).
Proof. intros [Hp]. rewrite Hp. apply NoDup_seq. Qed.

(** A slot with ENQ or RUN is not idle. *)
Lemma busy_same d k i f :
  disp_inv d k -> (i < MAX_PHL_MSG_NUM)%nat ->
  (i ∉ msg_idle_q d) ->
  (forall n, n = 0 \/ n = 1 \/ n = 2 -> Z.testbit (mx_status (f (msg_ex_pool d i))) n =
                                      Z.testbit (mx_status (msg_ex_pool d i)) n) ->
  completion (f (msg_ex_pool d i)) = completion (msg_ex_pool d i) -> same d (mmod i f d).
Proof.
  intros Hd Hi Hn Hb Hc. apply same_mmod. split_and!; try done. intros H0 _. exfalso.
  assert (i ∈ seq 0 MAX_PHL_MSG_NUM) as Hs by (apply elem_of_seq; lia). destruct Hd.
  rewrite <- mi_perm0 in Hs. rewrite !elem_of_app in Hs. destruct Hs as [?|[?|[?|?]]]; [done|..].
  - destruct (mi_enq0 i) as [E _]; [set_solver|]. by rewrite H0, Z.bits_0 in E.
  - destruct (mi_enq0 i) as [E _]; [set_solver|]. by rewrite H0, Z.bits_0 in E.
  - destruct (mi_run0 i) as [_ E]; [done|]. by rewrite H0, Z.bits_0 in E.
Qed.

Ltac in_queues := rewrite ?elem_of_app, ?elem_of_cons, ?elem_of_nil in *; tauto.

(** Reading the pool after a change of slot [i]. *)
Ltac at_slot := cbn [msg_ex_pool mmod set_msg_ex_pool set_msg_wait_q set_msg_idle_q set_msg_pend_q
                     msg_wait_q msg_idle_q msg_pend_q];
  rewrite ?fn_lookup_insert.

Lemma pop_front_wait_msg_inv tr b d k i d' :
  inv1 tr b d k -> infl k = [] -> pop_front_wait_msg d = Some (i, d') -> inv1 tr b d' (k_held (i :: held k) k).
Proof.
  intros Hi Hk. unfold pop_front_wait_msg. destruct (msg_wait_q d) as [|j q] eqn:E; [done|]. intros [= <- <-].
  pose proof (inv_nodup d k (proj1 Hi)) as Hnd. pose proof (inv_lt d k j (proj1 Hi)) as Hlt. rewrite E in Hnd, Hlt.
  assert (j ∈ msg_idle_q d ++ (j :: q) ++ msg_pend_q d ++ held k) as Hj by in_queues.
  apply (inv1_moved tr tr b d _ k _ j Hi); try done.
  - split; at_slot; try done; rewrite ?E.
    + rewrite Permutation_app_comm. solve_Permutation.
    + intros x. in_queues.
    + intros x. cbn. in_queues.
    + intros x Hx. by rewrite fn_lookup_insert_ne.
    + intros Hx. apply list.NoDup_app in Hnd as (_ & Hnd & _). destruct (Hnd j Hx). in_queues.
    + intros Hx. apply list.NoDup_app in Hnd as (_ & _ & Hnd). cbn in Hnd. apply list.NoDup_cons in Hnd as [Hnd _].
      destruct Hnd. in_queues.
    + intros _. by bits.
    + by apply Hlt.
  - cbn. rewrite Hk. set_solver.
  - apply balanced_same; [done|]. intros c. at_slot. unfold owes. by bits.
Qed.

(** Slot [i] is at one place only. *)
Lemma inv_once d k i p q :
  disp_inv d k -> msg_idle_q d ++ msg_wait_q d ++ msg_pend_q d ++ held k ≡ₚ i :: p -> q ⊆ p -> i ∉ q.
Proof.
  intros Hd Hp Hq Hi. pose proof (inv_nodup d k Hd) as Hnd. rewrite Hp in Hnd.
  apply list.NoDup_cons in Hnd as [Hn _]. by apply Hn, Hq.
Qed.

(** A slot the thread holds goes to the end of the waiting queue, or in front
    of it. *)
Lemma wait_push_inv tr b d k i h w :
  inv1 tr b d k -> infl k = [] -> held k = i :: h -> w ≡ₚ i :: msg_wait_q d ->
  inv1 tr b (set_msg_wait_q w (mmod i (mx_set_status to_enq) d)) (k_held h k).
Proof.
  intros Hi Hk Hh Hw. pose proof (inv_lt d k i (proj1 Hi)) as Hlt. rewrite Hh in Hlt.
  pose proof (inv_once d k i (msg_idle_q d ++ msg_wait_q d ++ msg_pend_q d ++ h)) as Ho. rewrite Hh in Ho.
  apply (inv1_moved tr tr b d _ k _ i Hi); try done.
  - split; at_slot; try done; rewrite ?Hh.
    + rewrite Hw. solve_Permutation.
    + intros j. cbn. rewrite elem_of_app, Hw. in_queues.
    + cbn. intros j. in_queues.
    + intros j Hj. by rewrite fn_lookup_insert_ne.
    + intros Hx. destruct (Ho (msg_idle_q d) (proj1 Hi)); [solve_Permutation|set_solver|done].
    + intros _. by bits.
    + cbn. intros Hx. destruct (Ho h (proj1 Hi)); [solve_Permutation|set_solver|done].
    + apply Hlt. in_queues.
  - cbn. rewrite Hk. set_solver.
  - apply balanced_same; [done|]. intros c. at_slot. unfold owes. by bits.
Qed.

Lemma push_back_pending_msg_inv tr b d k i h :
  inv1 tr b d k -> infl k = [] -> held k = i :: h -> inv1 tr b (push_back_pending_msg i d) (k_held h k).
Proof.
  intros Hi Hk Hh. pose proof (inv_lt d k i (proj1 Hi)) as Hlt. rewrite Hh in Hlt.
  pose proof (inv_once d k i (msg_idle_q d ++ msg_wait_q d ++ msg_pend_q d ++ h)) as Ho. rewrite Hh in Ho.
  assert (inv1 tr b (set_msg_pend_q (msg_pend_q d ++ [i]) (mmod i (mx_set_status to_enq) d)) (k_held h k)) as H.
  { apply (inv1_moved tr tr b d _ k _ i Hi); try done.
    - split; at_slot; try done; rewrite ?Hh.
      + cbn. solve_Permutation.
      + intros j. in_queues.
      + cbn. intros j. in_queues.
      + intros j Hj. by rewrite fn_lookup_insert_ne.
      + intros Hx. destruct (Ho (msg_idle_q d) (proj1 Hi)); [solve_Permutation|set_solver|done].
      + intros _. by bits.
      + cbn. intros Hx. destruct (Ho h (proj1 Hi)); [solve_Permutation|set_solver|done].
      + apply Hlt. in_queues.
    - cbn. rewrite Hk. set_solver.
    - apply balanced_same; [done|]. intros c. at_slot. unfold owes. by bits. }
  unfold push_back_pending_msg. cbv zeta. destruct (TEST_STATUS_FLAG _ _); [|exact H].
  revert H. apply inv1_same. same_trivial.
Qed.

Lemma unpend_inv tr b d k i p w :
  inv1 tr b d k -> msg_pend_q d = i :: p -> w ≡ₚ i :: msg_wait_q d ->
  inv1 tr b (set_msg_wait_q w (mmod i (mx_set_status to_enq) (set_msg_pend_q p d))) k.
Proof.
  intros Hi Hp Hw. pose proof (inv_lt d k i (proj1 Hi)) as Hlt. rewrite Hp in Hlt.
  pose proof (inv_once d k i (msg_idle_q d ++ msg_wait_q d ++ p ++ held k)) as Ho. rewrite Hp in Ho.
  apply (inv1_moved tr tr b d _ k _ i Hi); try done.
  - split; at_slot; try done; rewrite ?Hp.
    + rewrite Hw. solve_Permutation.
    + intros j. cbn. rewrite elem_of_app, Hw. in_queues.
    + intros j Hj. by rewrite fn_lookup_insert_ne.
    + intros Hx. destruct (Ho (msg_idle_q d) (proj1 Hi)); [solve_Permutation|set_solver|done].
    + intros _. by bits.
    + intros Hx. destruct (Ho (held k) (proj1 Hi)); [solve_Permutation|set_solver|done].
    + apply Hlt. in_queues.
  - intros c Hc. pose proof (mi_infl d k (proj1 Hi) c Hc) as Hm. destruct (held k) as [|j h] eqn:Eh; [done|].
    at_slot. rewrite fn_lookup_insert_ne; [done|]. intros ->.
    destruct (Ho (j :: h) (proj1 Hi)); [solve_Permutation|set_solver|set_solver].
  - apply balanced_same; [done|]. intros c. at_slot. unfold owes. by bits.
Qed.

(** What [reset_msg] does to the slot and the idle queue. *)
Definition cleared : phl_dispr_msg_ex -> phl_dispr_msg_ex :=
  fun ex => mx_set_msg (msg_set_id (fun _ => 0)) (mx_set_status (fun _ => 0) ex).

Lemma reset_msg_same i d : same (set_msg_idle_q (msg_idle_q d ++ [i]) (mmod i cleared d)) (reset_msg i d).
Proof.
  unfold reset_msg. cbv zeta. repeat case_match; split_and!; try reflexivity;
    intros j; cbn; try apply rx_same_refl; (destruct (decide (i = j)) as [->|Hne];
      [rewrite !fn_lookup_insert|rewrite !fn_lookup_insert_ne by done]; apply mx_same_refl).
Qed.

(** A slot that owes no completion goes back to the idle queue. *)
Lemma reset_msg_inv tr b d k i h :
  inv1 tr b d k -> infl k = [] -> held k = i :: h -> (forall c, owes c (msg_ex_pool d i) = false) ->
  inv1 tr b (reset_msg i d) (k_held h k).
Proof.
  intros Hi Hk Hh Ho'. pose proof (inv_lt d k i (proj1 Hi)) as Hlt. rewrite Hh in Hlt.
  pose proof (inv_once d k i (msg_idle_q d ++ msg_wait_q d ++ msg_pend_q d ++ h)) as Ho. rewrite Hh in Ho.
  assert (inv1 tr b (set_msg_idle_q (msg_idle_q d ++ [i])
            (mmod i cleared d)) (k_held h k)) as H.
  { apply (inv1_moved tr tr b d _ k _ i Hi); try done.
    - split; at_slot; try done; rewrite ?Hh.
      + cbn. solve_Permutation.
      + intros j. in_queues.
      + cbn. intros j. in_queues.
      + intros j Hj. by rewrite fn_lookup_insert_ne.
      + intros Hx. destruct (Ho (msg_wait_q d ++ msg_pend_q d) (proj1 Hi)); [solve_Permutation|set_solver|done].
      + cbn. intros Hx. destruct (Ho h (proj1 Hi)); [solve_Permutation|set_solver|done].
      + apply Hlt. in_queues.
    - cbn. rewrite Hk. set_solver.
    - apply balanced_same; [done|]. intros c. at_slot. rewrite Ho'. unfold owes, cleared. by bits. }
  revert H. apply inv1_same, reset_msg_same.
Qed.

Lemma count_ev_snoc f tr x : count_ev f (tr ++ [x]) = (count_ev f tr + Nat.b2n (f x))%nat.
Proof. unfold count_ev. rewrite filter_app, length_app. simpl. by destruct (f x). Qed.

Lemma flat_map_snoc {A B} (f : A -> list B) l x : flat_map f (l ++ [x]) = flat_map f l ++ f x.
Proof. rewrite flat_map_app. simpl. by rewrite app_nil_r. Qed.

(** A message is accepted into the first idle slot. *)
Lemma accept_inv tr b d k i q w ex :
  inv1 tr b d k -> msg_idle_q d = i :: q -> w ≡ₚ i :: msg_wait_q d ->
  Z.testbit (mx_status ex) 0 = true -> Z.testbit (mx_status ex) 1 = false ->
  (forall c, owes c ex = bool_decide (completion ex = Some c)) ->
  inv1 (tr ++ [Accepted b i (completion ex)]) b (set_msg_wait_q w (mmod i (fun _ => ex) (set_msg_idle_q q d))) k.
Proof.
  intros Hi Hq Hw B0 B1 Ho. pose proof (inv_lt d k i (proj1 Hi)) as Hlt. rewrite Hq in Hlt.
  pose proof (inv_once d k i (q ++ msg_wait_q d ++ msg_pend_q d ++ held k)) as Hon. rewrite Hq in Hon.
  assert (forall c, owes c (msg_ex_pool d i) = false) as Hold.
  { intros c. destruct (mi_idle d k (proj1 Hi) i) as [E _]; [rewrite Hq; set_solver|].
    unfold owes. by rewrite E, Z.bits_0. }
  apply (inv1_moved tr _ b d _ k _ i Hi); try done.
  - split; at_slot; try done; rewrite ?Hq.
    + rewrite Hw. solve_Permutation.
    + intros j. in_queues.
    + intros j. cbn. rewrite elem_of_app, Hw. in_queues.
    + intros j Hj. by rewrite fn_lookup_insert_ne.
    + intros Hx. destruct (Hon q (proj1 Hi)); [solve_Permutation|set_solver|done].
    + intros Hx. destruct (Hon (held k) (proj1 Hi)); [solve_Permutation|set_solver|done].
    + apply Hlt. in_queues.
  - intros c Hc. pose proof (mi_infl d k (proj1 Hi) c Hc) as Hm. destruct (held k) as [|j h] eqn:Eh; [done|].
    at_slot. rewrite fn_lookup_insert_ne; [done|]. intros ->.
    destruct (Hon (j :: h) (proj1 Hi)); [solve_Permutation|set_solver|set_solver].
  - split_and!; [by rewrite flat_map_snoc, app_nil_r..|]. intros c. at_slot.
    rewrite !count_ev_snoc, Hold, Ho. cbn [ev_accepted ev_completed].
    destruct (completion ex) as [c'|]; [|rewrite bool_decide_eq_false_2 by done; simpl; lia].
    rewrite Z.eqb_refl. cbn [andb]. destruct (Z.eqb_spec c' c) as [->|Hne]; simpl.
    + rewrite bool_decide_eq_true_2 by done. simpl. lia.
    + rewrite bool_decide_eq_false_2 by congruence. simpl. lia.
Qed.

(** A message is refused after a slot was taken: the slot goes to the end. *)
Lemma reject_inv tr b d k i q ex :
  inv1 tr b d k -> msg_idle_q d = i :: q ->
  inv1 tr b (reset_msg i (mmod i (fun _ => ex) (set_msg_idle_q q d))) k.
Proof.
  intros Hi Hq. pose proof (inv_lt d k i (proj1 Hi)) as Hlt. rewrite Hq in Hlt.
  pose proof (inv_once d k i (q ++ msg_wait_q d ++ msg_pend_q d ++ held k)) as Hon. rewrite Hq in Hon.
  set (d0 := mmod i (fun _ => ex) (set_msg_idle_q q d)).
  assert (inv1 tr b (set_msg_idle_q (q ++ [i])
            (mmod i cleared d0)) k) as H.
  { apply (inv1_moved tr _ b d _ k _ i Hi); try done.
    - split; at_slot; try done; rewrite ?Hq.
      + cbn. solve_Permutation.
      + intros j. in_queues.
      + intros j Hj. unfold d0. at_slot. by rewrite !fn_lookup_insert_ne.
      + intros Hx. destruct (Hon (msg_wait_q d ++ msg_pend_q d) (proj1 Hi)); [solve_Permutation|set_solver|done].
      + intros Hx. destruct (Hon (held k) (proj1 Hi)); [solve_Permutation|set_solver|done].
      + apply Hlt. in_queues.
    - intros c Hc. pose proof (mi_infl d k (proj1 Hi) c Hc) as Hm. destruct (held k) as [|j h] eqn:Eh; [done|].
      unfold d0. at_slot. rewrite !fn_lookup_insert_ne; [done|..]; intros ->;
        (destruct (Hon (j :: h) (proj1 Hi)); [solve_Permutation|set_solver|set_solver]).
    - apply balanced_same; [done|]. intros c. at_slot. unfold owes, cleared. bits.
      destruct (mi_idle d k (proj1 Hi) i) as [E _]; [rewrite Hq; set_solver|]. by rewrite E, Z.bits_0. }
  revert H. apply inv1_same, reset_msg_same.
Qed.

(** ** Moving one request *)

Record rmoved (i : nat) (d d' : cmd_dispatcher) (k k' : ctx) : Prop := {
  rv_perm : token_req_idle_q d' ++ token_req_wait_q d' ++ cur_list d' ++ rheld k' ≡ₚ
            token_req_idle_q d ++ token_req_wait_q d ++ cur_list d ++ rheld k;
  rv_idle : forall j, j ∈ token_req_idle_q d' -> j <> i -> j ∈ token_req_idle_q d;
  rv_wait : forall j, j ∈ token_req_wait_q d' -> j <> i -> j ∈ token_req_wait_q d;
  rv_cur : forall j, cur_cmd_req d' = Some j -> j <> i -> cur_cmd_req d = Some j /\ run k' = run k;
  rv_id : forall j, j ∈ token_req_wait_q d' ++ cur_list d' ++ rheld k' -> j <> i ->
    j ∈ token_req_wait_q d ++ cur_list d ++ rheld k;
  rv_pool : forall j, j <> i -> token_req_ex_pool d' j = token_req_ex_pool d j;
  rv_i_idle : i ∈ token_req_idle_q d' ->
    Z.testbit (rx_status (token_req_ex_pool d' i)) 0 = false /\ Z.testbit (rx_status (token_req_ex_pool d' i)) 1 = false;
  rv_i_wait : i ∈ token_req_wait_q d' ->
    Z.testbit (rx_status (token_req_ex_pool d' i)) 0 = true /\ Z.testbit (rx_status (token_req_ex_pool d' i)) 1 = false;
  rv_i_cur : cur_cmd_req d' = Some i ->
    Z.testbit (rx_status (token_req_ex_pool d' i)) 0 = false /\ Z.testbit (rx_status (token_req_ex_pool d' i)) 1 = run k';
  rv_i_id : i ∈ token_req_wait_q d' ++ cur_list d' ++ rheld k' ->
    PHL_FG_MDL_START <= rq_module_id (rx_req (token_req_ex_pool d' i));
  rv_cnt : token_cnt d' = Z.of_nat (length (cur_list d'));
  rv_grant : forall j q, (j, q) ∈ grant k' ->
    Z.testbit (rx_status (token_req_ex_pool d' j)) 0 = false /\ rx_req (token_req_ex_pool d' j) = q /\ j ∈ rheld k';
  rv_msgs : msg_ex_pool d' = msg_ex_pool d /\ msg_idle_q d' = msg_idle_q d /\ msg_wait_q d' = msg_wait_q d /\
    msg_pend_q d' = msg_pend_q d /\ held k' = held k /\ infl k' = infl k
}.

Lemma inv1_rmoved tr tr' b d d' k k' i :
  inv1 tr b d k -> rmoved i d d' k k' ->
  (forall c, count_ev (ev_accepted b c) tr' = count_ev (ev_accepted b c) tr /\
             count_ev (ev_completed b c) tr' = count_ev (ev_completed b c) tr) ->
  sublist (flat_map (ev_granted b) tr' ++ grant k' ++ wait_reqs d') (flat_map (ev_queued b) tr') ->
  inv1 tr' b d' k'.
Proof.
  intros [Hd Hh] Hm Hc Hf. destruct Hd, Hh, Hm. destruct rv_msgs0 as (R1 & R2 & R3 & R4 & R5 & R6).
  split; split; rewrite ?R1, ?R2, ?R3, ?R4, ?R5, ?R6; try done.
  - by rewrite rv_perm0.
  - intros j Hj. destruct (decide (j = i)) as [->|Hne]; [by apply rv_i_idle0|].
    rewrite rv_pool0 by done. by apply ri_idle0, rv_idle0.
  - intros j Hj. destruct (decide (j = i)) as [->|Hne]; [by apply rv_i_wait0|].
    rewrite rv_pool0 by done. by apply ri_wait0, rv_wait0.
  - intros j Hj. destruct (decide (j = i)) as [->|Hne]; [by apply rv_i_cur0|].
    rewrite rv_pool0 by done. destruct (rv_cur0 j Hj Hne) as [? ->]. by apply ri_cur0.
  - intros j Hj. destruct (decide (j = i)) as [->|Hne]; [by apply rv_i_id0|].
    rewrite rv_pool0 by done. by apply ri_id0, rv_id0.
  - intros c. destruct (Hc c) as [-> ->]. rewrite hi_compl0. unfold outstanding. by rewrite R1.
Qed.

Lemma inv_rnodup d k : disp_inv d k -> NoDup (token_req_idle_q d ++ token_req_wait_q d ++ cur_list d ++ rheld k).
Proof. intros []. rewrite ri_perm0. apply NoDup_seq. Qed.

Lemma inv_ronce d k i p q :
  disp_inv d k -> token_req_idle_q d ++ token_req_wait_q d ++ cur_list d ++ rheld k ≡ₚ i :: p -> q ⊆ p -> i ∉ q.
Proof.
  intros Hd Hp Hq Hi. pose proof (inv_rnodup d k Hd) as Hnd. rewrite Hp in Hnd.
  apply list.NoDup_cons in Hnd as [Hn _]. by apply Hn, Hq.
Qed.

Ltac at_req := cbn [token_req_ex_pool rmod set_token_req_ex_pool set_token_req_idle_q set_token_req_wait_q
                    set_cur_cmd_req set_token_cnt set_pending_evt_id SET_CUR_PENDING_EVT mdl_info_at set_damaged
                    token_req_idle_q token_req_wait_q cur_cmd_req token_cnt];
  rewrite ?fn_lookup_insert.

(** The requests other than [i] read the same. *)
Lemma wait_reqs_ne (f g : nat -> phl_cmd_token_req_ex) (l : list nat) i :
  i ∉ l -> (forall j, j <> i -> f j = g j) ->
  map (fun j => (j, rx_req (f j))) l = map (fun j => (j, rx_req (g j))) l.
Proof. intros Hn H. apply map_ext_in. intros j Hj. rewrite H; [done|]. intros ->. by apply Hn, list_elem_of_In. Qed.

Lemma queue_req_inv tr b d k i q req d1 :
  inv1 tr b d k -> token_req_idle_q d = i :: q -> chk_cmd_req_ops req = true ->
  pop_front_idle_req d = Some (i, d1) ->
  inv1 (tr ++ [Queued b i req]) b
    (push_back_wait_req i (rmod i (fun r => ReqEx (rx_status r) req (add_req_info r) (free_req_info r)) d1)) k.
Proof.
  intros Hi Hq Hc. unfold pop_front_idle_req. rewrite Hq. intros [= <-].
  pose proof (inv_ronce d k i (q ++ token_req_wait_q d ++ cur_list d ++ rheld k)) as Ho. rewrite Hq in Ho.
  unfold push_back_wait_req.
  apply (inv1_rmoved tr _ b d _ k k i Hi).
  - split; unfold cur_list; at_req; cbn [length]; try done; rewrite ?Hq.
    + solve_Permutation.
    + intros j. in_queues.
    + intros j. in_queues.
    + intros j. cbn. in_queues.
    + intros j Hj. by rewrite !fn_lookup_insert_ne.
    + intros Hx. destruct (Ho q (proj1 Hi)); [solve_Permutation|set_solver|done].
    + intros Hx. exfalso. destruct (Ho (cur_list d) (proj1 Hi)); [solve_Permutation|set_solver|].
      unfold cur_list. rewrite Hx. set_solver.
    + intros _. cbn. unfold chk_cmd_req_ops in Hc. destruct (Z.ltb_spec (rq_module_id req) PHL_FG_MDL_START); [done|lia].
    + apply (ri_cnt d k (proj1 Hi)).
    + intros j r Hj. destruct (ri_grant d k (proj1 Hi) j r Hj) as (G1 & G2 & G3).
      assert (j <> i).
      { intros ->. destruct (Ho (rheld k) (proj1 Hi)); [solve_Permutation|set_solver|done]. }
      by rewrite !fn_lookup_insert_ne.
  - intros c. rewrite !count_ev_snoc. simpl. lia.
  - rewrite !flat_map_snoc. cbn [ev_granted ev_queued]. rewrite Z.eqb_refl, app_nil_r.
    pose proof (hi_fifo tr b d k (proj2 Hi)) as Hf.
    unfold wait_reqs in *. at_req. rewrite map_app, !app_assoc. rewrite app_assoc in Hf. cbn [map]. at_req.
    apply sublist_app; [|done].
    erewrite (wait_reqs_ne _ (token_req_ex_pool d)); [exact Hf|..].
    + apply (Ho (token_req_wait_q d) (proj1 Hi)); [solve_Permutation|set_solver].
    + intros j Hj. by rewrite !fn_lookup_insert_ne.
Qed.

Definition k_req (rn : bool) (rh : list nat) (g : list (nat * phl_cmd_token_req)) (k : ctx) : ctx :=
  Ctx (held k) rn rh g (infl k).

Lemma pop_front_wait_req_inv tr b d k i d' :
  inv1 tr b d k -> rheld k = [] -> grant k = [] -> pop_front_wait_req d = Some (i, d') ->
  inv1 tr b d' (k_req (run k) [i] [(i, rx_req (token_req_ex_pool d i))] k).
Proof.
  intros Hi Hh Hg. unfold pop_front_wait_req. destruct (token_req_wait_q d) as [|j q] eqn:Hq; [done|].
  intros [= <- <-].
  pose proof (inv_ronce d k j (token_req_idle_q d ++ q ++ cur_list d ++ [])) as Ho. rewrite Hq, Hh in Ho.
  apply (inv1_rmoved tr _ b d _ k _ j Hi); [|done|].
  - split; unfold cur_list; at_req; cbn [rheld run grant k_req length]; try done; rewrite ?Hq, ?Hh.
    + solve_Permutation.
    + intros x. in_queues.
    + intros x. in_queues.
    + intros x Hx. by rewrite !fn_lookup_insert_ne.
    + intros Hx. destruct (Ho (token_req_idle_q d) (proj1 Hi)); [solve_Permutation|set_solver|done].
    + intros Hx. destruct (Ho q (proj1 Hi)); [solve_Permutation|set_solver|done].
    + intros Hx. exfalso. destruct (Ho (cur_list d) (proj1 Hi)); [solve_Permutation|set_solver|].
      unfold cur_list. rewrite Hx. set_solver.
    + intros _. apply (ri_id d k (proj1 Hi)). rewrite Hq. set_solver.
    + apply (ri_cnt d k (proj1 Hi)).
    + intros x r Hx. apply list_elem_of_singleton in Hx as [= -> ->]. at_req. bits. set_solver.
  - pose proof (hi_fifo tr b d k (proj2 Hi)) as Hf. rewrite Hg in Hf. unfold wait_reqs in *. at_req.
    rewrite Hq in Hf. cbn [map app grant k_req] in *.
    erewrite (wait_reqs_ne _ (token_req_ex_pool d)); [exact Hf|..].
    + apply (Ho q (proj1 Hi)); [solve_Permutation|set_solver].
    + intros x Hx. by rewrite !fn_lookup_insert_ne.
Qed.

(** The request taken from the queue gets the token. *)
Definition take_token (r : nat) (d : cmd_dispatcher) : cmd_dispatcher :=
  let d := rmod r (rx_set_status (fun s => clrf REQ_STATUS_PREPARE (setf REQ_STATUS_RUN s))) d in
  set_token_cnt (token_cnt d + 1) (set_cur_cmd_req (Some r) d).

Lemma take_token_inv tr b d k r q :
  inv1 tr b d k -> cur_cmd_req d = None -> rheld k = [r] -> grant k = [(r, q)] ->
  inv1 (tr ++ [Called (CbAcquired b r q)]) b (take_token r d) (k_req true [] [] k).
Proof.
  intros Hi Hn Hh Hg.
  pose proof (inv_ronce d k r (token_req_idle_q d ++ token_req_wait_q d)) as Ho. unfold cur_list in Ho.
  rewrite Hn, Hh in Ho. destruct (ri_grant d k (proj1 Hi) r q) as (G1 & G2 & _); [rewrite Hg; set_solver|].
  unfold take_token. cbv zeta. apply (inv1_rmoved tr _ b d _ k _ r Hi).
  - split; unfold cur_list; at_req; cbn [rheld run grant k_req length]; try done; rewrite ?Hn, ?Hh.
    + solve_Permutation.
    + intros j. congruence.
    + intros j. cbn. in_queues.
    + intros x Hx. by rewrite !fn_lookup_insert_ne.
    + intros Hx. destruct (Ho (token_req_idle_q d) (proj1 Hi)); [solve_Permutation|set_solver|done].
    + intros Hx. destruct (Ho (token_req_wait_q d) (proj1 Hi)); [solve_Permutation|set_solver|done].
    + intros _. bits. by rewrite G1.
    + intros _. apply (ri_id d k (proj1 Hi)). rewrite Hh. set_solver.
    + pose proof (ri_cnt d k (proj1 Hi)) as Hc. unfold cur_list in Hc. rewrite Hn in Hc. cbn in *. lia.
    + set_solver.
  - intros c. rewrite !count_ev_snoc. simpl. lia.
  - pose proof (hi_fifo tr b d k (proj2 Hi)) as Hf. rewrite Hg in Hf. rewrite !flat_map_snoc.
    cbn [ev_granted ev_queued grant k_req]. rewrite Z.eqb_refl, !app_nil_r, <- app_assoc. cbn [app] in *.
    unfold wait_reqs in *. at_req. erewrite (wait_reqs_ne _ (token_req_ex_pool d)); [exact Hf|..].
    + apply (Ho (token_req_wait_q d) (proj1 Hi)); [solve_Permutation|set_solver].
    + intros x Hx. by rewrite !fn_lookup_insert_ne.
Qed.

(** The current request no longer runs. *)
Lemma stop_run_inv tr b d k r :
  inv1 tr b d k -> cur_cmd_req d = Some r -> grant k = [] ->
  inv1 tr b (rmod r (rx_set_status (clrf REQ_STATUS_RUN)) d) (k_req false (rheld k) [] k).
Proof.
  intros Hi Hc Hg. pose proof (inv_ronce d k r (token_req_idle_q d ++ token_req_wait_q d ++ rheld k)) as Ho.
  unfold cur_list in Ho. rewrite Hc in Ho. destruct (ri_cur d k (proj1 Hi) r Hc) as [C1 C2].
  apply (inv1_rmoved tr _ b d _ k _ r Hi); [|done|].
  - split; unfold cur_list; at_req; cbn [rheld run grant k_req length]; try done; rewrite ?Hc.
    + intros j [= <-]. congruence.
    + intros x Hx. by rewrite !fn_lookup_insert_ne.
    + intros Hx. destruct (Ho (token_req_idle_q d) (proj1 Hi)); [solve_Permutation|set_solver|done].
    + intros Hx. destruct (Ho (token_req_wait_q d) (proj1 Hi)); [solve_Permutation|set_solver|done].
    + intros _. bits. by rewrite C1.
    + intros _. apply (ri_id d k (proj1 Hi)). unfold cur_list. rewrite Hc. set_solver.
    + pose proof (ri_cnt d k (proj1 Hi)) as Hn. unfold cur_list in Hn. by rewrite Hc in Hn.
    + set_solver.
  - pose proof (hi_fifo tr b d k (proj2 Hi)) as Hf. rewrite Hg in Hf. cbn [grant k_req app] in *.
    unfold wait_reqs in *. at_req. erewrite (wait_reqs_ne _ (token_req_ex_pool d)); [exact Hf|..].
    + apply (Ho (token_req_wait_q d) (proj1 Hi)); [solve_Permutation|set_solver].
    + intros x Hx. by rewrite !fn_lookup_insert_ne.
Qed.

(** The token is given back. *)
Lemma drop_token_inv tr b d k r :
  inv1 tr b d k -> cur_cmd_req d = Some r -> grant k = [] ->
  inv1 tr b (set_cur_cmd_req None (set_token_cnt (token_cnt (push_back_idle_req r d) - 1) (push_back_idle_req r d)))
    (k_req true (rheld k) [] k).
Proof.
  intros Hi Hc Hg. pose proof (inv_ronce d k r (token_req_idle_q d ++ token_req_wait_q d ++ rheld k)) as Ho.
  unfold cur_list in Ho. rewrite Hc in Ho. unfold push_back_idle_req. cbv zeta.
  apply (inv1_rmoved tr _ b d _ k _ r Hi); [|done|].
  - split; unfold cur_list; at_req; cbn [rheld run grant k_req length app]; try done; rewrite ?Hc.
    + solve_Permutation.
    + intros j. in_queues.
    + intros j. in_queues.
    + intros x Hx. by rewrite !fn_lookup_insert_ne.
    + intros Hx. destruct (Ho (token_req_wait_q d) (proj1 Hi)); [solve_Permutation|set_solver|done].
    + intros Hx. destruct (Ho (token_req_wait_q d ++ rheld k) (proj1 Hi)); [solve_Permutation|set_solver|done].
    + pose proof (ri_cnt d k (proj1 Hi)) as Hn. unfold cur_list in Hn. rewrite Hc in Hn. cbn in *. lia.
    + set_solver.
  - pose proof (hi_fifo tr b d k (proj2 Hi)) as Hf. rewrite Hg in Hf. cbn [grant k_req app] in *.
    unfold wait_reqs in *. at_req. erewrite (wait_reqs_ne _ (token_req_ex_pool d)); [exact Hf|..].
    + apply (Ho (token_req_wait_q d) (proj1 Hi)); [solve_Permutation|set_solver].
    + intros x Hx. by rewrite !fn_lookup_insert_ne.
Qed.

(** A request the thread holds goes back to the idle queue. *)
Lemma push_back_idle_req_inv tr b d k r :
  inv1 tr b d k -> rheld k = [r] -> inv1 tr b (push_back_idle_req r d) (k_req (run k) [] [] k).
Proof.
  intros Hi Hh. pose proof (inv_ronce d k r (token_req_idle_q d ++ token_req_wait_q d ++ cur_list d)) as Ho.
  rewrite Hh in Ho. unfold push_back_idle_req. cbv zeta. apply (inv1_rmoved tr _ b d _ k _ r Hi); [|done|].
  - split; unfold cur_list; at_req; cbn [rheld run grant k_req length app]; try done; rewrite ?Hh.
    + solve_Permutation.
    + intros j. in_queues.
    + intros j. in_queues.
    + intros x Hx. by rewrite !fn_lookup_insert_ne.
    + intros Hx. destruct (Ho (token_req_wait_q d) (proj1 Hi)); [solve_Permutation|set_solver|done].
    + intros Hx. exfalso. destruct (Ho (cur_list d) (proj1 Hi)); [solve_Permutation|set_solver|].
      unfold cur_list. rewrite Hx. set_solver.
    + intros Hx. destruct (Ho (token_req_wait_q d ++ cur_list d) (proj1 Hi)); [solve_Permutation|set_solver|].
      revert Hx. unfold cur_list. in_queues.
    + apply (ri_cnt d k (proj1 Hi)).
    + set_solver.
  - pose proof (hi_fifo tr b d k (proj2 Hi)) as Hf. cbn [grant k_req app] in *.
    unfold wait_reqs in *. at_req. erewrite (wait_reqs_ne _ (token_req_ex_pool d)).
    + etrans; [|exact Hf]. apply sublist_app; [done|]. by apply sublist_inserts_l.
    + apply (Ho (token_req_wait_q d) (proj1 Hi)); [solve_Permutation|set_solver].
    + intros x Hx. by rewrite !fn_lookup_insert_ne.
Qed.

(** A waiting request is taken out of the queue to be cancelled. *)
Lemma del_wait_req_inv tr b d k i :
  inv1 tr b d k -> i ∈ token_req_wait_q d -> rheld k = [] -> grant k = [] ->
  inv1 tr b (del_wait_req i d) (k_req (run k) [i] [] k).
Proof.
  intros Hi Hin Hh Hg. apply list_elem_of_split in Hin as (l1 & l2 & Hq).
  pose proof (inv_ronce d k i (token_req_idle_q d ++ (l1 ++ l2) ++ cur_list d)) as Ho. rewrite Hq, Hh in Ho.
  assert (i ∉ l1 ++ l2) as Hni.
  { apply (Ho (l1 ++ l2) (proj1 Hi)); [solve_Permutation|set_solver]. }
  assert (List.filter (fun j => negb (j =? i)%nat) (token_req_wait_q d) = l1 ++ l2) as Hf.
  { assert (forall l, i ∉ l -> List.filter (fun j => negb (j =? i)%nat) l = l) as Hid.
    { induction l as [|x l IH]; intros Hx; [done|]. simpl. rewrite (proj2 (Nat.eqb_neq x i)) by set_solver.
      simpl. f_equal. apply IH. set_solver. }
    rewrite Hq, filter_app. simpl. rewrite Nat.eqb_refl. simpl. rewrite !Hid by set_solver. done. }
  unfold del_wait_req. rewrite Hf. apply (inv1_rmoved tr _ b d _ k _ i Hi); [|done|].
  - split; unfold cur_list; at_req; cbn [rheld run grant k_req length app]; try done; rewrite ?Hh, ?Hq.
    + solve_Permutation.
    + intros j. in_queues.
    + intros j. in_queues.
    + intros Hx. destruct (Ho (token_req_idle_q d) (proj1 Hi)); [solve_Permutation|set_solver|done].
    + intros Hx. exfalso. destruct (Ho (cur_list d) (proj1 Hi)); [solve_Permutation|set_solver|].
      unfold cur_list. rewrite Hx. set_solver.
    + intros _. apply (ri_id d k (proj1 Hi)). rewrite Hq. set_solver.
    + apply (ri_cnt d k (proj1 Hi)).
    + set_solver.
  - pose proof (hi_fifo tr b d k (proj2 Hi)) as Hs. rewrite Hg in Hs. cbn [grant k_req app] in *.
    unfold wait_reqs in *. at_req. rewrite Hq in Hs. etrans; [|exact Hs].
    rewrite !map_app. cbn [map]. apply sublist_app; [done|]. apply sublist_app; [done|]. by constructor.
Qed.
