(* ===== verification/DisprRun.v ===== *)
(** * The operations of the command dispatcher keep its invariant

    The invariant of DisprInv, for the engine and any number of bands: the
    entry points other threads and callbacks use, the token operations, the
    delivery of messages and the turns of the shared thread. *)
From Stdlib Require Import ZArith Lia Bool List Permutation.
From stdpp Require Import base tactics list numbers sets functions.
From S2P Require Import Prelude PhlList PhlUtil Dispr DisprInv.

(** ** What the entry points leave alone *)

(** Modules, the current request and the flags up to CTRL_PRESENT. *)
Definition dframe (d d' : cmd_dispatcher) : Prop :=
  module_q d' = module_q d /\ bitmap d' = bitmap d /\ basemap d' = basemap d /\ controller d' = controller d /\
  cur_cmd_req d' = cur_cmd_req d /\ token_cnt d' = token_cnt d /\
  forall n, 0 <= n <= 4 -> Z.testbit (dp_status d') n = Z.testbit (dp_status d) n.

(** The number of bands and the status of the engine. *)
Definition eng_head (e : phl_cmd_dispatch_engine) : Z * Z := (phy_num e, eng_status e).

Definition frame (e e' : phl_cmd_dispatch_engine) : Prop :=
  eng_head e' = eng_head e /\ forall b, dframe (dispatcher e b) (dispatcher e' b).

(** A step other threads may take at any time. *)
Definition safe (e e' : phl_cmd_dispatch_engine) : Prop :=
  frame e e' /\ forall L K, eng_inv L e K -> eng_inv L e' K.

Lemma dframe_refl d : dframe d d.
Proof. by split_and!. Qed.

Lemma safe_refl e : safe e e.
Proof. split; [|auto]. split_and!; try done; intros b; apply dframe_refl. Qed.

#[export] Instance safe_preorder : PreOrder safe.
Proof.
  split; [exact safe_refl|]. intros e1 e2 e3 [(P1 & F1) I1] [(P2 & F2) I2].
  split; [split; [congruence|]|by auto]. intros b.
  destruct (F1 b) as (A1 & A2 & A3 & A4 & A5 & A6 & A7), (F2 b) as (B1 & B2 & B3 & B4 & B5 & B6 & B7).
  split_and!; try congruence. intros n Hn. by rewrite B7, A7.
Qed.

Lemma dispatcher_dmod b f e b' :
  dispatcher (dmod b f e) b' = if decide (b = b') then f (dispatcher e b) else dispatcher e b'.
Proof. unfold dmod. cbn. case_decide as H; [subst; by rewrite fn_lookup_insert|by rewrite fn_lookup_insert_ne]. Qed.

Lemma dispatcher_dmod_eq b f e : dispatcher (dmod b f e) b = f (dispatcher e b).
Proof. rewrite dispatcher_dmod. by rewrite decide_True. Qed.

Lemma dispatcher_dmod_ne b f e b' : b' <> b -> dispatcher (dmod b f e) b' = dispatcher e b'.
Proof. intros. rewrite dispatcher_dmod. by rewrite decide_False. Qed.

Lemma safe_dmod b f e :
  dframe (dispatcher e b) (f (dispatcher e b)) ->
  (forall k, inv1 (trace e) b (dispatcher e b) k -> inv1 (trace e) b (f (dispatcher e b)) k) -> safe e (dmod b f e).
Proof.
  intros Hf Hi. split.
  - split_and!; try done. intros b'. rewrite dispatcher_dmod. case_decide; [by subst|apply dframe_refl].
  - intros L K H b' Hb'. rewrite dispatcher_dmod. case_decide; [subst; apply Hi|]; by apply H.
Qed.

Lemma safe_same b f e :
  dframe (dispatcher e b) (f (dispatcher e b)) -> same (dispatcher e b) (f (dispatcher e b)) -> safe e (dmod b f e).
Proof. intros Hf Hs. apply safe_dmod; [done|]. intros k. by apply inv1_same. Qed.

Lemma safe_notify e : safe e (notify_dispr_thread e).
Proof. split; [|intros L K H; exact H]. split_and!; try done; intros b; apply dframe_refl. Qed.

#[export] Hint Resolve safe_notify : dispr.

(** Flags of the dispatcher above CTRL_PRESENT. *)
Lemma dframe_flag n (f : Z -> Z -> Z) d :
  (f = setf \/ f = clrf) -> 4 < n -> dframe d (dp_flag (f (BIT n)) d).
Proof.
  intros Hf Hn. split_and!; try done. intros m Hm. by apply (testbit_flag_above 5); [|lia..].
Qed.

Lemma safe_setf b n e : 4 < n -> safe e (dmod b (dp_flag (setf (BIT n))) e).
Proof. intros. apply safe_same; [apply (dframe_flag n setf); auto|apply same_dp_flag]. Qed.

Lemma safe_clrf b n e : 4 < n -> safe e (dmod b (dp_flag (clrf (BIT n))) e).
Proof. intros. apply safe_same; [apply (dframe_flag n clrf); auto|apply same_dp_flag]. Qed.

Ltac flag_step := first [apply safe_setf; lia | apply safe_clrf; lia].

(** ** Token operations and the other band *)

Lemma dframe_set_op r v d : dframe d (set_op r v d).
Proof. by destruct r; split_and!. Qed.

Lemma push_op_safe b r t v e : safe e (push_back_token_op_info b r t v e).2.
Proof.
  unfold push_back_token_op_info. case_match; [done|]. cbn [snd].
  etrans; [|apply safe_notify]. apply safe_same.
  - destruct (dframe_set_op r (OpInfo true t v) (dispatcher e b)) as (A1 & A2 & A3 & A4 & A5 & A6 & A7).
    by split_and!.
  - eapply same_trans; [apply same_set_op|apply same_op_q].
Qed.

Lemma renew_safe b e : safe e (renew b e).
Proof. apply push_op_safe. Qed.

Lemma with_dispr_safe b e f : (forall e, safe e (f e)) -> safe e (with_dispr b e e f).
Proof. intros H. unfold with_dispr. case_match; try done. Qed.

Lemma clearance_acquire_safe b e : safe e (phl_disp_eng_clearance_acquire b e).
Proof. apply with_dispr_safe. intros e'. flag_step. Qed.

Lemma clearance_release_safe b e : safe e (phl_disp_eng_clearance_release b e).
Proof. apply with_dispr_safe. intros e'. unfold dispr_clearance_release. etrans; [|apply renew_safe]. flag_step. Qed.

Lemma exclusive_ready_safe b e : safe e (phl_disp_eng_exclusive_ready b e).
Proof.
  apply with_dispr_safe. intros e'. unfold dispr_exclusive_ready. case_match; [|done].
  etrans; [|apply renew_safe]. flag_step.
Qed.

Lemma cmd_token_complete_safe b e : safe e (cmd_token_complete b e).
Proof.
  unfold cmd_token_complete. case_match; [done|]. cbv zeta.
  set (e1 := if TEST_STATUS_FLAG _ DISPR_EXCLUSIVE_USE then _ else e).
  assert (safe e e1) as H1.
  { unfold e1. case_match; [|done]. etrans; [|apply clearance_release_safe]. flag_step. }
  etrans; [exact H1|]. case_match; [apply exclusive_ready_safe|done].
Qed.

Lemma on_abort_msg_complete_safe b e : safe e (on_abort_msg_complete b e).
Proof.
  unfold on_abort_msg_complete. etrans; [|apply renew_safe]. etrans; [|apply cmd_token_complete_safe]. flag_step.
Qed.

(** ** Events *)

Definition quiet_for (b : Z) (x : event) : Prop :=
  (forall c, ev_accepted b c x = false) /\ (forall c, ev_completed b c x = false) /\
  ev_granted b x = [] /\ ev_queued b x = [].

Lemma inv1_quiet tr b d k x : quiet_for b x -> inv1 tr b d k -> inv1 (tr ++ [x]) b d k.
Proof.
  intros (Q1 & Q2 & Q3 & Q4) [Hd [Hc Hf]]. split; [done|]. split.
  - intros c. rewrite !count_ev_snoc, Q1, Q2, !Nat.add_0_r. apply Hc.
  - by rewrite !flat_map_snoc, Q3, Q4, !app_nil_r.
Qed.

(** One event, one band. *)
Lemma eng_inv_event L e e' K b x k' :
  eng_inv L e K -> eng_head e' = eng_head e -> trace e' = trace e ++ [x] ->
  (forall b', b' <> b -> dispatcher e' b' = dispatcher e b' /\ quiet_for b' x) ->
  (L b -> inv1 (trace e') b (dispatcher e' b) k') -> eng_inv L e' (<[b := k']> K).
Proof.
  intros H Hp Ht Ho Hb b' Hl. 
  destruct (decide (b = b')) as [<-|Hne]; [rewrite fn_lookup_insert; by apply Hb|].
  rewrite fn_lookup_insert_ne, Ht by done. destruct (Ho b') as [-> Hq]; [done|]. apply inv1_quiet; [done|]. by apply H.
Qed.

Lemma eng_inv_ext L e K K' : (forall b, K b = K' b) -> eng_inv L e K -> eng_inv L e K'.
Proof. intros H He b Hl. rewrite <- H. by apply He. Qed.

Lemma insert_id (K : Z -> ctx) b b' : (<[b := K b]> K) b' = K b'.
Proof.
  destruct (decide (b = b')) as [->|Hne]; [by rewrite fn_lookup_insert|by rewrite fn_lookup_insert_ne].
Qed.

Lemma eng_inv_event_same L e e' K b x :
  eng_inv L e K -> eng_head e' = eng_head e -> trace e' = trace e ++ [x] ->
  (forall b', b' <> b -> dispatcher e' b' = dispatcher e b' /\ quiet_for b' x) ->
  (L b -> inv1 (trace e') b (dispatcher e' b) (K b)) -> eng_inv L e' K.
Proof. intros H Hp Ht Ho Hb. apply (eng_inv_ext _ _ (<[b := K b]> K)), (eng_inv_event L e _ _ _ x); auto using insert_id. Qed.

(** ** Sending *)

Definition busy_bit (n : Z) : Prop := n = 0 \/ n = 1 \/ n = 10.

Lemma set_msg_bitmap_status d id ex :
  mx_status (set_msg_bitmap d id ex) = mx_status ex /\ completion (set_msg_bitmap d id ex) = completion ex.
Proof. unfold set_msg_bitmap. by case_match. Qed.

Lemma set_msg_custom_bitmap_status d o l n id ex :
  mx_status (set_msg_custom_bitmap d o l n id ex) = mx_status ex /\
  completion (set_msg_custom_bitmap d o l n id ex) = completion ex.
Proof. unfold set_msg_custom_bitmap. cbv zeta. by repeat case_match. Qed.

(** Nothing but a completion routine sets NOTIFY_COMPLETE; a new message is
    neither queued nor running nor an abort message. *)
Definition fresh_like (ex : phl_dispr_msg_ex) : Prop :=
  (forall n, busy_bit n -> Z.testbit (mx_status ex) n = false) /\
  forall c, owes c ex = bool_decide (completion ex = Some c).

Lemma fresh_like_set ex n :
  n = 6 \/ n = 7 \/ n = 8 \/ n = 11 -> fresh_like ex -> fresh_like (mx_set_status (setf (BIT n)) ex).
Proof.
  intros Hn [H1 H2]. split.
  - intros m Hm. cbn [mx_set_status mx_status]. rewrite testbit_setf by lia. rewrite H1 by done.
    unfold busy_bit in Hm. simpl. apply Z.eqb_neq. lia.
  - intros c. rewrite <- H2. unfold owes. cbn [mx_set_status mx_status completion].
    rewrite testbit_setf by lia. rewrite (proj2 (Z.eqb_neq 2 n)) by lia. by rewrite orb_false_r.
Qed.

Lemma fresh_like_status ex ex' :
  mx_status ex' = mx_status ex -> completion ex' = completion ex -> fresh_like ex -> fresh_like ex'.
Proof. intros E1 E2 [H1 H2]. split; [by rewrite E1|]. intros c. unfold owes. rewrite E1, E2. apply H2. Qed.

Lemma apply_attr_fresh d attr id ex :
  fresh_like ex -> completion ex = None -> fresh_like (apply_attr d attr id ex).
Proof.
  intros H Hc. unfold apply_attr. destruct attr as [a|]; [|done]. cbv zeta.
  set (ex1 := set_msg_custom_bitmap _ _ _ _ _ _).
  destruct (set_msg_custom_bitmap_status d (a_opt a) (default [] (a_id_arr a)) (a_len a) id ex) as [E1 E2].
  fold ex1 in E1, E2. set (ex2 := match a_completion a with Some c => _ | None => ex1 end).
  assert (fresh_like ex2) as H2.
  { pose proof (fresh_like_status ex ex1 E1 E2 H) as [F1 F2]. unfold ex2. destruct (a_completion a) as [c|]; [|done].
    split; [|intros c'; unfold owes; by bits]. intros n Hn. specialize (F1 n Hn). unfold busy_bit in Hn.
    bits. rewrite F1. simpl. apply Z.eqb_neq. lia. }
  set (ex3 := if TEST_STATUS_FLAG _ MSG_OPT_CLR_SNDR_MSG_IF_PENDING then _ else ex2).
  assert (fresh_like ex3) as H3 by (unfold ex3; case_match; [apply fresh_like_set; auto|done]).
  case_match; [apply fresh_like_set; auto|done].
Qed.

Lemma set_owner_fresh d id ex : fresh_like ex -> fresh_like (set_owner d id ex).
Proof.
  intros H. unfold set_owner. repeat case_match; try done; try (apply fresh_like_set; auto).
Qed.

Lemma build_msg_ex_fresh d msg attr : fresh_like (build_msg_ex d msg attr).
Proof.
  unfold build_msg_ex. cbv zeta. apply set_owner_fresh, apply_attr_fresh.
  - eapply fresh_like_status; [apply set_msg_bitmap_status..|]. split; [|done].
    intros n _. cbn. apply Z.bits_0.
  - by rewrite (proj2 (set_msg_bitmap_status _ _ _)).
Qed.

(** Two states that differ in how often slot [i] was written. *)
Ltac same_at i :=
  split_and!; try reflexivity; intros j; cbn; try apply rx_same_refl;
  (destruct (decide (i = j)) as [<-|Hne];
    [rewrite !fn_lookup_insert|rewrite !fn_lookup_insert_ne by done]; apply mx_same_refl).

Lemma reject_same i q ex d :
  same (reset_msg i (mmod i (fun _ => ex) (set_msg_idle_q q d)))
       (reset_msg i (mmod i (fun _ => ex) (mmod i (fun _ => fresh_msg_ex) (set_msg_idle_q q d)))).
Proof.
  unfold reset_msg. cbn [msg_ex_pool mmod set_msg_ex_pool]. rewrite !fn_lookup_insert.
  unfold GET_CUR_PENDING_EVT. cbn. destruct (_ =? _); same_at i.
Qed.

Lemma reset_msg_frame i d : dframe d (reset_msg i d).
Proof. unfold reset_msg. cbv zeta. destruct (_ =? _); by split_and!. Qed.

Lemma dframe_trans d1 d2 d3 : dframe d1 d2 -> dframe d2 d3 -> dframe d1 d3.
Proof.
  intros (A1 & A2 & A3 & A4 & A5 & A6 & A7) (B1 & B2 & B3 & B4 & B5 & B6 & B7).
  split_and!; try congruence. intros n Hn. by rewrite B7, A7.
Qed.

(** Not in a queue yet, and NOTIFY_COMPLETE set with a completion only. *)
Definition sendable (ex : phl_dispr_msg_ex) : Prop :=
  (forall n, n = 0 \/ n = 1 -> Z.testbit (mx_status ex) n = false) /\
  forall c, owes c ex = bool_decide (completion ex = Some c).

(** The slot is written and the message queued, or the slot given back. *)
Lemma reject_safe b i q ex e :
  msg_idle_q (dispatcher e b) = i :: q -> Z.testbit (mx_status ex) 10 = false ->
  safe e (recycle_msg b i (dmod b (fun _ => mmod i (fun _ => ex) (mmod i (fun _ => fresh_msg_ex)
                                              (set_msg_idle_q q (dispatcher e b)))) e)).
Proof.
  intros Hq Hb. unfold recycle_msg. rewrite dispatcher_dmod_eq. cbn [msg_ex_pool mmod set_msg_ex_pool].
  rewrite fn_lookup_insert. unfold MSG_STATUS_FOR_ABORT. rewrite TEST_BIT, Hb by lia. cbv zeta. split.
  - split_and!; try done. intros b'. rewrite !dispatcher_dmod. case_decide; [subst|apply dframe_refl].
    rewrite decide_True by done. eapply dframe_trans; [|apply reset_msg_frame]. by split_and!.
  - intros L K H b' Hb'. rewrite !dispatcher_dmod. case_decide; [subst|by apply H].
    rewrite decide_True by done. eapply inv1_same; [apply reject_same|]. apply reject_inv; [by apply H|done].
Qed.

Lemma accept_safe b i q ex (W : cmd_dispatcher -> list nat) (f : cmd_dispatcher -> cmd_dispatcher) e :
  (forall d, W d ≡ₚ i :: msg_wait_q d) -> (forall d, dframe d (f d)) ->
  (forall d, exists s, f d = set_dp_status s d) ->
  msg_idle_q (dispatcher e b) = i :: q -> sendable ex ->
  let ex' := mx_set_status (setf MSG_STATUS_PRE_PHASE) ex in
  safe e (dmod b (fun d => let d := mmod i (mx_set_status to_enq) d in set_msg_wait_q (W d) d)
            (log (Accepted b i (completion ex))
               (dmod b (fun _ => mmod i (fun _ => ex') (f (mmod i (fun _ => fresh_msg_ex)
                                   (set_msg_idle_q q (dispatcher e b))))) e))).
Proof.
  intros HW Hf Hs Hq [F1 F2] ex'. set (d0 := mmod i (fun _ => fresh_msg_ex) (set_msg_idle_q q (dispatcher e b))).
  destruct (Hs d0) as [s Es]. split.
  - split_and!; try done. intros b'. rewrite dispatcher_dmod. cbn [log dispatcher]. rewrite !dispatcher_dmod.
    case_decide; [subst|apply dframe_refl]. rewrite decide_True by done. fold d0.
    eapply (dframe_trans _ (f d0)); [eapply dframe_trans; [|apply Hf]; by split_and!|by split_and!].
  - intros L K H. eapply (eng_inv_event_same L e _ K b); [done|reflexivity|reflexivity|..].
    + intros b' Hne. rewrite dispatcher_dmod_ne by done. cbn [log dispatcher]. rewrite dispatcher_dmod_ne by done.
      split; [done|]. split_and!; try done. intros c. cbn. destruct (completion ex); [|done].
      by rewrite (proj2 (Z.eqb_neq b b')).
    + intros Hl. rewrite dispatcher_dmod_eq. cbn [log dispatcher trace]. rewrite dispatcher_dmod_eq. fold d0. rewrite Es. cbv zeta.
      set (w := W _). assert (w ≡ₚ i :: msg_wait_q (dispatcher e b)) as Hw by (unfold w; by rewrite HW).
      pose proof (accept_inv (trace e) b (dispatcher e b) (K b) i q w (mx_set_status to_enq ex') (H b Hl) Hq Hw) as Ha.
      eapply inv1_same; [|apply Ha]; unfold ex'.
      * same_at i.
      * by bits.
      * by bits.
      * intros c. transitivity (owes c ex); [unfold owes; by bits|apply F2].
Qed.

Lemma fresh_like_sendable ex (last : bool) :
  fresh_like ex -> sendable (if last then mx_set_status (setf MSG_STATUS_FOR_ABORT) ex else ex).
Proof.
  intros [F1 F2]. destruct last; [|split; [intros n Hn; apply F1; unfold busy_bit; lia|done]]. split.
  - intros n Hn. bits. rewrite (F1 n) by (unfold busy_bit; lia). simpl. apply Z.eqb_neq. lia.
  - intros c. bits. rewrite <- F2. unfold owes. by bits.
Qed.

Lemma dispr_send_msg_safe b msg attr e : safe e (dispr_send_msg b msg attr e).2.
Proof.
  unfold dispr_send_msg. cbv zeta. do 4 (case_match; [done|]). unfold pop_front_idle_msg.
  destruct (msg_idle_q (dispatcher e b)) as [|i q] eqn:Hq; [done|].
  set (d0 := mmod i _ _). pose proof (build_msg_ex_fresh d0 msg attr) as Hf.
  set (ex := build_msg_ex d0 msg attr) in *. set (last := _ && TEST_STATUS_FLAG _ REQ_STATUS_LAST_PERMIT).
  destruct (last && _); cbn [snd].
  - apply (reject_safe b i q _ e Hq). cbn [mx_set_status mx_status add_indc mx_set_msg]. unfold MSG_STATUS_NOTIFY_COMPLETE.
    rewrite testbit_clrf by lia. by rewrite (proj1 Hf 10) by (unfold busy_bit; lia).
  - pose proof (fresh_like_sendable ex last Hf) as Hs.
    set (ex1 := if last then mx_set_status _ ex else ex) in *.
    set (f := fun d => if last then dp_flag (setf DISPR_WAIT_ABORT_MSG_DONE) d else d).
    assert (forall d, dframe d (f d)) as Hfr.
    { intros d. unfold f. destruct last; [apply (dframe_flag 9 setf); [auto|lia]|apply dframe_refl]. }
    assert (forall d, exists s, f d = set_dp_status s d) as Hsd.
    { intros d. unfold f. destruct last; [by eexists|exists (dp_status d); by destruct d]. }
    destruct (IS_DISPR_CTRL _); (etrans; [|apply safe_notify]).
    + apply (accept_safe b i q ex1 (fun d => insert_before (is_higher_priority d) i (msg_wait_q d)) f e);
        [intros d; apply insert_before_perm|done..].
    + apply (accept_safe b i q ex1 (fun d => msg_wait_q d ++ [i]) f e); [|done..].
      intros d. by rewrite Permutation_app_comm.
Qed.

(** ** The other entry points *)

Lemma hdl_idx_lt (m : nat) z : 0 <= z -> (Z.of_nat m <=? z) = false -> (Z.to_nat z < m)%nat.
Proof. intros Hz H. apply Z.leb_gt in H. lia. Qed.

Lemma cancel_msg_safe b i e :
  (Z.testbit (mx_status (msg_ex_pool (dispatcher e b) i)) 0 || Z.testbit (mx_status (msg_ex_pool (dispatcher e b) i)) 1) = true ->
  safe e (dmod b (cancel_msg i) e).
Proof.
  intros Hb. apply safe_same; [by split_and!|]. apply same_mmod. split_and!; try done.
  - intros n Hn. apply (testbit_flag_above 3 3 setf); [auto|lia..].
  - intros H0. by rewrite H0, !Z.bits_0 in Hb.
Qed.

Lemma dispr_cancel_msg_safe b hdl e : safe e (dispr_cancel_msg b hdl e).2.
Proof.
  unfold dispr_cancel_msg. cbv zeta. case_match; [done|]. case_match; [done|].
  destruct (negb _ && negb _) eqn:Hb; [done|]. cbn [snd]. apply cancel_msg_safe. bits.
  by destruct (Z.testbit _ 0), (Z.testbit _ 1).
Qed.

Lemma dispr_clr_pending_msg_safe b e : safe e (dispr_clr_pending_msg b e).
Proof. unfold dispr_clr_pending_msg. etrans; [|apply safe_notify]. flag_step. Qed.

Lemma dispr_add_token_req_safe b req e : safe e (dispr_add_token_req b req e).2.
Proof.
  unfold dispr_add_token_req. cbv zeta. destruct (_ || _) eqn:Hg; [done|]. case_match; [done|].
  destruct (pop_front_idle_req (dispatcher e b)) as [[i d1]|] eqn:Hp; [|done]. cbn [snd].
  etrans; [|apply push_op_safe]. apply orb_false_iff in Hg as [_ Hg]. apply negb_false_iff in Hg.
  assert (dframe (dispatcher e b) d1) as Hfr.
  { unfold pop_front_idle_req in Hp. destruct (token_req_idle_q _); [done|]. injection Hp as _ <-. by split_and!. }
  assert (exists q, token_req_idle_q (dispatcher e b) = i :: q) as [q Hq].
  { unfold pop_front_idle_req in Hp. destruct (token_req_idle_q _); [done|]. injection Hp as -> _. by eexists. }
  split.
  - split_and!; try done. intros b'. cbn [log dispatcher]. rewrite dispatcher_dmod.
    case_decide; [subst|apply dframe_refl]. eapply dframe_trans; [exact Hfr|]. by split_and!.
  - intros L K HK. eapply (eng_inv_event_same L e _ K b); [done|reflexivity|reflexivity|..]; cbn [log dispatcher trace].
    + intros b' Hne. rewrite dispatcher_dmod_ne by done. split; [done|]. split_and!; try done.
      cbn. by rewrite (proj2 (Z.eqb_neq b b')).
    + intros Hl. rewrite dispatcher_dmod_eq. specialize (HK b Hl). by eapply queue_req_inv.
Qed.

Lemma enqueued_snd r : (enqueued r).2 = r.2.
Proof. done. Qed.

Lemma dispr_cancel_token_req_safe b hdl e : safe e (dispr_cancel_token_req b hdl e).2.
Proof. unfold dispr_cancel_token_req. cbv zeta. repeat case_match; try done. apply push_op_safe. Qed.

Lemma rx_flag_same b i n (f : Z -> Z -> Z) e :
  (f = setf \/ f = clrf) -> 1 < n -> safe e (dmod b (rmod i (rx_set_status (f (BIT n)))) e).
Proof.
  intros Hf Hn. apply safe_same; [by split_and!|]. apply same_rmod. split; [|done].
  intros m Hm. by apply (testbit_flag_above 2); [|lia..].
Qed.

Lemma dispr_free_token_safe b hdl e : safe e (dispr_free_token b hdl e).2.
Proof.
  unfold dispr_free_token. cbv zeta. repeat case_match; try done. rewrite enqueued_snd.
  etrans; [|apply push_op_safe]. apply (rx_flag_same b _ 2 setf); auto. lia.
Qed.

Lemma safe_excl b v e : safe e (dmod b (set_exclusive_mdl v) e).
Proof. apply safe_same; [by split_and!|apply same_excl]. Qed.

Lemma dispr_notify_dev_io_status_safe b id allow e : safe e (dispr_notify_dev_io_status b id allow e).2.
Proof.
  unfold dispr_notify_dev_io_status. cbv zeta. repeat case_match; try done; unfold send_dev_io_status_change; cbn [snd].
  - etrans; [|apply dispr_send_msg_safe]. apply safe_same; [|same_trivial].
    apply (dframe_flag 6 setf); [auto|lia].
  - etrans; [|apply dispr_clr_pending_msg_safe]. etrans; [|apply dispr_send_msg_safe].
    apply safe_same; [|same_trivial]. apply (dframe_flag 6 clrf); [auto|lia].
Qed.

Lemma fold_safe {A} (f : phl_cmd_dispatch_engine -> A -> phl_cmd_dispatch_engine) l e :
  (forall e x, safe e (f e x)) -> safe e (fold_left f l e).
Proof. intros H. revert e. induction l as [|x l IH]; intros e; simpl; [done|]. etrans; [apply H|apply IH]. Qed.

(** Every call of another thread or of a callback. *)
Lemma api_step_safe e a : safe e (api_step e a).
Proof.
  destruct a; cbn [api_step];
    unfold phl_disp_eng_send_msg, phl_disp_eng_cancel_msg, phl_disp_eng_clr_pending_msg, phl_disp_eng_add_token_req,
      phl_disp_eng_cancel_token_req, phl_disp_eng_free_token, with_dispr; try (case_match; try done).
  - apply dispr_send_msg_safe.
  - apply dispr_cancel_msg_safe.
  - apply dispr_clr_pending_msg_safe.
  - apply dispr_add_token_req_safe.
  - apply dispr_cancel_token_req_safe.
  - apply dispr_free_token_safe.
  - apply fold_safe. intros. apply dispr_notify_dev_io_status_safe.
  - apply fold_safe. intros e' b. case_match; [|done]. unfold dispr_notify_shall_stop. case_match; [|done].
    etrans; [|apply dispr_clr_pending_msg_safe]. flag_step.
Qed.

Lemma api_steps_safe l e : safe e (fold_left api_step l e).
Proof. apply fold_safe. apply api_step_safe. Qed.

(** ** The thread in the middle of something on band [b] *)

Section Thread.
Context (hd : Z * Z) (L : Z -> Prop).

Definition at_ctx (e : phl_cmd_dispatch_engine) (K : Z -> ctx) (b : Z) (k : ctx) : Prop :=
  (eng_head e = hd /\ L b) /\ eng_inv L e (<[b := k]> K).

Lemma at_get e K b k : at_ctx e K b k -> inv1 (trace e) b (dispatcher e b) k.
Proof. intros [[_ Hl] H]. specialize (H b Hl). by rewrite fn_lookup_insert in H. Qed.

Lemma at_safe e e' K b k : safe e e' -> at_ctx e K b k -> at_ctx e' K b k.
Proof. intros [(Hp & _) H] [[Hn Hl] Ha]. split; [rewrite Hp; by split|by apply H]. Qed.

Lemma insert_twice (K : Z -> ctx) b k k' x : (<[b := k']> (<[b := k]> K)) x = (<[b := k']> K) x.
Proof.
  destruct (decide (b = x)) as [->|Hne]; [by rewrite !fn_lookup_insert|by rewrite !fn_lookup_insert_ne].
Qed.

Lemma at_dmod e K b k k' f :
  at_ctx e K b k -> inv1 (trace e) b (f (dispatcher e b)) k' -> at_ctx (dmod b f e) K b k'.
Proof.
  intros [Hl H] Hb. split; [done|]. intros x Hx. rewrite dispatcher_dmod.
  case_decide; [subst; by rewrite fn_lookup_insert|].
  rewrite fn_lookup_insert_ne by done. specialize (H x Hx). by rewrite fn_lookup_insert_ne in H.
Qed.

Lemma at_event e e' K b k k' x :
  at_ctx e K b k -> eng_head e' = eng_head e -> trace e' = trace e ++ [x] ->
  (forall b', b' <> b -> dispatcher e' b' = dispatcher e b' /\ quiet_for b' x) ->
  inv1 (trace e') b (dispatcher e' b) k' -> at_ctx e' K b k'.
Proof.
  intros [[Hn Hl] H] Hp Ht Ho Hb. split; [rewrite Hp; by split|].
  eapply eng_inv_ext; [apply insert_twice|]. by eapply eng_inv_event.
Qed.

Lemma at_rest_get e K b : eng_head e = hd -> L b -> eng_inv L e K -> K b = at_rest -> at_ctx e K b at_rest.
Proof. intros Hn Hl H Hk. split; [done|]. eapply eng_inv_ext; [|exact H]. intros x. rewrite <- Hk. symmetry. apply insert_id. Qed.

Lemma at_rest_put e K b : at_ctx e K b at_rest -> K b = at_rest -> eng_inv L e K.
Proof. intros [_ H] Hk. eapply eng_inv_ext; [|exact H]. intros x. rewrite <- Hk. apply insert_id. Qed.

(** ** Pending messages *)

(** The first pending message becomes a waiting one; [W] tells where. *)
Lemma requeue_safe (W : cmd_dispatcher -> list nat) b e i p :
  (forall d, W d ≡ₚ i :: msg_wait_q d) -> msg_pend_q (dispatcher e b) = i :: p ->
  safe e (notify_dispr_thread
    (dmod b (fun d => let d := mmod i (mx_set_status to_enq) d in set_msg_wait_q (W d) d)
       (dmod b (fun d => set_msg_pend_q (tl (msg_pend_q d)) d) e))).
Proof.
  intros HW Hp. etrans; [|apply safe_notify]. split.
  - split_and!; try done; intros b'; rewrite !dispatcher_dmod; case_decide; [subst|apply dframe_refl].
    rewrite decide_True by done. by split_and!.
  - intros L0 K HK b' Hl. rewrite !dispatcher_dmod. case_decide; [subst|by apply HK]. rewrite decide_True by done.
    rewrite Hp. cbn [tl]. apply unpend_inv; [by apply HK|done|]. by rewrite HW.
Qed.

Lemma unpend_safe b e i p : msg_pend_q (dispatcher e b) = i :: p -> safe e (unpend b e i).
Proof.
  intros Hp. unfold unpend. cbv zeta. case_match.
  - eapply (requeue_safe (fun d => insert_before (is_higher_priority d) i (msg_wait_q d))); [|exact Hp].
    intros d. apply insert_before_perm.
  - eapply (requeue_safe (fun d => msg_wait_q d ++ [i])); [|exact Hp]. intros d. by rewrite Permutation_app_comm.
Qed.

Lemma unpend_pend b e i p : msg_pend_q (dispatcher e b) = i :: p -> msg_pend_q (dispatcher (unpend b e i) b) = p.
Proof. intros Hp. unfold unpend. cbv zeta. case_match; cbn [notify_dispr_thread dispatcher push_back_wait_msg insert_msg_by_priority];
  rewrite !dispatcher_dmod_eq; cbn; by rewrite Hp. Qed.

Lemma unpend_all_safe b l e : msg_pend_q (dispatcher e b) = l -> safe e (fold_left (unpend b) l e).
Proof.
  revert e. induction l as [|i l IH]; intros e Hp; simpl; [done|].
  etrans; [by eapply unpend_safe|]. apply IH. by eapply unpend_pend.
Qed.

Lemma clear_pending_msg_safe b e : safe e (clear_pending_msg b e).
Proof.
  unfold clear_pending_msg. case_match; [done|]. cbv zeta. etrans; [|by apply unpend_all_safe]. flag_step.
Qed.

Lemma drop_req_msg_at b id e K k i :
  at_ctx e K b k -> PHL_FG_MDL_START <= id -> (i < MAX_PHL_MSG_NUM)%nat ->
  safe e (drop_req_msg b id e i).
Proof.
  intros H Hid Hi. unfold drop_req_msg. destruct (Z.eqb_spec id (MSG_MDL_ID_FIELD (msg_id (mx_msg (slot e b i))))) as [E|];
    [|done]. cbn [negb]. cbv zeta. pose proof (at_get _ _ _ _ H) as [Hd _].
  assert (i ∉ msg_idle_q (dispatcher e b)) as Hn.
  { intros Hx. destruct (mi_idle _ _ Hd i Hx) as [_ E0]. unfold slot in E. rewrite E0 in E.
    change (MSG_MDL_ID_FIELD 0) with 0 in E. unfold PHL_FG_MDL_START in Hid. lia. }
  set (e1 := dmod b _ e). assert (safe e e1) as H1.
  { apply safe_same; [by split_and!|].
    eapply same_trans; [apply (busy_same _ k i (mx_set_status (clrf MSG_STATUS_OWNER_REQ)) Hd Hi Hn)|]; [|done|].
    - intros n Hc. apply (testbit_flag_above 3 7 clrf); [auto|lia..].
    - unfold cancel_msg. apply (busy_same _ k); try done.
      + eapply (inv1_same (trace e) b (dispatcher e b)); [|apply (at_get _ _ _ _ H)].
        apply (busy_same _ k i _ Hd Hi Hn); [|done]. intros n Hc.
        apply (testbit_flag_above 3 7 clrf); [auto|lia..].
      + intros n Hc. apply (testbit_flag_above 3 3 setf); [auto|lia..]. }
  etrans; [exact H1|]. case_match; [|done].
  etrans; [apply dispr_clr_pending_msg_safe|apply clear_pending_msg_safe].
Qed.

Lemma drop_req_msgs_at b id l e K k :
  at_ctx e K b k -> PHL_FG_MDL_START <= id -> (forall i, i ∈ l -> (i < MAX_PHL_MSG_NUM)%nat) ->
  safe e (fold_left (drop_req_msg b id) l e).
Proof.
  revert e. induction l as [|i l IH]; intros e H Hid Hl; simpl; [done|].
  pose proof (drop_req_msg_at b id e K k i H Hid (Hl i ltac:(set_solver))) as Hs.
  etrans; [exact Hs|]. apply IH; [by eapply at_safe|done|]. intros j Hj. apply Hl. set_solver.
Qed.

(** ** Callbacks *)

Section Run.
Context (react : cb -> phl_cmd_dispatch_engine -> reaction).

Definition quiet_cb (c : cb) : Prop :=
  match c with CbAcquired _ _ _ | CbCompletion _ _ _ _ => False | _ => True end.

Lemma log_safe c e : quiet_cb c -> safe e (log (Called c) e).
Proof.
  intros Hc. split; [split_and!; try done; intros b; apply dframe_refl|].
  intros L0 K H b Hl. apply inv1_quiet; [|by apply H]. by destruct c.
Qed.

Lemma call_safe c e : quiet_cb c -> safe e (call react c e).2.
Proof. intros Hc. unfold call. cbn [snd]. etrans; [by apply log_safe|apply api_steps_safe]. Qed.

Lemma body_safe b i v e : safe e (dmod b (mmod i (mx_set_msg (msg_set_body v))) e).
Proof. apply safe_same; [by split_and!|]. by apply same_mmod. Qed.

Lemma call_msg_safe c b i e : quiet_cb c -> safe e (call_msg react c b i e).2.
Proof.
  intros Hc. unfold call_msg. cbn [snd]. etrans; [by apply log_safe|].
  etrans; [apply body_safe|apply api_steps_safe].
Qed.

Lemma cur_req_hdl_safe b i e : safe e (cur_req_hdl react b i e).
Proof. unfold cur_req_hdl. cbv zeta. repeat case_match; try done. by apply call_msg_safe. Qed.

(** A slot the thread holds may change except for its queue flags. *)
Lemma held_same e K b k i f :
  at_ctx e K b k -> i ∈ held k ->
  (forall ex n, n = 0 \/ n = 1 \/ n = 2 -> Z.testbit (mx_status (f ex)) n = Z.testbit (mx_status ex) n) ->
  (forall ex, completion (f ex) = completion ex) -> safe e (dmod b (mmod i f) e).
Proof.
  intros H Hi Hb Hc. pose proof (at_get _ _ _ _ H) as [Hd _]. apply safe_same; [by split_and!|].
  apply same_mmod. split_and!; [by intros; apply Hb|done|]. intros H0 _. exfalso.
  destruct (mi_run _ _ Hd i Hi) as [_ E]. by rewrite H0, Z.bits_0 in E.
Qed.

Lemma held_flag e K b k i n (f : Z -> Z -> Z) :
  at_ctx e K b k -> i ∈ held k -> (f = setf \/ f = clrf) -> 3 <= n ->
  safe e (dmod b (mmod i (mx_set_status (f (BIT n)))) e).
Proof.
  intros H Hi Hf Hn. eapply held_same; [done..| |done]. intros ex m Hm. by apply (testbit_flag_above 3); [|lia..].
Qed.

(** ** Completion *)

Definition k_infl (l : list Z) (k : ctx) : ctx := Ctx (held k) (run k) (rheld k) (grant k) l.

Lemma completing_inv tr b d k i h c m :
  inv1 tr b d k -> held k = i :: h -> infl k = [] -> owes c (msg_ex_pool d i) = true ->
  inv1 (tr ++ [Called (CbCompletion b c i m)]) b d (k_infl [c] k).
Proof.
  intros [Hd [Hc Hf]] Hh Hk Ho. split; [destruct Hd; split; try done|split].
  - intros c'. cbn [infl k_infl held]. intros Hx. apply list_elem_of_singleton in Hx as ->. by rewrite Hh.
  - intros c'. rewrite !count_ev_snoc. cbn [ev_accepted ev_completed infl k_infl count_occ]. rewrite Z.eqb_refl.
    specialize (Hc c'). rewrite Hk in Hc. cbn [count_occ] in Hc. cbn [andb].
    destruct (Z.eq_dec c c') as [->|Hne].
    + rewrite Z.eqb_refl. simpl. lia.
    + rewrite (proj2 (Z.eqb_neq c c')) by done. simpl. lia.
  - rewrite !flat_map_snoc. cbn [ev_granted ev_queued]. by rewrite !app_nil_r.
Qed.

Lemma completed_inv tr b d k i h c :
  inv1 tr b d k -> held k = i :: h -> infl k = [c] ->
  inv1 tr b (mmod i (mx_set_status (clrf MSG_STATUS_NOTIFY_COMPLETE)) d) (k_infl [] k).
Proof.
  intros H Hh Hk. pose proof (mi_infl _ _ (proj1 H) c) as Ho. rewrite Hk, Hh in Ho. specialize (Ho ltac:(set_solver)).
  pose proof (inv_lt d k i (proj1 H)) as Hlt. rewrite Hh in Hlt.
  destruct (mi_run _ _ (proj1 H) i) as [R0 R1]; [rewrite Hh; set_solver|].
  apply (inv1_moved tr tr b d _ k _ i H); try done.
  - split; at_slot; cbn [held k_infl]; try done.
    + intros j Hj. by rewrite fn_lookup_insert_ne.
    + intros Hx. destruct (mi_idle _ _ (proj1 H) i Hx) as [E _]. by rewrite E, Z.bits_0 in R1.
    + intros Hx. destruct (mi_enq _ _ (proj1 H) i Hx) as [E _]. by rewrite E in R0.
    + intros _. bits. by rewrite R0, R1.
    + apply Hlt. set_solver.
  - cbn. set_solver.
  - split_and!; try done. intros c'. at_slot. cbn [infl k_infl]. rewrite Hk. cbn [count_occ].
    unfold owes in *. apply andb_true_iff in Ho as [Hb Hc]. bits. rewrite Hb. cbn [andb].
    apply bool_decide_eq_true in Hc. rewrite Hc. destruct (Z.eq_dec c c') as [->|Hne].
    + rewrite bool_decide_eq_true_2 by done. simpl. lia.
    + rewrite bool_decide_eq_false_2 by congruence. simpl. lia.
Qed.

(** The engine steps that leave every message slot alone. *)
Definition same_slots (e e' : phl_cmd_dispatch_engine) : Prop :=
  forall b, msg_ex_pool (dispatcher e' b) = msg_ex_pool (dispatcher e b).

Lemma same_slots_dmod b f e :
  msg_ex_pool (f (dispatcher e b)) = msg_ex_pool (dispatcher e b) -> same_slots e (dmod b f e).
Proof. intros H b'. rewrite dispatcher_dmod. case_decide; by subst. Qed.

Lemma same_slots_trans e1 e2 e3 : same_slots e1 e2 -> same_slots e2 e3 -> same_slots e1 e3.
Proof. intros H1 H2 b. by rewrite H2, H1. Qed.

Lemma renew_slots b e : same_slots e (renew b e).
Proof.
  unfold renew, dispr_enqueue_token_op_info, push_back_token_op_info. case_match; [done|]. cbn [snd]. intros b'.
  cbn [notify_dispr_thread dispatcher]. rewrite dispatcher_dmod. by case_decide; subst.
Qed.

Lemma cmd_token_complete_slots b e : same_slots e (cmd_token_complete b e).
Proof.
  unfold cmd_token_complete. case_match; [done|]. cbv zeta.
  set (e1 := if TEST_STATUS_FLAG _ DISPR_EXCLUSIVE_USE then _ else e). assert (same_slots e e1) as H1.
  { unfold e1. case_match; [|done]. unfold phl_disp_eng_clearance_release, with_dispr, dispr_clearance_release.
    case_match; try (by apply same_slots_dmod). eapply same_slots_trans; [|apply renew_slots].
    eapply same_slots_trans; by apply same_slots_dmod. }
  eapply same_slots_trans; [exact H1|]. case_match; [|done].
  unfold phl_disp_eng_exclusive_ready, with_dispr, dispr_exclusive_ready. case_match; try done. case_match; [|done].
  eapply same_slots_trans; [|apply renew_slots]. by apply same_slots_dmod.
Qed.

Lemma recycle_msg_at e K b k i h :
  at_ctx e K b k -> held k = i :: h -> infl k = [] -> (forall c, owes c (slot e b i) = false) ->
  at_ctx (recycle_msg b i e) K b (k_held h k).
Proof.
  intros H Hh Hk Ho. unfold recycle_msg. cbv zeta. set (e1 := if TEST_STATUS_FLAG _ _ then _ else e).
  assert (safe e e1) as H1 by (unfold e1; case_match; [apply on_abort_msg_complete_safe|done]).
  assert (same_slots e e1) as H2.
  { unfold e1. case_match; [|done]. unfold on_abort_msg_complete.
    eapply same_slots_trans; [|apply renew_slots]. eapply same_slots_trans; [|apply cmd_token_complete_slots].
    by apply same_slots_dmod. }
  pose proof (at_safe _ _ _ _ _ H1 H) as H'. eapply at_dmod; [exact H'|].
  apply reset_msg_inv; [by apply (at_get _ _ _ _ H')|done..|]. intros c. rewrite H2. apply Ho.
Qed.

Lemma push_back_idle_msg_at e K b k i h :
  at_ctx e K b k -> held k = i :: h -> infl k = [] -> at_ctx (push_back_idle_msg react b i e) K b (k_held h k).
Proof.
  intros H Hh Hk. unfold push_back_idle_msg. cbv zeta.
  destruct (completion (slot e b i)) as [c|] eqn:Ec; last first.
  { apply recycle_msg_at; try done. intros c. unfold owes. by rewrite Ec, andb_false_r. }
  destruct (TEST_STATUS_FLAG _ MSG_STATUS_NOTIFY_COMPLETE) eqn:En; last first.
  { apply recycle_msg_at; try done. intros c'. unfold owes. bits. by rewrite En. }
  set (e1 := if TEST_STATUS_FLAG _ MSG_STATUS_CANCEL then _ else e).
  assert (at_ctx e1 K b k /\ owes c (slot e1 b i) = true) as [H1 Ho].
  { assert (owes c (slot e b i) = true) as Ho by (unfold owes; bits; rewrite En, Ec; by apply bool_decide_eq_true).
    unfold e1. case_match; [|done]. split.
    - eapply at_safe; [|exact H]. eapply held_same; [exact H|rewrite Hh; set_solver|done..].
    - unfold slot. rewrite dispatcher_dmod_eq. cbn [msg_ex_pool mmod set_msg_ex_pool]. by rewrite fn_lookup_insert. }
  unfold call_msg. cbn [snd]. set (x := CbCompletion b c i (mx_msg (slot e1 b i))).
  assert (at_ctx (log (Called x) e1) K b (k_infl [c] k)) as H2.
  { eapply at_event; [exact H1|reflexivity|reflexivity|..].
    - intros b' Hne. split; [done|]. split_and!; try done. intros c'. cbn. by rewrite (proj2 (Z.eqb_neq b b')).
    - cbn [log dispatcher trace]. by apply (completing_inv _ _ _ _ i h); [apply (at_get _ _ _ _ H1)|..]. }
  set (e2 := fold_left api_step _ _).
  assert (at_ctx e2 K b (k_infl [c] k)) as H3.
  { eapply at_safe; [apply api_steps_safe|]. eapply at_safe; [apply body_safe|exact H2]. }
  assert (k_held h k = k_held h (k_infl [] (k_infl [c] k))) as -> by (unfold k_held, k_infl; cbn; by rewrite Hk).
  apply recycle_msg_at; [|done..|].
  - eapply at_dmod; [exact H3|]. by apply (completed_inv _ _ _ _ i h c); [apply (at_get _ _ _ _ H3)|..].
  - intros c'. unfold slot. rewrite dispatcher_dmod_eq. cbn [msg_ex_pool mmod set_msg_ex_pool].
    rewrite fn_lookup_insert. unfold owes. by bits.
Qed.

(** ** Requests *)

Definition resting (k : ctx) : Prop := run k = true /\ rheld k = [] /\ grant k = [] /\ infl k = [].

Lemma dmod_twice_get b f g e : dispatcher (dmod b g (dmod b f e)) b = g (f (dispatcher e b)).
Proof. by rewrite !dispatcher_dmod_eq. Qed.

Lemma frame_cur e e' b : safe e e' -> cur_cmd_req (dispatcher e' b) = cur_cmd_req (dispatcher e b).
Proof. intros [(_ & F) _]. apply (F b). Qed.

Lemma all_slots_lt : forall i, i ∈ seq 0 MAX_PHL_MSG_NUM -> (i < MAX_PHL_MSG_NUM)%nat.
Proof. intros i Hi. apply elem_of_seq in Hi. lia. Qed.

(** Up to the [abort] routine, with the request no longer running. *)
Lemma deregister_at b notify e K k :
  at_ctx e K b k -> resting k -> at_ctx (deregister_cur_cmd_req react b notify e) K b k.
Proof.
  intros H (Hr & Hh & Hg & Hk). unfold deregister_cur_cmd_req. cbv zeta.
  assert (k_req true [] [] k = k) as Ek by (destruct k; cbn in *; by subst).
  destruct (cur_cmd_req (dispatcher e b)) as [r|] eqn:Hc; last first.
  { set (e1 := dmod b (set_cur_cmd_req None) e). assert (at_ctx e1 K b k) as H1.
    { eapply at_dmod; [exact H|]. eapply inv1_same; [|apply (at_get _ _ _ _ H)]. same_trivial. }
    case_match; [|done]. eapply at_safe; [apply cmd_token_complete_safe|done]. }
  set (id := rq_module_id _). pose proof (at_get _ _ _ _ H) as [Hd _].
  assert (PHL_FG_MDL_START <= id) as Hid.
  { apply (ri_id _ _ Hd). unfold cur_list. rewrite Hc. set_solver. }
  set (e1 := dmod b (rmod r _) e). set (k1 := k_req false [] [] k).
  assert (at_ctx e1 K b k1) as H1.
  { eapply at_dmod; [exact H|]. unfold k1. rewrite <- Hh. apply stop_run_inv; [apply (at_get _ _ _ _ H)|done..]. }
  set (e2 := fold_left (drop_req_msg b id) _ e1).
  assert (safe e1 e2) as S2 by (eapply drop_req_msgs_at; [exact H1|done|apply all_slots_lt]).
  set (e3 := if notify then _ else e2). assert (safe e2 e3) as S3.
  { unfold e3. destruct notify; [|done]. etrans; [|apply (rx_flag_same b r 3 clrf); [auto|lia]].
    etrans; [|by apply call_safe]. apply (rx_flag_same b r 3 setf); [auto|lia]. }
  pose proof (at_safe _ _ _ _ _ (transitivity S2 S3) H1) as H3.
  assert (cur_cmd_req (dispatcher e3 b) = Some r) as Hc3.
  { rewrite (frame_cur e1 e3) by (by etrans). unfold e1. by rewrite dispatcher_dmod_eq. }
  set (e4 := dmod b (set_cur_cmd_req None) _). assert (at_ctx e4 K b k) as H4.
  { split; [apply H3|]. intros x Hx. unfold e4. destruct (decide (b = x)) as [<-|Hne].
    - rewrite dmod_twice_get, fn_lookup_insert, <- Ek. cbv zeta. cbn [trace dmod].
      apply (drop_token_inv _ _ _ k1); [apply (at_get _ _ _ _ H3)|done..].
    - rewrite !dispatcher_dmod_ne, fn_lookup_insert_ne by done. pose proof (proj2 H3 x Hx) as H5.
      by rewrite fn_lookup_insert_ne in H5. }
  case_match; [|done]. eapply at_safe; [apply cmd_token_complete_safe|done].
Qed.

(** The request just taken gets the token, or fails and gives it back. *)
Lemma register_at b r q e K k :
  at_ctx e K b (k_req true [r] [(r, q)] k) -> resting k -> cur_cmd_req (dispatcher e b) = None ->
  at_ctx (register_cur_cmd_req react b r e).2 K b k.
Proof.
  intros H Hk Hn. unfold register_cur_cmd_req, call. cbv zeta. fold (take_token r).
  pose proof (at_get _ _ _ _ H) as [Hd _]. destruct (ri_grant _ _ Hd r q) as (G1 & G2 & _); [set_solver|].
  set (e1 := dmod b _ e). assert (rx_req (token_req_ex_pool (dispatcher e1 b) r) = q) as Hq.
  { unfold e1. rewrite dispatcher_dmod_eq. cbn. rewrite fn_lookup_insert. exact G2. }
  rewrite Hq. set (x := CbAcquired b r q).
  assert (at_ctx (log (Called x) e1) K b k) as H1.
  { eapply at_event; [exact H|reflexivity|reflexivity|..]; cbn [log dispatcher trace].
    - intros b' Hne. unfold e1. rewrite dispatcher_dmod_ne by done. split; [done|]. split_and!; try done.
      cbn. by rewrite (proj2 (Z.eqb_neq b b')).
    - unfold e1. rewrite dispatcher_dmod_eq. cbn [trace dmod].
      assert (k = k_req true [] [] (k_req true [r] [(r, q)] k)) as Ek.
      { destruct k, Hk as (R1 & R2 & R3 & R4); cbn in *; by subst. }
      rewrite Ek at 1. apply take_token_inv; [apply (at_get _ _ _ _ H)|done..]. }
  set (e2 := fold_left api_step _ _).
  assert (at_ctx e2 K b k) as H2 by (eapply at_safe; [apply api_steps_safe|exact H1]).
  case_match; cbn [snd]; try done. by apply deregister_at.
Qed.

Lemma process_token_req_at fuel b e K k s e' :
  at_ctx e K b k -> resting k -> dispr_process_token_req react fuel b e = Some (s, e') -> at_ctx e' K b k.
Proof.
  revert e. induction fuel as [|f IH]; intros e H Hk; [done|]. cbn [dispr_process_token_req]. cbv zeta.
  case_match; [by intros [= _ <-]|]. case_match; [by intros [= _ <-]|].
  destruct (Z.ltb_spec 0 (token_cnt (dispatcher e b))) as [|Hz]; [by intros [= _ <-]|].
  case_match; [by intros [= _ <-]|].
  case_match; [intros [= _ <-]; eapply at_safe; [apply exclusive_ready_safe|done]|].
  case_match; [intros [= _ <-]; eapply at_safe; [apply clearance_acquire_safe|done]|].
  pose proof (at_get _ _ _ _ H) as Hd. destruct (pop_front_wait_req (dispatcher e b)) as [[r d]|] eqn:Hp; last first.
  { intros [= _ <-]. case_match; [|done]. eapply at_safe; [|exact H].
    etrans; [|apply dispr_send_msg_safe]. flag_step. }
  assert (cur_cmd_req (dispatcher e b) = None) as Hn.
  { pose proof (ri_cnt _ _ (proj1 Hd)) as Hc. unfold cur_list in Hc. destruct (cur_cmd_req _); cbn in Hc; [lia|done]. }
  set (q := rx_req (token_req_ex_pool (dispatcher e b) r)).
  set (e1 := dmod b (fun _ => d) e). destruct Hk as (K1 & K2 & K3 & K4).
  assert (at_ctx e1 K b (k_req true [r] [(r, q)] k)) as He1.
  { eapply at_dmod; [exact H|]. rewrite <- K1. by eapply pop_front_wait_req_inv. }
  assert (cur_cmd_req (dispatcher e1 b) = None) as Hn1.
  { unfold e1. rewrite dispatcher_dmod_eq. unfold pop_front_wait_req in Hp.
    destruct (token_req_wait_q _); [done|]. by injection Hp as _ <-. }
  set (e2 := if TEST_STATUS_FLAG _ DISPR_NOTIFY_IDLE then _ else e1). assert (safe e1 e2) as S2.
  { unfold e2. case_match; [|done]. etrans; [|apply dispr_send_msg_safe]. flag_step. }
  pose proof (register_at b r q e2 K k (at_safe _ _ _ _ _ S2 He1)) as Hr.
  rewrite (frame_cur e1 e2 b S2) in Hr. specialize (Hr (conj K1 (conj K2 (conj K3 K4))) Hn1).
  destruct (register_cur_cmd_req react b r e2) as [ok e3]. cbn [snd] in Hr.
  destruct ok; [by intros [= _ <-]|]. by apply IH.
Qed.

(** A slot whose status says it waits is in the queue. *)
Lemma enq_waits d k i :
  disp_inv d k -> rheld k = [] -> (i < MAX_CMD_REQ_NUM)%nat ->
  Z.testbit (rx_status (token_req_ex_pool d i)) 0 = true -> i ∈ token_req_wait_q d.
Proof.
  intros Hd Hh Hi Hb. assert (i ∈ seq 0 MAX_CMD_REQ_NUM) as Hs by (apply elem_of_seq; lia).
  rewrite <- (ri_perm _ _ Hd), Hh in Hs. rewrite !elem_of_app in Hs.
  destruct Hs as [Hs|[Hs|[Hs|Hs]]]; [|done| |set_solver].
  - destruct (ri_idle _ _ Hd i Hs) as [E _]. congruence.
  - unfold cur_list in Hs. destruct (cur_cmd_req d) as [r|] eqn:Er; [|set_solver].
    apply list_elem_of_singleton in Hs as ->. destruct (ri_cur _ _ Hd r Er). congruence.
Qed.

Lemma handle_token_op_at fuel b op e K k e' :
  at_ctx e K b k -> resting k -> _handle_token_op_info react fuel b op e = Some e' -> at_ctx e' K b k.
Proof.
  intros H Hk. unfold _handle_token_op_info. cbv zeta.
  assert (forall e, at_ctx e K b k -> snd <$> dispr_process_token_req react fuel b e = Some e' -> at_ctx e' K b k) as Hp.
  { intros e0 H0 Hs. destruct (dispr_process_token_req react fuel b e0) as [[s e1]|] eqn:E; [|done].
    injection Hs as <-. by eapply process_token_req_at. }
  case_match; [by apply Hp|]. case_match.
  { case_match; [by intros [= <-]|]. case_match; [by intros [= <-]|]. apply Hp. by apply deregister_at. }
  case_match; [|by intros [= <-]].
  destruct (Z.leb_spec (Z.of_nat MAX_CMD_REQ_NUM) (op_data op)) as [|Hlt]; [by intros [= <-]|].
  set (i := Z.to_nat (op_data op)). set (e1 := dmod b (rmod i _) e).
  assert (at_ctx e1 K b k) as He1.
  { eapply at_safe; [|exact H]. apply (rx_flag_same b i 2 setf); [auto|lia]. }
  destruct Hk as (K1 & K2 & K3 & K4).
  destruct (TEST_STATUS_FLAG _ REQ_STATUS_ENQ) eqn:Eq; last first.
  { case_match; [|by intros [= <-]]. apply Hp. by apply deregister_at. }
  intros Hs. apply (inj Some) in Hs as <-. set (e2 := dmod b (del_wait_req i) e1).
  assert (at_ctx e2 K b (k_req (run k) [i] [] k)) as He2.
  { eapply at_dmod; [exact He1|]. apply del_wait_req_inv; [apply (at_get _ _ _ _ He1)| |done..].
    eapply enq_waits; [apply (at_get _ _ _ _ He1)|done|unfold i, MAX_CMD_REQ_NUM in *; lia|]. by bits. }
  set (e3 := (call react _ e2).2). assert (safe e2 e3) as S3 by (by apply call_safe).
  pose proof (at_safe _ _ _ _ _ S3 He2) as He3.
  assert (k = k_req (run k) [] [] (k_req (run k) [i] [] k)) as Ek by (destruct k; cbn in *; by subst).
  rewrite Ek. eapply at_dmod; [exact He3|]. 
  apply (push_back_idle_req_inv _ _ _ (k_req (run k) [i] [] k)); [apply (at_get _ _ _ _ He3)|done].
Qed.

Lemma token_op_loop_at fuel b e K k e' :
  at_ctx e K b k -> resting k -> token_op_loop react fuel b e = Some e' -> at_ctx e' K b k.
Proof.
  intros H Hk. revert e H. induction fuel as [|f IH]; intros e H; cbn [token_op_loop];
    unfold pop_front_token_op_info; destruct (token_op_q (dispatcher e b)) as [|r q] eqn:Eq; try by intros [= <-].
  cbv zeta. set (e1 := dmod b _ e). assert (at_ctx e1 K b k) as H1.
  { eapply at_safe; [|exact H]. apply safe_same; [by split_and!|apply same_op_q]. }
  destruct (_handle_token_op_info react (S f) b _ e1) as [e2|] eqn:E2; [|done]. cbn [mbind option_bind].
  apply IH. pose proof (handle_token_op_at _ _ _ _ _ _ _ H1 Hk E2) as H2.
  eapply at_safe; [|exact H2]. apply safe_same; [apply dframe_set_op|apply same_set_op].
Qed.

Lemma token_op_hanler_at fuel b e K k e' :
  at_ctx e K b k -> resting k -> token_op_hanler react fuel b e = Some e' -> at_ctx e' K b k.
Proof.
  intros H Hk. unfold token_op_hanler. cbv zeta. case_match; [|by apply token_op_loop_at].
  intros [= <-]. eapply at_safe; [apply exclusive_ready_safe|done].
Qed.

(** ** Delivery *)

(** A step on a held slot followed by another. *)
Lemma held_step e e1 e2 K b k :
  at_ctx e K b k -> safe e e1 -> (at_ctx e1 K b k -> safe e1 e2) -> safe e e2.
Proof. intros H S1 S2. etrans; [exact S1|]. apply S2. by eapply at_safe. Qed.

Lemma notify_msg_fail_at b i ret e K k :
  at_ctx e K b k -> i ∈ held k -> safe e (notify_msg_fail react b i ret e).
Proof.
  intros H Hi. unfold notify_msg_fail. cbv zeta.
  set (e1 := dmod b _ e). assert (safe e e1) as S1.
  { eapply held_same; [exact H|exact Hi| |done]. intros ex n Hn. apply (testbit_flag_above 3 5 setf); [auto|lia..]. }
  eapply held_step; [exact H|exact S1|intros H1]. set (e2 := if bool_decide _ then _ else e1).
  assert (safe e1 e2) as S2 by (unfold e2; case_match; [by eapply held_same|done]).
  eapply held_step; [exact H1|exact S2|intros H2]. set (e3 := match mx_module _ with Some m => _ | None => e2 end).
  assert (safe e2 e3) as S3 by (unfold e3; repeat case_match; try done; by apply call_msg_safe).
  etrans; [exact S3|]. case_match; [apply cur_req_hdl_safe|done].
Qed.

Lemma clear_own_bit_keeps id ex :
  mx_status (clear_own_bit id ex) = mx_status ex /\ completion (clear_own_bit id ex) = completion ex.
Proof. unfold clear_own_bit. by case_match. Qed.

Lemma feed_mdl_msg_at b mdl i e K k :
  at_ctx e K b k -> i ∈ held k -> safe e (feed_mdl_msg react b mdl i e).2.
Proof.
  intros H Hi. unfold feed_mdl_msg. set (c := CbMsg b _ i _).
  pose proof (call_msg_safe c b i e I) as S1. destruct (call_msg react c b i e) as [ret e1]. cbn [snd] in *.
  eapply held_step; [exact H|exact S1|intros H1]. destruct ret.
  - eapply held_same; [exact H1|exact Hi|..]; intros ex *;
      by rewrite ?(proj1 (clear_own_bit_keeps (m_id mdl) ex)), ?(proj2 (clear_own_bit_keeps (m_id mdl) ex)).
  - set (e2 := dmod b _ e1). eapply (held_step _ e2); [exact H1|by eapply held_same|].
    intros H2. by eapply notify_msg_fail_at.
  - eapply held_same; [exact H1|exact Hi|..]; intros ex *;
      by rewrite ?(proj1 (clear_own_bit_keeps (m_id mdl) ex)), ?(proj2 (clear_own_bit_keeps (m_id mdl) ex)).
  - eapply (held_flag _ _ _ _ _ 9 setf); [done..|auto|lia].
  - set (e2 := dmod b _ e1). eapply (held_step _ e2); [exact H1|by eapply held_same|].
    intros H2. by eapply notify_msg_fail_at.
Qed.

Lemma phase_loop_at sel b i l e K k :
  at_ctx e K b k -> i ∈ held k -> safe e (phase_loop react sel b i l e).
Proof.
  intros H Hi. revert e H. induction l as [|mdl l IH]; intros e H; cbn [phase_loop]; [done|].
  case_match; [by apply IH|]. pose proof (feed_mdl_msg_at b mdl i e K k H Hi) as S1.
  destruct (feed_mdl_msg react b mdl i e) as [ret e1]. cbn [snd] in S1.
  case_match; [done|]. eapply held_step; [exact H|exact S1|apply IH].
Qed.

Lemma notify_controller_at b i e K k :
  at_ctx e K b k -> i ∈ held k -> safe e (_notify_dispr_controller react b i e).
Proof. intros H Hi. unfold _notify_dispr_controller. case_match; [done|]. by eapply feed_mdl_msg_at. Qed.

Section Held.
Context (K : Z -> ctx) (b : Z) (i : nat) (k : ctx) (Hk : resting k) (Hh : held k = [i]).

Lemma held_in : i ∈ held k.
Proof. rewrite Hh. set_solver. Qed.

Definition ends (e : phl_cmd_dispatch_engine) : Prop := at_ctx e K b (k_held [] k).

Lemma msg_end_at e g : at_ctx e K b k -> ends (msg_end react b i g e).
Proof.
  intros H. destruct Hk as (_ & _ & _ & Hn). unfold ends.
  destruct g; cbn [msg_end]; try by apply push_back_idle_msg_at. case_match.
  - eapply at_dmod; [exact H|]. apply push_back_pending_msg_inv; [apply (at_get _ _ _ _ H)|done..].
  - unfold push_back_wait_msg. eapply at_safe; [apply safe_notify|]. eapply at_dmod; [exact H|].
    apply wait_push_inv; [apply (at_get _ _ _ _ H)|done..|]. by rewrite Permutation_app_comm.
Qed.

Lemma checked_at f e :
  at_ctx e K b k -> (forall e, at_ctx e K b k -> ends (f e)) -> ends (checked react b i f e).
Proof. intros H Hf. unfold checked. case_match; [by apply msg_end_at..|by apply Hf]. Qed.

Lemma invalid_bitmap_at e : at_ctx e K b k -> ends (invalid_bitmap react b i e).
Proof.
  intros H. unfold invalid_bitmap. apply msg_end_at. eapply at_safe; [|exact H].
  eapply (held_flag _ _ _ _ _ 3 setf); [exact H|apply held_in|auto|lia].
Qed.

Lemma dispatch_post_at pre e : at_ctx e K b k -> ends (dispatch_post react b i pre e).
Proof.
  intros H. unfold dispatch_post. cbv zeta. apply checked_at.
  - case_match; [|done]. eapply at_safe; [|exact H]. eapply phase_loop_at; [exact H|apply held_in].
  - intros e' H'. case_match; [|by apply invalid_bitmap_at]. apply msg_end_at.
    eapply at_safe; [apply cur_req_hdl_safe|done].
Qed.

Lemma get_msg_bitmap_keeps ex :
  mx_status (get_msg_bitmap ex).2 = mx_status ex /\ completion (get_msg_bitmap ex).2 = completion ex.
Proof. unfold get_msg_bitmap. by case_match. Qed.

Lemma rewrite_slot_safe e ex :
  at_ctx e K b k -> mx_status ex = mx_status (slot e b i) -> completion ex = completion (slot e b i) ->
  safe e (dmod b (mmod i (fun _ => ex)) e).
Proof.
  intros H E1 E2. pose proof (at_get _ _ _ _ H) as [Hd _]. apply safe_same; [by split_and!|].
  apply same_mmod. split_and!; [by rewrite E1|done|]. intros H0 _. exfalso.
  destruct (mi_run _ _ Hd i held_in) as [_ E]. by rewrite H0, Z.bits_0 in E.
Qed.

Lemma dispatch_pre_at pre e : at_ctx e K b k -> ends (dispatch_pre react b i pre e).
Proof.
  intros H. unfold dispatch_pre. case_match; [|by apply dispatch_post_at]. apply checked_at.
  - eapply at_safe; [|exact H]. eapply phase_loop_at; [exact H|apply held_in].
  - intros e' H'. case_match; [|by apply invalid_bitmap_at]. set (e1 := dmod b _ e').
    assert (at_ctx e1 K b k) as He1.
    { eapply at_safe; [|exact H']. eapply (held_flag _ _ _ _ _ 4 clrf); [exact H'|apply held_in|auto|lia]. }
    destruct (get_msg_bitmap_keeps (slot e1 b i)) as [E1 E2].
    destruct (get_msg_bitmap (slot e1 b i)) as [pre' ex]. apply dispatch_post_at.
    eapply at_safe; [by apply rewrite_slot_safe|done].
Qed.

Lemma msg_dispatch_at e : at_ctx e K b k -> ends (msg_dispatch react b i e).
Proof.
  intros H. unfold msg_dispatch. destruct (get_msg_bitmap_keeps (slot e b i)) as [E1 E2].
  destruct (get_msg_bitmap (slot e b i)) as [pre ex]. apply checked_at.
  - eapply at_safe; [by apply rewrite_slot_safe|done].
  - intros e' H'. apply checked_at; [|by intros; apply dispatch_pre_at].
    eapply at_safe; [|exact H']. eapply notify_controller_at; [exact H'|apply held_in].
Qed.
End Held.

(** ** The thread *)

Lemma is_msg_canceled_keeps d ex :
  let ex' := (is_msg_canceled d ex).1 in
  (forall n, n = 0 \/ n = 1 \/ n = 2 -> Z.testbit (mx_status ex') n = Z.testbit (mx_status ex) n) /\
  completion ex' = completion ex.
Proof.
  unfold is_msg_canceled. cbv zeta. repeat case_match; cbn [fst]; try done; split; try done; intros n Hn;
    first [apply (testbit_flag_above 3 3 setf); [auto|lia..]|apply (testbit_flag_above 3 9 setf); [auto|lia..]].
Qed.

Lemma handle_one_msg_at b e K k e' :
  at_ctx e K b k -> resting k -> held k = [] -> handle_one_msg react b e = Some e' -> at_ctx e' K b k.
Proof.
  intros H Hk Hh. unfold handle_one_msg. destruct (pop_front_wait_msg (dispatcher e b)) as [[i d]|] eqn:Hp;
    [|by intros [= <-]].
  destruct (is_msg_canceled_keeps d (msg_ex_pool d i)) as [C1 C2].
  destruct (is_msg_canceled d (msg_ex_pool d i)) as [ex canceled]. cbn [fst] in *. set (e1 := dmod b _ e).
  set (k1 := k_held [i] k). assert (at_ctx e1 K b k1) as H1.
  { pose proof Hk as (_ & _ & _ & Hn). pose proof (pop_front_wait_msg_inv _ _ _ _ i d (at_get _ _ _ _ H) Hn Hp) as Hi.
    rewrite Hh in Hi. eapply at_dmod; [exact H|]. eapply inv1_same; [|exact Hi].
    eapply same_trans; [apply same_info|]. apply same_mmod. split_and!; try done. intros H0 _. exfalso.
    cbn in H0. destruct (mi_run _ _ (proj1 Hi) i) as [_ E]; [set_solver|]. by rewrite H0, Z.bits_0 in E. }
  assert (k = k_held [] k1) as Ek by (destruct k; cbn in *; by subst). assert (resting k1) as Hk1 by done.
  destruct canceled.
  { intros [= <-]. rewrite Ek. apply push_back_idle_msg_at; [done..|apply Hk1]. }
  destruct (_and_bitmaps _ (premap ex) _) as [pre|]; [|done].
  destruct (_and_bitmaps _ (postmap ex) _) as [post|]; [|done]. intros Hs. apply (inj Some) in Hs as <-.
  rewrite Ek. apply msg_dispatch_at; [done..|]. eapply at_safe; [|exact H1].
  eapply held_same; [exact H1|set_solver|done..].
Qed.

Lemma thread_loop_inv fuel b e K e' :
  eng_head e = hd -> L b -> eng_inv L e K -> K b = at_rest ->
  dispr_thread_loop_hdl react fuel b e = Some e' -> eng_head e' = hd /\ eng_inv L e' K.
Proof.
  intros Hn Hl H Hb. unfold dispr_thread_loop_hdl. case_match; [by intros [= <-]|].
  pose proof (at_rest_get _ _ _ Hn Hl H Hb) as Ha. apply (at_safe _ _ _ _ _ (clear_pending_msg_safe b e)) in Ha.
  assert (resting at_rest) as Hr by done.
  destruct (token_op_hanler react fuel b (clear_pending_msg b e)) as [e1|] eqn:E1; [|done].
  intros Hm. assert (at_ctx e' K b at_rest) as He.
  { eapply handle_one_msg_at; [|exact Hr|done|exact Hm]. by eapply token_op_hanler_at. }
  split; [apply He|by eapply at_rest_put].
Qed.

Lemma fold_None {A} (f : A -> phl_cmd_dispatch_engine -> option phl_cmd_dispatch_engine) l :
  fold_left (fun o x => e ← o; f x e) l None = None.
Proof. induction l; done. Qed.

Lemma bands_live e b : b ∈ bands e -> live e b.
Proof.
  unfold bands, live. intros Hb. apply list_elem_of_fmap in Hb as (n & -> & Hn). apply elem_of_seq in Hn. lia.
Qed.

(** A turn over all bands, given what it does on one. *)
Lemma bands_fold_inv (f : Z -> phl_cmd_dispatch_engine -> option phl_cmd_dispatch_engine) l e e' :
  (forall b e e', eng_head e = hd -> L b -> eng_inv L e (fun _ => at_rest) -> f b e = Some e' ->
     eng_head e' = hd /\ eng_inv L e' (fun _ => at_rest)) ->
  (forall b, b ∈ l -> L b) -> eng_head e = hd -> eng_inv L e (fun _ => at_rest) ->
  fold_left (fun o b => e ← o; f b e) l (Some e) = Some e' -> eng_head e' = hd /\ eng_inv L e' (fun _ => at_rest).
Proof.
  intros Hf. revert e. induction l as [|b l IH]; intros e Hl Hn H; cbn [fold_left]; [by intros [= <-]|].
  cbn [mbind option_bind]. destruct (f b e) as [e1|] eqn:E1; [|by rewrite fold_None].
  destruct (Hf b e e1) as [Hn1 H1]; [done| |done..|].
  - apply Hl. set_solver.
  - apply IH; [|done..]. intros b' Hb. apply Hl. set_solver.
Qed.
End Run.
End Thread.

Lemma share_thread_turn_inv react fuel e e' :
  eng_inv (live e) e (fun _ => at_rest) -> share_thread_turn react fuel e = Some e' ->
  eng_head e' = eng_head e /\ eng_inv (live e) e' (fun _ => at_rest).
Proof.
  intros H. unfold share_thread_turn. cbv zeta. apply bands_fold_inv; try done.
  - intros. by eapply thread_loop_inv.
  - intros b Hb. by apply bands_live in Hb.
Qed.
