(* ===== verification/DisprLife.v ===== *)
(** * The life of the command dispatcher

    Modules, start, stop, and everything in between: the invariant of
    DisprInv holds from start to stop for any interleaving of calls, module
    registrations and turns of the thread, with any callbacks; stopping
    terminates and completes every message and request. *)
From Stdlib Require Import ZArith Lia Bool List Permutation.
From stdpp Require Import base tactics list numbers sets functions relations.
From S2P Require Import Prelude PhlList PhlUtil Dispr DisprInv DisprRun.

(** ** Bands that are not started *)

Definition off (e : phl_cmd_dispatch_engine) (b : Z) : Prop := Z.testbit (dp_status (dispatcher e b)) 3 = false.

(** The history of band [b] has not changed. *)
Definition hist_same (b : Z) (tr tr' : list event) : Prop :=
  (forall c, count_ev (ev_accepted b c) tr' = count_ev (ev_accepted b c) tr) /\
  (forall c, count_ev (ev_completed b c) tr' = count_ev (ev_completed b c) tr) /\
  flat_map (ev_granted b) tr' = flat_map (ev_granted b) tr /\
  flat_map (ev_queued b) tr' = flat_map (ev_queued b) tr.

#[export] Instance hist_same_preorder b : PreOrder (hist_same b).
Proof.
  split; [done|]. intros t1 t2 t3 (A1 & A2 & A3 & A4) (B1 & B2 & B3 & B4). by split_and!; try congruence.
Qed.

Lemma hist_same_quiet b tr x : quiet_for b x -> hist_same b tr (tr ++ [x]).
Proof.
  intros (Q1 & Q2 & Q3 & Q4). split_and!.
  - intros c. by rewrite count_ev_snoc, Q1, Nat.add_0_r.
  - intros c. by rewrite count_ev_snoc, Q2, Nat.add_0_r.
  - by rewrite flat_map_snoc, Q3, app_nil_r.
  - by rewrite flat_map_snoc, Q4, app_nil_r.
Qed.

(** A step of other threads that the bands which are not started do not
    see: no queue moves, no event. *)
Definition unseen (e e' : phl_cmd_dispatch_engine) (b : Z) : Prop :=
  hist_same b (trace e) (trace e') /\ same (dispatcher e b) (dispatcher e' b).

Definition off_step (e e' : phl_cmd_dispatch_engine) : Prop := safe e e' /\ forall b, off e b -> unseen e e' b.

Lemma unseen_trans e1 e2 e3 b : unseen e1 e2 b -> unseen e2 e3 b -> unseen e1 e3 b.
Proof. intros [H1 S1] [H2 S2]. split; [by etrans|by eapply same_trans]. Qed.

Lemma unseen_refl e b : unseen e e b.
Proof. split; [done|apply same_refl]. Qed.

Lemma safe_off e e' b : safe e e' -> off e b -> off e' b.
Proof. intros [[_ F] _] H. destruct (F b) as (_ & _ & _ & _ & _ & _ & Hb). unfold off. by rewrite Hb by lia. Qed.

#[export] Instance off_step_preorder : PreOrder off_step.
Proof.
  split; [split; [done|]; intros; apply unseen_refl|]. intros e1 e2 e3 [S1 H1] [S2 H2].
  split; [by etrans|]. intros b Hb. eapply unseen_trans; [by apply H1|]. by eapply H2, safe_off.
Qed.

(** A change of one band the invariant does not see. *)
Lemma off_same b f e :
  dframe (dispatcher e b) (f (dispatcher e b)) -> same (dispatcher e b) (f (dispatcher e b)) -> off_step e (dmod b f e).
Proof.
  intros Hf Hs. split; [by apply safe_same|]. intros b' _. split; [done|]. rewrite dispatcher_dmod.
  case_decide; [by subst|apply same_refl].
Qed.

Lemma off_flag b n (f : Z -> Z -> Z) e : (f = setf \/ f = clrf) -> 4 < n -> off_step e (dmod b (dp_flag (f (BIT n))) e).
Proof. intros. apply off_same; [by apply dframe_flag|apply same_dp_flag]. Qed.

Ltac off_flag_step := first [apply (off_flag _ _ setf); [by left|lia] | apply (off_flag _ _ clrf); [by right|lia]].

Lemma off_notify e : off_step e (notify_dispr_thread e).
Proof. split; [apply safe_notify|]. intros b _. split; [done|apply same_refl]. Qed.

Lemma off_push_op b r t v e : off_step e (push_back_token_op_info b r t v e).2.
Proof.
  split; [apply push_op_safe|]. intros b' _. unfold push_back_token_op_info. case_match; [apply unseen_refl|].
  split; [done|]. cbn [snd notify_dispr_thread dispatcher]. rewrite dispatcher_dmod. case_decide; [subst|apply same_refl].
  eapply same_trans; [apply same_set_op|apply same_op_q].
Qed.

Lemma off_with_dispr b e f : (forall e, off_step e (f e)) -> off_step e (with_dispr b e e f).
Proof. intros H. unfold with_dispr. by case_match. Qed.

Lemma off_clearance_release b e : off_step e (phl_disp_eng_clearance_release b e).
Proof. apply off_with_dispr. intros e'. unfold dispr_clearance_release. etrans; [|apply off_push_op]. off_flag_step. Qed.

Lemma off_exclusive_ready b e : off_step e (phl_disp_eng_exclusive_ready b e).
Proof.
  apply off_with_dispr. intros e'. unfold dispr_exclusive_ready. case_match; [|done].
  etrans; [|apply off_push_op]. off_flag_step.
Qed.

Lemma off_token_complete b e : off_step e (cmd_token_complete b e).
Proof.
  unfold cmd_token_complete. case_match; [done|]. cbv zeta.
  set (e1 := if TEST_STATUS_FLAG _ DISPR_EXCLUSIVE_USE then _ else e). assert (off_step e e1) as H1.
  { unfold e1. case_match; [|done]. etrans; [|apply off_clearance_release]. off_flag_step. }
  etrans; [exact H1|]. case_match; [apply off_exclusive_ready|done].
Qed.

Lemma off_abort_complete b e : off_step e (on_abort_msg_complete b e).
Proof.
  unfold on_abort_msg_complete. etrans; [|apply off_push_op]. etrans; [|apply off_token_complete]. off_flag_step.
Qed.

(** Steps that touch one band [b], and do nothing when it is not started. *)
Lemma off_gated b e e' :
  safe e e' -> (off e b -> e' = e) -> (forall b', b' <> b -> off e b' -> unseen e e' b') -> off_step e e'.
Proof.
  intros Hs Hb Ho. split; [done|]. intros b' Hb'. destruct (decide (b' = b)) as [->|Hne]; [|by apply Ho].
  rewrite (Hb Hb'). apply unseen_refl.
Qed.

Lemma unseen_dmod b f e b' : b' <> b -> unseen e (dmod b f e) b'.
Proof. intros Hne. split; [done|]. rewrite dispatcher_dmod_ne by done. apply same_refl. Qed.

Lemma unseen_log x e b : quiet_for b x -> unseen e (log x e) b.
Proof. intros. split; [by apply hist_same_quiet|apply same_refl]. Qed.

Lemma off_started e b : off e b -> TEST_STATUS_FLAG (dp_status (dispatcher e b)) DISPR_STARTED = false.
Proof. intros H. unfold DISPR_STARTED. by rewrite TEST_BIT by lia. Qed.

Lemma off_send b msg attr e : off_step e (dispr_send_msg b msg attr e).2.
Proof.
  apply (off_gated b); [apply dispr_send_msg_safe|..]; unfold dispr_send_msg; cbv zeta.
  { intros H. by rewrite (off_started _ _ H). }
  intros b' Hne Hb'. do 4 (case_match; [apply unseen_refl|]). case_match; [|apply unseen_refl]. case_match.
  set (ex := build_msg_ex _ _ _). set (last := _ && TEST_STATUS_FLAG _ REQ_STATUS_LAST_PERMIT).
  destruct (last && _); cbn [snd].
  - unfold recycle_msg. cbv zeta. eapply unseen_trans; [by apply unseen_dmod|].
    eapply unseen_trans; [|by apply unseen_dmod]. case_match; [|apply unseen_refl].
    apply off_abort_complete. unfold off. by rewrite dispatcher_dmod_ne.
  - set (e1 := log _ _). assert (unseen e e1 b') as H1'.
    { eapply unseen_trans; [by apply unseen_dmod|]. apply unseen_log. split_and!; try done. intros c0. cbn.
      destruct (completion _); [|done]. by rewrite (proj2 (Z.eqb_neq b b')). }
    eapply unseen_trans; [exact H1'|]. destruct (IS_DISPR_CTRL _);
      (eapply unseen_trans; [by apply unseen_dmod|split; [done|apply same_refl]]).
Qed.

Lemma off_add_req b req e : off_step e (dispr_add_token_req b req e).2.
Proof.
  apply (off_gated b); [apply dispr_add_token_req_safe|..]; unfold dispr_add_token_req; cbv zeta.
  { intros H. by rewrite (off_started _ _ H). }
  intros b' Hne Hb'. do 2 (case_match; [apply unseen_refl|]). case_match; [|apply unseen_refl]. case_match. cbn [snd].
  set (e1 := log _ _). assert (unseen e e1 b') as H1'.
  { eapply unseen_trans; [by apply unseen_dmod|]. apply unseen_log. split_and!; try done. cbn.
    by rewrite (proj2 (Z.eqb_neq b b')). }
  eapply unseen_trans; [exact H1'|]. apply off_push_op. unfold off, e1. cbn [log dispatcher]. by rewrite dispatcher_dmod_ne.
Qed.

Lemma off_cancel_msg b hdl e : off_step e (dispr_cancel_msg b hdl e).2.
Proof.
  apply (off_gated b); [apply dispr_cancel_msg_safe|..]; unfold dispr_cancel_msg; cbv zeta.
  { intros H. by rewrite (off_started _ _ H). }
  intros b' Hne _. repeat case_match; try apply unseen_refl. by apply unseen_dmod.
Qed.

Lemma off_cancel_req b hdl e : off_step e (dispr_cancel_token_req b hdl e).2.
Proof. unfold dispr_cancel_token_req. cbv zeta. repeat case_match; try done. apply off_push_op. Qed.

Lemma off_free_token b hdl e : off_step e (dispr_free_token b hdl e).2.
Proof.
  unfold dispr_free_token. cbv zeta. repeat case_match; try done. rewrite enqueued_snd.
  etrans; [|apply off_push_op]. split; [apply (rx_flag_same b _ 2 setf); [by left|lia]|]. intros b' _. split; [done|].
  rewrite dispatcher_dmod. case_decide; [subst|apply same_refl]. apply same_rmod. split; [|done]. intros n Hn.
  by apply (testbit_flag_above 2 2 setf); [left|lia..].
Qed.

Lemma off_clr_pending b e : off_step e (dispr_clr_pending_msg b e).
Proof. unfold dispr_clr_pending_msg. etrans; [|apply off_notify]. off_flag_step. Qed.

Lemma off_dev_io b id allow e : off_step e (dispr_notify_dev_io_status b id allow e).2.
Proof.
  unfold dispr_notify_dev_io_status, send_dev_io_status_change. cbv zeta. repeat case_match; try done; cbn [snd].
  - etrans; [|apply off_send]. apply off_same; [apply (dframe_flag 6 setf); [by left|lia]|same_trivial].
  - etrans; [|apply off_clr_pending]. etrans; [|apply off_send].
    apply off_same; [apply (dframe_flag 6 clrf); [by right|lia]|same_trivial].
Qed.

Lemma fold_off {A} (f : phl_cmd_dispatch_engine -> A -> phl_cmd_dispatch_engine) l e :
  (forall e x, off_step e (f e x)) -> off_step e (fold_left f l e).
Proof. intros H. revert e. induction l as [|x l IH]; intros e; simpl; [done|]. etrans; [apply H|apply IH]. Qed.

Lemma off_api e a : off_step e (api_step e a).
Proof.
  destruct a; cbn [api_step];
    unfold phl_disp_eng_send_msg, phl_disp_eng_cancel_msg, phl_disp_eng_clr_pending_msg, phl_disp_eng_add_token_req,
      phl_disp_eng_cancel_token_req, phl_disp_eng_free_token, with_dispr; try (case_match; try done).
  - apply off_send.
  - apply off_cancel_msg.
  - apply off_clr_pending.
  - apply off_add_req.
  - apply off_cancel_req.
  - apply off_free_token.
  - apply fold_off. intros. apply off_dev_io.
  - apply fold_off. intros e' b. case_match; [|done]. unfold dispr_notify_shall_stop. case_match; [|done].
    etrans; [|apply off_clr_pending]. off_flag_step.
Qed.

Section OffCalls.
Context (react : cb -> phl_cmd_dispatch_engine -> reaction).

Lemma off_log c e : quiet_cb c -> off_step e (log (Called c) e).
Proof. intros Hc. split; [by apply log_safe|]. intros b _. apply unseen_log. by destruct c. Qed.

Lemma off_call c e : quiet_cb c -> off_step e (call react c e).2.
Proof. intros Hc. unfold call. cbn [snd]. etrans; [by apply off_log|apply fold_off, off_api]. Qed.
End OffCalls.

(** ** Modules *)

(** A dispatcher that is not running: initialised or stopped, its history
    balanced, so that a start may follow. *)
Record stopped (tr : list event) (b : Z) (d : cmd_dispatcher) : Prop := {
  st_cur : cur_cmd_req d = None;
  st_cnt : token_cnt d = 0;
  st_flags : forall n, n = 1 \/ n = 2 \/ n = 3 -> Z.testbit (dp_status d) n = false;
  st_compl : forall c, count_ev (ev_accepted b c) tr = count_ev (ev_completed b c) tr;
  st_fifo : sublist (flat_map (ev_granted b) tr) (flat_map (ev_queued b) tr)
}.

(** A step that may change modules: the invariant is kept, and bands that are
    stopped stay stopped. *)
Definition keeps_inv (e e' : phl_cmd_dispatch_engine) : Prop :=
  eng_head e' = eng_head e /\ (forall L K, eng_inv L e K -> eng_inv L e' K) /\
  forall b, (stopped (trace e) b (dispatcher e b) -> stopped (trace e') b (dispatcher e' b)) /\
            (Z.testbit (dp_status (dispatcher e' b)) 3 = Z.testbit (dp_status (dispatcher e b)) 3).

#[export] Instance keeps_inv_preorder : PreOrder keeps_inv.
Proof.
  split; [done|]. intros e1 e2 e3 (P1 & I1 & F1) (P2 & I2 & F2). split_and!; [congruence|auto|].
  intros b. destruct (F1 b) as [S1 O1], (F2 b) as [S2 O2]. split; [auto|congruence].
Qed.

Lemma stopped_unseen e e' b : safe e e' -> unseen e e' b ->
  stopped (trace e) b (dispatcher e b) -> stopped (trace e') b (dispatcher e' b).
Proof.
  intros [[_ F] _] [(H1 & H2 & H3 & H4) Hs] [S1 S2 S3 S4 S5].
  destruct (F b) as (_ & _ & _ & _ & F5 & F6 & F7). split; [congruence..| | |].
  - intros n Hn. rewrite F7 by lia. by apply S3.
  - intros c. by rewrite H1, H2.
  - by rewrite H3, H4.
Qed.

Lemma off_keeps e e' : off_step e e' -> keeps_inv e e'.
Proof.
  intros [Hs Ho]. pose proof Hs as [[Hh F] Hi]. split_and!; [done..|]. intros b. split.
  - intros Hst. eapply stopped_unseen; [exact Hs| |exact Hst]. apply Ho. apply (st_flags _ _ _ Hst). auto.
  - destruct (F b) as (_ & _ & _ & _ & _ & _ & F7). apply F7. lia.
Qed.

Lemma same_keeps b f e :
  same (dispatcher e b) (f (dispatcher e b)) ->
  (forall n, 0 <= n <= 3 -> Z.testbit (dp_status (f (dispatcher e b))) n = Z.testbit (dp_status (dispatcher e b)) n) ->
  keeps_inv e (dmod b f e).
Proof.
  intros Hs Hf. split_and!; [done|..].
  - intros L K H b' Hl. rewrite dispatcher_dmod. case_decide; [subst|by apply H].
    eapply inv1_same; [exact Hs|by apply H].
  - intros b'. rewrite dispatcher_dmod. case_decide; [subst|done]. split; [|apply Hf; lia].
    destruct Hs as (_ & _ & _ & _ & _ & _ & _ & E1 & E2). intros [S1 S2 S3 S4 S5]. split; try done; [congruence..|].
    intros n Hn. rewrite Hf by lia. by apply S3.
Qed.

Lemma same_mod_mdl r f d : same d (mod_mdl r f d).
Proof. destruct r; same_trivial. Qed.

Lemma mod_mdl_keeps b r f e : keeps_inv e (dmod b (mod_mdl r f) e).
Proof. by apply same_keeps; [apply same_mod_mdl|destruct r]. Qed.

Lemma same_module_q q d : same d (set_module_q q d).
Proof. same_trivial. Qed.

Section Modules.
Context (react : cb -> phl_cmd_dispatch_engine -> reaction).

Lemma call_keeps c e : quiet_cb c -> keeps_inv e (call react c e).2.
Proof. intros. by apply off_keeps, off_call. Qed.

Lemma bk_module_init_keeps b r e : keeps_inv e (bk_module_init react b r e).2.
Proof.
  unfold bk_module_init. cbv zeta. case_match; [done|]. set (c := CbInit b _).
  pose proof (call_keeps c e I) as H1. destruct (call react c e) as [ret e1]. cbn [snd] in *.
  destruct ret; try done. etrans; [exact H1|apply mod_mdl_keeps].
Qed.

Lemma bk_module_start_keeps b r e : keeps_inv e (bk_module_start react b r e).2.
Proof.
  unfold bk_module_start. cbv zeta. case_match; [done|]. set (c := CbStart b _).
  pose proof (call_keeps c e I) as H1. destruct (call react c e) as [ret e1]. cbn [snd] in *.
  destruct ret; try done. etrans; [exact H1|apply mod_mdl_keeps].
Qed.

Lemma bk_module_stop_keeps b r e : keeps_inv e (bk_module_stop react b r e).2.
Proof.
  unfold bk_module_stop. cbv zeta. case_match; [done|]. set (e1 := dmod b _ e). set (c := CbStop b _).
  pose proof (call_keeps c e1 I) as H1. destruct (call react c e1) as [ret e2]. cbn [snd] in *.
  etrans; [apply mod_mdl_keeps|exact H1].
Qed.

Lemma bk_module_deinit_keeps b r e : keeps_inv e (bk_module_deinit react b r e).
Proof.
  unfold bk_module_deinit. cbv zeta. set (e1 := if TEST_STATUS_FLAG _ _ then _ else e).
  assert (keeps_inv e e1) as H1 by (unfold e1; case_match; [by apply call_keeps|done]).
  etrans; [exact H1|apply mod_mdl_keeps].
Qed.

Lemma freed_keeps b r e : keeps_inv e (dmod b (set_damaged true) (bk_module_deinit react b r e)).
Proof. etrans; [apply bk_module_deinit_keeps|]. by apply same_keeps; [apply same_damaged|]. Qed.

Lemma enroll_same id p d : same d (enroll id p d).
Proof. unfold enroll. cbv zeta. case_match; same_trivial. Qed.

Lemma enroll_flags id p d n : 0 <= n <= 3 -> Z.testbit (dp_status (enroll id p d)) n = Z.testbit (dp_status d) n.
Proof. intros _. unfold enroll. cbv zeta. by case_match. Qed.

Lemma unenroll_same id d : same d (unenroll id d).
Proof. same_trivial. Qed.

Lemma dispr_register_module_keeps b id ok al e : keeps_inv e (dispr_register_module react b id ok al e).2.
Proof.
  unfold dispr_register_module. cbv zeta. case_match; [done|]. case_match; [done|].
  set (e0 := dmod b _ e). set (r := MQ _ _). assert (keeps_inv e e0) as He0 by (apply same_keeps; [apply same_module_q|done]).
  pose proof (bk_module_init_keeps b r e0) as H1. destruct (bk_module_init react b r e0) as [ok1 e1]. cbn [snd] in H1.
  etrans; [exact He0|]. etrans; [exact H1|]. destruct (ok1 && _).
  - pose proof (bk_module_start_keeps b r e1) as H2. destruct (bk_module_start react b r e1) as [ok2 e2].
    cbn [snd] in H2. etrans; [exact H2|]. destruct ok2; cbn [snd]; [apply same_keeps; [apply enroll_same|apply enroll_flags]|].
    apply freed_keeps.
  - destruct ok1; cbn [snd]; [done|apply freed_keeps].
Qed.

Lemma dispr_deregister_module_keeps b id e : keeps_inv e (dispr_deregister_module react b id e).2.
Proof.
  unfold dispr_deregister_module. cbv zeta. case_match; [done|]. case_match; [|done].
  set (e0 := dmod b _ e). assert (keeps_inv e e0) as H1 by (apply same_keeps; [same_trivial|done]).
  set (e1 := if TEST_STATUS_FLAG _ MDL_STARTED then _ else e0).
  assert (keeps_inv e0 e1) as H2 by (unfold e1; case_match; [by apply call_keeps|done]).
  cbn [snd]. etrans; [exact H1|]. etrans; [exact H2|]. set (e2 := if TEST_STATUS_FLAG _ MDL_INIT then _ else e1).
  assert (keeps_inv e1 e2) as H3 by (unfold e2; case_match; [by apply call_keeps|done]).
  etrans; [exact H3|]. apply same_keeps; [same_trivial|done].
Qed.

Lemma fold_keeps {A} (f : phl_cmd_dispatch_engine -> A -> phl_cmd_dispatch_engine) l e :
  (forall e x, keeps_inv e (f e x)) -> keeps_inv e (fold_left f l e).
Proof. intros H. revert e. induction l as [|x l IH]; intros e; simpl; [done|]. etrans; [apply H|apply IH]. Qed.

Lemma start_one_keeps b e r : keeps_inv e (start_one react b e r).
Proof.
  unfold start_one. pose proof (bk_module_start_keeps b r e) as H1. destruct (bk_module_start react b r e) as [ok e1].
  cbn [snd] in H1. etrans; [exact H1|]. destruct ok; [apply same_keeps; [apply enroll_same|apply enroll_flags]|done].
Qed.

Lemma stop_one_keeps b e r : keeps_inv e (stop_one react b e r).
Proof. unfold stop_one. etrans; [|apply bk_module_stop_keeps]. by apply same_keeps; [apply unenroll_same|]. Qed.

Lemma dispr_module_start_keeps b e : keeps_inv e (dispr_module_start react b e).2.
Proof. unfold dispr_module_start. case_match; [done|]. apply fold_keeps, start_one_keeps. Qed.

Lemma dispr_module_stop_keeps b e : keeps_inv e (dispr_module_stop react b e).2.
Proof. unfold dispr_module_stop. case_match; [done|]. apply fold_keeps, stop_one_keeps. Qed.
End Modules.

(** ** Steps *)

(** What may happen between start and stop: a call of another thread, the
    registration or removal of a module, a turn of the thread after the
    semaphore was up.  The callbacks may react differently every time. *)
Inductive eng_step : phl_cmd_dispatch_engine -> phl_cmd_dispatch_engine -> Prop :=
  | step_api e a : eng_step e (api_step e a)
  | step_register react b id ops alloc e : eng_step e (dispr_register_module react b id ops alloc e).2
  | step_deregister react b id e : eng_step e (dispr_deregister_module react b id e).2
  | step_turn react fuel e e' :
      0 < msg_q_sema e -> share_thread_turn react fuel e = Some e' -> eng_step e e'.

(** The invariant between two turns of the thread. *)
Definition running (e : phl_cmd_dispatch_engine) : Prop := eng_inv (live e) e (fun _ => at_rest).

Lemma running_keeps e e' : keeps_inv e e' -> running e -> running e'.
Proof. intros (P & I & _) H. unfold running. injection P as P _. unfold live. rewrite P. by apply I. Qed.

Lemma eng_step_running e e' : eng_step e e' -> running e -> eng_head e' = eng_head e /\ running e'.
Proof.
  intros Hs H. assert (forall e', keeps_inv e e' -> eng_head e' = eng_head e /\ running e') as Hk.
  { intros e0 H0. split; [apply H0|by eapply running_keeps]. }
  destruct Hs as [e a|react b id ops al e|react b id e|react fuel e e' _ Ht].
  - apply Hk, off_keeps, off_api.
  - apply Hk, dispr_register_module_keeps.
  - apply Hk, dispr_deregister_module_keeps.
  - destruct (share_thread_turn_inv _ _ _ _ H Ht) as [P I]. split; [done|].
    unfold running, live. injection P as -> _. exact I.
Qed.

(** ** Start *)

Lemma reset_all_idle l d :
  (forall i, msg_ex_pool d i = fresh_msg_ex) ->
  let d' := fold_left (fun d i => reset_msg i d) l d in
  (forall i, mx_status (msg_ex_pool d' i) = 0 /\ msg_id (mx_msg (msg_ex_pool d' i)) = 0 /\
             completion (msg_ex_pool d' i) = None) /\
  msg_idle_q d' = msg_idle_q d ++ l /\ msg_wait_q d' = msg_wait_q d /\ msg_pend_q d' = msg_pend_q d /\
  cur_cmd_req d' = cur_cmd_req d /\ token_cnt d' = token_cnt d /\ dp_status d' = dp_status d.
Proof.
  intros H. cbv zeta.
  assert (forall i, mx_status (msg_ex_pool d i) = 0 /\ msg_id (mx_msg (msg_ex_pool d i)) = 0 /\
             completion (msg_ex_pool d i) = None) as H0 by (intros i; by rewrite H).
  clear H. revert d H0. induction l as [|i l IH]; intros d H0; cbn [fold_left]; [by rewrite app_nil_r|].
  destruct (IH (reset_msg i d)) as (A1 & A2 & A3 & A4 & A5 & A6 & A7).
  { intros j. unfold reset_msg. cbv zeta. destruct (decide (i = j)) as [<-|Hne].
    - destruct (_ =? _); cbn; rewrite !fn_lookup_insert; by destruct (H0 i) as (? & ? & ?).
    - destruct (_ =? _); cbn; rewrite !fn_lookup_insert_ne by done; apply H0. }
  split; [done|]. rewrite A2, A3, A4, A5, A6, A7. unfold reset_msg. cbv zeta.
  destruct (_ =? _); cbn; by rewrite <- app_assoc.
Qed.

Lemma push_all_idle l d :
  fold_left (fun d i => set_token_req_idle_q (token_req_idle_q d ++ [i]) d) l d =
  set_token_req_idle_q (token_req_idle_q d ++ l) d.
Proof.
  revert d. induction l as [|i l IH]; intros d; cbn [fold_left]; [rewrite app_nil_r; by destruct d|].
  rewrite IH. cbn. by rewrite <- app_assoc.
Qed.

(** What [dispr_start] does to the dispatcher before its controller starts. *)
Definition boot (d : cmd_dispatcher) : cmd_dispatcher :=
  let d := init_dispr_mdl_mgnt_info (init_cmd_req_pool (init_dispr_msg_pool d)) in
  let d := set_exclusive_mdl PHL_MDL_ID_MAX (set_renew_req_info zero_op d) in
  dp_flag (setf DISPR_NOTIFY_IDLE) (dp_flag (setf DISPR_STARTED) d).

Lemma slots_with_none P n : (forall i, P i = false) -> slots_with P n = O.
Proof.
  intros H. unfold slots_with. rewrite (filter_ext _ (fun _ => false) H). by induction (seq 0 n).
Qed.

(** The pools as [init_dispr_msg_pool] and [init_cmd_req_pool] leave them. *)
Lemma init_dispr_msg_pool_spec d :
  Z.testbit (dp_status d) 1 = false ->
  let d' := init_dispr_msg_pool d in
  (forall i, mx_status (msg_ex_pool d' i) = 0 /\ msg_id (mx_msg (msg_ex_pool d' i)) = 0 /\
             completion (msg_ex_pool d' i) = None) /\
  msg_idle_q d' = seq 0 MAX_PHL_MSG_NUM /\ msg_wait_q d' = [] /\ msg_pend_q d' = [] /\
  cur_cmd_req d' = cur_cmd_req d /\ token_cnt d' = token_cnt d /\ dp_status d' = setf DISPR_MSGQ_INIT (dp_status d).
Proof.
  intros H. unfold init_dispr_msg_pool, DISPR_MSGQ_INIT. rewrite TEST_BIT, H by lia. cbv zeta.
  set (d0 := set_msg_ex_pool _ _). generalize (seq 0 MAX_PHL_MSG_NUM). intros l.
  destruct (reset_all_idle l d0) as (A1 & A2 & A3 & A4 & A5 & A6 & A7); [done|].
  split; [exact A1|]. split_and!; cbn [dp_flag set_dp_status msg_idle_q msg_wait_q msg_pend_q cur_cmd_req token_cnt dp_status].
  - by rewrite A2.
  - by rewrite A3.
  - by rewrite A4.
  - by rewrite A5.
  - by rewrite A6.
  - by rewrite A7.
Qed.

Lemma init_cmd_req_pool_spec d :
  Z.testbit (dp_status d) 2 = false ->
  init_cmd_req_pool d =
  dp_flag (setf DISPR_REQ_INIT) (set_token_req_idle_q (seq 0 MAX_CMD_REQ_NUM)
    (set_token_req_ex_pool (fun _ => ReqEx 0 (Req 0 0 0 false) zero_op zero_op)
       (set_token_op_q [] (set_token_req_idle_q [] (set_token_req_wait_q [] d))))).
Proof.
  intros H. unfold init_cmd_req_pool, DISPR_REQ_INIT. rewrite TEST_BIT, H by lia. cbv zeta. by rewrite push_all_idle.
Qed.

Lemma boot_inv tr b d : stopped tr b d -> inv1 tr b (boot d) at_rest.
Proof.
  intros [S1 S2 S3 S4 S5]. unfold boot. cbv zeta.
  destruct (init_dispr_msg_pool_spec d) as (A1 & A2 & A3 & A4 & A5 & A6 & A7); [apply S3; auto|].
  set (d1 := init_dispr_msg_pool d) in *. rewrite init_cmd_req_pool_spec; last first.
  { rewrite A7. unfold DISPR_MSGQ_INIT. rewrite testbit_setf by lia. by rewrite S3 by auto. }
  set (d2 := dp_flag _ _). assert (msg_ex_pool d2 = msg_ex_pool d1 /\ msg_idle_q d2 = seq 0 MAX_PHL_MSG_NUM /\
    msg_wait_q d2 = [] /\ msg_pend_q d2 = []) as (B1 & B2 & B3 & B4) by done.
  assert (token_req_idle_q d2 = seq 0 MAX_CMD_REQ_NUM /\ token_req_wait_q d2 = [] /\ cur_cmd_req d2 = None /\
    token_cnt d2 = 0 /\ forall i, token_req_ex_pool d2 i = ReqEx 0 (Req 0 0 0 false) zero_op zero_op) as
    (C1 & C2 & C3 & C4 & C5).
  { split_and!; [done|done|by rewrite <- S1, <- A5|by rewrite <- S2, <- A6|done]. }
  eapply (inv1_same _ _ d2); [same_trivial|]. rewrite <- B1 in A1. clearbody d2. clear d1 A2 A3 A4 A5 A6 A7 S3 B1.
  assert (cur_list d2 = []) as C6 by (unfold cur_list; by rewrite C3).
  split; split; rewrite ?B2, ?B3, ?B4, ?C1, ?C2, ?C6; cbn [at_rest held rheld grant infl app]; try done;
    try (intros ? Hx; by apply not_elem_of_nil in Hx); try (intros ? ? Hx; by apply not_elem_of_nil in Hx).
  - intros i _. by destruct (A1 i) as (? & ? & _).
  - intros i _. by rewrite C5, !Z.bits_0.
  - intros i. by rewrite C3.
  - intros c. cbn [count_occ]. rewrite Nat.add_0_r, S4. unfold outstanding. rewrite slots_with_none; [lia|].
    intros i. unfold owes. destruct (A1 i) as (-> & _ & _). by rewrite Z.bits_0.
  - unfold wait_reqs. rewrite C2. cbn [map]. by rewrite app_nil_r.
Qed.

Lemma boot_bits d n : n = 3 -> Z.testbit (dp_status (boot d)) n = true.
Proof.
  intros ->. unfold boot. cbv zeta. cbn [dp_flag set_dp_status dp_status]. unfold DISPR_NOTIFY_IDLE, DISPR_STARTED.
  rewrite !testbit_setf by lia. by rewrite orb_true_r.
Qed.

Section Start.
Context (react : cb -> phl_cmd_dispatch_engine -> reaction).

Lemma ctrl_flag_keeps b (f : Z -> Z -> Z) e :
  (f = setf \/ f = clrf) -> keeps_inv e (dmod b (dp_flag (f DISPR_CTRL_PRESENT)) e).
Proof.
  intros Hf. apply same_keeps; [apply same_dp_flag|]. intros n Hn. by apply (testbit_flag_above 4); [|lia..].
Qed.

Lemma start_controller_keeps b e : keeps_inv e (_start_dispr_controller react b e).2.
Proof.
  unfold _start_dispr_controller. pose proof (bk_module_start_keeps react b MCtrl e) as H.
  destruct (bk_module_start react b MCtrl e) as [ok e1]. cbn [snd] in *. etrans; [exact H|].
  destruct ok; [apply (ctrl_flag_keeps b setf); auto|done].
Qed.

(** Bands [L] run and the others that exist are stopped. *)
Definition partly (L : Z -> Prop) (hd : Z * Z) (e : phl_cmd_dispatch_engine) : Prop :=
  eng_head e = hd /\ eng_inv L e (fun _ => at_rest) /\
  forall b, 0 <= b < hd.1 -> ~ L b -> stopped (trace e) b (dispatcher e b).

Lemma partly_keeps L hd e e' : keeps_inv e e' -> partly L hd e -> partly L hd e'.
Proof.
  intros (P & I & F) (Hh & Hi & Hs). split_and!; [congruence|auto|]. intros b Hb Hn. apply (F b). by apply Hs.
Qed.

Lemma dispr_start_partly L hd b e :
  partly L hd e -> 0 <= b < hd.1 -> ~ L b -> partly (fun x => L x \/ x = b) hd (dispr_start react b e).2.
Proof.
  intros (Hh & Hi & Hs) Hb Hn. unfold dispr_start, DISPR_STARTED. pose proof (Hs b Hb Hn) as Hst.
  rewrite TEST_BIT, (st_flags _ _ _ Hst) by (auto; lia). cbv zeta. cbn [snd]. fold boot.
  eapply partly_keeps; [apply start_controller_keeps|]. split_and!; [done|..].
  - intros x Hx. rewrite dispatcher_dmod. case_decide; [subst; by apply boot_inv|]. apply Hi.
    destruct Hx; [done|congruence].
  - intros x Hx Hnx. rewrite dispatcher_dmod_ne by (intros ->; tauto). apply Hs; [done|tauto].
Qed.

Lemma partly_ext L L' hd e : (forall b, L b <-> L' b) -> partly L hd e -> partly L' hd e.
Proof.
  intros H (Hh & Hi & Hs). split_and!; [done|..].
  - intros b Hb. by apply Hi, H.
  - intros b Hb Hn. apply Hs; [done|]. by rewrite H.
Qed.

Lemma start_bands l L hd e :
  NoDup l -> (forall b, b ∈ l -> 0 <= b < hd.1 /\ ~ L b) -> partly L hd e ->
  partly (fun x => L x \/ x ∈ l) hd
    (fold_left (fun e b => (dispr_module_start react b (dispr_start react b e).2).2) l e).
Proof.
  revert L e. induction l as [|b l IH]; intros L e Hnd Hl H; cbn [fold_left].
  { eapply partly_ext; [|exact H]. intros b. rewrite elem_of_nil. tauto. }
  apply list.NoDup_cons in Hnd as [Hb Hnd]. destruct (Hl b) as [Hr Hn]; [set_solver|].
  apply (partly_ext (fun x => (L x \/ x = b) \/ x ∈ l)).
  { intros x. rewrite elem_of_cons. tauto. }
  apply IH; [done|..].
  - intros x Hx. destruct (Hl x) as [? ?]; [set_solver|]. split; [done|]. intros [|]; [done|congruence].
  - eapply partly_keeps; [apply dispr_module_start_keeps|]. by apply dispr_start_partly.
Qed.

Lemma bands_nodup e : NoDup (bands e).
Proof. apply (NoDup_fmap_2 Z.of_nat), NoDup_seq. Qed.

Lemma elem_of_bands e b : b ∈ bands e <-> live e b.
Proof.
  split; [apply bands_live|]. unfold live, bands. intros Hb. apply list_elem_of_fmap. exists (Z.to_nat b).
  rewrite elem_of_seq. lia.
Qed.

Definition down (e : phl_cmd_dispatch_engine) : Prop :=
  forall b, live e b -> stopped (trace e) b (dispatcher e b).

Lemma exclusive_ready_0_keeps e : keeps_inv e (dispr_exclusive_ready 0 false e).
Proof. unfold dispr_exclusive_ready. case_match; [|done]. apply off_keeps. off_flag_step. Qed.

Lemma phl_disp_eng_start_running e :
  down e -> Z.testbit (eng_status e) 1 = false ->
  let e' := (phl_disp_eng_start react e).2 in
  running e' /\ eng_head e' = (phy_num e, setf DISPR_ENG_STARTED (eng_status e)).
Proof.
  intros Hd Hs. unfold phl_disp_eng_start, DISPR_ENG_STARTED. rewrite TEST_BIT, Hs by lia. cbv zeta. cbn [snd].
  set (e0 := Eng (phy_num e) _ _ 0 _). set (e1 := fold_left _ (bands e0) e0).
  assert (partly (live e) (eng_head e) e1) as (P1 & P2 & _).
  { eapply partly_ext; [|apply (start_bands (bands e0) (fun _ => False))].
    - intros b. cbv beta. rewrite elem_of_bands. unfold live. cbn. tauto.
    - apply bands_nodup.
    - intros b Hb. apply elem_of_bands in Hb. split; [exact Hb|tauto].
    - split_and!; [done|intros b []|]. intros b Hb _. by apply Hd. }
  injection P1 as P1 P3. set (e2 := eng_flag _ e1). assert (running e2) as H2.
  { intros b Hb. unfold live in Hb. cbn in Hb. apply (P2 b). unfold live. lia. }
  assert (keeps_inv e2 (if phy_num e2 =? 1 then dispr_exclusive_ready 0 false e2 else e2)) as H3.
  { case_match; [apply exclusive_ready_0_keeps|done]. }
  split; [by eapply running_keeps|]. rewrite (proj1 H3). unfold eng_head. cbn. by rewrite P1, P3.
Qed.
End Start.
