(* ===== verification/DisprStop.v ===== *)
(** * Stopping the command dispatcher

    Once no dispatcher is started, nothing enters its queues any more: the
    thread leaves, every message is completed and every request aborted, and
    the dispatchers can be started again. *)
From Stdlib Require Import ZArith Lia Bool List Permutation.
From stdpp Require Import base tactics list numbers sets functions relations.
From S2P Require Import Prelude PhlList PhlUtil Dispr DisprInv DisprRun DisprLife.

(** ** Steps of the thread on band [b] *)

(** Other bands that are not started see nothing, and no band starts or
    stops. *)
Definition calm (b : Z) (e e' : phl_cmd_dispatch_engine) : Prop :=
  eng_head e' = eng_head e /\
  forall x, Z.testbit (dp_status (dispatcher e' x)) 3 = Z.testbit (dp_status (dispatcher e x)) 3 /\
            (x <> b -> off e x -> unseen e e' x).

#[export] Instance calm_preorder b : PreOrder (calm b).
Proof.
  split; [intros e; split; [done|]; intros x; split; [done|intros; apply unseen_refl]|].
  intros e1 e2 e3 [H1 F1] [H2 F2]. split; [congruence|]. intros x. destruct (F1 x) as [A1 A2], (F2 x) as [B1 B2].
  split; [congruence|]. intros Hn Ho. eapply unseen_trans; [by apply A2|]. apply B2; [done|]. unfold off in *. congruence.
Qed.

Lemma off_calm b e e' : off_step e e' -> calm b e e'.
Proof.
  intros [Hs Ho]. pose proof Hs as [[Hh F] _]. split; [done|]. intros x. split; [|by intros; apply Ho].
  destruct (F x) as (_ & _ & _ & _ & _ & _ & F7). apply F7. lia.
Qed.

Lemma calm_dmod b f e :
  Z.testbit (dp_status (f (dispatcher e b))) 3 = Z.testbit (dp_status (dispatcher e b)) 3 -> calm b e (dmod b f e).
Proof.
  intros H. split; [done|]. intros x. split; [|intros; by apply unseen_dmod].
  rewrite dispatcher_dmod. case_decide; by subst.
Qed.

(** The same for a change that keeps the status of any dispatcher. *)
Lemma calm_mod b f e : (forall d, dp_status (f d) = dp_status d) -> calm b e (dmod b f e).
Proof. intros H. apply calm_dmod. by rewrite H. Qed.

Lemma calm_off b e e' x : calm b e e' -> off e x -> off e' x.
Proof. intros [_ F] H. unfold off. by rewrite (proj1 (F x)). Qed.

(** The queues of band [b]. *)
Definition queues (e : phl_cmd_dispatch_engine) (b : Z) : list nat * list nat * list nat * option nat :=
  let d := dispatcher e b in (msg_wait_q d, msg_pend_q d, token_req_wait_q d, cur_cmd_req d).

Lemma off_queues e e' b : off_step e e' -> off e b -> queues e' b = queues e b.
Proof.
  intros [_ Ho] H. destruct (Ho b H) as [_ (_ & _ & _ & E1 & E2 & _ & E3 & E4 & _)].
  unfold queues. by rewrite E1, E2, E3, E4.
Qed.

Section Stop.
Context (react : cb -> phl_cmd_dispatch_engine -> reaction) (b : Z).

(** A step on band [b] that is calm and keeps its queues. *)
Definition calm_q (e e' : phl_cmd_dispatch_engine) : Prop :=
  calm b e e' /\ (off e b -> queues e' b = queues e b).

#[local] Instance calm_q_preorder : PreOrder calm_q.
Proof.
  split; [done|]. intros e1 e2 e3 [C1 Q1] [C2 Q2]. split; [by etrans|]. intros Ho.
  rewrite Q2, Q1; try done. by eapply calm_off.
Qed.

Lemma off_calm_q e e' : off_step e e' -> calm_q e e'.
Proof. intros H. split; [by apply off_calm|by apply off_queues]. Qed.

Lemma calm_q_dmod f e :
  Z.testbit (dp_status (f (dispatcher e b))) 3 = Z.testbit (dp_status (dispatcher e b)) 3 ->
  queues (dmod b f e) b = queues e b -> calm_q e (dmod b f e).
Proof. intros H1 H2. split; [by apply calm_dmod|done]. Qed.

Lemma calm_q_slot i f e : calm_q e (dmod b (mmod i f) e).
Proof. apply calm_q_dmod; unfold queues; rewrite ?dispatcher_dmod_eq; done. Qed.

Lemma call_msg_calm c i e : (forall x, x <> b -> quiet_for x (Called c)) -> calm_q e (call_msg react c b i e).2.
Proof.
  intros Hc. unfold call_msg. cbn [snd]. etrans; [|apply off_calm_q, fold_off, off_api].
  etrans; [|apply calm_q_slot]. split; [|done]. split; [done|]. intros x. split; [done|]. intros Hn _.
  apply unseen_log. by apply Hc.
Qed.

Lemma reset_msg_calm i e : calm_q e (dmod b (reset_msg i) e).
Proof.
  apply calm_q_dmod; unfold queues; rewrite ?dispatcher_dmod_eq; unfold reset_msg; cbv zeta; by case_match.
Qed.

Lemma push_back_idle_msg_calm i e : calm_q e (push_back_idle_msg react b i e).
Proof.
  unfold push_back_idle_msg. cbv zeta. set (e1 := match completion _ with Some c => _ | None => e end).
  assert (calm_q e e1) as H1.
  { unfold e1. case_match; [|done]. case_match; [|done]. etrans; [|apply calm_q_slot].
    set (e2 := if TEST_STATUS_FLAG _ MSG_STATUS_CANCEL then _ else e).
    assert (calm_q e e2) as H2 by (unfold e2; case_match; [apply calm_q_slot|done]).
    etrans; [exact H2|]. apply call_msg_calm. intros x Hx. split_and!; try done. intros c. cbn.
    by rewrite (proj2 (Z.eqb_neq b x)). }
  etrans; [exact H1|]. unfold recycle_msg. cbv zeta. etrans; [|apply reset_msg_calm].
  case_match; [apply off_calm_q, off_abort_complete|done].
Qed.

(** The requests of band [b]. *)
Definition reqs (e : phl_cmd_dispatch_engine) : list nat * option nat :=
  (token_req_wait_q (dispatcher e b), cur_cmd_req (dispatcher e b)).

Lemma drain_pending_ok l e :
  msg_pend_q (dispatcher e b) = l ->
  let e' := drain_pending b l e in
  safe e e' /\ calm b e e' /\ msg_pend_q (dispatcher e' b) = [] /\ reqs e' = reqs e.
Proof.
  cbv zeta. revert e. induction l as [|i l IH]; intros e Hp; cbn [drain_pending]; [done|].
  set (e1 := push_back_wait_msg b i _).
  assert (safe e e1) as S1.
  { eapply (requeue_safe (fun d => msg_wait_q d ++ [i])); [|exact Hp]. intros d. by rewrite Permutation_app_comm. }
  assert (calm b e e1) as C1.
  { unfold e1, push_back_wait_msg. etrans; [|apply off_calm, off_notify].
    etrans; [|by apply calm_dmod]. by apply calm_dmod. }
  assert (msg_pend_q (dispatcher e1 b) = l /\ reqs e1 = reqs e) as [P1 R1].
  { unfold e1, push_back_wait_msg, reqs. cbn [notify_dispr_thread dispatcher]. rewrite !dispatcher_dmod_eq. cbn.
    by rewrite Hp. }
  destruct (IH e1 P1) as (S2 & C2 & P2 & R2). split_and!; [by etrans|by etrans|done|congruence].
Qed.

Section Band.
Context (hd : Z * Z) (L : Z -> Prop) (K : Z -> ctx).

Lemma pop_wait_off e i d :
  pop_front_wait_msg (dispatcher e b) = Some (i, d) ->
  calm b e (dmod b (fun _ => d) e) /\ msg_wait_q (dispatcher e b) = i :: msg_wait_q d /\
  msg_pend_q d = msg_pend_q (dispatcher e b) /\ reqs (dmod b (fun _ => d) e) = reqs e.
Proof.
  unfold pop_front_wait_msg. destruct (msg_wait_q (dispatcher e b)) as [|j q]; [done|]. intros [= -> <-].
  split_and!; try done; [by apply calm_dmod|]. unfold reqs. by rewrite dispatcher_dmod_eq.
Qed.

Lemma drain_wait_ok fuel e :
  at_ctx hd L e K b at_rest -> off e b -> (length (msg_wait_q (dispatcher e b)) <= fuel)%nat ->
  exists e', drain_wait react fuel b e = Some e' /\ at_ctx hd L e' K b at_rest /\ calm b e e' /\
    msg_wait_q (dispatcher e' b) = [] /\ msg_pend_q (dispatcher e' b) = msg_pend_q (dispatcher e b) /\ reqs e' = reqs e.
Proof.
  revert e. induction fuel as [|f IH]; intros e H Ho Hl; cbn [drain_wait].
  { destruct (msg_wait_q (dispatcher e b)) eqn:E; cbn in Hl; [|lia]. exists e. unfold pop_front_wait_msg. by rewrite E. }
  destruct (pop_front_wait_msg (dispatcher e b)) as [[i d]|] eqn:Hp; last first.
  { exists e. unfold pop_front_wait_msg in Hp. by destruct (msg_wait_q (dispatcher e b)). }
  destruct (pop_wait_off e i d Hp) as (C1 & W1 & P1 & R1). set (e1 := dmod b _ e) in *.
  assert (at_ctx hd L e1 K b (k_held [i] at_rest)) as H1.
  { eapply at_dmod; [exact H|]. by apply (pop_front_wait_msg_inv _ _ _ _ i d (at_get _ _ _ _ _ _ H)). }
  pose proof (push_back_idle_msg_calm i e1) as [C2 Q2]. specialize (Q2 (calm_off _ _ _ _ C1 Ho)).
  set (e2 := push_back_idle_msg react b i e1) in *.
  assert (at_ctx hd L e2 K b at_rest) as H2 by (eapply (push_back_idle_msg_at _ _ _ _ _ _ _ _ [] H1); done).
  assert (dispatcher e1 b = d) as Ed by apply dispatcher_dmod_eq.
  clearbody e2. unfold queues in Q2. rewrite Ed in Q2. injection Q2 as W2 P2 R2 R3.
  destruct (IH e2 H2) as (e' & E' & H' & C' & W' & P' & R').
  - eapply calm_off; [|exact Ho]. by etrans.
  - rewrite W2. rewrite W1 in Hl. cbn in Hl. lia.
  - exists e'. split_and!; try done; [by repeat (etrans; [eassumption|])|congruence|].
    rewrite R', <- R1. unfold reqs. rewrite R2, R3, Ed. done.
Qed.

(** All slots are idle when nothing waits, is pending or held. *)
Lemma all_idle d : disp_inv d at_rest -> msg_wait_q d = [] -> msg_pend_q d = [] -> length (msg_idle_q d) = MAX_PHL_MSG_NUM.
Proof.
  intros Hd E1 E2. pose proof (Permutation_length (mi_perm _ _ Hd)) as H. rewrite E1, E2, length_seq in H.
  cbn [app at_rest held] in H. by rewrite app_nil_r in H.
Qed.

Lemma all_req_idle d :
  disp_inv d at_rest -> token_req_wait_q d = [] -> cur_cmd_req d = None -> length (token_req_idle_q d) = MAX_CMD_REQ_NUM.
Proof.
  intros Hd E1 E2. pose proof (Permutation_length (ri_perm _ _ Hd)) as H. unfold cur_list in H.
  rewrite E1, E2, length_seq in H. cbn [app at_rest rheld] in H. by rewrite app_nil_r in H.
Qed.

Lemma wait_le d k : disp_inv d k -> (length (msg_wait_q d) <= MAX_PHL_MSG_NUM)%nat.
Proof. intros Hd. pose proof (Permutation_length (mi_perm _ _ Hd)) as H. rewrite !length_app, length_seq in H. lia. Qed.

Lemma req_wait_le d k : disp_inv d k -> (length (token_req_wait_q d) <= MAX_CMD_REQ_NUM)%nat.
Proof. intros Hd. pose proof (Permutation_length (ri_perm _ _ Hd)) as H. rewrite !length_app, length_seq in H. lia. Qed.

(** Messages that are waiting or pending when all slots are idle: none. *)
Lemma idle_full d k :
  disp_inv d k -> length (msg_idle_q d) = MAX_PHL_MSG_NUM -> msg_wait_q d = [] /\ msg_pend_q d = [].
Proof.
  intros Hd E. pose proof (Permutation_length (mi_perm _ _ Hd)) as H. rewrite !length_app, length_seq in H.
  split; apply nil_length_inv; lia.
Qed.

Lemma req_idle_full d k :
  disp_inv d k -> length (token_req_idle_q d) = MAX_CMD_REQ_NUM -> token_req_wait_q d = [] /\ cur_cmd_req d = None.
Proof.
  intros Hd E. pose proof (Permutation_length (ri_perm _ _ Hd)) as H. rewrite !length_app, length_seq in H.
  split; [apply nil_length_inv; lia|]. unfold cur_list in H. destruct (cur_cmd_req d); cbn in *; [lia|done].
Qed.

Lemma clear_waiting_msg_ok fuel e :
  at_ctx hd L e K b at_rest -> off e b -> (MAX_PHL_MSG_NUM <= fuel)%nat ->
  exists e', clear_waiting_msg react fuel b e = Some e' /\ at_ctx hd L e' K b at_rest /\ calm b e e' /\
    msg_wait_q (dispatcher e' b) = [] /\ msg_pend_q (dispatcher e' b) = [] /\ reqs e' = reqs e.
Proof.
  intros H Ho Hf. destruct fuel as [|f]; [unfold MAX_PHL_MSG_NUM in Hf; lia|]. cbn [clear_waiting_msg].
  destruct (Nat.eqb_spec (length (msg_idle_q (dispatcher e b))) MAX_PHL_MSG_NUM) as [E|E].
  { exists e. destruct (idle_full _ _ (proj1 (at_get _ _ _ _ _ _ H)) E). by split_and!. }
  destruct (drain_pending_ok _ e eq_refl) as (S1 & C1 & P1 & R1). set (e1 := drain_pending b _ e) in *.
  pose proof (at_safe _ _ _ _ _ _ _ S1 H) as H1.
  destruct (drain_wait_ok (S f) e1 H1) as (e2 & E2 & H2 & C2 & W2 & P2 & R2).
  { by eapply calm_off. }
  { etrans; [|exact Hf]. by eapply wait_le, (at_get _ _ _ _ _ _ H1). }
  rewrite E2. cbn [mbind option_bind]. exists e2. rewrite P1 in P2.
  split_and!; try done; [|by etrans|congruence]. pose proof (all_idle _ (proj1 (at_get _ _ _ _ _ _ H2)) W2 P2) as Hl.
  destruct f; cbn [clear_waiting_msg]; by rewrite Hl, Nat.eqb_refl.
Qed.

(** The messages of band [b]. *)
Definition msgs (e : phl_cmd_dispatch_engine) : list nat * list nat :=
  (msg_wait_q (dispatcher e b), msg_pend_q (dispatcher e b)).

Lemma drain_req_ok fuel e :
  at_ctx hd L e K b at_rest -> off e b -> (length (token_req_wait_q (dispatcher e b)) <= fuel)%nat ->
  exists e', drain_req react fuel b e = Some e' /\ at_ctx hd L e' K b at_rest /\ calm b e e' /\
    token_req_wait_q (dispatcher e' b) = [] /\ cur_cmd_req (dispatcher e' b) = cur_cmd_req (dispatcher e b) /\
    msgs e' = msgs e.
Proof.
  revert e. induction fuel as [|f IH]; intros e H Ho Hl; cbn [drain_req].
  { destruct (token_req_wait_q (dispatcher e b)) eqn:E; cbn in Hl; [|lia]. exists e. unfold pop_front_wait_req. by rewrite E. }
  destruct (pop_front_wait_req (dispatcher e b)) as [[r d]|] eqn:Hp; last first.
  { exists e. unfold pop_front_wait_req in Hp. by destruct (token_req_wait_q (dispatcher e b)). }
  set (e1 := dmod b (fun _ => d) e). set (q := rx_req (token_req_ex_pool (dispatcher e b) r)).
  assert (at_ctx hd L e1 K b (k_req true [r] [(r, q)] at_rest)) as H1.
  { eapply at_dmod; [exact H|]. by apply (pop_front_wait_req_inv _ _ _ at_rest r d (at_get _ _ _ _ _ _ H)). }
  assert (dispatcher e1 b = d) as Ed by apply dispatcher_dmod_eq.
  assert (calm b e e1 /\ token_req_wait_q (dispatcher e b) = r :: token_req_wait_q d /\
          cur_cmd_req d = cur_cmd_req (dispatcher e b) /\ msgs e1 = msgs e) as (C1 & W1 & R1 & M1).
  { unfold msgs. rewrite Ed. unfold e1. clear - Hp. unfold pop_front_wait_req in Hp.
    destruct (token_req_wait_q (dispatcher e b)); [done|]. injection Hp as -> <-.
    split_and!; try done. by apply calm_dmod. }
  pose proof (off_call react (CbAbort b r (rx_req (token_req_ex_pool d r))) e1 I) as S2.
  set (e2 := (call react _ e1).2) in *. pose proof (off_queues _ _ _ S2 (calm_off _ _ _ _ C1 Ho)) as Q2.
  pose proof (at_safe _ _ _ _ _ _ _ (proj1 S2) H1) as H2. apply (off_calm b) in S2 as C2. clearbody e2.
  set (e3 := dmod b (push_back_idle_req r) e2).
  assert (at_ctx hd L e3 K b at_rest) as H3.
  { eapply at_dmod; [exact H2|]. by apply (push_back_idle_req_inv _ _ _ _ r (at_get _ _ _ _ _ _ H2)). }
  assert (queues e3 b = queues e2 b) as Q3 by (unfold queues, e3; by rewrite dispatcher_dmod_eq).
  assert (calm b e2 e3) as C3 by by apply calm_dmod. clearbody e3.
  rewrite Q2 in Q3. unfold queues in Q3. rewrite Ed in Q3. injection Q3 as W3 P3 T3 R3.
  assert (calm b e e3) as C by (do 2 (etrans; [eassumption|]); done).
  destruct (IH e3 H3) as (e' & E' & H' & C' & W' & R' & M'); [by eapply calm_off| |].
  - rewrite T3. rewrite W1 in Hl. cbn in Hl. lia.
  - exists e'. split_and!; try done; [by etrans|congruence|]. rewrite M', <- M1. unfold msgs. by rewrite W3, P3, Ed.
Qed.

Lemma clear_wating_req_ok fuel e :
  at_ctx hd L e K b at_rest -> off e b -> cur_cmd_req (dispatcher e b) = None -> (MAX_CMD_REQ_NUM <= fuel)%nat ->
  exists e', clear_wating_req react fuel b e = Some e' /\ at_ctx hd L e' K b at_rest /\ calm b e e' /\
    token_req_wait_q (dispatcher e' b) = [] /\ cur_cmd_req (dispatcher e' b) = None /\ msgs e' = msgs e.
Proof.
  intros H Ho Hc Hf. destruct fuel as [|f]; [unfold MAX_CMD_REQ_NUM in Hf; lia|]. cbn [clear_wating_req].
  destruct (Nat.eqb_spec (length (token_req_idle_q (dispatcher e b))) MAX_CMD_REQ_NUM) as [E|E].
  { exists e. destruct (req_idle_full _ _ (proj1 (at_get _ _ _ _ _ _ H)) E). by split_and!. }
  destruct (drain_req_ok (S f) e H Ho) as (e2 & E2 & H2 & C2 & W2 & R2 & M2).
  { etrans; [|exact Hf]. by eapply req_wait_le, (at_get _ _ _ _ _ _ H). }
  rewrite E2. cbn [mbind option_bind]. exists e2. rewrite Hc in R2. split_and!; try done.
  pose proof (all_req_idle _ (proj1 (at_get _ _ _ _ _ _ H2)) W2 R2) as Hl.
  destruct f; cbn [clear_wating_req]; by rewrite Hl, Nat.eqb_refl.
Qed.

(** ** The current request *)

Lemma fold_calm {A} (f : phl_cmd_dispatch_engine -> A -> phl_cmd_dispatch_engine) l e :
  (forall e x, calm b e (f e x)) -> calm b e (fold_left f l e).
Proof. intros H. revert e. induction l as [|x l IH]; intros e; simpl; [done|]. etrans; [apply H|apply IH]. Qed.

Lemma unpend_calm e i : calm b e (unpend b e i).
Proof.
  unfold unpend. cbv zeta. set (e1 := dmod b _ e). assert (calm b e e1) as H1 by by apply calm_dmod.
  etrans; [exact H1|]. case_match; (etrans; [|apply off_calm, off_notify]); by apply calm_dmod.
Qed.

Lemma flag_calm n (f : Z -> Z -> Z) e : (f = setf \/ f = clrf) -> 4 < n -> calm b e (dmod b (dp_flag (f (BIT n))) e).
Proof. intros. by apply off_calm, off_flag. Qed.

Lemma clear_pending_msg_calm e : calm b e (clear_pending_msg b e).
Proof.
  unfold clear_pending_msg. case_match; [done|]. cbv zeta. etrans; [|apply fold_calm, unpend_calm].
  apply (flag_calm 8 clrf); [by right|lia].
Qed.

Lemma drop_req_msg_calm id e i : calm b e (drop_req_msg b id e i).
Proof.
  unfold drop_req_msg. case_match; [done|]. cbv zeta. set (e1 := dmod b _ e).
  assert (calm b e e1) as H1 by by apply calm_dmod. etrans; [exact H1|]. case_match; [|done].
  etrans; [|apply clear_pending_msg_calm]. apply off_calm, off_clr_pending.
Qed.

Lemma deregister_calm notify e :
  calm b e (deregister_cur_cmd_req react b notify e) /\
  cur_cmd_req (dispatcher (deregister_cur_cmd_req react b notify e) b) = None.
Proof.
  unfold deregister_cur_cmd_req. cbv zeta.
  set (e1 := match cur_cmd_req (dispatcher e b) with Some _ => _ | None => e end). assert (calm b e e1) as H1.
  { unfold e1. case_match; [|done]. set (e0 := dmod b (rmod _ _) e). set (e2 := fold_left _ _ e0).
    assert (calm b e e0) as H0' by by apply calm_mod.
    assert (calm b e0 e2) as H2 by apply fold_calm, drop_req_msg_calm. clearbody e2.
    set (e3 := if notify then _ else e2). assert (calm b e2 e3) as H3.
    { unfold e3. destruct notify; [|done]. etrans; [|by apply calm_mod].
      etrans; [|by apply off_calm, off_call]. by apply calm_mod. }
    clearbody e3. do 3 (etrans; [eassumption|]). by apply calm_mod. }
  clearbody e1. set (e2 := dmod b (set_cur_cmd_req None) e1). assert (calm b e1 e2) as H2 by by apply calm_mod.
  assert (cur_cmd_req (dispatcher e2 b) = None) as Hc by (unfold e2; by rewrite dispatcher_dmod_eq).
  case_match; [|split; [by etrans|done]]. split.
  - do 2 (etrans; [eassumption|]). apply off_calm, off_token_complete.
  - by rewrite (frame_cur e2 _ b (cmd_token_complete_safe b e2)).
Qed.

(** The thread leaves: band [b] ends with every slot idle. *)
Definition drained (d : cmd_dispatcher) : Prop :=
  msg_wait_q d = [] /\ msg_pend_q d = [] /\ token_req_wait_q d = [] /\ cur_cmd_req d = None.

Lemma leave_ok fuel e :
  at_ctx hd L e K b at_rest -> off e b -> (MAX_PHL_MSG_NUM <= fuel)%nat ->
  exists e', dispr_thread_leave_hdl react fuel b e = Some e' /\ at_ctx hd L e' K b at_rest /\ calm b e e' /\
    drained (dispatcher e' b).
Proof.
  intros H Ho Hf. unfold dispr_thread_leave_hdl. destruct (deregister_calm true e) as [C1 Hc].
  assert (at_ctx hd L (deregister_cur_cmd_req react b true e) K b at_rest) as H1 by by apply deregister_at.
  set (e1 := deregister_cur_cmd_req react b true e) in *. clearbody e1. pose proof (calm_off _ _ _ _ C1 Ho) as Ho1.
  destruct (clear_waiting_msg_ok fuel e1 H1 Ho1 Hf) as (e2 & -> & H2 & C2 & W2 & P2 & R2). cbn [mbind option_bind].
  injection R2 as R2 R3. rewrite Hc in R3.
  destruct (clear_wating_req_ok fuel e2 H2 (calm_off _ _ _ _ C2 Ho1) R3) as (e3 & E3 & H3 & C3 & W3 & R4 & M3).
  { unfold MAX_PHL_MSG_NUM, MAX_CMD_REQ_NUM in *. lia. }
  exists e3. injection M3 as M3 M4. rewrite W2 in M3. rewrite P2 in M4.
  split_and!; try done. by repeat (etrans; [eassumption|]).
Qed.
End Band.
End Stop.

(** ** The engine *)

Section Engine.
Context (react : cb -> phl_cmd_dispatch_engine -> reaction).

Lemma drained_same d d' : same d d' -> drained d -> drained d'.
Proof. intros (_ & _ & _ & E1 & E2 & _ & E3 & E4 & _). unfold drained. by rewrite E1, E2, E3, E4. Qed.

Lemma share_leave_ok fuel l e :
  (MAX_PHL_MSG_NUM <= fuel)%nat -> (forall b, b ∈ l -> live e b) -> NoDup l -> running e -> (forall b, live e b -> off e b) ->
  exists e', fold_left (fun o b => e ← o; dispr_thread_leave_hdl react fuel b e) l (Some e) = Some e' /\
    eng_head e' = eng_head e /\ running e' /\ (forall b, live e b -> off e' b) /\
    (forall b, live e b -> drained (dispatcher e b) \/ b ∈ l -> drained (dispatcher e' b)).
Proof.
  intros Hf. revert e. induction l as [|b l IH]; intros e Hl Hnd H Ho; cbn [fold_left].
  { exists e. split_and!; try done. intros b _ [Hd|Hd]; [done|]. set_solver. }
  cbn [mbind option_bind]. assert (live e b) as Hb by (apply Hl; set_solver).
  assert (at_ctx (eng_head e) (live e) e (fun _ => at_rest) b at_rest) as Ha by by apply at_rest_get.
  destruct (leave_ok react b (eng_head e) (live e) _ fuel e Ha (Ho b Hb) Hf) as (e1 & -> & H1 & C1 & D1).
  pose proof (proj1 C1) as Hh1. assert (forall x, live e1 x <-> live e x) as Hle.
  { intros x. unfold live. by injection Hh1 as -> _. }
  apply list.NoDup_cons in Hnd as [Hnb Hnd].
  destruct (IH e1) as (e' & E' & Hh & Hr & Ho' & Hd'); [|done|..].
  - intros x Hx. apply Hle, Hl. set_solver.
  - pose proof (at_rest_put _ _ _ _ _ H1 eq_refl) as Hi. intros x Hx. by apply Hi, Hle.
  - intros x Hx. eapply calm_off; [exact C1|]. by apply Ho, Hle.
  - exists e'. split_and!; try done; [congruence|intros x Hx; by apply Ho', Hle|].
    intros x Hx Hd. apply Hd'; [by apply Hle|]. destruct (decide (x = b)) as [->|Hne]; [by left|].
    destruct Hd as [Hd|Hd]; [left|right; set_solver].
    eapply drained_same; [|exact Hd]. apply (proj2 (proj2 C1 x)); [done|by apply Ho].
Qed.

(** [dispr_thread_stop_prior_hdl]: the running message and the requests are
    marked, nothing moves. *)
Lemma fold_same {A} (f : cmd_dispatcher -> A -> cmd_dispatcher) l d :
  (forall d x, same d (f d x) /\ dp_status (f d x) = dp_status d) ->
  same d (fold_left f l d) /\ dp_status (fold_left f l d) = dp_status d.
Proof.
  intros H. revert d. induction l as [|x l IH]; intros d; cbn [fold_left]; [by split; [apply same_refl|]|].
  destruct (H d x) as [S1 E1], (IH (f d x)) as [S2 E2]. split; [by eapply same_trans|congruence].
Qed.

Lemma cancel_all_cmd_req_same d : same d (cancel_all_cmd_req d) /\ dp_status (cancel_all_cmd_req d) = dp_status d.
Proof.
  unfold cancel_all_cmd_req. generalize (seq 0 MAX_CMD_REQ_NUM). intros l. apply fold_same. intros d0 i. case_match; [|by split; [apply same_refl|]]. split; [|done]. apply same_rmod.
  split; [|done]. intros n Hn. apply (testbit_flag_above 2 2 setf); [by left|lia..].
Qed.

Lemma cancel_running_msg_same d : same d (cancel_running_msg d) /\ dp_status (cancel_running_msg d) = dp_status d.
Proof.
  unfold cancel_running_msg. generalize (seq 0 MAX_PHL_MSG_NUM). intros l. apply fold_same. intros d0 i. destruct (TEST_STATUS_FLAG _ _) eqn:Et; [|by split; [apply same_refl|]]. split; [|done].
  apply same_mmod. split_and!; try done.
  - intros n Hn. apply (testbit_flag_above 3 3 setf); [by left|lia..].
  - intros H0. bits. by rewrite H0, Z.bits_0 in Et.
Qed.

Lemma stop_controller_keeps b e : keeps_inv e (_stop_dispr_controller react b e).2.
Proof.
  unfold _stop_dispr_controller. etrans; [|apply bk_module_stop_keeps]. apply (ctrl_flag_keeps b clrf). by right.
Qed.

Lemma prior_ok L b e :
  eng_inv L e (fun _ => at_rest) ->
  let e' := dispr_thread_stop_prior_hdl react b e in
  eng_head e' = eng_head e /\ eng_inv L e' (fun _ => at_rest) /\ off e' b /\ (forall x, off e x -> off e' x).
Proof.
  intros H. unfold dispr_thread_stop_prior_hdl. cbv zeta. destruct (TEST_STATUS_FLAG _ _) eqn:Es; cbn [negb]; last first.
  { split_and!; try done. unfold off. unfold DISPR_STARTED in Es. by rewrite TEST_BIT in Es by lia. }
  set (e1 := dmod b (dp_flag (clrf DISPR_STARTED)) e).
  assert (eng_inv L e1 (fun _ => at_rest)) as H1.
  { intros x Hx. unfold e1. rewrite dispatcher_dmod. case_decide; [subst|by apply H].
    eapply inv1_same; [apply same_dp_flag|by apply H]. }
  assert (off e1 b /\ forall x, off e x -> off e1 x) as [O1 O1'].
  { assert (off e1 b) as O1.
    { unfold off, e1. rewrite dispatcher_dmod_eq. cbn [dp_flag set_dp_status dp_status]. unfold DISPR_STARTED.
      rewrite testbit_clrf by lia. apply andb_false_r. }
    split; [done|]. intros x Hx. destruct (decide (x = b)) as [->|Hne]; [done|]. unfold off, e1. by rewrite dispatcher_dmod_ne. }
  set (e2 := (_stop_dispr_controller react b e1).2). assert (keeps_inv e1 e2) as K2 by apply stop_controller_keeps.
  clearbody e2. set (e3 := dmod b _ e2). assert (keeps_inv e2 e3) as K3.
  { destruct (cancel_all_cmd_req_same (dispatcher e2 b)) as [S1 E1].
    destruct (cancel_running_msg_same (cancel_all_cmd_req (dispatcher e2 b))) as [S2 E2].
    apply same_keeps; [by eapply same_trans|]. intros n _. by rewrite E2, E1. }
  clearbody e3. pose proof (transitivity K2 K3) as (P & I & F). split_and!; [done|by apply I|..].
  - unfold off. by rewrite (proj2 (F b)).
  - intros x Hx. unfold off. rewrite (proj2 (F x)). by apply O1'.
Qed.

Lemma prior_all_ok L l e :
  eng_inv L e (fun _ => at_rest) ->
  let e' := fold_left (fun e b => dispr_thread_stop_prior_hdl react b e) l e in
  eng_head e' = eng_head e /\ eng_inv L e' (fun _ => at_rest) /\ (forall x, off e x \/ x ∈ l -> off e' x).
Proof.
  cbv zeta. revert e. induction l as [|b l IH]; intros e H; cbn [fold_left].
  { split_and!; try done. intros x [Hx|Hx]; [done|set_solver]. }
  destruct (prior_ok L b e H) as (P1 & I1 & O1 & O2). set (e1 := dispr_thread_stop_prior_hdl react b e) in *. clearbody e1.
  destruct (IH e1 I1) as (P2 & I2 & O3). split_and!; [congruence|done|]. intros x Hx. apply O3.
  destruct (decide (x = b)) as [->|Hne]; [by left|]. destruct Hx as [Hx|Hx]; [left; by apply O2|right; set_solver].
Qed.

(** ** After the thread *)

Definition post (d : cmd_dispatcher) : cmd_dispatcher :=
  set_token_cnt 0 (dispr_clr_ctrl_state (deinit_cmd_req_pool (deinit_dispr_msg_pool d))).

Lemma testbit_127 s n : 0 <= n < 7 -> Z.testbit (Z.land s 127) n = Z.testbit s n.
Proof.
  intros Hn. rewrite Z.land_spec. change 127 with (Z.ones 7). rewrite Z.ones_spec_low by lia. apply andb_true_r.
Qed.

Lemma deinit_msg_status d :
  let d' := deinit_dispr_msg_pool d in
  Z.testbit (dp_status d') 1 = false /\ (forall n, n = 2 \/ n = 3 -> Z.testbit (dp_status d') n = Z.testbit (dp_status d) n).
Proof.
  unfold deinit_dispr_msg_pool. cbv zeta. destruct (TEST_STATUS_FLAG _ _) eqn:E; cbn [negb].
  - cbn [dp_flag set_dp_status dp_status]. unfold DISPR_MSGQ_INIT. split; [rewrite testbit_clrf by lia; apply andb_false_r|].
    intros n Hn. rewrite testbit_clrf by lia. rewrite (proj2 (Z.eqb_neq n 1)) by lia. apply andb_true_r.
  - unfold DISPR_MSGQ_INIT in E. by rewrite TEST_BIT in E by lia.
Qed.

Lemma deinit_req_status d :
  let d' := deinit_cmd_req_pool d in
  Z.testbit (dp_status d') 2 = false /\ (forall n, n = 1 \/ n = 3 -> Z.testbit (dp_status d') n = Z.testbit (dp_status d) n).
Proof.
  unfold deinit_cmd_req_pool. cbv zeta. destruct (TEST_STATUS_FLAG _ _) eqn:E; cbn [negb].
  - cbn [dp_flag set_dp_status dp_status]. unfold DISPR_REQ_INIT. split; [rewrite testbit_clrf by lia; apply andb_false_r|].
    intros n Hn. rewrite testbit_clrf by lia. rewrite (proj2 (Z.eqb_neq n 2)) by lia. apply andb_true_r.
  - unfold DISPR_REQ_INIT in E. by rewrite TEST_BIT in E by lia.
Qed.

Lemma post_fields d : cur_cmd_req (post d) = cur_cmd_req d /\ token_cnt (post d) = 0.
Proof. unfold post, deinit_cmd_req_pool, deinit_dispr_msg_pool. cbv zeta. by repeat case_match. Qed.

(** No slot owes a completion when all are idle. *)
Lemma drained_outstanding d c : disp_inv d at_rest -> drained d -> outstanding d c = O.
Proof.
  intros Hd (W & P & _ & _). unfold outstanding. rewrite <- (slots_with_none (fun _ => false) MAX_PHL_MSG_NUM) by done.
  apply slots_with_ext. intros i Hi. assert (i ∈ seq 0 MAX_PHL_MSG_NUM) as Hs by (apply elem_of_seq; lia).
  rewrite <- (mi_perm _ _ Hd), W, P in Hs. cbn [app at_rest held] in Hs. rewrite app_nil_r in Hs.
  destruct (mi_idle _ _ Hd i Hs) as [E _]. unfold owes. by rewrite E, Z.bits_0.
Qed.

Lemma post_stopped tr b d :
  inv1 tr b d at_rest -> drained d -> Z.testbit (dp_status d) 3 = false -> stopped tr b (post d).
Proof.
  intros [Hd Hh] Hdr H3. destruct (post_fields d) as [F1 F2]. pose proof Hdr as (_ & _ & W & C). split; [congruence|done|..].
  - intros n Hn. unfold post. cbn [set_token_cnt dp_status dispr_clr_ctrl_state dp_flag set_dp_status].
    rewrite testbit_127 by lia. destruct (deinit_msg_status d) as [M1 M2].
    destruct (deinit_req_status (deinit_dispr_msg_pool d)) as [R1 R2]. destruct Hn as [-> | [-> | ->]]; [|done|].
    + by rewrite R2 by auto.
    + by rewrite R2, M2 by auto.
  - intros c. pose proof (hi_compl _ _ _ _ Hh c) as H. rewrite (drained_outstanding d c Hd Hdr) in H.
    cbn [at_rest infl count_occ] in H. lia.
  - pose proof (hi_fifo _ _ _ _ Hh) as H. unfold wait_reqs in H. rewrite W in H. cbn [map at_rest grant app] in H.
    by rewrite app_nil_r in H.
Qed.

Lemma post_all_ok l e :
  let e' := fold_left (fun e b => dispr_thread_stop_post_hdl b e) l e in
  eng_head e' = eng_head e /\ trace e' = trace e /\
  (NoDup l -> forall b, dispatcher e' b = if decide (b ∈ l) then post (dispatcher e b) else dispatcher e b).
Proof.
  cbv zeta. revert e. induction l as [|b l IH]; intros e; cbn [fold_left].
  { split_and!; try done. }
  destruct (IH (dispr_thread_stop_post_hdl b e)) as (P & T & D). split_and!; [done..|].
  intros Hnd x. apply list.NoDup_cons in Hnd as [Hb Hnd]. rewrite (D Hnd x). unfold dispr_thread_stop_post_hdl.
  fold post. destruct (decide (x = b)) as [->|Hne].
  - by rewrite decide_False, decide_True, dispatcher_dmod_eq by set_solver.
  - rewrite dispatcher_dmod_ne by done. destruct (decide (x ∈ l)).
    + by rewrite decide_True by set_solver.
    + by rewrite decide_False by set_solver.
Qed.

Lemma module_stop_all_keeps l e : keeps_inv e (fold_left (fun e b => (dispr_module_stop react b e).2) l e).
Proof. apply fold_keeps. intros. apply dispr_module_stop_keeps. Qed.

(** Stopping returns, with all bands stopped. *)
Lemma phl_disp_eng_stop_down fuel e :
  running e -> Z.testbit (eng_status e) 1 = true -> phy_num e <> 0 -> (MAX_PHL_MSG_NUM <= fuel)%nat ->
  exists e', phl_disp_eng_stop react fuel e = Some (RTW_PHL_STATUS_SUCCESS, e') /\ down e' /\
    eng_head e' = (phy_num e, clrf DISPR_ENG_STARTED (eng_status e)).
Proof.
  intros H Hs Hp Hf. unfold phl_disp_eng_stop. rewrite (proj2 (Z.eqb_neq _ _) Hp).
  unfold DISPR_ENG_STARTED at 1. rewrite TEST_BIT, Hs by lia. cbn [negb]. cbv zeta.
  set (e0 := eng_flag _ e). assert (running e0) as H0 by exact H.
  pose proof (module_stop_all_keeps (bands e0) e0) as K1. set (e1 := fold_left _ (bands e0) e0) in *.
  pose proof (running_keeps _ _ K1 H0) as H1. apply proj1 in K1 as P1. clearbody e1.
  destruct (prior_all_ok _ (bands e1) e1 H1) as (P2 & H2 & O2). set (e2 := fold_left _ (bands e1) e1) in *. clearbody e2.
  assert (forall x, live e2 x <-> live e1 x) as Hle by (intros x; unfold live; by injection P2 as -> _).
  destruct (share_leave_ok fuel (bands e2) e2 Hf) as (e3 & E3 & P3 & H3 & O3 & D3).
  - intros b. apply elem_of_bands.
  - apply bands_nodup.
  - intros x Hx. by apply H2, Hle.
  - intros x Hx. apply O2. right. by apply elem_of_bands, Hle.
  - unfold share_thread_leave. rewrite E3. cbn [mbind option_bind].
    destruct (post_all_ok (bands e3) e3) as (P4 & T4 & D4). set (e4 := fold_left _ (bands e3) e3) in *. clearbody e4.
    assert (forall x, live e3 x <-> live e2 x) as Hle3 by (intros x; unfold live; by injection P3 as -> _).
    exists e4. split_and!; [done| |].
    + intros b Hb. assert (live e3 b) as Hb3 by (revert Hb; unfold live; injection P4 as -> _; done).
      rewrite T4, (D4 (bands_nodup _) b), decide_True by by apply elem_of_bands.
      apply post_stopped; [by apply H3|apply D3|apply O3]; try by apply Hle3. right. by apply elem_of_bands, Hle3.
    + rewrite P4, P3, P2, P1. done.
Qed.
End Engine.

(** ** From initialisation on *)

(** The engine before [phl_disp_eng_init]. *)
Definition eng0 : phl_cmd_dispatch_engine := Eng 0 0 (fun _ => zero_dispr) 0 [].

Section Init.
Context (react : cb -> phl_cmd_dispatch_engine -> reaction).

Definition all_stopped (e : phl_cmd_dispatch_engine) : Prop := forall b, stopped (trace e) b (dispatcher e b).

Lemma zero_stopped tr b d : stopped tr b d -> stopped tr b (dp_flag (setf DISPR_INIT) zero_dispr).
Proof. intros [_ _ _ S4 S5]. split; try done. intros n [-> | [-> | ->]]; reflexivity. Qed.

Lemma dispr_init_stopped b e : all_stopped e -> all_stopped (dispr_init react b e) /\ eng_head (dispr_init react b e) = eng_head e.
Proof.
  intros H. unfold dispr_init, _register_dispr_controller. set (e1 := dmod b _ e). set (e2 := dmod b _ e1).
  assert (keeps_inv e1 e2) as K2 by (by apply same_keeps; [same_trivial|]).
  pose proof (transitivity K2 (bk_module_init_keeps react b MCtrl e2)) as (P & _ & F). split; [|exact P].
  intros x. apply (F x). unfold e1. rewrite dispatcher_dmod. case_decide; [subst|apply H].
  eapply zero_stopped. apply H.
Qed.

Lemma init_bands l e :
  all_stopped e ->
  let e' := fold_left (fun e b => set_phy_num (phy_num e + 1) (dispr_init react b e)) l e in
  all_stopped e' /\ eng_head e' = (phy_num e + Z.of_nat (length l), eng_status e).
Proof.
  cbv zeta. revert e. induction l as [|b l IH]; intros e H; cbn [fold_left].
  { split; [done|]. unfold eng_head. cbn. by rewrite Z.add_0_r. }
  destruct (dispr_init_stopped b e H) as [H1 P1]. injection P1 as P1 P2.
  destruct (IH (set_phy_num (phy_num e + 1) (dispr_init react b e))) as [H2 P3]; [exact H1|].
  split; [exact H2|]. rewrite P3. cbn [set_phy_num phy_num eng_status length]. rewrite P2. f_equal. lia.
Qed.

Lemma phl_disp_eng_init_down num alloc :
  (num <= alloc)%nat ->
  let e := (phl_disp_eng_init react num alloc eng0).2 in
  down e /\ eng_head e = (Z.of_nat num, DISPR_ENG_INIT).
Proof.
  intros Hn. unfold phl_disp_eng_init. change (phy_num eng0) with 0. rewrite Z.eqb_refl, (proj2 (Nat.leb_le _ _) Hn).
  cbn [negb snd]. cbv zeta. assert (all_stopped eng0) as H0.
  { intros b. split; try done. intros n [-> | [-> | ->]]; reflexivity. }
  destruct (init_bands (map Z.of_nat (seq 0 (Nat.min num alloc))) eng0 H0) as [H1 P1].
  set (e1 := fold_left _ _ eng0) in *. clearbody e1. rewrite length_map, length_seq, Nat.min_l in P1 by done.
  injection P1 as P1 P2. split; [intros b _; apply H1|]. unfold eng_head. cbn [eng_flag phy_num eng_status].
  by rewrite P1, P2.
Qed.
End Init.

(** ** The life of the engine *)

Inductive phase := Down | Up.

(** No band has done what C gives no meaning to (see [damaged]). *)
Definition intact (e : phl_cmd_dispatch_engine) : bool := forallb (fun b => negb (damaged (dispatcher e b))) (bands e).

(** From initialisation on: starts, calls, module registrations and turns
    while the engine is up, calls and registrations while it is down, stops.
    The callbacks may react differently in every step.  The run ends where the
    code damages its memory: each step leads to a state that is [intact], and
    since nothing clears [damaged] no damage occurred inside the step either. *)
Inductive life (num : nat) : phase -> phl_cmd_dispatch_engine -> Prop :=
  | life_init react alloc :
      (num <= alloc)%nat -> intact (phl_disp_eng_init react num alloc eng0).2 ->
      life num Down (phl_disp_eng_init react num alloc eng0).2
  | life_down_api e a : life num Down e -> intact (api_step e a) -> life num Down (api_step e a)
  | life_down_register react b id ops alloc e :
      life num Down e -> intact (dispr_register_module react b id ops alloc e).2 ->
      life num Down (dispr_register_module react b id ops alloc e).2
  | life_down_deregister react b id e :
      life num Down e -> intact (dispr_deregister_module react b id e).2 ->
      life num Down (dispr_deregister_module react b id e).2
  | life_start react e :
      life num Down e -> intact (phl_disp_eng_start react e).2 -> life num Up (phl_disp_eng_start react e).2
  | life_step e e' : life num Up e -> eng_step e e' -> intact e' -> life num Up e'
  | life_stop react fuel s e e' :
      life num Up e -> (MAX_PHL_MSG_NUM <= fuel)%nat -> phl_disp_eng_stop react fuel e = Some (s, e') -> intact e' ->
      life num Down e'.

Definition phase_inv (p : phase) (e : phl_cmd_dispatch_engine) : Prop :=
  match p with
  | Down => down e /\ Z.testbit (eng_status e) 1 = false
  | Up => running e /\ Z.testbit (eng_status e) 1 = true
  end.

Lemma down_keeps e e' : keeps_inv e e' -> down e -> down e'.
Proof.
  intros (P & _ & F) H b Hb. apply (F b), H. revert Hb. unfold live. by injection P as -> _.
Qed.

Lemma life_down_keeps num e e' :
  keeps_inv e e' -> phy_num e = Z.of_nat num /\ phase_inv Down e -> phy_num e' = Z.of_nat num /\ phase_inv Down e'.
Proof.
  intros Hk [P [Hd Hs]]. pose proof (proj1 Hk) as Hh. injection Hh as H1 H2. split; [congruence|].
  split; [by eapply down_keeps|congruence].
Qed.

(** The parts of the invariant that hold in each phase. *)
Lemma life_inv num p e : (0 < num)%nat -> life num p e -> phy_num e = Z.of_nat num /\ phase_inv p e.
Proof.
  intros Hn. induction 1 as [react alloc Ha _|e a _ IH _|react b id ops al e _ IH _|react b id e _ IH _|react e _ IH _|
                             e e' _ IH Hs _|react fuel s e e' _ IH Hf Hs _].
  - destruct (phl_disp_eng_init_down react num alloc Ha) as [Hd P]. injection P as P1 P2. split; [exact P1|].
    split; [exact Hd|]. by rewrite P2.
  - eapply life_down_keeps; [|exact IH]. apply off_keeps, off_api.
  - eapply life_down_keeps; [|exact IH]. apply dispr_register_module_keeps.
  - eapply life_down_keeps; [|exact IH]. apply dispr_deregister_module_keeps.
  - destruct IH as [P [Hd Hs]]. destruct (phl_disp_eng_start_running react e Hd Hs) as [Hr Hh].
    injection Hh as Hh1 Hh2. split; [congruence|]. split; [exact Hr|]. rewrite Hh2. unfold DISPR_ENG_STARTED.
    rewrite testbit_setf by lia. apply orb_true_r.
  - destruct IH as [P [Hr Hb]]. destruct (eng_step_running e e' Hs Hr) as [Hh Hr']. injection Hh as H1 H2.
    split; [congruence|]. split; [done|congruence].
  - destruct IH as [P [Hr Hb]]. destruct (phl_disp_eng_stop_down react fuel e Hr Hb ltac:(lia) Hf) as (e0 & E0 & Hd & Hh).
    rewrite E0 in Hs. injection Hs as _ <-. injection Hh as H1 H2. split; [congruence|]. split; [exact Hd|].
    rewrite H2. unfold DISPR_ENG_STARTED. rewrite testbit_clrf by lia. apply andb_false_r.
Qed.

Lemma life_running num e b : (0 < num)%nat -> life num Up e -> 0 <= b < Z.of_nat num ->
  inv1 (trace e) b (dispatcher e b) at_rest.
Proof. intros Hn Hl Hb. destruct (life_inv num Up e Hn Hl) as [P [Hr _]]. apply Hr. unfold live. lia. Qed.

Lemma life_stopped num e b : (0 < num)%nat -> life num Down e -> 0 <= b < Z.of_nat num ->
  stopped (trace e) b (dispatcher e b).
Proof. intros Hn Hl Hb. destruct (life_inv num Down e Hn Hl) as [P [Hd _]]. apply Hd. unfold live. lia. Qed.

(** ** A sample run *)

(** One band, four modules; handlers that accept everything. *)
Definition accept_all (c : cb) (e : phl_cmd_dispatch_engine) : reaction := Reaction [] MDL_RET_SUCCESS 0.

Definition sample_up : phl_cmd_dispatch_engine :=
  let register e id := (dispr_register_module accept_all 0 id true true e).2 in
  (phl_disp_eng_start accept_all (fold_left register [10; 11; 41; 71] (phl_disp_eng_init accept_all 1 1 eng0).2)).2.

Definition sample_send : api := ASend (own_msg 41 7) (Some (Attr 0 None 0 (Some 99))).

(** A message and a request are handled in one turn of the thread, another
    message waits. *)
Definition sample_calls : phl_cmd_dispatch_engine := fold_left api_step [sample_send; AAddReq 0 (Req 130 0 5 true)] sample_up.

Definition sample_turn : phl_cmd_dispatch_engine := default eng0 (share_thread_turn accept_all 20 sample_calls).

Definition sample_busy : phl_cmd_dispatch_engine := api_step sample_turn sample_send.

(** A state is intact by evaluation. *)
Ltac intact := vm_compute; exact I.

Lemma sample_up_life : life 1 Up sample_up.
Proof.
  apply life_start; [|intact]. cbn [fold_left]. do 4 (apply life_down_register; [|intact]). apply life_init; [lia|intact].
Qed.

Lemma some_default {A} (o : option A) x : (match o with Some _ => true | None => false end) = true -> o = Some (default x o).
Proof. by destruct o. Qed.

Lemma sample_busy_life : life 1 Up sample_busy.
Proof.
  eapply life_step; [|apply step_api|intact]. eapply (life_step _ sample_calls); [..|intact].
  - unfold sample_calls. cbn [fold_left]. do 2 (eapply life_step; [|apply step_api|intact]). apply sample_up_life.
  - apply (step_turn accept_all 20); [vm_compute; reflexivity|]. apply some_default. vm_compute. reflexivity.
Qed.

(** ** What callers rely on *)

(** C6. In every state the engine can reach between start and stop, with any
    callbacks and any interleaving of calls, registrations and turns that have
    left the memory of the dispatcher intact: each
    of the message slots of a band is in exactly one of the idle, waiting and
    pending queues and its flags say which; each request slot is idle, waiting
    or the current request; one token exists at most and [token_cnt] counts
    it. *)
Theorem dispr_slots num e b :
  (0 < num)%nat -> life num Up e -> 0 <= b < Z.of_nat num ->
  let d := dispatcher e b in
  msg_idle_q d ++ msg_wait_q d ++ msg_pend_q d ≡ₚ seq 0 MAX_PHL_MSG_NUM /\
  (forall i, i ∈ msg_idle_q d -> mx_status (msg_ex_pool d i) = 0) /\
  (forall i, i ∈ msg_wait_q d ++ msg_pend_q d ->
     TEST_STATUS_FLAG (mx_status (msg_ex_pool d i)) MSG_STATUS_ENQ = true /\
     TEST_STATUS_FLAG (mx_status (msg_ex_pool d i)) MSG_STATUS_RUN = false) /\
  token_req_idle_q d ++ token_req_wait_q d ++ cur_list d ≡ₚ seq 0 MAX_CMD_REQ_NUM /\
  (forall i, i ∈ token_req_wait_q d -> TEST_STATUS_FLAG (rx_status (token_req_ex_pool d i)) REQ_STATUS_ENQ = true) /\
  (forall i, cur_cmd_req d = Some i -> TEST_STATUS_FLAG (rx_status (token_req_ex_pool d i)) REQ_STATUS_RUN = true) /\
  token_cnt d = Z.of_nat (length (cur_list d)).
Proof.
  intros Hn Hl Hb d. destruct (life_running num e b Hn Hl Hb) as [[M1 M2 M3 _ _ R1 _ R3 R4 _ R6 _] _].
  cbn [at_rest held rheld] in *. rewrite !app_nil_r in *. split_and!; try done.
  - intros i Hi. by destruct (M2 i Hi).
  - intros i Hi. unfold MSG_STATUS_ENQ, MSG_STATUS_RUN. rewrite !TEST_BIT by lia. by apply M3.
  - intros i Hi. unfold REQ_STATUS_ENQ. rewrite TEST_BIT by lia. by apply R3.
  - intros i Hi. unfold REQ_STATUS_RUN. rewrite TEST_BIT by lia. by apply R4.
Qed.

Lemma dispr_slots_witness :
  msg_wait_q (dispatcher sample_busy 0) = [1%nat; 2%nat] /\ cur_cmd_req (dispatcher sample_busy 0) = Some 0%nat /\
  msg_idle_q (dispatcher sample_busy 0) ++ [1%nat; 2%nat] ++ msg_pend_q (dispatcher sample_busy 0) ≡ₚ seq 0 MAX_PHL_MSG_NUM /\
  token_cnt (dispatcher sample_busy 0) = 1.
Proof.
  destruct (dispr_slots 1 sample_busy 0) as (H1 & _ & _ & _ & _ & _ & H2); [lia|exact sample_busy_life|lia|].
  split; [vm_compute; reflexivity|]. split; [vm_compute; reflexivity|]. split; [exact H1|]. rewrite H2. vm_compute. reflexivity.
Defined.

(** C7. In a run that leaves the memory of the dispatcher intact, a completion
    routine is called once for each message accepted with it: at any time the calls made are the acceptances less the messages still
    in a slot, and after a stop none is left. *)
Theorem completions_once num p e b c :
  (0 < num)%nat -> life num p e -> 0 <= b < Z.of_nat num ->
  count_ev (ev_accepted b c) (trace e) =
  (count_ev (ev_completed b c) (trace e) + match p with Up => outstanding (dispatcher e b) c | Down => 0 end)%nat.
Proof.
  intros Hn Hl Hb. destruct p.
  - rewrite (st_compl _ _ _ (life_stopped num e b Hn Hl Hb)). lia.
  - pose proof (hi_compl _ _ _ _ (proj2 (life_running num e b Hn Hl Hb)) c) as H. cbn [at_rest infl count_occ] in H. lia.
Qed.

Lemma completions_once_witness :
  count_ev (ev_accepted 0 99) (trace sample_busy) = 2%nat /\
  2%nat = (count_ev (ev_completed 0 99) (trace sample_busy) + outstanding (dispatcher sample_busy 0) 99)%nat.
Proof.
  assert (count_ev (ev_accepted 0 99) (trace sample_busy) = 2%nat) as E by (vm_compute; reflexivity).
  split; [exact E|]. rewrite <- E. apply (completions_once 1 Up sample_busy 0 99); [lia|exact sample_busy_life|lia].
Defined.

(** C10. In a run that leaves the memory of the dispatcher intact, tokens are
    granted in the order the requests came, and each request gets it once at most: the requests whose [acquired] ran are a subsequence
    of the requests accepted. *)
Theorem tokens_in_order num p e b :
  (0 < num)%nat -> life num p e -> 0 <= b < Z.of_nat num ->
  sublist (flat_map (ev_granted b) (trace e)) (flat_map (ev_queued b) (trace e)).
Proof.
  intros Hn Hl Hb. destruct p; [apply (st_fifo _ _ _ (life_stopped num e b Hn Hl Hb))|].
  etrans; [|apply (hi_fifo _ _ _ _ (proj2 (life_running num e b Hn Hl Hb)))]. by apply sublist_inserts_r.
Qed.

Lemma tokens_in_order_witness :
  flat_map (ev_granted 0) (trace sample_busy) = [(0%nat, Req 130 0 5 true)] /\
  sublist (flat_map (ev_granted 0) (trace sample_busy)) (flat_map (ev_queued 0) (trace sample_busy)).
Proof.
  split; [vm_compute; reflexivity|]. apply (tokens_in_order 1 Up sample_busy 0); [lia|exact sample_busy_life|lia].
Defined.

(** C8. Stopping an intact engine terminates, in one pass over the queues,
    whatever the callbacks do: either the callbacks made the code damage its
    memory during the stop, or the thread has left, every accepted message is
    completed, no request holds the token, and the engine can be started again. *)
Theorem stop_returns react num fuel e :
  (0 < num)%nat -> life num Up e -> (MAX_PHL_MSG_NUM <= fuel)%nat ->
  exists e', phl_disp_eng_stop react fuel e = Some (RTW_PHL_STATUS_SUCCESS, e') /\ (intact e' -> life num Down e' /\
    forall b, 0 <= b < Z.of_nat num ->
      cur_cmd_req (dispatcher e' b) = None /\ token_cnt (dispatcher e' b) = 0 /\
      TEST_STATUS_FLAG (dp_status (dispatcher e' b)) DISPR_STARTED = false /\
      forall c, count_ev (ev_accepted b c) (trace e') = count_ev (ev_completed b c) (trace e')).
Proof.
  intros Hn Hl Hf. destruct (life_inv num Up e Hn Hl) as [P [Hr Hs]].
  destruct (phl_disp_eng_stop_down react fuel e Hr Hs ltac:(lia) Hf) as (e' & E & Hd & Hh).
  exists e'. split; [done|]. intros Hi. split; [by eapply life_stop|]. intros b Hb.
  destruct (Hd b) as [S1 S2 S3 S4 _]; [unfold live; injection Hh as -> _; lia|]. split_and!; try done.
  unfold DISPR_STARTED. rewrite TEST_BIT by lia. apply S3. auto.
Qed.

Lemma stop_returns_witness :
  exists e', phl_disp_eng_stop accept_all 24 sample_busy = Some (RTW_PHL_STATUS_SUCCESS, e') /\
    count_ev (ev_accepted 0 99) (trace e') = 2%nat /\ count_ev (ev_completed 0 99) (trace e') = 2%nat.
Proof.
  destruct (stop_returns accept_all 1 24 sample_busy) as (e' & E & H); [lia|exact sample_busy_life|unfold MAX_PHL_MSG_NUM; lia|].
  exists e'. split; [exact E|].
  assert (bool_decide (count_ev (ev_accepted 0 99) (trace e') = 2%nat) && intact e' = true) as [H2 Hi]%andb_true_iff.
  { transitivity (match phl_disp_eng_stop accept_all 24 sample_busy with
      | Some (_, e') => bool_decide (count_ev (ev_accepted 0 99) (trace e') = 2%nat) && intact e' | None => false end);
      [by rewrite E|]. vm_compute. reflexivity. }
  apply bool_decide_eq_true in H2. split; [exact H2|]. rewrite <- H2. symmetry. apply H; [by rewrite Hi|lia].
Defined.
