(* ===== verification/DisprWake.v ===== *)
(** * The semaphore of the command dispatcher

    The shared thread sleeps on [msg_q_sema].  The count of the semaphore is
    never below the number of messages that wait and of token operations that
    are queued: whoever leaves work behind wakes the thread. *)
From Stdlib Require Import ZArith Lia Bool List Permutation.
From stdpp Require Import base tactics list numbers sets functions relations.
From S2P Require Import Prelude PhlList PhlUtil Dispr DisprInv DisprRun DisprLife DisprStop.

(** ** Work *)

Definition work (d : cmd_dispatcher) : nat := length (msg_wait_q d) + length (token_op_q d).

(** What is not covered by the semaphore, over the bands [l]. *)
Definition pot (l : list Z) (e : phl_cmd_dispatch_engine) : Z :=
  Z.of_nat (sum_list_with (fun b => work (dispatcher e b)) l) - msg_q_sema e.

Lemma sum_list_with_ext {A} (f g : A -> nat) l :
  (forall x, x ∈ l -> f x = g x) -> sum_list_with f l = sum_list_with g l.
Proof.
  induction l as [|x l IH]; intros H; simpl; [done|]. rewrite (H x), IH; [done|set_solver|set_solver].
Qed.

Lemma pot_dmod l b f e :
  NoDup l ->
  pot l (dmod b f e) =
  pot l e + (if decide (b ∈ l) then Z.of_nat (work (f (dispatcher e b))) - Z.of_nat (work (dispatcher e b)) else 0).
Proof.
  intros Hnd. unfold pot. cbn [dmod msg_q_sema]. set (g := fun x => work (dispatcher (dmod b f e) x)).
  set (h := fun x => work (dispatcher e x)).
  assert (forall x, x <> b -> g x = h x) as Hne by (intros x Hx; unfold g; by rewrite dispatcher_dmod_ne).
  assert (g b = work (f (dispatcher e b))) as Hb by (unfold g; by rewrite dispatcher_dmod_eq).
  change (work (dispatcher e b)) with (h b). rewrite <- Hb. change (fun b0 => _) with g. clearbody g h.
  induction l as [|x l IH]; simpl; [lia|]. apply list.NoDup_cons in Hnd as [Hx Hnd]. specialize (IH Hnd).
  destruct (decide (x = b)) as [->|Hxb].
  - rewrite decide_True by set_solver. rewrite decide_False in IH by done. lia.
  - rewrite (Hne x Hxb). destruct (decide (b ∈ l)).
    + rewrite decide_True by set_solver. lia.
    + rewrite decide_False by set_solver. lia.
Qed.

(** A step that starts and stops no band and leaves no work behind without
    waking the thread. *)
Definition pays (e e' : phl_cmd_dispatch_engine) : Prop :=
  (forall x, Z.testbit (dp_status (dispatcher e' x)) 3 = Z.testbit (dp_status (dispatcher e x)) 3) /\
  forall l, NoDup l -> pot l e' <= pot l e.

#[export] Instance pays_preorder : PreOrder pays.
Proof.
  split; [done|]. intros e1 e2 e3 [B1 P1] [B2 P2]. split; [congruence|]. intros l Hl.
  specialize (P1 l Hl). specialize (P2 l Hl). lia.
Qed.

Definition bit3 (f : cmd_dispatcher -> cmd_dispatcher) : Prop :=
  forall d, Z.testbit (dp_status (f d)) 3 = Z.testbit (dp_status d) 3.

Lemma dmod_bit3 b f e x :
  bit3 f -> Z.testbit (dp_status (dispatcher (dmod b f e) x)) 3 = Z.testbit (dp_status (dispatcher e x)) 3.
Proof. intros H. rewrite dispatcher_dmod. case_decide; [subst; apply H|done]. Qed.

(** A change that adds no work. *)
Lemma pays_dmod b f e : bit3 f -> (forall d, (work (f d) <= work d)%nat) -> pays e (dmod b f e).
Proof.
  intros Hf Hw. split; [intros x; by apply dmod_bit3|]. intros l Hl. rewrite pot_dmod by done.
  specialize (Hw (dispatcher e b)). case_decide; lia.
Qed.

(** A change that adds one piece of work and wakes the thread. *)
Lemma pays_push b f e : bit3 f -> (forall d, (work (f d) <= S (work d))%nat) -> pays e (notify_dispr_thread (dmod b f e)).
Proof.
  intros Hf Hw. split; [intros x; by apply dmod_bit3|]. intros l Hl. pose proof (pot_dmod l b f e Hl) as Hp.
  specialize (Hw (dispatcher e b)). unfold pot in *. cbn [notify_dispr_thread msg_q_sema dispatcher] in *.
  case_decide; lia.
Qed.

Lemma pays_notify e : pays e (notify_dispr_thread e).
Proof. split; [done|]. intros l _. unfold pot. cbn. lia. Qed.

Lemma pays_log x e : pays e (log x e).
Proof. done. Qed.

(** Changes that do not touch the queues. *)
Lemma pays_quiet b f e : bit3 f -> (forall d, work (f d) = work d) -> pays e (dmod b f e).
Proof. intros Hf Hw. apply pays_dmod; [done|]. intros d. by rewrite Hw. Qed.

Lemma pays_flag b n (f : Z -> Z -> Z) e : (f = setf \/ f = clrf) -> 4 <= n -> pays e (dmod b (dp_flag (f (BIT n))) e).
Proof.
  intros Hf Hn. apply pays_quiet; [|done]. intros d. by apply (testbit_flag_above 4); [|lia..].
Qed.

Ltac pays_flag_step := first [apply (pays_flag _ _ setf); [by left|lia] | apply (pays_flag _ _ clrf); [by right|lia]].

Lemma pays_slot b i f e : pays e (dmod b (mmod i f) e).
Proof. by apply pays_quiet. Qed.

Lemma pays_req b i f e : pays e (dmod b (rmod i f) e).
Proof. by apply pays_quiet. Qed.

Lemma fold_pays {A} (f : phl_cmd_dispatch_engine -> A -> phl_cmd_dispatch_engine) l e :
  (forall e x, pays e (f e x)) -> pays e (fold_left f l e).
Proof. intros H. revert e. induction l as [|x l IH]; intros e; simpl; [done|]. etrans; [apply H|apply IH]. Qed.

(** ** Entry points *)

Lemma set_op_work r v d : work (set_op r v d) = work d /\ dp_status (set_op r v d) = dp_status d.
Proof. by destruct r. Qed.

Lemma push_op_pays b r t v e : pays e (push_back_token_op_info b r t v e).2.
Proof.
  unfold push_back_token_op_info. case_match; [done|]. apply pays_push.
  - intros d. cbn. by rewrite (proj2 (set_op_work r _ d)).
  - intros d. destruct (set_op_work r (OpInfo true t v) d) as [E _]. unfold work in *.
    cbn [set_token_op_q msg_wait_q token_op_q]. rewrite length_app. cbn [length].
    cut (length (token_op_q (set_op r (OpInfo true t v) d)) = length (token_op_q d)); [lia|by destruct r].
Qed.

Lemma with_dispr_pays b e f : (forall e, pays e (f e)) -> pays e (with_dispr b e e f).
Proof. intros H. unfold with_dispr. by case_match. Qed.

Lemma clearance_acquire_pays b e : pays e (phl_disp_eng_clearance_acquire b e).
Proof. apply with_dispr_pays. intros e'. unfold dispr_clearance_acquire. pays_flag_step. Qed.

Lemma clearance_release_pays b e : pays e (phl_disp_eng_clearance_release b e).
Proof. apply with_dispr_pays. intros e'. unfold dispr_clearance_release. etrans; [|apply push_op_pays]. pays_flag_step. Qed.

Lemma exclusive_ready_pays b rn e : pays e (dispr_exclusive_ready b rn e).
Proof.
  unfold dispr_exclusive_ready. case_match; [|done]. cbv zeta. destruct rn; [etrans; [|apply push_op_pays]|]; pays_flag_step.
Qed.

Lemma eng_exclusive_ready_pays b e : pays e (phl_disp_eng_exclusive_ready b e).
Proof. apply with_dispr_pays. intros e'. apply exclusive_ready_pays. Qed.

Lemma token_complete_pays b e : pays e (cmd_token_complete b e).
Proof.
  unfold cmd_token_complete. case_match; [done|]. cbv zeta.
  set (e1 := if TEST_STATUS_FLAG _ DISPR_EXCLUSIVE_USE then _ else e). assert (pays e e1) as H1.
  { unfold e1. case_match; [|done]. etrans; [|apply clearance_release_pays]. pays_flag_step. }
  etrans; [exact H1|]. case_match; [apply eng_exclusive_ready_pays|done].
Qed.

Lemma reset_msg_pays b i e : pays e (dmod b (reset_msg i) e).
Proof. apply pays_quiet; intros d; unfold reset_msg; cbv zeta; by case_match. Qed.

Lemma recycle_msg_pays b i e : pays e (recycle_msg b i e).
Proof.
  unfold recycle_msg. cbv zeta. etrans; [|apply reset_msg_pays]. case_match; [|done]. unfold on_abort_msg_complete.
  etrans; [|apply push_op_pays]. etrans; [|apply token_complete_pays]. pays_flag_step.
Qed.

Lemma insert_before_length {A} (p : A -> A -> bool) x l : length (insert_before p x l) = S (length l).
Proof. by rewrite (Permutation_length (insert_before_perm p x l)). Qed.

Lemma insert_msg_pays b i e : pays e (insert_msg_by_priority b i e).
Proof.
  apply pays_push; [by intros d|]. intros d. unfold work. cbn [set_msg_wait_q msg_wait_q token_op_q].
  rewrite insert_before_length. cbn. lia.
Qed.

Lemma push_wait_pays b i e : pays e (push_back_wait_msg b i e).
Proof. apply pays_push; [by intros d|]. intros d. unfold work. cbn. rewrite length_app. cbn. lia. Qed.

(** The band becomes [d], which has the queues of the old one. *)
Lemma pays_const b d e :
  Z.testbit (dp_status d) 3 = Z.testbit (dp_status (dispatcher e b)) 3 -> work d = work (dispatcher e b) ->
  pays e (dmod b (fun _ => d) e).
Proof.
  intros Hf Hw. split; [intros x; rewrite dispatcher_dmod; case_decide; by subst|]. intros l Hl.
  rewrite pot_dmod, Hw by done. case_decide; lia.
Qed.

Lemma send_pays b msg attr e : pays e (dispr_send_msg b msg attr e).2.
Proof.
  unfold dispr_send_msg. cbv zeta. do 4 (case_match; [done|]). unfold pop_front_idle_msg.
  destruct (msg_idle_q (dispatcher e b)) as [|i q]; [done|].
  set (ex := build_msg_ex _ _ _). set (last := _ && TEST_STATUS_FLAG _ REQ_STATUS_LAST_PERMIT).
  destruct (last && _); cbn [snd].
  - etrans; [|apply recycle_msg_pays]. by apply pays_const.
  - set (e1 := log _ _). assert (pays e e1) as H1'.
    { etrans; [|apply pays_log]. apply pays_const; destruct last; try done. cbn [mmod set_msg_ex_pool dp_status].
      unfold DISPR_WAIT_ABORT_MSG_DONE. by apply (testbit_flag_above 4 9 setf); [left|lia..]. }
    etrans; [exact H1'|]. destruct (IS_DISPR_CTRL _); [apply insert_msg_pays|apply push_wait_pays].
Qed.

Lemma clr_pending_pays b e : pays e (dispr_clr_pending_msg b e).
Proof. unfold dispr_clr_pending_msg. etrans; [|apply pays_notify]. pays_flag_step. Qed.

Lemma add_req_pays b req e : pays e (dispr_add_token_req b req e).2.
Proof.
  unfold dispr_add_token_req. cbv zeta. do 2 (case_match; [done|]). unfold pop_front_idle_req.
  destruct (token_req_idle_q (dispatcher e b)) as [|i q]; [done|]. cbn [snd].
  etrans; [|apply push_op_pays]. etrans; [|apply pays_log]. by apply pays_const.
Qed.

Lemma free_token_pays b hdl e : pays e (dispr_free_token b hdl e).2.
Proof.
  unfold dispr_free_token. cbv zeta. repeat case_match; try done. rewrite enqueued_snd.
  etrans; [|apply push_op_pays]. apply pays_req.
Qed.

Lemma dev_io_pays b id allow e : pays e (dispr_notify_dev_io_status b id allow e).2.
Proof.
  unfold dispr_notify_dev_io_status, send_dev_io_status_change. cbv zeta. repeat case_match; try done; cbn [snd].
  - etrans; [|apply send_pays]. apply pays_quiet; [|done]. intros d. cbn [set_exclusive_mdl dp_status dp_flag set_dp_status].
    by apply (testbit_flag_above 4 6 setf); [left|lia..].
  - etrans; [|apply clr_pending_pays]. etrans; [|apply send_pays]. apply pays_quiet; [|done].
    intros d. cbn [set_exclusive_mdl dp_status dp_flag set_dp_status]. by apply (testbit_flag_above 4 6 clrf); [right|lia..].
Qed.

Lemma api_pays e a : pays e (api_step e a).
Proof.
  destruct a; cbn [api_step];
    unfold phl_disp_eng_send_msg, phl_disp_eng_cancel_msg, phl_disp_eng_clr_pending_msg, phl_disp_eng_add_token_req,
      phl_disp_eng_cancel_token_req, phl_disp_eng_free_token, with_dispr; try (case_match; try done).
  - apply send_pays.
  - unfold dispr_cancel_msg. cbv zeta. repeat case_match; try done. apply pays_slot.
  - apply clr_pending_pays.
  - apply add_req_pays.
  - unfold dispr_cancel_token_req. cbv zeta. repeat case_match; try done. apply push_op_pays.
  - apply free_token_pays.
  - apply fold_pays. intros. apply dev_io_pays.
  - apply fold_pays. intros e' b. case_match; [|done]. unfold dispr_notify_shall_stop. case_match; [|done].
    etrans; [|apply clr_pending_pays]. pays_flag_step.
Qed.

(** ** The thread *)

Section Thread.
Context (react : cb -> phl_cmd_dispatch_engine -> reaction).

Lemma call_pays c e : pays e (call react c e).2.
Proof. unfold call. cbn [snd]. etrans; [apply (pays_log (Called c))|apply fold_pays, api_pays]. Qed.

Lemma call_msg_pays c b i e : pays e (call_msg react c b i e).2.
Proof.
  unfold call_msg. cbn [snd]. etrans; [|apply fold_pays, api_pays]. etrans; [apply (pays_log (Called c))|apply pays_slot].
Qed.

Lemma push_idle_pays b i e : pays e (push_back_idle_msg react b i e).
Proof.
  unfold push_back_idle_msg. cbv zeta. etrans; [|apply recycle_msg_pays]. case_match; [|done]. case_match; [|done].
  etrans; [|apply pays_slot]. etrans; [|apply call_msg_pays]. case_match; [apply pays_slot|done].
Qed.

Lemma cur_req_hdl_pays b i e : pays e (cur_req_hdl react b i e).
Proof. unfold cur_req_hdl. cbv zeta. repeat case_match; try done. apply call_msg_pays. Qed.

Lemma unpend_pays b e i : pays e (unpend b e i).
Proof.
  unfold unpend. cbv zeta. set (e1 := dmod b _ e). assert (pays e e1) as H1 by by apply pays_quiet.
  etrans; [exact H1|]. case_match; [apply insert_msg_pays|apply push_wait_pays].
Qed.

Lemma clear_pending_pays b e : pays e (clear_pending_msg b e).
Proof.
  unfold clear_pending_msg. case_match; [done|]. cbv zeta. etrans; [|apply fold_pays, unpend_pays]. pays_flag_step.
Qed.

Lemma drop_req_msg_pays b id e i : pays e (drop_req_msg b id e i).
Proof.
  unfold drop_req_msg. case_match; [done|]. cbv zeta. set (e1 := dmod b _ e). assert (pays e e1) as H1 by by apply pays_quiet.
  etrans; [exact H1|]. case_match; [|done]. etrans; [apply clr_pending_pays|apply clear_pending_pays].
Qed.

Lemma deregister_pays b notify e : pays e (deregister_cur_cmd_req react b notify e).
Proof.
  unfold deregister_cur_cmd_req. cbv zeta. set (e1 := match cur_cmd_req _ with Some _ => _ | None => e end).
  assert (pays e e1) as H1.
  { unfold e1. case_match; [|done]. set (e0 := dmod b (rmod _ _) e). set (e2 := fold_left _ _ e0).
    assert (pays e e0) as H0 by apply pays_req. assert (pays e0 e2) as H2 by apply fold_pays, drop_req_msg_pays. clearbody e2.
    set (e3 := if notify then _ else e2). assert (pays e2 e3) as H3.
    { unfold e3. destruct notify; [|done]. etrans; [|apply pays_req]. etrans; [|apply call_pays]. apply pays_req. }
    clearbody e3. do 3 (etrans; [eassumption|]). by apply pays_quiet. }
  clearbody e1. set (e2 := dmod b (set_cur_cmd_req None) e1). assert (pays e1 e2) as H2 by by apply pays_quiet.
  do 2 (etrans; [eassumption|]). case_match; [apply token_complete_pays|done].
Qed.

Lemma register_pays b r e : pays e (register_cur_cmd_req react b r e).2.
Proof.
  unfold register_cur_cmd_req. cbv zeta. set (e1 := dmod b _ e). assert (pays e e1) as H1 by by apply pays_quiet. clearbody e1.
  set (c := CbAcquired b r _). pose proof (call_pays c e1) as H2. destruct (call react c e1) as [ret e2]. cbn [snd] in H2.
  etrans; [exact H1|]. etrans; [exact H2|]. destruct ret; try done. apply deregister_pays.
Qed.

Lemma process_pays fuel b e s e' : dispr_process_token_req react fuel b e = Some (s, e') -> pays e e'.
Proof.
  revert e. induction fuel as [|f IH]; intros e; [done|]. cbn [dispr_process_token_req]. cbv zeta.
  do 4 (case_match; [by intros [= _ <-]|]).
  case_match; [intros [= _ <-]; apply eng_exclusive_ready_pays|].
  case_match; [intros [= _ <-]; apply clearance_acquire_pays|].
  unfold pop_front_wait_req. destruct (token_req_wait_q (dispatcher e b)) as [|r q] eqn:Eq.
  { intros [= _ <-]. case_match; [|done]. etrans; [|apply send_pays]. pays_flag_step. }
  set (e1 := dmod b _ e). assert (pays e e1) as H1' by by apply pays_const.
  set (e2 := if TEST_STATUS_FLAG _ DISPR_NOTIFY_IDLE then _ else e1). assert (pays e1 e2) as H2'.
  { unfold e2. case_match; [|done]. etrans; [|apply send_pays]. pays_flag_step. }
  clearbody e2. pose proof (register_pays b r e2) as H3'. destruct (register_cur_cmd_req react b r e2) as [ok e3].
  cbn [snd] in H3'. assert (pays e e3) as He3 by (do 2 (etrans; [eassumption|]); done).
  destruct ok; [by intros [= _ <-]|]. intros Hp. etrans; [exact He3|by apply IH].
Qed.

Lemma handle_op_pays fuel b op e e' : _handle_token_op_info react fuel b op e = Some e' -> pays e e'.
Proof.
  unfold _handle_token_op_info. cbv zeta.
  assert (forall e1, pays e e1 -> snd <$> dispr_process_token_req react fuel b e1 = Some e' -> pays e e') as Hp.
  { intros e1 H1 Hs. destruct (dispr_process_token_req react fuel b e1) as [[s e2]|] eqn:E; [|done].
    injection Hs as <-. etrans; [exact H1|by eapply process_pays]. }
  case_match; [by apply Hp|]. case_match.
  { case_match; [by intros [= <-]|]. case_match; [by intros [= <-]|]. apply Hp, deregister_pays. }
  case_match; [|by intros [= <-]]. case_match; [by intros [= <-]|]. set (e1 := dmod b (rmod _ _) e).
  assert (pays e e1) as H1' by apply pays_req. clearbody e1. case_match.
  - intros Hs. apply (inj Some) in Hs as <-. etrans; [exact H1'|]. etrans; [|by apply pays_quiet].
    etrans; [|apply call_pays]. by apply pays_quiet.
  - case_match; [|by intros [= <-]]. apply Hp. etrans; [exact H1'|]. apply deregister_pays.
Qed.

(** A step that does a piece of the work of band [b]. *)
Definition works (b : Z) (e e' : phl_cmd_dispatch_engine) : Prop :=
  pays e e' /\ forall l, NoDup l -> b ∈ l -> pot l e' <= pot l e - 1.

Lemma works_pays b e1 e2 e3 : works b e1 e2 -> pays e2 e3 -> works b e1 e3.
Proof.
  intros [P1 W1] P2. split; [by etrans|]. intros l Hl Hb. specialize (W1 l Hl Hb). destruct P2 as [_ P2].
  specialize (P2 l Hl). lia.
Qed.

Lemma pays_works b e1 e2 e3 : pays e1 e2 -> works b e2 e3 -> works b e1 e3.
Proof.
  intros P1 [P2 W2]. split; [by etrans|]. intros l Hl Hb. specialize (W2 l Hl Hb). destruct P1 as [_ P1].
  specialize (P1 l Hl). lia.
Qed.

Lemma works_const b d e :
  Z.testbit (dp_status d) 3 = Z.testbit (dp_status (dispatcher e b)) 3 -> work (dispatcher e b) = S (work d) ->
  works b e (dmod b (fun _ => d) e).
Proof.
  intros Hf Hw. split.
  - split; [intros x; rewrite dispatcher_dmod; case_decide; by subst|]. intros l Hl.
    rewrite pot_dmod by done. case_decide; lia.
  - intros l Hl Hb. rewrite pot_dmod, decide_True by done. lia.
Qed.

Lemma token_op_loop_pays fuel b e e' :
  token_op_loop react fuel b e = Some e' -> e' = e /\ token_op_q (dispatcher e b) = [] \/ works b e e'.
Proof.
  revert e. induction fuel as [|f IH]; intros e; cbn [token_op_loop]; unfold pop_front_token_op_info;
    destruct (token_op_q (dispatcher e b)) as [|r q] eqn:Eq; try (intros [= <-]; by left).
  cbv zeta. set (e1 := dmod b _ e). assert (works b e e1) as H1.
  { apply works_const; [done|]. unfold work. cbn. rewrite Eq. cbn. lia. }
  destruct (_handle_token_op_info react (S f) b _ e1) as [e2|] eqn:E2; [|done]. cbn [mbind option_bind].
  apply handle_op_pays in E2. set (e3 := dmod b _ e2). assert (pays e2 e3) as H3.
  { apply pays_quiet; intros d; cbv zeta; [by rewrite (proj2 (set_op_work _ _ _))|by rewrite (proj1 (set_op_work _ _ _))]. }
  clearbody e3. intros Hs. right. eapply works_pays; [exact H1|]. do 2 (etrans; [eassumption|]).
  destruct (IH e3 Hs) as [[-> _]|[H4 _]]; done.
Qed.

(** ** Delivery *)

Lemma notify_fail_pays b i ret e : pays e (notify_msg_fail react b i ret e).
Proof.
  unfold notify_msg_fail. cbv zeta. set (e1 := dmod b _ e). assert (pays e e1) as H1 by apply pays_slot. clearbody e1.
  set (e2 := if bool_decide _ then _ else e1). assert (pays e1 e2) as H2 by (unfold e2; case_match; [apply pays_slot|done]).
  clearbody e2. set (e3 := match mx_module _ with Some m => _ | None => e2 end).
  assert (pays e2 e3) as H3 by (unfold e3; repeat case_match; try done; apply call_msg_pays). clearbody e3.
  do 3 (etrans; [eassumption|]). case_match; [apply cur_req_hdl_pays|done].
Qed.

Lemma feed_pays b mdl i e : pays e (feed_mdl_msg react b mdl i e).2.
Proof.
  unfold feed_mdl_msg. set (c := CbMsg b _ i _). pose proof (call_msg_pays c b i e) as H1.
  destruct (call_msg react c b i e) as [ret e1]. cbn [snd] in *. etrans; [exact H1|].
  destruct ret; try apply pays_slot; (etrans; [|apply notify_fail_pays]; apply pays_slot).
Qed.

Lemma phase_pays sel b i l e : pays e (phase_loop react sel b i l e).
Proof.
  revert e. induction l as [|mdl l IH]; intros e; cbn [phase_loop]; [done|]. case_match; [apply IH|].
  pose proof (feed_pays b mdl i e) as H1. destruct (feed_mdl_msg react b mdl i e) as [ret e1]. cbn [snd] in H1.
  case_match; [done|]. etrans; [exact H1|apply IH].
Qed.

Lemma push_pending_pays b i e : pays e (dmod b (push_back_pending_msg i) e).
Proof. apply pays_quiet; intros d; unfold push_back_pending_msg; cbv zeta; by case_match. Qed.

Lemma msg_end_pays b i g e : pays e (msg_end react b i g e).
Proof. destruct g; cbn [msg_end]; try apply push_idle_pays. case_match; [apply push_pending_pays|apply push_wait_pays]. Qed.

Lemma checked_pays b i f e : (forall e, pays e (f e)) -> pays e (checked react b i f e).
Proof. intros Hf. unfold checked. case_match; [apply msg_end_pays..|apply Hf]. Qed.

Lemma invalid_pays b i e : pays e (invalid_bitmap react b i e).
Proof. unfold invalid_bitmap. etrans; [|apply msg_end_pays]. apply pays_slot. Qed.

Lemma dispatch_post_pays b i pre e : pays e (dispatch_post react b i pre e).
Proof.
  unfold dispatch_post. cbv zeta. etrans; [|apply checked_pays].
  - case_match; [apply phase_pays|done].
  - intros e'. case_match; [|apply invalid_pays]. etrans; [|apply msg_end_pays]. apply cur_req_hdl_pays.
Qed.

Lemma dispatch_pre_pays b i pre e : pays e (dispatch_pre react b i pre e).
Proof.
  unfold dispatch_pre. case_match; [|apply dispatch_post_pays]. etrans; [|apply checked_pays].
  - apply phase_pays.
  - intros e'. case_match; [|apply invalid_pays]. set (e1 := dmod b _ e'). destruct (get_msg_bitmap _) as [pre' ex].
    etrans; [|apply dispatch_post_pays]. etrans; [|apply pays_slot]. apply pays_slot.
Qed.

Lemma msg_dispatch_pays b i e : pays e (msg_dispatch react b i e).
Proof.
  unfold msg_dispatch. destruct (get_msg_bitmap _) as [pre ex]. etrans; [|apply checked_pays].
  - apply pays_slot.
  - intros e'. etrans; [|apply checked_pays, dispatch_pre_pays].
    unfold _notify_dispr_controller. case_match; [done|apply feed_pays].
Qed.

Lemma handle_one_pays b e e' :
  handle_one_msg react b e = Some e' -> e' = e /\ msg_wait_q (dispatcher e b) = [] \/ works b e e'.
Proof.
  unfold handle_one_msg, pop_front_wait_msg. destruct (msg_wait_q (dispatcher e b)) as [|i q] eqn:Eq;
    [intros [= <-]; by left|]. set (d := mmod i _ _). destruct (is_msg_canceled d _) as [ex canceled].
  set (e1 := dmod b _ e). assert (works b e e1) as H1.
  { apply works_const; [done|]. unfold work. cbn. by rewrite Eq. }
  clearbody e1. destruct canceled; [intros [= <-]; right; eapply works_pays; [exact H1|apply push_idle_pays]|].
  destruct (_and_bitmaps _ (premap ex) _); [|done]. destruct (_and_bitmaps _ (postmap ex) _); [|done].
  intros Hs. apply (inj Some) in Hs as <-. right. eapply works_pays; [exact H1|].
  etrans; [|apply msg_dispatch_pays]. apply pays_slot.
Qed.

Lemma exclusive_ready_wait x e b :
  msg_wait_q (dispatcher (phl_disp_eng_exclusive_ready x e) b) = msg_wait_q (dispatcher e b).
Proof.
  unfold phl_disp_eng_exclusive_ready, with_dispr, dispr_exclusive_ready. repeat case_match; try done.
  unfold renew, dispr_enqueue_token_op_info, push_back_token_op_info. case_match; cbn [snd notify_dispr_thread dispatcher];
    repeat (rewrite dispatcher_dmod; case_decide; subst; try done).
Qed.

Lemma thread_loop_pays fuel b e e' :
  Z.testbit (dp_status (dispatcher e b)) 3 = true -> dispr_thread_loop_hdl react fuel b e = Some e' ->
  works b e e' \/ exists e1, pays e e1 /\ work (dispatcher e1 b) = O /\ pays e1 e'.
Proof.
  intros Hs. unfold dispr_thread_loop_hdl, DISPR_STARTED. rewrite TEST_BIT, Hs by lia. cbn [negb].
  pose proof (clear_pending_pays b e) as H1. set (e1 := clear_pending_msg b e) in *. clearbody e1.
  unfold token_op_hanler. cbv zeta. destruct (_ && _ && _) eqn:Ec; cbn [mbind option_bind].
  - pose proof (eng_exclusive_ready_pays (ntfyidx b) e1) as H2. intros Hh.
    destruct (handle_one_pays _ _ _ Hh) as [[-> Hw]|Hw].
    + right. exists e1. split_and!; try done. rewrite exclusive_ready_wait in Hw.
      apply andb_true_iff in Ec as [Ec _]. apply andb_true_iff in Ec as [_ Ec]. apply bool_decide_eq_true in Ec.
      unfold work. by rewrite Hw, Ec.
    + left. eapply pays_works; [|exact Hw]. by etrans.
  - destruct (token_op_loop react fuel b e1) as [e2|] eqn:E2; [|done]. cbn [mbind option_bind]. intros Hh.
    destruct (token_op_loop_pays _ _ _ _ E2) as [[-> Ho]|Hw2], (handle_one_pays _ _ _ Hh) as [[-> Hw]|Hw].
    + right. exists e1. split_and!; try done. unfold work. by rewrite Hw, Ho.
    + left. by eapply pays_works.
    + left. by eapply pays_works.
    + left. eapply pays_works; [exact H1|]. eapply works_pays; [exact Hw2|apply Hw].
Qed.
End Thread.

(** ** Turns, modules and start *)

Section Life.
Context (react : cb -> phl_cmd_dispatch_engine -> reaction).

Definition all_on (l : list Z) (e : phl_cmd_dispatch_engine) : Prop :=
  forall b, b ∈ l -> Z.testbit (dp_status (dispatcher e b)) 3 = true.

Lemma all_on_pays l e e' : pays e e' -> all_on l e -> all_on l e'.
Proof. intros [H _] Ho b Hb. rewrite H. by apply Ho. Qed.

Lemma pot_app l1 b e : pot (l1 ++ [b]) e = pot l1 e + Z.of_nat (work (dispatcher e b)).
Proof.
  unfold pot. induction l1 as [|x l IH]; cbn [app sum_list_with]; lia.
Qed.

Lemma loop_pays fuel b e e' : dispr_thread_loop_hdl react fuel b e = Some e' -> pays e e'.
Proof.
  intros H. destruct (Z.testbit (dp_status (dispatcher e b)) 3) eqn:Eb.
  - destruct (thread_loop_pays react fuel b e e' Eb H) as [[P _]|(e1 & P1 & _ & P2)]; [done|by etrans].
  - unfold dispr_thread_loop_hdl, DISPR_STARTED in H. rewrite TEST_BIT, Eb in H by lia. by injection H as <-.
Qed.

Lemma turn_rest fuel l e e' :
  fold_left (fun o b => e ← o; dispr_thread_loop_hdl react fuel b e) l (Some e) = Some e' -> pays e e'.
Proof.
  revert e. induction l as [|b l IH]; intros e; cbn [fold_left]; [by intros [= <-]|]. cbn [mbind option_bind].
  destruct (dispr_thread_loop_hdl react fuel b e) as [e1|] eqn:E1; [|by rewrite fold_None]. intros Hs.
  etrans; [by eapply loop_pays|by apply IH].
Qed.

(** The bands [l1] were visited and are covered; the semaphore was taken once
    for all of them. *)
Lemma turn_pays fuel l1 l2 e e' :
  NoDup (l1 ++ l2) -> all_on (l1 ++ l2) e -> pot l1 e <= 0 -> pot (l1 ++ l2) e <= 1 ->
  fold_left (fun o b => e ← o; dispr_thread_loop_hdl react fuel b e) l2 (Some e) = Some e' ->
  all_on (l1 ++ l2) e' /\ pot (l1 ++ l2) e' <= 0.
Proof.
  intros Hnd Ho H1 H2. revert l1 e Hnd Ho H1 H2. induction l2 as [|b l2 IH]; intros l1 e Hnd Ho H1 H2; cbn [fold_left].
  { intros [= <-]. by rewrite app_nil_r in *. }
  cbn [mbind option_bind]. destruct (dispr_thread_loop_hdl react fuel b e) as [e1|] eqn:E1; [|by rewrite fold_None].
  assert (b ∈ l1 ++ b :: l2) as Hb by set_solver. assert (l1 ++ b :: l2 = (l1 ++ [b]) ++ l2) as El by by rewrite <- app_assoc.
  assert (NoDup (l1 ++ [b])) as Hnd1 by (rewrite El in Hnd; by apply list.NoDup_app in Hnd as [? _]).
  assert (NoDup l1) as Hnd0 by (by apply list.NoDup_app in Hnd1 as [? _]).
  assert (pays e e1 /\ pot (l1 ++ [b]) e1 <= 0 \/ works b e e1) as Hstep.
  { destruct (thread_loop_pays react fuel b e e1 (Ho b Hb) E1) as [Hw|(e0 & P0 & W0 & P1)]; [by right|left].
    split; [by etrans|]. destruct P0 as [_ P0], P1 as [_ P1]. specialize (P1 _ Hnd1). rewrite (pot_app l1 b e0), W0 in P1.
    specialize (P0 l1 Hnd0). lia. }
  intros Hs. rewrite El in *. destruct Hstep as [[P1 C1]|[P1 W1]].
  - apply (IH (l1 ++ [b]) e1); try done; [by eapply all_on_pays|]. pose proof (proj2 P1 _ Hnd). lia.
  - apply turn_rest in Hs as P2. specialize (W1 _ Hnd Hb). split; [by do 2 (eapply all_on_pays; [eassumption|])|].
    pose proof (proj2 P2 _ Hnd). lia.
Qed.

Lemma mod_mdl_pays b r f e : pays e (dmod b (mod_mdl r f) e).
Proof. apply pays_quiet; by destruct r. Qed.

Lemma bk_module_init_pays b r e : pays e (bk_module_init react b r e).2.
Proof.
  unfold bk_module_init. cbv zeta. case_match; [done|]. set (c := CbInit b _).
  pose proof (call_pays react c e) as H1. destruct (call react c e) as [ret e1]. cbn [snd] in *.
  destruct ret; try done. etrans; [exact H1|apply mod_mdl_pays].
Qed.

Lemma bk_module_start_pays b r e : pays e (bk_module_start react b r e).2.
Proof.
  unfold bk_module_start. cbv zeta. case_match; [done|]. set (c := CbStart b _).
  pose proof (call_pays react c e) as H1. destruct (call react c e) as [ret e1]. cbn [snd] in *.
  destruct ret; try done. etrans; [exact H1|apply mod_mdl_pays].
Qed.

Lemma bk_module_deinit_pays b r e : pays e (bk_module_deinit react b r e).
Proof. unfold bk_module_deinit. cbv zeta. etrans; [|apply mod_mdl_pays]. case_match; [apply call_pays|done]. Qed.

Lemma freed_pays b r e : pays e (dmod b (set_damaged true) (bk_module_deinit react b r e)).
Proof. etrans; [apply bk_module_deinit_pays|]. by apply pays_quiet. Qed.

Lemma enroll_pays b id p e : pays e (dmod b (enroll id p) e).
Proof. apply pays_quiet; intros d; unfold enroll; cbv zeta; by case_match. Qed.

Lemma register_module_pays b id ok al e : pays e (dispr_register_module react b id ok al e).2.
Proof.
  unfold dispr_register_module. cbv zeta. case_match; [done|]. case_match; [done|].
  set (e0 := dmod b _ e). set (r := MQ _ _). assert (pays e e0) as He0 by by apply pays_quiet. clearbody e0.
  pose proof (bk_module_init_pays b r e0) as H1'. destruct (bk_module_init react b r e0) as [ok1 e1]. cbn [snd] in H1'.
  etrans; [exact He0|]. etrans; [exact H1'|]. destruct (ok1 && _).
  - pose proof (bk_module_start_pays b r e1) as H2'. destruct (bk_module_start react b r e1) as [ok2 e2].
    cbn [snd] in H2'. etrans; [exact H2'|]. destruct ok2; cbn [snd]; [apply enroll_pays|apply freed_pays].
  - destruct ok1; cbn [snd]; [done|apply freed_pays].
Qed.

Lemma deregister_module_pays b id e : pays e (dispr_deregister_module react b id e).2.
Proof.
  unfold dispr_deregister_module. cbv zeta. case_match; [done|]. case_match; [|done].
  set (e0 := dmod b _ e). assert (pays e e0) as H1' by by apply pays_quiet. clearbody e0. cbn [snd].
  etrans; [exact H1'|]. set (e1 := if TEST_STATUS_FLAG _ MDL_STARTED then _ else e0).
  assert (pays e0 e1) as H2' by (unfold e1; case_match; [apply call_pays|done]).
  etrans; [exact H2'|]. set (e2 := if TEST_STATUS_FLAG _ MDL_INIT then _ else e1).
  assert (pays e1 e2) as H3' by (unfold e2; case_match; [apply call_pays|done]).
  etrans; [exact H3'|]. by apply pays_quiet.
Qed.

Lemma module_start_pays b e : pays e (dispr_module_start react b e).2.
Proof.
  unfold dispr_module_start. case_match; [done|]. apply fold_pays. intros e1 r. unfold start_one.
  pose proof (bk_module_start_pays b r e1) as H1'. destruct (bk_module_start react b r e1) as [ok e2]. cbn [snd] in H1'.
  etrans; [exact H1'|]. destruct ok; [apply enroll_pays|done].
Qed.

(** A band that starts has no work. *)
Lemma boot_work d : Z.testbit (dp_status d) 1 = false -> Z.testbit (dp_status d) 2 = false -> work (boot d) = O.
Proof.
  intros S1 S2. unfold boot. cbv zeta. destruct (init_dispr_msg_pool_spec d S1) as (_ & _ & A3 & _ & _ & _ & A7).
  set (d1 := init_dispr_msg_pool d) in *. rewrite init_cmd_req_pool_spec; last first.
  { rewrite A7. unfold DISPR_MSGQ_INIT. rewrite testbit_setf by lia. by rewrite S2. }
  unfold work. cbn. by rewrite A3.
Qed.

(** Starting the bands of a list, the others covered. *)
Definition awake (l : list Z) (e : phl_cmd_dispatch_engine) : Prop := all_on l e /\ pot l e <= 0.

Lemma awake_pays l e e' : NoDup l -> pays e e' -> awake l e -> awake l e'.
Proof. intros Hl Hp [Ho H]. split; [by eapply all_on_pays|]. pose proof (proj2 Hp l Hl). lia. Qed.

Lemma start_controller_pays b e : pays e (_start_dispr_controller react b e).2.
Proof.
  unfold _start_dispr_controller. pose proof (bk_module_start_pays b MCtrl e) as H1.
  destruct (bk_module_start react b MCtrl e) as [ok e2]. cbn [snd] in *. etrans; [exact H1|].
  destruct ok; [|done]. apply (pays_flag _ 4 setf); [by left|lia].
Qed.

Lemma dispr_start_awake l b e :
  NoDup (l ++ [b]) -> awake l e -> stopped (trace e) b (dispatcher e b) -> awake (l ++ [b]) (dispr_start react b e).2.
Proof.
  intros Hnd [Ho H] [_ _ S3 _ _]. unfold dispr_start, DISPR_STARTED. rewrite TEST_BIT, S3 by (auto; lia).
  cbv zeta. cbn [snd]. eapply awake_pays; [done|apply start_controller_pays|].
  change (awake (l ++ [b]) (dmod b boot e)). set (e1 := dmod b boot e). assert (b ∉ l) as Hb by (apply list.NoDup_app in Hnd as (_ & Hd & _); set_solver).
  assert (NoDup l) as Hl by (by apply list.NoDup_app in Hnd as [? _]). split.
  - intros x Hx. unfold e1. rewrite dispatcher_dmod. case_decide; [by apply boot_bits|]. apply Ho. set_solver.
  - rewrite pot_app. unfold e1 at 1. rewrite pot_dmod, decide_False by done. unfold e1. rewrite dispatcher_dmod_eq.
    rewrite boot_work by auto. lia.
Qed.

Lemma start_all_awake l l2 L hd e :
  NoDup (l ++ l2) -> (forall b, b ∈ l2 -> 0 <= b < hd.1 /\ ~ L b) -> partly L hd e -> awake l e ->
  awake (l ++ l2) (fold_left (fun e b => (dispr_module_start react b (dispr_start react b e).2).2) l2 e).
Proof.
  revert l L e. induction l2 as [|b l2 IH]; intros l L e Hnd Hl Hp Ha; cbn [fold_left]; [by rewrite app_nil_r|].
  destruct (Hl b) as [Hr Hn]; [set_solver|]. assert (l ++ b :: l2 = (l ++ [b]) ++ l2) as El by by rewrite <- app_assoc.
  rewrite El in *. assert (NoDup (l ++ [b])) as Hnd1 by (by apply list.NoDup_app in Hnd as [? _]).
  apply (IH (l ++ [b]) (fun x => L x \/ x = b)); [done|..].
  - intros x Hx. destruct (Hl x) as [? ?]; [set_solver|]. split; [done|]. intros [|]; [done|]. subst.
    apply list.NoDup_app in Hnd as (_ & Hd & _). apply (Hd b); set_solver.
  - eapply partly_keeps; [apply dispr_module_start_keeps|]. by apply dispr_start_partly.
  - eapply awake_pays; [done|apply module_start_pays|]. apply dispr_start_awake; [done..|]. by apply Hp.
Qed.

Lemma start_awake e : down e -> Z.testbit (eng_status e) 1 = false -> awake (bands e) (phl_disp_eng_start react e).2.
Proof.
  intros Hd Hs. unfold phl_disp_eng_start, DISPR_ENG_STARTED. rewrite TEST_BIT, Hs by lia. cbv zeta. cbn [snd].
  set (e0 := Eng (phy_num e) _ _ 0 _). set (e1 := fold_left _ (bands e0) e0). change (bands e) with (bands e0).
  assert (awake (bands e0) e1) as H1.
  { apply (start_all_awake [] (bands e0) (fun _ => False) (eng_head e)); [apply bands_nodup|..].
    - intros b Hb. apply elem_of_bands in Hb. split; [exact Hb|tauto].
    - split_and!; [done|intros b []|]. intros b Hb _. by apply Hd.
    - split; [intros b Hb; set_solver|]. unfold pot. cbn. lia. }
  clearbody e1. set (e2 := eng_flag _ e1). assert (awake (bands e0) e2) as H2 by exact H1.
  case_match; [|done]. eapply awake_pays; [apply bands_nodup|apply exclusive_ready_pays|done].
Qed.
End Life.

Lemma bands_num num e : phy_num e = Z.of_nat num -> bands e = map Z.of_nat (seq 0 num).
Proof. intros H. unfold bands. by rewrite H, Nat2Z.id. Qed.

Lemma eng_step_awake num e e' : phy_num e = Z.of_nat num -> eng_step e e' -> awake (bands e) e -> awake (bands e) e'.
Proof.
  intros Hn Hs Ha. pose proof (bands_nodup e) as Hnd.
  destruct Hs as [e a|react b id ops al e|react b id e|react fuel e e' Hs Ht].
  - eapply awake_pays; [done|apply api_pays|done].
  - eapply awake_pays; [done|apply register_module_pays|done].
  - eapply awake_pays; [done|apply deregister_module_pays|done].
  - destruct Ha as [Ho Hp]. unfold share_thread_turn in Ht. cbv zeta in Ht.
    set (e0 := Eng _ _ _ (msg_q_sema e - 1) _) in Ht. change (bands e) with ([] ++ bands e0) in *.
    eapply (turn_pays react fuel [] (bands e0) e0); try done; unfold pot in *; cbn in *; lia.
Qed.

Lemma life_awake num e : (0 < num)%nat -> life num Up e -> awake (map Z.of_nat (seq 0 num)) e.
Proof.
  intros Hn Hl. remember Up as p eqn:Ep. induction Hl as [| | | |react e Hl _ _|e e' Hl IH Hs _|]; try done.
  - destruct (life_inv num Down e Hn Hl) as [P [Hd Hs]]. rewrite <- (bands_num num e P). by apply start_awake.
  - destruct (life_inv num Up e Hn Hl) as [P _]. specialize (IH eq_refl). rewrite <- (bands_num num e P) in *.
    by eapply eng_step_awake.
Qed.

(** C9. No wakeup is lost: between start and stop, with any callbacks and any
    interleaving that have left the memory of the dispatcher intact, the
    semaphore of the thread counts at least the messages that wait and the token
    operations that are queued on all bands. *)
Theorem no_lost_wakeup num e :
  (0 < num)%nat -> life num Up e ->
  Z.of_nat (sum_list_with (fun b => (length (msg_wait_q (dispatcher e b)) + length (token_op_q (dispatcher e b)))%nat)
              (map Z.of_nat (seq 0 num))) <= msg_q_sema e.
Proof. intros Hn Hl. destruct (life_awake num e Hn Hl) as [_ H]. unfold pot, work in H. lia. Qed.

Lemma no_lost_wakeup_witness :
  length (msg_wait_q (dispatcher sample_busy 0)) = 2%nat /\ 2 <= msg_q_sema sample_busy.
Proof.
  split; [vm_compute; reflexivity|]. etransitivity; [|apply (no_lost_wakeup 1 sample_busy); [lia|exact sample_busy_life]].
  vm_compute. discriminate.
Defined.
