(* ===== verification/DisprOrder.v ===== *)
(** * The two phases of a message

    The order in which [msg_dispatch] delivers a message when every handler
    succeeds: the controller, the modules of the mandatory, optional and role
    queues, the same modules in reverse order, the current request, the
    completion routine. *)
From Stdlib Require Import ZArith Lia Bool List Permutation.
From stdpp Require Import base tactics list numbers sets functions relations.
From S2P Require Import Prelude PhlList PhlUtil Dispr DisprInv DisprRun DisprLife DisprStop.

(** ** Bitmaps *)

Lemma chk_clr m id id' :
  wf_bitmap MODL_MASK_LEN m -> 0 <= id -> 0 <= id' ->
  wf_bitmap MODL_MASK_LEN (clr_map_bit id m) /\
  _chk_bitmap_bit (clr_map_bit id m) MODL_MASK_LEN id' = _chk_bitmap_bit m MODL_MASK_LEN id' && negb (id' =? id).
Proof.
  intros Hm Hid Hid'. unfold clr_map_bit, _clr_bitmap_bit. change (take (Z.to_nat 1) [id]) with [id].
  destruct (clr_loop_chk MODL_MASK_LEN ltac:(done) [id] m id') as [H1 H2]; [done|by constructor|done|].
  split; [done|]. rewrite H2. cbn [mem_id existsb]. by rewrite orb_false_r.
Qed.

(** No id is in the empty map, and a map with no id is empty. *)
Lemma empty_chk m :
  wf_bitmap MODL_MASK_LEN m ->
  _is_bitmap_empty m = true <-> forall id, 0 <= id < PHL_BK_MDL_END -> _chk_bitmap_bit m MODL_MASK_LEN id = false.
Proof.
  intros [Hl Hf]. unfold _is_bitmap_empty. rewrite bool_decide_eq_true. split.
  - intros -> id Hid. rewrite chk_testbit by done. unfold byte_at.
    rewrite nth_lookup. unfold zero_map. destruct (_ !! _) as [v|] eqn:E; cbn [default].
    + apply lookup_replicate in E as [-> _]. by rewrite Z.bits_0, andb_false_r.
    + by rewrite Z.bits_0, andb_false_r.
  - intros H. apply list_eq_same_length with (n := 16%nat); [done|change MODL_MASK_LEN with 16 in Hl; change (length zero_map) with 16%nat; lia|].
    intros j x y Hj Hx Hy. apply lookup_replicate in Hy as [-> _].
    assert (byte_at m (Z.of_nat j) = x) as Ex by (unfold byte_at; rewrite Nat2Z.id, nth_lookup, Hx; done).
    assert (is_u8 x) as Hr by (by eapply Forall_lookup_1 in Hf).
    apply Z.bits_inj'. intros n Hn. rewrite Z.bits_0. destruct (Z.ltb_spec n 8) as [H8|H8].
    + specialize (H (8 * Z.of_nat j + n)). rewrite chk_testbit in H by done.
      replace ((8 * Z.of_nat j + n) / 8) with (Z.of_nat j) in H by zlia.
      replace ((8 * Z.of_nat j + n) mod 8) with n in H by zlia. rewrite Ex in H.
      rewrite (proj2 (Z.ltb_lt _ _)) in H; [apply H; unfold PHL_BK_MDL_END; lia|]. change MODL_MASK_LEN with 16. lia.
    + unfold is_u8 in Hr. apply Z.bits_above_log2; [lia|]. destruct (decide (x = 0)) as [->|]; [cbn; lia|].
      assert (Z.log2 x < 8) by (apply Z.log2_lt_pow2; lia). lia.
Qed.

(** ** The phase of a message *)

Lemma in_pre_phase_bit ex : in_pre_phase ex = Z.testbit (msg_id (mx_msg ex)) 24.
Proof.
  unfold in_pre_phase, MSG_INDC_FIELD, MSG_INDC_PRE_PHASE. rewrite land_BIT by lia. change 255 with (Z.ones 8).
  rewrite Z.land_spec, Z.ones_spec_low, Z.shiftr_spec, andb_true_r by lia. done.
Qed.

Lemma set_pre_indc v : Z.testbit (SET_MSG_INDC_FIELD v MSG_INDC_PRE_PHASE) 24 = true.
Proof. unfold SET_MSG_INDC_FIELD, MSG_INDC_PRE_PHASE. rewrite Z.lor_spec. apply orb_true_r. Qed.

Lemma clear_pre_indc v : Z.testbit (CLEAR_MSG_INDC_FIELD v MSG_INDC_PRE_PHASE) 24 = false.
Proof. unfold CLEAR_MSG_INDC_FIELD, MSG_INDC_PRE_PHASE. rewrite Z.land_spec. apply andb_false_r. Qed.

(** ** What is delivered *)

Inductive delivery := ToModule (pre : bool) (id : Z) | ToRequest (r : nat) | ToCompletion (c : Z).

(** The deliveries of the message in slot [i] of band [b] in the history. *)
Definition delivery_of (b : Z) (i : nat) (x : event) : list delivery :=
  match x with
  | Called (CbMsg b' id i' m) =>
    if (b' =? b) && (i' =? i)%nat
    then [ToModule (negb (Z.land (MSG_INDC_FIELD (msg_id m)) MSG_INDC_PRE_PHASE =? 0)) id] else []
  | Called (CbReqMsg b' r _ i' _) => if (b' =? b) && (i' =? i)%nat then [ToRequest r] else []
  | Called (CbCompletion b' c i' _) => if (b' =? b) && (i' =? i)%nat then [ToCompletion c] else []
  | _ => []
  end.

Definition deliveries (b : Z) (i : nat) (tr : list event) : list delivery := flat_map (delivery_of b i) tr.

(** The modules a message goes to: in its map, and started. *)
Definition addressed (map : list Z) (m : phl_bk_module) : bool :=
  _chk_bitmap_bit map MODL_MASK_LEN (m_id m) && TEST_STATUS_FLAG (m_status m) MDL_STARTED.

Definition receivers (map : list Z) (l : list phl_bk_module) : list Z := List.map m_id (List.filter (addressed map) l).

(** ** Handlers that succeed *)

Section Plain.
Context (react : cb -> phl_cmd_dispatch_engine -> reaction) (b : Z) (i : nat).
Hypothesis plain : forall c e, r_calls (react c e) = [] /\ STOP_DISPATCH_MSG (r_ret (react c e)) = false.

(** What reading the message slot [i] of band [b] needs of the dispatcher. *)
Definition view (e : phl_cmd_dispatch_engine) :=
  let d := dispatcher e b in (module_q d, controller d, dp_status d, cur_cmd_req d, token_req_ex_pool d).

(** The slot [i] of band [b] may change; the rest of the band is read as
    before. *)
Definition slot_step (f : phl_dispr_msg_ex -> phl_dispr_msg_ex) (evs : list event) (e e' : phl_cmd_dispatch_engine) : Prop :=
  view e' = view e /\ slot e' b i = f (slot e b i) /\ trace e' = trace e ++ evs.

Lemma slot_dmod f e : slot_step f [] e (dmod b (mmod i f) e).
Proof.
  unfold slot_step, view, slot. rewrite !dispatcher_dmod_eq. split_and!; try done.
  - cbn. by rewrite fn_lookup_insert.
  - by rewrite app_nil_r.
Qed.

Lemma slot_step_trans f g ev1 ev2 e1 e2 e3 :
  slot_step f ev1 e1 e2 -> slot_step g ev2 e2 e3 -> slot_step (fun ex => g (f ex)) (ev1 ++ ev2) e1 e3.
Proof.
  intros (V1 & S1 & T1) (V2 & S2 & T2). split_and!; [congruence|by rewrite S2, S1|by rewrite T2, T1, app_assoc].
Qed.

Lemma call_msg_plain c e :
  exists v, STOP_DISPATCH_MSG (call_msg react c b i e).1 = false /\
    slot_step (mx_set_msg (msg_set_body v)) [Called c] e (call_msg react c b i e).2.
Proof.
  unfold call_msg. cbv zeta. destruct (plain c (log (Called c) e)) as [-> Hr]. cbn [fst snd fold_left]. eexists.
  split; [exact Hr|]. eapply (slot_step_trans (fun ex => ex) _ [Called c] []); [|apply slot_dmod]. done.
Qed.

(** What a delivery leaves of the message: its status, its completion, its
    id. *)
Definition kept (ex ex' : phl_dispr_msg_ex) : Prop :=
  mx_status ex' = mx_status ex /\ completion ex' = completion ex /\ msg_id (mx_msg ex') = msg_id (mx_msg ex).

Lemma feed_plain mdl e :
  exists ex', STOP_DISPATCH_MSG (feed_mdl_msg react b mdl i e).1 = false /\
    slot_step (fun _ => ex') [Called (CbMsg b (m_id mdl) i (mx_msg (slot e b i)))] e (feed_mdl_msg react b mdl i e).2 /\
    kept (slot e b i) ex' /\
    (if in_pre_phase (slot e b i)
     then premap ex' = clr_map_bit (m_id mdl) (premap (slot e b i)) /\ postmap ex' = postmap (slot e b i)
     else premap ex' = premap (slot e b i) /\ postmap ex' = clr_map_bit (m_id mdl) (postmap (slot e b i))).
Proof.
  unfold feed_mdl_msg. set (c := CbMsg b _ i _). destruct (call_msg_plain c e) as (v & Hr & Hs).
  destruct (call_msg react c b i e) as [ret e1]. cbn [fst snd] in *.
  assert (forall A (x y z : A), match ret with MDL_RET_FAIL | MDL_RET_CANNOT_IO => x | MDL_RET_PENDING => y | _ => z end = z)
    as -> by (intros; by destruct ret).
  exists (clear_own_bit (m_id mdl) (mx_set_msg (msg_set_body v) (slot e b i))). split; [done|].
  split; [|split].
  - pose proof (slot_step_trans _ _ _ _ _ _ _ Hs (slot_dmod (clear_own_bit (m_id mdl)) e1)) as (V & S & T).
    by split_and!.
  - unfold clear_own_bit. by case_match.
  - unfold clear_own_bit. change (in_pre_phase (mx_set_msg (msg_set_body v) (slot e b i))) with (in_pre_phase (slot e b i)).
    by case_match.
Qed.

(** The other map. *)
Definition other_map (pre : bool) (ex : phl_dispr_msg_ex) : list Z := map_of (negb pre) ex.

Lemma receivers_clr m id l :
  wf_bitmap MODL_MASK_LEN m -> 0 <= id -> Forall (fun x => 0 <= m_id x) l -> id ∉ List.map m_id l ->
  receivers (clr_map_bit id m) l = receivers m l.
Proof.
  intros Hm Hid Hl Hn. unfold receivers. f_equal. apply filter_ext_in. intros x Hx. unfold addressed.
  apply list_elem_of_In in Hx. pose proof (proj1 (Forall_forall _ _) Hl x Hx) as Hx0.
  rewrite (proj2 (chk_clr m id (m_id x) Hm Hid Hx0)). rewrite (proj2 (Z.eqb_neq (m_id x) id)); [by rewrite andb_true_r|].
  intros <-. apply Hn, list_elem_of_fmap. by exists x.
Qed.

(** The outcome of one phase. *)
Definition phase_done (pre : bool) (ids : list Z) (e e' : phl_cmd_dispatch_engine) : Prop :=
  view e' = view e /\ kept (slot e b i) (slot e' b i) /\
  other_map pre (slot e' b i) = other_map pre (slot e b i) /\
  deliveries b i (trace e') = deliveries b i (trace e) ++ map (ToModule pre) ids /\
  wf_bitmap MODL_MASK_LEN (map_of pre (slot e' b i)) /\
  forall id, 0 <= id ->
    _chk_bitmap_bit (map_of pre (slot e' b i)) MODL_MASK_LEN id =
    _chk_bitmap_bit (map_of pre (slot e b i)) MODL_MASK_LEN id && negb (mem_id id ids).

Lemma deliveries_app tr1 tr2 : deliveries b i (tr1 ++ tr2) = deliveries b i tr1 ++ deliveries b i tr2.
Proof. apply flat_map_app. Qed.

Lemma feed_phase pre mdl e :
  wf_bitmap MODL_MASK_LEN (map_of pre (slot e b i)) -> in_pre_phase (slot e b i) = pre -> 0 <= m_id mdl ->
  phase_done pre [m_id mdl] e (feed_mdl_msg react b mdl i e).2 /\
  map_of pre (slot (feed_mdl_msg react b mdl i e).2 b i) = clr_map_bit (m_id mdl) (map_of pre (slot e b i)).
Proof.
  intros Hw Hp Hid. destruct (feed_plain mdl e) as (ex' & _ & (V & S & T) & Hk & Hm). rewrite Hp in Hm.
  assert (map_of pre ex' = clr_map_bit (m_id mdl) (map_of pre (slot e b i)) /\
          other_map pre ex' = other_map pre (slot e b i)) as [M1 M2] by (destruct pre; by destruct Hm).
  unfold phase_done. rewrite !S. split; [|exact M1]. split_and!; try done.
  - rewrite T, deliveries_app. f_equal. cbn. rewrite Z.eqb_refl, Nat.eqb_refl. cbn. by rewrite <- Hp.
  - rewrite M1. by apply (chk_clr _ _ 0).
  - intros id Hid'. rewrite M1, (proj2 (chk_clr _ _ id Hw Hid Hid')). cbn. by rewrite orb_false_r.
Qed.

Lemma kept_trans ex1 ex2 ex3 : kept ex1 ex2 -> kept ex2 ex3 -> kept ex1 ex3.
Proof. intros (A1 & A2 & A3) (B1 & B2 & B3). split_and!; congruence. Qed.

Lemma kept_pre ex ex' : kept ex ex' -> in_pre_phase ex' = in_pre_phase ex.
Proof. intros (_ & _ & E). unfold in_pre_phase. by rewrite E. Qed.

Lemma mem_id_app id l1 l2 : mem_id id (l1 ++ l2) = mem_id id l1 || mem_id id l2.
Proof. apply existsb_app. Qed.

Lemma phase_done_trans pre l1 l2 e1 e2 e3 :
  phase_done pre l1 e1 e2 -> phase_done pre l2 e2 e3 -> phase_done pre (l1 ++ l2) e1 e3.
Proof.
  intros (A1 & A2 & A3 & A4 & A5 & A6) (B1 & B2 & B3 & B4 & B5 & B6). split_and!; try done; try congruence.
  - by eapply kept_trans.
  - by rewrite B4, A4, map_app, app_assoc.
  - intros id Hid. by rewrite B6, A6, mem_id_app, negb_orb, andb_assoc by done.
Qed.

Lemma phase_plain sel pre l e :
  (forall ex, sel ex = map_of pre ex) -> NoDup (List.map m_id l) -> Forall (fun x => 0 <= m_id x) l ->
  wf_bitmap MODL_MASK_LEN (map_of pre (slot e b i)) -> in_pre_phase (slot e b i) = pre ->
  phase_done pre (receivers (map_of pre (slot e b i)) l) e (phase_loop react sel b i l e).
Proof.
  intros Hsel. revert e. induction l as [|mdl l IH]; intros e Hnd Hl Hw Hp; cbn [phase_loop].
  { split_and!; try done; [by rewrite app_nil_r|]. intros id _. by rewrite andb_true_r. }
  cbn [List.map] in Hnd. apply list.NoDup_cons in Hnd as [Hn Hnd]. inversion Hl as [|? ? Hid Hl']; subst.
  rewrite Hsel, <- negb_andb. unfold receivers. cbn [List.filter]. fold (addressed (map_of (in_pre_phase (slot e b i)) (slot e b i)) mdl).
  destruct (addressed _ mdl) eqn:Ea; cbn [negb]; [|by apply IH].
  set (pre := in_pre_phase (slot e b i)) in *.
  destruct (feed_phase pre mdl e Hw eq_refl Hid) as [Hf Hm]. destruct (feed_plain mdl e) as (_ & Hr & _).
  destruct (feed_mdl_msg react b mdl i e) as [ret e1]. cbn [fst snd] in *. rewrite Hr. cbn [STOP_DISPATCH_MSG List.map].
  apply (phase_done_trans pre [m_id mdl] _ e e1); [done|]. pose proof Hf as (_ & Hk & _ & _ & Hw1 & _).
  fold (receivers (map_of pre (slot e b i)) l). rewrite <- (receivers_clr _ (m_id mdl) l) by done. rewrite <- Hm.
  apply IH; try done. by rewrite (kept_pre _ _ Hk).
Qed.

(** ** The end of the message *)

Lemma push_op_trace x r t v e : trace (push_back_token_op_info x r t v e).2 = trace e.
Proof. unfold push_back_token_op_info. by case_match. Qed.

Lemma token_complete_trace x e : trace (cmd_token_complete x e) = trace e.
Proof.
  assert (forall y e, trace (phl_disp_eng_exclusive_ready y e) = trace e) as H1.
  { intros y e0. unfold phl_disp_eng_exclusive_ready, with_dispr, dispr_exclusive_ready. repeat case_match; try done.
    unfold renew, dispr_enqueue_token_op_info. by rewrite push_op_trace. }
  assert (forall y e, trace (phl_disp_eng_clearance_release y e) = trace e) as H2.
  { intros y e0. unfold phl_disp_eng_clearance_release, with_dispr, dispr_clearance_release. case_match; try done.
    unfold renew, dispr_enqueue_token_op_info. by rewrite push_op_trace. }
  unfold cmd_token_complete. repeat case_match; cbv zeta; rewrite ?H1, ?H2; done.
Qed.

Lemma recycle_trace e : trace (recycle_msg b i e) = trace e.
Proof.
  unfold recycle_msg, on_abort_msg_complete, renew, dispr_enqueue_token_op_info. cbv zeta. cbn [dmod trace]. case_match; [|done].
  by rewrite push_op_trace, token_complete_trace.
Qed.

(** The request that sees the message, and the completion. *)
Definition to_request (e : phl_cmd_dispatch_engine) (ex : phl_dispr_msg_ex) : list delivery :=
  match cur_cmd_req (dispatcher e b) with
  | Some r =>
    let s := rx_status (token_req_ex_pool (dispatcher e b) r) in
    if TEST_STATUS_FLAG s REQ_STATUS_RUN && negb (TEST_STATUS_FLAG s REQ_STATUS_CANCEL) &&
       negb (TEST_STATUS_FLAG (mx_status ex) MSG_STATUS_FOR_ABORT)
    then [ToRequest r] else []
  | None => []
  end.

Definition to_completion (ex : phl_dispr_msg_ex) : list delivery :=
  match completion ex with
  | Some c => if TEST_STATUS_FLAG (mx_status ex) MSG_STATUS_NOTIFY_COMPLETE then [ToCompletion c] else []
  | None => []
  end.

Lemma cur_req_plain e :
  kept (slot e b i) (slot (cur_req_hdl react b i e) b i) /\
  deliveries b i (trace (cur_req_hdl react b i e)) = deliveries b i (trace e) ++ to_request e (slot e b i).
Proof.
  unfold cur_req_hdl, to_request. cbv zeta. destruct (cur_cmd_req (dispatcher e b)) as [r|]; [|by rewrite app_nil_r].
  destruct (TEST_STATUS_FLAG _ REQ_STATUS_RUN), (TEST_STATUS_FLAG _ REQ_STATUS_CANCEL); cbn [negb orb andb];
    try (by rewrite app_nil_r).
  destruct (TEST_STATUS_FLAG _ MSG_STATUS_FOR_ABORT); cbn [negb]; [by rewrite app_nil_r|].
  set (c := CbReqMsg b r _ i _). destruct (call_msg_plain c e) as (v & _ & (_ & S & T)). rewrite S, T, deliveries_app.
  split; [done|]. f_equal. cbn. by rewrite Z.eqb_refl, Nat.eqb_refl.
Qed.

Lemma push_idle_plain e :
  deliveries b i (trace (push_back_idle_msg react b i e)) = deliveries b i (trace e) ++ to_completion (slot e b i).
Proof.
  unfold push_back_idle_msg, to_completion. cbv zeta. rewrite recycle_trace.
  destruct (completion (slot e b i)) as [c|]; [|by rewrite app_nil_r].
  destruct (TEST_STATUS_FLAG _ MSG_STATUS_NOTIFY_COMPLETE); [|by rewrite app_nil_r]. cbn [dmod trace].
  set (e1 := if TEST_STATUS_FLAG _ MSG_STATUS_CANCEL then _ else e).
  assert (trace e1 = trace e) as E1 by (unfold e1; by case_match). set (x := CbCompletion b c i _).
  destruct (call_msg_plain x e1) as (v & _ & (_ & _ & T)). rewrite T, deliveries_app, E1. f_equal.
  cbn. by rewrite Z.eqb_refl, Nat.eqb_refl.
Qed.

Lemma finish_plain e :
  deliveries b i (trace (msg_end react b i Recycle (cur_req_hdl react b i e))) =
  deliveries b i (trace e) ++ to_request e (slot e b i) ++ to_completion (slot e b i).
Proof.
  cbn [msg_end]. destruct (cur_req_plain e) as [(K1 & K2 & _) D]. rewrite push_idle_plain, D, <- app_assoc. f_equal. f_equal.
  unfold to_completion. by rewrite K1, K2.
Qed.

(** ** Both phases *)

Lemma redirect_kept ex ex' : kept ex ex' -> MSG_REDIRECT_CHK ex' = MSG_REDIRECT_CHK ex.
Proof. intros (E & _). unfold MSG_REDIRECT_CHK. by rewrite E. Qed.

Lemma checked_go f e : MSG_REDIRECT_CHK (slot e b i) = Go -> checked react b i f e = f e.
Proof. intros H. unfold checked. by rewrite H. Qed.

(** Every id of the map is a started module of the list. *)
Definition answered (map : list Z) (l : list phl_bk_module) : Prop :=
  forall id, 0 <= id < PHL_BK_MDL_END -> _chk_bitmap_bit map MODL_MASK_LEN id = true -> id ∈ receivers map l.

Lemma phase_empties pre l e e' :
  phase_done pre (receivers (map_of pre (slot e b i)) l) e e' -> answered (map_of pre (slot e b i)) l ->
  _is_bitmap_empty (map_of pre (slot e' b i)) = true.
Proof.
  intros (_ & _ & _ & _ & Hw & Hc) Ha. apply empty_chk; [done|]. intros id Hid. rewrite Hc by lia.
  destruct (_chk_bitmap_bit _ _ id) eqn:Ec; [|done]. specialize (Ha id Hid Ec). cbn [andb]. apply negb_false_iff.
  apply existsb_exists. exists id. split; [by apply list_elem_of_In|apply Z.eqb_refl].
Qed.

Lemma receivers_empty m l : wf_bitmap MODL_MASK_LEN m -> _is_bitmap_empty m = true ->
  Forall (fun x => 0 <= m_id x < PHL_BK_MDL_END) l -> receivers m l = [].
Proof.
  intros Hw He Hl. unfold receivers. replace (List.filter (addressed m) l) with (@nil phl_bk_module); [done|]. symmetry.
  induction Hl as [|x l Hx Hl IH]; [done|]. cbn. unfold addressed at 1.
  by rewrite (proj1 (empty_chk m Hw) He (m_id x) Hx).
Qed.

Definition well_known (l : list phl_bk_module) : Prop :=
  NoDup (List.map m_id l) /\ Forall (fun x => 0 <= m_id x < PHL_BK_MDL_END) l.

Lemma well_known_pos l : well_known l -> Forall (fun x => 0 <= m_id x) l.
Proof. intros [_ H]. eapply Forall_impl; [exact H|]. cbn. lia. Qed.

Lemma to_request_view e e' ex ex' : view e' = view e -> kept ex ex' -> to_request e' ex' = to_request e ex.
Proof.
  intros V (K & _). unfold view in V. injection V as V1 V2 V3 V4 V5. unfold to_request. by rewrite V4, V5, K.
Qed.

Lemma to_completion_kept ex ex' : kept ex ex' -> to_completion ex' = to_completion ex.
Proof. intros (K1 & K2 & _). unfold to_completion. by rewrite K1, K2. Qed.

Lemma post_plain pre e :
  MSG_REDIRECT_CHK (slot e b i) = Go -> well_known (post_order (dispatcher e b)) ->
  wf_bitmap MODL_MASK_LEN (map_of pre (slot e b i)) ->
  (_is_bitmap_empty (map_of pre (slot e b i)) = true \/ pre = false /\ in_pre_phase (slot e b i) = false) ->
  answered (map_of pre (slot e b i)) (post_order (dispatcher e b)) ->
  deliveries b i (trace (dispatch_post react b i pre e)) =
  deliveries b i (trace e) ++ map (ToModule false) (receivers (map_of pre (slot e b i)) (post_order (dispatcher e b))) ++
    to_request e (slot e b i) ++ to_completion (slot e b i).
Proof.
  intros Hg Hk Hw Hc Ha. unfold dispatch_post. cbv zeta. destruct (_is_bitmap_empty (map_of pre (slot e b i))) eqn:Em; cbn [negb].
  - rewrite checked_go, Em, finish_plain by done. by rewrite (receivers_empty _ _ Hw Em (proj2 Hk)).
  - destruct Hc as [|[-> Hp]]; [done|]. unfold msg_post_phase_hdl.
    pose proof (phase_plain postmap false (post_order (dispatcher e b)) e (fun _ => eq_refl) (proj1 Hk)
                  (well_known_pos _ Hk) Hw Hp) as Hd.
    set (e1 := phase_loop _ _ _ _ _ _) in *. clearbody e1. pose proof (phase_empties _ _ _ _ Hd Ha) as He.
    destruct Hd as (V & K & _ & D & _ & _). rewrite checked_go, He by (by rewrite (redirect_kept _ _ K)).
    rewrite finish_plain, D, <- app_assoc, (to_request_view _ _ _ _ V K), (to_completion_kept _ _ K). done.
Qed.

Lemma post_is_rev d : post_order d = rev (pre_order d).
Proof. unfold post_order, pre_order. by rewrite !rev_app_distr, <- app_assoc. Qed.

Lemma receivers_rev m l : receivers m (rev l) = rev (receivers m l).
Proof.
  unfold receivers. rewrite <- map_rev. f_equal. induction l as [|x l IH]; [done|]. cbn. rewrite List.filter_app, IH. cbn.
  by destruct (addressed m x); cbn; rewrite ?app_nil_r.
Qed.

Lemma view_order e e' : view e' = view e -> pre_order (dispatcher e' b) = pre_order (dispatcher e b).
Proof. intros V. unfold view in V. injection V as V1 _ _ _ _. unfold pre_order. by rewrite V1. Qed.

Lemma answered_rev m l : answered m l -> answered m (rev l).
Proof. intros H id Hid Hc. rewrite receivers_rev. apply list_elem_of_In. rewrite <- in_rev. by apply list_elem_of_In, H. Qed.

(** A change of the message that keeps the status and the maps up to the
    phase. *)
Lemma slot_put ex e :
  view (dmod b (mmod i (fun _ => ex)) e) = view e /\ slot (dmod b (mmod i (fun _ => ex)) e) b i = ex.
Proof. destruct (slot_dmod (fun _ => ex) e) as (V & S & _). done. Qed.

(** From the pre phase on. *)
Lemma pre_plain e :
  let d := dispatcher e b in let ex := slot e b i in
  MSG_REDIRECT_CHK ex = Go -> in_pre_phase ex = true ->
  well_known (pre_order d) -> wf_bitmap MODL_MASK_LEN (premap ex) -> wf_bitmap MODL_MASK_LEN (postmap ex) ->
  _is_bitmap_empty (premap ex) = _is_bitmap_empty (postmap ex) ->
  answered (premap ex) (pre_order d) -> answered (postmap ex) (pre_order d) ->
  deliveries b i (trace (dispatch_pre react b i true e)) =
  deliveries b i (trace e) ++ map (ToModule true) (receivers (premap ex) (pre_order d)) ++
    map (ToModule false) (rev (receivers (postmap ex) (pre_order d))) ++ to_request e ex ++ to_completion ex.
Proof.
  intros d ex Hg Hp Hk Hw1 Hw2 Heq Ha1 Ha2. unfold dispatch_pre. fold ex. rewrite Hp. cbn [andb map_of].
  assert (well_known (post_order d)) as Hkp.
  { rewrite post_is_rev. destruct Hk as [K1 K2]. split; [by rewrite map_rev, <- Permutation_rev|]. by apply Forall_rev. }
  destruct (_is_bitmap_empty (premap ex)) eqn:Em; cbn [negb].
  { rewrite (post_plain true e); [|done..|by left|rewrite post_is_rev; by apply answered_rev]. cbn [map_of]. fold ex d.
    rewrite !receivers_empty; try done; apply Hkp || apply Hk. }
  unfold msg_pre_phase_hdl. pose proof (phase_plain premap true (pre_order d) e (fun _ => eq_refl) (proj1 Hk)
    (well_known_pos _ Hk) Hw1 Hp) as Hd. fold d. cbn [map_of] in Hd. fold ex in Hd.
  set (e1 := phase_loop _ _ _ _ _ _) in *. clearbody e1. pose proof (phase_empties true _ _ _ Hd Ha1) as He. cbn [map_of] in He.
  destruct Hd as (V1 & K1 & O1 & D1 & _ & _). rewrite checked_go, He by (by rewrite (redirect_kept _ _ K1)).
  cbn [other_map map_of negb] in O1. cbv zeta. destruct (slot_dmod (mx_set_status (clrf MSG_STATUS_PRE_PHASE)) e1) as (V2 & S2 & T2).
  set (e2 := dmod b _ e1) in *. clearbody e2. unfold get_msg_bitmap.
  assert (TEST_STATUS_FLAG (mx_status (slot e2 b i)) MSG_STATUS_PRE_PHASE = false) as ->.
  { rewrite S2. unfold MSG_STATUS_PRE_PHASE. cbn [mx_set_status mx_status]. rewrite TEST_BIT, testbit_clrf by lia. apply andb_false_r. }
  set (ex3 := mx_set_msg _ _). destruct (slot_put ex3 e2) as [V3 S3]. set (e3 := dmod b _ e2) in *.
  assert (trace e3 = trace e1) as T3 by (unfold e3; cbn [dmod trace]; by rewrite T2, app_nil_r). clearbody e3.
  assert (view e3 = view e) as V by congruence. pose proof (view_order _ _ V) as Ho.
  assert (forall n, n <> 4 -> 0 <= n -> Z.testbit (mx_status ex3) n = Z.testbit (mx_status ex) n) as Hst.
  { intros n Hn Hn0. unfold ex3. cbn [mx_set_msg mx_status]. rewrite S2. cbn [mx_set_status mx_status].
    unfold MSG_STATUS_PRE_PHASE. rewrite testbit_clrf by lia. rewrite (proj2 (Z.eqb_neq n 4)), andb_true_r by lia.
    by rewrite (proj1 K1). }
  assert (postmap ex3 = postmap ex) as Hpm by (unfold ex3; cbn [mx_set_msg postmap]; rewrite S2; exact O1).
  rewrite (post_plain false e3); rewrite ?S3; cbn [map_of]; rewrite ?Hpm, ?post_is_rev, ?Ho, <- ?post_is_rev.
  - rewrite T3, D1, <- app_assoc, post_is_rev, receivers_rev. do 3 f_equal.
    unfold to_request, to_completion. unfold view in V. injection V as _ _ _ -> ->.
    unfold MSG_STATUS_FOR_ABORT, MSG_STATUS_NOTIFY_COMPLETE. rewrite !TEST_BIT, !Hst by lia.
    assert (completion ex3 = completion ex) as -> by (unfold ex3; cbn [mx_set_msg completion]; rewrite S2; apply K1). done.
  - rewrite <- Hg. unfold MSG_REDIRECT_CHK, MSG_STATUS_FAIL, MSG_STATUS_CANCEL, MSG_STATUS_PENDING.
    by rewrite !TEST_BIT, !Hst by lia.
  - done.
  - done.
  - right. split; [done|]. rewrite in_pre_phase_bit. unfold ex3. cbn [mx_set_msg mx_msg msg_set_id msg_id]. apply clear_pre_indc.
  - rewrite post_is_rev. by apply answered_rev.
Qed.


(** Clearing an id that no module of the list has. *)
Lemma receivers_sub m l id : id ∈ receivers m l -> id ∈ List.map m_id l.
Proof.
  unfold receivers. rewrite !list_elem_of_In, !in_map_iff. intros (x & <- & Hx). exists x. split; [done|].
  by apply filter_In in Hx as [? _].
Qed.

Lemma clr_absent m l id :
  wf_bitmap MODL_MASK_LEN m -> answered m l -> well_known l -> 0 <= id < PHL_BK_MDL_END -> id ∉ List.map m_id l ->
  receivers (clr_map_bit id m) l = receivers m l /\ answered (clr_map_bit id m) l /\
  _is_bitmap_empty (clr_map_bit id m) = _is_bitmap_empty m.
Proof.
  intros Hw Ha Hk Hid Hn. assert (receivers (clr_map_bit id m) l = receivers m l) as Hr.
  { apply receivers_clr; try done; [lia|by apply well_known_pos]. }
  assert (forall x, 0 <= x < PHL_BK_MDL_END ->
    _chk_bitmap_bit (clr_map_bit id m) MODL_MASK_LEN x = _chk_bitmap_bit m MODL_MASK_LEN x) as Hc.
  { intros x Hx. rewrite (proj2 (chk_clr m id x Hw ltac:(lia) ltac:(lia))). destruct (Z.eqb_spec x id) as [->|]; cbn [negb];
      [|apply andb_true_r]. rewrite andb_false_r. destruct (_chk_bitmap_bit m MODL_MASK_LEN id) eqn:Ec; [|done].
    destruct Hn. eapply receivers_sub. by apply Ha. }
  split_and!; [done|..].
  - intros x Hx Hx'. rewrite Hr. apply Ha; [done|]. by rewrite <- Hc.
  - apply eq_true_iff_eq. rewrite !empty_chk; [|done|by apply (chk_clr m id 0 Hw); lia].
    split; intros H x Hx; [rewrite <- Hc|rewrite Hc]; auto.
Qed.

Definition to_controller (d : cmd_dispatcher) : list delivery :=
  if TEST_STATUS_FLAG (dp_status d) DISPR_CTRL_PRESENT then [ToModule true (m_id (controller d))] else [].

Lemma dispatch_plain e :
  let d := dispatcher e b in let ex := slot e b i in
  MSG_REDIRECT_CHK ex = Go -> TEST_STATUS_FLAG (mx_status ex) MSG_STATUS_PRE_PHASE = true ->
  well_known (pre_order d) -> wf_bitmap MODL_MASK_LEN (premap ex) -> postmap ex = premap ex ->
  answered (premap ex) (pre_order d) ->
  0 <= m_id (controller d) < PHL_BK_MDL_END -> m_id (controller d) ∉ List.map m_id (pre_order d) ->
  let ids := receivers (premap ex) (pre_order d) in
  deliveries b i (trace (msg_dispatch react b i e)) =
  deliveries b i (trace e) ++ to_controller d ++ map (ToModule true) ids ++ map (ToModule false) (rev ids) ++
    to_request e ex ++ to_completion ex.
Proof.
  intros d ex Hg Hp Hk Hw Hpm Ha Hc Hcn ids. unfold msg_dispatch, get_msg_bitmap. fold ex. rewrite Hp.
  set (ex1 := add_indc _ ex). destruct (slot_put ex1 e) as [V1 S1]. set (e1 := dmod b _ e) in *.
  assert (trace e1 = trace e) as T1 by done. clearbody e1. rewrite checked_go by (rewrite S1; exact Hg).
  assert (in_pre_phase ex1 = true) as Hp1.
  { rewrite in_pre_phase_bit. unfold ex1. cbn [add_indc mx_set_msg mx_msg msg_set_id msg_id]. apply set_pre_indc. }
  assert (dp_status (dispatcher e1 b) = dp_status d /\ controller (dispatcher e1 b) = controller d) as [E1 E2].
  { unfold view in V1. by injection V1 as _ -> -> _ _. }
  unfold _notify_dispr_controller, to_controller. rewrite E1, E2. destruct (TEST_STATUS_FLAG (dp_status d) _); cbn [negb].
  - destruct (feed_phase true (controller d) e1) as [(V2 & K2 & O2 & D2 & W2 & _) M2]; rewrite ?S1; try done; [lia|].
    set (e2 := (feed_mdl_msg _ _ _ _ _).2) in *. clearbody e2. rewrite S1 in *. cbn [map_of other_map negb] in *.
    destruct (clr_absent (premap ex) (pre_order d) (m_id (controller d))) as (C1 & C2 & C3); try done.
    assert (view e2 = view e) as V by congruence. pose proof (view_order _ _ V) as Ho. fold d in Ho.
    rewrite checked_go by (by rewrite (redirect_kept _ _ K2)).
    rewrite pre_plain; rewrite ?Ho, ?M2, ?O2; cbn [ex1 add_indc mx_set_msg premap postmap]; rewrite ?Hpm, ?C1; try done.
    + rewrite D2, T1, <- app_assoc. cbn [map app]. rewrite (to_request_view e _ ex1 _ V K2), (to_completion_kept ex1 _ K2). done.
    + by rewrite (redirect_kept _ _ K2).
    + by rewrite (kept_pre _ _ K2).
    + by apply (chk_clr _ _ 0); [done|lia|lia].
  - pose proof (view_order _ _ V1) as Ho. fold d in Ho. rewrite checked_go by (rewrite S1; exact Hg).
    rewrite pre_plain; rewrite ?Ho, ?S1; cbn [ex1 add_indc mx_set_msg premap postmap]; rewrite ?Hpm; try done.
    rewrite T1. cbn [app]. by rewrite (to_request_view e e1 ex1 ex1 V1).
Qed.
End Plain.

(** ** The order of delivery *)

(** C11. Let every callback answer SUCCESS or IGNORE and call nothing of the
    dispatcher.  Let a message be taken from its queue in its first phase,
    neither cancelled, failed nor held back, with the same modules for both
    phases, all of which are registered and started; let the registered ids be
    distinct and well known, and the id of the controller not among them.  Then
    the message is delivered in two phases: to the controller, to the modules
    its map names in the order of the mandatory, optional and role queues, to
    the same modules in exactly the reverse order, to the current request unless
    it is cancelled or the message ends an abort, and last to its completion
    routine; to nobody else and to none twice in a phase. *)
Theorem two_phase_delivery react b i e :
  let d := dispatcher e b in
  let ex := slot e b i in
  let ids := receivers (premap ex) (pre_order d) in
  (forall c e, r_calls (react c e) = [] /\ STOP_DISPATCH_MSG (r_ret (react c e)) = false) ->
  MSG_REDIRECT_CHK ex = Go -> TEST_STATUS_FLAG (mx_status ex) MSG_STATUS_PRE_PHASE = true ->
  wf_bitmap MODL_MASK_LEN (premap ex) -> postmap ex = premap ex ->
  well_known (pre_order d) -> answered (premap ex) (pre_order d) ->
  0 <= m_id (controller d) < PHL_BK_MDL_END -> m_id (controller d) ∉ map m_id (pre_order d) ->
  deliveries b i (trace (msg_dispatch react b i e)) =
  deliveries b i (trace e) ++ to_controller d ++ map (ToModule true) ids ++ map (ToModule false) (rev ids) ++
    to_request b e ex ++ to_completion ex.
Proof. intros d ex ids Hr H1 H2 H3 H4 H5 H6 H7 H8. by apply dispatch_plain. Qed.

(** A decidable form of [answered]. *)
Lemma answered_dec m l :
  forallb (fun n => negb (_chk_bitmap_bit m MODL_MASK_LEN (Z.of_nat n)) || bool_decide (Z.of_nat n ∈ receivers m l))
    (seq 0 128) = true -> answered m l.
Proof.
  intros H id Hid Hc. rewrite forallb_forall in H. specialize (H (Z.to_nat id)). rewrite Z2Nat.id in H by lia.
  rewrite Hc in H. cbn [negb orb] in H. apply bool_decide_eq_true in H; [done|]. apply in_seq.
  unfold PHL_BK_MDL_END in Hid. lia.
Qed.

(** A message with a completion routine, taken from the waiting queue. *)
Definition sample_held : phl_cmd_dispatch_engine :=
  let e := (phl_disp_eng_send_msg (own_msg 41 7) (Some (Attr 0 None 0 (Some 99))) sample_up).2 in
  match pop_front_wait_msg (dispatcher e 0) with Some (_, d) => dmod 0 (fun _ => d) e | None => e end.

(** Module 71 ignores every message. *)
Definition one_ignores (c : cb) (e : phl_cmd_dispatch_engine) : reaction :=
  match c with CbMsg _ 71 _ _ => Reaction [] MDL_RET_IGNORE 0 | _ => accept_all c e end.

Lemma one_ignores_accepts c e : r_calls (one_ignores c e) = [] /\ STOP_DISPATCH_MSG (r_ret (one_ignores c e)) = false.
Proof. unfold one_ignores. repeat case_match; done. Qed.

Lemma two_phase_delivery_witness :
  deliveries 0 0 (trace (msg_dispatch one_ignores 0 0 sample_held)) =
  [ToModule true 1; ToModule true 41; ToModule true 71; ToModule true 10; ToModule true 11;
   ToModule false 11; ToModule false 10; ToModule false 71; ToModule false 41; ToCompletion 99].
Proof.
  etransitivity; [apply (two_phase_delivery one_ignores 0 0 sample_held)|vm_compute; reflexivity].
  - exact one_ignores_accepts.
  - vm_compute. reflexivity.
  - vm_compute. reflexivity.
  - vm_compute. repeat (constructor; try discriminate).
  - vm_compute. reflexivity.
  - split; [apply (bool_decide_unpack _); vm_compute; exact I|]. vm_compute. repeat (constructor; try discriminate).
  - apply answered_dec. vm_compute. reflexivity.
  - vm_compute. repeat (constructor; try discriminate).
  - apply (bool_decide_unpack _). vm_compute. exact I.
Defined.
