(* ===== verification/DisprFlaws.v ===== *)
(** * Defects of the command dispatcher

    Runs of the model of Dispr in which the code does what it should not;
    every run starts from an engine that is initialised and started as the
    driver does it. *)
From Stdlib Require Import ZArith Lia Bool List.
From stdpp Require Import base tactics list numbers functions.
From S2P Require Import Prelude PhlList PhlUtil Dispr DisprInv DisprRun DisprLife DisprStop DisprOrder.

Definition ok_reaction : reaction := Reaction [] MDL_RET_SUCCESS 0.

(** ** Token operations *)

(** The request of slot 0 gives the token up at once; the one of slot 1 issues
    seven requests. *)
Definition crowding (c : cb) (e : phl_cmd_dispatch_engine) : reaction :=
  match c with
  | CbAcquired _ 0 _ => Reaction [] MDL_RET_FAIL 0
  | CbAcquired _ 1 _ => Reaction (repeat (AAddReq 0 (Req 140 0 0 true)) 7) MDL_RET_SUCCESS 0
  | _ => ok_reaction
  end.

Definition crowded : phl_cmd_dispatch_engine :=
  fold_left api_step
    [AAddReq 0 (Req 130 0 0 true); AAddReq 0 (Req 131 0 0 true); ACancelReq 0 (GEN_VALID_HDL 0)] sample_up.

(** A request slot is cleared, by [pop_front_idle_req], while its cancel
    operation is linked in [token_op_q]: the run ends in a state that is not
    intact. *)
Lemma token_op_clobbered :
  life 1 Up crowded /\
  exists e, share_thread_turn crowding 20 crowded = Some e /\ damaged (dispatcher e 0) = true.
Proof.
  split.
  - unfold crowded. cbn [fold_left]. do 3 (eapply life_step; [|apply step_api|intact]). apply sample_up_life.
  - eexists. split; [apply (some_default _ eng0); vm_compute; reflexivity|]. vm_compute. reflexivity.
Qed.

(** ** Modules *)

Definition init_fails (c : cb) (e : phl_cmd_dispatch_engine) : reaction :=
  match c with CbInit _ 10 => Reaction [] MDL_RET_FAIL 0 | _ => ok_reaction end.

(** A module whose [init] fails is refused and stays in the queue, although
    its memory is freed. *)
Lemma failed_module_stays :
  (dispr_deregister_module accept_all 0 10 sample_up).1 = RTW_PHL_STATUS_SUCCESS /\
  let e := (dispr_deregister_module accept_all 0 10 sample_up).2 in
  let r := dispr_register_module init_fails 0 10 true true e in
  r.1 = RTW_PHL_STATUS_FAILURE /\ existsb (fun m => m_id m =? 10) (module_q (dispatcher r.2 0) PHL_MDL_PRI_ROLE) = true /\
  intact r.2 = false.
Proof. vm_compute. done. Qed.

(** Before the start the same id is accepted twice. *)
Lemma module_registered_twice :
  let e := (phl_disp_eng_init accept_all 1 1 eng0).2 in
  let r1 := dispr_register_module accept_all 0 10 true true e in
  let r2 := dispr_register_module accept_all 0 10 true true r1.2 in
  r1.1 = RTW_PHL_STATUS_SUCCESS /\ r2.1 = RTW_PHL_STATUS_SUCCESS /\
  map m_id (module_q (dispatcher r2.2 0) PHL_MDL_PRI_ROLE) = [10; 10].
Proof. vm_compute. done. Qed.

(** ** Phases *)

(** Module 10 holds the message back once; module 41 has seen it. *)
Definition hold_back (c : cb) (e : phl_cmd_dispatch_engine) : reaction :=
  match c with CbMsg _ 10 _ _ => Reaction [] MDL_RET_PENDING 0 | _ => ok_reaction end.

Definition held_back : phl_cmd_dispatch_engine :=
  let e := api_step sample_up (ASend (own_msg 41 7) (Some (Attr (Z.lor MSG_OPT_SKIP_NOTIFY_OPT_MDL MSG_OPT_BLIST_PRESENT)
                                                            (Some [11]) 1 (Some 99)))) in
  let e := default eng0 (share_thread_turn hold_back 20 e) in
  let e := (dispr_deregister_module accept_all 0 10 e).2 in
  let e := api_step e (AClrPending 0) in
  default eng0 (share_thread_turn accept_all 20 (default eng0 (share_thread_turn accept_all 20 e))).

(** The message is completed although module 41 never sees its post phase. *)
Lemma post_phase_skipped :
  intact held_back = true /\
  deliveries 0 0 (trace held_back) =
  [ToModule true 1; ToModule true 41; ToModule true 10; ToModule true 1; ToCompletion 99].
Proof. vm_compute. split; reflexivity. Qed.

(** ** Stop and start *)

(** After [shall_stop], a stop and a new start, messages are still refused. *)
Lemma shall_stop_survives :
  let e := api_step sample_up AShallStop in
  match phl_disp_eng_stop accept_all 24 e with
  | Some (_, e) =>
    let r := phl_disp_eng_start accept_all e in
    r.1 = RTW_PHL_STATUS_SUCCESS /\
    (phl_disp_eng_send_msg (own_msg 41 7) None r.2).1.1 = RTW_PHL_STATUS_UNEXPECTED_ERROR
  | None => False
  end.
Proof. vm_compute. done. Qed.

(** ** Ids *)

Definition declines (c : cb) (e : phl_cmd_dispatch_engine) : reaction :=
  match c with CbAcquired _ _ _ => Reaction [] MDL_RET_FAIL 0 | _ => ok_reaction end.

(** The check of a request lets [PHL_MDL_ID_MAX] through, the index after the
    last entry of [mdl_info]; giving the token of such a request back writes
    there. *)
Lemma request_id_unbounded :
  chk_cmd_req_ops (Req PHL_MDL_ID_MAX 0 0 true) = true /\
  let e := api_step sample_up (AAddReq 0 (Req PHL_MDL_ID_MAX 0 0 true)) in
  life 1 Up e /\ exists e', share_thread_turn declines 20 e = Some e' /\ intact e' = false.
Proof.
  split; [reflexivity|]. cbv zeta. split.
  - eapply life_step; [apply sample_up_life|apply step_api|intact].
  - eexists. split; [apply (some_default _ eng0); vm_compute; reflexivity|]. vm_compute. reflexivity.
Qed.
