(* ===== verification/WordBits.v ===== *)
(** * Words

    Integers of a given width under exclusive or, shifts and masks: ranges,
    the algebra of exclusive or, and the bytes of a word.  Shared by the
    ciphers (SecCrypto, SecFrame, Aes, AesCcm). *)
From Stdlib Require Import ZArith Lia Bool List Btauto.
From stdpp Require Import base tactics list numbers.
From S2P Require Import Prelude.

Create HintDb words.

(** ** Ranges *)

Definition word (n z : Z) : Prop := 0 <= z < 2 ^ n.

Lemma word_u8 z : word 8 z <-> is_u8 z.
Proof. done. Qed.

Lemma word_u16 z : word 16 z <-> is_u16 z.
Proof. done. Qed.

Lemma word_u32 z : word 32 z <-> is_u32 z.
Proof. done. Qed.

Lemma word_high n z k : word n z -> n <= k -> Z.testbit z k = false.
Proof.
  intros [H0 H] Hk. destruct (Z.eq_dec z 0) as [->|]; [apply Z.bits_0|].
  apply Z.bits_above_log2; [done|]. apply Z.lt_le_trans with n; [|done]. apply Z.log2_lt_pow2; lia.
Qed.

Lemma word_of_high n z : 0 <= n -> 0 <= z -> (forall k, n <= k -> Z.testbit z k = false) -> word n z.
Proof.
  intros Hn Hz H. assert (z = z mod 2 ^ n) as ->; [|unfold word; pose proof (Z.mod_pos_bound z (2 ^ n)); lia].
  apply Z.bits_inj'. intros k Hk. destruct (Z.lt_ge_cases k n).
  - by rewrite Z.mod_pow2_bits_low by lia.
  - rewrite Z.mod_pow2_bits_high by lia. by apply H.
Qed.

Lemma word_weaken n m z : word n z -> 0 <= n <= m -> word m z.
Proof. intros [H1 H2] H. split; [done|]. apply Z.lt_le_trans with (2 ^ n); [done|]. apply Z.pow_le_mono_r; lia. Qed.

Lemma word_width n z : word n z -> 0 <= n.
Proof. intros [H1 H2]. destruct (Z.lt_ge_cases n 0) as [Hn|]; [|done]. rewrite Z.pow_neg_r in H2 by done. lia. Qed.

Lemma word_lxor n a b : word n a -> word n b -> word n (Z.lxor a b).
Proof.
  intros Ha Hb. pose proof (word_width n a Ha). apply word_of_high; [done|apply Z.lxor_nonneg; unfold word in *; lia|].
  intros k Hk. by rewrite Z.lxor_spec, !(word_high n) by done.
Qed.

Lemma word_lor n a b : word n a -> word n b -> word n (Z.lor a b).
Proof.
  intros Ha Hb. pose proof (word_width n a Ha). apply word_of_high; [done|apply Z.lor_nonneg; unfold word in *; lia|].
  intros k Hk. by rewrite Z.lor_spec, !(word_high n) by done.
Qed.

Lemma word_land n a b : word n b -> word n (Z.land a b).
Proof.
  intros Hb. pose proof (word_width n b Hb). apply word_of_high; [done|apply Z.land_nonneg; unfold word in *; lia|].
  intros k Hk. by rewrite Z.land_spec, (word_high n b), andb_false_r by done.
Qed.

Lemma word_land_l n a b : word n a -> word n (Z.land a b).
Proof. rewrite Z.land_comm. apply word_land. Qed.

Lemma word_mod n z : 0 <= n -> word n (z mod 2 ^ n).
Proof. intros Hn. pose proof (Z.pow_pos_nonneg 2 n). pose proof (Z.mod_pos_bound z (2 ^ n)). unfold word. lia. Qed.

Lemma word_shiftr n m a : 0 <= m -> 0 <= n -> word (n + m) a -> word n (Z.shiftr a m).
Proof.
  intros Hm Hn [H0 H]. rewrite Z.shiftr_div_pow2 by done. split; [apply Z.div_pos; lia|].
  apply Z.div_lt_upper_bound; [lia|]. rewrite <- Z.pow_add_r by lia. by rewrite Z.add_comm.
Qed.

Lemma word_shiftl n m a : 0 <= m -> word n a -> word (n + m) (Z.shiftl a m).
Proof.
  intros Hm Ha. pose proof (word_width n a Ha) as Hn. destruct Ha as [H0 H]. rewrite Z.shiftl_mul_pow2 by done.
  unfold word. rewrite Z.pow_add_r by lia. nia.
Qed.

#[export] Hint Resolve word_lxor word_lor : words.

(** ** Bits *)

Lemma testbit_small n z k : word n z -> Z.testbit z k = Z.testbit z k && (k <? n).
Proof.
  intros H. destruct (Z.ltb_spec k n); [by rewrite andb_true_r|]. rewrite andb_false_r. by apply (word_high n).
Qed.

Lemma land_ones_mod z n : 0 <= n -> Z.land z (Z.ones n) = z mod 2 ^ n.
Proof. apply Z.land_ones. Qed.

Lemma land_255 z : Z.land z 255 = u8 z.
Proof. exact (Z.land_ones z 8 ltac:(lia)). Qed.

Lemma land_65535 z : Z.land z 65535 = u16 z.
Proof. exact (Z.land_ones z 16 ltac:(lia)). Qed.

Lemma testbit_mod n z k : 0 <= n -> 0 <= k -> Z.testbit (z mod 2 ^ n) k = Z.testbit z k && (k <? n).
Proof.
  intros Hn Hk. destruct (Z.ltb_spec k n); [by rewrite Z.mod_pow2_bits_low, andb_true_r by lia|].
  by rewrite Z.mod_pow2_bits_high, andb_false_r by lia.
Qed.

Lemma mod_lxor n a b : 0 <= n -> Z.lxor a b mod 2 ^ n = Z.lxor (a mod 2 ^ n) (b mod 2 ^ n).
Proof.
  intros Hn. apply Z.bits_inj'. intros k Hk. rewrite Z.lxor_spec, !testbit_mod, Z.lxor_spec by done. btauto.
Qed.

(** Equations between exclusive ors. *)
Ltac xor_solve := apply Z.bits_inj'; intros ? ?; rewrite ?Z.lxor_spec, ?Z.bits_0; btauto.

Lemma lxor_cancel a b : Z.lxor (Z.lxor a b) b = a.
Proof. xor_solve. Qed.

Lemma lxor_inj_r a b c : Z.lxor a c = Z.lxor b c -> a = b.
Proof. intros H. by rewrite <- (lxor_cancel a c), H, lxor_cancel. Qed.

Lemma lxor_eq_0 a b : Z.lxor a b = 0 <-> a = b.
Proof. split; [apply Z.lxor_eq|intros ->; apply Z.lxor_nilpotent]. Qed.

(** A test of one bit. *)
Lemma land_shift_bit x k : 0 <= k -> negb (Z.land x (Z.shiftl 1 k) =? 0) = Z.testbit x k.
Proof.
  intros Hk. destruct (Z.testbit x k) eqn:E.
  - apply negb_true_iff, Z.eqb_neq. intros H. assert (Z.testbit (Z.land x (Z.shiftl 1 k)) k = false) as F by by rewrite H, Z.bits_0.
    rewrite Z.land_spec, E, Z.shiftl_spec, Z.sub_diag in F by lia. done.
  - apply negb_false_iff, Z.eqb_eq. apply Z.bits_inj'. intros n Hn. rewrite Z.land_spec, Z.bits_0.
    destruct (Z.eq_dec n k) as [->|Hne]; [by rewrite E|]. rewrite Z.shiftl_1_l, Z.pow2_bits_false by lia. apply andb_false_r.
Qed.

(** ** A high and a low part *)

Lemma lxor_split n hi lo : 0 <= n -> word n lo -> Z.lxor (Z.shiftl hi n) lo = hi * 2 ^ n + lo.
Proof.
  intros Hn Hlo. rewrite <- Z.shiftl_mul_pow2 by done. rewrite <- Z.add_nocarry_lxor; [done|].
  apply Z.bits_inj'. intros k Hk. rewrite Z.land_spec, Z.bits_0. destruct (Z.ltb_spec k n) as [Hkn|Hkn].
  - by rewrite Z.shiftl_spec_low by done.
  - by rewrite (word_high n lo), andb_false_r by done.
Qed.

Lemma split_word n z : 0 <= n -> z = Z.lxor (Z.shiftl (Z.shiftr z n) n) (z mod 2 ^ n).
Proof.
  intros Hn. rewrite lxor_split by (try apply word_mod; done). rewrite Z.shiftr_div_pow2 by done.
  rewrite Z.mul_comm. apply Z.div_mod. lia.
Qed.

Lemma lor_split n hi lo : 0 <= n -> word n lo -> Z.lor lo (Z.shiftl hi n) = lo + hi * 2 ^ n.
Proof.
  intros Hn Hlo. rewrite Z.add_comm, <- lxor_split by done. apply Z.bits_inj'. intros k Hk.
  rewrite Z.lor_spec, Z.lxor_spec. destruct (Z.ltb_spec k n).
  - rewrite Z.shiftl_spec_low by done. btauto.
  - rewrite (word_high n lo) by done. btauto.
Qed.

(** The components of a list of known length. *)
Ltac forall_split H := repeat (let H1 := fresh "W" in apply Forall_cons_1 in H as [H1 H]).

(** Bytes by evaluation. *)
Lemma bytes_ok l : forallb (fun z => (0 <=? z) && (z <? 256)) l = true -> Forall is_u8 l.
Proof.
  induction l as [|z l IH]; intros H; constructor; cbn [forallb] in H; apply andb_true_iff in H as [H1 H2];
    [apply andb_true_iff in H1; unfold is_u8; lia|by apply IH].
Qed.

(** A list of bytes written out. *)
Ltac forall_bytes :=
  cbn [app]; repeat match goal with |- Forall _ (_ :: _) => constructor | |- Forall _ [] => constructor end; try done.
