(* ===== verification/SecCrypto.v ===== *)
(** * WEP and TKIP

    The software ciphers of src/core/rtw_security.c up to TKIP: RC4, the CRC-32
    of the integrity check value, the Michael MIC, the key mixing of TKIP and
    the packet numbers.  Arrays of fixed size are lists, indexed where the code
    masks the index; words have their width. *)
From Stdlib Require Import ZArith Lia Bool List Permutation Btauto.
From stdpp Require Import base tactics list numbers.
From S2P Require Import Prelude ByteBuf WordBits.

Definition at_ (l : list Z) (i : Z) : Z := nth (Z.to_nat i) l 0.

(** ** RC4 *)

(** [struct arc4context] *)
Record arc4context := Arc4 { arc_x : Z; arc_y : Z; arc_state : list Z }.

Definition counters : list Z := map Z.of_nat (seq 0 256).

(** A turn of the second loop of [arcfour_init]. *)
Definition arc_mix (key : list Z) (key_len : Z) (s : list Z * Z * Z) (counter : Z) : list Z * Z * Z :=
  let '(state, stateindex, keyindex) := s in
  let t := at_ state counter in
  let stateindex := Z.land (stateindex + at_ key keyindex + t) 0xff in
  let u := at_ state stateindex in
  let state := <[Z.to_nat stateindex := t]> state in
  let state := <[Z.to_nat counter := u]> state in
  let keyindex := if key_len <=? keyindex + 1 then 0 else keyindex + 1 in
  (state, stateindex, keyindex).

Definition arcfour_init (key : list Z) (key_len : Z) : arc4context :=
  Arc4 0 0 (fold_left (arc_mix key key_len) counters (counters, 0, 0)).1.1.

Definition arcfour_byte (c : arc4context) : Z * arc4context :=
  let x := Z.land (arc_x c + 1) 0xff in
  let sx := at_ (arc_state c) x in
  let y := Z.land (sx + arc_y c) 0xff in
  let sy := at_ (arc_state c) y in
  let state := <[Z.to_nat y := sx]> (arc_state c) in
  let state := <[Z.to_nat x := sy]> state in
  (at_ state (Z.land (sx + sy) 0xff), Arc4 x y state).

Fixpoint arcfour_encrypt (c : arc4context) (src : list Z) : list Z * arc4context :=
  match src with
  | [] => ([], c)
  | b :: src =>
    let '(k, c) := arcfour_byte c in
    let '(dest, c) := arcfour_encrypt c src in
    (Z.lxor b (u8 k) :: dest, c)
  end.

(** ** CRC-32 *)

Definition CRC32_POLY : Z := 0x04c11db7.

Definition crc32_reverseBit (data : Z) : Z :=
  u8 (fold_left Z.lor
        [Z.land (Z.shiftl data 5) 0x40; Z.land (Z.shiftl data 3) 0x20; Z.land (Z.shiftl data 1) 0x10;
         Z.land (Z.shiftr data 1) 0x08; Z.land (Z.shiftr data 3) 0x04; Z.land (Z.shiftr data 5) 0x02;
         Z.land (Z.shiftr data 7) 0x01]
        (u8 (Z.land (Z.shiftl data 7) 0x80))).

(** A turn of the inner loop of [crc32_init]. *)
Definition crc_shift (c : Z) : Z :=
  if Z.land c 0x80000000 =? 0 then u32 (Z.shiftl c 1) else Z.lxor (u32 (Z.shiftl c 1)) CRC32_POLY.

(** The bytes of a word in memory, least significant first. *)
Definition word_byte (c i : Z) : Z := Z.land (Z.shiftr c (8 * i)) 0xff.

Definition le_word (b0 b1 b2 b3 : Z) : Z :=
  Z.lor (Z.lor b0 (Z.shiftl b1 8)) (Z.lor (Z.shiftl b2 16) (Z.shiftl b3 24)).

Definition crc_entry (i : Z) : Z :=
  let c := Nat.iter 8 crc_shift (Z.shiftl (crc32_reverseBit i) 24) in
  le_word (crc32_reverseBit (word_byte c 3)) (crc32_reverseBit (word_byte c 2))
          (crc32_reverseBit (word_byte c 1)) (crc32_reverseBit (word_byte c 0)).

(** The table [crc32_init] fills on first use. *)
Definition crc32_table : list Z := map crc_entry counters.

Definition crc_byte (crc b : Z) : Z :=
  Z.lxor (at_ crc32_table (Z.land (Z.lxor crc b) 0xff)) (Z.shiftr crc 8).

(** [~crc] on 32 bits. *)
Definition not32 (crc : Z) : Z := Z.lxor crc 0xffffffff.

(** [getcrc32] of [len] bytes of a buffer; a length below one is no byte. *)
Definition getcrc32 (buf : list Z) (len : Z) : Z :=
  not32 (fold_left crc_byte (take (Z.to_nat len) buf) 0xffffffff).

Definition rtw_calc_crc32 (data : list Z) : Z := not32 (fold_left crc_byte data 0xffffffff).

(** ** Michael *)

(** [struct mic_data] *)
Record mic_data := Mic { mK0 : Z; mK1 : Z; mL : Z; mR : Z; mM : Z; nBytesInM : Z }.

(** [secmicgetuint32] of the four bytes at [p]. *)
Definition secmicgetuint32 (m : list Z) (p : nat) : Z :=
  fold_left (fun res i => Z.lor res (u32 (Z.shiftl (nth (p + i) m 0) (8 * Z.of_nat i)))) [0; 1; 2; 3]%nat 0.

Fixpoint secmicputuint32_loop (i : nat) (val : Z) : list Z :=
  match i with
  | O => []
  | S i => u8 (Z.land val 0xff) :: secmicputuint32_loop i (Z.shiftr val 8)
  end.

(** [secmicputuint32]: the bytes written. *)
Definition secmicputuint32 (val : Z) : list Z := secmicputuint32_loop 4 val.

Definition secmicclear (d : mic_data) : mic_data := Mic (mK0 d) (mK1 d) (mK0 d) (mK1 d) 0 0.

Definition rtw_secmicsetkey (d : mic_data) (key : list Z) : mic_data :=
  secmicclear (Mic (secmicgetuint32 key 0) (secmicgetuint32 key 4) (mL d) (mR d) (mM d) (nBytesInM d)).

Definition ROL32 (a n : Z) : Z :=
  Z.lor (u32 (Z.shiftl a n)) (Z.land (Z.shiftr a (32 - n)) (Z.shiftl 1 n - 1)).

Definition ROR32 (a n : Z) : Z := ROL32 a (32 - n).

(** The word-sized step of [rtw_secmicappendbyte]. *)
Definition mic_block (l r m : Z) : Z * Z :=
  let l := Z.lxor l m in
  let r := Z.lxor r (ROL32 l 17) in
  let l := u32 (l + r) in
  let r := Z.lxor r (Z.lor (Z.shiftr (Z.land l 0xff00ff00) 8) (u32 (Z.shiftl (Z.land l 0x00ff00ff) 8))) in
  let l := u32 (l + r) in
  let r := Z.lxor r (ROL32 l 3) in
  let l := u32 (l + r) in
  let r := Z.lxor r (ROR32 l 2) in
  let l := u32 (l + r) in
  (l, r).

Definition rtw_secmicappendbyte (d : mic_data) (b : Z) : mic_data :=
  let m := Z.lor (mM d) (u32 (Z.shiftl b (8 * nBytesInM d))) in
  let n := u32 (nBytesInM d + 1) in
  if 4 <=? n then
    let '(l, r) := mic_block (mL d) (mR d) m in
    Mic (mK0 d) (mK1 d) l r 0 0
  else Mic (mK0 d) (mK1 d) (mL d) (mR d) m n.

Definition rtw_secmicappend (d : mic_data) (src : list Z) : mic_data :=
  fold_left rtw_secmicappendbyte src d.

(** [while (pmicdata->nBytesInM != 0)]: [None] when the fuel is not enough. *)
Fixpoint mic_pad_loop (fuel : nat) (d : mic_data) : option mic_data :=
  if nBytesInM d =? 0 then Some d
  else match fuel with
       | O => None
       | S fuel => mic_pad_loop fuel (rtw_secmicappendbyte d 0)
       end.

Definition rtw_secgetmic (fuel : nat) (d : mic_data) : option (list Z * mic_data) :=
  let d := rtw_secmicappend d [0x5a; 0; 0; 0; 0] in
  d ← mic_pad_loop fuel d;
  Some (secmicputuint32 (mL d) ++ secmicputuint32 (mR d), secmicclear d).

Definition bytes_at (m : list Z) (p n : nat) : list Z := take n (drop p m).

(** The pseudo header: DA, SA and the priority with three zeroes. *)
Definition rtw_seccalctkipmic (fuel : nat) (d : mic_data) (key header data : list Z) (pri : Z) : option (list Z) :=
  let d := rtw_secmicsetkey d key in
  let h1 := nth 1 header 0 in
  let d :=
    if negb (Z.land h1 1 =? 0) then
      let d := rtw_secmicappend d (bytes_at header 16 6) in
      if negb (Z.land h1 2 =? 0) then rtw_secmicappend d (bytes_at header 24 6)
      else rtw_secmicappend d (bytes_at header 10 6)
    else
      let d := rtw_secmicappend d (bytes_at header 4 6) in
      if negb (Z.land h1 2 =? 0) then rtw_secmicappend d (bytes_at header 16 6)
      else rtw_secmicappend d (bytes_at header 10 6) in
  let d := rtw_secmicappend d [pri; 0; 0; 0] in
  let d := rtw_secmicappend d data in
  fst <$> rtw_secgetmic fuel d.

(** ** The key mixing of TKIP *)

Definition RotR1 (v16 : Z) : Z := Z.lxor (Z.land (Z.shiftr v16 1) 0x7FFF) (Z.shiftl (Z.land v16 1) 15).

Definition Lo8 (v16 : Z) : Z := Z.land v16 0x00FF.

Definition Hi8 (v16 : Z) : Z := Z.land (Z.shiftr v16 8) 0x00FF.

Definition Lo16 (v32 : Z) : Z := Z.land v32 0xFFFF.

Definition Hi16 (v32 : Z) : Z := Z.land (Z.shiftr v32 16) 0xFFFF.

Definition Mk16 (hi lo : Z) : Z := Z.lxor lo (Z.shiftl (u16 hi) 8).

Definition TK16 (tk : list Z) (n : nat) : Z := Mk16 (nth (2 * n + 1) tk 0) (nth (2 * n) tk 0).

Definition Sbox1_0 : list Z :=
 [0xC6A5; 0xF884; 0xEE99; 0xF68D; 0xFF0D; 0xD6BD; 0xDEB1; 0x9154;
  0x6050; 0x0203; 0xCEA9; 0x567D; 0xE719; 0xB562; 0x4DE6; 0xEC9A;
  0x8F45; 0x1F9D; 0x8940; 0xFA87; 0xEF15; 0xB2EB; 0x8EC9; 0xFB0B;
  0x41EC; 0xB367; 0x5FFD; 0x45EA; 0x23BF; 0x53F7; 0xE496; 0x9B5B;
  0x75C2; 0xE11C; 0x3DAE; 0x4C6A; 0x6C5A; 0x7E41; 0xF502; 0x834F;
  0x685C; 0x51F4; 0xD134; 0xF908; 0xE293; 0xAB73; 0x6253; 0x2A3F;
  0x080C; 0x9552; 0x4665; 0x9D5E; 0x3028; 0x37A1; 0x0A0F; 0x2FB5;
  0x0E09; 0x2436; 0x1B9B; 0xDF3D; 0xCD26; 0x4E69; 0x7FCD; 0xEA9F;
  0x121B; 0x1D9E; 0x5874; 0x342E; 0x362D; 0xDCB2; 0xB4EE; 0x5BFB;
  0xA4F6; 0x764D; 0xB761; 0x7DCE; 0x527B; 0xDD3E; 0x5E71; 0x1397;
  0xA6F5; 0xB968; 0x0000; 0xC12C; 0x4060; 0xE31F; 0x79C8; 0xB6ED;
  0xD4BE; 0x8D46; 0x67D9; 0x724B; 0x94DE; 0x98D4; 0xB0E8; 0x854A;
  0xBB6B; 0xC52A; 0x4FE5; 0xED16; 0x86C5; 0x9AD7; 0x6655; 0x1194;
  0x8ACF; 0xE910; 0x0406; 0xFE81; 0xA0F0; 0x7844; 0x25BA; 0x4BE3;
  0xA2F3; 0x5DFE; 0x80C0; 0x058A; 0x3FAD; 0x21BC; 0x7048; 0xF104;
  0x63DF; 0x77C1; 0xAF75; 0x4263; 0x2030; 0xE51A; 0xFD0E; 0xBF6D;
  0x814C; 0x1814; 0x2635; 0xC32F; 0xBEE1; 0x35A2; 0x88CC; 0x2E39;
  0x9357; 0x55F2; 0xFC82; 0x7A47; 0xC8AC; 0xBAE7; 0x322B; 0xE695;
  0xC0A0; 0x1998; 0x9ED1; 0xA37F; 0x4466; 0x547E; 0x3BAB; 0x0B83;
  0x8CCA; 0xC729; 0x6BD3; 0x283C; 0xA779; 0xBCE2; 0x161D; 0xAD76;
  0xDB3B; 0x6456; 0x744E; 0x141E; 0x92DB; 0x0C0A; 0x486C; 0xB8E4;
  0x9F5D; 0xBD6E; 0x43EF; 0xC4A6; 0x39A8; 0x31A4; 0xD337; 0xF28B;
  0xD532; 0x8B43; 0x6E59; 0xDAB7; 0x018C; 0xB164; 0x9CD2; 0x49E0;
  0xD8B4; 0xACFA; 0xF307; 0xCF25; 0xCAAF; 0xF48E; 0x47E9; 0x1018;
  0x6FD5; 0xF088; 0x4A6F; 0x5C72; 0x3824; 0x57F1; 0x73C7; 0x9751;
  0xCB23; 0xA17C; 0xE89C; 0x3E21; 0x96DD; 0x61DC; 0x0D86; 0x0F85;
  0xE090; 0x7C42; 0x71C4; 0xCCAA; 0x90D8; 0x0605; 0xF701; 0x1C12;
  0xC2A3; 0x6A5F; 0xAEF9; 0x69D0; 0x1791; 0x9958; 0x3A27; 0x27B9;
  0xD938; 0xEB13; 0x2BB3; 0x2233; 0xD2BB; 0xA970; 0x0789; 0x33A7;
  0x2DB6; 0x3C22; 0x1592; 0xC920; 0x8749; 0xAAFF; 0x5078; 0xA57A;
  0x038F; 0x59F8; 0x0980; 0x1A17; 0x65DA; 0xD731; 0x84C6; 0xD0B8;
  0x82C3; 0x29B0; 0x5A77; 0x1E11; 0x7BCB; 0xA8FC; 0x6DD6; 0x2C3A].

(** The second half of the table. *)
Definition Sbox1_1 : list Z :=
 [0xA5C6; 0x84F8; 0x99EE; 0x8DF6; 0x0DFF; 0xBDD6; 0xB1DE; 0x5491;
  0x5060; 0x0302; 0xA9CE; 0x7D56; 0x19E7; 0x62B5; 0xE64D; 0x9AEC;
  0x458F; 0x9D1F; 0x4089; 0x87FA; 0x15EF; 0xEBB2; 0xC98E; 0x0BFB;
  0xEC41; 0x67B3; 0xFD5F; 0xEA45; 0xBF23; 0xF753; 0x96E4; 0x5B9B;
  0xC275; 0x1CE1; 0xAE3D; 0x6A4C; 0x5A6C; 0x417E; 0x02F5; 0x4F83;
  0x5C68; 0xF451; 0x34D1; 0x08F9; 0x93E2; 0x73AB; 0x5362; 0x3F2A;
  0x0C08; 0x5295; 0x6546; 0x5E9D; 0x2830; 0xA137; 0x0F0A; 0xB52F;
  0x090E; 0x3624; 0x9B1B; 0x3DDF; 0x26CD; 0x694E; 0xCD7F; 0x9FEA;
  0x1B12; 0x9E1D; 0x7458; 0x2E34; 0x2D36; 0xB2DC; 0xEEB4; 0xFB5B;
  0xF6A4; 0x4D76; 0x61B7; 0xCE7D; 0x7B52; 0x3EDD; 0x715E; 0x9713;
  0xF5A6; 0x68B9; 0x0000; 0x2CC1; 0x6040; 0x1FE3; 0xC879; 0xEDB6;
  0xBED4; 0x468D; 0xD967; 0x4B72; 0xDE94; 0xD498; 0xE8B0; 0x4A85;
  0x6BBB; 0x2AC5; 0xE54F; 0x16ED; 0xC586; 0xD79A; 0x5566; 0x9411;
  0xCF8A; 0x10E9; 0x0604; 0x81FE; 0xF0A0; 0x4478; 0xBA25; 0xE34B;
  0xF3A2; 0xFE5D; 0xC080; 0x8A05; 0xAD3F; 0xBC21; 0x4870; 0x04F1;
  0xDF63; 0xC177; 0x75AF; 0x6342; 0x3020; 0x1AE5; 0x0EFD; 0x6DBF;
  0x4C81; 0x1418; 0x3526; 0x2FC3; 0xE1BE; 0xA235; 0xCC88; 0x392E;
  0x5793; 0xF255; 0x82FC; 0x477A; 0xACC8; 0xE7BA; 0x2B32; 0x95E6;
  0xA0C0; 0x9819; 0xD19E; 0x7FA3; 0x6644; 0x7E54; 0xAB3B; 0x830B;
  0xCA8C; 0x29C7; 0xD36B; 0x3C28; 0x79A7; 0xE2BC; 0x1D16; 0x76AD;
  0x3BDB; 0x5664; 0x4E74; 0x1E14; 0xDB92; 0x0A0C; 0x6C48; 0xE4B8;
  0x5D9F; 0x6EBD; 0xEF43; 0xA6C4; 0xA839; 0xA431; 0x37D3; 0x8BF2;
  0x32D5; 0x438B; 0x596E; 0xB7DA; 0x8C01; 0x64B1; 0xD29C; 0xE049;
  0xB4D8; 0xFAAC; 0x07F3; 0x25CF; 0xAFCA; 0x8EF4; 0xE947; 0x1810;
  0xD56F; 0x88F0; 0x6F4A; 0x725C; 0x2438; 0xF157; 0xC773; 0x5197;
  0x23CB; 0x7CA1; 0x9CE8; 0x213E; 0xDD96; 0xDC61; 0x860D; 0x850F;
  0x90E0; 0x427C; 0xC471; 0xAACC; 0xD890; 0x0506; 0x01F7; 0x121C;
  0xA3C2; 0x5F6A; 0xF9AE; 0xD069; 0x9117; 0x5899; 0x273A; 0xB927;
  0x38D9; 0x13EB; 0xB32B; 0x3322; 0xBBD2; 0x70A9; 0x8907; 0xA733;
  0xB62D; 0x223C; 0x9215; 0x20C9; 0x4987; 0xFFAA; 0x7850; 0x7AA5;
  0x8F03; 0xF859; 0x8009; 0x171A; 0xDA65; 0x31D7; 0xC684; 0xB8D0;
  0xC382; 0xB029; 0x775A; 0x111E; 0xCB7B; 0xFCA8; 0xD66D; 0x3A2C].

Definition _S_ (v16 : Z) : Z := Z.lxor (at_ Sbox1_0 (Lo8 v16)) (at_ Sbox1_1 (Hi8 v16)).

Definition PHASE1_LOOP_CNT : nat := 8.

(** [p1k], the 80 bits of the first phase. *)
Record p1k_t := P1K { p1k0 : Z; p1k1 : Z; p1k2 : Z; p1k3 : Z; p1k4 : Z }.

(** A turn of the loop of [phase1]. *)
Definition phase1_round (tk : list Z) (p : p1k_t) (i : nat) : p1k_t :=
  let o := (i mod 2)%nat in
  let a := u16 (p1k0 p + _S_ (Z.lxor (p1k4 p) (TK16 tk (o + 0)))) in
  let b := u16 (p1k1 p + _S_ (Z.lxor a (TK16 tk (o + 2)))) in
  let c := u16 (p1k2 p + _S_ (Z.lxor b (TK16 tk (o + 4)))) in
  let d := u16 (p1k3 p + _S_ (Z.lxor c (TK16 tk (o + 6)))) in
  let e := u16 (p1k4 p + _S_ (Z.lxor d (TK16 tk (o + 0)))) in
  P1K a b c d (u16 (e + Z.of_nat i)).

Definition phase1 (tk ta : list Z) (iv32 : Z) : p1k_t :=
  fold_left (phase1_round tk) (seq 0 PHASE1_LOOP_CNT)
    (P1K (Lo16 iv32) (Hi16 iv32) (Mk16 (nth 1 ta 0) (nth 0 ta 0)) (Mk16 (nth 3 ta 0) (nth 2 ta 0))
         (Mk16 (nth 5 ta 0) (nth 4 ta 0))).

(** [PPK] after the two sweeps of [phase2]. *)
Definition phase2_ppk (tk : list Z) (p : p1k_t) (iv16 : Z) : list Z :=
  let PPK5 := u16 (p1k4 p + iv16) in
  let PPK0 := u16 (p1k0 p + _S_ (Z.lxor PPK5 (TK16 tk 0))) in
  let PPK1 := u16 (p1k1 p + _S_ (Z.lxor PPK0 (TK16 tk 1))) in
  let PPK2 := u16 (p1k2 p + _S_ (Z.lxor PPK1 (TK16 tk 2))) in
  let PPK3 := u16 (p1k3 p + _S_ (Z.lxor PPK2 (TK16 tk 3))) in
  let PPK4 := u16 (p1k4 p + _S_ (Z.lxor PPK3 (TK16 tk 4))) in
  let PPK5 := u16 (PPK5 + _S_ (Z.lxor PPK4 (TK16 tk 5))) in
  let PPK0 := u16 (PPK0 + RotR1 (Z.lxor PPK5 (TK16 tk 6))) in
  let PPK1 := u16 (PPK1 + RotR1 (Z.lxor PPK0 (TK16 tk 7))) in
  let PPK2 := u16 (PPK2 + RotR1 PPK1) in
  let PPK3 := u16 (PPK3 + RotR1 PPK2) in
  let PPK4 := u16 (PPK4 + RotR1 PPK3) in
  let PPK5 := u16 (PPK5 + RotR1 PPK4) in
  [PPK0; PPK1; PPK2; PPK3; PPK4; PPK5].

(** [rc4key] of [phase2]. *)
Definition phase2 (tk : list Z) (p : p1k_t) (iv16 : Z) : list Z :=
  let PPK := phase2_ppk tk p iv16 in
  [Hi8 iv16; Z.land (Z.lor (Hi8 iv16) 0x20) 0x7F; Lo8 iv16;
   Lo8 (Z.shiftr (Z.lxor (nth 5 PPK 0) (TK16 tk 0)) 1)] ++
  flat_map (fun w => [Lo8 w; Hi8 w]) PPK.

(** ** Packet numbers *)

Definition _WEP40_ : Z := 0x01.

Definition _TKIP_ : Z := 0x02.

Definition _AES_ : Z := 0x04.

Definition _WEP104_ : Z := 0x05.

Definition _GCMP_ : Z := 0x07.

Definition _CCMP_256_ : Z := Z.lor _AES_ 0x10.

Definition _GCMP_256_ : Z := Z.lor _GCMP_ 0x10.

(** The ciphers with the layout of CCMP. *)
Definition ccmp_like (enc_algo : Z) : bool :=
  (enc_algo =? _AES_) || (enc_algo =? _GCMP_) || (enc_algo =? _CCMP_256_) || (enc_algo =? _GCMP_256_).

(** [rtw_iv_to_pn]: the packet number, least significant byte first, and the
    key id; [None] is _FAIL. *)
Definition rtw_iv_to_pn (iv : list Z) (enc_algo : Z) : option (list Z * Z) :=
  let rest := [nth 4 iv 0; nth 5 iv 0; nth 6 iv 0; nth 7 iv 0] in
  let key_id := Z.shiftr (nth 3 iv 0) 6 in
  if enc_algo =? _TKIP_ then Some ([nth 2 iv 0; nth 0 iv 0] ++ rest, key_id)
  else if ccmp_like enc_algo then Some ([nth 0 iv 0; nth 1 iv 0] ++ rest, key_id)
  else None.

Definition rtw_pn_to_iv (pn : list Z) (key_id enc_algo : Z) : option (list Z) :=
  let rest := [u8 (Z.lor (BIT 5) (Z.shiftl (Z.land key_id 0x3) 6)); nth 2 pn 0; nth 3 pn 0; nth 4 pn 0; nth 5 pn 0] in
  if enc_algo =? _TKIP_
  then Some ([nth 1 pn 0; Z.land (Z.lor (nth 1 pn 0) 0x20) 0x7F; nth 0 pn 0] ++ rest)
  else if ccmp_like enc_algo then Some ([nth 0 pn 0; nth 1 pn 0; 0] ++ rest)
  else None.

(** [union pn48] after GET_TKIP_PN; the two bytes the macro does not set are
    [t6] and [t7]. *)
Definition GET_TKIP_PN (iv : list Z) (t6 t7 : Z) : Z :=
  fold_right (fun b v => b + 256 * v) 0 [nth 2 iv 0; nth 0 iv 0; nth 4 iv 0; nth 5 iv 0; nth 6 iv 0; nth 7 iv 0; t6; t7].

(** ** RC4: the state is a permutation, the cipher its own inverse *)

Lemma at_lookup l i x : 0 <= i -> l !! Z.to_nat i = Some x -> at_ l i = x.
Proof. intros Hi H. unfold at_. rewrite nth_lookup. by rewrite H. Qed.

Lemma counters_lookup n : (n < 256)%nat -> counters !! n = Some (Z.of_nat n).
Proof. intros H. unfold counters. rewrite list_lookup_fmap, lookup_seq_lt by done. done. Qed.

(** Two entries exchanged. *)
Lemma swap_perm {A} (l : list A) i j x y :
  l !! i = Some x -> l !! j = Some y -> <[i := y]> (<[j := x]> l) ≡ₚ l.
Proof.
  intros Hi Hj. apply Permutation_inj. rewrite !length_insert. split; [done|].
  exists (fun k => if decide (k = i) then j else if decide (k = j) then i else k). split.
  - intros a b. repeat case_decide; subst; congruence.
  - intros k. pose proof (lookup_lt_Some _ _ _ Hi). pose proof (lookup_lt_Some _ _ _ Hj).
    rewrite list_lookup_insert. rewrite list_lookup_insert. rewrite length_insert.
    repeat case_decide; subst; try congruence; try tauto; try lia.
Qed.

Definition arc_wf (c : arc4context) : Prop := is_u8 (arc_x c) /\ is_u8 (arc_y c) /\ arc_state c ≡ₚ counters.

Lemma perm_entry s i : s ≡ₚ counters -> 0 <= i < 256 -> exists x, s !! Z.to_nat i = Some x /\ at_ s i = x /\ is_u8 x.
Proof.
  intros Hs Hi. destruct (lookup_lt_is_Some_2 s (Z.to_nat i)) as [x Hx].
  { rewrite Hs. change (length counters) with 256%nat. lia. }
  exists x. split; [done|]. split; [by apply at_lookup; [lia|]|].
  assert (x ∈ counters) as Hin by (rewrite <- Hs; by eapply list_elem_of_lookup_2).
  apply list_elem_of_fmap in Hin as (n & -> & Hn%elem_of_seq). unfold is_u8. lia.
Qed.

Lemma land_ff z : 0 <= Z.land z 0xff < 256.
Proof. rewrite land_255. apply u8_range. Qed.

Lemma arc_swap s i j :
  s ≡ₚ counters -> 0 <= i < 256 -> 0 <= j < 256 ->
  <[Z.to_nat i := at_ s j]> (<[Z.to_nat j := at_ s i]> s) ≡ₚ counters.
Proof.
  intros Hs Hi Hj. destruct (perm_entry s i Hs Hi) as (x & Hx & -> & _).
  destruct (perm_entry s j Hs Hj) as (y & Hy & -> & _). by rewrite (swap_perm s).
Qed.

Lemma arcfour_init_wf key key_len : arc_wf (arcfour_init key key_len).
Proof.
  split_and!; [done..|]. cbn [arcfour_init arc_state].
  assert (Forall (fun z => 0 <= z < 256) counters) as Hc by (apply List.Forall_forall; intros z Hz;
    apply in_map_iff in Hz as (n & <- & Hn%in_seq); lia).
  set (P := fun s : list Z * Z * Z => s.1.1 ≡ₚ counters).
  assert (forall l s, Forall (fun z => 0 <= z < 256) l -> P s -> P (fold_left (arc_mix key key_len) l s)) as H.
  { induction l as [|z l IH]; intros s Hl Hs; [done|]. inversion Hl; subst. apply IH; [done|].
    destruct s as [[s i] k]. unfold P, arc_mix in *. cbn [fst] in *. apply arc_swap; [done|done|apply land_ff]. }
  apply (H counters (counters, 0, 0)); [done|]. unfold P. by cbn [fst].
Qed.

Lemma arcfour_byte_wf c : arc_wf c -> is_u8 (arcfour_byte c).1 /\ arc_wf (arcfour_byte c).2.
Proof.
  intros (Hx & Hy & Hs). unfold arcfour_byte. cbn [fst snd].
  assert (<[Z.to_nat (Z.land (arc_x c + 1) 0xff) :=
            at_ (arc_state c) (Z.land (at_ (arc_state c) (Z.land (arc_x c + 1) 0xff) + arc_y c) 0xff)]>
          (<[Z.to_nat (Z.land (at_ (arc_state c) (Z.land (arc_x c + 1) 0xff) + arc_y c) 0xff) :=
            at_ (arc_state c) (Z.land (arc_x c + 1) 0xff)]> (arc_state c)) ≡ₚ counters) as H
    by (apply arc_swap; [done|apply land_ff|apply land_ff]).
  split; [|by split_and!; [apply land_ff|apply land_ff|]].
  edestruct (perm_entry _ (Z.land (at_ (arc_state c) (Z.land (arc_x c + 1) 0xff) +
    at_ (arc_state c) (Z.land (at_ (arc_state c) (Z.land (arc_x c + 1) 0xff) + arc_y c) 0xff)) 0xff) H) as (v & _ & E & Hv);
    [apply land_ff|]. by rewrite E.
Qed.

(** The bytes [arcfour_byte] gives, one after the other, and the context then. *)
Fixpoint keystream (c : arc4context) (n : nat) : list Z * arc4context :=
  match n with
  | O => ([], c)
  | S n => let '(k, c) := arcfour_byte c in let '(ks, c) := keystream c n in (u8 k :: ks, c)
  end.

Lemma arc_keystream c s :
  arcfour_encrypt c s = (zip_with Z.lxor s (keystream c (length s)).1, (keystream c (length s)).2).
Proof.
  revert c. induction s as [|b s IH]; intros c; [done|]. cbn [arcfour_encrypt keystream length].
  destruct (arcfour_byte c) as [k c']. rewrite IH. by destruct (keystream c' (length s)).
Qed.

Lemma keystream_length c n : length (keystream c n).1 = n.
Proof.
  revert c. induction n as [|n IH]; intros c; [done|]. cbn [keystream]. destruct (arcfour_byte c) as [k c'].
  specialize (IH c'). destruct (keystream c' n). cbn [fst length] in *. by rewrite IH.
Qed.

Lemma keystream_u8 c n : Forall is_u8 (keystream c n).1.
Proof.
  revert c. induction n as [|n IH]; intros c; [constructor|]. cbn [keystream]. destruct (arcfour_byte c) as [k c'].
  specialize (IH c'). destruct (keystream c' n). constructor; [apply u8_range|done].
Qed.

Lemma arc_length c s : length (arcfour_encrypt c s).1 = length s.
Proof. rewrite arc_keystream. cbn [fst]. rewrite length_zip_with, keystream_length. lia. Qed.

Lemma arc_app c s t :
  arcfour_encrypt c (s ++ t) =
  ((arcfour_encrypt c s).1 ++ (arcfour_encrypt (arcfour_encrypt c s).2 t).1, (arcfour_encrypt (arcfour_encrypt c s).2 t).2).
Proof.
  revert c. induction s as [|b s IH]; intros c; cbn [arcfour_encrypt app fst snd]; [by destruct (arcfour_encrypt c t)|].
  destruct (arcfour_byte c) as [k c']. rewrite IH. destruct (arcfour_encrypt c' s) as [d c2]. cbn [fst snd].
  by destruct (arcfour_encrypt c2 t).
Qed.

Lemma zip_lxor_twice (s k : list Z) : length s = length k -> zip_with Z.lxor (zip_with Z.lxor s k) k = s.
Proof.
  revert k. induction s as [|b s IH]; intros [|x k] H; try done. cbn [zip_with]. rewrite lxor_cancel, IH; [done|].
  by injection H.
Qed.

Lemma arc_involutive c s : (arcfour_encrypt c (arcfour_encrypt c s).1).1 = s.
Proof.
  rewrite (arc_keystream c (arcfour_encrypt c s).1), arc_length. rewrite arc_keystream. cbn [fst].
  apply zip_lxor_twice. by rewrite keystream_length.
Qed.

Lemma zip_lxor_u8 (s k : list Z) : Forall is_u8 s -> Forall is_u8 k -> Forall is_u8 (zip_with Z.lxor s k).
Proof.
  intros Hs. revert k. induction Hs as [|b s Hb Hs IH]; intros [|x k] Hk; try constructor; inversion Hk; subst.
  - by apply (word_lxor 8).
  - by apply IH.
Qed.

Lemma arc_u8 c s : Forall is_u8 s -> Forall is_u8 (arcfour_encrypt c s).1.
Proof. intros H. rewrite arc_keystream. apply zip_lxor_u8; [done|apply keystream_u8]. Qed.

(** ** CRC-32: the table implements a shift register *)

(** The generator polynomial with the bits reversed. *)
Definition CRC32_REV : Z := 0xEDB88320.

(** A shift register, fed with the bits of the message, least significant bit
    of each byte first. *)
Definition lfsr (c : Z) (bit : bool) : Z :=
  if xorb (Z.odd c) bit then Z.lxor (Z.shiftr c 1) CRC32_REV else Z.shiftr c 1.

Definition bits_of (b : Z) : list bool := map (Z.testbit b) [0; 1; 2; 3; 4; 5; 6; 7].

Definition crc32_spec (msg : list Z) : Z := not32 (fold_left lfsr (flat_map bits_of msg) 0xffffffff).

(** The register without input. *)
Definition crc_bit (c : Z) : Z := lfsr c false.

Lemma crc_bit_lxor a b : crc_bit (Z.lxor a b) = Z.lxor (crc_bit a) (crc_bit b).
Proof.
  unfold crc_bit, lfsr. rewrite <- !Z.bit0_odd, Z.lxor_spec, !xorb_false_r.
  rewrite Z.shiftr_lxor. destruct (Z.testbit a 0), (Z.testbit b 0); cbn [xorb]; xor_solve.
Qed.

Lemma iter_crc_lxor n a b : Nat.iter n crc_bit (Z.lxor a b) = Z.lxor (Nat.iter n crc_bit a) (Nat.iter n crc_bit b).
Proof. induction n as [|n IH]; [done|]. rewrite !Nat.iter_succ. by rewrite IH, crc_bit_lxor. Qed.

Lemma iter_crc_shiftl n h : Nat.iter n crc_bit (Z.shiftl h (Z.of_nat n)) = h.
Proof.
  induction n as [|n IH]; [cbn; apply Z.shiftl_0_r|]. rewrite Nat.iter_succ_r.
  assert (crc_bit (Z.shiftl h (Z.of_nat (S n))) = Z.shiftl h (Z.of_nat n)) as ->; [|done].
  unfold crc_bit, lfsr. rewrite <- Z.bit0_odd, Z.shiftl_spec_low by lia. cbn [xorb].
  rewrite Z.shiftr_shiftl_l by lia. f_equal. lia.
Qed.

(** What is in the register when a word arrives and when it leaves. *)
Lemma iter_crc_high n v :
  0 <= n -> Nat.iter (Z.to_nat n) crc_bit v = Z.lxor (Z.shiftr v n) (Nat.iter (Z.to_nat n) crc_bit (v mod 2 ^ n)).
Proof.
  intros Hn. rewrite (split_word n v Hn) at 1. rewrite iter_crc_lxor.
  rewrite <- (Z2Nat.id n Hn) at 3. by rewrite iter_crc_shiftl.
Qed.

Lemma crc_entry_spec i : is_u8 i -> at_ crc32_table i = Nat.iter 8 crc_bit i.
Proof.
  intros Hi. apply Z.eqb_eq. revert i Hi. apply forall_u8. vm_compute. reflexivity.
Qed.

(** The register after a byte. *)
Definition feed (c b : Z) : Z := Nat.iter 8 crc_bit (Z.lxor c b).

Lemma crc_byte_feed c b : is_u8 b -> crc_byte c b = feed c b.
Proof.
  intros Hb. unfold crc_byte, feed. change 8%nat with (Z.to_nat 8).
  rewrite iter_crc_high by lia. rewrite land_255, crc_entry_spec by apply u8_range. rewrite Z.lxor_comm.
  rewrite Z.shiftr_lxor. rewrite (Z.shiftr_div_pow2 b) by lia. rewrite (Z.div_small b) by done.
  by rewrite Z.lxor_0_r.
Qed.

Lemma lfsr_bit c b : crc_bit (Z.lxor c b) = Z.lxor (lfsr c (Z.testbit b 0)) (Z.shiftr b 1).
Proof.
  unfold crc_bit, lfsr. rewrite <- !Z.bit0_odd, Z.lxor_spec, Z.shiftr_lxor, xorb_false_r.
  destruct (xorb _ _); xor_solve.
Qed.

Lemma lfsr_bits l b c k :
  l = map Z.of_nat (seq k (length l)) ->
  fold_left lfsr (map (Z.testbit b) l) c =
  Z.lxor (Nat.iter (length l) crc_bit (Z.lxor c (Z.shiftr b (Z.of_nat k)))) (Z.shiftr b (Z.of_nat (k + length l))).
Proof.
  revert c k. induction l as [|x l IH]; intros c k Hl.
  - cbn. rewrite Nat.add_0_r. by rewrite lxor_cancel.
  - cbn [length seq map] in Hl. injection Hl as -> Hl. cbn [map fold_left length]. rewrite (IH _ (S k)) by done.
    rewrite Nat.iter_succ_r. rewrite (lfsr_bit c). rewrite Z.shiftr_shiftr by lia. rewrite Z.shiftr_spec by lia.
    rewrite Z.add_0_l. replace (Z.of_nat (S k)) with (Z.of_nat k + 1) by lia.
    by replace (S k + length l)%nat with (k + S (length l))%nat by lia.
Qed.

Lemma feed_bits c b : is_u8 b -> feed c b = fold_left lfsr (bits_of b) c.
Proof.
  intros Hb. unfold bits_of. rewrite (lfsr_bits _ b c 0) by done. cbn [length Nat.add].
  rewrite Z.shiftr_0_r. change (Z.of_nat 8) with 8. rewrite (Z.shiftr_div_pow2 b 8) by lia.
  rewrite (Z.div_small b) by done. by rewrite Z.lxor_0_r.
Qed.

Lemma crc_fold_bits l c : Forall is_u8 l -> fold_left crc_byte l c = fold_left lfsr (flat_map bits_of l) c.
Proof.
  intros H. revert c. induction H as [|b l Hb Hl IH]; intros c; [done|]. cbn [fold_left flat_map].
  rewrite fold_left_app. by rewrite IH, crc_byte_feed, feed_bits.
Qed.

Lemma crc_fold_feed l c : Forall is_u8 l -> fold_left crc_byte l c = fold_left feed l c.
Proof.
  intros H. revert c. induction H as [|b l Hb Hl IH]; intros c; [done|]. cbn [fold_left]. by rewrite IH, crc_byte_feed.
Qed.

(** ** CRC-32: bursts of errors *)

Lemma crc_bit_word c : word 32 c -> word 32 (crc_bit c).
Proof.
  intros H. assert (word 32 (Z.shiftr c 1)) by (apply word_shiftr; [lia..|]; by apply (word_weaken 32)).
  unfold crc_bit, lfsr. destruct (xorb _ _); [|done]. by apply word_lxor.
Qed.

Lemma crc_bit_kernel c : word 32 c -> crc_bit c = 0 -> c = 0.
Proof.
  intros Hc. unfold crc_bit, lfsr. rewrite xorb_false_r. rewrite Z.shiftr_div_pow2 by lia. destruct (Z.odd c) eqn:E.
  - intros H%Z.lxor_eq. exfalso. change (is_u32 c) in Hc. unfold CRC32_REV in H. change (2 ^ 1) with 2 in H. ulia.
  - intros H. change (2 ^ 1) with 2 in H. pose proof (Zmod_odd c) as H2. rewrite E in H2. zlia.
Qed.

Lemma iter_crc_kernel n c : word 32 c -> word 32 (Nat.iter n crc_bit c) /\ (Nat.iter n crc_bit c = 0 -> c = 0).
Proof.
  intros Hc. induction n as [|n [IH1 IH2]]; [by split|]. rewrite !Nat.iter_succ. split; [by apply crc_bit_word|].
  intros H. apply IH2, crc_bit_kernel; done.
Qed.

(** A message as an integer, first byte least significant. *)
Definition le_int (l : list Z) : Z := fold_right (fun b v => b + 256 * v) 0 l.

Lemma le_int_cons b l : is_u8 b -> le_int (b :: l) = Z.lxor (Z.shiftl (le_int l) 8) b.
Proof.
  intros Hb. rewrite lxor_split by (done || lia). unfold le_int. cbn [fold_right]. change (2 ^ 8) with 256. lia.
Qed.

Lemma le_int_word l : Forall is_u8 l -> word (8 * Z.of_nat (length l)) (le_int l).
Proof.
  induction 1 as [|b l Hb Hl IH]; [unfold word; cbn; lia|]. rewrite le_int_cons by done. cbn [length].
  replace (8 * Z.of_nat (S (length l))) with (8 * Z.of_nat (length l) + 8) by lia. apply word_lxor.
  - by apply word_shiftl.
  - apply (word_weaken 8); [done|lia].
Qed.

Lemma le_int_inj l l' : Forall is_u8 l -> Forall is_u8 l' -> length l = length l' -> le_int l = le_int l' -> l = l'.
Proof.
  intros H. revert l'. induction H as [|b l Hb Hl IH]; intros [|b' l'] Hl' Hlen E; try done.
  inversion Hl' as [|?? Hb' Hl'']; subst. unfold le_int in E. cbn [fold_right] in E. fold (le_int l) (le_int l') in E.
  assert (b = b') as -> by (unfold is_u8 in *; lia). f_equal. apply IH; [done|by injection Hlen|lia].
Qed.

Lemma feed_all l c : Forall is_u8 l -> fold_left feed l c = Nat.iter (8 * length l) crc_bit (Z.lxor c (le_int l)).
Proof.
  intros H. revert c. induction H as [|b l Hb Hl IH]; intros c; cbn [fold_left length].
  - change (le_int []) with 0. by rewrite Z.lxor_0_r.
  - rewrite IH, le_int_cons by done. replace (8 * S (length l))%nat with (8 * length l + 8)%nat by lia.
    rewrite Nat.iter_add. f_equal. unfold feed.
    rewrite (Z.lxor_comm (Z.shiftl _ _)), <- Z.lxor_assoc, (iter_crc_lxor 8 (Z.lxor c b)).
    by rewrite (iter_crc_shiftl 8).
Qed.

(** The registers of two messages of one length differ by the register of the
    difference. *)
Lemma feed_diff l c c' :
  Forall is_u8 l ->
  Z.lxor (fold_left feed l c) (fold_left feed l c') = Nat.iter (8 * length l) crc_bit (Z.lxor c c').
Proof.
  intros H. rewrite !feed_all by done. rewrite <- iter_crc_lxor. f_equal. xor_solve.
Qed.

Lemma feed_word l c : Forall is_u8 l -> word 32 c -> word 32 (fold_left feed l c).
Proof.
  intros H. revert c. induction H as [|b l Hb Hl IH]; intros c Hc; [done|]. apply IH.
  apply iter_crc_kernel. apply word_lxor; [done|]. by apply (word_weaken 8).
Qed.

(** A change within four consecutive bytes changes the register for good. *)
Lemma feed_burst pre x x' post c :
  Forall is_u8 pre -> Forall is_u8 x -> Forall is_u8 x' -> Forall is_u8 post -> word 32 c ->
  length x = length x' -> (length x <= 4)%nat -> x <> x' ->
  fold_left feed (pre ++ x ++ post) c <> fold_left feed (pre ++ x' ++ post) c.
Proof.
  intros Hp Hx Hx' Hq Hc Hl H4 Hne E. apply Hne. rewrite !fold_left_app in E.
  set (c1 := fold_left feed pre c) in E. apply lxor_eq_0 in E. rewrite feed_diff in E by done.
  apply iter_crc_kernel in E; [|apply word_lxor; apply feed_word; try done; by apply feed_word].
  rewrite !feed_all, <- Hl, <- iter_crc_lxor in E by done.
  replace (Z.lxor (Z.lxor c1 (le_int x)) (Z.lxor c1 (le_int x'))) with (Z.lxor (le_int x) (le_int x')) in E by xor_solve.
  apply iter_crc_kernel in E.
  - apply Z.lxor_eq in E. by apply le_int_inj.
  - apply (word_weaken (8 * Z.of_nat (length x))); [|lia]. apply word_lxor; [by apply le_int_word|].
    rewrite Hl. by apply le_int_word.
Qed.

(** The register after a message and its check value. *)
Definition CRC32_RESIDUE : Z := 0xdebb20e3.

Lemma not32_word c : word 32 c -> word 32 (not32 c).
Proof. intros H. by apply word_lxor. Qed.

(** A check value is accepted exactly when the register ends at the residue. *)
Lemma crc_residue msg icv :
  Forall is_u8 msg -> Forall is_u8 icv -> length icv = 4%nat ->
  fold_left feed (msg ++ icv) 0xffffffff = CRC32_RESIDUE <-> le_int icv = getcrc32 msg (zlen msg).
Proof.
  intros Hm Hi Hl. unfold getcrc32. rewrite to_nat_zlen, firstn_all, crc_fold_feed by done. rewrite fold_left_app.
  set (c := fold_left feed msg 0xffffffff). assert (word 32 c) as Hc by by apply feed_word.
  rewrite feed_all by done. rewrite Hl. change (8 * 4)%nat with 32%nat.
  change CRC32_RESIDUE with (Nat.iter 32 crc_bit 0xffffffff). unfold not32. split.
  - intros E. apply lxor_eq_0 in E. rewrite <- iter_crc_lxor in E. apply iter_crc_kernel in E.
    + apply Z.lxor_eq in E. rewrite <- E. xor_solve.
    + pose proof (le_int_word icv Hi) as W. rewrite Hl in W. by repeat apply word_lxor.
  - intros ->. f_equal. xor_solve.
Qed.

(** ** Michael *)

(** The words of a message whose length is a multiple of four. *)
Fixpoint le_words (l : list Z) : list Z :=
  match l with
  | a :: b :: c :: d :: l => le_int [a; b; c; d] :: le_words l
  | _ => []
  end.

Fixpoint le_bytes (n : nat) (v : Z) : list Z :=
  match n with O => [] | S n => v mod 256 :: le_bytes n (v / 256) end.

(** 0x5a, and four to seven zeroes that fill the last word. *)
Definition mic_padding (n : nat) : list Z := 0x5a :: replicate (7 - n mod 4) 0.

Definition mic_words (s : Z * Z) (ws : list Z) : Z * Z := fold_left (fun s w => mic_block s.1 s.2 w) ws s.

(** The block function of Michael: rotations and the swap of the bytes in each half,
    by arithmetic. *)
Definition rotl32 (n x : Z) : Z := x * 2 ^ n mod 2 ^ 32 + x / 2 ^ (32 - n).

Definition xswap (x : Z) : Z :=
  (x / 2 ^ 16 mod 256) * 2 ^ 24 + (x / 2 ^ 24) * 2 ^ 16 + (x mod 256) * 2 ^ 8 + x / 2 ^ 8 mod 256.

Definition michael_block (s : Z * Z) (m : Z) : Z * Z :=
  let l := Z.lxor s.1 m in
  let r := Z.lxor s.2 (rotl32 17 l) in
  let l := (l + r) mod 2 ^ 32 in
  let r := Z.lxor r (xswap l) in
  let l := (l + r) mod 2 ^ 32 in
  let r := Z.lxor r (rotl32 3 l) in
  let l := (l + r) mod 2 ^ 32 in
  let r := Z.lxor r (rotl32 30 l) in
  ((l + r) mod 2 ^ 32, r).

(** Michael on a whole message. *)
Definition michael_spec (key msg : list Z) : list Z :=
  let s := fold_left michael_block(le_words (msg ++ mic_padding (length msg))) (le_int (take 4 key), le_int (take 4 (drop 4 key))) in
  le_bytes 4 s.1 ++ le_bytes 4 s.2.

Lemma ROL32_rotl a n : is_u32 a -> 0 <= n <= 32 -> ROL32 a n = rotl32 n a.
Proof.
  intros Ha Hn. unfold ROL32, rotl32, u32. change 4294967296 with (2 ^ 32). rewrite Z.shiftl_1_l, Z.shiftr_div_pow2, Z.shiftl_mul_pow2 by lia.
  rewrite Z.sub_1_r, <- Z.ones_equiv, Z.land_ones by lia.
  assert (2 ^ 32 = 2 ^ n * 2 ^ (32 - n)) as E by (rewrite <- Z.pow_add_r by lia; f_equal; lia).
  assert (word n (a / 2 ^ (32 - n))) as Hw.
  { split; [apply Z.div_pos; [unfold is_u32 in Ha; lia|by apply Z.pow_pos_nonneg; lia]|].
    apply Z.div_lt_upper_bound; [by apply Z.pow_pos_nonneg; lia|]. unfold is_u32 in Ha. rewrite Z.mul_comm, <- E. lia. }
  rewrite (Z.mod_small (a / _)) by exact Hw. rewrite E, (Z.mul_comm a), Z.mul_mod_distr_l by (apply Z.pow_nonzero; lia).
  rewrite Z.lor_comm, (Z.mul_comm (2 ^ n)), <- Z.shiftl_mul_pow2, lor_split by (done || lia). rewrite Z.shiftl_mul_pow2 by lia. lia.
Qed.

(** Masks that end at the border of two parts. *)
Lemma land_parts n hi lo mh ml :
  0 <= n -> word n lo -> word n ml -> Z.land (hi * 2 ^ n + lo) (mh * 2 ^ n + ml) = Z.land hi mh * 2 ^ n + Z.land lo ml.
Proof.
  intros Hn Hl Hm. rewrite <- !lxor_split by (try apply word_land; done). apply Z.bits_inj'. intros k Hk.
  rewrite !Z.land_spec, !Z.lxor_spec, !Z.land_spec, !Z.shiftl_spec by done. destruct (Z.ltb_spec k n).
  - by rewrite !(Z.testbit_neg_r _ (k - n)) by lia.
  - by rewrite (word_high n lo), (word_high n ml), !xorb_false_r, Z.land_spec by done.
Qed.

Lemma xswap_masks x :
  is_u32 x -> Z.lor (Z.shiftr (Z.land x 0xff00ff00) 8) (u32 (Z.shiftl (Z.land x 0x00ff00ff) 8)) = xswap x.
Proof.
  intros Hx. unfold xswap.
  assert (exists a b c d, is_u8 a /\ is_u8 b /\ is_u8 c /\ is_u8 d /\ x = ((a * 2 ^ 8 + b) * 2 ^ 8 + c) * 2 ^ 8 + d) as (a & b & c & d & Ha & Hb & Hc & Hd & E).
  { exists (x / 2 ^ 24), (x / 2 ^ 16 mod 256), (x / 2 ^ 8 mod 256), (x mod 256). unfold is_u8, is_u32 in *. repeat split; zlia. }
  rewrite E. change 0xff00ff00 with (((255 * 2 ^ 8 + 0) * 2 ^ 8 + 255) * 2 ^ 8 + 0).
  change 0x00ff00ff with (((0 * 2 ^ 8 + 255) * 2 ^ 8 + 0) * 2 ^ 8 + 255). rewrite !land_parts by (lia || done).
  change 255 with (Z.ones 8). rewrite !Z.land_ones, !Z.land_0_r by lia. rewrite !(Z.mod_small _ (2 ^ 8)) by assumption.
  unfold u32, is_u8 in *. rewrite Z.shiftr_div_pow2, Z.shiftl_mul_pow2 by lia. clear E Hx x.
  replace (((a * 2 ^ 8 + 0) * 2 ^ 8 + c) * 2 ^ 8 + 0) with ((a * 2 ^ 16 + c) * 2 ^ 8) by lia. rewrite Z.div_mul by lia.
  replace ((((0 * 2 ^ 8 + b) * 2 ^ 8 + 0) * 2 ^ 8 + d) * 2 ^ 8 mod 4294967296) with ((b * 2 ^ 8 * 2 ^ 8 + d) * 2 ^ 8) by zlia.
  pose proof (Z.add_lor_land (a * 2 ^ 16 + c) ((b * 2 ^ 8 * 2 ^ 8 + d) * 2 ^ 8)) as Hs.
  assert (Z.land (a * 2 ^ 16 + c) ((b * 2 ^ 8 * 2 ^ 8 + d) * 2 ^ 8) = 0) as H0; [|zlia].
  replace (a * 2 ^ 16 + c) with (((0 * 2 ^ 8 + a) * 2 ^ 8 + 0) * 2 ^ 8 + c) by lia.
  replace ((b * 2 ^ 8 * 2 ^ 8 + d) * 2 ^ 8) with (((b * 2 ^ 8 + 0) * 2 ^ 8 + d) * 2 ^ 8 + 0) by lia.
  rewrite !land_parts by (lia || done). by rewrite !Z.land_0_l, !Z.land_0_r.
Qed.

Lemma mic_block_spec l r m :
  is_u32 l -> is_u32 r -> is_u32 m ->
  mic_block l r m = michael_block (l, r) m /\ is_u32 (mic_block l r m).1 /\ is_u32 (mic_block l r m).2.
Proof.
  intros Hl Hr Hm. assert (forall a b, is_u32 a -> is_u32 b -> is_u32 (Z.lxor a b)) as Hx.
  { intros a b Ha Hb. apply word_u32. apply (word_lxor 32); by apply word_u32. }
  assert (forall a n, is_u32 a -> 0 <= n <= 32 -> is_u32 (ROL32 a n)) as Hrot.
  { intros a n Ha Hn. unfold ROL32. apply word_u32, (word_lor 32); [apply word_u32, u32_range|].
    rewrite Z.shiftl_1_l, Z.sub_1_r, <- Z.ones_equiv, Z.land_ones by lia. pose proof (word_mod n (Z.shiftr a (32 - n)) ltac:(lia)) as [H0 H1].
    split; [done|]. apply Z.lt_le_trans with (2 ^ n); [done|]. apply Z.pow_le_mono_r; lia. }
  assert (forall a, is_u32 a -> is_u32 (xswap a)) as Hsw by (intros a Ha; unfold xswap, is_u32 in *; zlia).
  unfold mic_block, michael_block. cbn [fst snd]. unfold ROR32. change (32 - 2) with 30.
  assert (is_u32 (Z.lxor l m)) as H1 by auto. set (l1 := Z.lxor l m) in *.
  pose proof (Hrot l1 17 H1 ltac:(lia)) as R1. rewrite ROL32_rotl in R1 |- * by (done || lia). set (r1 := Z.lxor r (rotl32 17 l1)).
  assert (is_u32 r1) as Hr1 by (apply Hx; done). change ((l1 + r1) mod 2 ^ 32) with (u32 (l1 + r1)). set (l2 := u32 (l1 + r1)).
  assert (is_u32 l2) as H2 by apply u32_range. rewrite xswap_masks by done. set (r2 := Z.lxor r1 (xswap l2)).
  assert (is_u32 r2) as Hr2 by (apply Hx; auto). change ((l2 + r2) mod 2 ^ 32) with (u32 (l2 + r2)). set (l3 := u32 (l2 + r2)).
  assert (is_u32 l3) as H3 by apply u32_range. pose proof (Hrot l3 3 H3 ltac:(lia)) as R3. rewrite ROL32_rotl in R3 |- * by (done || lia).
  set (r3 := Z.lxor r2 (rotl32 3 l3)). assert (is_u32 r3) as Hr3 by (apply Hx; auto). change ((l3 + r3) mod 2 ^ 32) with (u32 (l3 + r3)).
  set (l4 := u32 (l3 + r3)). assert (is_u32 l4) as H4 by apply u32_range. pose proof (Hrot l4 30 H4 ltac:(lia)) as R4.
  rewrite ROL32_rotl in R4 |- * by (done || lia). split_and!; [done|apply u32_range|cbn [snd]; auto].
Qed.

Lemma mic_words_spec ws s :
  Forall is_u32 ws -> is_u32 s.1 -> is_u32 s.2 -> mic_words s ws = fold_left michael_block ws s.
Proof.
  intros Hw. revert s. induction Hw as [|w ws Hw Hws IH]; intros [l r] Hl Hr; [done|]. cbn [mic_words fold_left fst snd] in *.
  destruct (mic_block_spec l r w) as (E & H1 & H2); [done..|]. unfold mic_words in IH. rewrite IH by done. by rewrite E.
Qed.

(** Four bytes at a time. *)
Lemma fours_ind (P : list Z -> Prop) :
  (forall l, (length l < 4)%nat -> P l) -> (forall a b c d l, P l -> P (a :: b :: c :: d :: l)) -> forall l, P l.
Proof.
  intros H0 H4 l. remember (length l) as n eqn:E. revert l E. induction n as [n IH] using lt_wf_ind. intros l ->.
  destruct l as [|a [|b [|c [|d l]]]]; try (apply H0; cbn; lia). apply H4. eapply IH; [|done]. cbn. lia.
Qed.

Lemma le_int_word_4 l : Forall is_u8 l -> length l = 4%nat -> word 32 (le_int l).
Proof. intros Hu Hl. pose proof (le_int_word l Hu) as H. by rewrite Hl in H. Qed.

Lemma le_words_u32 l : Forall is_u8 l -> Forall is_u32 (le_words l).
Proof.
  induction l as [l Hl|a b c d l IH] using fours_ind; intros Hu.
  - destruct l as [|a [|b [|c [|d l]]]]; cbn [length] in Hl; [constructor..|lia].
  - cbn [le_words]. constructor; [|apply IH; by do 4 apply Forall_cons_1 in Hu as [_ Hu]].
    apply word_u32. apply (le_int_word [a; b; c; d]). exact (Forall_take _ 4 _ Hu).
Qed.

Lemma put_bytes v : secmicputuint32 v = le_bytes 4 v.
Proof.
  unfold secmicputuint32. generalize 4%nat as n. intros n. revert v. induction n as [|n IH]; intros v; [done|].
  cbn [secmicputuint32_loop le_bytes]. rewrite IH, land_255. f_equal; [|by rewrite Z.shiftr_div_pow2 by lia]. ulia.
Qed.

Lemma acc_word a b c d :
  is_u8 a -> is_u8 b -> is_u8 c -> is_u8 d ->
  Z.lor (Z.lor (Z.lor (Z.lor 0 (u32 (Z.shiftl a 0))) (u32 (Z.shiftl b 8))) (u32 (Z.shiftl c 16))) (u32 (Z.shiftl d 24)) =
  le_int [a; b; c; d].
Proof.
  intros Ha Hb Hc Hd.
  assert (forall x n, is_u8 x -> 0 <= n <= 24 -> u32 (Z.shiftl x n) = Z.shiftl x n) as Hs.
  { intros x n Hx Hn. apply u32_small. change (word 32 (Z.shiftl x n)). apply (word_weaken (8 + n)); [|lia]. by apply word_shiftl; [lia|]. }
  rewrite !Hs by (done || lia). rewrite Z.lor_0_l, Z.shiftl_0_r.
  rewrite (lor_split 8), (lor_split 16), (lor_split 24) by
    first [lia | change (2 ^ 8) with 256; change (2 ^ 16) with 65536; unfold word, is_u8 in *; lia].
  unfold le_int. cbn [fold_right]. lia.
Qed.

(** A word appended to an empty buffer. *)
Lemma mic_append_word k0 k1 s a b c d l :
  is_u8 a -> is_u8 b -> is_u8 c -> is_u8 d ->
  rtw_secmicappend (Mic k0 k1 s.1 s.2 0 0) (a :: b :: c :: d :: l) =
  (let s := mic_block s.1 s.2 (le_int [a; b; c; d]) in rtw_secmicappend (Mic k0 k1 s.1 s.2 0 0) l).
Proof.
  intros Ha Hb Hc Hd. rewrite <- (acc_word a b c d) by done. unfold rtw_secmicappend. cbn [fold_left].
  f_equal.
Qed.

Lemma mic_append_words k0 k1 l :
  Forall is_u8 l -> forall s, (length l mod 4 = 0)%nat ->
  rtw_secmicappend (Mic k0 k1 s.1 s.2 0 0) l = (let s := mic_words s (le_words l) in Mic k0 k1 s.1 s.2 0 0).
Proof.
  induction l as [l Hl|a b c d l IH] using fours_ind; intros Hu s Hm.
  - rewrite Nat.mod_small in Hm by done. by destruct l.
  - inversion Hu as [|?? Ha Hu1]; inversion Hu1 as [|?? Hb Hu2]; inversion Hu2 as [|?? Hc Hu3];
      inversion Hu3 as [|?? Hd Hu4]; subst. rewrite mic_append_word by done. cbn zeta. rewrite IH; [done|done|].
    cbn [length] in Hm. by replace (S (S (S (S (length l))))) with (length l + 1 * 4)%nat in Hm by lia;
      rewrite Nat.Div0.mod_add in Hm.
Qed.

(** The loop of [rtw_secgetmic] fills the last word, in three turns at most. *)
Lemma mic_pad_fills fuel k0 k1 l :
  (3 <= fuel)%nat -> Forall is_u8 l -> forall s,
  mic_pad_loop fuel (rtw_secmicappend (Mic k0 k1 s.1 s.2 0 0) l) =
  Some (rtw_secmicappend (Mic k0 k1 s.1 s.2 0 0) (l ++ replicate ((4 - length l mod 4) mod 4) 0)).
Proof.
  intros Hf. induction l as [l Hl|a b c d l IH] using fours_ind; intros Hu s.
  - do 3 (destruct fuel as [|fuel]; [lia|]). clear Hu Hf.
    destruct l as [|a [|b [|c [|d l]]]]; cbn [length] in *; [destruct fuel; reflexivity..|lia].
  - inversion Hu as [|?? Ha Hu1]; inversion Hu1 as [|?? Hb Hu2]; inversion Hu2 as [|?? Hc Hu3];
      inversion Hu3 as [|?? Hd Hu4]; subst. cbn [app]. rewrite !mic_append_word by done. cbn zeta. rewrite IH by done.
    cbn [length]. replace (S (S (S (S (length l))))) with (length l + 1 * 4)%nat by lia. by rewrite Nat.Div0.mod_add.
Qed.

Lemma nth_drop_add (m : list Z) p i : nth (p + i) m 0 = nth i (drop p m) 0.
Proof. by rewrite !nth_lookup, lookup_drop. Qed.

Lemma get_word m p :
  Forall is_u8 m -> (p + 4 <= length m)%nat -> secmicgetuint32 m p = le_int (take 4 (drop p m)).
Proof.
  intros Hm Hp. rewrite <- (take_drop p m) in Hm at 1. apply Forall_app in Hm as [_ Hm].
  unfold secmicgetuint32. cbn [fold_left]. rewrite !nth_drop_add.
  assert (length (drop p m) = length m - p)%nat as Hd by apply length_drop.
  destruct (drop p m) as [|a [|b [|c [|d l]]]]; cbn [length] in Hd; try lia. cbn [nth take].
  inversion Hm as [|?? Ha Hu1]; inversion Hu1 as [|?? Hb Hu2]; inversion Hu2 as [|?? Hc Hu3];
    inversion Hu3 as [|?? Hd' Hu4]; subst. exact (acc_word a b c d Ha Hb Hc Hd').
Qed.

Lemma append_app d l l' : rtw_secmicappend (rtw_secmicappend d l) l' = rtw_secmicappend d (l ++ l').
Proof. symmetry. apply fold_left_app. Qed.

(** A message appended after the key is set, and its MIC. *)
Lemma mic_message fuel d key msg :
  (3 <= fuel)%nat -> Forall is_u8 key -> (8 <= length key)%nat -> Forall is_u8 msg ->
  fst <$> rtw_secgetmic fuel (rtw_secmicappend (rtw_secmicsetkey d key) msg) = Some (michael_spec key msg).
Proof.
  intros Hf Hk Hl Hm. unfold rtw_secgetmic, michael_spec. rewrite append_app.
  set (s := (le_int (take 4 key), le_int (take 4 (drop 4 key)))).
  assert (rtw_secmicsetkey d key = Mic s.1 s.2 s.1 s.2 0 0) as ->.
  { unfold rtw_secmicsetkey, secmicclear. cbn [mK0 mK1]. rewrite !get_word by (done || lia). by rewrite drop_0. }
  rewrite mic_pad_fills; [|done|apply Forall_app; split; [done|]; repeat constructor; done].
  rewrite <- app_assoc.
  assert ([0x5a; 0; 0; 0; 0] ++ replicate ((4 - length (msg ++ [0x5a; 0; 0; 0; 0]) mod 4) mod 4) 0 =
          mic_padding (length msg)) as ->.
  { unfold mic_padding. change [0x5a; 0; 0; 0; 0] with (0x5a :: replicate 4 0). cbn [app]. f_equal.
    rewrite <- replicate_add. f_equal. rewrite length_app. cbn [length]. rewrite length_replicate.
    pose proof (Nat.mod_upper_bound (length msg) 4).
    pose proof (Nat.div_mod_eq (length msg) 4). rewrite (Nat.div_mod_eq (length msg) 4) at 1.
    replace (4 * (length msg / 4) + length msg mod 4 + 5)%nat with (length msg mod 4 + 5 + (length msg / 4) * 4)%nat by lia.
    rewrite Nat.Div0.mod_add. generalize dependent (length msg mod 4)%nat. intros m Hm4 _.
    destruct m as [|[|[|[|m]]]]; try done. lia. }
  rewrite mic_append_words.
  - cbn zeta. cbn [mbind option_bind fmap option_fmap option_map mL mR fst]. rewrite !put_bytes, mic_words_spec; [done|..].
    + apply le_words_u32, Forall_app. split; [done|]. constructor; [done|]. by apply Forall_replicate.
    + apply word_u32. apply (le_int_word_4 (take 4 key)); [by apply Forall_take|]. rewrite length_take. lia.
    + apply word_u32. apply (le_int_word_4 (take 4 (drop 4 key))); [by apply Forall_take, Forall_drop|]. rewrite length_take, length_drop. lia.
  - apply Forall_app. split; [done|]. constructor; [done|]. apply Forall_replicate. done.
  - rewrite length_app. unfold mic_padding. cbn [length]. rewrite length_replicate.
    pose proof (Nat.mod_upper_bound (length msg) 4). pose proof (Nat.div_mod_eq (length msg) 4).
    apply Nat.Lcm0.mod_divide. exists (length msg / 4 + 2)%nat. lia.
Qed.

(** ** Key mixing *)

(** Rounds are compared as they stand. *)
#[local] Strategy 10 [phase1_round phase2_ppk _S_ TK16].

Lemma u16_add_inj a b x : is_u16 a -> is_u16 b -> u16 (a + x) = u16 (b + x) -> a = b.
Proof. ulia. Qed.

Lemma Mk16_val hi lo : is_u8 hi -> is_u8 lo -> Mk16 hi lo = hi * 256 + lo.
Proof.
  intros Hh Hl. unfold Mk16. rewrite Z.lxor_comm, lxor_split by (done || lia).
  rewrite u16_small by ulia. done.
Qed.

Lemma Mk16_u16 hi lo : is_u8 hi -> is_u8 lo -> is_u16 (Mk16 hi lo).
Proof. intros Hh Hl. rewrite Mk16_val by done. ulia. Qed.

Definition p1k_ok (p : p1k_t) : Prop :=
  is_u16 (p1k0 p) /\ is_u16 (p1k1 p) /\ is_u16 (p1k2 p) /\ is_u16 (p1k3 p) /\ is_u16 (p1k4 p).

Lemma phase1_round_ok tk p i : p1k_ok (phase1_round tk p i).
Proof. unfold p1k_ok, phase1_round. cbn [p1k0 p1k1 p1k2 p1k3 p1k4]. split_and!; apply u16_range. Qed.

(** Undo one addition whose other summand is the same. *)
Ltac undo_add E := apply u16_add_inj in E; [subst|done..].

Lemma phase1_round_inj tk p q i :
  p1k_ok p -> p1k_ok q -> phase1_round tk p i = phase1_round tk q i -> p = q.
Proof.
  destruct p as [a b c d e], q as [a' b' c' d' e']. intros (Ha & Hb & Hc & Hd & He) (Ha' & Hb' & Hc' & Hd' & He').
  cbn [p1k0 p1k1 p1k2 p1k3 p1k4] in *. unfold phase1_round. cbn [p1k0 p1k1 p1k2 p1k3 p1k4].
  intros E. injection E as E0 E1 E2 E3 E4. apply u16_add_inj in E4; [|apply u16_range..].
  rewrite E3 in E4. undo_add E4. rewrite E2 in E3. undo_add E3. rewrite E1 in E2. undo_add E2.
  rewrite E0 in E1. undo_add E1. undo_add E0. done.
Qed.

Lemma phase1_fold_inj tk l p q :
  p1k_ok p -> p1k_ok q -> fold_left (phase1_round tk) l p = fold_left (phase1_round tk) l q -> p = q.
Proof.
  revert p q. induction l as [|i l IH]; intros p q Hp Hq E; [done|]. cbn [fold_left] in E.
  apply IH in E; [|apply phase1_round_ok..]. by apply phase1_round_inj in E.
Qed.

Lemma phase1_ok tk ta iv32 : p1k_ok (phase1 tk ta iv32).
Proof.
  unfold phase1. change (seq 0 PHASE1_LOOP_CNT) with (seq 0 7 ++ [7%nat]). rewrite fold_left_app. cbn [fold_left].
  apply phase1_round_ok.
Qed.

Lemma Lo16_val v : Lo16 v = u16 v.
Proof. apply land_65535. Qed.

Lemma Hi16_val v : is_u32 v -> Hi16 v = v / 65536.
Proof. intros H. unfold Hi16. rewrite land_65535, Z.shiftr_div_pow2 by lia. change (2 ^ 16) with 65536. ulia. Qed.

(** The first phase loses nothing of the address and the high part of the
    packet number. *)
Lemma phase1_inj tk ta ta' iv iv' :
  Forall is_u8 ta -> Forall is_u8 ta' -> length ta = 6%nat -> length ta' = 6%nat -> is_u32 iv -> is_u32 iv' ->
  phase1 tk ta iv = phase1 tk ta' iv' -> ta = ta' /\ iv = iv'.
Proof.
  intros Ht Ht' Hl Hl' Hi Hi' E.
  destruct ta as [|a0 [|a1 [|a2 [|a3 [|a4 [|a5 [|]]]]]]]; try done.
  destruct ta' as [|b0 [|b1 [|b2 [|b3 [|b4 [|b5 [|]]]]]]]; try done.
  forall_split Ht. forall_split Ht'.
  apply phase1_fold_inj in E.
  - cbn [nth] in E. rewrite !Lo16_val, !Hi16_val, !Mk16_val in E by done. injection E as E0 E1 E2 E3 E4.
    unfold is_u8 in *. split; [repeat f_equal; lia|]. unfold u16, is_u32 in *. zlia.
  - unfold p1k_ok. cbn [p1k0 p1k1 p1k2 p1k3 p1k4 nth]. rewrite Lo16_val, Hi16_val by done.
    split_and!; try (apply Mk16_u16; done); ulia.
  - unfold p1k_ok. cbn [p1k0 p1k1 p1k2 p1k3 p1k4 nth]. rewrite Lo16_val, Hi16_val by done.
    split_and!; try (apply Mk16_u16; done); ulia.
Qed.

Lemma phase2_ppk_inj tk p q iv iv' :
  p1k_ok p -> p1k_ok q -> is_u16 iv -> is_u16 iv' -> phase2_ppk tk p iv = phase2_ppk tk q iv' -> p = q /\ iv = iv'.
Proof.
  destruct p as [a b c d e], q as [a' b' c' d' e']. intros (Ha & Hb & Hc & Hd & He) (Ha' & Hb' & Hc' & Hd' & He') Hi Hi'.
  cbn [p1k0 p1k1 p1k2 p1k3 p1k4] in *. unfold phase2_ppk. cbn [p1k0 p1k1 p1k2 p1k3 p1k4].
  intros E. injection E as E0 E1 E2 E3 E4 E5.
  rewrite E4 in E5. apply u16_add_inj in E5; [|apply u16_range..].
  rewrite E3 in E4. apply u16_add_inj in E4; [|apply u16_range..].
  rewrite E2 in E3. apply u16_add_inj in E3; [|apply u16_range..].
  rewrite E1 in E2. apply u16_add_inj in E2; [|apply u16_range..].
  rewrite E0 in E1. apply u16_add_inj in E1; [|apply u16_range..].
  rewrite E5 in E0. apply u16_add_inj in E0; [|apply u16_range..].
  rewrite E4 in E5. apply u16_add_inj in E5; [|apply u16_range..].
  rewrite E3 in E4. undo_add E4. rewrite E2 in E3. undo_add E3. rewrite E1 in E2. undo_add E2.
  rewrite E0 in E1. undo_add E1. rewrite E5 in E0. undo_add E0.
  rewrite !(Z.add_comm e') in E5. undo_add E5. done.
Qed.

Lemma Lo8_val v : Lo8 v = u8 v.
Proof. apply land_255. Qed.

Lemma Hi8_val v : is_u16 v -> Hi8 v = v / 256.
Proof. intros H. unfold Hi8. rewrite land_255, Z.shiftr_div_pow2 by lia. change (2 ^ 8) with 256. ulia. Qed.

Lemma halves_inj a b : is_u16 a -> is_u16 b -> Lo8 a = Lo8 b -> Hi8 a = Hi8 b -> a = b.
Proof. intros Ha Hb. rewrite !Lo8_val, !Hi8_val by done. ulia. Qed.

Lemma phase2_ppk_ok tk p iv : Forall is_u16 (phase2_ppk tk p iv).
Proof. unfold phase2_ppk. repeat constructor; apply u16_range. Qed.

Lemma halves_list_inj l l' :
  Forall is_u16 l -> Forall is_u16 l' ->
  flat_map (fun w => [Lo8 w; Hi8 w]) l = flat_map (fun w => [Lo8 w; Hi8 w]) l' -> l = l'.
Proof.
  intros Hl. revert l'. induction Hl as [|a l Ha Hl IH]; intros [|b l'] Hl' E; try done.
  inversion Hl'; subst. injection E as E1 E2 E3. f_equal; [by apply halves_inj|by apply IH].
Qed.

Lemma phase2_tail tk p iv16 : drop 4 (phase2 tk p iv16) = flat_map (fun w => [Lo8 w; Hi8 w]) (phase2_ppk tk p iv16).
Proof. unfold phase2. generalize (phase2_ppk tk p iv16) as l. intros l. done. Qed.

Lemma phase2_head tk p iv16 : take 3 (phase2 tk p iv16) = [Hi8 iv16; Z.land (Z.lor (Hi8 iv16) 0x20) 0x7F; Lo8 iv16].
Proof. unfold phase2. generalize (phase2_ppk tk p iv16) as l. intros l. done. Qed.

(** ** Theorems *)

(** C36. The CRC the driver computes with its table is the CRC-32 of a shift
    register with the generator 0x04c11db7, fed bit by bit, the least
    significant bit of each byte first; both functions of the source compute
    it. *)
Theorem crc32_shift_register buf :
  Forall is_u8 buf -> getcrc32 buf (zlen buf) = crc32_spec buf /\ rtw_calc_crc32 buf = crc32_spec buf.
Proof.
  intros H. unfold getcrc32, rtw_calc_crc32, crc32_spec. rewrite to_nat_zlen, firstn_all, crc_fold_bits by done. done.
Qed.

Lemma crc32_shift_register_witness :
  rtw_calc_crc32 [0x31; 0x32; 0x33; 0x34; 0x35; 0x36; 0x37; 0x38; 0x39] = 0xcbf43926 /\
  crc32_spec [0x31; 0x32; 0x33; 0x34; 0x35; 0x36; 0x37; 0x38; 0x39] = 0xcbf43926.
Proof.
  destruct (crc32_shift_register [0x31; 0x32; 0x33; 0x34; 0x35; 0x36; 0x37; 0x38; 0x39]) as [_ E];
    [by apply bytes_ok|].
  rewrite <- E. split; vm_compute; reflexivity.
Defined.

(** C13. TKIP never uses an RC4 key twice: under one temporal key, frames that
    differ in the transmitter address or in the packet number get different
    keys. *)
Theorem tkip_key_unique tk ta ta' iv32 iv32' iv16 iv16' :
  Forall is_u8 ta -> Forall is_u8 ta' -> length ta = 6%nat -> length ta' = 6%nat ->
  is_u32 iv32 -> is_u32 iv32' -> is_u16 iv16 -> is_u16 iv16' ->
  phase2 tk (phase1 tk ta iv32) iv16 = phase2 tk (phase1 tk ta' iv32') iv16' ->
  ta = ta' /\ iv32 = iv32' /\ iv16 = iv16'.
Proof.
  intros Ht Ht' Hl Hl' Hi Hi' Hj Hj' E. apply (f_equal (drop 4)) in E. rewrite !phase2_tail in E.
  apply halves_list_inj in E; [|apply phase2_ppk_ok..].
  apply phase2_ppk_inj in E as [E ->]; [|apply phase1_ok..|done|done]. by apply phase1_inj in E as [-> ->].
Qed.

Definition sample_tk : list Z := [0; 1; 2; 3; 4; 5; 6; 7; 8; 9; 10; 11; 12; 13; 14; 15].

Definition sample_ta : list Z := [0x10; 0x22; 0x33; 0x44; 0x55; 0x66].

Lemma tkip_key_unique_witness :
  phase2 sample_tk (phase1 sample_tk sample_ta 0) 0 =
    [0x00; 0x20; 0x00; 0x33; 0xEA; 0x8D; 0x2F; 0x60; 0xCA; 0x6D; 0x13; 0x74; 0x23; 0x4A; 0x66; 0x0B] /\
  sample_ta = sample_ta /\ 0 = 0 /\ 0 = 0.
Proof.
  split; [vm_compute; reflexivity|].
  apply (tkip_key_unique sample_tk sample_ta sample_ta 0 0 0 0); first [done|by apply bytes_ok].
Defined.



(** The packet number of a frame, as the integer the cipher uses. *)
Definition pn_val (pn : list Z) : Z := le_int pn.

(** A packet number and a key id survive the trip through the IV, for every
    cipher that has one; for TKIP the two parts the key mixing takes are the
    parts of the packet number whatever the two unset bytes of the union hold,
    and the first three bytes of the IV are those of the RC4 key. *)
Theorem pn_iv_roundtrip pn key_id enc_algo t6 t7 tk p :
  Forall is_u8 pn -> length pn = 6%nat -> 0 <= key_id < 4 -> is_u8 t6 -> is_u8 t7 ->
  (enc_algo =? _TKIP_) || ccmp_like enc_algo = true ->
  exists iv, rtw_pn_to_iv pn key_id enc_algo = Some iv /\ length iv = 8%nat /\ Forall is_u8 iv /\
    rtw_iv_to_pn iv enc_algo = Some (pn, key_id) /\
    (enc_algo = _TKIP_ ->
     u16 (GET_TKIP_PN iv t6 t7) = pn_val pn mod 65536 /\ u32 (GET_TKIP_PN iv t6 t7 / 65536) = pn_val pn / 65536 /\
     take 3 (phase2 tk p (u16 (GET_TKIP_PN iv t6 t7))) = take 3 iv).
Proof.
  intros Hp Hl Hk H6 H7 He. destruct pn as [|p0 [|p1 [|p2 [|p3 [|p4 [|p5 [|]]]]]]]; try done.
  forall_split Hp.
  assert (exists v, u8 (Z.lor (BIT 5) (Z.shiftl (Z.land key_id 0x3) 6)) = v /\ is_u8 v /\ Z.shiftr v 6 = key_id) as (v & Ev & Hv & Es).
  { assert (key_id = 0 \/ key_id = 1 \/ key_id = 2 \/ key_id = 3) as [->|[->|[->| ->]]] by lia;
      eexists; (split; [reflexivity|]); (split; [apply u8_range|reflexivity]). }
  assert (is_u8 (Z.land (Z.lor p1 0x20) 0x7F)) as Hq by (apply (word_land 8); done).
  unfold rtw_pn_to_iv, rtw_iv_to_pn. rewrite Ev. cbn [nth]. destruct (Z.eqb_spec enc_algo _TKIP_) as [->|Hn].
  - eexists. split; [reflexivity|]. split; [done|]. split; [by forall_bytes|]. cbn [app nth]. rewrite Es. split; [done|].
    intros _. unfold GET_TKIP_PN, pn_val, le_int. rewrite phase2_head. cbn [fold_right nth take app].
    assert (u16 (p0 + 256 * (p1 + 256 * (p2 + 256 * (p3 + 256 * (p4 + 256 * (p5 + 256 * (t6 + 256 * (t7 + 256 * 0)))))))) = p0 + 256 * p1)
      as -> by ulia.
    split_and!; [ulia|ulia|]. rewrite Hi8_val, Lo8_val by ulia.
    replace ((p0 + 256 * p1) / 256) with p1 by ulia. by replace (u8 (p0 + 256 * p1)) with p0 by ulia.
  - cbn [orb] in He. rewrite He. eexists. split; [reflexivity|]. split; [done|]. split; [by forall_bytes|].
    cbn [app nth]. rewrite Es. split; [done|]. congruence.
Qed.

Lemma pn_iv_roundtrip_witness :
  exists iv, rtw_pn_to_iv [1; 2; 3; 4; 5; 6] 2 _TKIP_ = Some iv /\ length iv = 8%nat /\ Forall is_u8 iv /\
    rtw_iv_to_pn iv _TKIP_ = Some ([1; 2; 3; 4; 5; 6], 2) /\
    (_TKIP_ = _TKIP_ ->
     u16 (GET_TKIP_PN iv 0xaa 0xbb) = 513 /\ u32 (GET_TKIP_PN iv 0xaa 0xbb / 65536) = 0x06050403 /\
     take 3 (phase2 sample_tk (phase1 sample_tk sample_ta 0x06050403) (u16 (GET_TKIP_PN iv 0xaa 0xbb))) = take 3 iv).
Proof.
  apply (pn_iv_roundtrip [1; 2; 3; 4; 5; 6] 2 _TKIP_ 0xaa 0xbb sample_tk (phase1 sample_tk sample_ta 0x06050403));
    first [by apply bytes_ok | done].
Defined.
