(* ===== verification/SecFrame.v ===== *)
(** * WEP and TKIP frames

    The functions of src/core/rtw_security.c that encrypt the fragments of a
    frame in place and decrypt a received frame.  A buffer is an object of
    ByteBuf: an access outside it is a [Fault]. *)
From Stdlib Require Import ZArith Lia Bool List Permutation Btauto.
From stdpp Require Import base tactics list numbers sets.
From S2P Require Import Prelude ByteBuf WordBits SecCrypto.

Definition _SUCCESS : Z := 1.

Definition _FAIL : Z := 0.

(** ** Data *)

(** The keys of [struct security_priv]: four WEP keys in arrays of six. *)
Record security_priv := SecPriv {
  dot11PrivacyKeyIndex : Z;
  dot11DefKey : list (list Z);
  dot11DefKeylen : list Z }.

(** The group keys of [struct link_security_priv]. *)
Record link_security_priv := LinkSec {
  dot118021XGrpKeyid : Z;
  dot118021XGrpKey : list (list Z);
  binstallGrpkey : bool }.

(** The fields of [struct pkt_attrib] that are used. *)
Record pkt_attrib := PktAttrib {
  pa_ra : list Z;
  pa_ta : list Z;
  pa_nr_frags : nat;
  pa_hdrlen : Z;
  pa_encrypt : Z;
  pa_iv_len : Z;
  pa_icv_len : Z;
  pa_UncstKey : list Z;
  pa_last_txcmdsz : Z }.

(** [struct rtw_pkt_buf_list]: the bytes from [vir_addr] to the end of the
    object, and the length of the fragment. *)
Record rtw_pkt_buf := PktBuf { vir_mem : list Z; pkt_length : Z }.

Record xmit_frame := XmitFrame {
  xf_attrib : pkt_attrib;
  phl_txreq : list rtw_pkt_buf;
  xf_buf_addr : list Z }.

(** The fields of [struct rx_pkt_attrib]. *)
Record rx_pkt_attrib := RxAttrib {
  ra_encrypt : Z;
  ra_hdrlen : Z;
  ra_iv_len : Z;
  ra_key_index : Z;
  ra_ra : list Z;
  ra_ta : list Z }.

(** [union recv_frame]; of the station only the unicast key matters here. *)
Record recv_frame := RecvFrame {
  rf_attrib : rx_pkt_attrib;
  rf_len : Z;
  rx_data : list Z;
  rf_psta : option (list Z) }.

Definition IS_MCAST (da : list Z) : bool := negb (Z.land (nth 0 da 0) 0x01 =? 0).

(** An entry of an array; [Fault] behind its end. *)
Definition entry {A} (l : list A) (i : Z) : outcome A :=
  if 0 <=? i then match l !! Z.to_nat i with Some x => Ret x | None => Fault end else Fault.

(** ** Encryption *)

(** Integrity check value and RC4, common to WEP and TKIP: [length] bytes at
    [payload] and the four behind them. *)
Definition icv_encrypt (mycontext : arc4context) (m : list Z) (payload length : Z) : outcome (list Z) :=
  data ← rds m payload length;
  let crc := le_bytes 4 (getcrc32 data length) in
  let '(d, mycontext) := arcfour_encrypt mycontext data in
  m ← wrs m payload d;
  wrs m (payload + length) (arcfour_encrypt mycontext crc).1.

(** The seed: three bytes of the IV and the key, in an array of sixteen. *)
Definition wep_seed (m : list Z) (iv : Z) (key : list Z) (keylength : Z) : outcome (list Z) :=
  i ← rds m iv 3;
  wepkey ← wrs (replicate 16 0) 0 i;
  k ← rds key 0 keylength;
  wrs wepkey 3 k.

(** A turn of the loop of [rtw_wep_encrypt], on the frame at the start of
    [pframe]. *)
Definition wep_encrypt_frag (a : pkt_attrib) (key : list Z) (keylength : Z) (pframe : list Z) (flen : Z) : outcome (list Z) :=
  let length := flen - pa_hdrlen a - pa_iv_len a - pa_icv_len a in
  wepkey ← wep_seed pframe (pa_hdrlen a) key keylength;
  icv_encrypt (arcfour_init wepkey (3 + keylength)) pframe (pa_iv_len a + pa_hdrlen a) length.

(** The loop over the fragments [l], which ends after [nr_frags]; a missing
    fragment is behind the end of [phl_txreq]. *)
Fixpoint frag_loop (enc : rtw_pkt_buf -> outcome rtw_pkt_buf) (nr_frags : nat) (l : list rtw_pkt_buf) :
    outcome (list rtw_pkt_buf) :=
  match nr_frags with
  | O => Ret l
  | S n =>
    match l with
    | [] => Fault
    | f :: l => f ← enc f; l ← frag_loop enc n l; Ret (f :: l)
    end
  end.

(** [enc] on the bytes of a fragment. *)
Definition on_frag (enc : list Z -> Z -> outcome (list Z)) (f : rtw_pkt_buf) : outcome rtw_pkt_buf :=
  m ← enc (vir_mem f) (pkt_length f); Ret (PktBuf m (pkt_length f)).

(** The special case of WEP authentication: the one fragment is in [buf_addr]. *)
Fixpoint auth_loop (enc : list Z -> Z -> outcome (list Z)) (nr_frags : nat) (last_txcmdsz : Z) (m : list Z) : outcome (list Z) :=
  match nr_frags with
  | O => Ret m
  | S n => m ← enc m last_txcmdsz; auth_loop enc n last_txcmdsz m
  end.

(** [auth] is WIFI_FW_AUTH_STATE of the MLME state. *)
Definition rtw_wep_encrypt (sec : security_priv) (auth : bool) (xf : xmit_frame) : outcome xmit_frame :=
  let a := xf_attrib xf in
  if negb (pa_encrypt a =? _WEP40_) && negb (pa_encrypt a =? _WEP104_) then Ret xf
  else
    keylength ← entry (dot11DefKeylen sec) (dot11PrivacyKeyIndex sec);
    key ← entry (dot11DefKey sec) (dot11PrivacyKeyIndex sec);
    if auth then
      m ← auth_loop (wep_encrypt_frag a key keylength) (pa_nr_frags a) (pa_last_txcmdsz a) (xf_buf_addr xf);
      Ret (XmitFrame a (phl_txreq xf) m)
    else
      l ← frag_loop (on_frag (wep_encrypt_frag a key keylength)) (pa_nr_frags a) (phl_txreq xf);
      Ret (XmitFrame a l (xf_buf_addr xf)).

(** The RC4 key of a frame: GET_TKIP_PN on the IV at [iv], then the two phases
    of the key mixing. *)
Definition tkip_rc4key (t6 t7 : Z) (prwskey ta : list Z) (m : list Z) (iv : Z) : outcome (list Z) :=
  b ← rds m iv 8;
  let dot11txpn := GET_TKIP_PN b t6 t7 in
  let pnl := u16 dot11txpn in
  let pnh := u32 (Z.shiftr dot11txpn 16) in
  Ret (phase2 prwskey (phase1 prwskey ta pnh) pnl).

Definition tkip_encrypt_frag (t6 t7 : Z) (a : pkt_attrib) (prwskey : list Z) (pframe : list Z) (flen : Z) : outcome (list Z) :=
  let length := flen - pa_hdrlen a - pa_iv_len a - pa_icv_len a in
  rc4key ← tkip_rc4key t6 t7 prwskey (pa_ta a) pframe (pa_hdrlen a);
  icv_encrypt (arcfour_init rc4key 16) pframe (pa_iv_len a + pa_hdrlen a) length.

(** [t6] and [t7] are what the union on the stack holds. *)
Definition rtw_tkip_encrypt (t6 t7 : Z) (lsec : link_security_priv) (xf : xmit_frame) : outcome (Z * xmit_frame) :=
  let a := xf_attrib xf in
  if negb (pa_encrypt a =? _TKIP_) then Ret (_SUCCESS, xf)
  else
    prwskey ← (if IS_MCAST (pa_ra a) then entry (dot118021XGrpKey lsec) (dot118021XGrpKeyid lsec)
               else Ret (pa_UncstKey a));
    l ← frag_loop (on_frag (tkip_encrypt_frag t6 t7 a prwskey)) (pa_nr_frags a) (phl_txreq xf);
    Ret (_SUCCESS, XmitFrame a l (xf_buf_addr xf)).

(** ** Decryption *)

(** [arcfour_encrypt] in place. *)
Definition arc_inplace (c : arc4context) (m : list Z) (p n : Z) : outcome (list Z) :=
  d ← rds m p n; wrs m p (arcfour_encrypt c d).1.

Definition set_rx_data (f : recv_frame) (m : list Z) : recv_frame := RecvFrame (rf_attrib f) (rf_len f) m (rf_psta f).

(** The check value is computed and then not looked at. *)
Definition rtw_wep_decrypt (sec : security_priv) (f : recv_frame) : outcome recv_frame :=
  let a := rf_attrib f in
  if (ra_encrypt a =? _WEP40_) || (ra_encrypt a =? _WEP104_) then
    keylength ← entry (dot11DefKeylen sec) (ra_key_index a);
    key ← entry (dot11DefKey sec) (ra_key_index a);
    wepkey ← wep_seed (rx_data f) (ra_hdrlen a) key keylength;
    let length := rf_len f - ra_hdrlen a - ra_iv_len a in
    m ← arc_inplace (arcfour_init wepkey (3 + keylength)) (rx_data f) (ra_iv_len a + ra_hdrlen a) length;
    Ret (set_rx_data f m)
  else Ret f.

(** What is done with the key: [length] bytes at [payload], the last four of
    them the check value. *)
Definition tkip_decrypt_with (t6 t7 : Z) (prwskey : list Z) (f : recv_frame) : outcome (Z * recv_frame) :=
  let a := rf_attrib f in
  let payload := ra_iv_len a + ra_hdrlen a in
  let length := rf_len f - ra_hdrlen a - ra_iv_len a in
  rc4key ← tkip_rc4key t6 t7 prwskey (ra_ta a) (rx_data f) (ra_hdrlen a);
  m ← arc_inplace (arcfour_init rc4key 16) (rx_data f) payload length;
  data ← rds m payload length;
  icv ← rds m (payload + length - 4) 4;
  let crc := le_bytes 4 (getcrc32 data (length - 4)) in
  Ret (if bool_decide (icv = crc) then _SUCCESS else _FAIL, set_rx_data f m).

Definition rtw_tkip_decrypt (t6 t7 : Z) (lsec : link_security_priv) (f : recv_frame) : outcome (Z * recv_frame) :=
  let a := rf_attrib f in
  if negb (ra_encrypt a =? _TKIP_) then Ret (_SUCCESS, f)
  else
    match rf_psta f with
    | None => Ret (_FAIL, f)
    | Some UncstKey =>
      if IS_MCAST (ra_ra a) then
        if negb (binstallGrpkey lsec) then Ret (_FAIL, f)
        else prwskey ← entry (dot118021XGrpKey lsec) (ra_key_index a); tkip_decrypt_with t6 t7 prwskey f
      else tkip_decrypt_with t6 t7 UncstKey f
    end.

(** ** Buffers *)

Lemma rds_app_l a b p n : 0 <= p -> 0 <= n -> p + n <= zlen a -> rds (a ++ b) p n = rds a p n.
Proof.
  intros Hp Hn H. unfold zlen in H. rewrite !rds_spec by (zl; unfold zlen in *; lia). f_equal.
  rewrite drop_app_le by lia. rewrite take_app_le; [done|]. rewrite length_drop. lia.
Qed.

Lemma le_bytes_length n v : length (le_bytes n v) = n.
Proof. revert v. induction n as [|n IH]; intros v; cbn; [done|]. by rewrite IH. Qed.

Lemma le_bytes_u8 n v : Forall is_u8 (le_bytes n v).
Proof. revert v. induction n as [|n IH]; intros v; constructor; [ulia|apply IH]. Qed.

Lemma le_int_bytes n v : word (8 * Z.of_nat n) v -> le_int (le_bytes n v) = v.
Proof.
  revert v. induction n as [|n IH]; intros v Hv; [unfold word in Hv; cbn in *; lia|].
  cbn [le_bytes]. unfold le_int. cbn [fold_right]. fold (le_int (le_bytes n (v / 256))). rewrite IH; [zlia|].
  replace (8 * Z.of_nat (S n)) with (8 * Z.of_nat n + 8) in Hv by lia. apply (word_shiftr _ 8) in Hv; [|lia..].
  by rewrite Z.shiftr_div_pow2 in Hv by lia.
Qed.

Lemma le_bytes_of l v : Forall is_u8 l -> word (8 * Z.of_nat (length l)) v -> l = le_bytes (length l) v <-> le_int l = v.
Proof.
  intros Hl Hv. split.
  - intros ->. by apply le_int_bytes.
  - intros <-. apply le_int_inj; [done|apply le_bytes_u8|by rewrite le_bytes_length|by rewrite le_int_bytes].
Qed.

Lemma getcrc32_word buf n : Forall is_u8 buf -> word 32 (getcrc32 buf n).
Proof.
  intros H. unfold getcrc32. apply not32_word. rewrite crc_fold_feed by by apply Forall_take.
  apply feed_word; [by apply Forall_take|done].
Qed.

(** The bytes of a message and its check value. *)
Definition with_icv (p : list Z) : list Z := p ++ le_bytes 4 (getcrc32 p (zlen p)).

Lemma with_icv_u8 p : Forall is_u8 p -> Forall is_u8 (with_icv p).
Proof. intros H. apply Forall_app_2; [done|apply le_bytes_u8]. Qed.

Lemma with_icv_zlen p : zlen (with_icv p) = zlen p + 4.
Proof. unfold with_icv. rewrite zlen_app. unfold zlen. by rewrite le_bytes_length. Qed.

Lemma with_icv_residue p : Forall is_u8 p -> fold_left feed (with_icv p) 0xffffffff = CRC32_RESIDUE.
Proof.
  intros H. apply crc_residue; [done|apply le_bytes_u8|by rewrite le_bytes_length|].
  apply le_int_bytes. by apply getcrc32_word.
Qed.

Lemma icv_encrypt_spec c pre p icv post :
  zlen icv = 4 ->
  icv_encrypt c (pre ++ p ++ icv ++ post) (zlen pre) (zlen p) = Ret (pre ++ (arcfour_encrypt c (with_icv p)).1 ++ post).
Proof.
  intros Hi. unfold icv_encrypt. rewrite rds_at by done. rewrite bind_Ret.
  unfold with_icv. rewrite arc_app. cbn [fst].
  pose proof (arc_length c p) as L1. destruct (arcfour_encrypt c p) as [d c'] eqn:E. cbn [fst snd] in *.
  rewrite wrs_at by done. rewrite bind_Ret. rewrite <- (app_assoc d), (app_assoc pre d). rewrite (app_assoc pre d).
  rewrite wrs_at.
  - by rewrite <- !app_assoc.
  - rewrite zlen_app. unfold zlen. by rewrite L1.
  - rewrite arc_length, le_bytes_length. unfold zlen in Hi. lia.
Qed.

Lemma arc_inplace_spec c pre d post :
  arc_inplace c (pre ++ d ++ post) (zlen pre) (zlen d) = Ret (pre ++ (arcfour_encrypt c d).1 ++ post).
Proof. unfold arc_inplace. rewrite rds_at by done. rewrite bind_Ret. apply wrs_at; [done|]. by rewrite arc_length. Qed.

(** ** Keys *)

(** The seed depends on the header and the IV only. *)
Lemma wep_seed_prefix m m' iv key kl : 0 <= iv -> iv + 3 <= zlen m -> wep_seed (m ++ m') iv key kl = wep_seed m iv key kl.
Proof. intros H1 H2. unfold wep_seed. by rewrite rds_app_l by lia. Qed.

Lemma wep_seed_ret m iv key kl :
  0 <= iv -> iv + 3 <= zlen m -> 0 <= kl <= 13 -> kl <= zlen key -> exists k, wep_seed m iv key kl = Ret k.
Proof.
  intros H1 H2 H3 H4. unfold wep_seed. rewrite (rds_spec m) by lia. rewrite bind_Ret.
  set (i := take _ _). assert (zlen i = 3) as Hi.
  { unfold i, zlen in *. rewrite length_take, length_drop. lia. }
  destruct (wrs (replicate 16 0) 0 i) as [w| |] eqn:E; [|unfold wrs in E; by rewrite Hi in E..].
  rewrite bind_Ret. rewrite (rds_spec key) by lia. rewrite bind_Ret.
  apply wrs_length in E. unfold wrs. rewrite E. unfold zlen. rewrite length_take, length_replicate.
  replace (_ && _) with true; [by eexists|]. symmetry. apply andb_true_iff. split; apply Z.leb_le; lia.
Qed.

Lemma pn_junk b t6 t7 t6' t7' :
  Forall is_u8 b -> is_u8 t6 -> is_u8 t7 -> is_u8 t6' -> is_u8 t7' ->
  u16 (GET_TKIP_PN b t6 t7) = u16 (GET_TKIP_PN b t6' t7') /\
  u32 (Z.shiftr (GET_TKIP_PN b t6 t7) 16) = u32 (Z.shiftr (GET_TKIP_PN b t6' t7') 16).
Proof.
  intros Hb. unfold GET_TKIP_PN. cbn [fold_right].
  assert (forall i, is_u8 (nth i b 0)) as Hn.
  { intros i. rewrite nth_lookup. destruct (b !! i) eqn:E; [|done]. cbn. by eapply (Forall_lookup_1 is_u8). }
  pose proof (Hn 0%nat); pose proof (Hn 2%nat); pose proof (Hn 4%nat); pose proof (Hn 5%nat); pose proof (Hn 6%nat);
    pose proof (Hn 7%nat). generalize dependent (nth 0 b 0); generalize dependent (nth 2 b 0);
    generalize dependent (nth 4 b 0); generalize dependent (nth 5 b 0); generalize dependent (nth 6 b 0);
    generalize dependent (nth 7 b 0). intros. rewrite !Z.shiftr_div_pow2 by lia. change (2 ^ 16) with 65536.
  split; ulia.
Qed.

Lemma tkip_rc4key_ret t6 t7 t6' t7' key ta m m' m'' iv :
  Forall is_u8 m -> 0 <= iv -> iv + 8 <= zlen m -> is_u8 t6 -> is_u8 t7 -> is_u8 t6' -> is_u8 t7' ->
  exists k, tkip_rc4key t6 t7 key ta (m ++ m') iv = Ret k /\ tkip_rc4key t6' t7' key ta (m ++ m'') iv = Ret k.
Proof.
  intros Hm H1 H2 H6 H7 H6' H7'. unfold tkip_rc4key. rewrite !rds_app_l, rds_spec by lia. rewrite !bind_Ret.
  set (b := take _ _). assert (Forall is_u8 b) as Hb by by apply Forall_take, Forall_drop.
  destruct (pn_junk b t6 t7 t6' t7') as [-> ->]; try done. by eexists.
Qed.

(** ** Fragments *)

(** A fragment: header, IV, payload, room for the check value, the rest of the
    object. *)
Record parts := Parts { p_hdr : list Z; p_iv : list Z; p_pay : list Z; p_icv : list Z; p_rest : list Z }.

Definition parts_ok (hdrlen iv_len : Z) (p : parts) : Prop :=
  zlen (p_hdr p) = hdrlen /\ zlen (p_iv p) = iv_len /\ zlen (p_icv p) = 4 /\
  Forall is_u8 (p_hdr p) /\ Forall is_u8 (p_iv p) /\ Forall is_u8 (p_pay p).

Definition to_send (p : parts) : rtw_pkt_buf :=
  PktBuf (p_hdr p ++ p_iv p ++ p_pay p ++ p_icv p ++ p_rest p)
         (zlen (p_hdr p) + zlen (p_iv p) + zlen (p_pay p) + zlen (p_icv p)).

(** The fragment with its check value, as the receiver gets it out. *)
Definition received (p : parts) : list Z := p_hdr p ++ p_iv p ++ with_icv (p_pay p) ++ p_rest p.

(** The fragment on the air, under the RC4 context [c]. *)
Definition sent (c : arc4context) (p : parts) : list Z :=
  p_hdr p ++ p_iv p ++ (arcfour_encrypt c (with_icv (p_pay p))).1 ++ p_rest p.

Lemma frag_loop_map enc (Q : parts -> rtw_pkt_buf -> Prop) ps :
  (forall p, p ∈ ps -> exists f, enc (to_send p) = Ret f /\ Q p f) ->
  exists l, frag_loop enc (length ps) (map to_send ps) = Ret l /\ Forall2 Q ps l.
Proof.
  induction ps as [|p ps IH]; intros H; cbn [frag_loop length map]; [by eexists|].
  destruct (H p) as (f & -> & Hf); [set_solver|]. rewrite bind_Ret.
  destruct IH as (l & -> & Hl); [intros q Hq; apply H; set_solver|]. rewrite bind_Ret. by eexists; split; [|constructor].
Qed.

Lemma icv_on_parts c p hdrlen iv_len :
  parts_ok hdrlen iv_len p ->
  icv_encrypt c (vir_mem (to_send p)) (iv_len + hdrlen) (pkt_length (to_send p) - hdrlen - iv_len - 4) = Ret (sent c p).
Proof.
  intros (H1 & H2 & H3 & _). unfold to_send, sent. cbn [vir_mem pkt_length]. rewrite (app_assoc (p_hdr p)).
  replace (iv_len + hdrlen) with (zlen (p_hdr p ++ p_iv p)) by (rewrite zlen_app; lia).
  replace (_ - hdrlen - iv_len - 4) with (zlen (p_pay p)) by lia.
  rewrite icv_encrypt_spec by done. by rewrite <- !app_assoc.
Qed.

(** The cipher text [d] of a frame decrypted in place. *)
Lemma decrypt_at c h iv d r :
  arc_inplace c (h ++ iv ++ d ++ r) (zlen iv + zlen h) (zlen d) = Ret (h ++ iv ++ (arcfour_encrypt c d).1 ++ r).
Proof.
  rewrite (app_assoc h). replace (zlen iv + zlen h) with (zlen (h ++ iv)) by (rewrite zlen_app; lia).
  rewrite arc_inplace_spec. by rewrite <- !app_assoc.
Qed.

Lemma sent_length c p : zlen (arcfour_encrypt c (with_icv (p_pay p))).1 = zlen (p_pay p) + 4.
Proof. unfold zlen at 1. rewrite arc_length. apply with_icv_zlen. Qed.

(** ** What a receiver makes of a frame *)

(** [tkip_decrypt_with] accepts exactly the frames whose plain text ends the
    shift register at the residue. *)
Lemma tkip_decrypt_verdict t6 t7 key a sta h iv d r k :
  tkip_rc4key t6 t7 key (ra_ta a) (h ++ iv ++ d ++ r) (ra_hdrlen a) = Ret k ->
  zlen h = ra_hdrlen a -> zlen iv = ra_iv_len a -> Forall is_u8 d -> 4 <= zlen d ->
  tkip_decrypt_with t6 t7 key (RecvFrame a (zlen h + zlen iv + zlen d) (h ++ iv ++ d ++ r) sta) =
  (let plain := (arcfour_encrypt (arcfour_init k 16) d).1 in
   Ret (if bool_decide (fold_left feed plain 0xffffffff = CRC32_RESIDUE) then _SUCCESS else _FAIL,
        RecvFrame a (zlen h + zlen iv + zlen d) (h ++ iv ++ plain ++ r) sta)).
Proof.
  intros Hk Hh Hv Hd H4. unfold tkip_decrypt_with. cbn [rf_attrib rf_len rx_data]. rewrite Hk, bind_Ret.
  replace (zlen h + zlen iv + zlen d - ra_hdrlen a - ra_iv_len a) with (zlen d) by lia. rewrite <- Hh, <- Hv.
  rewrite decrypt_at, bind_Ret. set (plain := (arcfour_encrypt _ d).1).
  assert (zlen plain = zlen d) as Hl by (unfold zlen, plain; by rewrite arc_length).
  assert (Forall is_u8 plain) as Hp by by apply arc_u8. cbn zeta.
  assert (exists msg icv, plain = msg ++ icv /\ length icv = 4%nat) as (msg & icv & E & Hi).
  { exists (take (length plain - 4) plain), (drop (length plain - 4) plain). split; [by rewrite take_drop|].
    rewrite length_drop. unfold zlen in *. lia. }
  clearbody plain. subst plain.
  assert (zlen icv = 4) as Hi' by (unfold zlen; lia). rewrite zlen_app in Hl. assert (zlen msg = zlen d - 4) as Hm by lia.
  apply Forall_app in Hp as [Hp1 Hp2].
  assert (rds (h ++ iv ++ (msg ++ icv) ++ r) (zlen iv + zlen h) (zlen d) = Ret (msg ++ icv)) as ->.
  { rewrite (app_assoc h). apply rds_at; rewrite ?zlen_app; lia. }
  assert (rds (h ++ iv ++ (msg ++ icv) ++ r) (zlen iv + zlen h + zlen d - 4) 4 = Ret icv) as ->.
  { rewrite <- (app_assoc msg), (app_assoc iv), (app_assoc h). apply rds_at; rewrite ?zlen_app; lia. }
  rewrite !bind_Ret. f_equal. f_equal.
  assert (getcrc32 (msg ++ icv) (zlen d - 4) = getcrc32 msg (zlen msg)) as ->.
  { unfold getcrc32. rewrite <- Hm, to_nat_zlen, take_app_length. by rewrite firstn_all. }
  assert (icv = le_bytes 4 (getcrc32 msg (zlen msg)) <-> fold_left feed (msg ++ icv) 0xffffffff = CRC32_RESIDUE) as Hiff.
  { rewrite crc_residue by done. rewrite <- Hi at 1. apply le_bytes_of; [done|]. rewrite Hi. by apply getcrc32_word. }
  by rewrite (bool_decide_ext _ _ Hiff).
Qed.

(** ** Round trips *)

(** The ciphers are not evaluated in proofs. *)
#[local] Opaque arcfour_init arcfour_encrypt phase1 phase2.

Lemma frag_inj m m' n n' : Ret (PktBuf m n) = Ret (PktBuf m' n') -> m = m'.
Proof. by intros [= -> _]. Qed.

Lemma wep_frag a p key kl k :
  parts_ok (pa_hdrlen a) (pa_iv_len a) p -> pa_icv_len a = 4 -> 3 <= pa_iv_len a ->
  wep_seed (p_hdr p ++ p_iv p) (pa_hdrlen a) key kl = Ret k ->
  on_frag (wep_encrypt_frag a key kl) (to_send p) =
  Ret (PktBuf (sent (arcfour_init k (3 + kl)) p) (pkt_length (to_send p))).
Proof.
  intros Hp Hi Hv Hk. pose proof Hp as (H1 & H2 & _). unfold on_frag, wep_encrypt_frag.
  assert (wep_seed (vir_mem (to_send p)) (pa_hdrlen a) key kl = Ret k) as ->.
  { unfold to_send. cbn [vir_mem]. rewrite (app_assoc (p_hdr p)). rewrite wep_seed_prefix; [done|zl..]. }
  rewrite bind_Ret, Hi. by rewrite icv_on_parts.
Qed.

(** WEP: whatever the number of fragments, encryption stays inside the
    buffers, and every fragment decrypts, with the key of the same index, to
    its header, IV and payload followed by the CRC of the payload. *)
Theorem wep_roundtrip sec a ps buf sta key kl :
  (pa_encrypt a =? _WEP40_) || (pa_encrypt a =? _WEP104_) = true ->
  pa_nr_frags a = length ps -> pa_icv_len a = 4 -> 3 <= pa_iv_len a ->
  Forall (parts_ok (pa_hdrlen a) (pa_iv_len a)) ps ->
  entry (dot11DefKey sec) (dot11PrivacyKeyIndex sec) = Ret key ->
  entry (dot11DefKeylen sec) (dot11PrivacyKeyIndex sec) = Ret kl -> 0 <= kl <= 13 -> kl <= zlen key ->
  exists l, rtw_wep_encrypt sec false (XmitFrame a (map to_send ps) buf) = Ret (XmitFrame a l buf) /\
    Forall2 (fun p f =>
      let rx m := RecvFrame (RxAttrib (pa_encrypt a) (pa_hdrlen a) (pa_iv_len a) (dot11PrivacyKeyIndex sec) (pa_ra a) (pa_ta a))
                            (pkt_length f) m sta in
      length (vir_mem f) = length (vir_mem (to_send p)) /\
      rtw_wep_decrypt sec (rx (vir_mem f)) = Ret (rx (received p))) ps l.
Proof.
  intros He Hn Hi Hv Hps Hk Hkl Hr Hz.
  match goal with |- exists l, _ /\ Forall2 ?Q _ _ =>
    destruct (frag_loop_map (on_frag (wep_encrypt_frag a key kl)) Q ps) as (l & E & Hl) end.
  - intros p Hp%(proj1 (Forall_forall _ _) Hps). pose proof Hp as (H1 & H2 & H3 & _).
    assert (0 <= pa_hdrlen a /\ pa_hdrlen a + 3 <= zlen (p_hdr p ++ p_iv p)) as [Ha Hb] by (rewrite zlen_app; zl).
    destruct (wep_seed_ret (p_hdr p ++ p_iv p) (pa_hdrlen a) key kl) as [k Ek]; try done.
    eexists. split; [by apply wep_frag|]. cbn zeta. cbn [vir_mem pkt_length]. set (c := arcfour_init k (3 + kl)).
    pose proof (sent_length c p) as Hs. split.
    { unfold sent, to_send. cbn [vir_mem]. rewrite !length_app. unfold zlen in *. lia. }
    unfold rtw_wep_decrypt. cbn [rf_attrib rf_len rx_data ra_encrypt ra_hdrlen ra_iv_len ra_key_index].
    rewrite He, Hkl, bind_Ret, Hk, bind_Ret. unfold sent, received, to_send. cbn [pkt_length].
    rewrite (app_assoc (p_hdr p)), wep_seed_prefix, Ek by done. rewrite bind_Ret. fold c.
    replace (_ - pa_hdrlen a - pa_iv_len a) with (zlen (arcfour_encrypt c (with_icv (p_pay p))).1) by lia.
    rewrite <- (app_assoc (p_hdr p)), <- H1, <- H2, decrypt_at, bind_Ret, arc_involutive. done.
  - exists l. split; [|done]. unfold rtw_wep_encrypt. cbn [xf_attrib phl_txreq xf_buf_addr].
    rewrite <- negb_orb, He, Hkl, bind_Ret, Hk, bind_Ret, Hn, E. done.
Qed.

Definition sample_parts : parts := Parts (replicate 24 1) [9; 8; 7; 0; 1; 2; 3; 4] [0xaa; 0xaa; 3; 0; 0; 0; 8; 0] [0; 0; 0; 0] [5].

Definition sample_attrib (enc : Z) : pkt_attrib :=
  PktAttrib (replicate 6 2) sample_ta 2 24 enc 8 4 sample_tk 0.

Lemma sample_parts_ok : Forall (parts_ok 24 8) [sample_parts; sample_parts].
Proof.
  assert (parts_ok 24 8 sample_parts) as H by (unfold parts_ok; split_and!; first [by apply bytes_ok|done]).
  by constructor; [|constructor].
Qed.

Definition sample_sec : security_priv := SecPriv 1 (repeat sample_tk 4) [5; 13; 5; 5].

Lemma wep_roundtrip_witness :
  exists l, rtw_wep_encrypt sample_sec false (XmitFrame (sample_attrib _WEP104_) (map to_send [sample_parts; sample_parts]) []) =
            Ret (XmitFrame (sample_attrib _WEP104_) l []) /\
    Forall2 (fun p f =>
      let rx m := RecvFrame (RxAttrib _WEP104_ 24 8 1 (replicate 6 2) sample_ta) (pkt_length f) m None in
      length (vir_mem f) = length (vir_mem (to_send p)) /\
      rtw_wep_decrypt sample_sec (rx (vir_mem f)) = Ret (rx (received p))) [sample_parts; sample_parts] l.
Proof.
  apply (wep_roundtrip sample_sec (sample_attrib _WEP104_) [sample_parts; sample_parts] [] None sample_tk 13);
    first [exact sample_parts_ok | done].
Defined.

(** The RC4 key of a fragment is the same at both ends. *)
Lemma tkip_frag t6 t7 t6' t7' a p key m'' :
  parts_ok (pa_hdrlen a) (pa_iv_len a) p -> pa_icv_len a = 4 -> 8 <= pa_iv_len a ->
  is_u8 t6 -> is_u8 t7 -> is_u8 t6' -> is_u8 t7' ->
  exists k, on_frag (tkip_encrypt_frag t6 t7 a key) (to_send p) =
      Ret (PktBuf (sent (arcfour_init k 16) p) (pkt_length (to_send p))) /\
    tkip_rc4key t6' t7' key (pa_ta a) (p_hdr p ++ p_iv p ++ m'') (pa_hdrlen a) = Ret k.
Proof.
  intros Hp Hi Hv H6 H7 H6' H7'. pose proof Hp as (H1 & H2 & _ & Hu1 & Hu2 & _).
  destruct (tkip_rc4key_ret t6 t7 t6' t7' key (pa_ta a) (p_hdr p ++ p_iv p) (p_pay p ++ p_icv p ++ p_rest p) m''
              (pa_hdrlen a)) as (k & E1 & E2); try done; [by apply Forall_app_2|zl|rewrite zlen_app; lia|].
  exists k. rewrite <- !app_assoc in E1, E2. split; [|done]. unfold on_frag, tkip_encrypt_frag.
  change (tkip_rc4key t6 t7 key (pa_ta a) (vir_mem (to_send p)) (pa_hdrlen a) = Ret k) in E1.
  rewrite E1, bind_Ret, Hi. by rewrite icv_on_parts.
Qed.

(** The key both ends use: the group key of the index for group addresses. *)
Definition frame_key (lsec : link_security_priv) (a : pkt_attrib) : outcome (list Z) :=
  if IS_MCAST (pa_ra a) then entry (dot118021XGrpKey lsec) (dot118021XGrpKeyid lsec) else Ret (pa_UncstKey a).

Definition frame_rx (lsec : link_security_priv) (a : pkt_attrib) (len : Z) (m : list Z) : recv_frame :=
  RecvFrame (RxAttrib (pa_encrypt a) (pa_hdrlen a) (pa_iv_len a) (dot118021XGrpKeyid lsec) (pa_ra a) (pa_ta a))
            len m (Some (pa_UncstKey a)).

Lemma tkip_decrypt_key t6 t7 lsec a len m key :
  pa_encrypt a = _TKIP_ -> binstallGrpkey lsec = true -> frame_key lsec a = Ret key ->
  rtw_tkip_decrypt t6 t7 lsec (frame_rx lsec a len m) = tkip_decrypt_with t6 t7 key (frame_rx lsec a len m).
Proof.
  intros He Hb Hk. unfold rtw_tkip_decrypt, frame_rx, frame_key in *. cbn [rf_attrib ra_encrypt rf_psta ra_ra ra_key_index].
  rewrite He. cbn [negb Z.eqb]. destruct (IS_MCAST (pa_ra a)); [by rewrite Hb, Hk|]. by injection Hk as ->.
Qed.

(** A frame of the air with cipher text [d]: the verdict under the key of the
    sender. *)
Lemma tkip_air t6 t7 t6' t7' lsec a p key d :
  pa_encrypt a = _TKIP_ -> pa_icv_len a = 4 -> 8 <= pa_iv_len a -> binstallGrpkey lsec = true ->
  frame_key lsec a = Ret key -> is_u8 t6 -> is_u8 t7 -> is_u8 t6' -> is_u8 t7' ->
  parts_ok (pa_hdrlen a) (pa_iv_len a) p -> Forall is_u8 d -> zlen d = zlen (p_pay p) + 4 ->
  exists k, on_frag (tkip_encrypt_frag t6 t7 a key) (to_send p) =
      Ret (PktBuf (sent (arcfour_init k 16) p) (pkt_length (to_send p))) /\
    rtw_tkip_decrypt t6' t7' lsec (frame_rx lsec a (pkt_length (to_send p)) (p_hdr p ++ p_iv p ++ d ++ p_rest p)) =
    (let plain := (arcfour_encrypt (arcfour_init k 16) d).1 in
     Ret (if bool_decide (fold_left feed plain 0xffffffff = CRC32_RESIDUE) then _SUCCESS else _FAIL,
          frame_rx lsec a (pkt_length (to_send p)) (p_hdr p ++ p_iv p ++ plain ++ p_rest p))).
Proof.
  intros He Hi Hv Hb Hk H6 H7 H6' H7' Hp Hd Hl. pose proof Hp as (H1 & H2 & H3 & _).
  destruct (tkip_frag t6 t7 t6' t7' a p key (d ++ p_rest p)) as (k & E1 & E2); try done.
  exists k. split; [done|]. rewrite (tkip_decrypt_key _ _ _ _ _ _ key) by done. unfold frame_rx.
  assert (pkt_length (to_send p) = zlen (p_hdr p) + zlen (p_iv p) + zlen d) as -> by (unfold to_send; cbn [pkt_length]; lia).
  apply tkip_decrypt_verdict; try done. zl.
Qed.

(** C14. TKIP: whatever the number of fragments and what the stack holds,
    encryption stays inside the buffers, and the receiver with the same key
    accepts every fragment and gets its payload back. *)
Theorem tkip_roundtrip t6 t7 t6' t7' lsec a ps buf key :
  pa_encrypt a = _TKIP_ -> pa_nr_frags a = length ps -> pa_icv_len a = 4 -> 8 <= pa_iv_len a ->
  Forall (parts_ok (pa_hdrlen a) (pa_iv_len a)) ps -> binstallGrpkey lsec = true -> frame_key lsec a = Ret key ->
  is_u8 t6 -> is_u8 t7 -> is_u8 t6' -> is_u8 t7' ->
  exists l, rtw_tkip_encrypt t6 t7 lsec (XmitFrame a (map to_send ps) buf) = Ret (_SUCCESS, XmitFrame a l buf) /\
    Forall2 (fun p f =>
      length (vir_mem f) = length (vir_mem (to_send p)) /\
      rtw_tkip_decrypt t6' t7' lsec (frame_rx lsec a (pkt_length f) (vir_mem f)) =
      Ret (_SUCCESS, frame_rx lsec a (pkt_length f) (received p))) ps l.
Proof.
  intros He Hn Hi Hv Hps Hb Hk H6 H7 H6' H7'.
  match goal with |- exists l, _ /\ Forall2 ?Q _ _ =>
    destruct (frag_loop_map (on_frag (tkip_encrypt_frag t6 t7 a key)) Q ps) as (l & E & Hl) end.
  - intros p Hp%(proj1 (Forall_forall _ _) Hps). pose proof Hp as (_ & _ & H3 & _ & _ & Hu).
    destruct (tkip_frag t6 t7 t6' t7' a p key []) as (k & E1 & _); try done.
    eexists. split; [exact E1|]. cbn [vir_mem pkt_length]. set (c := arcfour_init k 16) in *. pose proof (sent_length c p) as Hs.
    split; [unfold sent, to_send; cbn [vir_mem]; rewrite !length_app; unfold zlen in *; lia|].
    destruct (tkip_air t6 t7 t6' t7' lsec a p key (arcfour_encrypt c (with_icv (p_pay p))).1) as (k' & E1' & E2); try done.
    { by apply arc_u8, with_icv_u8. }
    rewrite E1 in E1'. apply frag_inj in E1'. rename E1' into E3. unfold sent. rewrite E2.
    assert ((arcfour_encrypt (arcfour_init k' 16) (arcfour_encrypt c (with_icv (p_pay p))).1).1 = with_icv (p_pay p)) as ->.
    { unfold sent in E3. do 2 apply app_inv_head in E3. apply app_inv_tail in E3. rewrite E3. apply arc_involutive. }
    cbn zeta. by rewrite bool_decide_eq_true_2 by by apply with_icv_residue.
  - exists l. split; [|done]. unfold rtw_tkip_encrypt. cbn [xf_attrib phl_txreq xf_buf_addr].
    rewrite He. cbn [negb Z.eqb]. fold (frame_key lsec a). rewrite Hk, bind_Ret, Hn, E. done.
Qed.

Definition sample_lsec : link_security_priv := LinkSec 1 (repeat sample_tk 4) true.

Lemma tkip_roundtrip_witness :
  exists l, rtw_tkip_encrypt 1 2 sample_lsec (XmitFrame (sample_attrib _TKIP_) (map to_send [sample_parts; sample_parts]) []) =
            Ret (_SUCCESS, XmitFrame (sample_attrib _TKIP_) l []) /\
    Forall2 (fun p f =>
      length (vir_mem f) = length (vir_mem (to_send p)) /\
      rtw_tkip_decrypt 3 4 sample_lsec (frame_rx sample_lsec (sample_attrib _TKIP_) (pkt_length f) (vir_mem f)) =
      Ret (_SUCCESS, frame_rx sample_lsec (sample_attrib _TKIP_) (pkt_length f) (received p))) [sample_parts; sample_parts] l.
Proof.
  apply (tkip_roundtrip 1 2 3 4 sample_lsec (sample_attrib _TKIP_) [sample_parts; sample_parts] [] sample_tk);
    first [exact sample_parts_ok | done].
Defined.

(** The cipher text changes where the plain text does. *)
Lemma arc_window c pre x x' post :
  length x = length x' ->
  exists p y y' q, (arcfour_encrypt c (pre ++ x ++ post)).1 = p ++ y ++ q /\
    (arcfour_encrypt c (pre ++ x' ++ post)).1 = p ++ y' ++ q /\
    length y = length x /\ length y' = length x /\ (y = y' -> x = x').
Proof.
  intros Hl. rewrite !arc_app. cbn [fst]. set (c1 := (arcfour_encrypt c pre).2).
  exists (arcfour_encrypt c pre).1, (arcfour_encrypt c1 x).1, (arcfour_encrypt c1 x').1,
    (arcfour_encrypt (arcfour_encrypt c1 x).2 post).1. split_and!.
  - done.
  - do 4 f_equal. rewrite !arc_keystream. cbn [snd]. by rewrite Hl.
  - apply arc_length.
  - rewrite arc_length. done.
  - intros E. rewrite <- (arc_involutive c1 x), E. apply arc_involutive.
Qed.

(** C15. TKIP rejects damaged frames: if up to four consecutive bytes of the
    encrypted payload or check value of a fragment are changed on the way, the
    receiver answers _FAIL. *)
Theorem tkip_rejects_bursts t6 t7 t6' t7' lsec a p key m pre x x' post :
  pa_encrypt a = _TKIP_ -> pa_icv_len a = 4 -> 8 <= pa_iv_len a ->
  parts_ok (pa_hdrlen a) (pa_iv_len a) p -> binstallGrpkey lsec = true -> frame_key lsec a = Ret key ->
  is_u8 t6 -> is_u8 t7 -> is_u8 t6' -> is_u8 t7' ->
  tkip_encrypt_frag t6 t7 a key (vir_mem (to_send p)) (pkt_length (to_send p)) = Ret m ->
  m = p_hdr p ++ p_iv p ++ (pre ++ x ++ post) ++ p_rest p ->
  length x = length x' -> (length x <= 4)%nat -> x <> x' -> Forall is_u8 x' ->
  exists f, rtw_tkip_decrypt t6' t7' lsec
    (frame_rx lsec a (pkt_length (to_send p)) (p_hdr p ++ p_iv p ++ (pre ++ x' ++ post) ++ p_rest p)) = Ret (_FAIL, f).
Proof.
  intros He Hi Hv Hp Hb Hk H6 H7 H6' H7' Hm -> Hl H4 Hne Hx'. pose proof Hp as (_ & _ & _ & _ & _ & Hu).
  destruct (tkip_frag t6 t7 t6' t7' a p key []) as (k & E1 & _); try done.
  unfold on_frag in E1. rewrite Hm, bind_Ret in E1. apply frag_inj in E1. set (c := arcfour_init k 16) in *.
  unfold sent in E1. do 2 apply app_inv_head in E1. apply app_inv_tail in E1.
  assert (Forall is_u8 (pre ++ x ++ post)) as Hd by (rewrite E1; by apply arc_u8, with_icv_u8).
  apply Forall_app in Hd as [Hd1 Hd]. apply Forall_app in Hd as [Hd2 Hd3].
  assert (Forall is_u8 (pre ++ x' ++ post)) as Hd' by by repeat apply Forall_app_2.
  destruct (tkip_air t6 t7 t6' t7' lsec a p key (pre ++ x' ++ post)) as (k' & E2 & E3); try done.
  { rewrite <- (sent_length c p), <- E1. unfold zlen. rewrite !length_app. lia. }
  rewrite E3. cbn zeta. rewrite bool_decide_eq_false_2; [by eexists|].
  unfold on_frag in E2. rewrite Hm, bind_Ret in E2. apply frag_inj in E2.
  unfold sent in E2. do 2 apply app_inv_head in E2. apply app_inv_tail in E2. set (c' := arcfour_init k' 16) in *.
  destruct (arc_window c' pre x x' post Hl) as (q & y & y' & r & Y1 & Y2 & Y3 & Y4 & Y5).
  rewrite Y2. intros R. assert (fold_left feed (q ++ y ++ r) 0xffffffff = CRC32_RESIDUE) as R'.
  { rewrite <- Y1, E2, arc_involutive. by apply with_icv_residue. }
  pose proof (arc_u8 c' _ Hd') as U'. rewrite Y2 in U'.
  assert (Forall is_u8 (q ++ y ++ r)) as U by (rewrite <- Y1; by apply arc_u8; repeat apply Forall_app_2).
  apply Forall_app in U as [U1 U]. apply Forall_app in U as [U2 U3].
  apply Forall_app in U' as [_ U']. apply Forall_app in U' as [U2' _].
  apply (feed_burst q y y' r 0xffffffff); try done; [congruence|lia|by intros ?%Y5|congruence].
Qed.

Lemma bytes_ne (l l' : list Z) : bool_decide (l = l') = false -> l <> l'.
Proof. by intros H%bool_decide_eq_false. Qed.

(** The encrypted part of [sample_parts]. *)
Definition sample_cipher : list Z := Eval vm_compute in
  match tkip_encrypt_frag 1 2 (sample_attrib _TKIP_) sample_tk (vir_mem (to_send sample_parts)) (pkt_length (to_send sample_parts)) with
  | Ret m => take 12 (drop 32 m)
  | _ => []
  end.

Lemma tkip_rejects_bursts_witness :
  exists f, rtw_tkip_decrypt 3 4 sample_lsec
    (frame_rx sample_lsec (sample_attrib _TKIP_) 44
       (replicate 24 1 ++ [9; 8; 7; 0; 1; 2; 3; 4] ++ (take 2 sample_cipher ++ [0; 0] ++ drop 4 sample_cipher) ++ [5])) = Ret (_FAIL, f).
Proof.
  apply (tkip_rejects_bursts 1 2 3 4 sample_lsec (sample_attrib _TKIP_) sample_parts sample_tk
           (replicate 24 1 ++ [9; 8; 7; 0; 1; 2; 3; 4] ++ (take 2 sample_cipher ++ take 2 (drop 2 sample_cipher) ++ drop 4 sample_cipher) ++ [5])
           (take 2 sample_cipher) (take 2 (drop 2 sample_cipher)) [0; 0] (drop 4 sample_cipher));
    [reflexivity|reflexivity|done|exact (Forall_inv sample_parts_ok)|reflexivity|reflexivity|done|done|done|done
    |vm_compute; reflexivity|reflexivity|reflexivity|cbn; lia|by apply bytes_ne|by apply bytes_ok].
Defined.

(** ** Limits *)

(** A received frame shorter than its header and IV: the length is negative,
    and as an unsigned count of bytes it runs past every buffer. *)
Lemma tkip_short_frame_faults t6 t7 lsec a len m key :
  pa_encrypt a = _TKIP_ -> binstallGrpkey lsec = true -> frame_key lsec a = Ret key ->
  len < pa_hdrlen a + pa_iv_len a -> 0 <= pa_hdrlen a -> pa_hdrlen a + 8 <= zlen m ->
  rtw_tkip_decrypt t6 t7 lsec (frame_rx lsec a len m) = Fault.
Proof.
  intros He Hb Hk Hl H0 H8. rewrite (tkip_decrypt_key _ _ _ _ _ _ key) by done. unfold tkip_decrypt_with, frame_rx.
  cbn [rf_attrib rf_len rx_data ra_hdrlen ra_iv_len ra_ta]. unfold tkip_rc4key. rewrite rds_spec by lia. rewrite !bind_Ret.
  unfold arc_inplace, rds. rewrite (proj2 (Z.leb_gt 0 (len - _ - _))) by lia. by rewrite andb_false_r.
Qed.

(** WEP hands on whatever it decrypts: a damaged cipher text [d] is not
    noticed, although the check value is computed. *)
Lemma wep_accepts_damage sec a sta h iv d r key kl :
  (ra_encrypt a =? _WEP40_) || (ra_encrypt a =? _WEP104_) = true ->
  zlen h = ra_hdrlen a -> zlen iv = ra_iv_len a -> 3 <= ra_iv_len a ->
  entry (dot11DefKey sec) (ra_key_index a) = Ret key -> entry (dot11DefKeylen sec) (ra_key_index a) = Ret kl ->
  0 <= kl <= 13 -> kl <= zlen key ->
  exists c, rtw_wep_decrypt sec (RecvFrame a (zlen h + zlen iv + zlen d) (h ++ iv ++ d ++ r) sta) =
    Ret (RecvFrame a (zlen h + zlen iv + zlen d) (h ++ iv ++ (arcfour_encrypt c d).1 ++ r) sta).
Proof.
  intros He Hh Hv H3 Hk Hkl Hr Hz. assert (0 <= ra_hdrlen a /\ ra_hdrlen a + 3 <= zlen (h ++ iv)) as [Ha Hb] by (rewrite zlen_app; zl).
  destruct (wep_seed_ret (h ++ iv) (ra_hdrlen a) key kl) as [k Ek]; try done. exists (arcfour_init k (3 + kl)).
  unfold rtw_wep_decrypt. cbn [rf_attrib rf_len rx_data]. rewrite He, Hkl, bind_Ret, Hk, bind_Ret.
  rewrite (app_assoc h), wep_seed_prefix, Ek by done. rewrite bind_Ret, <- (app_assoc h).
  replace (_ - ra_hdrlen a - ra_iv_len a) with (zlen d) by lia. by rewrite <- Hh, <- Hv, decrypt_at.
Qed.
