(* ===== verification/Aes.v ===== *)
(** * AES

    The cipher behind CCMP (src/core/crypto/aes-internal.c, aes-internal-enc.c,
    aes_i.h, with AES_SMALL_TABLES and without FULL_UNROLL), which works on
    words with a table, and the cipher of the older code of
    src/core/rtw_security.c (NEW_CRYPTO 0), which works on bytes.  [aes_agree]
    shows that they are the same function. *)
From Stdlib Require Import ZArith Lia Bool List Btauto.
From stdpp Require Import base tactics list numbers.
From S2P Require Import Prelude ByteBuf WordBits SecCrypto.

(** ** The cipher on words *)

Definition AES_BLOCK_SIZE : nat := 16.

Definition Te0 : list Z :=
 [0xc66363a5; 0xf87c7c84; 0xee777799; 0xf67b7b8d; 0xfff2f20d; 0xd66b6bbd; 0xde6f6fb1; 0x91c5c554;
  0x60303050; 0x02010103; 0xce6767a9; 0x562b2b7d; 0xe7fefe19; 0xb5d7d762; 0x4dababe6; 0xec76769a;
  0x8fcaca45; 0x1f82829d; 0x89c9c940; 0xfa7d7d87; 0xeffafa15; 0xb25959eb; 0x8e4747c9; 0xfbf0f00b;
  0x41adadec; 0xb3d4d467; 0x5fa2a2fd; 0x45afafea; 0x239c9cbf; 0x53a4a4f7; 0xe4727296; 0x9bc0c05b;
  0x75b7b7c2; 0xe1fdfd1c; 0x3d9393ae; 0x4c26266a; 0x6c36365a; 0x7e3f3f41; 0xf5f7f702; 0x83cccc4f;
  0x6834345c; 0x51a5a5f4; 0xd1e5e534; 0xf9f1f108; 0xe2717193; 0xabd8d873; 0x62313153; 0x2a15153f;
  0x0804040c; 0x95c7c752; 0x46232365; 0x9dc3c35e; 0x30181828; 0x379696a1; 0x0a05050f; 0x2f9a9ab5;
  0x0e070709; 0x24121236; 0x1b80809b; 0xdfe2e23d; 0xcdebeb26; 0x4e272769; 0x7fb2b2cd; 0xea75759f;
  0x1209091b; 0x1d83839e; 0x582c2c74; 0x341a1a2e; 0x361b1b2d; 0xdc6e6eb2; 0xb45a5aee; 0x5ba0a0fb;
  0xa45252f6; 0x763b3b4d; 0xb7d6d661; 0x7db3b3ce; 0x5229297b; 0xdde3e33e; 0x5e2f2f71; 0x13848497;
  0xa65353f5; 0xb9d1d168; 0x00000000; 0xc1eded2c; 0x40202060; 0xe3fcfc1f; 0x79b1b1c8; 0xb65b5bed;
  0xd46a6abe; 0x8dcbcb46; 0x67bebed9; 0x7239394b; 0x944a4ade; 0x984c4cd4; 0xb05858e8; 0x85cfcf4a;
  0xbbd0d06b; 0xc5efef2a; 0x4faaaae5; 0xedfbfb16; 0x864343c5; 0x9a4d4dd7; 0x66333355; 0x11858594;
  0x8a4545cf; 0xe9f9f910; 0x04020206; 0xfe7f7f81; 0xa05050f0; 0x783c3c44; 0x259f9fba; 0x4ba8a8e3;
  0xa25151f3; 0x5da3a3fe; 0x804040c0; 0x058f8f8a; 0x3f9292ad; 0x219d9dbc; 0x70383848; 0xf1f5f504;
  0x63bcbcdf; 0x77b6b6c1; 0xafdada75; 0x42212163; 0x20101030; 0xe5ffff1a; 0xfdf3f30e; 0xbfd2d26d;
  0x81cdcd4c; 0x180c0c14; 0x26131335; 0xc3ecec2f; 0xbe5f5fe1; 0x359797a2; 0x884444cc; 0x2e171739;
  0x93c4c457; 0x55a7a7f2; 0xfc7e7e82; 0x7a3d3d47; 0xc86464ac; 0xba5d5de7; 0x3219192b; 0xe6737395;
  0xc06060a0; 0x19818198; 0x9e4f4fd1; 0xa3dcdc7f; 0x44222266; 0x542a2a7e; 0x3b9090ab; 0x0b888883;
  0x8c4646ca; 0xc7eeee29; 0x6bb8b8d3; 0x2814143c; 0xa7dede79; 0xbc5e5ee2; 0x160b0b1d; 0xaddbdb76;
  0xdbe0e03b; 0x64323256; 0x743a3a4e; 0x140a0a1e; 0x924949db; 0x0c06060a; 0x4824246c; 0xb85c5ce4;
  0x9fc2c25d; 0xbdd3d36e; 0x43acacef; 0xc46262a6; 0x399191a8; 0x319595a4; 0xd3e4e437; 0xf279798b;
  0xd5e7e732; 0x8bc8c843; 0x6e373759; 0xda6d6db7; 0x018d8d8c; 0xb1d5d564; 0x9c4e4ed2; 0x49a9a9e0;
  0xd86c6cb4; 0xac5656fa; 0xf3f4f407; 0xcfeaea25; 0xca6565af; 0xf47a7a8e; 0x47aeaee9; 0x10080818;
  0x6fbabad5; 0xf0787888; 0x4a25256f; 0x5c2e2e72; 0x381c1c24; 0x57a6a6f1; 0x73b4b4c7; 0x97c6c651;
  0xcbe8e823; 0xa1dddd7c; 0xe874749c; 0x3e1f1f21; 0x964b4bdd; 0x61bdbddc; 0x0d8b8b86; 0x0f8a8a85;
  0xe0707090; 0x7c3e3e42; 0x71b5b5c4; 0xcc6666aa; 0x904848d8; 0x06030305; 0xf7f6f601; 0x1c0e0e12;
  0xc26161a3; 0x6a35355f; 0xae5757f9; 0x69b9b9d0; 0x17868691; 0x99c1c158; 0x3a1d1d27; 0x279e9eb9;
  0xd9e1e138; 0xebf8f813; 0x2b9898b3; 0x22111133; 0xd26969bb; 0xa9d9d970; 0x078e8e89; 0x339494a7;
  0x2d9b9bb6; 0x3c1e1e22; 0x15878792; 0xc9e9e920; 0x87cece49; 0xaa5555ff; 0x50282878; 0xa5dfdf7a;
  0x038c8c8f; 0x59a1a1f8; 0x09898980; 0x1a0d0d17; 0x65bfbfda; 0xd7e6e631; 0x844242c6; 0xd06868b8;
  0x824141c3; 0x299999b0; 0x5a2d2d77; 0x1e0f0f11; 0x7bb0b0cb; 0xa85454fc; 0x6dbbbbd6; 0x2c16163a].

Definition rcons : list Z := [0x01; 0x02; 0x04; 0x08; 0x10; 0x20; 0x40; 0x80; 0x1B; 0x36].

Definition rotr (val bits : Z) : Z := Z.lor (Z.shiftr val bits) (u32 (Z.shiftl val (32 - bits))).

(** Byte [n] of a word, counted from the least significant one. *)
Definition byte_of (i n : Z) : Z := Z.land (Z.shiftr i (8 * n)) 0xff.

Definition TE0 (i : Z) : Z := at_ Te0 (byte_of i 3).
Definition TE1 (i : Z) : Z := rotr (at_ Te0 (byte_of i 2)) 8.
Definition TE2 (i : Z) : Z := rotr (at_ Te0 (byte_of i 1)) 16.
Definition TE3 (i : Z) : Z := rotr (at_ Te0 (byte_of i 0)) 24.
Definition TE41 (i : Z) : Z := Z.land (u32 (Z.shiftl (at_ Te0 (byte_of i 3)) 8)) 0xff000000.
Definition TE42 (i : Z) : Z := Z.land (at_ Te0 (byte_of i 2)) 0x00ff0000.
Definition TE43 (i : Z) : Z := Z.land (at_ Te0 (byte_of i 1)) 0x0000ff00.
Definition TE44 (i : Z) : Z := Z.land (Z.shiftr (at_ Te0 (byte_of i 0)) 8) 0x000000ff.
Definition TE421 (i : Z) : Z := Z.land (u32 (Z.shiftl (at_ Te0 (byte_of i 2)) 8)) 0xff000000.
Definition TE432 (i : Z) : Z := Z.land (at_ Te0 (byte_of i 1)) 0x00ff0000.
Definition TE443 (i : Z) : Z := Z.land (at_ Te0 (byte_of i 0)) 0x0000ff00.
Definition TE414 (i : Z) : Z := Z.land (Z.shiftr (at_ Te0 (byte_of i 3)) 8) 0x000000ff.
Definition TE411 (i : Z) : Z := Z.land (u32 (Z.shiftl (at_ Te0 (byte_of i 3)) 8)) 0xff000000.
Definition TE422 (i : Z) : Z := Z.land (at_ Te0 (byte_of i 2)) 0x00ff0000.
Definition TE433 (i : Z) : Z := Z.land (at_ Te0 (byte_of i 1)) 0x0000ff00.
Definition TE444 (i : Z) : Z := Z.land (Z.shiftr (at_ Te0 (byte_of i 0)) 8) 0x000000ff.

Definition RCON (i : nat) : Z := Z.shiftl (nth i rcons 0) 24.

Definition GETU32 (pt : list Z) (p : nat) : Z :=
  Z.lxor (Z.lxor (Z.shiftl (nth p pt 0) 24) (Z.shiftl (nth (p + 1) pt 0) 16))
         (Z.lxor (Z.shiftl (nth (p + 2) pt 0) 8) (nth (p + 3) pt 0)).

(** The four bytes PUTU32 writes. *)
Definition PUTU32 (st : Z) : list Z := [u8 (Z.shiftr st 24); u8 (Z.shiftr st 16); u8 (Z.shiftr st 8); u8 st].

(** A turn of the loop for 128-bit keys: four words from the four before. *)
Fixpoint keysetup_128 (n i : nat) (k0 k1 k2 k3 : Z) : list Z :=
  match n with
  | O => []
  | S n =>
    let temp := k3 in
    let k4 := Z.lxor (Z.lxor (Z.lxor (Z.lxor (Z.lxor k0 (TE421 temp)) (TE432 temp)) (TE443 temp)) (TE414 temp)) (RCON i) in
    let k5 := Z.lxor k1 k4 in
    let k6 := Z.lxor k2 k5 in
    let k7 := Z.lxor k3 k6 in
    k4 :: k5 :: k6 :: k7 :: keysetup_128 n (S i) k4 k5 k6 k7
  end.

(** For 192-bit keys; the turn with [i = 7] returns before the last two words. *)
Fixpoint keysetup_192 (n i : nat) (k0 k1 k2 k3 k4 k5 : Z) : list Z :=
  match n with
  | O => []
  | S n =>
    let temp := k5 in
    let k6 := Z.lxor (Z.lxor (Z.lxor (Z.lxor (Z.lxor k0 (TE421 temp)) (TE432 temp)) (TE443 temp)) (TE414 temp)) (RCON i) in
    let k7 := Z.lxor k1 k6 in
    let k8 := Z.lxor k2 k7 in
    let k9 := Z.lxor k3 k8 in
    if (i =? 7)%nat then [k6; k7; k8; k9]
    else
      let k10 := Z.lxor k4 k9 in
      let k11 := Z.lxor k5 k10 in
      k6 :: k7 :: k8 :: k9 :: k10 :: k11 :: keysetup_192 n (S i) k6 k7 k8 k9 k10 k11
  end.

(** For 256-bit keys; the turn with [i = 6] returns after four words. *)
Fixpoint keysetup_256 (n i : nat) (k0 k1 k2 k3 k4 k5 k6 k7 : Z) : list Z :=
  match n with
  | O => []
  | S n =>
    let temp := k7 in
    let k8 := Z.lxor (Z.lxor (Z.lxor (Z.lxor (Z.lxor k0 (TE421 temp)) (TE432 temp)) (TE443 temp)) (TE414 temp)) (RCON i) in
    let k9 := Z.lxor k1 k8 in
    let k10 := Z.lxor k2 k9 in
    let k11 := Z.lxor k3 k10 in
    if (i =? 6)%nat then [k8; k9; k10; k11]
    else
      let temp := k11 in
      let k12 := Z.lxor (Z.lxor (Z.lxor (Z.lxor k4 (TE411 temp)) (TE422 temp)) (TE433 temp)) (TE444 temp) in
      let k13 := Z.lxor k5 k12 in
      let k14 := Z.lxor k6 k13 in
      let k15 := Z.lxor k7 k14 in
      k8 :: k9 :: k10 :: k11 :: k12 :: k13 :: k14 :: k15 :: keysetup_256 n (S i) k8 k9 k10 k11 k12 k13 k14 k15
  end.

(** The schedule and the number of rounds; [None] is -1. *)
Definition rijndaelKeySetupEnc (cipherKey : list Z) (keyBits : Z) : option (list Z * nat) :=
  let k := GETU32 cipherKey in
  let rk := [k 0%nat; k 4%nat; k 8%nat; k 12%nat] in
  if keyBits =? 128 then Some (rk ++ keysetup_128 10 0 (k 0%nat) (k 4%nat) (k 8%nat) (k 12%nat), 10%nat)
  else
    let rk := rk ++ [k 16%nat; k 20%nat] in
    if keyBits =? 192
    then Some (rk ++ keysetup_192 8 0 (k 0%nat) (k 4%nat) (k 8%nat) (k 12%nat) (k 16%nat) (k 20%nat), 12%nat)
    else
      let rk := rk ++ [k 24%nat; k 28%nat] in
      if keyBits =? 256
      then Some (rk ++ keysetup_256 7 0 (k 0%nat) (k 4%nat) (k 8%nat) (k 12%nat) (k 16%nat) (k 20%nat) (k 24%nat) (k 28%nat), 14%nat)
      else None.

(** The cipher state, four words. *)
Record quad := Quad { w0 : Z; w1 : Z; w2 : Z; w3 : Z }.

(** The macro ROUND(i, d, s) on the schedule at [rk]. *)
Definition ROUND (i : nat) (rk : list Z) (s : quad) : quad :=
  let k j := nth (4 * i + j) rk 0 in
  Quad (Z.lxor (Z.lxor (Z.lxor (Z.lxor (TE0 (w0 s)) (TE1 (w1 s))) (TE2 (w2 s))) (TE3 (w3 s))) (k 0%nat))
       (Z.lxor (Z.lxor (Z.lxor (Z.lxor (TE0 (w1 s)) (TE1 (w2 s))) (TE2 (w3 s))) (TE3 (w0 s))) (k 1%nat))
       (Z.lxor (Z.lxor (Z.lxor (Z.lxor (TE0 (w2 s)) (TE1 (w3 s))) (TE2 (w0 s))) (TE3 (w1 s))) (k 2%nat))
       (Z.lxor (Z.lxor (Z.lxor (Z.lxor (TE0 (w3 s)) (TE1 (w0 s))) (TE2 (w1 s))) (TE3 (w2 s))) (k 3%nat)).

(** The loop with [r] turns left; it gives [t] and the place in the schedule. *)
Fixpoint round_loop (r : nat) (rk : list Z) (s : quad) : quad * list Z :=
  let t := ROUND 1 rk s in
  let rk := drop 8 rk in
  match r with
  | O | 1%nat => (t, rk)
  | S r => round_loop r rk (ROUND 0 rk t)
  end.

Definition rijndaelEncrypt (rk : list Z) (Nr : nat) (pt : list Z) : list Z :=
  let s := Quad (Z.lxor (GETU32 pt 0) (nth 0 rk 0)) (Z.lxor (GETU32 pt 4) (nth 1 rk 0))
                (Z.lxor (GETU32 pt 8) (nth 2 rk 0)) (Z.lxor (GETU32 pt 12) (nth 3 rk 0)) in
  let '(t, rk) := round_loop (Nr / 2) rk s in
  let out a b c d k := Z.lxor (Z.lxor (Z.lxor (Z.lxor (TE41 a) (TE42 b)) (TE43 c)) (TE44 d)) k in
  PUTU32 (out (w0 t) (w1 t) (w2 t) (w3 t) (nth 0 rk 0)) ++ PUTU32 (out (w1 t) (w2 t) (w3 t) (w0 t) (nth 1 rk 0)) ++
  PUTU32 (out (w2 t) (w3 t) (w0 t) (w1 t) (nth 2 rk 0)) ++ PUTU32 (out (w3 t) (w0 t) (w1 t) (w2 t) (nth 3 rk 0)).

(** The context: schedule and rounds; [alloc] says whether memory was found. *)
Definition aes_encrypt_init (alloc : bool) (key : list Z) (len : Z) : option (list Z * nat) :=
  if negb alloc then None else rijndaelKeySetupEnc key (len * 8).

Definition aes_encrypt (ctx : list Z * nat) (plain : list Z) : list Z := rijndaelEncrypt ctx.1 ctx.2 plain.

(** ** The cipher on bytes *)

Definition sbox_table : list Z :=
 [0x63; 0x7c; 0x77; 0x7b; 0xf2; 0x6b; 0x6f; 0xc5;
  0x30; 0x01; 0x67; 0x2b; 0xfe; 0xd7; 0xab; 0x76;
  0xca; 0x82; 0xc9; 0x7d; 0xfa; 0x59; 0x47; 0xf0;
  0xad; 0xd4; 0xa2; 0xaf; 0x9c; 0xa4; 0x72; 0xc0;
  0xb7; 0xfd; 0x93; 0x26; 0x36; 0x3f; 0xf7; 0xcc;
  0x34; 0xa5; 0xe5; 0xf1; 0x71; 0xd8; 0x31; 0x15;
  0x04; 0xc7; 0x23; 0xc3; 0x18; 0x96; 0x05; 0x9a;
  0x07; 0x12; 0x80; 0xe2; 0xeb; 0x27; 0xb2; 0x75;
  0x09; 0x83; 0x2c; 0x1a; 0x1b; 0x6e; 0x5a; 0xa0;
  0x52; 0x3b; 0xd6; 0xb3; 0x29; 0xe3; 0x2f; 0x84;
  0x53; 0xd1; 0x00; 0xed; 0x20; 0xfc; 0xb1; 0x5b;
  0x6a; 0xcb; 0xbe; 0x39; 0x4a; 0x4c; 0x58; 0xcf;
  0xd0; 0xef; 0xaa; 0xfb; 0x43; 0x4d; 0x33; 0x85;
  0x45; 0xf9; 0x02; 0x7f; 0x50; 0x3c; 0x9f; 0xa8;
  0x51; 0xa3; 0x40; 0x8f; 0x92; 0x9d; 0x38; 0xf5;
  0xbc; 0xb6; 0xda; 0x21; 0x10; 0xff; 0xf3; 0xd2;
  0xcd; 0x0c; 0x13; 0xec; 0x5f; 0x97; 0x44; 0x17;
  0xc4; 0xa7; 0x7e; 0x3d; 0x64; 0x5d; 0x19; 0x73;
  0x60; 0x81; 0x4f; 0xdc; 0x22; 0x2a; 0x90; 0x88;
  0x46; 0xee; 0xb8; 0x14; 0xde; 0x5e; 0x0b; 0xdb;
  0xe0; 0x32; 0x3a; 0x0a; 0x49; 0x06; 0x24; 0x5c;
  0xc2; 0xd3; 0xac; 0x62; 0x91; 0x95; 0xe4; 0x79;
  0xe7; 0xc8; 0x37; 0x6d; 0x8d; 0xd5; 0x4e; 0xa9;
  0x6c; 0x56; 0xf4; 0xea; 0x65; 0x7a; 0xae; 0x08;
  0xba; 0x78; 0x25; 0x2e; 0x1c; 0xa6; 0xb4; 0xc6;
  0xe8; 0xdd; 0x74; 0x1f; 0x4b; 0xbd; 0x8b; 0x8a;
  0x70; 0x3e; 0xb5; 0x66; 0x48; 0x03; 0xf6; 0x0e;
  0x61; 0x35; 0x57; 0xb9; 0x86; 0xc1; 0x1d; 0x9e;
  0xe1; 0xf8; 0x98; 0x11; 0x69; 0xd9; 0x8e; 0x94;
  0x9b; 0x1e; 0x87; 0xe9; 0xce; 0x55; 0x28; 0xdf;
  0x8c; 0xa1; 0x89; 0x0d; 0xbf; 0xe6; 0x42; 0x68;
  0x41; 0x99; 0x2d; 0x0f; 0xb0; 0x54; 0xbb; 0x16].

Definition xor_128 (a b : list Z) : list Z := zip_with Z.lxor (take 16 a) (take 16 b).

Definition xor_32 (a b : list Z) : list Z := zip_with Z.lxor (take 4 a) (take 4 b).

Definition sbox (a : Z) : Z := at_ sbox_table a.

Definition rcon_table : list Z := [0x01; 0x02; 0x04; 0x08; 0x10; 0x20; 0x40; 0x80; 0x1b; 0x36; 0x36; 0x36].

Definition next_key (key : list Z) (round : nat) : list Z :=
  let sbox_key := [sbox (nth 13 key 0); sbox (nth 14 key 0); sbox (nth 15 key 0); sbox (nth 12 key 0)] in
  let rcon := nth round rcon_table 0 in
  let k0 := xor_32 (take 4 key) sbox_key in
  let k0 := Z.lxor (nth 0 k0 0) rcon :: drop 1 k0 in
  let k1 := xor_32 (take 4 (drop 4 key)) k0 in
  let k2 := xor_32 (take 4 (drop 8 key)) k1 in
  let k3 := xor_32 (take 4 (drop 12 key)) k2 in
  k0 ++ k1 ++ k2 ++ k3.

Definition byte_sub (l : list Z) : list Z := map sbox l.

Definition shift_row (l : list Z) : list Z :=
  map (fun i => nth i l 0) [0; 5; 10; 15; 4; 9; 14; 3; 8; 13; 2; 7; 12; 1; 6; 11]%nat.

(** The shift of [andf7] with its carry, from the third byte down. *)
Definition shift_f7 (f : list Z) : list Z :=
  let sh i := let v := u8 (Z.shiftl (nth i f 0) 1) in
              if Z.land (nth (i - 1) f 0) 0x80 =? 0x80 then Z.lor v 0x01 else v in
  [Z.land (u8 (Z.shiftl (nth 0 f 0) 1)) 0xfe; sh 1%nat; sh 2%nat; sh 3%nat].

Definition mix_column (l : list Z) : list Z :=
  let add1b := map (fun v => if Z.land v 0x80 =? 0x80 then 0x1b else 0x00) l in
  let swap_halfs := [nth 2 l 0; nth 3 l 0; nth 0 l 0; nth 1 l 0] in
  let rotl := [nth 3 l 0; nth 0 l 0; nth 1 l 0; nth 2 l 0] in
  let andf7 := shift_f7 (map (fun v => Z.land v 0x7f) l) in
  let add1bf7 := xor_32 add1b andf7 in
  let rotr := xor_32 l add1bf7 in
  let rotr := [nth 1 rotr 0; nth 2 rotr 0; nth 3 rotr 0; nth 0 rotr 0] in
  let temp := xor_32 add1bf7 rotr in
  let tempb := xor_32 swap_halfs rotl in
  xor_32 temp tempb.

(** A turn of the loop of [aes128k128d]: ciphertext and round key. *)
Definition aes_turn (s : list Z * list Z) (round : nat) : list Z * list Z :=
  let '(ciphertext, round_key) := s in
  let b := shift_row (byte_sub ciphertext) in
  if (round =? 10)%nat then (xor_128 b round_key, round_key)
  else
    let a := mix_column (take 4 b) ++ mix_column (take 4 (drop 4 b)) ++ mix_column (take 4 (drop 8 b)) ++
             mix_column (take 4 (drop 12 b)) in
    (xor_128 a round_key, next_key round_key round).

Definition aes128k128d (key data : list Z) : list Z :=
  (fold_left aes_turn (seq 1 10) (xor_128 key data, next_key key 0)).1.

(** ** Words and bytes *)

Definition be4 (a b c d : Z) : Z := GETU32 [a; b; c; d] 0.

Lemma be4_lxor a b c d a' b' c' d' :
  Z.lxor (be4 a b c d) (be4 a' b' c' d') = be4 (Z.lxor a a') (Z.lxor b b') (Z.lxor c c') (Z.lxor d d').
Proof. unfold be4, GETU32. cbn [nth Nat.add]. rewrite !Z.shiftl_lxor. xor_solve. Qed.

Lemma be4_val a b c d :
  is_u8 a -> is_u8 b -> is_u8 c -> is_u8 d -> be4 a b c d = a * 16777216 + b * 65536 + c * 256 + d.
Proof.
  intros Ha Hb Hc Hd. unfold be4, GETU32. cbn [nth Nat.add].
  replace (Z.lxor (Z.lxor (Z.shiftl a 24) (Z.shiftl b 16)) (Z.lxor (Z.shiftl c 8) d)) with
    (Z.lxor (Z.shiftl (Z.lxor (Z.shiftl (Z.lxor (Z.shiftl a 8) b) 8) c) 8) d).
  - rewrite !lxor_split by (done || lia). lia.
  - rewrite !Z.shiftl_lxor, !Z.shiftl_shiftl by lia. change (8 + (8 + 8)) with 24. change (8 + 8) with 16. xor_solve.
Qed.

Lemma byte_of_val i n : 0 <= n -> byte_of i n = (i / 2 ^ (8 * n)) mod 256.
Proof. intros H. unfold byte_of. rewrite land_255, Z.shiftr_div_pow2 by lia. done. Qed.

Lemma byte_of_be4 a b c d :
  is_u8 a -> is_u8 b -> is_u8 c -> is_u8 d ->
  byte_of (be4 a b c d) 3 = a /\ byte_of (be4 a b c d) 2 = b /\ byte_of (be4 a b c d) 1 = c /\ byte_of (be4 a b c d) 0 = d.
Proof.
  intros Ha Hb Hc Hd. rewrite !byte_of_val, be4_val by (done || lia).
  change (2 ^ (8 * 3)) with 16777216; change (2 ^ (8 * 2)) with 65536; change (2 ^ (8 * 1)) with 256; change (2 ^ (8 * 0)) with 1.
  split_and!; ulia.
Qed.

Lemma put_be4 a b c d : is_u8 a -> is_u8 b -> is_u8 c -> is_u8 d -> PUTU32 (be4 a b c d) = [a; b; c; d].
Proof.
  intros Ha Hb Hc Hd. destruct (byte_of_be4 a b c d) as (E3 & E2 & E1 & E0); try done.
  unfold byte_of in *. rewrite !land_255 in *. unfold PUTU32. change (8 * 3) with 24 in E3. change (8 * 2) with 16 in E2.
  change (8 * 1) with 8 in E1. change (8 * 0) with 0 in E0. rewrite Z.shiftr_0_r in E0. by rewrite E3, E2, E1, E0.
Qed.

(** ** The tables *)

(** Multiplication by two and three in the field of AES. *)
Definition x2 (v : Z) : Z := Z.lxor (if Z.land v 0x80 =? 0x80 then 0x1b else 0x00) (u8 (Z.shiftl (Z.land v 0x7f) 1)).

Definition x3 (v : Z) : Z := Z.lxor v (x2 v).

Lemma x2_u8 v : is_u8 v -> is_u8 (x2 v).
Proof.
  intros _. apply (word_lxor 8); [by destruct (_ =? _)|]. apply word_u8, u8_range.
Qed.

Lemma x3_u8 v : is_u8 v -> is_u8 (x3 v).
Proof. intros H. apply (word_lxor 8); [done|by apply x2_u8]. Qed.

Lemma sbox_u8 v : is_u8 v -> is_u8 (sbox v).
Proof.
  intros H. assert ((0 <=? sbox v) && (sbox v <? 256) = true) as E; [|unfold is_u8; lia].
  revert v H. apply forall_u8. vm_compute. reflexivity.
Qed.

Definition te_ok (x : Z) : bool :=
  let t := at_ Te0 x in
  let s := sbox x in
  (t =? be4 (x2 s) s s (x3 s)) && (rotr t 8 =? be4 (x3 s) (x2 s) s s) &&
  (rotr t 16 =? be4 s (x3 s) (x2 s) s) && (rotr t 24 =? be4 s s (x3 s) (x2 s)) &&
  (Z.land (u32 (Z.shiftl t 8)) 0xff000000 =? be4 s 0 0 0) && (Z.land t 0x00ff0000 =? be4 0 s 0 0) &&
  (Z.land t 0x0000ff00 =? be4 0 0 s 0) && (Z.land (Z.shiftr t 8) 0x000000ff =? be4 0 0 0 s).

Lemma te_table x : is_u8 x ->
  let t := at_ Te0 x in
  let s := sbox x in
  t = be4 (x2 s) s s (x3 s) /\ rotr t 8 = be4 (x3 s) (x2 s) s s /\
  rotr t 16 = be4 s (x3 s) (x2 s) s /\ rotr t 24 = be4 s s (x3 s) (x2 s) /\
  Z.land (u32 (Z.shiftl t 8)) 0xff000000 = be4 s 0 0 0 /\ Z.land t 0x00ff0000 = be4 0 s 0 0 /\
  Z.land t 0x0000ff00 = be4 0 0 s 0 /\ Z.land (Z.shiftr t 8) 0x000000ff = be4 0 0 0 s.
Proof.
  intros H. assert (te_ok x = true) as E; [revert x H; apply forall_u8; vm_compute; reflexivity|].
  unfold te_ok in E. repeat (apply andb_true_iff in E as [E ?]). cbn zeta.
  repeat match goal with H : (_ =? _) = true |- _ => apply Z.eqb_eq in H end. by split_and!.
Qed.

(** [mix_column] on four bytes. *)
Lemma mix_column_val a b c d :
  is_u8 a -> is_u8 b -> is_u8 c -> is_u8 d ->
  mix_column [a; b; c; d] =
  [Z.lxor (Z.lxor (x2 a) (x3 b)) (Z.lxor c d); Z.lxor (Z.lxor (x2 b) (x3 c)) (Z.lxor d a);
   Z.lxor (Z.lxor (x2 c) (x3 d)) (Z.lxor a b); Z.lxor (Z.lxor (x2 d) (x3 a)) (Z.lxor b c)].
Proof.
  intros Ha Hb Hc Hd. unfold mix_column, shift_f7. cbn [map nth Nat.sub].
  assert (forall v, is_u8 v -> (Z.land (Z.land v 0x7f) 0x80 =? 0x80) = false) as Hf.
  { intros v Hv. apply negb_true_iff. revert v Hv. apply forall_u8. vm_compute. reflexivity. }
  assert (forall v, is_u8 v -> Z.land (u8 (Z.shiftl (Z.land v 0x7f) 1)) 0xfe = u8 (Z.shiftl (Z.land v 0x7f) 1)) as He.
  { intros v Hv. apply Z.eqb_eq. revert v Hv. apply forall_u8. vm_compute. reflexivity. }
  rewrite !Hf, He by done. unfold xor_32. cbn [take zip_with nth]. fold (x2 a) (x2 b) (x2 c) (x2 d) (x3 a) (x3 b) (x3 c) (x3 d).
  done.
Qed.

(** ** A round *)

(** Sixteen bytes. *)
Definition block (l : list Z) : Prop := length l = 16%nat /\ Forall is_u8 l.

Definition quad_of (l : list Z) : quad := Quad (GETU32 l 0) (GETU32 l 4) (GETU32 l 8) (GETU32 l 12).

Definition words_of (l : list Z) : list Z := [GETU32 l 0; GETU32 l 4; GETU32 l 8; GETU32 l 12].

(** The bytes of a block by name. *)
Ltac blocks :=
  repeat match goal with
  | H : block ?l |- _ =>
    is_var l; let Hl := fresh "Hl" in let Hu := fresh "Hu" in destruct H as [Hl Hu];
    do 17 (let x := fresh "x" in destruct l as [|x l]; try discriminate Hl);
    forall_split Hu; clear Hl Hu
  end.

Lemma getu32_be4 l p : GETU32 l p = be4 (nth p l 0) (nth (p + 1) l 0) (nth (p + 2) l 0) (nth (p + 3) l 0).
Proof. done. Qed.

(** The bytes after the four steps of a round, key included. *)
Definition round_bytes (c k : list Z) : list Z :=
  let b := shift_row (byte_sub c) in
  xor_128 (mix_column (take 4 b) ++ mix_column (take 4 (drop 4 b)) ++ mix_column (take 4 (drop 8 b)) ++
           mix_column (take 4 (drop 12 b))) k.

Lemma nth_byte_sub c i : block c -> (i < 16)%nat -> nth i (byte_sub c) 0 = sbox (nth i c 0).
Proof.
  intros [Hl _] Hi. unfold byte_sub. rewrite (nth_indep _ 0 (sbox 0)) by (rewrite length_map; lia). apply map_nth.
Qed.

Lemma block_nth c i : block c -> (i < 16)%nat -> is_u8 (nth i c 0).
Proof.
  intros [Hl Hu] Hi. rewrite nth_lookup. destruct (lookup_lt_is_Some_2 c i) as [x Hx]; [lia|]. rewrite Hx. cbn.
  by eapply (Forall_lookup_1 is_u8).
Qed.

(** A column of the state, as ROUND and as [mix_column] compute it. *)
Lemma column_eq a b c d k0 k1 k2 k3 :
  is_u8 a -> is_u8 b -> is_u8 c -> is_u8 d ->
  let s v := sbox v in
  Z.lxor (Z.lxor (Z.lxor (Z.lxor (at_ Te0 a) (rotr (at_ Te0 b) 8)) (rotr (at_ Te0 c) 16)) (rotr (at_ Te0 d) 24)) (be4 k0 k1 k2 k3) =
  be4 (Z.lxor (Z.lxor (Z.lxor (x2 (s a)) (x3 (s b))) (Z.lxor (s c) (s d))) k0)
      (Z.lxor (Z.lxor (Z.lxor (x2 (s b)) (x3 (s c))) (Z.lxor (s d) (s a))) k1)
      (Z.lxor (Z.lxor (Z.lxor (x2 (s c)) (x3 (s d))) (Z.lxor (s a) (s b))) k2)
      (Z.lxor (Z.lxor (Z.lxor (x2 (s d)) (x3 (s a))) (Z.lxor (s b) (s c))) k3).
Proof.
  intros Ha Hb Hc Hd s.
  destruct (te_table a Ha) as (-> & _). destruct (te_table b Hb) as (_ & -> & _).
  destruct (te_table c Hc) as (_ & _ & -> & _). destruct (te_table d Hd) as (_ & _ & _ & -> & _).
  rewrite !be4_lxor. fold (s a) (s b) (s c) (s d). f_equal; xor_solve.
Qed.

Lemma round_bytes_val c k :
  block c -> block k ->
  let s i := sbox (nth i c 0) in
  let col a b e d := fun i0 i1 i2 i3 =>
    [Z.lxor (Z.lxor (Z.lxor (x2 (s a)) (x3 (s b))) (Z.lxor (s e) (s d))) (nth i0 k 0);
     Z.lxor (Z.lxor (Z.lxor (x2 (s b)) (x3 (s e))) (Z.lxor (s d) (s a))) (nth i1 k 0);
     Z.lxor (Z.lxor (Z.lxor (x2 (s e)) (x3 (s d))) (Z.lxor (s a) (s b))) (nth i2 k 0);
     Z.lxor (Z.lxor (Z.lxor (x2 (s d)) (x3 (s a))) (Z.lxor (s b) (s e))) (nth i3 k 0)] in
  round_bytes c k = col 0%nat 5%nat 10%nat 15%nat 0%nat 1%nat 2%nat 3%nat ++ col 4%nat 9%nat 14%nat 3%nat 4%nat 5%nat 6%nat 7%nat ++
    col 8%nat 13%nat 2%nat 7%nat 8%nat 9%nat 10%nat 11%nat ++ col 12%nat 1%nat 6%nat 11%nat 12%nat 13%nat 14%nat 15%nat.
Proof.
  intros Hc Hk s col. unfold round_bytes, shift_row. cbn [map]. rewrite !nth_byte_sub by (done || lia).
  fold (s 0%nat) (s 1%nat) (s 2%nat) (s 3%nat) (s 4%nat) (s 5%nat) (s 6%nat) (s 7%nat)
    (s 8%nat) (s 9%nat) (s 10%nat) (s 11%nat) (s 12%nat) (s 13%nat) (s 14%nat) (s 15%nat).
  assert (forall i, (i < 16)%nat -> is_u8 (s i)) as Hs by (intros i Hi; by apply sbox_u8, block_nth).
  cbn [take drop]. rewrite !mix_column_val by (apply Hs; lia). unfold col. clearbody s. clear col Hc.
  destruct Hk as [Hl _]. do 17 (destruct k as [|? k]; try discriminate Hl). reflexivity.
Qed.

Lemma round_bytes_block c k : block c -> block k -> block (round_bytes c k).
Proof.
  intros Hc Hk. rewrite round_bytes_val by done. cbn zeta. split; [done|].
  assert (forall i, (i < 16)%nat -> is_u8 (sbox (nth i c 0))) as Hs by (intros i Hi; by apply sbox_u8, block_nth).
  assert (forall i, (i < 16)%nat -> is_u8 (nth i k 0)) as Hn by (intros i Hi; by apply block_nth).
  cbn [app]. repeat match goal with |- Forall _ (_ :: _) => constructor | |- Forall _ [] => constructor end.
  all: apply (word_lxor 8); [apply (word_lxor 8); apply (word_lxor 8)|]; first [apply x2_u8 | apply x3_u8 | idtac];
    first [apply Hs; lia | apply Hn; lia].
Qed.

(** ROUND on the words of a state is the round on its bytes. *)
Lemma ROUND_eq i rk c k :
  block c -> block k -> take 4 (drop (4 * i) rk) = words_of k ->
  ROUND i rk (quad_of c) = quad_of (round_bytes c k).
Proof.
  intros Hc Hk Hrk.
  assert (forall j, (j < 4)%nat -> nth (4 * i + j) rk 0 = nth j (words_of k) 0) as Hn.
  { intros j Hj. rewrite <- Hrk. rewrite nth_drop_add, !nth_lookup. by rewrite lookup_take_lt by lia. }
  unfold ROUND, quad_of. cbn [w0 w1 w2 w3]. rewrite !Hn by lia. unfold words_of. cbn [nth].
  rewrite !getu32_be4. cbn [Nat.add]. unfold TE0, TE1, TE2, TE3.
  pose proof (fun i Hi => block_nth c i Hc Hi) as Hb.
  destruct (byte_of_be4 (nth 0 c 0) (nth 1 c 0) (nth 2 c 0) (nth 3 c 0)) as (-> & -> & -> & ->); try (apply Hb; lia).
  destruct (byte_of_be4 (nth 4 c 0) (nth 5 c 0) (nth 6 c 0) (nth 7 c 0)) as (-> & -> & -> & ->); try (apply Hb; lia).
  destruct (byte_of_be4 (nth 8 c 0) (nth 9 c 0) (nth 10 c 0) (nth 11 c 0)) as (-> & -> & -> & ->); try (apply Hb; lia).
  destruct (byte_of_be4 (nth 12 c 0) (nth 13 c 0) (nth 14 c 0) (nth 15 c 0)) as (-> & -> & -> & ->); try (apply Hb; lia).
  rewrite !column_eq by (apply Hb; lia). rewrite round_bytes_val by done. cbn zeta. cbn [app nth].
  reflexivity.
Qed.

(** ** The last round *)

Lemma last_column a b c d k0 k1 k2 k3 :
  is_u8 a -> is_u8 b -> is_u8 c -> is_u8 d -> is_u8 k0 -> is_u8 k1 -> is_u8 k2 -> is_u8 k3 ->
  PUTU32 (Z.lxor (Z.lxor (Z.lxor (Z.lxor (Z.land (u32 (Z.shiftl (at_ Te0 a) 8)) 0xff000000) (Z.land (at_ Te0 b) 0x00ff0000))
    (Z.land (at_ Te0 c) 0x0000ff00)) (Z.land (Z.shiftr (at_ Te0 d) 8) 0x000000ff)) (be4 k0 k1 k2 k3)) =
  [Z.lxor (sbox a) k0; Z.lxor (sbox b) k1; Z.lxor (sbox c) k2; Z.lxor (sbox d) k3].
Proof.
  intros Ha Hb Hc Hd H0 H1 H2 H3.
  destruct (te_table a Ha) as (_ & _ & _ & _ & -> & _). destruct (te_table b Hb) as (_ & _ & _ & _ & _ & -> & _).
  destruct (te_table c Hc) as (_ & _ & _ & _ & _ & _ & -> & _). destruct (te_table d Hd) as (_ & _ & _ & _ & _ & _ & _ & ->).
  pose proof (sbox_u8 a Ha); pose proof (sbox_u8 b Hb); pose proof (sbox_u8 c Hc); pose proof (sbox_u8 d Hd).
  rewrite !be4_lxor, !Z.lxor_0_l, !Z.lxor_0_r. apply put_be4; by apply (word_lxor 8).
Qed.

(** The bytes after the last round, which has no [mix_column]. *)
Definition last_bytes (c k : list Z) : list Z := xor_128 (shift_row (byte_sub c)) k.

(** The end of [rijndaelEncrypt]. *)
Definition last_words (t : quad) (rk : list Z) : list Z :=
  let out a b c d k := Z.lxor (Z.lxor (Z.lxor (Z.lxor (TE41 a) (TE42 b)) (TE43 c)) (TE44 d)) k in
  PUTU32 (out (w0 t) (w1 t) (w2 t) (w3 t) (nth 0 rk 0)) ++ PUTU32 (out (w1 t) (w2 t) (w3 t) (w0 t) (nth 1 rk 0)) ++
  PUTU32 (out (w2 t) (w3 t) (w0 t) (w1 t) (nth 2 rk 0)) ++ PUTU32 (out (w3 t) (w0 t) (w1 t) (w2 t) (nth 3 rk 0)).

Lemma last_eq c k : block c -> block k -> last_words (quad_of c) (words_of k) = last_bytes c k.
Proof.
  intros Hc Hk. unfold last_words, quad_of, words_of, TE41, TE42, TE43, TE44. cbn [w0 w1 w2 w3 nth].
  rewrite !getu32_be4. cbn [Nat.add].
  pose proof (fun i Hi => block_nth c i Hc Hi) as Hb. pose proof (fun i Hi => block_nth k i Hk Hi) as Hn.
  destruct (byte_of_be4 (nth 0 c 0) (nth 1 c 0) (nth 2 c 0) (nth 3 c 0)) as (-> & -> & -> & ->); try (apply Hb; lia).
  destruct (byte_of_be4 (nth 4 c 0) (nth 5 c 0) (nth 6 c 0) (nth 7 c 0)) as (-> & -> & -> & ->); try (apply Hb; lia).
  destruct (byte_of_be4 (nth 8 c 0) (nth 9 c 0) (nth 10 c 0) (nth 11 c 0)) as (-> & -> & -> & ->); try (apply Hb; lia).
  destruct (byte_of_be4 (nth 12 c 0) (nth 13 c 0) (nth 14 c 0) (nth 15 c 0)) as (-> & -> & -> & ->); try (apply Hb; lia).
  rewrite !last_column by first [apply Hb; lia | apply Hn; lia].
  unfold last_bytes, shift_row. cbn [map]. rewrite !nth_byte_sub by (done || lia).
  generalize (fun i => sbox (nth i c 0)). clear Hb Hn. destruct Hk as [Hl _].
  do 17 (destruct k as [|? k]; try discriminate Hl). reflexivity.
Qed.

(** ** The key schedule *)

Definition sub_word_bytes (i : nat) (key : list Z) : list Z :=
  [Z.lxor (Z.lxor (nth 0 key 0) (sbox (nth 13 key 0))) (nth i rcon_table 0); Z.lxor (nth 1 key 0) (sbox (nth 14 key 0));
   Z.lxor (nth 2 key 0) (sbox (nth 15 key 0)); Z.lxor (nth 3 key 0) (sbox (nth 12 key 0))].

Lemma next_key_val key i :
  block key ->
  let k j := nth j key 0 in
  let a := nth 0 (sub_word_bytes i key) 0 in let b := nth 1 (sub_word_bytes i key) 0 in
  let c := nth 2 (sub_word_bytes i key) 0 in let d := nth 3 (sub_word_bytes i key) 0 in
  next_key key i =
  [a; b; c; d; Z.lxor (k 4%nat) a; Z.lxor (k 5%nat) b; Z.lxor (k 6%nat) c; Z.lxor (k 7%nat) d;
   Z.lxor (k 8%nat) (Z.lxor (k 4%nat) a); Z.lxor (k 9%nat) (Z.lxor (k 5%nat) b);
   Z.lxor (k 10%nat) (Z.lxor (k 6%nat) c); Z.lxor (k 11%nat) (Z.lxor (k 7%nat) d);
   Z.lxor (k 12%nat) (Z.lxor (k 8%nat) (Z.lxor (k 4%nat) a)); Z.lxor (k 13%nat) (Z.lxor (k 9%nat) (Z.lxor (k 5%nat) b));
   Z.lxor (k 14%nat) (Z.lxor (k 10%nat) (Z.lxor (k 6%nat) c)); Z.lxor (k 15%nat) (Z.lxor (k 11%nat) (Z.lxor (k 7%nat) d))].
Proof.
  intros [Hl _]. do 17 (destruct key as [|? key]; try discriminate Hl). reflexivity.
Qed.

Lemma rcon_u8 i : is_u8 (nth i rcon_table 0).
Proof. do 12 (destruct i as [|i]; [done|]). by destruct i. Qed.

Lemma next_key_block key i : block key -> block (next_key key i).
Proof.
  intros Hk. rewrite next_key_val by done. cbn zeta. unfold sub_word_bytes. cbn [nth]. split; [done|].
  pose proof (fun i Hi => block_nth key i Hk Hi) as Hn. pose proof (rcon_u8 i).
  repeat match goal with |- Forall _ (_ :: _) => constructor | |- Forall _ [] => constructor end.
  all: repeat (apply (word_lxor 8)); try apply sbox_u8; first [done | apply Hn; lia].
Qed.

Lemma RCON_val i : (i < 10)%nat -> RCON i = be4 (nth i rcon_table 0) 0 0 0.
Proof. intros H. do 10 (destruct i as [|i]; [reflexivity|]). lia. Qed.

(** A turn of the schedule on words is [next_key] on bytes. *)
Lemma keysetup_step n i key :
  block key -> (i < 10)%nat ->
  keysetup_128 (S n) i (GETU32 key 0) (GETU32 key 4) (GETU32 key 8) (GETU32 key 12) =
  (let k := next_key key i in words_of k ++ keysetup_128 n (S i) (GETU32 k 0) (GETU32 k 4) (GETU32 k 8) (GETU32 k 12)).
Proof.
  intros Hk Hi. pose proof (fun i Hi => block_nth key i Hk Hi) as Hn.
  assert (quad_of (next_key key i) =
    let temp := GETU32 key 12 in
    let k4 := Z.lxor (Z.lxor (Z.lxor (Z.lxor (Z.lxor (GETU32 key 0) (TE421 temp)) (TE432 temp)) (TE443 temp)) (TE414 temp)) (RCON i) in
    let k5 := Z.lxor (GETU32 key 4) k4 in
    let k6 := Z.lxor (GETU32 key 8) k5 in
    Quad k4 k5 k6 (Z.lxor temp k6)) as E.
  { cbn zeta. unfold TE421, TE432, TE443, TE414. rewrite RCON_val by done. rewrite !getu32_be4. cbn [Nat.add].
    destruct (byte_of_be4 (nth 12 key 0) (nth 13 key 0) (nth 14 key 0) (nth 15 key 0)) as (-> & -> & -> & ->); try (apply Hn; lia).
    destruct (te_table (nth 13 key 0)) as (_ & _ & _ & _ & -> & _); [apply Hn; lia|].
    destruct (te_table (nth 14 key 0)) as (_ & _ & _ & _ & _ & -> & _); [apply Hn; lia|].
    destruct (te_table (nth 15 key 0)) as (_ & _ & _ & _ & _ & _ & -> & _); [apply Hn; lia|].
    destruct (te_table (nth 12 key 0)) as (_ & _ & _ & _ & _ & _ & _ & ->); [apply Hn; lia|].
    rewrite !be4_lxor, !Z.lxor_0_r. rewrite next_key_val by done. reflexivity. }
  unfold quad_of in E. injection E as E0 E1 E2 E3. cbn [keysetup_128]. cbn zeta. unfold words_of.
  rewrite E0, E1, E2, E3. done.
Qed.

(** The schedule, key after key. *)
Fixpoint sched (n i : nat) (key : list Z) : list Z :=
  words_of key ++ match n with O => [] | S n => sched n (S i) (next_key key i) end.

Lemma keysetup_sched n i key :
  block key -> (i + n <= 10)%nat ->
  words_of key ++ keysetup_128 n i (GETU32 key 0) (GETU32 key 4) (GETU32 key 8) (GETU32 key 12) = sched n i key.
Proof.
  revert i key. induction n as [|n IH]; intros i key Hk Hi; [done|]. rewrite keysetup_step by (done || lia). cbn zeta.
  rewrite IH; [done|by apply next_key_block|lia].
Qed.

(** ** All rounds *)

(** Rounds and keys are not evaluated in what follows. *)
#[local] Opaque next_key round_bytes ROUND GETU32 words_of quad_of.

Lemma turn_mid c k j : j <> 10%nat -> aes_turn (c, k) j = (round_bytes c k, next_key k j).
Proof. intros Hj. unfold aes_turn. by rewrite (proj2 (Nat.eqb_neq _ _)). Qed.

Lemma sched_head n i key : take 4 (sched n i key) = words_of key.
Proof. by destruct n. Qed.

#[local] Transparent words_of.

Lemma sched_second n i key : take 4 (drop 4 (sched (S n) i key)) = words_of (next_key key i).
Proof. cbn [sched words_of app drop]. apply sched_head. Qed.

Lemma sched_drop n i key : drop 8 (sched (S (S n)) i key) = sched n (S (S i)) (next_key (next_key key i) (S i)).
Proof. done. Qed.

Lemma sched_nil i key : sched 0 i key = words_of key.
Proof. done. Qed.

Lemma round_loop_last rk s : round_loop 1 rk s = (ROUND 1 rk s, drop 8 rk).
Proof. done. Qed.

Lemma round_loop_more r rk s :
  round_loop (S (S r)) rk s = round_loop (S r) (drop 8 rk) (ROUND 0 (drop 8 rk) (ROUND 1 rk s)).
Proof. done. Qed.

Lemma turn_cons c k j n :
  j <> 10%nat -> fold_left aes_turn (seq j (S n)) (c, k) = fold_left aes_turn (seq (S j) n) (round_bytes c k, next_key k j).
Proof. intros Hj. cbn [seq fold_left]. by rewrite turn_mid. Qed.

#[local] Opaque words_of aes_turn sched round_loop.

Lemma round_loop_eq r i c key c' k' :
  block c -> block key -> (i + 2 * r + 1 < 10)%nat ->
  fold_left aes_turn (seq (S i) (S (2 * r))) (c, next_key key i) = (c', k') ->
  round_loop (S r) (sched (S (S (2 * r))) i key) (quad_of c) = (quad_of c', words_of k') /\ block c' /\ block k'.
Proof.
  revert i c key. induction r as [|r IH]; intros i c key Hc Hk Hi E; pose proof (next_key_block key i Hk) as Hk1;
    pose proof (round_bytes_block c _ Hc Hk1) as Hc1; pose proof (next_key_block _ (S i) Hk1) as Hk2;
    rewrite turn_cons in E by lia.
  - cbn [Nat.mul seq fold_left] in E. injection E as <- <-. split; [|done].
    rewrite round_loop_last, sched_drop, (ROUND_eq 1 _ c (next_key key i)); [|done|done|apply sched_second].
    by rewrite sched_nil.
  - replace (2 * S r)%nat with (S (S (2 * r))) in * by lia. pose proof (round_bytes_block _ _ Hc1 Hk2) as Hc2.
    rewrite turn_cons in E by lia. apply (IH (S (S i))) in E; [|done|done|lia]. destruct E as [E HB]. split; [|done].
    rewrite <- E, round_loop_more, sched_drop.
    rewrite (ROUND_eq 1 _ c (next_key key i)); [|done|done|apply sched_second].
    rewrite (ROUND_eq 0 _ _ (next_key (next_key key i) (S i))); [done|done|done|]. apply sched_head.
Qed.

#[local] Transparent words_of quad_of GETU32 sched.

Lemma xor_128_block a b : block a -> block b -> block (xor_128 a b).
Proof.
  intros [La Ua] [Lb Ub]. unfold xor_128. rewrite !take_ge by lia. split; [rewrite length_zip_with; lia|by apply zip_lxor_u8].
Qed.

Lemma first_words key pt :
  block key -> block pt ->
  Quad (Z.lxor (GETU32 pt 0) (GETU32 key 0)) (Z.lxor (GETU32 pt 4) (GETU32 key 4))
       (Z.lxor (GETU32 pt 8) (GETU32 key 8)) (Z.lxor (GETU32 pt 12) (GETU32 key 12)) = quad_of (xor_128 key pt).
Proof.
  intros [Hk _] [Hp _]. do 17 (destruct key as [|? key]; try discriminate Hk). do 17 (destruct pt as [|? pt]; try discriminate Hp).
  rewrite !getu32_be4. cbn [Nat.add nth]. rewrite !be4_lxor. unfold quad_of. rewrite !getu32_be4. unfold xor_128.
  cbn [take zip_with Nat.add nth]. f_equal; f_equal; apply Z.lxor_comm.
Qed.

(** ** Theorems *)

#[local] Transparent aes_turn.
#[local] Opaque GETU32 quad_of last_words.

(** C12. The two AES implementations of the driver agree: for a 128-bit key the
    table-driven cipher with its expanded key computes what the byte-oriented
    cipher computes with its keys on the fly. *)
Theorem aes_agree key pt :
  length key = 16%nat -> Forall is_u8 key -> length pt = 16%nat -> Forall is_u8 pt ->
  exists ctx, aes_encrypt_init true key 16 = Some ctx /\ aes_encrypt ctx pt = aes128k128d key pt.
Proof.
  intros Hl Hu Lp Up. assert (block key) as Hk by done. assert (block pt) as Hp by done.
  eexists. split; [reflexivity|]. unfold aes_encrypt, rijndaelEncrypt. cbn [fst snd].
  change [GETU32 key 0; GETU32 key 4; GETU32 key 8; GETU32 key 12] with (words_of key).
  rewrite keysetup_sched by (done || lia).
  change (nth 0 (sched 10 0 key) 0) with (GETU32 key 0). change (nth 1 (sched 10 0 key) 0) with (GETU32 key 4).
  change (nth 2 (sched 10 0 key) 0) with (GETU32 key 8). change (nth 3 (sched 10 0 key) 0) with (GETU32 key 12).
  rewrite first_words by done. change (10 / 2)%nat with 5%nat.
  unfold aes128k128d. change (seq 1 10) with (seq 1 (S (2 * 4)) ++ [10%nat]). rewrite fold_left_app.
  destruct (fold_left aes_turn (seq 1 (S (2 * 4))) (xor_128 key pt, next_key key 0)) as [c k] eqn:F.
  apply (round_loop_eq 4 0) in F; [|by apply xor_128_block|done|lia]. destruct F as (E & B1 & B2).
  change (S (S (2 * 4))) with 10%nat in E. rewrite E. cbn [fold_left].
  exact (last_eq c k B1 B2).
Qed.

(** The example of FIPS-197. *)
Definition fips_key (n : nat) : list Z := map Z.of_nat (seq 0 n).

Definition fips_plain : list Z := map (fun i => 17 * Z.of_nat i) (seq 0 16).

Lemma aes_agree_witness :
  exists ctx, aes_encrypt_init true (fips_key 16) 16 = Some ctx /\ aes_encrypt ctx fips_plain = aes128k128d (fips_key 16) fips_plain.
Proof. apply (aes_agree (fips_key 16) fips_plain); first [reflexivity | by apply bytes_ok]. Defined.

(** Ciphertexts of the standard for the three key sizes. *)
Lemma aes_standard_examples :
  map (fun n => aes_encrypt_init true (fips_key n) (Z.of_nat n) ≫= fun ctx => Some (aes_encrypt ctx fips_plain)) [16; 24; 32]%nat =
  [Some [0x69; 0xc4; 0xe0; 0xd8; 0x6a; 0x7b; 0x04; 0x30; 0xd8; 0xcd; 0xb7; 0x80; 0x70; 0xb4; 0xc5; 0x5a];
   Some [0xdd; 0xa9; 0x7c; 0xa4; 0x86; 0x4c; 0xdf; 0xe0; 0x6e; 0xaf; 0x70; 0xa0; 0xec; 0x0d; 0x71; 0x91];
   Some [0x8e; 0xa2; 0xb7; 0xca; 0x51; 0x67; 0x45; 0xbf; 0xea; 0xfc; 0x49; 0x90; 0x4b; 0x49; 0x60; 0x89]].
Proof. vm_compute. reflexivity. Qed.
