(* ===== verification/Aead.v ===== *)
(** * Counter mode and authenticated encryption

    What the two modes of src/core/crypto share: the interface to the block
    cipher, the loop that encrypts full blocks with a counter, the comparison
    of tags, the allocator, and the interface [Aead] that a mode promises to
    the frame protection of Mpdu.  Memory is an object of ByteBuf. *)
From Stdlib Require Import ZArith Lia Bool List Btauto.
From stdpp Require Import base tactics list numbers.
From S2P Require Import Prelude ByteBuf WordBits SecCrypto SecFrame Aes.

(** What the modes need of a block cipher: sixteen bytes for every block. *)
Class BlockCipher (E : list Z -> list Z) := {
  block_length : forall b, length (E b) = 16%nat;
  block_bytes : forall b, Forall is_u8 (E b) }.

#[export] Instance aes_block_cipher ctx : BlockCipher (aes_encrypt ctx).
Proof.
  split; intros b; unfold aes_encrypt, rijndaelEncrypt; destruct (round_loop _ _ _) as [t rk]; [done|].
  unfold PUTU32. cbn [app]. repeat (constructor; [apply u8_range|]). constructor.
Qed.

(** ** Definitions *)

(** [xor_aes_block] of aes-ccm.c and [xor_block] of aes-gcm.c. *)
Definition xor_aes_block (dst src : list Z) : list Z := zip_with Z.lxor (take 16 dst) (take 16 src).

(** [os_malloc]: the fresh object, of whatever content, or nothing. *)
Definition allocator := Z -> option (list Z).

Definition gets_memory (os_malloc : allocator) : Prop := forall n, 0 <= n -> exists m, os_malloc n = Some m /\ zlen m = n.

Definition AES_PRIV_SIZE : Z := 4 * 4 * 15 + 4.

(** [aes_encrypt_init] with the allocator. *)
Definition aes_ctx (os_malloc : allocator) (key : list Z) (key_len : Z) : option (list Z * nat) :=
  aes_encrypt_init (bool_decide (is_Some (os_malloc AES_PRIV_SIZE))) key key_len.

Definition key_len_ok (key_len : Z) : Prop := key_len = 16 \/ key_len = 24 \/ key_len = 32.

(** [os_memcmp_const]: zero exactly when the [len] bytes agree. *)
Definition os_memcmp_const (a b : list Z) (len : Z) : Z :=
  fold_left (fun res p => u8 (Z.lor res (Z.lxor p.1 p.2))) (take (Z.to_nat len) (zip a b)) 0.

(** The loops over full blocks: a counter, its successor, and the block of key
    stream for it. *)
Section Counter.
Context {C : Type} (next : C -> C) (blk : C -> list Z).

(** [n] blocks of [data] written at [out]. *)
Fixpoint ctr_loop (n : nat) (c : C) (data m : list Z) (out : Z) : outcome (list Z) :=
  match n with
  | O => Ret m
  | S n =>
    m ← wrs m out (xor_aes_block (blk c) data);
    ctr_loop n (next c) (drop 16 data) m (out + 16)
  end.

(** The key stream, and a message against it. *)
Fixpoint key_blocks (n : nat) (c : C) : list Z :=
  match n with O => [] | S n => blk c ++ key_blocks n (next c) end.

Definition ctr_mode (c : C) (data : list Z) : list Z := zip_with Z.lxor data (key_blocks (S (length data / 16)) c).
End Counter.

(** ** Exclusive or of messages *)

Lemma length_zip_xor (a b : list Z) : (length a <= length b)%nat -> length (zip_with Z.lxor a b) = length a.
Proof. intros H. rewrite length_zip_with. lia. Qed.

Lemma zip_xor_comm (a b : list Z) : zip_with Z.lxor a b = zip_with Z.lxor b a.
Proof. revert b. induction a as [|x a IH]; intros [|y b]; cbn; [done..|]. by rewrite IH, Z.lxor_comm. Qed.

(** What is behind the end of the first list does not matter. *)
Lemma zip_xor_take (a b : list Z) : zip_with Z.lxor a b = zip_with Z.lxor a (take (length a) b).
Proof. revert b. induction a as [|x a IH]; intros [|y b]; cbn; [done..|]. by rewrite IH. Qed.

Lemma zip_xor_involutive (a b : list Z) :
  (length a <= length b)%nat -> zip_with Z.lxor (zip_with Z.lxor a b) b = a.
Proof.
  intros H. rewrite (zip_xor_take a b), (zip_xor_take (zip_with _ _ _) b). rewrite length_zip_xor by (rewrite length_take; lia).
  apply zip_lxor_twice. rewrite length_take. lia.
Qed.

(** ** The key stream *)

Section Stream.
Context {C : Type} (next : C -> C) (blk : C -> list Z) (blk16 : forall c, length (blk c) = 16%nat).

Lemma key_blocks_length n c : length (key_blocks next blk n c) = (16 * n)%nat.
Proof. revert c. induction n as [|n IH]; intros c; cbn [key_blocks]; [done|]. rewrite length_app, IH, blk16. lia. Qed.

Lemma key_blocks_snoc n c : key_blocks next blk (S n) c = key_blocks next blk n c ++ blk (Nat.iter n next c).
Proof.
  revert c. induction n as [|n IH]; intros c; [cbn; by rewrite app_nil_r|]. change (key_blocks next blk (S (S n)) c) with (blk c ++ key_blocks next blk (S n) (next c)).
  rewrite IH. cbn [key_blocks]. rewrite <- app_assoc. do 3 f_equal. by rewrite <- Nat.iter_succ_r.
Qed.

Lemma stream_enough (data : list Z) c : (length data <= length (key_blocks next blk (S (length data / 16)) c))%nat.
Proof.
  rewrite key_blocks_length. pose proof (Nat.div_mod_eq (length data) 16). pose proof (Nat.mod_upper_bound (length data) 16). lia.
Qed.

Lemma ctr_mode_length c data : length (ctr_mode next blk c data) = length data.
Proof. apply length_zip_xor, stream_enough. Qed.

Lemma ctr_mode_involutive c data : ctr_mode next blk c (ctr_mode next blk c data) = data.
Proof. unfold ctr_mode at 1. rewrite ctr_mode_length. apply zip_xor_involutive, stream_enough. Qed.

(** Full blocks, and what is left against the next one. *)
Lemma ctr_mode_split c data :
  let n := (length data / 16)%nat in
  ctr_mode next blk c data =
  zip_with Z.lxor (take (16 * n) data) (key_blocks next blk n c) ++ zip_with Z.lxor (drop (16 * n) data) (blk (Nat.iter n next c)).
Proof.
  intros n. unfold ctr_mode. fold n. rewrite key_blocks_snoc. rewrite <- (take_drop (16 * n) data) at 1.
  rewrite zip_with_app; [done|]. rewrite length_take, key_blocks_length.
  pose proof (Nat.div_mod_eq (length data) 16). unfold n. lia.
Qed.

Lemma ctr_loop_spec n c data pre w :
  (16 * n <= length data)%nat -> (16 * n <= length w)%nat ->
  ctr_loop next blk n c data (pre ++ w) (zlen pre) =
  Ret (pre ++ zip_with Z.lxor (take (16 * n) data) (key_blocks next blk n c) ++ drop (16 * n) w).
Proof.
  revert c data pre w. induction n as [|n IH]; intros i data pre w Hd Hw.
  - cbn [ctr_loop key_blocks]. change (16 * 0)%nat with 0%nat. by rewrite zip_with_nil_r, drop_0.
  - cbn [ctr_loop]. set (s := blk i). assert (length s = 16%nat) as Hs by apply blk16.
    set (c := xor_aes_block s data). assert (length c = 16%nat) as Hc.
    { unfold c, xor_aes_block. rewrite length_zip_xor; rewrite !length_take; lia. }
    rewrite <- (take_drop 16 w) at 1. rewrite (wrs_at pre (take 16 w) c) by (done || rewrite length_take; lia).
    rewrite bind_Ret, app_assoc. replace (zlen pre + 16) with (zlen (pre ++ c)) by (rewrite zlen_app; unfold zlen; lia).
    rewrite IH by (rewrite length_drop; lia). f_equal. rewrite <- app_assoc. f_equal.
    rewrite drop_drop. replace (16 + 16 * n)%nat with (16 * S n)%nat by lia. rewrite app_assoc. f_equal.
    cbn [key_blocks]. fold s. replace (16 * S n)%nat with (16 + 16 * n)%nat by lia.
    rewrite <- (take_drop 16 (take (16 + 16 * n) data)). rewrite take_take, Nat.min_l by lia.
    rewrite zip_with_app by (rewrite length_take; lia). f_equal.
    + unfold c, xor_aes_block. rewrite (take_ge s) by lia. apply zip_xor_comm.
    + f_equal. rewrite take_drop_commute. by replace (16 + 16 * n)%nat with (16 * n + 16)%nat by lia.
Qed.
End Stream.

(** ** Tags *)

Lemma memcmp_acc (l : list (Z * Z)) r :
  Forall (fun p => is_u8 p.1 /\ is_u8 p.2) l -> is_u8 r ->
  fold_left (fun res p => u8 (Z.lor res (Z.lxor p.1 p.2))) l r = 0 <-> r = 0 /\ Forall (fun p => p.1 = p.2) l.
Proof.
  intros Hl. revert r. induction Hl as [|[a b] l [Ha Hb] Hl IH]; intros r Hr; cbn [fold_left fst snd] in *.
  - split; [by intros ->|by intros [-> _]].
  - assert (is_u8 (Z.lor r (Z.lxor a b))) as Hu by (apply (word_lor 8); [done|by apply (word_lxor 8)]).
    rewrite u8_small by done. rewrite IH by done. rewrite Z.lor_eq_0_iff, lxor_eq_0. split.
    + intros [[-> ->] H]. by split; [|constructor].
    + intros [-> H]. inversion H; subst. by cbn in *.
Qed.

Lemma memcmp_eq a b n :
  Forall is_u8 a -> Forall is_u8 b -> (Z.to_nat n <= length a)%nat -> length b = Z.to_nat n ->
  os_memcmp_const a b n = 0 <-> take (Z.to_nat n) a = b.
Proof.
  intros Ha Hb La Lb. unfold os_memcmp_const.
  assert (take (Z.to_nat n) (zip a b) = zip (take (Z.to_nat n) a) b) as ->.
  { rewrite zip_with_take. by rewrite (take_ge b) by lia. }
  assert (length (take (Z.to_nat n) a) = length b) as Hl by (rewrite length_take; lia).
  apply (Forall_take is_u8 (Z.to_nat n)) in Ha. clear La Lb. generalize dependent (take (Z.to_nat n) a). clear a. intros a Ha Hl.
  assert (Forall (fun p => is_u8 p.1 /\ is_u8 p.2) (zip a b)) as Hz.
  { clear Hl. revert b Hb. induction Ha as [|x a Hx Ha IH]; intros b Hb; [constructor|]. destruct Hb; constructor; [done|by apply IH]. }
  rewrite memcmp_acc by done. clear Hz.
  split.
  - intros [_ H]. revert b Hb Hl H. induction a as [|x a IH]; intros [|y b] Hb Hl H; try done.
    inversion Ha; inversion Hb; inversion H; subst. cbn in *. f_equal; [done|]. apply IH; try done. by injection Hl.
  - intros ->. split; [done|]. clear. induction b; constructor; done.
Qed.
(** The key sizes of AES, and memory for the schedule. *)
Lemma aes_ctx_some os_malloc key key_len :
  gets_memory os_malloc -> key_len_ok key_len -> exists ctx, aes_ctx os_malloc key key_len = Some ctx.
Proof.
  intros Hm Hk. unfold aes_ctx. destruct (Hm AES_PRIV_SIZE) as (m & -> & _); [done|].
  rewrite bool_decide_eq_true_2 by by eexists. destruct Hk as [->|[->| ->]]; by eexists.
Qed.

Definition sample_malloc : allocator := fun n => Some (replicate (Z.to_nat n) 0xa5).

Lemma sample_malloc_gets : gets_memory sample_malloc.
Proof. intros n Hn. eexists. split; [done|]. rewrite zlen_replicate. lia. Qed.

(** ** The interface *)

(** A mode with tags of [M] bytes: encryption [ae] into an object, decryption
    [ad] with its verdict.  Both follow a stream and a tag. *)
Class Aead (M : Z) (ae : list Z -> list Z -> list Z -> list Z -> Z -> Z -> outcome (Z * list Z))
    (ad : list Z -> list Z -> list Z -> list Z -> list Z -> Z -> outcome (Z * list Z)) := {
  aead_stream : list Z -> list Z -> list Z;
  aead_tag : list Z -> list Z -> list Z -> list Z;
  aead_stream_length : forall nonce p, length (aead_stream nonce p) = length p;
  aead_stream_involutive : forall nonce p, aead_stream nonce (aead_stream nonce p) = p;
  aead_tag_length : forall nonce aad p, zlen (aead_tag nonce aad p) = M;
  aead_tag_bytes : forall nonce aad p, Forall is_u8 (aead_tag nonce aad p);
  aead_ae : forall nonce p aad pre w,
    zlen aad <= 30 -> (length p + 16 <= length w)%nat ->
    exists r, ae nonce p aad (pre ++ w) (zlen pre) (zlen pre + zlen p) =
        Ret (0, pre ++ aead_stream nonce p ++ aead_tag nonce aad p ++ r) /\
      zlen p + M + zlen r = zlen w;
  aead_ad : forall nonce c aad t w,
    zlen aad <= 30 -> zlen t = M -> Forall is_u8 t -> (length c + 16 <= length w)%nat ->
    exists r, ad nonce c aad t w 0 =
        Ret (if bool_decide (t = aead_tag nonce aad (aead_stream nonce c)) then 0 else -1, aead_stream nonce c ++ r) /\
      zlen c + zlen r = zlen w }.

(** An implementation of the interface accepts exactly what it produces. *)
Lemma aead_exact {M ae ad} `{!Aead M ae ad} nonce c aad t w w' :
  zlen aad <= 30 -> zlen t = M -> Forall is_u8 t -> zlen c + 16 <= zlen w -> zlen c + 16 <= zlen w' ->
  exists st p r, ad nonce c aad t w 0 = Ret (st, p ++ r) /\ zlen p = zlen c /\ (st = 0 \/ st = -1) /\
    (st = 0 <-> exists r', ae nonce p aad w' 0 (zlen p) = Ret (0, c ++ t ++ r')).
Proof.
  intros Ha Ht Ut Hw Hw'. unfold zlen in Hw, Hw'.
  destruct (aead_ad nonce c aad t w Ha Ht Ut ltac:(lia)) as (r & Er & Hr). rewrite Er.
  set (p := aead_stream nonce c) in *. assert (length p = length c) as Hp by apply aead_stream_length.
  eexists _, p, r. split; [reflexivity|]. split; [unfold zlen; lia|]. split; [case_bool_decide; auto|].
  destruct (aead_ae nonce p aad [] w' Ha ltac:(lia)) as (r' & Er' & Hr').
  change ([] ++ w') with w' in Er'. change (zlen (@nil Z) + zlen p) with (zlen p) in Er'. change (zlen (@nil Z)) with 0 in Er'.
  rewrite Er'. cbn [app]. assert (aead_stream nonce p = c) as -> by apply aead_stream_involutive. split.
  - case_bool_decide as H; [|done]. intros _. exists r'. by rewrite H.
  - intros (r'' & [= H]). case_bool_decide as Hn; [done|]. destruct Hn. apply app_inv_head in H.
    symmetry. apply (app_inj_1 _ _ r' r''); [|done]. pose proof (aead_tag_length nonce aad p). unfold zlen in *. lia.
Qed.
