(* ===== verification/AesCcm.v ===== *)
(** * CCM

    Counter mode with CBC-MAC (src/core/crypto/aes-ccm.c) over a block function
    [E] with the interface [BlockCipher].  The last block of the cipher text is
    written whole before the part behind the data is overwritten; a write
    outside the object is a [Fault]. *)
From Stdlib Require Import ZArith Lia Bool List Btauto.
From stdpp Require Import base tactics list numbers.
From S2P Require Import Prelude ByteBuf WordBits SecCrypto SecFrame Aes Aead.

(** ** Definitions *)

(** [RTW_PUT_BE16] *)
Definition be16_bytes (v : Z) : list Z := [Z.shiftr (u16 v) 8; Z.land (u16 v) 0xff].

(** The length field of CCM, fixed in the callers. *)
Definition CCM_L : Z := 2.

Section Ccm.
Context (E : list Z -> list Z).

Definition aes_ccm_auth_start (M : Z) (nonce aad : list Z) (plain_len : Z) : list Z :=
  let aad_len := zlen aad in
  let b0 := Z.lor (Z.lor (if aad_len =? 0 then 0 else 0x40) (Z.shiftl ((M - 2) / 2) 3)) (CCM_L - 1) in
  let b := [u8 b0] ++ take (Z.to_nat (15 - CCM_L)) nonce ++ be16_bytes plain_len in
  let x := E b in
  if aad_len =? 0 then x
  else
    let aad_buf := be16_bytes aad_len ++ aad ++ replicate (Z.to_nat (30 - aad_len)) 0 in
    let x := E (xor_aes_block aad_buf x) in
    if 14 <? aad_len then E (xor_aes_block (drop 16 aad_buf) x) else x.

(** The full blocks of [aes_ccm_auth]. *)
Fixpoint auth_blocks (n : nat) (data x : list Z) : list Z :=
  match n with
  | O => x
  | S n => auth_blocks n (drop 16 data) (E (xor_aes_block x data))
  end.

Definition aes_ccm_auth (data x : list Z) : list Z :=
  let len := length data in
  let last := (len mod 16)%nat in
  let x := auth_blocks (len / 16) data x in
  if (last =? 0)%nat then x
  else let d := drop (16 * (len / 16)) data in E (zip_with Z.lxor (take last x) d ++ drop last x).

(** [a] with counter [i]: flags, nonce, counter. *)
Definition aes_ccm_encr_start (nonce : list Z) (i : Z) : list Z :=
  [u8 (CCM_L - 1)] ++ take (Z.to_nat (15 - CCM_L)) nonce ++ be16_bytes i.

(** The block of key stream for a counter. *)
Definition ccm_block (nonce : list Z) (i : Z) : list Z := E (aes_ccm_encr_start nonce i).

Definition aes_ccm_encr (nonce data : list Z) (m : list Z) (out : Z) : outcome (list Z) :=
  let len := length data in
  let last := (len mod 16)%nat in
  let n := (len / 16)%nat in
  m ← ctr_loop Z.succ (ccm_block nonce) n 1 data m out;
  if (last =? 0)%nat then Ret m
  else
    let out := out + 16 * Z.of_nat n in
    let s := ccm_block nonce (Z.of_nat n + 1) in
    m ← wrs m out s;
    wrs m out (zip_with Z.lxor (take last s) (drop (16 * n) data)).

(** [aes_ccm_encr_auth] and [aes_ccm_decr_auth]: [M] bytes against the key
    stream of counter zero. *)
Definition aes_ccm_encr_auth (M : Z) (x nonce : list Z) : list Z :=
  zip_with Z.lxor (take (Z.to_nat M) x) (ccm_block nonce 0).

Definition aes_ccm_decr_auth (M : Z) (auth nonce : list Z) : list Z :=
  zip_with Z.lxor (take (Z.to_nat M) auth) (ccm_block nonce 0).

(** What [aes_ccm_ae] does once it has the context. *)
Definition ccm_ae_body (M : Z) (nonce plain aad m : list Z) (crypt auth : Z) : outcome (list Z) :=
  let x := aes_ccm_auth_start M nonce aad (zlen plain) in
  let x := aes_ccm_auth plain x in
  m ← aes_ccm_encr nonce plain m crypt;
  wrs m auth (aes_ccm_encr_auth M x nonce).

(** What [aes_ccm_ad] does: the plain text is written first and checked then. *)
Definition ccm_ad_body (M : Z) (nonce crypt aad auth m : list Z) (plain : Z) : outcome (Z * list Z) :=
  let t := aes_ccm_decr_auth M auth nonce in
  m ← aes_ccm_encr nonce crypt m plain;
  p ← rds m plain (zlen crypt);
  let x := aes_ccm_auth_start M nonce aad (zlen crypt) in
  let x := aes_ccm_auth p x in
  Ret (if os_memcmp_const x t M =? 0 then 0 else -1, m).
End Ccm.

(** The status is 0 or -1. *)
Definition aes_ccm_ae (os_malloc : allocator) (key : list Z) (key_len : Z) (M : Z) (nonce plain aad m : list Z)
    (crypt auth : Z) : outcome (Z * list Z) :=
  if (30 <? zlen aad) || (16 <? M) then Ret (-1, m)
  else
    match aes_ctx os_malloc key key_len with
    | None => Ret (-1, m)
    | Some aes => m ← ccm_ae_body (aes_encrypt aes) M nonce plain aad m crypt auth; Ret (0, m)
    end.

Definition aes_ccm_ad (os_malloc : allocator) (key : list Z) (key_len : Z) (M : Z) (nonce crypt aad auth m : list Z)
    (plain : Z) : outcome (Z * list Z) :=
  if (30 <? zlen aad) || (16 <? M) then Ret (-1, m)
  else
    match aes_ctx os_malloc key key_len with
    | None => Ret (-1, m)
    | Some aes => ccm_ad_body (aes_encrypt aes) M nonce crypt aad auth m plain
    end.

(** ** The stream *)

Section Exact.
Context (E : list Z -> list Z) `{!BlockCipher E}.

Lemma ccm_block16 nonce i : length (ccm_block E nonce i) = 16%nat.
Proof. apply (block_length (E := E)). Qed.

Definition ccm_stream (nonce data : list Z) : list Z := ctr_mode Z.succ (ccm_block E nonce) 1 data.

Lemma stream_length nonce data : length (ccm_stream nonce data) = length data.
Proof. apply ctr_mode_length, ccm_block16. Qed.

Lemma stream_involutive nonce data : ccm_stream nonce (ccm_stream nonce data) = data.
Proof. apply ctr_mode_involutive, ccm_block16. Qed.

Lemma iter_succ n : Nat.iter n Z.succ 1 = Z.of_nat n + 1.
Proof. induction n as [|n IH]; [done|]. rewrite Nat.iter_succ, IH. lia. Qed.

(** Encryption stays inside an object with sixteen bytes to spare. *)
Lemma aes_ccm_encr_spec nonce data pre w :
  (length data + 16 <= length w)%nat ->
  exists r, aes_ccm_encr E nonce data (pre ++ w) (zlen pre) = Ret (pre ++ ccm_stream nonce data ++ r) /\
    (length data + length r = length w)%nat.
Proof.
  intros Hw. unfold ccm_stream. rewrite (ctr_mode_split Z.succ (ccm_block E nonce) (ccm_block16 nonce)).
  set (n := (length data / 16)%nat). set (last := (length data mod 16)%nat).
  assert (length data = 16 * n + last /\ last < 16)%nat as [Hd Hl].
  { split; [apply Nat.div_mod_eq|by apply Nat.mod_upper_bound]. }
  unfold aes_ccm_encr. fold n last. rewrite (ctr_loop_spec Z.succ _ (ccm_block16 nonce)), bind_Ret by lia.
  cbn zeta. rewrite iter_succ. set (c := zip_with _ (take (16 * n) data) _). assert (length c = 16 * n)%nat as Hc.
  { unfold c. rewrite length_zip_xor; rewrite length_take; [lia|]. rewrite key_blocks_length by apply ccm_block16. lia. }
  destruct (Nat.eqb_spec last 0) as [H0|H0].
  - exists (drop (16 * n) w). rewrite (drop_ge data) by lia. cbn [zip_with]. rewrite app_nil_r. split; [done|]. rewrite length_drop. lia.
  - set (s := ccm_block E nonce (Z.of_nat n + 1)). assert (length s = 16%nat) as Hs by apply ccm_block16.
    exists (drop last s ++ drop (16 * n + 16) w).
    assert (wrs (pre ++ c ++ drop (16 * n) w) (zlen pre + 16 * Z.of_nat n) s = Ret ((pre ++ c) ++ s ++ drop (16 * n + 16) w)) as ->.
    { rewrite app_assoc. rewrite <- (take_drop 16 (drop (16 * n) w)), drop_drop. apply wrs_at.
      - rewrite zlen_app. unfold zlen. lia.
      - rewrite length_take, length_drop. lia. }
    rewrite bind_Ret. set (t := zip_with _ (take last s) _).
    assert (t = zip_with Z.lxor (drop (16 * n) data) s) as Ht.
    { unfold t. rewrite zip_xor_comm, (zip_xor_take (drop (16 * n) data) s). rewrite length_drop.
      by replace (length data - 16 * n)%nat with last by lia. }
    rewrite <- Ht. assert (length t = last) as Lt by (rewrite Ht, length_zip_xor; rewrite length_drop; lia).
    set (R := drop (16 * n + 16) w).
    assert (wrs ((pre ++ c) ++ s ++ R) (zlen pre + 16 * Z.of_nat n) t = Ret ((pre ++ c) ++ t ++ drop last s ++ R)) as ->.
    { rewrite <- (take_drop last s) at 1. rewrite <- (app_assoc (take last s)). apply wrs_at.
      - rewrite zlen_app. unfold zlen. lia.
      - rewrite length_take. lia. }
    rewrite <- !app_assoc. split; [done|]. unfold R. rewrite !length_app, !length_drop. lia.
Qed.

(** ** Tags *)

(** The tag of a message. *)
Definition ccm_tag (M : Z) (nonce aad p : list Z) : list Z :=
  aes_ccm_encr_auth E M (aes_ccm_auth E p (aes_ccm_auth_start E M nonce aad (zlen p))) nonce.

Lemma auth_start_length M nonce aad n : length (aes_ccm_auth_start E M nonce aad n) = 16%nat.
Proof. unfold aes_ccm_auth_start. destruct (_ =? 0); [apply block_length|]. destruct (14 <? _); apply block_length. Qed.

Lemma auth_start_bytes M nonce aad n : Forall is_u8 (aes_ccm_auth_start E M nonce aad n).
Proof. unfold aes_ccm_auth_start. destruct (_ =? 0); [apply block_bytes|]. destruct (14 <? _); apply block_bytes. Qed.

Lemma auth_blocks_ok n data x : block x -> block (auth_blocks E n data x).
Proof. revert data x. induction n as [|n IH]; intros data x Hx; [done|]. apply IH. split; [apply block_length|apply block_bytes]. Qed.

Lemma auth_ok data x : block x -> block (aes_ccm_auth E data x).
Proof.
  intros Hx. unfold aes_ccm_auth. destruct (_ =? 0)%nat; [by apply auth_blocks_ok|]. split; [apply block_length|apply block_bytes].
Qed.

Lemma mac_ok M nonce aad p n : block (aes_ccm_auth E p (aes_ccm_auth_start E M nonce aad n)).
Proof. apply auth_ok. split; [apply auth_start_length|apply auth_start_bytes]. Qed.

Lemma tag_length M nonce aad p : 0 <= M <= 16 -> length (ccm_tag M nonce aad p) = Z.to_nat M.
Proof.
  intros HM. unfold ccm_tag, aes_ccm_encr_auth. destruct (mac_ok M nonce aad p (zlen p)) as [L _].
  rewrite length_zip_xor; rewrite length_take, L; [lia|]. rewrite ccm_block16. lia.
Qed.

Lemma tag_bytes M nonce aad p : Forall is_u8 (ccm_tag M nonce aad p).
Proof. apply zip_lxor_u8; [|apply (block_bytes (E := E))]. apply Forall_take, mac_ok. Qed.

Lemma ccm_ae_spec M nonce p aad pre w :
  0 <= M <= 16 -> (length p + 16 <= length w)%nat ->
  exists r, ccm_ae_body E M nonce p aad (pre ++ w) (zlen pre) (zlen pre + zlen p) =
      Ret (pre ++ ccm_stream nonce p ++ ccm_tag M nonce aad p ++ r) /\
    (length p + Z.to_nat M + length r = length w)%nat.
Proof.
  intros HM Hw. unfold ccm_ae_body. destruct (aes_ccm_encr_spec nonce p pre w Hw) as (r & -> & Hr).
  rewrite bind_Ret. fold (ccm_tag M nonce aad p). set (t := ccm_tag M nonce aad p).
  assert (length t = Z.to_nat M) as Ht by by apply tag_length. exists (drop (length t) r).
  split; [|rewrite length_drop; lia]. rewrite (app_assoc pre), <- (take_drop (length t) r) at 1.
  rewrite wrs_at; [by rewrite <- app_assoc| |rewrite length_take; lia].
  rewrite zlen_app. unfold zlen. rewrite stream_length. lia.
Qed.

Lemma ccm_ad_spec M nonce c aad t w :
  0 <= M <= 16 -> zlen t = M -> Forall is_u8 t -> (length c + 16 <= length w)%nat ->
  let p := ccm_stream nonce c in
  exists r, ccm_ad_body E M nonce c aad t w 0 =
      Ret (if bool_decide (t = ccm_tag M nonce aad p) then 0 else -1, p ++ r) /\
    (length c + length r = length w)%nat.
Proof.
  intros HM Ht Ut Hw p. unfold ccm_ad_body. destruct (aes_ccm_encr_spec nonce c [] w Hw) as (r & Er & Hr).
  change ([] ++ w) with w in Er. change (zlen (@nil Z)) with 0 in Er. rewrite Er, bind_Ret. cbn [app]. fold p.
  exists r. split; [|done]. assert (length p = length c) as Hp by apply stream_length.
  assert (rds (p ++ r) 0 (zlen c) = Ret p) as ->.
  { change (p ++ r) with ([] ++ p ++ r). apply rds_at; [done|unfold zlen; lia]. }
  rewrite bind_Ret. f_equal. f_equal.
  replace (zlen c) with (zlen p) by (unfold zlen; lia). destruct (mac_ok M nonce aad p (zlen p)) as [Lx Ux].
  unfold ccm_tag, aes_ccm_encr_auth, aes_ccm_decr_auth. set (x := aes_ccm_auth _ _ _) in *. set (s := ccm_block E nonce 0).
  assert (length s = 16%nat) as Ls by apply ccm_block16. assert (Forall is_u8 s) as Us by apply (block_bytes (E := E)).
  assert (length t = Z.to_nat M) as Lt by (unfold zlen in Ht; lia). rewrite (take_ge t) by lia.
  assert (os_memcmp_const x (zip_with Z.lxor t s) M = 0 <-> t = zip_with Z.lxor (take (Z.to_nat M) x) s) as Hiff.
  { rewrite memcmp_eq; [|done|by apply zip_lxor_u8|lia|by rewrite length_zip_xor; lia]. split.
    - intros ->. rewrite zip_xor_involutive by lia. done.
    - intros ->. rewrite zip_xor_involutive; [done|]. rewrite length_take. lia. }
  destruct (Z.eqb_spec (os_memcmp_const x (zip_with Z.lxor t s) M) 0) as [H|H].
  - by rewrite bool_decide_eq_true_2 by by apply Hiff.
  - rewrite bool_decide_eq_false_2; [done|]. by rewrite <- Hiff.
Qed.
End Exact.

(** CCM over AES implements the interface. *)
#[export] Instance ccm_aead os_malloc key key_len M (Hm : gets_memory os_malloc) (Hk : key_len_ok key_len) (HM : 0 <= M <= 16) :
  Aead M (aes_ccm_ae os_malloc key key_len M) (aes_ccm_ad os_malloc key key_len M).
Proof.
  destruct (aes_ctx os_malloc key key_len) as [ctx|] eqn:Ec.
  2: { exfalso. destruct (aes_ctx_some os_malloc key key_len Hm Hk) as [ctx E]. by rewrite Ec in E. }
  set (E := aes_encrypt ctx). refine {| aead_stream := ccm_stream E; aead_tag := ccm_tag E M |}.
  - apply stream_length. apply _.
  - apply stream_involutive. apply _.
  - intros. unfold zlen. rewrite (tag_length E) by done. lia.
  - apply tag_bytes. apply _.
  - intros nonce p aad pre w Ha Hw. unfold aes_ccm_ae. rewrite Ec.
    assert ((30 <? zlen aad) || (16 <? M) = false) as -> by (apply orb_false_iff; split; apply Z.ltb_ge; lia).
    destruct (ccm_ae_spec E M nonce p aad pre w HM Hw) as (r & Er & Hr). fold E. rewrite Er, bind_Ret.
    exists r. split; [done|]. unfold zlen. lia.
  - intros nonce c aad t w Ha Ht Ut Hw. unfold aes_ccm_ad. rewrite Ec.
    assert ((30 <? zlen aad) || (16 <? M) = false) as -> by (apply orb_false_iff; split; apply Z.ltb_ge; lia).
    destruct (ccm_ad_spec E M nonce c aad t w HM Ht Ut Hw) as (r & Er & Hr). fold E. rewrite Er.
    exists r. split; [done|]. unfold zlen. lia.
Qed.

(** CCM accepts exactly what it produces: decryption stays inside the
    buffer, writes one plain text, and answers 0 if and only if encrypting that
    plain text under the same key, nonce and additional data gives the cipher
    text and the tag that were received. *)
Lemma ccm_accepts_exactly os_malloc key key_len M nonce c aad t w w' :
  gets_memory os_malloc -> key_len_ok key_len -> 0 <= M <= 16 -> zlen aad <= 30 ->
  zlen t = M -> Forall is_u8 t -> zlen c + 16 <= zlen w -> zlen c + 16 <= zlen w' ->
  exists st p r, aes_ccm_ad os_malloc key key_len M nonce c aad t w 0 = Ret (st, p ++ r) /\ zlen p = zlen c /\
    (st = 0 \/ st = -1) /\
    (st = 0 <-> exists r', aes_ccm_ae os_malloc key key_len M nonce p aad w' 0 (zlen p) = Ret (0, c ++ t ++ r')).
Proof. intros Hm Hk HM. pose proof (ccm_aead os_malloc key key_len M Hm Hk HM). apply aead_exact. Qed.

Lemma ccm_accepts_exactly_witness :
  exists st p r, aes_ccm_ad sample_malloc (fips_key 16) 16 8 (fips_key 13) [1; 2; 3] [9; 9] (replicate 8 0) (replicate 20 0) 0 =
      Ret (st, p ++ r) /\ zlen p = 3 /\ (st = 0 \/ st = -1) /\
    (st = 0 <-> exists r', aes_ccm_ae sample_malloc (fips_key 16) 16 8 (fips_key 13) p [9; 9] (replicate 19 0) 0 (zlen p) =
                           Ret (0, [1; 2; 3] ++ replicate 8 0 ++ r')).
Proof.
  apply (ccm_accepts_exactly sample_malloc (fips_key 16) 16 8 (fips_key 13) [1; 2; 3] [9; 9] (replicate 8 0) (replicate 20 0) (replicate 19 0));
    [exact sample_malloc_gets|by left|lia|unfold zlen; cbn; lia|reflexivity|by apply bytes_ok|unfold zlen; cbn; lia|unfold zlen; cbn; lia].
Defined.
