(* ===== verification/AesGcm.v ===== *)
(** * GCM

    Galois/Counter mode (src/core/crypto/aes-gcm.c) over AES.  Blocks are lists
    of sixteen bytes; the multiplication of [gf_mult] is compared with the
    product of polynomials modulo x^128 + x^7 + x^2 + x + 1. *)
From Stdlib Require Import ZArith Lia Bool List Btauto.
From stdpp Require Import base tactics list numbers.
From S2P Require Import Prelude ByteBuf WordBits SecCrypto SecFrame Aes Aead.

(** ** Definitions *)

(** [RTW_GET_BE32], [RTW_PUT_BE32] and [RTW_PUT_BE64] *)
Definition get_be32 (b : list Z) (p : nat) : Z :=
  Z.lor (Z.lor (Z.shiftl (nth p b 0) 24) (Z.shiftl (nth (p + 1) b 0) 16))
        (Z.lor (Z.shiftl (nth (p + 2) b 0) 8) (nth (p + 3) b 0)).

Definition put_be32 (v : Z) : list Z := [u8 (Z.shiftr v 24); u8 (Z.shiftr v 16); u8 (Z.shiftr v 8); u8 v].

Definition put_be64 (v : Z) : list Z :=
  [u8 (Z.shiftr v 56); u8 (Z.shiftr v 48); u8 (Z.shiftr v 40); u8 (Z.shiftr v 32);
   u8 (Z.shiftr v 24); u8 (Z.shiftr v 16); u8 (Z.shiftr v 8); u8 v].

Definition inc32 (block : list Z) : list Z := take 12 block ++ put_be32 (u32 (get_be32 block 12 + 1)).

(** A word of [shift_right_block]; [prev] is the byte before it. *)
Definition shift_word (w prev : Z) : list Z :=
  let val := Z.shiftr w 1 in
  put_be32 (if Z.land prev 0x01 =? 0 then val else Z.lor val 0x80000000).

(** The words are written from the last to the first, so that each is made of
    the old bytes. *)
Definition shift_right_block (v : list Z) : list Z :=
  put_be32 (Z.shiftr (get_be32 v 0) 1) ++ shift_word (get_be32 v 4) (nth 3 v 0) ++
  shift_word (get_be32 v 8) (nth 7 v 0) ++ shift_word (get_be32 v 12) (nth 11 v 0).

(** [v[0] ^= b] *)
Definition xor_first (v : list Z) (b : Z) : list Z :=
  match v with x :: v => Z.lxor x b :: v | [] => [] end.

(** A turn of the inner loop of [gf_mult]: [z] and [v]. *)
Definition gf_bit (xi : Z) (zv : list Z * list Z) (j : nat) : list Z * list Z :=
  let '(z, v) := zv in
  let z := if negb (Z.land xi (Z.shiftl 1 (7 - Z.of_nat j)) =? 0) then xor_aes_block z v else z in
  let v := if negb (Z.land (nth 15 v 0) 0x01 =? 0) then xor_first (shift_right_block v) 0xe1 else shift_right_block v in
  (z, v).

Definition gf_mult (x y : list Z) : list Z :=
  (fold_left (fun zv i => fold_left (gf_bit (nth i x 0)) (seq 0 8) zv) (seq 0 16) (replicate 16 0, take 16 y)).1.

(** The full blocks of [ghash]. *)
Fixpoint ghash_blocks (n : nat) (h x y : list Z) : list Z :=
  match n with
  | O => y
  | S n => ghash_blocks n h (drop 16 x) (gf_mult (xor_aes_block y x) h)
  end.

Definition ghash (h x y : list Z) : list Z :=
  let m := (length x / 16)%nat in
  let y := ghash_blocks m h x y in
  let d := drop (16 * m) x in
  let last := length d in
  if (last =? 0)%nat then y
  else
    let tmp := d ++ replicate (16 - last) 0 in
    gf_mult (xor_aes_block y tmp) h.

Definition ghash_start : list Z := replicate 16 0.

Section Gcm.
Context (E : list Z -> list Z).

Definition aes_gctr (icb x m : list Z) (y : Z) : outcome (list Z) :=
  if zlen x =? 0 then Ret m
  else
    let n := (length x / 16)%nat in
    m ← ctr_loop inc32 E n icb x m y;
    let d := drop (16 * n) x in
    if (length d =? 0)%nat then Ret m
    else wrs m (y + 16 * Z.of_nat n) (zip_with Z.lxor d (E (Nat.iter n inc32 icb))).

Definition aes_gcm_prepare_j0 (iv H : list Z) : list Z :=
  if zlen iv =? 12 then iv ++ [0; 0; 0; 0x01]
  else ghash H (put_be64 0 ++ put_be64 (zlen iv * 8)) (ghash H iv ghash_start).

Definition aes_gcm_gctr (J0 x m : list Z) (out : Z) : outcome (list Z) :=
  if zlen x =? 0 then Ret m else aes_gctr (inc32 J0) x m out.

Definition aes_gcm_ghash (H aad crypt : list Z) : list Z :=
  let S := ghash H aad ghash_start in
  let S := ghash H crypt S in
  ghash H (put_be64 (zlen aad * 8) ++ put_be64 (zlen crypt * 8)) S.

(** The hash subkey of [aes_gcm_init_hash_subkey]. *)
Definition hash_subkey : list Z := E (replicate 16 0).

(** What [aes_gcm_ae] and [aes_gcm_ad] do once they have the context. *)
Definition gcm_ae_body (iv plain aad m : list Z) (crypt tag : Z) : outcome (list Z) :=
  let H := hash_subkey in
  let J0 := aes_gcm_prepare_j0 iv H in
  m ← aes_gcm_gctr J0 plain m crypt;
  c ← rds m crypt (zlen plain);
  let S := aes_gcm_ghash H aad c in
  aes_gctr J0 S m tag.

Definition gcm_ad_body (iv crypt aad tag m : list Z) (plain : Z) : outcome (Z * list Z) :=
  let H := hash_subkey in
  let J0 := aes_gcm_prepare_j0 iv H in
  m ← aes_gcm_gctr J0 crypt m plain;
  let S := aes_gcm_ghash H aad crypt in
  T ← aes_gctr J0 S (replicate 16 0) 0;
  Ret (if negb (os_memcmp_const tag T 16 =? 0) then -1 else 0, m).
End Gcm.

Definition aes_gcm_ae (os_malloc : allocator) (key : list Z) (key_len : Z) (iv plain aad m : list Z) (crypt tag : Z) :
    outcome (Z * list Z) :=
  match aes_ctx os_malloc key key_len with
  | None => Ret (-1, m)
  | Some aes => m ← gcm_ae_body (aes_encrypt aes) iv plain aad m crypt tag; Ret (0, m)
  end.

Definition aes_gcm_ad (os_malloc : allocator) (key : list Z) (key_len : Z) (iv crypt aad tag m : list Z) (plain : Z) :
    outcome (Z * list Z) :=
  match aes_ctx os_malloc key key_len with
  | None => Ret (-1, m)
  | Some aes => gcm_ad_body (aes_encrypt aes) iv crypt aad tag m plain
  end.

(** [aes_gmac]: a tag on [aad] alone. *)
Definition aes_gmac (os_malloc : allocator) (key : list Z) (key_len : Z) (iv aad m : list Z) (tag : Z) : outcome (Z * list Z) :=
  aes_gcm_ae os_malloc key key_len iv [] aad m 0 tag.

(** ** Polynomials over GF(2)

    A polynomial is the integer whose bit i is the coefficient of x^i. *)

(** The sum of the shifted [b] over the coefficients below [n] of [a]. *)
Fixpoint clmul (n : nat) (a b : Z) : Z :=
  match n with
  | O => 0
  | S n => Z.lxor (clmul n a b) (if Z.testbit a (Z.of_nat n) then Z.shiftl b (Z.of_nat n) else 0)
  end.

(** x^128 + x^7 + x^2 + x + 1 *)
Definition GCM_POLY : Z := 2 ^ 128 + 0x87.

(** Division by [GCM_POLY]: the remainder of a polynomial of degree below
    [128 + n]. *)
Fixpoint pmod (n : nat) (a : Z) : Z :=
  match n with
  | O => a
  | S n => pmod n (if Z.testbit a (128 + Z.of_nat n) then Z.lxor a (Z.shiftl GCM_POLY (Z.of_nat n)) else a)
  end.

(** Multiplication by x. *)
Definition mulx (r : Z) : Z := if Z.testbit (2 * r) 128 then Z.lxor (2 * r) GCM_POLY else 2 * r.

Lemma pmod_lxor n a b : pmod n (Z.lxor a b) = Z.lxor (pmod n a) (pmod n b).
Proof.
  revert a b. induction n as [|n IH]; intros a b; cbn [pmod]; [done|]. rewrite Z.lxor_spec, <- IH. f_equal.
  destruct (Z.testbit a _), (Z.testbit b _); cbn [xorb]; xor_solve.
Qed.

Lemma double_lxor a b : 2 * Z.lxor a b = Z.lxor (2 * a) (2 * b).
Proof. rewrite !(Z.mul_comm 2), <- !(Z.shiftl_mul_pow2 _ 1) by lia. apply Z.shiftl_lxor. Qed.

Lemma pmod_double n a : pmod (S n) (2 * a) = mulx (pmod n a).
Proof.
  revert a. induction n as [|n IH]; intros a; [cbn [pmod]; unfold mulx; by rewrite Z.shiftl_0_r|].
  change (pmod (S (S n)) (2 * a)) with
    (pmod (S n) (if Z.testbit (2 * a) (128 + Z.of_nat (S n)) then Z.lxor (2 * a) (Z.shiftl GCM_POLY (Z.of_nat (S n))) else 2 * a)).
  change (pmod (S n) a) with (pmod n (if Z.testbit a (128 + Z.of_nat n) then Z.lxor a (Z.shiftl GCM_POLY (Z.of_nat n)) else a)).
  rewrite <- IH. f_equal. replace (128 + Z.of_nat (S n)) with (Z.succ (128 + Z.of_nat n)) by lia.
  rewrite Z.double_bits_succ. destruct (Z.testbit a _); [|done]. rewrite double_lxor. f_equal.
  rewrite Nat2Z.inj_succ. rewrite !Z.shiftl_mul_pow2, Z.pow_succ_r by lia. lia.
Qed.

Lemma pmod_more n k a : word (128 + Z.of_nat n) a -> pmod (n + k) a = pmod n a.
Proof.
  intros H. induction k as [|k IH]; [by rewrite Nat.add_0_r|]. rewrite Nat.add_succ_r. cbn [pmod].
  by rewrite (word_high (128 + Z.of_nat n)) by (done || lia).
Qed.

Lemma pmod_shiftl N k b : word 128 b -> (k <= N)%nat -> pmod N (Z.shiftl b (Z.of_nat k)) = Nat.iter k mulx b.
Proof.
  intros Hb [m ->]%Nat.le_sum. rewrite pmod_more by (apply word_shiftl; [lia|done]).
  induction k as [|k IH]; [by rewrite Z.shiftl_0_r|]. rewrite Nat.iter_succ, <- IH, <- pmod_double. f_equal.
  rewrite !Z.shiftl_mul_pow2, Nat2Z.inj_succ, Z.pow_succ_r by lia. lia.
Qed.

Lemma pmod_0 n : pmod n 0 = 0.
Proof. induction n as [|n IH]; cbn [pmod]; [done|]. by rewrite Z.bits_0. Qed.

(** What the loop accumulates. *)
Fixpoint gf_sum (n : nat) (a b : Z) : Z :=
  match n with
  | O => 0
  | S n => Z.lxor (gf_sum n a b) (if Z.testbit a (Z.of_nat n) then Nat.iter n mulx b else 0)
  end.

Lemma gf_sum_pmod N n a b : word 128 b -> (n <= N)%nat -> gf_sum n a b = pmod N (clmul n a b).
Proof.
  intros Hb. induction n as [|n IH]; intros Hn; [cbn [gf_sum clmul]; by rewrite pmod_0|].
  cbn [gf_sum clmul]. rewrite pmod_lxor, <- IH by lia. f_equal.
  destruct (Z.testbit a _); [by rewrite pmod_shiftl by (done || lia)|by rewrite pmod_0].
Qed.

(** ** Blocks as polynomials

    Bit 7 of the first byte is the coefficient of 1. *)
Definition rev8 (b : Z) : Z :=
  fold_left (fun r j => Z.lor r (Z.shiftl (Z.b2z (Z.testbit b (7 - Z.of_nat j))) (Z.of_nat j))) (seq 0 8) 0.

Definition poly (b : list Z) : Z := fold_right (fun x a => rev8 x + 256 * a) 0 b.

(** Facts on bytes, by evaluation of the 256 cases. *)
Lemma all_bytes (P : Z -> bool) : forallb P (map Z.of_nat (seq 0 256)) = true -> forall b, is_u8 b -> P b = true.
Proof.
  intros H b Hb. apply (proj1 (forallb_forall P _) H). rewrite <- (Z2Nat.id b) by (unfold is_u8 in Hb; lia).
  apply in_map, in_seq. unfold is_u8 in Hb. lia.
Qed.

Lemma rev8_facts b :
  is_u8 b -> is_u8 (rev8 b) /\ rev8 b / 128 = b mod 2 /\ rev8 (b / 2) = 2 * rev8 b mod 256 /\
    rev8 (b / 2 + 128) = 2 * rev8 b mod 256 + 1.
Proof.
  intros Hb. pose proof (all_bytes (fun b => (0 <=? rev8 b) && (rev8 b <? 256) && (rev8 b / 128 =? b mod 2) &&
    (rev8 (b / 2) =? 2 * rev8 b mod 256) && (rev8 (b / 2 + 128) =? 2 * rev8 b mod 256 + 1)) eq_refl b Hb) as H.
  cbn beta in H. rewrite !andb_true_iff, !Z.eqb_eq, Z.leb_le, Z.ltb_lt in H. unfold is_u8. tauto.
Qed.

Lemma rev8_testbit b j : is_u8 b -> 0 <= j < 8 -> Z.testbit (rev8 b) j = Z.testbit b (7 - j).
Proof.
  intros Hb Hj. pose proof (all_bytes (fun b => forallb (fun j => Bool.eqb (Z.testbit (rev8 b) j) (Z.testbit b (7 - j)))
    [0; 1; 2; 3; 4; 5; 6; 7]) eq_refl b Hb) as H. cbn beta in H. rewrite forallb_forall in H.
  apply eqb_prop. apply H. cbn [In]. lia.
Qed.

Lemma rev8_lxor a b : is_u8 a -> is_u8 b -> rev8 (Z.lxor a b) = Z.lxor (rev8 a) (rev8 b).
Proof.
  intros Ha Hb. assert (is_u8 (Z.lxor a b)) as Hx by by apply (word_lxor 8). apply Z.bits_inj'. intros k Hk.
  destruct (Z.ltb_spec k 8); [by rewrite Z.lxor_spec, !rev8_testbit, Z.lxor_spec by (done || lia)|].
  destruct (rev8_facts a Ha) as (Ra & _), (rev8_facts b Hb) as (Rb & _), (rev8_facts _ Hx) as (Rx & _).
  by rewrite Z.lxor_spec, !(word_high 8) by done.
Qed.

Lemma poly_word l : Forall is_u8 l -> word (8 * Z.of_nat (length l)) (poly l).
Proof.
  induction 1 as [|x l Hx Hl IH]; [done|]. cbn [poly fold_right length]. fold (poly l).
  destruct (rev8_facts x Hx) as (H & _). unfold word, is_u8 in *.
  replace (8 * Z.of_nat (S (length l))) with (8 * Z.of_nat (length l) + 8) by lia. rewrite Z.pow_add_r by lia. lia.
Qed.

Lemma poly_cons x l : is_u8 x -> poly (x :: l) = Z.lxor (Z.shiftl (poly l) 8) (rev8 x).
Proof.
  intros Hx. destruct (rev8_facts x Hx) as (H & _). rewrite lxor_split by (lia || done). cbn [poly fold_right]. fold (poly l). lia.
Qed.

Lemma poly_lxor a b :
  Forall is_u8 a -> Forall is_u8 b -> length a = length b -> poly (zip_with Z.lxor a b) = Z.lxor (poly a) (poly b).
Proof.
  intros Ha. revert b. induction Ha as [|x a Hx Ha IH]; intros [|y b] Hb Hl; try done. apply Forall_cons_1 in Hb as [Hy Hb].
  cbn [zip_with]. assert (is_u8 (Z.lxor x y)) as Hxy by by apply (word_lxor 8).
  rewrite !poly_cons, IH, rev8_lxor, Z.shiftl_lxor by (done || (injection Hl; done)). xor_solve.
Qed.

Lemma poly_testbit l i j :
  Forall is_u8 l -> (i < length l)%nat -> 0 <= j < 8 -> Z.testbit (poly l) (8 * Z.of_nat i + j) = Z.testbit (nth i l 0) (7 - j).
Proof.
  intros Hl. revert i. induction Hl as [|x l Hx Hl IH]; intros i Hi Hj; [cbn in Hi; lia|].
  destruct (rev8_facts x Hx) as (Hr & _). rewrite poly_cons, Z.lxor_spec by done. destruct i as [|i].
  - change (8 * Z.of_nat 0 + j) with j. rewrite Z.shiftl_spec_low by lia. rewrite xorb_false_l. cbn [nth]. by rewrite rev8_testbit by done.
  - rewrite (word_high 8 (rev8 x)) by (done || lia). rewrite xorb_false_r, Z.shiftl_spec by lia.
    replace (8 * Z.of_nat (S i) + j - 8) with (8 * Z.of_nat i + j) by lia. apply IH; [cbn in Hi; lia|done].
Qed.

(** ** The shift *)

Lemma get_be32_sum b p :
  Forall is_u8 b -> get_be32 b p = nth p b 0 * 2 ^ 24 + nth (p + 1) b 0 * 2 ^ 16 + nth (p + 2) b 0 * 2 ^ 8 + nth (p + 3) b 0.
Proof.
  intros Hb. assert (forall i, is_u8 (nth i b 0)) as Hn.
  { intros i. rewrite nth_lookup. destruct (b !! i) eqn:E; [|done]. cbn. by eapply (Forall_lookup_1 is_u8). }
  unfold get_be32. pose proof (Hn p) as H0. pose proof (Hn (p + 1)%nat) as H1. pose proof (Hn (p + 2)%nat) as H2. pose proof (Hn (p + 3)%nat) as H3.
  set (x0 := nth p b 0) in *. set (x1 := nth (p + 1) b 0) in *. set (x2 := nth (p + 2) b 0) in *. set (x3 := nth (p + 3) b 0) in *.
  rewrite (Z.lor_comm (Z.shiftl x0 24)), (Z.lor_comm (Z.shiftl x2 8)), (lor_split 8) by (lia || done).
  rewrite <- Z.lor_assoc, (Z.lor_comm (Z.shiftl x0 24)), Z.lor_assoc, (Z.lor_comm (Z.shiftl x1 16)).
  unfold is_u8 in *. rewrite (lor_split 16) by (unfold word; lia). rewrite (lor_split 24) by (unfold word; lia). lia.
Qed.

Lemma land_1 x : Z.land x 0x01 = x mod 2.
Proof. apply (Z.land_ones x 1). lia. Qed.

Lemma shift_word_bytes a b c d prev :
  is_u8 a -> is_u8 b -> is_u8 c -> is_u8 d ->
  shift_word (a * 2 ^ 24 + b * 2 ^ 16 + c * 2 ^ 8 + d) prev =
  [a / 2 + 128 * (prev mod 2); b / 2 + 128 * (a mod 2); c / 2 + 128 * (b mod 2); d / 2 + 128 * (c mod 2)].
Proof.
  intros Ha Hb Hc Hd. unfold is_u8 in *. unfold shift_word. rewrite land_1. set (w := a * 2 ^ 24 + b * 2 ^ 16 + c * 2 ^ 8 + d).
  rewrite (Z.shiftr_div_pow2 w) by lia. change (2 ^ 1) with 2.
  assert ((if prev mod 2 =? 0 then w / 2 else Z.lor (w / 2) 0x80000000) = w / 2 + (prev mod 2) * 2 ^ 31) as ->.
  { destruct (Z.eqb_spec (prev mod 2) 0) as [->|H]; [lia|]. change 0x80000000 with (Z.shiftl 1 31).
    rewrite lor_split by (unfold word, w; zlia). zlia. }
  assert (0 <= prev mod 2 < 2) as Hp by zlia. generalize dependent (prev mod 2). intros e He. unfold put_be32, u8, w.
  rewrite !Z.shiftr_div_pow2 by lia. change (2 ^ 24) with 16777216. change (2 ^ 16) with 65536. change (2 ^ 8) with 256.
  change (2 ^ 31) with 2147483648. repeat f_equal; zlia.
Qed.

Lemma shift_first w : put_be32 (Z.shiftr w 1) = shift_word w 0.
Proof. reflexivity. Qed.

(** The bytes of the shifted block: each takes the last bit of the one before. *)
Fixpoint shift_bytes (prev : Z) (v : list Z) : list Z :=
  match v with [] => [] | b :: v => (b / 2 + 128 * (prev mod 2)) :: shift_bytes b v end.

Lemma shift_right_bytes v : block v -> shift_right_block v = shift_bytes 0 v.
Proof.
  intros [Hl Hv]. unfold shift_right_block. rewrite shift_first, !get_be32_sum by done.
  do 16 (destruct v as [|? v]; [done|]). destruct v; [|done]. forall_split Hv. cbn [nth Nat.add].
  rewrite !shift_word_bytes by done. reflexivity.
Qed.

Lemma shift_bytes_u8 prev v : Forall is_u8 v -> Forall is_u8 (shift_bytes prev v).
Proof. intros H. revert prev. induction H as [|b v Hb Hv IH]; intros prev; constructor; [ulia|apply IH]. Qed.

Lemma shift_bytes_length prev v : length (shift_bytes prev v) = length v.
Proof. revert prev. induction v as [|b v IH]; intros prev; cbn; [done|]. by rewrite IH. Qed.

(** A shift of the bytes is a multiplication by x that loses the last bit. *)
Lemma poly_shift prev v :
  Forall is_u8 v -> v <> [] ->
  poly (shift_bytes prev v) + 2 ^ (8 * Z.of_nat (length v)) * (List.last v 0 mod 2) = 2 * poly v + prev mod 2.
Proof.
  intros H. revert prev. induction H as [|b v Hb Hv IH]; intros prev Hne; [done|]. cbn [shift_bytes].
  destruct (rev8_facts b Hb) as (R & Q & E0 & E1). cbn [poly fold_right]. fold (poly v) (poly (shift_bytes b v)).
  assert (rev8 (b / 2 + 128 * (prev mod 2)) = 2 * rev8 b mod 256 + prev mod 2) as ->.
  { assert (prev mod 2 = 0 \/ prev mod 2 = 1) as [->| ->] by zlia; [rewrite Z.mul_0_r, !Z.add_0_r|]; done. }
  assert (2 * rev8 b mod 256 = 2 * rev8 b - 256 * (b mod 2)) as -> by (rewrite <- Q; unfold is_u8 in R; zlia).
  destruct v as [|c v]; [cbn [shift_bytes poly fold_right length List.last]; change (8 * Z.of_nat 1) with 8; lia|].
  specialize (IH b ltac:(done)). change (List.last (b :: c :: v) 0) with (List.last (c :: v) 0).
  replace (8 * Z.of_nat (length (b :: c :: v))) with (8 + 8 * Z.of_nat (length (c :: v))) by (cbn [length]; lia).
  rewrite Z.pow_add_r by lia. change (2 ^ 8) with 256. nia.
Qed.

(** ** The multiplication *)

Lemma last_nth15 v : length v = 16%nat -> List.last v 0 = nth 15 v 0.
Proof. intros H. do 16 (destruct v as [|? v]; [done|]). by destruct v. Qed.

Lemma xor_first_zip v b : length v = 16%nat -> xor_first v b = zip_with Z.lxor v (b :: replicate 15 0).
Proof. intros H. do 16 (destruct v as [|? v]; [done|]). destruct v; [|done]. cbn. by rewrite !Z.lxor_0_r. Qed.

(** The next [v] is x times [v]. *)
Lemma gf_next v :
  block v ->
  let v' := if negb (Z.land (nth 15 v 0) 0x01 =? 0) then xor_first (shift_right_block v) 0xe1 else shift_right_block v in
  block v' /\ poly v' = mulx (poly v).
Proof.
  intros Hv v'. pose proof Hv as [Hl Hu]. pose proof (poly_shift 0 v Hu ltac:(by intros ->)) as Hs.
  unfold v'. rewrite shift_right_bytes, land_1 by done. rewrite Hl in Hs. change (8 * Z.of_nat 16) with 128 in Hs.
  rewrite last_nth15 in Hs by done. change (0 mod 2) with 0 in Hs. set (s := shift_bytes 0 v) in *.
  assert (block s) as [Ls Us] by (split; [by unfold s; rewrite shift_bytes_length|by apply shift_bytes_u8]).
  pose proof (poly_word s Us) as Ws. rewrite Ls in Ws. change (8 * Z.of_nat 16) with 128 in Ws.
  unfold mulx. destruct (Z.eqb_spec (nth 15 v 0 mod 2) 0) as [H0|H0]; cbn [negb].
  - split; [done|]. rewrite H0 in Hs. replace (2 * poly v) with (poly s) by lia. by rewrite (word_high 128).
  - assert (nth 15 v 0 mod 2 = 1) as H1 by zlia. rewrite H1 in Hs.
    assert (2 * poly v = Z.lxor (Z.shiftl 1 128) (poly s)) as -> by (rewrite lxor_split by (lia || done); lia).
    rewrite xor_first_zip by done. assert (Forall is_u8 (0xe1 :: replicate 15 0)) as Ue by by apply bytes_ok.
    split; [split; [by rewrite length_zip_with, Ls|by apply zip_lxor_u8]|]. rewrite poly_lxor by done.
    rewrite Z.lxor_spec, (word_high 128 (poly s)) by done. change (Z.testbit (Z.shiftl 1 128) 128) with true. cbn [xorb].
    change GCM_POLY with (Z.lxor (Z.shiftl 1 128) 0x87). change (poly (0xe1 :: replicate 15 0)) with 0x87. xor_solve.
Qed.

(** The state of the loop after [k] bits. *)
Definition gf_inv (X Y : Z) (k : nat) (zv : list Z * list Z) : Prop :=
  block zv.1 /\ block zv.2 /\ poly zv.1 = gf_sum k X Y /\ poly zv.2 = Nat.iter k mulx Y.

Lemma gf_bit_inv X Y k xi j zv :
  gf_inv X Y k zv -> (j < 8)%nat -> Z.testbit xi (7 - Z.of_nat j) = Z.testbit X (Z.of_nat k) -> gf_inv X Y (S k) (gf_bit xi zv j).
Proof.
  destruct zv as [z v]. intros (Hz & Hv & Pz & Pv) Hj Hx. cbn [fst snd] in *. unfold gf_bit. rewrite land_shift_bit, Hx by lia.
  destruct (gf_next v Hv) as [Hv' Pv']. split_and!; cbn [fst snd]; [|done| |by rewrite Pv', Pv].
  - destruct (Z.testbit X _); [|done]. destruct Hz, Hv. unfold xor_aes_block. rewrite !take_ge by lia.
    split; [rewrite length_zip_with; lia|by apply zip_lxor_u8].
  - cbn [gf_sum]. rewrite <- Pz, <- Pv. destruct (Z.testbit X _); [|by rewrite Z.lxor_0_r]. destruct Hz, Hv.
    unfold xor_aes_block. rewrite !take_ge by lia. by rewrite poly_lxor by (done || lia).
Qed.

Lemma gf_mult_inv x y : block x -> block y -> gf_inv (poly x) (poly y) 128
  (fold_left (fun zv i => fold_left (gf_bit (nth i x 0)) (seq 0 8) zv) (seq 0 16) (replicate 16 0, take 16 y)).
Proof.
  intros [Lx Ux] Hy. assert (forall n, (n <= 16)%nat -> gf_inv (poly x) (poly y) (8 * n)
    (fold_left (fun zv i => fold_left (gf_bit (nth i x 0)) (seq 0 8) zv) (seq 0 n) (replicate 16 0, take 16 y))) as H; [|by apply (H 16%nat)].
  induction n as [|n IH]; intros Hn.
  - destruct Hy. rewrite take_ge by lia. unfold gf_inv. cbn [fold_left seq fst snd]. split_and!; [split; [done|by apply bytes_ok]|done|done|done].
  - rewrite (seq_S n), fold_left_app. cbn [fold_left Nat.add]. specialize (IH ltac:(lia)). set (zv := fold_left _ (seq 0 n) _) in *.
    assert (forall j, (j <= 8)%nat -> gf_inv (poly x) (poly y) (8 * n + j) (fold_left (gf_bit (nth n x 0)) (seq 0 j) zv)) as Hj.
    { induction j as [|j IHj]; intros Hj; [by rewrite Nat.add_0_r|]. rewrite (seq_S j), fold_left_app. cbn [fold_left Nat.add].
      rewrite Nat.add_succ_r. apply gf_bit_inv; [apply IHj; lia|lia|].
      rewrite Nat2Z.inj_add, Nat2Z.inj_mul. symmetry. apply poly_testbit; [done|lia|lia]. }
    replace (8 * S n)%nat with (8 * n + 8)%nat by lia. by apply Hj.
Qed.

(** C20. The loop over the bits of a block multiplies in the field of GCM: read
    with the first bit as the coefficient of 1, the result is the remainder of
    the product of the two polynomials modulo x^128 + x^7 + x^2 + x + 1, and it
    is a block. *)
Theorem gf_mult_polynomial x y :
  block x -> block y ->
  block (gf_mult x y) /\ poly (gf_mult x y) = pmod 128 (clmul 128 (poly x) (poly y)).
Proof.
  intros Hx Hy. assert (word 128 (poly y)) as W by (destruct Hy as [Ly Uy]; pose proof (poly_word y Uy) as W; by rewrite Ly in W).
  rewrite <- (gf_sum_pmod 128 128 _ _ W (le_n _)). unfold gf_mult. generalize (gf_mult_inv x y Hx Hy).
  generalize (fold_left (fun zv i => fold_left (gf_bit (nth i x 0)) (seq 0 8) zv) (seq 0 16) (replicate 16 0, take 16 y)).
  generalize 128%nat. intros n zv (H1 & _ & H2 & _). by split.
Qed.

Lemma gf_mult_polynomial_witness :
  block (gf_mult fips_plain (fips_key 16)) /\
  poly (gf_mult fips_plain (fips_key 16)) = pmod 128 (clmul 128 (poly fips_plain) (poly (fips_key 16))).
Proof. apply (gf_mult_polynomial fips_plain (fips_key 16)); (split; [reflexivity|by apply bytes_ok]). Defined.

(** ** Hashes are blocks *)

Lemma xor_block_ok a b : block a -> block b -> block (xor_aes_block a b).
Proof.
  intros [La Ua] [Lb Ub]. unfold xor_aes_block. rewrite !take_ge by lia. split; [rewrite length_zip_with; lia|by apply zip_lxor_u8].
Qed.

Lemma gf_bit_block xi zv j : block zv.1 -> block zv.2 -> block (gf_bit xi zv j).1 /\ block (gf_bit xi zv j).2.
Proof.
  destruct zv as [z v]. intros Hz Hv. cbn [fst snd] in *. unfold gf_bit. split; cbn [fst snd]; [|by apply gf_next].
  destruct (negb _); [by apply xor_block_ok|done].
Qed.

(** Whatever the first factor is. *)
Lemma gf_mult_block x h : block h -> block (gf_mult x h).
Proof.
  intros [Lh Uh]. unfold gf_mult. rewrite take_ge by lia. generalize (seq 0 16). intros l.
  assert (block (replicate 16 0) /\ block h) as H0 by (split; [split; [done|by apply bytes_ok]|done]).
  change (block (replicate 16 0, h).1 /\ block (replicate 16 0, h).2) in H0. revert H0. generalize (replicate 16 0, h).
  assert (forall xi js zv, block zv.1 /\ block zv.2 ->
    block (fold_left (gf_bit xi) js zv).1 /\ block (fold_left (gf_bit xi) js zv).2) as Hin.
  { intros xi js. induction js as [|j js IH]; intros zv [H1 H2]; [done|]. cbn [fold_left]. by apply IH, gf_bit_block. }
  induction l as [|i l IH]; intros zv H; [apply H|]. cbn [fold_left]. by apply IH, Hin.
Qed.

Lemma ghash_16 h x y : block h -> length x = 16%nat -> block (ghash h x y).
Proof.
  intros Hh Hx. unfold ghash. rewrite Hx. change (16 / 16)%nat with 1%nat. rewrite (drop_ge x) by lia.
  cbn [length Nat.eqb ghash_blocks]. by apply gf_mult_block.
Qed.

(** ** The stream and the tag *)

Section Exact.
Context (E : list Z -> list Z) `{!BlockCipher E}.

Lemma gctr_spec icb x pre w :
  (length x <= length w)%nat ->
  aes_gctr E icb x (pre ++ w) (zlen pre) = Ret (pre ++ ctr_mode inc32 E icb x ++ drop (length x) w).
Proof.
  intros Hw. rewrite (ctr_mode_split inc32 E block_length). set (n := (length x / 16)%nat). pose proof (Nat.div_mod_eq (length x) 16) as Hd.
  pose proof (Nat.mod_upper_bound (length x) 16) as Hm. fold n in Hd. unfold aes_gctr. fold n. cbn zeta.
  destruct (Z.eqb_spec (zlen x) 0) as [H0|H0]; [destruct x; [done|unfold zlen in H0; cbn in H0; lia]|].
  rewrite (ctr_loop_spec inc32 E block_length), bind_Ret by lia. set (c := zip_with _ (take (16 * n) x) _).
  assert (length c = 16 * n)%nat as Hc.
  { unfold c. rewrite length_zip_xor; rewrite length_take; [lia|]. rewrite (key_blocks_length inc32 E block_length). lia. }
  rewrite length_drop. destruct (Nat.eqb_spec (length x - 16 * n) 0) as [Hz|Hz].
  - rewrite (drop_ge x) by lia. cbn [zip_with]. rewrite app_nil_r. by replace (16 * n)%nat with (length x) by lia.
  - set (d := zip_with _ (drop (16 * n) x) _). assert (length d = length x - 16 * n)%nat as Hdl.
    { unfold d. rewrite length_zip_xor; rewrite length_drop; [done|]. rewrite block_length. lia. }
    rewrite (app_assoc pre). rewrite wrs_over.
    + rewrite <- !app_assoc, drop_drop, Hdl. by replace (16 * n + (length x - 16 * n))%nat with (length x) by lia.
    + rewrite zlen_app. unfold zlen. lia.
    + unfold zlen. rewrite length_drop. lia.
Qed.

Lemma gcm_hash_block aad c : block (aes_gcm_ghash (hash_subkey E) aad c).
Proof. unfold aes_gcm_ghash. apply ghash_16; [|done]. unfold hash_subkey. split; [apply block_length|apply block_bytes]. Qed.

(** The hash is not evaluated in proofs. *)
#[local] Opaque aes_gcm_ghash aes_gcm_prepare_j0 inc32.

Let J0 (nonce : list Z) : list Z := aes_gcm_prepare_j0 nonce (hash_subkey E).

Definition gcm_stream (nonce data : list Z) : list Z := ctr_mode inc32 E (inc32 (J0 nonce)) data.

(** The tag is on the cipher text. *)
Definition gcm_tag (nonce aad p : list Z) : list Z :=
  ctr_mode inc32 E (J0 nonce) (aes_gcm_ghash (hash_subkey E) aad (gcm_stream nonce p)).

Lemma gcm_stream_length nonce data : length (gcm_stream nonce data) = length data.
Proof. unfold gcm_stream. apply ctr_mode_length, block_length. Qed.

Lemma gcm_stream_involutive nonce data : gcm_stream nonce (gcm_stream nonce data) = data.
Proof. unfold gcm_stream. apply ctr_mode_involutive, block_length. Qed.

Lemma gcm_tag_block nonce aad p : block (gcm_tag nonce aad p).
Proof.
  destruct (gcm_hash_block aad (gcm_stream nonce p)) as [L U]. split; [unfold gcm_tag; rewrite ctr_mode_length; [done|apply block_length]|].
  unfold gcm_tag, ctr_mode. rewrite L. apply zip_lxor_u8; [done|]. cbn [Nat.div Nat.divmod fst key_blocks].
  repeat (apply Forall_app_2; [apply block_bytes|]). constructor.
Qed.

Lemma gcm_gctr_spec nonce x pre w :
  (length x <= length w)%nat ->
  aes_gcm_gctr E (J0 nonce) x (pre ++ w) (zlen pre) = Ret (pre ++ gcm_stream nonce x ++ drop (length x) w).
Proof.
  intros Hw. unfold aes_gcm_gctr. destruct (Z.eqb_spec (zlen x) 0) as [H0|H0]; [|by apply gctr_spec].
  destruct x; [done|unfold zlen in H0; cbn in H0; lia].
Qed.

Lemma gcm_ae_spec nonce p aad pre w :
  (length p + 16 <= length w)%nat ->
  exists r, gcm_ae_body E nonce p aad (pre ++ w) (zlen pre) (zlen pre + zlen p) =
      Ret (pre ++ gcm_stream nonce p ++ gcm_tag nonce aad p ++ r) /\ (length p + 16 + length r = length w)%nat.
Proof.
  intros Hw. unfold gcm_ae_body. cbn zeta. fold (J0 nonce). rewrite gcm_gctr_spec, bind_Ret by lia.
  pose proof (gcm_stream_length nonce p) as Ls. set (s := gcm_stream nonce p) in *.
  rewrite rds_at, bind_Ret by (done || unfold zlen; lia). destruct (gcm_hash_block aad s) as [LS US].
  rewrite (app_assoc pre). replace (zlen pre + zlen p) with (zlen (pre ++ s)) by (rewrite zlen_app; unfold zlen; lia).
  rewrite gctr_spec by (rewrite LS, length_drop; lia). fold (gcm_tag nonce aad p).
  exists (drop (length (aes_gcm_ghash (hash_subkey E) aad s)) (drop (length p) w)).
  split; [by rewrite <- app_assoc|]. rewrite !length_drop, LS. lia.
Qed.

(** A block into a block. *)
Lemma gctr_16 icb x : block x -> aes_gctr E icb x (replicate 16 0) 0 = Ret (ctr_mode inc32 E icb x).
Proof.
  intros [L _]. pose proof (gctr_spec icb x [] (replicate 16 0)) as H. rewrite L in H. cbn [app] in H.
  change (zlen (@nil Z)) with 0 in H. rewrite H by done. by rewrite app_nil_r.
Qed.

Lemma gcm_verdict t T :
  zlen t = 16 -> Forall is_u8 t -> block T ->
  (if negb (os_memcmp_const t T 16 =? 0) then -1 else 0) = (if bool_decide (t = T) then 0 else -1).
Proof.
  intros Ht Ut [LT UT]. pose proof (memcmp_eq t T 16 Ut UT ltac:(unfold zlen in Ht; lia) LT) as Hm.
  rewrite (take_ge t) in Hm by (unfold zlen in Ht; lia).
  destruct (Z.eqb_spec (os_memcmp_const t T 16) 0) as [H|H]; cbn [negb].
  - by rewrite bool_decide_eq_true_2 by by apply Hm.
  - rewrite bool_decide_eq_false_2; [done|]. by rewrite <- Hm.
Qed.

Lemma gcm_ad_spec nonce c aad t w :
  zlen t = 16 -> Forall is_u8 t -> (length c <= length w)%nat ->
  let p := gcm_stream nonce c in
  exists r, gcm_ad_body E nonce c aad t w 0 = Ret (if bool_decide (t = gcm_tag nonce aad p) then 0 else -1, p ++ r) /\
    (length c + length r = length w)%nat.
Proof.
  intros Ht Ut Hw p. unfold gcm_ad_body. cbn zeta. fold (J0 nonce).
  pose proof (gcm_gctr_spec nonce c [] w Hw) as Es. cbn [app] in Es. change (zlen (@nil Z)) with 0 in Es. rewrite Es, bind_Ret. fold p.
  assert (gcm_tag nonce aad p = ctr_mode inc32 E (J0 nonce) (aes_gcm_ghash (hash_subkey E) aad c)) as Et.
  { unfold gcm_tag, p. by rewrite gcm_stream_involutive. }
  assert (aes_gctr E (J0 nonce) (aes_gcm_ghash (hash_subkey E) aad c) (replicate 16 0) 0 = Ret (gcm_tag nonce aad p)) as ->.
  { rewrite Et. apply gctr_16, gcm_hash_block. }
  rewrite bind_Ret. exists (drop (length c) w). split; [|rewrite length_drop; lia].
  rewrite (gcm_verdict t _ Ht Ut (gcm_tag_block nonce aad p)). reflexivity.
Qed.
End Exact.

(** GCM over AES implements the interface. *)
#[export] Instance gcm_aead os_malloc key key_len (Hm : gets_memory os_malloc) (Hk : key_len_ok key_len) :
  Aead 16 (aes_gcm_ae os_malloc key key_len) (aes_gcm_ad os_malloc key key_len).
Proof.
  destruct (aes_ctx os_malloc key key_len) as [ctx|] eqn:Ec.
  2: { exfalso. destruct (aes_ctx_some os_malloc key key_len Hm Hk) as [ctx E]. by rewrite Ec in E. }
  set (E := aes_encrypt ctx). refine {| aead_stream := gcm_stream E; aead_tag := gcm_tag E |}.
  - apply gcm_stream_length. apply _.
  - apply gcm_stream_involutive. apply _.
  - intros. unfold zlen. by rewrite (proj1 (gcm_tag_block E nonce aad p)).
  - intros. apply (gcm_tag_block E).
  - intros nonce p aad pre w _ Hw. unfold aes_gcm_ae. rewrite Ec.
    destruct (gcm_ae_spec E nonce p aad pre w Hw) as (r & Er & Hr). fold E. rewrite Er, bind_Ret.
    exists r. split; [done|]. unfold zlen. lia.
  - intros nonce c aad t w _ Ht Ut Hw. unfold aes_gcm_ad. rewrite Ec.
    destruct (gcm_ad_spec E nonce c aad t w Ht Ut ltac:(lia)) as (r & Er & Hr). fold E. rewrite Er.
    exists r. split; [done|]. unfold zlen. lia.
Qed.

(** GCM accepts exactly what it produces. *)
Lemma gcm_accepts_exactly os_malloc key key_len nonce c aad t w w' :
  gets_memory os_malloc -> key_len_ok key_len -> zlen aad <= 30 ->
  zlen t = 16 -> Forall is_u8 t -> zlen c + 16 <= zlen w -> zlen c + 16 <= zlen w' ->
  exists st p r, aes_gcm_ad os_malloc key key_len nonce c aad t w 0 = Ret (st, p ++ r) /\ zlen p = zlen c /\
    (st = 0 \/ st = -1) /\
    (st = 0 <-> exists r', aes_gcm_ae os_malloc key key_len nonce p aad w' 0 (zlen p) = Ret (0, c ++ t ++ r')).
Proof. intros Hm Hk. pose proof (gcm_aead os_malloc key key_len Hm Hk). apply aead_exact. Qed.

(** The fourth example of the specification of GCM. *)
Lemma gcm_standard_example :
  aes_gcm_ae sample_malloc
    [0xfe; 0xff; 0xe9; 0x92; 0x86; 0x65; 0x73; 0x1c; 0x6d; 0x6a; 0x8f; 0x94; 0x67; 0x30; 0x83; 0x08] 16
    [0xca; 0xfe; 0xba; 0xbe; 0xfa; 0xce; 0xdb; 0xad; 0xde; 0xca; 0xf8; 0x88]
    [0xd9; 0x31; 0x32; 0x25; 0xf8; 0x84; 0x06; 0xe5; 0xa5; 0x59; 0x09; 0xc5; 0xaf; 0xf5; 0x26; 0x9a;
     0x86; 0xa7; 0xa9; 0x53; 0x15; 0x34; 0xf7; 0xda; 0x2e; 0x4c; 0x30; 0x3d; 0x8a; 0x31; 0x8a; 0x72;
     0x1c; 0x3c; 0x0c; 0x95; 0x95; 0x68; 0x09; 0x53; 0x2f; 0xcf; 0x0e; 0x24; 0x49; 0xa6; 0xb5; 0x25;
     0xb1; 0x6a; 0xed; 0xf5; 0xaa; 0x0d; 0xe6; 0x57; 0xba; 0x63; 0x7b; 0x39]
    [0xfe; 0xed; 0xfa; 0xce; 0xde; 0xad; 0xbe; 0xef; 0xfe; 0xed; 0xfa; 0xce; 0xde; 0xad; 0xbe; 0xef; 0xab; 0xad; 0xda; 0xd2]
    (replicate 76 0) 0 60 =
  Ret (0, [0x42; 0x83; 0x1e; 0xc2; 0x21; 0x77; 0x74; 0x24; 0x4b; 0x72; 0x21; 0xb7; 0x84; 0xd0; 0xd4; 0x9c;
           0xe3; 0xaa; 0x21; 0x2f; 0x2c; 0x02; 0xa4; 0xe0; 0x35; 0xc1; 0x7e; 0x23; 0x29; 0xac; 0xa1; 0x2e;
           0x21; 0xd5; 0x14; 0xb2; 0x54; 0x66; 0x93; 0x1c; 0x7d; 0x8f; 0x6a; 0x5a; 0xac; 0x84; 0xaa; 0x05;
           0x1b; 0xa3; 0x0b; 0x39; 0x6a; 0x0a; 0xac; 0x97; 0x3d; 0x58; 0xe0; 0x91;
           0x5b; 0xc9; 0x4f; 0xbc; 0x32; 0x21; 0xa5; 0xdb; 0x94; 0xfa; 0xe9; 0x5a; 0xe7; 0x12; 0x1a; 0x47]).
Proof. vm_compute. reflexivity. Qed.
