(* ===== verification/Mpdu.v ===== *)
(** * Protection of frames

    What CCMP and GCMP share: src/core/crypto/ccmp.c and src/core/crypto/gcmp.c
    build an encrypted frame in a fresh object and copy it back over the frame
    (src/core/rtw_swcrypto.c), and [rtw_aes_encrypt], [rtw_gcmp_encrypt] and
    their counterparts in src/core/rtw_security.c do that for the fragments of
    a frame.  The code is written twice in the sources, with other constants;
    here it is a section over the mode, with the interface [Aead], and over the
    treatment of the header, with the interface [MpduHeader]. *)
From Stdlib Require Import ZArith Lia Bool List.
From stdpp Require Import base tactics list numbers sets.
From S2P Require Import Prelude ByteBuf WordBits SecCrypto SecFrame Aes Aead.

(** ** Definitions *)

(** The CCMP or GCMP header that is built from a packet number. *)
Definition pn_hdr (pn : list Z) (keyid : Z) : list Z :=
  [nth 5 pn 0; nth 4 pn 0; 0x00; u8 (Z.lor 0x20 (Z.shiftl keyid 6)); nth 3 pn 0; nth 2 pn 0; nth 1 pn 0; nth 0 pn 0].

Section Mpdu.
Context (aad_nonce : list Z -> Z -> outcome (list Z * list Z)) (mark : list Z -> outcome (list Z)) (M : Z)
  (os_malloc : allocator) (ae : list Z -> list Z -> list Z -> list Z -> Z -> Z -> outcome (Z * list Z))
  (ad : list Z -> list Z -> list Z -> list Z -> list Z -> Z -> outcome (Z * list Z)).

(** The two headers in [crypt], and where the plain text starts in [frame]. *)
Definition put_hdr (frame crypt : list Z) (hdrlen : Z) (pn : option (list Z)) (keyid : Z) : outcome (list Z * Z) :=
  match pn with
  | None =>
    h ← rds frame 0 (hdrlen + 8);
    crypt ← wrs crypt 0 h;
    crypt ← mark crypt;
    Ret (crypt, hdrlen + 8)
  | Some pn =>
    h ← rds frame 0 hdrlen;
    crypt ← wrs crypt 0 h;
    crypt ← mark crypt;
    pn ← rds pn 0 6;
    crypt ← wrs crypt hdrlen (pn_hdr pn keyid);
    Ret (crypt, hdrlen)
  end.

(** [ccmp_encrypt], [ccmp_256_encrypt] and [gcmp_encrypt]: the new object and
    the length of the frame in it. *)
Definition mpdu_encrypt (frame : list Z) (len hdrlen : Z) (pn : option (list Z)) (keyid : Z) : outcome (option (list Z * Z)) :=
  if (len <? hdrlen) || (hdrlen <? 24) then Ret None
  else
    let plen := len - hdrlen in
    match os_malloc (hdrlen + 8 + plen + M + 16) with
    | None => Ret None
    | Some crypt =>
      r ← put_hdr frame crypt hdrlen pn keyid;
      let '(crypt, pdata) := r in
      r ← aad_nonce crypt hdrlen;
      let '(aad, nonce) := r in
      plain ← rds frame pdata plen;
      r ← ae nonce plain aad crypt (hdrlen + 8) (hdrlen + 8 + plen);
      let '(st, crypt) := r in
      Ret (if st <? 0 then None else Some (crypt, hdrlen + 8 + plen + M))
    end.

(** [ccmp_decrypt], [ccmp_256_decrypt] and [gcmp_decrypt]; [data] is
    [frame + hdrlen] in all callers. *)
Definition mpdu_decrypt (frame : list Z) (hdrlen data_len : Z) : outcome (option (list Z * Z)) :=
  if data_len <? 8 + M then Ret None
  else
    match os_malloc (data_len + 16) with
    | None => Ret None
    | Some plain =>
      let mlen := data_len - 8 - M in
      r ← aad_nonce frame hdrlen;
      let '(aad, nonce) := r in
      crypt ← rds frame (hdrlen + 8) mlen;
      auth ← rds frame (hdrlen + 8 + mlen) M;
      r ← ad nonce crypt aad auth plain 0;
      let '(st, plain) := r in
      Ret (if st <? 0 then None else Some (plain, mlen))
    end.
End Mpdu.

(** The end of [_rtw_ccmp_encrypt] and [_rtw_gcmp_encrypt]: copy back and free. *)
Definition copy_enc (enc : option (list Z * Z)) (frame : list Z) : outcome (Z * list Z) :=
  match enc with
  | None => Ret (_FAIL, frame)
  | Some (enc, enc_len) =>
    e ← rds enc 0 enc_len;
    frame ← wrs frame 0 e;
    Ret (_SUCCESS, frame)
  end.

(** The end of [_rtw_ccmp_decrypt] and [_rtw_gcmp_decrypt]. *)
Definition copy_plain (plain : option (list Z * Z)) (hdrlen : Z) (frame : list Z) : outcome (Z * list Z) :=
  match plain with
  | None => Ret (_FAIL, frame)
  | Some (plain, plain_len) =>
    p ← rds plain 0 plain_len;
    frame ← wrs frame (hdrlen + 8) p;
    Ret (_SUCCESS, frame)
  end.

(** [rtw_aes_encrypt] and [rtw_gcmp_encrypt], for the algorithms [alg] with
    keys of 16 and [alg256] with keys of 32 bytes. *)
Section Software.
Context (alg alg256 : Z) (enc dec : list Z -> Z -> Z -> list Z -> Z -> outcome (Z * list Z)).

(** A turn of the loop: the result of the call is not looked at. *)
Definition sw_encrypt_frag (a : pkt_attrib) (prwskey : list Z) (prwskeylen : Z) (pframe : list Z) (flen : Z) : outcome (list Z) :=
  let plen := flen - pa_hdrlen a - pa_iv_len a - pa_icv_len a in
  r ← enc prwskey prwskeylen (pa_hdrlen a) pframe (u32 plen);
  Ret r.2.

Definition sw_encrypt (lsec : link_security_priv) (xf : xmit_frame) : outcome (Z * xmit_frame) :=
  let a := xf_attrib xf in
  if negb (pa_encrypt a =? alg) && negb (pa_encrypt a =? alg256) then Ret (_SUCCESS, xf)
  else
    prwskey ← (if IS_MCAST (pa_ra a) then entry (dot118021XGrpKey lsec) (dot118021XGrpKeyid lsec)
               else Ret (pa_UncstKey a));
    let prwskeylen := if pa_encrypt a =? alg256 then 32 else 16 in
    l ← frag_loop (on_frag (sw_encrypt_frag a prwskey prwskeylen)) (pa_nr_frags a) (phl_txreq xf);
    Ret (_SUCCESS, XmitFrame a l (xf_buf_addr xf)).

Definition sw_decrypt_with (prwskey : list Z) (f : recv_frame) : outcome (Z * recv_frame) :=
  let a := rf_attrib f in
  r ← dec prwskey (if ra_encrypt a =? alg256 then 32 else 16) (ra_hdrlen a) (rx_data f) (rf_len f);
  let '(res, m) := r in
  Ret (res, set_rx_data f m).

(** A group frame needs the group key, under the index of the installed one. *)
Definition sw_decrypt (lsec : link_security_priv) (f : recv_frame) : outcome (Z * recv_frame) :=
  let a := rf_attrib f in
  if (ra_encrypt a =? alg) || (ra_encrypt a =? alg256) then
    match rf_psta f with
    | None => Ret (_FAIL, f)
    | Some UncstKey =>
      if IS_MCAST (ra_ra a) then
        if negb (binstallGrpkey lsec) then Ret (_FAIL, f)
        else
          prwskey ← entry (dot118021XGrpKey lsec) (ra_key_index a);
          if negb (dot118021XGrpKeyid lsec =? ra_key_index a) then Ret (_FAIL, f)
          else sw_decrypt_with prwskey f
      else sw_decrypt_with UncstKey f
    end
  else Ret (_SUCCESS, f).
End Software.

(** ** Reads of a prefix *)

Lemma rds_some h p n :
  0 <= p -> 0 <= n -> p + n <= zlen h -> exists x, zlen x = n /\ forall t, rds (h ++ t) p n = Ret x.
Proof.
  intros Hp Hn H. eexists. split; [|intros t; by rewrite rds_app_l, rds_spec by done].
  unfold zlen in *. rewrite length_take, length_drop. lia.
Qed.

Lemma rd_some h p : 0 <= p < zlen h -> exists x, forall t, rd (h ++ t) p = Ret x.
Proof.
  intros H. destruct (rd_spec h p H) as (x & _ & E). exists x. intros t. unfold rd.
  rewrite (proj2 (Z.leb_le _ _)) by lia. rewrite lookup_app_l by (unfold zlen in H; lia). by rewrite E.
Qed.

Lemma get_le16_some h p : 0 <= p -> p + 2 <= zlen h -> exists x, forall t, RTW_GET_LE16 (h ++ t) p = Ret x.
Proof.
  intros Hp H. destruct (rd_some h p) as [lo El]; [lia|]. destruct (rd_some h (p + 1)) as [hi Eh]; [lia|].
  eexists. intros t. unfold RTW_GET_LE16. by rewrite Eh, bind_Ret, El.
Qed.

(** ** Interfaces *)

(** The additional data and the nonce come from the headers, and the header is
    changed at its start. *)
Class MpduHeader (aad_nonce : list Z -> Z -> outcome (list Z * list Z)) (mark : list Z -> outcome (list Z))
    (marked : list Z -> list Z) := {
  hdr_aad : forall h d, 24 <= d -> d + 8 <= zlen h ->
    exists aad nonce, zlen aad <= 30 /\ forall t, aad_nonce (h ++ t) d = Ret (aad, nonce);
  hdr_mark : forall h t, 2 <= zlen h -> mark (h ++ t) = Ret (marked h ++ t);
  hdr_marked_length : forall h, 2 <= zlen h -> zlen (marked h) = zlen h }.

(** A key of the wrappers with tags of [M] bytes: what is encrypted is the
    marked header and a cipher text that decrypts to the plain text; and what
    is decrypted is exactly what encrypts to the frame. *)
Class Protects (M : Z) (marked : list Z -> list Z) (enc dec : Z -> list Z -> Z -> outcome (Z * list Z)) := {
  protects_roundtrip : forall h iv pay icv rest,
    24 <= zlen h -> zlen iv = 8 -> zlen icv = M -> zlen h + zlen pay + 8 + M < 2 ^ 32 ->
    exists c t, zlen c = zlen pay /\ zlen t = M /\
      enc (zlen h) (h ++ iv ++ pay ++ icv ++ rest) (zlen pay) = Ret (_SUCCESS, marked h ++ iv ++ c ++ t ++ rest) /\
      dec (zlen h) (marked h ++ iv ++ c ++ t ++ rest) (zlen h + 8 + zlen pay + M) =
      Ret (_SUCCESS, marked h ++ iv ++ pay ++ t ++ rest);
  protects_exact : forall h iv c t rest,
    24 <= zlen h -> zlen iv = 8 -> zlen t = M -> Forall is_u8 t -> zlen h + zlen c + 8 + M < 2 ^ 32 -> marked h = h ->
    exists st p, dec (zlen h) (h ++ iv ++ c ++ t ++ rest) (zlen h + 8 + zlen c + M) = Ret (st, h ++ iv ++ p ++ t ++ rest) /\
      zlen p = zlen c /\ (st = _SUCCESS \/ st = _FAIL /\ p = c) /\
      (forall q, zlen q = zlen c ->
         (st = _SUCCESS /\ p = q <->
          enc (zlen h) (h ++ iv ++ q ++ t ++ rest) (zlen q) = Ret (_SUCCESS, h ++ iv ++ c ++ t ++ rest))) }.

(** ** The section's functions *)

Section Spec.
Context {aad_nonce mark marked} `{!MpduHeader aad_nonce mark marked}.
Context {M ae ad} `{!Aead M ae ad} (HM : 0 <= M).
Context (os_malloc : allocator) (Hm : gets_memory os_malloc).

Let encrypt := mpdu_encrypt aad_nonce mark M os_malloc ae.
Let decrypt := mpdu_decrypt aad_nonce M os_malloc ad.

(** The headers are in the new object, with room behind them. *)
Lemma put_hdr_spec h iv x crypt :
  24 <= zlen h -> zlen iv = 8 -> zlen h + 8 <= zlen crypt ->
  exists w, put_hdr mark (h ++ iv ++ x) crypt (zlen h) None 0 = Ret (marked h ++ iv ++ w, zlen h + 8) /\
    zlen h + 8 + zlen w = zlen crypt.
Proof.
  intros Hh Hv Hc. unfold put_hdr. rewrite (app_assoc h iv).
  rewrite (rds_at [] (h ++ iv) x) by (rewrite ?zlen_app; done || lia). rewrite bind_Ret.
  rewrite (wrs_over [] crypt) by (rewrite ?zlen_app; done || lia). rewrite bind_Ret. cbn [app].
  rewrite <- app_assoc, hdr_mark, bind_Ret by lia. eexists. split; [done|].
  unfold zlen in *. rewrite length_drop, length_app. lia.
Qed.

Lemma mpdu_encrypt_spec h iv pay rest :
  24 <= zlen h -> zlen iv = 8 ->
  exists aad nonce r, zlen aad <= 30 /\ (forall t, aad_nonce (marked h ++ iv ++ t) (zlen h) = Ret (aad, nonce)) /\
    encrypt (h ++ iv ++ pay ++ rest) (zlen h + zlen pay) (zlen h) None 0 =
    Ret (Some (marked h ++ iv ++ aead_stream nonce pay ++ aead_tag nonce aad pay ++ r, zlen h + 8 + zlen pay + M)).
Proof.
  intros Hh Hv. pose proof (hdr_marked_length h ltac:(lia)) as Hk. pose proof (zlen_nonneg pay) as Hp.
  destruct (hdr_aad (marked h ++ iv) (zlen h)) as (aad & nonce & Ha & En); [lia|rewrite zlen_app; lia|].
  assert (forall t, aad_nonce (marked h ++ iv ++ t) (zlen h) = Ret (aad, nonce)) as En' by (intros t; rewrite app_assoc; apply En).
  unfold encrypt, mpdu_encrypt. replace (zlen h + zlen pay - zlen h) with (zlen pay) by lia.
  assert ((zlen h + zlen pay <? zlen h) || (zlen h <? 24) = false) as -> by (apply orb_false_iff; split; apply Z.ltb_ge; lia).
  destruct (Hm (zlen h + 8 + zlen pay + M + 16)) as (crypt & -> & Hc); [lia|].
  destruct (put_hdr_spec h iv (pay ++ rest) crypt Hh Hv ltac:(lia)) as (w & -> & Hw). rewrite bind_Ret, En', bind_Ret.
  assert (rds (h ++ iv ++ pay ++ rest) (zlen h + 8) (zlen pay) = Ret pay) as ->.
  { rewrite (app_assoc h). apply rds_at; rewrite ?zlen_app; lia. }
  rewrite bind_Ret. destruct (aead_ae nonce pay aad (marked h ++ iv) w Ha) as (r & Er & Hr); [unfold zlen in *; lia|].
  rewrite zlen_app, Hk, Hv in Er. rewrite (app_assoc (marked h)), Er, bind_Ret.
  exists aad, nonce, r. split_and!; [done|done|]. by rewrite <- app_assoc.
Qed.

Lemma mpdu_decrypt_spec h iv c t rest aad nonce :
  24 <= zlen h -> zlen iv = 8 -> zlen t = M -> Forall is_u8 t -> zlen aad <= 30 ->
  (forall t, aad_nonce (h ++ iv ++ t) (zlen h) = Ret (aad, nonce)) ->
  exists r, decrypt (h ++ iv ++ c ++ t ++ rest) (zlen h) (8 + zlen c + M) =
    Ret (if bool_decide (t = aead_tag nonce aad (aead_stream nonce c)) then Some (aead_stream nonce c ++ r, zlen c) else None).
Proof.
  intros Hh Hv Ht Ut Ha En. pose proof (zlen_nonneg c) as Hc. unfold decrypt, mpdu_decrypt.
  rewrite (proj2 (Z.ltb_ge _ _)) by lia. destruct (Hm (8 + zlen c + M + 16)) as (w & -> & Hw); [lia|].
  replace (8 + zlen c + M - 8 - M) with (zlen c) by lia. rewrite En, bind_Ret.
  assert (rds (h ++ iv ++ c ++ t ++ rest) (zlen h + 8) (zlen c) = Ret c) as ->.
  { rewrite (app_assoc h). apply rds_at; rewrite ?zlen_app; lia. }
  assert (rds (h ++ iv ++ c ++ t ++ rest) (zlen h + 8 + zlen c) M = Ret t) as ->.
  { rewrite (app_assoc iv), (app_assoc h). apply rds_at; rewrite ?zlen_app; lia. }
  rewrite !bind_Ret. destruct (aead_ad nonce c aad t w Ha Ht Ut) as (r & Er & Hr); [unfold zlen in *; lia|].
  exists r. rewrite Er, bind_Ret. by case_bool_decide.
Qed.

(** What comes back over the frame. *)
Lemma copy_enc_spec h iv pay icv rest h' c t r :
  zlen h' = zlen h -> zlen iv = 8 -> length c = length pay -> zlen icv = zlen t ->
  copy_enc (Some (h' ++ iv ++ c ++ t ++ r, zlen h + 8 + zlen pay + zlen t)) (h ++ iv ++ pay ++ icv ++ rest) =
  Ret (_SUCCESS, h' ++ iv ++ c ++ t ++ rest).
Proof.
  intros Hh Hv Hc Ht. unfold copy_enc.
  assert (h' ++ iv ++ c ++ t ++ r = [] ++ (h' ++ iv ++ c ++ t) ++ r) as -> by (cbn [app]; by rewrite <- !app_assoc).
  rewrite rds_at; [|done|rewrite !zlen_app; unfold zlen in *; lia]. rewrite bind_Ret.
  assert (h ++ iv ++ pay ++ icv ++ rest = [] ++ (h ++ iv ++ pay ++ icv) ++ rest) as -> by (cbn [app]; by rewrite <- !app_assoc).
  rewrite wrs_at; [|done|rewrite !length_app; unfold zlen in *; lia]. cbn [app]. by rewrite <- !app_assoc.
Qed.

Lemma copy_plain_spec h iv c t rest p r :
  zlen iv = 8 -> length p = length c ->
  copy_plain (Some (p ++ r, zlen c)) (zlen h) (h ++ iv ++ c ++ t ++ rest) = Ret (_SUCCESS, h ++ iv ++ p ++ t ++ rest).
Proof.
  intros Hv Hl. unfold copy_plain. change (p ++ r) with ([] ++ p ++ r).
  rewrite rds_at; [|done|unfold zlen; lia]. rewrite bind_Ret, (app_assoc h).
  rewrite wrs_at; [by rewrite <- app_assoc|rewrite zlen_app; lia|done].
Qed.

(** The wrappers of src/core/rtw_swcrypto.c for one key. *)
Definition enc_frame (hdrlen : Z) (frame : list Z) (plen : Z) : outcome (Z * list Z) :=
  e ← encrypt frame (u32 (hdrlen + plen)) hdrlen None 0; copy_enc e frame.

Definition dec_frame (hdrlen : Z) (frame : list Z) (plen : Z) : outcome (Z * list Z) :=
  p ← decrypt frame hdrlen (u32 (plen - hdrlen)); copy_plain p hdrlen frame.

Lemma enc_frame_spec h iv pay icv rest :
  24 <= zlen h -> zlen iv = 8 -> zlen icv = M -> zlen h + zlen pay + 8 + M < 2 ^ 32 ->
  exists aad nonce, zlen aad <= 30 /\ (forall t, aad_nonce (marked h ++ iv ++ t) (zlen h) = Ret (aad, nonce)) /\
    enc_frame (zlen h) (h ++ iv ++ pay ++ icv ++ rest) (zlen pay) =
    Ret (_SUCCESS, marked h ++ iv ++ aead_stream nonce pay ++ aead_tag nonce aad pay ++ rest).
Proof.
  intros Hh Hv Hi Hb. destruct (mpdu_encrypt_spec h iv pay (icv ++ rest) Hh Hv) as (aad & nonce & r & Ha & En & Ee).
  exists aad, nonce. split_and!; [done|done|]. unfold enc_frame. pose proof (zlen_nonneg pay).
  rewrite u32_small by (unfold is_u32; lia). rewrite Ee, bind_Ret.
  replace (zlen h + 8 + zlen pay + M) with (zlen h + 8 + zlen pay + zlen (aead_tag nonce aad pay)) by by rewrite aead_tag_length.
  apply copy_enc_spec; [by apply hdr_marked_length; lia|done| |].
  - apply aead_stream_length.
  - by rewrite aead_tag_length.
Qed.

Lemma dec_frame_spec h iv c t rest aad nonce :
  24 <= zlen h -> zlen iv = 8 -> zlen t = M -> Forall is_u8 t -> zlen h + zlen c + 8 + M < 2 ^ 32 -> zlen aad <= 30 ->
  (forall t, aad_nonce (h ++ iv ++ t) (zlen h) = Ret (aad, nonce)) ->
  dec_frame (zlen h) (h ++ iv ++ c ++ t ++ rest) (zlen h + 8 + zlen c + M) =
  let p := aead_stream nonce c in
  if bool_decide (t = aead_tag nonce aad p) then Ret (_SUCCESS, h ++ iv ++ p ++ t ++ rest)
  else Ret (_FAIL, h ++ iv ++ c ++ t ++ rest).
Proof.
  intros Hh Hv Ht Ut Hb Ha En. unfold dec_frame. pose proof (zlen_nonneg c).
  replace (zlen h + 8 + zlen c + M - zlen h) with (8 + zlen c + M) by lia. rewrite u32_small by (unfold is_u32; lia).
  destruct (mpdu_decrypt_spec h iv c t rest aad nonce Hh Hv Ht Ut Ha En) as (r & ->). rewrite bind_Ret. cbn zeta.
  case_bool_decide; [|done]. apply copy_plain_spec; [done|apply aead_stream_length].
Qed.

Lemma success_neq : _FAIL <> _SUCCESS.
Proof. done. Qed.

Lemma mpdu_protects : Protects M marked enc_frame dec_frame.
Proof.
  split.
  - intros h iv pay icv rest Hh Hv Hi Hb. destruct (enc_frame_spec h iv pay icv rest Hh Hv Hi Hb) as (aad & nonce & Ha & En & Ee).
    pose proof (hdr_marked_length h ltac:(lia)) as Hk. set (c := aead_stream nonce pay) in *.
    assert (length c = length pay) as Hc by apply aead_stream_length. assert (zlen c = zlen pay) as Hc' by (unfold zlen; lia).
    exists c, (aead_tag nonce aad pay). split_and!; [done|apply aead_tag_length|done|].
    rewrite <- Hk, <- Hc'. rewrite <- Hk in En.
    rewrite (dec_frame_spec (marked h) iv c _ rest aad nonce); [|lia|done|apply aead_tag_length|apply aead_tag_bytes|lia|done|done].
    cbn zeta. unfold c. rewrite aead_stream_involutive. by rewrite bool_decide_eq_true_2.
  - intros h iv c t rest Hh Hv Ht Ut Hb Hk.
    destruct (enc_frame_spec h iv c t rest Hh Hv Ht Hb) as (aad & nonce & Ha & En & _). rewrite Hk in En.
    rewrite (dec_frame_spec h iv c t rest aad nonce) by done. cbn zeta. set (p := aead_stream nonce c).
    assert (length p = length c) as Hp by apply aead_stream_length. assert (aead_stream nonce p = c) as Hpc by apply aead_stream_involutive.
    assert (forall q, zlen q = zlen c ->
      enc_frame (zlen h) (h ++ iv ++ q ++ t ++ rest) (zlen q) =
      Ret (_SUCCESS, h ++ iv ++ aead_stream nonce q ++ aead_tag nonce aad q ++ rest)) as Hq.
    { intros q Lq. destruct (enc_frame_spec h iv q t rest Hh Hv Ht ltac:(lia)) as (aad' & nonce' & _ & En' & ->).
      rewrite Hk in *. specialize (En' []). rewrite (En []) in En'. by injection En' as <- <-. }
    assert (forall q, zlen q = zlen c ->
      t = aead_tag nonce aad p /\ p = q <->
      enc_frame (zlen h) (h ++ iv ++ q ++ t ++ rest) (zlen q) = Ret (_SUCCESS, h ++ iv ++ c ++ t ++ rest)) as Hiff.
    { intros q Lq. rewrite (Hq q Lq). split.
      - intros [H <-]. by rewrite Hpc, <- H.
      - intros [= E]. do 2 apply app_inv_head in E. apply app_inj_1 in E as [E1 E2]; [|rewrite aead_stream_length; unfold zlen in Lq; lia].
        apply app_inv_tail in E2. assert (p = q) as <- by (unfold p; by rewrite <- E1, aead_stream_involutive). done. }
    case_bool_decide as H.
    + exists _SUCCESS, p. split_and!; [done|unfold zlen; lia|by left|]. intros q Lq. rewrite <- (Hiff q Lq). tauto.
    + exists _FAIL, c. split_and!; [done|done|by right|]. intros q Lq. rewrite <- (Hiff q Lq).
      split; [intros [H' _]; by destruct (success_neq H')|tauto].
Qed.
End Spec.

(** ** Fragments *)

Section Fragments.
Context (alg alg256 : Z) (enc dec : list Z -> Z -> Z -> list Z -> Z -> outcome (Z * list Z)) (marked : list Z -> list Z).

(** Eight bytes of packet number, [M] bytes of room for the tag, and a length
    that fits an [uint]. *)
Definition mpdu_parts_ok (hdrlen M : Z) (p : parts) : Prop :=
  24 <= hdrlen /\ zlen (p_hdr p) = hdrlen /\ zlen (p_iv p) = 8 /\ zlen (p_icv p) = M /\
  hdrlen + zlen (p_pay p) + 8 + M < 2 ^ 32.

Definition sw_key_len (encrypt : Z) : Z := if encrypt =? alg256 then 32 else 16.

Lemma sw_decrypt_key lsec a len m key :
  (pa_encrypt a =? alg) || (pa_encrypt a =? alg256) = true -> binstallGrpkey lsec = true -> frame_key lsec a = Ret key ->
  sw_decrypt alg alg256 dec lsec (frame_rx lsec a len m) = sw_decrypt_with alg256 dec key (frame_rx lsec a len m).
Proof.
  intros He Hb Hk. unfold sw_decrypt, frame_rx, frame_key in *. cbn [rf_attrib ra_encrypt rf_psta ra_ra ra_key_index].
  rewrite He, Hb. cbn [negb]. destruct (IS_MCAST (pa_ra a)); [|by injection Hk as ->].
  by rewrite Hk, bind_Ret, Z.eqb_refl.
Qed.

(** What a fragment becomes, and what the receiver makes of it. *)
Definition sw_received (lsec : link_security_priv) (a : pkt_attrib) (p : parts) (f : rtw_pkt_buf) : Prop :=
  length (vir_mem f) = length (vir_mem (to_send p)) /\
  exists t, zlen t = pa_icv_len a /\
    sw_decrypt alg alg256 dec lsec (frame_rx lsec a (pkt_length f) (vir_mem f)) =
    Ret (_SUCCESS, frame_rx lsec a (pkt_length f) (marked (p_hdr p) ++ p_iv p ++ p_pay p ++ t ++ p_rest p)).

Context (mark_length : forall h, 2 <= zlen h -> zlen (marked h) = zlen h).

Lemma sw_frag lsec a key p :
  (pa_encrypt a =? alg) || (pa_encrypt a =? alg256) = true -> binstallGrpkey lsec = true -> frame_key lsec a = Ret key ->
  Protects (pa_icv_len a) marked (enc key (sw_key_len (pa_encrypt a))) (dec key (sw_key_len (pa_encrypt a))) ->
  pa_iv_len a = 8 -> 0 <= pa_icv_len a -> mpdu_parts_ok (pa_hdrlen a) (pa_icv_len a) p ->
  exists f, on_frag (sw_encrypt_frag enc a key (sw_key_len (pa_encrypt a))) (to_send p) = Ret f /\ sw_received lsec a p f.
Proof.
  intros He Hb Hk HP Hv HM (H24 & Hh & Hi & Ht & Hl). pose proof (zlen_nonneg (p_pay p)) as Hp.
  destruct (protects_roundtrip (p_hdr p) (p_iv p) (p_pay p) (p_icv p) (p_rest p)) as (c & t & Lc & Lt & Ee & Ed); [lia..|].
  unfold on_frag, sw_encrypt_frag, to_send. cbn [vir_mem pkt_length].
  replace (_ - pa_hdrlen a - pa_iv_len a - pa_icv_len a) with (zlen (p_pay p)) by lia.
  rewrite u32_small by (unfold is_u32; lia). rewrite <- Hh, Ee, !bind_Ret. cbn [snd].
  eexists. split; [done|]. unfold sw_received, to_send. cbn [vir_mem pkt_length]. split.
  - pose proof (mark_length (p_hdr p) ltac:(lia)). rewrite !length_app. unfold zlen in *. lia.
  - exists t. split; [done|]. rewrite (sw_decrypt_key _ _ _ _ key) by done. unfold sw_decrypt_with, frame_rx.
    cbn [rf_attrib ra_encrypt ra_hdrlen rx_data rf_len]. fold (sw_key_len (pa_encrypt a)).
    rewrite <- Hh. replace (zlen (p_hdr p) + zlen (p_iv p) + zlen (p_pay p) + zlen (p_icv p))
      with (zlen (p_hdr p) + 8 + zlen (p_pay p) + pa_icv_len a) by lia.
    by rewrite Ed.
Qed.

Lemma sw_roundtrip lsec a ps buf key :
  (pa_encrypt a =? alg) || (pa_encrypt a =? alg256) = true -> binstallGrpkey lsec = true -> frame_key lsec a = Ret key ->
  Protects (pa_icv_len a) marked (enc key (sw_key_len (pa_encrypt a))) (dec key (sw_key_len (pa_encrypt a))) ->
  pa_iv_len a = 8 -> 0 <= pa_icv_len a -> pa_nr_frags a = length ps ->
  Forall (mpdu_parts_ok (pa_hdrlen a) (pa_icv_len a)) ps ->
  exists l, sw_encrypt alg alg256 enc lsec (XmitFrame a (map to_send ps) buf) = Ret (_SUCCESS, XmitFrame a l buf) /\
    Forall2 (sw_received lsec a) ps l.
Proof.
  intros He Hb Hk HP Hv HM Hn Hps.
  destruct (frag_loop_map (on_frag (sw_encrypt_frag enc a key (sw_key_len (pa_encrypt a)))) (sw_received lsec a) ps) as (l & E & Hl).
  { intros p Hp%(proj1 (Forall_forall _ _) Hps). by apply sw_frag. }
  exists l. split; [|done]. unfold sw_encrypt. cbn [xf_attrib phl_txreq xf_buf_addr]. rewrite <- negb_orb, He. cbn [negb].
  fold (frame_key lsec a). rewrite Hk, bind_Ret. fold (sw_key_len (pa_encrypt a)). by rewrite Hn, E.
Qed.

(** When nothing can be encrypted, the plain fragments are sent. *)
Lemma sw_encrypt_fails lsec a l buf key :
  frame_key lsec a = Ret key -> pa_nr_frags a = length l ->
  (forall m plen, enc key (sw_key_len (pa_encrypt a)) (pa_hdrlen a) m plen = Ret (_FAIL, m)) ->
  sw_encrypt alg alg256 enc lsec (XmitFrame a l buf) = Ret (_SUCCESS, XmitFrame a l buf).
Proof.
  intros Hk Hn Hf. unfold sw_encrypt. cbn [xf_attrib phl_txreq xf_buf_addr]. destruct (_ && _); [done|].
  fold (frame_key lsec a). rewrite Hk, bind_Ret. fold (sw_key_len (pa_encrypt a)). rewrite Hn.
  assert (frag_loop (on_frag (sw_encrypt_frag enc a key (sw_key_len (pa_encrypt a)))) (length l) l = Ret l) as ->; [|done].
  clear Hn. induction l as [|f l IH]; [done|]. cbn [frag_loop length].
  assert (on_frag (sw_encrypt_frag enc a key (sw_key_len (pa_encrypt a))) f = Ret f) as ->.
  { destruct f as [m n]. unfold on_frag, sw_encrypt_frag. cbn [vir_mem pkt_length]. by rewrite Hf. }
  by rewrite bind_Ret, IH.
Qed.
End Fragments.
