(* ===== verification/Ccmp.v ===== *)
(** * CCMP

    Protection of frames with CCM: the additional data and the nonce of a
    header (src/core/crypto/ccmp.c), the wrappers of src/core/rtw_swcrypto.c,
    and [rtw_aes_encrypt] and [rtw_aes_decrypt] of src/core/rtw_security.c, as
    instances of Mpdu. *)
From Stdlib Require Import ZArith Lia Bool List.
From stdpp Require Import base tactics list numbers sets.
From S2P Require Import Prelude ByteBuf WordBits SecCrypto SecFrame Aes Aead AesCcm Mpdu.

(** ** Definitions *)

Definition WLAN_FC_ISWEP : Z := 0x4000.

Definition WLAN_FC_RETRY : Z := 0x0800.

Definition WLAN_FC_PWRMGT : Z := 0x1000.

Definition WLAN_FC_MOREDATA : Z := 0x2000.

Definition WLAN_FC_ORDER : Z := 0x8000.

Definition WLAN_FC_GET_TYPE (fc : Z) : Z := Z.land fc 0x000c.

Definition WLAN_FC_GET_STYPE (fc : Z) : Z := Z.land fc 0x00f0.

(** The header at the start of [m], the CCMP header at [data].  [spp] says
    whether [amsdu_mode] is RTW_AMSDU_MODE_SPP. *)
Definition ccmp_aad_nonce (spp : bool) (m : list Z) (data : Z) : outcome (list Z * list Z) :=
  fc ← RTW_GET_LE16 m 0;
  let stype := WLAN_FC_GET_STYPE fc in
  let addr4 := Z.land fc 0x0300 =? 0x0300 in
  let isdata := WLAN_FC_GET_TYPE fc =? 0x0008 in
  let qos := isdata && negb (Z.land stype 0x0080 =? 0) in
  nonce0 ← (if qos then qc ← rd m (24 + if addr4 then 6 else 0); Ret (Z.land qc 0x0f)
            else Ret (if negb isdata && (WLAN_FC_GET_TYPE fc =? 0x0000) then 0x10 else 0));
  let fc := if isdata then Z.land fc (Z.lnot 0x0070) else fc in
  let fc := if qos then Z.land fc (Z.lnot WLAN_FC_ORDER) else fc in
  let fc := Z.land fc (Z.lnot (Z.lor (Z.lor WLAN_FC_RETRY WLAN_FC_PWRMGT) WLAN_FC_MOREDATA)) in
  let fc := Z.lor fc WLAN_FC_ISWEP in
  addrs ← rds m 4 18;
  seq ← RTW_GET_LE16 m 22;
  let seq := Z.land seq (Z.lnot 0xfff0) in
  a4 ← rds m 24 (if addr4 then 6 else 0);
  q ← rds m (24 + if addr4 then 6 else 0) (if qos then 2 else 0);
  let q := if qos then
             let q0 := Z.land (nth 0 q 0) (Z.lnot 0x70) in
             [if spp then q0 else Z.land q0 (Z.lnot 0x80); 0x00]
           else q in
  addr2 ← rds m 10 6;
  pn ← rds m data 8;
  Ret (put_le16 fc ++ addrs ++ put_le16 seq ++ a4 ++ q, [nonce0] ++ addr2 ++ map (fun i => nth i pn 0) [7; 6; 5; 4; 1; 0]%nat).

(** [hdr->frame_control |= host_to_le16(WLAN_FC_ISWEP)] *)
Definition set_iswep (m : list Z) : outcome (list Z) :=
  fc ← RTW_GET_LE16 m 0; RTW_PUT_LE16 m 0 (Z.lor fc WLAN_FC_ISWEP).

(** Keys of 16 bytes with a MIC of 8, and of 32 with 16. *)
Definition ccmp_encrypt (spp : bool) (os_malloc : allocator) (tk : list Z) :=
  mpdu_encrypt (ccmp_aad_nonce spp) set_iswep 8 os_malloc (aes_ccm_ae os_malloc tk 16 8).

Definition ccmp_256_encrypt (spp : bool) (os_malloc : allocator) (tk : list Z) :=
  mpdu_encrypt (ccmp_aad_nonce spp) set_iswep 16 os_malloc (aes_ccm_ae os_malloc tk 32 16).

Definition ccmp_decrypt (spp : bool) (os_malloc : allocator) (tk : list Z) :=
  mpdu_decrypt (ccmp_aad_nonce spp) 8 os_malloc (aes_ccm_ad os_malloc tk 16 8).

Definition ccmp_256_decrypt (spp : bool) (os_malloc : allocator) (tk : list Z) :=
  mpdu_decrypt (ccmp_aad_nonce spp) 16 os_malloc (aes_ccm_ad os_malloc tk 32 16).

(** The lengths are [uint]. *)
Definition _rtw_ccmp_encrypt (spp : bool) (os_malloc : allocator) (key : list Z) (key_len hdrlen : Z) (frame : list Z) (plen : Z) :
    outcome (Z * list Z) :=
  enc ← (if key_len =? 16 then ccmp_encrypt spp os_malloc key frame (u32 (hdrlen + plen)) hdrlen None 0
         else if key_len =? 32 then ccmp_256_encrypt spp os_malloc key frame (u32 (hdrlen + plen)) hdrlen None 0
         else Ret None);
  copy_enc enc frame.

Definition _rtw_ccmp_decrypt (spp : bool) (os_malloc : allocator) (key : list Z) (key_len hdrlen : Z) (frame : list Z) (plen : Z) :
    outcome (Z * list Z) :=
  plain ← (if key_len =? 16 then ccmp_decrypt spp os_malloc key frame hdrlen (u32 (plen - hdrlen))
           else if key_len =? 32 then ccmp_256_decrypt spp os_malloc key frame hdrlen (u32 (plen - hdrlen))
           else Ret None);
  copy_plain plain hdrlen frame.

Definition rtw_aes_encrypt (spp : bool) (os_malloc : allocator) : link_security_priv -> xmit_frame -> outcome (Z * xmit_frame) :=
  sw_encrypt _AES_ _CCMP_256_ (_rtw_ccmp_encrypt spp os_malloc).

Definition rtw_aes_decrypt (spp : bool) (os_malloc : allocator) : link_security_priv -> recv_frame -> outcome (Z * recv_frame) :=
  sw_decrypt _AES_ _CCMP_256_ (_rtw_ccmp_decrypt spp os_malloc).

(** ** The header *)

(** The header with the protected bit. *)
Definition protected (h : list Z) : list Z :=
  put_le16 (Z.lor (u16 (Z.lor (Z.shiftl (nth 1 h 0) 8) (nth 0 h 0))) WLAN_FC_ISWEP) ++ drop 2 h.

Lemma set_iswep_spec h t : 2 <= zlen h -> set_iswep (h ++ t) = Ret (protected h ++ t).
Proof.
  intros H. destruct h as [|a [|b h]]; [unfold zlen in H; cbn in H; lia..|]. unfold set_iswep, protected.
  change ((a :: b :: h) ++ t) with ([] ++ [a; b] ++ h ++ t). unfold RTW_GET_LE16 at 1.
  change (rd ([] ++ [a; b] ++ h ++ t) (0 + 1)) with (@Ret Z b). change (rd ([] ++ [a; b] ++ h ++ t) 0) with (@Ret Z a).
  rewrite !bind_Ret. unfold RTW_PUT_LE16. rewrite wrs_at by done. done.
Qed.

Lemma protected_length h : 2 <= zlen h -> zlen (protected h) = zlen h.
Proof. intros H. unfold protected, zlen in *. rewrite length_app, length_drop. cbn [length put_le16]. lia. Qed.

(** The reads of [ccmp_aad_nonce] end before the packet number does. *)
Lemma ccmp_aad_reads spp h d :
  24 <= d -> d + 8 <= zlen h -> exists aad nonce, zlen aad <= 30 /\ forall t, ccmp_aad_nonce spp (h ++ t) d = Ret (aad, nonce).
Proof.
  intros Hd Hh. cut (exists aad nonce, (forall t, ccmp_aad_nonce spp (h ++ t) d = Ret (aad, nonce)) /\ zlen aad <= 30).
  { intros (aad & nonce & H1 & H2). by exists aad, nonce. }
  unfold ccmp_aad_nonce. destruct (get_le16_some h 0) as [fc Efc]; [lia..|].
  set (x4 := if Z.land fc 0x0300 =? 0x0300 then 6 else 0). assert (0 <= x4 <= 6) as H4 by (unfold x4; destruct (_ =? _); lia).
  set (qos := (WLAN_FC_GET_TYPE fc =? 0x0008) && negb (Z.land (WLAN_FC_GET_STYPE fc) 0x0080 =? 0)).
  destruct (rd_some h (24 + x4)) as [qc Eqc]; [lia|]. destruct (rds_some h 4 18) as (ad & La & Ead); [lia..|].
  destruct (get_le16_some h 22) as [seq Eseq]; [lia..|]. destruct (rds_some h 24 x4) as (a4 & L4 & E4); [lia..|].
  destruct (rds_some h (24 + x4) (if qos then 2 else 0)) as (q & Lq & Eq); [destruct qos; lia..|].
  destruct (rds_some h 10 6) as (a2 & _ & E2); [lia..|]. destruct (rds_some h d 8) as (pn & _ & Epn); [lia..|].
  destruct qos eqn:Q.
  all: do 2 eexists; split; [intros t; rewrite Efc, bind_Ret; cbn zeta; fold x4 qos; rewrite Q, ?Eqc, ?bind_Ret, Ead, bind_Ret,
    Eseq, bind_Ret, E4, bind_Ret, Eq, bind_Ret, E2, bind_Ret, Epn, bind_Ret; reflexivity|].
  all: rewrite !zlen_app, !zlen_put; try rewrite Lq; unfold zlen in *; cbn [length]; lia.
Qed.

#[export] Instance ccmp_header spp : MpduHeader (ccmp_aad_nonce spp) set_iswep protected.
Proof. split; [apply ccmp_aad_reads|apply set_iswep_spec|apply protected_length]. Qed.

(** ** Frames *)

(** The MIC of a key. *)
Definition ccmp_mic (key_len : Z) : Z := if key_len =? 32 then 16 else 8.

(** The cipher is not evaluated in proofs. *)
#[local] Opaque aes_ccm_ae aes_ccm_ad ccmp_aad_nonce.

Lemma ccmp_protects spp os_malloc key key_len :
  gets_memory os_malloc -> key_len = 16 \/ key_len = 32 ->
  Protects (ccmp_mic key_len) protected (_rtw_ccmp_encrypt spp os_malloc key key_len) (_rtw_ccmp_decrypt spp os_malloc key key_len).
Proof.
  intros Hm [->| ->].
  - pose proof (ccm_aead os_malloc key 16 8 Hm (or_introl eq_refl) ltac:(lia)).
    exact (mpdu_protects (M := 8) (ae := aes_ccm_ae os_malloc key 16 8) ltac:(lia) os_malloc Hm).
  - pose proof (ccm_aead os_malloc key 32 16 Hm (or_intror (or_intror eq_refl)) ltac:(lia)).
    exact (mpdu_protects (M := 16) (ae := aes_ccm_ae os_malloc key 32 16) ltac:(lia) os_malloc Hm).
Qed.

(** C16. CCMP accepts exactly what it produces: decryption of a frame whose
    protected bit is set stays inside the buffers and answers _SUCCESS with the
    payload q if and only if encrypting the frame with the payload q, under the
    same key, gives the frame that was received; it leaves a frame that it
    refuses as it is. *)
Theorem ccmp_accepts_exactly spp os_malloc key key_len h iv c t rest :
  gets_memory os_malloc -> key_len = 16 \/ key_len = 32 -> 24 <= zlen h -> protected h = h -> zlen iv = 8 ->
  zlen t = ccmp_mic key_len -> Forall is_u8 t -> zlen h + zlen c + 24 < 2 ^ 32 ->
  exists st p,
    _rtw_ccmp_decrypt spp os_malloc key key_len (zlen h) (h ++ iv ++ c ++ t ++ rest) (zlen h + 8 + zlen c + zlen t) =
      Ret (st, h ++ iv ++ p ++ t ++ rest) /\
    zlen p = zlen c /\ (st = _SUCCESS \/ st = _FAIL /\ p = c) /\
    (forall q, zlen q = zlen c ->
       (st = _SUCCESS /\ p = q <->
        _rtw_ccmp_encrypt spp os_malloc key key_len (zlen h) (h ++ iv ++ q ++ t ++ rest) (zlen q) =
          Ret (_SUCCESS, h ++ iv ++ c ++ t ++ rest))).
Proof.
  intros Hm Hk Hh Hp Hv Ht Ut Hb. pose proof (ccmp_protects spp os_malloc key key_len Hm Hk). rewrite Ht.
  apply protects_exact; try done. destruct Hk as [->| ->]; unfold ccmp_mic; cbn; lia.
Qed.

Definition sample_header : list Z := [0x88; 0x41] ++ replicate 24 1.

Lemma ccmp_accepts_exactly_witness :
  exists st p,
    _rtw_ccmp_decrypt false sample_malloc sample_tk 16 26 (sample_header ++ replicate 8 3 ++ [1; 2; 3] ++ replicate 8 4 ++ []) 45 =
      Ret (st, sample_header ++ replicate 8 3 ++ p ++ replicate 8 4 ++ []) /\
    zlen p = 3 /\ (st = _SUCCESS \/ st = _FAIL /\ p = [1; 2; 3]) /\
    (forall q, zlen q = 3 ->
       (st = _SUCCESS /\ p = q <->
        _rtw_ccmp_encrypt false sample_malloc sample_tk 16 26 (sample_header ++ replicate 8 3 ++ q ++ replicate 8 4 ++ []) (zlen q) =
          Ret (_SUCCESS, sample_header ++ replicate 8 3 ++ [1; 2; 3] ++ replicate 8 4 ++ []))).
Proof.
  apply (ccmp_accepts_exactly false sample_malloc sample_tk 16 sample_header (replicate 8 3) [1; 2; 3] (replicate 8 4) []);
    first [exact sample_malloc_gets | by left | reflexivity | by apply bytes_ok | unfold zlen; cbn; lia].
Defined.

(** C17. CCMP and CCMP-256: whatever the header (with a fourth address, QoS or
    neither), the number of fragments and the mode for A-MSDUs, encryption
    stays inside the buffers, and the receiver with the same key accepts every
    fragment and gets its payload back behind the header with the protected
    bit. *)
Theorem ccmp_roundtrip spp os_malloc lsec a ps buf key :
  (pa_encrypt a =? _AES_) || (pa_encrypt a =? _CCMP_256_) = true -> gets_memory os_malloc ->
  pa_iv_len a = 8 -> pa_icv_len a = (if pa_encrypt a =? _CCMP_256_ then 16 else 8) -> pa_nr_frags a = length ps ->
  Forall (mpdu_parts_ok (pa_hdrlen a) (pa_icv_len a)) ps -> binstallGrpkey lsec = true -> frame_key lsec a = Ret key ->
  exists l, rtw_aes_encrypt spp os_malloc lsec (XmitFrame a (map to_send ps) buf) = Ret (_SUCCESS, XmitFrame a l buf) /\
    Forall2 (fun p f =>
      length (vir_mem f) = length (vir_mem (to_send p)) /\
      exists t, zlen t = pa_icv_len a /\
        rtw_aes_decrypt spp os_malloc lsec (frame_rx lsec a (pkt_length f) (vir_mem f)) =
        Ret (_SUCCESS, frame_rx lsec a (pkt_length f) (protected (p_hdr p) ++ p_iv p ++ p_pay p ++ t ++ p_rest p))) ps l.
Proof.
  intros He Hm Hv Hi Hn Hps Hb Hk.
  apply (sw_roundtrip _AES_ _CCMP_256_ _ (_rtw_ccmp_decrypt spp os_malloc) protected protected_length lsec a ps buf key); try done.
  - assert (pa_icv_len a = ccmp_mic (sw_key_len _CCMP_256_ (pa_encrypt a))) as ->.
    { rewrite Hi. unfold ccmp_mic, sw_key_len. by destruct (pa_encrypt a =? _CCMP_256_). }
    apply ccmp_protects; [done|]. unfold sw_key_len. destruct (_ =? _CCMP_256_); auto.
  - rewrite Hi. destruct (_ =? _CCMP_256_); lia.
Qed.

Definition sample_mpdu (M : nat) : parts := Parts sample_header (replicate 8 3) [0xaa; 0xaa; 3] (replicate M 0) [5].

Definition sample_mpdu_attrib (enc : Z) (M : Z) : pkt_attrib := PktAttrib (replicate 6 2) sample_ta 2 26 enc 8 M (sample_tk ++ sample_tk) 0.

Lemma ccmp_roundtrip_witness :
  exists l, rtw_aes_encrypt true sample_malloc sample_lsec
      (XmitFrame (sample_mpdu_attrib _CCMP_256_ 16) (map to_send [sample_mpdu 16; sample_mpdu 16]) []) =
      Ret (_SUCCESS, XmitFrame (sample_mpdu_attrib _CCMP_256_ 16) l []) /\
    Forall2 (fun p f =>
      length (vir_mem f) = length (vir_mem (to_send p)) /\
      exists t, zlen t = 16 /\
        rtw_aes_decrypt true sample_malloc sample_lsec (frame_rx sample_lsec (sample_mpdu_attrib _CCMP_256_ 16) (pkt_length f) (vir_mem f)) =
        Ret (_SUCCESS, frame_rx sample_lsec (sample_mpdu_attrib _CCMP_256_ 16) (pkt_length f)
                         (protected (p_hdr p) ++ p_iv p ++ p_pay p ++ t ++ p_rest p))) [sample_mpdu 16; sample_mpdu 16] l.
Proof.
  apply (ccmp_roundtrip true sample_malloc sample_lsec (sample_mpdu_attrib _CCMP_256_ 16) [sample_mpdu 16; sample_mpdu 16] []
           (sample_tk ++ sample_tk));
    first [exact sample_malloc_gets | reflexivity | idtac].
  assert (mpdu_parts_ok 26 16 (sample_mpdu 16)) as H by (unfold mpdu_parts_ok; split_and!; done).
  by constructor; [|constructor].
Defined.

(** Without memory [rtw_aes_encrypt] reports success and leaves the fragments
    in plain text: the loop does not look at what [_rtw_ccmp_encrypt] returns. *)
Lemma aes_encrypt_without_memory spp lsec a l buf key :
  frame_key lsec a = Ret key -> pa_nr_frags a = length l ->
  rtw_aes_encrypt spp (fun _ => None) lsec (XmitFrame a l buf) = Ret (_SUCCESS, XmitFrame a l buf).
Proof.
  intros Hk Hn. apply (sw_encrypt_fails _ _ _ _ _ _ _ key Hk Hn). intros m plen. unfold _rtw_ccmp_encrypt, sw_key_len.
  destruct (_ =? _CCMP_256_); cbn [Z.eqb Pos.eqb]; unfold ccmp_encrypt, ccmp_256_encrypt, mpdu_encrypt; by destruct (_ || _).
Qed.

(** The CCMP example of IEEE 802.11, from the packet number on. *)
Lemma ccmp_standard_example :
  (ccmp_encrypt false sample_malloc
     [0xc9; 0x7c; 0x1f; 0x67; 0xce; 0x37; 0x11; 0x85; 0x51; 0x4a; 0x8a; 0x19; 0xf2; 0xbd; 0xd5; 0x2f]
     ([0x08; 0x48; 0xc3; 0x2c; 0x0f; 0xd2; 0xe1; 0x28; 0xa5; 0x7c; 0x50; 0x30; 0xf1; 0x84; 0x44; 0x08; 0xab; 0xae; 0xa5;
       0xb8; 0xfc; 0xba; 0x80; 0x33] ++
      [0xf8; 0xba; 0x1a; 0x55; 0xd0; 0x2f; 0x85; 0xae; 0x96; 0x7b; 0xb6; 0x2f; 0xb6; 0xcd; 0xa8; 0xeb; 0x7e; 0x78; 0xa0; 0x50])
     44 24 (Some [0xb5; 0x03; 0x97; 0x76; 0xe7; 0x0c]) 0 ≫= fun r =>
   match r with
   | Some (m, n) => Ret (drop 24 (take (Z.to_nat n) m))
   | None => Ret []
   end) =
  Ret [0x0c; 0xe7; 0x00; 0x20; 0x76; 0x97; 0x03; 0xb5;
       0xf3; 0xd0; 0xa2; 0xfe; 0x9a; 0x3d; 0xbf; 0x23; 0x42; 0xa6; 0x43; 0xe4; 0x32; 0x46; 0xe8; 0x0c; 0x3c; 0x04; 0xd0; 0x19;
       0x78; 0x45; 0xce; 0x0b; 0x16; 0xf9; 0x76; 0x23].
Proof. vm_compute. reflexivity. Qed.
