(* ===== verification/Gcmp.v ===== *)
(** * GCMP

    Protection of frames with GCM: the additional data and the nonce of a
    header (src/core/crypto/gcmp.c), the wrappers of src/core/rtw_swcrypto.c,
    and [rtw_gcmp_encrypt] and [rtw_gcmp_decrypt] of src/core/rtw_security.c,
    as instances of Mpdu.  The header is sent as it is, and the protected bit of
    the additional data is the one of the header. *)
From Stdlib Require Import ZArith Lia Bool List.
From stdpp Require Import base tactics list numbers sets.
From S2P Require Import Prelude ByteBuf WordBits SecCrypto SecFrame Aes Aead AesGcm Mpdu Ccmp.

(** ** Definitions *)

Definition gcmp_aad_nonce (spp : bool) (m : list Z) (data : Z) : outcome (list Z * list Z) :=
  fc ← RTW_GET_LE16 m 0;
  let stype := WLAN_FC_GET_STYPE fc in
  let addr4 := Z.land fc 0x0300 =? 0x0300 in
  let isdata := WLAN_FC_GET_TYPE fc =? 0x0008 in
  let qos := isdata && negb (Z.land stype 0x0080 =? 0) in
  let fc := if isdata then Z.land fc (Z.lnot 0x0070) else fc in
  let fc := if qos then Z.land fc (Z.lnot WLAN_FC_ORDER) else fc in
  let fc := Z.land fc (Z.lnot (Z.lor (Z.lor WLAN_FC_RETRY WLAN_FC_PWRMGT) WLAN_FC_MOREDATA)) in
  addrs ← rds m 4 18;
  seq ← RTW_GET_LE16 m 22;
  let seq := Z.land seq (Z.lnot 0xfff0) in
  a4 ← rds m 24 (if addr4 then 6 else 0);
  q ← rds m (24 + if addr4 then 6 else 0) (if qos then 2 else 0);
  let q := if qos then
             let q0 := Z.land (nth 0 q 0) (Z.lnot 0x70) in
             [if spp then q0 else Z.land q0 (Z.lnot 0x80); 0x00]
           else q in
  addr2 ← rds m 10 6;
  pn ← rds m data 8;
  Ret (put_le16 fc ++ addrs ++ put_le16 seq ++ a4 ++ q, addr2 ++ map (fun i => nth i pn 0) [7; 6; 5; 4; 1; 0]%nat).

(** The header is not touched. *)
Definition gcmp_encrypt (spp : bool) (os_malloc : allocator) (tk : list Z) (tk_len : Z) :=
  mpdu_encrypt (gcmp_aad_nonce spp) Ret 16 os_malloc (aes_gcm_ae os_malloc tk tk_len).

Definition gcmp_decrypt (spp : bool) (os_malloc : allocator) (tk : list Z) (tk_len : Z) :=
  mpdu_decrypt (gcmp_aad_nonce spp) 16 os_malloc (aes_gcm_ad os_malloc tk tk_len).

Definition _rtw_gcmp_encrypt (spp : bool) (os_malloc : allocator) (key : list Z) (key_len hdrlen : Z) (frame : list Z) (plen : Z) :
    outcome (Z * list Z) :=
  enc ← gcmp_encrypt spp os_malloc key key_len frame (u32 (hdrlen + plen)) hdrlen None 0;
  copy_enc enc frame.

Definition _rtw_gcmp_decrypt (spp : bool) (os_malloc : allocator) (key : list Z) (key_len hdrlen : Z) (frame : list Z) (plen : Z) :
    outcome (Z * list Z) :=
  plain ← gcmp_decrypt spp os_malloc key key_len frame hdrlen (u32 (plen - hdrlen));
  copy_plain plain hdrlen frame.

Definition rtw_gcmp_encrypt (spp : bool) (os_malloc : allocator) : link_security_priv -> xmit_frame -> outcome (Z * xmit_frame) :=
  sw_encrypt _GCMP_ _GCMP_256_ (_rtw_gcmp_encrypt spp os_malloc).

Definition rtw_gcmp_decrypt (spp : bool) (os_malloc : allocator) : link_security_priv -> recv_frame -> outcome (Z * recv_frame) :=
  sw_decrypt _GCMP_ _GCMP_256_ (_rtw_gcmp_decrypt spp os_malloc).

(** ** The header *)

Lemma gcmp_aad_reads spp h d :
  24 <= d -> d + 8 <= zlen h -> exists aad nonce, zlen aad <= 30 /\ forall t, gcmp_aad_nonce spp (h ++ t) d = Ret (aad, nonce).
Proof.
  intros Hd Hh. cut (exists aad nonce, (forall t, gcmp_aad_nonce spp (h ++ t) d = Ret (aad, nonce)) /\ zlen aad <= 30).
  { intros (aad & nonce & H1 & H2). by exists aad, nonce. }
  unfold gcmp_aad_nonce. destruct (get_le16_some h 0) as [fc Efc]; [lia..|].
  set (x4 := if Z.land fc 0x0300 =? 0x0300 then 6 else 0). assert (0 <= x4 <= 6) as H4 by (unfold x4; destruct (_ =? _); lia).
  set (qos := (WLAN_FC_GET_TYPE fc =? 0x0008) && negb (Z.land (WLAN_FC_GET_STYPE fc) 0x0080 =? 0)).
  destruct (rds_some h 4 18) as (ad & La & Ead); [lia..|].
  destruct (get_le16_some h 22) as [seq Eseq]; [lia..|]. destruct (rds_some h 24 x4) as (a4 & L4 & E4); [lia..|].
  destruct (rds_some h (24 + x4) (if qos then 2 else 0)) as (q & Lq & Eq); [destruct qos; lia..|].
  destruct (rds_some h 10 6) as (a2 & _ & E2); [lia..|]. destruct (rds_some h d 8) as (pn & _ & Epn); [lia..|].
  do 2 eexists. split.
  - intros t. rewrite Efc, bind_Ret. cbn zeta. fold x4 qos.
    rewrite Ead, bind_Ret, Eseq, bind_Ret, E4, bind_Ret, Eq, bind_Ret, E2, bind_Ret, Epn, bind_Ret. reflexivity.
  - destruct qos; rewrite !zlen_app, !zlen_put; unfold zlen in *; cbn [length]; lia.
Qed.

#[export] Instance gcmp_header spp : MpduHeader (gcmp_aad_nonce spp) Ret (fun h => h).
Proof. by split; [apply gcmp_aad_reads|..]. Qed.

(** The cipher is not evaluated in proofs. *)
#[local] Opaque aes_gcm_ae aes_gcm_ad gcmp_aad_nonce.

Lemma gcmp_protects spp os_malloc key key_len :
  gets_memory os_malloc -> key_len_ok key_len ->
  Protects 16 (fun h => h) (_rtw_gcmp_encrypt spp os_malloc key key_len) (_rtw_gcmp_decrypt spp os_malloc key key_len).
Proof.
  intros Hm Hk. pose proof (gcm_aead os_malloc key key_len Hm Hk).
  exact (mpdu_protects (M := 16) (ae := aes_gcm_ae os_malloc key key_len) ltac:(lia) os_malloc Hm).
Qed.

(** GCMP accepts exactly what it produces. *)
Lemma gcmp_accepts_exactly spp os_malloc key key_len h iv c t rest :
  gets_memory os_malloc -> key_len_ok key_len -> 24 <= zlen h -> zlen iv = 8 ->
  zlen t = 16 -> Forall is_u8 t -> zlen h + zlen c + 24 < 2 ^ 32 ->
  exists st p,
    _rtw_gcmp_decrypt spp os_malloc key key_len (zlen h) (h ++ iv ++ c ++ t ++ rest) (zlen h + 8 + zlen c + 16) =
      Ret (st, h ++ iv ++ p ++ t ++ rest) /\
    zlen p = zlen c /\ (st = _SUCCESS \/ st = _FAIL /\ p = c) /\
    (forall q, zlen q = zlen c ->
       (st = _SUCCESS /\ p = q <->
        _rtw_gcmp_encrypt spp os_malloc key key_len (zlen h) (h ++ iv ++ q ++ t ++ rest) (zlen q) =
          Ret (_SUCCESS, h ++ iv ++ c ++ t ++ rest))).
Proof.
  intros Hm Hk Hh Hv Ht Ut Hb. pose proof (gcmp_protects spp os_malloc key key_len Hm Hk). apply protects_exact; try done. lia.
Qed.

(** GCMP and GCMP-256: whatever the header, the number of fragments and the
    mode for A-MSDUs, encryption stays inside the buffers, and the receiver
    with the same key accepts every fragment and gets its header and its
    payload back. *)
Theorem gcmp_roundtrip spp os_malloc lsec a ps buf key :
  (pa_encrypt a =? _GCMP_) || (pa_encrypt a =? _GCMP_256_) = true -> gets_memory os_malloc ->
  pa_iv_len a = 8 -> pa_icv_len a = 16 -> pa_nr_frags a = length ps ->
  Forall (mpdu_parts_ok (pa_hdrlen a) 16) ps -> binstallGrpkey lsec = true -> frame_key lsec a = Ret key ->
  exists l, rtw_gcmp_encrypt spp os_malloc lsec (XmitFrame a (map to_send ps) buf) = Ret (_SUCCESS, XmitFrame a l buf) /\
    Forall2 (fun p f =>
      length (vir_mem f) = length (vir_mem (to_send p)) /\
      exists t, zlen t = 16 /\
        rtw_gcmp_decrypt spp os_malloc lsec (frame_rx lsec a (pkt_length f) (vir_mem f)) =
        Ret (_SUCCESS, frame_rx lsec a (pkt_length f) (p_hdr p ++ p_iv p ++ p_pay p ++ t ++ p_rest p))) ps l.
Proof.
  intros He Hm Hv Hi Hn Hps Hb Hk. rewrite <- Hi in *.
  apply (sw_roundtrip _GCMP_ _GCMP_256_ _ (_rtw_gcmp_decrypt spp os_malloc) (fun h => h) (fun _ _ => eq_refl) lsec a ps buf key); try done.
  - rewrite Hi. apply gcmp_protects; [done|]. unfold sw_key_len, key_len_ok. destruct (_ =? _GCMP_256_); auto.
  - lia.
Qed.

Lemma gcmp_roundtrip_witness :
  exists l, rtw_gcmp_encrypt false sample_malloc sample_lsec
      (XmitFrame (sample_mpdu_attrib _GCMP_ 16) (map to_send [sample_mpdu 16; sample_mpdu 16]) []) =
      Ret (_SUCCESS, XmitFrame (sample_mpdu_attrib _GCMP_ 16) l []) /\
    Forall2 (fun p f =>
      length (vir_mem f) = length (vir_mem (to_send p)) /\
      exists t, zlen t = 16 /\
        rtw_gcmp_decrypt false sample_malloc sample_lsec (frame_rx sample_lsec (sample_mpdu_attrib _GCMP_ 16) (pkt_length f) (vir_mem f)) =
        Ret (_SUCCESS, frame_rx sample_lsec (sample_mpdu_attrib _GCMP_ 16) (pkt_length f)
                         (p_hdr p ++ p_iv p ++ p_pay p ++ t ++ p_rest p))) [sample_mpdu 16; sample_mpdu 16] l.
Proof.
  apply (gcmp_roundtrip false sample_malloc sample_lsec (sample_mpdu_attrib _GCMP_ 16) [sample_mpdu 16; sample_mpdu 16] []
           (sample_tk ++ sample_tk)); first [exact sample_malloc_gets | reflexivity | idtac].
  assert (mpdu_parts_ok 26 16 (sample_mpdu 16)) as H by (unfold mpdu_parts_ok; split_and!; done).
  by constructor; [|constructor].
Defined.

(** Without memory the fragments stay in plain text, as with CCMP. *)
Lemma gcmp_encrypt_without_memory spp lsec a l buf key :
  frame_key lsec a = Ret key -> pa_nr_frags a = length l ->
  rtw_gcmp_encrypt spp (fun _ => None) lsec (XmitFrame a l buf) = Ret (_SUCCESS, XmitFrame a l buf).
Proof.
  intros Hk Hn. apply (sw_encrypt_fails _ _ _ _ _ _ _ key Hk Hn). intros m plen. unfold _rtw_gcmp_encrypt, gcmp_encrypt, mpdu_encrypt.
  by destruct (_ || _).
Qed.
