(* ===== verification/Bip.v ===== *)
(** * OMAC1 and BIP

    The CMAC of src/core/crypto/aes-omac1.c over a vector of pieces, compared
    with the definition on one message; and the check of protected broadcast
    management frames, [rtw_bip_verify] of src/core/rtw_security.c with
    [_bip_ccmp_protect] and [_bip_gcmp_protect] of src/core/rtw_swcrypto.c, compared with a message, a
    nonce and a MIC defined from the layout of a frame. *)
From Stdlib Require Import ZArith Lia Bool List Sorted.
From stdpp Require Import base tactics list numbers.
From S2P Require Import Prelude ByteBuf WordBits SecCrypto SecFrame Aes Aead AesGcm Mpdu.

(** ** OMAC1: definitions *)

(** A turn of the loop of [gf_mulx] and its last byte: each byte takes the
    first bit of the next. *)
Fixpoint mulx_bytes (pad : list Z) : list Z :=
  match pad with
  | [] => []
  | b :: pad => u8 (Z.lor (Z.shiftl b 1) (Z.shiftr (nth 0 pad 0) 7)) :: mulx_bytes pad
  end.

(** [pad[15] ^= b] *)
Definition xor_last (pad : list Z) (b : Z) : list Z := take 15 pad ++ [Z.lxor (nth 15 pad 0) b].

Definition gf_mulx (pad : list Z) : list Z :=
  let carry := Z.land (nth 0 pad 0) 0x80 in
  let pad := mulx_bytes pad in
  if carry =? 0 then pad else xor_last pad 0x87.

(** The inner loops of [omac1_aes_vector]: [n] bytes from [pos] on, through the
    pieces behind the current one.  A byte behind the end of a piece and a
    piece behind the end of the vector are [Fault].  At the end of a piece the
    loop goes to the next one, unless this was the last byte of all
    ([final]). *)
Fixpoint vec_bytes (n : nat) (final : bool) (pos : list Z) (more : list (list Z)) : outcome (list Z * list Z * list (list Z)) :=
  match n with
  | O => Ret ([], pos, more)
  | S n =>
    match pos with
    | [] => Fault
    | [b] =>
      if (n =? 0)%nat && final then Ret ([b], [], more)
      else
        match more with
        | [] => Fault
        | p :: more =>
          r ← vec_bytes n final p more;
          let '(d, pos, more) := r in Ret (b :: d, pos, more)
        end
    | b :: pos =>
      r ← vec_bytes n final pos more;
      let '(d, pos, more) := r in Ret (b :: d, pos, more)
    end
  end.

Section Omac.
Context (E : list Z -> list Z).

(** [cbc[i] ^= *pos++] for the bytes [d]. *)
Definition cbc_xor (cbc d : list Z) : list Z := zip_with Z.lxor (take (length d) cbc) d ++ drop (length d) cbc.

(** The loop over full blocks, at most [n] of them. *)
Fixpoint omac_blocks (n : nat) (left_ : Z) (cbc pos : list Z) (more : list (list Z)) :
    outcome (Z * list Z * list Z * list (list Z)) :=
  match n with
  | O => Ret (left_, cbc, pos, more)
  | S n =>
    if 16 <=? left_ then
      r ← vec_bytes 16 (left_ =? 16) pos more;
      let '(d, pos, more) := r in
      let cbc := cbc_xor cbc d in
      let cbc := if 16 <? left_ then E cbc else cbc in
      omac_blocks n (left_ - 16) cbc pos more
    else Ret (left_, cbc, pos, more)
  end.

(** [omac1_aes_vector] with the context. *)
Definition omac1_vector (data : list (list Z)) : outcome (list Z) :=
  match data with
  | [] => Fault
  | p :: more =>
    let total_len := zlen (concat data) in
    r ← omac_blocks (Z.to_nat (total_len / 16)) total_len (replicate 16 0) p more;
    let '(left_, cbc, pos, more) := r in
    let pad := gf_mulx (E (replicate 16 0)) in
    if negb (left_ =? 0) || (total_len =? 0) then
      r ← vec_bytes (Z.to_nat left_) true pos more;
      let '(d, _, _) := r in
      let cbc := cbc_xor cbc d in
      let cbc := <[Z.to_nat left_ := Z.lxor (nth (Z.to_nat left_) cbc 0) 0x80]> cbc in
      let pad := gf_mulx pad in
      Ret (E (zip_with Z.lxor pad cbc))
    else Ret (E (zip_with Z.lxor pad cbc))
  end.
End Omac.

(** The status and, on success, the MAC. *)
Definition omac1_aes_vector (os_malloc : allocator) (key : list Z) (key_len : Z) (data : list (list Z)) : outcome (option (list Z)) :=
  match aes_ctx os_malloc key key_len with
  | None => Ret None
  | Some ctx => mac ← omac1_vector (aes_encrypt ctx) data; Ret (Some mac)
  end.

Definition omac1_aes_128 (os_malloc : allocator) (key data : list Z) := omac1_aes_vector os_malloc key 16 [data].

Definition omac1_aes_256 (os_malloc : allocator) (key data : list Z) := omac1_aes_vector os_malloc key 32 [data].

(** ** BIP: definitions *)

Definition _BIP_CMAC_128_ : Z := 0x20.
Definition _BIP_GMAC_128_ : Z := 0x21.
Definition _BIP_GMAC_256_ : Z := 0x22.
Definition _BIP_CMAC_256_ : Z := 0x23.
Definition _MME_IE_ : Z := 76.
Definition BIP_AAD_SIZE : Z := 20.
Definition WLAN_HDR_A3_LEN : Z := 24.
Definition RTW_RX_HANDLED : Z := 2.

(** [_bip_ccmp_protect] and [_bip_gcmp_protect]: nothing is [_FAIL]. *)
Definition _bip_ccmp_protect (os_malloc : allocator) (key : list Z) (key_len : Z) (data : list Z) : outcome (option (list Z)) :=
  if key_len =? 16 then omac1_aes_128 os_malloc key data
  else if key_len =? 32 then omac1_aes_256 os_malloc key data
  else Ret None.

(** The nonce is the second address and the packet number, last byte first. *)
Definition _bip_gcmp_protect (os_malloc : allocator) (whdr : list Z) (len : Z) (key : list Z) (key_len : Z) (data : list Z) :
    outcome (option (list Z)) :=
  ipn ← rds whdr (len - 16 - 6) 6;
  a2 ← rds whdr 10 6;
  r ← aes_gmac os_malloc key key_len (a2 ++ rev ipn) data (replicate 16 0) 0;
  let '(st, mic) := r in
  Ret (if st =? 0 then Some mic else None).

Definition rtw_calculate_bip_mic (os_malloc : allocator) (gmcs : Z) (whdr : list Z) (len : Z) (key data : list Z) :
    outcome (option (list Z)) :=
  if gmcs =? _BIP_CMAC_128_ then _bip_ccmp_protect os_malloc key 16 data
  else if gmcs =? _BIP_CMAC_256_ then _bip_ccmp_protect os_malloc key 32 data
  else if gmcs =? _BIP_GMAC_128_ then _bip_gcmp_protect os_malloc whdr len key 16 data
  else if gmcs =? _BIP_GMAC_256_ then _bip_gcmp_protect os_malloc whdr len key 32 data
  else Ret None.

(** ClearRetry, ClearPwrMgt and ClearMData on the frame control. *)
Definition bip_fc (fc : Z) : Z := Z.land (Z.land (Z.land fc (Z.lnot 0x0800)) (Z.lnot 0x1000)) (Z.lnot 0x2000).

(** What the MIC is computed on: the masked header without duration and
    sequence, the body with the MME, and zeros for the MIC. *)
Definition bip_aad (whdr : list Z) (flen mic_len : Z) : outcome (list Z) :=
  body ← rds whdr WLAN_HDR_A3_LEN (flen - WLAN_HDR_A3_LEN - mic_len);
  fc ← RTW_GET_LE16 whdr 0;
  addrs ← rds whdr 4 18;
  Ret (put_le16 (bip_fc fc) ++ addrs ++ body ++ replicate (Z.to_nat mic_len) 0).

(** The result and the packet number to expect more than. *)
Definition rtw_bip_verify (os_malloc : allocator) (gmcs pkt_len : Z) (whdr : list Z) (flen : Z) (key : list Z) (keyid ipn : Z)
    (bdecrypted : bool) : outcome (Z * Z) :=
  let mic_len := if gmcs =? _BIP_CMAC_128_ then 8 else 16 in
  if (flen <? WLAN_HDR_A3_LEN) || (flen - WLAN_HDR_A3_LEN <? mic_len) then Ret (RTW_RX_HANDLED, ipn)
  else
    let mme_offset := if mic_len =? 8 then 18 else 26 in
    let mme := flen - mme_offset in
    id ← rd whdr mme;
    if negb (id =? _MME_IE_) then Ret (RTW_RX_HANDLED, ipn)
    else
      pkt_keyid ← RTW_GET_LE16 whdr (mme + 2);
      if negb (pkt_keyid =? keyid) then Ret (_FAIL, ipn)
      else
        p ← rds whdr (mme + 4) 6;
        let pkt_ipn := le_int p in
        if pkt_ipn <=? ipn then Ret (_FAIL, ipn)
        else if bdecrypted then Ret (_SUCCESS, pkt_ipn)
        else
          let ori_len := flen - WLAN_HDR_A3_LEN + BIP_AAD_SIZE in
          match os_malloc ori_len with
          | None => Ret (_FAIL, ipn)
          | Some _ =>
            BIP_AAD ← bip_aad whdr flen mic_len;
            r ← rtw_calculate_bip_mic os_malloc gmcs whdr pkt_len key BIP_AAD;
            match r with
            | None => Ret (_FAIL, ipn)
            | Some mic =>
              same ← _rtw_memcmp whdr (flen - mic_len) (take (Z.to_nat mic_len) mic);
              (if (same : bool) then Ret (_SUCCESS, pkt_ipn) else Ret (_FAIL, ipn))
            end
          end.

(** ** CMAC on one message *)

(** A block as an integer, the first byte the highest. *)
Definition be_int (b : list Z) : Z := fold_left (fun a x => 256 * a + x) b 0.

Definition be_bytes (n : nat) (v : Z) : list Z := rev (le_bytes n v).

(** Multiplication by x in the field of CMAC. *)
Definition dbl128 (v : Z) : Z := if Z.testbit v 127 then Z.lxor (2 * v mod 2 ^ 128) 0x87 else 2 * v.

Section Cmac.
Context (E : list Z -> list Z).

Fixpoint cbc_chain (n : nat) (m x : list Z) : list Z :=
  match n with
  | O => x
  | S n => cbc_chain n (drop 16 m) (E (zip_with Z.lxor x (take 16 m)))
  end.

(** All blocks but the last one are chained; the last one is complete and goes
    with the first subkey, or is padded and goes with the second. *)
Definition cmac (m : list Z) : list Z :=
  let K1 := dbl128 (be_int (E (replicate 16 0))) in
  let K2 := dbl128 K1 in
  let n := ((length m - 1) / 16)%nat in
  let x := cbc_chain n m (replicate 16 0) in
  let d := drop (16 * n) m in
  if (length d =? 16)%nat then E (zip_with Z.lxor (zip_with Z.lxor x d) (be_bytes 16 K1))
  else E (zip_with Z.lxor (zip_with Z.lxor x (d ++ 0x80 :: replicate (15 - length d) 0)) (be_bytes 16 K2)).
End Cmac.

(** ** The subkeys *)

Lemma be_int_acc b a : fold_left (fun a x => 256 * a + x) b a = a * 2 ^ (8 * Z.of_nat (length b)) + be_int b.
Proof.
  unfold be_int. revert a. induction b as [|x b IH]; intros a; cbn [fold_left length]; [rewrite Z.mul_0_r; cbn; lia|].
  rewrite IH, (IH (256 * 0 + x)). replace (8 * Z.of_nat (S (length b))) with (8 + 8 * Z.of_nat (length b)) by lia.
  rewrite Z.pow_add_r by lia. lia.
Qed.

Lemma be_int_cons x b : be_int (x :: b) = x * 2 ^ (8 * Z.of_nat (length b)) + be_int b.
Proof. unfold be_int at 1. cbn [fold_left]. by rewrite be_int_acc. Qed.

Lemma be_int_word b : Forall is_u8 b -> word (8 * Z.of_nat (length b)) (be_int b).
Proof.
  induction 1 as [|x b Hx Hb IH]; [done|]. rewrite be_int_cons. unfold word, is_u8 in *. cbn [length].
  replace (8 * Z.of_nat (S (length b))) with (8 + 8 * Z.of_nat (length b)) by lia. rewrite Z.pow_add_r by lia. nia.
Qed.

Lemma be_le_int b : be_int b = le_int (rev b).
Proof.
  induction b as [|x b IH]; [done|]. rewrite be_int_cons. cbn [rev]. rewrite IH. clear IH. rewrite <- (length_rev b).
  generalize (rev b). intros l. clear b. unfold le_int. induction l as [|y l IH]; cbn [app fold_right length]; [cbn; lia|].
  rewrite <- IH. replace (8 * Z.of_nat (S (length l))) with (8 + 8 * Z.of_nat (length l)) by lia. rewrite Z.pow_add_r by lia. lia.
Qed.

Lemma be_bytes_int b : Forall is_u8 b -> be_bytes (length b) (be_int b) = b.
Proof.
  intros Hb. unfold be_bytes. rewrite be_le_int. rewrite <- (rev_involutive b) at 3. f_equal. symmetry.
  rewrite <- (length_rev b). apply le_bytes_of; [by apply Forall_rev| |done].
  rewrite <- be_le_int, length_rev. by apply be_int_word.
Qed.

Lemma mulx_bytes_spec b :
  Forall is_u8 b ->
  Forall is_u8 (mulx_bytes b) /\ length (mulx_bytes b) = length b /\
  be_int (mulx_bytes b) = 2 * be_int b - 2 ^ (8 * Z.of_nat (length b)) * (nth 0 b 0 / 128).
Proof.
  induction 1 as [|x b Hx Hb (U & L & IH)]; [cbn; by split_and!; [constructor| |]|]. cbn [mulx_bytes nth length].
  assert (is_u8 (nth 0 b 0)) as Hn by (destruct Hb; done).
  assert (u8 (Z.lor (Z.shiftl x 1) (Z.shiftr (nth 0 b 0) 7)) = 2 * x - 256 * (x / 128) + nth 0 b 0 / 128) as ->.
  { rewrite Z.shiftr_div_pow2 by lia. change (2 ^ 7) with 128. rewrite Z.lor_comm, lor_split; [ulia|lia|].
    unfold word, is_u8 in *. change (2 ^ 1) with 2. zlia. }
  split_and!; [constructor; [ulia|done]|by rewrite L|]. rewrite !be_int_cons, IH, L.
  replace (8 * Z.of_nat (S (length b))) with (8 + 8 * Z.of_nat (length b)) by lia. rewrite Z.pow_add_r by lia. change (2 ^ 8) with 256. nia.
Qed.

Lemma be_int_snoc b x : be_int (b ++ [x]) = 256 * be_int b + x.
Proof. unfold be_int. by rewrite fold_left_app. Qed.

(** The byte-wise shift with its carry is the doubling. *)
Lemma gf_mulx_spec b : block b -> block (gf_mulx b) /\ be_int (gf_mulx b) = dbl128 (be_int b).
Proof.
  intros [Hl Hu]. unfold gf_mulx, dbl128. destruct (mulx_bytes_spec b Hu) as (U & L & V). rewrite Hl in L, V.
  change (8 * Z.of_nat 16) with 128 in V. pose proof (be_int_word b Hu) as W. rewrite Hl in W. change (8 * Z.of_nat 16) with 128 in W.
  assert (is_u8 (nth 0 b 0)) as Hn by (destruct Hu; done).
  assert (Z.testbit (be_int b) 127 = Z.testbit (nth 0 b 0) 7 /\ be_int b / 2 ^ 127 = nth 0 b 0 / 128) as [Ht Hd].
  { destruct b as [|x b]; [done|]. injection Hl as Hl. apply Forall_cons_1 in Hu as [Hx Hu]. cbn [nth] in *.
    pose proof (be_int_word b Hu) as Wb. rewrite Hl in Wb. rewrite be_int_cons, Hl in *.
    change (8 * Z.of_nat 15) with 120 in *. rewrite <- lxor_split by (lia || done). split.
    - rewrite Z.lxor_spec, (word_high 120 (be_int b)) by (done || lia). rewrite xorb_false_r, Z.shiftl_spec by lia. done.
    - rewrite lxor_split by (lia || done). unfold word in Wb. change (2 ^ 127) with (2 ^ 120 * 128). zlia. }
  rewrite Ht. assert ((Z.land (nth 0 b 0) 0x80 =? 0) = negb (Z.testbit (nth 0 b 0) 7)) as ->.
  { rewrite <- (land_shift_bit (nth 0 b 0) 7) by lia. by rewrite negb_involutive. }
  destruct (Z.testbit (nth 0 b 0) 7) eqn:T; cbn [negb].
  - assert (nth 0 b 0 / 128 = 1) as H1.
    { assert (128 <= nth 0 b 0); [|unfold is_u8 in Hn; zlia]. apply Z.le_ngt. intros Hlt.
      by rewrite (word_high 7) in T by (unfold word, is_u8 in *; lia). }
    rewrite H1 in *. unfold xor_last.
    assert (mulx_bytes b = take 15 (mulx_bytes b) ++ [nth 15 (mulx_bytes b) 0]) as Es.
    { revert L. generalize (mulx_bytes b). intros l L. do 16 (destruct l as [|? l]; [done|]). by destruct l. }
    assert (Forall is_u8 (take 15 (mulx_bytes b))) as U1 by by apply Forall_take.
    assert (is_u8 (nth 15 (mulx_bytes b) 0)) as U2 by (rewrite Es in U; apply Forall_app in U as [_ U]; by forall_split U).
    split; [split; [rewrite length_app, length_take, L; done|apply Forall_app_2; [done|]]|].
    { constructor; [by apply (word_lxor 8)|constructor]. }
    rewrite Es, be_int_snoc in V. rewrite be_int_snoc. set (h := be_int (take 15 _)) in *. set (y := nth 15 _ 0) in *.
    assert (2 * be_int b mod 2 ^ 128 = 256 * h + y) as -> by (unfold word in W; zlia).
    assert (is_u8 (Z.lxor y 0x87)) as U3 by by apply (word_lxor 8).
    replace (256 * h + y) with (h * 2 ^ 8 + y) by lia. replace (256 * h + Z.lxor y 135) with (h * 2 ^ 8 + Z.lxor y 135) by lia.
    rewrite <- !lxor_split by (lia || done). xor_solve.
  - split; [done|]. assert (nth 0 b 0 / 128 = 0) as H0; [|rewrite V, H0; lia].
    assert (nth 0 b 0 < 128); [|unfold is_u8 in Hn; zlia]. apply Z.lt_nge. intros Hge.
    assert (Z.testbit (nth 0 b 0) 7 = true); [|congruence]. rewrite Z.testbit_true by lia. change (2 ^ 7) with 128. unfold is_u8 in Hn. zlia.
Qed.

(** ** The vector *)

(** Where the loop is in the vector: at a byte, or at the end of everything. *)
Definition vec_ok (pos : list Z) (more : list (list Z)) : Prop := Forall (fun p => p <> []) more /\ (pos = [] -> more = []).

(** [n] bytes of the rest of the vector; [final] says that they are all. *)
Lemma vec_bytes_spec n final pos more :
  vec_ok pos more -> (n <= length (pos ++ concat more))%nat -> final = (n =? length (pos ++ concat more))%nat ->
  exists pos' more', vec_bytes n final pos more = Ret (take n (pos ++ concat more), pos', more') /\
    pos' ++ concat more' = drop n (pos ++ concat more) /\ vec_ok pos' more'.
Proof.
  revert pos more. induction n as [|n IH]; intros pos more Hok Hn Hf; [by exists pos, more|].
  destruct pos as [|b pos]; [destruct Hok as [_ He]; rewrite (He eq_refl) in Hn; cbn in Hn; lia|].
  destruct Hok as [Hm _].
  cbn [vec_bytes app length take drop] in *. destruct pos as [|b' pos].
  - destruct more as [|p more].
    + cbn [concat app length] in *. assert (n = 0)%nat as -> by lia. cbn in Hf. rewrite Hf. by exists [], [].
    + apply Forall_cons_1 in Hm as [Hp Hm]. cbn [concat] in *. destruct p as [|y p]; [done|].
      assert ((n =? 0)%nat && final = false) as ->.
      { apply andb_false_iff. destruct (Nat.eqb_spec n 0) as [->|]; [right|by left]. rewrite Hf. cbn [app length]. by apply Nat.eqb_neq. }
      destruct (IH (y :: p) more) as (pos' & more' & -> & E & Hok'); [by split|cbn [app length] in *; lia| |].
      { rewrite Hf. cbn [app length]. destruct (Nat.eqb_spec n (S (length (p ++ concat more)))); [apply Nat.eqb_eq|apply Nat.eqb_neq]; lia. }
      rewrite bind_Ret. by exists pos', more'.
  - destruct (IH (b' :: pos) more) as (pos' & more' & -> & E & Hok'); [by split|cbn [app length] in *; lia| |].
    { rewrite Hf. destruct (Nat.eqb_spec n (length ((b' :: pos) ++ concat more))); [apply Nat.eqb_eq|apply Nat.eqb_neq]; lia. }
    rewrite bind_Ret. by exists pos', more'.
Qed.

Section Equivalence.
Context (E : list Z -> list Z) `{!BlockCipher E}.

Lemma cbc_xor_block cbc d : length cbc = 16%nat -> length d = 16%nat -> cbc_xor cbc d = zip_with Z.lxor cbc d.
Proof. intros Hc Hd. unfold cbc_xor. rewrite Hd, take_ge, drop_ge by lia. apply app_nil_r. Qed.

Lemma cbc_chain_length n m x : length x = 16%nat -> length (cbc_chain E n m x) = 16%nat.
Proof. revert m x. induction n as [|n IH]; intros m x Hx; [done|]. apply IH, block_length. Qed.

(** After the full blocks: the chain of all but the last one when nothing is
    left, the chain of all otherwise. *)
Lemma omac_blocks_spec n cbc pos more :
  vec_ok pos more -> length cbc = 16%nat -> n = (length (pos ++ concat more) / 16)%nat ->
  let m := pos ++ concat more in
  exists pos' more', vec_ok pos' more' /\ pos' ++ concat more' = drop (16 * n) m /\
    omac_blocks E n (zlen m) cbc pos more =
    Ret (zlen (drop (16 * n) m),
         if (0 <? n)%nat && (length m mod 16 =? 0)%nat
         then zip_with Z.lxor (cbc_chain E (n - 1) m cbc) (drop (16 * (n - 1)) m) else cbc_chain E n m cbc,
         pos', more').
Proof.
  revert cbc pos more. induction n as [|n IH]; intros cbc pos more Hok Hc Hn m.
  - exists pos, more. cbn [omac_blocks Nat.ltb Nat.leb andb cbc_chain]. change (16 * 0)%nat with 0%nat. rewrite drop_0. done.
  - fold m in Hn. pose proof (Nat.div_mod_eq (length m) 16) as Hd. pose proof (Nat.mod_upper_bound (length m) 16) as Hr.
    rewrite <- Hn in Hd. cbn [omac_blocks]. rewrite (proj2 (Z.leb_le 16 _)) by (unfold zlen; lia).
    destruct (vec_bytes_spec 16 (zlen m =? 16) pos more) as (p1 & m1 & -> & E1 & Hok1); [done|fold m; lia| |].
    { fold m. unfold zlen. destruct (Z.eqb_spec (Z.of_nat (length m)) 16); symmetry; [apply Nat.eqb_eq|apply Nat.eqb_neq]; lia. }
    fold m in E1. fold m. rewrite bind_Ret. assert (length (take 16 m) = 16%nat) as L16 by (rewrite length_take; lia).
    rewrite cbc_xor_block by done. set (x := zip_with Z.lxor cbc (take 16 m)).
    assert (length x = 16%nat) as Lx by (unfold x; rewrite length_zip_with; lia).
    replace (zlen m - 16) with (zlen (p1 ++ concat m1)) by (rewrite E1; unfold zlen; rewrite length_drop; lia).
    destruct (IH (if 16 <? zlen m then E x else x) p1 m1) as (p2 & m2 & Hok2 & E2 & Eb); [done|destruct (16 <? _); [apply block_length|done]| |].
    { rewrite E1, length_drop. apply (Nat.div_unique _ 16 n (length m mod 16)); lia. }
    cbn zeta in Eb. rewrite E1 in E2, Eb. exists p2, m2. rewrite E1, Eb. rewrite drop_drop in *.
    replace (16 + 16 * n)%nat with (16 * S n)%nat in * by lia. split_and!; [done|done|]. do 4 f_equal.
    rewrite length_drop. assert ((length m - 16) mod 16 = length m mod 16)%nat as ->.
    { symmetry. apply (Nat.mod_unique _ 16 n); lia. }
    change (0 <? S n)%nat with true. cbn [andb]. replace (S n - 1)%nat with n by lia.
    destruct (Nat.eqb_spec (length m mod 16) 0) as [H0|H0].
    + destruct n as [|n].
      * cbn [Nat.ltb Nat.leb andb cbc_chain]. rewrite (proj2 (Z.ltb_ge 16 _)) by (unfold zlen; lia). change (16 * 0)%nat with 0%nat.
        rewrite drop_0. unfold x. by rewrite (take_ge m) by lia.
      * change (0 <? S n)%nat with true. cbn [andb]. rewrite (proj2 (Z.ltb_lt 16 _)) by (unfold zlen; lia).
        rewrite drop_drop. replace (16 + 16 * (S n - 1))%nat with (16 * S n)%nat by lia. replace (S n - 1)%nat with n by lia. done.
    + rewrite andb_false_r. rewrite (proj2 (Z.ltb_lt 16 _)) by (unfold zlen; lia). done.
Qed.

(** The padded last block. *)
Lemma pad_block d x k :
  length x = (length d + S k)%nat ->
  <[length d := Z.lxor (nth (length d) (cbc_xor x d) 0) 0x80]> (cbc_xor x d) = zip_with Z.lxor x (d ++ 0x80 :: replicate k 0).
Proof.
  revert x. induction d as [|b d IH]; intros [|a x] Hl; cbn [length] in Hl; [lia| |lia|].
  - unfold cbc_xor. cbn [length take drop zip_with app nth]. cbn. f_equal. assert (length x = k) as Hk by lia. clear Hl. subst k.
    induction x as [|c x IHx]; [done|]. cbn. by rewrite Z.lxor_0_r, <- IHx.
  - specialize (IH x ltac:(lia)). unfold cbc_xor in *. cbn [length take drop zip_with app nth]. cbn. by f_equal.
Qed.
End Equivalence.

Section Cmac_eq.
Context (E : list Z -> list Z) `{!BlockCipher E}.

(** The two subkeys are blocks with the values of [cmac]. *)
Lemma omac_subkeys :
  let L := E (replicate 16 0) in
  gf_mulx L = be_bytes 16 (dbl128 (be_int L)) /\ gf_mulx (gf_mulx L) = be_bytes 16 (dbl128 (dbl128 (be_int L))).
Proof.
  intros L. assert (block L) as HL by (split; [apply block_length|apply block_bytes]).
  destruct (gf_mulx_spec L HL) as [[L1 U1] V1]. destruct (gf_mulx_spec (gf_mulx L)) as [[L2 U2] V2]; [done|].
  rewrite <- V1, <- V2. split; [rewrite <- L1 at 1|rewrite <- L2 at 1]; by rewrite be_bytes_int.
Qed.

Lemma omac1_vector_spec p more : vec_ok p more -> omac1_vector E (p :: more) = Ret (cmac E (concat (p :: more))).
Proof.
  intros Hok. unfold omac1_vector, cmac. cbn [concat]. set (m := p ++ concat more).
  destruct omac_subkeys as [K1 K2]. rewrite <- K1, <- K2. set (L := E (replicate 16 0)).
  pose proof (Nat.div_mod_eq (length m) 16) as Hd. pose proof (Nat.mod_upper_bound (length m) 16) as Hr.
  set (n := (length m / 16)%nat) in *. set (r := (length m mod 16)%nat) in *.
  replace (Z.to_nat (zlen m / 16)) with n by (unfold zlen, n; rewrite <- (Nat2Z.inj_div _ 16); lia).
  destruct (omac_blocks_spec E n (replicate 16 0) p more Hok eq_refl eq_refl) as (p' & m' & Hok' & Ep & Eb). fold m r in Ep, Eb.
  rewrite Eb, bind_Ret. assert (length (drop (16 * n) m) = r) as Lr by (rewrite length_drop; lia).
  replace (zlen (drop (16 * n) m)) with (Z.of_nat r) by (unfold zlen; lia).
  destruct (negb (Z.of_nat r =? 0) || (zlen m =? 0)) eqn:C.
  - assert ((0 <? n)%nat && (r =? 0)%nat = false) as ->.
    { apply orb_true_iff in C as [C|C]; [apply negb_true_iff, Z.eqb_neq in C|apply Z.eqb_eq in C; unfold zlen in C];
        apply andb_false_iff; [right; apply Nat.eqb_neq; lia|left; apply Nat.ltb_ge; lia]. }
    assert (((length m - 1) / 16)%nat = n) as ->.
    { symmetry. destruct (Nat.eq_dec r 0%nat) as [H0|H0]; [|apply (Nat.div_unique _ 16 n (r - 1)); lia].
      rewrite H0 in C. cbn in C. apply Z.eqb_eq in C. unfold zlen in C. assert (n = 0)%nat as -> by lia. by replace (length m) with 0%nat by lia. }
    destruct (vec_bytes_spec r true p' m' Hok') as (p2 & m2 & Ev & _ & _); [rewrite Ep; lia|rewrite Ep, Lr; by rewrite Nat.eqb_refl|].
    rewrite Nat2Z.id, Ev, bind_Ret, Ep, take_ge by lia. set (x := cbc_chain E n m (replicate 16 0)).
    assert (length x = 16%nat) as Lx by by apply cbc_chain_length. rewrite Lr.
    rewrite (proj2 (Nat.eqb_neq r 16%nat)) by lia. f_equal. f_equal. rewrite <- Lr at 1 2. rewrite (pad_block _ x (15 - r)) by lia.
    apply zip_xor_comm.
  - apply orb_false_iff in C as [C1 C2]. apply negb_false_iff, Z.eqb_eq in C1. apply Z.eqb_neq in C2. unfold zlen in C2.
    assert (r = 0)%nat as H0 by lia. rewrite H0 in *. rewrite (proj2 (Nat.ltb_lt 0%nat n)) by lia. cbn [andb Nat.eqb].
    assert (((length m - 1) / 16)%nat = (n - 1)%nat) as ->.
    { symmetry. apply (Nat.div_unique _ 16 _ 15); lia. }
    rewrite length_drop. rewrite (proj2 (Nat.eqb_eq (length m - 16 * (n - 1)) 16%nat)) by lia. f_equal. f_equal. apply zip_xor_comm.
Qed.
End Cmac_eq.

(** C38. The MAC over a vector of pieces, read across their borders, is the CMAC
    of their concatenation: the loops neither leave a piece nor the vector,
    whatever the lengths of the pieces are, as long as none of them is empty
    (or the message is one empty piece). *)
Theorem omac1_vector_cmac os_malloc key key_len data :
  gets_memory os_malloc -> key_len_ok key_len -> data = [[]] \/ data <> [] /\ Forall (fun p => p <> []) data ->
  exists ctx, aes_ctx os_malloc key key_len = Some ctx /\
    omac1_aes_vector os_malloc key key_len data = Ret (Some (cmac (aes_encrypt ctx) (concat data))).
Proof.
  intros Hm Hk Hd. destruct (aes_ctx_some os_malloc key key_len Hm Hk) as [ctx Ec]. exists ctx. split; [done|].
  unfold omac1_aes_vector. rewrite Ec. destruct data as [|p more]; [destruct Hd as [Hd|[Hd _]]; done|].
  rewrite (omac1_vector_spec (aes_encrypt ctx)); [done|]. destruct Hd as [[= -> ->]|[_ Hd]]; [by split; [constructor|]|].
  apply Forall_cons_1 in Hd as [Hp Hd]. by split.
Qed.

Lemma omac1_vector_cmac_witness :
  exists ctx, aes_ctx sample_malloc (fips_key 16) 16 = Some ctx /\
    omac1_aes_vector sample_malloc (fips_key 16) 16 [[1; 2; 3]; repeat 4 20] =
    Ret (Some (cmac (aes_encrypt ctx) (concat [[1; 2; 3]; repeat 4 20]))).
Proof.
  apply (omac1_vector_cmac sample_malloc (fips_key 16) 16 [[1; 2; 3]; repeat 4 20]);
    [exact sample_malloc_gets|by left|right; split; [done|by repeat constructor]].
Defined.

(** An empty piece that is not the whole message is read behind its end. *)
Lemma omac1_empty_piece_faults : omac1_aes_vector sample_malloc (fips_key 16) 16 [[1]; []; [2]] = Fault.
Proof. vm_compute. reflexivity. Qed.

(** Examples of SP 800-38B. *)
Lemma cmac_standard_examples :
  let key := [0x2b; 0x7e; 0x15; 0x16; 0x28; 0xae; 0xd2; 0xa6; 0xab; 0xf7; 0x15; 0x88; 0x09; 0xcf; 0x4f; 0x3c] in
  let m := [0x6b; 0xc1; 0xbe; 0xe2; 0x2e; 0x40; 0x9f; 0x96; 0xe9; 0x3d; 0x7e; 0x11; 0x73; 0x93; 0x17; 0x2a;
            0xae; 0x2d; 0x8a; 0x57; 0x1e; 0x03; 0xac; 0x9c; 0x9e; 0xb7; 0x6f; 0xac; 0x45; 0xaf; 0x8e; 0x51;
            0x30; 0xc8; 0x1c; 0x46; 0xa3; 0x5c; 0xe4; 0x11] in
  map (fun n => omac1_aes_128 sample_malloc key (take n m)) [0; 16; 40]%nat =
  [Ret (Some [0xbb; 0x1d; 0x69; 0x29; 0xe9; 0x59; 0x37; 0x28; 0x7f; 0xa3; 0x7d; 0x12; 0x9b; 0x75; 0x67; 0x46]);
   Ret (Some [0x07; 0x0a; 0x16; 0xb4; 0x6b; 0x4d; 0x41; 0x44; 0xf7; 0x9b; 0xdd; 0x9d; 0xd0; 0x4a; 0x28; 0x7c]);
   Ret (Some [0xdf; 0xa6; 0x67; 0x47; 0xde; 0x9a; 0xe6; 0x30; 0x30; 0xca; 0x32; 0x61; 0x14; 0x97; 0xc8; 0x27])].
Proof. vm_compute. reflexivity. Qed.

(** ** Broadcast management frames: what is expected of them *)

Definition bip_mic_len (gmcs : Z) : Z := if gmcs =? _BIP_CMAC_128_ then 8 else 16.

(** The position of the MME, the last element of a frame, and the packet number
    in it. *)
Definition mme_pos (gmcs : Z) (whdr : list Z) : Z := zlen whdr - (bip_mic_len gmcs + 10).

Definition mme_ipn (gmcs : Z) (whdr : list Z) : Z := le_int (take 6 (drop (Z.to_nat (mme_pos gmcs whdr + 4)) whdr)).

(** The message of 802.11, 12.5.4: the frame control with the bits Retry, Power
    Management and More Data masked to zero, the three addresses, the body
    with the MME, and the MIC field as zeros. *)
Definition bip_message (gmcs : Z) (whdr : list Z) : list Z :=
  [nth 0 whdr 0; Z.land (nth 1 whdr 0) 0xC7] ++ take 18 (drop 4 whdr) ++
  drop 24 (take (Z.to_nat (zlen whdr - bip_mic_len gmcs)) whdr) ++ replicate (Z.to_nat (bip_mic_len gmcs)) 0.

(** The transmitter, and the six bytes that precede the MIC of a frame of
    [pkt_len] bytes, the highest first. *)
Definition bip_nonce (pkt_len : Z) (whdr : list Z) : list Z :=
  take 6 (drop 10 whdr) ++ rev (take 6 (drop (Z.to_nat (pkt_len - 22)) whdr)).

(** The MIC by the cipher suite, over the AES of the key. *)
Definition bip_mic (gmcs pkt_len : Z) (E : list Z -> list Z) (whdr : list Z) : list Z :=
  if (gmcs =? _BIP_CMAC_128_) || (gmcs =? _BIP_CMAC_256_) then take (Z.to_nat (bip_mic_len gmcs)) (cmac E (bip_message gmcs whdr))
  else gcm_tag E (bip_nonce pkt_len whdr) (bip_message gmcs whdr) [].

Definition bip_key_len (gmcs : Z) : Z := if (gmcs =? _BIP_CMAC_128_) || (gmcs =? _BIP_GMAC_128_) then 16 else 32.

Definition bip_suite (gmcs : Z) : Prop :=
  gmcs = _BIP_CMAC_128_ \/ gmcs = _BIP_CMAC_256_ \/ gmcs = _BIP_GMAC_128_ \/ gmcs = _BIP_GMAC_256_.

(** The last bytes are the MIC of the rest. *)
Definition bip_genuine (os_malloc : allocator) (gmcs pkt_len : Z) (key whdr : list Z) : Prop :=
  bip_suite gmcs /\ exists ctx, aes_ctx os_malloc key (bip_key_len gmcs) = Some ctx /\
    drop (Z.to_nat (zlen whdr - bip_mic_len gmcs)) whdr = bip_mic gmcs pkt_len (aes_encrypt ctx) whdr.

(** An MME of the key at the end of the frame, and, unless the hardware has
    checked it, its MIC. *)
Definition bip_valid (os_malloc : allocator) (gmcs pkt_len : Z) (key : list Z) (keyid : Z) (whdr : list Z) (dec : bool) : Prop :=
  24 + bip_mic_len gmcs <= zlen whdr /\ nth (Z.to_nat (mme_pos gmcs whdr)) whdr 0 = 76 /\
  le_int (take 2 (drop (Z.to_nat (mme_pos gmcs whdr + 2)) whdr)) = keyid /\
  (dec = false -> bip_genuine os_malloc gmcs pkt_len key whdr).

(** The frame holds bytes, and the length that the GMAC suites find the packet
    number with, the one of the receive attributes, is inside the frame. *)
Definition bip_input (gmcs pkt_len : Z) (whdr : list Z) : Prop :=
  Forall is_u8 whdr /\ (gmcs = _BIP_CMAC_128_ \/ gmcs = _BIP_CMAC_256_ \/ zlen whdr < 40 \/ 22 <= pkt_len <= zlen whdr).

(** ** The MIC of the code *)

(** The cipher is not evaluated in proofs. *)
#[local] Opaque aes_encrypt aes_gcm_ghash aes_gcm_prepare_j0.

Lemma masked_fc_all :
  forallb (fun hi => forallb (fun lo => bool_decide (put_le16 (bip_fc (u16 (Z.lor (Z.shiftl hi 8) lo))) = [lo; Z.land hi 199]))
    (seqZ 0 256)) (seqZ 0 256) = true.
Proof. vm_compute. reflexivity. Qed.

Lemma masked_fc lo hi :
  is_u8 lo -> is_u8 hi -> put_le16 (bip_fc (u16 (Z.lor (Z.shiftl hi 8) lo))) = [lo; Z.land hi 0xC7].
Proof.
  intros Hl Hh. pose proof masked_fc_all as H. rewrite forallb_forall in H.
  specialize (H hi ltac:(apply list_elem_of_In, elem_of_seqZ; unfold is_u8 in *; lia)). cbn beta in H. rewrite forallb_forall in H.
  specialize (H lo ltac:(apply list_elem_of_In, elem_of_seqZ; unfold is_u8 in *; lia)). cbn beta in H. by apply bool_decide_eq_true_1 in H.
Qed.

Lemma le16_bytes m p :
  Forall is_u8 m -> 0 <= p -> p + 2 <= zlen m -> RTW_GET_LE16 m p = Ret (le_int (take 2 (drop (Z.to_nat p) m))).
Proof.
  intros Hu Hp H. unfold RTW_GET_LE16. rewrite !rd_nth, !bind_Ret by lia. f_equal.
  assert (forall i, (i < length m)%nat -> is_u8 (nth i m 0)) as Hn by (intros; by apply Forall_nth).
  assert (take 2 (drop (Z.to_nat p) m) = [nth (Z.to_nat p) m 0; nth (Z.to_nat (p + 1)) m 0]) as ->.
  { destruct (lookup_lt_is_Some_2 m (Z.to_nat p)) as [x Ex]; [unfold zlen in H; lia|].
    destruct (lookup_lt_is_Some_2 m (Z.to_nat (p + 1))) as [y Ey]; [unfold zlen in H; lia|].
    rewrite (nth_lookup_Some _ _ _ _ Ex), (nth_lookup_Some _ _ _ _ Ey), (drop_S _ _ _ Ex).
    replace (Z.to_nat (p + 1)) with (S (Z.to_nat p)) in Ey by lia. by rewrite (drop_S _ _ _ Ey). }
  unfold le_int. cbn [fold_right]. rewrite Z.lor_comm, lor_split; [|lia|apply Hn; unfold zlen in H; lia].
  pose proof (Hn (Z.to_nat p) ltac:(unfold zlen in H; lia)). pose proof (Hn (Z.to_nat (p + 1)) ltac:(unfold zlen in H; lia)). ulia.
Qed.

Lemma cmac_length (E : list Z -> list Z) `{!BlockCipher E} m : length (cmac E m) = 16%nat.
Proof. unfold cmac. cbn zeta. destruct (_ =? 16)%nat; apply block_length. Qed.

Lemma bip_aad_spec gmcs whdr :
  Forall is_u8 whdr -> 24 + bip_mic_len gmcs <= zlen whdr ->
  bip_aad whdr (zlen whdr) (bip_mic_len gmcs) = Ret (bip_message gmcs whdr).
Proof.
  intros Hu H. assert (0 <= bip_mic_len gmcs) as HM by (unfold bip_mic_len; destruct (_ =? _); lia).
  unfold bip_aad, WLAN_HDR_A3_LEN, RTW_GET_LE16. rewrite !rd_nth by lia. rewrite !rds_spec, !bind_Ret by lia.
  rewrite masked_fc by (apply Forall_nth; [done|unfold zlen in H; lia]).
  unfold bip_message. f_equal. cbn [app]. change (Z.to_nat 24) with 24%nat. rewrite (take_drop_commute _ _ 24). replace (24 + Z.to_nat (zlen whdr - 24 - bip_mic_len gmcs))%nat with (Z.to_nat (zlen whdr - bip_mic_len gmcs)) by lia. reflexivity.
Qed.

Lemma cmac_suite os_malloc key key_len data :
  data <> [] ->
  omac1_aes_vector os_malloc key key_len [data] =
  Ret (match aes_ctx os_malloc key key_len with Some ctx => Some (cmac (aes_encrypt ctx) data) | None => None end).
Proof.
  intros Hd. unfold omac1_aes_vector. destruct (aes_ctx os_malloc key key_len) as [ctx|]; [|done].
  rewrite (omac1_vector_spec (aes_encrypt ctx)) by (split; [constructor|destruct data; done]). cbn [concat]. by rewrite app_nil_r.
Qed.

Lemma gmac_body (E : list Z -> list Z) `{!BlockCipher E} iv aad :
  gcm_ae_body E iv [] aad (replicate 16 0) 0 0 = Ret (gcm_tag E iv aad []).
Proof.
  destruct (gcm_ae_spec E iv [] aad [] (replicate 16 0)) as (r & Er & Hr); [exact (le_n 16)|].
  assert (gcm_stream E iv [] = []) as Es by (apply nil_length_inv; exact (gcm_stream_length E iv [])).
  assert (r = []) as -> by (apply nil_length_inv; rewrite length_replicate in Hr; cbn [length] in Hr; lia).
  rewrite Es, !app_nil_l, app_nil_r in Er. exact Er.
Qed.

Lemma gmac_suite os_malloc key key_len iv aad :
  exists st mic, aes_gmac os_malloc key key_len iv aad (replicate 16 0) 0 = Ret (st, mic) /\
    match aes_ctx os_malloc key key_len with
    | Some ctx => st = 0 /\ mic = gcm_tag (aes_encrypt ctx) iv aad []
    | None => st = -1
    end.
Proof.
  unfold aes_gmac, aes_gcm_ae. destruct (aes_ctx os_malloc key key_len) as [ctx|]; [|by exists (-1), (replicate 16 0)].
  rewrite (gmac_body (aes_encrypt ctx)), bind_Ret. eexists _, _. split; [reflexivity|]. by split.
Qed.

Lemma gmac_protect os_malloc whdr pkt_len key key_len data :
  22 <= pkt_len <= zlen whdr -> 16 <= zlen whdr ->
  _bip_gcmp_protect os_malloc whdr pkt_len key key_len data =
  Ret (match aes_ctx os_malloc key key_len with
       | Some ctx => Some (gcm_tag (aes_encrypt ctx) (bip_nonce pkt_len whdr) data [])
       | None => None
       end).
Proof.
  intros H1 H2. unfold _bip_gcmp_protect. rewrite !rds_spec, !bind_Ret by lia. replace (pkt_len - 16 - 6) with (pkt_len - 22) by lia.
  destruct (gmac_suite os_malloc key key_len (bip_nonce pkt_len whdr) data) as (st & mic & E & Hm). unfold bip_nonce in E at 1.
  change (Z.to_nat 6) with 6%nat. change (Z.to_nat 10) with 10%nat. rewrite E, bind_Ret.
  destruct (aes_ctx os_malloc key key_len); [destruct Hm as [-> ->]|subst st]; done.
Qed.

(** The MIC that is compared, by suite. *)
Lemma bip_calculate_spec os_malloc gmcs pkt_len whdr key :
  bip_input gmcs pkt_len whdr -> 24 + bip_mic_len gmcs <= zlen whdr ->
  exists r, rtw_calculate_bip_mic os_malloc gmcs whdr pkt_len key (bip_message gmcs whdr) = Ret r /\
    (r = None /\ ~ (bip_suite gmcs /\ exists ctx, aes_ctx os_malloc key (bip_key_len gmcs) = Some ctx) \/
     exists mic ctx, r = Some mic /\ bip_suite gmcs /\ aes_ctx os_malloc key (bip_key_len gmcs) = Some ctx /\
       take (Z.to_nat (bip_mic_len gmcs)) mic = bip_mic gmcs pkt_len (aes_encrypt ctx) whdr).
Proof.
  intros [_ Hp] Hl. unfold rtw_calculate_bip_mic, _bip_ccmp_protect, omac1_aes_128, omac1_aes_256, bip_suite, bip_key_len, bip_mic.
  set (m := bip_message gmcs whdr). assert (m <> []) as Hm by done.
  assert (gmcs <> _BIP_CMAC_128_ -> bip_mic_len gmcs = 16) as HM by (intros N; unfold bip_mic_len; by rewrite (proj2 (Z.eqb_neq _ _) N)).
  destruct (Z.eqb_spec gmcs _BIP_CMAC_128_) as [->|N1]; [|destruct (Z.eqb_spec gmcs _BIP_CMAC_256_) as [->|N2]];
    [| |specialize (HM N1); destruct (Z.eqb_spec gmcs _BIP_GMAC_128_) as [->|N3]; [|destruct (Z.eqb_spec gmcs _BIP_GMAC_256_) as [->|N4]]];
    cbn [orb Z.eqb Pos.eqb];
    [rewrite cmac_suite by done|rewrite cmac_suite by done|rewrite gmac_protect by lia|rewrite gmac_protect by lia
    |eexists; split; [done|left; split; [done|]; intros [[?|[?|[?|?]]] _]; done]].
  all: match goal with |- context [aes_ctx ?o ?k ?l] => change (aes_ctx o k _) with (aes_ctx o k l); destruct (aes_ctx o k l) as [ctx|] eqn:Ec end.
  all: eexists; split; [reflexivity|].
  all: try (left; split; [done|]; intros [_ [ctx ?]]; congruence).
  all: right; eexists _, ctx; split_and!; [done|auto|done|].
  all: try reflexivity.
  all: change (bip_mic_len _) with 16; change (Z.to_nat 16) with 16%nat; apply take_ge;
    rewrite (proj1 (gcm_tag_block (aes_encrypt ctx) _ _ _)); lia.
Qed.

(** ** Verification *)

(** Whatever the frame and the allocator: no read outside the frame; the packet
    number changes on success only, to the larger one of the frame; and with
    memory every valid frame with a larger number succeeds. *)
Lemma bip_verify_spec os_malloc gmcs pkt_len whdr key keyid ipn dec :
  bip_input gmcs pkt_len whdr ->
  exists st ipn', rtw_bip_verify os_malloc gmcs pkt_len whdr (zlen whdr) key keyid ipn dec = Ret (st, ipn') /\
    (st = _SUCCESS /\ ipn < ipn' /\ ipn' = mme_ipn gmcs whdr /\ bip_valid os_malloc gmcs pkt_len key keyid whdr dec \/
     st <> _SUCCESS /\ ipn' = ipn /\
     (gets_memory os_malloc -> bip_valid os_malloc gmcs pkt_len key keyid whdr dec -> mme_ipn gmcs whdr <= ipn)).
Proof.
  intros Hi. unfold rtw_bip_verify. fold (bip_mic_len gmcs). cbn zeta. unfold bip_valid, WLAN_HDR_A3_LEN.
  assert (bip_mic_len gmcs = 8 \/ bip_mic_len gmcs = 16) as HM by (unfold bip_mic_len; destruct (_ =? _); auto).
  destruct ((zlen whdr <? 24) || _) eqn:C.
  { eexists _, _. split; [done|]. right. split_and!; [done|done|]. intros _ [Hl _]. apply orb_true_iff in C as [C%Z.ltb_lt|C%Z.ltb_lt]; lia. }
  apply orb_false_iff in C as [C1%Z.ltb_ge C2%Z.ltb_ge].
  assert (zlen whdr - (if bip_mic_len gmcs =? 8 then 18 else 26) = mme_pos gmcs whdr) as -> by (unfold mme_pos; destruct HM as [-> | ->]; done).
  assert (14 <= mme_pos gmcs whdr /\ mme_pos gmcs whdr + 10 <= zlen whdr) as [P1 P2] by (unfold mme_pos; lia).
  rewrite rd_nth, bind_Ret by lia. unfold _MME_IE_. destruct (Z.eqb_spec (nth (Z.to_nat (mme_pos gmcs whdr)) whdr 0) 76) as [Hid|Hid]; cbn [negb];
    [|eexists _, _; split; [done|right; split_and!; [done|done|]; by intros _ (_ & ? & _)]].
  rewrite (le16_bytes whdr (mme_pos gmcs whdr + 2)), bind_Ret by (apply Hi || lia).
  destruct (Z.eqb_spec (le_int (take 2 (drop (Z.to_nat (mme_pos gmcs whdr + 2)) whdr))) keyid) as [Hk|Hk]; cbn [negb];
    [|eexists _, _; split; [done|right; split_and!; [done|done|]; by intros _ (_ & _ & ? & _)]].
  rewrite rds_spec, bind_Ret by lia. change (Z.to_nat 6) with 6%nat. fold (mme_ipn gmcs whdr).
  destruct (Z.leb_spec (mme_ipn gmcs whdr) ipn) as [Hle|Hlt]; [by eexists _, _; split; [|right; split_and!]|].
  destruct dec; [eexists _, _; split; [done|left]; split_and!; (done || lia)|].
  destruct (os_malloc _) as [buf|] eqn:Eo; [|eexists _, _; split; [done|right; split_and!; [done|done|]]].
  2:{ intros Hg. destruct (Hg (zlen whdr - 24 + BIP_AAD_SIZE)) as (? & ? & _); [unfold BIP_AAD_SIZE; lia|congruence]. }
  rewrite bip_aad_spec, bind_Ret by (apply Hi || lia).
  destruct (bip_calculate_spec os_malloc gmcs pkt_len whdr key Hi) as (r & -> & Hr); [lia|]. rewrite bind_Ret.
  destruct Hr as [[-> Hn]|(mic & ctx & -> & Hs & Hc & Em)].
  { eexists _, _. split; [done|]. right. split_and!; [done|done|]. intros _ (_ & _ & _ & Hv). destruct Hn.
    destruct (Hv eq_refl) as (Hs & ctx & Hc & _). eauto. }
  rewrite Em. set (E := aes_encrypt ctx) in *. assert (zlen (bip_mic gmcs pkt_len E whdr) = bip_mic_len gmcs) as Lm.
  { unfold bip_mic, zlen. destruct ((gmcs =? _BIP_CMAC_128_) || (gmcs =? _BIP_CMAC_256_)) eqn:Cm.
    - rewrite length_take, (cmac_length E). lia.
    - rewrite (proj1 (gcm_tag_block E _ _ _)). apply orb_false_iff in Cm as [Cm _]. unfold bip_mic_len. by rewrite Cm. }
  unfold _rtw_memcmp. rewrite Lm, rds_spec, !bind_Ret by lia.
  rewrite take_ge by (rewrite length_drop; unfold zlen in *; lia). case_bool_decide as Hcmp.
  - eexists _, _. split; [done|]. left. split_and!; [done|done|done|lia|done|done|]. intros _. split; [done|]. by exists ctx.
  - eexists _, _. split; [done|]. right. split_and!; [done|done|]. intros _ (_ & _ & _ & Hv). destruct (Hv eq_refl) as (_ & ctx' & Hc' & Hm).
    rewrite Hc in Hc'. injection Hc' as <-. by destruct Hcmp.
Qed.

(** A frame as it arrives: the length of its attributes, its bytes, and whether
    the hardware has checked it. *)
Record bip_frame := mk_bip_frame { bf_pkt_len : Z; bf_bytes : list Z; bf_dec : bool }.

(** Frames one after the other: those that are accepted, and the packet number
    that is kept. *)
Fixpoint bip_run (os_malloc : allocator) (gmcs : Z) (key : list Z) (keyid ipn : Z) (frames : list bip_frame) :
    outcome (list bip_frame * Z) :=
  match frames with
  | [] => Ret ([], ipn)
  | f :: frames =>
    r ← rtw_bip_verify os_malloc gmcs (bf_pkt_len f) (bf_bytes f) (zlen (bf_bytes f)) key keyid ipn (bf_dec f);
    let '(st, ipn) := r in
    r ← bip_run os_malloc gmcs key keyid ipn frames;
    let '(acc, ipn) := r in
    Ret (if st =? _SUCCESS then f :: acc else acc, ipn)
  end.

Lemma last_default {A} (l : list A) (x y : A) : l <> [] -> List.last l x = List.last l y.
Proof. induction l as [|a [|b l] IH]; [done|done|]. intros _. by apply IH. Qed.

Lemma sorted_last (l : list Z) x : StronglySorted Z.lt (x :: l) -> x <= List.last l x.
Proof.
  revert x. induction l as [|y l IH]; intros x Hs; [cbn; lia|]. apply StronglySorted_inv in Hs as [Hs Hx]. apply Forall_cons_1 in Hx as [Hx _].
  specialize (IH y Hs). destruct l as [|z l]; [cbn in *; lia|]. rewrite (last_default (z :: l) y x) in IH by done. change (List.last (y :: z :: l) x) with (List.last (z :: l) x). lia.
Qed.

(** C21. No replay of broadcast management frames.  Whatever frames arrive, and
    whether or not memory is found, the checks stay inside the frames, provided
    that for the GMAC suites the length in the attributes of a frame of 40
    bytes or more is between 22 and its number of bytes (the code takes the
    packet number for the nonce at that length).  The packet numbers of the
    accepted frames increase strictly from the number that was kept before, so
    that no frame is accepted twice; every accepted frame ends with an MME of
    the key; if it was not checked by the hardware, its last bytes are the MIC
    of the suite (AES-CMAC cut to 8 bytes or AES-CMAC with a 256-bit key;
    AES-GMAC with the nonce of the transmitter and the packet number) over
    the masked frame control, the three addresses, the body with the MME and
    zeros for the MIC.  With memory, every such frame is accepted unless its
    packet number is not above the number kept. *)
Theorem bip_no_replay os_malloc gmcs key keyid ipn frames :
  Forall (fun f => bip_input gmcs (bf_pkt_len f) (bf_bytes f)) frames ->
  exists acc ipn', bip_run os_malloc gmcs key keyid ipn frames = Ret (acc, ipn') /\
    StronglySorted Z.lt (ipn :: map (fun f => mme_ipn gmcs (bf_bytes f)) acc) /\
    ipn' = List.last (map (fun f => mme_ipn gmcs (bf_bytes f)) acc) ipn /\
    Forall (fun f => bip_valid os_malloc gmcs (bf_pkt_len f) key keyid (bf_bytes f) (bf_dec f)) acc /\
    (gets_memory os_malloc ->
     Forall (fun f => bip_valid os_malloc gmcs (bf_pkt_len f) key keyid (bf_bytes f) (bf_dec f) ->
       mme_ipn gmcs (bf_bytes f) <= ipn') frames).
Proof.
  intros Hi. revert ipn. induction Hi as [|f frames Hf Hi IH]; intros ipn; cbn [bip_run].
  { exists [], ipn. split_and!; [done|by repeat constructor|done|constructor|constructor]. }
  destruct (bip_verify_spec os_malloc gmcs (bf_pkt_len f) (bf_bytes f) key keyid ipn (bf_dec f) Hf) as (st & ipn1 & -> & Hv). rewrite bind_Ret.
  destruct (IH ipn1) as (acc & ipn' & -> & Hs & Hl & Hg & Hc). rewrite bind_Ret. pose proof (sorted_last _ _ Hs) as Hle. rewrite <- Hl in Hle.
  destruct Hv as [(-> & Hlt & Ei & Hd)|(Hne & -> & Hd)].
  - exists (f :: acc), ipn'. cbn [map]. rewrite <- Ei. split_and!; [done| | |by constructor|intros; constructor; [lia|auto]].
    + constructor; [done|]. apply StronglySorted_inv in Hs as [_ Hs]. constructor; [done|]. eapply Forall_impl; [|exact Hs]. intros. cbn in *. lia.
    + rewrite Hl. cbn [List.last]. destruct (map _ acc) eqn:Em; [done|]. apply last_default. by rewrite <- Em in *; rewrite Em.
  - exists acc, ipn'. rewrite (proj2 (Z.eqb_neq _ _)) by done. split_and!; [done..|]. intros Hm. constructor; [|auto]. intros Hv. specialize (Hd Hm Hv). lia.
Qed.

(** A frame with key id 4 and a packet number; of 9, 8 and 10 in this order the
    second is refused. *)
Definition sample_bip (n : Z) : bip_frame :=
  let m := replicate 24 0 ++ [1; 2] ++ [76; 16; 4; 0; n; 0; 0; 0; 0; 0] in
  match omac1_aes_128 sample_malloc sample_tk (drop 4 m ++ replicate 8 0) with
  | Ret (Some mic) => mk_bip_frame 44 (m ++ take 8 mic) false
  | _ => mk_bip_frame 0 [] false
  end.

Lemma sample_bip_input n : In n [8; 9; 10] -> bip_input _BIP_CMAC_128_ (bf_pkt_len (sample_bip n)) (bf_bytes (sample_bip n)).
Proof.
  intros Hn. split; [|by left]. assert (forallb (fun b => (0 <=? b) && (b <? 256)) (bf_bytes (sample_bip n)) = true) as H.
  { destruct Hn as [<-|[<-|[<-|[]]]]; vm_compute; reflexivity. }
  apply Forall_forall. intros b Hb. rewrite forallb_forall in H. specialize (H b Hb). unfold is_u8. lia.
Qed.

Lemma bip_run_example :
  bip_run sample_malloc _BIP_CMAC_128_ sample_tk 4 5 [sample_bip 9; sample_bip 8; sample_bip 10] =
  Ret ([sample_bip 9; sample_bip 10], 10).
Proof. vm_compute. reflexivity. Qed.

Lemma bip_no_replay_witness :
  StronglySorted Z.lt (5 :: map (fun f => mme_ipn _BIP_CMAC_128_ (bf_bytes f)) [sample_bip 9; sample_bip 10]) /\
  bip_genuine sample_malloc _BIP_CMAC_128_ 44 sample_tk (bf_bytes (sample_bip 9)).
Proof.
  destruct (bip_no_replay sample_malloc _BIP_CMAC_128_ sample_tk 4 5 [sample_bip 9; sample_bip 8; sample_bip 10]) as (acc & ipn' & E & Hs & _ & Hv & _).
  { repeat (constructor; [apply sample_bip_input; cbn; auto|]). constructor. }
  rewrite bip_run_example in E. injection E as <- <-. split; [exact Hs|]. apply Forall_cons_1 in Hv as [(_ & _ & _ & Hv) _]. by apply Hv.
Defined.
