(* ===== verification/RxCore.v ===== *)
(** * Duplicates, replays and fragments of received data frames

    Functions of src/core/rtw_recv.c between the header of a data frame and its
    delivery: [recv_decache] drops retransmissions, [recv_ucast_pn_decache] and
    [recv_bcast_pn_decache] look at packet numbers, [recvframe_chk_defrag] and
    [recvframe_defrag] put fragments together. *)
From Stdlib Require Import ZArith Lia Bool List Sorted Permutation.
From stdpp Require Import base tactics list numbers.
From S2P Require Import Prelude ByteBuf WordBits SecCrypto SecFrame.

(** ** Packet numbers: definitions *)

(** PN_LESS_CHK and VALID_PN_CHK, on [u64]. *)
Definition PN_LESS_CHK (a b : Z) : bool := negb (Z.land (u64 (a - b)) 0x800000000000 =? 0).

Definition VALID_PN_CHK (new old : Z) : bool := (old =? 0) || PN_LESS_CHK old new.

(** [rtw_iv_to_pn] and RTW_GET_LE64 on the array of eight bytes, which holds
    zeros behind the packet number. *)
Definition iv_pn (iv : list Z) (encrypt : Z) : Z :=
  match rtw_iv_to_pn iv encrypt with Some (pn, _) => le_int pn | None => 0 end.

Definition pn_ciphers (encrypt : Z) : bool := (encrypt =? _TKIP_) || ccmp_like encrypt.

(** The sequence numbers seen last and the IVs of [struct stainfo_rxcache] and
    [struct sta_recv_priv]. *)
Record rx_cache := RxCache {
  tid_rxseq : list Z;
  bmc_tid_rxseq : list Z;
  nonqos_rxseq : Z;
  nonqos_bmc_rxseq : Z;
  rx_iv : list (list Z);
  last_tid : Z;
  duplicate_cnt : Z }.

Definition set_seq (c : rx_cache) (qos mcast : bool) (tid v : Z) : rx_cache :=
  match qos, mcast with
  | true, true => RxCache (tid_rxseq c) (<[Z.to_nat tid := v]> (bmc_tid_rxseq c)) (nonqos_rxseq c) (nonqos_bmc_rxseq c) (rx_iv c) (last_tid c) (duplicate_cnt c)
  | true, false => RxCache (<[Z.to_nat tid := v]> (tid_rxseq c)) (bmc_tid_rxseq c) (nonqos_rxseq c) (nonqos_bmc_rxseq c) (rx_iv c) (last_tid c) (duplicate_cnt c)
  | false, true => RxCache (tid_rxseq c) (bmc_tid_rxseq c) (nonqos_rxseq c) v (rx_iv c) (last_tid c) (duplicate_cnt c)
  | false, false => RxCache (tid_rxseq c) (bmc_tid_rxseq c) v (nonqos_bmc_rxseq c) (rx_iv c) (last_tid c) (duplicate_cnt c)
  end.

(** [*prxseq] *)
Definition get_seq (c : rx_cache) (qos mcast : bool) (tid : Z) : Z :=
  match qos, mcast with
  | true, true => nth (Z.to_nat tid) (bmc_tid_rxseq c) 0
  | true, false => nth (Z.to_nat tid) (tid_rxseq c) 0
  | false, true => nonqos_bmc_rxseq c
  | false, false => nonqos_rxseq c
  end.

Definition recv_decache (c : rx_cache) (tid seq_num frag_num : Z) (qos mcast : bool) : Z * rx_cache :=
  let seq_ctrl := u16 (Z.lor (Z.shiftl (Z.land seq_num 0xffff) 4) (Z.land frag_num 0xf)) in
  if 15 <? tid then (_FAIL, c)
  else if seq_ctrl =? get_seq c qos mcast tid
  then (_FAIL, RxCache (tid_rxseq c) (bmc_tid_rxseq c) (nonqos_rxseq c) (nonqos_bmc_rxseq c) (rx_iv c) (last_tid c) (u32 (duplicate_cnt c + 1)))
  else (_SUCCESS, set_seq c qos mcast tid seq_ctrl).

(** [iv]: the eight bytes behind the header. *)
Definition recv_ucast_pn_decache (c : rx_cache) (tid encrypt : Z) (iv : list Z) : Z * rx_cache :=
  if 15 <? tid then (_FAIL, c)
  else if pn_ciphers encrypt then
    let pkt_pn := iv_pn iv encrypt in
    let curr_pn := iv_pn (nth (Z.to_nat tid) (rx_iv c) []) encrypt in
    if negb (VALID_PN_CHK pkt_pn curr_pn) then (_SUCCESS, c)
    else (_SUCCESS, RxCache (tid_rxseq c) (bmc_tid_rxseq c) (nonqos_rxseq c) (nonqos_bmc_rxseq c)
                            (<[Z.to_nat tid := iv]> (rx_iv c)) tid (duplicate_cnt c))
  else (_SUCCESS, c).

(** [iv_seq] as the packet numbers of the four group keys; [sta] is
    MLME_IS_STA. *)
Definition recv_bcast_pn_decache (sta : bool) (iv_seq : list Z) (encrypt : Z) (iv : list Z) : Z * list Z :=
  if pn_ciphers encrypt && sta then
    match rtw_iv_to_pn iv encrypt with
    | None => (_SUCCESS, iv_seq)
    | Some (pn, key_id) =>
      let pkt_pn := le_int pn in
      let curr_pn := nth (Z.to_nat key_id) iv_seq 0 in
      if negb (VALID_PN_CHK pkt_pn curr_pn) then (_FAIL, iv_seq)
      else (_SUCCESS, <[Z.to_nat key_id := pkt_pn]> iv_seq)
    end
  else (_SUCCESS, iv_seq).

(** ** Fragments: definitions *)

(** [union recv_frame]: the object from [rx_head] to [rx_end], the offsets
    [rx_data] and [rx_tail], and the attributes that are used. *)
Record frag := Frag {
  fr_id : Z;
  fr_mem : list Z;
  fr_data : Z;
  fr_tail : Z;
  fr_len : Z;
  fr_seq_num : Z;
  fr_frag_num : Z;
  fr_mfrag : bool;
  fr_encrypt : Z;
  fr_hdrlen : Z;
  fr_iv_len : Z;
  fr_icv_len : Z;
  fr_ra : list Z;
  fr_keytrack : Z }.

Definition set_view (f : frag) (m : list Z) (data tail len : Z) : frag :=
  Frag (fr_id f) m data tail len (fr_seq_num f) (fr_frag_num f) (fr_mfrag f) (fr_encrypt f) (fr_hdrlen f) (fr_iv_len f)
       (fr_icv_len f) (fr_ra f) (fr_keytrack f).

Definition set_icv_len (f : frag) (n : Z) : frag :=
  Frag (fr_id f) (fr_mem f) (fr_data f) (fr_tail f) (fr_len f) (fr_seq_num f) (fr_frag_num f) (fr_mfrag f) (fr_encrypt f)
       (fr_hdrlen f) (fr_iv_len f) n (fr_ra f) (fr_keytrack f).

Definition set_keytrack (f : frag) (k : Z) : frag :=
  Frag (fr_id f) (fr_mem f) (fr_data f) (fr_tail f) (fr_len f) (fr_seq_num f) (fr_frag_num f) (fr_mfrag f) (fr_encrypt f)
       (fr_hdrlen f) (fr_iv_len f) (fr_icv_len f) (fr_ra f) k.

(** A pull that would cross the other end changes nothing; nobody looks at
    what they return. *)
Definition recvframe_pull (f : frag) (sz : Z) : frag :=
  if fr_tail f <? fr_data f + sz then f
  else set_view f (fr_mem f) (fr_data f + sz) (fr_tail f) (u32 (fr_len f - sz)).

Definition recvframe_put (f : frag) (sz : Z) : frag :=
  if zlen (fr_mem f) <? fr_tail f + sz then f
  else set_view f (fr_mem f) (fr_data f) (fr_tail f + sz) (u32 (fr_len f + sz)).

Definition recvframe_pull_tail (f : frag) (sz : Z) : frag :=
  if fr_tail f - sz <? fr_data f then f
  else set_view f (fr_mem f) (fr_data f) (fr_tail f - sz) (u32 (fr_len f - sz)).

(** CCMPH_2_PN *)
Definition CCMPH_2_PN (ch : Z) : Z := Z.lor (Z.land ch 0x000000000000ffff) (Z.shiftr (Z.land ch 0xffffffff00000000) 16).

(** The packet number behind the header. *)
Definition frag_pn (f : frag) : outcome Z :=
  b ← rds (fr_mem f) (fr_data f + fr_hdrlen f) 8;
  Ret (CCMPH_2_PN (le_int b)).

(** A turn of the loop of [recvframe_defrag]: [None] when the fragments are
    dropped. *)
Definition defrag_step (curfragnum cur_pn : Z) (p n : frag) : outcome (option (Z * Z * frag)) :=
  pn ← (if ccmp_like (fr_encrypt n) then
          pkt_pn ← frag_pn n;
          Ret (if negb (pkt_pn =? u64 (cur_pn + 1)) then None else Some pkt_pn)
        else Ret (Some cur_pn));
  match pn with
  | None => Ret None
  | Some cur_pn =>
    if negb (fr_keytrack p =? fr_keytrack n) then Ret None
    else if negb (curfragnum =? fr_frag_num n) then Ret None
    else
      let wlanhdr_offset := u8 (fr_hdrlen n + fr_iv_len n) in
      let n := recvframe_pull n wlanhdr_offset in
      if zlen (fr_mem p) - fr_tail p <? fr_len n then Ret None
      else
        let curfragnum := u8 (curfragnum + 1) in
        let p := recvframe_pull_tail p (fr_icv_len p) in
        d ← rds (fr_mem n) (fr_data n) (fr_len n);
        m ← wrs (fr_mem p) (fr_tail p) d;
        let p := recvframe_put (set_view p m (fr_data p) (fr_tail p) (fr_len p)) (fr_len n) in
        Ret (Some (curfragnum, cur_pn, set_icv_len p (fr_icv_len n)))
  end.

Fixpoint defrag_loop (curfragnum cur_pn : Z) (p : frag) (l : list frag) : outcome (option frag) :=
  match l with
  | [] => Ret (Some p)
  | n :: l =>
    r ← defrag_step curfragnum cur_pn p n;
    match r with
    | None => Ret None
    | Some (curfragnum, cur_pn, p) => defrag_loop curfragnum cur_pn p l
    end
  end.

(** The frame, and the frames that are freed; the queue is empty afterwards. *)
Definition recvframe_defrag (q : list frag) : outcome (option frag * list Z) :=
  match q with
  | [] => Fault
  | f :: l =>
    cur_pn ← (if ccmp_like (fr_encrypt f) then frag_pn f else Ret 0);
    if negb (0 =? fr_frag_num f) then Ret (None, map fr_id (f :: l))
    else
      r ← defrag_loop 1 cur_pn f l;
      match r with
      | None => Ret (None, map fr_id (f :: l))
      | Some g => Ret (Some g, map fr_id l)
      end
  end.

Inductive core_rx_state :=
  CORE_RX_CONTINUE | CORE_RX_DONE | CORE_RX_DROP | CORE_RX_FAIL | CORE_RX_GO_SHORTCUT | CORE_RX_DEFRAG.

(** What [recvframe_chk_defrag] leaves behind: its result, [*pprecv_frame] when
    the caller goes on with it, the queue, and the frames that were freed. *)
Record chk_result := Chk { c_ret : core_rx_state; c_frame : option frag; c_q : list frag; c_freed : list Z }.

(** [q] is the queue of the station of the frame with its [keytrack] ([psta],
    or the station for group frames when the frame has no station and is not a
    data frame); nothing when there is none. *)
Definition recvframe_chk_defrag (q : option (list frag * Z)) (f : frag) : outcome chk_result :=
  let ismfrag := fr_mfrag f in
  let fragnum := fr_frag_num f in
  let old := match q with Some (l, _) => l | None => [] end in
  if negb ismfrag && (fragnum =? 0) then Ret (Chk CORE_RX_CONTINUE (Some f) old [])
  else
    (* [ret] after the test of the address; every path below overwrites it *)
    let _ret := if IS_MCAST (fr_ra f) then CORE_RX_DROP else CORE_RX_CONTINUE in
    match q with
    | None => Ret (Chk CORE_RX_DROP (Some f) [] [])
    | Some (l, keytrack) =>
      let f := set_keytrack f keytrack in
      if ismfrag then
        let '(l, freed) := if (fragnum =? 0) && negb (bool_decide (l = [])) then ([], map fr_id l) else (l, []) in
        Ret (Chk CORE_RX_DEFRAG None (l ++ [f]) freed)
      else
        r ← recvframe_defrag (l ++ [f]);
        match r with
        | (Some g, freed) => Ret (Chk CORE_RX_CONTINUE (Some g) [] freed)
        | (None, freed) => Ret (Chk CORE_RX_DROP None [] freed)
        end
    end.

(** ** Packet numbers *)

Lemma u64_diff a b : u64 (a - b) = (a - b) mod 2 ^ 64.
Proof. reflexivity. Qed.

(** The check compares modulo 2^48: a number up to half the space ahead is
    new, everything else is old. *)
Lemma valid_pn_spec new old :
  0 <= new < 2 ^ 48 -> 0 <= old < 2 ^ 48 ->
  VALID_PN_CHK new old = true <-> old = 0 \/ 0 < (new - old) mod 2 ^ 48 <= 2 ^ 47.
Proof.
  intros Hn Ho. unfold VALID_PN_CHK, PN_LESS_CHK. change 0x800000000000 with (Z.shiftl 1 47). rewrite land_shift_bit by lia.
  rewrite orb_true_iff, Z.eqb_eq, Z.testbit_true, u64_diff by lia.
  assert ((old - new) mod 2 ^ 64 / 2 ^ 47 mod 2 = 1 <-> 0 < (new - old) mod 2 ^ 48 <= 2 ^ 47) as ->; [|done].
  change (2 ^ 64) with (2 ^ 48 * 65536). change (2 ^ 48) with (2 * 140737488355328) in *. change (2 ^ 47) with 140737488355328 in *. zlia.
Qed.

(** The numbers stay below half the space: the check is the order. *)
Lemma valid_pn_lt new old : 0 < new < 2 ^ 47 -> 0 <= old < 2 ^ 47 -> VALID_PN_CHK new old = (old <? new).
Proof.
  intros Hn Ho. apply eq_true_iff_eq. rewrite valid_pn_spec, Z.ltb_lt by (change (2 ^ 48) with (2 * 2 ^ 47); lia).
  change (2 ^ 48) with (2 * 140737488355328). change (2 ^ 47) with 140737488355328 in *. zlia.
Qed.

(** A comment of the source says that a legal number is larger than the old
    one. *)
Lemma pn_check_wraps : VALID_PN_CHK (2 ^ 47 + 2) 1 = false /\ VALID_PN_CHK 5 (2 ^ 48 - 1) = true.
Proof. split; reflexivity. Qed.

(** Group frames one after the other, on a station: the numbers that are
    accepted, with the ids of their keys. *)
Fixpoint bcast_run (iv_seq : list Z) (frames : list (Z * list Z)) : list (Z * Z) * list Z :=
  match frames with
  | [] => ([], iv_seq)
  | (encrypt, iv) :: frames =>
    let '(st, iv_seq) := recv_bcast_pn_decache true iv_seq encrypt iv in
    let '(acc, iv_seq) := bcast_run iv_seq frames in
    (if st =? _SUCCESS then (Z.shiftr (nth 3 iv 0) 6, iv_pn iv encrypt) :: acc else acc, iv_seq)
  end.

Lemma bcast_step iv_seq encrypt iv :
  pn_ciphers encrypt = true ->
  recv_bcast_pn_decache true iv_seq encrypt iv =
  let k := Z.to_nat (Z.shiftr (nth 3 iv 0) 6) in
  let pn := iv_pn iv encrypt in
  if VALID_PN_CHK pn (nth k iv_seq 0) then (_SUCCESS, <[k := pn]> iv_seq) else (_FAIL, iv_seq).
Proof.
  intros He. unfold recv_bcast_pn_decache, iv_pn, rtw_iv_to_pn in *. rewrite He. cbn [andb]. unfold pn_ciphers in He.
  destruct (encrypt =? _TKIP_); [cbn zeta; by destruct (VALID_PN_CHK _ _)|]. cbn [orb] in He. rewrite He.
  cbn zeta. by destruct (VALID_PN_CHK _ _).
Qed.

(** C39. Replays of group data frames: on a station (an access point checks
    nothing), for frames under TKIP, CCMP or GCMP whose packet numbers are not
    zero and below half of their space, the numbers accepted under one key
    increase strictly from the one that was kept, whatever other keys are used in
    between.  Number zero is the exception ([zero_pn_replayed]). *)
Theorem bcast_pn_no_replay k iv_seq frames :
  0 <= k < 4 -> length iv_seq = 4%nat -> Forall (fun pn => 0 <= pn < 2 ^ 47) iv_seq ->
  Forall (fun f => pn_ciphers f.1 = true /\ is_u8 (nth 3 f.2 0) /\ 0 < iv_pn f.2 f.1 < 2 ^ 47) frames ->
  StronglySorted Z.lt
    (nth (Z.to_nat k) iv_seq 0 :: map snd (List.filter (fun a => a.1 =? k) (bcast_run iv_seq frames).1)).
Proof.
  intros Hk. revert iv_seq. induction frames as [|[encrypt iv] frames IH]; intros iv_seq Hl Hs Hf; [by repeat constructor|].
  apply Forall_cons_1 in Hf as [(He & Hb & Hp) Hf]. cbn [fst snd] in *. cbn [bcast_run]. rewrite bcast_step by done. cbn zeta.
  set (i := Z.shiftr (nth 3 iv 0) 6). assert (0 <= i < 4) as Hi by (unfold i, is_u8 in *; rewrite Z.shiftr_div_pow2 by lia; change (2 ^ 6) with 64; zlia).
  assert (0 <= nth (Z.to_nat i) iv_seq 0 < 2 ^ 47) as Ho.
  { rewrite nth_lookup. destruct (iv_seq !! Z.to_nat i) eqn:E; [|cbn; lia]. cbn. by eapply (Forall_lookup_1 (fun pn => 0 <= pn < 2 ^ 47)). }
  rewrite valid_pn_lt by done. destruct (Z.ltb_spec (nth (Z.to_nat i) iv_seq 0) (iv_pn iv encrypt)) as [Hlt|Hge].
  - specialize (IH (<[Z.to_nat i := iv_pn iv encrypt]> iv_seq)). destruct (bcast_run _ frames) as [acc s'] eqn:Er. cbn [fst] in *.
    assert (nth (Z.to_nat k) (<[Z.to_nat i:=iv_pn iv encrypt]> iv_seq) 0 = if i =? k then iv_pn iv encrypt else nth (Z.to_nat k) iv_seq 0) as En.
    { rewrite !nth_lookup. destruct (Z.eqb_spec i k) as [->|Hne]; [by rewrite list_lookup_insert_eq by lia|].
      by rewrite list_lookup_insert_ne by lia. }
    rewrite En in IH. specialize (IH ltac:(by rewrite length_insert)). change (_SUCCESS =? _SUCCESS) with true. cbn match. cbn [List.filter fst].
    destruct (Z.eqb_spec i k) as [<-|Hne].
    + cbn [map snd]. assert (StronglySorted Z.lt (iv_pn iv encrypt :: map snd (List.filter (fun a => a.1 =? i) acc))) as Hss.
      { apply IH; [|done]. apply Forall_insert; [done|lia]. }
      constructor; [exact Hss|]. constructor; [done|]. apply StronglySorted_inv in Hss as [_ Hss]. eapply Forall_impl; [|exact Hss].
      intros. cbn in *. lia.
    + apply IH; [|done]. apply Forall_insert; [done|lia].
  - specialize (IH iv_seq Hl Hs Hf). destruct (bcast_run iv_seq frames) as [acc s']. done.
Qed.

Definition sample_iv (k pn : Z) : list Z := [pn; 0; 0; Z.shiftl k 6; 0; 0; 0; 0].

Lemma bcast_pn_no_replay_witness :
  StronglySorted Z.lt (nth 1 [0; 3; 0; 0] 0 :: map snd (List.filter (fun a => a.1 =? 1)
    (bcast_run [0; 3; 0; 0] [(_AES_, sample_iv 1 4); (_AES_, sample_iv 2 1); (_AES_, sample_iv 1 4); (_AES_, sample_iv 1 6)]).1)).
Proof.
  apply (bcast_pn_no_replay 1 [0; 3; 0; 0]
    [(_AES_, sample_iv 1 4); (_AES_, sample_iv 2 1); (_AES_, sample_iv 1 4); (_AES_, sample_iv 1 6)]);
    [lia|reflexivity|repeat constructor; lia|].
  repeat match goal with
         | |- Forall _ [] => constructor
         | |- Forall _ (_ :: _) => constructor; [vm_compute; intuition congruence|]
         end.
Defined.

(** With nothing kept yet the number zero is accepted again and again. *)
Lemma zero_pn_replayed :
  (bcast_run [0; 0; 0; 0] [(_AES_, sample_iv 1 0); (_AES_, sample_iv 1 0); (_AES_, sample_iv 1 0)]).1 = [(1, 0); (1, 0); (1, 0)].
Proof. vm_compute. reflexivity. Qed.

(** The number of a unicast frame is looked at, but whatever it is the frame
    goes on. *)
Lemma ucast_pn_never_refuses c tid encrypt iv : tid <= 15 -> (recv_ucast_pn_decache c tid encrypt iv).1 = _SUCCESS.
Proof.
  intros Ht. unfold recv_ucast_pn_decache. rewrite (proj2 (Z.ltb_ge 15 tid)) by lia. destruct (pn_ciphers encrypt); [|done].
  by destruct (negb _).
Qed.

(** A retransmission right after the frame is dropped, and counted. *)
Lemma retransmission_dropped c tid seq_num frag_num qos mcast :
  0 <= tid <= 15 -> length (tid_rxseq c) = 16%nat -> length (bmc_tid_rxseq c) = 16%nat ->
  let c' := (recv_decache c tid seq_num frag_num qos mcast).2 in
  (recv_decache c' tid seq_num frag_num qos mcast).1 = _FAIL.
Proof.
  intros Ht L1 L2. cbn zeta. unfold recv_decache. rewrite (proj2 (Z.ltb_ge 15 tid)) by lia. set (s := u16 _).
  destruct (Z.eqb_spec s (get_seq c qos mcast tid)) as [E|E]; cbn [snd].
  - assert (forall d, get_seq (RxCache (tid_rxseq c) (bmc_tid_rxseq c) (nonqos_rxseq c) (nonqos_bmc_rxseq c) (rx_iv c) (last_tid c) d) qos mcast tid
      = get_seq c qos mcast tid) as -> by (intros d; by destruct qos, mcast). by rewrite (proj2 (Z.eqb_eq _ _) E).
  - assert (get_seq (set_seq c qos mcast tid s) qos mcast tid = s) as ->; [|by rewrite Z.eqb_refl].
    destruct qos, mcast; cbn [get_seq set_seq tid_rxseq bmc_tid_rxseq nonqos_rxseq nonqos_bmc_rxseq]; try done;
      rewrite nth_lookup, list_lookup_insert_eq by lia; done.
Qed.

(** ** Fragments *)

(** The bytes of a frame, and of a fragment what is behind header and IV. *)
Definition content (f : frag) : list Z := take (Z.to_nat (fr_tail f - fr_data f)) (drop (Z.to_nat (fr_data f)) (fr_mem f)).

(** The pull of a fragment that is shorter than header and IV fails, and the
    whole fragment counts as its body. *)
Definition body (n : frag) : list Z :=
  if fr_hdrlen n + fr_iv_len n <=? zlen (content n) then drop (Z.to_nat (fr_hdrlen n + fr_iv_len n)) (content n)
  else content n.

(** The bytes without the ICV at their end; all of them if they are fewer. *)
Definition trim (icv : Z) (c : list Z) : list Z := if icv <=? zlen c then take (Z.to_nat (zlen c - icv)) c else c.

(** The packet number in the eight bytes behind the header, which may lie
    behind the end of the fragment. *)
Definition pn_of (n : frag) : Z := CCMPH_2_PN (le_int (take 8 (drop (Z.to_nat (fr_data n + fr_hdrlen n)) (fr_mem n)))).

(** The pointers lie in the object and agree with the length. *)
Definition view_ok (f : frag) : Prop :=
  0 <= fr_data f <= fr_tail f /\ fr_tail f <= zlen (fr_mem f) /\ fr_len f = fr_tail f - fr_data f /\ zlen (fr_mem f) < 2 ^ 32.

(** A frame in its memory object.  It need not hold its header, IV and ICV; of
    a frame with packet numbers the memory object has the eight bytes behind the
    header. *)
Definition frag_ok (f : frag) : Prop :=
  view_ok f /\ Forall is_u8 (fr_mem f) /\ 0 <= fr_hdrlen f /\ 0 <= fr_iv_len f /\ 0 <= fr_icv_len f /\
  fr_hdrlen f + fr_iv_len f < 256 /\
  (ccmp_like (fr_encrypt f) = true -> fr_data f + fr_hdrlen f + 8 <= zlen (fr_mem f)) /\ 0 <= fr_frag_num f < 16.

Lemma trim_length icv c : 0 <= icv -> zlen (trim icv c) = if icv <=? zlen c then zlen c - icv else zlen c.
Proof.
  intros Hi. unfold trim. destruct (Z.leb_spec icv (zlen c)); [|done]. unfold zlen in *. rewrite length_take. lia.
Qed.

Lemma view_split f :
  view_ok f -> exists a b, fr_mem f = a ++ content f ++ b /\ fr_data f = zlen a /\ zlen (content f) = fr_len f /\
    fr_tail f = zlen a + zlen (content f).
Proof.
  intros (H1 & H2 & H3 & _). exists (take (Z.to_nat (fr_data f)) (fr_mem f)), (drop (Z.to_nat (fr_tail f)) (fr_mem f)).
  unfold content. unfold zlen in *. split_and!.
  - rewrite <- (take_drop (Z.to_nat (fr_data f)) (fr_mem f)) at 1. f_equal.
    rewrite <- (take_drop (Z.to_nat (fr_tail f - fr_data f)) (drop (Z.to_nat (fr_data f)) (fr_mem f))) at 1. f_equal.
    rewrite drop_drop. f_equal. lia.
  - rewrite length_take. lia.
  - rewrite length_take, length_drop. lia.
  - rewrite !length_take, length_drop. lia.
Qed.

Lemma content_of f a c b : fr_mem f = a ++ c ++ b -> fr_data f = zlen a -> fr_tail f = zlen a + zlen c -> content f = c.
Proof.
  intros E1 E2 E3. unfold content. rewrite E1, E2, E3, to_nat_zlen, drop_app_length.
  replace (Z.to_nat (zlen a + zlen c - zlen a)) with (length c) by (unfold zlen; lia). apply take_app_length.
Qed.

Lemma CCMPH_2_PN_range b : Forall is_u8 b -> (length b <= 8)%nat -> 0 <= CCMPH_2_PN (le_int b) < 2 ^ 48.
Proof.
  intros Hb Hl. unfold CCMPH_2_PN. change (0 <= ?x < 2 ^ 48) with (word 48 x). apply word_lor.
  - apply word_land. unfold word. lia.
  - apply word_shiftr; [lia|lia|]. apply word_land. unfold word. lia.
Qed.

Lemma pn_of_range f : Forall is_u8 (fr_mem f) -> 0 <= pn_of f < 2 ^ 48.
Proof. intros Hu. apply CCMPH_2_PN_range; [|rewrite length_take; lia]. by apply Forall_take, Forall_drop. Qed.

Lemma frag_pn_of f : frag_ok f -> ccmp_like (fr_encrypt f) = true -> frag_pn f = Ret (pn_of f).
Proof.
  intros ((H1 & H2 & _) & _ & Hh & _ & _ & _ & H8 & _) E. specialize (H8 E). unfold frag_pn, pn_of.
  by rewrite rds_spec, bind_Ret by lia.
Qed.

(** The next fragment without header and IV. *)
Lemma pull_body n :
  frag_ok n -> let n' := recvframe_pull n (u8 (fr_hdrlen n + fr_iv_len n)) in
  rds (fr_mem n') (fr_data n') (fr_len n') = Ret (body n) /\ fr_len n' = zlen (body n) /\ fr_icv_len n' = fr_icv_len n.
Proof.
  intros (Hv & Hu & Hh & Hi & Hc & H256 & _). destruct (view_split n Hv) as (a & b & E1 & E2 & E3 & E4). pose proof Hv as (V1 & V2 & V3 & V4).
  unfold body. set (o := fr_hdrlen n + fr_iv_len n) in *. assert (u8 o = o) as -> by (apply u8_small; unfold is_u8; lia). cbn zeta.
  unfold recvframe_pull. destruct (Z.ltb_spec (fr_tail n) (fr_data n + o)) as [Hs|Hs].
  { rewrite (proj2 (Z.leb_gt _ _)) by lia. split_and!; [|lia|done]. rewrite E1. apply rds_at; lia. }
  rewrite (proj2 (Z.leb_le _ _)) by lia. cbn [fr_mem fr_data fr_len fr_icv_len set_view].
  assert (zlen (drop (Z.to_nat o) (content n)) = fr_len n - o) as Lb by (unfold zlen in *; rewrite length_drop; lia).
  rewrite u32_small by (unfold is_u32; lia). split_and!; [|lia|done].
  rewrite E1. rewrite <- (take_drop (Z.to_nat o) (content n)) at 1. rewrite <- app_assoc, (app_assoc a). apply rds_at; [|lia].
  rewrite zlen_app. unfold zlen in *. rewrite length_take. lia.
Qed.

(** The first frame without the ICV at its end. *)
Lemma pull_tail_trim p :
  view_ok p -> 0 <= fr_icv_len p -> let p1 := recvframe_pull_tail p (fr_icv_len p) in
  fr_mem p1 = fr_mem p /\ fr_data p1 = fr_data p /\ fr_tail p1 = fr_data p + zlen (trim (fr_icv_len p) (content p)) /\
  fr_len p1 = zlen (trim (fr_icv_len p) (content p)) /\ fr_id p1 = fr_id p /\ fr_keytrack p1 = fr_keytrack p /\
  exists b, fr_mem p = take (Z.to_nat (fr_data p)) (fr_mem p) ++ trim (fr_icv_len p) (content p) ++ b.
Proof.
  intros Hv Hi. destruct (view_split p Hv) as (a & b & E1 & E2 & E3 & E4). pose proof Hv as (V1 & V2 & V3 & V4).
  assert (take (Z.to_nat (fr_data p)) (fr_mem p) = a) as ->.
  { rewrite E1, E2. unfold zlen. rewrite Nat2Z.id. apply take_app_length. }
  rewrite trim_length by done. unfold trim, recvframe_pull_tail. cbn zeta.
  destruct (Z.ltb_spec (fr_tail p - fr_icv_len p) (fr_data p)) as [Hs|Hs].
  { rewrite (proj2 (Z.leb_gt _ _)) by lia. split_and!; try done; try lia. by exists b. }
  rewrite (proj2 (Z.leb_le _ _)) by lia. cbn [fr_mem fr_data fr_tail fr_len fr_id fr_keytrack set_view].
  rewrite u32_small by (unfold is_u32; lia). split_and!; try done; try lia.
  exists (drop (Z.to_nat (zlen (content p) - fr_icv_len p)) (content p) ++ b).
  rewrite E1 at 1. f_equal. rewrite app_assoc. f_equal. by rewrite take_drop.
Qed.

(** What a turn of the loop makes of the first frame. *)
Definition joins (p n p' : frag) : Prop :=
  view_ok p' /\ content p' = trim (fr_icv_len p) (content p) ++ body n /\
  fr_icv_len p' = fr_icv_len n /\ fr_id p' = fr_id p /\ fr_keytrack p' = fr_keytrack p /\ fr_data p' = fr_data p /\
  zlen (fr_mem p') = zlen (fr_mem p).

Lemma defrag_append p n :
  view_ok p -> 0 <= fr_icv_len p -> frag_ok n ->
  fr_data p + zlen (content p) + zlen (body n) <= zlen (fr_mem p) ->
  let n' := recvframe_pull n (u8 (fr_hdrlen n + fr_iv_len n)) in
  let p1 := recvframe_pull_tail p (fr_icv_len p) in
  exists m, wrs (fr_mem p1) (fr_tail p1) (body n) = Ret m /\
    joins p n (set_icv_len (recvframe_put (set_view p1 m (fr_data p1) (fr_tail p1) (fr_len p1)) (fr_len n')) (fr_icv_len n')).
Proof.
  intros Hv Hi Hn Hfit. destruct (pull_body n Hn) as (_ & Ln & In). cbn zeta in *. rewrite Ln, In. clear Ln In.
  destruct (pull_tail_trim p Hv Hi) as (P1 & P2 & P3 & P4 & P5 & P6 & (b & E1)). cbn zeta in *. pose proof Hv as (V1 & V2 & V3 & V4).
  unfold joins. set (p1 := recvframe_pull_tail p (fr_icv_len p)) in *. set (d := body n) in *.
  set (t := trim (fr_icv_len p) (content p)) in *. set (a := take (Z.to_nat (fr_data p)) (fr_mem p)) in *.
  assert (zlen t <= zlen (content p)) as Lt by (unfold t; rewrite trim_length by done; destruct (Z.leb_spec (fr_icv_len p) (zlen (content p))); lia).
  assert (zlen a = fr_data p) as La by (unfold a, zlen in *; rewrite length_take; lia).
  assert (zlen (fr_mem p) = zlen a + zlen t + zlen b) as Lm by (rewrite E1, !zlen_app; lia).
  pose proof (zlen_nonneg d) as Hd0. pose proof (zlen_nonneg t) as Ht0. set (r := drop (length d) b). exists ((a ++ t) ++ d ++ r).
  split; [rewrite P1, P3, E1, app_assoc; apply wrs_over; [rewrite zlen_app|]; lia|].
  assert (zlen ((a ++ t) ++ d ++ r) = zlen (fr_mem p)) as L'.
  { rewrite !zlen_app. assert (zlen r = zlen b - zlen d) as ->; [|lia]. unfold r, zlen in *. rewrite length_drop. lia. }
  unfold recvframe_put. cbn [fr_mem fr_data fr_tail fr_len set_view set_icv_len]. rewrite L', P2, P3, P4.
  rewrite (proj2 (Z.ltb_ge _ _)) by lia.
  unfold view_ok. cbn [fr_mem fr_data fr_tail fr_len fr_icv_len fr_id fr_keytrack set_view set_icv_len]. rewrite L', P5, P6.
  rewrite u32_small by (unfold is_u32; lia). split_and!; try done; try lia.
  apply (content_of _ a _ r); cbn [fr_mem fr_data fr_tail set_view set_icv_len];
    [by rewrite <- !app_assoc|done|rewrite zlen_app; lia].
Qed.

(** ** What is put together *)

(** What the loop checks of the fragments behind the first one: the packet
    numbers, the keys, the fragment numbers, the room. *)
Fixpoint pn_chain (pn : Z) (l : list frag) : Prop :=
  match l with
  | [] => True
  | n :: l => if ccmp_like (fr_encrypt n) then pn_of n = pn + 1 /\ pn_chain (pn_of n) l else pn_chain pn l
  end.

Fixpoint fits (room len icv : Z) (l : list frag) : Prop :=
  match l with
  | [] => True
  | n :: l =>
    len + zlen (body n) <= room /\
    fits room ((if icv <=? len then len - icv else len) + zlen (body n)) (fr_icv_len n) l
  end.

(** The first content and the bodies, each without the ICV but the last. *)
Fixpoint joined (c : list Z) (icv : Z) (l : list frag) : list Z :=
  match l with
  | [] => c
  | n :: l => joined (trim icv c ++ body n) (fr_icv_len n) l
  end.

Definition first_pn (f : frag) : Z := if ccmp_like (fr_encrypt f) then pn_of f else 0.

Definition acceptable (k pn : Z) (p : frag) (l : list frag) : Prop :=
  map fr_frag_num l = map (fun i => k + Z.of_nat i) (seq 0 (length l)) /\ Forall (fun n => fr_keytrack n = fr_keytrack p) l /\
  pn_chain pn l /\ fits (zlen (fr_mem p) - fr_data p) (zlen (content p)) (fr_icv_len p) l.

Lemma acceptable_cons k pn p n l p' :
  joins p n p' -> 0 <= fr_icv_len p ->
  acceptable k pn p (n :: l) <->
  fr_frag_num n = k /\ fr_keytrack n = fr_keytrack p /\ (ccmp_like (fr_encrypt n) = true -> pn_of n = pn + 1) /\
  fr_data p + zlen (content p) + zlen (body n) <= zlen (fr_mem p) /\
  acceptable (k + 1) (if ccmp_like (fr_encrypt n) then pn_of n else pn) p' l.
Proof.
  intros (_ & Ec & Ei & _ & Ek & Ed & Em) Hi. unfold acceptable. cbn [map length pn_chain fits].
  rewrite <- trim_length, <- (zlen_app (trim _ _)), <- Ec by done.
  rewrite Ei, Ek, Ed, Em. rewrite <- cons_seq, <- seq_shift. cbn [map]. rewrite map_map.
  assert (map (fun x => k + Z.of_nat (S x)) (seq 0 (length l)) = map (fun i => k + 1 + Z.of_nat i) (seq 0 (length l))) as ->
    by (apply map_ext; lia).
  split.
  - intros ([= -> H1] & H2 & H3 & H4 & H5). apply Forall_cons_1 in H2 as [H2 H2'].
    destruct (ccmp_like (fr_encrypt n)); split_and!; try tauto; try lia; by destruct H3.
  - intros (-> & H2 & H3 & H4 & H5 & H6 & H7 & H8). rewrite Z.add_0_r. split_and!.
    + by rewrite H5.
    + by constructor.
    + destruct (ccmp_like (fr_encrypt n)); [split; [by apply H3|done]|done].
    + lia.
    + done.
Qed.

(** The conditions on the next fragment. *)
Definition head_ok (k pn : Z) (p n : frag) : Prop :=
  fr_frag_num n = k /\ fr_keytrack n = fr_keytrack p /\ (ccmp_like (fr_encrypt n) = true -> pn_of n = pn + 1) /\
  fr_data p + zlen (content p) + zlen (body n) <= zlen (fr_mem p).

Lemma acceptable_head k pn p n l : acceptable k pn p (n :: l) -> head_ok k pn p n.
Proof.
  unfold acceptable, head_ok. cbn [map length pn_chain fits seq]. intros ([= H1 _] & H2 & H3 & H4 & _).
  apply Forall_cons_1 in H2 as [H2 _]. split_and!; [lia|done| |lia]. intros E. rewrite E in H3. tauto.
Qed.

Lemma defrag_step_spec k pn p n :
  view_ok p -> 0 <= fr_icv_len p -> frag_ok n -> 0 <= pn < 2 ^ 48 -> 0 <= k ->
  head_ok k pn p n /\ (exists p', defrag_step k pn p n =
      Ret (Some (k + 1, if ccmp_like (fr_encrypt n) then pn_of n else pn, p')) /\ joins p n p') \/
  ~ head_ok k pn p n /\ defrag_step k pn p n = Ret None.
Proof.
  intros Hv Hi Hn Hpn Hk. unfold defrag_step. pose proof (frag_pn_of n Hn) as Ep. pose proof Hn as (_ & _ & _ & _ & _ & _ & _ & Hf).
  destruct (pull_body n Hn) as (Eb & El & _). cbn zeta in Eb, El. cbn zeta. rewrite Eb, El.
  assert (u64 (pn + 1) = pn + 1) as -> by (unfold u64; apply Z.mod_small; change (2 ^ 64) with (2 ^ 48 * 65536); lia).
  assert (exists o, (if ccmp_like (fr_encrypt n) then frag_pn n ≫= fun pkt_pn => Ret (if negb (pkt_pn =? pn + 1) then None else Some pkt_pn)
                     else Ret (Some pn)) = Ret o /\
    match o with
    | Some v => v = (if ccmp_like (fr_encrypt n) then pn_of n else pn) /\ (ccmp_like (fr_encrypt n) = true -> pn_of n = pn + 1)
    | None => ccmp_like (fr_encrypt n) = true /\ pn_of n <> pn + 1
    end) as (o & -> & Ho).
  { destruct (ccmp_like (fr_encrypt n)); [rewrite (Ep eq_refl), bind_Ret|by eexists]. eexists. split; [done|].
    destruct (Z.eqb_spec (pn_of n) (pn + 1)); cbn [negb]; done. }
  rewrite bind_Ret. unfold head_ok. destruct o as [v|]; [|right; split; [tauto|done]]. destruct Ho as [-> Hc].
  destruct (Z.eqb_spec (fr_keytrack p) (fr_keytrack n)) as [Hkt|Hkt]; cbn [negb]; [|right; split; [intros (_ & H & _); congruence|done]].
  destruct (Z.eqb_spec k (fr_frag_num n)) as [Hfn|Hfn]; cbn [negb]; [|right; split; [intros (H & _); congruence|done]].
  destruct (view_split p Hv) as (a & b & _ & E2 & E3 & E4).
  destruct (Z.ltb_spec (zlen (fr_mem p) - fr_tail p) (zlen (body n))) as [Hr|Hr]; [right; split; [intros (_ & _ & _ & H); lia|done]|].
  left. split; [split_and!; try done; lia|]. destruct (defrag_append p n Hv Hi Hn ltac:(lia)) as (m & Ew & Hj). cbn zeta in Ew, Hj. rewrite El in Hj.
  rewrite bind_Ret, Ew, bind_Ret. rewrite u8_small by (unfold is_u8; lia). eexists. split; [done|exact Hj].
Qed.

Lemma defrag_loop_spec l : forall k pn p,
  view_ok p -> 0 <= fr_icv_len p -> Forall frag_ok l -> 0 <= pn < 2 ^ 48 -> 0 <= k ->
  acceptable k pn p l /\ (exists g, defrag_loop k pn p l = Ret (Some g) /\ content g = joined (content p) (fr_icv_len p) l /\ fr_id g = fr_id p) \/
  ~ acceptable k pn p l /\ defrag_loop k pn p l = Ret None.
Proof.
  induction l as [|n l IH]; intros k pn p Hv Hi Hl Hpn Hk.
  { left. split; [by split_and!|by exists p]. }
  apply Forall_cons_1 in Hl as [Hn Hl]. cbn [defrag_loop joined]. pose proof (pn_of_range n (proj1 (proj2 Hn))) as Rp.
  destruct (defrag_step_spec k pn p n Hv Hi Hn Hpn Hk) as [[Hh (p' & -> & Hj)]|[Hh ->]]; rewrite bind_Ret.
  2: { right. split; [|done]. intros H%acceptable_head. done. }
  pose proof Hj as (Hv' & Ec & Ei & Eid & _). pose proof Hn as (_ & _ & _ & _ & Hicv & _).
  destruct (IH (k + 1) (if ccmp_like (fr_encrypt n) then pn_of n else pn) p') as [[Ha (g & -> & Eg & Hg)]|[Ha ->]];
    [done|by rewrite Ei|done|destruct (ccmp_like _); lia|lia| |].
  - left. split; [apply (acceptable_cons k pn p n l p' Hj Hi); destruct Hh as (H1 & H2 & H3 & H4); by split_and!|].
    exists g. split_and!; [done|by rewrite Eg, Ec, Ei|by rewrite Hg].
  - right. split; [|done]. intros H%(acceptable_cons k pn p n l p' Hj Hi). tauto.
Qed.

Lemma defrag_result f l :
  Forall frag_ok (f :: l) ->
  let good := fr_frag_num f = 0 /\ acceptable 1 (first_pn f) f l in
  good /\ (exists g, recvframe_defrag (f :: l) = Ret (Some g, map fr_id l) /\ fr_id g = fr_id f /\
            content g = joined (content f) (fr_icv_len f) l) \/
  ~ good /\ recvframe_defrag (f :: l) = Ret (None, map fr_id (f :: l)).
Proof.
  intros [Hf Hl]%Forall_cons_1 good. unfold recvframe_defrag. pose proof (frag_pn_of f Hf) as Ep. pose proof (pn_of_range f (proj1 (proj2 Hf))) as Rp.
  assert ((if ccmp_like (fr_encrypt f) then frag_pn f else Ret 0) = Ret (first_pn f)) as ->.
  { unfold first_pn. destruct (ccmp_like (fr_encrypt f)); [by apply Ep|done]. }
  rewrite bind_Ret. destruct (Z.eqb_spec 0 (fr_frag_num f)) as [H0|H0]; cbn [negb]; [|right; split; [intros [H _]; congruence|done]].
  pose proof Hf as (Hv & _ & Hh & Hiv & Hi & _).
  destruct (defrag_loop_spec l 1 (first_pn f) f) as [[Ha (g & -> & Eg & Hg)]|[Ha ->]];
    [done|lia|done|unfold first_pn; destruct (ccmp_like _); lia|lia| |]; rewrite bind_Ret.
  - left. split; [by split|]. by exists g.
  - right. split; [|done]. unfold good. tauto.
Qed.


(** Two fragments in clear, and two with packet numbers 7 and 8. *)
Definition sample_frag (k : Z) (more : bool) (seq encrypt pn : Z) (pay : list Z) : frag :=
  let m := repeat 0x08 24 ++ [pn; 0; 0; 0x20; 0; 0; 0; 0] ++ pay ++ repeat 0xee 8 in
  Frag (10 + k) (m ++ repeat 0 40) 0 (zlen m) (zlen m) seq k more encrypt 24 8 8 [2; 0; 0; 0; 0; 1] 5.

Lemma sample_frag_ok k more seq encrypt pn pay :
  0 <= k < 16 -> is_u8 pn -> Forall is_u8 pay -> zlen pay < 1000 -> frag_ok (sample_frag k more seq encrypt pn pay).
Proof.
  intros Hk Hp Hu Hl. pose proof (zlen_nonneg pay) as Hz. unfold frag_ok, view_ok, sample_frag.
  cbn [fr_mem fr_data fr_tail fr_len fr_hdrlen fr_iv_len fr_icv_len fr_frag_num].
  assert (zlen (repeat 8 24 ++ [pn; 0; 0; 32; 0; 0; 0; 0] ++ pay ++ repeat 238 8) = 40 + zlen pay) as Lm.
  { rewrite !zlen_app. change (zlen (repeat 8 24)) with 24. change (zlen [pn; 0; 0; 32; 0; 0; 0; 0]) with 8. change (zlen (repeat 238 8)) with 8. lia. }
  rewrite !(zlen_app (repeat 8 24 ++ _)), Lm. change (zlen (repeat 0 40)) with 40. split_and!; try lia.
  repeat (apply Forall_app_2); try (by apply bytes_ok); [|done]. constructor; [done|by apply bytes_ok].
Qed.


Lemma defrag_example :
  (recvframe_defrag [sample_frag 0 true 3 _AES_ 7 [1; 2]; sample_frag 1 false 3 _AES_ 8 [3; 4; 5]] ≫= fun r =>
   match r with (Some g, freed) => Ret (drop 32 (content g), freed) | (None, freed) => Ret ([], freed) end) =
  Ret ([1; 2; 3; 4; 5] ++ repeat 0xee 8, [11]).
Proof. vm_compute. reflexivity. Qed.

(** ** What the code lets through *)

(** The result for a frame: [true] when it goes on. *)
Definition goes_on (r : outcome chk_result) : bool :=
  match r with Ret (Chk CORE_RX_CONTINUE (Some _) _ _) => true | _ => false end.

(** A fragment, then the last one, through [recvframe_chk_defrag]. *)
Definition two_fragments (f g : frag) : bool :=
  goes_on (r ← recvframe_chk_defrag (Some ([], 5)) f; recvframe_chk_defrag (Some (c_q r, 5)) g).

Definition to_group (f : frag) : frag :=
  Frag (fr_id f) (fr_mem f) (fr_data f) (fr_tail f) (fr_len f) (fr_seq_num f) (fr_frag_num f) (fr_mfrag f) (fr_encrypt f)
       (fr_hdrlen f) (fr_iv_len f) (fr_icv_len f) [0xff; 0xff; 0xff; 0xff; 0xff; 0xff] (fr_keytrack f).

(** Fragments to a group address are to be dropped, and are put together. *)
Lemma group_fragments_accepted :
  two_fragments (to_group (sample_frag 0 true 3 _AES_ 7 [1; 2])) (to_group (sample_frag 1 false 3 _AES_ 8 [3])) = true.
Proof. vm_compute. reflexivity. Qed.

(** An encrypted fragment and one in clear make one frame here; on a protected
    link [validate_recv_data_frame] refuses the second one before. *)
Lemma mixed_fragments_accepted :
  two_fragments (sample_frag 0 true 3 _AES_ 7 [1; 2]) (sample_frag 1 false 3 0 0 [3]) = true.
Proof. vm_compute. reflexivity. Qed.

(** A fragment that ends two bytes behind its header is appended with its
    header, under a packet number from behind its end. *)
Definition short_frag : frag :=
  Frag 11 (repeat 0x18 24 ++ [8; 0; 0; 0x20; 0; 0; 0; 0] ++ repeat 0 40) 0 26 26 3 1 false _AES_ 24 8 8 [2; 0; 0; 0; 0; 1] 5.

Lemma short_fragment_appended :
  exists g, recvframe_defrag [sample_frag 0 true 3 _AES_ 7 [1; 2]; short_frag] = Ret (Some g, [11]) /\
    drop 32 (content g) = [1; 2] ++ repeat 0x18 24 ++ [8; 0].
Proof. eexists. split; vm_compute; reflexivity. Qed.

(** Fragments of different MSDUs make one frame: the sequence number is not
    compared, and without packet numbers nothing else tells them apart. *)
Lemma sequence_numbers_ignored :
  two_fragments (sample_frag 0 true 3 _TKIP_ 7 [1; 2]) (sample_frag 1 false 900 _TKIP_ 8 [3]) = true.
Proof. vm_compute. reflexivity. Qed.

(** Every frame is passed on, queued or freed. *)
Lemma chk_defrag_conserves q k f r :
  Forall frag_ok (q ++ [f]) -> recvframe_chk_defrag (Some (q, k)) f = Ret r ->
  Permutation (map fr_id (q ++ [f])) (map fr_id (from_option (fun g => [g]) [] (c_frame r)) ++ map fr_id (c_q r) ++ c_freed r).
Proof.
  intros Hq. unfold recvframe_chk_defrag. destruct (negb (fr_mfrag f) && (fr_frag_num f =? 0)).
  { intros [= <-]. cbn [c_frame c_q c_freed from_option map]. rewrite app_nil_r, map_app. cbn. symmetry. apply Permutation_cons_append. }
  destruct (fr_mfrag f).
  - destruct ((fr_frag_num f =? 0) && negb (bool_decide (q = []))); intros [= <-]; cbn [c_frame c_q c_freed from_option map app];
      rewrite ?map_app; cbn [map]; [|by rewrite app_nil_r]. symmetry. apply Permutation_cons_append.
  - assert (map fr_id (q ++ [f]) = map fr_id (q ++ [set_keytrack f k])) as -> by by rewrite !map_app.
    assert (Forall frag_ok (q ++ [set_keytrack f k])) as Hq'.
    { apply Forall_app in Hq as [H1 H2]. apply Forall_app_2; [done|]. apply Forall_cons_1 in H2 as [H2 _]. by constructor. }
    destruct (q ++ [set_keytrack f k]) as [|f0 l] eqn:E; [by destruct q|].
    destruct (defrag_result f0 l Hq') as [[_ (g & -> & Hg & _)]|[_ ->]]; rewrite bind_Ret; intros [= <-];
      cbn [c_frame c_q c_freed from_option map app]; [by rewrite Hg|done].
Qed.
