(* ===== verification/RxCheck.v ===== *)
(** * The look at packets for the stack

    [rtw_recv_indicatepkt_check] (src/core/rtw_recv.c) looks into each Ethernet
    frame before it is handed to the stack: [rtw_st_ctl_rx] and its helpers
    (src/core/rtw_sta_mgt.c) track the TCP sessions of Wi-Fi Display,
    [parsing_eapol_packet] (src/core/rtw_wlan_util.c) follows the key handshake
    and [rtw_sink_rtp_seq_dbg] (src/core/rtw_debug.c) follows RTP.  None of them
    is told how long the frame is. *)
From Stdlib Require Import ZArith Lia Bool List.
From stdpp Require Import base tactics list numbers.
From S2P Require Import Prelude ByteBuf SecCrypto SecFrame.

(** ** Definitions *)

Definition ETH_P_IP : Z := 0x0800.
Definition WPA_KEY_INFO_KEY_TYPE : Z := BIT 3.
Definition WPA_KEY_INFO_ACK : Z := BIT 7.
Definition WPA_KEY_INFO_MIC : Z := BIT 8.

Inductive eap_type :=
  EAP_PACKET | NON_EAPOL | EAPOL_START | EAPOL_LOGOFF | EAPOL_KEY | EAPOL_ENCAP_ASF_ALERT | EAPOL_PACKET |
  EAPOL_WPA_GROUP_KEY_1_2 | EAPOL_WPA_GROUP_KEY_2_2 | EAPOL_1_4 | EAPOL_2_4 | EAPOL_3_4 | EAPOL_4_4.

(** What the look changes elsewhere: commands to the session tracker, the bit
    [WIFI_UNDER_KEY_HANDSHAKE] of the station, [resp_nonenc_eapol_key_starttime]
    and the RTP numbers of [struct recv_info]. *)
Inductive rx_event :=
  | session_tracker_add_cmd (local_naddr local_port remote_naddr remote_port : list Z)
  | session_tracker_del_cmd (local_naddr local_port remote_naddr remote_port : list Z)
  | KeyHandshakeDone
  | PlainEapolKey
  | RtpSeq (cur_rtp_rxseq : Z).

(** What is looked up: whether the frame has a station, the ports of
    [wfd_st_match_rule] when it is registered at the station (the only rule
    there is), whether [ndisauthtype] is WPAPSK, and [sink_udpport]. *)
Record rx_context := RxContext {
  cx_psta : bool;
  cx_wfd : option (Z * Z * Z);
  cx_wpapsk : bool;
  cx_sink_udpport : Z }.

Section Check.
Context (cx : rx_context).

Definition rtw_st_ctl_chk_reg_s_proto : bool := match cx_wfd cx with Some _ => true | None => false end.

(** [wfd_st_match_rule]; both ports lie in the TCP header at [tcp]. *)
Definition rtw_st_ctl_chk_reg_rule (m : list Z) (local_port remote_port : Z) : outcome bool :=
  match cx_wfd cx with
  | None => Ret false
  | Some (rtsp_ctrlport, tdls_rtsp_ctrlport, peer_rtsp_ctrlport) =>
    l ← RTW_GET_BE16 m local_port;
    if (l =? rtsp_ctrlport) || (l =? tdls_rtsp_ctrlport) then Ret true
    else r ← RTW_GET_BE16 m remote_port; Ret (r =? peer_rtsp_ctrlport)
  end.

Definition rtw_st_ctl_rx (m : list Z) (ehdr_pos : Z) : outcome (list rx_event) :=
  h_proto ← RTW_GET_BE16 m (ehdr_pos + 12);
  if negb (h_proto =? ETH_P_IP) then Ret []
  else
    let ip := ehdr_pos + 14 in
    proto ← rd m (ip + 9);
    if negb ((proto =? 0x06) && rtw_st_ctl_chk_reg_s_proto) then Ret []
    else
      b ← rd m ip;
      let tcp := ip + Z.land b 15 * 4 in
      hit ← rtw_st_ctl_chk_reg_rule m (tcp + 2) tcp;
      if negb hit then Ret []
      else
        flags ← rd m (tcp + 13);
        la ← rds m (ip + 16) 4; lp ← rds m (tcp + 2) 2; ra ← rds m (ip + 12) 4; rp ← rds m tcp 2;
        Ret ((if Z.testbit flags 1 && Z.testbit flags 4 then [session_tracker_add_cmd la lp ra rp] else []) ++
             (if Z.testbit flags 0 then [session_tracker_del_cmd la lp ra rp] else [])).

Definition parsing_eapol_packet (m : list Z) (key_payload : Z) : outcome (eap_type * list rx_event) :=
  type ← rd m (key_payload + 1);
  start ← (if type =? 1 then n ← rds m (key_payload + 2) 2; Ret (bool_decide (n = [0; 0])) else Ret false);
  if start : bool then Ret (EAPOL_START, [])
  else if type =? 0 then Ret (EAPOL_PACKET, [])
  else
    let key := key_payload + 4 in
    key_info ← RTW_GET_BE16 m (key + 1);
    key_data_length ← RTW_GET_BE16 m (key + 93);
    if Z.land key_info WPA_KEY_INFO_KEY_TYPE =? 0 then
      if negb (Z.land key_info WPA_KEY_INFO_ACK =? 0) then Ret (EAPOL_WPA_GROUP_KEY_1_2, [])
      else if cx_wpapsk cx then
        if cx_psta cx then Ret (EAPOL_WPA_GROUP_KEY_2_2, [KeyHandshakeDone]) else Fault
      else Ret (EAPOL_WPA_GROUP_KEY_2_2, [])
    else if negb (Z.land key_info WPA_KEY_INFO_MIC =? 0) then
      Ret (if key_data_length =? 0 then EAPOL_4_4
           else if negb (Z.land key_info WPA_KEY_INFO_ACK =? 0) then EAPOL_3_4 else EAPOL_2_4, [])
    else Ret (EAPOL_1_4, []).

(** [pre_rtp_rxseq] is the number before. *)
Definition rtw_sink_rtp_seq_dbg (m : list Z) (ehdr_pos : Z) : outcome (list rx_event) :=
  if 0 <? cx_sink_udpport cx then
    port ← RTW_GET_BE16 m (ehdr_pos + 0x24);
    if port =? u16 (cx_sink_udpport cx) then v ← RTW_GET_BE16 m (ehdr_pos + 0x2C); Ret [RtpSeq v] else Ret []
  else Ret [].

(** [encrypt] is that of the received frame; the Ethernet frame lies at
    [ehdr_pos] of [m]. *)
Definition rtw_recv_indicatepkt_check (encrypt : Z) (m : list Z) (ehdr_pos : Z) : outcome (Z * list rx_event) :=
  ev1 ← (if cx_psta cx then rtw_st_ctl_rx m ehdr_pos else Ret []);
  h_proto ← RTW_GET_BE16 m (ehdr_pos + 12);
  ev2 ← (if h_proto =? 0x888e then
           r ← parsing_eapol_packet m (ehdr_pos + 14);
           match r.1 with
           | EAPOL_1_4 | EAPOL_3_4 =>
             if encrypt =? 0 then if cx_psta cx then Ret (r.2 ++ [PlainEapolKey]) else Fault else Ret r.2
           | _ => Ret r.2
           end
         else Ret []);
  ev3 ← (if 0 <? cx_sink_udpport cx then rtw_sink_rtp_seq_dbg m ehdr_pos else Ret []);
  Ret (_SUCCESS, ev1 ++ ev2 ++ ev3).

(** ** What is read *)

(** The frame [e] holds what is looked at: the protocol byte of an IPv4 header,
    a whole IPv4 and TCP header when the session is tracked, the type of an EAPOL
    packet, the length of an EAPOL start, the fixed part of an EAPOL key. *)
Definition check_room (e : list Z) : bool :=
  let proto := nth 12 e 0 * 256 + nth 13 e 0 in
  let n := zlen e - 14 in
  (0 <=? n) &&
  (if proto =? 0x888e then
     (2 <=? n) &&
     (if nth 15 e 0 =? 0 then true
      else if nth 15 e 0 =? 1 then (4 <=? n) && (((nth 16 e 0 =? 0) && (nth 17 e 0 =? 0)) || (99 <=? n))
      else 99 <=? n)
   else if proto =? ETH_P_IP then
     (10 <=? n) &&
     (negb (nth 23 e 0 =? 6) || negb rtw_st_ctl_chk_reg_s_proto ||
      ((20 <=? n) && (Z.land (nth 14 e 0) 15 * 4 + 14 <=? n)))
   else true) &&
  ((cx_sink_udpport cx <=? 0) || (32 <=? n)).

(** What the look does to the frame [e] alone. *)
Definition check_events (encrypt : Z) (e : list Z) : list rx_event :=
  match rtw_recv_indicatepkt_check encrypt e 0 with Ret (_, ev) => ev | _ => [] end.

(** *** Reads are local: what is read inside [e] is read in any memory around it *)

Section Local.
Context (a e b : list Z).
Let m := a ++ e ++ b.

Lemma rd_local o v : 0 <= o -> rd e o = Ret v -> rd m (zlen a + o) = Ret v.
Proof.
  intros Ho. unfold m. rewrite rd_shift by done. unfold rd. rewrite (proj2 (Z.leb_le 0 o)) by done.
  destruct (e !! Z.to_nat o) as [x|] eqn:E; [|done]. intros [= <-]. by rewrite (lookup_app_l_Some _ _ _ _ E).
Qed.

Lemma be16_local o v : 0 <= o -> RTW_GET_BE16 e o = Ret v -> RTW_GET_BE16 m (zlen a + o) = Ret v.
Proof.
  intros Ho. unfold RTW_GET_BE16. destruct (rd e o) as [x| |] eqn:E1; [|done|done]. rewrite bind_Ret.
  destruct (rd e (o + 1)) as [y| |] eqn:E2; [|done|done]. rewrite (rd_local o x) by done.
  rewrite <- Z.add_assoc, (rd_local (o + 1) y) by (done || lia). by rewrite !bind_Ret.
Qed.

Lemma rds_local o n v : 0 <= o -> rds e o n = Ret v -> rds m (zlen a + o) n = Ret v.
Proof.
  intros Ho. unfold rds. destruct ((0 <=? o) && (0 <=? n) && (o + n <=? zlen e)) eqn:E; [|done]. intros [= <-].
  apply andb_true_iff in E as [E1 E3]. apply andb_true_iff in E1 as [E1 E2]. apply Z.leb_le in E1, E2, E3.
  pose proof (zlen_nonneg a). pose proof (zlen_nonneg b). unfold m. rewrite !zlen_app, !(proj2 (Z.leb_le _ _)) by lia.
  cbn [andb]. f_equal. replace (Z.to_nat (zlen a + o)) with (length a + Z.to_nat o)%nat by (unfold zlen; lia).
  rewrite drop_app_add' by done. rewrite drop_app_le by (unfold zlen in *; lia). rewrite take_app_le; [done|].
  rewrite length_drop. unfold zlen in *. lia.
Qed.

(** One read of the hypothesis, done in the larger memory. *)
Ltac local_at E v :=
  match type of E with
  | rd _ _ = _ => apply rd_local in E; [|lia];
      match goal with |- context [rd m ?q] => replace (rd m q) with (Ret v) by (rewrite <- E; f_equal; lia) end
  | RTW_GET_BE16 _ _ = _ => apply be16_local in E; [|lia];
      match goal with |- context [RTW_GET_BE16 m ?q] => replace (RTW_GET_BE16 m q) with (Ret v) by (rewrite <- E; f_equal; lia) end
  | rds _ _ _ = _ => apply rds_local in E; [|lia];
      match goal with |- context [rds m ?q ?n] => replace (rds m q n) with (Ret v) by (rewrite <- E; f_equal; lia) end
  end; rewrite bind_Ret; clear E.

Ltac local H :=
  let v := fresh "v" in let E := fresh "E" in apply bind_Ret_inv in H as (v & E & H); local_at E v.

Lemma rule_local lp rp v :
  0 <= lp -> 0 <= rp -> rtw_st_ctl_chk_reg_rule e lp rp = Ret v ->
  rtw_st_ctl_chk_reg_rule m (zlen a + lp) (zlen a + rp) = Ret v.
Proof.
  intros Hl Hr. unfold rtw_st_ctl_chk_reg_rule. destruct (cx_wfd cx) as [[[p1 p2] p3]|]; [|done]. intros H. local H.
  destruct (_ || _); [done|]. by local H.
Qed.

Lemma st_ctl_rx_local v : rtw_st_ctl_rx e 0 = Ret v -> rtw_st_ctl_rx m (zlen a) = Ret v.
Proof.
  unfold rtw_st_ctl_rx. intros H. local H. destruct (negb _); [done|]. local H. destruct (negb _); [done|].
  local H. assert (0 <= Z.land v2 15) as Hx by (apply Z.land_nonneg; lia).
  apply bind_Ret_inv in H as (hit & E & H). apply rule_local in E; [|lia|lia].
  rewrite !Z.add_0_l in *. rewrite ?Z.add_assoc in E. rewrite E, bind_Ret. clear E. destruct hit; cbn [negb] in *; [|done].
  local H. local H. local H. local H. by local H.
Qed.

Lemma eapol_local p v : 0 <= p -> parsing_eapol_packet e p = Ret v -> parsing_eapol_packet m (zlen a + p) = Ret v.
Proof.
  intros Hp. unfold parsing_eapol_packet. intros H. local H. apply bind_Ret_inv in H as (st & E & H).
  assert ((if v0 =? 1 then n ← rds m (zlen a + p + 2) 2; Ret (bool_decide (n = [0; 0])) else Ret false) = Ret st) as ->.
  { destruct (v0 =? 1); [|done]. by local E. }
  rewrite bind_Ret. destruct st; [done|]. destruct (v0 =? 0); [done|]. local H. by local H.
Qed.

Lemma rtp_local v : rtw_sink_rtp_seq_dbg e 0 = Ret v -> rtw_sink_rtp_seq_dbg m (zlen a) = Ret v.
Proof.
  unfold rtw_sink_rtp_seq_dbg. destruct (0 <? _); [|done]. intros H. local H. destruct (_ =? _); [|done]. by local H.
Qed.

Lemma check_local encrypt v :
  rtw_recv_indicatepkt_check encrypt e 0 = Ret v -> rtw_recv_indicatepkt_check encrypt m (zlen a) = Ret v.
Proof.
  unfold rtw_recv_indicatepkt_check. intros H. apply bind_Ret_inv in H as (ev1 & E1 & H).
  assert ((if cx_psta cx then rtw_st_ctl_rx m (zlen a) else Ret []) = Ret ev1) as ->
    by (destruct (cx_psta cx); [by apply st_ctl_rx_local|done]).
  rewrite bind_Ret. local H. apply bind_Ret_inv in H as (ev2 & E2 & H). set (k := fun r : eap_type * list rx_event => _) in E2.
  fold k. assert ((if v0 =? 0x888e then parsing_eapol_packet m (zlen a + 14) ≫= k else Ret []) = Ret ev2) as ->.
  { destruct (v0 =? 0x888e); [|done]. apply bind_Ret_inv in E2 as (r & E & E2). apply (eapol_local 14) in E; [|lia]. by rewrite E, bind_Ret. }
  rewrite bind_Ret. apply bind_Ret_inv in H as (ev3 & E3 & H).
  assert ((if 0 <? cx_sink_udpport cx then rtw_sink_rtp_seq_dbg m (zlen a) else Ret []) = Ret ev3) as ->
    by (destruct (0 <? _); [by apply rtp_local|done]).
  by rewrite bind_Ret.
Qed.
End Local.

(** *** Where nothing is read outside *)

Lemma be16_nth e o :
  Forall is_u8 e -> 0 <= o -> o + 2 <= zlen e ->
  RTW_GET_BE16 e o = Ret (nth (Z.to_nat o) e 0 * 256 + nth (Z.to_nat (o + 1)) e 0).
Proof.
  intros Hu Ho Hl. unfold RTW_GET_BE16. pose proof (rd_nth e o ltac:(lia)) as E1. pose proof (rd_nth e (o + 1) ltac:(lia)) as E2.
  pose proof (rd_u8 _ _ _ Hu E1) as U1. pose proof (rd_u8 _ _ _ Hu E2) as U2. rewrite E1, E2, !bind_Ret, lor_shift8 by done.
  unfold is_u8, u16 in *. f_equal. rewrite Z.mod_small by lia. lia.
Qed.

Lemma st_ctl_rx_ok e :
  Forall is_u8 e -> check_room e = true -> exists ev, rtw_st_ctl_rx e 0 = Ret ev.
Proof.
  intros Hu Hr. unfold check_room in Hr. cbv zeta in Hr. apply andb_true_iff in Hr as [Hr _]. apply andb_true_iff in Hr as [H0 Hr]. apply Z.leb_le in H0.
  unfold rtw_st_ctl_rx. rewrite be16_nth, bind_Ret by (done || lia). change (Z.to_nat (0 + 12)) with 12%nat. change (Z.to_nat (0 + 12 + 1)) with 13%nat.
  change (0 + 14) with 14. destruct (Z.eqb_spec (nth 12 e 0 * 256 + nth 13 e 0) ETH_P_IP) as [E|]; cbn [negb]; [|by eexists]. rewrite E in Hr. change (ETH_P_IP =? 0x888e) with false in Hr. cbn match in Hr.
  change (ETH_P_IP =? ETH_P_IP) with true in Hr. cbn match in Hr. apply andb_true_iff in Hr as [H10 Hr]. apply Z.leb_le in H10.
  rewrite (rd_nth e (14 + 9)), bind_Ret by lia. change (Z.to_nat (14 + 9)) with 23%nat.
  destruct (nth 23 e 0 =? 6); cbn [andb negb orb] in *; [|by eexists].
  destruct rtw_st_ctl_chk_reg_s_proto; cbn [negb orb] in *; [|by eexists]. apply andb_true_iff in Hr as [H20 Ht]. apply Z.leb_le in H20, Ht.
  rewrite (rd_nth e 14), bind_Ret by lia. change (Z.to_nat 14) with 14%nat. set (ihl := Z.land (nth 14 e 0) 15) in *.
  assert (0 <= ihl) as Hi by (apply Z.land_nonneg; lia).
  assert (exists h, rtw_st_ctl_chk_reg_rule e (14 + ihl * 4 + 2) (14 + ihl * 4) = Ret h) as (h & ->).
  { unfold rtw_st_ctl_chk_reg_rule. destruct (cx_wfd cx) as [[[p1 p2] p3]|]; [|by eexists].
    rewrite !be16_nth, !bind_Ret by (done || lia). destruct (_ || _); by eexists. }
  rewrite bind_Ret. destruct h; [|by eexists]. cbn [negb]. rewrite rd_nth by lia. rewrite !rds_spec by lia. rewrite !bind_Ret. by eexists.
Qed.

Lemma eapol_ok e :
  Forall is_u8 e -> cx_psta cx = true -> check_room e = true -> nth 12 e 0 * 256 + nth 13 e 0 = 0x888e ->
  exists r, parsing_eapol_packet e 14 = Ret r.
Proof.
  intros Hu Hp Hr Hproto. unfold check_room in Hr. apply andb_true_iff in Hr as [Hr _]. apply andb_true_iff in Hr as [H0 Hr].
  rewrite Hproto, Z.eqb_refl in Hr. apply andb_true_iff in Hr as [H2 Hr]. apply Z.leb_le in H0, H2.
  unfold parsing_eapol_packet. rewrite rd_nth, bind_Ret by lia. change (Z.to_nat (14 + 1)) with 15%nat.
  assert (99 <= zlen e - 14 -> forall st, exists r, (if st : bool then Ret (EAPOL_START, [])
    else if nth 15 e 0 =? 0 then Ret (EAPOL_PACKET, [])
    else key_info ← RTW_GET_BE16 e (14 + 4 + 1); key_data_length ← RTW_GET_BE16 e (14 + 4 + 93);
      if Z.land key_info WPA_KEY_INFO_KEY_TYPE =? 0 then
        if negb (Z.land key_info WPA_KEY_INFO_ACK =? 0) then Ret (EAPOL_WPA_GROUP_KEY_1_2, [])
        else if cx_wpapsk cx then if cx_psta cx then Ret (EAPOL_WPA_GROUP_KEY_2_2, [KeyHandshakeDone]) else Fault
        else Ret (EAPOL_WPA_GROUP_KEY_2_2, [])
      else if negb (Z.land key_info WPA_KEY_INFO_MIC =? 0) then
        Ret (if key_data_length =? 0 then EAPOL_4_4
             else if negb (Z.land key_info WPA_KEY_INFO_ACK =? 0) then EAPOL_3_4 else EAPOL_2_4, [])
      else Ret (EAPOL_1_4, [])) = Ret r) as Hkey.
  { intros H99 st. destruct st; [by eexists|]. destruct (nth 15 e 0 =? 0); [by eexists|].
    rewrite !be16_nth, !bind_Ret, Hp by (done || lia). repeat case_match; by eexists. }
  destruct (Z.eqb_spec (nth 15 e 0) 0) as [Hz|Hz]; [rewrite Hz; by eexists|]. destruct (Z.eqb_spec (nth 15 e 0) 1) as [H1|H1].
  - apply andb_true_iff in Hr as [H4 Hr]. apply Z.leb_le in H4. rewrite rds_spec, !bind_Ret by lia.
    apply orb_true_iff in Hr as [Hs|H99]; [|apply Z.leb_le in H99; destruct (Hkey H99 (bool_decide (take (Z.to_nat 2) (drop (Z.to_nat (14 + 2)) e) = [0; 0]))) as (r & Hk);
      rewrite ?(proj2 (Z.eqb_neq _ _) Hz) in Hk; eexists; exact Hk].
    apply andb_true_iff in Hs as [S1 S2]. apply Z.eqb_eq in S1, S2.
    assert (take (Z.to_nat 2) (drop (Z.to_nat (14 + 2)) e) = [0; 0]) as ->; [|rewrite bool_decide_true by done; by eexists].
    unfold zlen in *. change (Z.to_nat 2) with 2%nat. change (Z.to_nat (14 + 2)) with 16%nat.
    do 18 (destruct e as [|? e]; [cbn in *; lia|]). cbn in S1, S2. by subst.
  - apply Z.leb_le in Hr. rewrite bind_Ret. destruct (Hkey Hr false) as (r & Hk). rewrite ?(proj2 (Z.eqb_neq _ _) Hz) in Hk. by exists r.
Qed.

(** A frame that holds what is looked at passes. *)
Lemma check_passes encrypt e :
  Forall is_u8 e -> cx_psta cx = true -> check_room e = true ->
  rtw_recv_indicatepkt_check encrypt e 0 = Ret (_SUCCESS, check_events encrypt e).
Proof.
  intros Hu Hp Hr. assert (exists ev, rtw_recv_indicatepkt_check encrypt e 0 = Ret (_SUCCESS, ev)) as (ev & E);
    [|unfold check_events; by rewrite E].
  unfold rtw_recv_indicatepkt_check. rewrite Hp. destruct (st_ctl_rx_ok e Hu Hr) as (ev1 & ->). rewrite bind_Ret.
  pose proof Hr as Hr0. unfold check_room in Hr0. apply andb_true_iff in Hr0 as [H0 H3]. apply andb_true_iff in H0 as [H0 _]. apply Z.leb_le in H0.
  rewrite be16_nth, bind_Ret by (done || lia). change (Z.to_nat (0 + 12)) with 12%nat. change (Z.to_nat (0 + 12 + 1)) with 13%nat.
  set (k := fun r : eap_type * list rx_event => _).
  assert (exists ev2, (if nth 12 e 0 * 256 + nth 13 e 0 =? 0x888e then parsing_eapol_packet e 14 ≫= k else Ret []) = Ret ev2) as (ev2 & E2).
  { destruct (Z.eqb_spec (nth 12 e 0 * 256 + nth 13 e 0) 0x888e) as [Hx|]; [|by eexists].
    destruct (eapol_ok e Hu Hp Hr Hx) as (r & ->). rewrite bind_Ret. unfold k. repeat case_match; by eexists. }
  change (0 + 14) with 14. rewrite E2, bind_Ret.
  assert (exists ev3, (if 0 <? cx_sink_udpport cx then rtw_sink_rtp_seq_dbg e 0 else Ret []) = Ret ev3) as (ev3 & ->).
  { destruct (Z.ltb_spec 0 (cx_sink_udpport cx)) as [Hs|]; [|by eexists]. unfold rtw_sink_rtp_seq_dbg. rewrite (proj2 (Z.ltb_lt _ _)) by done.
    rewrite (proj2 (Z.leb_gt _ _)) in H3 by lia. apply Z.leb_le in H3. rewrite !be16_nth, !bind_Ret by (done || lia).
    match goal with |- context [if ?c then _ else _] => destruct c end; eexists; reflexivity. }
  rewrite bind_Ret. by eexists.
Qed.
End Check.
