(* ===== verification/RxMsdu.v ===== *)
(** * From received frames to Ethernet frames

    The last part of the receive path of the core: [core_rx_process_amsdu] cuts
    an A-MSDU into its subframes and [core_rx_process_msdu] turns the header of
    any other data frame into an Ethernet header (src/core/rtw_recv.c), with
    [rtw_os_alloc_msdu_pkt] of src/os_dep/linux/recv_linux.c.  A packet for the
    stack is a copy, or a clone that shares the memory of the received frame,
    and the Ethernet headers of clones are written into that memory while it is
    still being read. *)
From Stdlib Require Import ZArith Lia Bool List.
From stdpp Require Import base tactics list numbers.
From S2P Require Import Prelude ByteBuf WordBits SecCrypto SecFrame IeSearch RxCore RxCheck.

(** ** Definitions *)

Definition ETH_HLEN : Z := 14.
Definition ETH_ALEN : Z := 6.
Definition SNAP_SIZE : Z := 6.
Definition ETH_P_AARP : Z := 0x80f3.
Definition ETH_P_IPX : Z := 0x8137.
Definition MAX_SUBFRAME_COUNT : Z := 64.
Definition _NO_PRIVACY_ : Z := 0.
Definition RTW_AMSDU_MODE_NON_SPP : Z := 0.
Definition RTW_RX_MSDU_ACT_INDICATE : Z := BIT 0.
Definition RTW_RX_MSDU_ACT_FORWARD : Z := BIT 1.

Definition rtw_bridge_tunnel_header : list Z := [0xaa; 0xaa; 0x03; 0x00; 0x00; 0xf8].
Definition rtw_rfc1042_header : list Z := [0xaa; 0xaa; 0x03; 0x00; 0x00; 0x00].

Inductive rtw_rx_llc_hdl := RTW_RX_LLC_KEEP | RTW_RX_LLC_REMOVE | RTW_RX_LLC_VLAN.

(** [llc_hdl] as a condition. *)
Definition llc_true (h : rtw_rx_llc_hdl) : bool := match h with RTW_RX_LLC_KEEP => false | _ => true end.

(** The MSDU lies at [p] of [m]. *)
Definition rtw_recv_llc_parse (m : list Z) (p msdu_len : Z) : outcome rtw_rx_llc_hdl :=
  if msdu_len <? 8 then Ret RTW_RX_LLC_KEEP
  else
    eth_type ← RTW_GET_BE16 m (p + SNAP_SIZE);
    rfc1042 ← _rtw_memcmp m p rtw_rfc1042_header;
    if rfc1042 && negb (eth_type =? ETH_P_AARP) && negb (eth_type =? ETH_P_IPX) then Ret RTW_RX_LLC_REMOVE
    else
      tunnel ← _rtw_memcmp m p rtw_bridge_tunnel_header;
      Ret (if tunnel : bool then RTW_RX_LLC_REMOVE else RTW_RX_LLC_KEEP).

(** The frame of RxCore with the attributes that matter here. *)
Record rx_frame := RxFrame {
  rx_hdr : frag;
  rx_dst : list Z;
  rx_src : list Z;
  rx_ta : list Z;
  rx_to_fr_ds : Z;
  rx_is_amsdu : bool }.

(** [amsdu_mode] of the registry and [dot11PrivacyAlgrthm]. *)
Record rx_policy := RxPolicy { amsdu_mode : Z; dot11PrivacyAlgrthm : Z }.

Definition same_bytes (a b : list Z) : bool := bool_decide (a = b).

Definition validate_amsdu_content (pol : rx_policy) (f : rx_frame) (da sa : list Z) : Z :=
  if (amsdu_mode pol =? RTW_AMSDU_MODE_NON_SPP) && negb (dot11PrivacyAlgrthm pol =? _NO_PRIVACY_) then
    let ret := _SUCCESS in
    let ret := if (rx_to_fr_ds f =? 1) && negb (same_bytes da (fr_ra (rx_hdr f))) then _FAIL else ret in
    let ret := if (rx_to_fr_ds f =? 2) && negb (same_bytes sa (rx_ta f)) then _FAIL else ret in
    if same_bytes da rtw_rfc1042_header then _FAIL else ret
  else _SUCCESS.

(** [struct sk_buff]: [sk_own] is its memory, or nothing when it shares that
    of the received frame; [sk_data] is an offset into it. *)
Record skb := Skb { sk_own : option (list Z); sk_data : Z; sk_len : Z }.

Definition skb_pull (s : skb) (n : Z) : skb :=
  if sk_len s <? n then s else Skb (sk_own s) (sk_data s + n) (sk_len s - n).

(** Without headroom the kernel stops. *)
Definition skb_push (s : skb) (n : Z) : outcome skb :=
  if sk_data s - n <? 0 then Fault else Ret (Skb (sk_own s) (sk_data s - n) (sk_len s + n)).

(** Bytes written at [sk_data]; [m] is the memory of the received frame. *)
Definition skb_store (m : list Z) (s : skb) (d : list Z) : outcome (list Z * skb) :=
  match sk_own s with
  | Some b => b ← wrs b (sk_data s) d; Ret (m, Skb (Some b) (sk_data s) (sk_len s))
  | None => m ← wrs m (sk_data s) d; Ret (m, s)
  end.

Definition skb_prepend (m : list Z) (s : skb) (d : list Z) : outcome (list Z * skb) :=
  s ← skb_push s (zlen d); skb_store m s d.

(** An address of the received frame put in front. *)
Definition skb_prepend_addr (m : list Z) (s : skb) (p : Z) : outcome (list Z * skb) :=
  d ← rds m p ETH_ALEN; skb_prepend m s d.

Definition skb_bytes (m : list Z) (s : skb) : outcome (list Z) := rds (default m (sk_own s)) (sk_data s) (sk_len s).

(** The kernel's part: memory for the [k]-th packet, of any content, and
    whether the frame can be cloned for it. *)
Record skb_source := SkbSource { rtw_skb_alloc : nat -> Z -> option (list Z); rtw_skb_clone : nat -> bool }.

Definition rtw_os_alloc_msdu_pkt (ks : skb_source) (k : nat) (m : list Z) (da sa msdu msdu_len : Z) (llc_hdl : rtw_rx_llc_hdl) :
    outcome (list Z * option skb) :=
  sub ← match rtw_skb_alloc ks k (msdu_len + 14) with
        | Some b => d ← rds m msdu msdu_len; b ← wrs b 14 d; Ret (Some (Skb (Some b) 14 msdu_len))
        | None => Ret (if rtw_skb_clone ks k then Some (Skb None msdu msdu_len) else None)
        end;
  match sub with
  | None => Ret (m, None)
  | Some s =>
    r ← (if llc_true llc_hdl then
           r ← skb_prepend_addr m (skb_pull s SNAP_SIZE) sa; skb_prepend_addr r.1 r.2 da
         else
           r ← skb_prepend m s (put_be16 (sk_len s));
           r ← skb_prepend_addr r.1 r.2 sa; skb_prepend_addr r.1 r.2 da);
    Ret (r.1, Some r.2)
  end.

(** The memory of the frame, [pdata], [a_len], the number of the iteration,
    [subframes], what [recv_fwd_pkt_hdl] was given, and what the looks at the
    packets did elsewhere. *)
Record amsdu_st := AmsduSt {
  am_mem : list Z;
  am_pdata : Z;
  am_len : Z;
  am_k : nat;
  am_sub : list skb;
  am_fwd : list (list Z);
  am_ev : list rx_event }.

Section Receive.
Context (pol : rx_policy) (ks : skb_source) (cx : rx_context).
(** MLME_IS_AP, with the answers of [rtw_ap_rx_msdu_act_check] to destination
    and source of the [k]-th subframe. *)
Context (ap : option (nat -> list Z -> list Z -> Z)).

Definition rtw_sta_rx_amsdu_act_check : Z := RTW_RX_MSDU_ACT_INDICATE.

Definition rx_act (k : nat) (da sa : list Z) : Z :=
  match ap with Some act_check => act_check k da sa | None => rtw_sta_rx_amsdu_act_check end.

(** [subframes[nr_subframes++] = sub_pkt] *)
Definition add_subframe (l : list skb) (s : skb) : outcome (list skb) :=
  if MAX_SUBFRAME_COUNT <=? zlen l then Fault else Ret (l ++ [s]).

(** From the choice of [act] to [move_to_next]; [None] is a break. *)
Definition amsdu_take (f : rx_frame) (st : amsdu_st) (da sa : list Z) (n : Z) (llc_hdl : rtw_rx_llc_hdl) :
    outcome (option (list Z * list skb * list (list Z) * list rx_event)) :=
  let pdata := am_pdata st in
  let act := rx_act (am_k st) da sa in
  if act =? 0 then Ret (Some (am_mem st, am_sub st, am_fwd st, am_ev st))
  else
    r ← rtw_os_alloc_msdu_pkt ks (am_k st) (am_mem st) pdata (pdata + ETH_ALEN) (pdata + ETH_HLEN) n llc_hdl;
    match r with
    | (_, None) => Ret None
    | (m, Some s) =>
      let fwd := negb (Z.land act RTW_RX_MSDU_ACT_FORWARD =? 0) in
      fl ← (if fwd then b ← skb_bytes m s; Ret (am_fwd st ++ [b]) else Ret (am_fwd st));
      if fwd && (Z.land act RTW_RX_MSDU_ACT_INDICATE =? 0) then Ret (Some (m, am_sub st, fl, am_ev st))
      else
        c ← rtw_recv_indicatepkt_check cx (fr_encrypt (rx_hdr f)) (default m (sk_own s)) (sk_data s);
        l ← (if c.1 =? _SUCCESS then add_subframe (am_sub st) s else Ret (am_sub st));
        Ret (Some (m, l, fl, am_ev st ++ c.2))
    end.

(** From [move_to_next] to the end of the body. *)
Definition amsdu_next (st : amsdu_st) (n : Z) (m : list Z) (subs : list skb) (fwd : list (list Z)) (ev : list rx_event) : bool * amsdu_st :=
  let pdata := am_pdata st + ETH_HLEN in
  let a_len := am_len st - ETH_HLEN in
  let k := S (am_k st) in
  if MAX_SUBFRAME_COUNT <=? zlen subs then (false, AmsduSt m pdata a_len k subs fwd ev)
  else
    let pdata := pdata + n in
    let a_len := a_len - n in
    if negb (a_len =? 0) then
      let padding_len := 4 - Z.land (n + ETH_HLEN) (4 - 1) in
      let padding_len := if padding_len =? 4 then 0 else padding_len in
      if a_len <? padding_len then (false, AmsduSt m pdata a_len k subs fwd ev)
      else (true, AmsduSt m (pdata + padding_len) (a_len - padding_len) k subs fwd ev)
    else (true, AmsduSt m pdata a_len k subs fwd ev).

(** A turn of the loop, and whether there is another one. *)
Definition amsdu_step (f : rx_frame) (st : amsdu_st) : outcome (bool * amsdu_st) :=
  let pdata := am_pdata st in
  n ← RTW_GET_BE16 (am_mem st) (pdata + 12);
  if am_len st <? ETH_HLEN + n then Ret (false, st)
  else
    da ← rds (am_mem st) pdata ETH_ALEN;
    sa ← rds (am_mem st) (pdata + ETH_ALEN) ETH_ALEN;
    if validate_amsdu_content pol f da sa =? _FAIL then Ret (false, st)
    else
      llc_hdl ← rtw_recv_llc_parse (am_mem st) (pdata + ETH_HLEN) n;
      r ← amsdu_take f st da sa n llc_hdl;
      match r with
      | None => Ret (false, st)
      | Some (m, subs, fwd, ev) => Ret (amsdu_next st n m subs fwd ev)
      end.

Fixpoint amsdu_loop (fuel : nat) (f : rx_frame) (st : amsdu_st) : outcome amsdu_st :=
  if am_len st <=? ETH_HLEN then Ret st
  else
    match fuel with
    | O => Timeout
    | S fuel =>
      r ← amsdu_step f st;
      if (r.1 : bool) then amsdu_loop fuel f r.2 else Ret r.2
    end.

(** The packets for the stack, which are looked at when the loop is done. *)
Fixpoint indicate_all (m : list Z) (l : list skb) : outcome (list (list Z)) :=
  match l with
  | [] => Ret []
  | s :: l => b ← skb_bytes m s; r ← indicate_all m l; Ret (b :: r)
  end.

(** The frame without header, IV and ICV. *)
Definition amsdu_view (h : frag) : frag :=
  let h := recvframe_pull h (fr_hdrlen h) in
  let h := if 0 <? fr_iv_len h then recvframe_pull h (fr_iv_len h) else h in
  if negb (fr_encrypt h =? 0) then recvframe_pull_tail h (fr_icv_len h) else h.

(** What is handed to the stack, what is forwarded, and what the looks at the
    packets did. *)
Definition amsdu_to_msdu (f : rx_frame) : outcome (list (list Z) * list (list Z) * list rx_event) :=
  let h := amsdu_view (rx_hdr f) in
  st ← amsdu_loop (Z.to_nat (fr_len h)) f (AmsduSt (fr_mem h) (fr_data h) (fr_len h) 0 [] [] []);
  ind ← indicate_all (am_mem st) (am_sub st);
  Ret (ind, am_fwd st, am_ev st).

(** [None] when there is no room. *)
Definition wlanhdr_to_ethhdr (f : rx_frame) (llc_hdl : rtw_rx_llc_hdl) : outcome (option frag) :=
  let h := rx_hdr f in
  let h := if negb (fr_encrypt h =? 0) then recvframe_pull_tail h (fr_icv_len h) else h in
  let rmv_len := fr_hdrlen h + fr_iv_len h + (if llc_true llc_hdl then SNAP_SIZE else 0) in
  let len := u16 (fr_len h - rmv_len) in
  let sz := rmv_len - ETH_HLEN + (if llc_true llc_hdl then 2 else 0) in
  if fr_tail h <? fr_data h + sz then Ret None
  else
    let h := recvframe_pull h sz in
    let ptr := fr_data h in
    m ← wrs (fr_mem h) ptr (rx_dst f);
    m ← wrs m (ptr + ETH_ALEN) (rx_src f);
    m ← (if negb (llc_true llc_hdl) then wrs m (ptr + 12) (put_be16 len) else Ret m);
    Ret (Some (set_view h m ptr (fr_tail h) (fr_len h))).

(** The result, what is handed to the stack, what is forwarded, and what the
    look at the packet did. *)
Definition core_rx_process_msdu (f : rx_frame) : outcome (core_rx_state * list (list Z) * list (list Z) * list rx_event) :=
  let h := rx_hdr f in
  let msdu := fr_data h + fr_hdrlen h + fr_iv_len h in
  let msdu_len := u16 (fr_len h - fr_hdrlen h - fr_iv_len h - (if negb (fr_encrypt h =? 0) then fr_icv_len h else 0)) in
  llc_hdl ← rtw_recv_llc_parse (fr_mem h) msdu msdu_len;
  let act := rx_act 0 (rx_dst f) (rx_src f) in
  if act =? 0 then Ret (CORE_RX_DROP, [], [], [])
  else
    r ← wlanhdr_to_ethhdr f llc_hdl;
    match r with
    | None => Ret (CORE_RX_DROP, [], [], [])
    | Some g =>
      b ← rds (fr_mem g) (fr_data g) (fr_len g);
      let fwd := negb (Z.land act RTW_RX_MSDU_ACT_FORWARD =? 0) in
      if fwd && (Z.land act RTW_RX_MSDU_ACT_INDICATE =? 0) then Ret (CORE_RX_DONE, [], [b], [])
      else
        c ← rtw_recv_indicatepkt_check cx (fr_encrypt (rx_hdr f)) (fr_mem g) (fr_data g);
        if negb (c.1 =? _SUCCESS) then Ret (CORE_RX_DROP, [], if fwd then [b] else [], c.2)
        else Ret (CORE_RX_DONE, [b], if fwd then [b] else [], c.2)
    end.

Definition core_rx_process_amsdu (f : rx_frame) : outcome (core_rx_state * list (list Z) * list (list Z) * list rx_event) :=
  r ← amsdu_to_msdu f; Ret (CORE_RX_DONE, r.1.1, r.1.2, r.2).

Definition rtw_core_rx_data_post_process (f : rx_frame) :
    outcome (core_rx_state * list (list Z) * list (list Z) * list rx_event) :=
  if rx_is_amsdu f then core_rx_process_amsdu f else core_rx_process_msdu f.

(** ** The abstract receiver

    An A-MSDU is a list of subframes, cut out of its bytes, and every subframe
    becomes an Ethernet frame of its own. *)

Record subframe := Subframe { sf_da : list Z; sf_sa : list Z; sf_msdu : list Z }.

(** Length with padding to four bytes. *)
Definition padded (n : Z) : Z := (n + 3) / 4 * 4.

Fixpoint split_amsdu (fuel : nat) (c : list Z) : list subframe :=
  match fuel with
  | O => []
  | S fuel =>
    let n := nth 12 c 0 * 256 + nth 13 c 0 in
    if (zlen c <=? ETH_HLEN) || (zlen c <? ETH_HLEN + n) then []
    else Subframe (take 6 c) (take 6 (drop 6 c)) (take (Z.to_nat n) (drop 14 c)) ::
         split_amsdu fuel (drop (Z.to_nat (padded (ETH_HLEN + n))) c)
  end.

(** SNAP headers are removed but for AARP and IPX under RFC 1042. *)
Definition snap (msdu : list Z) : bool :=
  (8 <=? zlen msdu) &&
  (same_bytes (take 6 msdu) rtw_rfc1042_header &&
     negb (same_bytes (take 2 (drop 6 msdu)) [0x80; 0xf3]) && negb (same_bytes (take 2 (drop 6 msdu)) [0x81; 0x37]) ||
   same_bytes (take 6 msdu) rtw_bridge_tunnel_header).

Definition ethernet (da sa msdu : list Z) : list Z :=
  da ++ sa ++ (if snap msdu then drop 6 msdu else put_be16 (zlen msdu) ++ msdu).

Definition has_skb (k : nat) (n : Z) : bool := bool_decide (is_Some (rtw_skb_alloc ks k (n + 14))) || rtw_skb_clone ks k.

(** The subframes a receiver accepts: on a protected link without SPP A-MSDUs
    the destination of a frame from the distribution system is the receiver
    address of the frame, the source of a frame to the distribution system its
    transmitter address, and no destination looks like a SNAP header. *)
Definition acceptable_subframe (f : rx_frame) (s : subframe) : bool :=
  bool_decide (amsdu_mode pol <> 0 \/ dot11PrivacyAlgrthm pol = 0 \/
    (rx_to_fr_ds f = 1 -> sf_da s = fr_ra (rx_hdr f)) /\ (rx_to_fr_ds f = 2 -> sf_sa s = rx_ta f) /\
    sf_da s <> [0xaa; 0xaa; 0x03; 0x00; 0x00; 0x00]).

Lemma validate_spec f s :
  (validate_amsdu_content pol f (sf_da s) (sf_sa s) =? _FAIL) = negb (acceptable_subframe f s).
Proof.
  unfold validate_amsdu_content, acceptable_subframe, same_bytes, RTW_AMSDU_MODE_NON_SPP, _NO_PRIVACY_. cbv zeta.
  destruct (Z.eqb_spec (amsdu_mode pol) 0); cbn [andb]; [|rewrite bool_decide_true by tauto; done].
  destruct (Z.eqb_spec (dot11PrivacyAlgrthm pol) 0); cbn [negb]; [rewrite bool_decide_true by tauto; done|].
  symmetry. destruct (bool_decide_reflect (sf_da s = rtw_rfc1042_header)) as [E|E].
  { rewrite bool_decide_false; [done|]. intros [|[|(_ & _ & Hn)]]; [done..|]. by apply Hn. }
  destruct (Z.eqb_spec (rx_to_fr_ds f) 1) as [D1|D1], (Z.eqb_spec (rx_to_fr_ds f) 2) as [D2|D2]; cbn [andb]; [lia|..].
  - destruct (bool_decide_reflect (sf_da s = fr_ra (rx_hdr f))); cbn [negb];
      [rewrite bool_decide_true by (right; right; split_and!; auto; lia); done|].
    rewrite bool_decide_false; [done|]. intros [|[|(H & _)]]; [done..|auto].
  - destruct (bool_decide_reflect (sf_sa s = rx_ta f)); cbn [negb];
      [rewrite bool_decide_true by (right; right; split_and!; auto; lia); done|].
    rewrite bool_decide_false; [done|]. intros [|[|(_ & H & _)]]; [done..|auto].
  - rewrite bool_decide_true by (right; right; split_and!; auto; lia). done.
Qed.

(** At most 64 packets are handed to the stack, and a subframe that is not
    acceptable or for which there is no memory ends everything. *)
Fixpoint hand_on (f : rx_frame) (k : nat) (room : nat) (l : list subframe) : list (list Z) * list (list Z) :=
  match l with
  | [] => ([], [])
  | s :: l =>
    let e := ethernet (sf_da s) (sf_sa s) (sf_msdu s) in
    let act := rx_act k (sf_da s) (sf_sa s) in
    if negb (acceptable_subframe f s) then ([], [])
    else if act =? 0 then hand_on f (S k) room l
    else if negb (has_skb k (zlen (sf_msdu s))) then ([], [])
    else
      let fwd := if Z.testbit act 1 then [e] else [] in
      if Z.testbit act 1 && negb (Z.testbit act 0)
      then let r := hand_on f (S k) room l in (r.1, e :: r.2)
      else
        match room with
        | S (S room) => let r := hand_on f (S k) (S room) l in (e :: r.1, fwd ++ r.2)
        | _ => ([e], fwd)
        end
  end.
End Receive.

(** ** Bytes *)

Lemma put_be16_bytes v : is_u16 v -> put_be16 v = [v / 256; v mod 256].
Proof. intros Hv. pose proof (put_le16_bytes v Hv) as H. unfold put_le16 in H. unfold put_be16. by injection H as -> ->. Qed.

Lemma put_be16_of a b : is_u8 a -> is_u8 b -> put_be16 (a * 256 + b) = [a; b].
Proof. unfold is_u8. intros Ha Hb. rewrite put_be16_bytes by (unfold is_u16; lia). f_equal; [|f_equal]; zlia. Qed.

(** The header of a subframe. *)
Definition sub_hdr (da sa : list Z) (n : Z) : list Z := da ++ sa ++ put_be16 n.

Lemma zlen_sub_hdr da sa n : zlen da = 6 -> zlen sa = 6 -> zlen (sub_hdr da sa n) = 14.
Proof. intros H1 H2. unfold sub_hdr. rewrite !zlen_app, H1, H2. done. Qed.

Lemma split_hdr c :
  Forall is_u8 c -> 14 <= zlen c ->
  let n := nth 12 c 0 * 256 + nth 13 c 0 in
  c = sub_hdr (take 6 c) (take 6 (drop 6 c)) n ++ drop 14 c /\ zlen (take 6 c) = 6 /\ zlen (take 6 (drop 6 c)) = 6 /\ is_u16 n.
Proof.
  intros Hu Hl. unfold zlen in Hl. do 14 (destruct c as [|? c]; [cbn in Hl; lia|]). cbn zeta. repeat (apply Forall_cons_1 in Hu as [? Hu]).
  unfold sub_hdr. cbn [nth take drop]. rewrite drop_0. rewrite put_be16_of by done. split_and!; try done. unfold is_u8, is_u16 in *. lia.
Qed.

Lemma eqb_bytes v a b : is_u16 v -> is_u8 a -> is_u8 b -> (v =? a * 256 + b) = bool_decide (put_be16 v = [a; b]).
Proof.
  intros Hv Ha Hb. apply eq_true_iff_eq. rewrite Z.eqb_eq, bool_decide_eq_true. split; [intros ->; by apply put_be16_of|].
  rewrite put_be16_bytes by done. intros [= <- <-]. unfold is_u16 in *. zlia.
Qed.

Lemma llc_parse_spec a msdu b p n :
  Forall is_u8 msdu -> p = zlen a -> n = zlen msdu ->
  rtw_recv_llc_parse (a ++ msdu ++ b) p n = Ret (if snap msdu then RTW_RX_LLC_REMOVE else RTW_RX_LLC_KEEP).
Proof.
  intros Hu -> ->. unfold rtw_recv_llc_parse, snap. destruct (Z.ltb_spec (zlen msdu) 8) as [H|H].
  { by rewrite (proj2 (Z.leb_gt _ _)) by lia. }
  rewrite (proj2 (Z.leb_le _ _)) by lia. cbn [andb].
  assert (exists h x y r, msdu = h ++ [x; y] ++ r /\ length h = 6%nat /\ is_u8 x /\ is_u8 y) as (h & x & y & r & -> & Hh & Hx & Hy).
  { unfold zlen in H. do 8 (destruct msdu as [|? msdu]; [cbn in H; lia|]). repeat (apply Forall_cons_1 in Hu as [? Hu]).
    by eexists [_; _; _; _; _; _], _, _, msdu. }
  rewrite <- put_be16_of by done. set (v := x * 256 + y). assert (is_u16 v) as Hv by (unfold v, is_u8, is_u16 in *; lia).
  rewrite take_app_length', drop_app_length' by done. change (take 2 (put_be16 v ++ r)) with (put_be16 v).
  replace (a ++ (h ++ put_be16 v ++ r) ++ b) with ((a ++ h) ++ put_be16 v ++ (r ++ b)) at 1 by by rewrite <- !app_assoc.
  rewrite (@get_put16 _ be16_codec (a ++ h) v (r ++ b)) by (first [done | rewrite zlen_app; unfold zlen, SNAP_SIZE; lia]).
  replace (a ++ (h ++ put_be16 v ++ r) ++ b) with (a ++ h ++ (put_be16 v ++ r ++ b)) by by rewrite <- !app_assoc.
  rewrite bind_Ret, !memcmp_at by done. rewrite bind_Ret. unfold same_bytes.
  change ETH_P_AARP with (0x80 * 256 + 0xf3). change ETH_P_IPX with (0x81 * 256 + 0x37). rewrite !eqb_bytes by (unfold is_u8; first [done | lia]).
  destruct (bool_decide (h = rtw_rfc1042_header) && _ && _); [done|]. rewrite bind_Ret. by destruct (bool_decide _).
Qed.

(** ** Packets *)

(** A packet reads [e] whatever comes behind the bytes [a] of the frame. *)
Definition reads (a : list Z) (s : skb) (e : list Z) : Prop := forall t, skb_bytes (a ++ t) s = Ret e.

Lemma reads_more a b s e : reads a s e -> reads (a ++ b) s e.
Proof. intros H t. rewrite <- app_assoc. apply H. Qed.

Lemma indicate_reads a t l es : Forall2 (reads a) l es -> indicate_all (a ++ t) l = Ret es.
Proof. induction 1 as [|s e l es H _ IH]; [done|]. cbn [indicate_all]. by rewrite H, bind_Ret, IH, bind_Ret. Qed.

(** Bytes put in front of a packet: [u] is overwritten. *)
Lemma prepend_own m b u v d p n :
  p = zlen b + zlen u -> length u = length d ->
  skb_prepend m (Skb (Some (b ++ u ++ v)) p n) d = Ret (m, Skb (Some (b ++ d ++ v)) (zlen b) (n + zlen d)).
Proof.
  intros -> Hl. assert (zlen u = zlen d) as E by (unfold zlen; lia). pose proof (zlen_nonneg b). unfold skb_prepend, skb_push, skb_store.
  cbn [sk_data sk_own sk_len]. rewrite (proj2 (Z.ltb_ge _ _)) by lia. rewrite bind_Ret. cbn [sk_data sk_own sk_len].
  rewrite wrs_at; [rewrite bind_Ret; do 3 f_equal; lia|lia|done].
Qed.

Lemma prepend_shared b u v d p n :
  p = zlen b + zlen u -> length u = length d ->
  skb_prepend (b ++ u ++ v) (Skb None p n) d = Ret (b ++ d ++ v, Skb None (zlen b) (n + zlen d)).
Proof.
  intros -> Hl. assert (zlen u = zlen d) as E by (unfold zlen; lia). pose proof (zlen_nonneg b). unfold skb_prepend, skb_push, skb_store.
  cbn [sk_data sk_own sk_len]. rewrite (proj2 (Z.ltb_ge _ _)) by lia. rewrite bind_Ret. cbn [sk_data sk_own sk_len].
  rewrite wrs_at; [rewrite bind_Ret; do 3 f_equal; lia|lia|done].
Qed.

(** Lists that are the same up to the brackets. *)
Ltac assoc := rewrite <- ?app_assoc; reflexivity.

Lemma prepend_addr m s p d a b : m = a ++ d ++ b -> p = zlen a -> zlen d = 6 -> skb_prepend_addr m s p = skb_prepend m s d.
Proof. intros -> -> Hd. unfold skb_prepend_addr. rewrite (rds_at a d b) by (unfold ETH_ALEN; lia). by rewrite bind_Ret. Qed.

Section Subframe.
Context (a da sa msdu t : list Z).
Hypothesis (Hda : zlen da = 6) (Hsa : zlen sa = 6).

Let m := a ++ (sub_hdr da sa (zlen msdu) ++ msdu) ++ t.

Lemma prepend_da s m' : (exists r, m' = a ++ da ++ r) -> skb_prepend_addr m' s (zlen a) = skb_prepend m' s da.
Proof. intros (r & ->). by apply (prepend_addr _ _ _ _ a r). Qed.

Lemma prepend_sa s m' : (exists r, m' = a ++ da ++ sa ++ r) -> skb_prepend_addr m' s (zlen a + ETH_ALEN) = skb_prepend m' s sa.
Proof. intros (r & ->). apply (prepend_addr _ _ _ _ (a ++ da) r); [assoc|rewrite zlen_app; unfold ETH_ALEN; lia|done]. Qed.

(** [m] begins with both addresses. *)
Lemma m_sa : exists r, m = a ++ da ++ sa ++ r.
Proof. unfold m, sub_hdr. eexists. assoc. Qed.

Lemma m_da : exists r, m = a ++ da ++ r.
Proof. unfold m, sub_hdr. eexists. assoc. Qed.

(** The header in front of a copy. *)
Lemma copy_header room :
  zlen room = 14 ->
  exists s, (if snap msdu
     then r ← skb_prepend_addr m (skb_pull (Skb (Some (room ++ msdu)) 14 (zlen msdu)) SNAP_SIZE) (zlen a + ETH_ALEN); skb_prepend_addr r.1 r.2 (zlen a)
     else r ← skb_prepend m (Skb (Some (room ++ msdu)) 14 (zlen msdu)) (put_be16 (zlen msdu));
          r ← skb_prepend_addr r.1 r.2 (zlen a + ETH_ALEN); skb_prepend_addr r.1 r.2 (zlen a)) = Ret (m, s) /\
    forall x, reads x s (ethernet da sa msdu).
Proof.
  intros Hr. unfold ethernet. destruct (snap msdu) eqn:Es.
  - assert (8 <= zlen msdu) as H8 by (unfold snap in Es; apply andb_true_iff in Es as [H _]; lia).
    rewrite prepend_sa by apply m_sa. unfold skb_pull. cbn [sk_len sk_own sk_data]. rewrite (proj2 (Z.ltb_ge _ _)) by (unfold SNAP_SIZE; lia).
    assert (room ++ msdu = room ++ take 6 msdu ++ drop 6 msdu) as -> by by rewrite take_drop.
    assert (length (take 6 msdu) = 6%nat) as L6 by (rewrite length_take; unfold zlen in *; lia).
    rewrite (prepend_own m room (take 6 msdu) (drop 6 msdu) sa) by (unfold zlen, SNAP_SIZE in *; lia). rewrite bind_Ret. cbn [fst snd].
    rewrite prepend_da by apply m_da. rewrite <- (take_drop 8 room). rewrite <- (app_assoc (take 8 room)).
    assert (length (take 8 room) = 8%nat) as L8 by (rewrite length_take; unfold zlen in *; lia).
    rewrite prepend_own by (rewrite ?take_drop; unfold zlen in *; rewrite ?length_drop; lia).
    eexists. split; [done|]. intros x y. unfold skb_bytes. cbn [sk_own sk_data sk_len default].
    assert (zlen (drop 6 msdu) = zlen msdu - 6) as L by (unfold zlen in *; rewrite length_drop; lia).
    rewrite <- (app_nil_r (take 8 room ++ _)), <- app_assoc. cbv beta iota delta [default id].
    apply rds_at; [done|]. rewrite !zlen_app. unfold SNAP_SIZE in *. lia.
  - rewrite <- (take_drop 12 room). rewrite <- (app_assoc (take 12 room)).
    assert (length (take 12 room) = 12%nat) as L12 by (rewrite length_take; unfold zlen in *; lia).
    rewrite prepend_own by (change (length (put_be16 (zlen msdu))) with 2%nat; rewrite ?take_drop; unfold zlen in *; rewrite ?length_drop; lia).
    rewrite bind_Ret. cbn [fst snd]. rewrite prepend_sa by apply m_sa. change (zlen (put_be16 _)) with 2.
    rewrite <- (take_drop 6 (take 12 room)). rewrite <- (app_assoc (take 6 _)).
    assert (length (take 6 (take 12 room)) = 6%nat) as L6 by (rewrite length_take; lia).
    rewrite prepend_own by (rewrite ?take_drop; unfold zlen in *; rewrite ?length_drop; lia). rewrite bind_Ret. cbn [fst snd].
    rewrite prepend_da by apply m_da.
    match goal with |- context [Some (take 6 (take 12 room) ++ ?v)] =>
      change (take 6 (take 12 room) ++ v) with ([] ++ take 6 (take 12 room) ++ v) end.
    rewrite prepend_own by (unfold zlen in *; cbn [length]; lia).
    eexists. split; [done|]. intros x y. unfold skb_bytes. cbn [sk_own sk_data sk_len]. cbv beta iota delta [default id]. cbn [app].
    apply rds_prefix. rewrite !zlen_app. change (zlen (put_be16 _)) with 2. lia.
Qed.

(** The header in front of a clone, in the memory of the frame. *)
Lemma clone_header :
  exists x s, (if snap msdu
     then r ← skb_prepend_addr m (skb_pull (Skb None (zlen a + ETH_HLEN) (zlen msdu)) SNAP_SIZE) (zlen a + ETH_ALEN); skb_prepend_addr r.1 r.2 (zlen a)
     else r ← skb_prepend m (Skb None (zlen a + ETH_HLEN) (zlen msdu)) (put_be16 (zlen msdu));
          r ← skb_prepend_addr r.1 r.2 (zlen a + ETH_ALEN); skb_prepend_addr r.1 r.2 (zlen a)) = Ret (a ++ x ++ t, s) /\
    zlen x = 14 + zlen msdu /\ reads (a ++ x) s (ethernet da sa msdu).
Proof.
  unfold ethernet. destruct (snap msdu) eqn:Es.
  - assert (8 <= zlen msdu) as H8 by (unfold snap in Es; apply andb_true_iff in Es as [H _]; lia).
    assert (zlen (take 6 msdu) = 6) as L6 by (unfold zlen in *; rewrite length_take; lia).
    assert (zlen (drop 6 msdu) = zlen msdu - 6) as Ld by (unfold zlen in *; rewrite length_drop; lia).
    assert (zlen (take 2 sa) = 2) as L2 by (unfold zlen in *; rewrite length_take; lia).
    assert (zlen (drop 2 sa) = 4) as L4 by (unfold zlen in *; rewrite length_drop; lia).
    rewrite prepend_sa by apply m_sa. unfold skb_pull. cbn [sk_len sk_own sk_data]. rewrite (proj2 (Z.ltb_ge _ _)) by (unfold SNAP_SIZE; lia).
    assert (m = (a ++ sub_hdr da sa (zlen msdu)) ++ take 6 msdu ++ (drop 6 msdu ++ t)) as ->.
    { unfold m. rewrite <- (take_drop 6 msdu) at 2. assoc. }
    pose proof (zlen_sub_hdr da sa (zlen msdu) Hda Hsa) as Lh.
    rewrite prepend_shared by (rewrite ?zlen_app; unfold zlen, SNAP_SIZE, ETH_HLEN in *; lia). rewrite bind_Ret. cbn [fst snd].
    rewrite prepend_da; [|unfold sub_hdr; eexists; assoc]. unfold sub_hdr.
    assert ((a ++ da ++ sa ++ put_be16 (zlen msdu)) ++ sa ++ drop 6 msdu ++ t =
            (a ++ da ++ take 2 sa) ++ (drop 2 sa ++ put_be16 (zlen msdu)) ++ (sa ++ drop 6 msdu ++ t)) as ->.
    { rewrite <- (take_drop 2 sa) at 1. assoc. }
    rewrite prepend_shared; [|rewrite !zlen_app, ?L4; change (zlen (put_be16 _)) with 2; lia|rewrite length_app; unfold zlen in *; cbn [length put_be16]; lia].
    exists (da ++ take 2 sa ++ da ++ sa ++ drop 6 msdu). eexists. split_and!; [do 2 f_equal; assoc|rewrite !zlen_app; lia|].
    intros y. unfold skb_bytes. cbn [sk_own sk_data sk_len]. cbv beta iota delta [default id].
    replace ((a ++ da ++ take 2 sa ++ da ++ sa ++ drop 6 msdu) ++ y) with ((a ++ da ++ take 2 sa) ++ (da ++ sa ++ drop 6 msdu) ++ y) by assoc.
    apply rds_at; [done|]. rewrite !zlen_app. unfold SNAP_SIZE in *. lia.
  - assert (m = (a ++ da ++ sa) ++ put_be16 (zlen msdu) ++ (msdu ++ t)) as -> by (unfold m, sub_hdr; assoc).
    rewrite prepend_shared by (first [done | rewrite !zlen_app; change (zlen (put_be16 _)) with 2; unfold ETH_HLEN; lia]).
    rewrite bind_Ret. cbn [fst snd]. rewrite prepend_sa by (eexists; assoc).
    replace ((a ++ da ++ sa) ++ put_be16 (zlen msdu) ++ msdu ++ t) with ((a ++ da) ++ sa ++ (put_be16 (zlen msdu) ++ msdu ++ t)) by assoc.
    rewrite prepend_shared by (first [done | rewrite !zlen_app; lia]). rewrite bind_Ret. cbn [fst snd].
    rewrite prepend_da by (eexists; assoc).
    replace ((a ++ da) ++ sa ++ put_be16 (zlen msdu) ++ msdu ++ t) with (a ++ da ++ (sa ++ put_be16 (zlen msdu) ++ msdu ++ t)) by assoc.
    rewrite prepend_shared by (first [done | rewrite !zlen_app; lia]). change (zlen (put_be16 _)) with 2.
    exists (da ++ sa ++ put_be16 (zlen msdu) ++ msdu). eexists. split_and!; [do 2 f_equal; assoc|rewrite !zlen_app; change (zlen (put_be16 _)) with 2; lia|].
    intros y. unfold skb_bytes. cbn [sk_own sk_data sk_len]. cbv beta iota delta [default id]. rewrite <- app_assoc.
    apply rds_at; [done|]. rewrite !zlen_app. change (zlen (put_be16 _)) with 2. lia.
Qed.

Context (ks : skb_source).
Hypothesis (Hks : forall k n b, rtw_skb_alloc ks k n = Some b -> zlen b = n).

(** A packet for the subframe, or nothing when there is no memory. *)
Lemma alloc_spec k :
  let llc := if snap msdu then RTW_RX_LLC_REMOVE else RTW_RX_LLC_KEEP in
  let r := rtw_os_alloc_msdu_pkt ks k m (zlen a) (zlen a + ETH_ALEN) (zlen a + ETH_HLEN) (zlen msdu) llc in
  if has_skb ks k (zlen msdu)
  then exists x s, r = Ret (a ++ x ++ t, Some s) /\ zlen x = 14 + zlen msdu /\ reads (a ++ x) s (ethernet da sa msdu)
  else r = Ret (m, None).
Proof.
  cbn zeta. unfold has_skb, rtw_os_alloc_msdu_pkt. pose proof (zlen_sub_hdr da sa (zlen msdu) Hda Hsa) as Lh.
  assert (llc_true (if snap msdu then RTW_RX_LLC_REMOVE else RTW_RX_LLC_KEEP) = snap msdu) as -> by by destruct (snap msdu).
  destruct (rtw_skb_alloc ks k (zlen msdu + 14)) as [b|] eqn:Ea.
  - rewrite bool_decide_eq_true_2 by by eexists. cbn [orb]. pose proof (Hks _ _ _ Ea) as Lb.
    assert (rds m (zlen a + ETH_HLEN) (zlen msdu) = Ret msdu) as ->.
    { assert (m = (a ++ sub_hdr da sa (zlen msdu)) ++ msdu ++ t) as -> by (unfold m; assoc).
      apply rds_at; [rewrite zlen_app; unfold ETH_HLEN|]; lia. }
    rewrite bind_Ret.
    rewrite <- (take_drop 14 b). assert (zlen (take 14 b) = 14) as L14 by (pose proof (zlen_nonneg msdu); unfold zlen in *; rewrite length_take; lia).
    rewrite wrs_over; [|done|unfold zlen in *; rewrite length_drop; lia]. rewrite bind_Ret.
    rewrite drop_drop, drop_ge, app_nil_r by (unfold zlen in *; lia). rewrite bind_Ret. cbn [sk_len].
    destruct (copy_header (take 14 b) L14) as (s & -> & Hs). rewrite bind_Ret.
    exists (sub_hdr da sa (zlen msdu) ++ msdu), s. split_and!; [done|rewrite zlen_app; lia|apply Hs].
  - rewrite bool_decide_eq_false_2 by by intros []. cbn [orb]. rewrite bind_Ret. destruct (rtw_skb_clone ks k); [|done]. cbn [sk_len].
    destruct clone_header as (x & s & -> & Lx & Hs). rewrite bind_Ret. by exists x, s.
Qed.
End Subframe.

Lemma land_act act i : 0 <= i -> negb (Z.land act (BIT i) =? 0) = Z.testbit act i.
Proof. intros Hi. unfold BIT. by apply land_shift_bit. Qed.

Lemma ethernet_bytes da sa msdu :
  Forall is_u8 da -> Forall is_u8 sa -> Forall is_u8 msdu -> is_u16 (zlen msdu) -> Forall is_u8 (ethernet da sa msdu).
Proof.
  intros H1 H2 H3 Hn. unfold ethernet. apply Forall_app_2; [done|]. apply Forall_app_2; [done|]. destruct (snap msdu); [by apply Forall_drop|].
  apply Forall_app_2; [|done]. rewrite put_be16_bytes by done. unfold is_u16, is_u8 in *. repeat constructor; zlia.
Qed.

(** The look at a packet sees the packet alone. *)
Lemma check_packet cx encrypt m s e :
  skb_bytes m s = Ret e -> Forall is_u8 e -> cx_psta cx = true -> check_room cx e = true ->
  rtw_recv_indicatepkt_check cx encrypt (default m (sk_own s)) (sk_data s) = Ret (_SUCCESS, check_events cx encrypt e).
Proof.
  unfold skb_bytes. set (M := default m (sk_own s)). intros Hb Hu Hp Hr. unfold rds in Hb.
  destruct ((0 <=? sk_data s) && (0 <=? sk_len s) && (sk_data s + sk_len s <=? zlen M)) eqn:E; [|done]. injection Hb as Hb.
  apply andb_true_iff in E as [E E3]. apply andb_true_iff in E as [E1 E2]. apply Z.leb_le in E1, E2, E3.
  set (p := take (Z.to_nat (sk_data s)) M). assert (zlen p = sk_data s) as Lp by (unfold p, zlen in *; rewrite length_take; lia).
  assert (M = p ++ e ++ drop (Z.to_nat (sk_len s)) (drop (Z.to_nat (sk_data s)) M)) as ->.
  { rewrite <- Hb. unfold p. by rewrite !take_drop. }
  rewrite <- Lp. apply check_local. by apply check_passes.
Qed.

Section Loop.
Context (pol : rx_policy) (ks : skb_source) (cx : rx_context) (ap : option (nat -> list Z -> list Z -> Z)) (f : rx_frame).
Hypothesis (Hks : forall k n b, rtw_skb_alloc ks k n = Some b -> zlen b = n) (Hcx : cx_psta cx = true).

(** What the look at a packet does. *)
Local Abbreviation looks := (check_events cx (fr_encrypt (rx_hdr f))).

(** Every packet for the stack holds what is looked at. *)
Local Abbreviation roomy_all := (Forall (fun e => check_room cx e = true)).

(** What becomes of a subframe. *)
Lemma take_spec a da sa msdu t len k subs fwd ev :
  zlen da = 6 -> zlen sa = 6 -> zlen subs < MAX_SUBFRAME_COUNT -> Forall is_u8 (ethernet da sa msdu) ->
  let act := rx_act ap k da sa in
  let e := ethernet da sa msdu in
  let only_fwd := Z.testbit act 1 && negb (Z.testbit act 0) in
  let r := amsdu_take ks cx ap f (AmsduSt (a ++ (sub_hdr da sa (zlen msdu) ++ msdu) ++ t) (zlen a) len k subs fwd ev) da sa (zlen msdu)
             (if snap msdu then RTW_RX_LLC_REMOVE else RTW_RX_LLC_KEEP) in
  if act =? 0 then r = Ret (Some (a ++ (sub_hdr da sa (zlen msdu) ++ msdu) ++ t, subs, fwd, ev))
  else if negb (has_skb ks k (zlen msdu)) then r = Ret None
  else only_fwd = true \/ check_room cx e = true ->
    exists x s, zlen x = 14 + zlen msdu /\ reads (a ++ x) s e /\
    r = Ret (Some (a ++ x ++ t, if only_fwd then subs else subs ++ [s],
                   fwd ++ (if Z.testbit act 1 then [e] else []), if only_fwd then ev else ev ++ looks e)).
Proof.
  intros Hda Hsa Hs Hu act e only_fwd r. unfold r, amsdu_take. cbn [am_pdata am_k am_mem am_sub am_fwd am_ev]. fold act.
  destruct (act =? 0); [done|]. pose proof (alloc_spec a da sa msdu t Hda Hsa ks Hks k) as Ha. cbn zeta in Ha.
  destruct (has_skb ks k (zlen msdu)); cbn [negb].
  - intros Hroom. destruct Ha as (x & s & -> & Lx & Hr). rewrite bind_Ret. exists x, s. split_and!; [done|done|].
    unfold RTW_RX_MSDU_ACT_FORWARD, RTW_RX_MSDU_ACT_INDICATE. rewrite land_act by lia.
    rewrite <- (negb_involutive (Z.land act (BIT 0) =? 0)), land_act by lia.
    assert ((if Z.testbit act 1 then b ← skb_bytes (a ++ x ++ t) s; Ret (fwd ++ [b]) else Ret fwd) =
            Ret (fwd ++ if Z.testbit act 1 then [e] else [])) as ->.
    { destruct (Z.testbit act 1); [|by rewrite app_nil_r]. by rewrite app_assoc, Hr, bind_Ret. }
    rewrite bind_Ret. unfold only_fwd in *. destruct (Z.testbit act 1 && _); [done|]. destruct Hroom as [|Hroom]; [done|].
    assert (skb_bytes (a ++ x ++ t) s = Ret e) as Hb by (rewrite app_assoc; apply Hr).
    rewrite (check_packet cx _ _ _ e) by done. rewrite bind_Ret. cbn [fst snd]. change (_SUCCESS =? _SUCCESS) with true. cbn match.
    unfold add_subframe. rewrite (proj2 (Z.leb_gt _ _)) by lia. by rewrite bind_Ret.
  - rewrite Ha, bind_Ret. done.
Qed.

Lemma padding_padded n : 0 <= n -> let p := 4 - Z.land (n + ETH_HLEN) (4 - 1) in (if p =? 4 then 0 else p) = padded (ETH_HLEN + n) - (ETH_HLEN + n).
Proof.
  intros Hn. cbn zeta. change (4 - 1) with (Z.ones 2). rewrite Z.land_ones by lia. change (2 ^ 2) with 4. unfold padded, ETH_HLEN.
  destruct (Z.eqb_spec (4 - (n + 14) mod 4) 4); zlia.
Qed.

(** To the next subframe: behind the padding, or to the end. *)
Lemma next_spec a h msdu x rest t k subs fwd ev len m0 subs0 fwd0 ev0 :
  zlen h = 14 -> zlen x = 14 + zlen msdu -> zlen subs < MAX_SUBFRAME_COUNT -> len = zlen ((h ++ msdu) ++ rest) ->
  let m := a ++ x ++ rest ++ t in
  let st := AmsduSt m0 (zlen a) len k subs0 fwd0 ev0 in
  let c' := drop (Z.to_nat (padded (ETH_HLEN + zlen msdu))) ((h ++ msdu) ++ rest) in
  (exists p, rest = p ++ c' /\ amsdu_next st (zlen msdu) m subs fwd ev = (true, AmsduSt m (zlen (a ++ x ++ p)) (zlen c') (S k) subs fwd ev)) \/
  (exists q l, c' = [] /\ amsdu_next st (zlen msdu) m subs fwd ev = (false, AmsduSt m q l (S k) subs fwd ev)).
Proof.
  intros Hh Hx Hs -> m st c'. unfold amsdu_next. cbn [am_pdata am_len am_k st]. pose proof (zlen_nonneg msdu) as H0. pose proof (zlen_nonneg rest) as H1.
  rewrite (proj2 (Z.leb_gt _ _)) by done. rewrite padding_padded by done. rewrite !zlen_app, Hh. set (pad := padded (ETH_HLEN + zlen msdu)) in *.
  assert (0 <= pad - (ETH_HLEN + zlen msdu) < 4) as Hp by (unfold pad, padded, ETH_HLEN; zlia). unfold ETH_HLEN in *.
  assert (c' = drop (Z.to_nat (pad - (14 + zlen msdu))) rest) as Ec.
  { unfold c'. rewrite drop_app_ge by (rewrite length_app; unfold zlen in *; lia). f_equal. rewrite length_app. unfold zlen in *. lia. }
  destruct (Z.eqb_spec (14 + zlen msdu + zlen rest - 14 - zlen msdu) 0) as [E|E]; cbn [negb].
  - left. assert (rest = []) as -> by (destruct rest; [done|unfold zlen in *; cbn in *; lia]). rewrite drop_nil in Ec. rewrite Ec.
    exists []. split; [done|]. rewrite !zlen_app. do 2 f_equal; unfold zlen in *; cbn [length]; lia.
  - destruct (Z.ltb_spec (14 + zlen msdu + zlen rest - 14 - zlen msdu) (pad - (14 + zlen msdu))) as [H|H].
    + right. do 2 eexists. split; [|done]. rewrite Ec. apply drop_ge. unfold zlen in *. lia.
    + left. exists (take (Z.to_nat (pad - (14 + zlen msdu))) rest). rewrite Ec, take_drop. split; [done|].
      rewrite !zlen_app. do 2 f_equal; unfold zlen in *; rewrite ?length_take, ?length_drop; lia.
Qed.

(** A state in which the loop is left. *)
Lemma left_with a t subs es fwd ev st :
  Forall2 (reads a) subs es -> am_mem st = a ++ t -> am_sub st = subs -> am_fwd st = fwd -> am_ev st = ev ->
  indicate_all (am_mem st) (am_sub st) = Ret (es ++ []) /\ am_fwd st = fwd ++ [] /\ am_ev st = ev ++ flat_map looks [].
Proof. intros H -> -> -> ->. cbn [flat_map]. rewrite !app_nil_r. split; [by apply indicate_reads|done]. Qed.

Lemma split_nil fuel : split_amsdu fuel [] = [].
Proof. by destruct fuel. Qed.

Definition loop_result (fuel : nat) : Prop := forall a c t k subs es fwd ev,
  Forall is_u8 c -> (length c <= fuel)%nat -> Forall2 (reads a) subs es -> zlen subs < MAX_SUBFRAME_COUNT ->
  let r := hand_on pol ks ap f k (64 - length subs) (split_amsdu fuel c) in
  roomy_all r.1 ->
  exists st', amsdu_loop pol ks cx ap fuel f (AmsduSt (a ++ c ++ t) (zlen a) (zlen c) k subs fwd ev) = Ret st' /\
    indicate_all (am_mem st') (am_sub st') = Ret (es ++ r.1) /\ am_fwd st' = fwd ++ r.2 /\
    am_ev st' = ev ++ flat_map looks r.1.

(** The subframes behind the padding. *)
Lemma after_next fuel a h msdu x rest t k subs es fwd ev len m0 subs0 fwd0 ev0 :
  loop_result fuel -> Forall is_u8 rest -> (length rest <= fuel)%nat ->
  zlen h = 14 -> zlen x = 14 + zlen msdu -> Forall2 (reads (a ++ x)) subs es -> zlen subs < MAX_SUBFRAME_COUNT -> len = zlen ((h ++ msdu) ++ rest) ->
  let m := a ++ x ++ rest ++ t in
  let r := hand_on pol ks ap f (S k) (64 - length subs)
             (split_amsdu fuel (drop (Z.to_nat (padded (ETH_HLEN + zlen msdu))) ((h ++ msdu) ++ rest))) in
  roomy_all r.1 ->
  exists st', (let r := amsdu_next (AmsduSt m0 (zlen a) len k subs0 fwd0 ev0) (zlen msdu) m subs fwd ev in
               if r.1 then amsdu_loop pol ks cx ap fuel f r.2 else Ret r.2) = Ret st' /\
    indicate_all (am_mem st') (am_sub st') = Ret (es ++ r.1) /\ am_fwd st' = fwd ++ r.2 /\ am_ev st' = ev ++ flat_map looks r.1.
Proof.
  intros IH Hu Hf Hh Hx Hr Hs Hlen m r Hroom. unfold r in *. clear r. cbn zeta.
  destruct (next_spec a h msdu x rest t k subs fwd ev len m0 subs0 fwd0 ev0 Hh Hx Hs Hlen) as [(p & E & En)|(q & l & E & En)]; cbn zeta in E, En; fold m in En;
    rewrite En; cbn [fst snd].
  - set (c' := drop _ _) in *. clearbody c'. assert (m = (a ++ x ++ p) ++ c' ++ t) as -> by (unfold m; rewrite E; assoc). apply IH; [| | |done|done].
    + rewrite E in Hu. by apply Forall_app in Hu as [_ Hu].
    + rewrite E, length_app in Hf. lia.
    + rewrite app_assoc. eapply Forall2_impl; [|exact Hr]. intros. by apply reads_more.
  - rewrite E, split_nil. eexists. split; [done|]. apply (left_with (a ++ x) (rest ++ t) subs es fwd ev); try done. cbn [am_mem]. unfold m. assoc.
Qed.

Lemma room_left (subs : list skb) : zlen subs < MAX_SUBFRAME_COUNT -> exists r, (64 - length subs)%nat = S r.
Proof. unfold zlen, MAX_SUBFRAME_COUNT. intros H. exists (63 - length subs)%nat. lia. Qed.

(** The body of the loop on a subframe. *)
Lemma step_result fuel a da sa msdu rest t k subs es fwd ev :
  loop_result fuel -> zlen da = 6 -> zlen sa = 6 -> is_u16 (zlen msdu) -> Forall is_u8 (da ++ sa) -> Forall is_u8 msdu -> Forall is_u8 rest -> (length rest <= fuel)%nat ->
  Forall2 (reads a) subs es -> zlen subs < MAX_SUBFRAME_COUNT ->
  let c := (sub_hdr da sa (zlen msdu) ++ msdu) ++ rest in
  let l := Subframe da sa msdu :: split_amsdu fuel (drop (Z.to_nat (padded (ETH_HLEN + zlen msdu))) c) in
  let r := hand_on pol ks ap f k (64 - length subs) l in
  roomy_all r.1 ->
  exists st', (r ← amsdu_step pol ks cx ap f (AmsduSt (a ++ c ++ t) (zlen a) (zlen c) k subs fwd ev);
               if (r.1 : bool) then amsdu_loop pol ks cx ap fuel f r.2 else Ret r.2) = Ret st' /\
    indicate_all (am_mem st') (am_sub st') = Ret (es ++ r.1) /\ am_fwd st' = fwd ++ r.2 /\ am_ev st' = ev ++ flat_map looks r.1.
Proof.
  intros IH Hda Hsa Hn Hadr Hm Hu Hf Hr Hs c l r Hroom. unfold r in *. clear r. unfold amsdu_step. cbn [am_pdata am_mem am_len].
  pose proof (zlen_sub_hdr da sa (zlen msdu) Hda Hsa) as Lh. set (h := sub_hdr da sa (zlen msdu)) in *. pose proof (zlen_nonneg rest) as H0.
  assert (a ++ c ++ t = (a ++ da ++ sa) ++ put_be16 (zlen msdu) ++ (msdu ++ rest ++ t)) as E1 by (unfold c, h, sub_hdr; assoc).
  assert (a ++ c ++ t = a ++ da ++ (sa ++ put_be16 (zlen msdu) ++ msdu ++ rest ++ t)) as E2 by (unfold c, h, sub_hdr; assoc).
  assert (a ++ c ++ t = (a ++ da) ++ sa ++ (put_be16 (zlen msdu) ++ msdu ++ rest ++ t)) as E3 by (unfold c, h, sub_hdr; assoc).
  assert (a ++ c ++ t = (a ++ h) ++ msdu ++ (rest ++ t)) as E4 by (unfold c, h, sub_hdr; assoc).
  assert (RTW_GET_BE16 (a ++ c ++ t) (zlen a + 12) = Ret (zlen msdu)) as ->.
  { rewrite E1. apply (@get_put16 _ be16_codec); [rewrite !zlen_app; lia|done]. }
  rewrite bind_Ret. rewrite (proj2 (Z.ltb_ge _ _)) by (unfold c; rewrite !zlen_app, Lh; unfold ETH_HLEN; lia).
  assert (rds (a ++ c ++ t) (zlen a) ETH_ALEN = Ret da) as -> by (rewrite E2; apply rds_at; unfold ETH_ALEN; lia).
  assert (rds (a ++ c ++ t) (zlen a + ETH_ALEN) ETH_ALEN = Ret sa) as -> by (rewrite E3; apply rds_at; rewrite ?zlen_app; unfold ETH_ALEN; lia).
  rewrite !bind_Ret. unfold l in *. cbn [hand_on sf_da sf_sa sf_msdu] in *. pose proof (validate_spec pol f (Subframe da sa msdu)) as Hval.
  cbn [sf_da sf_sa] in Hval. rewrite Hval. clear Hval. destruct (negb (acceptable_subframe pol f (Subframe da sa msdu))); [eexists; split; [done|by apply (left_with a (c ++ t) subs es fwd ev)]|].
  assert (rtw_recv_llc_parse (a ++ c ++ t) (zlen a + ETH_HLEN) (zlen msdu) = Ret (if snap msdu then RTW_RX_LLC_REMOVE else RTW_RX_LLC_KEEP)) as ->.
  { rewrite E4. apply llc_parse_spec; [done|rewrite zlen_app; unfold ETH_HLEN; lia|done]. }
  rewrite bind_Ret. pose proof (proj1 (Forall_app _ _ _) Hadr) as [Uda Usa].
  pose proof (take_spec a da sa msdu (rest ++ t) (zlen c) k subs fwd ev Hda Hsa Hs (ethernet_bytes _ _ _ Uda Usa Hm Hn)) as Ht. cbn zeta in Ht. fold h in Ht.
  assert (a ++ (h ++ msdu) ++ rest ++ t = a ++ c ++ t) as E5 by (unfold c; assoc). rewrite E5 in Ht.
  pose proof (fun x subs' es' fwd' ev' H1 H2 H3 =>
    after_next fuel a h msdu x rest t k subs' es' fwd' ev' (zlen c) (a ++ c ++ t) subs fwd ev IH Hu Hf Lh H1 H2 H3 eq_refl) as Hnext.
  cbn zeta in Hnext. fold c in Hnext. destruct (rx_act ap k da sa =? 0).
  { rewrite Ht, !bind_Ret. specialize (Hnext (h ++ msdu) subs es fwd ev). rewrite E5 in Hnext. apply Hnext; [rewrite zlen_app; lia| |done|done].
    eapply Forall2_impl; [|exact Hr]. intros. by apply reads_more. }
  destruct (has_skb ks k (zlen msdu)); cbn [negb] in *.
  2: { rewrite Ht, !bind_Ret. eexists. split; [done|]. by apply (left_with a (c ++ t) subs es fwd ev). }
  set (e := ethernet da sa msdu) in *. set (act := rx_act ap k da sa) in *.
  assert (Forall2 (reads a) subs es -> forall x, Forall2 (reads (a ++ x)) subs es) as Hmore
    by (intros H x; eapply Forall2_impl; [|exact H]; intros; by apply reads_more).
  destruct (Z.testbit act 1 && negb (Z.testbit act 0)) eqn:Ef.
  - destruct (Ht (or_introl eq_refl)) as (x & s & Lx & Hx & Ht'). rewrite Ht', !bind_Ret. clear Ht Ht'. cbn [fst snd] in Hroom.
    apply andb_true_iff in Ef as [Ef _]. rewrite Ef. destruct (Hnext x subs es (fwd ++ [e]) ev Lx (Hmore Hr x) Hs Hroom) as (st' & H1 & H2 & H3 & H4).
    exists st'. split; [exact H1|]. cbn [fst snd]. split; [exact H2|]. rewrite H3. split; [by rewrite <- app_assoc|exact H4].
  - set (fl := if Z.testbit act 1 then [e] else []) in *. destruct (room_left subs Hs) as [r Er]. rewrite Er in *.
    assert (check_room cx e = true) as He by (destruct r; cbn [fst] in Hroom; by apply Forall_cons_1 in Hroom as [? _]).
    destruct (Ht (or_intror He)) as (x & s & Lx & Hx & Ht'). rewrite Ht', !bind_Ret. clear Ht Ht'.
    assert (Forall2 (reads (a ++ x)) (subs ++ [s]) (es ++ [e])) as Hr2 by (apply Forall2_app; [by apply Hmore|by repeat constructor]).
    destruct r as [|r].
    + unfold amsdu_next. rewrite (proj2 (Z.leb_le _ _)) by (rewrite zlen_app; unfold zlen, MAX_SUBFRAME_COUNT in *; cbn [length]; lia).
      cbn [fst snd]. eexists. split; [done|]. cbn [am_mem am_sub am_fwd am_ev flat_map]. rewrite app_nil_r, app_assoc.
      split; [by apply indicate_reads|done].
    + cbn [fst] in Hroom. apply Forall_cons_1 in Hroom as [_ Hroom].
      assert ((64 - length (subs ++ [s]))%nat = S r) as E by (rewrite length_app; cbn [length]; lia).
      specialize (Hnext x (subs ++ [s]) (es ++ [e]) (fwd ++ fl) (ev ++ looks e) Lx Hr2). rewrite E in Hnext.
      destruct Hnext as (st' & H1 & H2 & H3 & H4); [rewrite zlen_app; unfold zlen, MAX_SUBFRAME_COUNT in *; cbn [length]; lia|done|].
      exists st'. split; [exact H1|]. cbn [fst snd flat_map]. split; [rewrite H2|split; [rewrite H3|rewrite H4]]; by rewrite <- app_assoc.
Qed.

Lemma loop_spec fuel : loop_result fuel.
Proof.
  induction fuel as [|fuel IH]; intros a c t k subs es fwd ev Hu Hf Hr Hs r Hroom; unfold r in *; clear r.
  { assert (c = []) as -> by (destruct c; [done|cbn in Hf; lia]). eexists. split; [done|]. by apply (left_with a t subs es fwd ev). }
  cbn [amsdu_loop split_amsdu am_len] in *. destruct (Z.leb_spec (zlen c) ETH_HLEN) as [H|H]; cbn [orb] in *.
  { eexists. split; [done|]. by apply (left_with a (c ++ t) subs es fwd ev). }
  destruct (split_hdr c Hu ltac:(unfold ETH_HLEN in *; lia)) as (Ec & Hda & Hsa & Hn). cbn zeta in Ec, Hn. set (n := nth 12 c 0 * 256 + nth 13 c 0) in *.
  set (da := take 6 c) in *. set (sa := take 6 (drop 6 c)) in *. set (d := drop 14 c) in *.
  assert (zlen d = zlen c - 14) as Ld by (unfold d, ETH_HLEN, zlen in *; rewrite length_drop; lia).
  assert (Forall is_u8 d) as Hd by by apply Forall_drop.
  destruct (Z.ltb_spec (zlen c) (ETH_HLEN + n)) as [Hlt|Hge].
  - unfold amsdu_step. cbn [am_pdata am_mem am_len].
    assert (RTW_GET_BE16 (a ++ c ++ t) (zlen a + 12) = Ret n) as ->.
    { assert (a ++ c ++ t = (a ++ da ++ sa) ++ put_be16 n ++ (d ++ t)) as -> by (rewrite Ec; unfold sub_hdr; assoc).
      apply (@get_put16 _ be16_codec); [rewrite !zlen_app; lia|done]. }
    rewrite bind_Ret, (proj2 (Z.ltb_lt _ _)), bind_Ret by done. eexists. split; [done|]. by apply (left_with a (c ++ t) subs es fwd ev).
  - set (msdu := take (Z.to_nat n) d) in *. set (rest := drop (Z.to_nat n) d).
    assert (zlen msdu = n) as Lm by (unfold msdu, is_u16, ETH_HLEN, zlen in *; rewrite length_take; lia).
    assert (c = (sub_hdr da sa n ++ msdu) ++ rest) as Ec' by (rewrite Ec at 1; unfold msdu, rest; by rewrite <- app_assoc, take_drop).
    assert (Forall is_u8 msdu /\ Forall is_u8 rest) as [Hm Hrest] by (split; [by apply Forall_take|by apply Forall_drop]).
    assert (Forall is_u8 (da ++ sa)) as Hadr by (unfold da, sa; apply Forall_app_2; [by apply Forall_take|by apply Forall_take, Forall_drop]).
    assert (length rest <= fuel)%nat as Hlen by (unfold rest, ETH_HLEN, zlen in *; rewrite length_drop; lia).
    rewrite <- Lm in Ec', Hn, Hroom. rewrite <- Lm. clearbody da sa msdu rest d. clear Ec n Lm Hge. subst c. by apply step_result.
Qed.
End Loop.

Lemma pull_view f n : view_ok f -> 0 <= n -> view_ok (recvframe_pull f n) /\ fr_mem (recvframe_pull f n) = fr_mem f.
Proof.
  intros (H1 & H2 & H3 & H4) Hn. unfold recvframe_pull. destruct (Z.ltb_spec (fr_tail f) (fr_data f + n)); [done|]. unfold view_ok.
  cbn [set_view fr_mem fr_data fr_tail fr_len]. rewrite u32_small by (unfold is_u32; lia). split; [split_and!; lia|done].
Qed.

Lemma pull_tail_view f n : view_ok f -> 0 <= n -> view_ok (recvframe_pull_tail f n) /\ fr_mem (recvframe_pull_tail f n) = fr_mem f.
Proof.
  intros (H1 & H2 & H3 & H4) Hn. unfold recvframe_pull_tail. destruct (Z.ltb_spec (fr_tail f - n) (fr_data f)); [done|]. unfold view_ok.
  cbn [set_view fr_mem fr_data fr_tail fr_len]. rewrite u32_small by (unfold is_u32; lia). split; [split_and!; lia|done].
Qed.

(** A frame as the hardware hands it over, whatever its bytes are. *)
Definition rx_ok (h : frag) : Prop :=
  view_ok h /\ Forall is_u8 (fr_mem h) /\ 0 <= fr_hdrlen h /\ 0 <= fr_iv_len h /\ 0 <= fr_icv_len h.

Lemma pull_fields f n : fr_iv_len (recvframe_pull f n) = fr_iv_len f /\ fr_icv_len (recvframe_pull f n) = fr_icv_len f /\
  fr_encrypt (recvframe_pull f n) = fr_encrypt f.
Proof. unfold recvframe_pull. by destruct (_ <? _). Qed.

Lemma amsdu_view_ok h : rx_ok h -> view_ok (amsdu_view h) /\ fr_mem (amsdu_view h) = fr_mem h.
Proof.
  intros (Hv & _ & Hh & Hi & Hc). unfold amsdu_view. destruct (pull_view h (fr_hdrlen h) Hv Hh) as [V1 M1].
  destruct (pull_fields h (fr_hdrlen h)) as (I1 & C1 & _). set (h1 := recvframe_pull h (fr_hdrlen h)) in *. rewrite I1.
  set (h2 := if 0 <? fr_iv_len h then recvframe_pull h1 (fr_iv_len h) else h1).
  assert (view_ok h2 /\ fr_mem h2 = fr_mem h /\ fr_icv_len h2 = fr_icv_len h) as (V2 & M2 & C2).
  { unfold h2. destruct (0 <? fr_iv_len h); [|by rewrite C1]. destruct (pull_view h1 (fr_iv_len h) V1 Hi) as [V2 M2].
    destruct (pull_fields h1 (fr_iv_len h)) as (_ & -> & _). by rewrite M2, M1, C1. }
  destruct (negb _); [|done]. destruct (pull_tail_view h2 (fr_icv_len h2) V2 ltac:(lia)) as [V3 M3]. by rewrite M3, M2.
Qed.

Lemma hand_on_bound pol ks ap f l : forall k room, (1 <= room)%nat -> (length (hand_on pol ks ap f k room l).1 <= room)%nat.
Proof.
  induction l as [|s l IH]; intros k room Hr; cbn [hand_on fst length]; [lia|].
  destruct (negb (acceptable_subframe _ _ _)); [cbn; lia|]. destruct (_ =? 0); [by apply IH|]. destruct (negb _); [cbn; lia|].
  destruct (_ && _); [by apply IH|]. destruct room as [|[|room]]; cbn [fst length]; [lia|lia|]. specialize (IH (S k) (S room)). lia.
Qed.

Lemma amsdu_to_msdu_spec pol ks cx ap f :
  (forall k n b, rtw_skb_alloc ks k n = Some b -> zlen b = n) -> cx_psta cx = true -> rx_ok (rx_hdr f) ->
  let c := content (amsdu_view (rx_hdr f)) in
  let r := hand_on pol ks ap f 0 64 (split_amsdu (length c) c) in
  Forall (fun e => check_room cx e = true) r.1 ->
  amsdu_to_msdu pol ks cx ap f = Ret (r, flat_map (check_events cx (fr_encrypt (rx_hdr f))) r.1).
Proof.
  intros Hks Hcx Hok c r Hroom. destruct (amsdu_view_ok _ Hok) as [Hv Hm]. pose proof Hok as (_ & Hu & _). rewrite <- Hm in Hu. unfold amsdu_to_msdu.
  set (h := amsdu_view (rx_hdr f)) in *. destruct (view_split h Hv) as (a & b & E1 & E2 & E3 & _). fold c in E1, E3.
  rewrite E1, E2, <- E3, to_nat_zlen.
  destruct (loop_spec pol ks cx ap f Hks Hcx (length c) a c b 0%nat [] [] [] []) as (st & -> & H1 & H2 & H3); [|lia|constructor|done|exact Hroom|].
  { rewrite E1 in Hu. apply Forall_app in Hu as [_ Hu]. by apply Forall_app in Hu as [Hu _]. }
  change (64 - length [])%nat with 64%nat in H1, H2, H3. cbn [app] in H1, H2, H3. fold r in H1, H2, H3.
  rewrite bind_Ret, H1, bind_Ret, H2, H3. by destruct r.
Qed.

(** C19. Receiving an A-MSDU, whatever its bytes are, in a frame whose pointers
    lie in its memory object, with a station and with memory for packets of
    exactly the size that is asked for: if each packet for the stack holds what
    [rtw_recv_indicatepkt_check] looks at ([check_room]: two bytes behind the
    Ethernet header of an EAPOL packet, 99 of an EAPOL key, ten of an IPv4
    packet, its TCP header when sessions are tracked), the loop ends and stays
    inside the frame, the packets and the table of subframes, and hands on what
    the abstract receiver says: the bytes behind header and IV are cut into
    subframes, and each becomes an Ethernet frame with its own addresses, in
    order, at most 64 of them, up to the first that is not acceptable (on a
    protected link the destination must be the receiver, from the distribution
    system, or the source the transmitter, to it) or finds no memory.  It makes no
    difference which packets are copies and which are clones that share the
    memory the loop still reads and writes, and the looks see these packets
    alone.  ([eapol_read_outside] shows a packet without room.) *)
Theorem amsdu_refines pol ks cx ap f :
  (forall k n b, rtw_skb_alloc ks k n = Some b -> zlen b = n) -> cx_psta cx = true -> rx_ok (rx_hdr f) ->
  let c := content (amsdu_view (rx_hdr f)) in
  let r := hand_on pol ks ap f 0 64 (split_amsdu (length c) c) in
  Forall (fun e => check_room cx e = true) r.1 ->
  amsdu_to_msdu pol ks cx ap f = Ret (r, flat_map (check_events cx (fr_encrypt (rx_hdr f))) r.1) /\ (length r.1 <= 64)%nat.
Proof.
  intros Hks Hcx Hok c r Hroom. split; [by apply amsdu_to_msdu_spec|]. apply hand_on_bound. lia.
Qed.

(** ** A-MSDUs as they are sent *)

Definition sub_ok (s : subframe) : Prop :=
  zlen (sf_da s) = 6 /\ zlen (sf_sa s) = 6 /\ 0 < zlen (sf_msdu s) < 65536 /\
  Forall is_u8 (sf_da s) /\ Forall is_u8 (sf_sa s) /\ Forall is_u8 (sf_msdu s).

Definition enc_sub (s : subframe) : list Z := sub_hdr (sf_da s) (sf_sa s) (zlen (sf_msdu s)) ++ sf_msdu s.

(** Every subframe but the last is padded. *)
Fixpoint enc_amsdu (l : list subframe) : list Z :=
  match l with
  | [] => []
  | [s] => enc_sub s
  | s :: l => enc_sub s ++ repeat 0 (Z.to_nat (padded (zlen (enc_sub s)) - zlen (enc_sub s))) ++ enc_amsdu l
  end.

Lemma split_sub fuel s r :
  sub_ok s -> split_amsdu (S fuel) (enc_sub s ++ r) =
              s :: split_amsdu fuel (drop (Z.to_nat (padded (zlen (enc_sub s)))) (enc_sub s ++ r)).
Proof.
  intros (Hda & Hsa & Hn & _). unfold enc_sub. destruct s as [da sa msdu]. cbn [sf_da sf_sa sf_msdu] in *. cbn [split_amsdu].
  pose proof (zlen_sub_hdr da sa (zlen msdu) Hda Hsa) as Lh. pose proof (zlen_nonneg r) as Hr.
  set (c := (sub_hdr da sa (zlen msdu) ++ msdu) ++ r).
  assert (c = da ++ sa ++ put_be16 (zlen msdu) ++ msdu ++ r) as Ec by (unfold c, sub_hdr; assoc).
  rewrite put_be16_bytes in Ec by (unfold is_u16; lia). unfold zlen in Hda, Hsa.
  assert (nth 12 c 0 = zlen msdu / 256 /\ nth 13 c 0 = zlen msdu mod 256) as [-> ->].
  { rewrite Ec, app_assoc. split; (rewrite app_nth2; [|rewrite length_app; lia]); rewrite length_app.
    - by replace (12 - (length da + length sa))%nat with 0%nat by lia.
    - by replace (13 - (length da + length sa))%nat with 1%nat by lia. }
  replace (zlen msdu / 256 * 256 + zlen msdu mod 256) with (zlen msdu) by zlia.
  assert (zlen c = 14 + zlen msdu + zlen r) as Lc by (unfold c; rewrite !zlen_app; lia).
  rewrite (proj2 (Z.leb_gt _ _)), (proj2 (Z.ltb_ge _ _)) by (unfold ETH_HLEN; lia). cbn [orb]. f_equal.
  - f_equal; rewrite Ec; [by rewrite take_app_length' by lia|by rewrite drop_app_length', take_app_length' by lia|].
    rewrite (app_assoc da), (app_assoc (da ++ sa)), (drop_app_length' ((da ++ sa) ++ _)) by (rewrite !length_app; cbn [length]; lia).
    apply take_app_length'. unfold zlen. lia.
  - do 3 f_equal. rewrite zlen_app, Lh. done.
Qed.

Lemma zlen_enc_sub s : sub_ok s -> zlen (enc_sub s) = 14 + zlen (sf_msdu s).
Proof. intros (H1 & H2 & _). unfold enc_sub. by rewrite zlen_app, zlen_sub_hdr. Qed.

Lemma split_enc l : forall fuel, Forall sub_ok l -> (length (enc_amsdu l) <= fuel)%nat -> split_amsdu fuel (enc_amsdu l) = l.
Proof.
  induction l as [|s l IH]; intros fuel Hl Hf; [apply split_nil|]. apply Forall_cons_1 in Hl as [Hs Hl].
  pose proof (zlen_enc_sub s Hs) as Ls. pose proof Hs as (_ & _ & Hn & _).
  assert (zlen (enc_sub s) <= padded (zlen (enc_sub s))) as Hp by (unfold padded; zlia). destruct fuel as [|fuel].
  { exfalso. destruct l; cbn [enc_amsdu] in Hf; rewrite ?length_app in Hf; unfold zlen in *; lia. }
  destruct l as [|s2 l].
  - cbn [enc_amsdu] in *. rewrite <- (app_nil_r (enc_sub s)), split_sub by done. rewrite app_nil_r, drop_ge by (unfold zlen in *; lia).
    by rewrite split_nil.
  - assert (enc_amsdu (s :: s2 :: l) = enc_sub s ++ repeat 0 (Z.to_nat (padded (zlen (enc_sub s)) - zlen (enc_sub s))) ++ enc_amsdu (s2 :: l)) as E
      by reflexivity.
    rewrite E in *. set (pad := repeat 0 _) in *. rewrite split_sub by done. f_equal.
    assert (length pad = Z.to_nat (padded (zlen (enc_sub s)) - zlen (enc_sub s))) as Lp by (unfold pad; by rewrite repeat_length).
    rewrite app_assoc, (drop_app_length' (enc_sub s ++ pad)) by (rewrite length_app; unfold zlen in *; lia).
    apply IH; [done|]. rewrite !length_app in Hf. unfold zlen in *. lia.
Qed.

Definition ethernet_of (s : subframe) : list Z := ethernet (sf_da s) (sf_sa s) (sf_msdu s).

(** Every subframe is acceptable, finds memory, and holds what is looked at. *)
Definition all_pass (pol : rx_policy) (ks : skb_source) (cx : rx_context) (f : rx_frame) (l : list subframe) : Prop :=
  Forall (fun s => acceptable_subframe pol f s = true) l /\ (forall k n, has_skb ks k n = true) /\
  Forall (fun s => check_room cx (ethernet_of s) = true) l.

Lemma hand_on_station pol ks cx f l : forall k room, (length l <= room)%nat -> all_pass pol ks cx f l ->
  hand_on pol ks None f k room l = (map ethernet_of l, []).
Proof.
  induction l as [|s l IH]; intros k room Hr (Hv & Hk & Hc); [done|]. apply Forall_cons_1 in Hv as [Hs Hv].
  apply Forall_cons_1 in Hc as [_ Hc]. cbn [hand_on length] in *. rewrite Hs. cbn [negb]. change (rx_act None k (sf_da s) (sf_sa s)) with 1. change (1 =? 0) with false. cbn match. rewrite Hk. cbn [negb].
  change (Z.testbit 1 1 && _) with false. cbn match. change (Z.testbit 1 1) with false. cbn match. destruct room as [|[|room]]; [lia| |].
  - destruct l; [done|cbn in Hr; lia].
  - rewrite IH; [done|lia|by split_and!].
Qed.

(** C40. Sending and receiving: the subframes of an A-MSDU as IEEE 802.11 lays
    them out, at most 64 and none of them empty, come out of a station as
    Ethernet frames with the same addresses and payloads, in order, if there is
    memory for every packet, each holds what [rtw_recv_indicatepkt_check] looks
    at, and each subframe is acceptable: on a link that is protected and has no
    SPP A-MSDUs, from the distribution system each destination is the receiver
    address of the frame, to it each source is the transmitter address, and no
    destination is the SNAP header aa aa 03 00 00 00. *)
Theorem amsdu_roundtrip pol ks cx f l :
  (forall k n b, rtw_skb_alloc ks k n = Some b -> zlen b = n) -> cx_psta cx = true -> rx_ok (rx_hdr f) ->
  Forall sub_ok l -> (length l <= 64)%nat -> content (amsdu_view (rx_hdr f)) = enc_amsdu l -> all_pass pol ks cx f l ->
  amsdu_to_msdu pol ks cx None f =
  Ret (map ethernet_of l, [], flat_map (check_events cx (fr_encrypt (rx_hdr f))) (map ethernet_of l)).
Proof.
  intros Hks Hcx Hok Hl H64 Hc Hp. pose proof (amsdu_to_msdu_spec pol ks cx None f Hks Hcx Hok) as H. cbn zeta in H.
  rewrite Hc, split_enc, (hand_on_station pol ks cx) in H by done. apply H. cbn [fst]. apply List.Forall_map. apply Hp.
Qed.

(** ** Frames that are not A-MSDUs *)

(** The parts of a data frame: header and IV, MSDU, ICV. *)
Definition msdu_frame (f : rx_frame) (x msdu icv : list Z) : Prop :=
  let h := rx_hdr f in
  rx_ok h /\ content h = x ++ msdu ++ icv /\ zlen x = fr_hdrlen h + fr_iv_len h /\ 24 <= fr_hdrlen h /\
  zlen icv = (if negb (fr_encrypt h =? 0) then fr_icv_len h else 0) /\ zlen msdu < 65536 /\
  zlen (rx_dst f) = 6 /\ zlen (rx_src f) = 6.

Lemma snap_long msdu : snap msdu = true -> 8 <= zlen msdu.
Proof. unfold snap. intros [H _]%andb_true_iff. lia. Qed.

Lemma zlen_ethernet da sa msdu :
  zlen da = 6 -> zlen sa = 6 -> zlen (ethernet da sa msdu) = if snap msdu then zlen msdu + 6 else zlen msdu + 14.
Proof.
  intros Hd Hs. unfold ethernet. rewrite !zlen_app. destruct (snap msdu) eqn:E.
  - pose proof (snap_long msdu E). unfold zlen in *. rewrite length_drop. lia.
  - rewrite zlen_app. change (zlen (put_be16 _)) with 2. lia.
Qed.

(** The frame without its ICV. *)
Lemma strip_icv f x msdu icv :
  msdu_frame f x msdu icv ->
  let h := rx_hdr f in
  let h1 := if negb (fr_encrypt h =? 0) then recvframe_pull_tail h (fr_icv_len h) else h in
  exists a b, fr_mem h1 = a ++ x ++ msdu ++ icv ++ b /\ fr_data h1 = zlen a /\ fr_tail h1 = zlen a + zlen x + zlen msdu /\
    fr_len h1 = zlen x + zlen msdu /\ is_u32 (zlen x + zlen msdu) /\ fr_hdrlen h1 = fr_hdrlen h /\ fr_iv_len h1 = fr_iv_len h.
Proof.
  intros ((Hv & _ & _ & _ & Hc) & Ec & _ & _ & Licv & _) h h1. fold h in Hv, Hc, Ec, Licv. pose proof Hv as (V1 & V2 & V3 & V4).
  destruct (view_split h Hv) as (a & b & E1 & E2 & E3 & E4). rewrite Ec in E1, E3, E4. rewrite !zlen_app in E3, E4. exists a, b.
  pose proof (zlen_nonneg msdu). pose proof (zlen_nonneg icv). pose proof (zlen_nonneg x). pose proof (zlen_nonneg a).
  assert (is_u32 (zlen x + zlen msdu)) as H32 by (unfold is_u32; lia).
  assert (a ++ (x ++ msdu ++ icv) ++ b = a ++ x ++ msdu ++ icv ++ b) as Ea by assoc. rewrite Ea in E1. unfold h1.
  destruct (negb (fr_encrypt h =? 0)); [|split_and!; try done; lia]. unfold recvframe_pull_tail. rewrite (proj2 (Z.ltb_ge _ _)) by lia.
  cbn [set_view fr_mem fr_data fr_tail fr_len fr_hdrlen fr_iv_len]. rewrite u32_small by (unfold is_u32; lia). split_and!; try done; lia.
Qed.

(** Both addresses written over twelve bytes. *)
Lemma write_addrs a u v b dst src :
  zlen dst = 6 -> zlen src = 6 -> zlen u = 6 -> zlen v = 6 ->
  (m ← wrs (a ++ u ++ v ++ b) (zlen a) dst; wrs m (zlen a + ETH_ALEN) src) = Ret (a ++ dst ++ src ++ b).
Proof.
  intros Hd Hs Hu Hv. rewrite wrs_at by (unfold zlen in *; lia). rewrite bind_Ret, (app_assoc a).
  rewrite wrs_at by (rewrite ?zlen_app; unfold zlen, ETH_ALEN in *; lia). f_equal. assoc.
Qed.

(** What is written into the memory of the frame, [x] being header and IV and
    [z] the place of the new header. *)
Lemma write_header a x msdu r dst src :
  14 <= zlen x -> zlen dst = 6 -> zlen src = 6 -> is_u16 (zlen msdu) ->
  let z := zlen a + (zlen x - (if snap msdu then 6 else 14)) in
  exists y, zlen y = z /\
  (m ← wrs (a ++ x ++ msdu ++ r) z dst; m ← wrs m (z + ETH_ALEN) src;
   if negb (snap msdu) then wrs m (z + 12) (put_be16 (zlen msdu)) else Ret m) = Ret (y ++ ethernet dst src msdu ++ r).
Proof.
  intros Hx Hd Hs Hm. cbn zeta. unfold ethernet. rewrite <- bind_assoc. destruct (snap msdu) eqn:Es; cbn [negb].
  - pose proof (snap_long msdu Es). set (i := Z.to_nat (zlen x - 6)).
    assert (zlen (a ++ take i x) = zlen a + (zlen x - 6)) as Ly by (rewrite zlen_app; unfold i, zlen in *; rewrite length_take; lia).
    exists (a ++ take i x). split; [done|]. rewrite <- Ly.
    assert (a ++ x ++ msdu ++ r = (a ++ take i x) ++ drop i x ++ take 6 msdu ++ (drop 6 msdu ++ r)) as ->.
    { rewrite <- (take_drop i x) at 1. rewrite <- (take_drop 6 msdu) at 1. assoc. }
    rewrite write_addrs by (try done; unfold i, zlen in *; rewrite ?length_take, ?length_drop; lia). rewrite bind_Ret. f_equal. assoc.
  - set (i := Z.to_nat (zlen x - 14)).
    assert (zlen (a ++ take i x) = zlen a + (zlen x - 14)) as Ly by (rewrite zlen_app; unfold i, zlen in *; rewrite length_take; lia).
    exists (a ++ take i x). split; [done|]. rewrite <- Ly. set (d := drop i x).
    assert (length d = 14%nat) as Ld by (unfold d, i, zlen in *; rewrite length_drop; lia).
    assert (a ++ x ++ msdu ++ r = (a ++ take i x) ++ take 6 d ++ take 6 (drop 6 d) ++ (drop 12 d ++ msdu ++ r)) as ->.
    { rewrite <- (take_drop i x) at 1. fold d. rewrite <- (take_drop 6 d) at 1. rewrite <- (take_drop 6 (drop 6 d)) at 1. rewrite drop_drop. assoc. }
    rewrite write_addrs by (try done; unfold zlen in *; rewrite ?length_take, ?length_drop; lia). rewrite bind_Ret.
    set (y := a ++ take i x) in *.
    replace (y ++ dst ++ src ++ drop 12 d ++ msdu ++ r) with ((y ++ dst ++ src) ++ drop 12 d ++ (msdu ++ r)) by assoc.
    rewrite wrs_at by (first [rewrite !zlen_app; lia | rewrite length_drop; cbn [length put_be16]; lia]). f_equal. assoc.
Qed.

Lemma ethhdr_spec f x msdu icv :
  msdu_frame f x msdu icv ->
  exists g, wlanhdr_to_ethhdr f (if snap msdu then RTW_RX_LLC_REMOVE else RTW_RX_LLC_KEEP) = Ret (Some g) /\
    rds (fr_mem g) (fr_data g) (fr_len g) = Ret (ethernet (rx_dst f) (rx_src f) msdu).
Proof.
  intros Hf. pose proof Hf as ((_ & _ & _ & Hi & _) & _ & Lx & H24 & _ & Hm & Hd & Hs). unfold wlanhdr_to_ethhdr.
  destruct (strip_icv f x msdu icv Hf) as (a & b & E1 & E2 & E3 & E4 & H32 & E5 & E6). set (h1 := if negb _ then _ else _) in *. clearbody h1.
  rewrite E4, E5, E6, <- Lx. pose proof (zlen_nonneg msdu) as M0. unfold is_u32 in H32.
  assert (llc_true (if snap msdu then RTW_RX_LLC_REMOVE else RTW_RX_LLC_KEEP) = snap msdu) as -> by by destruct (snap msdu).
  set (z := zlen x - (if snap msdu then 6 else 14)).
  assert (zlen x + (if snap msdu then SNAP_SIZE else 0) - ETH_HLEN + (if snap msdu then 2 else 0) = z) as ->
    by (unfold z, SNAP_SIZE, ETH_HLEN; destruct (snap msdu); lia).
  assert (0 <= z <= zlen x) as Hz by (unfold z; destruct (snap msdu); lia).
  rewrite (proj2 (Z.ltb_ge _ _)) by lia. unfold recvframe_pull. rewrite (proj2 (Z.ltb_ge _ _)) by lia.
  cbn [set_view fr_mem fr_data fr_tail fr_len]. rewrite E1, E2, E4, u32_small by (unfold is_u32; lia).
  destruct (write_header a x msdu (icv ++ b) (rx_dst f) (rx_src f)) as (y & Ly & Ew); [lia|done|done|unfold is_u16; lia|]. fold z in Ew, Ly.
  assert (forall m, (if negb (snap msdu) then wrs m (zlen a + z + 12) (put_be16 (u16 (zlen x + zlen msdu - (zlen x + (if snap msdu then SNAP_SIZE else 0))))) else Ret m) =
                    (if negb (snap msdu) then wrs m (zlen a + z + 12) (put_be16 (zlen msdu)) else Ret m)) as El.
  { intros m. destruct (snap msdu); [done|]. cbn [negb]. do 2 f_equal. rewrite Z.add_0_r, Z.add_simpl_l. apply u16_small. unfold is_u16. lia. }
  eexists. split.
  - transitivity ((m ← wrs (a ++ x ++ msdu ++ icv ++ b) (zlen a + z) (rx_dst f); m ← wrs m (zlen a + z + ETH_ALEN) (rx_src f);
      if negb (snap msdu) then wrs m (zlen a + z + 12) (put_be16 (zlen msdu)) else Ret m) ≫= fun m => Ret (Some (set_view
        (set_view h1 (a ++ x ++ msdu ++ icv ++ b) (zlen a + z) (fr_tail h1) (zlen x + zlen msdu - z)) m (zlen a + z) (fr_tail h1) (zlen x + zlen msdu - z)))).
    + destruct (wrs (a ++ _) _ _) as [m| |]; [|done|done]. rewrite !bind_Ret. destruct (wrs m _ _) as [m'| |]; [|done|done]. by rewrite !bind_Ret, El.
    + by rewrite Ew, bind_Ret.
  - cbn [set_view fr_mem fr_data fr_len]. apply rds_at; [done|]. rewrite zlen_ethernet by done. unfold z. destruct (snap msdu); lia.
Qed.

(** Other data frames: a frame of header, IV, MSDU and ICV reaches the stack of
    a station as an Ethernet frame with the addresses of the frame and the MSDU,
    its SNAP header removed or its length put in front, if that frame holds what
    [rtw_recv_indicatepkt_check] looks at; the header is built inside the
    frame. *)
Theorem msdu_delivered pol ks cx f x msdu icv :
  msdu_frame f x msdu icv -> rx_is_amsdu f = false -> cx_psta cx = true ->
  Forall is_u8 (rx_dst f) -> Forall is_u8 (rx_src f) ->
  let e := ethernet (rx_dst f) (rx_src f) msdu in
  check_room cx e = true ->
  rtw_core_rx_data_post_process pol ks cx None f = Ret (CORE_RX_DONE, [e], [], check_events cx (fr_encrypt (rx_hdr f)) e).
Proof.
  intros Hf Ha Hcx Hd Hs e Hroom. unfold rtw_core_rx_data_post_process. rewrite Ha. unfold core_rx_process_msdu.
  pose proof Hf as ((Hv & Hu & Hh & Hi & _) & Ec & Lx & H24 & Licv & Hm & _). set (h := rx_hdr f) in *.
  destruct (view_split h Hv) as (a & b & E1 & E2 & E3 & E4). rewrite Ec in E1, E3. rewrite !zlen_app in E3.
  assert (rtw_recv_llc_parse (fr_mem h) (fr_data h + fr_hdrlen h + fr_iv_len h)
    (u16 (fr_len h - fr_hdrlen h - fr_iv_len h - (if negb (fr_encrypt h =? 0) then fr_icv_len h else 0))) =
    Ret (if snap msdu then RTW_RX_LLC_REMOVE else RTW_RX_LLC_KEEP)) as ->.
  { rewrite <- Licv. assert (fr_mem h = (a ++ x) ++ msdu ++ (icv ++ b)) as Em by (rewrite E1; assoc). pose proof (zlen_nonneg msdu).
    rewrite Em in *. apply llc_parse_spec; [|rewrite zlen_app; lia|rewrite u16_small; unfold is_u16; lia].
    apply Forall_app in Hu as [_ Hu]. by apply Forall_app in Hu as [Hu _]. }
  rewrite bind_Ret. change (rx_act None 0 (rx_dst f) (rx_src f)) with 1. cbn match. change (1 =? 0) with false. cbn match.
  destruct (ethhdr_spec f x msdu icv Hf) as (g & -> & Hg). rewrite bind_Ret. cbn match. rewrite Hg, bind_Ret. cbv zeta.
  assert (Forall is_u8 e) as He.
  { apply ethernet_bytes; try done; [|unfold is_u16; pose proof (zlen_nonneg msdu); lia]. rewrite E1 in Hu.
    apply Forall_app in Hu as [_ Hu]. apply Forall_app in Hu as [Hu _]. apply Forall_app in Hu as [_ Hu]. by apply Forall_app in Hu as [Hu _]. }
  pose proof (check_packet cx (fr_encrypt h) (fr_mem g) (Skb None (fr_data g) (fr_len g)) e Hg He Hcx Hroom) as Hchk.
  cbn [sk_own sk_data] in Hchk. unfold default, id in Hchk. rewrite Hchk, bind_Ret. done.
Qed.

(** ** Examples *)

(** A frame in clear with a header of 24 bytes. *)
Definition sample_hdr (c : list Z) : frag :=
  Frag 1 (repeat 0x88 24 ++ c ++ repeat 0 16) 0 (24 + zlen c) (24 + zlen c) 5 0 false 0 24 0 0 [2; 0; 0; 0; 0; 1] 0.

Definition sample_rx (c : list Z) (amsdu : bool) : rx_frame :=
  RxFrame (sample_hdr c) [2; 0; 0; 0; 0; 1] [2; 0; 0; 0; 0; 2] [2; 0; 0; 0; 0; 3] 1 amsdu.

Lemma sample_hdr_ok c : Forall is_u8 c -> zlen c < 5000 -> rx_ok (sample_hdr c).
Proof.
  intros Hu Hl. pose proof (zlen_nonneg c). unfold rx_ok, view_ok, sample_hdr. cbn [fr_mem fr_data fr_tail fr_len fr_hdrlen fr_iv_len fr_icv_len].
  rewrite !zlen_app. change (zlen (repeat 136 24)) with 24. change (zlen (repeat 0 16)) with 16. split_and!; try lia.
  repeat apply Forall_app_2; [by apply bytes_ok|done|by apply bytes_ok].
Qed.

Definition sample_ip (n : Z) : subframe := Subframe [2; 0; 0; 0; 0; 1] [2; 0; 0; 0; 0; n] (rtw_rfc1042_header ++ [0x08; 0x00; n; 7; 7] ++ repeat 0 9).
Definition sample_llc (n : Z) : subframe := Subframe [2; 0; 0; 0; 0; 1] [2; 0; 0; 0; 0; n] [0x42; 0x42; 0x03; n].
Definition sample_subs : list subframe := [sample_ip 4; sample_llc 5; sample_ip 6].

(** No memory for copies, so that all packets share the frame. *)
Definition clones : skb_source := SkbSource (fun _ _ => None) (fun _ => true).
Definition open_policy : rx_policy := RxPolicy RTW_AMSDU_MODE_NON_SPP _NO_PRIVACY_.
Definition closed_policy : rx_policy := RxPolicy RTW_AMSDU_MODE_NON_SPP _AES_.

(** A station without Wi-Fi Display. *)
Definition plain_cx : rx_context := RxContext true None false 0.

Lemma forallb_true {A} (p : A -> bool) l : forallb p l = true -> Forall (fun x => p x = true) l.
Proof. intros H. apply List.Forall_forall. by apply forallb_forall. Qed.

Lemma clones_ok : forall k n b, rtw_skb_alloc clones k n = Some b -> zlen b = n.
Proof. done. Qed.

Lemma sample_subs_bytes : Forall is_u8 (enc_amsdu sample_subs).
Proof. apply bytes_ok. reflexivity. Qed.

Lemma amsdu_refines_witness :
  let f := sample_rx (enc_amsdu sample_subs) true in
  let c := content (amsdu_view (rx_hdr f)) in
  let r := hand_on closed_policy clones None f 0 64 (split_amsdu (length c) c) in
  amsdu_to_msdu closed_policy clones plain_cx None f = Ret (r, []) /\ (length r.1 <= 64)%nat.
Proof.
  apply (amsdu_refines closed_policy clones plain_cx None (sample_rx (enc_amsdu sample_subs) true)); [exact clones_ok|reflexivity| |].
  - apply sample_hdr_ok; [exact sample_subs_bytes|reflexivity].
  - apply forallb_true. vm_compute. reflexivity.
Defined.

Lemma amsdu_roundtrip_witness :
  amsdu_to_msdu closed_policy clones plain_cx None (sample_rx (enc_amsdu sample_subs) true) = Ret (map ethernet_of sample_subs, [], []).
Proof.
  apply (amsdu_roundtrip closed_policy clones plain_cx (sample_rx (enc_amsdu sample_subs) true) sample_subs).
  - exact clones_ok.
  - reflexivity.
  - apply sample_hdr_ok; [exact sample_subs_bytes|reflexivity].
  - repeat constructor; cbn; lia.
  - cbn. lia.
  - vm_compute. reflexivity.
  - split; [apply forallb_true; vm_compute; reflexivity|]. split; [reflexivity|].
    apply (forallb_true (fun s => check_room plain_cx (ethernet_of s))). vm_compute. reflexivity.
Defined.

Lemma amsdu_example :
  amsdu_to_msdu closed_policy clones plain_cx None (sample_rx (enc_amsdu [sample_ip 4; sample_llc 5]) true) =
  Ret ([[2; 0; 0; 0; 0; 1; 2; 0; 0; 0; 0; 4; 0x08; 0x00; 4; 7; 7] ++ repeat 0 9;
        [2; 0; 0; 0; 0; 1; 2; 0; 0; 0; 0; 5; 0; 4; 0x42; 0x42; 0x03; 5]], [], []).
Proof. vm_compute. reflexivity. Qed.

Lemma msdu_delivered_witness :
  rtw_core_rx_data_post_process open_policy clones plain_cx None (sample_rx (sf_msdu (sample_ip 4)) false) =
  Ret (CORE_RX_DONE, [ethernet [2; 0; 0; 0; 0; 1] [2; 0; 0; 0; 0; 2] (sf_msdu (sample_ip 4))], [], []).
Proof.
  apply (msdu_delivered open_policy clones plain_cx (sample_rx (sf_msdu (sample_ip 4)) false) (repeat 0x88 24) (sf_msdu (sample_ip 4)) []);
    [|reflexivity|reflexivity|by apply bytes_ok|by apply bytes_ok|reflexivity].
  unfold msdu_frame. split_and!; try reflexivity. apply sample_hdr_ok; [by apply bytes_ok|reflexivity].
Defined.

(** On a protected link an A-MSDU whose first address is a SNAP header, which
    is what a frame looks like when its A-MSDU flag was set on the way, is
    refused as a whole. *)
Lemma forged_amsdu_refused pol ks cx ap f c :
  (forall k n b, rtw_skb_alloc ks k n = Some b -> zlen b = n) -> cx_psta cx = true -> rx_ok (rx_hdr f) ->
  amsdu_mode pol = RTW_AMSDU_MODE_NON_SPP -> dot11PrivacyAlgrthm pol <> _NO_PRIVACY_ ->
  content (amsdu_view (rx_hdr f)) = rtw_rfc1042_header ++ c ->
  amsdu_to_msdu pol ks cx ap f = Ret ([], [], []).
Proof.
  intros Hks Hcx Hok Hm Hp Hc. assert (forall n, hand_on pol ks ap f 0 n (split_amsdu (length (rtw_rfc1042_header ++ c)) (rtw_rfc1042_header ++ c)) = ([], [])) as Hr.
  { intros n. cbn [length app rtw_rfc1042_header split_amsdu]. destruct (_ || _); [done|]. cbn [hand_on sf_da sf_sa sf_msdu take].
    unfold acceptable_subframe. cbn [sf_da sf_sa]. rewrite bool_decide_false; [done|]. unfold RTW_AMSDU_MODE_NON_SPP, _NO_PRIVACY_ in *.
    intros [|[|(_ & _ & Hn)]]; [done..|]. by apply Hn. }
  pose proof (amsdu_to_msdu_spec pol ks cx ap f Hks Hcx Hok) as H. cbn zeta in H. rewrite Hc, Hr in H. apply H. constructor.
Qed.

(** A last subframe without payload is left out, since the loop wants more
    than a header. *)
Lemma empty_last_subframe_dropped :
  amsdu_to_msdu open_policy clones plain_cx None (sample_rx (enc_amsdu [sample_ip 4; Subframe [2; 0; 0; 0; 0; 1] [2; 0; 0; 0; 0; 5] []]) true) =
  Ret ([ethernet_of (sample_ip 4)], [], []).
Proof. vm_compute. reflexivity. Qed.

(** Copies, in memory of exactly the size that is asked for. *)
Definition copies : skb_source := SkbSource (fun _ n => Some (repeat 0 (Z.to_nat n))) (fun _ => false).

(** A subframe that ends behind the type of an EAPOL packet: the packet is
    handed to [parsing_eapol_packet], which reads behind its end. *)
Lemma eapol_read_outside :
  let s := Subframe [2; 0; 0; 0; 0; 1] [2; 0; 0; 0; 0; 4] (rtw_rfc1042_header ++ [0x88; 0x8e]) in
  check_room plain_cx (ethernet_of s) = false /\
  amsdu_to_msdu open_policy copies plain_cx None (sample_rx (enc_amsdu [s]) true) = Fault.
Proof. vm_compute. split; reflexivity. Qed.

(** A protected frame that is shorter than header, IV and ICV gives an MSDU of
    nearly 65536 bytes behind the end of the frame, and it is read. *)
Lemma short_frame_read_outside :
  let h := Frag 1 (repeat 0x88 30) 0 30 30 5 0 false _AES_ 24 8 8 [2; 0; 0; 0; 0; 1] 0 in
  rtw_core_rx_data_post_process closed_policy clones plain_cx None
    (RxFrame h [2; 0; 0; 0; 0; 1] [2; 0; 0; 0; 0; 2] [2; 0; 0; 0; 0; 3] 1 false) = Fault.
Proof. vm_compute. reflexivity. Qed.
